(* ===== verification/_CoqProject ===== *)
-Q . S2P
Prelude.v
World.v
Mq.v
Serial.v
Monad.v
Untils.v
Alarm.v
Des.v
Lock.v
Battery.v
GsmService.v
Local.v
Pulse.v
Sensors.v
Photo.v
Infrared.v
Devices.v
Sms.v
GsmPower.v
GprsRecv.v
Access.v
GprsAuth.v
GprsPic.v
GprsSend.v
GsmAt.v
Mms.v
Aip.v
Flash.v
Disk.v
Update.v
Gsm.v
Start.v
System.v
Boot.v
Rtlist.v
Kernel.v
Sched.v
Timer.v
Thread.v
Tick.v
Ipc.v
Run.v
