(* ===== verification/Prelude.v ===== *)
(** * Verification of the smart-lock firmware

    The firmware (C, on the RT-Thread kernel) controls a door lock: it moves the
    bolt, reads RFID keys, watches sensors and the battery, reports alarms by
    SMS and over a GPRS connection, and takes commands from a server.  Its own
    logic is in the C files at the top of src/; this library translates that
    logic into Rocq functions and proves what it does.

    ** The program and the model

    Threads exchange mails through bounded message queues.  A sensor interrupt
    posts an ALARM_MAIL; the alarm thread copies it to the queues of the
    handlers (local, SMS, GPRS); the SMS and the GPRS thread put mails into the
    queue of the GSM thread, which owns the modem, and wait for its answer.
    What the server sends goes through [recv_gprs_frame], which changes the
    settings and posts the answers to the GPRS thread.

    A thread's code is a function of a small state and error monad
    ([Monad.M]) over one record of global variables ([World.World]); a round of
    a thread's endless loop is one definition (..._step).  An outcome is a
    result, [Fault] (undefined behaviour: a bad pointer or index, an array
    overflow, a device that does not exist, a conversion out of range) or
    [NoFuel] (a loop or a wait that did not end).  The hardware is the class
    [World.Board]: what a pin, a uart, the clock, the file of the picture give
    is a function of the number of observations made before, so that every
    behaviour over time is covered.  Integers are [Z], wrapped where the C type
    wraps; buffers are lists of bytes of the C length.

    - Prelude.v: wrap-around, bit-level lemmas, C strings (cstr, strstr,
      strncpy, memcpy at an offset), searching for a byte string.
    - World.v: the data of alarm.h, untils.h, gsm.h, gprs.h, sms.h, local.h,
      aip.h and photo.h, the global state, the hardware, abstract queues.
    - Mq.v: RT-Thread/src/ipc.c, the linked-list message queues, one definition
      for each section between disabling and enabling interrupts, and a step
      relation with all interleavings of any number of threads.
    - Serial.v: the receive ring buffer of the kernel's serial driver, which the
      uarts rest on.
    - Monad.v: the monad, its laws, the invariants ([runs]: no fault, [keeps]:
      partial, [evolves]: a relation between the states before and after), the
      primitives of gpio_pin.c, of the devices and of files.
    - Untils.v: untils.c, memmem, the parameters with their well-formedness,
      the configuration file; [wf] is the invariant of the global state.
    - Alarm.v: alarm.c and the mail functions of all threads.
    - Des.v: des.c.
    - Lock.v: lock_output of gpio_pwm.c.  Pulse.v: the pulse driver below it, the
      timer interrupts of stm32f10x_it.c, and the voice thread of voiceapp.c.
    - Battery.v: battery.c and the ADC functions of gpio_adc.c; single precision
      by the Standard Library's SpecFloat.
    - GsmService.v: the interface [GsmService] between the GSM thread and its
      clients, and the client's side (send_cmd_mail of gsm.c).
    - Local.v: local.c.  Sms.v: sms.c.
    - Sensors.v: the interrupts of the sensors (gpio_exti.c, stm32f10x_it.c).
    - Photo.v, Infrared.v: the camera thread and the infrared thread of photo.c.
    - Devices.v: the kernel's list of devices, the registrations of board.c and
      the pin driver (gpio_pin.c, gpio.c), which say what [World.dev_present] is.
    - GsmPower.v, GsmAt.v, Gsm.v: gsm.c, the modem's power, the AT commands, the
      thread; Gsm.v ends with the instance of [GsmService].
    - GprsRecv.v, GprsAuth.v, GprsPic.v, GprsSend.v: gprs.c, the server's
      commands, authentication, the picture, frames to the server with the GPRS
      thread.  Access.v: the server's keys and the key reader together.
    - Mms.v: mms.c.  Aip.v: aip.c, the download of a new firmware.
    - Flash.v: file_update.c, SPI_Flash.c and firm_update.c; the SPI flash is the
      class [Flash.Sst25].  Update.v: the update from the mail to the processor's
      flash.  Disk.v: the same flash as a disk (sst25v16.c).
    - Start.v: the start of the processor and of each thread (application.c,
      photo.c).  System.v: all of it together, actions in any order.  Boot.v:
      what is there after the first rounds.

    The kernel the threads run on (RT-Thread/src) has a state of its own,
    [Kernel.KERNEL]; a section with interrupts disabled is one step, and a call
    that would follow a bad pointer or fail an assertion gives [None].

    - Rtlist.v: the doubly linked lists of rtservice.h on a memory of nodes.
    - Kernel.v: threads, timers, semaphores, mutexes and events as records.
    - Sched.v: scheduler.c.  Timer.v: timer.c.  Thread.v: thread.c, and
      [kernel_wf], the invariant of the kernel.  Tick.v: clock.c and irq.c.
    - Ipc.v: semaphores, mutexes and events of ipc.c.
    - Run.v: all calls and ticks in any order, and rtthread_startup of startup.c.

    A client's theorems are proved for every instance of the classes
    ([World.Board], [GsmService.GsmService], [Aip.HttpModem], [Flash.Sst25], and
    [Timer.Fuel] for the loops of the kernel);
    each class has a concrete instance for the examples, and [GsmService] the
    GSM thread itself.

    ** What is proved

    - The whole lock: in every order of threads, interrupts, timers and resets
      the invariant of the state is kept (System); after start-up, with a battery
      that is not low, every queue is there and empty, and an alarm that comes
      too early is the end (Boot).
    - Safety of the lock: the motor moves on an RFID key only if the key is
      registered (Local), the registered keys are those of the server's last list
      and each of them is accepted (Access), the right motor is
      asked and the asking ends (Lock), the pulses are those asked for last
      (Pulse).
    - Commands of the server: every frame is handled without undefined behaviour
      and keeps the invariant; frames of a wrong length change no setting; each
      setting is acknowledged once; what was set is listed (GprsRecv).
    - Queues: the linked lists refine a bounded queue, alone and in every
      interleaving (Mq); the alarm thread loses and invents nothing (Alarm); the
      ring buffer of a uart is a list that drops its oldest byte (Serial).
    - The kernel: every sequence of calls and ticks that keeps to the rules is
      carried out and keeps the invariant, a wait with a time ends in time, the
      most urgent thread runs (Run); the timers are countdowns across the
      wrap-around of the tick (Timer); semaphores are counters and mutexes owners
      with a queue, events serve their queue in order (Ipc).
    - Devices: the list of devices is a map from the first eight bytes of a name;
      every device but the clock, which may be missing, is found with what the
      program needs of it, and every sensor's interrupt is served (Devices).
    - Sensors: an edge is reported if the last one is long enough ago, and from
      the edge at the shell to the bolt, the camera and the reports (Sensors);
      the infrared thread watches a presence to its end, and over any number of
      visits an alarm costs two expiries of its timer (Infrared).
    - Encodings: PDU and time stamp of an SMS decode to what was encoded (Sms),
      DES and triple DES are inverted by their decryption in ECB and CBC (Des),
      the server can open the authentication (GprsAuth), a server that goes by the
      declared length reads in a frame what was reported, but for the seconds of
      one group of alarms, whose length is declared wrong (GprsSend).
    - Protocols: the transfer from the camera ends, and the file is the picture
      if the camera never goes on with an answer whose request was repeated
      (Photo); the upload of a picture sends its pages in order and ends
      (GprsPic); an MMS is the dialogue of an abstract session (Mms); a frame
      counts as sent exactly if it was acknowledged (GprsSend) and as delivered
      only in data mode (Gsm); lines and one whole answer of the modem are read as
      meant (GsmAt); a dead modem is reset (Gsm, GsmPower, GprsSend).
    - Firmware: the download gives the image byte for byte and counts as a success
      in exactly the cases that are stated (Aip); then the image reaches the SPI
      flash (Flash) and its first 384 KB the processor (Update); the disk is an array of
      sectors that never touches it (Disk).
    - Supervision: battery thresholds are reported once per descent, the
      remaining time is what exact arithmetic gives (Battery), an open gate and a
      lost supply are reported in the right period (Local).

    Several theorems state a defect of the code as it is: a download in ranges
    fails with a server that keeps to HTTP, though all of it has arrived (Aip), a
    late answer of the camera spoils the picture unnoticed (Photo), the last page
    of a picture is sent empty if its size is divisible by 512 (GprsPic), the
    saved configuration is never read (Boot), the bolt's pulses are asked for faster than they can be
    sent (Pulse), the voice chip gets a pulse too few (Pulse), a failed update is
    booted (Update), a request for several sectors spoils all but the first
    (Disk), the first byte of the session key never changes (GprsAuth), a command
    with too many numbers is acknowledged (GprsRecv), stale bytes of the reader
    overflow an array (Local), nested mutexes leave a thread its inherited
    priority (Run), the work time is undefined for a low battery
    (Battery), a picture that was not received is sent and an idle day frees
    memory twice (Photo).

    ** Fuel

    Loops with a bound in the source are structural on that bound.  The others
    take fuel, and each has a theorem that says how much is enough:
    [gsm_recv_frame] (it starts over on an empty line; one round for each empty
    line, lemma gsm_recv_frame_line), [resend_pages] and [page_loop] of the
    picture (one round per page, picture_uploaded), the transfer from the camera
    (one round per page and timeout, photo_data_deal_terminates), the download
    (two rounds per byte, aip_downloads_image), the pictures of an MMS (one round
    per page, mms_round_refines_session), the status of the SPI flash (its
    longest delay, disk_refines_sectors) and the words of a block (2048,
    file_goes_to_flash).  The start-up of the modem has fuel without such a
    theorem: a modem that never answers keeps it from ending.  A wait for a
    semaphore that is never released is [NoFuel] as well.  The loops of the
    kernel over its lists (class [Timer.Fuel]) need more rounds than there are
    timers, since every waiting thread has one: the condition of all theorems on
    them, kernel_never_stuck among them.

    ** What is not modelled

    Drivers (registers, DMA, clocks) are the parameter [Board];
    the processor's flash and the SPI chip are parameters as well.  Printing to
    the console, busy waits ([delay_us]) and failing allocations are left out.
    Creating a thread, a queue or a semaphore succeeds, the file system is
    mounted, and the clock is there ([rtc_time]; the program does not test it).  The threads' mails are atomic operations on [World]: how they
    interleave inside the kernel is the subject of Mq.v.  In System.v a round of
    a thread is one step; where threads interleave inside a round is not
    modelled, but every reading of the hardware may differ from the one before,
    and while a client waits the GSM thread runs ([gsm_serve]), since the
    clients hold a mutex.  The voice thread and the timers of the pulses have a
    state of their own, which meets the others only in the events of the trace.
    Not part of the program's logic: file systems, USB, display, the character
    tables, the shell's test commands.  Of the kernel: mailboxes, the heap and
    memory pools, the object container, soft timers (not compiled in), deleting
    and detaching threads, the switch of context in assembly, which is an event
    of the kernel's history.  The firmware's threads are not run on the model
    of the kernel: [System] takes their rounds in every order, which includes
    the orders the scheduler allows. *)
From stdpp Require Import base strings list.
From Stdlib Require Import ZArith Lia.

#[global] Open Scope Z_scope.

(** ** Machine integers

    C integers are [Z] values kept in range by explicit wrap functions. *)

Definition wrap (w x : Z) : Z := x mod 2 ^ w.
Abbreviation u8 := (wrap 8).
Abbreviation u16 := (wrap 16).
Abbreviation u32 := (wrap 32).
Definition s8 (x : Z) : Z := (x + 128) mod 256 - 128.

Definition fits (w x : Z) : Prop := 0 ≤ x < 2 ^ w.
Abbreviation byte := (fits 8).
Abbreviation word32 := (fits 32).

#[global] Instance fits_dec w x : Decision (fits w x).
Proof. unfold fits. apply _. Defined.

Lemma wrap_fits w x : 0 ≤ w → fits w (wrap w x).
Proof. intros Hw. unfold fits, wrap. apply Z.mod_pos_bound. lia. Qed.

Lemma wrap_small w x : fits w x → wrap w x = x.
Proof. intros H. unfold wrap. by apply Z.mod_small. Qed.

Lemma wrap_wrap w x : 0 ≤ w → wrap w (wrap w x) = wrap w x.
Proof. intros. by apply wrap_small, wrap_fits. Qed.

(** Prove a decidable closed proposition by evaluating its decision. *)
Ltac by_computation := refine (bool_decide_unpack _ _); vm_compute; done.

(** A property of bytes is checked on the 256 of them. *)
Definition all_bytes : list Z := map Z.of_nat (seq 0 256).

Lemma byte_forall (P : Z → Prop) : Forall P all_bytes → ∀ b, fits 8 b → P b.
Proof.
  intros H b Hb. rewrite Forall_forall in H. apply H.
  apply list_elem_of_fmap. exists (Z.to_nat b). unfold fits in Hb.
  split; [lia|]. apply elem_of_seq. lia.
Qed.

(** ** Bit-level reasoning *)

#[global] Arguments Z.testbit : simpl never.

(** A [w]-bit value has no bit at or above position [w]. *)
Lemma fits_testbit w x i : fits w x → w ≤ i → Z.testbit x i = false.
Proof.
  intros [H1 H2] Hi. destruct (decide (x = 0)) as [->|Hx]; [apply Z.bits_0|].
  apply Z.bits_above_log2; [done|].
  apply Z.log2_lt_pow2; [lia|]. eapply Z.lt_le_trans; [done|].
  apply Z.pow_le_mono_r; lia.
Qed.

(** Conversely, a non-negative value without high bits fits. *)
Lemma testbit_fits w x :
  0 ≤ w → 0 ≤ x → (∀ i, w ≤ i → Z.testbit x i = false) → fits w x.
Proof.
  intros Hw Hx H. split; [done|].
  destruct (decide (x = 0)) as [->|Hx0]; [lia|].
  apply Z.log2_lt_pow2; [lia|].
  destruct (decide (w ≤ Z.log2 x)) as [Hl|]; [|lia].
  specialize (H _ Hl). rewrite Z.bit_log2 in H; [done|lia].
Qed.

Lemma wrap_testbit w x i :
  0 ≤ w → 0 ≤ i → Z.testbit (wrap w x) i = (i <? w) && Z.testbit x i.
Proof.
  intros Hw Hi. unfold wrap. destruct (Z.ltb_spec i w); simpl.
  - by rewrite Z.mod_pow2_bits_low.
  - by rewrite Z.mod_pow2_bits_high by lia.
Qed.

Lemma testbit_neg x i : i < 0 → Z.testbit x i = false.
Proof. apply Z.testbit_neg_r. Qed.

(** [fits] of the bit operations, so that [eauto with bits] discharges the
    range side conditions. *)
Lemma fits_lxor w x y : 0 ≤ w → fits w x → fits w y → fits w (Z.lxor x y).
Proof.
  intros Hw Hx Hy. apply testbit_fits; [done| |].
  - apply Z.lxor_nonneg. destruct Hx, Hy. tauto.
  - intros i Hi. rewrite Z.lxor_spec.
    by rewrite (fits_testbit w x), (fits_testbit w y).
Qed.

Lemma fits_lor w x y : 0 ≤ w → fits w x → fits w y → fits w (Z.lor x y).
Proof.
  intros Hw Hx Hy. apply testbit_fits; [done| |].
  - apply Z.lor_nonneg. destruct Hx, Hy. tauto.
  - intros i Hi. rewrite Z.lor_spec.
    by rewrite (fits_testbit w x), (fits_testbit w y).
Qed.

Lemma fits_land_r w x y : 0 ≤ w → fits w y → fits w (Z.land x y).
Proof.
  intros Hw Hy. apply testbit_fits; [done| |].
  - apply Z.land_nonneg. right. apply Hy.
  - intros i Hi. rewrite Z.land_spec, (fits_testbit w y) by done.
    apply andb_false_r.
Qed.

Lemma fits_shiftr w x n : 0 ≤ w → 0 ≤ n → fits w x → fits w (Z.shiftr x n).
Proof.
  intros Hw Hn [H1 H2]. split; [by apply Z.shiftr_nonneg|].
  rewrite Z.shiftr_div_pow2 by done.
  apply Z.le_lt_trans with x; [|done]. apply Z.div_le_upper_bound; [lia|].
  pose proof (Z.pow_pos_nonneg 2 n). nia.
Qed.

Lemma fits_wrap w x : 0 ≤ w → fits w (wrap w x).
Proof. apply wrap_fits. Qed.

Lemma fits_mono w w' x : 0 ≤ w ≤ w' → fits w x → fits w' x.
Proof.
  intros Hw [H1 H2]. split; [done|]. eapply Z.lt_le_trans; [done|].
  apply Z.pow_le_mono_r; lia.
Qed.

Create HintDb bits discriminated.
#[export] Hint Constants Opaque : bits.
#[export] Hint Variables Opaque : bits.
#[export] Hint Resolve fits_lxor fits_lor fits_land_r fits_shiftr fits_wrap : bits.
#[export] Hint Extern 1 (_ ≤ _) => lia : bits.
#[export] Hint Extern 1 (fits _ _) => (unfold fits; lia) : bits.

(** Rewriting with the [testbit] equations. *)
Create Rewrite HintDb tb.
#[export] Hint Rewrite Z.lxor_spec Z.lor_spec Z.land_spec Z.bits_0 : tb.
#[export] Hint Rewrite Z.shiftr_spec Z.shiftl_spec wrap_testbit using lia : tb.

Lemma wrap_lxor w x y :
  0 ≤ w → wrap w (Z.lxor x y) = Z.lxor (wrap w x) (wrap w y).
Proof.
  intros Hw. apply Z.bits_inj'. intros i Hi. autorewrite with tb.
  by destruct (i <? w), (Z.testbit x i), (Z.testbit y i).
Qed.

Lemma lxor_cancel x t : Z.lxor (Z.lxor x t) t = x.
Proof. by rewrite Z.lxor_assoc, Z.lxor_nilpotent, Z.lxor_0_r. Qed.

(** Disjoint bits: a shifted high part and a low part add up. *)
Lemma lor_low h l n : 0 ≤ n → fits n l → Z.lor (h * 2 ^ n) l = h * 2 ^ n + l.
Proof.
  intros Hn Hl. rewrite <- Z.add_lor_land.
  assert (Z.land (h * 2 ^ n) l = 0) as ->; [|lia].
  rewrite <- Z.shiftl_mul_pow2 by done. apply Z.bits_inj'. intros i Hi.
  autorewrite with tb. destruct (Z.ltb_spec i n).
  - by rewrite testbit_neg by lia.
  - by rewrite (fits_testbit n l), andb_false_r.
Qed.

(** Table access as the C code does it: the index is in range wherever the
    source masks it, the default is never used then. *)
Definition tbl (t : list Z) (i : Z) : Z := nth (Z.to_nat i) t 0.

Lemma tbl_fits w t i :
  0 ≤ w → Forall (fits w) t → fits w (tbl t i).
Proof.
  intros Hw Ht. unfold tbl.
  destruct (nth_in_or_default (Z.to_nat i) t 0) as [Hin| ->].
  - rewrite Forall_forall in Ht. apply Ht. by apply list_elem_of_In.
  - unfold fits. lia.
Qed.
#[export] Hint Resolve tbl_fits : bits.

Lemma map_u8 l : Forall byte l → map u8 l = l.
Proof. induction 1; simpl; [done|]. by rewrite wrap_small, IHForall. Qed.

(** ** Byte strings *)

(** The bytes of a string literal *)
Definition bytes_of (s : string) : list Z :=
  map (λ c, Z.of_nat (Ascii.nat_of_ascii c)) (String.list_ascii_of_string s).

(** An array of [n] elements initialised with fewer: the rest is zero. *)
Definition pad (n : nat) (l : list Z) : list Z := l ++ repeat 0 (n - length l).

(** The C string in an array: the bytes before the first zero; without a zero
    the functions of <string.h> read past the end. *)
Fixpoint cstr (l : list Z) : option (list Z) :=
  match l with
  | [] => None
  | x :: l => if x =? 0 then Some [] else (λ s, x :: s) <$> cstr l
  end.

(** [memcpy (dst + off, src, length src)] inside an array *)
Definition memcpy_at (dst : list Z) (off : nat) (src : list Z) : list Z :=
  take off dst ++ src ++ drop (off + length src) dst.

Lemma memcpy_at_length dst off src :
  (off + length src <= length dst)%nat → length (memcpy_at dst off src) = length dst.
Proof. intros H. unfold memcpy_at. rewrite !length_app, length_take, length_drop. lia. Qed.

Lemma memcpy_at_forall (P : Z → Prop) dst off src :
  Forall P dst → Forall P src → Forall P (memcpy_at dst off src).
Proof.
  intros Hd Hs. unfold memcpy_at. rewrite !Forall_app.
  eauto using Forall_take, Forall_drop.
Qed.

Lemma forall_repeat {A} (P : A → Prop) x n : P x → Forall P (repeat x n).
Proof. intros H. induction n; simpl; auto. Qed.

Lemma pad_length n l : (length l <= n)%nat → length (pad n l) = n.
Proof. intros H. unfold pad. rewrite length_app, repeat_length. lia. Qed.

(** [strncpy (dst, src, n)]: up to the first zero, padded with zeros *)
Fixpoint strncpy (n : nat) (src : list Z) : list Z :=
  match n with
  | O => []
  | S n => match src with
           | [] => 0 :: strncpy n []
           | x :: src => if x =? 0 then 0 :: strncpy n [] else x :: strncpy n src
           end
  end.

(** The first position at which [n] occurs in [h], as [strstr] returns it *)
Fixpoint find_sub (n h : list Z) : option nat :=
  if bool_decide (take (length n) h = n) then Some 0%nat
  else match h with
       | [] => None
       | _ :: h => S <$> find_sub n h
       end.

Definition occurs_at (n h : list Z) (i : nat) : Prop :=
  (i + length n <= length h)%nat ∧ take (length n) (drop i h) = n.

Lemma take_length_le (n h : list Z) : take (length n) h = n → (length n <= length h)%nat.
Proof. intros H. apply (f_equal length) in H. rewrite length_take in H. lia. Qed.

Lemma find_sub_spec n h :
  match find_sub n h with
  | Some i => occurs_at n h i ∧ ∀ j, (j < i)%nat → ¬ occurs_at n h j
  | None => ∀ j, ¬ occurs_at n h j
  end.
Proof.
  induction h as [|x h IH]; cbn [find_sub]; case_bool_decide as E.
  - split; [|lia]. split; [|done]. apply take_length_le in E. simpl in *. lia.
  - intros j [H1 H2]. apply E. destruct j; [done|]. simpl in H1. lia.
  - split; [|lia]. split; [|done]. by apply take_length_le in E.
  - destruct (find_sub n h) as [i|]; simpl.
    + destruct IH as [[H1 H2] H3]. split; [split; simpl; [lia|done]|].
      intros [|j] Hj [G1 G2]; [by apply E|].
      apply (H3 j); [lia|]. split; simpl in *; [lia|done].
    + intros [|j] [G1 G2]; [by apply E|]. apply (IH j). split; simpl in *; [lia|done].
Qed.

Definition strstr (h n : list Z) : bool := match find_sub n h with Some _ => true | None => false end.

Lemma strstr_spec h n : strstr h n = true ↔ ∃ i, occurs_at n h i.
Proof.
  unfold strstr. pose proof (find_sub_spec n h) as H. destruct (find_sub n h) as [i|].
  - split; [|done]. intros _. exists i. apply H.
  - split; [done|]. intros [i Hi]. by destruct (H i).
Qed.

(** ** Filling an array from a byte buffer

    [for (index = ..; counts more; index++) { store buf into l[index]; buf += n }] *)
Fixpoint array_copy {A} (store : list Z → A → A) (n counts index : nat) (buf : list Z)
  (l : list A) : list A :=
  match counts with
  | O => l
  | S counts =>
      array_copy store n counts (S index) (drop n buf) (alter (store (take n buf)) index l)
  end.

(** The pieces of [n] bytes of a buffer *)
Fixpoint chunks (n counts : nat) (buf : list Z) : list (list Z) :=
  match counts with
  | O => []
  | S counts => take n buf :: chunks n counts (drop n buf)
  end.

Lemma chunks_length n counts : ∀ buf, length (chunks n counts buf) = counts.
Proof. induction counts; intros; simpl; [done|]. f_equal. auto. Qed.

Lemma chunks_concat n counts : ∀ buf, mjoin (chunks n counts buf) = take (counts * n) buf.
Proof.
  induction counts as [|counts IH]; intros buf; simpl; [done|].
  rewrite IH. by rewrite take_take_drop.
Qed.

Lemma chunks_forall n counts : ∀ buf, (counts * n <= length buf)%nat →
  Forall (λ c, length c = n) (chunks n counts buf).
Proof.
  induction counts as [|counts IH]; intros buf H; simpl in *; [done|].
  apply Forall_cons. split; [rewrite length_take; lia|]. apply IH. rewrite length_drop. lia.
Qed.

Lemma array_copy_spec {A} (store : list Z → A → A) n counts : ∀ buf pre l,
  (counts <= length l)%nat →
  array_copy store n counts (length pre) buf (pre ++ l) =
    pre ++ zip_with store (chunks n counts buf) (take counts l) ++ drop counts l.
Proof.
  induction counts as [|counts IH]; intros buf pre l H; cbn [array_copy chunks]; [done|].
  destruct l as [|x l]; simpl in H; [lia|].
  rewrite alter_app_r_alt, Nat.sub_diag by lia. simpl.
  specialize (IH (drop n buf) (pre ++ [store (take n buf) x]) l ltac:(lia)).
  rewrite length_app, Nat.add_1_r, <- !app_assoc in IH. exact IH.
Qed.

Lemma array_copy_forall {A} (P : A → Prop) (store : list Z → A → A) n counts : ∀ index buf l,
  (counts * n <= length buf)%nat → Forall byte buf → Forall P l →
  (∀ c x, length c = n → Forall byte c → P x → P (store c x)) →
  Forall P (array_copy store n counts index buf l).
Proof.
  induction counts as [|counts IH]; intros index buf l Hb Hy Hl Hs; simpl in *; [done|].
  apply IH; [rewrite length_drop; lia|by apply Forall_drop| |done].
  apply Forall_alter; [done|]. intros x _ Hx. apply Hs; [rewrite length_take; lia| |done].
  by apply Forall_take.
Qed.

Lemma array_copy_length {A} (store : list Z → A → A) n counts : ∀ index buf l,
  length (array_copy store n counts index buf l) = length l.
Proof. induction counts; intros; simpl; [done|]. rewrite IHcounts. apply length_alter. Qed.
