(* ===== verification/World.v ===== *)
(** * The firmware's data and state, and the primitives it is written with

    The types the components share (alarm.h, untils.h, gsm.h, the mail types of
    sms.h, gprs.h, local.h and aip.h), one [World] record for the global
    variables of all the components with the receive buffers of the two uarts,
    and the hardware as the parameter [Board]. *)
From stdpp Require Import base strings list.
From Stdlib Require Import ZArith Lia.
From S2P Require Import Prelude.

(** ** Alarms (alarm.h) *)

Inductive ALARM_TYPEDEF :=
  | ALARM_TYPE_LOCK_SHELL | ALARM_TYPE_LOCK_TEMPERATURE | ALARM_TYPE_GATE_TEMPERATURE
  | ALARM_TYPE_LOCK_GATE | ALARM_TYPE_GSM_RING | ALARM_TYPE_RFID_KEY_DETECT
  | ALARM_TYPE_CAMERA_PHOTOSENSOR | ALARM_TYPE_CAMERA_IRDASENSOR
  | ALARM_TYPE_MOTOR_STATUS | ALARM_TYPE_BATTERY_WORKING_20M
  | ALARM_TYPE_BATTERY_REMAIN_50P | ALARM_TYPE_BATTERY_REMAIN_20P
  | ALARM_TYPE_BATTERY_REMAIN_5P | ALARM_TYPE_BATTERY_SWITCH | ALARM_TYPE_RFID_KEY_ERROR
  | ALARM_TYPE_RFID_KEY_SUCCESS | ALARM_TYPE_RFID_KEY_PLUGIN | ALARM_TYPE_RFID_FAULT
  | ALARM_TYPE_CAMERA_FAULT | ALARM_TYPE_MOTOR_FAULT | ALARM_TYPE_POWER_FAULT
  | ALARM_TYPE_GPRS_AUTH | ALARM_TYPE_GPRS_HEART | ALARM_TYPE_GPRS_LIST_TELEPHONE
  | ALARM_TYPE_GPRS_LIST_RFID_KEY | ALARM_TYPE_GPRS_SET_TELEPHONE_SUCCESS
  | ALARM_TYPE_GPRS_SET_TELEPHONE_FAILURE | ALARM_TYPE_GPRS_SET_RFID_KEY_SUCCESS
  | ALARM_TYPE_GPRS_SET_RFID_KEY_FAILURE | ALARM_TYPE_GPRS_LIST_USER_PARAMETERS
  | ALARM_TYPE_GPRS_SET_USER_PARAMETERS_SUCCESS
  | ALARM_TYPE_GPRS_SET_USER_PARAMETERS_FAILURE | ALARM_TYPE_GPRS_SET_TIME_SUCCESS
  | ALARM_TYPE_GPRS_SET_TIME_FAILURE | ALARM_TYPE_GPRS_SET_KEY0_SUCCESS
  | ALARM_TYPE_GPRS_SET_KEY0_FAILURE | ALARM_TYPE_GPRS_SET_HTTP_SUCCESS
  | ALARM_TYPE_GPRS_SET_HTTP_FAILURE | ALARM_TYPE_GPRS_UPLOAD_PIC
  | ALARM_TYPE_GPRS_SEND_PIC_DATA | ALARM_TYPE_GPRS_SLEEP | ALARM_TYPE_GPRS_WAKE_UP.

Definition alarm_all : list ALARM_TYPEDEF :=
  [ALARM_TYPE_LOCK_SHELL; ALARM_TYPE_LOCK_TEMPERATURE; ALARM_TYPE_GATE_TEMPERATURE;
   ALARM_TYPE_LOCK_GATE; ALARM_TYPE_GSM_RING; ALARM_TYPE_RFID_KEY_DETECT;
   ALARM_TYPE_CAMERA_PHOTOSENSOR; ALARM_TYPE_CAMERA_IRDASENSOR; ALARM_TYPE_MOTOR_STATUS;
   ALARM_TYPE_BATTERY_WORKING_20M; ALARM_TYPE_BATTERY_REMAIN_50P;
   ALARM_TYPE_BATTERY_REMAIN_20P; ALARM_TYPE_BATTERY_REMAIN_5P;
   ALARM_TYPE_BATTERY_SWITCH; ALARM_TYPE_RFID_KEY_ERROR; ALARM_TYPE_RFID_KEY_SUCCESS;
   ALARM_TYPE_RFID_KEY_PLUGIN; ALARM_TYPE_RFID_FAULT; ALARM_TYPE_CAMERA_FAULT;
   ALARM_TYPE_MOTOR_FAULT; ALARM_TYPE_POWER_FAULT; ALARM_TYPE_GPRS_AUTH;
   ALARM_TYPE_GPRS_HEART; ALARM_TYPE_GPRS_LIST_TELEPHONE; ALARM_TYPE_GPRS_LIST_RFID_KEY;
   ALARM_TYPE_GPRS_SET_TELEPHONE_SUCCESS; ALARM_TYPE_GPRS_SET_TELEPHONE_FAILURE;
   ALARM_TYPE_GPRS_SET_RFID_KEY_SUCCESS; ALARM_TYPE_GPRS_SET_RFID_KEY_FAILURE;
   ALARM_TYPE_GPRS_LIST_USER_PARAMETERS; ALARM_TYPE_GPRS_SET_USER_PARAMETERS_SUCCESS;
   ALARM_TYPE_GPRS_SET_USER_PARAMETERS_FAILURE; ALARM_TYPE_GPRS_SET_TIME_SUCCESS;
   ALARM_TYPE_GPRS_SET_TIME_FAILURE; ALARM_TYPE_GPRS_SET_KEY0_SUCCESS;
   ALARM_TYPE_GPRS_SET_KEY0_FAILURE; ALARM_TYPE_GPRS_SET_HTTP_SUCCESS;
   ALARM_TYPE_GPRS_SET_HTTP_FAILURE; ALARM_TYPE_GPRS_UPLOAD_PIC;
   ALARM_TYPE_GPRS_SEND_PIC_DATA; ALARM_TYPE_GPRS_SLEEP; ALARM_TYPE_GPRS_WAKE_UP].

Fixpoint index_of {A} (p : A → bool) (l : list A) : nat :=
  match l with
  | [] => 0%nat
  | x :: l => if p x then 0%nat else S (index_of p l)
  end.

(** The value of the C enumeration constant *)
Definition alarm_code (a : ALARM_TYPEDEF) : nat :=
  match a with
  | ALARM_TYPE_LOCK_SHELL => 0 | ALARM_TYPE_LOCK_TEMPERATURE => 1
  | ALARM_TYPE_GATE_TEMPERATURE => 2 | ALARM_TYPE_LOCK_GATE => 3
  | ALARM_TYPE_GSM_RING => 4 | ALARM_TYPE_RFID_KEY_DETECT => 5
  | ALARM_TYPE_CAMERA_PHOTOSENSOR => 6 | ALARM_TYPE_CAMERA_IRDASENSOR => 7
  | ALARM_TYPE_MOTOR_STATUS => 8 | ALARM_TYPE_BATTERY_WORKING_20M => 9
  | ALARM_TYPE_BATTERY_REMAIN_50P => 10 | ALARM_TYPE_BATTERY_REMAIN_20P => 11
  | ALARM_TYPE_BATTERY_REMAIN_5P => 12 | ALARM_TYPE_BATTERY_SWITCH => 13
  | ALARM_TYPE_RFID_KEY_ERROR => 14 | ALARM_TYPE_RFID_KEY_SUCCESS => 15
  | ALARM_TYPE_RFID_KEY_PLUGIN => 16 | ALARM_TYPE_RFID_FAULT => 17
  | ALARM_TYPE_CAMERA_FAULT => 18 | ALARM_TYPE_MOTOR_FAULT => 19
  | ALARM_TYPE_POWER_FAULT => 20 | ALARM_TYPE_GPRS_AUTH => 21
  | ALARM_TYPE_GPRS_HEART => 22 | ALARM_TYPE_GPRS_LIST_TELEPHONE => 23
  | ALARM_TYPE_GPRS_LIST_RFID_KEY => 24 | ALARM_TYPE_GPRS_SET_TELEPHONE_SUCCESS => 25
  | ALARM_TYPE_GPRS_SET_TELEPHONE_FAILURE => 26
  | ALARM_TYPE_GPRS_SET_RFID_KEY_SUCCESS => 27
  | ALARM_TYPE_GPRS_SET_RFID_KEY_FAILURE => 28
  | ALARM_TYPE_GPRS_LIST_USER_PARAMETERS => 29
  | ALARM_TYPE_GPRS_SET_USER_PARAMETERS_SUCCESS => 30
  | ALARM_TYPE_GPRS_SET_USER_PARAMETERS_FAILURE => 31
  | ALARM_TYPE_GPRS_SET_TIME_SUCCESS => 32 | ALARM_TYPE_GPRS_SET_TIME_FAILURE => 33
  | ALARM_TYPE_GPRS_SET_KEY0_SUCCESS => 34 | ALARM_TYPE_GPRS_SET_KEY0_FAILURE => 35
  | ALARM_TYPE_GPRS_SET_HTTP_SUCCESS => 36 | ALARM_TYPE_GPRS_SET_HTTP_FAILURE => 37
  | ALARM_TYPE_GPRS_UPLOAD_PIC => 38 | ALARM_TYPE_GPRS_SEND_PIC_DATA => 39
  | ALARM_TYPE_GPRS_SLEEP => 40 | ALARM_TYPE_GPRS_WAKE_UP => 41
  end%nat.

Lemma alarm_all_code a : alarm_all !! alarm_code a = Some a.
Proof. by destruct a. Qed.

#[global] Instance alarm_code_inj : Inj (=) (=) alarm_code.
Proof. intros a b H. pose proof (alarm_all_code a) as Ha. rewrite H, alarm_all_code in Ha. congruence. Qed.

#[global] Instance ALARM_TYPEDEF_eq_dec : EqDecision ALARM_TYPEDEF.
Proof.
  intros a b. destruct (decide (alarm_code a = alarm_code b)) as [H|H].
  - left. by apply (inj alarm_code).
  - right. by intros ->.
Defined.

Definition ALARM_PROCESS_FLAG_SMS : Z := 0x01.
Definition ALARM_PROCESS_FLAG_GPRS : Z := 0x02.
Definition ALARM_PROCESS_FLAG_LOCAL : Z := 0x04.
Definition ALARM_PROCESS_FLAG_MMS : Z := 0x08.
Definition MACHINE_ON_WORK : Z := 1.

(** ** Configuration (untils.h) *)

Definition TELEPHONE_NUMBERS : nat := 10.
Definition TELEPHONE_ADDRESS_LENGTH : nat := 20.
Definition RFID_KEY_NUMBERS : nat := 10.
Definition TCP_DOMAIN_LENGTH : nat := 20.

Record TELEPHONE_ADDRESS := mkTelephone { tel_flag : Z; address : list Z }.
Record RFID_KEY := mkRfidKey { key_flag : Z; key : list Z }.
Record TCP_DOMAIN := mkDomain { domain : list Z; port : Z }.

Record DEVICE_PARAMETERS := mkParams {
  alarm_telephone : list TELEPHONE_ADDRESS;
  call_telephone : list TELEPHONE_ADDRESS;
  rfid_key : list RFID_KEY;
  tcp_domain : TCP_DOMAIN;
  lock_gate_alarm_time : Z;
  device_id : list Z;
  key0 : list Z;
  key1 : list Z
}.

(** ** Mails *)

(** The [void *user] of a GPRS mail: NULL or never written, the address of the
    global [gprs_mail_user], or of the static variable [alarm_type] of mms.c. *)
Inductive USER := U_none | U_gprs_mail_user | U_mms_alarm_type.

Record ALARM_MAIL := mkAlarmMail {
  am_time : Z; am_alarm_type : ALARM_TYPEDEF; am_process_flag : Z; am_gpio_value : Z }.
Record SMS_MAIL := mkSmsMail { sm_time : Z; sm_alarm_type : ALARM_TYPEDEF }.
Record GPRS_MAIL := mkGprsMail {
  gm_time : Z; gm_alarm_type : ALARM_TYPEDEF; gm_order : Z; gm_user : USER }.
Record LOCAL_MAIL := mkLocalMail { lm_time : Z; lm_alarm_type : ALARM_TYPEDEF }.
Record AIP_MAIL := mkAipMail { pm_time : Z; pm_alarm_type : ALARM_TYPEDEF }.

(** The files the threads name; [F_empty] is the empty name, which names none. *)
Inductive FILE := F_1_jpg | F_2_jpg | F_aip_bin | F_empty.

#[global] Instance FILE_eq_dec : EqDecision FILE.
Proof. solve_decision. Defined.

Record MMS_MAIL := mkMmsMail {
  mm_time : Z; mm_alarm_type : ALARM_TYPEDEF; mm_pic_name : FILE }.

(** struct cm_recv_mq (photo.h) *)
Record CM_RECV_MQ := mkCmRecv {
  cm_time : Z; cm_date : Z; cm_alarm_type : ALARM_TYPEDEF; cm_name1 : FILE; cm_name2 : FILE }.

(** ** The GSM modem (gsm.h) *)

Inductive AT_COMMAND :=
  | AT | AT_CNMI | AT_CSCA | AT_CMGF | AT_CPIN | AT_CSQ | AT_CGREG | AT_CGATT
  | AT_CIPMODE | AT_CSTT | AT_CIICR | AT_CIFSR | AT_CIPSHUT | AT_CIPSTATUS | AT_CIPSTART
  | AT_CMGS | AT_CMGS_SUFFIX | ATO | PLUS3 | AT_CMMSINIT | AT_CMMSTERM | AT_CMMSCURL
  | AT_CMMSCID | AT_CMMSPROTO | AT_CMMSSENDCFG | AT_SAPBR_CONTYPE | AT_SAPBR_APN_CMWAP
  | AT_SAPBR_OPEN | AT_SAPBR_CLOSE | AT_SAPBR_REQUEST | AT_CMMSEDIT_OPEN
  | AT_CMMSEDIT_CLOSE | AT_CMMSDOWN_PIC | AT_CMMSDOWN_TITLE | AT_CMMSDOWN_TEXT
  | AT_CMMSDOWN_DATA | AT_CMMSRECP | AT_CMMSSEND | AT_CLCC | ATA | ATH5 | AT_RING
  | AT_RECV_SMS | ATI | AT_GSV | AT_V | AT_D1 | AT_W | AT_HTTPINIT | AT_HTTPTERM
  | AT_HTTPPARA_CID | AT_HTTPPARA_URL | AT_HTTPACTION_POST | AT_HTTPACTION_GET
  | AT_HTTPACTION_HEAD | AT_HTTPREAD | AT_SAPBR_APN_CMNET | AT_HTTPPARA_BREAK
  | AT_HTTPPARA_BREAKEND.

#[global] Instance AT_COMMAND_eq_dec : EqDecision AT_COMMAND.
Proof. solve_decision. Defined.

Inductive GSM_MODE := GSM_MODE_CMD | GSM_MODE_GPRS.

#[global] Instance GSM_MODE_eq_dec : EqDecision GSM_MODE.
Proof. solve_decision. Defined.

(** AT_RESPONSE_TYPEDEF, stored in [int8_t] variables *)
Definition AT_NO_RESPONSE : Z := 0.
Definition AT_RESPONSE_OK : Z := 1.
Definition AT_RESPONSE_ERROR : Z := 2.
Definition AT_RESPONSE_NO_CARRIER : Z := 3.
Definition AT_RESPONSE_TCP_CLOSED : Z := 4.
Definition AT_RESPONSE_CONNECT_OK : Z := 5.
Definition AT_RESPONSE_PDP_DEACT : Z := 6.
Definition AT_RESPONSE_PARTIAL_CONTENT : Z := 7.
Definition AT_RESPONSE_BAD_REQUEST : Z := 8.
Definition AT_RESPONSE_NO_MEMORY : Z := 9.

(** The union GSM_MAIL_CMD_DATA, by the member last written; the buffers it
    points to are carried along. *)
Inductive GSM_CMD_DATA :=
| CD_none
| CD_cmgs (length : Z) (buf : list Z)
| CD_cmmsrecp (buf : list Z)
| CD_cmmsdown_pic (length : Z)
| CD_cmmsdown_title (length : Z)
| CD_cmmsdown_text (length : Z)
| CD_cmmsdown_data (length : Z) (buf : list Z) (has_complete : Z)
| CD_httppara_url (length : Z) (buf : list Z)
| CD_httpread (start size_of_process : Z)
| CD_httppara_break (start : Z)
| CD_httppara_breakend (end_ : Z).

(** GSM_MAIL_TYPEDEF: the union by [send_mode] *)
Inductive GSM_MAIL :=
| GM_cmd (index : AT_COMMAND) (delay : Z) (cmd_data : GSM_CMD_DATA)
| GM_gprs (request : list Z) (has_response : Z).

Definition send_mode (m : GSM_MAIL) : GSM_MODE :=
  match m with GM_cmd _ _ _ => GSM_MODE_CMD | GM_gprs _ _ => GSM_MODE_GPRS end.

(** ** Devices *)

Inductive DEVICE :=
| DEV_GSM_USART | DEV_GSM_POWER | DEV_GSM_STATUS | DEV_GSM_RING | DEV_RFID_UART
| DEV_RFID_POWER | DEV_RFID_KEY_DETECT | DEV_BATTERY_SWITCH | DEV_BATTERY_ADC
| DEV_LOGO_LED | DEV_LOCK_GATE | DEV_MOTOR_STATUS | DEV_MOTOR_A_PULSE | DEV_MOTOR_B_PULSE
| DEV_CAMERA_UART | DEV_CAMERA_LED | DEV_CAMERA_POWER | DEV_CAMERA_PHOTOSENSOR
| DEV_CAMERA_IRDASENSOR | DEV_CAMERA_USART_TX | DEV_LOCK_SHELL | DEV_GATE_TEMPERATURE
| DEV_LOCK_TEMPERATURE | DEV_KEY2 | DEV_RTC | DEV_VOICE_DATA | DEV_VOICE_RESET
| DEV_VOICE_SWITCH | DEV_VOICE_AMP.

#[global] Instance DEVICE_eq_dec : EqDecision DEVICE.
Proof. solve_decision. Defined.

(** Broken-down time, as [localtime] of the C library returns it *)
Record tm := mkTm {
  tm_year : Z; tm_mon : Z; tm_mday : Z; tm_hour : Z; tm_min : Z; tm_sec : Z }.

(** What the firmware does to the outside *)
Inductive Event :=
| Ev_write (d : DEVICE) (bytes : list Z)   (* rt_device_write *)
| Ev_pulse (d : DEVICE) (counts : Z)       (* SET_PULSE_COUNTS, then SEND_PULSE *)
| Ev_delay (ticks : Z)                     (* rt_thread_delay *)
| Ev_voice                                 (* voice_start_sem released *)
| Ev_config (d : DEVICE) (enable : bool)   (* GPIO_CMD_INIT_CONFIG: asked to be an output, or a floating input *)
| Ev_call (bits : Z)                       (* call_event *)
| Ev_set_date (y m d : Z) | Ev_set_time (h m s : Z)
| Ev_adc (enable : bool)                   (* bat_enable, bat_disable *)
| Ev_spi (bytes : list Z)                  (* written to the SPI flash between select and deselect *)
| Ev_flash_erase (address : Z)             (* FLASH_ErasePage *)
| Ev_flash_program (address data : Z)      (* FLASH_ProgramWord *)
| Ev_reset.                                (* NVIC_SystemReset *)

(** The software timers of photo.c whose expiry matters *)
Inductive TIMER := T_cm_ir | T_cm_alarm.

(** The hardware and the C library functions whose result is not the
    firmware's: what a read returns is a function of how many observations
    were made before it, so any behaviour over time is covered. *)
Class Board := {
  dev_present : DEVICE → bool;             (* rt_device_find <> RT_NULL *)
  pin_level : DEVICE → nat → Z;            (* the value a pin read stores *)
  uart_arrivals : DEVICE → nat → list Z;   (* bytes received before the read *)
  adc_value : nat → Z;                     (* converted battery voltage *)
  rtc_time : nat → Z;                      (* RT_DEVICE_CTRL_RTC_GET_TIME *)
  rand_seeded : Z → Z;                     (* srand(x); rand() *)
  localtime : Z → tm;
  uninit : nat → Z;                        (* an uninitialised byte *)
  file_works : FILE → nat → bool;          (* stat, open, lseek, read or unlink does not fail *)
  disk_takes : nat → nat → nat;            (* how many of the bytes a write stores *)
  timer_fires : TIMER → nat → nat;         (* how often the timer, if running, expired meanwhile *)
  config_opens : nat → bool                (* open("/config") succeeds *)
}.

(** ** Bounded message queues

    The behaviour of RT-Thread's message queues the components use; Mq.v
    proves that the linked-list implementation of ipc.c has it. *)
Record Queue (A : Type) := mkQueue { q_msgs : list A; q_max : nat }.
Arguments mkQueue {A}.
Arguments q_msgs {A}.
Arguments q_max {A}.

Definition RT_EOK : Z := 0.
Definition RT_ETIMEOUT : Z := 2.
Definition RT_EFULL : Z := 3.

Definition q_send {A} (x : A) (q : Queue A) : Z * Queue A :=
  if (length (q_msgs q) <? q_max q)%nat
  then (RT_EOK, mkQueue (q_msgs q ++ [x]) (q_max q)) else (- RT_EFULL, q).

Definition q_urgent {A} (x : A) (q : Queue A) : Z * Queue A :=
  if (length (q_msgs q) <? q_max q)%nat
  then (RT_EOK, mkQueue (x :: q_msgs q) (q_max q)) else (- RT_EFULL, q).

Definition q_recv {A} (q : Queue A) : option (A * Queue A) :=
  match q_msgs q with
  | [] => None
  | x :: l => Some (x, mkQueue l (q_max q))
  end.

(** ** The state *)

Record World := mkWorld {
  now : nat;                                      (* environment observations made so far *)
  trace : list Event;                             (* what the firmware did to the outside, oldest first *)
  params : DEVICE_PARAMETERS;                     (* device_parameters (untils.c) *)
  config_file : option DEVICE_PARAMETERS;         (* what the file /config holds *)
  files : FILE → option (list Z);                 (* the other files, if they exist *)
  alarm_mq : option (Queue ALARM_MAIL);           (* alarm.c *)
  sms_mq : option (Queue SMS_MAIL);               (* sms.c *)
  gprs_mq : option (Queue GPRS_MAIL);             (* gprs.c *)
  local_mq : option (Queue LOCAL_MAIL);           (* local.c *)
  aip_mq : option (Queue AIP_MAIL);               (* aip.c *)
  mms_mq : option (Queue MMS_MAIL);               (* mms.c *)
  photo_start_mq : option (Queue CM_RECV_MQ);     (* photo.c *)
  mq_gsm : option (Queue GSM_MAIL);               (* gsm.c *)
  machine_work_status : Z;                        (* the event set of alarm.c *)
  gsm_rx : list Z;                                (* bytes waiting in the receive buffer of the GSM uart *)
  rfid_rx : list Z;                               (* bytes waiting in the receive buffer of the RFID uart *)
  camera_rx : list Z;                             (* bytes waiting in the receive buffer of the camera uart *)
  com2_rx_indicate : bool;                        (* photo.c: is the callback of the camera uart set? *)
  usart_data_sem : nat;                           (* value of the semaphore (photo.c) *)
  release_com2_data : Z;                          (* photo.c *)
  get_photo_fbuf_cmd : list Z;                    (* photo.c *)
  get_photo_len_cmd : list Z;                     (* photo.c *)
  alarm_inform_event : Z;                         (* the event set of photo.c *)
  exti_time_old : DEVICE → Z;                     (* the static variables time_old of gpio_exti.c *)
  cm_ir_sem : nat;                                (* value of the semaphore (photo.c) *)
  cm_ir_timer : bool;                             (* photo.c: running? *)
  cm_alarm_timer : bool;                          (* photo.c: running? *)
  cm_ir_time_value : Z;                           (* photo.c *)
  cm_alarm_cnt_time_value : Z;                    (* photo.c *)
  smsc : list Z;                                  (* service centre number, gsm.c *)
  phone_call : list Z;                            (* number of the calling phone, gsm.c *)
  gsm_mode : GSM_MODE;                            (* static variable of gsm_process_thread_entry *)
  gprs_recv_frame : list Z;                       (* its receive buffer in data mode *)
  aip_bin_size : Z;                               (* aip.c *)
  mms_alarm_type : ALARM_TYPEDEF;                 (* the static variable of mms.c *)
  gprs_order : Z;                                 (* frame counter, gprs.c *)
  work_alarm_type_map : list Z;                   (* gprs.c *)
  fault_alarm_type_map : list Z;                  (* gprs.c *)
  aip_bin_http_address : list Z;                  (* aip.c *)
  aip_bin_http_address_length : Z;                (* aip.c *)
  gprs_mail_user : list Z;                        (* key of the last accepted RFID tag, local.c *)
  battery_status : Z;                             (* battery.c *)
  lock_gate_timer : option bool;                  (* RT_NULL, or created and running? *)
  lock_gate_timeout_counts : Z;                   (* local.c *)
  battery_switch_timer : option bool;             (* local.c *)
  battery_switch_timeout_counts : Z;              (* local.c *)
  rfid_key_detect_timer : option bool;            (* local.c *)
}.

Definition set_now (x : nat) (w : World) : World :=
  mkWorld
    x (trace w) (params w) (config_file w) (files w) (alarm_mq w) (sms_mq w)
    (gprs_mq w) (local_mq w) (aip_mq w) (mms_mq w) (photo_start_mq w) (mq_gsm w)
    (machine_work_status w) (gsm_rx w) (rfid_rx w) (camera_rx w) (com2_rx_indicate w)
    (usart_data_sem w) (release_com2_data w) (get_photo_fbuf_cmd w)
    (get_photo_len_cmd w) (alarm_inform_event w) (exti_time_old w) (cm_ir_sem w)
    (cm_ir_timer w) (cm_alarm_timer w) (cm_ir_time_value w) (cm_alarm_cnt_time_value w)
    (smsc w) (phone_call w) (gsm_mode w) (gprs_recv_frame w) (aip_bin_size w)
    (mms_alarm_type w) (gprs_order w) (work_alarm_type_map w) (fault_alarm_type_map w)
    (aip_bin_http_address w) (aip_bin_http_address_length w) (gprs_mail_user w)
    (battery_status w) (lock_gate_timer w) (lock_gate_timeout_counts w)
    (battery_switch_timer w) (battery_switch_timeout_counts w)
    (rfid_key_detect_timer w).
Definition set_trace (x : list Event) (w : World) : World :=
  mkWorld
    (now w) x (params w) (config_file w) (files w) (alarm_mq w) (sms_mq w) (gprs_mq w)
    (local_mq w) (aip_mq w) (mms_mq w) (photo_start_mq w) (mq_gsm w)
    (machine_work_status w) (gsm_rx w) (rfid_rx w) (camera_rx w) (com2_rx_indicate w)
    (usart_data_sem w) (release_com2_data w) (get_photo_fbuf_cmd w)
    (get_photo_len_cmd w) (alarm_inform_event w) (exti_time_old w) (cm_ir_sem w)
    (cm_ir_timer w) (cm_alarm_timer w) (cm_ir_time_value w) (cm_alarm_cnt_time_value w)
    (smsc w) (phone_call w) (gsm_mode w) (gprs_recv_frame w) (aip_bin_size w)
    (mms_alarm_type w) (gprs_order w) (work_alarm_type_map w) (fault_alarm_type_map w)
    (aip_bin_http_address w) (aip_bin_http_address_length w) (gprs_mail_user w)
    (battery_status w) (lock_gate_timer w) (lock_gate_timeout_counts w)
    (battery_switch_timer w) (battery_switch_timeout_counts w)
    (rfid_key_detect_timer w).
Definition set_params (x : DEVICE_PARAMETERS) (w : World) : World :=
  mkWorld
    (now w) (trace w) x (config_file w) (files w) (alarm_mq w) (sms_mq w) (gprs_mq w)
    (local_mq w) (aip_mq w) (mms_mq w) (photo_start_mq w) (mq_gsm w)
    (machine_work_status w) (gsm_rx w) (rfid_rx w) (camera_rx w) (com2_rx_indicate w)
    (usart_data_sem w) (release_com2_data w) (get_photo_fbuf_cmd w)
    (get_photo_len_cmd w) (alarm_inform_event w) (exti_time_old w) (cm_ir_sem w)
    (cm_ir_timer w) (cm_alarm_timer w) (cm_ir_time_value w) (cm_alarm_cnt_time_value w)
    (smsc w) (phone_call w) (gsm_mode w) (gprs_recv_frame w) (aip_bin_size w)
    (mms_alarm_type w) (gprs_order w) (work_alarm_type_map w) (fault_alarm_type_map w)
    (aip_bin_http_address w) (aip_bin_http_address_length w) (gprs_mail_user w)
    (battery_status w) (lock_gate_timer w) (lock_gate_timeout_counts w)
    (battery_switch_timer w) (battery_switch_timeout_counts w)
    (rfid_key_detect_timer w).
Definition set_config_file (x : option DEVICE_PARAMETERS) (w : World) : World :=
  mkWorld
    (now w) (trace w) (params w) x (files w) (alarm_mq w) (sms_mq w) (gprs_mq w)
    (local_mq w) (aip_mq w) (mms_mq w) (photo_start_mq w) (mq_gsm w)
    (machine_work_status w) (gsm_rx w) (rfid_rx w) (camera_rx w) (com2_rx_indicate w)
    (usart_data_sem w) (release_com2_data w) (get_photo_fbuf_cmd w)
    (get_photo_len_cmd w) (alarm_inform_event w) (exti_time_old w) (cm_ir_sem w)
    (cm_ir_timer w) (cm_alarm_timer w) (cm_ir_time_value w) (cm_alarm_cnt_time_value w)
    (smsc w) (phone_call w) (gsm_mode w) (gprs_recv_frame w) (aip_bin_size w)
    (mms_alarm_type w) (gprs_order w) (work_alarm_type_map w) (fault_alarm_type_map w)
    (aip_bin_http_address w) (aip_bin_http_address_length w) (gprs_mail_user w)
    (battery_status w) (lock_gate_timer w) (lock_gate_timeout_counts w)
    (battery_switch_timer w) (battery_switch_timeout_counts w)
    (rfid_key_detect_timer w).
Definition set_files (x : FILE → option (list Z)) (w : World) : World :=
  mkWorld
    (now w) (trace w) (params w) (config_file w) x (alarm_mq w) (sms_mq w) (gprs_mq w)
    (local_mq w) (aip_mq w) (mms_mq w) (photo_start_mq w) (mq_gsm w)
    (machine_work_status w) (gsm_rx w) (rfid_rx w) (camera_rx w) (com2_rx_indicate w)
    (usart_data_sem w) (release_com2_data w) (get_photo_fbuf_cmd w)
    (get_photo_len_cmd w) (alarm_inform_event w) (exti_time_old w) (cm_ir_sem w)
    (cm_ir_timer w) (cm_alarm_timer w) (cm_ir_time_value w) (cm_alarm_cnt_time_value w)
    (smsc w) (phone_call w) (gsm_mode w) (gprs_recv_frame w) (aip_bin_size w)
    (mms_alarm_type w) (gprs_order w) (work_alarm_type_map w) (fault_alarm_type_map w)
    (aip_bin_http_address w) (aip_bin_http_address_length w) (gprs_mail_user w)
    (battery_status w) (lock_gate_timer w) (lock_gate_timeout_counts w)
    (battery_switch_timer w) (battery_switch_timeout_counts w)
    (rfid_key_detect_timer w).
Definition set_alarm_mq (x : option (Queue ALARM_MAIL)) (w : World) : World :=
  mkWorld
    (now w) (trace w) (params w) (config_file w) (files w) x (sms_mq w) (gprs_mq w)
    (local_mq w) (aip_mq w) (mms_mq w) (photo_start_mq w) (mq_gsm w)
    (machine_work_status w) (gsm_rx w) (rfid_rx w) (camera_rx w) (com2_rx_indicate w)
    (usart_data_sem w) (release_com2_data w) (get_photo_fbuf_cmd w)
    (get_photo_len_cmd w) (alarm_inform_event w) (exti_time_old w) (cm_ir_sem w)
    (cm_ir_timer w) (cm_alarm_timer w) (cm_ir_time_value w) (cm_alarm_cnt_time_value w)
    (smsc w) (phone_call w) (gsm_mode w) (gprs_recv_frame w) (aip_bin_size w)
    (mms_alarm_type w) (gprs_order w) (work_alarm_type_map w) (fault_alarm_type_map w)
    (aip_bin_http_address w) (aip_bin_http_address_length w) (gprs_mail_user w)
    (battery_status w) (lock_gate_timer w) (lock_gate_timeout_counts w)
    (battery_switch_timer w) (battery_switch_timeout_counts w)
    (rfid_key_detect_timer w).
Definition set_sms_mq (x : option (Queue SMS_MAIL)) (w : World) : World :=
  mkWorld
    (now w) (trace w) (params w) (config_file w) (files w) (alarm_mq w) x (gprs_mq w)
    (local_mq w) (aip_mq w) (mms_mq w) (photo_start_mq w) (mq_gsm w)
    (machine_work_status w) (gsm_rx w) (rfid_rx w) (camera_rx w) (com2_rx_indicate w)
    (usart_data_sem w) (release_com2_data w) (get_photo_fbuf_cmd w)
    (get_photo_len_cmd w) (alarm_inform_event w) (exti_time_old w) (cm_ir_sem w)
    (cm_ir_timer w) (cm_alarm_timer w) (cm_ir_time_value w) (cm_alarm_cnt_time_value w)
    (smsc w) (phone_call w) (gsm_mode w) (gprs_recv_frame w) (aip_bin_size w)
    (mms_alarm_type w) (gprs_order w) (work_alarm_type_map w) (fault_alarm_type_map w)
    (aip_bin_http_address w) (aip_bin_http_address_length w) (gprs_mail_user w)
    (battery_status w) (lock_gate_timer w) (lock_gate_timeout_counts w)
    (battery_switch_timer w) (battery_switch_timeout_counts w)
    (rfid_key_detect_timer w).
Definition set_gprs_mq (x : option (Queue GPRS_MAIL)) (w : World) : World :=
  mkWorld
    (now w) (trace w) (params w) (config_file w) (files w) (alarm_mq w) (sms_mq w) x
    (local_mq w) (aip_mq w) (mms_mq w) (photo_start_mq w) (mq_gsm w)
    (machine_work_status w) (gsm_rx w) (rfid_rx w) (camera_rx w) (com2_rx_indicate w)
    (usart_data_sem w) (release_com2_data w) (get_photo_fbuf_cmd w)
    (get_photo_len_cmd w) (alarm_inform_event w) (exti_time_old w) (cm_ir_sem w)
    (cm_ir_timer w) (cm_alarm_timer w) (cm_ir_time_value w) (cm_alarm_cnt_time_value w)
    (smsc w) (phone_call w) (gsm_mode w) (gprs_recv_frame w) (aip_bin_size w)
    (mms_alarm_type w) (gprs_order w) (work_alarm_type_map w) (fault_alarm_type_map w)
    (aip_bin_http_address w) (aip_bin_http_address_length w) (gprs_mail_user w)
    (battery_status w) (lock_gate_timer w) (lock_gate_timeout_counts w)
    (battery_switch_timer w) (battery_switch_timeout_counts w)
    (rfid_key_detect_timer w).
Definition set_local_mq (x : option (Queue LOCAL_MAIL)) (w : World) : World :=
  mkWorld
    (now w) (trace w) (params w) (config_file w) (files w) (alarm_mq w) (sms_mq w)
    (gprs_mq w) x (aip_mq w) (mms_mq w) (photo_start_mq w) (mq_gsm w)
    (machine_work_status w) (gsm_rx w) (rfid_rx w) (camera_rx w) (com2_rx_indicate w)
    (usart_data_sem w) (release_com2_data w) (get_photo_fbuf_cmd w)
    (get_photo_len_cmd w) (alarm_inform_event w) (exti_time_old w) (cm_ir_sem w)
    (cm_ir_timer w) (cm_alarm_timer w) (cm_ir_time_value w) (cm_alarm_cnt_time_value w)
    (smsc w) (phone_call w) (gsm_mode w) (gprs_recv_frame w) (aip_bin_size w)
    (mms_alarm_type w) (gprs_order w) (work_alarm_type_map w) (fault_alarm_type_map w)
    (aip_bin_http_address w) (aip_bin_http_address_length w) (gprs_mail_user w)
    (battery_status w) (lock_gate_timer w) (lock_gate_timeout_counts w)
    (battery_switch_timer w) (battery_switch_timeout_counts w)
    (rfid_key_detect_timer w).
Definition set_aip_mq (x : option (Queue AIP_MAIL)) (w : World) : World :=
  mkWorld
    (now w) (trace w) (params w) (config_file w) (files w) (alarm_mq w) (sms_mq w)
    (gprs_mq w) (local_mq w) x (mms_mq w) (photo_start_mq w) (mq_gsm w)
    (machine_work_status w) (gsm_rx w) (rfid_rx w) (camera_rx w) (com2_rx_indicate w)
    (usart_data_sem w) (release_com2_data w) (get_photo_fbuf_cmd w)
    (get_photo_len_cmd w) (alarm_inform_event w) (exti_time_old w) (cm_ir_sem w)
    (cm_ir_timer w) (cm_alarm_timer w) (cm_ir_time_value w) (cm_alarm_cnt_time_value w)
    (smsc w) (phone_call w) (gsm_mode w) (gprs_recv_frame w) (aip_bin_size w)
    (mms_alarm_type w) (gprs_order w) (work_alarm_type_map w) (fault_alarm_type_map w)
    (aip_bin_http_address w) (aip_bin_http_address_length w) (gprs_mail_user w)
    (battery_status w) (lock_gate_timer w) (lock_gate_timeout_counts w)
    (battery_switch_timer w) (battery_switch_timeout_counts w)
    (rfid_key_detect_timer w).
Definition set_mms_mq (x : option (Queue MMS_MAIL)) (w : World) : World :=
  mkWorld
    (now w) (trace w) (params w) (config_file w) (files w) (alarm_mq w) (sms_mq w)
    (gprs_mq w) (local_mq w) (aip_mq w) x (photo_start_mq w) (mq_gsm w)
    (machine_work_status w) (gsm_rx w) (rfid_rx w) (camera_rx w) (com2_rx_indicate w)
    (usart_data_sem w) (release_com2_data w) (get_photo_fbuf_cmd w)
    (get_photo_len_cmd w) (alarm_inform_event w) (exti_time_old w) (cm_ir_sem w)
    (cm_ir_timer w) (cm_alarm_timer w) (cm_ir_time_value w) (cm_alarm_cnt_time_value w)
    (smsc w) (phone_call w) (gsm_mode w) (gprs_recv_frame w) (aip_bin_size w)
    (mms_alarm_type w) (gprs_order w) (work_alarm_type_map w) (fault_alarm_type_map w)
    (aip_bin_http_address w) (aip_bin_http_address_length w) (gprs_mail_user w)
    (battery_status w) (lock_gate_timer w) (lock_gate_timeout_counts w)
    (battery_switch_timer w) (battery_switch_timeout_counts w)
    (rfid_key_detect_timer w).
Definition set_photo_start_mq (x : option (Queue CM_RECV_MQ)) (w : World) : World :=
  mkWorld
    (now w) (trace w) (params w) (config_file w) (files w) (alarm_mq w) (sms_mq w)
    (gprs_mq w) (local_mq w) (aip_mq w) (mms_mq w) x (mq_gsm w) (machine_work_status w)
    (gsm_rx w) (rfid_rx w) (camera_rx w) (com2_rx_indicate w) (usart_data_sem w)
    (release_com2_data w) (get_photo_fbuf_cmd w) (get_photo_len_cmd w)
    (alarm_inform_event w) (exti_time_old w) (cm_ir_sem w) (cm_ir_timer w)
    (cm_alarm_timer w) (cm_ir_time_value w) (cm_alarm_cnt_time_value w) (smsc w)
    (phone_call w) (gsm_mode w) (gprs_recv_frame w) (aip_bin_size w) (mms_alarm_type w)
    (gprs_order w) (work_alarm_type_map w) (fault_alarm_type_map w)
    (aip_bin_http_address w) (aip_bin_http_address_length w) (gprs_mail_user w)
    (battery_status w) (lock_gate_timer w) (lock_gate_timeout_counts w)
    (battery_switch_timer w) (battery_switch_timeout_counts w)
    (rfid_key_detect_timer w).
Definition set_mq_gsm (x : option (Queue GSM_MAIL)) (w : World) : World :=
  mkWorld
    (now w) (trace w) (params w) (config_file w) (files w) (alarm_mq w) (sms_mq w)
    (gprs_mq w) (local_mq w) (aip_mq w) (mms_mq w) (photo_start_mq w) x
    (machine_work_status w) (gsm_rx w) (rfid_rx w) (camera_rx w) (com2_rx_indicate w)
    (usart_data_sem w) (release_com2_data w) (get_photo_fbuf_cmd w)
    (get_photo_len_cmd w) (alarm_inform_event w) (exti_time_old w) (cm_ir_sem w)
    (cm_ir_timer w) (cm_alarm_timer w) (cm_ir_time_value w) (cm_alarm_cnt_time_value w)
    (smsc w) (phone_call w) (gsm_mode w) (gprs_recv_frame w) (aip_bin_size w)
    (mms_alarm_type w) (gprs_order w) (work_alarm_type_map w) (fault_alarm_type_map w)
    (aip_bin_http_address w) (aip_bin_http_address_length w) (gprs_mail_user w)
    (battery_status w) (lock_gate_timer w) (lock_gate_timeout_counts w)
    (battery_switch_timer w) (battery_switch_timeout_counts w)
    (rfid_key_detect_timer w).
Definition set_machine_work_status (x : Z) (w : World) : World :=
  mkWorld
    (now w) (trace w) (params w) (config_file w) (files w) (alarm_mq w) (sms_mq w)
    (gprs_mq w) (local_mq w) (aip_mq w) (mms_mq w) (photo_start_mq w) (mq_gsm w) x
    (gsm_rx w) (rfid_rx w) (camera_rx w) (com2_rx_indicate w) (usart_data_sem w)
    (release_com2_data w) (get_photo_fbuf_cmd w) (get_photo_len_cmd w)
    (alarm_inform_event w) (exti_time_old w) (cm_ir_sem w) (cm_ir_timer w)
    (cm_alarm_timer w) (cm_ir_time_value w) (cm_alarm_cnt_time_value w) (smsc w)
    (phone_call w) (gsm_mode w) (gprs_recv_frame w) (aip_bin_size w) (mms_alarm_type w)
    (gprs_order w) (work_alarm_type_map w) (fault_alarm_type_map w)
    (aip_bin_http_address w) (aip_bin_http_address_length w) (gprs_mail_user w)
    (battery_status w) (lock_gate_timer w) (lock_gate_timeout_counts w)
    (battery_switch_timer w) (battery_switch_timeout_counts w)
    (rfid_key_detect_timer w).
Definition set_gsm_rx (x : list Z) (w : World) : World :=
  mkWorld
    (now w) (trace w) (params w) (config_file w) (files w) (alarm_mq w) (sms_mq w)
    (gprs_mq w) (local_mq w) (aip_mq w) (mms_mq w) (photo_start_mq w) (mq_gsm w)
    (machine_work_status w) x (rfid_rx w) (camera_rx w) (com2_rx_indicate w)
    (usart_data_sem w) (release_com2_data w) (get_photo_fbuf_cmd w)
    (get_photo_len_cmd w) (alarm_inform_event w) (exti_time_old w) (cm_ir_sem w)
    (cm_ir_timer w) (cm_alarm_timer w) (cm_ir_time_value w) (cm_alarm_cnt_time_value w)
    (smsc w) (phone_call w) (gsm_mode w) (gprs_recv_frame w) (aip_bin_size w)
    (mms_alarm_type w) (gprs_order w) (work_alarm_type_map w) (fault_alarm_type_map w)
    (aip_bin_http_address w) (aip_bin_http_address_length w) (gprs_mail_user w)
    (battery_status w) (lock_gate_timer w) (lock_gate_timeout_counts w)
    (battery_switch_timer w) (battery_switch_timeout_counts w)
    (rfid_key_detect_timer w).
Definition set_rfid_rx (x : list Z) (w : World) : World :=
  mkWorld
    (now w) (trace w) (params w) (config_file w) (files w) (alarm_mq w) (sms_mq w)
    (gprs_mq w) (local_mq w) (aip_mq w) (mms_mq w) (photo_start_mq w) (mq_gsm w)
    (machine_work_status w) (gsm_rx w) x (camera_rx w) (com2_rx_indicate w)
    (usart_data_sem w) (release_com2_data w) (get_photo_fbuf_cmd w)
    (get_photo_len_cmd w) (alarm_inform_event w) (exti_time_old w) (cm_ir_sem w)
    (cm_ir_timer w) (cm_alarm_timer w) (cm_ir_time_value w) (cm_alarm_cnt_time_value w)
    (smsc w) (phone_call w) (gsm_mode w) (gprs_recv_frame w) (aip_bin_size w)
    (mms_alarm_type w) (gprs_order w) (work_alarm_type_map w) (fault_alarm_type_map w)
    (aip_bin_http_address w) (aip_bin_http_address_length w) (gprs_mail_user w)
    (battery_status w) (lock_gate_timer w) (lock_gate_timeout_counts w)
    (battery_switch_timer w) (battery_switch_timeout_counts w)
    (rfid_key_detect_timer w).
Definition set_camera_rx (x : list Z) (w : World) : World :=
  mkWorld
    (now w) (trace w) (params w) (config_file w) (files w) (alarm_mq w) (sms_mq w)
    (gprs_mq w) (local_mq w) (aip_mq w) (mms_mq w) (photo_start_mq w) (mq_gsm w)
    (machine_work_status w) (gsm_rx w) (rfid_rx w) x (com2_rx_indicate w)
    (usart_data_sem w) (release_com2_data w) (get_photo_fbuf_cmd w)
    (get_photo_len_cmd w) (alarm_inform_event w) (exti_time_old w) (cm_ir_sem w)
    (cm_ir_timer w) (cm_alarm_timer w) (cm_ir_time_value w) (cm_alarm_cnt_time_value w)
    (smsc w) (phone_call w) (gsm_mode w) (gprs_recv_frame w) (aip_bin_size w)
    (mms_alarm_type w) (gprs_order w) (work_alarm_type_map w) (fault_alarm_type_map w)
    (aip_bin_http_address w) (aip_bin_http_address_length w) (gprs_mail_user w)
    (battery_status w) (lock_gate_timer w) (lock_gate_timeout_counts w)
    (battery_switch_timer w) (battery_switch_timeout_counts w)
    (rfid_key_detect_timer w).
Definition set_com2_rx_indicate (x : bool) (w : World) : World :=
  mkWorld
    (now w) (trace w) (params w) (config_file w) (files w) (alarm_mq w) (sms_mq w)
    (gprs_mq w) (local_mq w) (aip_mq w) (mms_mq w) (photo_start_mq w) (mq_gsm w)
    (machine_work_status w) (gsm_rx w) (rfid_rx w) (camera_rx w) x (usart_data_sem w)
    (release_com2_data w) (get_photo_fbuf_cmd w) (get_photo_len_cmd w)
    (alarm_inform_event w) (exti_time_old w) (cm_ir_sem w) (cm_ir_timer w)
    (cm_alarm_timer w) (cm_ir_time_value w) (cm_alarm_cnt_time_value w) (smsc w)
    (phone_call w) (gsm_mode w) (gprs_recv_frame w) (aip_bin_size w) (mms_alarm_type w)
    (gprs_order w) (work_alarm_type_map w) (fault_alarm_type_map w)
    (aip_bin_http_address w) (aip_bin_http_address_length w) (gprs_mail_user w)
    (battery_status w) (lock_gate_timer w) (lock_gate_timeout_counts w)
    (battery_switch_timer w) (battery_switch_timeout_counts w)
    (rfid_key_detect_timer w).
Definition set_usart_data_sem (x : nat) (w : World) : World :=
  mkWorld
    (now w) (trace w) (params w) (config_file w) (files w) (alarm_mq w) (sms_mq w)
    (gprs_mq w) (local_mq w) (aip_mq w) (mms_mq w) (photo_start_mq w) (mq_gsm w)
    (machine_work_status w) (gsm_rx w) (rfid_rx w) (camera_rx w) (com2_rx_indicate w) x
    (release_com2_data w) (get_photo_fbuf_cmd w) (get_photo_len_cmd w)
    (alarm_inform_event w) (exti_time_old w) (cm_ir_sem w) (cm_ir_timer w)
    (cm_alarm_timer w) (cm_ir_time_value w) (cm_alarm_cnt_time_value w) (smsc w)
    (phone_call w) (gsm_mode w) (gprs_recv_frame w) (aip_bin_size w) (mms_alarm_type w)
    (gprs_order w) (work_alarm_type_map w) (fault_alarm_type_map w)
    (aip_bin_http_address w) (aip_bin_http_address_length w) (gprs_mail_user w)
    (battery_status w) (lock_gate_timer w) (lock_gate_timeout_counts w)
    (battery_switch_timer w) (battery_switch_timeout_counts w)
    (rfid_key_detect_timer w).
Definition set_release_com2_data (x : Z) (w : World) : World :=
  mkWorld
    (now w) (trace w) (params w) (config_file w) (files w) (alarm_mq w) (sms_mq w)
    (gprs_mq w) (local_mq w) (aip_mq w) (mms_mq w) (photo_start_mq w) (mq_gsm w)
    (machine_work_status w) (gsm_rx w) (rfid_rx w) (camera_rx w) (com2_rx_indicate w)
    (usart_data_sem w) x (get_photo_fbuf_cmd w) (get_photo_len_cmd w)
    (alarm_inform_event w) (exti_time_old w) (cm_ir_sem w) (cm_ir_timer w)
    (cm_alarm_timer w) (cm_ir_time_value w) (cm_alarm_cnt_time_value w) (smsc w)
    (phone_call w) (gsm_mode w) (gprs_recv_frame w) (aip_bin_size w) (mms_alarm_type w)
    (gprs_order w) (work_alarm_type_map w) (fault_alarm_type_map w)
    (aip_bin_http_address w) (aip_bin_http_address_length w) (gprs_mail_user w)
    (battery_status w) (lock_gate_timer w) (lock_gate_timeout_counts w)
    (battery_switch_timer w) (battery_switch_timeout_counts w)
    (rfid_key_detect_timer w).
Definition set_get_photo_fbuf_cmd (x : list Z) (w : World) : World :=
  mkWorld
    (now w) (trace w) (params w) (config_file w) (files w) (alarm_mq w) (sms_mq w)
    (gprs_mq w) (local_mq w) (aip_mq w) (mms_mq w) (photo_start_mq w) (mq_gsm w)
    (machine_work_status w) (gsm_rx w) (rfid_rx w) (camera_rx w) (com2_rx_indicate w)
    (usart_data_sem w) (release_com2_data w) x (get_photo_len_cmd w)
    (alarm_inform_event w) (exti_time_old w) (cm_ir_sem w) (cm_ir_timer w)
    (cm_alarm_timer w) (cm_ir_time_value w) (cm_alarm_cnt_time_value w) (smsc w)
    (phone_call w) (gsm_mode w) (gprs_recv_frame w) (aip_bin_size w) (mms_alarm_type w)
    (gprs_order w) (work_alarm_type_map w) (fault_alarm_type_map w)
    (aip_bin_http_address w) (aip_bin_http_address_length w) (gprs_mail_user w)
    (battery_status w) (lock_gate_timer w) (lock_gate_timeout_counts w)
    (battery_switch_timer w) (battery_switch_timeout_counts w)
    (rfid_key_detect_timer w).
Definition set_get_photo_len_cmd (x : list Z) (w : World) : World :=
  mkWorld
    (now w) (trace w) (params w) (config_file w) (files w) (alarm_mq w) (sms_mq w)
    (gprs_mq w) (local_mq w) (aip_mq w) (mms_mq w) (photo_start_mq w) (mq_gsm w)
    (machine_work_status w) (gsm_rx w) (rfid_rx w) (camera_rx w) (com2_rx_indicate w)
    (usart_data_sem w) (release_com2_data w) (get_photo_fbuf_cmd w) x
    (alarm_inform_event w) (exti_time_old w) (cm_ir_sem w) (cm_ir_timer w)
    (cm_alarm_timer w) (cm_ir_time_value w) (cm_alarm_cnt_time_value w) (smsc w)
    (phone_call w) (gsm_mode w) (gprs_recv_frame w) (aip_bin_size w) (mms_alarm_type w)
    (gprs_order w) (work_alarm_type_map w) (fault_alarm_type_map w)
    (aip_bin_http_address w) (aip_bin_http_address_length w) (gprs_mail_user w)
    (battery_status w) (lock_gate_timer w) (lock_gate_timeout_counts w)
    (battery_switch_timer w) (battery_switch_timeout_counts w)
    (rfid_key_detect_timer w).
Definition set_alarm_inform_event (x : Z) (w : World) : World :=
  mkWorld
    (now w) (trace w) (params w) (config_file w) (files w) (alarm_mq w) (sms_mq w)
    (gprs_mq w) (local_mq w) (aip_mq w) (mms_mq w) (photo_start_mq w) (mq_gsm w)
    (machine_work_status w) (gsm_rx w) (rfid_rx w) (camera_rx w) (com2_rx_indicate w)
    (usart_data_sem w) (release_com2_data w) (get_photo_fbuf_cmd w)
    (get_photo_len_cmd w) x (exti_time_old w) (cm_ir_sem w) (cm_ir_timer w)
    (cm_alarm_timer w) (cm_ir_time_value w) (cm_alarm_cnt_time_value w) (smsc w)
    (phone_call w) (gsm_mode w) (gprs_recv_frame w) (aip_bin_size w) (mms_alarm_type w)
    (gprs_order w) (work_alarm_type_map w) (fault_alarm_type_map w)
    (aip_bin_http_address w) (aip_bin_http_address_length w) (gprs_mail_user w)
    (battery_status w) (lock_gate_timer w) (lock_gate_timeout_counts w)
    (battery_switch_timer w) (battery_switch_timeout_counts w)
    (rfid_key_detect_timer w).
Definition set_exti_time_old (x : DEVICE → Z) (w : World) : World :=
  mkWorld
    (now w) (trace w) (params w) (config_file w) (files w) (alarm_mq w) (sms_mq w)
    (gprs_mq w) (local_mq w) (aip_mq w) (mms_mq w) (photo_start_mq w) (mq_gsm w)
    (machine_work_status w) (gsm_rx w) (rfid_rx w) (camera_rx w) (com2_rx_indicate w)
    (usart_data_sem w) (release_com2_data w) (get_photo_fbuf_cmd w)
    (get_photo_len_cmd w) (alarm_inform_event w) x (cm_ir_sem w) (cm_ir_timer w)
    (cm_alarm_timer w) (cm_ir_time_value w) (cm_alarm_cnt_time_value w) (smsc w)
    (phone_call w) (gsm_mode w) (gprs_recv_frame w) (aip_bin_size w) (mms_alarm_type w)
    (gprs_order w) (work_alarm_type_map w) (fault_alarm_type_map w)
    (aip_bin_http_address w) (aip_bin_http_address_length w) (gprs_mail_user w)
    (battery_status w) (lock_gate_timer w) (lock_gate_timeout_counts w)
    (battery_switch_timer w) (battery_switch_timeout_counts w)
    (rfid_key_detect_timer w).
Definition set_cm_ir_sem (x : nat) (w : World) : World :=
  mkWorld
    (now w) (trace w) (params w) (config_file w) (files w) (alarm_mq w) (sms_mq w)
    (gprs_mq w) (local_mq w) (aip_mq w) (mms_mq w) (photo_start_mq w) (mq_gsm w)
    (machine_work_status w) (gsm_rx w) (rfid_rx w) (camera_rx w) (com2_rx_indicate w)
    (usart_data_sem w) (release_com2_data w) (get_photo_fbuf_cmd w)
    (get_photo_len_cmd w) (alarm_inform_event w) (exti_time_old w) x (cm_ir_timer w)
    (cm_alarm_timer w) (cm_ir_time_value w) (cm_alarm_cnt_time_value w) (smsc w)
    (phone_call w) (gsm_mode w) (gprs_recv_frame w) (aip_bin_size w) (mms_alarm_type w)
    (gprs_order w) (work_alarm_type_map w) (fault_alarm_type_map w)
    (aip_bin_http_address w) (aip_bin_http_address_length w) (gprs_mail_user w)
    (battery_status w) (lock_gate_timer w) (lock_gate_timeout_counts w)
    (battery_switch_timer w) (battery_switch_timeout_counts w)
    (rfid_key_detect_timer w).
Definition set_cm_ir_timer (x : bool) (w : World) : World :=
  mkWorld
    (now w) (trace w) (params w) (config_file w) (files w) (alarm_mq w) (sms_mq w)
    (gprs_mq w) (local_mq w) (aip_mq w) (mms_mq w) (photo_start_mq w) (mq_gsm w)
    (machine_work_status w) (gsm_rx w) (rfid_rx w) (camera_rx w) (com2_rx_indicate w)
    (usart_data_sem w) (release_com2_data w) (get_photo_fbuf_cmd w)
    (get_photo_len_cmd w) (alarm_inform_event w) (exti_time_old w) (cm_ir_sem w) x
    (cm_alarm_timer w) (cm_ir_time_value w) (cm_alarm_cnt_time_value w) (smsc w)
    (phone_call w) (gsm_mode w) (gprs_recv_frame w) (aip_bin_size w) (mms_alarm_type w)
    (gprs_order w) (work_alarm_type_map w) (fault_alarm_type_map w)
    (aip_bin_http_address w) (aip_bin_http_address_length w) (gprs_mail_user w)
    (battery_status w) (lock_gate_timer w) (lock_gate_timeout_counts w)
    (battery_switch_timer w) (battery_switch_timeout_counts w)
    (rfid_key_detect_timer w).
Definition set_cm_alarm_timer (x : bool) (w : World) : World :=
  mkWorld
    (now w) (trace w) (params w) (config_file w) (files w) (alarm_mq w) (sms_mq w)
    (gprs_mq w) (local_mq w) (aip_mq w) (mms_mq w) (photo_start_mq w) (mq_gsm w)
    (machine_work_status w) (gsm_rx w) (rfid_rx w) (camera_rx w) (com2_rx_indicate w)
    (usart_data_sem w) (release_com2_data w) (get_photo_fbuf_cmd w)
    (get_photo_len_cmd w) (alarm_inform_event w) (exti_time_old w) (cm_ir_sem w)
    (cm_ir_timer w) x (cm_ir_time_value w) (cm_alarm_cnt_time_value w) (smsc w)
    (phone_call w) (gsm_mode w) (gprs_recv_frame w) (aip_bin_size w) (mms_alarm_type w)
    (gprs_order w) (work_alarm_type_map w) (fault_alarm_type_map w)
    (aip_bin_http_address w) (aip_bin_http_address_length w) (gprs_mail_user w)
    (battery_status w) (lock_gate_timer w) (lock_gate_timeout_counts w)
    (battery_switch_timer w) (battery_switch_timeout_counts w)
    (rfid_key_detect_timer w).
Definition set_cm_ir_time_value (x : Z) (w : World) : World :=
  mkWorld
    (now w) (trace w) (params w) (config_file w) (files w) (alarm_mq w) (sms_mq w)
    (gprs_mq w) (local_mq w) (aip_mq w) (mms_mq w) (photo_start_mq w) (mq_gsm w)
    (machine_work_status w) (gsm_rx w) (rfid_rx w) (camera_rx w) (com2_rx_indicate w)
    (usart_data_sem w) (release_com2_data w) (get_photo_fbuf_cmd w)
    (get_photo_len_cmd w) (alarm_inform_event w) (exti_time_old w) (cm_ir_sem w)
    (cm_ir_timer w) (cm_alarm_timer w) x (cm_alarm_cnt_time_value w) (smsc w)
    (phone_call w) (gsm_mode w) (gprs_recv_frame w) (aip_bin_size w) (mms_alarm_type w)
    (gprs_order w) (work_alarm_type_map w) (fault_alarm_type_map w)
    (aip_bin_http_address w) (aip_bin_http_address_length w) (gprs_mail_user w)
    (battery_status w) (lock_gate_timer w) (lock_gate_timeout_counts w)
    (battery_switch_timer w) (battery_switch_timeout_counts w)
    (rfid_key_detect_timer w).
Definition set_cm_alarm_cnt_time_value (x : Z) (w : World) : World :=
  mkWorld
    (now w) (trace w) (params w) (config_file w) (files w) (alarm_mq w) (sms_mq w)
    (gprs_mq w) (local_mq w) (aip_mq w) (mms_mq w) (photo_start_mq w) (mq_gsm w)
    (machine_work_status w) (gsm_rx w) (rfid_rx w) (camera_rx w) (com2_rx_indicate w)
    (usart_data_sem w) (release_com2_data w) (get_photo_fbuf_cmd w)
    (get_photo_len_cmd w) (alarm_inform_event w) (exti_time_old w) (cm_ir_sem w)
    (cm_ir_timer w) (cm_alarm_timer w) (cm_ir_time_value w) x (smsc w) (phone_call w)
    (gsm_mode w) (gprs_recv_frame w) (aip_bin_size w) (mms_alarm_type w) (gprs_order w)
    (work_alarm_type_map w) (fault_alarm_type_map w) (aip_bin_http_address w)
    (aip_bin_http_address_length w) (gprs_mail_user w) (battery_status w)
    (lock_gate_timer w) (lock_gate_timeout_counts w) (battery_switch_timer w)
    (battery_switch_timeout_counts w) (rfid_key_detect_timer w).
Definition set_smsc (x : list Z) (w : World) : World :=
  mkWorld
    (now w) (trace w) (params w) (config_file w) (files w) (alarm_mq w) (sms_mq w)
    (gprs_mq w) (local_mq w) (aip_mq w) (mms_mq w) (photo_start_mq w) (mq_gsm w)
    (machine_work_status w) (gsm_rx w) (rfid_rx w) (camera_rx w) (com2_rx_indicate w)
    (usart_data_sem w) (release_com2_data w) (get_photo_fbuf_cmd w)
    (get_photo_len_cmd w) (alarm_inform_event w) (exti_time_old w) (cm_ir_sem w)
    (cm_ir_timer w) (cm_alarm_timer w) (cm_ir_time_value w) (cm_alarm_cnt_time_value w)
    x (phone_call w) (gsm_mode w) (gprs_recv_frame w) (aip_bin_size w)
    (mms_alarm_type w) (gprs_order w) (work_alarm_type_map w) (fault_alarm_type_map w)
    (aip_bin_http_address w) (aip_bin_http_address_length w) (gprs_mail_user w)
    (battery_status w) (lock_gate_timer w) (lock_gate_timeout_counts w)
    (battery_switch_timer w) (battery_switch_timeout_counts w)
    (rfid_key_detect_timer w).
Definition set_phone_call (x : list Z) (w : World) : World :=
  mkWorld
    (now w) (trace w) (params w) (config_file w) (files w) (alarm_mq w) (sms_mq w)
    (gprs_mq w) (local_mq w) (aip_mq w) (mms_mq w) (photo_start_mq w) (mq_gsm w)
    (machine_work_status w) (gsm_rx w) (rfid_rx w) (camera_rx w) (com2_rx_indicate w)
    (usart_data_sem w) (release_com2_data w) (get_photo_fbuf_cmd w)
    (get_photo_len_cmd w) (alarm_inform_event w) (exti_time_old w) (cm_ir_sem w)
    (cm_ir_timer w) (cm_alarm_timer w) (cm_ir_time_value w) (cm_alarm_cnt_time_value w)
    (smsc w) x (gsm_mode w) (gprs_recv_frame w) (aip_bin_size w) (mms_alarm_type w)
    (gprs_order w) (work_alarm_type_map w) (fault_alarm_type_map w)
    (aip_bin_http_address w) (aip_bin_http_address_length w) (gprs_mail_user w)
    (battery_status w) (lock_gate_timer w) (lock_gate_timeout_counts w)
    (battery_switch_timer w) (battery_switch_timeout_counts w)
    (rfid_key_detect_timer w).
Definition set_gsm_mode (x : GSM_MODE) (w : World) : World :=
  mkWorld
    (now w) (trace w) (params w) (config_file w) (files w) (alarm_mq w) (sms_mq w)
    (gprs_mq w) (local_mq w) (aip_mq w) (mms_mq w) (photo_start_mq w) (mq_gsm w)
    (machine_work_status w) (gsm_rx w) (rfid_rx w) (camera_rx w) (com2_rx_indicate w)
    (usart_data_sem w) (release_com2_data w) (get_photo_fbuf_cmd w)
    (get_photo_len_cmd w) (alarm_inform_event w) (exti_time_old w) (cm_ir_sem w)
    (cm_ir_timer w) (cm_alarm_timer w) (cm_ir_time_value w) (cm_alarm_cnt_time_value w)
    (smsc w) (phone_call w) x (gprs_recv_frame w) (aip_bin_size w) (mms_alarm_type w)
    (gprs_order w) (work_alarm_type_map w) (fault_alarm_type_map w)
    (aip_bin_http_address w) (aip_bin_http_address_length w) (gprs_mail_user w)
    (battery_status w) (lock_gate_timer w) (lock_gate_timeout_counts w)
    (battery_switch_timer w) (battery_switch_timeout_counts w)
    (rfid_key_detect_timer w).
Definition set_gprs_recv_frame (x : list Z) (w : World) : World :=
  mkWorld
    (now w) (trace w) (params w) (config_file w) (files w) (alarm_mq w) (sms_mq w)
    (gprs_mq w) (local_mq w) (aip_mq w) (mms_mq w) (photo_start_mq w) (mq_gsm w)
    (machine_work_status w) (gsm_rx w) (rfid_rx w) (camera_rx w) (com2_rx_indicate w)
    (usart_data_sem w) (release_com2_data w) (get_photo_fbuf_cmd w)
    (get_photo_len_cmd w) (alarm_inform_event w) (exti_time_old w) (cm_ir_sem w)
    (cm_ir_timer w) (cm_alarm_timer w) (cm_ir_time_value w) (cm_alarm_cnt_time_value w)
    (smsc w) (phone_call w) (gsm_mode w) x (aip_bin_size w) (mms_alarm_type w)
    (gprs_order w) (work_alarm_type_map w) (fault_alarm_type_map w)
    (aip_bin_http_address w) (aip_bin_http_address_length w) (gprs_mail_user w)
    (battery_status w) (lock_gate_timer w) (lock_gate_timeout_counts w)
    (battery_switch_timer w) (battery_switch_timeout_counts w)
    (rfid_key_detect_timer w).
Definition set_aip_bin_size (x : Z) (w : World) : World :=
  mkWorld
    (now w) (trace w) (params w) (config_file w) (files w) (alarm_mq w) (sms_mq w)
    (gprs_mq w) (local_mq w) (aip_mq w) (mms_mq w) (photo_start_mq w) (mq_gsm w)
    (machine_work_status w) (gsm_rx w) (rfid_rx w) (camera_rx w) (com2_rx_indicate w)
    (usart_data_sem w) (release_com2_data w) (get_photo_fbuf_cmd w)
    (get_photo_len_cmd w) (alarm_inform_event w) (exti_time_old w) (cm_ir_sem w)
    (cm_ir_timer w) (cm_alarm_timer w) (cm_ir_time_value w) (cm_alarm_cnt_time_value w)
    (smsc w) (phone_call w) (gsm_mode w) (gprs_recv_frame w) x (mms_alarm_type w)
    (gprs_order w) (work_alarm_type_map w) (fault_alarm_type_map w)
    (aip_bin_http_address w) (aip_bin_http_address_length w) (gprs_mail_user w)
    (battery_status w) (lock_gate_timer w) (lock_gate_timeout_counts w)
    (battery_switch_timer w) (battery_switch_timeout_counts w)
    (rfid_key_detect_timer w).
Definition set_mms_alarm_type (x : ALARM_TYPEDEF) (w : World) : World :=
  mkWorld
    (now w) (trace w) (params w) (config_file w) (files w) (alarm_mq w) (sms_mq w)
    (gprs_mq w) (local_mq w) (aip_mq w) (mms_mq w) (photo_start_mq w) (mq_gsm w)
    (machine_work_status w) (gsm_rx w) (rfid_rx w) (camera_rx w) (com2_rx_indicate w)
    (usart_data_sem w) (release_com2_data w) (get_photo_fbuf_cmd w)
    (get_photo_len_cmd w) (alarm_inform_event w) (exti_time_old w) (cm_ir_sem w)
    (cm_ir_timer w) (cm_alarm_timer w) (cm_ir_time_value w) (cm_alarm_cnt_time_value w)
    (smsc w) (phone_call w) (gsm_mode w) (gprs_recv_frame w) (aip_bin_size w) x
    (gprs_order w) (work_alarm_type_map w) (fault_alarm_type_map w)
    (aip_bin_http_address w) (aip_bin_http_address_length w) (gprs_mail_user w)
    (battery_status w) (lock_gate_timer w) (lock_gate_timeout_counts w)
    (battery_switch_timer w) (battery_switch_timeout_counts w)
    (rfid_key_detect_timer w).
Definition set_gprs_order (x : Z) (w : World) : World :=
  mkWorld
    (now w) (trace w) (params w) (config_file w) (files w) (alarm_mq w) (sms_mq w)
    (gprs_mq w) (local_mq w) (aip_mq w) (mms_mq w) (photo_start_mq w) (mq_gsm w)
    (machine_work_status w) (gsm_rx w) (rfid_rx w) (camera_rx w) (com2_rx_indicate w)
    (usart_data_sem w) (release_com2_data w) (get_photo_fbuf_cmd w)
    (get_photo_len_cmd w) (alarm_inform_event w) (exti_time_old w) (cm_ir_sem w)
    (cm_ir_timer w) (cm_alarm_timer w) (cm_ir_time_value w) (cm_alarm_cnt_time_value w)
    (smsc w) (phone_call w) (gsm_mode w) (gprs_recv_frame w) (aip_bin_size w)
    (mms_alarm_type w) x (work_alarm_type_map w) (fault_alarm_type_map w)
    (aip_bin_http_address w) (aip_bin_http_address_length w) (gprs_mail_user w)
    (battery_status w) (lock_gate_timer w) (lock_gate_timeout_counts w)
    (battery_switch_timer w) (battery_switch_timeout_counts w)
    (rfid_key_detect_timer w).
Definition set_work_alarm_type_map (x : list Z) (w : World) : World :=
  mkWorld
    (now w) (trace w) (params w) (config_file w) (files w) (alarm_mq w) (sms_mq w)
    (gprs_mq w) (local_mq w) (aip_mq w) (mms_mq w) (photo_start_mq w) (mq_gsm w)
    (machine_work_status w) (gsm_rx w) (rfid_rx w) (camera_rx w) (com2_rx_indicate w)
    (usart_data_sem w) (release_com2_data w) (get_photo_fbuf_cmd w)
    (get_photo_len_cmd w) (alarm_inform_event w) (exti_time_old w) (cm_ir_sem w)
    (cm_ir_timer w) (cm_alarm_timer w) (cm_ir_time_value w) (cm_alarm_cnt_time_value w)
    (smsc w) (phone_call w) (gsm_mode w) (gprs_recv_frame w) (aip_bin_size w)
    (mms_alarm_type w) (gprs_order w) x (fault_alarm_type_map w)
    (aip_bin_http_address w) (aip_bin_http_address_length w) (gprs_mail_user w)
    (battery_status w) (lock_gate_timer w) (lock_gate_timeout_counts w)
    (battery_switch_timer w) (battery_switch_timeout_counts w)
    (rfid_key_detect_timer w).
Definition set_fault_alarm_type_map (x : list Z) (w : World) : World :=
  mkWorld
    (now w) (trace w) (params w) (config_file w) (files w) (alarm_mq w) (sms_mq w)
    (gprs_mq w) (local_mq w) (aip_mq w) (mms_mq w) (photo_start_mq w) (mq_gsm w)
    (machine_work_status w) (gsm_rx w) (rfid_rx w) (camera_rx w) (com2_rx_indicate w)
    (usart_data_sem w) (release_com2_data w) (get_photo_fbuf_cmd w)
    (get_photo_len_cmd w) (alarm_inform_event w) (exti_time_old w) (cm_ir_sem w)
    (cm_ir_timer w) (cm_alarm_timer w) (cm_ir_time_value w) (cm_alarm_cnt_time_value w)
    (smsc w) (phone_call w) (gsm_mode w) (gprs_recv_frame w) (aip_bin_size w)
    (mms_alarm_type w) (gprs_order w) (work_alarm_type_map w) x
    (aip_bin_http_address w) (aip_bin_http_address_length w) (gprs_mail_user w)
    (battery_status w) (lock_gate_timer w) (lock_gate_timeout_counts w)
    (battery_switch_timer w) (battery_switch_timeout_counts w)
    (rfid_key_detect_timer w).
Definition set_aip_bin_http_address (x : list Z) (w : World) : World :=
  mkWorld
    (now w) (trace w) (params w) (config_file w) (files w) (alarm_mq w) (sms_mq w)
    (gprs_mq w) (local_mq w) (aip_mq w) (mms_mq w) (photo_start_mq w) (mq_gsm w)
    (machine_work_status w) (gsm_rx w) (rfid_rx w) (camera_rx w) (com2_rx_indicate w)
    (usart_data_sem w) (release_com2_data w) (get_photo_fbuf_cmd w)
    (get_photo_len_cmd w) (alarm_inform_event w) (exti_time_old w) (cm_ir_sem w)
    (cm_ir_timer w) (cm_alarm_timer w) (cm_ir_time_value w) (cm_alarm_cnt_time_value w)
    (smsc w) (phone_call w) (gsm_mode w) (gprs_recv_frame w) (aip_bin_size w)
    (mms_alarm_type w) (gprs_order w) (work_alarm_type_map w) (fault_alarm_type_map w)
    x (aip_bin_http_address_length w) (gprs_mail_user w) (battery_status w)
    (lock_gate_timer w) (lock_gate_timeout_counts w) (battery_switch_timer w)
    (battery_switch_timeout_counts w) (rfid_key_detect_timer w).
Definition set_aip_bin_http_address_length (x : Z) (w : World) : World :=
  mkWorld
    (now w) (trace w) (params w) (config_file w) (files w) (alarm_mq w) (sms_mq w)
    (gprs_mq w) (local_mq w) (aip_mq w) (mms_mq w) (photo_start_mq w) (mq_gsm w)
    (machine_work_status w) (gsm_rx w) (rfid_rx w) (camera_rx w) (com2_rx_indicate w)
    (usart_data_sem w) (release_com2_data w) (get_photo_fbuf_cmd w)
    (get_photo_len_cmd w) (alarm_inform_event w) (exti_time_old w) (cm_ir_sem w)
    (cm_ir_timer w) (cm_alarm_timer w) (cm_ir_time_value w) (cm_alarm_cnt_time_value w)
    (smsc w) (phone_call w) (gsm_mode w) (gprs_recv_frame w) (aip_bin_size w)
    (mms_alarm_type w) (gprs_order w) (work_alarm_type_map w) (fault_alarm_type_map w)
    (aip_bin_http_address w) x (gprs_mail_user w) (battery_status w)
    (lock_gate_timer w) (lock_gate_timeout_counts w) (battery_switch_timer w)
    (battery_switch_timeout_counts w) (rfid_key_detect_timer w).
Definition set_gprs_mail_user (x : list Z) (w : World) : World :=
  mkWorld
    (now w) (trace w) (params w) (config_file w) (files w) (alarm_mq w) (sms_mq w)
    (gprs_mq w) (local_mq w) (aip_mq w) (mms_mq w) (photo_start_mq w) (mq_gsm w)
    (machine_work_status w) (gsm_rx w) (rfid_rx w) (camera_rx w) (com2_rx_indicate w)
    (usart_data_sem w) (release_com2_data w) (get_photo_fbuf_cmd w)
    (get_photo_len_cmd w) (alarm_inform_event w) (exti_time_old w) (cm_ir_sem w)
    (cm_ir_timer w) (cm_alarm_timer w) (cm_ir_time_value w) (cm_alarm_cnt_time_value w)
    (smsc w) (phone_call w) (gsm_mode w) (gprs_recv_frame w) (aip_bin_size w)
    (mms_alarm_type w) (gprs_order w) (work_alarm_type_map w) (fault_alarm_type_map w)
    (aip_bin_http_address w) (aip_bin_http_address_length w) x (battery_status w)
    (lock_gate_timer w) (lock_gate_timeout_counts w) (battery_switch_timer w)
    (battery_switch_timeout_counts w) (rfid_key_detect_timer w).
Definition set_battery_status (x : Z) (w : World) : World :=
  mkWorld
    (now w) (trace w) (params w) (config_file w) (files w) (alarm_mq w) (sms_mq w)
    (gprs_mq w) (local_mq w) (aip_mq w) (mms_mq w) (photo_start_mq w) (mq_gsm w)
    (machine_work_status w) (gsm_rx w) (rfid_rx w) (camera_rx w) (com2_rx_indicate w)
    (usart_data_sem w) (release_com2_data w) (get_photo_fbuf_cmd w)
    (get_photo_len_cmd w) (alarm_inform_event w) (exti_time_old w) (cm_ir_sem w)
    (cm_ir_timer w) (cm_alarm_timer w) (cm_ir_time_value w) (cm_alarm_cnt_time_value w)
    (smsc w) (phone_call w) (gsm_mode w) (gprs_recv_frame w) (aip_bin_size w)
    (mms_alarm_type w) (gprs_order w) (work_alarm_type_map w) (fault_alarm_type_map w)
    (aip_bin_http_address w) (aip_bin_http_address_length w) (gprs_mail_user w) x
    (lock_gate_timer w) (lock_gate_timeout_counts w) (battery_switch_timer w)
    (battery_switch_timeout_counts w) (rfid_key_detect_timer w).
Definition set_lock_gate_timer (x : option bool) (w : World) : World :=
  mkWorld
    (now w) (trace w) (params w) (config_file w) (files w) (alarm_mq w) (sms_mq w)
    (gprs_mq w) (local_mq w) (aip_mq w) (mms_mq w) (photo_start_mq w) (mq_gsm w)
    (machine_work_status w) (gsm_rx w) (rfid_rx w) (camera_rx w) (com2_rx_indicate w)
    (usart_data_sem w) (release_com2_data w) (get_photo_fbuf_cmd w)
    (get_photo_len_cmd w) (alarm_inform_event w) (exti_time_old w) (cm_ir_sem w)
    (cm_ir_timer w) (cm_alarm_timer w) (cm_ir_time_value w) (cm_alarm_cnt_time_value w)
    (smsc w) (phone_call w) (gsm_mode w) (gprs_recv_frame w) (aip_bin_size w)
    (mms_alarm_type w) (gprs_order w) (work_alarm_type_map w) (fault_alarm_type_map w)
    (aip_bin_http_address w) (aip_bin_http_address_length w) (gprs_mail_user w)
    (battery_status w) x (lock_gate_timeout_counts w) (battery_switch_timer w)
    (battery_switch_timeout_counts w) (rfid_key_detect_timer w).
Definition set_lock_gate_timeout_counts (x : Z) (w : World) : World :=
  mkWorld
    (now w) (trace w) (params w) (config_file w) (files w) (alarm_mq w) (sms_mq w)
    (gprs_mq w) (local_mq w) (aip_mq w) (mms_mq w) (photo_start_mq w) (mq_gsm w)
    (machine_work_status w) (gsm_rx w) (rfid_rx w) (camera_rx w) (com2_rx_indicate w)
    (usart_data_sem w) (release_com2_data w) (get_photo_fbuf_cmd w)
    (get_photo_len_cmd w) (alarm_inform_event w) (exti_time_old w) (cm_ir_sem w)
    (cm_ir_timer w) (cm_alarm_timer w) (cm_ir_time_value w) (cm_alarm_cnt_time_value w)
    (smsc w) (phone_call w) (gsm_mode w) (gprs_recv_frame w) (aip_bin_size w)
    (mms_alarm_type w) (gprs_order w) (work_alarm_type_map w) (fault_alarm_type_map w)
    (aip_bin_http_address w) (aip_bin_http_address_length w) (gprs_mail_user w)
    (battery_status w) (lock_gate_timer w) x (battery_switch_timer w)
    (battery_switch_timeout_counts w) (rfid_key_detect_timer w).
Definition set_battery_switch_timer (x : option bool) (w : World) : World :=
  mkWorld
    (now w) (trace w) (params w) (config_file w) (files w) (alarm_mq w) (sms_mq w)
    (gprs_mq w) (local_mq w) (aip_mq w) (mms_mq w) (photo_start_mq w) (mq_gsm w)
    (machine_work_status w) (gsm_rx w) (rfid_rx w) (camera_rx w) (com2_rx_indicate w)
    (usart_data_sem w) (release_com2_data w) (get_photo_fbuf_cmd w)
    (get_photo_len_cmd w) (alarm_inform_event w) (exti_time_old w) (cm_ir_sem w)
    (cm_ir_timer w) (cm_alarm_timer w) (cm_ir_time_value w) (cm_alarm_cnt_time_value w)
    (smsc w) (phone_call w) (gsm_mode w) (gprs_recv_frame w) (aip_bin_size w)
    (mms_alarm_type w) (gprs_order w) (work_alarm_type_map w) (fault_alarm_type_map w)
    (aip_bin_http_address w) (aip_bin_http_address_length w) (gprs_mail_user w)
    (battery_status w) (lock_gate_timer w) (lock_gate_timeout_counts w) x
    (battery_switch_timeout_counts w) (rfid_key_detect_timer w).
Definition set_battery_switch_timeout_counts (x : Z) (w : World) : World :=
  mkWorld
    (now w) (trace w) (params w) (config_file w) (files w) (alarm_mq w) (sms_mq w)
    (gprs_mq w) (local_mq w) (aip_mq w) (mms_mq w) (photo_start_mq w) (mq_gsm w)
    (machine_work_status w) (gsm_rx w) (rfid_rx w) (camera_rx w) (com2_rx_indicate w)
    (usart_data_sem w) (release_com2_data w) (get_photo_fbuf_cmd w)
    (get_photo_len_cmd w) (alarm_inform_event w) (exti_time_old w) (cm_ir_sem w)
    (cm_ir_timer w) (cm_alarm_timer w) (cm_ir_time_value w) (cm_alarm_cnt_time_value w)
    (smsc w) (phone_call w) (gsm_mode w) (gprs_recv_frame w) (aip_bin_size w)
    (mms_alarm_type w) (gprs_order w) (work_alarm_type_map w) (fault_alarm_type_map w)
    (aip_bin_http_address w) (aip_bin_http_address_length w) (gprs_mail_user w)
    (battery_status w) (lock_gate_timer w) (lock_gate_timeout_counts w)
    (battery_switch_timer w) x (rfid_key_detect_timer w).
Definition set_rfid_key_detect_timer (x : option bool) (w : World) : World :=
  mkWorld
    (now w) (trace w) (params w) (config_file w) (files w) (alarm_mq w) (sms_mq w)
    (gprs_mq w) (local_mq w) (aip_mq w) (mms_mq w) (photo_start_mq w) (mq_gsm w)
    (machine_work_status w) (gsm_rx w) (rfid_rx w) (camera_rx w) (com2_rx_indicate w)
    (usart_data_sem w) (release_com2_data w) (get_photo_fbuf_cmd w)
    (get_photo_len_cmd w) (alarm_inform_event w) (exti_time_old w) (cm_ir_sem w)
    (cm_ir_timer w) (cm_alarm_timer w) (cm_ir_time_value w) (cm_alarm_cnt_time_value w)
    (smsc w) (phone_call w) (gsm_mode w) (gprs_recv_frame w) (aip_bin_size w)
    (mms_alarm_type w) (gprs_order w) (work_alarm_type_map w) (fault_alarm_type_map w)
    (aip_bin_http_address w) (aip_bin_http_address_length w) (gprs_mail_user w)
    (battery_status w) (lock_gate_timer w) (lock_gate_timeout_counts w)
    (battery_switch_timer w) (battery_switch_timeout_counts w) x.

(** Two states are equal if their variables are; projections of updates compute. *)
Lemma world_ext w w' :
  now w = now w' → trace w = trace w' → params w = params w' →
  config_file w = config_file w' → files w = files w' → alarm_mq w = alarm_mq w' →
  sms_mq w = sms_mq w' → gprs_mq w = gprs_mq w' → local_mq w = local_mq w' →
  aip_mq w = aip_mq w' → mms_mq w = mms_mq w' → photo_start_mq w = photo_start_mq w' →
  mq_gsm w = mq_gsm w' → machine_work_status w = machine_work_status w' →
  gsm_rx w = gsm_rx w' → rfid_rx w = rfid_rx w' → camera_rx w = camera_rx w' →
  com2_rx_indicate w = com2_rx_indicate w' → usart_data_sem w = usart_data_sem w' →
  release_com2_data w = release_com2_data w' →
  get_photo_fbuf_cmd w = get_photo_fbuf_cmd w' →
  get_photo_len_cmd w = get_photo_len_cmd w' →
  alarm_inform_event w = alarm_inform_event w' → exti_time_old w = exti_time_old w' →
  cm_ir_sem w = cm_ir_sem w' → cm_ir_timer w = cm_ir_timer w' →
  cm_alarm_timer w = cm_alarm_timer w' → cm_ir_time_value w = cm_ir_time_value w' →
  cm_alarm_cnt_time_value w = cm_alarm_cnt_time_value w' → smsc w = smsc w' →
  phone_call w = phone_call w' → gsm_mode w = gsm_mode w' →
  gprs_recv_frame w = gprs_recv_frame w' → aip_bin_size w = aip_bin_size w' →
  mms_alarm_type w = mms_alarm_type w' → gprs_order w = gprs_order w' →
  work_alarm_type_map w = work_alarm_type_map w' →
  fault_alarm_type_map w = fault_alarm_type_map w' →
  aip_bin_http_address w = aip_bin_http_address w' →
  aip_bin_http_address_length w = aip_bin_http_address_length w' →
  gprs_mail_user w = gprs_mail_user w' → battery_status w = battery_status w' →
  lock_gate_timer w = lock_gate_timer w' →
  lock_gate_timeout_counts w = lock_gate_timeout_counts w' →
  battery_switch_timer w = battery_switch_timer w' →
  battery_switch_timeout_counts w = battery_switch_timeout_counts w' →
  rfid_key_detect_timer w = rfid_key_detect_timer w' →
  w = w'.
Proof. destruct w, w'. simpl. intros. by subst. Qed.

Ltac world_eq := apply world_ext; try reflexivity.

(** ** Start-up *)

(** The state [rt_application_init] and the threads' initialisation leave: the
    queues are created and empty, the lock is at work; the other variables have
    the values they are declared with. *)
Definition MAIL_MAX_MSGS : nat := 20.
Definition PHOTO_MAX_MSGS : nat := 8.

(** The bits of [alarm_inform_event] (photo.h) *)
Definition INFO_SEND_MMS : Z := 0x01.
Definition INFO_SEND_SMS : Z := 0x02.

(** sizeof(GPRS_RECV_FRAME_TYPEDEF) *)
Definition RECV_FRAME_SIZE : nat := 156.

Definition boot_world (p : DEVICE_PARAMETERS) (http : list Z) : World := {|
  now := 0;
  trace := [];
  params := p;
  config_file := None;
  files := λ _, None;
  alarm_mq := Some (mkQueue [] MAIL_MAX_MSGS);
  sms_mq := Some (mkQueue [] MAIL_MAX_MSGS);
  gprs_mq := Some (mkQueue [] MAIL_MAX_MSGS);
  local_mq := Some (mkQueue [] MAIL_MAX_MSGS);
  aip_mq := Some (mkQueue [] MAIL_MAX_MSGS);
  mms_mq := Some (mkQueue [] MAIL_MAX_MSGS);
  photo_start_mq := Some (mkQueue [] PHOTO_MAX_MSGS);
  mq_gsm := Some (mkQueue [] MAIL_MAX_MSGS);
  machine_work_status := MACHINE_ON_WORK;
  gsm_rx := [];
  rfid_rx := [];
  camera_rx := [];
  com2_rx_indicate := false;
  usart_data_sem := 0;
  release_com2_data := 0;
  get_photo_fbuf_cmd := [0x56; 0x00; 0x32; 0x0C; 0x00; 0x0a; 0x00; 0x00; 0x00; 0x00;
                         0xff; 0xff; 0xff; 0xff; 0x00; 0x00];
  get_photo_len_cmd := [0x56; 0x00; 0x34; 0x01; 0x00];
  alarm_inform_event := Z.lor INFO_SEND_SMS INFO_SEND_MMS;
  exti_time_old := λ _, 0;
  cm_ir_sem := 0;
  cm_ir_timer := false;
  cm_alarm_timer := false;
  cm_ir_time_value := 0;
  cm_alarm_cnt_time_value := 0;
  smsc := repeat 0 20;
  phone_call := repeat 0 20;
  gsm_mode := GSM_MODE_CMD;
  gprs_recv_frame := repeat 0 RECV_FRAME_SIZE;
  aip_bin_size := 0;
  mms_alarm_type := ALARM_TYPE_LOCK_SHELL;
  gprs_order := 0;
  work_alarm_type_map := repeat 0 50;
  fault_alarm_type_map := repeat 0 50;
  aip_bin_http_address := http;
  aip_bin_http_address_length := 0;
  gprs_mail_user := repeat 0 4;
  battery_status := 0;
  lock_gate_timer := None;
  lock_gate_timeout_counts := 0;
  battery_switch_timer := None;
  battery_switch_timeout_counts := 0;
  rfid_key_detect_timer := None
|}.

(** A picture of two full pages and a rest *)
Definition bench_picture : list Z := map (λ i, Z.of_nat i mod 251) (seq 0 1300).

(** A board on which everything is present; the pins and what the uarts receive
    are given.  Its clock stands still. *)
Definition bench_board (pins : DEVICE → nat → Z) (rx : DEVICE → nat → list Z) : Board := {|
  dev_present := λ _, true;
  pin_level := pins;
  uart_arrivals := rx;
  adc_value := λ _, 0xfff;
  rtc_time := λ _, 1370000000;
  rand_seeded := λ x, x `mod` 32768;
  localtime := λ _, mkTm 113 5 8 11 17 29;
  uninit := λ _, 0;
  file_works := λ _ _, true;
  disk_takes := λ _ n, n;
  timer_fires := λ _ _, 0%nat;
  config_opens := λ _, true
|}.
