(* ===== verification/Mq.v ===== *)
(** * RT-Thread's message queues (rt_mq_init, rt_mq_send, rt_mq_urgent and
      rt_mq_recv of src/RT-Thread/src/ipc.c)

    A queue is a pool of slots, each with a [next] pointer and room for a
    message; the waiting messages and the free slots are linked lists.  The
    operations disable interrupts only around each change of the lists: a
    definition below is one such section, and between two of them any other
    thread may run.  [mq_step] has all interleavings; the abstract queue of
    World.v is what they implement. *)
From stdpp Require Import base strings list gmap.
From Stdlib Require Import ZArith Lia.
From S2P Require Import Prelude World.

(** ** The data structure *)

Record rt_mq (A : Type) := mkMq {
  mq_next : gmap nat (option nat);    (* of every slot of the pool *)
  mq_data : gmap nat A;               (* what was copied into it *)
  mq_head : option nat;
  mq_tail : option nat;
  mq_free : option nat;
  mq_entry : Z
}.
Arguments mkMq {A}.
Arguments mq_next {A}.
Arguments mq_data {A}.
Arguments mq_head {A}.
Arguments mq_tail {A}.
Arguments mq_free {A}.
Arguments mq_entry {A}.

Section mq.
Context {A : Type}.
Implicit Types (q : rt_mq A) (i : nat) (x : A).

(** The loop of [rt_mq_init] puts slot after slot in front of the free list. *)
Fixpoint mq_init_loop (temp : nat) (next : gmap nat (option nat)) (free : option nat) (todo : nat)
  : gmap nat (option nat) * option nat :=
  match todo with
  | O => (next, free)
  | S todo => mq_init_loop (S temp) (<[temp := free]> next) (Some temp) todo
  end.

Definition mq_init (max_msgs : nat) : rt_mq A :=
  let '(next, free) := mq_init_loop 0 ∅ None max_msgs in
  mkMq next ∅ None None free 0.

(** The first section of sending: a slot from the free list, if there is one;
    [None] is an access through a bad pointer, here and below. *)
Definition mq_take_free q : option (option nat * rt_mq A) :=
  match mq_free q with
  | None => Some (None, q)
  | Some i =>
      n ← mq_next q !! i;
      Some (Some i, mkMq (mq_next q) (mq_data q) (mq_head q) (mq_tail q) n (mq_entry q))
  end.

(** [msg->next = RT_NULL] *)
Definition mq_set_next (i : nat) (n : option nat) q : rt_mq A :=
  mkMq (<[i := n]> (mq_next q)) (mq_data q) (mq_head q) (mq_tail q) (mq_free q) (mq_entry q).

(** [rt_memcpy (msg + 1, buffer, size)] *)
Definition mq_copy_in (i : nat) (x : A) q : rt_mq A :=
  mkMq (mq_next q) (<[i := x]> (mq_data q)) (mq_head q) (mq_tail q) (mq_free q) (mq_entry q).

(** The second section of [rt_mq_send] *)
Definition mq_link_tail (i : nat) q : option (rt_mq A) :=
  next ← match mq_tail q with
         | Some t => match mq_next q !! t with
                     | Some _ => Some (<[t := Some i]> (mq_next q)) | None => None end
         | None => Some (mq_next q)
         end;
  Some (mkMq next (mq_data q)
    (match mq_head q with None => Some i | Some h => Some h end)
    (Some i) (mq_free q) (u16 (mq_entry q + 1))).

(** The second section of [rt_mq_urgent] *)
Definition mq_link_head (i : nat) q : rt_mq A :=
  mkMq (<[i := mq_head q]> (mq_next q)) (mq_data q) (Some i)
    (match mq_tail q with None => Some i | Some t => Some t end)
    (mq_free q) (u16 (mq_entry q + 1)).

(** The first section of [rt_mq_recv], when there is a message *)
Definition mq_take_head q : option (nat * rt_mq A) :=
  i ← mq_head q;
  n ← mq_next q !! i;
  Some (i, mkMq (mq_next q) (mq_data q) n
    (if bool_decide (mq_tail q = Some i) then None else mq_tail q)
    (mq_free q) (u16 (mq_entry q - 1))).

(** Its second section, after the message was copied out *)
Definition mq_release (i : nat) q : rt_mq A :=
  mkMq (<[i := mq_free q]> (mq_next q)) (mq_data q) (mq_head q) (mq_tail q) (Some i) (mq_entry q).

(** *** The operations, when no other thread runs in between *)

Definition mq_send x q : option (Z * rt_mq A) :=
  '(m, q) ← mq_take_free q;
  match m with
  | None => Some (- RT_EFULL, q)
  | Some i =>
      q ← mq_link_tail i (mq_copy_in i x (mq_set_next i None q));
      Some (RT_EOK, q)
  end.

Definition mq_urgent x q : option (Z * rt_mq A) :=
  '(m, q) ← mq_take_free q;
  match m with
  | None => Some (- RT_EFULL, q)
  | Some i => Some (RT_EOK, mq_link_head i (mq_copy_in i x q))
  end.

(** Without a message the call waits and times out. *)
Definition mq_recv q : option (option A * rt_mq A) :=
  if mq_entry q =? 0 then Some (None, q)
  else
    '(i, q) ← mq_take_head q;
    x ← mq_data q !! i;
    Some (Some x, mq_release i q).

(** ** Interleaved operations *)

(** What a thread that is between two sections holds: a slot to fill with a
    message and link (at the head if [urgent]), or one to copy from and free *)
Inductive pending :=
| P_send (urgent : bool) (x : A) (i : nat)     (* slot taken *)
| P_link (urgent : bool) (x : A) (i : nat)     (* message copied in *)
| P_recv (i : nat).                            (* message unlinked *)

(** What the threads observe *)
Inductive label := L_full | L_start (urgent : bool) (x : A) | L_internal
  | L_sent (urgent : bool) (x : A) | L_take | L_recv (x : A).

Definition mq_fill (urgent : bool) (x : A) (i : nat) q : rt_mq A :=
  mq_copy_in i x (if urgent then q else mq_set_next i None q).

Definition mq_link (urgent : bool) (i : nat) q : option (rt_mq A) :=
  if urgent then Some (mq_link_head i q) else mq_link_tail i q.

Inductive mq_step : rt_mq A * list pending → label → rt_mq A * list pending → Prop :=
| step_full q ps : mq_take_free q = Some (None, q) → mq_step (q, ps) L_full (q, ps)
| step_start urgent x q i q' ps :
    mq_take_free q = Some (Some i, q') →
    mq_step (q, ps) (L_start urgent x) (q', P_send urgent x i :: ps)
| step_fill urgent x i q ps1 ps2 :
    mq_step (q, ps1 ++ P_send urgent x i :: ps2) L_internal
      (mq_fill urgent x i q, ps1 ++ P_link urgent x i :: ps2)
| step_link urgent x i q q' ps1 ps2 :
    mq_link urgent i q = Some q' →
    mq_step (q, ps1 ++ P_link urgent x i :: ps2) (L_sent urgent x) (q', ps1 ++ ps2)
| step_take q i q' ps :
    mq_entry q ≠ 0 → mq_take_head q = Some (i, q') →
    mq_step (q, ps) L_take (q', P_recv i :: ps)
| step_recv i x q ps1 ps2 :
    mq_data q !! i = Some x →
    mq_step (q, ps1 ++ P_recv i :: ps2) (L_recv x) (mq_release i q, ps1 ++ ps2).

(** ** The abstract queue with operations in progress *)

(** A send that will succeed, a message that was taken but not returned yet *)
Inductive progress := A_send (urgent : bool) (x : A) | A_recv (x : A).

(** Messages and operations in progress each use a slot. *)
Inductive spec_step (n : nat) : list A * list progress → label → list A * list progress → Prop :=
| spec_full l ps : (length l + length ps = n)%nat → spec_step n (l, ps) L_full (l, ps)
| spec_start urgent x l ps : (length l + length ps < n)%nat →
    spec_step n (l, ps) (L_start urgent x) (l, A_send urgent x :: ps)
| spec_internal l ps : spec_step n (l, ps) L_internal (l, ps)
| spec_sent urgent x l ps1 ps2 :
    spec_step n (l, ps1 ++ A_send urgent x :: ps2) (L_sent urgent x)
      (if urgent then x :: l else l ++ [x], ps1 ++ ps2)
| spec_take x l ps : spec_step n (x :: l, ps) L_take (l, A_recv x :: ps)
| spec_recv x l ps1 ps2 :
    spec_step n (l, ps1 ++ A_recv x :: ps2) (L_recv x) (l, ps1 ++ ps2).

(** ** The representation *)

(** [p] points to the list of the slots [l]. *)
Inductive chain (next : gmap nat (option nat)) : option nat → list nat → Prop :=
| chain_nil : chain next None []
| chain_cons i n l : next !! i = Some n → chain next n l → chain next (Some i) (i :: l).

Lemma chain_insert next p l i n : i ∉ l → chain next p l → chain (<[i := n]> next) p l.
Proof.
  intros Hi H. induction H as [|j m l Hj H IH]; [constructor|].
  apply not_elem_of_cons in Hi as [Hi Hl]. econstructor; [by rewrite lookup_insert_ne|auto].
Qed.

Lemma chain_inv next p l : chain next p l →
  match p, l with
  | None, [] => True
  | Some i, j :: l => i = j ∧ ∃ n, next !! i = Some n ∧ chain next n l
  | _, _ => False
  end.
Proof. intros []; eauto. Qed.

(** Appending a slot to a list through its last element *)
Lemma chain_snoc next p l t i :
  NoDup (l ++ [t; i]) → next !! i = Some None → chain next p (l ++ [t]) →
  chain (<[t := Some i]> next) p (l ++ [t; i]).
Proof.
  revert p. induction l as [|j l IH]; intros p Hd Hi H; simpl in *.
  - apply chain_inv in H. destruct p as [k|]; [|done]. destruct H as (-> & n & Hn & _).
    apply NoDup_cons in Hd as [Hti _]. econstructor; [by rewrite lookup_insert_eq|].
    econstructor; [|constructor]. rewrite lookup_insert_ne; [done|]. intros ->. by destruct Hti; left.
  - apply chain_inv in H. destruct p as [k|]; [|done]. destruct H as (-> & n & Hn & H).
    apply NoDup_cons in Hd as [Hj Hd]. econstructor; [|by apply IH].
    rewrite lookup_insert_ne; [done|]. intros ->. apply Hj. apply elem_of_app. right. by left.
Qed.

(** The queue [q] of [n] slots: [ql] are the slots of the messages [msgs], [fl]
    the free ones, [held] those of the threads between two sections. *)
Record rep (n : nat) (held : list nat) (msgs : list A) q (ql fl : list nat) : Prop := {
  rep_queue : chain (mq_next q) (mq_head q) ql;
  rep_free : chain (mq_next q) (mq_free q) fl;
  rep_tail : mq_tail q = last ql;
  rep_entry : mq_entry q = Z.of_nat (length ql);
  rep_slots : NoDup (ql ++ fl ++ held);
  rep_count : length (ql ++ fl ++ held) = n;
  rep_data : Forall2 (λ i x, mq_data q !! i = Some x) ql msgs
}.

Definition represents (n : nat) (held : list nat) (msgs : list A) q : Prop :=
  Z.of_nat n < 2 ^ 16 ∧ ∃ ql fl, rep n held msgs q ql fl.

Lemma free_to_held (ql fl held : list nat) i : ql ++ (i :: fl) ++ held ≡ₚ ql ++ fl ++ i :: held.
Proof. f_equiv. apply Permutation_middle. Qed.

Lemma head_to_held (ql fl held : list nat) i : (i :: ql) ++ fl ++ held ≡ₚ ql ++ fl ++ i :: held.
Proof. rewrite !app_assoc. by rewrite <- Permutation_middle. Qed.

Lemma held_to_tail (ql fl held : list nat) i : ql ++ fl ++ i :: held ≡ₚ (ql ++ [i]) ++ fl ++ held.
Proof. rewrite <- app_assoc. f_equiv. by rewrite <- Permutation_middle. Qed.

(** The invariant after slots moved: distinct and counted as before *)
Lemma slots_perm (l l' : list nat) n : l ≡ₚ l' → NoDup l → length l = n → NoDup l' ∧ length l' = n.
Proof. intros H Hd Hn. by rewrite <- H. Qed.

Lemma rep_held_perm n held held' msgs q :
  held ≡ₚ held' → represents n held msgs q → represents n held' msgs q.
Proof.
  intros Hp (Hn & ql & fl & []). split; [done|]. exists ql, fl.
  split; try done; by rewrite <- Hp.
Qed.

Lemma rep_length n held msgs q : represents n held msgs q →
  (length msgs + length held <= n)%nat ∧
  (mq_free q = None ↔ (length msgs + length held = n)%nat) ∧
  mq_entry q = Z.of_nat (length msgs).
Proof.
  intros (Hn & ql & fl & [Hq Hf _ He _ Hc Hd]). rewrite !length_app in Hc.
  apply Forall2_length in Hd. rewrite <- Hd. split; [lia|]. split; [|done].
  apply chain_inv in Hf. destruct (mq_free q), fl; try done; simpl in Hc; split; try done; lia.
Qed.

Lemma take_free_ok n held msgs q : represents n held msgs q →
  match mq_free q with
  | None => mq_take_free q = Some (None, q)
  | Some i => ∃ q', mq_take_free q = Some (Some i, q') ∧ represents n (i :: held) msgs q'
  end.
Proof.
  intros (Hn & ql & fl & [Hq Hf Ht He Hs Hc Hd]). unfold mq_take_free.
  destruct (mq_free q) as [i|]; [|done].
  apply chain_inv in Hf. destruct fl as [|j fl]; [done|]. destruct Hf as (-> & m & Hm & Hf).
  rewrite Hm. simpl. eexists. split; [reflexivity|]. split; [done|]. exists ql, fl.
  destruct (slots_perm _ _ n (free_to_held ql fl held j) Hs Hc). by split.
Qed.

(** A slot that is held is in neither list. *)
Lemma held_apart n held msgs q ql fl i :
  rep n (i :: held) msgs q ql fl → (i ∉ ql) ∧ (i ∉ fl).
Proof.
  intros [_ _ _ _ Hs _ _]. apply NoDup_app in Hs as (_ & H1 & Hs).
  apply NoDup_app in Hs as (_ & H2 & _). split.
  - intros Hi. apply (H1 i Hi), elem_of_app. right. by left.
  - intros Hi. by apply (H2 i Hi); left.
Qed.

Lemma data_insert (ql : list nat) (msgs : list A) (d : gmap nat A) i x :
  i ∉ ql → Forall2 (λ j y, d !! j = Some y) ql msgs →
  Forall2 (λ j y, <[i := x]> d !! j = Some y) ql msgs.
Proof.
  intros Hi H. induction H as [|j y ql msgs Hj H IH]; [constructor|].
  apply not_elem_of_cons in Hi as [Hi Hql]. constructor; [by rewrite lookup_insert_ne|auto].
Qed.

Lemma set_next_ok n held msgs q i m :
  represents n (i :: held) msgs q → represents n (i :: held) msgs (mq_set_next i m q).
Proof.
  intros (Hn & ql & fl & Hr). destruct (held_apart _ _ _ _ _ _ _ Hr).
  destruct Hr as [Hq Hf Ht He Hs Hc Hd]. split; [done|]. exists ql, fl.
  split; try done; by apply chain_insert.
Qed.

Lemma copy_in_ok n held msgs q i x :
  represents n (i :: held) msgs q → represents n (i :: held) msgs (mq_copy_in i x q).
Proof.
  intros (Hn & ql & fl & Hr). destruct (held_apart _ _ _ _ _ _ _ Hr).
  destruct Hr as [Hq Hf Ht He Hs Hc Hd]. split; [done|]. exists ql, fl.
  split; try done. by apply data_insert.
Qed.

Lemma link_tail_ok n held msgs q i x :
  represents n (i :: held) msgs q → mq_next q !! i = Some None → mq_data q !! i = Some x →
  ∃ q', mq_link_tail i q = Some q' ∧ represents n held (msgs ++ [x]) q'.
Proof.
  intros (Hn & ql & fl & Hr) Hni Hdi. destruct (held_apart _ _ _ _ _ _ _ Hr) as [Hiq Hif].
  destruct Hr as [Hq Hf Ht He Hs Hc Hd].
  pose proof Hc as Hlen. rewrite !length_app in Hlen. simpl in Hlen.
  assert (u16 (mq_entry q + 1) = Z.of_nat (length (ql ++ [i]))) as He'.
  { rewrite He, length_app, wrap_small; [simpl; lia|]. unfold fits. lia. }
  destruct (slots_perm _ _ n (held_to_tail ql fl held i) Hs Hc) as [Hs' Hc'].
  assert (Forall2 (λ j y, mq_data q !! j = Some y) (ql ++ [i]) (msgs ++ [x])) as Hd'
    by (apply Forall2_app; [done|by constructor]).
  unfold mq_link_tail. rewrite Ht. destruct ql as [|t l _] using rev_ind.
  - apply chain_inv in Hq. destruct (mq_head q); [done|]. simpl. eexists. split; [reflexivity|].
    split; [done|]. exists [i], fl. split; try done. by econstructor; [|constructor].
  - rewrite last_snoc.
    assert (is_Some (mq_next q !! t)) as [m Hm].
    { clear -Hq. revert Hq. generalize (mq_head q). induction l as [|j l IH]; intros p H;
        apply chain_inv in H; destruct p; try done; destruct H as (-> & m & Hm & H); eauto. }
    rewrite Hm. simpl. eexists. split; [reflexivity|]. split; [done|].
    exists ((l ++ [t]) ++ [i]), fl.
    assert (t ∉ fl) as Htf.
    { intros H. apply NoDup_app in Hs as (_ & H' & _). apply (H' t); [apply elem_of_app; right; by left|].
      apply elem_of_app. by left. }
    split; try done.
    + rewrite <- app_assoc. simpl. assert (mq_head q ≠ None) as Hh.
      { intros E. rewrite E in Hq. apply chain_inv in Hq. by destruct l. }
      destruct (mq_head q) as [h|]; [|done]. cbn [mq_next mq_head].
      apply chain_snoc; [|done|done].
      apply NoDup_app in Hs' as (Hs' & _). by rewrite <- app_assoc in Hs'.
    + cbn [mq_next mq_free]. by apply chain_insert.
    + cbn [mq_tail]. by rewrite last_snoc.
Qed.

Lemma link_head_ok n held msgs q i x :
  represents n (i :: held) msgs q → mq_data q !! i = Some x →
  represents n held (x :: msgs) (mq_link_head i q).
Proof.
  intros (Hn & ql & fl & Hr) Hdi. destruct (held_apart _ _ _ _ _ _ _ Hr) as [Hiq Hif].
  destruct Hr as [Hq Hf Ht He Hs Hc Hd]. split; [done|]. exists (i :: ql), fl.
  pose proof Hc as Hlen. rewrite !length_app in Hlen. simpl in Hlen.
  destruct (slots_perm _ _ n (symmetry (head_to_held ql fl held i)) Hs Hc) as [Hs' Hc'].
  split; try done.
  - cbn [mq_link_head mq_next mq_head]. econstructor; [by rewrite lookup_insert_eq|].
    by apply chain_insert.
  - cbn [mq_link_head mq_next mq_free]. by apply chain_insert.
  - cbn [mq_link_head mq_tail]. rewrite Ht. by destruct ql as [|t l _] using rev_ind;
      [|rewrite app_comm_cons, !last_snoc].
  - cbn [mq_link_head mq_entry]. rewrite He, wrap_small; [simpl; lia|]. unfold fits. lia.
  - constructor; [done|]. done.
Qed.

Lemma take_head_ok n held x msgs q :
  represents n held (x :: msgs) q →
  ∃ i q', mq_take_head q = Some (i, q') ∧ represents n (i :: held) msgs q' ∧
    mq_data q' !! i = Some x.
Proof.
  intros (Hn & ql & fl & [Hq Hf Ht He Hs Hc Hd]).
  destruct ql as [|i ql]; [by inversion Hd|]. apply Forall2_cons in Hd as [Hx Hd].
  apply chain_inv in Hq. unfold mq_take_head. destruct (mq_head q) as [j|]; [|done].
  destruct Hq as (-> & m & Hm & Hq). simpl. rewrite Hm. simpl.
  exists i. eexists. split; [reflexivity|]. split; [|done]. split; [done|]. exists ql, fl.
  pose proof Hc as Hlen. rewrite !length_app in Hlen. simpl in Hlen.
  destruct (slots_perm _ _ n (head_to_held ql fl held i) Hs Hc) as [Hs' Hc'].
  split; try done.
  - cbn [mq_tail]. rewrite Ht. destruct ql as [|t l _] using rev_ind.
    + by rewrite bool_decide_eq_true_2.
    + rewrite app_comm_cons, !last_snoc. rewrite bool_decide_eq_false_2; [done|].
      intros [= ->]. apply NoDup_app in Hs as (Hs & _). apply NoDup_cons in Hs as [Hs _].
      apply Hs, elem_of_app. right. by left.
  - cbn [mq_entry]. rewrite He. rewrite wrap_small; [simpl; lia|]. unfold fits. simpl. lia.
Qed.

Lemma release_ok n held msgs q i :
  represents n (i :: held) msgs q → represents n held msgs (mq_release i q).
Proof.
  intros (Hn & ql & fl & Hr). destruct (held_apart _ _ _ _ _ _ _ Hr) as [Hiq Hif].
  destruct Hr as [Hq Hf Ht He Hs Hc Hd]. split; [done|]. exists ql, (i :: fl).
  destruct (slots_perm _ _ n (symmetry (free_to_held ql fl held i)) Hs Hc) as [Hs' Hc'].
  split; try done.
  - cbn [mq_release mq_next mq_head]. by apply chain_insert.
  - cbn [mq_release mq_next mq_free]. econstructor; [by rewrite lookup_insert_eq|].
    by apply chain_insert.
Qed.

(** The empty queue *)
Lemma init_loop_ok todo : ∀ temp next free fl,
  chain next free fl → NoDup fl → (∀ i, i ∈ fl → (i < temp)%nat) →
  ∃ fl', let '(next', free') := mq_init_loop temp next free todo in
    chain next' free' fl' ∧ NoDup fl' ∧ length fl' = (length fl + todo)%nat.
Proof.
  induction todo as [|todo IH]; intros temp next free fl Hc Hd Hlt; cbn [mq_init_loop].
  - exists fl. split_and!; [done|done|lia].
  - assert (temp ∉ fl) as Hn by (intros H; apply Hlt in H; lia).
    destruct (IH (S temp) (<[temp := free]> next) (Some temp) (temp :: fl)) as (fl' & H).
    + econstructor; [by rewrite lookup_insert_eq|]. by apply chain_insert.
    + by apply NoDup_cons.
    + intros i Hi. apply elem_of_cons in Hi as [->|Hi]; [lia|]. apply Hlt in Hi. lia.
    + exists fl'. destruct (mq_init_loop _ _ _ _). destruct H as (? & ? & Hl).
      split_and!; [done|done|]. simpl in Hl. lia.
Qed.

Lemma init_ok n : Z.of_nat n < 2 ^ 16 → represents n [] [] (mq_init n).
Proof.
  intros Hn. split; [done|].
  destruct (init_loop_ok n 0 ∅ None [] (chain_nil _) (NoDup_nil_2) ltac:(by intros ? ?%not_elem_of_nil))
    as (fl & H).
  unfold mq_init. destruct (mq_init_loop 0 ∅ None n) as [next free]. destruct H as (H1 & H2 & H3).
  exists [], fl. split; simpl; try done; [constructor|by rewrite app_nil_r|by rewrite app_nil_r].
Qed.

(** ** Alone, the operations are those of the abstract queue *)

Lemma send_ok n msgs q x :
  represents n [] msgs q →
  ∃ q', mq_send x q = Some (fst (q_send x (mkQueue msgs n)), q') ∧
    represents n [] (q_msgs (snd (q_send x (mkQueue msgs n)))) q'.
Proof.
  intros Hr. destruct (rep_length _ _ _ _ Hr) as (Hle & Hfull & _). simpl in Hle, Hfull.
  pose proof (take_free_ok _ _ _ _ Hr) as Ht. unfold mq_send, q_send. cbn [q_msgs q_max].
  destruct (mq_free q) as [i|].
  - destruct Ht as (q1 & E & H1). rewrite E. cbn [mbind option_bind].
    destruct (Nat.ltb_spec (length msgs) n) as [_|Hge]; [|destruct Hfull as [_ Hf]; by (specialize (Hf ltac:(lia)))].
    destruct (link_tail_ok n [] msgs (mq_copy_in i x (mq_set_next i None q1)) i x) as (q2 & E2 & H2).
    + by apply copy_in_ok, set_next_ok.
    + apply lookup_insert_eq.
    + apply lookup_insert_eq.
    + rewrite E2. by exists q2.
  - rewrite Ht. destruct Hfull as [Hf _]. specialize (Hf eq_refl).
    destruct (Nat.ltb_spec (length msgs) n); [lia|]. by exists q.
Qed.

Lemma urgent_ok n msgs q x :
  represents n [] msgs q →
  ∃ q', mq_urgent x q = Some (fst (q_urgent x (mkQueue msgs n)), q') ∧
    represents n [] (q_msgs (snd (q_urgent x (mkQueue msgs n)))) q'.
Proof.
  intros Hr. destruct (rep_length _ _ _ _ Hr) as (Hle & Hfull & _). simpl in Hle, Hfull.
  pose proof (take_free_ok _ _ _ _ Hr) as Ht. unfold mq_urgent, q_urgent. cbn [q_msgs q_max].
  destruct (mq_free q) as [i|].
  - destruct Ht as (q1 & E & H1). rewrite E. cbn [mbind option_bind].
    destruct (Nat.ltb_spec (length msgs) n) as [_|Hge]; [|destruct Hfull as [_ Hf]; by (specialize (Hf ltac:(lia)))].
    eexists. split; [reflexivity|]. apply link_head_ok; [by apply copy_in_ok|apply lookup_insert_eq].
  - rewrite Ht. destruct Hfull as [Hf _]. specialize (Hf eq_refl).
    destruct (Nat.ltb_spec (length msgs) n); [lia|]. by exists q.
Qed.

Lemma recv_ok n msgs q :
  represents n [] msgs q →
  ∃ q', mq_recv q = Some (head msgs, q') ∧ represents n [] (tail msgs) q'.
Proof.
  intros Hr. destruct (rep_length _ _ _ _ Hr) as (_ & _ & He). unfold mq_recv. rewrite He.
  destruct msgs as [|x msgs]; [by exists q|]. simpl length.
  destruct (Z.eqb_spec (Z.of_nat (S (length msgs))) 0); [lia|].
  destruct (take_head_ok _ _ _ _ _ Hr) as (i & q1 & E & H1 & Hd). rewrite E. cbn [mbind option_bind].
  rewrite Hd. cbn [mbind option_bind]. eexists. split; [reflexivity|]. by apply release_ok.
Qed.

(** The linked lists are a bounded queue: on a queue of [n]
    slots (less than 65536, the range of its counter) that holds the messages
    [msgs], sending, sending urgently and receiving without interference
    return what the abstract queue of World.v returns, full and empty queues
    included, and leave a queue that holds what that one holds; no bad pointer
    is followed.  A new queue is empty. *)
Lemma mq_implements_queue n msgs q x :
  represents n [] msgs q →
  (∃ q', mq_send x q = Some (fst (q_send x (mkQueue msgs n)), q') ∧
    represents n [] (q_msgs (snd (q_send x (mkQueue msgs n)))) q') ∧
  (∃ q', mq_urgent x q = Some (fst (q_urgent x (mkQueue msgs n)), q') ∧
    represents n [] (q_msgs (snd (q_urgent x (mkQueue msgs n)))) q') ∧
  (∃ q', mq_recv q = Some (fst <$> q_recv (mkQueue msgs n), q') ∧
    represents n [] (match q_recv (mkQueue msgs n) with
                     | Some (_, a) => q_msgs a | None => msgs end) q') ∧
  represents n [] [] (mq_init n).
Proof.
  intros Hr. split; [by apply send_ok|]. split; [by apply urgent_ok|]. split.
  - destruct (recv_ok _ _ _ Hr) as (q' & E & H). exists q'. by destruct msgs.
  - apply init_ok, Hr.
Qed.

(** ** Any interleaving is one of the abstract queue *)

Definition slot (p : pending) : nat :=
  match p with P_send _ _ i | P_link _ _ i | P_recv i => i end.

(** What a thread holds and what it will do with it *)
Definition matches q (p : pending) (a : progress) : Prop :=
  match p, a with
  | P_send u x _, A_send u' x' => u = u' ∧ x = x'
  | P_link u x i, A_send u' x' =>
      u = u' ∧ x = x' ∧ mq_data q !! i = Some x ∧ (u = false → mq_next q !! i = Some None)
  | P_recv i, A_recv x => mq_data q !! i = Some x
  | _, _ => False
  end.

Definition simulates (n : nat) (c : rt_mq A * list pending) (a : list A * list progress) : Prop :=
  represents n (map slot (snd c)) (fst a) (fst c) ∧ Forall2 (matches (fst c)) (snd c) (snd a).

Lemma held_nodup n held msgs q : represents n held msgs q → NoDup held.
Proof.
  intros (_ & ql & fl & [_ _ _ _ Hs _ _]). apply NoDup_app in Hs as (_ & _ & Hs).
  by apply NoDup_app in Hs as (_ & _ & Hs).
Qed.

(** The other threads' slots are not touched. *)
Definition untouched (held : list nat) q q' : Prop :=
  ∀ j, j ∈ held → mq_next q' !! j = mq_next q !! j ∧ mq_data q' !! j = mq_data q !! j.

Lemma untouched_matches q q' ps qs :
  untouched (map slot ps) q q' → Forall2 (matches q) ps qs → Forall2 (matches q') ps qs.
Proof.
  intros Hu H. induction H as [|p a ps qs Hp H IH]; [constructor|]. constructor.
  - destruct (Hu (slot p)) as [H1 H2]; [by left|]. destruct p, a; simpl in *; try done.
    + by rewrite H1, H2.
    + by rewrite H2.
  - apply IH. intros j Hj. apply Hu. by right.
Qed.

Lemma untouched_insert i held q q' n x :
  i ∉ held →
  mq_next q' = <[i := n]> (mq_next q) ∨ mq_next q' = mq_next q →
  mq_data q' = <[i := x]> (mq_data q) ∨ mq_data q' = mq_data q → untouched held q q'.
Proof.
  intros Hi Hn Hd j Hj. assert (i ≠ j) by (by intros ->).
  destruct Hn as [->| ->], Hd as [->| ->]; by rewrite ?lookup_insert_ne.
Qed.

Lemma link_tail_untouched n held msgs q i q' :
  represents n (i :: held) msgs q → mq_link_tail i q = Some q' → untouched held q q'.
Proof.
  intros (_ & ql & fl & [_ _ Ht _ Hs _ _]) E. unfold mq_link_tail in E. rewrite Ht in E.
  destruct (last ql) as [t|] eqn:El.
  - destruct (mq_next q !! t); [|done]. injection E as <-. intros j Hj. cbn [mq_next mq_data].
    rewrite lookup_insert_ne; [done|]. intros ->.
    apply NoDup_app in Hs as (_ & Hs & _). apply (Hs j).
    + apply last_Some in El as [l ->]. apply elem_of_app. right. by left.
    + apply elem_of_app. right. by right.
  - by injection E as <-.
Qed.

Lemma slots_middle ps1 p ps2 :
  map slot (ps1 ++ p :: ps2) ≡ₚ slot p :: map slot (ps1 ++ ps2).
Proof. rewrite !map_app. simpl. by rewrite <- Permutation_middle. Qed.

(** One operation among the pending ones, and the others *)
Lemma middle_inv q ps1 p ps2 qs :
  Forall2 (matches q) (ps1 ++ p :: ps2) qs →
  ∃ qs1 a qs2, qs = qs1 ++ a :: qs2 ∧ matches q p a ∧
    ∀ q', untouched (map slot (ps1 ++ ps2)) q q' →
      Forall2 (matches q') ps1 qs1 ∧ Forall2 (matches q') ps2 qs2.
Proof.
  intros H. apply Forall2_app_inv_l in H as (qs1 & qs' & H1 & H2 & ->).
  apply Forall2_cons_inv_l in H2 as (a & qs2 & Ha & H2 & ->).
  exists qs1, a, qs2. split; [done|]. split; [done|]. intros q' Hu.
  split; (eapply untouched_matches; [|done]); intros k Hk; apply Hu;
    rewrite map_app; apply elem_of_app; auto.
Qed.

Lemma fill_spec n held msgs q u x i :
  represents n (i :: held) msgs q →
  represents n (i :: held) msgs (mq_fill u x i q) ∧ untouched held q (mq_fill u x i q) ∧
  mq_data (mq_fill u x i q) !! i = Some x ∧
  (u = false → mq_next (mq_fill u x i q) !! i = Some None).
Proof.
  intros Hr. pose proof (held_nodup _ _ _ _ Hr) as Hd. apply NoDup_cons in Hd as [Hi _].
  unfold mq_fill. split_and!.
  - apply copy_in_ok. destruct u; [done|by apply set_next_ok].
  - apply (untouched_insert i _ _ _ None x); [done| |]; destruct u; first [by left|by right].
  - apply lookup_insert_eq.
  - intros ->. apply lookup_insert_eq.
Qed.

Lemma link_spec n held msgs q u x i :
  represents n (i :: held) msgs q → mq_data q !! i = Some x →
  (u = false → mq_next q !! i = Some None) →
  ∃ q', mq_link u i q = Some q' ∧
    represents n held (if u then x :: msgs else msgs ++ [x]) q' ∧ untouched held q q'.
Proof.
  intros Hr Hd Hn. pose proof (held_nodup _ _ _ _ Hr) as Hnd. apply NoDup_cons in Hnd as [Hi _].
  destruct u; simpl.
  - eexists. split; [reflexivity|]. split; [by apply link_head_ok|].
    apply (untouched_insert i _ _ _ (mq_head q) x); [done|by left|by right].
  - destruct (link_tail_ok _ _ _ _ _ _ Hr (Hn eq_refl) Hd) as (q' & E & H). exists q'.
    split; [done|]. split; [done|]. by eapply link_tail_untouched.
Qed.

Lemma step_simulates n c a l c' :
  simulates n c a → mq_step c l c' → ∃ a', spec_step n a l a' ∧ simulates n c' a'.
Proof.
  intros [Hr Hm] Hs. destruct a as [msgs qs].
  destruct Hs as [q ps E|u x q i q' ps E|u x i q ps1 ps2|u x i q q' ps1 ps2 E|q i q' ps Hne E|i x q ps1 ps2 E];
    simpl in Hr, Hm.
  - exists (msgs, qs). split; [|done]. constructor.
    destruct (rep_length _ _ _ _ Hr) as (_ & Hf & _). rewrite length_map in Hf.
    rewrite <- (Forall2_length _ _ _ Hm). apply Hf. unfold mq_take_free in E.
    destruct (mq_free q) as [i|]; [|done]. by destruct (mq_next q !! i).
  - exists (msgs, A_send u x :: qs). pose proof (take_free_ok _ _ _ _ Hr) as Ht.
    destruct (mq_free q) as [j|] eqn:Ef; [|by rewrite Ht in E].
    destruct Ht as (q1 & E1 & H1). rewrite E1 in E. injection E as -> ->. split.
    + constructor. destruct (rep_length _ _ _ _ H1) as (Hl & _). simpl in Hl.
      rewrite length_map in Hl. rewrite <- (Forall2_length _ _ _ Hm). lia.
    + split; [done|]. constructor; [done|]. simpl. eapply untouched_matches; [|exact Hm].
      unfold mq_take_free in E1. rewrite Ef in E1. destruct (mq_next q !! i); [|done].
      injection E1 as <-. by split.
  - exists (msgs, qs). split; [constructor|].
    destruct (middle_inv _ _ _ _ _ Hm) as (qs1 & a & qs2 & -> & Ha & Hrest).
    apply (rep_held_perm _ _ _ _ _ (slots_middle _ _ _)) in Hr. cbn [slot] in Hr.
    destruct (fill_spec n _ _ _ u x i Hr) as (H1 & Hu & Hd & Hn).
    destruct (Hrest _ Hu) as [Hl1 Hl2]. destruct a as [u' x'|]; [|done].
    destruct Ha as [-> ->]. split; cbn [fst snd].
    + exact (rep_held_perm _ _ _ _ _ (symmetry (slots_middle ps1 (P_link u' x' i) ps2)) H1).
    + apply Forall2_app; [done|]. by constructor.
  - destruct (middle_inv _ _ _ _ _ Hm) as (qs1 & a & qs2 & -> & Ha & Hrest).
    destruct a as [u' x'|]; [|done]. destruct Ha as (-> & -> & Hd & Hn).
    apply (rep_held_perm _ _ _ _ _ (slots_middle _ _ _)) in Hr. cbn [slot] in Hr.
    destruct (link_spec _ _ _ _ _ _ _ Hr Hd Hn) as (q2 & E2 & H2 & Hu).
    rewrite E2 in E. injection E as ->.
    eexists. split; [apply spec_sent|]. destruct (Hrest _ Hu). split; [done|]. by apply Forall2_app.
  - destruct (rep_length _ _ _ _ Hr) as (_ & _ & He).
    destruct msgs as [|x msgs]; [by rewrite He in Hne|].
    destruct (take_head_ok _ _ _ _ _ Hr) as (i' & q2 & E2 & H2 & Hd). rewrite E2 in E.
    injection E as -> ->. eexists. split; [apply spec_take|]. split; [done|].
    constructor; [done|]. simpl. eapply untouched_matches; [|exact Hm].
    unfold mq_take_head in E2. destruct (mq_head q) as [h|]; [|done]. simpl in E2.
    destruct (mq_next q !! h); [|done]. simpl in E2. injection E2 as <- <-. by split.
  - destruct (middle_inv _ _ _ _ _ Hm) as (qs1 & a & qs2 & -> & Ha & Hrest).
    destruct a as [|x']; [done|]. simpl in Ha. rewrite E in Ha. injection Ha as <-.
    apply (rep_held_perm _ _ _ _ _ (slots_middle _ _ _)) in Hr. cbn [slot] in Hr.
    eexists. split; [apply spec_recv|].
    assert (untouched (map slot (ps1 ++ ps2)) q (mq_release i q)) as Hu.
    { pose proof (held_nodup _ _ _ _ Hr) as Hd. apply NoDup_cons in Hd as [Hi _].
      by apply (untouched_insert i _ _ _ (mq_free q) x); [|left|right]. }
    destruct (Hrest _ Hu). split; [by apply release_ok|]. by apply Forall2_app.
Qed.

(** Sequences of steps with what is observed *)
Inductive steps {S L : Type} (step : S → L → S → Prop) : S → list L → S → Prop :=
| steps_nil s : steps step s [] s
| steps_cons s l s1 ls s2 : step s l s1 → steps step s1 ls s2 → steps step s (l :: ls) s2.

Lemma steps_simulate n ls : ∀ c c' a,
  simulates n c a → steps mq_step c ls c' → ∃ a', steps (spec_step n) a ls a' ∧ simulates n c' a'.
Proof.
  induction ls as [|l ls IH]; intros c c' a Hs H; inversion H; subst.
  - exists a. split; [constructor|done].
  - destruct (step_simulates _ _ _ _ _ Hs ltac:(eassumption)) as (a1 & H1 & Hs1).
    destruct (IH _ _ _ Hs1 ltac:(eassumption)) as (a' & H2 & Hs2).
    exists a'. split; [by econstructor|done].
Qed.

(** No thread is stuck on a bad pointer. *)
Definition no_bad_pointer (c : rt_mq A * list pending) : Prop :=
  let '(q, ps) := c in
  is_Some (mq_take_free q) ∧ (mq_entry q ≠ 0 → is_Some (mq_take_head q)) ∧
  ∀ p, p ∈ ps → match p with
                | P_send _ _ _ => True
                | P_link u _ i => is_Some (mq_link u i q)
                | P_recv i => is_Some (mq_data q !! i)
                end.

Lemma simulates_no_bad n c a : simulates n c a → no_bad_pointer c.
Proof.
  destruct c as [q ps], a as [msgs qs]. intros [Hr Hm]. simpl in Hr, Hm. split_and!.
  - pose proof (take_free_ok _ _ _ _ Hr) as H. destruct (mq_free q); [|rewrite H; eauto].
    destruct H as (q' & -> & _). eauto.
  - intros Hne. destruct (rep_length _ _ _ _ Hr) as (_ & _ & He).
    destruct msgs as [|x msgs]; [by rewrite He in Hne|].
    destruct (take_head_ok _ _ _ _ _ Hr) as (i & q' & -> & _). eauto.
  - intros p Hp. apply list_elem_of_split in Hp as (ps1 & ps2 & ->).
    destruct (middle_inv _ _ _ _ _ Hm) as (qs1 & a & qs2 & -> & Ha & _).
    apply (rep_held_perm _ _ _ _ _ (slots_middle _ _ _)) in Hr.
    destruct p as [|u x i|i], a as [u' x'|x']; try done; simpl in Ha.
    + destruct Ha as (-> & -> & Hd & Hn). cbn [slot] in Hr.
      destruct (link_spec _ _ _ _ _ _ _ Hr Hd Hn) as (q' & -> & _). eauto.
Qed.

(** C9 (refinement). However the sections of any number of sending and
    receiving threads interleave, from a new queue on: what the threads observe
    (a full queue, the order of the messages received) is what they observe of
    the abstract queue in which every operation in progress uses one of the [n]
    places, and no thread ever meets a bad pointer. *)
Theorem mq_interleavings_refine n ls c :
  Z.of_nat n < 2 ^ 16 → steps mq_step (mq_init n, []) ls c →
  (∃ l ps, steps (spec_step n) ([], []) ls (l, ps) ∧ represents n (map slot (snd c)) l (fst c)) ∧
  no_bad_pointer c.
Proof.
  intros Hn H. assert (simulates n (mq_init n, []) ([], [])) as Hs.
  { split; [by apply init_ok|constructor]. }
  destruct (steps_simulate _ _ _ _ _ Hs H) as ([l ps] & H1 & H2).
  split; [|by eapply simulates_no_bad]. exists l, ps. split; [done|apply H2].
Qed.
End mq.

(** ** Concrete runs *)

Lemma mq_implements_queue_witness :
  let q := mq_init (A:=Z) 2 in
  (∃ q', mq_send 7 q = Some (RT_EOK, q') ∧ represents 2 [] [7] q') ∧
  (∃ q', mq_urgent 7 q = Some (RT_EOK, q') ∧ represents 2 [] [7] q') ∧
  (∃ q', mq_recv q = Some (None, q') ∧ represents 2 [] [] q') ∧
  represents 2 [] [] q.
Proof.
  apply (mq_implements_queue 2 [] (mq_init (A:=Z) 2) 7). apply init_ok. lia.
Defined.

(** Two senders and a receiver: the second message is linked first. *)
Lemma mq_interleavings_refine_witness :
  ∃ ls c, steps mq_step (mq_init (A:=Z) 2, []) ls c ∧
    ((∃ l ps, steps (spec_step 2) ([], []) ls (l, ps) ∧ represents 2 (map slot (snd c)) l (fst c)) ∧
     no_bad_pointer c) ∧
    ls = [L_start false 1; L_start false 2; L_full; L_internal; L_sent false 2; L_take; L_recv 2].
Proof.
  eexists [L_start false 1; L_start false 2; L_full; L_internal; L_sent false 2; L_take; L_recv 2], _.
  match goal with |- ?H ∧ _ => assert H as Hs end; [|
    split; [exact Hs|split; [|reflexivity]]; apply (mq_interleavings_refine 2 _ _ ltac:(lia) Hs)].
  econstructor; [by eapply (step_start false 1)|].
  econstructor; [by eapply (step_start false 2)|].
  econstructor; [by apply step_full|].
  econstructor; [apply (step_fill false 2 0 _ [] [P_send false 1 1])|].
  econstructor; [by eapply (step_link false 2 0 _ _ [] [P_send false 1 1])|].
  econstructor; [by eapply step_take|].
  econstructor; [by apply (step_recv 0 2 _ [] [P_send false 1 1])|].
  constructor.
Defined.
