(* ===== verification/Serial.v ===== *)
(** * The receive buffer of a uart (RT-Thread/components/drivers/serial/serial.c)

    The interrupt handler puts the received bytes into a ring buffer, the
    threads read from it.  The ring, with its two wrapping indexes, refines a
    list that holds at most [RX_CAPACITY] bytes and forgets the oldest. *)
From stdpp Require Import base strings list.
From Stdlib Require Import ZArith Lia.
From S2P Require Import Prelude.

(** ** What the buffer does *)

Definition RX_CAPACITY : nat := 2047.

(** A byte is received: when the buffer is full the oldest byte is lost. *)
Definition rx_put (l : list Z) (c : Z) : list Z :=
  if (length l <? RX_CAPACITY)%nat then l ++ [c] else tl (l ++ [c]).

Fixpoint rx_receive (l cs : list Z) : list Z :=
  match cs with [] => l | c :: cs => rx_receive (rx_put l c) cs end.

Lemma rx_receive_fits cs : ∀ l, (length l + length cs <= RX_CAPACITY)%nat → rx_receive l cs = l ++ cs.
Proof.
  induction cs as [|c cs IH]; intros l H; cbn [rx_receive]; [by rewrite app_nil_r|].
  simpl in H. unfold rx_put. destruct (Nat.ltb_spec (length l) RX_CAPACITY); [|lia].
  rewrite IH by (rewrite length_app; simpl; lia). by rewrite <- app_assoc.
Qed.

Module ring.

(** ** The ring of serial.c *)

Definition SERIAL_RBUFFER_SIZE : Z := 1024 * 2.

Record serial_ringbuffer := mkRing {
  buffer : list Z;
  put_index : Z;
  get_index : Z
}.

Definition next_index (i : Z) : Z := Z.land (i + 1) (SERIAL_RBUFFER_SIZE - 1).

Definition serial_ringbuffer_init : serial_ringbuffer :=
  mkRing (repeat 0 (Z.to_nat SERIAL_RBUFFER_SIZE)) 0 0.

Definition serial_ringbuffer_putc (r : serial_ringbuffer) (ch : Z) : serial_ringbuffer :=
  let buf := <[Z.to_nat (put_index r) := ch]> (buffer r) in
  let put := next_index (put_index r) in
  mkRing buf put (if put =? get_index r then next_index (get_index r) else get_index r).

(** Used for transmission: refuses when the ring is full *)
Definition serial_ringbuffer_putchar (r : serial_ringbuffer) (ch : Z) : Z * serial_ringbuffer :=
  if negb (next_index (put_index r) =? get_index r)
  then (1, mkRing (<[Z.to_nat (put_index r) := ch]> (buffer r)) (next_index (put_index r)) (get_index r))
  else (-1, r).

(** -1 when the ring is empty *)
Definition serial_ringbuffer_getc (r : serial_ringbuffer) : Z * serial_ringbuffer :=
  if negb (get_index r =? put_index r)
  then (nth (Z.to_nat (get_index r)) (buffer r) 0,
        mkRing (buffer r) (put_index r) (next_index (get_index r)))
  else (-1, r).

Definition serial_ringbuffer_size (r : serial_ringbuffer) : Z :=
  Z.land (put_index r - get_index r) (SERIAL_RBUFFER_SIZE - 1).

(** The loop of rt_serial_read over at most [size] bytes *)
Fixpoint rt_serial_read (size : nat) (r : serial_ringbuffer) : list Z * serial_ringbuffer :=
  match size with
  | O => ([], r)
  | S size =>
      let '(ch, r') := serial_ringbuffer_getc r in
      if ch =? -1 then ([], r')
      else let '(l, r'') := rt_serial_read size r' in (Z.land ch 0xff :: l, r'')
  end.

(** The loop of rt_hw_serial_isr over the bytes the receiver holds; the callback
    gets the size of the ring. *)
Fixpoint rt_hw_serial_isr (chs : list Z) (r : serial_ringbuffer) : Z * serial_ringbuffer :=
  match chs with
  | [] => (serial_ringbuffer_size r, r)
  | ch :: chs => rt_hw_serial_isr chs (serial_ringbuffer_putc r ch)
  end.

(** ** The bytes in the ring *)

Abbreviation N := 2048%nat.

(** [n] bytes beginning at index [i] *)
Fixpoint segment (buf : list Z) (i : Z) (n : nat) : list Z :=
  match n with
  | O => []
  | S n => nth (Z.to_nat i) buf 0 :: segment buf (next_index i) n
  end.

Definition index (i : Z) : Prop := 0 <= i < 2048.

Record ring_wf (r : serial_ringbuffer) : Prop := {
  ring_length : length (buffer r) = N;
  ring_put : index (put_index r);
  ring_get : index (get_index r);
  ring_bytes : Forall byte (buffer r)
}.

Definition contents (r : serial_ringbuffer) : list Z :=
  segment (buffer r) (get_index r) (Z.to_nat (serial_ringbuffer_size r)).

Lemma land_mod x : Z.land x (SERIAL_RBUFFER_SIZE - 1) = x mod 2048.
Proof. change (SERIAL_RBUFFER_SIZE - 1) with (Z.ones 11). by rewrite Z.land_ones. Qed.

Lemma next_index_wf i : index (next_index i).
Proof. unfold index, next_index. rewrite land_mod. by apply Z.mod_pos_bound. Qed.

Lemma next_index_mod i : index i → next_index i = if i =? 2047 then 0 else i + 1.
Proof.
  intros Hi. unfold next_index, index in *. rewrite land_mod. destruct (Z.eqb_spec i 2047) as [->|].
  - reflexivity.
  - rewrite Z.mod_small by lia. lia.
Qed.

Lemma segment_length buf i n : length (segment buf i n) = n.
Proof. revert i. induction n as [|n IH]; intros i; [done|]. simpl. by rewrite IH. Qed.

(** The last byte of a segment *)
Lemma segment_snoc buf n : ∀ i, index i →
  segment buf i (S n) = segment buf i n ++ [nth (Z.to_nat ((i + Z.of_nat n) mod 2048)) buf 0].
Proof.
  induction n as [|n IH]; intros i Hi.
  - cbn [segment app]. rewrite Z.add_0_r, Z.mod_small by exact Hi. done.
  - change (segment buf i (S (S n))) with (nth (Z.to_nat i) buf 0 :: segment buf (next_index i) (S n)).
    rewrite IH by apply next_index_wf. cbn [segment app]. do 4 f_equal.
    unfold next_index. rewrite land_mod, Z.add_mod_idemp_l by lia.
    by replace (i + 1 + Z.of_nat n) with (i + Z.of_nat (S n)) by lia.
Qed.

(** Writing outside a segment does not change it. *)
Lemma segment_write buf p c n : ∀ i,
  index i → index p → (n <= 2048)%nat → Z.of_nat n <= (p - i) mod 2048 →
  segment (<[Z.to_nat p := c]> buf) i n = segment buf i n.
Proof.
  induction n as [|n IH]; intros i Hi Hp Hn Hd; [done|].
  assert (i ≠ p) as Hne. { intros ->. rewrite Z.sub_diag, Z.mod_0_l in Hd; lia. }
  cbn [segment]. f_equal.
  - unfold index in *. rewrite !nth_lookup, list_lookup_insert_ne by lia. done.
  - apply IH; [apply next_index_wf|done|lia|]. unfold next_index. rewrite land_mod.
    rewrite Zminus_mod_idemp_r.
    replace (p - (i + 1)) with ((p - i) - 1) by lia.
    rewrite (Z.mod_eq (p - i) 2048) in Hd by lia.
    set (q := (p - i) / 2048) in *.
    replace (p - i - 1) with ((p - i - 2048 * q - 1) + q * 2048) by lia.
    rewrite Z.mod_add by lia. rewrite Z.mod_small; [lia|].
    pose proof (Z.mod_pos_bound (p - i) 2048 ltac:(lia)). rewrite Z.mod_eq in H by lia. fold q in H. lia.
Qed.
Lemma ring_size_mod r : serial_ringbuffer_size r = (put_index r - get_index r) mod 2048.
Proof. apply land_mod. Qed.

Lemma size_bound r : 0 <= serial_ringbuffer_size r < 2048.
Proof. rewrite ring_size_mod. by apply Z.mod_pos_bound. Qed.

Lemma contents_length r : length (contents r) = Z.to_nat (serial_ringbuffer_size r).
Proof. apply segment_length. Qed.

(** The byte behind the contents is written at [put_index]. *)
Lemma contents_put r c :
  ring_wf r →
  segment (<[Z.to_nat (put_index r) := c]> (buffer r)) (get_index r)
    (S (Z.to_nat (serial_ringbuffer_size r))) = contents r ++ [c].
Proof.
  intros [L P G _]. pose proof (size_bound r) as Hs. rewrite segment_snoc by done.
  rewrite segment_write; [|done|done|lia|rewrite <- ring_size_mod; lia].
  unfold contents. do 2 f_equal.
  rewrite Z2Nat.id, ring_size_mod, Zplus_mod_idemp_r by lia.
  replace (get_index r + (put_index r - get_index r)) with (put_index r) by lia.
  unfold index in *. rewrite Z.mod_small by done.
  rewrite nth_lookup, list_lookup_insert_eq by (rewrite L; lia). done.
Qed.

Lemma full_iff r :
  ring_wf r → next_index (put_index r) = get_index r ↔ serial_ringbuffer_size r = 2047.
Proof.
  intros [_ P G _]. rewrite ring_size_mod, next_index_mod by done. unfold index in *.
  destruct (Z.eqb_spec (put_index r) 2047) as [E|E].
  - rewrite E. split; intros H.
    + rewrite <- H. reflexivity.
    + rewrite Z.mod_small in H by lia. lia.
  - split; intros H.
    + rewrite <- H. replace (put_index r - (put_index r + 1)) with (-1) by lia. reflexivity.
    + rewrite Z.mod_eq in H by lia. nia.
Qed.

(** A received byte is put behind the others; when the ring is full the oldest
    is lost. *)
Lemma putc_contents r c :
  ring_wf r → byte c →
  ring_wf (serial_ringbuffer_putc r c) ∧
  contents (serial_ringbuffer_putc r c) = rx_put (contents r) c.
Proof.
  intros W Hc. pose proof (contents_put r c W) as E. pose proof (full_iff r W) as F.
  pose proof (size_bound r) as Hs. pose proof W as [L P G B]. split.
  - unfold serial_ringbuffer_putc. split; cbn [buffer put_index get_index].
    + by rewrite length_insert.
    + apply next_index_wf.
    + case_match; [apply next_index_wf|done].
    + by apply Forall_insert.
  - unfold rx_put. rewrite contents_length, <- E. unfold contents, serial_ringbuffer_putc.
    destruct (Z.eqb_spec (next_index (put_index r)) (get_index r)) as [Hf|Hf];
      rewrite (ring_size_mod (mkRing _ _ _)); cbn [buffer put_index get_index].
    + apply F in Hf as Hz. rewrite Hz, Hf. cbn [segment tl].
      assert ((get_index r - next_index (get_index r)) mod 2048 = 2047) as ->.
      { unfold next_index. rewrite land_mod, Zminus_mod_idemp_r.
        replace (get_index r - (get_index r + 1)) with (-1) by lia. reflexivity. }
      reflexivity.
    + destruct (Nat.ltb_spec (Z.to_nat (serial_ringbuffer_size r)) RX_CAPACITY) as [Hl|Hl].
      * f_equal. unfold next_index. rewrite land_mod, Zminus_mod_idemp_l.
        rewrite ring_size_mod in *. unfold RX_CAPACITY in Hl.
        replace (put_index r + 1 - get_index r) with ((put_index r - get_index r) + 1) by lia.
        rewrite <- Zplus_mod_idemp_l, Z.mod_small by lia. lia.
      * exfalso. apply Hf, F. unfold RX_CAPACITY in Hl. lia.
Qed.

Lemma getc_contents r :
  ring_wf r →
  match contents r with
  | [] => serial_ringbuffer_getc r = (-1, r)
  | c :: l => ∃ r', serial_ringbuffer_getc r = (c, r') ∧ byte c ∧ ring_wf r' ∧ contents r' = l
  end.
Proof.
  intros [L P G B]. pose proof (size_bound r) as Hs. unfold contents, serial_ringbuffer_getc.
  destruct (Z.eqb_spec (get_index r) (put_index r)) as [E|E]; cbn [negb].
  - rewrite ring_size_mod, E, Z.sub_diag. done.
  - destruct (Z.to_nat (serial_ringbuffer_size r)) as [|n] eqn:En; cbn [segment].
    + exfalso. rewrite ring_size_mod in *. unfold index in *. rewrite Z.mod_eq in * by lia. nia.
    + eexists. split; [reflexivity|]. split; [|split].
      * unfold index in *. apply (Forall_nth byte 0); [done|lia].
      * split; try done. apply next_index_wf.
      * unfold contents. cbn [buffer get_index]. f_equal.
        rewrite ring_size_mod in *. cbn [put_index get_index]. unfold next_index.
        rewrite land_mod, Zminus_mod_idemp_r.
        replace (put_index r - (get_index r + 1)) with ((put_index r - get_index r) + -1) by lia.
        rewrite <- Zplus_mod_idemp_l, Z.mod_small by lia. lia.
Qed.

Lemma init_wf : ring_wf serial_ringbuffer_init ∧ contents serial_ringbuffer_init = [].
Proof. split; [|reflexivity]. split; [reflexivity|by_computation..]. Qed.

(** Reading gives the oldest bytes and leaves the rest. *)
Lemma read_contents n : ∀ r, ring_wf r →
  ∃ r', rt_serial_read n r = (take n (contents r), r') ∧ ring_wf r' ∧
    contents r' = drop n (contents r).
Proof.
  induction n as [|n IH]; intros r W; cbn [rt_serial_read]; [by exists r|].
  pose proof (getc_contents r W) as H. destruct (contents r) as [|c l] eqn:E.
  - rewrite H. cbn. exists r. by rewrite E.
  - destruct H as (r1 & -> & Hc & W1 & E1). pose proof Hc as [Hc0 Hc1]. change (2 ^ 8) with 256 in Hc1.
    rewrite (proj2 (Z.eqb_neq c (-1))) by lia.
    destruct (IH r1 W1) as (r' & -> & W' & E'). exists r'. rewrite E1 in E' |- *. cbn [take drop].
    change 0xff with (Z.ones 8). rewrite Z.land_ones, Z.mod_small by (try lia; by split).
    done.
Qed.

(** The interrupt handler puts all bytes and reports how many wait. *)
Lemma isr_contents chs : ∀ r, ring_wf r → Forall byte chs →
  ∃ r', rt_hw_serial_isr chs r =
      (Z.of_nat (length (rx_receive (contents r) chs)), r') ∧
    ring_wf r' ∧ contents r' = rx_receive (contents r) chs.
Proof.
  induction chs as [|c chs IH]; intros r W Hb; cbn [rt_hw_serial_isr rx_receive].
  - exists r. rewrite contents_length, Z2Nat.id by apply size_bound. done.
  - apply Forall_cons in Hb as [Hc Hb]. destruct (putc_contents r c W Hc) as [W1 E1].
    destruct (IH _ W1 Hb) as (r' & -> & W' & E'). rewrite E1 in E' |- *. by exists r'.
Qed.
End ring.

(** ** Interleavings of interrupt and reader *)

(** What happens to a receive buffer: bytes arrive, or a thread reads. *)
Inductive rx_op := Rx_arrive (chs : list Z) | Rx_read (n : nat).

(** What the outside sees: the length the callback gets, or the bytes read *)
Inductive rx_result := Rx_length (n : Z) | Rx_bytes (l : list Z).

Definition ring_step (r : ring.serial_ringbuffer) (o : rx_op) : rx_result * ring.serial_ringbuffer :=
  match o with
  | Rx_arrive chs => let '(n, r) := ring.rt_hw_serial_isr chs r in (Rx_length n, r)
  | Rx_read n => let '(l, r) := ring.rt_serial_read n r in (Rx_bytes l, r)
  end.

Definition list_step (l : list Z) (o : rx_op) : rx_result * list Z :=
  match o with
  | Rx_arrive chs => let l := rx_receive l chs in (Rx_length (Z.of_nat (length l)), l)
  | Rx_read n => (Rx_bytes (take n l), drop n l)
  end.

Fixpoint run_ops {S} (step : S → rx_op → rx_result * S) (s : S) (ops : list rx_op) : list rx_result :=
  match ops with
  | [] => []
  | o :: ops => let '(r, s) := step s o in r :: run_ops step s ops
  end.

Definition op_bytes (o : rx_op) : Prop :=
  match o with Rx_arrive chs => Forall byte chs | Rx_read _ => True end.
#[global] Instance op_bytes_dec o : Decision (op_bytes o).
Proof. destruct o; simpl; apply _. Defined.

Lemma ring_step_refines r o :
  ring.ring_wf r → op_bytes o →
  ∃ r', ring_step r o = (fst (list_step (ring.contents r) o), r') ∧ ring.ring_wf r' ∧
    ring.contents r' = snd (list_step (ring.contents r) o).
Proof.
  intros W Ho. destruct o as [chs|n]; cbn [ring_step list_step fst snd].
  - destruct (ring.isr_contents chs r W Ho) as (r' & -> & W' & E'). by exists r'.
  - destruct (ring.read_contents n r W) as (r' & -> & W' & E'). by exists r'.
Qed.

Lemma run_ops_refines ops : ∀ r, ring.ring_wf r → Forall op_bytes ops →
  run_ops ring_step r ops = run_ops list_step (ring.contents r) ops.
Proof.
  induction ops as [|o ops IH]; intros r W H; [done|]. apply Forall_cons in H as [Ho H].
  cbn [run_ops]. destruct (ring_step_refines r o W Ho) as (r' & -> & W' & E').
  destruct (list_step (ring.contents r) o) as [res l]. cbn [fst snd] in *. subst l. f_equal. by apply IH.
Qed.

(** C33 (equivalence). The ring buffer of the serial driver and a plain list
    that drops its oldest byte when it holds 2047 cannot be told apart: for
    every sequence of interrupts and reads, from the initialised ring, the
    bytes read and the lengths reported to the callbacks are the same. *)
Theorem serial_ring_is_list ops :
  Forall op_bytes ops →
  run_ops ring_step ring.serial_ringbuffer_init ops = run_ops list_step [] ops.
Proof.
  intros H. destruct ring.init_wf as [W E]. rewrite <- E. by apply run_ops_refines.
Qed.

Lemma serial_ring_is_list_witness (ops := [Rx_arrive [1; 2; 3]; Rx_read 2; Rx_arrive [4]; Rx_read 8]) :
  run_ops ring_step ring.serial_ringbuffer_init ops =
    [Rx_length 3; Rx_bytes [1; 2]; Rx_length 2; Rx_bytes [3; 4]].
Proof. apply (serial_ring_is_list ops). by_computation. Defined.
