(* ===== verification/Monad.v ===== *)
(** * The handlers' monad and the primitives of the board

    A handler is a function from the [World] to an outcome.  [Fault] stands for
    undefined behaviour of the C code, [NoFuel] for a loop that did not finish
    in the given number of iterations. *)
From stdpp Require Import base functions strings list.
From Stdlib Require Import ZArith Lia.
From S2P Require Import Prelude World.

Inductive outcome (A : Type) :=
| Done (a : A) (w : World)
| Fault
| NoFuel.
Arguments Done {A}.
Arguments Fault {A}.
Arguments NoFuel {A}.

Definition M (A : Type) : Type := World → outcome A.

Definition mreturn {A} (a : A) : M A := λ w, Done a w.

Definition mseq {A B} (m : M A) (k : A → M B) : M B := λ w,
  match m w with
  | Done a w => k a w
  | Fault => Fault
  | NoFuel => NoFuel
  end.

Declare Scope c_scope.
Delimit Scope c_scope with c.
Notation "x <- m ;; k" := (mseq m (λ x, k))
  (at level 100, m at next level, right associativity) : c_scope.
Notation "'both' x y <- m ;; k" := (mseq m (λ '(x, y), k))
  (at level 100, x name, y name, m at next level, right associativity) : c_scope.
Notation "m ;;; k" := (mseq m (λ _, k)) (at level 100, right associativity) : c_scope.
#[global] Open Scope c_scope.

Definition fault {A} : M A := λ _, Fault.
Definition nofuel {A} : M A := λ _, NoFuel.

(** Read or write the state *)
Definition get {A} (f : World → A) : M A := λ w, Done (f w) w.
Definition upd (f : World → World) : M () := λ w, Done () (f w).
Definition emit (e : Event) : M () := upd (λ w, set_trace (trace w ++ [e]) w).

(** [when (b) c]: the C statement [if (b) c] *)
Definition when (b : bool) (m : M ()) : M () := if b then m else mreturn ().

(** A pointer or an index that must be valid *)
Definition deref {A} (o : option A) : M A :=
  match o with Some a => mreturn a | None => fault end.

(** ** Loops *)

(** [n] iterations of a body, as [for (i = 0; i < n; i++)] or [n] rounds of a
    thread's endless loop *)
Fixpoint mrepeat (n : nat) (m : M ()) : M () :=
  match n with
  | O => mreturn ()
  | S n => m ;;; mrepeat n m
  end.

(** ** Laws *)

Lemma mseq_return_l {A B} (a : A) (k : A → M B) w : mseq (mreturn a) k w = k a w.
Proof. done. Qed.

Lemma mseq_return_r {A} (m : M A) w : mseq m mreturn w = m w.
Proof. unfold mseq. by destruct (m w). Qed.

(** Running the first statement *)
Lemma mseq_run {A B} (m : M A) (k : A → M B) w a w1 : m w = Done a w1 → mseq m k w = k a w1.
Proof. unfold mseq. by intros ->. Qed.

Lemma get_run {A B} (f : World → A) (k : A → M B) w : mseq (get f) k w = k (f w) w.
Proof. done. Qed.

Lemma upd_run {B} f (k : () → M B) w : mseq (upd f) k w = k () (f w).
Proof. done. Qed.

Lemma emit_run {B} e (k : () → M B) w :
  mseq (emit e) k w = k () (set_trace (trace w ++ [e]) w).
Proof. done. Qed.

Lemma mseq_assoc {A B C} (m : M A) (k : A → M B) (h : B → M C) w :
  mseq (mseq m k) h w = mseq m (λ a, mseq (k a) h) w.
Proof. unfold mseq. by destruct (m w). Qed.

Lemma mrepeat_1 m w : mrepeat 1 m w = m w.
Proof. simpl. unfold mseq, mreturn. by destruct (m w) as [[]| |]. Qed.

Lemma mrepeat_add n k m w : mrepeat (n + k) m w = (mrepeat n m ;;; mrepeat k m) w.
Proof.
  revert w. induction n as [|n IH]; intros w; simpl; [done|].
  unfold mseq in *. destruct (m w); [apply IH|done..].
Qed.

(** ** Queues *)

(** A message queue is addressed by its field of [World].  Sending to a queue
    that does not exist fails the assertion of the kernel. *)
Definition rt_mq_send {A} (field : World → option (Queue A))
  (store : option (Queue A) → World → World) (x : A) : M Z :=
  o <- get field ;;
  q <- deref o ;;
  let '(r, q) := q_send x q in
  upd (store (Some q)) ;;; mreturn r.

Definition rt_mq_urgent {A} (field : World → option (Queue A))
  (store : option (Queue A) → World → World) (x : A) : M Z :=
  o <- get field ;;
  q <- deref o ;;
  let '(r, q) := q_urgent x q in
  upd (store (Some q)) ;;; mreturn r.

(** [None] is a timeout: nothing was in the queue. *)
Definition rt_mq_recv {A} (field : World → option (Queue A))
  (store : option (Queue A) → World → World) : M (option A) :=
  o <- get field ;;
  q <- deref o ;;
  match q_recv q with
  | None => mreturn None
  | Some (x, q) => upd (store (Some q)) ;;; mreturn (Some x)
  end.

(** ** The board *)

Section board.
Context `{HB : Board}.

(** One observation of the hardware *)
Definition observe {A} (f : nat → A) : M A := λ w,
  Done (f (now w)) (set_now (S (now w)) w).

Lemma observe_run {A B} (f : nat → A) (k : A → M B) w :
  mseq (observe f) k w = k (f (now w)) (set_now (S (now w)) w).
Proof. done. Qed.

Definition rt_thread_delay (ticks : Z) : M () := emit (Ev_delay ticks).

Definition rtc_get_time : M Z := observe rtc_time.

(** rt_device_read of a pin device that exists *)
Definition pin_read (d : DEVICE) : M Z := observe (λ t, u8 (pin_level d t)).

(** gpio_pin.c; the value of a missing pin is an uninitialised variable *)
Definition gpio_pin_input (d : DEVICE) : M Z :=
  if dev_present d then pin_read d else observe (λ t, u8 (uninit t)).

Definition gpio_pin_output (d : DEVICE) (dat : Z) : M () :=
  when (dev_present d) (emit (Ev_write d [dat])).

(** rt_device_write to a uart *)
Definition uart_write (d : DEVICE) (bytes : list Z) : M () := emit (Ev_write d bytes).

(** rt_device_read of at most [n] bytes: what arrived since the last read is
    behind what was waiting. *)
Definition gsm_uart_read (n : nat) : M (list Z) := λ w,
  let buf := gsm_rx w ++ uart_arrivals DEV_GSM_USART (now w) in
  Done (map u8 (take n buf)) (set_gsm_rx (drop n buf) (set_now (S (now w)) w)).

Definition rfid_uart_read (n : nat) : M (list Z) := λ w,
  let buf := rfid_rx w ++ uart_arrivals DEV_RFID_UART (now w) in
  Done (take n buf) (set_rfid_rx (drop n buf) (set_now (S (now w)) w)).

(** gpio_pwm.c: voice_output only wakes the voice thread. *)
Definition voice_output (counts : Z) : M () := emit Ev_voice.

(** ** Files

    Each call is one observation, because it may fail.  A file that is read is
    open at an offset. *)

Definition file_call (f : FILE) : M bool := observe (file_works f).

(** [stat (f).st_size]; [None] is an error. *)
Definition file_stat (f : FILE) : M (option Z) :=
  ok <- file_call f ;;
  o <- get files ;;
  mreturn (if ok : bool then (λ l, Z.of_nat (length l)) <$> o f else None).

(** [open (f, O_RDONLY)] *)
Definition file_open (f : FILE) : M bool :=
  ok <- file_call f ;;
  o <- get files ;;
  mreturn (ok && bool_decide (is_Some (o f))).

(** [open (f, O_CREAT | O_RDWR)]: what is in the file stays. *)
Definition file_create (f : FILE) : M bool :=
  ok <- file_call f ;;
  when ok (upd (λ w, set_files (<[f := Some (default [] (files w f))]> (files w)) w)) ;;;
  mreturn ok.

Definition file_unlink (f : FILE) : M () :=
  ok <- file_call f ;;
  when ok (upd (λ w, set_files (<[f := None]> (files w)) w)).

Lemma file_unlink_works f w :
  file_works f (now w) = true →
  file_unlink f w = Done () (set_files (<[f := None]> (files w)) (set_now (S (now w)) w)).
Proof. intros H. unfold file_unlink, file_call, mseq, observe. by rewrite H. Qed.

Lemma file_create_works f w :
  file_works f (now w) = true →
  file_create f w = Done true
    (set_files (<[f := Some (default [] (files w f))]> (files w)) (set_now (S (now w)) w)).
Proof. intros H. unfold file_create, file_call, mseq, observe. by rewrite H. Qed.

(** [read] of at most [n] bytes at offset [off]; [None] is -1. *)
Definition file_read (f : FILE) (off n : nat) : M (option (list Z)) :=
  ok <- file_call f ;;
  o <- get files ;;
  mreturn (if ok : bool then (λ l, take n (drop off l)) <$> o f else None).

Lemma file_stat_works f w l :
  file_works f (now w) = true → files w f = Some l →
  file_stat f w = Done (Some (Z.of_nat (length l))) (set_now (S (now w)) w).
Proof. intros H E. unfold file_stat, file_call, mseq, observe, get. rewrite H. cbn. by rewrite E. Qed.

Lemma file_open_works f w l :
  file_works f (now w) = true → files w f = Some l →
  file_open f w = Done true (set_now (S (now w)) w).
Proof. intros H E. unfold file_open, file_call, mseq, observe, get. rewrite H. cbn. by rewrite E. Qed.

Lemma file_read_works f w l off n :
  file_works f (now w) = true → files w f = Some l →
  file_read f off n w = Done (Some (take n (drop off l))) (set_now (S (now w)) w).
Proof. intros H E. unfold file_read, file_call, mseq, observe, get. rewrite H. cbn. by rewrite E. Qed.

(** [write] at offset [off], which is not behind the end; the number of bytes
    stored *)
Definition file_write (f : FILE) (off : nat) (bytes : list Z) : M nat :=
  n <- observe (λ t, disk_takes t (length bytes)) ;;
  let stored := take n bytes in
  upd (λ w, set_files (<[f := (λ l, memcpy_at l off stored) <$> files w f]> (files w)) w) ;;;
  mreturn (length stored).

(** [if (!time) read the clock, else time], of every send_..._mail *)
Definition mail_time (time : Z) : M Z :=
  if time =? 0 then rtc_get_time else mreturn time.
End board.

(** ** Symbolic execution

    [run] evaluates the monadic structure of a goal as far as the state is
    known; [destruct_run H] opens an equation [mseq m k w = Done a w']. *)
Create Rewrite HintDb run.

Ltac run_unfold :=
  unfold mseq, mreturn, get, upd, emit, when, deref, observe, rt_mq_send, rt_mq_urgent,
    rt_mq_recv, rt_thread_delay, rtc_get_time, mail_time, pin_read, uart_write, fault, nofuel in *.

Lemma mseq_Done {A B} (m : M A) (k : A → M B) w b w' :
  mseq m k w = Done b w' ↔ ∃ a w1, m w = Done a w1 ∧ k a w1 = Done b w'.
Proof.
  unfold mseq. split.
  - destruct (m w) as [a w1| |] eqn:E; [eauto|done|done].
  - by intros (a & w1 & -> & ?).
Qed.

(** ** Total correctness

    [runs I m R]: from a state in [I], [m] finishes without undefined behaviour
    in a state in [I], with a result in [R]. *)
Definition runs {A} (I : World → Prop) (m : M A) (R : A → Prop) : Prop :=
  ∀ w, I w → ∃ a w', m w = Done a w' ∧ I w' ∧ R a.

Abbreviation safe I m := (runs I m (λ _, True)).

(** [I] does not look at the clock, the trace, the files or what the uarts hold. *)
Class Invariant (I : World → Prop) : Prop := {
  inv_now x w : I w → I (set_now x w);
  inv_trace x w : I w → I (set_trace x w);
  inv_gsm_rx x w : I w → I (set_gsm_rx x w);
  inv_rfid_rx x w : I w → I (set_rfid_rx x w);
  inv_files x w : I w → I (set_files x w)
}.

Section runs.
Context {I : World → Prop}.

Lemma runs_return {A} (a : A) (R : A → Prop) : R a → runs I (mreturn a) R.
Proof. intros H w Hw. by exists a, w. Qed.

Lemma runs_seq {A B} (m : M A) (k : A → M B) (Q : A → Prop) (R : B → Prop) :
  runs I m Q → (∀ a, Q a → runs I (k a) R) → runs I (mseq m k) R.
Proof.
  intros Hm Hk w Hw. destruct (Hm w Hw) as (a & w1 & E & Hw1 & Ha).
  destruct (Hk a Ha w1 Hw1) as (b & w2 & E2 & ? & ?). exists b, w2.
  unfold mseq. by rewrite E.
Qed.

Lemma runs_consequence {A} (m : M A) (Q R : A → Prop) :
  runs I m Q → (∀ a, Q a → R a) → runs I m R.
Proof. intros Hm HQR w Hw. destruct (Hm w Hw) as (a & w' & ? & ? & ?). eauto 6. Qed.

(** The common case: the result is not looked at. *)
Lemma runs_then {A B} (m : M A) (k : A → M B) (R : B → Prop) :
  safe I m → (∀ a, runs I (k a) R) → runs I (mseq m k) R.
Proof. intros Hm Hk. eapply runs_seq; [done|]. auto. Qed.

Lemma safe_weaken {A} (m : M A) (R : A → Prop) : runs I m R → safe I m.
Proof. intros H. by eapply runs_consequence. Qed.

Lemma runs_get {A} (f : World → A) (R : A → Prop) :
  (∀ w, I w → R (f w)) → runs I (get f) R.
Proof. intros H w Hw. exists (f w), w. auto. Qed.

Lemma runs_upd f : (∀ w, I w → I (f w)) → safe I (upd f).
Proof. intros H w Hw. exists (), (f w). auto. Qed.

Lemma runs_when b m : (b = true → safe I m) → safe I (when b m).
Proof. intros H. unfold when. destruct b; [auto|]. by apply runs_return. Qed.

Lemma runs_if {A} (b : bool) (m1 m2 : M A) R :
  (b = true → runs I m1 R) → (b = false → runs I m2 R) → runs I (if b then m1 else m2) R.
Proof. destruct b; auto. Qed.

Lemma runs_mrepeat n m : safe I m → safe I (mrepeat n m).
Proof.
  intros H. induction n as [|n IH]; simpl; [by apply runs_return|].
  by apply runs_then.
Qed.

Context {HI : Invariant I}.

Lemma runs_emit e : safe I (emit e).
Proof. apply runs_upd. intros. by apply inv_trace. Qed.

Lemma runs_observe {A} (f : nat → A) (R : A → Prop) :
  (∀ t, R (f t)) → runs I (observe f) R.
Proof.
  intros H w Hw. exists (f (now w)), (set_now (S (now w)) w).
  split; [done|]. split; [by apply inv_now|done].
Qed.

Context {HB : Board}.

Lemma runs_rtc : safe I rtc_get_time.
Proof. by apply runs_observe. Qed.

Lemma runs_pin_read d : runs I (pin_read d) byte.
Proof. apply runs_observe. intros. by apply wrap_fits. Qed.

Lemma runs_pin_input d : runs I (gpio_pin_input d) byte.
Proof.
  unfold gpio_pin_input. case_match; [apply runs_pin_read|].
  apply runs_observe. intros. by apply wrap_fits.
Qed.

Lemma runs_pin_output d dat : safe I (gpio_pin_output d dat).
Proof. apply runs_when. intros _. apply runs_emit. Qed.

Lemma runs_mail_time t : safe I (mail_time t).
Proof. unfold mail_time. case_match; [apply runs_rtc|by apply runs_return]. Qed.

Lemma file_call_runs f : safe I (file_call f).
Proof. by apply runs_observe. Qed.

Lemma file_stat_runs f : safe I (file_stat f).
Proof.
  apply runs_then; [apply file_call_runs|intros ok].
  apply runs_then; [by apply runs_get|intros o]. by apply runs_return.
Qed.

Lemma file_open_runs f : safe I (file_open f).
Proof.
  apply runs_then; [apply file_call_runs|intros ok].
  apply runs_then; [by apply runs_get|intros o]. by apply runs_return.
Qed.

Lemma file_create_runs f : safe I (file_create f).
Proof.
  apply runs_then; [apply file_call_runs|intros ok].
  apply runs_then; [|intros; by apply runs_return].
  apply runs_when. intros _. apply runs_upd. intros. by apply inv_files.
Qed.

Lemma file_unlink_runs f : safe I (file_unlink f).
Proof.
  apply runs_then; [apply file_call_runs|intros ok].
  apply runs_when. intros _. apply runs_upd. intros. by apply inv_files.
Qed.

Lemma file_read_runs f off n :
  runs I (file_read f off n) (λ r, match r with Some l => (length l <= n)%nat | None => True end).
Proof.
  eapply runs_seq; [by apply (runs_observe _ (λ _, True))|intros ok _].
  apply runs_then; [by apply runs_get|intros o]. apply runs_return.
  destruct ok; [|done]. destruct (o f); [|done]. simpl. rewrite length_take. lia.
Qed.

Lemma file_write_runs f off l : safe I (file_write f off l).
Proof.
  apply runs_then; [by apply runs_observe|intros n].
  apply runs_then; [|intros; by apply runs_return].
  apply runs_upd. intros. by apply inv_files.
Qed.

Lemma runs_gsm_read n :
  runs I (gsm_uart_read n) (λ l, (length l <= n)%nat ∧ Forall byte l).
Proof.
  intros w Hw. do 2 eexists. split; [reflexivity|]. split; [by apply inv_gsm_rx, inv_now|].
  split.
  - rewrite length_map, length_take. lia.
  - apply Forall_fmap, Forall_forall. intros x _. by apply wrap_fits.
Qed.

Lemma runs_rfid_read n : runs I (rfid_uart_read n) (λ l, (length l <= n)%nat).
Proof.
  intros w Hw. do 2 eexists. split; [reflexivity|]. split.
  - by apply inv_rfid_rx, inv_now.
  - rewrite length_take. lia.
Qed.
End runs.

(** ** Triples

    [triple P m Q]: from a state in [P], [m] finishes without undefined behaviour
    with a result and a state in [Q]. *)
Definition triple {A} (P : World → Prop) (m : M A) (Q : A → World → Prop) : Prop :=
  ∀ w, P w → ∃ a w', m w = Done a w' ∧ Q a w'.

Section triple.
Lemma triple_return {A} (a : A) (P : World → Prop) (Q : A → World → Prop) :
  (∀ w, P w → Q a w) → triple P (mreturn a) Q.
Proof. intros H w Hw. exists a, w. auto. Qed.

Lemma triple_seq {A B} (m : M A) (k : A → M B) P Q R :
  triple P m Q → (∀ a, triple (Q a) (k a) R) → triple P (mseq m k) R.
Proof.
  intros Hm Hk w Hw. destruct (Hm w Hw) as (a & w1 & E & H1).
  destruct (Hk a w1 H1) as (b & w2 & E2 & H2). exists b, w2. by rewrite (mseq_run _ _ _ _ _ E).
Qed.

(** The result is known. *)
Lemma triple_then {A B} (m : M A) (k : A → M B) (a : A) P (Q : World → Prop) R :
  triple P m (λ a' w, a' = a ∧ Q w) → triple Q (k a) R → triple P (mseq m k) R.
Proof. intros Hm Hk. eapply triple_seq; [exact Hm|]. intros a' w [-> Hw]. by apply Hk. Qed.

Lemma triple_consequence {A} (m : M A) (P P' : World → Prop) (Q Q' : A → World → Prop) :
  triple P' m Q' → (∀ w, P w → P' w) → (∀ a w, Q' a w → Q a w) → triple P m Q.
Proof. intros H HP HQ w Hw. destruct (H w (HP w Hw)) as (a & w' & ? & ?). eauto. Qed.

Lemma triple_get {A} (f : World → A) a (P : World → Prop) :
  (∀ w, P w → f w = a) → triple P (get f) (λ a' w, a' = a ∧ P w).
Proof. intros H w Hw. exists (f w), w. auto. Qed.

Lemma triple_upd f (P Q : World → Prop) :
  (∀ w, P w → Q (f w)) → triple P (upd f) (λ a w, a = () ∧ Q w).
Proof. intros H w Hw. exists (), (f w). auto. Qed.

Lemma triple_pure {A} (m : M A) (φ : Prop) P Q :
  (φ → triple P m Q) → triple (λ w, φ ∧ P w) m Q.
Proof. intros H w [Hφ Hw]. by apply H. Qed.
End triple.

(** ** Partial correctness

    [keeps I m R]: a run of [m] from [I] that finishes ends in [I], with a result
    in [R]. *)
Definition keeps {A} (I : World → Prop) (m : M A) (R : A → Prop) : Prop :=
  ∀ w a w', I w → m w = Done a w' → I w' ∧ R a.

Section keeps.
Context {I : World → Prop}.

Lemma runs_keeps {A} (m : M A) (R : A → Prop) : runs I m R → keeps I m R.
Proof. intros H w a w1 Hw E. destruct (H w Hw) as (b & w2 & E2 & HI & HR). rewrite E in E2. by simplify_eq. Qed.

Lemma keeps_return {A} (a : A) (R : A → Prop) : R a → keeps I (mreturn a) R.
Proof. intros H w b w' Hw [= <- <-]. done. Qed.

Lemma keeps_seq {A B} (m : M A) (k : A → M B) (Q : A → Prop) (R : B → Prop) :
  keeps I m Q → (∀ a, Q a → keeps I (k a) R) → keeps I (mseq m k) R.
Proof.
  intros Hm Hk w b w' Hw E. apply mseq_Done in E as (a & w1 & E1 & E2).
  destruct (Hm _ _ _ Hw E1). eapply Hk; eauto.
Qed.

Lemma keeps_then {A B} (m : M A) (k : A → M B) (R : B → Prop) :
  keeps I m (λ _, True) → (∀ a, keeps I (k a) R) → keeps I (mseq m k) R.
Proof. intros Hm Hk. eapply keeps_seq; [done|]. auto. Qed.

Lemma keeps_consequence {A} (m : M A) (Q R : A → Prop) :
  keeps I m Q → (∀ a, Q a → R a) → keeps I m R.
Proof. intros Hm HQR w a w' Hw E. destruct (Hm _ _ _ Hw E). auto. Qed.

Lemma keeps_if {A} (b : bool) (m1 m2 : M A) R :
  (b = true → keeps I m1 R) → (b = false → keeps I m2 R) → keeps I (if b then m1 else m2) R.
Proof. destruct b; auto. Qed.

Lemma keeps_when b m :
  (b = true → keeps I m (λ _, True)) → keeps I (when b m) (λ _, True).
Proof. intros H. unfold when. destruct b; [auto|]. by apply keeps_return. Qed.

Lemma keeps_fault {A} (R : A → Prop) : keeps I fault R.
Proof. by intros w a w' Hw. Qed.

Lemma keeps_nofuel {A} (R : A → Prop) : keeps I nofuel R.
Proof. by intros w a w' Hw. Qed.

Lemma keeps_deref {A} (o : option A) (R : A → Prop) :
  (∀ a, o = Some a → R a) → keeps I (deref o) R.
Proof. intros H. destruct o; simpl; [apply keeps_return; auto|apply keeps_fault]. Qed.
End keeps.

(** ** Relations between the state before and after

    [evolves R m]: every run of [m] that finishes relates the two states by the
    preorder [R]. *)
Definition evolves {A} (R : relation World) (m : M A) : Prop :=
  ∀ w a w', m w = Done a w' → R w w'.

Section evolves.
Context {R : relation World} {HR : PreOrder R}.

Lemma evolves_return {A} (a : A) : evolves R (mreturn a).
Proof. intros w b w' [= <- <-]. reflexivity. Qed.

Lemma evolves_seq {A B} (m : M A) (k : A → M B) :
  evolves R m → (∀ a, evolves R (k a)) → evolves R (mseq m k).
Proof.
  intros Hm Hk w b w' E. apply mseq_Done in E as (a & w1 & E1 & E2).
  transitivity w1; [by eapply Hm|by eapply Hk].
Qed.

Lemma evolves_when b m : (b = true → evolves R m) → evolves R (when b m).
Proof. intros H. unfold when. destruct b; [auto|apply evolves_return]. Qed.

Lemma evolves_fault {A} : evolves R (fault (A:=A)).
Proof. by intros w a w'. Qed.

Lemma evolves_get {A} (f : World → A) : evolves R (get f).
Proof. intros w a w' [= <- <-]. reflexivity. Qed.

Lemma evolves_deref {A} (o : option A) : evolves R (deref o).
Proof. destruct o; [apply evolves_return|apply evolves_fault]. Qed.

Lemma evolves_upd f : (∀ w, R w (f w)) → evolves R (upd f).
Proof. intros H w a w' [= <- <-]. apply H. Qed.

Lemma evolves_observe {A} (f : nat → A) : (∀ x w, R w (set_now x w)) → evolves R (observe f).
Proof. intros H w a w' [= <- <-]. apply H. Qed.
End evolves.

(** [safe] goals follow the program text; the hint database holds the
    components' operations. *)
Create HintDb runs discriminated.
#[export] Hint Constants Opaque : runs.
#[export] Hint Variables Opaque : runs.
#[export] Hint Extern 1 (safe _ (emit _)) => (apply runs_emit) : runs.
#[export] Hint Extern 1 (safe _ rtc_get_time) => (apply runs_rtc) : runs.
#[export] Hint Extern 1 (safe _ (gpio_pin_output _ _)) => (apply runs_pin_output) : runs.
#[export] Hint Extern 1 (safe _ (mail_time _)) => (apply runs_mail_time) : runs.
#[export] Hint Extern 1 (safe _ (mreturn _)) => (by apply runs_return) : runs.
#[export] Hint Extern 1 (safe _ (rt_thread_delay _)) => (apply runs_emit) : runs.
#[export] Hint Extern 1 (safe _ (voice_output _)) => (apply runs_emit) : runs.
#[export] Hint Extern 1 (safe _ (uart_write _ _)) => (apply runs_emit) : runs.
#[export] Hint Extern 1 (safe _ (pin_read _)) =>
  (eapply safe_weaken, runs_pin_read) : runs.
#[export] Hint Extern 1 (safe _ (gpio_pin_input _)) =>
  (eapply safe_weaken, runs_pin_input) : runs.

(** One step of the program, or everything up to what the database does not know *)
Ltac runs_step :=
  first
    [ solve [eauto 2 with runs nocore]
    | apply runs_when; intros ?
    | apply runs_then; [|intros ?]
    | apply runs_if; intros ?
    | case_match ].
Ltac runs_auto := repeat runs_step.

(** The same for [keeps], whose invariant is a record: a variable it does not
    look at is stored. *)
Ltac keeps_upd := apply runs_keeps, runs_upd; intros ? []; by split.

Create HintDb keeps discriminated.
#[export] Hint Constants Opaque : keeps.
#[export] Hint Variables Opaque : keeps.
#[export] Hint Extern 9 (keeps _ _ _) => (apply runs_keeps; eauto with runs) : keeps.

Ltac keeps_step :=
  lazymatch goal with
  | |- keeps _ (mreturn _) _ => by apply keeps_return
  | |- keeps _ fault _ => apply keeps_fault
  | |- keeps _ nofuel _ => apply keeps_nofuel
  | |- keeps _ (deref _) _ => by apply keeps_deref
  | |- keeps _ (get _) _ => by apply runs_keeps, runs_get
  | |- keeps _ (observe _) _ => by apply runs_keeps, runs_observe
  | |- keeps _ (upd _) _ => keeps_upd
  | |- keeps _ (emit _) _ => apply runs_keeps, runs_emit
  | |- keeps _ (when _ _) _ => apply keeps_when; intros ?
  | |- keeps _ (mseq _ _) _ => apply keeps_then; [|intros ?]
  | |- keeps _ (if ?b then _ else _) _ => first [apply keeps_if; intros ?|destruct b]
  | |- keeps _ (match ?x with _ => _ end) _ => destruct x
  | |- keeps _ _ _ => solve [auto with keeps nocore]
  end.
Ltac keeps_auto := repeat keeps_step.

