(* ===== verification/Untils.v ===== *)
(** * Configuration and byte search (src/untils.h, src/untils.c)

    The persistent parameters of the lock, their invariant, the configuration
    file, and [memmem]. *)
From stdpp Require Import base strings list.
From Stdlib Require Import ZArith Lia.
From S2P Require Import Prelude World Monad.

(** ** memmem *)

(** [memcmp (begin + 1, tail, needle_len - 1) == 0] on the bytes at [begin] *)
Definition memcmp_eq (a b : list Z) : bool := bool_decide (take (length b) a = b).

(** The loop: [todo] positions are still to be tried, [begin] is the number of
    bytes skipped and [h] the haystack from there. *)
Fixpoint memmem_loop (todo : nat) (begin : nat) (h : list Z) (point : Z) (tail : list Z)
  : option nat :=
  match todo with
  | O => None
  | S todo =>
      match h with
      | [] => None
      | c :: h' =>
          if (c =? point) && memcmp_eq h' tail then Some begin
          else memmem_loop todo (S begin) h' point tail
      end
  end.

Definition memmem (haystack needle : list Z) : option nat :=
  match needle with
  | [] => Some 0%nat
  | point :: tail =>
      if (length haystack <? length needle)%nat then None
      else memmem_loop (S (length haystack - length needle)) 0 haystack point tail
  end.

Lemma memmem_loop_spec point tail : ∀ todo begin h,
  (todo + length tail <= length h)%nat →
  match memmem_loop todo begin h point tail with
  | Some i => (begin <= i)%nat ∧ occurs_at (point :: tail) h (i - begin) ∧
      ∀ j, (j < i - begin)%nat → ¬ occurs_at (point :: tail) h j
  | None => ∀ j, (j < todo)%nat → ¬ occurs_at (point :: tail) h j
  end.
Proof.
  induction todo as [|todo IH]; intros begin h Hl; cbn [memmem_loop]; [intros j; lia|].
  destruct h as [|c h]; [simpl in Hl; lia|].
  assert (occurs_at (point :: tail) (c :: h) 0 ↔ (c =? point) && memcmp_eq h tail = true) as E.
  { unfold occurs_at, memcmp_eq. simpl in *. rewrite andb_true_iff, Z.eqb_eq, bool_decide_eq_true.
    split; [intros [_ H]; by simplify_eq|]. intros [-> ->]. split; [lia|done]. }
  destruct ((c =? point) && memcmp_eq h tail) eqn:Ec.
  - replace (begin - begin)%nat with 0%nat by lia. split; [lia|]. split; [by apply E|]. lia.
  - specialize (IH (S begin) h). simpl in Hl. specialize (IH ltac:(lia)).
    destruct (memmem_loop _ _ _ _ _) as [i|].
    + destruct IH as (H1 & [H2 H3] & H4). split; [lia|].
      replace (i - begin)%nat with (S (i - S begin)) by lia.
      split; [split; simpl in *; [lia|done]|].
      intros [|j] Hj; [by rewrite E|]. intros [G1 G2]. apply (H4 j); [lia|].
      split; simpl in *; [lia|done].
    + intros [|j] Hj; [by rewrite E|]. intros [G1 G2]. apply (IH j); [lia|].
      split; simpl in *; [lia|done].
Qed.

Lemma memmem_correct' haystack needle :
  match memmem haystack needle with
  | Some i => occurs_at needle haystack i ∧ ∀ j, (j < i)%nat → ¬ occurs_at needle haystack j
  | None => ∀ j, ¬ occurs_at needle haystack j
  end.
Proof.
  destruct needle as [|point tail]; cbn [memmem].
  - split; [|lia]. split; simpl; [lia|done].
  - destruct (Nat.ltb_spec (length haystack) (length (point :: tail))) as [H|H].
    + intros j [H1 _]. lia.
    + pose proof (memmem_loop_spec point tail (S (length haystack - length (point :: tail))) 0
        haystack) as L. cbn [length] in *. specialize (L ltac:(lia)).
      destruct (memmem_loop _ _ _ _ _) as [i|].
      * rewrite Nat.sub_0_r in L. tauto.
      * intros j Hj. apply (L j); [destruct Hj; cbn [length] in *; lia|done].
Qed.

(** [memmem] returns the first position at which the needle
    occurs in the haystack, and NULL exactly when it occurs nowhere (the empty
    needle occurs at the beginning). *)
Lemma memmem_correct haystack needle :
  match memmem haystack needle with
  | Some i => occurs_at needle haystack i ∧ ∀ j, (j < i)%nat → ¬ occurs_at needle haystack j
  | None => ∀ j, ¬ occurs_at needle haystack j
  end.
Proof. apply memmem_correct'. Qed.

(** ** The parameters *)

Definition tel (flag : Z) (s : string) : TELEPHONE_ADDRESS :=
  mkTelephone flag (pad TELEPHONE_ADDRESS_LENGTH (bytes_of s)).
Definition no_tel : TELEPHONE_ADDRESS := tel 0 "".
Definition no_rfid : RFID_KEY := mkRfidKey 0 [0; 0; 0; 0].

(** The initial value of the variable [device_parameters] *)
Definition device_parameters : DEVICE_PARAMETERS := {|
  alarm_telephone := [tel 0 "8613316975697"; tel 1 "8613544033975"] ++ repeat no_tel 8;
  call_telephone := [tel 1 "13316975697"; tel 1 "13728692869"; tel 1 "13544033975";
                     tel 1 "075586607370"] ++ repeat no_tel 6;
  rfid_key := mkRfidKey 1 [0x86; 0x6E; 0xEB; 0x14] :: repeat no_rfid 9;
  tcp_domain := mkDomain (pad TCP_DOMAIN_LENGTH (bytes_of "iyuet.com")) 4123;
  lock_gate_alarm_time := 30;
  device_id := [0x01; 0xA1; 0x00; 0x01; 0x01; 0x01];
  key0 := [0x31; 0x31; 0x31; 0x31; 0x31; 0x31; 0x31; 0x31];
  key1 := [0x00; 0x00; 0xCB; 0x17; 0x62; 0x2F; 0x7A; 0xC5]
|}.

(** An array of [n] bytes *)
Definition bytes_len (n : nat) (l : list Z) : Prop := length l = n ∧ Forall byte l.

(** A number is stored in its array with a terminating zero. *)
Definition telephone_wf (t : TELEPHONE_ADDRESS) : Prop :=
  byte (tel_flag t) ∧ bytes_len TELEPHONE_ADDRESS_LENGTH (address t) ∧
  last (address t) = Some 0.

(** An alarm number is "86" and eleven digits at most: what is behind is zero. *)
Definition alarm_telephone_wf (t : TELEPHONE_ADDRESS) : Prop :=
  telephone_wf t ∧ drop 13 (address t) = repeat 0 7.

Definition rfid_wf (k : RFID_KEY) : Prop := byte (key_flag k) ∧ bytes_len 4 (key k).

Definition params_wf (p : DEVICE_PARAMETERS) : Prop :=
  (length (alarm_telephone p) = TELEPHONE_NUMBERS ∧ Forall alarm_telephone_wf (alarm_telephone p)) ∧
  (length (call_telephone p) = TELEPHONE_NUMBERS ∧ Forall telephone_wf (call_telephone p)) ∧
  (length (rfid_key p) = RFID_KEY_NUMBERS ∧ Forall rfid_wf (rfid_key p)) ∧
  (bytes_len TCP_DOMAIN_LENGTH (domain (tcp_domain p)) ∧
   last (domain (tcp_domain p)) = Some 0) ∧
  byte (lock_gate_alarm_time p) ∧ bytes_len 6 (device_id p) ∧ bytes_len 8 (key0 p) ∧
  bytes_len 8 (key1 p).

#[global] Instance params_wf_dec p : Decision (params_wf p).
Proof. unfold params_wf, alarm_telephone_wf, telephone_wf, rfid_wf, bytes_len. apply _. Defined.

Lemma device_parameters_wf : params_wf device_parameters.
Proof. by_computation. Qed.

(** Stored numbers are terminated, so reading them as C strings is defined. *)
Lemma last_zero_cstr l : last l = Some 0 → ∃ s, cstr l = Some s ∧ (length s < length l)%nat.
Proof.
  induction l as [|x l IH]; [done|]. intros H. simpl. destruct (Z.eqb_spec x 0).
  - exists []. split; [done|simpl; lia].
  - destruct l as [|y l]; [simpl in H; congruence|]. destruct IH as (s & Hs & Hl); [done|].
    exists (x :: s). rewrite Hs. split; [done|]. simpl in *. lia.
Qed.

Lemma telephone_cstr t :
  telephone_wf t → ∃ s, cstr (address t) = Some s ∧ (length s < TELEPHONE_ADDRESS_LENGTH)%nat.
Proof.
  intros (_ & [Hlen _] & Hlast). destruct (last_zero_cstr _ Hlast) as (s & Hs & Hl).
  exists s. split; [done|]. lia.
Qed.

(** ** The configuration file *)

Section config.
Context {HB : Board}.

Definition SYSTEM_CONFIG_FILE_NAME : string := "/config".

(** [open] with O_CREAT fails without changing anything, or the file is there:
    writing replaces its contents from the beginning, reading an empty file
    leaves [arg] alone. *)
Definition system_file_operate (arg : DEVICE_PARAMETERS) (flag : bool)
  : M DEVICE_PARAMETERS :=
  ok <- observe config_opens ;;
  if negb ok then mreturn arg
  else if flag then upd (set_config_file (Some arg)) ;;; mreturn arg
  else
    file <- get config_file ;;
    mreturn (match file with Some p => p | None => arg end).
End config.

(** ** The invariant of the state

    The parameters in memory and in the file are well formed and the global
    arrays have their size; [smsc] and [phone_call] hold C strings. *)
Definition terminated (n : nat) (l : list Z) : Prop :=
  length l = n ∧ ∃ s, cstr l = Some s.

Record wf (w : World) : Prop := {
  wf_params : params_wf (params w);
  wf_file p : config_file w = Some p → params_wf p;
  wf_work_map : bytes_len 50 (work_alarm_type_map w);
  wf_fault_map : bytes_len 50 (fault_alarm_type_map w);
  wf_http : bytes_len 100 (aip_bin_http_address w);
  wf_user : bytes_len 4 (gprs_mail_user w);
  wf_smsc : terminated 20 (smsc w);
  wf_phone : terminated 20 (phone_call w);
  wf_frame : bytes_len RECV_FRAME_SIZE (gprs_recv_frame w);
  wf_order : byte (gprs_order w)
}.

#[export] Instance wf_invariant : Invariant wf.
Proof. split; intros x w []; by split. Qed.

Lemma boot_world_wf http :
  bytes_len 100 http → wf (boot_world device_parameters http).
Proof.
  intros Hh. split; simpl; try done.
  - apply device_parameters_wf.
  - by_computation.
  - by_computation.
  - by_computation.
  - split; [done|]. by exists [].
  - split; [done|]. by exists [].
  - by_computation.
Qed.

(** Storing new parameters *)
Lemma wf_set_params p w : params_wf p → wf w → wf (set_params p w).
Proof. intros Hp []. by split. Qed.

Lemma runs_system_file_operate `{HB : Board} p flag :
  params_wf p → runs wf (system_file_operate p flag) params_wf.
Proof.
  intros Hp. unfold system_file_operate.
  eapply runs_seq; [by apply (runs_observe _ (λ _, True))|]. intros ok _.
  apply runs_if; intros _; [by apply runs_return|]. apply runs_if; intros _.
  - eapply runs_then; [|intros _; by apply runs_return].
    apply runs_upd. intros w []. split; simpl; try done. by intros p' [= <-].
  - eapply (runs_seq _ _ (λ o, ∀ p, o = Some p → params_wf p)).
    + apply runs_get. intros w []. done.
    + intros [p'|] H; apply runs_return; auto.
Qed.

(** A configuration that was saved is what the next start reads. *)
Lemma config_saved_is_read `{HB : Board} p arg w w1 w2 a b :
  config_opens (now w) = true → config_opens (now w1) = true →
  system_file_operate p true w = Done a w1 → system_file_operate arg false w1 = Done b w2 →
  b = p ∧ params w2 = params w.
Proof.
  intros O1 O2. unfold system_file_operate, mseq, observe, get, upd, mreturn. simpl.
  rewrite O1. simpl. intros [= <- <-]. simpl in *. rewrite O2. simpl. intros [= <- <-]. done.
Qed.

(** ** A concrete start *)

(** The initial value of [aip_bin_http_address] (aip.c) *)
Definition http_default : list Z :=
  pad 100 (bytes_of "http://116.255.185.77/smart_lock.bin").

Definition start_world : World := boot_world device_parameters http_default.

Lemma start_world_wf : wf start_world.
Proof. apply boot_world_wf. by_computation. Qed.

(** Every pin reads one, nothing arrives on the uarts. *)
Definition quiet_board : Board := bench_board (λ _ _, 1) (λ _ _, []).
