(* ===== verification/Alarm.v ===== *)
(** * Alarm mails and their dispatch (src/alarm.c, the send_..._mail functions)

    Every sensor posts an alarm mail; the alarm thread copies it to the queues
    of the handlers its flags name, unless the lock sleeps.  The mail senders
    of sms.c, gprs.c, local.c and aip.c are the same function over another
    queue and are modelled here too, because the other components call them. *)
From stdpp Require Import base strings list.
From Stdlib Require Import ZArith Lia.
From S2P Require Import Prelude World Monad Untils.


Section alarm.
Context `{HB : Board}.

(** ** Sending mails *)

(** Store [x] in the queue if it exists; a full queue only prints. *)
Definition post_mail {A} (field : World → option (Queue A))
  (store : option (Queue A) → World → World) (x : A) : M () :=
  o <- get field ;;
  match o with
  | Some _ => rt_mq_send field store x ;;; mreturn ()
  | None => mreturn ()
  end.

Definition send_alarm_mail (alarm_type : ALARM_TYPEDEF) (alarm_process_flag gpio_value time : Z)
  : M () :=
  t <- mail_time time ;;
  post_mail alarm_mq set_alarm_mq (mkAlarmMail t alarm_type alarm_process_flag gpio_value).

Definition send_sms_mail (alarm_type : ALARM_TYPEDEF) (time : Z) : M () :=
  t <- mail_time time ;;
  post_mail sms_mq set_sms_mq (mkSmsMail t alarm_type).

Definition send_gprs_mail (alarm_type : ALARM_TYPEDEF) (time order : Z) (user : USER) : M () :=
  t <- mail_time time ;;
  post_mail gprs_mq set_gprs_mq (mkGprsMail t alarm_type order user).

Definition send_local_mail (alarm_type : ALARM_TYPEDEF) (time : Z) : M () :=
  t <- mail_time time ;;
  post_mail local_mq set_local_mq (mkLocalMail t alarm_type).

Definition send_aip_mail (alarm_type : ALARM_TYPEDEF) (time : Z) : M () :=
  t <- mail_time time ;;
  post_mail aip_mq set_aip_mq (mkAipMail t alarm_type).

Definition send_mms_mail (alarm_type : ALARM_TYPEDEF) (time : Z) (pic_name : FILE) : M () :=
  t <- mail_time time ;;
  post_mail mms_mq set_mms_mq (mkMmsMail t alarm_type pic_name).

Definition PHOTO_INTERVAL_TIME : Z := 200.

(** The mail to the camera thread keeps the time it is given. *)
Definition camera_send_mail (alarm_type : ALARM_TYPEDEF) (time : Z) : M () :=
  post_mail photo_start_mq set_photo_start_mq
    (mkCmRecv PHOTO_INTERVAL_TIME time alarm_type F_1_jpg F_2_jpg).

(** rt_event_send to [alarm_inform_event] *)
Definition alarm_inform_send (bits : Z) : M () :=
  upd (λ w, set_alarm_inform_event (Z.lor (alarm_inform_event w) bits) w).

(** ** Sleep and wake-up *)

Definition RT_EVENT_FLAG_OR : Z := 0x02.
Definition RT_EVENT_FLAG_CLEAR : Z := 0x04.

(** The event object of the kernel without waiting threads: a set of bits,
    received without waiting when one of them is there. *)
Definition machine_status_deal (operate : bool) (option : Z) : M Z :=
  if operate
  then upd (λ w, set_machine_work_status (Z.lor (machine_work_status w) MACHINE_ON_WORK) w) ;;;
       mreturn RT_EOK
  else
    s <- get machine_work_status ;;
    if Z.land s MACHINE_ON_WORK =? 0 then mreturn (- RT_ETIMEOUT)
    else
      when (negb (Z.land option RT_EVENT_FLAG_CLEAR =? 0))
        (upd (set_machine_work_status (Z.ldiff s MACHINE_ON_WORK))) ;;;
      mreturn RT_EOK.

(** ** The alarm thread: one iteration of its loop *)

Definition has_flag (flags flag : Z) : bool := negb (Z.land flags flag =? 0).

Definition alarm_mail_process_step : M () :=
  m <- rt_mq_recv alarm_mq set_alarm_mq ;;
  st <- machine_status_deal false RT_EVENT_FLAG_OR ;;
  match m with
  | Some alarm_mail_buf =>
      if negb (st =? RT_EOK) then mreturn ()
      else
        let time := am_time alarm_mail_buf in
        let alarm_type := am_alarm_type alarm_mail_buf in
        let flags := am_process_flag alarm_mail_buf in
        when (has_flag flags ALARM_PROCESS_FLAG_SMS)
          (rt_mq_send sms_mq set_sms_mq (mkSmsMail time alarm_type) ;;; mreturn ()) ;;;
        (* the members [order] and [user] of gprs_mail_buf are never written *)
        when (has_flag flags ALARM_PROCESS_FLAG_GPRS)
          (order <- observe uninit ;;
           rt_mq_send gprs_mq set_gprs_mq (mkGprsMail time alarm_type (u8 order) U_none) ;;;
           mreturn ()) ;;;
        when (has_flag flags ALARM_PROCESS_FLAG_LOCAL)
          (rt_mq_send local_mq set_local_mq (mkLocalMail time alarm_type) ;;; mreturn ())
  | None => mreturn ()
  end.

(** ** Posting is always defined *)

Lemma post_mail_runs I {A} field store (x : A) :
  (∀ q w, I w → I (store q w)) → safe I (post_mail field store x).
Proof.
  intros Hs w Hw. unfold post_mail, rt_mq_send, mseq, get, upd, mreturn.
  destruct (field w) as [q|] eqn:E; simpl; [|eauto].
  rewrite E. simpl. destruct (q_send x q) as [r q']. eauto 6.
Qed.

Lemma evolves_post_mail {R} `{HR : !PreOrder R} {A} field store (x : A) :
  (∀ q w, R w (store q w)) → evolves R (post_mail field store x).
Proof.
  intros H w a w'. unfold post_mail, rt_mq_send, mseq, get, upd, mreturn.
  destruct (field w) as [q|] eqn:E.
  - rewrite E. simpl. destruct (q_send x q). intros [= <- <-]. apply H.
  - intros [= <- <-]. reflexivity.
Qed.

Lemma evolves_mail_time {R} `{HR : !PreOrder R} t :
  (∀ x w, R w (set_now x w)) → evolves R (mail_time t).
Proof.
  intros H. unfold mail_time, rtc_get_time. case_match; [|apply evolves_return].
  by apply evolves_observe.
Qed.

Lemma evolves_send_gprs_mail {R} `{HR : !PreOrder R} a t o u :
  (∀ x w, R w (set_now x w)) → (∀ q w, R w (set_gprs_mq q w)) →
  evolves R (send_gprs_mail a t o u).
Proof.
  intros H1 H2. apply evolves_seq; [by apply evolves_mail_time|]. intros.
  by apply evolves_post_mail.
Qed.

Lemma evolves_send_sms_mail {R} `{HR : !PreOrder R} a t :
  (∀ x w, R w (set_now x w)) → (∀ q w, R w (set_sms_mq q w)) →
  evolves R (send_sms_mail a t).
Proof.
  intros H1 H2. apply evolves_seq; [by apply evolves_mail_time|]. intros.
  by apply evolves_post_mail.
Qed.

Lemma send_alarm_mail_runs a f g t : safe wf (send_alarm_mail a f g t).
Proof. apply runs_then; [apply runs_mail_time|intros]. apply post_mail_runs. by intros ?? []. Qed.
Lemma send_sms_mail_runs a t : safe wf (send_sms_mail a t).
Proof. apply runs_then; [apply runs_mail_time|intros]. apply post_mail_runs. by intros ?? []. Qed.
Lemma send_gprs_mail_runs a t o u : safe wf (send_gprs_mail a t o u).
Proof. apply runs_then; [apply runs_mail_time|intros]. apply post_mail_runs. by intros ?? []. Qed.
Lemma send_local_mail_runs a t : safe wf (send_local_mail a t).
Proof. apply runs_then; [apply runs_mail_time|intros]. apply post_mail_runs. by intros ?? []. Qed.
Lemma send_aip_mail_runs a t : safe wf (send_aip_mail a t).
Proof. apply runs_then; [apply runs_mail_time|intros]. apply post_mail_runs. by intros ?? []. Qed.

Lemma send_mms_mail_runs a t f : safe wf (send_mms_mail a t f).
Proof. apply runs_then; [apply runs_mail_time|intros]. apply post_mail_runs. by intros ?? []. Qed.
Lemma camera_send_mail_runs a t : safe wf (camera_send_mail a t).
Proof. apply post_mail_runs. by intros ?? []. Qed.
Lemma alarm_inform_send_runs bits : safe wf (alarm_inform_send bits).
Proof. apply runs_upd. by intros ? []. Qed.

Lemma machine_status_deal_runs b o : safe wf (machine_status_deal b o).
Proof.
  unfold machine_status_deal. destruct b.
  - apply runs_then; [|intros; by apply runs_return]. apply runs_upd. by intros ? [].
  - apply runs_then; [by apply runs_get|intros s]. apply runs_if; intros _.
    + by apply runs_return.
    + apply runs_then; [|intros; by apply runs_return]. apply runs_when. intros _.
      apply runs_upd. by intros ? [].
Qed.

(** ** What the dispatch does *)

(** [q_send] of the optional mails of a list *)
Definition q_room {A} (q : Queue A) (n : nat) : Prop :=
  (length (q_msgs q) + n <= q_max q)%nat.
#[global] Instance q_room_dec {A} (q : Queue A) n : Decision (q_room q n).
Proof. unfold q_room. apply _. Defined.

Definition q_append {A} (q : Queue A) (l : list A) : Queue A :=
  mkQueue (q_msgs q ++ l) (q_max q).

(** The mails an alarm mail is turned into *)
Definition sms_of (m : ALARM_MAIL) : list SMS_MAIL :=
  if has_flag (am_process_flag m) ALARM_PROCESS_FLAG_SMS
  then [mkSmsMail (am_time m) (am_alarm_type m)] else [].
Definition local_of (m : ALARM_MAIL) : list LOCAL_MAIL :=
  if has_flag (am_process_flag m) ALARM_PROCESS_FLAG_LOCAL
  then [mkLocalMail (am_time m) (am_alarm_type m)] else [].
(** The order number and the user of a GPRS mail are not the alarm's. *)
Definition gprs_of (m : ALARM_MAIL) : list (Z * ALARM_TYPEDEF) :=
  if has_flag (am_process_flag m) ALARM_PROCESS_FLAG_GPRS
  then [(am_time m, am_alarm_type m)] else [].
Definition gprs_view (m : GPRS_MAIL) : Z * ALARM_TYPEDEF := (gm_time m, gm_alarm_type m).

Definition awake (w : World) : Prop := Z.land (machine_work_status w) MACHINE_ON_WORK ≠ 0.
#[global] Instance awake_dec w : Decision (awake w).
Proof. unfold awake. apply _. Defined.

Lemma q_append_nil {A} (q : Queue A) : q_append q [] = q.
Proof. destruct q. unfold q_append. simpl. by rewrite app_nil_r. Qed.

Lemma q_append_app {A} (q : Queue A) l k :
  q_append (q_append q l) k = q_append q (l ++ k).
Proof. unfold q_append. simpl. by rewrite app_assoc. Qed.

Lemma q_send_room {A} (q : Queue A) x :
  q_room q 1 → q_send x q = (RT_EOK, q_append q [x]).
Proof.
  unfold q_room, q_send. intros H.
  destruct (Nat.ltb_spec (length (q_msgs q)) (q_max q)); [done|lia].
Qed.

Lemma q_room_append {A} (q : Queue A) l n :
  q_room (q_append q l) n ↔ q_room q (length l + n).
Proof. unfold q_room, q_append. simpl. rewrite length_app. lia. Qed.

Lemma q_room_le {A} (q : Queue A) n m : (n <= m)%nat → q_room q m → q_room q n.
Proof. unfold q_room. lia. Qed.

Lemma rt_mq_send_room {A} field store (x : A) w q :
  field w = Some q → q_room q 1 →
  rt_mq_send field store x w = Done RT_EOK (store (Some (q_append q [x])) w).
Proof.
  intros Hq Hr. unfold rt_mq_send, mseq, get. rewrite Hq. simpl. unfold mreturn.
  by rewrite q_send_room.
Qed.

(** Posting without a time stamps the mail with the clock. *)
Lemma post_mail_room {A} field store (x : A) w q :
  field w = Some q → q_room q 1 →
  post_mail field store x w = Done () (store (Some (q_append q [x])) w).
Proof.
  intros Hq Hr. unfold post_mail, mseq, get. rewrite Hq.
  by rewrite (rt_mq_send_room _ _ _ _ _ Hq Hr).
Qed.

Definition tick (w : World) : World := set_now (S (now w)) w.

Lemma send_sms_mail_room a w q :
  sms_mq w = Some q → q_room q 1 →
  send_sms_mail a 0 w =
    Done () (set_sms_mq (Some (q_append q [mkSmsMail (rtc_time (now w)) a])) (tick w)).
Proof. intros Hq Hr. unfold send_sms_mail, mseq. simpl. by rewrite (post_mail_room _ _ _ _ q). Qed.

Lemma send_gprs_mail_room a o u w q :
  gprs_mq w = Some q → q_room q 1 →
  send_gprs_mail a 0 o u w =
    Done () (set_gprs_mq (Some (q_append q [mkGprsMail (rtc_time (now w)) a o u])) (tick w)).
Proof. intros Hq Hr. unfold send_gprs_mail, mseq. simpl. by rewrite (post_mail_room _ _ _ _ q). Qed.

Lemma send_local_mail_room a w q :
  local_mq w = Some q → q_room q 1 →
  send_local_mail a 0 w =
    Done () (set_local_mq (Some (q_append q [mkLocalMail (rtc_time (now w)) a])) (tick w)).
Proof. intros Hq Hr. unfold send_local_mail, mseq. simpl. by rewrite (post_mail_room _ _ _ _ q). Qed.

(** The state before and after a dispatch: the queues grew by the mails
    [ms] stands for, everything but them and the clock is the same. *)
Record dispatched (ms : list ALARM_MAIL) (w w' : World) : Prop := {
  d_sms q : sms_mq w = Some q →
    sms_mq w' = Some (q_append q (mjoin (sms_of <$> ms)));
  d_local q : local_mq w = Some q →
    local_mq w' = Some (q_append q (mjoin (local_of <$> ms)));
  d_gprs q : gprs_mq w = Some q → ∃ new,
    gprs_mq w' = Some (q_append q new) ∧ gprs_view <$> new = mjoin (gprs_of <$> ms);
  d_rest : trace w' = trace w ∧ params w' = params w ∧ config_file w' = config_file w ∧
    machine_work_status w' = machine_work_status w ∧ mq_gsm w' = mq_gsm w ∧
    aip_mq w' = aip_mq w
}.

Definition queues_room (w : World) (n : nat) : Prop :=
  (∃ q, sms_mq w = Some q ∧ q_room q n) ∧ (∃ q, gprs_mq w = Some q ∧ q_room q n) ∧
  (∃ q, local_mq w = Some q ∧ q_room q n).

Lemma alarm_step_mail w m rest n :
  alarm_mq w = Some (mkQueue (m :: rest) n) → awake w → queues_room w 1 →
  ∃ w', alarm_mail_process_step w = Done () w' ∧
    alarm_mq w' = Some (mkQueue rest n) ∧ dispatched [m] w w'.
Proof.
  intros Ha Haw ((qs & Hs & Rs) & (qg & Hg & Rg) & (ql & Hl & Rl)).
  unfold alarm_mail_process_step, machine_status_deal, rt_mq_recv, rt_mq_send.
  unfold mseq, get, upd, mreturn. rewrite Ha. simpl. unfold awake in Haw.
  apply Z.eqb_neq in Haw. rewrite Haw. simpl. unfold when, observe, mreturn.
  destruct (has_flag _ ALARM_PROCESS_FLAG_SMS) eqn:F1;
  destruct (has_flag _ ALARM_PROCESS_FLAG_GPRS) eqn:F2;
  destruct (has_flag _ ALARM_PROCESS_FLAG_LOCAL) eqn:F3; simpl;
  rewrite ?Hs, ?Hg, ?Hl; simpl; unfold mreturn; simpl;
  rewrite ?q_send_room by done; simpl; rewrite ?Hl; simpl; rewrite ?q_send_room by done;
  simpl; rewrite ?Hg; simpl; rewrite ?q_send_room by done; simpl;
  rewrite ?Hl; simpl; rewrite ?q_send_room by done;
  (eexists; split; [reflexivity|]); (split; [reflexivity|]); split; simpl;
  unfold sms_of, local_of, gprs_of; rewrite ?F1, ?F2, ?F3; simpl;
  try (intros q ?; simplify_eq; rewrite ?q_append_nil; done);
  try (intros q ?; simplify_eq); try done; try (eexists; done).
  all: try (exists []; by rewrite q_append_nil).
  all: eexists; split; [done|]; done.
Qed.

Lemma dispatched_awake ms w w' : dispatched ms w w' → awake w → awake w'.
Proof. intros [_ _ _ D]. destruct_and! D. unfold awake. congruence. Qed.

Lemma dispatched_room m w w' n :
  dispatched [m] w w' → queues_room w (S n) → queues_room w' n.
Proof.
  intros [Ds Dl Dg _] ((qs & Hs & Rs) & (qg & Hg & Rg) & (ql & Hl & Rl)).
  destruct (Dg _ Hg) as (new & Hg' & Hn).
  split; [|split]; eexists; (split; [eauto|]); apply q_room_append;
    (eapply q_room_le; [|done]).
  - simpl. unfold sms_of. case_match; simpl; lia.
  - apply (f_equal length) in Hn. revert Hn. rewrite length_fmap. simpl.
    unfold gprs_of. case_match; simpl; lia.
  - simpl. unfold local_of. case_match; simpl; lia.
Qed.

Lemma dispatched_trans m ms w w1 w2 :
  dispatched [m] w w1 → dispatched ms w1 w2 → dispatched (m :: ms) w w2.
Proof.
  intros [A1 A2 A3 A4] [B1 B2 B3 B4]. split.
  - intros q Hq. rewrite (B1 _ (A1 _ Hq)), q_append_app. simpl. by rewrite app_nil_r.
  - intros q Hq. rewrite (B2 _ (A2 _ Hq)), q_append_app. simpl. by rewrite app_nil_r.
  - intros q Hq. destruct (A3 _ Hq) as (n1 & E1 & V1). destruct (B3 _ E1) as (n2 & E2 & V2).
    exists (n1 ++ n2). rewrite E2, q_append_app, fmap_app, V1, V2. simpl.
    by rewrite app_nil_r.
  - destruct_and! A4. destruct_and! B4. repeat split; congruence.
Qed.

Lemma dispatched_nil w : dispatched [] w w.
Proof.
  split; intros; simpl; rewrite ?q_append_nil; try done.
  exists []. by rewrite q_append_nil.
Qed.

(** C37 (functional). The alarm thread, awake, empties its queue in as many
    rounds as there are alarms: every alarm reaches exactly the handler
    queues its flags name, in the order the alarms came, with its time and
    type, and nothing else of the state changes but the clock of the
    observations; the room the handler queues need is one place per alarm. *)
Theorem alarm_dispatch_all ms n : ∀ w,
  alarm_mq w = Some (mkQueue ms n) → awake w → queues_room w (length ms) →
  ∃ w', mrepeat (length ms) alarm_mail_process_step w = Done () w' ∧
    alarm_mq w' = Some (mkQueue [] n) ∧ dispatched ms w w'.
Proof.
  induction ms as [|m ms IH]; intros w Ha Haw Hroom; simpl.
  - exists w. eauto using dispatched_nil.
  - destruct (alarm_step_mail w m ms n) as (w1 & Hstep & Ha1 & D1); [done..| |].
    { destruct Hroom as ((?&?&?) & (?&?&?) & (?&?&?)). simpl in *.
      split; [|split]; eexists; (split; [done|]); (eapply q_room_le; [|done]); lia. }
    destruct (IH w1) as (w2 & Hrun & Ha2 & D2);
      [done|by eapply dispatched_awake|by eapply dispatched_room|].
    exists w2. unfold mseq. rewrite Hstep. eauto using dispatched_trans.
Qed.

(** Asleep, the alarm thread hands nothing on: the oldest alarm
    is taken from the queue and is lost, and that is the only change. *)
Lemma alarm_asleep_drops w m rest n :
  alarm_mq w = Some (mkQueue (m :: rest) n) → ¬ awake w →
  alarm_mail_process_step w = Done () (set_alarm_mq (Some (mkQueue rest n)) w).
Proof.
  intros Ha Haw. unfold alarm_mail_process_step, machine_status_deal, rt_mq_recv.
  unfold mseq, get, upd, mreturn. rewrite Ha. simpl. unfold awake in Haw.
  apply dec_stable, Z.eqb_eq in Haw. rewrite Haw. done.
Qed.
End alarm.

(** A broken shell, reported everywhere *)
Definition shell_alarm : ALARM_MAIL := mkAlarmMail 5 ALARM_TYPE_LOCK_SHELL 7 0.
Definition alarmed_world : World := set_alarm_mq (Some (mkQueue [shell_alarm] 20)) start_world.
Definition sleeping_world : World := set_machine_work_status 0 alarmed_world.

Lemma alarm_dispatch_all_witness :
  ∃ w', mrepeat 1 (alarm_mail_process_step (HB:=quiet_board)) alarmed_world = Done () w' ∧
    alarm_mq w' = Some (mkQueue [] 20) ∧ dispatched [shell_alarm] alarmed_world w'.
Proof.
  apply (alarm_dispatch_all (HB:=quiet_board) [shell_alarm] 20).
  - reflexivity.
  - by_computation.
  - repeat split; eexists; (split; [reflexivity|]); by_computation.
Defined.


#[export] Hint Resolve send_alarm_mail_runs send_sms_mail_runs send_gprs_mail_runs
  send_local_mail_runs send_aip_mail_runs send_mms_mail_runs camera_send_mail_runs
  alarm_inform_send_runs machine_status_deal_runs : runs.
