(* ===== verification/Des.v ===== *)
(** * DES and triple DES (src/des.c)

    The cipher that [auth_process] of gprs.c uses to authenticate the lock to
    the server.  The C macros become functions on 32-bit words, a context is
    its subkey array, a block is a list of eight bytes.  The theorems show
    that decryption inverts encryption in every mode the file offers, that the
    weak-key table is exactly a table of keys whose encryption another entry
    undoes, that the parity functions agree, and that the file's own self-test
    vectors hold. *)
From stdpp Require Import base list.
From Stdlib Require Import ZArith Lia Bool.
From S2P Require Import Prelude.

(** C shifts on [uint32_t]. *)
Notation "x <<u n" := (wrap 32 (Z.shiftl x n)) (at level 35, no associativity).
Notation "x >>u n" := (Z.shiftr x n) (at level 35, no associativity).
Notation "x .^ y" := (Z.lxor x y) (at level 37, left associativity).
Notation "x .& y" := (Z.land x y) (at level 36, left associativity).
Notation "x .| y" := (Z.lor x y) (at level 38, left associativity).

(** ** Expanded S-boxes, key permutation tables, parity and weak keys *)

Definition SB1 : list Z :=
  [0x01010400; 0x00000000; 0x00010000; 0x01010404;
   0x01010004; 0x00010404; 0x00000004; 0x00010000;
   0x00000400; 0x01010400; 0x01010404; 0x00000400;
   0x01000404; 0x01010004; 0x01000000; 0x00000004;
   0x00000404; 0x01000400; 0x01000400; 0x00010400;
   0x00010400; 0x01010000; 0x01010000; 0x01000404;
   0x00010004; 0x01000004; 0x01000004; 0x00010004;
   0x00000000; 0x00000404; 0x00010404; 0x01000000;
   0x00010000; 0x01010404; 0x00000004; 0x01010000;
   0x01010400; 0x01000000; 0x01000000; 0x00000400;
   0x01010004; 0x00010000; 0x00010400; 0x01000004;
   0x00000400; 0x00000004; 0x01000404; 0x00010404;
   0x01010404; 0x00010004; 0x01010000; 0x01000404;
   0x01000004; 0x00000404; 0x00010404; 0x01010400;
   0x00000404; 0x01000400; 0x01000400; 0x00000000;
   0x00010004; 0x00010400; 0x00000000; 0x01010004].

Definition SB2 : list Z :=
  [0x80108020; 0x80008000; 0x00008000; 0x00108020;
   0x00100000; 0x00000020; 0x80100020; 0x80008020;
   0x80000020; 0x80108020; 0x80108000; 0x80000000;
   0x80008000; 0x00100000; 0x00000020; 0x80100020;
   0x00108000; 0x00100020; 0x80008020; 0x00000000;
   0x80000000; 0x00008000; 0x00108020; 0x80100000;
   0x00100020; 0x80000020; 0x00000000; 0x00108000;
   0x00008020; 0x80108000; 0x80100000; 0x00008020;
   0x00000000; 0x00108020; 0x80100020; 0x00100000;
   0x80008020; 0x80100000; 0x80108000; 0x00008000;
   0x80100000; 0x80008000; 0x00000020; 0x80108020;
   0x00108020; 0x00000020; 0x00008000; 0x80000000;
   0x00008020; 0x80108000; 0x00100000; 0x80000020;
   0x00100020; 0x80008020; 0x80000020; 0x00100020;
   0x00108000; 0x00000000; 0x80008000; 0x00008020;
   0x80000000; 0x80100020; 0x80108020; 0x00108000].

Definition SB3 : list Z :=
  [0x00000208; 0x08020200; 0x00000000; 0x08020008;
   0x08000200; 0x00000000; 0x00020208; 0x08000200;
   0x00020008; 0x08000008; 0x08000008; 0x00020000;
   0x08020208; 0x00020008; 0x08020000; 0x00000208;
   0x08000000; 0x00000008; 0x08020200; 0x00000200;
   0x00020200; 0x08020000; 0x08020008; 0x00020208;
   0x08000208; 0x00020200; 0x00020000; 0x08000208;
   0x00000008; 0x08020208; 0x00000200; 0x08000000;
   0x08020200; 0x08000000; 0x00020008; 0x00000208;
   0x00020000; 0x08020200; 0x08000200; 0x00000000;
   0x00000200; 0x00020008; 0x08020208; 0x08000200;
   0x08000008; 0x00000200; 0x00000000; 0x08020008;
   0x08000208; 0x00020000; 0x08000000; 0x08020208;
   0x00000008; 0x00020208; 0x00020200; 0x08000008;
   0x08020000; 0x08000208; 0x00000208; 0x08020000;
   0x00020208; 0x00000008; 0x08020008; 0x00020200].

Definition SB4 : list Z :=
  [0x00802001; 0x00002081; 0x00002081; 0x00000080;
   0x00802080; 0x00800081; 0x00800001; 0x00002001;
   0x00000000; 0x00802000; 0x00802000; 0x00802081;
   0x00000081; 0x00000000; 0x00800080; 0x00800001;
   0x00000001; 0x00002000; 0x00800000; 0x00802001;
   0x00000080; 0x00800000; 0x00002001; 0x00002080;
   0x00800081; 0x00000001; 0x00002080; 0x00800080;
   0x00002000; 0x00802080; 0x00802081; 0x00000081;
   0x00800080; 0x00800001; 0x00802000; 0x00802081;
   0x00000081; 0x00000000; 0x00000000; 0x00802000;
   0x00002080; 0x00800080; 0x00800081; 0x00000001;
   0x00802001; 0x00002081; 0x00002081; 0x00000080;
   0x00802081; 0x00000081; 0x00000001; 0x00002000;
   0x00800001; 0x00002001; 0x00802080; 0x00800081;
   0x00002001; 0x00002080; 0x00800000; 0x00802001;
   0x00000080; 0x00800000; 0x00002000; 0x00802080].

Definition SB5 : list Z :=
  [0x00000100; 0x02080100; 0x02080000; 0x42000100;
   0x00080000; 0x00000100; 0x40000000; 0x02080000;
   0x40080100; 0x00080000; 0x02000100; 0x40080100;
   0x42000100; 0x42080000; 0x00080100; 0x40000000;
   0x02000000; 0x40080000; 0x40080000; 0x00000000;
   0x40000100; 0x42080100; 0x42080100; 0x02000100;
   0x42080000; 0x40000100; 0x00000000; 0x42000000;
   0x02080100; 0x02000000; 0x42000000; 0x00080100;
   0x00080000; 0x42000100; 0x00000100; 0x02000000;
   0x40000000; 0x02080000; 0x42000100; 0x40080100;
   0x02000100; 0x40000000; 0x42080000; 0x02080100;
   0x40080100; 0x00000100; 0x02000000; 0x42080000;
   0x42080100; 0x00080100; 0x42000000; 0x42080100;
   0x02080000; 0x00000000; 0x40080000; 0x42000000;
   0x00080100; 0x02000100; 0x40000100; 0x00080000;
   0x00000000; 0x40080000; 0x02080100; 0x40000100].

Definition SB6 : list Z :=
  [0x20000010; 0x20400000; 0x00004000; 0x20404010;
   0x20400000; 0x00000010; 0x20404010; 0x00400000;
   0x20004000; 0x00404010; 0x00400000; 0x20000010;
   0x00400010; 0x20004000; 0x20000000; 0x00004010;
   0x00000000; 0x00400010; 0x20004010; 0x00004000;
   0x00404000; 0x20004010; 0x00000010; 0x20400010;
   0x20400010; 0x00000000; 0x00404010; 0x20404000;
   0x00004010; 0x00404000; 0x20404000; 0x20000000;
   0x20004000; 0x00000010; 0x20400010; 0x00404000;
   0x20404010; 0x00400000; 0x00004010; 0x20000010;
   0x00400000; 0x20004000; 0x20000000; 0x00004010;
   0x20000010; 0x20404010; 0x00404000; 0x20400000;
   0x00404010; 0x20404000; 0x00000000; 0x20400010;
   0x00000010; 0x00004000; 0x20400000; 0x00404010;
   0x00004000; 0x00400010; 0x20004010; 0x00000000;
   0x20404000; 0x20000000; 0x00400010; 0x20004010].

Definition SB7 : list Z :=
  [0x00200000; 0x04200002; 0x04000802; 0x00000000;
   0x00000800; 0x04000802; 0x00200802; 0x04200800;
   0x04200802; 0x00200000; 0x00000000; 0x04000002;
   0x00000002; 0x04000000; 0x04200002; 0x00000802;
   0x04000800; 0x00200802; 0x00200002; 0x04000800;
   0x04000002; 0x04200000; 0x04200800; 0x00200002;
   0x04200000; 0x00000800; 0x00000802; 0x04200802;
   0x00200800; 0x00000002; 0x04000000; 0x00200800;
   0x04000000; 0x00200800; 0x00200000; 0x04000802;
   0x04000802; 0x04200002; 0x04200002; 0x00000002;
   0x00200002; 0x04000000; 0x04000800; 0x00200000;
   0x04200800; 0x00000802; 0x00200802; 0x04200800;
   0x00000802; 0x04000002; 0x04200802; 0x04200000;
   0x00200800; 0x00000000; 0x00000002; 0x04200802;
   0x00000000; 0x00200802; 0x04200000; 0x00000800;
   0x04000002; 0x04000800; 0x00000800; 0x00200002].

Definition SB8 : list Z :=
  [0x10001040; 0x00001000; 0x00040000; 0x10041040;
   0x10000000; 0x10001040; 0x00000040; 0x10000000;
   0x00040040; 0x10040000; 0x10041040; 0x00041000;
   0x10041000; 0x00041040; 0x00001000; 0x00000040;
   0x10040000; 0x10000040; 0x10001000; 0x00001040;
   0x00041000; 0x00040040; 0x10040040; 0x10041000;
   0x00001040; 0x00000000; 0x00000000; 0x10040040;
   0x10000040; 0x10001000; 0x00041040; 0x00040000;
   0x00041040; 0x00040000; 0x10041000; 0x00001000;
   0x00000040; 0x10040040; 0x00001000; 0x00041040;
   0x10001000; 0x00000040; 0x10000040; 0x10040000;
   0x10040040; 0x10000000; 0x00040000; 0x10001040;
   0x00000000; 0x10041040; 0x00040040; 0x10000040;
   0x10040000; 0x10001000; 0x10001040; 0x00000000;
   0x10041040; 0x00041000; 0x00041000; 0x00001040;
   0x00001040; 0x00040040; 0x10000000; 0x10041000].

Definition LHs : list Z :=
  [0x00000000; 0x00000001; 0x00000100; 0x00000101;
   0x00010000; 0x00010001; 0x00010100; 0x00010101;
   0x01000000; 0x01000001; 0x01000100; 0x01000101;
   0x01010000; 0x01010001; 0x01010100; 0x01010101].

Definition RHs : list Z :=
  [0x00000000; 0x01000000; 0x00010000; 0x01010000;
   0x00000100; 0x01000100; 0x00010100; 0x01010100;
   0x00000001; 0x01000001; 0x00010001; 0x01010001;
   0x00000101; 0x01000101; 0x00010101; 0x01010101].

Definition odd_parity_table : list Z :=
  [1; 2; 4; 7; 8; 11; 13; 14; 16; 19; 21; 22;
   25; 26; 28; 31; 32; 35; 37; 38; 41; 42; 44; 47;
   49; 50; 52; 55; 56; 59; 61; 62; 64; 67; 69; 70;
   73; 74; 76; 79; 81; 82; 84; 87; 88; 91; 93; 94;
   97; 98; 100; 103; 104; 107; 109; 110; 112; 115; 117; 118;
   121; 122; 124; 127; 128; 131; 133; 134; 137; 138; 140; 143;
   145; 146; 148; 151; 152; 155; 157; 158; 161; 162; 164; 167;
   168; 171; 173; 174; 176; 179; 181; 182; 185; 186; 188; 191;
   193; 194; 196; 199; 200; 203; 205; 206; 208; 211; 213; 214;
   217; 218; 220; 223; 224; 227; 229; 230; 233; 234; 236; 239;
   241; 242; 244; 247; 248; 251; 253; 254].

Definition weak_key_table : list (list Z) :=
  [[0x01; 0x01; 0x01; 0x01; 0x01; 0x01; 0x01; 0x01];
   [0xFE; 0xFE; 0xFE; 0xFE; 0xFE; 0xFE; 0xFE; 0xFE];
   [0x1F; 0x1F; 0x1F; 0x1F; 0x0E; 0x0E; 0x0E; 0x0E];
   [0xE0; 0xE0; 0xE0; 0xE0; 0xF1; 0xF1; 0xF1; 0xF1];
   [0x01; 0x1F; 0x01; 0x1F; 0x01; 0x0E; 0x01; 0x0E];
   [0x1F; 0x01; 0x1F; 0x01; 0x0E; 0x01; 0x0E; 0x01];
   [0x01; 0xE0; 0x01; 0xE0; 0x01; 0xF1; 0x01; 0xF1];
   [0xE0; 0x01; 0xE0; 0x01; 0xF1; 0x01; 0xF1; 0x01];
   [0x01; 0xFE; 0x01; 0xFE; 0x01; 0xFE; 0x01; 0xFE];
   [0xFE; 0x01; 0xFE; 0x01; 0xFE; 0x01; 0xFE; 0x01];
   [0x1F; 0xE0; 0x1F; 0xE0; 0x0E; 0xF1; 0x0E; 0xF1];
   [0xE0; 0x1F; 0xE0; 0x1F; 0xF1; 0x0E; 0xF1; 0x0E];
   [0x1F; 0xFE; 0x1F; 0xFE; 0x0E; 0xFE; 0x0E; 0xFE];
   [0xFE; 0x1F; 0xFE; 0x1F; 0xFE; 0x0E; 0xFE; 0x0E];
   [0xE0; 0xFE; 0xE0; 0xFE; 0xF1; 0xFE; 0xF1; 0xFE];
   [0xFE; 0xE0; 0xFE; 0xE0; 0xFE; 0xF1; 0xFE; 0xF1]].
(** ** The macros *)

(** GET_UINT32_BE *)
Definition GET_UINT32_BE (b : list Z) (i : nat) : Z :=
  (nth i b 0 <<u 24) .| (nth (i + 1) b 0 <<u 16)
  .| (nth (i + 2) b 0 <<u 8) .| nth (i + 3) b 0.

(** PUT_UINT32_BE, the four bytes it stores *)
Definition PUT_UINT32_BE (n : Z) : list Z :=
  [u8 (n >>u 24); u8 (n >>u 16); u8 (n >>u 8); u8 n].

(** One line of DES_IP and DES_FP, which exchanges the bits of [m] in [b] with
    the bits [n] places higher in [a]:
    T = ((a >> n) ^ b) & m; b ^= T; a ^= (T << n). *)
Definition delta_swap (m n a b : Z) : Z * Z :=
  let T := ((a >>u n) .^ b) .& m in (a .^ (T <<u n), b .^ T).

(** T = (X ^ Y) & 0xAAAAAAAA; Y ^= T; X ^= T (in either order) *)
Definition mid_swap (X Y : Z) : Z * Z :=
  let T := (X .^ Y) .& 0xAAAAAAAA in (X .^ T, Y .^ T).

(** ((x << 1) | (x >> 31)) & 0xFFFFFFFF and ((x << 31) | (x >> 1)) & 0xFFFFFFFF *)
Definition rol1 (x : Z) : Z := ((x <<u 1) .| (x >>u 31)) .& 0xFFFFFFFF.
Definition ror1 (x : Z) : Z := ((x <<u 31) .| (x >>u 1)) .& 0xFFFFFFFF.

(** DES_IP(X,Y) *)
Definition DES_IP (X Y : Z) : Z * Z :=
  let '(X, Y) := delta_swap 0x0F0F0F0F 4 X Y in
  let '(X, Y) := delta_swap 0x0000FFFF 16 X Y in
  let '(Y, X) := delta_swap 0x33333333 2 Y X in
  let '(Y, X) := delta_swap 0x00FF00FF 8 Y X in
  let Y := rol1 Y in
  let '(X, Y) := mid_swap X Y in
  let X := rol1 X in
  (X, Y).

(** DES_FP(X,Y) *)
Definition DES_FP (X Y : Z) : Z * Z :=
  let X := ror1 X in
  let '(X, Y) := mid_swap X Y in
  let Y := ror1 Y in
  let '(Y, X) := delta_swap 0x00FF00FF 8 Y X in
  let '(Y, X) := delta_swap 0x33333333 2 Y X in
  let '(X, Y) := delta_swap 0x0000FFFF 16 X Y in
  let '(X, Y) := delta_swap 0x0F0F0F0F 4 X Y in
  (X, Y).

(** DES_ROUND(X,Y): the new value of [Y], from the two subkeys it reads. *)
Definition DES_ROUND (k0 k1 X Y : Z) : Z :=
  let T := k0 .^ X in
  let Y := Y .^ (tbl SB8 (T .& 0x3F) .^ tbl SB6 ((T >>u 8) .& 0x3F)
                 .^ tbl SB4 ((T >>u 16) .& 0x3F) .^ tbl SB2 ((T >>u 24) .& 0x3F)) in
  let T := k1 .^ ((X <<u 28) .| (X >>u 4)) in
  Y .^ (tbl SB7 (T .& 0x3F) .^ tbl SB5 ((T >>u 8) .& 0x3F)
        .^ tbl SB3 ((T >>u 16) .& 0x3F) .^ tbl SB1 ((T >>u 24) .& 0x3F)).

(** ** Parity and weak keys *)

Definition DES_KEY_SIZE : nat := 8.
Definition POLARSSL_ERR_DES_INVALID_INPUT_LENGTH : Z := -0x32.

Definition des_key_set_parity (key : list Z) : list Z :=
  map (λ k, tbl odd_parity_table (k / 2)) key.

Definition des_key_check_key_parity (key : list Z) : Z :=
  if forallb (λ k, k =? tbl odd_parity_table (k / 2)) key then 0 else 1.

Definition des_key_check_weak (key : list Z) : Z :=
  if existsb (λ w, bool_decide (w = key)) weak_key_table then 1 else 0.

(** ** Key schedules *)

(** Permuted choice 1 *)
Definition des_pc1 (key : list Z) : Z * Z :=
  let X := GET_UINT32_BE key 0 in
  let Y := GET_UINT32_BE key 4 in
  let T := ((Y >>u 4) .^ X) .& 0x0F0F0F0F in let X := X .^ T in let Y := Y .^ (T <<u 4) in
  let T := (Y .^ X) .& 0x10101010 in let X := X .^ T in let Y := Y .^ T in
  let X := (tbl LHs (X .& 0xF) <<u 3) .| (tbl LHs ((X >>u 8) .& 0xF) <<u 2)
        .| (tbl LHs ((X >>u 16) .& 0xF) <<u 1) .| tbl LHs ((X >>u 24) .& 0xF)
        .| (tbl LHs ((X >>u 5) .& 0xF) <<u 7) .| (tbl LHs ((X >>u 13) .& 0xF) <<u 6)
        .| (tbl LHs ((X >>u 21) .& 0xF) <<u 5) .| (tbl LHs ((X >>u 29) .& 0xF) <<u 4) in
  let Y := (tbl RHs ((Y >>u 1) .& 0xF) <<u 3) .| (tbl RHs ((Y >>u 9) .& 0xF) <<u 2)
        .| (tbl RHs ((Y >>u 17) .& 0xF) <<u 1) .| tbl RHs ((Y >>u 25) .& 0xF)
        .| (tbl RHs ((Y >>u 4) .& 0xF) <<u 7) .| (tbl RHs ((Y >>u 12) .& 0xF) <<u 6)
        .| (tbl RHs ((Y >>u 20) .& 0xF) <<u 5) .| (tbl RHs ((Y >>u 28) .& 0xF) <<u 4) in
  (X .& 0x0FFFFFFF, Y .& 0x0FFFFFFF).

(** The rotation of iteration [i] of the subkey loop *)
Definition des_key_rotate (i : nat) (X Y : Z) : Z * Z :=
  if (i <? 2)%nat || (i =? 8)%nat || (i =? 15)%nat
  then (((X <<u 1) .| (X >>u 27)) .& 0x0FFFFFFF, ((Y <<u 1) .| (Y >>u 27)) .& 0x0FFFFFFF)
  else (((X <<u 2) .| (X >>u 26)) .& 0x0FFFFFFF, ((Y <<u 2) .| (Y >>u 26)) .& 0x0FFFFFFF).

(** The two subkeys one iteration stores *)
Definition des_subkeys (X Y : Z) : list Z :=
  [((X <<u 4) .& 0x24000000) .| ((X <<u 28) .& 0x10000000)
   .| ((X <<u 14) .& 0x08000000) .| ((X <<u 18) .& 0x02080000)
   .| ((X <<u 6) .& 0x01000000) .| ((X <<u 9) .& 0x00200000)
   .| ((X >>u 1) .& 0x00100000) .| ((X <<u 10) .& 0x00040000)
   .| ((X <<u 2) .& 0x00020000) .| ((X >>u 10) .& 0x00010000)
   .| ((Y >>u 13) .& 0x00002000) .| ((Y >>u 4) .& 0x00001000)
   .| ((Y <<u 6) .& 0x00000800) .| ((Y >>u 1) .& 0x00000400)
   .| ((Y >>u 14) .& 0x00000200) .| (Y .& 0x00000100)
   .| ((Y >>u 5) .& 0x00000020) .| ((Y >>u 10) .& 0x00000010)
   .| ((Y >>u 3) .& 0x00000008) .| ((Y >>u 18) .& 0x00000004)
   .| ((Y >>u 26) .& 0x00000002) .| ((Y >>u 24) .& 0x00000001);
   ((X <<u 15) .& 0x20000000) .| ((X <<u 17) .& 0x10000000)
   .| ((X <<u 10) .& 0x08000000) .| ((X <<u 22) .& 0x04000000)
   .| ((X >>u 2) .& 0x02000000) .| ((X <<u 1) .& 0x01000000)
   .| ((X <<u 16) .& 0x00200000) .| ((X <<u 11) .& 0x00100000)
   .| ((X <<u 3) .& 0x00080000) .| ((X >>u 6) .& 0x00040000)
   .| ((X <<u 15) .& 0x00020000) .| ((X >>u 4) .& 0x00010000)
   .| ((Y >>u 2) .& 0x00002000) .| ((Y <<u 8) .& 0x00001000)
   .| ((Y >>u 14) .& 0x00000808) .| ((Y >>u 9) .& 0x00000400)
   .| (Y .& 0x00000200) .| ((Y <<u 7) .& 0x00000100)
   .| ((Y >>u 7) .& 0x00000020) .| ((Y >>u 3) .& 0x00000011)
   .| ((Y <<u 2) .& 0x00000004) .| ((Y >>u 21) .& 0x00000002)].

(** The loop [for (i = 0; i < 16; i++)], iterations [i .. i + n - 1] *)
Fixpoint des_setkey_loop (n i : nat) (X Y : Z) : list Z :=
  match n with
  | O => []
  | S n' => let '(X, Y) := des_key_rotate i X Y in
            des_subkeys X Y ++ des_setkey_loop n' (S i) X Y
  end.

Definition des_setkey (key : list Z) : list Z :=
  let '(X, Y) := des_pc1 key in des_setkey_loop 16 0 X Y.

Definition des_setkey_enc (key : list Z) : list Z := des_setkey key.

(** SWAP(sk[i], sk[j]) *)
Definition SWAP (i j : nat) (sk : list Z) : list Z :=
  <[j := nth i sk 0]> (<[i := nth j sk 0]> sk).

(** One iteration of the swapping loop of [des_setkey_dec] *)
Definition des_dec_swap (sk : list Z) (i : nat) : list Z :=
  SWAP (i + 1) (31 - i) (SWAP i (30 - i) sk).

Definition des_setkey_dec (key : list Z) : list Z :=
  foldl des_dec_swap (des_setkey key) [0; 2; 4; 6; 8; 10; 12; 14]%nat.

(** ** Block encryption and decryption *)

(** The eight iterations of the round loop, which reads four subkeys each:
    DES_ROUND(Y, X); DES_ROUND(X, Y). *)
Fixpoint des_rounds (n : nat) (SK : list Z) (X Y : Z) : list Z * (Z * Z) :=
  match n, SK with
  | S n', k0 :: k1 :: k2 :: k3 :: SK' =>
      let X := DES_ROUND k0 k1 Y X in
      let Y := DES_ROUND k2 k3 X Y in
      des_rounds n' SK' X Y
  | _, _ => (SK, (X, Y))
  end.

(** The middle loop of triple DES: DES_ROUND(X, Y); DES_ROUND(Y, X). *)
Fixpoint des_rounds' (n : nat) (SK : list Z) (X Y : Z) : list Z * (Z * Z) :=
  match n, SK with
  | S n', k0 :: k1 :: k2 :: k3 :: SK' =>
      let Y := DES_ROUND k0 k1 X Y in
      let X := DES_ROUND k2 k3 Y X in
      des_rounds' n' SK' X Y
  | _, _ => (SK, (X, Y))
  end.

Definition des_crypt_ecb (sk input : list Z) : list Z :=
  let '(X, Y) := DES_IP (GET_UINT32_BE input 0) (GET_UINT32_BE input 4) in
  let '(_, (X, Y)) := des_rounds 8 sk X Y in
  let '(Y, X) := DES_FP Y X in
  PUT_UINT32_BE Y ++ PUT_UINT32_BE X.

Definition des3_crypt_ecb (sk input : list Z) : list Z :=
  let '(X, Y) := DES_IP (GET_UINT32_BE input 0) (GET_UINT32_BE input 4) in
  let '(sk, (X, Y)) := des_rounds 8 sk X Y in
  let '(sk, (X, Y)) := des_rounds' 8 sk X Y in
  let '(_, (X, Y)) := des_rounds 8 sk X Y in
  let '(Y, X) := DES_FP Y X in
  PUT_UINT32_BE Y ++ PUT_UINT32_BE X.

(** ** Triple-DES key schedules

    [des3_set2key] and [des3_set3key] fill two 96-word arrays at once; the
    loop copies between them, so the model threads both arrays. *)

(** des_setkey(a + off, key): the 32 words from [off] on are overwritten. *)
Definition store_at (off : nat) (ws a : list Z) : list Z :=
  take off a ++ ws ++ drop (off + length ws) a.

(** a[i] = v *)
Definition put (i : nat) (v : Z) (a : list Z) : list Z := <[i := v]> a.

Definition des3_set2key_step (st : list Z * list Z) (i : nat) : list Z * list Z :=
  let '(esk, dsk) := st in
  let dsk := put i (nth (30 - i) esk 0) dsk in
  let dsk := put (i + 1) (nth (31 - i) esk 0) dsk in
  let esk := put (i + 32) (nth (62 - i) dsk 0) esk in
  let esk := put (i + 33) (nth (63 - i) dsk 0) esk in
  let esk := put (i + 64) (nth i esk 0) esk in
  let esk := put (i + 65) (nth (i + 1) esk 0) esk in
  let dsk := put (i + 64) (nth i dsk 0) dsk in
  let dsk := put (i + 65) (nth (i + 1) dsk 0) dsk in
  (esk, dsk).

Definition even_upto_30 : list nat :=
  [0; 2; 4; 6; 8; 10; 12; 14; 16; 18; 20; 22; 24; 26; 28; 30]%nat.

Definition des3_set2key (key esk dsk : list Z) : list Z * list Z :=
  let esk := store_at 0 (des_setkey key) esk in
  let dsk := store_at 32 (des_setkey (drop 8 key)) dsk in
  foldl des3_set2key_step (esk, dsk) even_upto_30.

Definition des3_set3key_step (st : list Z * list Z) (i : nat) : list Z * list Z :=
  let '(esk, dsk) := st in
  let dsk := put i (nth (94 - i) esk 0) dsk in
  let dsk := put (i + 1) (nth (95 - i) esk 0) dsk in
  let esk := put (i + 32) (nth (62 - i) dsk 0) esk in
  let esk := put (i + 33) (nth (63 - i) dsk 0) esk in
  let dsk := put (i + 64) (nth (30 - i) esk 0) dsk in
  let dsk := put (i + 65) (nth (31 - i) esk 0) dsk in
  (esk, dsk).

Definition des3_set3key (key esk dsk : list Z) : list Z * list Z :=
  let esk := store_at 0 (des_setkey key) esk in
  let dsk := store_at 32 (des_setkey (drop 8 key)) dsk in
  let esk := store_at 64 (des_setkey (drop 16 key)) esk in
  foldl des3_set3key_step (esk, dsk) even_upto_30.

(** The scratch array [sk] of the wrappers is uninitialised: [junk]. *)
Definition des3_set2key_enc (ctx junk key : list Z) : list Z := (des3_set2key key ctx junk).1.
Definition des3_set2key_dec (ctx junk key : list Z) : list Z := (des3_set2key key junk ctx).2.
Definition des3_set3key_enc (ctx junk key : list Z) : list Z := (des3_set3key key ctx junk).1.
Definition des3_set3key_dec (ctx junk key : list Z) : list Z := (des3_set3key key junk ctx).2.

(** ** CBC *)

Definition DES_ENCRYPT : Z := 1.
Definition DES_DECRYPT : Z := 0.

Definition xor_block (a b : list Z) : list Z := zip_with (λ x y, u8 (x .^ y)) a b.

(** The two loops, for [n] remaining blocks: the chained output and the final
    [iv].  [crypt] is the block function of the context. *)
Fixpoint cbc_encrypt_loop (crypt : list Z → list Z) (n : nat) (iv input : list Z)
  : list Z * list Z :=
  match n with
  | O => ([], iv)
  | S n' =>
      let output := crypt (xor_block (take 8 input) iv) in
      let '(rest, iv) := cbc_encrypt_loop crypt n' output (drop 8 input) in
      (output ++ rest, iv)
  end.

Fixpoint cbc_decrypt_loop (crypt : list Z → list Z) (n : nat) (iv input : list Z)
  : list Z * list Z :=
  match n with
  | O => ([], iv)
  | S n' =>
      let temp := take 8 input in
      let output := xor_block (crypt (take 8 input)) iv in
      let '(rest, iv) := cbc_decrypt_loop crypt n' temp (drop 8 input) in
      (output ++ rest, iv)
  end.

(** Return code, output and updated [iv]; nothing is written on the error. *)
Definition crypt_cbc (crypt : list Z → list Z) (mode : Z) (length : nat) (iv input : list Z)
  : Z * option (list Z * list Z) :=
  if negb (length mod 8 =? 0)%nat then (POLARSSL_ERR_DES_INVALID_INPUT_LENGTH, None)
  else if mode =? DES_ENCRYPT
       then (0, Some (cbc_encrypt_loop crypt (length / 8) iv input))
       else (0, Some (cbc_decrypt_loop crypt (length / 8) iv input)).

Definition des_crypt_cbc (sk : list Z) := crypt_cbc (des_crypt_ecb sk).
Definition des3_crypt_cbc (sk : list Z) := crypt_cbc (des3_crypt_ecb sk).

(** ** Initial and final permutation are inverse *)

Lemma shr_shl_masked n m t :
  0 ≤ n ≤ 32 → fits (32 - n) m → ((t .& m) <<u n) >>u n = t .& m.
Proof.
  intros Hn Hm. apply Z.bits_inj'. intros i Hi.
  autorewrite with tb. replace (i + n - n) with i by lia.
  destruct (Z.ltb_spec (i + n) 32); [done|].
  rewrite (fits_testbit _ _ _ Hm) by lia. by rewrite andb_false_r.
Qed.

Lemma delta_swap_involutive m n a b :
  0 ≤ n ≤ 32 → fits (32 - n) m →
  (let '(a', b') := delta_swap m n a b in delta_swap m n a' b') = (a, b).
Proof.
  intros Hn Hm. unfold delta_swap.
  set (T := ((a >>u n) .^ b) .& m).
  assert (((a .^ (T <<u n)) >>u n .^ (b .^ T)) .& m = T) as ->.
  { rewrite Z.shiftr_lxor. unfold T at 1. rewrite shr_shl_masked by done. fold T.
    apply Z.bits_inj'. intros i Hi. unfold T. autorewrite with tb.
    by destruct (Z.testbit a (i + n)), (Z.testbit b i), (Z.testbit m i). }
  by rewrite !lxor_cancel.
Qed.

Lemma fits_delta_swap m n a b :
  0 ≤ n → fits 32 a → fits 32 b → fits 32 m →
  fits 32 (delta_swap m n a b).1 ∧ fits 32 (delta_swap m n a b).2.
Proof. unfold delta_swap; simpl; split; auto 10 with bits. Qed.

Lemma land_ffffffff x : x .& 0xFFFFFFFF = u32 x.
Proof. unfold wrap. by rewrite <- Z.land_ones by lia. Qed.

Lemma rol1_testbit x i :
  fits 32 x → 0 ≤ i < 32 →
  Z.testbit (rol1 x) i = if i =? 0 then Z.testbit x 31 else Z.testbit x (i - 1).
Proof.
  intros Hx Hi. unfold rol1. rewrite land_ffffffff. autorewrite with tb.
  rewrite (proj2 (Z.ltb_lt i 32)) by lia. simpl.
  destruct (Z.eqb_spec i 0) as [->|].
  - by rewrite testbit_neg by lia.
  - rewrite (fits_testbit 32 x (i + 31)) by (done || lia). apply orb_false_r.
Qed.

Lemma ror1_testbit x i :
  fits 32 x → 0 ≤ i < 32 →
  Z.testbit (ror1 x) i = if i =? 31 then Z.testbit x 0 else Z.testbit x (i + 1).
Proof.
  intros Hx Hi. unfold ror1. rewrite land_ffffffff. autorewrite with tb.
  rewrite (proj2 (Z.ltb_lt i 32)) by lia. simpl.
  destruct (Z.eqb_spec i 31) as [->|].
  - rewrite (fits_testbit 32 x (31 + 1)) by (done || lia). apply orb_false_r.
  - by rewrite testbit_neg by lia.
Qed.

Lemma fits_rol1 x : fits 32 (rol1 x).
Proof. unfold rol1. rewrite land_ffffffff. auto with bits. Qed.
Lemma fits_ror1 x : fits 32 (ror1 x).
Proof. unfold ror1. rewrite land_ffffffff. auto with bits. Qed.
#[export] Hint Resolve fits_rol1 fits_ror1 : bits.

(** Two 32-bit words are equal when their 32 bits are. *)
Lemma word32_ext x y :
  fits 32 x → fits 32 y → (∀ i, 0 ≤ i < 32 → Z.testbit x i = Z.testbit y i) → x = y.
Proof.
  intros Hx Hy H. apply Z.bits_inj'. intros i Hi.
  destruct (decide (i < 32)); [apply H; lia|].
  by rewrite (fits_testbit 32 x), (fits_testbit 32 y) by (done || lia).
Qed.

Lemma ror1_rol1 x : fits 32 x → ror1 (rol1 x) = x.
Proof.
  intros Hx. apply word32_ext; auto with bits. intros i Hi.
  rewrite ror1_testbit, !rol1_testbit by (auto with bits; lia).
  destruct (Z.eqb_spec i 31) as [->|]; [done|].
  rewrite rol1_testbit by (auto with bits; lia).
  rewrite (proj2 (Z.eqb_neq (i + 1) 0)) by lia. f_equal. lia.
Qed.

Lemma rol1_ror1 x : fits 32 x → rol1 (ror1 x) = x.
Proof.
  intros Hx. apply word32_ext; auto with bits. intros i Hi.
  rewrite rol1_testbit, ror1_testbit by (auto with bits; lia).
  destruct (Z.eqb_spec i 0) as [->|]; [done|].
  rewrite ror1_testbit by (auto with bits; lia).
  rewrite (proj2 (Z.eqb_neq (i - 1) 31)) by lia. f_equal. lia.
Qed.

Lemma mid_swap_involutive X Y :
  (let '(X', Y') := mid_swap X Y in mid_swap X' Y') = (X, Y).
Proof.
  unfold mid_swap. set (T := (X .^ Y) .& 0xAAAAAAAA).
  assert (((X .^ T) .^ (Y .^ T)) .& 0xAAAAAAAA = T) as ->.
  { unfold T at 3. f_equal. apply Z.bits_inj'. intros i _. rewrite !Z.lxor_spec.
    by destruct (Z.testbit X i), (Z.testbit Y i), (Z.testbit T i). }
  by rewrite !lxor_cancel.
Qed.

Lemma fits_mid_swap X Y :
  fits 32 X → fits 32 Y → fits 32 (mid_swap X Y).1 ∧ fits 32 (mid_swap X Y).2.
Proof. unfold mid_swap; simpl; split; auto 10 with bits. Qed.

(** The permutations below treat the stages as black boxes with these laws. *)
#[global] Opaque delta_swap mid_swap rol1 ror1.

Definition fits2 (p : Z * Z) : Prop := fits 32 p.1 ∧ fits 32 p.2.

(** Run one stage of the goal: name its results and record their range and
    the law that undoes it. *)
Ltac stage :=
  match goal with
  | |- context [delta_swap ?m ?n ?a ?b] =>
      let H := fresh in
      let R := fresh in
      pose proof (delta_swap_involutive m n a b ltac:(lia) ltac:(unfold fits; lia)) as H;
      pose proof (fits_delta_swap m n a b ltac:(lia) ltac:(auto with bits)
                    ltac:(auto with bits) ltac:(unfold fits; lia)) as R;
      destruct (delta_swap m n a b); cbn [fst snd] in R; destruct R
  | |- context [mid_swap ?a ?b] =>
      let H := fresh in
      let R := fresh in
      pose proof (mid_swap_involutive a b) as H;
      pose proof (fits_mid_swap a b ltac:(auto with bits) ltac:(auto with bits)) as R;
      destruct (mid_swap a b); cbn [fst snd] in R; destruct R
  end.

(** Undo the stages just run, innermost last. *)
Ltac unstage :=
  match goal with
  | H : delta_swap _ _ _ _ = _ |- _ => rewrite H; clear H
  | H : mid_swap _ _ = _ |- _ => rewrite H; clear H
  | |- context [ror1 (rol1 _)] => rewrite ror1_rol1 by auto with bits
  | |- context [rol1 (ror1 _)] => rewrite rol1_ror1 by auto with bits
  end.

Lemma fits2_DES_IP X Y : fits2 (X, Y) → fits2 (DES_IP X Y).
Proof.
  intros [HX HY]; cbn [fst snd] in *. unfold DES_IP.
  repeat stage. split; cbn [fst snd]; auto with bits.
Qed.

Lemma fits2_DES_FP X Y : fits2 (X, Y) → fits2 (DES_FP X Y).
Proof.
  intros [HX HY]; cbn [fst snd] in *. unfold DES_FP.
  repeat stage. split; cbn [fst snd]; auto with bits.
Qed.

Lemma DES_FP_IP X Y : fits2 (X, Y) → uncurry DES_FP (DES_IP X Y) = (X, Y).
Proof.
  intros [HX HY]; cbn [fst snd] in *. unfold DES_IP.
  do 5 stage. cbn [uncurry]. unfold DES_FP. by repeat unstage.
Qed.

Lemma DES_IP_FP X Y : fits2 (X, Y) → uncurry DES_IP (DES_FP X Y) = (X, Y).
Proof.
  intros [HX HY]; cbn [fst snd] in *. unfold DES_FP.
  do 5 stage. cbn [uncurry]. unfold DES_IP. by repeat unstage.
Qed.

(** ** Blocks as pairs of words *)

Definition block (b : list Z) : Prop := length b = 8%nat ∧ Forall (fits 8) b.

#[global] Instance block_dec b : Decision (block b).
Proof. unfold block. apply _. Defined.

Definition load (b : list Z) : Z * Z := (GET_UINT32_BE b 0, GET_UINT32_BE b 4).
Definition store (p : Z * Z) : list Z := PUT_UINT32_BE p.1 ++ PUT_UINT32_BE p.2.

Lemma wrap_shl_testbit x n i :
  0 ≤ n → 0 ≤ i → Z.testbit (x <<u n) i = (i <? 32) && Z.testbit x (i - n).
Proof. intros. rewrite wrap_testbit by lia. by rewrite Z.shiftl_spec. Qed.

(** The bytes of a word, put back together *)
Lemma be_bytes_of_word w :
  fits 32 w →
  (u8 (w >>u 24) <<u 24) .| (u8 (w >>u 16) <<u 16) .| (u8 (w >>u 8) <<u 8) .| u8 w = w.
Proof.
  intros Hw. apply word32_ext; [|done|].
  { repeat apply fits_lor; auto with bits; eapply fits_mono with (w := 8); auto with bits. }
  intros i Hi. rewrite !Z.lor_spec, !wrap_shl_testbit by lia.
  rewrite (proj2 (Z.ltb_lt i 32)) by lia. cbn [andb].
  assert (∀ n, 0 ≤ n → Z.testbit (u8 (w >>u n)) (i - n)
               = (n <=? i) && (i <? n + 8) && Z.testbit w i) as Hb.
  { intros n Hn. destruct (Z.leb_spec n i); [|by rewrite testbit_neg by lia].
    rewrite wrap_testbit, Z.shiftr_spec by lia. replace (i - n + n) with i by lia.
    cbn [andb]. f_equal. destruct (Z.ltb_spec (i - n) 8), (Z.ltb_spec i (n + 8)); lia || done. }
  rewrite !Hb by lia. rewrite wrap_testbit by lia.
  destruct (Z.testbit w i); [|by rewrite !andb_false_r].
  rewrite !andb_true_r.
  destruct (Z.leb_spec 24 i), (Z.leb_spec 16 i), (Z.leb_spec 8 i), (Z.ltb_spec i (24 + 8)),
    (Z.ltb_spec i (16 + 8)), (Z.ltb_spec i (8 + 8)), (Z.ltb_spec i 8); simpl; lia || done.
Qed.

(** and the word of four bytes, taken apart *)
Lemma be_word_value a b c d :
  fits 8 a → fits 8 b → fits 8 c → fits 8 d →
  (a <<u 24) .| (b <<u 16) .| (c <<u 8) .| d
  = a * 2 ^ 24 + b * 2 ^ 16 + c * 2 ^ 8 + d.
Proof.
  intros Ha Hb Hc Hd. unfold wrap, fits in *. rewrite !Z.shiftl_mul_pow2 by lia.
  rewrite !Z.mod_small by lia.
  rewrite lor_low by (unfold fits; lia).
  replace (a * 2 ^ 24 + b * 2 ^ 16) with ((a * 2 ^ 8 + b) * 2 ^ 16) by lia.
  rewrite lor_low by (unfold fits; lia).
  replace ((a * 2 ^ 8 + b) * 2 ^ 16 + c * 2 ^ 8)
    with ((a * 2 ^ 16 + b * 2 ^ 8 + c) * 2 ^ 8) by lia.
  rewrite lor_low by (unfold fits; lia). lia.
Qed.

Lemma word_of_be_bytes a b c d :
  fits 8 a → fits 8 b → fits 8 c → fits 8 d →
  PUT_UINT32_BE ((a <<u 24) .| (b <<u 16) .| (c <<u 8) .| d) = [a; b; c; d].
Proof.
  intros Ha Hb Hc Hd. rewrite be_word_value by done.
  unfold PUT_UINT32_BE, wrap, fits in *. rewrite !Z.shiftr_div_pow2 by lia.
  repeat f_equal; Z.div_mod_to_equations; lia.
Qed.

Lemma store_length p : length (store p) = 8%nat.
Proof. done. Qed.

Lemma store_block p : block (store p).
Proof.
  split; [done|]. unfold store, PUT_UINT32_BE; cbn [app].
  repeat (apply Forall_cons_2; [auto with bits|]). apply Forall_nil_2.
Qed.

Lemma load_store p : fits2 p → load (store p) = p.
Proof.
  intros [H1 H2]. destruct p as [a b]. unfold load, store, GET_UINT32_BE.
  cbn [PUT_UINT32_BE fst snd app nth Nat.add]. f_equal; by apply be_bytes_of_word.
Qed.

Lemma fits_byte_32 b : fits 8 b → fits 32 b.
Proof. apply fits_mono. lia. Qed.
#[export] Hint Resolve fits_byte_32 : bits.

Lemma store_load b : block b → store (load b) = b.
Proof.
  intros [Hlen H]. do 8 (destruct b as [|? b]; [discriminate|]).
  destruct b; [|discriminate]. decompose_Forall_hyps.
  unfold load, store, GET_UINT32_BE; cbn [fst snd nth Nat.add].
  by rewrite !word_of_be_bytes.
Qed.

Lemma fits2_load b : block b → fits2 (load b).
Proof.
  intros [Hlen H]. do 8 (destruct b as [|? b]; [discriminate|]).
  destruct b; [|discriminate]. decompose_Forall_hyps.
  split; unfold GET_UINT32_BE; cbn [fst snd load nth Nat.add]; unfold GET_UINT32_BE;
    cbn [nth Nat.add]; auto 10 with bits.
Qed.

(** ** The round function as a Feistel network *)

Lemma sboxes_fit :
  Forall (Forall (fits 32)) [SB1; SB2; SB3; SB4; SB5; SB6; SB7; SB8].
Proof. by_computation. Qed.

Lemma fits_sbox t i : t ∈ [SB1; SB2; SB3; SB4; SB5; SB6; SB7; SB8] → fits 32 (tbl t i).
Proof.
  intros Ht. apply tbl_fits; [done|].
  by apply (proj1 (Forall_forall _ _) sboxes_fit).
Qed.

Lemma fits_DES_ROUND k0 k1 X Y : fits 32 Y → fits 32 (DES_ROUND k0 k1 X Y).
Proof.
  intros HY. unfold DES_ROUND.
  repeat apply fits_lxor; try done; apply fits_sbox; by repeat constructor.
Qed.

(** A round only adds (xor) a function of the subkeys and the other half. *)
Lemma DES_ROUND_xor k0 k1 X Y : DES_ROUND k0 k1 X Y = Y .^ DES_ROUND k0 k1 X 0.
Proof. unfold DES_ROUND. rewrite !Z.lxor_0_l. by rewrite !Z.lxor_assoc. Qed.

Lemma DES_ROUND_involutive k0 k1 X Y : DES_ROUND k0 k1 X (DES_ROUND k0 k1 X Y) = Y.
Proof.
  rewrite (DES_ROUND_xor k0 k1 X (DES_ROUND _ _ _ _)), (DES_ROUND_xor k0 k1 X Y).
  apply lxor_cancel.
Qed.

#[global] Opaque DES_ROUND DES_IP DES_FP.

(** The abstract network over a list of subkey pairs *)
Fixpoint feistel (ks : list (Z * Z)) (p : Z * Z) : Z * Z :=
  match ks with
  | [] => p
  | (k0, k1) :: ks => feistel ks (p.2, DES_ROUND k0 k1 p.2 p.1)
  end.

Fixpoint pairs (l : list Z) : list (Z * Z) :=
  match l with
  | a :: b :: l => (a, b) :: pairs l
  | _ => []
  end.

Definition unpairs (l : list (Z * Z)) : list Z := l ≫= λ p, [p.1; p.2].

Definition swap (p : Z * Z) : Z * Z := (p.2, p.1).

Lemma swap_swap p : swap (swap p) = p.
Proof. by destruct p. Qed.

Lemma fits2_swap p : fits2 p → fits2 (swap p).
Proof. by intros [??]. Qed.

Lemma fits2_feistel ks p : fits2 p → fits2 (feistel ks p).
Proof.
  revert p. induction ks as [|[k0 k1] ks IH]; intros p [H1 H2]; [done|].
  apply IH. split; [done|]. by apply fits_DES_ROUND.
Qed.

Lemma feistel_app ks1 ks2 p : feistel (ks1 ++ ks2) p = feistel ks2 (feistel ks1 p).
Proof. revert p. induction ks1 as [|[] ks1 IH]; intros p; [done|]. apply IH. Qed.

(** Running the network backwards over the exchanged halves undoes it. *)
Lemma feistel_rev ks p : feistel (reverse ks) (swap (feistel ks p)) = swap p.
Proof.
  revert p. induction ks as [|[k0 k1] ks IH]; intros p; [done|].
  rewrite reverse_cons, feistel_app. cbn [feistel]. rewrite IH.
  cbn [swap fst snd]. unfold swap; cbn [fst snd]. by rewrite DES_ROUND_involutive.
Qed.

Lemma des_rounds_feistel n SK X Y :
  (4 * n ≤ length SK)%nat →
  des_rounds n SK X Y = (drop (4 * n) SK, feistel (pairs (take (4 * n) SK)) (X, Y)).
Proof.
  revert SK X Y. induction n as [|n IH]; intros SK X Y H; [done|].
  do 4 (destruct SK as [|? SK]; [simpl in H; lia|]).
  replace (4 * S n)%nat with (S (S (S (S (4 * n))))) by lia.
  cbn [des_rounds drop take pairs feistel fst snd]. rewrite IH; [done|].
  simpl in H. lia.
Qed.

Lemma des_rounds'_feistel n SK X Y :
  (4 * n ≤ length SK)%nat →
  des_rounds' n SK X Y = (drop (4 * n) SK, swap (feistel (pairs (take (4 * n) SK)) (Y, X))).
Proof.
  revert SK X Y. induction n as [|n IH]; intros SK X Y H; [done|].
  do 4 (destruct SK as [|? SK]; [simpl in H; lia|]).
  replace (4 * S n)%nat with (S (S (S (S (4 * n))))) by lia.
  cbn [des_rounds' drop take pairs feistel fst snd]. rewrite IH; [done|].
  simpl in H. lia.
Qed.

(** One key's worth of rounds, seen between the permutations *)
Definition core (sk : list Z) (p : Z * Z) : Z * Z := swap (feistel (pairs sk) p).

Lemma fits2_core sk p : fits2 p → fits2 (core sk p).
Proof. intros. by apply fits2_swap, fits2_feistel. Qed.

(** [sk'] is the decryption schedule of [sk]. *)
Definition reversed_schedule (sk sk' : list Z) : Prop := pairs sk' = reverse (pairs sk).

Lemma reversed_schedule_sym sk sk' : reversed_schedule sk sk' → reversed_schedule sk' sk.
Proof. unfold reversed_schedule. intros ->. by rewrite reverse_involutive. Qed.

Lemma core_inverse sk sk' p : reversed_schedule sk sk' → core sk' (core sk p) = p.
Proof. intros H. unfold core. rewrite H, feistel_rev. apply swap_swap. Qed.

(** The block functions, as [store ∘ FP ∘ cores ∘ IP ∘ load] *)
Definition wrapped (f : Z * Z → Z * Z) (b : list Z) : list Z :=
  store (uncurry DES_FP (f (uncurry DES_IP (load b)))).

Lemma des_crypt_ecb_wrapped sk b :
  length sk = 32%nat → des_crypt_ecb sk b = wrapped (core sk) b.
Proof.
  intros Hlen. unfold des_crypt_ecb, wrapped, core, load, uncurry.
  destruct (DES_IP _ _) as [X Y]. rewrite des_rounds_feistel by lia.
  rewrite take_ge by lia. destruct (feistel _ _) as [X' Y']. cbn [swap fst snd].
  unfold swap; cbn [fst snd]. by destruct (DES_FP Y' X').
Qed.

Lemma des3_crypt_ecb_wrapped a b c blk :
  length a = 32%nat → length b = 32%nat → length c = 32%nat →
  des3_crypt_ecb (a ++ b ++ c) blk = wrapped (λ p, core c (core b (core a p))) blk.
Proof.
  intros Ha Hb Hc. unfold des3_crypt_ecb, wrapped, core, swap, load, uncurry.
  destruct (DES_IP _ _) as [X Y].
  rewrite des_rounds_feistel by (rewrite !length_app; lia).
  rewrite take_app_length', drop_app_length' by done.
  destruct (feistel (pairs a) _) as [X1 Y1]; cbn [fst snd].
  rewrite des_rounds'_feistel by (rewrite !length_app; lia).
  rewrite take_app_length', drop_app_length' by done. unfold swap; cbn [fst snd].
  destruct (feistel (pairs b) _) as [X2 Y2]; cbn [fst snd].
  rewrite des_rounds_feistel by lia. rewrite take_ge by lia.
  destruct (feistel (pairs c) _) as [X3 Y3]; cbn [fst snd].
  by destruct (DES_FP Y3 X3).
Qed.

(** Inverse functions between the permutations give inverse ciphers. *)
Lemma wrapped_inverse f g b :
  (∀ p, fits2 p → fits2 (f p)) → (∀ p, fits2 p → g (f p) = p) →
  block b → wrapped g (wrapped f b) = b.
Proof.
  intros Hf Hgf Hb. unfold wrapped.
  pose proof (fits2_load b Hb) as Hl. destruct (load b) as [X Y] eqn:El.
  assert (fits2 (DES_IP X Y)) as Hip by by apply fits2_DES_IP.
  cbn [uncurry]. pose proof (Hf _ Hip) as Hfip. destruct (f (DES_IP X Y)) as [U V] eqn:Ef.
  rewrite load_store by (by apply fits2_DES_FP). cbn [uncurry].
  rewrite DES_IP_FP by done. rewrite <- Ef, Hgf by done. rewrite DES_FP_IP by done.
  rewrite <- El. by apply store_load.
Qed.

Lemma wrapped_block f b : block (wrapped f b).
Proof. apply store_block. Qed.

(** ** Key schedules: lengths and reversal *)

Lemma length_des_setkey_loop n i X Y : length (des_setkey_loop n i X Y) = (2 * n)%nat.
Proof.
  revert i X Y. induction n as [|n IH]; intros i X Y; [done|].
  cbn [des_setkey_loop]. destruct (des_key_rotate _ _ _). rewrite length_app, IH. simpl. lia.
Qed.

Lemma length_des_setkey key : length (des_setkey key) = 32%nat.
Proof. unfold des_setkey. destruct (des_pc1 key). apply length_des_setkey_loop. Qed.

(** A list of known length, entry by entry, to compute with symbolically *)
Lemma list_tabulate n (l : list Z) :
  length l = n → ∃ f : nat → Z, l = map f (seq 0 n).
Proof.
  intros <-. exists (λ i, nth i l 0). apply list_eq. intros i.
  rewrite list_lookup_fmap. destruct (decide (i < length l)%nat) as [Hi|Hi].
  - rewrite lookup_seq_lt by done. simpl.
    destruct (lookup_lt_is_Some_2 _ _ Hi) as [x Hx]. rewrite Hx. f_equal.
    symmetry. by apply nth_lookup_Some.
  - rewrite lookup_ge_None_2 by lia. by rewrite lookup_seq_ge by lia.
Qed.

Definition unswap (sk : list Z) : list Z := unpairs (reverse (pairs sk)).

Lemma dec_swaps_reverse sk :
  length sk = 32%nat →
  foldl des_dec_swap sk [0; 2; 4; 6; 8; 10; 12; 14]%nat = unswap sk.
Proof. intros [f ->]%list_tabulate. vm_compute. reflexivity. Qed.

Lemma unswap_reversed sk : length sk = 32%nat → reversed_schedule sk (unswap sk).
Proof. intros [f ->]%list_tabulate. vm_compute. reflexivity. Qed.

Lemma length_unswap sk : length sk = 32%nat → length (unswap sk) = 32%nat.
Proof. intros [f ->]%list_tabulate. reflexivity. Qed.

Lemma des_setkey_dec_unswap key : des_setkey_dec key = unswap (des_setkey key).
Proof. apply dec_swaps_reverse, length_des_setkey. Qed.

Lemma des3_set2key_loop k1 k2 e d :
  length k1 = 32%nat → length k2 = 32%nat → length e = 96%nat → length d = 96%nat →
  foldl des3_set2key_step (store_at 0 k1 e, store_at 32 k2 d) even_upto_30
  = (k1 ++ unswap k2 ++ k1, unswap k1 ++ k2 ++ unswap k1).
Proof.
  intros [f1 ->]%list_tabulate [f2 ->]%list_tabulate
    [f3 ->]%list_tabulate [f4 ->]%list_tabulate. vm_compute. reflexivity.
Qed.

Lemma des3_set3key_loop k1 k2 k3 e d :
  length k1 = 32%nat → length k2 = 32%nat → length k3 = 32%nat →
  length e = 96%nat → length d = 96%nat →
  foldl des3_set3key_step (store_at 64 k3 (store_at 0 k1 e), store_at 32 k2 d) even_upto_30
  = (k1 ++ unswap k2 ++ k3, unswap k3 ++ k2 ++ unswap k1).
Proof.
  intros [f1 ->]%list_tabulate [f2 ->]%list_tabulate [f5 ->]%list_tabulate
    [f3 ->]%list_tabulate [f4 ->]%list_tabulate. vm_compute. reflexivity.
Qed.

Create HintDb des_keys discriminated.
#[export] Hint Constants Opaque : des_keys.
#[export] Hint Variables Opaque : des_keys.
#[export] Hint Resolve length_des_setkey length_unswap unswap_reversed
  reversed_schedule_sym fits2_core : des_keys.

(** Three chained keys and their undoing *)
Lemma des3_inverse a b c blk :
  length a = 32%nat → length b = 32%nat → length c = 32%nat → block blk →
  des3_crypt_ecb (unswap c ++ b ++ unswap a)
    (des3_crypt_ecb (a ++ unswap b ++ c) blk) = blk.
Proof.
  intros Ha Hb Hc Hblk. rewrite !des3_crypt_ecb_wrapped by auto with des_keys.
  apply wrapped_inverse; [|intros p Hp|done].
  - auto with des_keys.
  - rewrite (core_inverse c), (core_inverse (unswap b)), (core_inverse a); auto with des_keys.
Qed.

(** The bytes 0, 1, ..., n - 1, for the witnesses *)
Definition seq_bytes (n : nat) : list Z := map Z.of_nat (seq 0 n).

(** ** Theorems *)

Lemma des_decrypt_encrypt key blk :
  block blk →
  des_crypt_ecb (des_setkey_dec key) (des_crypt_ecb (des_setkey_enc key) blk) = blk ∧
  des_crypt_ecb (des_setkey_enc key) (des_crypt_ecb (des_setkey_dec key) blk) = blk.
Proof.
  intros Hb. rewrite des_setkey_dec_unswap. unfold des_setkey_enc.
  rewrite !des_crypt_ecb_wrapped by auto with des_keys.
  pose proof (length_des_setkey key) as Hk.
  split; (apply wrapped_inverse; [intros; by apply fits2_core| |exact Hb]);
    intros p Hp; apply core_inverse; auto with des_keys.
Qed.

Lemma des_crypt_ecb_block key blk : block (des_crypt_ecb (des_setkey_enc key) blk).
Proof.
  unfold des_setkey_enc. rewrite des_crypt_ecb_wrapped by auto with des_keys.
  apply wrapped_block.
Qed.

(** The published test vector of the standard *)
Example des_known_answer :
  des_crypt_ecb (des_setkey_enc [0x01; 0x23; 0x45; 0x67; 0x89; 0xAB; 0xCD; 0xEF])
    [0x4E; 0x6F; 0x77; 0x20; 0x69; 0x73; 0x20; 0x74] =
    [0x3F; 0xA4; 0x0E; 0x8A; 0x98; 0x4D; 0x48; 0x15].
Proof. vm_compute. reflexivity. Qed.

(** Triple DES: whatever the scratch arrays held, the
    two-key and the three-key decryption contexts undo the encryption ones. *)
Lemma des3_ecb_roundtrip key ctx ctx' junk junk' blk :
  length ctx = 96%nat → length ctx' = 96%nat →
  length junk = 96%nat → length junk' = 96%nat → block blk →
  des3_crypt_ecb (des3_set2key_dec ctx' junk' key)
    (des3_crypt_ecb (des3_set2key_enc ctx junk key) blk) = blk ∧
  des3_crypt_ecb (des3_set3key_dec ctx' junk' key)
    (des3_crypt_ecb (des3_set3key_enc ctx junk key) blk) = blk.
Proof.
  intros. unfold des3_set2key_dec, des3_set2key_enc, des3_set2key,
    des3_set3key_dec, des3_set3key_enc, des3_set3key.
  rewrite !des3_set2key_loop, !des3_set3key_loop by auto with des_keys.
  cbn [fst snd]. split; apply des3_inverse; auto with des_keys.
Qed.

Lemma des3_ecb_roundtrip_witness :
  let key := seq_bytes 24 in let z := replicate 96 0 in
  let blk := seq_bytes 8 in
  block blk ∧
  des3_crypt_ecb (des3_set3key_dec z z key) (des3_crypt_ecb (des3_set3key_enc z z key) blk) = blk.
Proof.
  intros key z blk. assert (block blk) as Hb.
  { by_computation. }
  split; [exact Hb|].
  apply (des3_ecb_roundtrip key z z z z blk eq_refl eq_refl eq_refl eq_refl Hb).
Defined.

(** *** CBC *)

Lemma xor_block_involutive a b :
  block a → block b → xor_block (xor_block a b) b = a.
Proof.
  intros [Ha1 Ha2] [Hb1 Hb2]. unfold xor_block. apply list_eq. intros i.
  rewrite !lookup_zip_with.
  destruct (a !! i) as [x|] eqn:Ex; [|done].
  assert (is_Some (b !! i)) as [y Ey].
  { apply lookup_lt_is_Some. apply lookup_lt_Some in Ex. lia. }
  rewrite Ey. cbn [mbind option_bind].
  assert (fits 8 x) by (eapply Forall_lookup_1 in Ha2; eauto).
  assert (fits 8 y) by (eapply Forall_lookup_1 in Hb2; eauto).
  rewrite (wrap_small 8 (x .^ y)) by auto with bits.
  by rewrite lxor_cancel, wrap_small.
Qed.

Lemma block_xor_block a b : block a → block b → block (xor_block a b).
Proof.
  intros [Ha1 _] [Hb1 _]. unfold xor_block. split.
  - rewrite length_zip_with. lia.
  - apply Forall_lookup_2. intros i x (y & z & -> & _ & _)%lookup_zip_with_Some.
    auto with bits.
Qed.

Section cbc.
Variables enc dec : list Z → list Z.
Hypothesis enc_block : ∀ b, block b → block (enc b).
Hypothesis dec_enc : ∀ b, block b → dec (enc b) = b.

Lemma cbc_loop_roundtrip n iv input :
  block iv → length input = (8 * n)%nat → Forall (fits 8) input →
  let '(out, iv') := cbc_encrypt_loop enc n iv input in
  length out = (8 * n)%nat ∧ cbc_decrypt_loop dec n iv out = (input, iv').
Proof.
  revert iv input. induction n as [|n IH]; intros iv input Hiv Hlen Hin; cbn.
  { apply nil_length_inv in Hlen. by subst. }
  assert (block (take 8 input)) as Ht.
  { split; [rewrite length_take; lia|by apply Forall_take]. }
  pose proof (block_xor_block _ _ Ht Hiv) as Hx.
  pose proof (enc_block _ Hx) as Ho. set (o := enc _) in *.
  specialize (IH o (drop 8 input) Ho).
  destruct (cbc_encrypt_loop enc n o (drop 8 input)) as [rest iv'].
  destruct IH as [IHl IHd]; [rewrite length_drop; lia|by apply Forall_drop|].
  destruct Ho as [Ho1 Ho2]. split; [rewrite length_app; lia|].
  rewrite take_app_length', drop_app_length' by done. rewrite IHd.
  unfold o. rewrite dec_enc by done. rewrite xor_block_involutive by done.
  by rewrite take_drop.
Qed.
End cbc.

Lemma crypt_cbc_roundtrip enc dec iv input :
  (∀ b, block b → block (enc b)) → (∀ b, block b → dec (enc b) = b) →
  block iv → Forall (fits 8) input → (length input mod 8 = 0)%nat →
  ∃ out iv',
    crypt_cbc enc DES_ENCRYPT (length input) iv input = (0, Some (out, iv')) ∧
    length out = length input ∧
    crypt_cbc dec DES_DECRYPT (length out) iv out = (0, Some (input, iv')).
Proof.
  intros Henc Hdec Hiv Hin Hmod.
  pose proof (Nat.div_mod_eq (length input) 8) as Hn. rewrite Hmod in Hn.
  pose proof (cbc_loop_roundtrip enc dec Henc Hdec (length input / 8) iv input Hiv
                ltac:(lia) Hin) as H.
  unfold crypt_cbc. rewrite Hmod. cbn [Nat.eqb negb].
  destruct (cbc_encrypt_loop enc _ iv input) as [out iv'] eqn:E. destruct H as [H1 H2].
  exists out, iv'. split; [done|]. replace (length out) with (length input) by lia.
  split; [done|]. rewrite Hmod. cbn [Nat.eqb negb].
  change (DES_DECRYPT =? DES_ENCRYPT) with false. cbv iota. by rewrite H2.
Qed.

(** C22 (roundtrip).  In CBC mode, for DES and for three-key triple DES: a
    buffer of whole blocks is encrypted without error and decrypting the
    result with the same start vector gives the buffer back, leaving the same
    chaining vector. *)
Theorem des_cbc_roundtrip key ctx ctx' junk junk' iv input :
  length ctx = 96%nat → length ctx' = 96%nat →
  length junk = 96%nat → length junk' = 96%nat →
  block iv → Forall (fits 8) input → (length input mod 8 = 0)%nat →
  (∃ out iv',
     des_crypt_cbc (des_setkey_enc key) DES_ENCRYPT (length input) iv input
       = (0, Some (out, iv')) ∧
     length out = length input ∧
     des_crypt_cbc (des_setkey_dec key) DES_DECRYPT (length out) iv out
       = (0, Some (input, iv'))) ∧
  (∃ out iv',
     des3_crypt_cbc (des3_set3key_enc ctx junk key) DES_ENCRYPT (length input) iv input
       = (0, Some (out, iv')) ∧
     length out = length input ∧
     des3_crypt_cbc (des3_set3key_dec ctx' junk' key) DES_DECRYPT (length out) iv out
       = (0, Some (input, iv'))).
Proof.
  intros. split; apply crypt_cbc_roundtrip; try assumption.
  - intros b _. rewrite des_crypt_ecb_wrapped by apply length_des_setkey.
    apply wrapped_block.
  - intros b Hb. rewrite des_setkey_dec_unswap. unfold des_setkey_enc.
    rewrite !des_crypt_ecb_wrapped by auto with des_keys.
    apply wrapped_inverse; [intros; by apply fits2_core| |exact Hb].
    intros p Hp. apply core_inverse. auto with des_keys.
  - intros b _. unfold des3_set3key_enc, des3_set3key.
    rewrite des3_set3key_loop by auto with des_keys. cbn [fst snd].
    rewrite des3_crypt_ecb_wrapped by auto with des_keys. apply wrapped_block.
  - intros b Hb. unfold des3_set3key_enc, des3_set3key_dec, des3_set3key.
    rewrite !des3_set3key_loop by auto with des_keys. cbn [fst snd].
    apply des3_inverse; auto with des_keys.
Qed.

Lemma des_cbc_roundtrip_witness :
  let key := seq_bytes 24 in let z := replicate 96 0 in
  let iv := seq_bytes 8 in let input := seq_bytes 16 in
  ∃ out iv',
    des_crypt_cbc (des_setkey_enc key) DES_ENCRYPT (length input) iv input
      = (0, Some (out, iv')) ∧
    length out = length input ∧
    des_crypt_cbc (des_setkey_dec key) DES_DECRYPT (length out) iv out
      = (0, Some (input, iv')).
Proof.
  intros key z iv input.
  refine (proj1 (des_cbc_roundtrip key z z z z iv input eq_refl eq_refl eq_refl eq_refl _ _ _));
    [| |reflexivity]; by_computation.
Defined.

(** *** Parity and weak keys *)

(** The number of one bits of a byte is odd. *)
Definition odd_ones (b : Z) : bool :=
  foldl xorb false (map (Z.testbit b) [0; 1; 2; 3; 4; 5; 6; 7]).

Lemma parity_byte b :
  fits 8 b →
  let p := tbl odd_parity_table (b / 2) in
  fits 8 p ∧ p / 2 = b / 2 ∧ odd_ones p = true ∧ (odd_ones b = true → p = b).
Proof.
  revert b. apply byte_forall.
  change (Forall (λ b, fits 8 (tbl odd_parity_table (b / 2))
    ∧ tbl odd_parity_table (b / 2) / 2 = b / 2
    ∧ odd_ones (tbl odd_parity_table (b / 2)) = true
    ∧ (odd_ones b = true → tbl odd_parity_table (b / 2) = b)) all_bytes).
  by_computation.
Qed.

(** [des_key_set_parity] keeps the seven key bits of every
    byte and gives it odd parity, the result passes
    [des_key_check_key_parity], and a key passes that check exactly when
    setting its parity leaves it as it is. *)
Lemma des_key_parity_correct key :
  Forall (fits 8) key →
  Forall2 (λ b p, p / 2 = b / 2 ∧ odd_ones p = true) key (des_key_set_parity key) ∧
  des_key_check_key_parity (des_key_set_parity key) = 0 ∧
  (des_key_check_key_parity key = 0 ↔ des_key_set_parity key = key) ∧
  (des_key_check_key_parity key = 0 ↔ Forall (λ b, odd_ones b = true) key).
Proof.
  unfold des_key_check_key_parity, des_key_set_parity.
  induction 1 as [|b key Hb Hkey (IH1 & IH2 & IH3 & IH4)].
  { cbn. rewrite Forall_nil. repeat split; auto. }
  destruct (parity_byte b Hb) as (Hp1 & Hp2 & Hp3 & Hp4).
  cbn [map forallb]. set (p := tbl odd_parity_table (b / 2)) in *.
  rewrite Hp2. fold p. rewrite Z.eqb_refl. cbn [andb].
  split_and!; [by constructor|exact IH2| |].
  - destruct (Z.eqb_spec b p) as [<-|Hne]; cbn [andb].
    + rewrite IH3. split; [by intros ->|by intros [= ?]].
    + split; [done|]. intros [= ? ?]. congruence.
  - rewrite Forall_cons. destruct (Z.eqb_spec b p) as [Heq|Hne]; cbn [andb].
    + rewrite IH4, Heq. tauto.
    + split; [done|]. intros [Ho _]. by rewrite Hp4 in Hne.
Qed.


(** The partner of each entry of [weak_key_table] *)
Definition weak_partner : list nat := [0; 1; 2; 3; 5; 4; 7; 6; 9; 8; 11; 10; 13; 12; 15; 14]%nat.

Lemma weak_schedules :
  Forall2 (λ k i, pairs (des_setkey (nth i weak_key_table [])) = reverse (pairs (des_setkey k)))
    weak_key_table weak_partner.
Proof. by_computation. Qed.

(** The first four entries are their own partners. *)
Lemma weak_self :
  Forall2 (λ k i, k ∈ take 4 weak_key_table → nth i weak_key_table [] = k)
    weak_key_table weak_partner.
Proof. by_computation. Qed.

Lemma check_weak_elem key : des_key_check_weak key = 1 ↔ key ∈ weak_key_table.
Proof.
  unfold des_key_check_weak. destruct (existsb _ _) eqn:E.
  - apply existsb_exists in E as (w & Hin & Hw). apply bool_decide_eq_true in Hw. subst.
    by rewrite list_elem_of_In.
  - split; [done|]. rewrite list_elem_of_In. intros Hin.
    assert (existsb (λ w, bool_decide (w = key)) weak_key_table = true) as E'.
    { apply existsb_exists. exists key. by rewrite bool_decide_true. }
    congruence.
Qed.

(** Every key that [des_key_check_weak] reports really is weak
    or semi-weak: some reported key (itself, for the first four entries of
    the table) turns every ciphertext of it back into the plaintext by mere
    encryption. *)
Lemma des_weak_keys_undone key :
  des_key_check_weak key = 1 →
  ∃ key', des_key_check_weak key' = 1 ∧
    (key ∈ take 4 weak_key_table → key' = key) ∧
    ∀ blk, block blk →
      des_crypt_ecb (des_setkey_enc key') (des_crypt_ecb (des_setkey_enc key) blk) = blk.
Proof.
  rewrite check_weak_elem. intros [i Hi]%list_elem_of_lookup.
  destruct (Forall2_lookup_l _ _ _ _ _ weak_schedules Hi) as (j & Hj & Hrev).
  exists (nth j weak_key_table []). split; [|split].
  - apply check_weak_elem. apply list_elem_of_In, nth_In.
    assert (Forall (λ j, (j < length weak_key_table)%nat) weak_partner) as Hlt
      by (by_computation).
    by eapply Forall_lookup_1 in Hlt.
  - exact (Forall2_lookup_lr _ _ _ _ _ _ weak_self Hi Hj).
  - intros blk Hb. unfold des_setkey_enc. rewrite !des_crypt_ecb_wrapped by auto with des_keys.
    apply wrapped_inverse; [intros; by apply fits2_core| |exact Hb].
    intros p Hp. by apply core_inverse.
Qed.

Lemma des_weak_keys_undone_witness :
  let key := [0x01; 0x1F; 0x01; 0x1F; 0x01; 0x0E; 0x01; 0x0E] in
  des_key_check_weak key = 1 ∧ ∃ key', des_key_check_weak key' = 1.
Proof.
  intros key. assert (des_key_check_weak key = 1) as H by (vm_compute; done).
  split; [exact H|]. destruct (des_weak_keys_undone key H) as (k' & Hk' & _).
  exists k'. exact Hk'.
Defined.

(** Published vectors *)
Example des_fips_vector :
  des_crypt_ecb (des_setkey_enc [0x01; 0x23; 0x45; 0x67; 0x89; 0xAB; 0xCD; 0xEF])
    [0x4E; 0x6F; 0x77; 0x20; 0x69; 0x73; 0x20; 0x74]
  = [0x3F; 0xA4; 0x0E; 0x8A; 0x98; 0x4D; 0x48; 0x15].
Proof. vm_compute. reflexivity. Qed.
