(* ===== verification/Lock.v ===== *)
(** * The bolt motor (lock_output of src/gpio_pwm.c)

    The motor of one direction is pulsed until the status pin shows that
    direction, at most 200 times; a motor that never gets there is a fault that
    is reported by SMS and GPRS. *)
From stdpp Require Import base strings list.
From Stdlib Require Import ZArith Lia.
From S2P Require Import Prelude World Monad Untils Alarm.

Definition GATE_LOCK : Z := 1.
Definition GATE_UNLOCK : Z := 0.

Section lock.
Context {HB : Board}.

(** Reading or pulsing a device that was not found fails an assertion. *)
Definition motor_status : M Z :=
  if dev_present DEV_MOTOR_STATUS then pin_read DEV_MOTOR_STATUS else fault.

Definition send_pulse (d : DEVICE) (counts : Z) : M () :=
  if dev_present d then emit (Ev_pulse d counts) else fault.

Definition period : Z := 10.
Definition adjust_period : Z := 20.

(** [while (counts-- > 0)] *)
Fixpoint motor_loop (counts : nat) (motor : DEVICE) (target : Z) : M () :=
  match counts with
  | O => mreturn ()
  | S counts =>
      send_pulse motor period ;;;
      dat <- motor_status ;;
      if dat =? target then send_pulse motor adjust_period
      else motor_loop counts motor target
  end.

Definition motor_fault : M Z :=
  send_sms_mail ALARM_TYPE_MOTOR_FAULT 0 ;;;
  send_gprs_mail ALARM_TYPE_MOTOR_FAULT 0 0 U_none ;;;
  mreturn (-1).

Definition lock_output (direction : Z) : M Z :=
  dat <- motor_status ;;
  if dat =? direction then mreturn 0
  else if direction =? 0 then
    motor_loop 200 DEV_MOTOR_B_PULSE 0 ;;;
    dat <- motor_status ;;
    if dat =? 1 then motor_fault else mreturn 0
  else
    motor_loop 200 DEV_MOTOR_A_PULSE 1 ;;;
    dat <- motor_status ;;
    if dat =? 0 then motor_fault else mreturn 0.

(** ** What it does *)

Definition motor_of (direction : Z) : DEVICE :=
  if direction =? 0 then DEV_MOTOR_B_PULSE else DEV_MOTOR_A_PULSE.

Definition status_at (t : nat) : Z := u8 (pin_level DEV_MOTOR_STATUS t).

Definition motors_present : Prop :=
  dev_present DEV_MOTOR_STATUS = true ∧ dev_present DEV_MOTOR_A_PULSE = true ∧
  dev_present DEV_MOTOR_B_PULSE = true.

(** The state after [n] observations and the events [l] *)
Definition after (n : nat) (l : list Event) (w : World) : World :=
  set_now (n + now w) (set_trace (trace w ++ l) w).

Lemma after_after n l m k w : after n l (after m k w) = after (n + m) (k ++ l) w.
Proof. unfold after, set_now, set_trace. simpl. by rewrite app_assoc, Nat.add_assoc. Qed.

Lemma after_0 w : after 0 [] w = w.
Proof. unfold after, set_now, set_trace. simpl. rewrite app_nil_r. by destruct w. Qed.

Lemma motor_status_run w :
  motors_present → motor_status w = Done (status_at (now w)) (after 1 [] w).
Proof.
  intros (H & _). unfold motor_status, pin_read, observe, after. rewrite H.
  unfold set_now, set_trace. simpl. by rewrite app_nil_r.
Qed.

Lemma send_pulse_run d n w :
  dev_present d = true → send_pulse d n w = Done () (after 0 [Ev_pulse d n] w).
Proof. intros H. unfold send_pulse, emit, upd. rewrite H. by destruct w. Qed.

Lemma motor_of_present d : motors_present → dev_present (motor_of d) = true.
Proof. intros (_ & ? & ?). unfold motor_of. by case_match. Qed.

(** The loop asks for pulses once per reading, up to the reading that shows the
    target, and then for the adjusting ones. *)
Lemma motor_loop_reach d j : ∀ counts w,
  motors_present → (j < counts)%nat →
  (∀ i, (i < j)%nat → status_at (i + now w) ≠ d) → status_at (j + now w) = d →
  motor_loop counts (motor_of d) d w =
    Done () (after (S j) (repeat (Ev_pulse (motor_of d) period) (S j) ++
      [Ev_pulse (motor_of d) adjust_period]) w).
Proof.
  induction j as [|j IH]; intros [|counts] w Hm Hj Hlow Hhit; try lia;
    cbn [motor_loop]; unfold mseq;
    rewrite send_pulse_run by (by apply motor_of_present);
    rewrite motor_status_run by done; simpl in Hhit |- *.
  - rewrite (proj2 (Z.eqb_eq _ _) Hhit).
    rewrite send_pulse_run by (by apply motor_of_present).
    by rewrite !after_after.
  - rewrite (proj2 (Z.eqb_neq _ _)) by (apply (Hlow 0%nat); lia).
    rewrite IH; [|done|lia| |].
    + rewrite !after_after. simpl. repeat f_equal. lia.
    + intros i Hi. simpl. specialize (Hlow (S i) ltac:(lia)).
      by replace (i + S (now w))%nat with (S i + now w)%nat by lia.
    + simpl. by replace (j + S (now w))%nat with (S j + now w)%nat by lia.
Qed.

Lemma motor_loop_never d : ∀ counts w,
  motors_present → (∀ i, (i < counts)%nat → status_at (i + now w) ≠ d) →
  motor_loop counts (motor_of d) d w =
    Done () (after counts (repeat (Ev_pulse (motor_of d) period) counts) w).
Proof.
  induction counts as [|counts IH]; intros w Hm Hlow; cbn [motor_loop].
  - by rewrite after_0.
  - unfold mseq. rewrite send_pulse_run by (by apply motor_of_present).
    rewrite motor_status_run by done. simpl.
    rewrite (proj2 (Z.eqb_neq _ _)) by (apply (Hlow 0%nat); lia).
    rewrite IH; [|done|].
    + rewrite !after_after. simpl. repeat f_equal. lia.
    + intros i Hi. simpl. specialize (Hlow (S i) ltac:(lia)).
      by replace (i + S (now w))%nat with (S i + now w)%nat by lia.
Qed.

Definition valid_direction (d : Z) : Prop := d = GATE_LOCK ∨ d = GATE_UNLOCK.

(** Both branches of [lock_output] at once *)
Lemma lock_output_turn d w :
  motors_present → valid_direction d → status_at (now w) ≠ d →
  lock_output d w =
    (motor_loop 200 (motor_of d) d ;;;
     dat <- motor_status ;;
     if dat =? 1 - d then motor_fault else mreturn 0) (after 1 [] w).
Proof.
  intros Hm Hd Hs. unfold lock_output. unfold mseq at 1. rewrite motor_status_run by done.
  apply Z.eqb_neq in Hs. rewrite Hs. by destruct Hd as [-> | ->].
Qed.

Lemma lock_output_reaches d j w :
  motors_present → valid_direction d → (j < 200)%nat →
  status_at (now w) ≠ d →
  (∀ i, (i < j)%nat → status_at (i + S (now w)) ≠ d) →
  status_at (j + S (now w)) = d → status_at (S j + S (now w)) = d →
  lock_output d w =
    Done 0 (after (S j + 2) (repeat (Ev_pulse (motor_of d) period) (S j) ++
      [Ev_pulse (motor_of d) adjust_period]) w).
Proof.
  intros Hm Hd Hj H0 Hlow Hhit Hlast. rewrite lock_output_turn by done.
  unfold mseq at 1. rewrite (motor_loop_reach d j) by done.
  unfold mseq. rewrite motor_status_run by done.
  rewrite !after_after. simpl in *.
  replace (j + 1 + now w)%nat with (j + S (now w))%nat by lia.
  rewrite Hlast, (proj2 (Z.eqb_neq _ _)) by lia.
  rewrite app_nil_r. by replace (S (S (j + 1))) with (S (j + 2)) by lia.
Qed.

Lemma lock_output_idle d w :
  motors_present → status_at (now w) = d → lock_output d w = Done 0 (after 1 [] w).
Proof.
  intros Hm Hs. unfold lock_output, mseq. rewrite motor_status_run by done.
  by rewrite (proj2 (Z.eqb_eq _ _) Hs).
Qed.

(** A bolt that does not move *)
Lemma lock_output_fails d w qs qg :
  motors_present → valid_direction d →
  sms_mq w = Some qs → gprs_mq w = Some qg → q_room qs 1 → q_room qg 1 →
  (∀ i, (i <= 201)%nat → status_at (i + now w) = 1 - d) →
  ∃ t1 t2 w', lock_output d w = Done (-1) w' ∧
    trace w' = trace w ++ repeat (Ev_pulse (motor_of d) period) 200 ∧
    sms_mq w' = Some (q_append qs [mkSmsMail t1 ALARM_TYPE_MOTOR_FAULT]) ∧
    gprs_mq w' = Some (q_append qg [mkGprsMail t2 ALARM_TYPE_MOTOR_FAULT 0 U_none]).
Proof.
  intros Hm Hd Hqs Hqg Rs Rg Hs. assert (1 - d ≠ d) as Hne by lia.
  rewrite lock_output_turn; [|done..|].
  2: { intros E. pose proof (Hs 0%nat ltac:(lia)) as H0. simpl in H0. lia. }
  unfold mseq at 1. rewrite motor_loop_never; [|done|].
  2: { intros i Hi. cbn [after now set_now]. 
       pose proof (Hs (S i) ltac:(lia)) as H1. simpl in H1 |- *.
       replace (i + S (now w))%nat with (S (i + now w)) by lia. lia. }
  unfold mseq at 1. rewrite motor_status_run by done. rewrite !after_after.
  cbn [after now set_now]. rewrite (Hs (200 + 1)%nat) by lia. rewrite Z.eqb_refl.
  unfold motor_fault. unfold mseq at 1. rewrite (send_sms_mail_room _ _ qs) by done.
  unfold mseq. rewrite (send_gprs_mail_room _ _ _ _ qg) by done.
  do 3 eexists. split; [reflexivity|]. done.
Qed.

(** C23 (functional). Asked to turn the bolt to where it is, [lock_output] does
    nothing but read the status.  Otherwise it drives only the motor of that
    direction: when the status shows the direction at reading [j] (of at most
    200) and keeps it, it has asked [j] times for ten pulses and once for the
    twenty that adjust it, reports success and posts no alarm. *)
Theorem lock_output_moves d j w :
  motors_present → valid_direction d → (j < 200)%nat →
  status_at (now w) ≠ d →
  (∀ i, (i < j)%nat → status_at (i + S (now w)) ≠ d) →
  status_at (j + S (now w)) = d → status_at (S j + S (now w)) = d →
  lock_output d w =
    Done 0 (after (S j + 2) (repeat (Ev_pulse (motor_of d) period) (S j) ++
      [Ev_pulse (motor_of d) adjust_period]) w).
Proof. apply lock_output_reaches. Qed.

(** C35 (error). A bolt that never reaches the direction stops the motor after
    200 requests of ten pulses; the fault is reported once to the SMS and once to the GPRS
    thread (the queues having room) and the result is -1. *)
Theorem lock_output_stuck d w qs qg :
  motors_present → valid_direction d →
  sms_mq w = Some qs → gprs_mq w = Some qg → q_room qs 1 → q_room qg 1 →
  (∀ i, (i <= 201)%nat → status_at (i + now w) = 1 - d) →
  ∃ t1 t2 w', lock_output d w = Done (-1) w' ∧
    trace w' = trace w ++ repeat (Ev_pulse (motor_of d) period) 200 ∧
    sms_mq w' = Some (q_append qs [mkSmsMail t1 ALARM_TYPE_MOTOR_FAULT]) ∧
    gprs_mq w' = Some (q_append qg [mkGprsMail t2 ALARM_TYPE_MOTOR_FAULT 0 U_none]).
Proof. apply lock_output_fails. Qed.

(** ** Whatever the hardware does *)

(** Every event of [l] is one of the given pulses. *)
Definition only_pulses (d : DEVICE) (l : list Event) : Prop :=
  Forall (λ e, e = Ev_pulse d period ∨ e = Ev_pulse d adjust_period) l.

Lemma motor_loop_total d counts : ∀ w, motors_present → ∃ n l,
  motor_loop counts (motor_of d) d w = Done () (after n l w) ∧
  only_pulses (motor_of d) l ∧ (length l <= S counts)%nat.
Proof.
  induction counts as [|counts IH]; intros w Hm; cbn [motor_loop].
  - exists 0%nat, []. rewrite after_0. repeat split; [constructor|simpl; lia].
  - unfold mseq. rewrite send_pulse_run by (by apply motor_of_present).
    rewrite motor_status_run by done. rewrite after_after. case_match.
    + rewrite send_pulse_run by (by apply motor_of_present). rewrite after_after.
      do 2 eexists. split; [done|]. split; [unfold only_pulses; simpl; rewrite !Forall_cons; auto|simpl; lia].
    + destruct (IH (after (1 + 0) ([Ev_pulse (motor_of d) period] ++ []) w) Hm)
        as (n & l & -> & Hl & Hn).
      rewrite after_after. do 2 eexists. split; [done|].
      split; [unfold only_pulses; simpl; rewrite Forall_cons; auto|simpl; lia].
Qed.


Lemma motor_loop_runs I `{HI : !Invariant I} counts motor target :
  motors_present → dev_present motor = true → safe I (motor_loop counts motor target).
Proof.
  intros Hm Hp. induction counts as [|counts IH]; cbn [motor_loop].
  - by apply runs_return.
  - unfold send_pulse, motor_status. destruct Hm as (Hs & Hm). rewrite Hp, Hs. runs_auto.
Qed.

(** [lock_output] always comes back with 0 or -1: the loop is bounded whatever
    the pin does. *)
Lemma lock_output_runs d :
  motors_present → runs wf (lock_output d) (λ r, r = 0 ∨ r = -1).
Proof.
  intros Hm. unfold lock_output, motor_fault.
  assert (safe wf motor_status).
  { unfold motor_status. destruct Hm as (-> & _). eauto with runs. }
  assert (∀ d, safe wf (motor_loop 200 (motor_of d) d)) as Hl.
  { intros e. apply (motor_loop_runs wf); [done|by apply motor_of_present]. }
  assert (runs wf (send_sms_mail ALARM_TYPE_MOTOR_FAULT 0 ;;;
    send_gprs_mail ALARM_TYPE_MOTOR_FAULT 0 0 U_none ;;; mreturn (-1)) (λ r, r = 0 ∨ r = -1)).
  { apply runs_then; [eauto with runs|intros _]. apply runs_then; [eauto with runs|intros _].
    apply runs_return. by right. }
  assert (runs wf (mreturn 0) (λ r, r = 0 ∨ r = -1)) by (apply runs_return; by left).
  apply runs_then; [done|intros dat]. apply runs_if; [done|intros _].
  apply runs_if; intros _; (apply runs_then; [|intros _; apply runs_then; [done|intros dat2];
    by apply runs_if]).
  - apply (Hl 0).
  - apply (Hl 1).
Qed.
End lock.

(** A bolt that is locked until the motor has been pulsed three times *)
Definition turning_board : Board := bench_board (λ _ t, if (t <? 3)%nat then 1 else 0) (λ _ _, []).

Lemma lock_output_moves_witness :
  lock_output (HB:=turning_board) GATE_UNLOCK start_world =
    Done 0 (after 5 [Ev_pulse DEV_MOTOR_B_PULSE 10; Ev_pulse DEV_MOTOR_B_PULSE 10;
      Ev_pulse DEV_MOTOR_B_PULSE 10; Ev_pulse DEV_MOTOR_B_PULSE 20] start_world).
Proof.
  apply (lock_output_moves (HB:=turning_board) GATE_UNLOCK 2 start_world).
  - by_computation.
  - by right.
  - lia.
  - by_computation.
  - intros [|[|i]] Hi; [by_computation..|lia].
  - reflexivity.
  - reflexivity.
Defined.

Lemma lock_output_stuck_witness :
  ∃ t1 t2 w', lock_output (HB:=quiet_board) GATE_UNLOCK start_world = Done (-1) w' ∧
    trace w' = trace start_world ++ repeat (Ev_pulse DEV_MOTOR_B_PULSE period) 200 ∧
    sms_mq w' = Some (mkQueue [mkSmsMail t1 ALARM_TYPE_MOTOR_FAULT] 20) ∧
    gprs_mq w' = Some (mkQueue [mkGprsMail t2 ALARM_TYPE_MOTOR_FAULT 0 U_none] 20).
Proof.
  apply (lock_output_stuck (HB:=quiet_board) GATE_UNLOCK start_world
    (mkQueue [] 20) (mkQueue [] 20)).
  - by_computation.
  - by right.
  - reflexivity.
  - reflexivity.
  - by_computation.
  - by_computation.
  - reflexivity.
Defined.
