(* ===== verification/Battery.v ===== *)
(** * Battery supervision (src/battery.c, src/gpio_adc.c)

    [battery_get_data] estimates the remaining work time in single precision;
    the check thread averages ten samples a minute and reports each threshold
    once on the way down. *)
From stdpp Require Import base strings list.
From Stdlib Require Import ZArith Lia Floats.SpecFloat.
From S2P Require Import Prelude World Monad Untils Alarm.

(** ** The remaining work time *)

Definition BATTERY_ADC_VALUE_RANGE : Z := 1530.
Definition BATTERY_WORKING_TIME : Z := 15.

(** [float] is IEEE binary32. *)
Definition float_of_int (z : Z) : spec_float := binary_normalize 24 128 z 0 false.
Definition fdiv := SFdiv 24 128.
Definition fmul := SFmul 24 128.
Definition fsub := SFsub 24 128.

(** Conversion of a float to an 8-bit unsigned integer drops the fraction; a
    value that does not fit is undefined. *)
Definition float_trunc (f : spec_float) : option Z :=
  match f with
  | S754_zero _ => Some 0
  | S754_finite s m e =>
      let v := if 0 <=? e then Zpos m * 2 ^ e else Zpos m / 2 ^ (- e) in
      Some (if s then - v else v)
  | _ => None
  end.

Definition float_to_u8 (f : spec_float) : option Z :=
  match float_trunc f with
  | Some v => if (0 <=? v) && (v <? 256) then Some v else None
  | None => None
  end.

Definition work_scale : spec_float :=
  fdiv (float_of_int BATTERY_WORKING_TIME) (float_of_int BATTERY_ADC_VALUE_RANGE).

(** The computation of [work_time] from the converted value *)
Definition work_time_of (adc_value : Z) : option Z :=
  let range := u16 (0xfff - adc_value) in
  match float_to_u8 (fsub (float_of_int BATTERY_WORKING_TIME)
                       (fmul (float_of_int range) work_scale)) with
  | Some t => Some (if BATTERY_WORKING_TIME <? t then BATTERY_WORKING_TIME else t)
  | None => None
  end.

Record Battery_Data := mkBattery { bd_status : Z; bd_adc_value : Z; bd_work_time : Z }.

Section battery.
Context {HB : Board}.

Definition bat_enable : M () := when (dev_present DEV_BATTERY_ADC) (emit (Ev_adc true)).
Definition bat_disable : M () := when (dev_present DEV_BATTERY_ADC) (emit (Ev_adc false)).

Definition bat_get_value : M Z :=
  if dev_present DEV_BATTERY_ADC then observe (λ t, u16 (adc_value t))
  else observe (λ t, u16 (uninit t)).

(** The members of a missing device keep what the caller's variable held. *)
Definition battery_get_data (data : Battery_Data) : M Battery_Data :=
  data <- (if dev_present DEV_BATTERY_SWITCH then
             status <- pin_read DEV_BATTERY_SWITCH ;;
             mreturn (mkBattery status (bd_adc_value data) (bd_work_time data))
           else mreturn data) ;;
  if dev_present DEV_BATTERY_ADC then
    bat_enable ;;;
    adc <- observe (λ t, u16 (adc_value t)) ;;
    bat_disable ;;;
    work_time <- deref (work_time_of adc) ;;
    mreturn (mkBattery (bd_status data) adc work_time)
  else mreturn data.

(** ** The check thread *)

Definition SAMPLE_COUNTS : nat := 10.
Definition SAMPLE_VALUE_BATTERY_REMAIN_5P : Z := 0xCC.
Definition SAMPLE_VALUE_BATTERY_REMAIN_20P : Z := 0x333.
Definition SAMPLE_VALUE_BATTERY_REMAIN_50P : Z := 0x7FF.
Definition BATTERY_STATUS_REMAIN_50P : Z := 0x01.
Definition BATTERY_STATUS_REMAIN_20P : Z := 0x02.
Definition BATTERY_STATUS_REMAIN_5P : Z := 0x04.
Definition POWER_BATTERY : Z := 0.

Fixpoint battery_sample (sample_counts : nat) (sample_value : Z) : M Z :=
  match sample_counts with
  | O => mreturn sample_value
  | S sample_counts =>
      rt_thread_delay 50 ;;;
      v <- bat_get_value ;;
      battery_sample sample_counts (u32 (sample_value + v))
  end.

(** [if (battery_status & bit) {} else { battery_status |= bit; send }] *)
Definition battery_first (bit : Z) (send : M ()) : M () :=
  s <- get battery_status ;;
  when (Z.land s bit =? 0)
    (upd (set_battery_status (Z.lor s bit)) ;;; send).

Definition battery_clear (bit : Z) : M () :=
  upd (λ w, set_battery_status (Z.ldiff (battery_status w) bit) w).

Definition battery_report (sample_value : Z) : M () :=
  if sample_value <? SAMPLE_VALUE_BATTERY_REMAIN_5P then
    battery_first BATTERY_STATUS_REMAIN_5P
      (send_local_mail ALARM_TYPE_BATTERY_REMAIN_5P 0)
  else
    battery_clear BATTERY_STATUS_REMAIN_5P ;;;
    if sample_value <? SAMPLE_VALUE_BATTERY_REMAIN_20P then
      battery_first BATTERY_STATUS_REMAIN_20P
        (send_sms_mail ALARM_TYPE_BATTERY_REMAIN_20P 0 ;;;
         send_gprs_mail ALARM_TYPE_BATTERY_REMAIN_20P 0 0 U_none)
    else
      battery_clear BATTERY_STATUS_REMAIN_20P ;;;
      if sample_value <? SAMPLE_VALUE_BATTERY_REMAIN_50P then
        battery_first BATTERY_STATUS_REMAIN_50P
          (send_sms_mail ALARM_TYPE_BATTERY_REMAIN_50P 0 ;;;
           send_gprs_mail ALARM_TYPE_BATTERY_REMAIN_50P 0 0 U_none)
      else battery_clear BATTERY_STATUS_REMAIN_50P.

(** One round of [battery_check_process_thread_entry] *)
Definition battery_check_step : M () :=
  dat <- gpio_pin_input DEV_BATTERY_SWITCH ;;
  when (dat =? POWER_BATTERY)
    (bat_enable ;;;
     sample_value <- battery_sample SAMPLE_COUNTS 0 ;;
     bat_disable ;;;
     battery_report (sample_value / Z.of_nat SAMPLE_COUNTS)) ;;;
  rt_thread_delay 6000.

(** ** Each threshold is reported once per descent *)

(** 0: above 50%, 1: below 50%, 2: below 20%, 3: below 5% *)
Definition level (v : Z) : Z :=
  if v <? SAMPLE_VALUE_BATTERY_REMAIN_5P then 3
  else if v <? SAMPLE_VALUE_BATTERY_REMAIN_20P then 2
  else if v <? SAMPLE_VALUE_BATTERY_REMAIN_50P then 1 else 0.

(** Was a check at level [k] made since the voltage was last above it?  The
    history of the checked values has the newest first. *)
Fixpoint reported (k : Z) (hist : list Z) : bool :=
  match hist with
  | [] => false
  | v :: hist => (level v =? k) || (k <? level v) && reported k hist
  end.

(** The status bits remember the history. *)
Definition status_for (hist : list Z) (s : Z) : Prop :=
  ∀ k, 1 ≤ k ≤ 3 → Z.testbit s (k - 1) = reported k hist.

Lemma status_for_nil : status_for [] 0.
Proof. intros k Hk. apply Z.bits_0. Qed.

Lemma land_pow2 s n : 0 ≤ n → (Z.land s (2 ^ n) =? 0) = negb (Z.testbit s n).
Proof.
  intros Hn. destruct (Z.testbit s n) eqn:E; simpl.
  - apply Z.eqb_neq. intros H. apply (f_equal (λ x, Z.testbit x n)) in H.
    rewrite Z.land_spec, E, Z.pow2_bits_true, Z.bits_0 in H by done. done.
  - apply Z.eqb_eq, Z.bits_inj'. intros i Hi. rewrite Z.land_spec, Z.bits_0.
    destruct (decide (i = n)) as [->|]; [by rewrite E|].
    by rewrite Z.pow2_bits_false, andb_false_r.
Qed.

Definition level_bit (k : Z) : Z := 2 ^ (k - 1).

Lemma lor_level_bit s k j :
  1 ≤ k → 1 ≤ j → Z.testbit (Z.lor s (level_bit k)) (j - 1) = (k =? j) || Z.testbit s (j - 1).
Proof.
  intros Hk Hj. unfold level_bit. rewrite Z.lor_spec, orb_comm. f_equal.
  destruct (Z.eqb_spec k j) as [->|]; [apply Z.pow2_bits_true; lia|].
  apply Z.pow2_bits_false. lia.
Qed.

Lemma ldiff_level_bit s k j :
  1 ≤ k → 1 ≤ j →
  Z.testbit (Z.ldiff s (level_bit k)) (j - 1) = negb (k =? j) && Z.testbit s (j - 1).
Proof.
  intros Hk Hj. unfold level_bit. rewrite Z.ldiff_spec, andb_comm. do 2 f_equal.
  destruct (Z.eqb_spec k j) as [->|]; [apply Z.pow2_bits_true; lia|].
  apply Z.pow2_bits_false. lia.
Qed.

(** What the check does to the status bits *)
Definition status_next (s v : Z) : Z :=
  if level v =? 3 then Z.lor s (level_bit 3)
  else if level v =? 2 then Z.lor (Z.ldiff s (level_bit 3)) (level_bit 2)
  else if level v =? 1
  then Z.lor (Z.ldiff (Z.ldiff s (level_bit 3)) (level_bit 2)) (level_bit 1)
  else Z.ldiff (Z.ldiff (Z.ldiff s (level_bit 3)) (level_bit 2)) (level_bit 1).

Lemma level_cases v : level v = 3 ∨ level v = 2 ∨ level v = 1 ∨ level v = 0.
Proof. unfold level. repeat case_match; auto. Qed.

Lemma status_next_for hist s v :
  status_for hist s → status_for (v :: hist) (status_next s v).
Proof.
  intros H k Hk. specialize (H k Hk). cbn [reported]. rewrite <- H. unfold status_next.
  destruct (level_cases v) as [-> | [-> | [-> | ->]]]; cbn [Z.eqb Pos.eqb];
    rewrite ?lor_level_bit, ?ldiff_level_bit by lia;
    assert (k = 1 ∨ k = 2 ∨ k = 3) as [-> | [-> | ->]] by lia; simpl; try done;
    by rewrite ?orb_false_r, ?andb_false_r.
Qed.

Definition battery_alarm (k : Z) : ALARM_TYPEDEF :=
  if k =? 3 then ALARM_TYPE_BATTERY_REMAIN_5P
  else if k =? 2 then ALARM_TYPE_BATTERY_REMAIN_20P else ALARM_TYPE_BATTERY_REMAIN_50P.

Lemma battery_first_run k send w :
  1 ≤ k → battery_first (level_bit k) send w =
    if Z.testbit (battery_status w) (k - 1) then Done () w
    else send (set_battery_status (Z.lor (battery_status w) (level_bit k)) w).
Proof.
  intros Hk. unfold battery_first, mseq, get, when, level_bit.
  rewrite land_pow2 by lia. by destruct (Z.testbit _ _).
Qed.

Lemma lor_reported s k : Z.testbit s (k - 1) = true → 1 ≤ k → Z.lor s (level_bit k) = s.
Proof.
  intros H Hk. apply Z.bits_inj'. intros i Hi. replace i with ((i + 1) - 1) by lia.
  rewrite lor_level_bit by lia. destruct (Z.eqb_spec k (i + 1)) as [->|]; [by rewrite H|done].
Qed.

(** The mail the check of [v] posts, if any *)
Definition fresh (hist : list Z) (v : Z) : bool :=
  (1 <=? level v) && negb (reported (level v) hist).
Definition by_radio (hist : list Z) (v : Z) : bool := fresh hist v && (level v <? 3).
Definition by_hand (hist : list Z) (v : Z) : bool := fresh hist v && (level v =? 3).

(** C29 (functional). If the status bits remember the checked values [hist],
    a check of [v] posts an alarm exactly when [v] is the first value in its
    band (below 50%, 20%, 5%) since the battery was last above the band: the
    5% alarm goes to the local thread (which opens the lock), the others by
    SMS and GPRS; and the bits then remember [v] too. *)
Theorem battery_reports_once hist v w qs qg ql :
  status_for hist (battery_status w) →
  sms_mq w = Some qs → gprs_mq w = Some qg → local_mq w = Some ql →
  q_room qs 1 → q_room qg 1 → q_room ql 1 →
  ∃ t1 t2 w', battery_report v w = Done () w' ∧
    status_for (v :: hist) (battery_status w') ∧
    sms_mq w' = Some (q_append qs
      (if by_radio hist v then [mkSmsMail t1 (battery_alarm (level v))] else [])) ∧
    gprs_mq w' = Some (q_append qg
      (if by_radio hist v then [mkGprsMail t2 (battery_alarm (level v)) 0 U_none] else [])) ∧
    local_mq w' = Some (q_append ql
      (if by_hand hist v then [mkLocalMail t1 (battery_alarm (level v))] else [])).
Proof.
  intros Hst Hs Hg Hl Rs Rg Rl. pose proof (status_next_for hist _ v Hst) as Hn.
  assert (∀ k, level v = k → 1 ≤ k ≤ 3 →
    Z.testbit (battery_status w) (k - 1) = reported k hist) as Hbit by (intros; by apply Hst).
  unfold by_radio, by_hand, fresh. unfold status_next in Hn. revert Hn Hbit.
  unfold battery_report, battery_clear, mseq, upd.
  change BATTERY_STATUS_REMAIN_5P with (level_bit 3).
  change BATTERY_STATUS_REMAIN_20P with (level_bit 2).
  change BATTERY_STATUS_REMAIN_50P with (level_bit 1).
  unfold level. destruct (v <? _); [|destruct (v <? _); [|destruct (v <? _)]];
    simpl; intros Hn Hbit; rewrite ?battery_first_run by lia; simpl;
    rewrite ?ldiff_level_bit by lia; simpl.
  - rewrite <- (Hbit 3) by lia. simpl. destruct (Z.testbit _ _) eqn:E; simpl.
    + rewrite (lor_reported _ 3) in Hn by done. exists 0, 0. eexists. split; [done|].
      by rewrite !q_append_nil.
    + rewrite (send_local_mail_room _ _ ql) by done. exists (rtc_time (now w)), 0.
      eexists. split; [done|]. simpl. by rewrite !q_append_nil.
  - rewrite <- (Hbit 2) by lia. simpl. destruct (Z.testbit _ _) eqn:E; simpl.
    + rewrite (lor_reported _ 2) in Hn by (rewrite ?ldiff_level_bit by lia; done).
      exists 0, 0. eexists. split; [done|]. by rewrite !q_append_nil.
    + rewrite (send_sms_mail_room _ _ qs) by done.
      rewrite (send_gprs_mail_room _ _ _ _ qg) by done.
      do 3 eexists. split; [done|]. simpl. by rewrite !q_append_nil.
  - rewrite <- (Hbit 1) by lia. simpl. destruct (Z.testbit _ _) eqn:E; simpl.
    + rewrite (lor_reported _ 1) in Hn by (rewrite ?ldiff_level_bit by lia; done).
      exists 0, 0. eexists. split; [done|]. by rewrite !q_append_nil.
    + rewrite (send_sms_mail_room _ _ qs) by done.
      rewrite (send_gprs_mail_room _ _ _ _ qg) by done.
      do 3 eexists. split; [done|]. simpl. by rewrite !q_append_nil.
  - exists 0, 0. eexists. split; [done|]. simpl. by rewrite !q_append_nil.
Qed.
End battery.

Lemma battery_reports_once_witness :
  ∃ t1 t2 w', battery_report (HB:=quiet_board) 700 start_world = Done () w' ∧
    status_for [700] (battery_status w') ∧
    sms_mq w' = Some (mkQueue [mkSmsMail t1 ALARM_TYPE_BATTERY_REMAIN_20P] 20) ∧
    gprs_mq w' = Some (mkQueue [mkGprsMail t2 ALARM_TYPE_BATTERY_REMAIN_20P 0 U_none] 20) ∧
    local_mq w' = Some (mkQueue [] 20).
Proof.
  apply (battery_reports_once (HB:=quiet_board) [] 700 start_world (mkQueue [] 20)
    (mkQueue [] 20) (mkQueue [] 20)).
  - exact status_for_nil.
  - reflexivity.
  - reflexivity.
  - reflexivity.
  - by_computation.
  - by_computation.
  - by_computation.
Defined.

(** ** The estimate is exact up to one unit *)

(** The remaining minutes without rounding errors *)
Definition exact_time (adc : Z) : Z :=
  Z.max 0 ((adc - 2565) * BATTERY_WORKING_TIME / BATTERY_ADC_VALUE_RANGE).

(** The two converted values at which the product rounds up across an integer *)
Definition rounds_down (adc : Z) : bool := (adc =? 3381) || (adc =? 2667).

Definition work_time_spec (adc : Z) : option Z :=
  if adc <? 2464 then None
  else Some (if rounds_down adc then exact_time adc - 1 else exact_time adc).

Lemma work_time_table :
  forallb (λ adc, bool_decide (work_time_of adc = work_time_spec adc))
    (map Z.of_nat (seq 0 4096)) = true.
Proof. vm_compute. reflexivity. Qed.

(** For every value the 12-bit ADC gives: from 2464 on, the
    single-precision computation yields the exact remaining time rounded down,
    (adc - 2565) * 15 / 1530 minutes clipped at zero, or one less for just two
    values; below 2464 the float is -1 or less and its conversion to [uint8_t]
    is undefined. *)
Lemma work_time_exact adc : 0 ≤ adc < 4096 → work_time_of adc = work_time_spec adc.
Proof.
  intros H. pose proof work_time_table as T. rewrite forallb_forall in T.
  apply (bool_decide_eq_true (work_time_of adc = work_time_spec adc)), T.
  apply list_elem_of_In, list_elem_of_fmap. exists (Z.to_nat adc).
  split; [lia|]. apply elem_of_seq. lia.
Qed.

Lemma work_time_exact_witness :
  (0 ≤ 4000 < 4096) ∧ work_time_of 4000 = work_time_spec 4000.
Proof. split; [lia|]. apply (work_time_exact 4000). lia. Defined.

Lemma work_time_of_bound adc t : work_time_of adc = Some t → 0 ≤ t ≤ 15.
Proof.
  unfold work_time_of, float_to_u8. destruct (float_trunc _) as [v|]; [|done].
  destruct ((0 <=? v) && (v <? 256)) eqn:E; [|done].
  apply andb_true_iff in E as [E _]. unfold BATTERY_WORKING_TIME.
  intros [= <-]. destruct (Z.ltb_spec 15 v); lia.
Qed.

(** ** The check thread runs for ever *)

Section runs.
Context {HB : Board}.

Lemma bat_get_value_runs : safe wf bat_get_value.
Proof. unfold bat_get_value. case_match; by apply runs_observe. Qed.

Lemma battery_sample_runs n : ∀ v, safe wf (battery_sample n v).
Proof.
  induction n as [|n IH]; intros v; cbn [battery_sample]; [by apply runs_return|].
  apply runs_then; [eauto with runs|intros _].
  apply runs_then; [apply bat_get_value_runs|intros]. apply IH.
Qed.

Lemma battery_clear_runs b : safe wf (battery_clear b).
Proof. apply runs_upd. by intros ? []. Qed.

Lemma battery_first_runs b m : safe wf m → safe wf (battery_first b m).
Proof.
  intros Hm. apply runs_then; [by apply runs_get|intros s]. apply runs_when. intros _.
  apply runs_then; [apply runs_upd; by intros ? []|done].
Qed.

Lemma battery_report_runs v : safe wf (battery_report v).
Proof.
  unfold battery_report. repeat (apply runs_if; intros _);
    repeat first [ apply battery_first_runs | apply battery_clear_runs
                 | apply runs_if; intros _ | runs_step ].
Qed.

Lemma battery_check_step_runs : safe wf battery_check_step.
Proof.
  unfold battery_check_step, bat_enable, bat_disable.
  repeat first [ apply battery_sample_runs | apply battery_report_runs | runs_step ].
Qed.
End runs.
#[export] Hint Resolve battery_check_step_runs : runs.

Lemma work_time_byte v t : work_time_of v = Some t → byte t.
Proof.
  unfold work_time_of, float_to_u8. repeat case_match; intros [= <-]; simplify_eq; unfold byte, fits;
    try done; lia.
Qed.

Lemma battery_get_data_keeps `{HB : Board} d : byte (bd_status d) → byte (bd_work_time d) →
  keeps wf (battery_get_data d) (λ d, byte (bd_status d) ∧ byte (bd_work_time d)).
Proof.
  intros Hs Hw. unfold battery_get_data.
  eapply (keeps_seq _ _ (λ d, byte (bd_status d) ∧ byte (bd_work_time d))).
  - apply keeps_if; intros _; [|by apply keeps_return].
    eapply keeps_seq; [apply runs_keeps, runs_pin_read|intros status Hst]. by apply keeps_return.
  - intros b [Hbs Hbw]. apply keeps_if; intros _; [|by apply keeps_return].
    unfold bat_enable, bat_disable. do 3 (apply keeps_then; [keeps_auto|intros ?]).
    eapply (keeps_seq _ _ byte); [|intros t Ht; by apply keeps_return].
    destruct (work_time_of _) as [t|] eqn:E; [|apply keeps_fault].
    apply keeps_return. by eapply work_time_byte.
Qed.
