(* ===== verification/GsmService.v ===== *)
(** * The GSM thread as the other threads see it (send_cmd_mail of src/gsm.c)

    A client puts a mail into [mq_gsm] and waits on a semaphore until the GSM
    thread has served it.  [GsmService] is what a client relies on; Gsm.v
    implements it with the thread's own code. *)
From stdpp Require Import base strings list.
From Stdlib Require Import ZArith Lia.
From S2P Require Import Prelude World Monad Untils.

(** What the thread stores behind the pointers of a mail, besides the result:
    the response and its length, or the bytes read by AT_HTTPREAD *)
Inductive GSM_ANSWER :=
| GA_none
| GA_gprs (response : list Z)
| GA_httpread (data : list Z).

(** A response is what one read into a buffer of that size can give. *)
Definition answer_wf (a : GSM_ANSWER) : Prop :=
  match a with
  | GA_gprs l => (length l <= RECV_FRAME_SIZE)%nat ∧ Forall byte l
  | GA_httpread l => (length l <= 512)%nat ∧ Forall byte l
  | GA_none => True
  end.

Definition gprs_response (a : GSM_ANSWER) : list Z :=
  match a with GA_gprs l => l | _ => [] end.

Lemma gprs_response_wf a :
  answer_wf a → (length (gprs_response a) <= RECV_FRAME_SIZE)%nat ∧ Forall byte (gprs_response a).
Proof. destruct a; simpl; intros H; try done; split; [unfold RECV_FRAME_SIZE; lia|done|unfold RECV_FRAME_SIZE; lia|done]. Qed.

Class GsmService `{Board} := {
  (** The GSM thread runs until the mails in its queue are served; what it has
      stored behind the pointers of the last one *)
  gsm_serve : M (Z * GSM_ANSWER);
  (** It keeps the invariant, and a response is not larger than its buffer. *)
  gsm_serve_keeps : keeps wf gsm_serve (λ r, answer_wf (snd r))
}.

Section client.
Context {HB : Board} {HG : GsmService}.

(** Post a mail; [None] if it was not accepted (no queue, or a full one). *)
Definition gsm_transact (urgent : bool) (mail : GSM_MAIL) : M (option (Z * GSM_ANSWER)) :=
  o <- get mq_gsm ;;
  match o with
  | None => mreturn None
  | Some _ =>
      result <- (if urgent then rt_mq_urgent mq_gsm set_mq_gsm mail
                 else rt_mq_send mq_gsm set_mq_gsm mail) ;;
      if result =? - RT_EFULL then mreturn None
      else r <- gsm_serve ;; mreturn (Some r)
  end.

Definition send_cmd_mail (command_index : AT_COMMAND) (delay : Z)
  (cmd_data : GSM_CMD_DATA) : M Z :=
  r <- gsm_transact false (GM_cmd command_index delay cmd_data) ;;
  mreturn (match r with Some (send_result, _) => send_result | None => AT_RESPONSE_ERROR end).

Lemma gsm_transact_keeps urgent mail :
  keeps wf (gsm_transact urgent mail)
    (λ r, match r with Some r => answer_wf (snd r) | None => True end).
Proof.
  intros w r w' Hw. unfold gsm_transact. intros E.
  apply mseq_Done in E as (o & w1 & [= <- <-] & E).
  destruct (mq_gsm w) as [q|] eqn:Hq; [|by injection E as <- <-].
  apply mseq_Done in E as (res & w2 & E1 & E).
  assert (wf w2) as Hw2.
  { revert E1. unfold rt_mq_send, rt_mq_urgent, mseq, get, upd, mreturn, deref.
    destruct urgent; rewrite Hq; simpl;
      [destruct (q_urgent mail q)|destruct (q_send mail q)]; intros [= <- <-];
      destruct Hw; by split. }
  case_match; [by injection E as <- <-|].
  apply mseq_Done in E as (a & w3 & E2 & E). injection E as <- <-.
  by destruct (gsm_serve_keeps _ _ _ Hw2 E2).
Qed.

Lemma send_cmd_mail_keeps i d c : keeps wf (send_cmd_mail i d c) (λ _, True).
Proof.
  eapply keeps_seq; [apply gsm_transact_keeps|]. intros. by apply keeps_return.
Qed.

(** To a free modem the mail is handed over at once. *)
Lemma gsm_transact_idle mail n w : mq_gsm w = Some (mkQueue [] (S n)) →
  gsm_transact false mail w =
    (r <- gsm_serve ;; mreturn (Some r)) (set_mq_gsm (Some (mkQueue [mail] (S n))) w).
Proof.
  intros Hq. unfold gsm_transact, rt_mq_send. rewrite get_run, Hq, mseq_assoc, get_run, Hq.
  unfold deref. rewrite mseq_assoc, mseq_return_l. unfold q_send. cbn [q_msgs q_max length].
  change (0 <? S n)%nat with true. cbv iota. by rewrite mseq_assoc, upd_run, mseq_return_l.
Qed.

(** A refused mail is an error and changes nothing. *)
Lemma send_cmd_mail_full i d c w q :
  mq_gsm w = Some q → (q_max q <= length (q_msgs q))%nat →
  send_cmd_mail i d c w = Done AT_RESPONSE_ERROR (set_mq_gsm (Some q) w).
Proof.
  intros Hq Hf. unfold send_cmd_mail, gsm_transact, rt_mq_send, q_send, mseq, get, upd,
    mreturn, deref. rewrite Hq. simpl. rewrite Hq. simpl. unfold mreturn. simpl.
  by destruct (Nat.ltb_spec (length (q_msgs q)) (q_max q)); [lia|].
Qed.
End client.

(** ** A modem that takes everything

    What the theorems about whole transfers assume of the GSM thread, and the
    bench that behaves so: it writes the request of a mail to the uart, and
    [report] is the answer where one is expected. *)

(** The frames written to the GSM uart *)
Definition sent_frames (l : list Event) : list (list Z) :=
  omap (λ e, match e with Ev_write DEV_GSM_USART bytes => Some bytes | _ => None end) l.

Lemma sent_frames_app l l' : sent_frames (l ++ l') = sent_frames l ++ sent_frames l'.
Proof. apply omap_app. Qed.

Class WillingModem {HB : Board} {HG : GsmService} (report : list Z) : Prop :=
  willing_serve w request has_response n :
    mq_gsm w = Some (mkQueue [GM_gprs request has_response] n) →
    ∃ w', gsm_serve w = Done (1, if has_response =? 1 then GA_gprs report else GA_none) w' ∧
      mq_gsm w' = Some (mkQueue [] n) ∧ gprs_order w' = gprs_order w ∧ files w' = files w ∧
      sent_frames (trace w') = sent_frames (trace w) ++ [request].

Lemma keeps_mail_recv : keeps wf (rt_mq_recv mq_gsm set_mq_gsm) (λ _, True).
Proof.
  intros w a w' Hw. unfold rt_mq_recv, mseq, get, deref, upd, mreturn, fault.
  destruct (mq_gsm w) as [q|]; [|done]. destruct (q_recv q) as [[x q']|]; intros [= <- <-];
    split; try done. destruct Hw; by split.
Qed.

Section bench.
Context {HB : Board} (report : list Z) (report_ok : answer_wf (GA_gprs report)).

Definition bench_serve : M (Z * GSM_ANSWER) :=
  m <- rt_mq_recv mq_gsm set_mq_gsm ;;
  match m with
  | Some (GM_gprs request has_response) =>
      uart_write DEV_GSM_USART request ;;;
      mreturn (1, if has_response =? 1 then GA_gprs report else GA_none)
  | Some (GM_cmd _ _ _) => mreturn (AT_RESPONSE_OK, GA_none)
  | None => nofuel
  end.

Lemma bench_serve_keeps : keeps wf bench_serve (λ r, answer_wf (snd r)).
Proof using report_ok.
  unfold bench_serve. apply keeps_then.
  - apply keeps_mail_recv.
  - intros [[| request hr]|]; [by apply keeps_return| |apply keeps_nofuel].
    apply keeps_then; [apply runs_keeps, runs_emit|intros _].
    apply keeps_return. simpl. by case_match.
Qed.

Definition bench_service : GsmService :=
  {| gsm_serve := bench_serve; gsm_serve_keeps := bench_serve_keeps |}.

#[export] Instance bench_willing : @WillingModem HB bench_service report.
Proof using Type.
  intros w request hr n Hq. eexists. split.
  - unfold gsm_serve, bench_service, bench_serve, rt_mq_recv, mseq, get, deref, upd, mreturn.
    rewrite Hq. simpl. reflexivity.
  - do 3 (split; [done|]). simpl. apply sent_frames_app.
Qed.
End bench.

(** A service for the threads' rounds that do not use the modem *)
Lemma no_report_wf : answer_wf (GA_gprs []).
Proof. split; [simpl; lia|done]. Qed.
