(* ===== verification/Local.v ===== *)
(** * The local alarms (src/local.c)

    The thread that acts on the lock itself: it locks on an attack, unlocks when
    the battery dies, reads RFID keys, answers phone calls, and supervises the
    gate and the power supply with timers. *)
From stdpp Require Import base strings list.
From Stdlib Require Import ZArith Lia.
From S2P Require Import Prelude World Monad Untils Alarm Lock Battery GsmService.

Definition CALL_EVENT_START : Z := 0x01.

(** The key of a nine-byte answer of the reader: bytes 4 to 7 masked with 8 *)
Definition rfid_key_of (rfid_buf : list Z) : list Z :=
  map (λ i, Z.lxor (tbl rfid_buf i) (tbl rfid_buf 8)) [4; 5; 6; 7].

(** [while (rfid_key_index >= 0)]: the entries from the last one down *)
Fixpoint rfid_search (keys : list RFID_KEY) (rfid_key : list Z) (index : nat) : bool :=
  match index with
  | O => false
  | S i =>
      match keys !! i with
      | Some k =>
          if negb (key_flag k =? 0) && bool_decide (key k = rfid_key) then true
          else rfid_search keys rfid_key i
      | None => rfid_search keys rfid_key i
      end
  end.

(** The loop over [call_telephone]: the first entry in use whose number occurs
    in the number that calls; [None] is an address without a terminator. *)
Fixpoint call_search (phones : list TELEPHONE_ADDRESS) (phone_call : list Z) : option bool :=
  match phones with
  | [] => Some false
  | t :: phones =>
      if negb (tel_flag t =? 0) then
        match cstr (address t) with
        | Some number => if strstr phone_call number then Some true
                         else call_search phones phone_call
        | None => None
        end
      else call_search phones phone_call
  end.

Section local.
Context {HB : Board} {HG : GsmService}.

(** ** Timers *)

Definition rt_timer_start (field : World → option bool)
  (store : option bool → World → World) : M () :=
  t <- get field ;; _ <- deref t ;; upd (store (Some true)).
Definition rt_timer_stop (field : World → option bool)
  (store : option bool → World → World) : M () :=
  t <- get field ;; _ <- deref t ;; upd (store (Some false)).
(** [if (timer == RT_NULL) timer = rt_timer_create (...)] *)
Definition timer_create (field : World → option bool)
  (store : option bool → World → World) : M () :=
  t <- get field ;;
  match t with None => upd (store (Some false)) | Some _ => mreturn () end.

Definition device_read (d : DEVICE) : M Z := pin_read d.

(** ** RFID keys *)

Definition rfid_request : list Z :=
  [0x50; 0x00; 0x06; 0xD4; 0x07; 0x01; 0x00; 0x00; 0x00; 0x04; 0x80].

(** A read of up to eight bytes into the four of [rfid_key] *)
Definition rfid_clear_cache : M () :=
  l <- rfid_uart_read 8 ;;
  if (4 <? length l)%nat then fault else mreturn ().

Definition rfid_success (rfid_key : list Z) : M () :=
  upd (set_gprs_mail_user (strncpy 4 rfid_key)) ;;;
  gpio_pin_output DEV_RFID_POWER 0 ;;;
  lock_output GATE_UNLOCK ;;;
  send_gprs_mail ALARM_TYPE_RFID_KEY_SUCCESS 0 0 U_gprs_mail_user ;;;
  alarm_inform_send (Z.lor INFO_SEND_MMS INFO_SEND_SMS).

(** The loop; [None] when a key was accepted, else the number of reads without
    an answer *)
Fixpoint rfid_loop (counts : nat) (rfid_error : Z) : M (option Z) :=
  match counts with
  | O => mreturn (Some rfid_error)
  | S counts =>
      rfid_clear_cache ;;;
      rfid_clear_cache ;;;
      uart_write DEV_RFID_UART rfid_request ;;;
      rfid_buf <- rfid_uart_read 9 ;;
      p <- get params ;;
      if (length rfid_buf =? 9)%nat then
        let k := rfid_key_of rfid_buf in
        if rfid_search (rfid_key p) k RFID_KEY_NUMBERS
        then rfid_success k ;;; mreturn None
        else rfid_loop counts rfid_error
      else if (length rfid_buf =? 0)%nat then rfid_loop counts (s8 (rfid_error + 1))
      else rfid_loop counts rfid_error
  end.

Definition rfid_failure (rfid_error : Z) : M () :=
  gpio_pin_output DEV_RFID_POWER 0 ;;;
  if 20 <? rfid_error then
    send_sms_mail ALARM_TYPE_RFID_FAULT 0 ;;;
    send_gprs_mail ALARM_TYPE_RFID_FAULT 0 0 U_none
  else
    send_sms_mail ALARM_TYPE_RFID_KEY_ERROR 0 ;;;
    send_gprs_mail ALARM_TYPE_RFID_KEY_ERROR 0 0 U_none ;;;
    voice_output 3 ;;;
    camera_send_mail ALARM_TYPE_RFID_KEY_ERROR 0 ;;;
    gpio_pin_output DEV_RFID_POWER 0.

Definition rfid_key_detect_process : M () :=
  dat <- gpio_pin_input DEV_RFID_KEY_DETECT ;;
  when (dat =? 1)
    (timer_create rfid_key_detect_timer set_rfid_key_detect_timer ;;;
     rt_timer_start rfid_key_detect_timer set_rfid_key_detect_timer ;;;
     gpio_pin_output DEV_RFID_POWER 1 ;;;
     if dev_present DEV_RFID_UART then
       r <- rfid_loop 50 0 ;;
       match r with
       | None => mreturn ()
       | Some rfid_error => rfid_failure rfid_error
       end
     else gpio_pin_output DEV_RFID_POWER 0).

Definition rfid_key_detect_timeout : M () :=
  when (dev_present DEV_RFID_KEY_DETECT)
    (data <- device_read DEV_RFID_KEY_DETECT ;;
     when (data =? 1)
       (send_sms_mail ALARM_TYPE_RFID_KEY_PLUGIN 0 ;;;
        send_gprs_mail ALARM_TYPE_RFID_KEY_PLUGIN 0 0 U_none)) ;;;
  rt_timer_stop rfid_key_detect_timer set_rfid_key_detect_timer.

(** ** The power supply *)

Definition battery_switch_process : M () :=
  dat <- gpio_pin_input DEV_BATTERY_SWITCH ;;
  when (dat =? POWER_BATTERY)
    (timer_create battery_switch_timer set_battery_switch_timer ;;;
     upd (set_battery_switch_timeout_counts 20) ;;;
     rt_timer_start battery_switch_timer set_battery_switch_timer).

(** [if (counts-- > 0)]: the old value decides, the new one is stored. *)
Definition battery_switch_timeout : M () :=
  if negb (dev_present DEV_BATTERY_SWITCH)
  then rt_timer_stop battery_switch_timer set_battery_switch_timer
  else
    counts <- get battery_switch_timeout_counts ;;
    upd (set_battery_switch_timeout_counts (counts - 1)) ;;;
    if 0 <? counts then
      data <- device_read DEV_BATTERY_SWITCH ;;
      when (negb (data =? POWER_BATTERY))
        (rt_timer_stop battery_switch_timer set_battery_switch_timer ;;;
         upd (set_battery_switch_timeout_counts 0))
    else
      rt_timer_stop battery_switch_timer set_battery_switch_timer ;;;
      upd (set_battery_switch_timeout_counts 0) ;;;
      send_sms_mail ALARM_TYPE_BATTERY_WORKING_20M 0 ;;;
      send_gprs_mail ALARM_TYPE_BATTERY_WORKING_20M 0 0 U_none.

(** ** The gate *)

Definition lock_gate_process : M () :=
  gpio_pin_output DEV_LOGO_LED 1 ;;;
  timer_create lock_gate_timer set_lock_gate_timer ;;;
  p <- get params ;;
  upd (set_lock_gate_timeout_counts
    (if (lock_gate_alarm_time p <? 0) || (99 <? lock_gate_alarm_time p) then 30
     else lock_gate_alarm_time p)) ;;;
  rt_timer_start lock_gate_timer set_lock_gate_timer.

Definition lock_gate_timeout : M () :=
  if negb (dev_present DEV_LOCK_GATE) then
    rt_timer_stop lock_gate_timer set_lock_gate_timer ;;;
    gpio_pin_output DEV_LOGO_LED 0
  else
    counts <- get lock_gate_timeout_counts ;;
    upd (set_lock_gate_timeout_counts (counts - 1)) ;;;
    if 0 <? counts then
      data <- device_read DEV_LOCK_GATE ;;
      when (data =? 0)
        (rt_timer_stop lock_gate_timer set_lock_gate_timer ;;;
         gpio_pin_output DEV_LOGO_LED 0 ;;;
         upd (set_lock_gate_timeout_counts 0))
    else
      rt_timer_stop lock_gate_timer set_lock_gate_timer ;;;
      gpio_pin_output DEV_LOGO_LED 0 ;;;
      upd (set_lock_gate_timeout_counts 0) ;;;
      send_sms_mail ALARM_TYPE_LOCK_GATE 0 ;;;
      send_gprs_mail ALARM_TYPE_LOCK_GATE 0 0 U_none.

(** ** Phone calls *)

Definition gsm_ring_process : M () :=
  rt_thread_delay 50 ;;;
  ring <- gpio_pin_input DEV_GSM_RING ;;
  if ring =? 0 then
    r1 <- send_cmd_mail AT_RING 200 CD_none ;;
    when (r1 =? AT_RESPONSE_OK)
      (r2 <- send_cmd_mail AT_CLCC 100 CD_none ;;
       when (r2 =? AT_RESPONSE_OK)
         (p <- get params ;;
          number <- get phone_call ;;
          number <- deref (cstr number) ;;
          known <- deref (call_search (call_telephone p) number) ;;
          if known : bool then
            send_cmd_mail ATA 100 CD_none ;;;
            emit (Ev_call CALL_EVENT_START) ;;;
            voice_output 0
          else send_cmd_mail ATH5 100 CD_none ;;; mreturn ()))
  else send_cmd_mail AT_RECV_SMS 100 CD_none ;;; mreturn ().

(** ** The thread: the switch on the alarm type *)

Definition local_process (m : LOCAL_MAIL) : M () :=
  match lm_alarm_type m with
  | ALARM_TYPE_LOCK_SHELL | ALARM_TYPE_LOCK_TEMPERATURE =>
      lock_output GATE_LOCK ;;;
      voice_output 3 ;;;
      camera_send_mail (lm_alarm_type m) (lm_time m)
  | ALARM_TYPE_CAMERA_IRDASENSOR => lock_output GATE_LOCK ;;; voice_output 3
  | ALARM_TYPE_BATTERY_REMAIN_5P => lock_output GATE_UNLOCK ;;; mreturn ()
  | ALARM_TYPE_GSM_RING => gsm_ring_process
  | ALARM_TYPE_BATTERY_SWITCH => battery_switch_process
  | ALARM_TYPE_LOCK_GATE => lock_gate_process
  | ALARM_TYPE_RFID_KEY_DETECT => rfid_key_detect_process
  | _ => mreturn ()
  end.

Definition local_mail_process_step : M () :=
  m <- rt_mq_recv local_mq set_local_mq ;;
  match m with
  | Some local_mail_buf => local_process local_mail_buf
  | None => mreturn ()
  end.

(** ** The lock opens for registered keys only *)

Lemma rfid_search_spec keys k : ∀ n,
  rfid_search keys k n = true ↔
    ∃ i e, (i < n)%nat ∧ keys !! i = Some e ∧ key_flag e ≠ 0 ∧ key e = k.
Proof.
  induction n as [|n IH]; cbn [rfid_search].
  - split; [done|]. intros (i & e & ? & _). lia.
  - split.
    + destruct (keys !! n) as [e|] eqn:E; [destruct (negb _ && _) eqn:F|]; intros H.
      * apply andb_true_iff in F as [F1 F2]. rewrite bool_decide_eq_true in F2.
        apply negb_true_iff, Z.eqb_neq in F1. exists n, e. auto.
      * apply IH in H as (i & e' & ? & ?). exists i, e'. split; [lia|done].
      * apply IH in H as (i & e' & ? & ?). exists i, e'. split; [lia|done].
    + intros (i & e & Hi & Hl & Hf & Hk). destruct (decide (i = n)) as [->|].
      * rewrite Hl, (bool_decide_eq_true_2 _ Hk), (proj2 (Z.eqb_neq _ _) Hf). done.
      * assert (rfid_search keys k n = true) as Hs.
        { apply IH. exists i, e. split; [lia|done]. }
        rewrite Hs. repeat case_match; done.
Qed.

Definition is_pulse (e : Event) : Prop := match e with Ev_pulse _ _ => True | _ => False end.

(** The motor was not moved and the parameters are the same. *)
Definition quiet (w w' : World) : Prop :=
  params w' = params w ∧ ∃ l, trace w' = trace w ++ l ∧ Forall (λ e, ¬ is_pulse e) l.

#[export] Instance quiet_preorder : PreOrder quiet.
Proof.
  split.
  - intros w. split; [done|]. exists []. by rewrite app_nil_r.
  - intros w1 w2 w3 [P1 (l1 & E1 & F1)] [P2 (l2 & E2 & F2)]. split; [congruence|].
    exists (l1 ++ l2). rewrite E2, E1, app_assoc. by rewrite Forall_app.
Qed.

Lemma quiet_same w w' : params w' = params w → trace w' = trace w → quiet w w'.
Proof. intros HP HT. split; [done|]. exists []. by rewrite app_nil_r. Qed.

Lemma quiet_emit e : ¬ is_pulse e → evolves quiet (emit e).
Proof.
  intros H w a w' [= <- <-]. split; [done|]. exists [e]. split; [done|]. by apply Forall_singleton.
Qed.

Lemma quiet_pin_input d : evolves quiet (gpio_pin_input d).
Proof.
  unfold gpio_pin_input, pin_read. case_match; apply evolves_observe; intros;
    by apply quiet_same.
Qed.

Lemma quiet_pin_output d x : evolves quiet (gpio_pin_output d x).
Proof. apply evolves_when. intros _. apply quiet_emit. by intros []. Qed.

Lemma quiet_rfid_read n : evolves quiet (rfid_uart_read n).
Proof. intros w a w' [= <- <-]. by apply quiet_same. Qed.

Lemma quiet_send_sms_mail a t : evolves quiet (send_sms_mail a t).
Proof. apply evolves_send_sms_mail; intros; by apply quiet_same. Qed.

Lemma quiet_send_gprs_mail a t o u : evolves quiet (send_gprs_mail a t o u).
Proof. apply evolves_send_gprs_mail; intros; by apply quiet_same. Qed.

Lemma quiet_camera_send_mail a t : evolves quiet (camera_send_mail a t).
Proof. apply evolves_post_mail. intros. by apply quiet_same. Qed.

Lemma quiet_timer_start field store :
  (∀ b w, quiet w (store b w)) → evolves quiet (rt_timer_start field store).
Proof.
  intros H. apply evolves_seq; [apply evolves_get|intros t].
  apply evolves_seq; [apply evolves_deref|intros _]. by apply evolves_upd.
Qed.

Lemma quiet_timer_create field store :
  (∀ b w, quiet w (store b w)) → evolves quiet (timer_create field store).
Proof.
  intros H. apply evolves_seq; [apply evolves_get|intros [t|]]; [apply evolves_return|].
  by apply evolves_upd.
Qed.

Lemma quiet_rfid_clear_cache : evolves quiet rfid_clear_cache.
Proof.
  apply evolves_seq; [apply quiet_rfid_read|intros l].
  case_match; [apply evolves_fault|apply evolves_return].
Qed.

Lemma quiet_rfid_failure e : evolves quiet (rfid_failure e).
Proof.
  unfold rfid_failure, voice_output.
  apply evolves_seq; [apply quiet_pin_output|intros _].
  case_match;
    repeat first [apply quiet_send_sms_mail | apply quiet_send_gprs_mail
      | apply quiet_camera_send_mail
      | apply quiet_pin_output | (apply quiet_emit; by intros [])
      | (apply evolves_seq; [|intros _])].
Qed.

(** A run of the loop that accepts a key found it in the table and then ran
    [rfid_success] on it; otherwise the motor rested. *)
Lemma rfid_loop_inv counts : ∀ e w r w', rfid_loop counts e w = Done r w' →
  match r with
  | Some _ => quiet w w'
  | None => ∃ k w1, quiet w w1 ∧
      rfid_search (rfid_key (params w)) k RFID_KEY_NUMBERS = true ∧
      rfid_success k w1 = Done () w'
  end.
Proof.
  induction counts as [|counts IH]; intros e w r w' E; cbn [rfid_loop] in E.
  - injection E as <- <-. reflexivity.
  - apply mseq_Done in E as (? & w1 & E1 & E). apply quiet_rfid_clear_cache in E1.
    apply mseq_Done in E as (? & w2 & E2 & E). apply quiet_rfid_clear_cache in E2.
    apply mseq_Done in E as (? & w3 & E3 & E). apply quiet_emit in E3; [|by intros []].
    apply mseq_Done in E as (buf & w4 & E4 & E). apply quiet_rfid_read in E4.
    apply mseq_Done in E as (p & w5 & [= <- <-] & E).
    assert (quiet w w4) as Q by (do 3 (etransitivity; [done|]); done). clear E1 E2 E3 E4.
    assert (∀ e r, rfid_loop counts e w4 = Done r w' →
      match r with
      | Some _ => quiet w w'
      | None => ∃ k w1, quiet w w1 ∧
          rfid_search (rfid_key (params w)) k RFID_KEY_NUMBERS = true ∧
          rfid_success k w1 = Done () w'
      end) as Hrest.
    { intros e' r' E'. apply IH in E'. destruct r'; [by etransitivity|].
      destruct E' as (k & w6 & Q6 & Hs & Hr). exists k, w6.
      split; [by etransitivity|]. by destruct Q as [-> _] in Hs |- *. }
    case_match; [|case_match; by eapply Hrest].
    destruct (rfid_search _ _ _) eqn:Hs; [|by eapply Hrest].
    apply mseq_Done in E as ([] & w6 & E6 & E). injection E as <- <-.
    exists (rfid_key_of buf), w4. destruct Q as [HP HQ]. rewrite <- HP. done.
Qed.

(** Handling a detected key: no pulse was sent, or the search found the key
    and the accepting branch ran on it. *)
Lemma rfid_detect_inv w w' :
  rfid_key_detect_process w = Done () w' →
  quiet w w' ∨
  ∃ k w1, quiet w w1 ∧ rfid_search (rfid_key (params w)) k RFID_KEY_NUMBERS = true ∧
    rfid_success k w1 = Done () w'.
Proof.
  unfold rfid_key_detect_process. intros E.
  apply mseq_Done in E as (dat & w1 & E1 & E). apply quiet_pin_input in E1.
  unfold when in E. case_match; [|injection E as <-; by left].
  apply mseq_Done in E as (? & w2 & E2 & E). apply quiet_timer_create in E2;
    [|intros; by apply quiet_same].
  apply mseq_Done in E as (? & w3 & E3 & E). apply quiet_timer_start in E3;
    [|intros; by apply quiet_same].
  apply mseq_Done in E as (? & w4 & E4 & E). apply quiet_pin_output in E4.
  assert (quiet w w4) as Q by (do 3 (etransitivity; [done|]); done). clear E1 E2 E3 E4.
  case_match; [|apply quiet_pin_output in E; left; by etransitivity].
  apply mseq_Done in E as (r & w5 & E5 & E). apply rfid_loop_inv in E5.
  destruct r as [err|].
  - apply quiet_rfid_failure in E. left. etransitivity; [done|]. by etransitivity.
  - injection E as <-. right. destruct E5 as (k & w6 & Q6 & Hs & Hr).
    exists k, w6. rewrite <- (proj1 Q). split_and!; try done. by etransitivity.
Qed.

(** C3 (safety). Handling a detected key moves the motor only for a key that
    is in the table of registered keys with its flag set: either no pulse was
    sent, or the accepting branch ran with the bytes of such an entry, after
    a run in which the motor rested. *)
Theorem rfid_unlocks_registered_only w w' :
  rfid_key_detect_process w = Done () w' →
  quiet w w' ∨
  ∃ i e w1, (i < RFID_KEY_NUMBERS)%nat ∧ rfid_key (params w) !! i = Some e ∧
    key_flag e ≠ 0 ∧ quiet w w1 ∧ rfid_success (key e) w1 = Done () w'.
Proof.
  intros [Q|(k & w1 & Q & Hs & Hr)]%rfid_detect_inv; [by left|right].
  apply rfid_search_spec in Hs as (i & e & Hi & He & Hf & <-). by exists i, e, w1.
Qed.

(** ** The gate and the supply are watched *)

Definition gate_after (n : nat) (w : World) : World :=
  set_now (n + now w)
    (set_lock_gate_timeout_counts (lock_gate_timeout_counts w - Z.of_nat n) w).

Definition gate_open (t : nat) : Prop := u8 (pin_level DEV_LOCK_GATE t) ≠ 0.

(** While the gate is open the timer only counts. *)
Lemma lock_gate_waits n : ∀ w,
  dev_present DEV_LOCK_GATE = true → Z.of_nat n ≤ lock_gate_timeout_counts w →
  (∀ i, (i < n)%nat → gate_open (i + now w)) →
  mrepeat n lock_gate_timeout w = Done () (gate_after n w).
Proof.
  induction n as [|n IH]; intros w Hd Hc Ho; simpl.
  - unfold mreturn, gate_after. rewrite Z.sub_0_r. by destruct w.
  - unfold mseq. unfold lock_gate_timeout at 1. rewrite Hd. simpl.
    unfold mseq, get, upd, when, device_read, pin_read, observe, mreturn.
    rewrite (proj2 (Z.ltb_lt 0 (lock_gate_timeout_counts w))) by lia. simpl.
    rewrite (proj2 (Z.eqb_neq _ _)) by (apply (Ho 0%nat); lia). simpl.
    rewrite IH; simpl; [|done|lia|].
    + f_equal. unfold gate_after, set_now, set_lock_gate_timeout_counts. simpl. f_equal; lia.
    + intros i Hi. replace (i + S (now w))%nat with (S i + now w)%nat by lia. apply Ho. lia.
Qed.

(** With [n] timer periods left (as [lock_gate_process] sets
    them from the parameters) and the gate open at every one of them, nothing
    is reported for [n] periods; the next one reports the open gate by SMS and
    GPRS, switches the LED off and stops the timer. *)
Lemma lock_gate_open_reported n w qs qg run :
  dev_present DEV_LOCK_GATE = true → dev_present DEV_LOGO_LED = true →
  lock_gate_timer w = Some run →
  lock_gate_timeout_counts w = Z.of_nat n →
  (∀ i, (i < n)%nat → gate_open (i + now w)) →
  sms_mq w = Some qs → gprs_mq w = Some qg → q_room qs 1 → q_room qg 1 →
  (∃ w1, mrepeat n lock_gate_timeout w = Done () w1 ∧
    sms_mq w1 = Some qs ∧ gprs_mq w1 = Some qg ∧ trace w1 = trace w ∧
    lock_gate_timer w1 = Some run) ∧
  ∃ t1 t2 w2, mrepeat (n + 1) lock_gate_timeout w = Done () w2 ∧
    lock_gate_timer w2 = Some false ∧ lock_gate_timeout_counts w2 = 0 ∧
    trace w2 = trace w ++ [Ev_write DEV_LOGO_LED [0]] ∧
    sms_mq w2 = Some (q_append qs [mkSmsMail t1 ALARM_TYPE_LOCK_GATE]) ∧
    gprs_mq w2 = Some (q_append qg [mkGprsMail t2 ALARM_TYPE_LOCK_GATE 0 U_none]).
Proof.
  intros Hd Hl Ht Hc Ho Hs Hg Rs Rg. split.
  - exists (gate_after n w). rewrite lock_gate_waits by (done || lia). done.
  - rewrite mrepeat_add. unfold mseq at 1. rewrite lock_gate_waits by (done || lia).
    rewrite mrepeat_1.
    unfold lock_gate_timeout, rt_timer_stop, gpio_pin_output. rewrite Hd, Hl. simpl.
    unfold mseq, get, upd, deref, when, emit, upd, mreturn. simpl. rewrite Hc, Z.sub_diag.
    simpl. rewrite Ht. unfold mreturn. simpl.
    rewrite (send_sms_mail_room _ _ qs) by done.
    rewrite (send_gprs_mail_room _ _ _ _ qg) by done.
    do 3 eexists. split; [done|]. done.
Qed.

(** A gate that closes in time stops the timer without a report. *)
Lemma lock_gate_closed w run :
  dev_present DEV_LOCK_GATE = true → dev_present DEV_LOGO_LED = true →
  lock_gate_timer w = Some run → 0 < lock_gate_timeout_counts w →
  ¬ gate_open (now w) →
  ∃ w', lock_gate_timeout w = Done () w' ∧ lock_gate_timer w' = Some false ∧
    lock_gate_timeout_counts w' = 0 ∧ sms_mq w' = sms_mq w ∧ gprs_mq w' = gprs_mq w.
Proof.
  intros Hd Hl Ht Hc Ho. apply dec_stable in Ho.
  unfold lock_gate_timeout, rt_timer_stop, gpio_pin_output. rewrite Hd, Hl. simpl.
  unfold mseq, get, upd, device_read, pin_read, observe, when, deref, emit, upd, mreturn.
  rewrite (proj2 (Z.ltb_lt _ _)) by done. simpl. rewrite Ho. simpl. rewrite Ht.
  eexists. split; [done|]. done.
Qed.

(** [lock_gate_process] arms the timer with the configured number of periods,
    or with thirty if that is not a number of two digits. *)
Lemma lock_gate_armed w :
  ∃ w', lock_gate_process w = Done () w' ∧ lock_gate_timer w' = Some true ∧
    lock_gate_timeout_counts w' =
      (if (lock_gate_alarm_time (params w) <? 0) || (99 <? lock_gate_alarm_time (params w))
       then 30 else lock_gate_alarm_time (params w)).
Proof.
  unfold lock_gate_process, gpio_pin_output, timer_create, rt_timer_start.
  unfold mseq, get, upd, when, deref, emit, upd, mreturn.
  destruct (dev_present DEV_LOGO_LED); simpl;
    destruct (lock_gate_timer w) eqn:E; simpl; rewrite ?E; (eexists; split; [done|]); done.
Qed.

Definition supply_after (n : nat) (w : World) : World :=
  set_now (n + now w)
    (set_battery_switch_timeout_counts (battery_switch_timeout_counts w - Z.of_nat n) w).

Definition on_battery (t : nat) : Prop := u8 (pin_level DEV_BATTERY_SWITCH t) = POWER_BATTERY.

Lemma battery_switch_waits n : ∀ w,
  dev_present DEV_BATTERY_SWITCH = true → Z.of_nat n ≤ battery_switch_timeout_counts w →
  (∀ i, (i < n)%nat → on_battery (i + now w)) →
  mrepeat n battery_switch_timeout w = Done () (supply_after n w).
Proof.
  induction n as [|n IH]; intros w Hd Hc Ho; simpl.
  - unfold mreturn, supply_after. rewrite Z.sub_0_r. by destruct w.
  - unfold mseq. unfold battery_switch_timeout at 1. rewrite Hd. simpl.
    unfold mseq, get, upd, when, device_read, pin_read, observe, mreturn.
    rewrite (proj2 (Z.ltb_lt 0 (battery_switch_timeout_counts w))) by lia. simpl.
    pose proof (Ho 0%nat ltac:(lia)) as H0. unfold on_battery in H0. simpl in H0.
    rewrite (proj2 (Z.eqb_eq _ _) H0). simpl.
    rewrite IH; simpl; [|done|lia|].
    + f_equal. unfold supply_after, set_now, set_battery_switch_timeout_counts. simpl.
      f_equal; lia.
    + intros i Hi. replace (i + S (now w))%nat with (S i + now w)%nat by lia. apply Ho. lia.
Qed.

(** A supply that fails and stays away for twenty periods
    after [battery_switch_process] is reported exactly once, by SMS and GPRS,
    in the twenty-first, and the timer is stopped. *)
Lemma battery_switch_reported w qs qg :
  dev_present DEV_BATTERY_SWITCH = true →
  (∀ i, (i <= 20)%nat → on_battery (i + now w)) →
  sms_mq w = Some qs → gprs_mq w = Some qg → q_room qs 1 → q_room qg 1 →
  ∃ t1 t2 w', (battery_switch_process ;;; mrepeat 21 battery_switch_timeout) w = Done () w' ∧
    battery_switch_timer w' = Some false ∧ battery_switch_timeout_counts w' = 0 ∧
    sms_mq w' = Some (q_append qs [mkSmsMail t1 ALARM_TYPE_BATTERY_WORKING_20M]) ∧
    gprs_mq w' = Some (q_append qg [mkGprsMail t2 ALARM_TYPE_BATTERY_WORKING_20M 0 U_none]).
Proof.
  intros Hd Ho Hs Hg Rs Rg. unfold mseq at 1.
  assert (∃ w1, battery_switch_process w = Done () w1 ∧ now w1 = S (now w) ∧
    battery_switch_timeout_counts w1 = 20 ∧ battery_switch_timer w1 = Some true ∧
    sms_mq w1 = sms_mq w ∧ gprs_mq w1 = gprs_mq w) as (w1 & -> & Hn & Hc & Ht & Hs1 & Hg1).
  { pose proof (Ho 0%nat ltac:(lia)) as H0. unfold on_battery in H0. simpl in H0.
    unfold battery_switch_process, gpio_pin_input, pin_read, timer_create, rt_timer_start.
    rewrite Hd. unfold mseq, get, upd, when, deref, observe, mreturn.
    rewrite (proj2 (Z.eqb_eq _ _) H0). simpl.
    destruct (battery_switch_timer w) eqn:E; simpl; rewrite ?E; (eexists; split; [done|]); done. }
  change 21%nat with (20 + 1)%nat. rewrite mrepeat_add. unfold mseq at 1.
  rewrite battery_switch_waits; [|done|lia|].
  2: { intros i Hi. rewrite Hn. replace (i + S (now w))%nat with (S i + now w)%nat by lia.
       apply Ho. lia. }
  rewrite mrepeat_1. unfold battery_switch_timeout, rt_timer_stop. rewrite Hd. simpl.
  unfold mseq, get, upd, deref, mreturn. simpl. rewrite Hc. simpl. rewrite Ht.
  unfold mreturn. simpl. rewrite (send_sms_mail_room _ _ qs) by (simpl; congruence || done).
  rewrite (send_gprs_mail_room _ _ _ _ qg) by (simpl; congruence || done).
  do 3 eexists. split; [done|]. done.
Qed.

(** ** The answers of the RFID reader *)

#[local] Arguments rfid_search : simpl never.
#[local] Arguments rfid_success : simpl never.

Lemma rfid_clear_cache_empty w :
  rfid_rx w = [] → uart_arrivals DEV_RFID_UART (now w) = [] →
  rfid_clear_cache w = Done () (set_rfid_rx [] (tick w)).
Proof. intros R A. unfold rfid_clear_cache, rfid_uart_read, mseq. by rewrite R, A. Qed.

Lemma rfid_loop_hit c e w1 w' buf :
  rfid_rx w1 = [] → uart_arrivals DEV_RFID_UART (now w1) = [] →
  uart_arrivals DEV_RFID_UART (1 + now w1) = [] →
  uart_arrivals DEV_RFID_UART (2 + now w1) = buf → length buf = 9%nat →
  rfid_search (rfid_key (params w1)) (rfid_key_of buf) RFID_KEY_NUMBERS = true →
  rfid_success (rfid_key_of buf)
    (set_rfid_rx [] (set_now (3 + now w1)
      (set_trace (trace w1 ++ [Ev_write DEV_RFID_UART rfid_request]) w1))) = Done () w' →
  rfid_loop (S c) e w1 = Done None w'.
Proof.
  intros R1 A1 A2 A3 Hlen Hs Hsucc. cbn [rfid_loop].
  unfold mseq at 1. rewrite rfid_clear_cache_empty by done.
  unfold mseq at 1. rewrite rfid_clear_cache_empty by done.
  unfold mseq at 1, uart_write, emit, upd. unfold mseq at 1, rfid_uart_read.
  change (now _) with (2 + now w1)%nat. rewrite A3. change (rfid_rx _) with (@nil Z).
  rewrite app_nil_l, (take_ge buf 9), (drop_ge buf 9) by lia.
  unfold mseq at 1, get. rewrite Hlen. change (params _) with (params w1). simpl.
  rewrite Hs. unfold mseq.
  match goal with |- context [rfid_success ?k ?w] =>
    replace (rfid_success k w) with (Done () w') by (symmetry; exact Hsucc) end.
  done.
Qed.

Lemma rfid_loop_overflow c e w1 : (5 <= length (rfid_rx w1))%nat → rfid_loop (S c) e w1 = Fault.
Proof.
  intros R1. cbn [rfid_loop]. unfold rfid_clear_cache, rfid_uart_read, mseq.
  destruct (Nat.ltb_spec 4 (length (take 8
    (rfid_rx w1 ++ uart_arrivals DEV_RFID_UART (now w1))))) as [|H]; [done|].
  rewrite length_take, length_app in H. lia.
Qed.

#[local] Arguments rfid_loop : simpl never.

(** When a key is detected, the reader is switched on and
    sent one request, and it answers with a registered key, the lock is opened
    on that key: the accepting branch runs and ends the handling. *)
Lemma rfid_registered_accepted w w' buf :
  dev_present DEV_RFID_KEY_DETECT = true → dev_present DEV_RFID_POWER = true →
  dev_present DEV_RFID_UART = true →
  u8 (pin_level DEV_RFID_KEY_DETECT (now w)) = 1 →
  rfid_rx w = [] → uart_arrivals DEV_RFID_UART (1 + now w) = [] →
  uart_arrivals DEV_RFID_UART (2 + now w) = [] →
  uart_arrivals DEV_RFID_UART (3 + now w) = buf → length buf = 9%nat →
  rfid_search (rfid_key (params w)) (rfid_key_of buf) RFID_KEY_NUMBERS = true →
  rfid_success (rfid_key_of buf)
    (set_rfid_key_detect_timer (Some true)
      (set_now (4 + now w)
        (set_trace (trace w ++ [Ev_write DEV_RFID_POWER [1];
                                Ev_write DEV_RFID_UART rfid_request]) w))) = Done () w' →
  rfid_key_detect_process w = Done () w'.
Proof.
  intros Hd Hp Hu Hpin Hrx A1 A2 A3 Hlen Hs Hsucc.
  unfold rfid_key_detect_process, gpio_pin_input, pin_read, gpio_pin_output.
  rewrite Hd, Hp. unfold mseq at 1. unfold observe, when. rewrite Hpin. simpl.
  unfold timer_create, rt_timer_start, mseq, get, upd, deref, emit, upd, mreturn. simpl.
  assert (∀ w1, w1 = set_rfid_key_detect_timer (Some true) (set_now (1 + now w)
      (set_trace (trace w ++ [Ev_write DEV_RFID_POWER [1]]) w)) →
    rfid_loop 50 0 w1 = Done None w') as Hloop.
  { intros w1 ->. apply (rfid_loop_hit 49 0 _ w' buf);
      [exact Hrx|exact A1|exact A2|exact A3|exact Hlen|exact Hs|].
    rewrite <- Hsucc. match goal with |- rfid_success ?k ?a = rfid_success ?k ?b =>
      assert (a = b) as Hab; [|rewrite Hab; exact eq_refl] end.
    world_eq; [|by symmetry]. cbn [trace set_trace set_rfid_rx set_now set_rfid_key_detect_timer].
    by rewrite <- app_assoc. }
  destruct (rfid_key_detect_timer w) eqn:E; simpl; rewrite ?E; unfold mreturn; simpl;
    rewrite Hu; (rewrite Hloop; [done|]); world_eq; by rewrite ?E.
Qed.

(** The reads that clear the reader's cache ask for eight bytes
    into the array [rfid_key] of four: as soon as five bytes are waiting when a
    key is detected, the behaviour is undefined. *)
Lemma rfid_stale_bytes_overflow w :
  dev_present DEV_RFID_KEY_DETECT = true → dev_present DEV_RFID_UART = true →
  u8 (pin_level DEV_RFID_KEY_DETECT (now w)) = 1 →
  (5 <= length (rfid_rx w))%nat →
  rfid_key_detect_process w = Fault.
Proof.
  intros Hd Hu Hpin Hrx.
  unfold rfid_key_detect_process, gpio_pin_input, pin_read, gpio_pin_output.
  rewrite Hd. unfold mseq at 1. unfold observe, when. rewrite Hpin. simpl.
  unfold timer_create, rt_timer_start, mseq, get, upd, deref, emit, upd, mreturn. simpl.
  destruct (rfid_key_detect_timer w) eqn:E; simpl; rewrite ?E; unfold mreturn; simpl;
    rewrite Hu; destruct (dev_present DEV_RFID_POWER); simpl;
    (rewrite (rfid_loop_overflow 49); [done|exact Hrx]).
Qed.
End local.

(** ** Which calls are answered *)

(** On well-formed parameters the search is defined, and it
    accepts a call exactly when some entry in use has a number that occurs in
    the number that calls. *)
Lemma call_search_correct phones phone_call :
  Forall telephone_wf phones →
  ∃ b, call_search phones phone_call = Some b ∧
    (b = true ↔ ∃ t number i, t ∈ phones ∧ tel_flag t ≠ 0 ∧
       cstr (address t) = Some number ∧ occurs_at number phone_call i).
Proof.
  induction 1 as [|t phones Ht _ (b & Hb & IH)]; cbn [call_search].
  - exists false. split; [done|]. split; [done|]. intros (t & ? & ? & Ht & _).
    by apply elem_of_nil in Ht.
  - assert ((∃ t' number i, t' ∈ phones ∧ tel_flag t' ≠ 0 ∧ cstr (address t') = Some number ∧
        occurs_at number phone_call i) →
      ∃ t' number i, t' ∈ t :: phones ∧ tel_flag t' ≠ 0 ∧ cstr (address t') = Some number ∧
        occurs_at number phone_call i) as Hweak.
    { intros (t' & n & i & ? & ?). exists t', n, i. rewrite elem_of_cons. auto. }
    destruct (Z.eqb_spec (tel_flag t) 0) as [E|E]; simpl.
    + exists b. split; [done|]. rewrite IH. split; [done|].
      intros (t' & n & i & Ht' & ?). apply elem_of_cons in Ht' as [->|Ht']; [tauto|].
      exists t', n, i. auto.
    + destruct (telephone_cstr t Ht) as (s & Hs & _). rewrite Hs.
      destruct (strstr phone_call s) eqn:F.
      * exists true. split; [done|]. split; [|done]. intros _.
        apply strstr_spec in F as [i Hi]. exists t, s, i. rewrite elem_of_cons. auto.
      * exists b. split; [done|]. rewrite IH. split; [done|].
        intros (t' & n & i & Ht' & Hf & Hc & Ho). apply elem_of_cons in Ht' as [->|Ht'].
        -- rewrite Hs in Hc. simplify_eq. assert (strstr phone_call n = true) as G; [|congruence].
           apply strstr_spec. by exists i.
        -- exists t', n, i. auto.
Qed.

(** ** Concrete runs *)

(** A reader that answers with the registered key of the initial parameters *)
Definition key_answer : list Z := [0; 0; 0; 0; 0x86; 0x6E; 0xEB; 0x14; 0].
Definition key_board : Board :=
  bench_board
    (λ d t, match d with DEV_MOTOR_STATUS => if (t <? 8)%nat then 1 else 0 | _ => 1 end)
    (λ _ t, if (t =? 3)%nat then key_answer else []).

Definition world_of {A} (o : outcome A) : World :=
  match o with Done _ w => w | _ => start_world end.

Definition key_done : World := world_of (rfid_key_detect_process (HB:=key_board) start_world).

Lemma rfid_unlocks_registered_only_witness :
  quiet start_world key_done ∨
  ∃ i e w1, (i < RFID_KEY_NUMBERS)%nat ∧ rfid_key (params start_world) !! i = Some e ∧
    key_flag e ≠ 0 ∧ quiet start_world w1 ∧
    rfid_success (HB:=key_board) (key e) w1 = Done () key_done.
Proof.
  apply (rfid_unlocks_registered_only (HB:=key_board) start_world key_done).
  vm_compute. reflexivity.
Defined.

Lemma rfid_registered_accepted_witness :
  rfid_key_detect_process (HB:=key_board) start_world = Done () key_done.
Proof.
  apply (rfid_registered_accepted (HB:=key_board) start_world key_done key_answer);
    vm_compute; reflexivity.
Defined.

Definition stale_world : World := set_rfid_rx [1; 2; 3; 4; 5] start_world.

Lemma rfid_stale_bytes_overflow_witness :
  rfid_key_detect_process (HB:=quiet_board) stale_world = Fault.
Proof.
  apply (rfid_stale_bytes_overflow (HB:=quiet_board) stale_world);
    [reflexivity..|vm_compute; lia].
Defined.

Definition gate_world : World :=
  set_lock_gate_timer (Some true) (set_lock_gate_timeout_counts 2 start_world).

Lemma lock_gate_open_reported_witness :
  ∃ t1 t2 w2, mrepeat 3 (lock_gate_timeout (HB:=quiet_board)) gate_world = Done () w2 ∧
    lock_gate_timer w2 = Some false ∧ lock_gate_timeout_counts w2 = 0 ∧
    trace w2 = trace gate_world ++ [Ev_write DEV_LOGO_LED [0]] ∧
    sms_mq w2 = Some (mkQueue [mkSmsMail t1 ALARM_TYPE_LOCK_GATE] 20) ∧
    gprs_mq w2 = Some (mkQueue [mkGprsMail t2 ALARM_TYPE_LOCK_GATE 0 U_none] 20).
Proof.
  apply (lock_gate_open_reported (HB:=quiet_board) 2 gate_world (mkQueue [] 20)
    (mkQueue [] 20) true); try reflexivity.
  - intros i Hi. by_computation.
  - by_computation.
  - by_computation.
Defined.

(** The supply pin reads "battery". *)
Definition battery_board : Board := bench_board (λ _ _, 0) (λ _ _, []).

Lemma battery_switch_reported_witness :
  ∃ t1 t2 w', (battery_switch_process (HB:=battery_board) ;;;
      mrepeat 21 (battery_switch_timeout (HB:=battery_board))) start_world = Done () w' ∧
    battery_switch_timer w' = Some false ∧ battery_switch_timeout_counts w' = 0 ∧
    sms_mq w' = Some (mkQueue [mkSmsMail t1 ALARM_TYPE_BATTERY_WORKING_20M] 20) ∧
    gprs_mq w' = Some (mkQueue [mkGprsMail t2 ALARM_TYPE_BATTERY_WORKING_20M 0 U_none] 20).
Proof.
  apply (battery_switch_reported (HB:=battery_board) start_world (mkQueue [] 20)
    (mkQueue [] 20)); try reflexivity.
  - by_computation.
  - by_computation.
Defined.

Lemma call_search_correct_witness :
  ∃ b, call_search (call_telephone device_parameters) (bytes_of "13316975697") = Some b ∧
    (b = true ↔ ∃ t number i, t ∈ call_telephone device_parameters ∧ tel_flag t ≠ 0 ∧
       cstr (address t) = Some number ∧ occurs_at number (bytes_of "13316975697") i).
Proof. apply call_search_correct. apply device_parameters_wf. Defined.
