(* ===== verification/Pulse.v ===== *)
(** * Pulse outputs: the motors and the voice chip (src/gpio_pwm.c,
      src/stm32f10x_it.c, src/voiceapp.c)

    A timer with two channels makes the pulses; the driver keeps how many are
    left on each channel, and the interrupts of the timer count them.  The
    hardware is the little of a timer in PWM mode 2 that matters here: while it
    counts, each period has a compare match, where a channel that is switched on
    begins a pulse and the flags of both channels are set (the compare values
    are equal unless somebody changes them from the shell), and then an update,
    where the pulse ends.  A channel that is switched on between the two gives
    its first pulse at the next match. *)
From stdpp Require Import base functions strings list.
From Stdlib Require Import ZArith Lia.
From S2P Require Import Prelude World Monad Untils Alarm Lock GsmService Local.

(** ** The driver *)

(** The fields of struct gpio_pwm_user_data that change, and the output *)
Record PWM := mkPwm {
  tim_pulse_counts : Z;
  tim_oc_pulse_value : Z;
  channel_on : bool
}.

(** TIM8 has the motors on its channels, TIM5 the data and the reset line of the
    voice chip. *)
Record TIMER := mkTimer {
  tm_a : PWM;
  tm_b : PWM;
  tm_counting : bool;
  tm_past : bool             (* between the compare match and the update *)
}.

Inductive CHANNEL := Ch_a | Ch_b.

Definition channel (c : CHANNEL) (t : TIMER) : PWM := match c with Ch_a => tm_a t | Ch_b => tm_b t end.

Definition set_channel (c : CHANNEL) (p : PWM) (t : TIMER) : TIMER :=
  match c with
  | Ch_a => mkTimer p (tm_b t) (tm_counting t) (tm_past t)
  | Ch_b => mkTimer (tm_a t) p (tm_counting t) (tm_past t)
  end.

Definition TIM_CCxCmd (c : CHANNEL) (on : bool) (t : TIMER) : TIMER :=
  let p := channel c t in set_channel c (mkPwm (tim_pulse_counts p) (tim_oc_pulse_value p) on) t.

Definition TIM_Cmd (on : bool) (t : TIMER) : TIMER := mkTimer (tm_a t) (tm_b t) on (tm_past t).

Inductive PWM_CMD :=
| SEND_PULSE
| SET_PULSE_VALUE (arg : Z)
| SET_PULSE_COUNTS (arg : Z).

Definition gpio_pwm_control (c : CHANNEL) (cmd : PWM_CMD) (t : TIMER) : TIMER :=
  let user := channel c t in
  match cmd with
  | SEND_PULSE =>
      if 0 <? tim_pulse_counts user then TIM_Cmd true (TIM_CCxCmd c true t) else t
  | SET_PULSE_VALUE arg =>
      set_channel c (mkPwm (tim_pulse_counts user) (u16 arg) (channel_on user)) t
  | SET_PULSE_COUNTS arg =>
      set_channel c (mkPwm (u16 arg) (tim_oc_pulse_value user) (channel_on user)) t
  end.

(** ** The interrupts *)

(** One pulse less *)
Definition count_pulse (c : CHANNEL) (t : TIMER) : TIMER :=
  let p := channel c t in
  if 0 <? tim_pulse_counts p
  then set_channel c (mkPwm (tim_pulse_counts p - 1) (tim_oc_pulse_value p) (channel_on p)) t
  else t.

(** [cc3], [cc4] and [up] are the flags of the timer. *)
Definition TIM8_CC_IRQHandler (cc3 cc4 : bool) (t : TIMER) : TIMER :=
  let t := if cc3 then count_pulse Ch_a t else t in
  if cc4 then count_pulse Ch_b t else t.

Definition TIM8_UP_IRQHandler (up : bool) (t : TIMER) : TIMER :=
  if up then
    let t :=
      if tim_pulse_counts (tm_a t) =? 0 then
        let t := TIM_CCxCmd Ch_a false t in
        if tim_pulse_counts (tm_b t) =? 0 then TIM_Cmd false t else t
      else t in
    if tim_pulse_counts (tm_b t) =? 0 then
      let t := TIM_CCxCmd Ch_b false t in
      if tim_pulse_counts (tm_a t) =? 0 then TIM_Cmd false t else t
    else t
  else t.

(** Channel a is the data line, channel b the reset line. *)
Definition TIM5_IRQHandler (cc3 cc4 up : bool) (t : TIMER) : TIMER :=
  let t := if cc3 then count_pulse Ch_a t else t in
  let t := if cc4 then count_pulse Ch_b t else t in
  if up then
    let t :=
      if tim_pulse_counts (tm_a t) =? 0 then
        let t := TIM_CCxCmd Ch_a false t in
        if tim_pulse_counts (tm_b t) =? 0 then TIM_Cmd false t else t
      else t in
    if tim_pulse_counts (tm_b t) =? 0 then
      let t := TIM_CCxCmd Ch_b false t in
      let t := gpio_pwm_control Ch_a SEND_PULSE t in
      if tim_pulse_counts (tm_a t) =? 0 then TIM_Cmd false t else t
    else t
  else t.

(** ** The timer *)

(** A pulse on channel a, on channel b *)
Abbreviation OUTPUT := (bool * bool)%type.

(** Half a period: the match or the update, with its interrupt *)
Definition tick (at_match at_update : TIMER → TIMER) (t : TIMER) : OUTPUT * TIMER :=
  if tm_counting t then
    if tm_past t then
      ((false, false), at_update (mkTimer (tm_a t) (tm_b t) true false))
    else
      ((channel_on (tm_a t), channel_on (tm_b t)), at_match (mkTimer (tm_a t) (tm_b t) true true))
  else ((false, false), t).

(** What comes first: a thread's request for [n] pulses, or half a period *)
Inductive PULSE_ACTION := Request (c : CHANNEL) (n : Z) | Tick.

Definition request (c : CHANNEL) (n : Z) (t : TIMER) : TIMER :=
  gpio_pwm_control c SEND_PULSE (gpio_pwm_control c (SET_PULSE_COUNTS n) t).

Fixpoint pulses (at_match at_update : TIMER → TIMER) (l : list PULSE_ACTION) (t : TIMER)
  : list OUTPUT * TIMER :=
  match l with
  | [] => ([], t)
  | Request c n :: l => pulses at_match at_update l (request c n t)
  | Tick :: l =>
      let '(o, t) := tick at_match at_update t in
      let '(os, t) := pulses at_match at_update l t in (o :: os, t)
  end.

Abbreviation motor_pulses := (pulses (TIM8_CC_IRQHandler true true) (TIM8_UP_IRQHandler true)).
Abbreviation voice_pulses := (pulses (TIM5_IRQHandler true true false) (TIM5_IRQHandler false false true)).

(** Stopped, with nothing left to send *)
Definition idle_timer (va vb : Z) : TIMER := mkTimer (mkPwm 0 va false) (mkPwm 0 vb false) false false.

(** ** The motors as two counters *)

(** The pulses left on each channel, and whether a match was the last event *)
Record LEFT := mkLeft { left_a : Z; left_b : Z; left_past : bool }.

Definition left_request (c : CHANNEL) (n : Z) (s : LEFT) : LEFT :=
  match c with
  | Ch_a => mkLeft n (left_b s) (left_past s)
  | Ch_b => mkLeft (left_a s) n (left_past s)
  end.

Definition left_tick (s : LEFT) : OUTPUT * LEFT :=
  if left_past s then ((false, false), mkLeft (left_a s) (left_b s) false)
  else ((0 <? left_a s, 0 <? left_b s),
        mkLeft (Z.max 0 (left_a s - 1)) (Z.max 0 (left_b s - 1)) ((0 <? left_a s) || (0 <? left_b s))).

Fixpoint left_pulses (l : list PULSE_ACTION) (s : LEFT) : list OUTPUT * LEFT :=
  match l with
  | [] => ([], s)
  | Request c n :: l => left_pulses l (left_request c n s)
  | Tick :: l =>
      let '(o, s) := left_tick s in
      let '(os, s) := left_pulses l s in (o :: os, s)
  end.

(** The counts agree; a channel is on as long as it has pulses left (behind a
    match it may still be on without any), the timer runs as long as a channel
    has some. *)
Definition counted (t : TIMER) (s : LEFT) : Prop :=
  tim_pulse_counts (tm_a t) = left_a s ∧ tim_pulse_counts (tm_b t) = left_b s ∧
  0 <= left_a s ∧ 0 <= left_b s ∧ tm_past t = left_past s ∧
  if left_past s
  then tm_counting t = true ∧ (0 < left_a s → channel_on (tm_a t) = true) ∧
    (0 < left_b s → channel_on (tm_b t) = true)
  else tm_counting t = (0 <? left_a s) || (0 <? left_b s) ∧
    channel_on (tm_a t) = (0 <? left_a s) ∧ channel_on (tm_b t) = (0 <? left_b s).

Definition request_fits (a : PULSE_ACTION) : Prop :=
  match a with Request _ n => 1 <= n < 65536 | Tick => True end.

(** All comparisons with zero that are left in the goal *)
Ltac compare_zero :=
  repeat (cbn in *; match goal with
  | |- context [0 <? ?x] => destruct (Z.ltb_spec 0 x); try lia
  | |- context [?x =? 0] => destruct (Z.eqb_spec x 0); try lia
  end); cbn in *.

Lemma request_counted c n t s : 1 <= n < 65536 → counted t s → counted (request c n t) (left_request c n s).
Proof.
  intros Hn. destruct t as [[a va oa] [b vb ob] k p], s as [a' b' p'].
  unfold counted, request. cbn. intros (-> & -> & Ha & Hb & -> & H).
  assert (u16 n = n) as Hu by (apply wrap_small; unfold fits; lia).
  destruct c; cbn; rewrite Hu, (proj2 (Z.ltb_lt 0 n)) by lia; cbn;
    (destruct p'; destruct H as (-> & Hoa & Hob); cbn; rewrite ?orb_true_r; split_and!; auto; lia).
Qed.

Lemma tick_counted t s : counted t s →
  fst (tick (TIM8_CC_IRQHandler true true) (TIM8_UP_IRQHandler true) t) = fst (left_tick s) ∧
  counted (snd (tick (TIM8_CC_IRQHandler true true) (TIM8_UP_IRQHandler true) t)) (snd (left_tick s)).
Proof.
  destruct t as [[a va oa] [b vb ob] k p], s as [a' b' p'].
  unfold counted. cbn. intros (-> & -> & Ha & Hb & -> & H).
  unfold tick, left_tick. cbn. destruct p'.
  - destruct H as (-> & Hoa & Hob). cbn. split; [done|].
    unfold TIM8_UP_IRQHandler, TIM_CCxCmd, TIM_Cmd, set_channel, channel. cbn.
    compare_zero; cbn; rewrite ?Hoa, ?Hob by lia; split_and!; compare_zero; auto; lia.
  - destruct H as (-> & -> & ->). unfold TIM8_CC_IRQHandler, count_pulse, set_channel, channel. cbn.
    compare_zero; cbn; compare_zero; cbn; (split; [done|]); split_and!; compare_zero; auto; lia.
Qed.

Lemma pulses_counted l : ∀ t s, Forall request_fits l → counted t s →
  fst (motor_pulses l t) = fst (left_pulses l s) ∧ counted (snd (motor_pulses l t)) (snd (left_pulses l s)).
Proof.
  induction l as [|[c n|] l IH]; intros t s Hl Hc; cbn [pulses left_pulses]; [done| |].
  - apply Forall_cons in Hl as [Hn Hl]. apply IH; [done|]. by apply request_counted.
  - apply Forall_cons in Hl as [_ Hl]. destruct (tick_counted t s Hc) as [Ho Hc'].
    destruct (tick _ _ t) as [o1 t1], (left_tick s) as [o2 s1]. cbn [fst snd] in *. subst o2.
    destruct (IH t1 s1 Hl Hc') as [Hos Hc2].
    destruct (pulses _ _ l t1) as [os1 t2], (left_pulses l s1) as [os2 s2]. cbn [fst snd] in *.
    by rewrite Hos.
Qed.

Lemma idle_counted va vb : counted (idle_timer va vb) (mkLeft 0 0 false).
Proof. by split_and!. Qed.

(** C24 (refinement). Whatever requests of one to 65535 pulses come between
    which halves of the timer's periods, the driver and its two interrupts
    are two counters: a request sets the counter of its motor to its number,
    replacing what was left, and every compare match gives one pulse to each
    motor whose counter is not zero. *)
Theorem pulses_refine_counters va vb l : Forall request_fits l →
  fst (motor_pulses l (idle_timer va vb)) = fst (left_pulses l (mkLeft 0 0 false)) ∧
  counted (snd (motor_pulses l (idle_timer va vb))) (snd (left_pulses l (mkLeft 0 0 false))).
Proof. intros H. apply pulses_counted; [done|apply idle_counted]. Qed.

Lemma pulses_refine_counters_witness :
  fst (motor_pulses [Request Ch_a 2; Tick; Tick; Request Ch_b 1; Tick; Tick; Tick] (idle_timer 30000 30000)) =
    [(true, false); (false, false); (true, true); (false, false); (false, false)] ∧
  counted (snd (motor_pulses [Request Ch_a 2; Tick; Tick; Request Ch_b 1; Tick; Tick; Tick] (idle_timer 30000 30000)))
    (mkLeft 0 0 false).
Proof.
  apply (pulses_refine_counters 30000 30000 [Request Ch_a 2; Tick; Tick; Request Ch_b 1; Tick; Tick; Tick]).
  repeat constructor; cbn; lia.
Defined.

(** ** The requests of lock_output *)

Definition motor_channel (d : DEVICE) : option CHANNEL :=
  match d with
  | DEV_MOTOR_A_PULSE => Some Ch_a
  | DEV_MOTOR_B_PULSE => Some Ch_b
  | _ => None
  end.

Definition requests_of (l : list Event) : list PULSE_ACTION :=
  omap (λ e, match e with
             | Ev_pulse d n => (λ c, Request c n) <$> motor_channel d
             | _ => None
             end) l.

Definition pulse_on (c : CHANNEL) : OUTPUT := match c with Ch_a => (true, false) | Ch_b => (false, true) end.

Lemma left_pulses_app l1 : ∀ l2 s, fst (left_pulses (l1 ++ l2) s) =
  fst (left_pulses l1 s) ++ fst (left_pulses l2 (snd (left_pulses l1 s))).
Proof.
  induction l1 as [|[c n|] l1 IH]; intros l2 s; cbn [app left_pulses]; [done|apply IH|].
  destruct (left_tick s) as [o s1]. specialize (IH l2 s1).
  destruct (left_pulses (l1 ++ l2) s1), (left_pulses l1 s1). cbn [fst snd] in *. by rewrite IH.
Qed.

(** Only the last of a series of requests counts. *)
Lemma requests_overwrite c ns n s : left_pulses (map (Request c) (ns ++ [n])) s = ([], left_request c n s).
Proof.
  revert s. induction ns as [|m ns IH]; intros s; [done|]. cbn [app map left_pulses]. rewrite IH.
  by destruct c.
Qed.

Lemma left_ticks_none k : left_pulses (repeat Tick k) (mkLeft 0 0 false) =
  (repeat (false, false) k, mkLeft 0 0 false).
Proof.
  induction k as [|k IH]; [done|]. cbn [repeat left_pulses].
  change (left_tick (mkLeft 0 0 false)) with ((false, false), mkLeft 0 0 false). cbn iota beta.
  by rewrite IH.
Qed.

(** A counter runs down: one pulse a period. *)
Lemma left_ticks c n : ∀ k, left_pulses (repeat Tick (2 * n + k)) (left_request c (Z.of_nat n) (mkLeft 0 0 false)) =
  (concat (repeat [pulse_on c; (false, false)] n) ++ repeat (false, false) k, mkLeft 0 0 false).
Proof.
  induction n as [|n IH]; intros k.
  - cbn [Nat.mul Nat.add concat repeat app]. rewrite <- left_ticks_none. by destruct c.
  - replace (2 * S n + k)%nat with (S (S (2 * n + k))) by lia. cbn [repeat left_pulses concat app].
    assert (left_tick (left_request c (Z.of_nat (S n)) (mkLeft 0 0 false)) =
      (pulse_on c, mkLeft (left_a (left_request c (Z.of_nat n) (mkLeft 0 0 false)))
        (left_b (left_request c (Z.of_nat n) (mkLeft 0 0 false))) true)) as ->.
    { unfold left_tick, pulse_on. destruct c; cbn [left_request left_a left_b left_past];
        rewrite (proj2 (Z.ltb_lt 0 (Z.of_nat (S n)))) by lia; cbn [Z.ltb Z.compare orb];
        do 2 f_equal; lia. }
    cbn [left_tick left_past left_a left_b].
    replace (mkLeft _ _ false) with (left_request c (Z.of_nat n) (mkLeft 0 0 false)) by (by destruct c).
    by rewrite IH.
Qed.

Section lock_pulses.
Context {HB : Board}.

Lemma requests_of_motor d n k : valid_direction d →
  requests_of (repeat (Ev_pulse (motor_of d) n) k) =
    map (Request (if d =? 0 then Ch_b else Ch_a)) (repeat n k).
Proof.
  intros Hd. unfold motor_of. induction k as [|k IH]; [done|]. cbn [repeat map requests_of].
  unfold requests_of in *. cbn. destruct Hd as [-> | ->]; cbn in *; by rewrite IH.
Qed.

(** The loop of [lock_output] does not wait for the pulses it asks
    for.  When the timer is slower than the loop, a bolt that has to move has no
    chance: of the 200 requests for ten pulses only the last is carried out,
    after the fault has been reported to the SMS and the GPRS thread and -1
    returned - ten pulses in all, then the timer is idle. *)
Lemma lock_requests_one_burst d w qs qg va vb k :
  motors_present → valid_direction d →
  sms_mq w = Some qs → gprs_mq w = Some qg → q_room qs 1 → q_room qg 1 →
  (∀ i, (i <= 201)%nat → status_at (i + now w) = 1 - d) →
  ∃ w' l, lock_output d w = Done (-1) w' ∧ trace w' = trace w ++ l ∧
    fst (motor_pulses (requests_of l ++ repeat Tick (20 + k)) (idle_timer va vb)) =
      concat (repeat [pulse_on (if d =? 0 then Ch_b else Ch_a); (false, false)] 10) ++
      repeat (false, false) k.
Proof.
  intros Hm Hd Hqs Hqg Rs Rg Hs.
  destruct (lock_output_fails d w qs qg) as (t1 & t2 & w' & E & T & _); [done..|].
  exists w', (repeat (Ev_pulse (motor_of d) period) 200). split; [done|]. split; [done|].
  rewrite requests_of_motor by done. set (c := if d =? 0 then Ch_b else Ch_a).
  destruct (pulses_counted (map (Request c) (repeat period 200) ++ repeat Tick (20 + k))
    (idle_timer va vb) (mkLeft 0 0 false)) as [-> _]; [|apply idle_counted|].
  { apply Forall_app. split; [by apply Forall_map, forall_repeat|by apply forall_repeat]. }
  rewrite left_pulses_app. change (repeat period 200) with (repeat period 199 ++ [period]).
  rewrite requests_overwrite. cbn [fst snd app]. exact (f_equal fst (left_ticks c 10 k)).
Qed.
End lock_pulses.

Lemma lock_requests_one_burst_witness :
  ∃ w' l, lock_output (HB:=quiet_board) GATE_UNLOCK start_world = Done (-1) w' ∧
    trace w' = trace start_world ++ l ∧
    fst (motor_pulses (requests_of l ++ repeat Tick (20 + 3)) (idle_timer 30000 30000)) =
      concat (repeat [(false, true); (false, false)] 10) ++ [(false, false); (false, false); (false, false)].
Proof.
  apply (lock_requests_one_burst (HB:=quiet_board) GATE_UNLOCK start_world
    (mkQueue [] 20) (mkQueue [] 20) 30000 30000 3).
  - by_computation.
  - by right.
  - reflexivity.
  - reflexivity.
  - by_computation.
  - by_computation.
  - reflexivity.
Defined.

(** A bolt that is turned back before the twenty pulses of the adjustment are
    over is driven in both directions at once. *)
Lemma motors_overlap va vb n m : 1 <= n < 65536 → 1 <= m < 65536 →
  fst (motor_pulses [Request Ch_a n; Request Ch_b m; Tick] (idle_timer va vb)) = [(true, true)].
Proof.
  intros Hn Hm. destruct (pulses_counted [Request Ch_a n; Request Ch_b m; Tick] (idle_timer va vb)
    (mkLeft 0 0 false)) as [-> _];
    [by repeat (apply Forall_cons_2; [done|])|apply idle_counted|].
  cbn. rewrite !(proj2 (Z.ltb_lt 0 _)) by lia. done.
Qed.

(** ** The voice chip *)

(** The threads' side: the semaphore and the event of voiceapp.c, and what was
    last written to the pins; the devices exist. *)
Record VOICE := mkVoice {
  voice_start_sem : Z;
  call_event : Z;
  voice_switch : Z;
  voice_amp : Z;
  voice_timer : TIMER
}.

(** voice_play: one pulse on the reset line, [counts] on the data line *)
Definition voice_play (counts : Z) (v : VOICE) : VOICE :=
  let t := gpio_pwm_control Ch_b (SET_PULSE_COUNTS 1) (voice_timer v) in
  let t := gpio_pwm_control Ch_a (SET_PULSE_COUNTS counts) t in
  mkVoice (voice_start_sem v) (call_event v) 1 1 (gpio_pwm_control Ch_b SEND_PULSE t).

Definition Amplifier_switch (status : Z) (v : VOICE) : VOICE :=
  mkVoice (voice_start_sem v) (call_event v) (voice_switch v) status (voice_timer v).

Definition sound_channel_switch (status : Z) (v : VOICE) : VOICE :=
  mkVoice (voice_start_sem v) (call_event v) status (voice_amp v) (voice_timer v).

(** What the other threads do: [voice_output] and rt_event_send *)
Definition release_voice (v : VOICE) : VOICE :=
  mkVoice (u16 (voice_start_sem v + 1)) (call_event v) (voice_switch v) (voice_amp v) (voice_timer v).
Definition send_call (bits : Z) (v : VOICE) : VOICE :=
  mkVoice (voice_start_sem v) (Z.lor (call_event v) bits) (voice_switch v) (voice_amp v) (voice_timer v).

(** One round; without a unit in the semaphore the wait of 500 ticks ends with
    -RT_ETIMEOUT.  The reading of the ring pin at the end has no effect. *)
Definition voice_thread_step (v : VOICE) : VOICE :=
  if 0 <? voice_start_sem v then
    let v := mkVoice (voice_start_sem v - 1) (call_event v) (voice_switch v) (voice_amp v) (voice_timer v) in
    if negb (Z.land (call_event v) CALL_EVENT_START =? 0) then
      let v := mkVoice (voice_start_sem v) (Z.ldiff (call_event v) CALL_EVENT_START)
        (voice_switch v) (voice_amp v) (voice_timer v) in
      Amplifier_switch 1 (sound_channel_switch 0 v)
    else voice_play 3 (Amplifier_switch 1 (sound_channel_switch 1 v))
  else Amplifier_switch 1 (sound_channel_switch 0 (sound_channel_switch 0 v)).

(** What the event of an alarm or a call means for the voice thread *)
Definition voice_event (e : Event) : VOICE → VOICE :=
  match e with
  | Ev_voice => release_voice
  | Ev_call bits => send_call bits
  | _ => λ v, v
  end.

(** The data line runs alone with [n] pulses left, before a match. *)
Definition data_timer (n va vb : Z) : TIMER :=
  mkTimer (mkPwm n va (0 <? n)) (mkPwm 0 vb false) (0 <? n) false.

Lemma data_ticks_none va vb k : voice_pulses (repeat Tick k) (data_timer 0 va vb) =
  (repeat (false, false) k, idle_timer va vb).
Proof.
  induction k as [|k IH]; [done|]. cbn [repeat pulses].
  change (tick _ _ (data_timer 0 va vb)) with ((false, false), data_timer 0 va vb). cbn iota beta.
  by rewrite IH.
Qed.

Lemma data_ticks va vb n : ∀ k, voice_pulses (repeat Tick (2 * n + k)) (data_timer (Z.of_nat n) va vb) =
  (concat (repeat [(true, false); (false, false)] n) ++ repeat (false, false) k, idle_timer va vb).
Proof.
  induction n as [|n IH]; intros k; [apply data_ticks_none|].
  replace (2 * S n + k)%nat with (S (S (2 * n + k))) by lia. cbn [repeat pulses concat app].
  assert (∀ m, 0 < m →
    tick (TIM5_IRQHandler true true false) (TIM5_IRQHandler false false true) (data_timer m va vb) =
      ((true, false), mkTimer (mkPwm (m - 1) va true) (mkPwm 0 vb false) true true)) as E1.
  { intros m Hm. unfold tick, data_timer, TIM5_IRQHandler, count_pulse. cbn. by compare_zero. }
  rewrite E1 by lia.
  assert (∀ m, 0 <= m →
    tick (TIM5_IRQHandler true true false) (TIM5_IRQHandler false false true)
      (mkTimer (mkPwm m va true) (mkPwm 0 vb false) true true) = ((false, false), data_timer m va vb)) as E2.
  { intros m Hm. unfold tick, data_timer, TIM5_IRQHandler. destruct (decide (m = 0)) as [->|]; [done|].
    assert (0 < m) as Hp by lia. assert ((m =? 0) = false) as Hz by (by apply Z.eqb_neq).
    apply Z.ltb_lt in Hp. by do 3 (cbn; rewrite ?Hz, ?Hp). }
  rewrite E2 by lia. replace (Z.of_nat (S n) - 1) with (Z.of_nat n) by lia. by rewrite IH.
Qed.

Lemma voice_started va vb m : 0 <= m < 65535 →
  gpio_pwm_control Ch_b SEND_PULSE (gpio_pwm_control Ch_a (SET_PULSE_COUNTS (Z.succ m))
    (gpio_pwm_control Ch_b (SET_PULSE_COUNTS 1) (idle_timer va vb))) =
  mkTimer (mkPwm (m + 1) va false) (mkPwm 1 vb true) true false.
Proof.
  intros Hm. unfold gpio_pwm_control. cbn [channel tm_a tm_b set_channel tim_pulse_counts idle_timer].
  rewrite (wrap_small 16 (Z.succ m)) by (unfold fits; lia). by change (u16 1) with 1.
Qed.

(** The period of the reset pulse *)
Lemma voice_reset va vb m l : 0 <= m →
  voice_pulses (Tick :: Tick :: l) (mkTimer (mkPwm (m + 1) va false) (mkPwm 1 vb true) true false) =
  let '(os, t) := voice_pulses l (data_timer m va vb) in ((false, true) :: (false, false) :: os, t).
Proof.
  intros Hm. cbn [pulses].
  assert (tick (TIM5_IRQHandler true true false) (TIM5_IRQHandler false false true)
    (mkTimer (mkPwm (m + 1) va false) (mkPwm 1 vb true) true false) =
    ((false, true), mkTimer (mkPwm m va false) (mkPwm 0 vb true) true true)) as ->.
  { unfold tick, TIM5_IRQHandler, count_pulse. cbn. rewrite (proj2 (Z.ltb_lt 0 (m + 1))) by lia.
    cbn. repeat f_equal. lia. }
  assert (tick (TIM5_IRQHandler true true false) (TIM5_IRQHandler false false true)
    (mkTimer (mkPwm m va false) (mkPwm 0 vb true) true true) = ((false, false), data_timer m va vb)) as ->.
  { unfold tick, data_timer, TIM5_IRQHandler. destruct (decide (m = 0)) as [->|]; [done|].
    assert (0 < m) as Hp by lia. assert ((m =? 0) = false) as Hz by (by apply Z.eqb_neq).
    apply Z.ltb_lt in Hp. by do 3 (cbn; rewrite ?Hz, ?Hp). }
  by destruct (pulses _ _ l _).
Qed.

(** Asked for [n] + 1 pulses, the voice chip gets its reset pulse and
    then [n] pulses on its data line, and the timer is idle: the compare
    match of the reset pulse sets the flag of the data line too, and the
    interrupt counts a pulse that was not sent. *)
Lemma voice_play_one_short v n va vb k :
  Z.of_nat n < 65535 → voice_timer v = idle_timer va vb →
  voice_pulses (repeat Tick (2 + (2 * n + k))) (voice_timer (voice_play (Z.of_nat (S n)) v)) =
    ([(false, true); (false, false)] ++ concat (repeat [(true, false); (false, false)] n) ++
     repeat (false, false) k, idle_timer va vb).
Proof.
  intros Hn Ht. unfold voice_play. cbn [voice_timer]. rewrite Ht, Nat2Z.inj_succ.
  assert (0 <= Z.of_nat n < 65535) as Hm by lia. rewrite voice_started by done.
  change (repeat Tick (2 + (2 * n + k))) with (Tick :: Tick :: repeat Tick (2 * n + k)).
  by rewrite voice_reset, data_ticks by lia.
Qed.

Abbreviation bench_voice := (mkVoice 1 0 0 0 (idle_timer 2400 2400)).

Lemma voice_play_one_short_witness :
  voice_pulses (repeat Tick (2 + (2 * 2 + 1))) (voice_timer (voice_play 3 bench_voice)) =
    ([(false, true); (false, false); (true, false); (false, false); (true, false); (false, false);
      (false, false)], idle_timer 2400 2400).
Proof. apply (voice_play_one_short bench_voice 2 2400 2400 1); [lia|reflexivity]. Defined.

(** *** Calls and alarms *)

(** An answered call, when nothing is pending: the telephone is connected and
    stays so, and nothing is played. *)
Lemma call_connected v k : voice_start_sem v = 0 → call_event v = 0 →
  Nat.iter (S k) voice_thread_step (voice_event Ev_voice (voice_event (Ev_call CALL_EVENT_START) v)) =
    mkVoice 0 0 0 1 (voice_timer v).
Proof.
  intros Hs Hc. destruct v as [sem ev sw amp t]. cbn in Hs, Hc. subst.
  induction k as [|k IH]; [done|]. by rewrite Nat.iter_succ, IH.
Qed.

(** With an alarm pending, its round takes the event of the call, and the round
    of the call plays the alarm and cuts the telephone off. *)
Lemma pending_alarm_cuts_call v : voice_start_sem v = 1 → call_event v = 0 →
  let v1 := voice_thread_step (voice_event Ev_voice (voice_event (Ev_call CALL_EVENT_START) v)) in
  voice_switch v1 = 0 ∧ voice_switch (voice_thread_step v1) = 1 ∧
  voice_timer (voice_thread_step v1) = voice_timer (voice_play 3 v).
Proof. intros Hs Hc. destruct v as [sem ev sw amp t]. cbn in Hs, Hc. by subst. Qed.
