(* ===== verification/Sensors.v ===== *)
(** * Sensor interrupts (src/gpio.c, src/gpio_exti.c, the EXTI handlers of src/stm32f10x_it.c)

    An edge on an input pin raises an interrupt; its handler reads the pin and
    calls the device's indication function, which posts an alarm mail.  The
    sensors of the door are rate limited by the time of their last edge, a
    static variable of each function ([exti_time_old] of World.v). *)
From stdpp Require Import base functions strings list.
From Stdlib Require Import ZArith Lia.
From S2P Require Import Prelude World Monad Untils Alarm Lock GsmService Local.

Section sensors.
Context {HB : Board}.

Definition ALARM_INTERVAL : Z := 10.
Definition CM_IR_SAMPLE_TIME : Z := 0.

Definition get_time_old (d : DEVICE) : M Z := get (λ w, exti_time_old w d).
Definition set_time_old (d : DEVICE) (time : Z) : M () :=
  upd (λ w, set_exti_time_old (<[d := time]> (exti_time_old w)) w).

(** ** The indication functions; [pin_value] is [gpio->pin_value] *)

Definition rfid_key_detect_rx_ind (pin_value : Z) : M () :=
  time <- rtc_get_time ;;
  send_alarm_mail ALARM_TYPE_RFID_KEY_DETECT ALARM_PROCESS_FLAG_LOCAL pin_value time.

Definition camera_irdasensor_rx_ind : M () :=
  time <- rtc_get_time ;;
  time_old <- get_time_old DEV_CAMERA_IRDASENSOR ;;
  if (CM_IR_SAMPLE_TIME <? time - time_old) || (0 =? time_old)
  then
    set_time_old DEV_CAMERA_IRDASENSOR time ;;;
    upd (λ w, set_cm_ir_sem (S (cm_ir_sem w)) w)
  else mreturn ().

Definition gsm_ring_rx_ind (pin_value : Z) : M () :=
  time <- rtc_get_time ;;
  let send := send_alarm_mail ALARM_TYPE_GSM_RING ALARM_PROCESS_FLAG_LOCAL pin_value time in
  if dev_present DEV_GSM_STATUS then
    dat <- pin_read DEV_GSM_STATUS ;;
    if dat =? 0 then mreturn () else send
  else send.

(** The five functions that have the rate limit in common *)
Definition interval_rx_ind (d : DEVICE) (alarm_type : ALARM_TYPEDEF) (flags pin_value : Z)
  : M () :=
  time <- rtc_get_time ;;
  time_old <- get_time_old d ;;
  if ALARM_INTERVAL <? time - time_old then
    set_time_old d time ;;;
    send_alarm_mail alarm_type flags pin_value time
  else
    set_time_old d time ;;;
    mreturn ().

Definition ALARM_PROCESS_FLAG_ALL : Z :=
  Z.lor (Z.lor ALARM_PROCESS_FLAG_SMS ALARM_PROCESS_FLAG_GPRS) ALARM_PROCESS_FLAG_LOCAL.

Definition lock_gate_rx_ind : Z → M () :=
  interval_rx_ind DEV_LOCK_GATE ALARM_TYPE_LOCK_GATE ALARM_PROCESS_FLAG_LOCAL.
Definition lock_shell_rx_ind : Z → M () :=
  interval_rx_ind DEV_LOCK_SHELL ALARM_TYPE_LOCK_SHELL ALARM_PROCESS_FLAG_ALL.
Definition gate_temperature_rx_ind : Z → M () :=
  interval_rx_ind DEV_GATE_TEMPERATURE ALARM_TYPE_GATE_TEMPERATURE ALARM_PROCESS_FLAG_ALL.
Definition lock_temperature_rx_ind : Z → M () :=
  interval_rx_ind DEV_LOCK_TEMPERATURE ALARM_TYPE_LOCK_TEMPERATURE ALARM_PROCESS_FLAG_ALL.
Definition battery_switch_rx_ind : Z → M () :=
  interval_rx_ind DEV_BATTERY_SWITCH ALARM_TYPE_BATTERY_SWITCH ALARM_PROCESS_FLAG_LOCAL.

(** ** Interrupt handlers *)

(** The indication function the device is registered with; that of key2 only
    prints. *)
Definition rx_indicate (d : DEVICE) (pin_value : Z) : M () :=
  match d with
  | DEV_RFID_KEY_DETECT => rfid_key_detect_rx_ind pin_value
  | DEV_CAMERA_IRDASENSOR => camera_irdasensor_rx_ind
  | DEV_GSM_RING => gsm_ring_rx_ind pin_value
  | DEV_LOCK_GATE => lock_gate_rx_ind pin_value
  | DEV_LOCK_SHELL => lock_shell_rx_ind pin_value
  | DEV_GATE_TEMPERATURE => gate_temperature_rx_ind pin_value
  | DEV_LOCK_TEMPERATURE => lock_temperature_rx_ind pin_value
  | DEV_BATTERY_SWITCH => battery_switch_rx_ind pin_value
  | _ => mreturn ()
  end.

(** The devices registered with RT_DEVICE_FLAG_INT_RX; the motor status and the
    photo sensor are plain pins. *)
Definition interrupt_input (d : DEVICE) : bool :=
  match d with
  | DEV_RFID_KEY_DETECT | DEV_CAMERA_IRDASENSOR | DEV_GSM_RING | DEV_LOCK_GATE | DEV_LOCK_SHELL
  | DEV_GATE_TEMPERATURE | DEV_LOCK_TEMPERATURE | DEV_BATTERY_SWITCH | DEV_KEY2 => true
  | _ => false
  end.

Definition rt_hw_gpio_isr (d : DEVICE) : M () :=
  if negb (interrupt_input d) then fault
  else
    pin_value <- pin_read d ;;
    rx_indicate d pin_value.

(** [pending] tells the lines whose bit is set in the pending register. *)
Fixpoint exti_lines (lines : list (nat * DEVICE)) (pending : nat → bool) : M () :=
  match lines with
  | [] => mreturn ()
  | (line, d) :: lines => when (pending line) (rt_hw_gpio_isr d) ;;; exti_lines lines pending
  end.

Definition EXTI0_IRQHandler : (nat → bool) → M () :=
  exti_lines [(0, DEV_CAMERA_PHOTOSENSOR)]%nat.

Definition EXTI1_IRQHandler : (nat → bool) → M () :=
  exti_lines [(1, DEV_CAMERA_IRDASENSOR)]%nat.

Definition EXTI9_5_IRQHandler : (nat → bool) → M () :=
  exti_lines [(5, DEV_LOCK_SHELL); (8, DEV_MOTOR_STATUS); (9, DEV_BATTERY_SWITCH);
              (6, DEV_KEY2)]%nat.

Definition EXTI15_10_IRQHandler : (nat → bool) → M () :=
  exti_lines [(10, DEV_RFID_KEY_DETECT); (11, DEV_LOCK_SHELL); (12, DEV_LOCK_GATE);
              (13, DEV_GSM_RING); (14, DEV_LOCK_TEMPERATURE); (15, DEV_GATE_TEMPERATURE)]%nat.

(** ** The rate limit *)

(** A rate-limited sensor with its alarm and the threads it goes to *)
Definition limited (d : DEVICE) : option (ALARM_TYPEDEF * Z) :=
  match d with
  | DEV_LOCK_GATE => Some (ALARM_TYPE_LOCK_GATE, ALARM_PROCESS_FLAG_LOCAL)
  | DEV_LOCK_SHELL => Some (ALARM_TYPE_LOCK_SHELL, ALARM_PROCESS_FLAG_ALL)
  | DEV_GATE_TEMPERATURE => Some (ALARM_TYPE_GATE_TEMPERATURE, ALARM_PROCESS_FLAG_ALL)
  | DEV_LOCK_TEMPERATURE => Some (ALARM_TYPE_LOCK_TEMPERATURE, ALARM_PROCESS_FLAG_ALL)
  | DEV_BATTERY_SWITCH => Some (ALARM_TYPE_BATTERY_SWITCH, ALARM_PROCESS_FLAG_LOCAL)
  | _ => None
  end.

(** The [i]-th of a series of edges that begins at observation [t]: its time
    and the level of the pin *)
Definition edge (d : DEVICE) (t i : nat) : Z * Z :=
  (rtc_time (S (t + 2 * i)), u8 (pin_level d (t + 2 * i))).
Definition edges (d : DEVICE) (t n : nat) : list (Z * Z) := map (edge d t) (seq 0 n).

Lemma edge_0 d t : edge d t 0 = (rtc_time (S t), u8 (pin_level d t)).
Proof. unfold edge. by rewrite Nat.mul_0_r, Nat.add_0_r. Qed.

Lemma edges_S d t n : edges d t (S n) = edge d t 0 :: edges d (2 + t) n.
Proof.
  unfold edges. cbn [seq map]. f_equal. rewrite <- seq_shift, map_map. apply map_ext. intros i.
  unfold edge. by replace (t + 2 * S i)%nat with (2 + t + 2 * i)%nat by lia.
Qed.

(** What is to be reported: the edges more than ten seconds after the one before *)
Fixpoint spaced (old : Z) (l : list (Z * Z)) : list (Z * Z) :=
  match l with
  | [] => []
  | e :: l => (if ALARM_INTERVAL <? fst e - old then [e] else []) ++ spaced (fst e) l
  end.

Definition alarm_of (a : ALARM_TYPEDEF) (flags : Z) (e : Z * Z) : ALARM_MAIL :=
  mkAlarmMail (fst e) a flags (snd e).

(** What the interrupts of [d] change: the queue of the alarm thread, the time
    of the last edge, the number of observations *)
Definition interrupted (d : DEVICE) (q : Queue ALARM_MAIL) (time : Z) (n : nat) (w : World) : World :=
  set_now (n + now w) (set_alarm_mq (Some q)
    (set_exti_time_old (<[d := time]> (exti_time_old w)) w)).

Lemma isr_limited d a flags w q :
  limited d = Some (a, flags) → alarm_mq w = Some q → q_room q 1 → rtc_time (S (now w)) ≠ 0 →
  rt_hw_gpio_isr d w =
    Done () (interrupted d
      (q_append q (alarm_of a flags <$> spaced (exti_time_old w d) [edge d (now w) 0]))
      (rtc_time (S (now w))) 2 w).
Proof.
  intros Hd Hq Hr Ht.
  assert (rt_hw_gpio_isr d = (pin_value <- pin_read d ;; interval_rx_ind d a flags pin_value)) as ->
    by (destruct d; simplify_eq/=; reflexivity).
  rewrite edge_0. unfold interval_rx_ind, rtc_get_time, pin_read, observe, get_time_old,
    set_time_old, mseq, get, upd, mreturn.
  cbn [now set_now exti_time_old spaced fst snd].
  destruct (_ <? _).
  - unfold send_alarm_mail, mail_time, mseq. rewrite (proj2 (Z.eqb_neq _ _) Ht). unfold mreturn.
    rewrite (post_mail_room _ _ _ _ q) by done. reflexivity.
  - cbn. rewrite q_append_nil. f_equal. by world_eq.
Qed.

Lemma interrupted_again d q time n w :
  exti_time_old (interrupted d q time n w) d = time.
Proof. apply fn_lookup_insert. Qed.

Lemma spaced_length old l : (length (spaced old l) <= length l)%nat.
Proof.
  revert old. induction l as [|e l IH]; intros old; [done|]. cbn [spaced length].
  rewrite length_app. specialize (IH (fst e)). case_match; simpl; lia.
Qed.

(** The state after a series of edges: only the queue, the clock and the time
    of the last edge changed. *)
Record edges_done (d : DEVICE) (q : Queue ALARM_MAIL) (n : nat) (w w' : World) : Prop := {
  ed_queue : alarm_mq w' = Some q;
  ed_now : now w' = (2 * n + now w)%nat;
  ed_rest : w' = set_now (now w') (set_alarm_mq (alarm_mq w')
    (set_exti_time_old (exti_time_old w') w));
  ed_others d' : d' ≠ d → exti_time_old w' d' = exti_time_old w d'
}.

Lemma isr_edges d a flags n : limited d = Some (a, flags) → ∀ w q,
  alarm_mq w = Some q → q_room q n →
  Forall (λ e, fst e ≠ 0) (edges d (now w) n) →
  ∃ w', mrepeat n (rt_hw_gpio_isr d) w = Done () w' ∧
    edges_done d (q_append q (alarm_of a flags <$> spaced (exti_time_old w d) (edges d (now w) n)))
      n w w'.
Proof.
  intros Hd. induction n as [|n IH]; intros w q Hq Hr Ht; cbn [mrepeat].
  { exists w. split; [done|]. cbn. rewrite q_append_nil. split; try done. by destruct w. }
  rewrite edges_S in Ht |- *. apply Forall_cons in Ht as [Ht Hts]. rewrite edge_0 in Ht.
  pose proof (isr_limited d a flags w q Hd Hq (q_room_le q 1 (S n) ltac:(lia) Hr) Ht) as E.
  set (q1 := q_append q _) in E. set (w1 := interrupted d q1 _ 2 w) in E.
  destruct (IH w1 q1) as (w' & E' & [H1 H2 H3 H4]).
  - done.
  - apply q_room_append. eapply q_room_le; [|exact Hr]. rewrite length_fmap.
    pose proof (spaced_length (exti_time_old w d) [edge d (now w) 0]). simpl in *. lia.
  - exact Hts.
  - exists w'. split; [unfold mseq; by rewrite E|]. subst w1 q1.
    rewrite interrupted_again in H1. split.
    + rewrite H1. f_equal. rewrite q_append_app, <- fmap_app. f_equal. f_equal.
      cbn [spaced]. rewrite edge_0. cbn [fst]. by rewrite app_nil_r.
    + rewrite H2. simpl. lia.
    + rewrite H3. reflexivity.
    + intros d' Hne. rewrite H4 by done. simpl. by rewrite fn_lookup_insert_ne.
Qed.
(** C31 (functional). A series of edges on a rate-limited sensor posts, in order,
    one alarm for each edge that comes more than ten seconds after the edge
    before it, with the time of the edge, the level of the pin and the flags of
    the sensor; the other sensors' limits and the rest of the state stay. *)
Theorem sensor_edges_reported d a flags n w q :
  limited d = Some (a, flags) → alarm_mq w = Some q → q_room q n →
  Forall (λ e, fst e ≠ 0) (edges d (now w) n) →
  ∃ w', mrepeat n (rt_hw_gpio_isr d) w = Done () w' ∧
    edges_done d (q_append q (alarm_of a flags <$> spaced (exti_time_old w d) (edges d (now w) n)))
      n w w'.
Proof. intros Hd Hq Hr Ht. by apply (isr_edges d a flags). Qed.

(** Each edge comes at most ten seconds after the one before. *)
Fixpoint dense (old : Z) (l : list (Z * Z)) : Prop :=
  match l with
  | [] => True
  | e :: l => fst e - old <= ALARM_INTERVAL ∧ dense (fst e) l
  end.

Lemma dense_spaced old l : dense old l → spaced old l = [].
Proof.
  revert old. induction l as [|e l IH]; intros old; [done|]. intros [H Hl]. cbn [spaced].
  rewrite (IH _ Hl). by destruct (Z.ltb_spec ALARM_INTERVAL (fst e - old)); [lia|].
Qed.

(** A sensor that is triggered again and again at intervals of at
    most ten seconds is reported once, however long it goes on: the time of the
    last edge counts, not that of the last alarm. *)
Lemma dense_edges_reported_once d a flags n w q :
  limited d = Some (a, flags) → alarm_mq w = Some q → q_room q (S n) →
  Forall (λ e, fst e ≠ 0) (edges d (now w) (S n)) →
  ALARM_INTERVAL < rtc_time (S (now w)) - exti_time_old w d →
  dense (rtc_time (S (now w))) (edges d (2 + now w) n) →
  ∃ w', mrepeat (S n) (rt_hw_gpio_isr d) w = Done () w' ∧
    alarm_mq w' = Some (q_append q [alarm_of a flags (edge d (now w) 0)]).
Proof.
  intros Hd Hq Hr Ht Hfirst Hdense.
  destruct (isr_edges d a flags (S n) Hd w q Hq Hr Ht) as (w' & E & [Q _ _ _]).
  exists w'. split; [done|]. rewrite Q, edges_S, edge_0. cbn [spaced fst].
  rewrite dense_spaced by done. by rewrite (proj2 (Z.ltb_lt _ _) Hfirst).
Qed.

(** ** From the sensor to the handlers *)

(** An alarm for all three threads is copied to their queues. *)
Lemma alarm_step_all w time a v n qs qg ql :
  alarm_mq w = Some (mkQueue [mkAlarmMail time a ALARM_PROCESS_FLAG_ALL v] n) → awake w →
  sms_mq w = Some qs → gprs_mq w = Some qg → local_mq w = Some ql →
  q_room qs 1 → q_room qg 1 → q_room ql 1 →
  alarm_mail_process_step w = Done () (set_now (S (now w))
    (set_alarm_mq (Some (mkQueue [] n))
    (set_sms_mq (Some (q_append qs [mkSmsMail time a]))
    (set_gprs_mq (Some (q_append qg [mkGprsMail time a (u8 (uninit (now w))) U_none]))
    (set_local_mq (Some (q_append ql [mkLocalMail time a])) w))))).
Proof.
  intros Ha Haw Hs Hg Hl Rs Rg Rl.
  unfold alarm_mail_process_step, machine_status_deal, rt_mq_recv, rt_mq_send, mseq, get, upd,
    mreturn. rewrite Ha. simpl. unfold awake in Haw. rewrite (proj2 (Z.eqb_neq _ _) Haw). simpl.
  unfold when, observe, mreturn.
  repeat match goal with |- context [has_flag ?x ?y] => change (has_flag x y) with true end.
  simpl. rewrite Hs. simpl. unfold mreturn. rewrite q_send_room by done.
  simpl. rewrite Hg. simpl. unfold mreturn. rewrite q_send_room by done.
  simpl. rewrite Hl. simpl. unfold mreturn. by rewrite q_send_room.
Qed.

(** C32 (functional). From the sensor to the bolt: an edge on the shell of the
    lock, more than ten seconds after the last, one round of the alarm thread
    and one of the local thread.  The bolt, found open, is driven until the
    status shows it locked, the voice is started, the SMS, the GPRS and the
    camera thread each have one mail with the time of the edge, and the
    alarm's own queues are empty again. *)
Theorem shell_edge_locks {HG : GsmService} j w na nl qs qg qp :
  motors_present → awake w → (j < 200)%nat → (0 < na)%nat → (0 < nl)%nat →
  alarm_mq w = Some (mkQueue [] na) → local_mq w = Some (mkQueue [] nl) →
  sms_mq w = Some qs → gprs_mq w = Some qg → photo_start_mq w = Some qp →
  q_room qs 1 → q_room qg 1 → q_room qp 1 →
  let time := rtc_time (S (now w)) in
  let t0 := (3 + now w)%nat in
  time ≠ 0 → ALARM_INTERVAL < time - exti_time_old w DEV_LOCK_SHELL →
  status_at t0 ≠ GATE_LOCK → (∀ i, (i < j)%nat → status_at (i + S t0) ≠ GATE_LOCK) →
  status_at (j + S t0) = GATE_LOCK → status_at (S j + S t0) = GATE_LOCK →
  ∃ order w', (EXTI15_10_IRQHandler (λ line, line =? 11)%nat ;;; alarm_mail_process_step ;;;
      local_mail_process_step) w = Done () w' ∧
    trace w' = trace w ++ (repeat (Ev_pulse DEV_MOTOR_A_PULSE period) (S j) ++
      [Ev_pulse DEV_MOTOR_A_PULSE adjust_period]) ++ [Ev_voice] ∧
    sms_mq w' = Some (q_append qs [mkSmsMail time ALARM_TYPE_LOCK_SHELL]) ∧
    gprs_mq w' = Some (q_append qg [mkGprsMail time ALARM_TYPE_LOCK_SHELL order U_none]) ∧
    photo_start_mq w' = Some (q_append qp
      [mkCmRecv PHOTO_INTERVAL_TIME time ALARM_TYPE_LOCK_SHELL F_1_jpg F_2_jpg]) ∧
    alarm_mq w' = Some (mkQueue [] na) ∧ local_mq w' = Some (mkQueue [] nl).
Proof.
  intros Hm Haw Hj Hna Hnl Ha Hl Hs Hg Hp Rs Rg Rp time t0 Ht Hgap S0 Slow Shit Slast.
  assert (q_room (mkQueue [] na) 1 (A:=ALARM_MAIL)) as Ra by (unfold q_room; simpl; lia).
  assert (q_room (mkQueue [] nl) 1 (A:=LOCAL_MAIL)) as Rl by (unfold q_room; simpl; lia).
  set (w1 := interrupted DEV_LOCK_SHELL
    (mkQueue [mkAlarmMail time ALARM_TYPE_LOCK_SHELL ALARM_PROCESS_FLAG_ALL
      (u8 (pin_level DEV_LOCK_SHELL (now w)))] na) time 2 w).
  assert (EXTI15_10_IRQHandler (λ line, line =? 11)%nat w = Done () w1) as E1.
  { unfold EXTI15_10_IRQHandler. cbn [exti_lines Nat.eqb when]. rewrite mseq_return_l.
    rewrite (mseq_run _ _ _ _ _ (isr_limited DEV_LOCK_SHELL ALARM_TYPE_LOCK_SHELL
      ALARM_PROCESS_FLAG_ALL w (mkQueue [] na) eq_refl Ha Ra Ht)).
    rewrite edge_0. cbn [spaced fst]. fold time. by rewrite (proj2 (Z.ltb_lt _ _) Hgap). }
  rewrite (mseq_run _ _ _ _ _ E1).
  rewrite (mseq_run _ _ _ _ _ (alarm_step_all w1 time ALARM_TYPE_LOCK_SHELL _ na qs qg
    (mkQueue [] nl) eq_refl Haw Hs Hg Hl Rs Rg Rl)).
  unfold local_mail_process_step, rt_mq_recv, mseq, get, upd, mreturn, deref. cbn.
  unfold mseq. rewrite (lock_output_reaches GATE_LOCK j); try done; [|by left].
  cbv beta iota. unfold voice_output, emit, upd, camera_send_mail. cbv beta iota.
  rewrite (post_mail_room _ _ _ _ qp) by done.
  do 2 eexists. split; [reflexivity|]. cbn. rewrite <- app_assoc. by split_and!.
Qed.
End sensors.

(** A board whose clock runs *)
Definition with_clock (clock : nat → Z) (B : Board) : Board := {|
  dev_present := dev_present; pin_level := pin_level; uart_arrivals := uart_arrivals;
  adc_value := adc_value; rtc_time := clock; rand_seeded := rand_seeded;
  localtime := localtime; uninit := uninit; file_works := file_works;
  disk_takes := disk_takes; timer_fires := timer_fires; config_opens := config_opens
|}.

(** Three edges, the second soon after the first, the third much later *)
Definition knocking_board : Board :=
  with_clock (λ t, if (t <? 4)%nat then 1000 + Z.of_nat t else 2000) quiet_board.

Lemma sensor_edges_reported_witness :
  ∃ w', mrepeat 3 (rt_hw_gpio_isr (HB:=knocking_board) DEV_LOCK_GATE) start_world = Done () w' ∧
    edges_done DEV_LOCK_GATE
      (mkQueue [mkAlarmMail 1001 ALARM_TYPE_LOCK_GATE ALARM_PROCESS_FLAG_LOCAL 1;
                mkAlarmMail 2000 ALARM_TYPE_LOCK_GATE ALARM_PROCESS_FLAG_LOCAL 1] 20)
      3 start_world w'.
Proof.
  apply (sensor_edges_reported (HB:=knocking_board) DEV_LOCK_GATE ALARM_TYPE_LOCK_GATE
    ALARM_PROCESS_FLAG_LOCAL 3 start_world (mkQueue [] 20)).
  - reflexivity.
  - reflexivity.
  - by_computation.
  - by_computation.
Defined.

Definition shaking_board : Board := with_clock (λ t, 1000 + 4 * Z.of_nat t) quiet_board.

Lemma dense_edges_reported_once_witness :
  ∃ w', mrepeat 15 (rt_hw_gpio_isr (HB:=shaking_board) DEV_LOCK_SHELL) start_world = Done () w' ∧
    alarm_mq w' = Some (mkQueue
      [mkAlarmMail 1004 ALARM_TYPE_LOCK_SHELL ALARM_PROCESS_FLAG_ALL 1] 20).
Proof.
  apply (dense_edges_reported_once (HB:=shaking_board) DEV_LOCK_SHELL ALARM_TYPE_LOCK_SHELL
    ALARM_PROCESS_FLAG_ALL 14 start_world (mkQueue [] 20)).
  - reflexivity.
  - reflexivity.
  - by_computation.
  - by_computation.
  - by_computation.
  - vm_compute. repeat (split; [discriminate|]). done.
Defined.

(** The bolt is open until the motor has been pulsed three times. *)
Definition open_board : Board := bench_board (λ _ t, if (t <? 6)%nat then 0 else 1) (λ _ _, []).

Definition open_service : GsmService := bench_service (HB:=open_board) [] no_report_wf.

Lemma shell_edge_locks_witness :
  ∃ order w', (EXTI15_10_IRQHandler (HB:=open_board) (λ line, line =? 11)%nat ;;;
      alarm_mail_process_step (HB:=open_board) ;;;
      local_mail_process_step (HB:=open_board) (HG:=open_service)) start_world = Done () w' ∧
    trace w' = [Ev_pulse DEV_MOTOR_A_PULSE 10; Ev_pulse DEV_MOTOR_A_PULSE 10;
      Ev_pulse DEV_MOTOR_A_PULSE 10; Ev_pulse DEV_MOTOR_A_PULSE 20; Ev_voice] ∧
    sms_mq w' = Some (mkQueue [mkSmsMail 1370000000 ALARM_TYPE_LOCK_SHELL] 20) ∧
    gprs_mq w' = Some (mkQueue [mkGprsMail 1370000000 ALARM_TYPE_LOCK_SHELL order U_none] 20) ∧
    photo_start_mq w' = Some (mkQueue
      [mkCmRecv 200 1370000000 ALARM_TYPE_LOCK_SHELL F_1_jpg F_2_jpg] 8) ∧
    alarm_mq w' = Some (mkQueue [] 20) ∧ local_mq w' = Some (mkQueue [] 20).
Proof.
  apply (shell_edge_locks (HB:=open_board) (HG:=open_service) 2 start_world 20 20
    (mkQueue [] 20) (mkQueue [] 20) (mkQueue [] 8));
    try reflexivity; try by_computation; try lia.
  intros [|[|i]] Hi; [by_computation..|lia].
Defined.
