(* ===== verification/Photo.v ===== *)
(** * The camera (src/photo.c)

    The photo thread takes mails from [photo_start_mq], asks the camera over its
    uart for two pictures, writes them to files and posts the MMS.  The local
    variable [photo] of the thread is the record [CAMERA]; the global command
    arrays, the semaphore and the receive buffer are in [World].

    The debugging output and [pic_timer], which only counts for it, are left
    out; allocations succeed. *)
From stdpp Require Import base functions strings list.
From Stdlib Require Import ZArith Lia.
From S2P Require Import Prelude World Serial Monad Untils Alarm.

(** ** Constants of photo.h and photo.c *)

Definition CM_BUFFER_LEN : nat := 2000.
Definition CM_OUTTIME_NUM : nat := 10.
Definition CM_CONTINUOUS_PHOTO_TIME : Z := 1000.
Definition CM_RUN_DEAL_OK : Z := 0x00.
Definition CM_GET_LEN_ERROR : Z := 0x01.
Definition CM_DEAL_DATA_ERROR : Z := 0x02.
Definition CM_RECV_OUT_TIME : Z := 0x04.
Definition CM_DEV_INIT_ERROR : Z := 0x08.
Definition PIC_DATA_MAX_SIZE : Z := 70000.
Definition PIC_DATA_MIN_SIZE : Z := 10000.
Definition LED_ACTIVE_STATUS : Z := 1.
Definition LIGHT_ACTIVE_STATUS : Z := 1.

Definition reset_camrea_cmd : list Z := [0x56; 0x00; 0x26; 0x00].
Definition switch_frame_cmd : list Z := [0x56; 0x00; 0x36; 0x01; 0x03].
Definition update_camrea_cmd : list Z := [0x56; 0x00; 0x36; 0x01; 0x02].
Definition stop_cur_frame_cmd : list Z := [0x56; 0x00; 0x36; 0x01; 0x00].
Definition stop_next_frame_cmd : list Z := [0x56; 0x00; 0x36; 0x01; 0x01].

(** rt_base_t is a signed 32-bit number. *)
Definition s32 (x : Z) : Z := (x + 2 ^ 31) mod 2 ^ 32 - 2 ^ 31.

(** struct camera_dev without the device pointers *)
Record CAMERA := mkCamera {
  cm_surplus : Z;
  cm_addr : Z;
  cm_page : Z;
  cm_size : Z;
  cm_interval : Z;  (* time *)
  cm_error : Z;
  cm_data : list Z
}.

Definition with_pages (size page surplus : Z) (c : CAMERA) : CAMERA :=
  mkCamera surplus (cm_addr c) page size (cm_interval c) (cm_error c) (cm_data c).
Definition with_addr (x : Z) (c : CAMERA) : CAMERA :=
  mkCamera (cm_surplus c) x (cm_page c) (cm_size c) (cm_interval c) (cm_error c) (cm_data c).
Definition with_page (x : Z) (c : CAMERA) : CAMERA :=
  mkCamera (cm_surplus c) (cm_addr c) x (cm_size c) (cm_interval c) (cm_error c) (cm_data c).
Definition with_error (x : Z) (c : CAMERA) : CAMERA :=
  mkCamera (cm_surplus c) (cm_addr c) (cm_page c) (cm_size c) (cm_interval c) x (cm_data c).
Definition with_data (x : list Z) (c : CAMERA) : CAMERA :=
  mkCamera (cm_surplus c) (cm_addr c) (cm_page c) (cm_size c) (cm_interval c) (cm_error c) x.
Definition add_error (e : Z) (c : CAMERA) : CAMERA := with_error (Z.lor (cm_error c) e) c.

Section camera.
Context {HB : Board}.

(** ** The uart of the camera *)

(** com2_photo_data_rx_indicate, called with the number of bytes waiting *)
Definition com2_photo_data_rx_indicate (len : nat) (w : World) : World :=
  if Z.of_nat len =? release_com2_data w then set_usart_data_sem (S (usart_data_sem w)) w else w.

(** A byte arrives: into the receive buffer, then the callback *)
Definition camera_byte (w : World) (b : Z) : World :=
  let w := set_camera_rx (rx_put (camera_rx w) b) w in
  if com2_rx_indicate w then com2_photo_data_rx_indicate (length (camera_rx w)) w else w.

(** What arrived since the last observation *)
Definition camera_arrive : M () := λ w,
  let bytes := map u8 (uart_arrivals DEV_CAMERA_UART (now w)) in
  Done () (foldl camera_byte (set_now (S (now w)) w) bytes).

(** The pointers of struct camera_dev that [photo_struct_init] sets; it returns
    at the first device that is missing. *)
Definition camera_has (d : DEVICE) : bool :=
  match d with
  | DEV_CAMERA_UART => dev_present DEV_CAMERA_UART
  | DEV_CAMERA_LED => dev_present DEV_CAMERA_UART && dev_present DEV_CAMERA_LED
  | DEV_CAMERA_POWER =>
      dev_present DEV_CAMERA_UART && dev_present DEV_CAMERA_LED && dev_present DEV_CAMERA_POWER
  | DEV_CAMERA_PHOTOSENSOR =>
      dev_present DEV_CAMERA_UART && dev_present DEV_CAMERA_LED &&
      dev_present DEV_CAMERA_POWER && dev_present DEV_CAMERA_PHOTOSENSOR
  | _ => false
  end.

(** rt_device_write and rt_device_read of these devices *)
Definition camera_write (d : DEVICE) (bytes : list Z) : M () :=
  if camera_has d then emit (Ev_write d bytes) else fault.

Definition camera_read (n : nat) : M (list Z) :=
  if camera_has DEV_CAMERA_UART then
    camera_arrive ;;;
    rx <- get camera_rx ;;
    upd (set_camera_rx (drop n rx)) ;;;
    mreturn (take n rx)
  else fault.

Definition camera_delay (ticks : Z) : M () := rt_thread_delay ticks ;;; camera_arrive.

(** rt_sem_take (usart_data_sem, ticks): with the value 0 it waits once; [false]
    is a timeout. *)
Definition usart_data_sem_take : M bool :=
  n <- get usart_data_sem ;;
  match n with
  | S n => upd (set_usart_data_sem n) ;;; mreturn true
  | O =>
      camera_arrive ;;;
      n <- get usart_data_sem ;;
      match n with
      | S n => upd (set_usart_data_sem n) ;;; mreturn true
      | O => mreturn false
      end
  end.

(** A read of up to [CM_BUFFER_LEN] bytes to the beginning of [camera->data] *)
Definition camera_read_data (c : CAMERA) : M (list Z * CAMERA) :=
  l <- camera_read CM_BUFFER_LEN ;;
  mreturn (l, with_data (memcpy_at (cm_data c) 0 l) c).

(** ** Commands *)

(** The loop has no bound: it ends when nothing comes for thirty ticks. *)
Fixpoint release_buffer_loop (fuel : nat) (c : CAMERA) : M CAMERA :=
  match fuel with
  | O => nofuel
  | S fuel =>
      ok <- usart_data_sem_take ;;
      both _ c <- camera_read_data c ;;
      upd (set_release_com2_data (Z.of_nat CM_BUFFER_LEN)) ;;;
      if ok : bool then release_buffer_loop fuel c else mreturn c
  end.

Definition com2_release_buffer (fuel : nat) (c : CAMERA) : M CAMERA :=
  upd (set_release_com2_data 1) ;;;
  release_buffer_loop fuel c.

Definition uint32_to_array (data : Z) : list Z :=
  [Z.land (Z.shiftr data 24) 0xff; Z.land (Z.shiftr data 16) 0xff;
   Z.land (Z.shiftr data 8) 0xff; Z.land data 0xff].

Definition fbuf_put (off : nat) (bytes : list Z) : M () :=
  upd (λ w, set_get_photo_fbuf_cmd (memcpy_at (get_photo_fbuf_cmd w) off bytes) w).

Definition write_fbuf_cmd : M () :=
  cmd <- get get_photo_fbuf_cmd ;; camera_write DEV_CAMERA_UART cmd.

Definition POWR_ACTIVE_STATUS : Z := 1.

(** Without the device of the transmit pin nothing happens. *)
Definition camera_power_control (status : Z) : M () :=
  when (dev_present DEV_CAMERA_USART_TX)
    (emit (Ev_config DEV_CAMERA_USART_TX (status =? POWR_ACTIVE_STATUS)) ;;;
     camera_write DEV_CAMERA_POWER [status]).

Definition photo_reset (fuel : nat) (c : CAMERA) : M CAMERA :=
  camera_write DEV_CAMERA_UART reset_camrea_cmd ;;;
  camera_delay 10 ;;;
  com2_release_buffer fuel c.

(** photo_update_frame, photo_stop_cur_frame, photo_stop_next_frame and
    photo_switch_frame are this with the four commands. *)
Definition frame_command (cmd : list Z) (c : CAMERA) : M CAMERA :=
  camera_write DEV_CAMERA_UART cmd ;;;
  camera_delay 1 ;;;
  both _ c <- camera_read_data c ;;
  mreturn c.

Definition photo_update_frame : CAMERA → M CAMERA := frame_command update_camrea_cmd.
Definition photo_stop_cur_frame : CAMERA → M CAMERA := frame_command stop_cur_frame_cmd.
Definition photo_stop_next_frame : CAMERA → M CAMERA := frame_command stop_next_frame_cmd.
Definition photo_switch_frame : CAMERA → M CAMERA := frame_command switch_frame_cmd.

Definition photo_light_control (status : Z) : M () :=
  (if camera_has DEV_CAMERA_PHOTOSENSOR then mreturn () else fault) ;;;
  dat <- pin_read DEV_CAMERA_PHOTOSENSOR ;;
  if status =? LED_ACTIVE_STATUS then
    when (dat =? LIGHT_ACTIVE_STATUS) (camera_write DEV_CAMERA_LED [status])
  else camera_write DEV_CAMERA_LED [status].

(** ** The size of a picture *)

(** Bytes five to eight of the answer *)
Definition size_field (data : list Z) : Z :=
  s32 (Z.lor (Z.lor (Z.lor (Z.shiftl (tbl data 5) 24) (Z.shiftl (tbl data 6) 16))
    (Z.shiftl (tbl data 7) 8)) (tbl data 8)).

Definition size_refused (size : Z) : bool :=
  (PIC_DATA_MAX_SIZE <? size) || (size <? PIC_DATA_MIN_SIZE).

(** The do-while loop with [n] attempts left *)
Fixpoint get_size_loop (n : nat) (c : CAMERA) : M CAMERA :=
  match n with
  | O => nofuel
  | S n =>
      cmd <- get get_photo_len_cmd ;;
      camera_write DEV_CAMERA_UART cmd ;;;
      camera_delay 1 ;;;
      both _ c <- camera_read_data c ;;
      let c := with_pages (size_field (cm_data c)) (cm_page c) (cm_surplus c) c in
      match n with
      | O => mreturn (add_error CM_GET_LEN_ERROR c)
      | S _ => if size_refused (cm_size c) then get_size_loop n c else mreturn c
      end
  end.

Definition photo_get_size (frame_flag : Z) (c : CAMERA) : M CAMERA :=
  upd (λ w, set_get_photo_len_cmd
    (memcpy_at (get_photo_len_cmd w) 4 [if frame_flag =? 0 then 0 else 1]) w) ;;;
  c <- get_size_loop 11 c ;;
  let c := with_pages (cm_size c) (u32 (Z.quot (cm_size c) (Z.of_nat CM_BUFFER_LEN)))
             (u32 (Z.rem (cm_size c) (Z.of_nat CM_BUFFER_LEN))) c in
  both _ c <- camera_read_data c ;;
  mreturn c.

(** ** The data of a picture *)

(** A file being written: not open, or open at an offset *)
Definition FILE_ID : Type := option (FILE * nat).

Definition file_id_write (id : FILE_ID) (bytes : list Z) : M FILE_ID :=
  match id with
  | None => mreturn None
  | Some (f, off) => n <- file_write f off bytes ;; mreturn (Some (f, (off + n)%nat))
  end.

(** The data of a page go to [camera->data]; more than it holds is an overflow. *)
Definition read_page (n : nat) (c : CAMERA) : M (list Z * CAMERA) :=
  l <- camera_read n ;;
  if (CM_BUFFER_LEN <? length l)%nat then fault
  else mreturn (l, with_data (memcpy_at (cm_data c) 0 l) c).

(** One page that came in time: its header, the data, its trailer, then the
    request of the next one. *)
Definition data_page (c : CAMERA) : M (list Z * CAMERA) :=
  camera_read 5 ;;;
  if negb (cm_page c =? 0) then
    both l c <- read_page CM_BUFFER_LEN c ;;
    camera_read 5 ;;;
    let c := with_addr (u32 (cm_addr c + Z.of_nat CM_BUFFER_LEN)) c in
    when (cm_page c =? 1)
      (upd (set_release_com2_data (u32 (cm_surplus c + 10))) ;;;
       fbuf_put 10 (uint32_to_array (cm_surplus c))) ;;;
    fbuf_put 6 (uint32_to_array (cm_addr c)) ;;;
    write_fbuf_cmd ;;;
    mreturn (l, c)
  else
    both l c <- read_page (Z.to_nat (cm_surplus c)) c ;;
    camera_read 5 ;;;
    mreturn (l, with_addr (u32 (cm_addr c + cm_surplus c)) c).

(** [outtime_nun] timeouts so far; the comparison of [addr] and [size] is
    unsigned. *)
Fixpoint data_deal_loop (fuel outtime_nun : nat) (id : FILE_ID) (c : CAMERA) : M CAMERA :=
  match fuel with
  | O => nofuel
  | S fuel =>
      if (outtime_nun <? CM_OUTTIME_NUM)%nat then
        ok <- usart_data_sem_take ;;
        if ok : bool then
          both l c <- data_page c ;;
          id <- file_id_write id l ;;
          let c := with_page (u32 (cm_page c - 1)) c in
          if u32 (cm_size c) <=? cm_addr c then mreturn c
          else data_deal_loop fuel outtime_nun id c
        else
          let c := add_error CM_RECV_OUT_TIME c in
          both _ c <- camera_read_data c ;;
          both _ c <- camera_read_data c ;;
          write_fbuf_cmd ;;;
          data_deal_loop fuel (S outtime_nun) id c
      else mreturn (add_error CM_DEAL_DATA_ERROR c)
  end.

Definition photo_data_deal (fuel : nat) (id : FILE_ID) (c : CAMERA) : M CAMERA :=
  upd (set_release_com2_data (Z.of_nat CM_BUFFER_LEN + 10)) ;;;
  data_deal_loop fuel 0 id (with_addr 0 c).
End camera.

Section work.
Context {HB : Board}.

(** ** Taking pictures *)

Definition photo_set_per_read_size (frame_type : Z) (c : CAMERA) : M CAMERA :=
  fbuf_put 10 (uint32_to_array (Z.of_nat CM_BUFFER_LEN)) ;;;
  fbuf_put 6 (uint32_to_array 0) ;;;
  fbuf_put 4 [if frame_type =? 0 then 0 else 1] ;;;
  write_fbuf_cmd ;;;
  mreturn (with_addr 0 c).

(** unlink, open with O_CREAT, then the data *)
Definition photo_write_file (fuel : nat) (pathname : FILE) (c : CAMERA) : M CAMERA :=
  file_unlink pathname ;;;
  opened <- file_create pathname ;;
  photo_data_deal fuel (if opened : bool then Some (pathname, 0%nat) else None) c.

Definition photo_create_file_two (fuel : nat) (pathname1 pathname2 : FILE) (c : CAMERA) : M CAMERA :=
  photo_light_control LED_ACTIVE_STATUS ;;;
  c <- photo_update_frame c ;;
  c <- photo_stop_cur_frame c ;;
  camera_delay (cm_interval c) ;;;
  c <- photo_switch_frame c ;;
  c <- photo_stop_next_frame c ;;
  photo_light_control (1 - LED_ACTIVE_STATUS) ;;;
  c <- photo_get_size 0 c ;;
  if CM_GET_LEN_ERROR =? cm_error c then mreturn c
  else
    c <- photo_set_per_read_size 0 c ;;
    c <- photo_write_file fuel pathname1 c ;;
    c <- photo_get_size 1 c ;;
    if CM_GET_LEN_ERROR =? cm_error c then mreturn c
    else
      c <- photo_set_per_read_size 1 c ;;
      photo_write_file fuel pathname2 c.

(** The frame type of the last request stays in the request here. *)
Definition photo_create_file_one (fuel : nat) (pathname : FILE) (c : CAMERA) : M CAMERA :=
  photo_light_control LED_ACTIVE_STATUS ;;;
  c <- photo_update_frame (with_addr 0 c) ;;
  c <- photo_stop_cur_frame c ;;
  photo_light_control (1 - LED_ACTIVE_STATUS) ;;;
  c <- photo_get_size 0 c ;;
  if CM_GET_LEN_ERROR =? cm_error c then mreturn c
  else
    fbuf_put 10 (uint32_to_array (Z.of_nat CM_BUFFER_LEN)) ;;;
    fbuf_put 6 (uint32_to_array (cm_addr c)) ;;;
    write_fbuf_cmd ;;;
    photo_write_file fuel pathname c.

(** What is reported about the work *)
Definition photo_report (c : CAMERA) (recv_mq : CM_RECV_MQ) : M () :=
  if (cm_error c =? CM_RUN_DEAL_OK) || negb (Z.land CM_RECV_OUT_TIME (cm_error c) =? 0)
  then send_mms_mail (cm_alarm_type recv_mq) 0 (cm_name2 recv_mq)
  else
    send_sms_mail ALARM_TYPE_CAMERA_FAULT 0 ;;;
    send_gprs_mail ALARM_TYPE_CAMERA_FAULT 0 0 U_none.

Definition photo_deal (fuel : nat) (c : CAMERA) (recv_mq : CM_RECV_MQ) : M CAMERA :=
  c <- (if bool_decide (cm_name2 recv_mq = F_empty)
        then photo_create_file_one fuel (cm_name1 recv_mq) c
        else if cm_interval c <? CM_CONTINUOUS_PHOTO_TIME
        then photo_create_file_two fuel (cm_name1 recv_mq) (cm_name2 recv_mq) c
        else
          c <- photo_create_file_one fuel (cm_name1 recv_mq) c ;;
          camera_delay (cm_interval c) ;;;
          photo_create_file_one fuel (cm_name2 recv_mq) c) ;;
  photo_report c recv_mq ;;;
  mreturn c.

(** ** The self test *)

(** The first of the arguments that occurs in what was read; they and the
    buffer are C strings. *)
Fixpoint analyze_args (i : Z) (args : list (list Z)) (text : list Z) : Z :=
  match args with
  | [] => 0
  | a :: args => if find_sub a text is Some _ then i + 1 else analyze_args (i + 1) args text
  end.

(** [wait_t] rounds of one tick; [mem] is the zeroed buffer of [mem_size] bytes
    with [pos] bytes written, which is not checked before it is written to. *)
Fixpoint com_recv_loop (wait_t pos : nat) (args : list (list Z)) (mem : list Z) : M Z :=
  match wait_t with
  | O => mreturn 0
  | S wait_t =>
      camera_delay 1 ;;;
      l <- camera_read 1 ;;
      match l with
      | [] => com_recv_loop wait_t pos args mem
      | _ =>
          if (pos <? length mem)%nat then
            let mem := memcpy_at mem pos l in
            text <- deref (cstr mem) ;;
            let jmp_flag := analyze_args 0 args text in
            if negb (jmp_flag =? 0) then mreturn jmp_flag
            else com_recv_loop wait_t (S pos) args mem
          else fault
      end
  end.

Definition com_recv_data_analyze (wait_t mem_size : nat) (args : list (list Z)) : M Z :=
  if negb (dev_present DEV_CAMERA_UART) then mreturn (-1)
  else com_recv_loop wait_t 0 args (repeat 0 mem_size).

(** Three update commands; [result] begins with 0x76 and ends there, being a C
    string. *)
Fixpoint self_test_loop (i : nat) (error_num : Z) : M () :=
  match i with
  | O => mreturn ()
  | S i =>
      camera_write DEV_CAMERA_UART update_camrea_cmd ;;;
      r <- com_recv_data_analyze 200 300 [[0x76]] ;;
      if negb (r =? 1) then
        when (2 <? error_num + 1) (send_sms_mail ALARM_TYPE_CAMERA_FAULT 0) ;;;
        self_test_loop i (error_num + 1)
      else self_test_loop i error_num
  end.

Definition camera_module_self_test : M () :=
  camera_power_control POWR_ACTIVE_STATUS ;;;
  com_recv_data_analyze 200 300 [bytes_of "@"] ;;;
  self_test_loop 3 0 ;;;
  camera_power_control (1 - POWR_ACTIVE_STATUS).

(** ** The thread *)

(** The pointer [photo.data]: never set or freed, or a block *)
Inductive DATA_PTR := Dangling | Block.

Definition rt_free (p : DATA_PTR) : M DATA_PTR :=
  match p with Dangling => fault | Block => mreturn Dangling end.

(** One round of the loop of photo_thread_entry.  Without a mail the wait ends
    after 24 hours. *)
Definition photo_thread_step (fuel : nat) (photo : CAMERA) (data : DATA_PTR)
  : M (CAMERA * DATA_PTR) :=
  m <- rt_mq_recv photo_start_mq set_photo_start_mq ;;
  both photo data <-
    match m with
    | Some recv_mq =>
        camera_power_control POWR_ACTIVE_STATUS ;;;
        camera_delay 1 ;;;
        photo <- photo_reset fuel (with_data (repeat 0 CM_BUFFER_LEN) photo) ;;
        upd (set_com2_rx_indicate true) ;;;
        let photo := mkCamera (cm_surplus photo) (cm_addr photo) (cm_page photo) (cm_size photo)
                       (cm_time recv_mq) CM_RUN_DEAL_OK (cm_data photo) in
        photo <- com2_release_buffer fuel photo ;;
        photo <- photo_deal fuel photo recv_mq ;;
        camera_power_control 0 ;;;
        mreturn (photo, Block)
    | None => camera_module_self_test ;;; mreturn (photo, data)
    end ;;
  camera_delay 50 ;;;
  data <- rt_free data ;;
  mreturn (photo, data).

(** What the thread does before its loop *)
Definition photo_struct_init (c : CAMERA) : CAMERA :=
  if camera_has DEV_CAMERA_PHOTOSENSOR
  then mkCamera 0 0 0 0 0 0 (cm_data c) else with_error CM_DEV_INIT_ERROR c.

Definition photo_thread_start (c : CAMERA) : M CAMERA :=
  camera_power_control (1 - POWR_ACTIVE_STATUS) ;;;
  mreturn (photo_struct_init c).
End work.

(** ** Receiving a picture *)

Section transfer.
Context {HB : Board} (present : camera_has DEV_CAMERA_UART = true).

(** What matters of the state while a picture is received: [t] observations so
    far, the bytes waiting, the semaphore, the length it is released at, the
    request, the contents of the file, the trace *)
Record receiving (f : FILE) (t : nat) (rx : list Z) (sem : nat) (rel : Z) (cmd file : list Z)
  (tr : list Event) (w : World) : Prop := {
  rc_now : now w = t;
  rc_rx : camera_rx w = rx;
  rc_sem : usart_data_sem w = sem;
  rc_rel : release_com2_data w = rel;
  rc_cmd : get_photo_fbuf_cmd w = cmd;
  rc_file : files w f = Some file;
  rc_trace : trace w = tr;
  rc_indicate : com2_rx_indicate w = true
}.

(** Bytes that fit into the receive buffer release the semaphore if the number
    of waiting bytes passes [rel]. *)
Definition hit (rel : Z) (n k : nat) : nat :=
  if (Z.of_nat n <? rel) && (rel <=? Z.of_nat (n + k)) then 1 else 0.

Lemma receive_bytes f t sem rel cmd file tr l : ∀ rx w,
  receiving f t rx sem rel cmd file tr w → (length rx + length l <= RX_CAPACITY)%nat →
  receiving f t (rx ++ l) (sem + hit rel (length rx) (length l)) rel cmd file tr (foldl camera_byte w l).
Proof using Type.
  revert sem. induction l as [|b l IH]; intros sem rx w Hw Hl; simpl in Hl |- *.
  - rewrite app_nil_r. unfold hit. rewrite Nat.add_0_r.
    destruct (Z.ltb_spec (Z.of_nat (length rx)) rel), (Z.leb_spec rel (Z.of_nat (length rx)));
      simpl; try lia; by rewrite Nat.add_0_r.
  - set (w1 := camera_byte w b).
    assert (receiving f t (rx ++ [b]) (sem + hit rel (length rx) 1) rel cmd file tr w1) as H1.
    { destruct Hw. unfold w1, camera_byte, com2_photo_data_rx_indicate, rx_put.
      destruct (Nat.ltb_spec (length (camera_rx w)) RX_CAPACITY); [|subst; lia].
      simpl. rewrite rc_indicate0. rewrite length_app, rc_rx0, rc_rel0. simpl. unfold hit.
      destruct (Z.eqb_spec (Z.of_nat (length rx + 1)) rel),
        (Z.ltb_spec (Z.of_nat (length rx)) rel), (Z.leb_spec rel (Z.of_nat (length rx + 1)));
        try lia; simpl; split; simpl; try congruence; lia. }
    specialize (IH _ _ _ H1). rewrite length_app in IH. simpl in IH.
    specialize (IH ltac:(lia)). rewrite <- app_assoc in IH. simpl in IH.
    replace (sem + hit rel (length rx) (S (length l)))%nat
      with (sem + hit rel (length rx) 1 + hit rel (length rx + 1) (length l))%nat; [exact IH|].
    unfold hit.
    destruct (Z.ltb_spec (Z.of_nat (length rx)) rel), (Z.leb_spec rel (Z.of_nat (length rx + 1))),
      (Z.ltb_spec (Z.of_nat (length rx + 1)) rel),
      (Z.leb_spec rel (Z.of_nat (length rx + 1 + length l))),
      (Z.leb_spec rel (Z.of_nat (length rx + S (length l)))); simpl; lia.
Qed.

(** The bytes that arrive at an observation *)
Definition arrivals (t : nat) : list Z := map u8 (uart_arrivals DEV_CAMERA_UART t).

Lemma arrive_triple f t rx sem rel cmd file tr :
  (length rx + length (arrivals t) <= RX_CAPACITY)%nat →
  triple (receiving f t rx sem rel cmd file tr) camera_arrive
    (λ a w, a = () ∧ receiving f (S t) (rx ++ arrivals t)
      (sem + hit rel (length rx) (length (arrivals t))) rel cmd file tr w).
Proof using Type.
  intros Hl w Hw. do 2 eexists. split; [reflexivity|]. split; [done|].
  rewrite (rc_now _ _ _ _ _ _ _ _ _ Hw). apply receive_bytes; [|done]. by destruct Hw; split.
Qed.

Lemma hit_0 rel n : hit rel n 0 = 0%nat.
Proof using Type.
  unfold hit. rewrite Nat.add_0_r.
  by destruct (Z.ltb_spec (Z.of_nat n) rel), (Z.leb_spec rel (Z.of_nat n)); try lia.
Qed.

Lemma hit_start rel n : 0 < rel → hit rel 0 n = if rel <=? Z.of_nat n then 1%nat else 0%nat.
Proof using Type.
  intros H. unfold hit. change (Z.of_nat 0) with 0. by rewrite (proj2 (Z.ltb_lt _ _) H).
Qed.

(** Reading while fewer bytes are there than would release the semaphore *)
Lemma read_late_triple f n t rx sem rel cmd file tr :
  Z.of_nat (length (rx ++ arrivals t)) < rel → rel <= Z.of_nat RX_CAPACITY →
  triple (receiving f t rx sem rel cmd file tr) (camera_read n)
    (λ l w, l = take n (rx ++ arrivals t) ∧
      receiving f (S t) (drop n (rx ++ arrivals t)) sem rel cmd file tr w).
Proof.
  intros Hl Hr. unfold camera_read. rewrite present. rewrite length_app in Hl.
  eapply triple_then; [apply arrive_triple; lia|].
  assert (hit rel (length rx) (length (arrivals t)) = 0)%nat as ->.
  { unfold hit. rewrite (proj2 (Z.leb_gt rel _)) by lia. by rewrite andb_false_r. }
  rewrite Nat.add_0_r.
  eapply triple_then; [apply (triple_get _ (rx ++ arrivals t)); intros w []; done|].
  eapply triple_then;
    [apply (triple_upd _ _ (receiving f (S t) (drop n (rx ++ arrivals t)) sem rel cmd file tr));
     intros w []; by split|].
  by apply triple_return.
Qed.

(** Reading when nothing arrives *)
Lemma read_triple f n t rx sem rel cmd file tr :
  arrivals t = [] → (length rx <= RX_CAPACITY)%nat →
  triple (receiving f t rx sem rel cmd file tr) (camera_read n)
    (λ l w, l = take n rx ∧ receiving f (S t) (drop n rx) sem rel cmd file tr w).
Proof.
  intros Ha Hl. unfold camera_read. rewrite present.
  eapply triple_then; [apply arrive_triple; rewrite Ha; simpl; lia|].
  rewrite Ha, app_nil_r. simpl. rewrite hit_0, Nat.add_0_r.
  eapply triple_then; [apply (triple_get _ rx); intros w []; done|].
  eapply triple_then;
    [apply (triple_upd _ _ (receiving f (S t) (drop n rx) sem rel cmd file tr)); intros w []; by split|].
  by apply triple_return.
Qed.

Lemma write_triple f t rx sem rel cmd file tr :
  triple (receiving f t rx sem rel cmd file tr) write_fbuf_cmd
    (λ a w, a = () ∧ receiving f t rx sem rel cmd file (tr ++ [Ev_write DEV_CAMERA_UART cmd]) w).
Proof.
  eapply triple_then; [apply (triple_get _ cmd); by intros w []|].
  unfold camera_write. rewrite present. apply triple_upd.
  intros w []. split; simpl; congruence.
Qed.

Lemma fbuf_triple f t rx sem rel cmd file tr off l :
  triple (receiving f t rx sem rel cmd file tr) (fbuf_put off l)
    (λ a w, a = () ∧ receiving f t rx sem rel (memcpy_at cmd off l) file tr w).
Proof using Type. apply triple_upd. intros w []. split; simpl; congruence. Qed.

Lemma release_triple f t rx sem rel cmd file tr x :
  triple (receiving f t rx sem rel cmd file tr) (upd (set_release_com2_data x))
    (λ a w, a = () ∧ receiving f t rx sem x cmd file tr w).
Proof using Type. apply triple_upd. intros w []. by split. Qed.

(** Waiting for the semaphore *)
Lemma sem_triple f t rel cmd file tr :
  (length (arrivals t) <= RX_CAPACITY)%nat → 0 < rel →
  triple (receiving f t [] 0 rel cmd file tr) usart_data_sem_take
    (λ ok w, ok = (rel <=? Z.of_nat (length (arrivals t))) ∧
      receiving f (S t) (arrivals t) 0 rel cmd file tr w).
Proof using Type.
  intros Hl Hr. unfold usart_data_sem_take.
  eapply triple_then; [apply (triple_get _ 0%nat); by intros w []|].
  eapply triple_then; [by apply arrive_triple|].
  eapply triple_then; [apply (triple_get _ (hit rel 0 (length (arrivals t)))); by intros w []|].
  simpl length. rewrite hit_start by done.
  destruct (Z.leb_spec rel (Z.of_nat (length (arrivals t)))); cbn [app].
  - eapply triple_then; [apply (triple_upd _ _ (receiving f (S t) (arrivals t) 0 rel cmd file tr));
      intros w []; by split|]. by apply triple_return.
  - by apply triple_return.
Qed.
End transfer.

Section picture.
Context {HB : Board} (present : camera_has DEV_CAMERA_UART = true).
Context (pic : list Z) (f : FILE) (frame_type : Z).

Abbreviation size := (length pic).

Context (size_min : (CM_BUFFER_LEN <= size)%nat) (size_max : Z.of_nat size < 2 ^ 31).

(** The page of the picture at an address, and how many bytes are asked for there *)
Definition chunk (a : nat) : list Z := take CM_BUFFER_LEN (drop a pic).

Definition req_len (a : nat) : Z :=
  if (a + CM_BUFFER_LEN <=? size)%nat then Z.of_nat CM_BUFFER_LEN
  else Z.of_nat (size mod CM_BUFFER_LEN).

(** The request of [len] bytes at an address *)
Definition fbuf_cmd (a len : Z) : list Z :=
  [0x56; 0x00; 0x32; 0x0C; frame_type; 0x0a] ++ uint32_to_array a ++ uint32_to_array len ++
  [0x00; 0x00].

Definition request (a : nat) : list Z := fbuf_cmd (Z.of_nat a) (req_len a).

(** The camera structure when the pages up to [a] have come *)
Record at_page (a : nat) (c : CAMERA) : Prop := {
  pg_addr : cm_addr c = Z.of_nat a;
  pg_page : cm_page c = Z.of_nat ((size - a) / CM_BUFFER_LEN);
  pg_surplus : cm_surplus c = Z.of_nat (size mod CM_BUFFER_LEN);
  pg_size : cm_size c = Z.of_nat size
}.

(** Where pages begin *)
Definition page_start (a : nat) : Prop := (a < size)%nat ∧ (a mod CM_BUFFER_LEN = 0)%nat.

Definition rel_at (a : nat) : Z := Z.of_nat (length (chunk a)) + 10.

Lemma chunk_length a : (a <= size)%nat → length (chunk a) = Nat.min CM_BUFFER_LEN (size - a).
Proof. intros H. unfold chunk. by rewrite length_take, length_drop. Qed.

Lemma fbuf_addr a l a' : memcpy_at (fbuf_cmd a l) 6 (uint32_to_array a') = fbuf_cmd a' l.
Proof. reflexivity. Qed.
Lemma fbuf_len a l l' : memcpy_at (fbuf_cmd a l) 10 (uint32_to_array l') = fbuf_cmd a l'.
Proof. reflexivity. Qed.

Lemma page_pos : CM_BUFFER_LEN ≠ 0%nat.
Proof. done. Qed.

Lemma page_min : (10 <= CM_BUFFER_LEN)%nat.
Proof. by apply Nat.leb_le. Qed.

(** A page with header and trailer fits into the receive buffer. *)
Lemma page_small : (CM_BUFFER_LEN + 10 <= RX_CAPACITY)%nat.
Proof. by apply Nat.leb_le. Qed.

(** From one page start to the next *)
Lemma page_step a : page_start a →
  ((CM_BUFFER_LEN <= size - a)%nat ∧ length (chunk a) = CM_BUFFER_LEN ∧ (0 < (size - a) / CM_BUFFER_LEN)%nat ∧
    ((size - a) / CM_BUFFER_LEN = S ((size - (a + CM_BUFFER_LEN)) / CM_BUFFER_LEN))%nat ∧ ((a + CM_BUFFER_LEN) mod CM_BUFFER_LEN = 0)%nat) ∨
  ((size - a < CM_BUFFER_LEN)%nat ∧ length (chunk a) = (size mod CM_BUFFER_LEN)%nat ∧ (size - a = size mod CM_BUFFER_LEN)%nat ∧
    ((size - a) / CM_BUFFER_LEN = 0)%nat).
Proof.
  pose proof page_pos as N0. pose proof page_small as N1.
  intros [Ha Hm]. rewrite chunk_length by lia.
  destruct (decide (CM_BUFFER_LEN <= size - a)%nat) as [H|H].
  - left. replace (size - a)%nat with ((size - (a + CM_BUFFER_LEN)) + 1 * CM_BUFFER_LEN)%nat by lia.
    rewrite Nat.div_add by lia.
    replace (a + CM_BUFFER_LEN)%nat with (a + 1 * CM_BUFFER_LEN)%nat by lia. rewrite Nat.Div0.mod_add. lia.
  - right. assert (size - a = size mod CM_BUFFER_LEN)%nat as E.
    { apply Nat.Div0.div_exact in Hm. set (q := (a / CM_BUFFER_LEN)%nat) in Hm.
      rewrite (Nat.Div0.mod_eq size CM_BUFFER_LEN). pose proof (Nat.div_unique size CM_BUFFER_LEN q (size - CM_BUFFER_LEN * q)) as Hq.
      rewrite <- Hq; lia. }
    rewrite Nat.div_small by lia. lia.
Qed.

(** What is asked for after the page at [a], and how the camera structure and
    the request change *)
Definition next_request (a : nat) : list Event :=
  if (a + CM_BUFFER_LEN <=? size)%nat
  then [Ev_write DEV_CAMERA_UART (request (a + CM_BUFFER_LEN))] else [].

Lemma data_page_triple a c t h e file tr :
  page_start a → at_page a c → length h = 5%nat → length e = 5%nat →
  arrivals t = [] → arrivals (S t) = [] → arrivals (S (S t)) = [] →
  triple (receiving f t (h ++ chunk a ++ e) 0 (rel_at a) (request a) file tr) (data_page c)
    (λ r w, r = (chunk a, with_addr (Z.of_nat (a + length (chunk a)))
                    (with_data (memcpy_at (cm_data c) 0 (chunk a)) c)) ∧
      ∃ rel cmd, receiving f (3 + t) [] 0 rel cmd file (tr ++ next_request a) w ∧
        ((a + CM_BUFFER_LEN <= size)%nat →
          rel = rel_at (a + CM_BUFFER_LEN) ∧ cmd = request (a + CM_BUFFER_LEN))).
Proof.
  pose proof page_pos as N0. pose proof page_small as N1.
  intros Ha [Pa Pp Ps Pz] Hh He A0 A1 A2. pose proof (page_step a Ha) as Hstep.
  assert (length (h ++ chunk a ++ e) <= RX_CAPACITY)%nat as Hcap.
  { rewrite !length_app, Hh, He, chunk_length by (destruct Ha; lia).
    lia. }
  unfold data_page.
  eapply triple_then; [by apply (read_triple present)|].
  rewrite (drop_app_length' h) by done.
  destruct Hstep as [(H1 & H2 & H3 & H4 & H5)|(H1 & H2 & H3 & H4)].
  - destruct (Z.eqb_spec (cm_page c) 0) as [E|E]; [lia|]. cbn [negb].
    eapply triple_then.
    { unfold read_page. eapply triple_then; [apply (read_triple present); [done|]|].
      { rewrite length_app, H2, He. lia. }
      rewrite take_app_length', drop_app_length' by done. rewrite H2. cbn [Nat.ltb Nat.leb].
      destruct (Nat.ltb_spec CM_BUFFER_LEN CM_BUFFER_LEN); [lia|].
      apply triple_return. intros w Hw. split; [reflexivity|exact Hw]. }
    eapply triple_then; [apply (read_triple present); [done|rewrite He; lia]|].
    rewrite (drop_ge e) by lia.
    cbn [cm_page with_addr with_data cm_surplus cm_addr].
    assert (u32 (cm_addr c + Z.of_nat CM_BUFFER_LEN) = Z.of_nat (a + CM_BUFFER_LEN)) as ->.
    { rewrite Pa, wrap_small; [lia|]. unfold fits. destruct Ha. lia. }
    (* the last full page is followed by the rest *)
    eapply triple_then.
    { instantiate (1 := receiving f (S (S (S t))) [] 0 (rel_at (a + CM_BUFFER_LEN))
        (fbuf_cmd (Z.of_nat a) (req_len (a + CM_BUFFER_LEN))) file tr). instantiate (1 := ()).
      unfold when. destruct (Z.eqb_spec (cm_page c) 1) as [E1|E1].
      - eapply triple_then; [apply release_triple|]. eapply triple_consequence;
          [apply fbuf_triple|intros w Hw; exact Hw|].
        intros r w [-> Hw]. split; [done|]. unfold request in Hw. rewrite fbuf_len in Hw.
        destruct Hw as [? ? ? Hrel Hcmd]. split; try done.
        + rewrite Hrel, Ps. unfold rel_at. rewrite chunk_length by lia.
          rewrite wrap_small; [|unfold fits; pose proof (Nat.mod_upper_bound size CM_BUFFER_LEN); lia].
          assert ((size - (a + CM_BUFFER_LEN)) / CM_BUFFER_LEN = 0)%nat as Hz by lia.
          apply Nat.div_small_iff in Hz; [|lia].
          assert (size - (a + CM_BUFFER_LEN) = size mod CM_BUFFER_LEN)%nat as Hr; [|lia].
          destruct (decide (a + CM_BUFFER_LEN < size)%nat) as [Hlt|Hge].
          * destruct (page_step (a + CM_BUFFER_LEN)) as [?|(?&?&?&?)]; [split; done|lia|lia].
          * assert (size = a + CM_BUFFER_LEN)%nat as -> by lia. rewrite H5. lia.
        + rewrite Hcmd, Ps. f_equal. unfold req_len.
          destruct (Nat.leb_spec (a + CM_BUFFER_LEN + CM_BUFFER_LEN) size) as [Hlt|Hge]; [exfalso|done].
          assert (1 <= (size - (a + CM_BUFFER_LEN)) / CM_BUFFER_LEN)%nat; [|lia].
          apply Nat.div_le_lower_bound; lia.
      - apply triple_return. intros w Hw. split; [done|].
        assert (a + CM_BUFFER_LEN + CM_BUFFER_LEN <= size)%nat as Hlt.
        { pose proof (Nat.Div0.div_mod (size - (a + CM_BUFFER_LEN)) CM_BUFFER_LEN). nia. }
        destruct Hw as [? ? ? Hrel Hcmd]. split; try done.
        + rewrite Hrel. unfold rel_at. rewrite H2, chunk_length by lia. lia.
        + rewrite Hcmd. unfold request, req_len.
          destruct (Nat.leb_spec (a + CM_BUFFER_LEN) size), (Nat.leb_spec (a + CM_BUFFER_LEN + CM_BUFFER_LEN) size); [done|lia..]. }
    eapply triple_then; [apply fbuf_triple|]. rewrite fbuf_addr.
    eapply triple_then; [apply (write_triple present)|].
    apply triple_return. intros w Hw. split; [by rewrite H2|].
    exists (rel_at (a + CM_BUFFER_LEN)), (request (a + CM_BUFFER_LEN)). split; [|done].
    unfold next_request. destruct (Nat.leb_spec (a + CM_BUFFER_LEN) size); [exact Hw|lia].
  - destruct (Z.eqb_spec (cm_page c) 0) as [E|E]; [|lia]. cbn [negb].
    eapply triple_then.
    { unfold read_page. eapply triple_then; [apply (read_triple present); [done|]|].
      { rewrite length_app, H2, He. pose proof (Nat.mod_upper_bound size CM_BUFFER_LEN). lia. }
      rewrite Ps, Nat2Z.id, take_app_length', drop_app_length' by done.
      destruct (Nat.ltb_spec CM_BUFFER_LEN (length (chunk a))).
      { lia. }
      apply triple_return. intros w Hw. split; [reflexivity|exact Hw]. }
    eapply triple_then; [apply (read_triple present); [done|rewrite He; lia]|].
    rewrite (drop_ge e) by lia. cbn [cm_surplus cm_addr with_data].
    apply triple_return. intros w Hw. split.
    + do 2 f_equal. rewrite Pa, Ps, wrap_small; [lia|]. unfold fits. destruct Ha. lia.
    + do 2 eexists. split; [|lia]. unfold next_request.
      destruct (Nat.leb_spec (a + CM_BUFFER_LEN) size); [lia|]. rewrite app_nil_r. exact Hw.
Qed.
(** ** The whole picture *)

Context (disk : ∀ t n, disk_takes t n = n).

Lemma page_write a t rel cmd tr : (a <= size)%nat →
  triple (receiving f t [] 0 rel cmd (take a pic) tr) (file_id_write (Some (f, a)) (chunk a))
    (λ id w, id = Some (f, a + length (chunk a))%nat ∧
      receiving f (S t) [] 0 rel cmd (take (a + length (chunk a)) pic) tr w).
Proof.
  pose proof page_pos as N0. pose proof page_small as N1.
  intros Ha w Hw. unfold file_id_write, file_write, observe, mseq, upd, mreturn.
  do 2 eexists. split; [reflexivity|]. rewrite disk, firstn_all. split; [done|].
  destruct Hw as [? ? ? ? ? Hf]. split; simpl; try congruence.
  rewrite fn_lookup_insert, Hf. simpl. f_equal. unfold memcpy_at.
  rewrite (take_ge (take a pic)) by (rewrite length_take; lia).
  rewrite drop_ge, app_nil_r by (rewrite length_take; lia).
  rewrite <- (take_take_drop pic). f_equal. unfold chunk.
  by rewrite length_take, <- take_take, firstn_all.
Qed.

(** What is in the receive buffer when the thread has thrown away what was
    there after a timeout, and something came while it did so *)
Definition after_flush (t : nat) : list Z := drop CM_BUFFER_LEN (arrivals t ++ arrivals (1 + t)).

(** The camera's side, from observation [t] and address [a] on.  An answer that
    comes in time ([true]) is there as a whole, with its header and its trailer
    of five bytes, when the wait for it ends, and nothing follows it.  An answer
    that does not ([false]) may be cut off or missing, and its rest may come
    while the thread empties the buffer, as long as fewer bytes are there than
    the thread waits for; when the request is repeated, nothing of it comes any
    more.  The list ends with the last page. *)
Fixpoint conversation (t a : nat) (sched : list bool) : Prop :=
  match sched with
  | [] => (size <= a)%nat
  | true :: sched =>
      (a < size)%nat ∧
      (∃ h e, length h = 5%nat ∧ length e = 5%nat ∧ arrivals t = h ++ chunk a ++ e) ∧
      arrivals (1 + t) = [] ∧ arrivals (2 + t) = [] ∧ arrivals (3 + t) = [] ∧
      conversation (5 + t) (a + length (chunk a)) sched
  | false :: sched =>
      (a < size)%nat ∧ Z.of_nat (length (arrivals t ++ arrivals (1 + t))) < rel_at a ∧
      Z.of_nat (length (after_flush t ++ arrivals (2 + t))) < rel_at a ∧
      (length (after_flush t ++ arrivals (2 + t)) <= CM_BUFFER_LEN)%nat ∧
      conversation (3 + t) a sched
  end.

(** The requests the camera gets meanwhile *)
Fixpoint requests (a : nat) (sched : list bool) : list Event :=
  match sched with
  | [] => []
  | true :: sched => next_request a ++ requests (a + length (chunk a)) sched
  | false :: sched => Ev_write DEV_CAMERA_UART (request a) :: requests a sched
  end.

Definition timeouts (sched : list bool) : nat := length (filter (λ b, b = false) sched).

Lemma rel_max a : (a <= size)%nat → rel_at a <= Z.of_nat CM_BUFFER_LEN + 10.
Proof. pose proof page_pos as N0. intros H. unfold rel_at. rewrite chunk_length by done. lia. Qed.

Lemma page_next a : page_start a → (a + CM_BUFFER_LEN < size)%nat → page_start (a + CM_BUFFER_LEN).
Proof.
  pose proof page_pos as N0. pose proof page_small as N1.
  intros Ha H. split; [done|]. destruct (page_step a Ha) as [?|?]; lia.
Qed.

Lemma at_page_next a c d :
  page_start a → (a + CM_BUFFER_LEN <= size)%nat → at_page a c →
  at_page (a + CM_BUFFER_LEN)
    (with_page (u32 (cm_page c - 1)) (with_addr (Z.of_nat (a + CM_BUFFER_LEN)) (with_data d c))).
Proof.
  pose proof page_pos as N0. pose proof page_small as N1.
  intros Ha Hle [Pa Pp Ps Pz]. destruct (page_step a Ha) as [(?&?&?&H4&?)|?];
    [|lia].
  split; cbn [cm_addr cm_page cm_surplus cm_size with_page with_addr with_data]; try done.
  rewrite Pp. rewrite H4, wrap_small; [lia|].
  assert ((size - (a + CM_BUFFER_LEN)) / CM_BUFFER_LEN <= size)%nat
    by (apply Nat.Div0.div_le_upper_bound; nia). unfold fits. lia.
Qed.

Lemma data_loop_run sched : ∀ fuel ot t a c tr w,
  (length sched <= fuel)%nat → (ot + timeouts sched < CM_OUTTIME_NUM)%nat →
  page_start a → at_page a c → conversation t a sched →
  receiving f t [] 0 (rel_at a) (request a) (take a pic) tr w →
  ∃ c' w', data_deal_loop fuel ot (Some (f, a)) c w = Done c' w' ∧
    files w' f = Some pic ∧ trace w' = tr ++ requests a sched ∧
    cm_addr c' = Z.of_nat size ∧
    cm_error c' = Z.lor (cm_error c) (if (timeouts sched =? 0)%nat then 0 else CM_RECV_OUT_TIME).
Proof.
  pose proof page_pos as N0. pose proof page_small as N1.
  induction sched as [|ok sched IH]; intros fuel ot t a c tr w Hfuel Hot Ha Hc Hcv Hw.
  { exfalso. destruct Ha. simpl in Hcv. lia. }
  destruct fuel as [|fuel]; [simpl in Hfuel; lia|]. simpl in Hfuel. cbn [data_deal_loop].
  destruct (Nat.ltb_spec ot CM_OUTTIME_NUM); [|lia].
  assert (0 < rel_at a) as Hrel by (unfold rel_at; lia).
  pose proof (rel_max a ltac:(destruct Ha; lia)) as Hmax. destruct ok.
  - destruct Hcv as (_ & (h & e & Hh & He & A0) & A1 & A2 & A3 & Hcv).
    assert (length (arrivals t) <= RX_CAPACITY)%nat as Hcap.
    { rewrite A0, !length_app, Hh, He. unfold rel_at in Hmax. lia. }
    destruct (sem_triple f t (rel_at a) _ _ _ Hcap Hrel w Hw) as (b & w1 & E1 & -> & H1).
    rewrite (mseq_run _ _ _ _ _ E1).
    assert ((rel_at a <=? Z.of_nat (length (arrivals t))) = true) as ->.
    { apply Z.leb_le. rewrite A0, !length_app, Hh, He. unfold rel_at. lia. }
    rewrite A0 in H1.
    destruct (data_page_triple a c (S t) h e _ _ Ha Hc Hh He A1 A2 A3 w1 H1)
      as (r & w2 & E2 & -> & rel & cmd & H2 & Hnext).
    rewrite (mseq_run _ _ _ _ _ E2). cbv beta iota.
    destruct (page_write a _ _ _ _ ltac:(destruct Ha; lia) w2 H2) as (id & w3 & E3 & -> & H3).
    rewrite (mseq_run _ _ _ _ _ E3).
    cbn [cm_size cm_addr cm_page with_page with_addr with_data].
    rewrite (pg_size _ _ Hc), wrap_small by (unfold fits; lia).
    destruct (Z.leb_spec (Z.of_nat size) (Z.of_nat (a + length (chunk a)))) as [Hd|Hd].
    + assert (a + length (chunk a) = size)%nat as Ea.
      { destruct Ha. rewrite chunk_length in * by lia. lia. }
      destruct sched as [|[] sched]; [|simpl in Hcv; lia..].
      do 2 eexists. split; [reflexivity|]. destruct H3 as [? ? ? ? ? Hf Ht]. rewrite Ea in *.
      split; [by rewrite Hf, firstn_all|]. split; [rewrite Ht; cbn; by rewrite app_nil_r|].
      split; [done|]. cbn. by rewrite Z.lor_0_r.
    + destruct (page_step a Ha) as [(P1 & P2 & _)|P]; [|lia].
      rewrite P2 in *.
      destruct (Hnext ltac:(lia)) as [-> ->].
      destruct (IH fuel ot _ _ (with_page (u32 (cm_page c - 1))
        (with_addr (Z.of_nat (a + CM_BUFFER_LEN)) (with_data (memcpy_at (cm_data c) 0 (chunk a)) c)))
        _ w3 ltac:(lia) Hot (page_next a Ha ltac:(lia)) (at_page_next _ _ _ Ha ltac:(lia) Hc) Hcv H3)
        as (c' & w' & E & F & T & S & R).
      exists c', w'. split; [exact E|]. split; [done|]. split; [|by split].
      rewrite T. cbn [requests]. by rewrite P2, app_assoc.
  - destruct Hcv as (_ & A1 & A2 & A3 & Hcv).
    assert (Z.of_nat (length (arrivals t)) < rel_at a) as A0 by (rewrite length_app in A1; lia).
    assert (length (arrivals t) <= RX_CAPACITY)%nat as Hcap by lia.
    assert (rel_at a <= Z.of_nat RX_CAPACITY) as Hcap2 by lia.
    destruct (sem_triple f t (rel_at a) _ _ _ Hcap Hrel w Hw) as (b & w1 & E1 & -> & H1).
    rewrite (mseq_run _ _ _ _ _ E1), (proj2 (Z.leb_gt _ _) A0).
    unfold camera_read_data at 1. rewrite mseq_assoc.
    destruct (read_late_triple present f CM_BUFFER_LEN _ _ _ _ _ _ _ A1 Hcap2 w1 H1)
      as (l & w2 & E2 & -> & H2).
    rewrite (mseq_run _ _ _ _ _ E2), mseq_return_l.
    unfold camera_read_data. rewrite mseq_assoc.
    destruct (read_late_triple present f CM_BUFFER_LEN _ _ _ _ _ _ _ A2 Hcap2 w2 H2)
      as (l' & w3 & E3 & -> & H3).
    rewrite (mseq_run _ _ _ _ _ E3), mseq_return_l.
    rewrite (drop_ge _ _ A3) in H3.
    destruct (write_triple present _ _ _ _ _ _ _ _ w3 H3) as (u & w4 & E4 & -> & H4).
    rewrite (mseq_run _ _ _ _ _ E4).
    change (timeouts (false :: sched)) with (S (timeouts sched)) in Hot |- *.
    set (c1 := with_data _ (with_data _ (add_error CM_RECV_OUT_TIME c))).
    assert (at_page a c1) as Hc1 by (by destruct Hc; split).
    assert (length sched <= fuel)%nat as Hfuel1 by lia.
    assert (S ot + timeouts sched < CM_OUTTIME_NUM)%nat as Hot1 by lia.
    destruct (IH fuel (S ot) _ _ c1 _ w4 Hfuel1 Hot1 Ha Hc1 Hcv H4) as (c' & w' & E & F & T & S & R).
    exists c', w'. split; [exact E|]. split; [done|]. split; [rewrite T, <- app_assoc; done|].
    split; [done|]. rewrite R.
    change (cm_error c1) with (Z.lor (cm_error c) CM_RECV_OUT_TIME). rewrite <- Z.lor_assoc. f_equal. by case_match.
Qed.
(** ** Into a fresh file *)

Context (works : ∀ t, file_works f t = true).

Definition request_shape (cmd : list Z) : Prop :=
  ∃ ft a l, cmd = [0x56; 0x00; 0x32; 0x0C; ft; 0x0a] ++ uint32_to_array a ++ uint32_to_array l ++
    [0x00; 0x00].

Lemma picture_stored c sched fuel w :
  frame_type = 0 ∨ frame_type = 1 → request_shape (get_photo_fbuf_cmd w) →
  camera_rx w = [] → usart_data_sem w = 0%nat → com2_rx_indicate w = true →
  at_page 0 (with_addr 0 c) → conversation (2 + now w) 0 sched →
  (timeouts sched < CM_OUTTIME_NUM)%nat → (length sched <= fuel)%nat →
  ∃ c' w', (c <- photo_set_per_read_size frame_type c ;; photo_write_file fuel f c) w = Done c' w' ∧
    files w' f = Some pic ∧
    trace w' = trace w ++ Ev_write DEV_CAMERA_UART (request 0) :: requests 0 sched ∧
    cm_addr c' = Z.of_nat size ∧
    cm_error c' = Z.lor (cm_error c) (if (timeouts sched =? 0)%nat then 0 else CM_RECV_OUT_TIME).
Proof.
  pose proof page_pos as N0. pose proof page_small as N1.
  intros Hft (ft & a0 & l0 & Hcmd) Hrx Hsem Hind Hc Hcv Ht Hfuel.
  assert (page_start 0) as H0. { split; [lia|done]. }
  set (w1 := set_trace (trace w ++ [Ev_write DEV_CAMERA_UART (request 0)])
    (set_get_photo_fbuf_cmd (request 0) w)).
  assert (photo_set_per_read_size frame_type c w = Done (with_addr 0 c) w1) as E1.
  { unfold photo_set_per_read_size, write_fbuf_cmd, camera_write, fbuf_put, mseq, upd, get, emit,
      mreturn. rewrite present. cbn [get_photo_fbuf_cmd set_get_photo_fbuf_cmd].
    assert (memcpy_at (memcpy_at (memcpy_at (get_photo_fbuf_cmd w) 10
      (uint32_to_array (Z.of_nat CM_BUFFER_LEN))) 6 (uint32_to_array 0)) 4
      [if frame_type =? 0 then 0 else 1] = request 0) as ->.
    { rewrite Hcmd. unfold request, req_len, fbuf_cmd.
      destruct (Nat.leb_spec (0 + CM_BUFFER_LEN) size); [|lia].
      destruct Hft as [-> | ->]; reflexivity. }
    reflexivity. }
  rewrite (mseq_run _ _ _ _ _ E1). unfold photo_write_file.
  rewrite (mseq_run _ _ _ _ _ (file_unlink_works f w1 (works _))).
  rewrite (mseq_run _ _ _ _ _ (file_create_works f _ (works _))).
  unfold photo_data_deal. unfold mseq, upd.
  replace (trace w ++ _) with (trace w1 ++ requests 0 sched) by (cbn; by rewrite <- app_assoc).
  change (cm_error c) with (cm_error (with_addr 0 (with_addr 0 c))).
  apply data_loop_run with (t := (2 + now w)%nat); try done.
  split; try done.
  - unfold rel_at. rewrite chunk_length by lia. rewrite Nat.sub_0_r, Nat.min_l by lia. done.
  - cbn. by rewrite !fn_lookup_insert.
Qed.
End picture.

(** C19 (functional). The transfer of a picture of at least one page to a file,
    from a camera that answers in time, or else is silent again when the request
    is repeated ([conversation]; what comes before that is thrown away), with
    fewer than ten timeouts and a disk that works: the file holds exactly the
    picture, whatever was in it, and whatever the pattern of answers in time,
    cut off and missing; every request asks for the page that is missing, after
    a timeout for the same one again; the error flag tells whether there was a
    timeout.  A camera that goes on with an answer after the request for it was
    repeated is excluded, and has to be ([late_answer_corrupts]). *)
Theorem picture_received `{HB : Board} pic f frame_type c sched fuel w :
  camera_has DEV_CAMERA_UART = true →
  (CM_BUFFER_LEN <= length pic)%nat → Z.of_nat (length pic) < 2 ^ 31 →
  (∀ t n, disk_takes t n = n) → (∀ t, file_works f t = true) →
  frame_type = 0 ∨ frame_type = 1 → request_shape (get_photo_fbuf_cmd w) →
  camera_rx w = [] → usart_data_sem w = 0%nat → com2_rx_indicate w = true →
  at_page pic 0 (with_addr 0 c) → conversation pic (2 + now w) 0 sched →
  (timeouts sched < CM_OUTTIME_NUM)%nat → (length sched <= fuel)%nat →
  ∃ c' w', (c <- photo_set_per_read_size frame_type c ;; photo_write_file fuel f c) w = Done c' w' ∧
    files w' f = Some pic ∧
    trace w' = trace w ++ Ev_write DEV_CAMERA_UART (request pic frame_type 0) ::
      requests pic frame_type 0 sched ∧
    cm_addr c' = Z.of_nat (length pic) ∧
    cm_error c' = Z.lor (cm_error c) (if (timeouts sched =? 0)%nat then 0 else CM_RECV_OUT_TIME).
Proof. intros. by apply picture_stored. Qed.

(** A picture of two pages and a rest; the second answer is cut off, and some of
    its rest comes late. *)
Definition small_picture : list Z := map (λ i, Z.of_nat i mod 253) (seq 0 4100).

Definition camera_frame (a : nat) : list Z :=
  repeat 0x76 5 ++ chunk small_picture a ++ repeat 0x76 5.

Definition camera_board : Board := bench_board (λ _ _, 1) (λ d t,
  match d, t with
  | DEV_CAMERA_UART, 2%nat => camera_frame 0
  | DEV_CAMERA_UART, 7%nat => take 100 (camera_frame 2000)
  | DEV_CAMERA_UART, 8%nat => take 60 (drop 100 (camera_frame 2000))
  | DEV_CAMERA_UART, 10%nat => camera_frame 2000
  | DEV_CAMERA_UART, 15%nat => camera_frame 4000
  | _, _ => []
  end).

Definition small_camera : CAMERA := mkCamera 100 0 2 4100 0 0 (repeat 0 CM_BUFFER_LEN).
Definition camera_world : World := set_com2_rx_indicate true start_world.

Lemma camera_frame_arrives a (HB := camera_board) t :
  map u8 (camera_frame a) = camera_frame a → uart_arrivals DEV_CAMERA_UART t = camera_frame a →
  ∃ h e, length h = 5%nat ∧ length e = 5%nat ∧ arrivals t = h ++ chunk small_picture a ++ e.
Proof. intros H1 H2. exists (repeat 0x76 5), (repeat 0x76 5). unfold arrivals. by rewrite H2, H1. Qed.

Lemma picture_received_witness :
  ∃ c' w', (c <- photo_set_per_read_size (HB:=camera_board) 0 small_camera ;;
      photo_write_file (HB:=camera_board) 4 F_1_jpg c) camera_world = Done c' w' ∧
    files w' F_1_jpg = Some small_picture ∧
    trace w' = Ev_write DEV_CAMERA_UART (request small_picture 0 0) ::
      requests small_picture 0 0 [true; false; true; true] ∧
    cm_addr c' = 4100 ∧ cm_error c' = CM_RECV_OUT_TIME.
Proof.
  apply (picture_received (HB:=camera_board) small_picture F_1_jpg 0 small_camera
    [true; false; true; true] 4 camera_world).
  - reflexivity.
  - by_computation.
  - by_computation.
  - done.
  - done.
  - by left.
  - by exists 0, 0, 0xffffffff.
  - reflexivity.
  - reflexivity.
  - reflexivity.
  - split; by_computation.
  - split; [by_computation|]. split; [by apply camera_frame_arrives; vm_compute|].
    do 3 (split; [reflexivity|]). split; [by_computation|]. split; [by_computation|].
    split; [by_computation|]. split; [by apply Nat.leb_le; vm_compute|]. split; [by_computation|].
    split; [by apply camera_frame_arrives; vm_compute|].
    do 3 (split; [reflexivity|]). split; [by_computation|].
    split; [by apply camera_frame_arrives; vm_compute|].
    do 3 (split; [reflexivity|]). by apply Nat.leb_le; vm_compute.
  - by_computation.
  - by_computation.
Defined.

(** An answer that goes on after the request for it was repeated is the exception:
    the first 1000 bytes come in time, the rest with the answer to the second
    request.  The pages are then cut out at the wrong places.  The file has the
    right size, and the error flag says no more than after a timeout that did
    no harm. *)
Definition late_board : Board := bench_board (λ _ _, 1) (λ d t,
  match d, t with
  | DEV_CAMERA_UART, 2%nat => take 1000 (camera_frame 0)
  | DEV_CAMERA_UART, 5%nat => drop 1000 (camera_frame 0) ++ camera_frame 0
  | DEV_CAMERA_UART, 10%nat => camera_frame 2000
  | DEV_CAMERA_UART, 15%nat => camera_frame 4000
  | _, _ => []
  end).

Example late_answer_corrupts :
  match (c <- photo_set_per_read_size (HB:=late_board) 0 small_camera ;;
      photo_write_file (HB:=late_board) 20 F_1_jpg c) camera_world with
  | Done c w => Some (cm_error c, length <$> files w F_1_jpg,
      bool_decide (files w F_1_jpg = Some small_picture))
  | _ => None
  end = Some (CM_RECV_OUT_TIME, Some 4100%nat, false).
Proof. vm_compute. reflexivity. Qed.

(** ** Every transfer ends *)

Section termination.
Context {HB : Board} (present : camera_has DEV_CAMERA_UART = true).

(** A run without undefined behaviour, in any state *)
Abbreviation total m R := (runs (λ _, True) m R).

Lemma read_total n : total (camera_read n) (λ l, (length l <= n)%nat).
Proof.
  intros w _. unfold camera_read. rewrite present.
  unfold camera_arrive, mseq, get, upd, mreturn. do 2 eexists. split; [reflexivity|].
  split; [done|]. rewrite length_take. lia.
Qed.

Lemma read_data_total c : total (camera_read_data c) (λ r, ∃ d, snd r = with_data d c).
Proof.
  apply runs_then; [eapply safe_weaken, read_total|intros l]. apply runs_return. by eexists.
Qed.

Lemma write_fbuf_total : total write_fbuf_cmd (λ _, True).
Proof.
  unfold write_fbuf_cmd, camera_write. rewrite present.
  apply runs_then; [by apply runs_get|intros]. by apply runs_upd.
Qed.

Lemma sem_total : total usart_data_sem_take (λ _, True).
Proof.
  apply runs_then; [by apply runs_get|intros [|n]].
  - apply runs_then; [by intros w _; do 2 eexists|intros _].
    apply runs_then; [by apply runs_get|intros [|n]]; [by apply runs_return|].
    apply runs_then; [by apply runs_upd|intros]. by apply runs_return.
  - apply runs_then; [by apply runs_upd|intros]. by apply runs_return.
Qed.

Lemma read_page_total n c :
  (n <= CM_BUFFER_LEN)%nat →
  total (read_page n c) (λ r, ∃ d, snd r = with_data d c).
Proof.
  intros Hn. eapply runs_seq; [apply read_total|]. intros l Hl. cbv beta in Hl.
  destruct (Nat.ltb_spec CM_BUFFER_LEN (length l)); [lia|]. apply runs_return. by eexists.
Qed.

(** [k] pages are to come before the rest. *)
Record pages_left (size : Z) (k : nat) (c : CAMERA) : Prop := {
  pl_page : cm_page c = Z.of_nat k;
  pl_surplus : 0 <= cm_surplus c < Z.of_nat CM_BUFFER_LEN;
  pl_addr : 0 <= cm_addr c;
  pl_sum : cm_addr c + Z.of_nat k * Z.of_nat CM_BUFFER_LEN + cm_surplus c = size;
  pl_size : cm_size c = size
}.

Lemma data_page_total size k c :
  size < 2 ^ 31 → pages_left size k c →
  total (data_page c) (λ r, (k = 0%nat ∧ cm_addr (snd r) = size ∧ cm_size (snd r) = size) ∨
    ∃ k', k = S k' ∧ cm_page (snd r) = Z.of_nat k ∧
      pages_left size k' (with_page (Z.of_nat k') (snd r))).
Proof.
  intros Hs [Pp Ps Pa Psum Pz]. pose proof page_pos as N0. unfold data_page.
  apply runs_then; [eapply safe_weaken, read_total|intros _].
  rewrite Pp. destruct k as [|k].
  - cbn [Z.of_nat Z.eqb negb].
    eapply runs_seq; [apply read_page_total; lia|]. intros [l c'] [d Hc]. cbn [snd] in Hc. subst c'.
    apply runs_then; [eapply safe_weaken, read_total|intros _].
    apply runs_return. left. cbn [snd cm_addr cm_size with_addr with_data cm_surplus].
    rewrite wrap_small by (unfold fits; lia). lia.
  - destruct (Z.eqb_spec (Z.of_nat (S k)) 0); [lia|]. cbn [negb].
    eapply runs_seq; [apply read_page_total; lia|]. intros [l c'] [d Hc]. cbn [snd] in Hc. subst c'.
    apply runs_then; [eapply safe_weaken, read_total|intros _].
    apply runs_then.
    { apply runs_when. intros _. apply runs_then; [by apply runs_upd|intros _]. by apply runs_upd. }
    intros _. apply runs_then; [by apply runs_upd|intros _].
    apply runs_then; [apply write_fbuf_total|intros _]. apply runs_return. right. exists k.
    split; [done|]. cbn [snd cm_page with_addr with_data]. split; [done|].
    split; cbn [cm_addr cm_page cm_surplus cm_size with_page with_addr with_data]; try done.
    + by apply wrap_fits.
    + rewrite wrap_small by (unfold fits; nia). lia.
Qed.

Lemma file_write_total id l : total (file_id_write id l) (λ _, True).
Proof.
  unfold file_id_write. destruct id as [[f off]|]; [|by apply runs_return].
  apply runs_then; [|intros; by apply runs_return].
  apply runs_then; [by intros w _; do 2 eexists|intros n].
  apply runs_then; [by apply runs_upd|intros _]. by apply runs_return.
Qed.

(** The picture is complete, or the error is flagged. *)
Definition dealt (size : Z) (c : CAMERA) : Prop :=
  cm_addr c = size ∨ Z.testbit (cm_error c) 1 = true.

Lemma data_deal_total size fuel : ∀ ot id k c,
  size < 2 ^ 31 → pages_left size k c → (ot <= CM_OUTTIME_NUM)%nat →
  (CM_OUTTIME_NUM - ot + k + 1 < fuel)%nat →
  total (data_deal_loop fuel ot id c) (dealt size).
Proof.
  induction fuel as [|fuel IH]; intros ot id k c Hs Hc Hot Hf; [lia|]. cbn [data_deal_loop].
  destruct (Nat.ltb_spec ot CM_OUTTIME_NUM).
  - apply runs_then; [apply sem_total|intros [|]].
    + eapply runs_seq; [by apply (data_page_total size k)|]. intros [l c'] Hc'.
      apply runs_then; [apply file_write_total|intros id'].
      destruct Hc' as [(-> & Ha & Hz)|(k' & -> & Hp & Hc')]; cbn [snd] in *.
      * cbn [cm_size cm_addr with_page]. rewrite Ha, Hz.
        rewrite wrap_small by (pose proof (pl_sum _ _ _ Hc); pose proof (pl_addr _ _ _ Hc);
          pose proof (pl_surplus _ _ _ Hc); unfold fits; lia).
        rewrite Z.leb_refl. apply runs_return. by left.
      * assert (u32 (cm_page c' - 1) = Z.of_nat k') as ->.
        { rewrite Hp, wrap_small; [lia|]. pose proof (pl_sum _ _ _ Hc). pose proof (pl_addr _ _ _ Hc).
          pose proof (pl_surplus _ _ _ Hc). pose proof page_pos. unfold fits. nia. }
        apply runs_if; intros Hle; [|apply (IH _ _ k'); [done|done|lia|lia]].
        apply runs_return. left. apply Z.leb_le in Hle.
        destruct Hc' as [H1 H2 H3 H4 H5]. rewrite H5, wrap_small in Hle by (unfold fits; lia). lia.
    + eapply runs_seq; [apply read_data_total|]. intros [l1 c1] [d1 H1]. cbn [snd] in H1. subst c1.
      eapply runs_seq; [apply read_data_total|]. intros [l2 c2] [d2 H2]. cbn [snd] in H2. subst c2.
      apply runs_then; [apply write_fbuf_total|intros _].
      apply (IH _ _ k); [done|by destruct Hc; split|lia|lia].
  - apply runs_return. right. cbn [cm_error add_error with_error]. rewrite Z.lor_spec.
    by rewrite orb_true_r.
Qed.
End termination.

(** C40 (termination). For every behaviour of the camera and of the disk,
    receiving a picture whose size was accepted ends without undefined
    behaviour, within one round per page and ten timeouts: either the address
    has reached the size or the error is flagged. *)
Theorem photo_data_deal_terminates `{HB : Board} size k fuel id c w :
  camera_has DEV_CAMERA_UART = true → size < 2 ^ 31 → pages_left size k (with_addr 0 c) →
  (k + 11 < fuel)%nat →
  ∃ c' w', photo_data_deal fuel id c w = Done c' w' ∧
    (cm_addr c' = size ∨ Z.testbit (cm_error c') 1 = true).
Proof.
  intros Hp Hs Hc Hf.
  destruct (data_deal_total Hp size fuel 0 id k (with_addr 0 c) Hs Hc ltac:(lia)
    ltac:(unfold CM_OUTTIME_NUM; lia)
    (set_release_com2_data (Z.of_nat CM_BUFFER_LEN + 10) w) I) as (c' & w' & E & _ & D).
  by exists c', w'.
Qed.

Lemma photo_data_deal_terminates_witness :
  ∃ c' w', photo_data_deal (HB:=quiet_board) 14 None small_camera start_world = Done c' w' ∧
    (cm_addr c' = 4100 ∨ Z.testbit (cm_error c') 1 = true).
Proof.
  apply (photo_data_deal_terminates (HB:=quiet_board) 4100 2).
  - reflexivity.
  - reflexivity.
  - split; by_computation.
  - lia.
Defined.

(** ** What is wrong with the error handling *)

Section errors.
Context {HB : Board} (present : camera_has DEV_CAMERA_PHOTOSENSOR = true).

Lemma camera_all_present :
  camera_has DEV_CAMERA_UART = true ∧ camera_has DEV_CAMERA_POWER = true ∧
  dev_present DEV_CAMERA_UART = true.
Proof.
  revert present. simpl. destruct (dev_present DEV_CAMERA_UART), (dev_present DEV_CAMERA_LED),
    (dev_present DEV_CAMERA_POWER); done.
Qed.

(** A camera that never answers leaves the queues and the files alone. *)
Definition waiting (fs : FILE → option (list Z)) mm sm gp (w : World) : Prop :=
  camera_rx w = [] ∧ usart_data_sem w = 0%nat ∧ files w = fs ∧ mms_mq w = mm ∧ sms_mq w = sm ∧
  gprs_mq w = gp.

Context (silent : ∀ t, uart_arrivals DEV_CAMERA_UART t = []) (fs : FILE → option (list Z)).
Context (mm : option (Queue MMS_MAIL)) (sm : option (Queue SMS_MAIL)) (gp : option (Queue GPRS_MAIL)).

Abbreviation silently m Q := (triple (waiting fs mm sm gp) m (λ a w, Q a ∧ waiting fs mm sm gp w)).

Lemma silent_arrive : silently camera_arrive (λ _, True).
Proof. intros w Hw. unfold camera_arrive. rewrite silent. do 2 eexists. split; [reflexivity|]. done. Qed.

Lemma silent_sem : silently usart_data_sem_take (λ ok, ok = false).
Proof.
  eapply triple_then; [apply (triple_get _ 0%nat); by intros w (_ & ? & _)|].
  eapply triple_seq; [apply silent_arrive|]. intros []. apply triple_pure. intros _.
  eapply triple_then; [apply (triple_get _ 0%nat); by intros w (_ & ? & _)|].
  by apply triple_return.
Qed.

Lemma silent_read_data c : silently (camera_read_data c) (λ r, ∃ d, snd r = with_data d c).
Proof.
  unfold camera_read_data, camera_read. rewrite (proj1 camera_all_present).
  eapply triple_seq; [|intros l; apply triple_return; intros w Hw; split; [by eexists|exact Hw]].
  eapply triple_seq; [apply silent_arrive|]. intros []. apply triple_pure. intros _.
  eapply triple_then; [apply (triple_get _ []); by intros w (? & _)|].
  eapply triple_then; [apply (triple_upd _ _ (waiting fs mm sm gp)); intros w (?&?&?&?&?&?)|].
  - rewrite drop_nil. by split_and!.
  - by apply triple_return.
Qed.

Lemma silent_write : silently write_fbuf_cmd (λ _, True).
Proof.
  unfold write_fbuf_cmd, camera_write. rewrite (proj1 camera_all_present).
  intros w (?&?&?&?&?&?). do 2 eexists. split; [reflexivity|]. by split_and!.
Qed.

Lemma silent_loop n id : ∀ ot fuel c, (ot + n = CM_OUTTIME_NUM)%nat → (n < fuel)%nat →
  silently (data_deal_loop fuel ot id c)
    (λ c', cm_error c' = Z.lor (if (n =? 0)%nat then cm_error c
      else Z.lor (cm_error c) CM_RECV_OUT_TIME) CM_DEAL_DATA_ERROR).
Proof.
  induction n as [|n IH]; intros ot [|fuel] c Ho Hf; try lia; cbn [data_deal_loop].
  - destruct (Nat.ltb_spec ot CM_OUTTIME_NUM); [lia|]. by apply triple_return.
  - destruct (Nat.ltb_spec ot CM_OUTTIME_NUM); [|lia].
    eapply triple_seq; [apply silent_sem|]. intros ok. apply triple_pure. intros ->.
    eapply triple_seq; [apply silent_read_data|]. intros [l1 c1]. apply triple_pure. intros [d1 H1].
    eapply triple_seq; [apply silent_read_data|]. intros [l2 c2]. apply triple_pure. intros [d2 H2].
    eapply triple_seq; [apply silent_write|]. intros []. apply triple_pure. intros _.
    cbn [snd] in *. subst c1 c2.
    eapply triple_consequence; [apply (IH (S ot) fuel); lia|done|].
    intros c' w [Hc Hw]. split; [|done]. rewrite Hc.
    cbn [cm_error with_data add_error with_error]. cbn [Nat.eqb].
    destruct (n =? 0)%nat; [done|]. by rewrite <- (Z.lor_assoc (cm_error c)), Z.lor_diag.
Qed.
End errors.

(** A camera that answers nothing but the length of the picture: the
    transfer gives up after ten timeouts, the file is as it was, and still an
    MMS is posted as after success, and neither the SMS nor the GPRS thread
    gets the alarm of a camera fault, because the flag of the timeouts lets the
    report take the error for none. *)
Lemma missing_picture_sent `{HB : Board} fuel id c recv_mq w q :
  camera_has DEV_CAMERA_PHOTOSENSOR = true → (∀ t, uart_arrivals DEV_CAMERA_UART t = []) →
  camera_rx w = [] → usart_data_sem w = 0%nat → cm_error c = CM_RUN_DEAL_OK →
  mms_mq w = Some q → q_room q 1 → (CM_OUTTIME_NUM < fuel)%nat →
  ∃ time w', (c <- photo_data_deal fuel id c ;; photo_report c recv_mq) w = Done () w' ∧
    files w' = files w ∧ sms_mq w' = sms_mq w ∧ gprs_mq w' = gprs_mq w ∧
    mms_mq w' = Some (q_append q
      [mkMmsMail time (cm_alarm_type recv_mq) (cm_name2 recv_mq)]).
Proof.
  intros Hp Hsil Hrx Hsem He Hq Hr Hf.
  destruct (silent_loop Hp Hsil (files w) (mms_mq w) (sms_mq w) (gprs_mq w) CM_OUTTIME_NUM id 0 fuel
    (with_addr 0 c) eq_refl Hf (set_release_com2_data (Z.of_nat CM_BUFFER_LEN + 10) w))
    as (c' & w1 & E & Ec & (_ & _ & Hfs & Hmm & Hsm & Hgp)).
  { by split_and!. }
  exists (rtc_time (now w1)). eexists. split.
  - unfold photo_data_deal. rewrite mseq_assoc. unfold mseq at 1, upd. unfold mseq at 1.
    rewrite E. unfold photo_report. rewrite Ec. cbn [cm_error with_addr]. rewrite He.
    change (_ || _) with true. cbv iota.
    unfold send_mms_mail. unfold mseq, mail_time. cbn [Z.eqb]. unfold rtc_get_time, observe.
    rewrite (post_mail_room _ _ _ _ q) by (try done; simpl; congruence). reflexivity.
  - by split_and!.
Qed.

Definition photo_mail : CM_RECV_MQ := mkCmRecv 200 0 ALARM_TYPE_LOCK_SHELL F_1_jpg F_2_jpg.

Lemma missing_picture_sent_witness :
  ∃ time w', (c <- photo_data_deal (HB:=quiet_board) 11 None small_camera ;;
      photo_report (HB:=quiet_board) c photo_mail) start_world = Done () w' ∧
    files w' = files start_world ∧ sms_mq w' = Some (mkQueue [] 20) ∧
    gprs_mq w' = Some (mkQueue [] 20) ∧
    mms_mq w' = Some (mkQueue [mkMmsMail time ALARM_TYPE_LOCK_SHELL F_2_jpg] 20).
Proof.
  apply (missing_picture_sent (HB:=quiet_board) 11 None small_camera photo_mail start_world
    (mkQueue [] 20)); try reflexivity; [by_computation|unfold CM_OUTTIME_NUM; lia].
Defined.

(** ** A day without a picture *)

Section selftest.
Context {HB : Board} (present : camera_has DEV_CAMERA_PHOTOSENSOR = true).

Abbreviation total m R := (runs (λ _, True) m R).

Lemma delay_total n : total (camera_delay n) (λ _, True).
Proof. apply runs_then; [by apply runs_upd|intros _]. by intros w _; do 2 eexists. Qed.

Lemma power_total s : total (camera_power_control s) (λ _, True).
Proof.
  apply runs_when. intros _. apply runs_then; [by apply runs_upd|intros _].
  unfold camera_write. rewrite (proj1 (proj2 (camera_all_present present))). by apply runs_upd.
Qed.

Lemma last_memcpy mem pos b :
  (S pos < length mem)%nat → last (memcpy_at mem pos [b]) = last mem.
Proof.
  intros H. unfold memcpy_at. rewrite <- (take_drop (pos + 1) mem) at 3. simpl length.
  destruct (drop (pos + 1) mem) as [|x l] eqn:E.
  - apply (f_equal length) in E. rewrite length_drop in E. simpl in E. lia.
  - by rewrite app_assoc, !last_app_cons.
Qed.

(** The buffer is larger than the number of rounds, so its end stays zero. *)
Lemma com_recv_total args wait_t : ∀ pos mem,
  (wait_t + pos < length mem)%nat → last mem = Some 0 →
  total (com_recv_loop wait_t pos args mem) (λ _, True).
Proof.
  induction wait_t as [|wait_t IH]; intros pos mem Hl Hz; cbn [com_recv_loop]; [by apply runs_return|].
  apply runs_then; [apply delay_total|intros _].
  eapply runs_seq; [apply read_total, (camera_all_present present)|]. intros l Hn. cbv beta in Hn.
  destruct l as [|b [|b' l]]; [apply IH; [lia|done]| |simpl in Hn; lia].
  destruct (Nat.ltb_spec pos (length mem)); [|lia].
  assert (last (memcpy_at mem pos [b]) = Some 0) as Hz'. { by rewrite last_memcpy by lia. }
  destruct (last_zero_cstr _ Hz') as (s & Hs & _). rewrite Hs.
  apply runs_then; [by apply runs_return|intros text].
  apply runs_if; intros _; [by apply runs_return|]. apply IH; [|done].
  rewrite memcpy_at_length by (simpl; lia). lia.
Qed.

Lemma analyze_total args : total (com_recv_data_analyze 200 300 args) (λ _, True).
Proof.
  unfold com_recv_data_analyze. apply runs_if; intros _; [by apply runs_return|].
  by apply com_recv_total; [rewrite repeat_length; lia|].
Qed.

Lemma self_test_total : total camera_module_self_test (λ _, True).
Proof.
  apply runs_then; [apply power_total|intros _]. apply runs_then; [apply analyze_total|intros _].
  apply runs_then; [|intros _; apply power_total].
  generalize 3%nat, 0. intros i. induction i as [|i IH]; intros e; cbn [self_test_loop];
    [by apply runs_return|].
  unfold camera_write. rewrite (proj1 (camera_all_present present)).
  apply runs_then; [by apply runs_upd|intros _]. apply runs_then; [apply analyze_total|intros r].
  apply runs_if; intros _; [|apply IH]. apply runs_then; [|intros _; apply IH].
  apply runs_when. intros _. unfold send_sms_mail.
  apply runs_then; [unfold mail_time; case_match; [by intros w _; do 2 eexists|by apply runs_return]|].
  intros t. by apply post_mail_runs.
Qed.
End selftest.

(** When no picture is asked for within 24 hours the thread tests
    the camera and then frees a block it does not have: at the top of its loop
    the pointer is one that was never set, or the one every finished round has
    freed. *)
Lemma idle_day_faults `{HB : Board} fuel photo w n :
  camera_has DEV_CAMERA_PHOTOSENSOR = true → photo_start_mq w = Some (mkQueue [] n) →
  photo_thread_step fuel photo Dangling w = Fault ∧
  (∀ fuel photo data w photo' data' w',
    photo_thread_step fuel photo data w = Done (photo', data') w' → data' = Dangling).
Proof.
  intros Hp Hq. split.
  - assert (rt_mq_recv photo_start_mq set_photo_start_mq w = Done None w) as E0.
    { unfold rt_mq_recv, mseq, get. by rewrite Hq. }
    unfold photo_thread_step. rewrite (mseq_run _ _ _ _ _ E0).
    destruct (self_test_total Hp w I) as ([] & w1 & E & _).
    rewrite mseq_assoc, (mseq_run _ _ _ _ _ E), mseq_return_l.
    destruct (delay_total 50 w1 I) as ([] & w2 & E2 & _).
    by rewrite (mseq_run _ _ _ _ _ E2).
  - clear. intros fuel photo data w photo' data' w' E. unfold photo_thread_step in E.
    apply mseq_Done in E as (m & w1 & _ & E). apply mseq_Done in E as ([c d] & w2 & _ & E).
    apply mseq_Done in E as (u & w3 & _ & E). apply mseq_Done in E as (d' & w4 & E4 & E).
    destruct d; [done|]. injection E4 as <- <-. by injection E as <- <- <-.
Qed.

Lemma idle_day_faults_witness :
  photo_thread_step (HB:=quiet_board) 20 small_camera Dangling start_world = Fault.
Proof. by apply (idle_day_faults (HB:=quiet_board) 20 small_camera start_world 8). Defined.
