(* ===== verification/Infrared.v ===== *)
(** * The infrared sensor of the camera (src/photo.c, the detection thread)

    An edge of the sensor releases [cm_ir_sem] (Sensors.v); the thread then
    watches the pin until nobody has stood there for a while.  Someone who
    stays long enough is an alarm, and leaving after an alarm is a photograph.
    Two software timers count for the thread: they expire while it sleeps. *)
From stdpp Require Import base functions strings list.
From Stdlib Require Import ZArith Lia.
From S2P Require Import Prelude World Monad Untils Alarm Sensors.

Definition IR_ACTIVE_STATUS : Z := 0.
Definition CM_IR_TEST_TIME : Z := 55.
Definition CM_IR_ALARM_TOUCH_PERIOD : Z := 1.

(** The local variables of the thread that live as long as it does *)
Record IR := mkIr { ir_pin_dat : Z; ir_flag : Z; leave_flag : Z }.

Section infrared.
Context {HB : Board}.

(** ** The timers *)

Definition camera_infrared_timer : M () :=
  upd (λ w, set_cm_ir_time_value (u8 (cm_ir_time_value w + 1)) w).

Definition camera_alarm_time_interval : M () :=
  upd (λ w, set_cm_alarm_cnt_time_value (u8 (cm_alarm_cnt_time_value w + 1)) w) ;;;
  n <- get cm_alarm_cnt_time_value ;;
  when (CM_IR_ALARM_TOUCH_PERIOD <? n)
    (upd (set_cm_alarm_timer false) ;;;
     alarm_inform_send (Z.lor INFO_SEND_MMS INFO_SEND_SMS)).

(** A periodic timer expires [n] times, or until it is stopped. *)
Fixpoint timer_expire (n : nat) (running : World → bool) (timeout : M ()) : M () :=
  match n with
  | O => mreturn ()
  | S n =>
      on <- get running ;;
      when on (timeout ;;; timer_expire n running timeout)
  end.

(** What the two timers do while the thread waits *)
Definition camera_timers : M () :=
  n <- observe (timer_fires T_cm_ir) ;;
  timer_expire n cm_ir_timer camera_infrared_timer ;;;
  n <- observe (timer_fires T_cm_alarm) ;;
  timer_expire n cm_alarm_timer camera_alarm_time_interval.

(** ** The thread *)

(** rt_event_recv (alarm_inform_event, bits, AND | CLEAR, RT_WAITING_NO) *)
Definition alarm_inform_recv (bits : Z) : M bool :=
  e <- get alarm_inform_event ;;
  if Z.land e bits =? bits then
    upd (set_alarm_inform_event (Z.ldiff e bits)) ;;; mreturn true
  else mreturn false.

(** The timer saw two periods of presence. *)
Definition ir_stayed (st : IR) : M IR :=
  upd (set_cm_ir_time_value 0) ;;;
  upd (set_cm_ir_timer false) ;;;
  cur_data <- rtc_get_time ;;
  ok <- alarm_inform_recv INFO_SEND_MMS ;;
  if ok : bool then
    send_alarm_mail ALARM_TYPE_CAMERA_IRDASENSOR ALARM_PROCESS_FLAG_ALL (ir_pin_dat st) cur_data ;;;
    mreturn (mkIr (ir_pin_dat st) (ir_flag st) 1)
  else mreturn st.

(** Nobody was there for [CM_IR_TEST_TIME] readings more than somebody was. *)
Definition ir_left (st : IR) : M IR :=
  (if leave_flag st =? 1 then
     upd (set_cm_alarm_cnt_time_value 0) ;;;
     upd (set_cm_alarm_timer true) ;;;
     camera_send_mail ALARM_TYPE_CAMERA_IRDASENSOR 0
   else mreturn ()) ;;;
  upd (set_cm_ir_timer false) ;;;
  mreturn (mkIr (ir_pin_dat st) (ir_flag st) (if leave_flag st =? 1 then 2 else leave_flag st)).

(** The loop at the pin *)
Fixpoint ir_watch (fuel : nat) (st : IR) : M IR :=
  match fuel with
  | O => nofuel
  | S fuel =>
      dat <- pin_read DEV_CAMERA_IRDASENSOR ;;
      rt_thread_delay 1 ;;;
      camera_timers ;;;
      let st := mkIr dat (ir_flag st) (leave_flag st) in
      let again st :=
        v <- get cm_ir_time_value ;;
        st <- (if 2 <=? v then ir_stayed st else mreturn st) ;;
        ir_watch fuel st in
      if dat =? IR_ACTIVE_STATUS then
        again (mkIr dat (if 0 <? ir_flag st then ir_flag st - 1 else ir_flag st) (leave_flag st))
      else if ir_flag st <? CM_IR_TEST_TIME then
        again (mkIr dat (ir_flag st + 1) (leave_flag st))
      else ir_left st
  end.

(** rt_sem_take (cm_ir_sem, 200).  A release during the wait is the same as one
    before it. *)
Definition cm_ir_sem_take : M bool :=
  n <- get cm_ir_sem ;;
  match n with
  | S n => upd (set_cm_ir_sem n) ;;; mreturn true
  | O => camera_timers ;;; mreturn false
  end.

(** One round of the thread; asleep it waits.  The other values of
    [leave_flag] do nothing after a timeout. *)
Definition camera_infrared_round (fuel : nat) (st : IR) : M IR :=
  res <- machine_status_deal false RT_EVENT_FLAG_OR ;;
  if negb (res =? RT_EOK) then camera_timers ;;; mreturn st
  else
    ok <- cm_ir_sem_take ;;
    if ok : bool then
      upd (set_cm_ir_timer true) ;;;
      if dev_present DEV_CAMERA_IRDASENSOR then
        upd (set_cm_ir_time_value 0) ;;;
        ir_watch fuel (mkIr (ir_pin_dat st) 0 0)
      else mreturn st
    else if leave_flag st =? 0 then
      if dev_present DEV_CAMERA_IRDASENSOR then
        dat <- pin_read DEV_CAMERA_IRDASENSOR ;;
        when (dat =? IR_ACTIVE_STATUS)
          (upd (set_cm_ir_time_value 2) ;;;
           upd (λ w, set_cm_ir_sem (S (cm_ir_sem w)) w)) ;;;
        mreturn (mkIr dat (ir_flag st) 0)
      else fault
    else mreturn st.

(** What happens to the thread: a round of its loop, an edge of the sensor, or
    an accepted key, after which the local thread gives the permission to alarm
    (rfid_key_detect of src/local.c) *)
Inductive IR_STEP := Ir_round | Ir_edge | Ir_key.

Fixpoint camera_infrared_thread_enter (fuel : nat) (steps : list IR_STEP) (st : IR) : M IR :=
  match steps with
  | [] => mreturn st
  | Ir_round :: steps =>
      st <- camera_infrared_round fuel st ;;
      camera_infrared_thread_enter fuel steps st
  | Ir_edge :: steps =>
      rt_hw_gpio_isr DEV_CAMERA_IRDASENSOR ;;;
      camera_infrared_thread_enter fuel steps st
  | Ir_key :: steps =>
      alarm_inform_send (Z.lor INFO_SEND_MMS INFO_SEND_SMS) ;;;
      camera_infrared_thread_enter fuel steps st
  end.
End infrared.

Lemma machine_awake w : awake w → machine_status_deal false RT_EVENT_FLAG_OR w = Done RT_EOK w.
Proof.
  intros Haw. unfold awake in Haw. apply Z.eqb_neq in Haw.
  unfold machine_status_deal, mseq, get. by rewrite Haw.
Qed.

(** ** An episode of presence *)

Section episode.
Context {HB : Board}.
Variables (qa : Queue ALARM_MAIL) (qp : Queue CM_RECV_MQ).
Hypotheses (Ra : q_room qa 1) (Rp : q_room qp 1).

(** An alarm of the sensor, raised while somebody stood there *)
Definition ir_alarm (m : ALARM_MAIL) : Prop :=
  am_alarm_type m = ALARM_TYPE_CAMERA_IRDASENSOR ∧ am_process_flag m = ALARM_PROCESS_FLAG_ALL ∧
  byte (am_gpio_value m) ∧ ∃ t, am_time m = rtc_time t.

Definition ir_photo : CM_RECV_MQ :=
  mkCmRecv PHOTO_INTERVAL_TIME 0 ALARM_TYPE_CAMERA_IRDASENSOR F_1_jpg F_2_jpg.

(** The alarms and the photographs posted so far *)
Definition told (alarms : list ALARM_MAIL) (photos : list CM_RECV_MQ) (w : World) : Prop :=
  alarm_mq w = Some (q_append qa alarms) ∧ photo_start_mq w = Some (q_append qp photos).

(** In the loop *)
Definition watching (st : IR) (w : World) : Prop :=
  0 <= ir_flag st <= CM_IR_TEST_TIME ∧
  ((leave_flag st = 0 ∧ told [] [] w) ∨
   (leave_flag st = 1 ∧ cm_ir_timer w = false ∧ cm_ir_time_value w = 0 ∧
    ∃ m, ir_alarm m ∧ told [m] [] w)).

(** After the loop: either both or none *)
Definition left_alone (st : IR) (w : World) : Prop :=
  cm_ir_timer w = false ∧
  ((leave_flag st = 0 ∧ told [] [] w) ∨
   (leave_flag st = 2 ∧ cm_alarm_timer w = true ∧ cm_alarm_cnt_time_value w = 0 ∧
    ∃ m, ir_alarm m ∧ told [m] [ir_photo] w)).

(** What the timers do not touch *)
Record slept (w w' : World) : Prop := {
  sl_alarm : alarm_mq w' = alarm_mq w;
  sl_photo : photo_start_mq w' = photo_start_mq w;
  sl_timer : cm_ir_timer w' = cm_ir_timer w;
  sl_value : cm_ir_timer w = false → cm_ir_time_value w' = cm_ir_time_value w
}.

Lemma slept_refl w : slept w w.
Proof. by split. Qed.

Lemma slept_trans w1 w2 w3 : slept w1 w2 → slept w2 w3 → slept w1 w3.
Proof. intros [A B C D] [A' B' C' D']. split; try congruence. intros H. rewrite D', D; congruence. Qed.

Lemma expire_runs n running timeout w :
  (∀ w, running w = true → ∃ w', timeout w = Done () w' ∧ slept w w' ∧ now w' = now w) →
  ∃ w', timer_expire n running timeout w = Done () w' ∧ slept w w' ∧ now w' = now w.
Proof.
  intros H. revert w. induction n as [|n IH]; intros w; [exists w; by repeat split|].
  cbn [timer_expire]. rewrite get_run.
  destruct (running w) eqn:E; [|exists w; by repeat split].
  destruct (H w E) as (w1 & E1 & S1 & N1). destruct (IH w1) as (w2 & E2 & S2 & N2).
  exists w2. unfold when. rewrite (mseq_run _ _ _ _ _ E1).
  repeat split; [done|eapply slept_trans; eauto..|congruence].
Qed.

Lemma infrared_timer_runs w : cm_ir_timer w = true →
  ∃ w', camera_infrared_timer w = Done () w' ∧ slept w w' ∧ now w' = now w.
Proof. intros H. eexists. split; [reflexivity|]. split; [|done]. split; [done..|cbn; congruence]. Qed.

Lemma alarm_timer_runs w :
  ∃ w', camera_alarm_time_interval w = Done () w' ∧ slept w w' ∧ now w' = now w.
Proof.
  unfold camera_alarm_time_interval, mseq, upd, get, when, alarm_inform_send.
  destruct (_ <? _); (eexists; split; [reflexivity|]); by repeat split.
Qed.

Lemma timers_run w : ∃ w', camera_timers w = Done () w' ∧ slept w w' ∧ now w' = S (S (now w)).
Proof.
  unfold camera_timers. rewrite observe_run.
  destruct (expire_runs (timer_fires T_cm_ir (now w)) cm_ir_timer camera_infrared_timer
    (set_now (S (now w)) w) infrared_timer_runs) as (w1 & E1 & S1 & N1).
  rewrite (mseq_run _ _ _ _ _ E1).
  rewrite observe_run.
  destruct (expire_runs (timer_fires T_cm_alarm (now w1)) cm_alarm_timer camera_alarm_time_interval
    (set_now (S (now w1)) w1)) as (w2 & E2 & S2 & N2); [intros; apply alarm_timer_runs|].
  exists w2. rewrite E2. split; [done|]. split; [|by rewrite N2; cbn; rewrite N1].
  apply (slept_trans _ w1); [destruct S1; by split|destruct S2; by split].
Qed.

Lemma told_slept a p w w' : slept w w' → told a p w → told a p w'.
Proof. intros [A B _ _] [H1 H2]. split; congruence. Qed.

Lemma watching_slept st w w' : slept w w' → watching st w → watching st w'.
Proof.
  intros S [Hf [[Hl ?]|(Hl & Ht & Hv & m & ? & ?)]]; (split; [exact Hf|]).
  - left. eauto using told_slept.
  - right. split; [done|]. split; [by rewrite (sl_timer _ _ S)|].
    split; [by rewrite (sl_value _ _ S)|]. eauto using told_slept.
Qed.

(** What the thread looks at does not change with the flag and the pin's value. *)
Lemma watching_flag st w dat f :
  watching st w → 0 <= f <= CM_IR_TEST_TIME → watching (mkIr dat f (leave_flag st)) w.
Proof. intros [_ H] Hf. by split. Qed.

Lemma recv_bits bits w :
  ∃ ok w', alarm_inform_recv bits w = Done ok w' ∧ slept w w' ∧ now w' = now w.
Proof.
  unfold alarm_inform_recv, mseq, get, upd, mreturn.
  destruct (_ =? _); (do 2 eexists; split; [reflexivity|]); by repeat split.
Qed.

Lemma send_ir_alarm pin t w q :
  alarm_mq w = Some q → q_room q 1 → byte pin →
  ∃ m w', send_alarm_mail ALARM_TYPE_CAMERA_IRDASENSOR ALARM_PROCESS_FLAG_ALL pin (rtc_time t) w =
      Done () w' ∧
    ir_alarm m ∧ alarm_mq w' = Some (q_append q [m]) ∧ photo_start_mq w' = photo_start_mq w ∧
    cm_ir_timer w' = cm_ir_timer w ∧ cm_ir_time_value w' = cm_ir_time_value w ∧
    (now w <= now w')%nat.
Proof.
  intros Hq Hr Hp. unfold send_alarm_mail, mail_time, rtc_get_time, observe, mreturn.
  destruct (_ =? 0).
  - rewrite (mseq_run _ _ w (rtc_time (now w)) (set_now (S (now w)) w)) by done.
    rewrite (post_mail_room _ _ _ _ q) by done.
    exists (mkAlarmMail (rtc_time (now w)) ALARM_TYPE_CAMERA_IRDASENSOR ALARM_PROCESS_FLAG_ALL pin).
    eexists. split; [done|]. split; [split_and!; eauto|]. split_and!; (done || cbn; lia).
  - rewrite (mseq_run _ _ w (rtc_time t) w) by done. rewrite (post_mail_room _ _ _ _ q) by done.
    exists (mkAlarmMail (rtc_time (t)) ALARM_TYPE_CAMERA_IRDASENSOR ALARM_PROCESS_FLAG_ALL pin).
    eexists. split; [done|]. split; [split_and!; eauto|]. split_and!; (done || cbn; lia).
Qed.

Lemma stayed_runs st w :
  watching st w → byte (ir_pin_dat st) → 2 <= cm_ir_time_value w →
  ∃ st' w', ir_stayed st w = Done st' w' ∧ watching st' w' ∧ ir_flag st' = ir_flag st ∧
    (now w <= now w')%nat.
Proof.
  intros [Hf [[Hl Ht]|(_ & _ & ? & _)]] Hb Hv; [|lia].
  unfold ir_stayed, rtc_get_time. rewrite !upd_run, observe_run.
  match goal with |- context [mseq (alarm_inform_recv _) _ ?v] =>
    destruct (recv_bits INFO_SEND_MMS v) as (ok & w2 & E & [Sa Sp St Sv] & N) end.
  rewrite (mseq_run _ _ _ _ _ E). specialize (Sv eq_refl). cbn in Sa, Sp, St, Sv, N.
  destruct Ht as [Ha Hp]. rewrite q_append_nil in Ha. rewrite q_append_nil in Hp. destruct ok.
  - destruct (send_ir_alarm (ir_pin_dat st) (now w) w2 qa) as (m & w3 & E3 & A & Q & P & T & V & L);
      [congruence|done..|].
    cbn [now set_cm_ir_timer set_cm_ir_time_value]. rewrite (mseq_run _ _ _ _ _ E3).
    do 2 eexists. split; [done|]. split; [|split; [done|lia]]. split; [done|]. right.
    split; [done|]. split; [congruence|]. split; [congruence|]. exists m. split; [done|].
    split; [done|]. rewrite q_append_nil. congruence.
  - exists st, w2. split; [done|]. split; [|split; [done|lia]]. split; [done|]. left.
    split; [done|]. split; rewrite q_append_nil; congruence.
Qed.

Lemma left_runs st w : watching st w → ∃ st' w', ir_left st w = Done st' w' ∧ left_alone st' w'.
Proof.
  intros [Hf [[Hl Ht]|(Hl & Hr & Hv & m & Hm & Ha & Hp)]]; unfold ir_left; rewrite Hl.
  - do 2 eexists. split; [reflexivity|]. split; [done|]. by left.
  - change (1 =? 1) with true. cbv iota. rewrite mseq_assoc, upd_run, mseq_assoc, upd_run. unfold camera_send_mail.
    rewrite q_append_nil in Hp.
    erewrite mseq_run by (by apply (post_mail_room _ _ _ _ qp)).
    do 2 eexists. split; [reflexivity|]. split; [done|]. right.
    split; [done|]. split; [done|]. split; [done|]. by exists m.
Qed.

(** [t0]: nobody is there any more *)
Lemma watch_runs t0 fuel : (∀ t, (t0 <= t)%nat → u8 (pin_level DEV_CAMERA_IRDASENSOR t) ≠ IR_ACTIVE_STATUS) →
  ∀ st w, watching st w → 2 * Z.of_nat (t0 - now w) + (CM_IR_TEST_TIME - ir_flag st) < Z.of_nat fuel →
  ∃ st' w', ir_watch fuel st w = Done st' w' ∧ left_alone st' w'.
Proof.
  intros Hclear. induction fuel as [|fuel IH]; intros st w Hw Hfuel; [destruct Hw; lia|].
  cbn [ir_watch]. unfold pin_read, rt_thread_delay. rewrite observe_run, emit_run.
  set (dat := u8 (pin_level DEV_CAMERA_IRDASENSOR (now w))) in *.
  match goal with |- context [mseq camera_timers _ ?v] =>
    destruct (timers_run v) as (w1 & E1 & S1 & N1) end.
  rewrite (mseq_run _ _ _ _ _ E1). cbn [now set_trace set_now] in N1. cbv zeta.
  assert (W1 : watching st w1).
  { eapply watching_slept; [exact S1|]. by destruct Hw as [? [?|?]]; split; [|left|..|right]. }
  pose proof (proj1 Hw) as Hf. unfold CM_IR_TEST_TIME in *.
  (* the rest of a round *)
  assert (Again : ∀ f, 0 <= f <= 55 → 2 * Z.of_nat (t0 - S (S (S (now w)))) + (55 - f) < Z.of_nat fuel →
    ∃ st' w', (v <- get cm_ir_time_value ;;
      s <- (if 2 <=? v then ir_stayed (mkIr dat f (leave_flag st))
            else mreturn (mkIr dat f (leave_flag st))) ;;
      ir_watch fuel s) w1 = Done st' w' ∧ left_alone st' w').
  { intros f Hf' Hm. rewrite get_run.
    pose proof (watching_flag st w1 dat f W1 Hf') as W2. destruct (Z.leb_spec 2 (cm_ir_time_value w1)).
    - destruct (stayed_runs _ w1 W2) as (st2 & w2 & E2 & W3 & F2 & N2); [by apply wrap_fits|done|].
      rewrite (mseq_run _ _ _ _ _ E2). apply IH; [done|]. rewrite F2. cbn [ir_flag]. lia.
    - rewrite mseq_return_l. apply IH; [done|]. cbn [ir_flag]. lia. }
  cbn [ir_flag leave_flag]. destruct (Z.eqb_spec dat IR_ACTIVE_STATUS) as [Hd|Hd].
  - assert (now w < t0)%nat as Ht0.
    { destruct (decide (now w < t0)%nat); [done|]. exfalso. apply (Hclear (now w)); [lia|done]. }
    apply Again; destruct (Z.ltb_spec 0 (ir_flag st)); lia.
  - destruct (Z.ltb_spec (ir_flag st) 55); [apply Again; lia|].
    apply left_runs. by apply (watching_flag st).
Qed.

(** When an edge of the sensor wakes the thread and the pin is
    clear from some time on, the thread stops watching: the round ends, without
    undefined behaviour, with the sampling timer stopped.  Either it told
    nobody, or it posted exactly one alarm, to all handlers and with the pin's
    value, and for the same presence exactly one order for photographs, and it
    started the timer that keeps further alarms back. *)
Lemma ir_presence_reported st w t0 fuel n :
  awake w → cm_ir_sem w = S n → dev_present DEV_CAMERA_IRDASENSOR = true →
  alarm_mq w = Some qa → photo_start_mq w = Some qp →
  (∀ t, (t0 <= t)%nat → u8 (pin_level DEV_CAMERA_IRDASENSOR t) ≠ IR_ACTIVE_STATUS) →
  2 * Z.of_nat (t0 - now w) + CM_IR_TEST_TIME < Z.of_nat fuel →
  ∃ st' w', camera_infrared_round fuel st w = Done st' w' ∧ left_alone st' w'.
Proof.
  intros Haw Hn Hd Ha Hp Hclear Hfuel. unfold camera_infrared_round.
  rewrite (mseq_run _ _ _ _ _ (machine_awake w Haw)).
  change (negb (RT_EOK =? RT_EOK)) with false. cbv iota.
  unfold cm_ir_sem_take. rewrite mseq_assoc, get_run, Hn, mseq_assoc, upd_run, mseq_return_l.
  cbv iota. rewrite upd_run, Hd, upd_run. apply (watch_runs t0); [done| |cbn [now ir_flag]; cbn; lia].
  split; [cbn; unfold CM_IR_TEST_TIME; lia|]. left. split; [done|].
  by split; rewrite q_append_nil.
Qed.
End episode.

(** ** How often the sensor may alarm *)

Section rate.
Context {HB : Board}.

(** How often the timer of the alarms expires between two observations *)
Definition expiries (a b : nat) : nat :=
  sum_list (timer_fires T_cm_alarm <$> seq a (b - a)).

Lemma expiries_trans a b c : (a <= b)%nat → (b <= c)%nat →
  expiries a c = (expiries a b + expiries b c)%nat.
Proof.
  intros H1 H2. unfold expiries. replace (c - a)%nat with ((b - a) + (c - b))%nat by lia.
  rewrite seq_app, fmap_app, sum_list_with_app. by replace (a + (b - a))%nat with b by lia.
Qed.

Lemma expiries_refl a : expiries a a = 0%nat.
Proof. unfold expiries. by rewrite Nat.sub_diag. Qed.

(** An alarm costs two expiries of the timer.  The permission is worth an alarm,
    and a running timer the expiries it has counted. *)
Definition permitted (w : World) : bool := Z.testbit (alarm_inform_event w) 0.

Definition credit (w : World) : Z :=
  (if permitted w then 2 else 0) + (if cm_alarm_timer w then cm_alarm_cnt_time_value w else 0).

(** A timer that runs has not reached its period. *)
Definition counting (w : World) : Prop :=
  cm_alarm_timer w = true → 0 <= cm_alarm_cnt_time_value w <= CM_IR_ALARM_TOUCH_PERIOD.

(** The alarms posted in between are paid for from the credit and from [k]. *)
Definition spends (k : Z) (w w' : World) : Prop :=
  ∃ new, alarm_mq w' = (λ q, q_append q new) <$> alarm_mq w ∧
    Forall (λ m, am_alarm_type m = ALARM_TYPE_CAMERA_IRDASENSOR) new ∧
    (counting w → counting w' ∧ 2 * Z.of_nat (length new) + credit w' <= credit w + k).

Lemma spends_trans k1 k2 w1 w2 w3 : spends k1 w1 w2 → spends k2 w2 w3 → spends (k1 + k2) w1 w3.
Proof.
  intros (n1 & A1 & F1 & H1) (n2 & A2 & F2 & H2). exists (n1 ++ n2). split_and!.
  - rewrite A2, A1. destruct (alarm_mq w1); [|done]. cbn. by rewrite q_append_app.
  - by apply Forall_app.
  - intros Hc. destruct (H1 Hc) as [Hc2 L1], (H2 Hc2) as [Hc3 L2]. split; [done|].
    rewrite length_app. lia.
Qed.

(** Nothing is posted. *)
Lemma spends_quiet k w w' : alarm_mq w' = alarm_mq w →
  (counting w → counting w' ∧ credit w' <= credit w + k) → spends k w w'.
Proof.
  intros A H. exists []. split_and!; [|done|].
  - rewrite A. destruct (alarm_mq w); [|done]. cbn. by rewrite q_append_nil.
  - intros Hc. destruct (H Hc). split; [done|]. cbn. lia.
Qed.

(** What does not concern the alarms of the sensor *)
Definition alarm_view (w : World) := (alarm_inform_event w, cm_alarm_timer w, cm_alarm_cnt_time_value w).

Lemma spends_frame w w' : alarm_view w' = alarm_view w → alarm_mq w' = alarm_mq w → spends 0 w w'.
Proof.
  intros [= E T C] A. apply spends_quiet; [done|]. unfold counting, credit, permitted.
  rewrite E, T, C. intros Hc. split; [done|lia].
Qed.

Definition rated : relation World := λ w w',
  (now w <= now w')%nat ∧ spends (Z.of_nat (expiries (now w) (now w'))) w w'.

#[local] Instance rated_preorder : PreOrder rated.
Proof.
  split.
  - intros w. split; [done|]. rewrite expiries_refl. by apply spends_frame.
  - intros w1 w2 w3 [L1 H1] [L2 H2]. split; [lia|].
    rewrite (expiries_trans _ (now w2)), Nat2Z.inj_add by done. by eapply spends_trans.
Qed.

Lemma spends_more k k' w w' : k <= k' → spends k w w' → spends k' w w'.
Proof.
  intros L (n & A & F & H). exists n. split; [done|]. split; [done|]. intros Hc.
  destruct (H Hc). split; [done|lia].
Qed.

Lemma rated_spends w w' : (now w <= now w')%nat → spends 0 w w' → rated w w'.
Proof. intros L H. split; [done|]. apply (spends_more 0); [lia|done]. Qed.

Lemma rated_upd f :
  (∀ w, now (f w) = now w ∧ alarm_view (f w) = alarm_view w ∧ alarm_mq (f w) = alarm_mq w) →
  evolves rated (upd f).
Proof.
  intros H. apply evolves_upd. intros w. destruct (H w) as (N & V & A).
  apply rated_spends; [lia|by apply spends_frame].
Qed.

Lemma rated_observe {A} (f : nat → A) : evolves rated (observe f).
Proof. intros w a w' [= <- <-]. apply rated_spends; [simpl; lia|by apply spends_frame]. Qed.

(** ** The timer *)

Lemma rated_expire n running timeout :
  evolves rated timeout → evolves rated (timer_expire n running timeout).
Proof.
  intros H. induction n as [|n IH]; cbn [timer_expire]; [apply evolves_return|].
  apply evolves_seq; [apply evolves_get|intros on]. apply evolves_when. intros _.
  by apply evolves_seq.
Qed.

(** The permission is given. *)
Lemma credit_inform w : credit (set_alarm_inform_event
    (Z.lor (alarm_inform_event w) (Z.lor INFO_SEND_MMS INFO_SEND_SMS)) w) <= credit w + 2 ∧
  permitted (set_alarm_inform_event
    (Z.lor (alarm_inform_event w) (Z.lor INFO_SEND_MMS INFO_SEND_SMS)) w) = true.
Proof.
  unfold credit, permitted. cbn [alarm_inform_event set_alarm_inform_event cm_alarm_timer cm_alarm_cnt_time_value].
  rewrite Z.lor_spec, orb_true_r. split; [|done]. destruct (Z.testbit _ 0); lia.
Qed.

(** One expiry of the timer that runs: the second one stops it. *)
Lemma interval_spends w : cm_alarm_timer w = true →
  ∃ w', camera_alarm_time_interval w = Done () w' ∧ now w' = now w ∧ spends 1 w w'.
Proof.
  intros Hon. unfold camera_alarm_time_interval. rewrite upd_run, get_run.
  cbn [cm_alarm_cnt_time_value set_cm_alarm_cnt_time_value].
  unfold when, alarm_inform_send. destruct (Z.ltb_spec CM_IR_ALARM_TOUCH_PERIOD
    (u8 (cm_alarm_cnt_time_value w + 1))) as [Hlt|Hle];
    (eexists; split; [reflexivity|split; [done|apply spends_quiet; [done|intros Hc]]]);
    specialize (Hc Hon); unfold CM_IR_ALARM_TOUCH_PERIOD in *;
    rewrite wrap_small in * by (unfold fits; lia).
  - split; [by intros|]. unfold credit, permitted. cbn. rewrite Z.lor_spec, orb_true_r, Hon.
    destruct (Z.testbit _ 0); lia.
  - unfold counting, credit, permitted. cbn.
    unfold CM_IR_ALARM_TOUCH_PERIOD. rewrite Hon. split; [lia|]. destruct (Z.testbit _ 0); lia.
Qed.

Lemma expire_spends n : ∀ w a w',
  timer_expire n cm_alarm_timer camera_alarm_time_interval w = Done a w' →
  now w' = now w ∧ spends (Z.of_nat n) w w'.
Proof.
  induction n as [|n IH]; intros w a w'; cbn [timer_expire].
  { intros [= <- <-]. split; [done|by apply spends_frame]. }
  rewrite get_run. destruct (cm_alarm_timer w) eqn:Hon; unfold when.
  - destruct (interval_spends w Hon) as (w1 & E1 & N1 & S1). rewrite (mseq_run _ _ _ _ _ E1).
    intros E. apply IH in E as [N S2]. split; [congruence|].
    replace (Z.of_nat (S n)) with (1 + Z.of_nat n) by lia. by eapply spends_trans.
  - intros [= <- <-]. split; [done|]. apply (spends_more 0); [lia|by apply spends_frame].
Qed.

Lemma rated_timers : evolves rated camera_timers.
Proof.
  unfold camera_timers. apply evolves_seq; [apply rated_observe|intros n].
  apply evolves_seq; [by apply rated_expire, rated_upd|intros _ w a w'].
  rewrite observe_run. intros E. apply expire_spends in E as [N H]. cbn in N.
  split; [lia|]. rewrite N. unfold expiries. replace (S (now w) - now w)%nat with 1%nat by lia.
  cbn [seq fmap list_fmap sum_list_with sum_list]. rewrite Nat.add_0_r. exact H.
Qed.

(** ** The thread *)

Lemma ir_alarm_posted f g t w a w' :
  send_alarm_mail ALARM_TYPE_CAMERA_IRDASENSOR f g t w = Done a w' →
  (now w <= now w')%nat ∧ alarm_view w' = alarm_view w ∧
  ∃ new, alarm_mq w' = (λ q, q_append q new) <$> alarm_mq w ∧ (length new <= 1)%nat ∧
    Forall (λ m, am_alarm_type m = ALARM_TYPE_CAMERA_IRDASENSOR) new.
Proof.
  intros E. apply mseq_Done in E as (time & w1 & E1 & E).
  assert (now w <= now w1 ∧ alarm_view w1 = alarm_view w ∧ alarm_mq w1 = alarm_mq w)%nat as (N & V & A).
  { revert E1. unfold mail_time. case_match; intros [= <- <-]; (split; [simpl; lia|done]). }
  rewrite <- V, <- A. revert E. unfold post_mail, rt_mq_send, mseq, get, upd, mreturn.
  destruct (alarm_mq w1) as [q|] eqn:Hq; rewrite ?Hq; simpl.
  - destruct (q_send _ q) as [r q'] eqn:Eq. intros [= <- <-].
    split; [exact N|]. split; [done|]. revert Eq. unfold q_send. case_match; intros [= <- <-].
    + eexists [_]. split_and!; [reflexivity|done|repeat constructor].
    + exists []. split_and!; [cbn; by rewrite q_append_nil|cbn; lia|done].
  - intros [= <- <-]. split; [exact N|]. split; [done|].
    exists []. split_and!; [by rewrite Hq|cbn; lia|done].
Qed.

(** The only place that alarms uses the permission up. *)
Lemma rated_stayed st : evolves rated (ir_stayed st).
Proof.
  unfold ir_stayed. do 2 (apply evolves_seq; [by apply rated_upd|intros _]).
  apply evolves_seq; [apply rated_observe|intros t w a w'].
  unfold alarm_inform_recv. rewrite mseq_assoc, get_run.
  destruct (Z.eqb_spec (Z.land (alarm_inform_event w) INFO_SEND_MMS) INFO_SEND_MMS) as [E|E].
  2: { rewrite mseq_return_l. intros [= <- <-]. reflexivity. }
  assert (permitted w = true) as Hp.
  { unfold permitted. apply (f_equal (λ x, Z.testbit x 0)) in E. rewrite Z.land_spec in E.
    by destruct (Z.testbit _ 0). }
  rewrite mseq_assoc, upd_run, mseq_return_l. cbv iota. intros Hrun.
  apply mseq_Done in Hrun as (b & w2 & Hrun & [= <- <-]).
  apply ir_alarm_posted in Hrun as (N & V & new & A & L & F). apply rated_spends; [done|].
  exists new. split; [done|]. split; [done|]. injection V as Ve Vt Vc. cbn in Ve, Vt, Vc.
  unfold counting, credit. rewrite Hp. unfold permitted. rewrite Ve, Vt, Vc, Z.ldiff_spec.
  change (Z.testbit INFO_SEND_MMS 0) with true. rewrite andb_false_r. intros Hc. split; [done|]. lia.
Qed.

Lemma rated_left st : evolves rated (ir_left st).
Proof.
  unfold ir_left. apply evolves_seq; [|intros _; apply evolves_seq; [by apply rated_upd|intros; apply evolves_return]].
  case_match; [|apply evolves_return]. intros w a w'. rewrite !upd_run. intros E.
  transitivity (set_cm_alarm_timer true (set_cm_alarm_cnt_time_value 0 w)).
  - apply rated_spends; [done|]. apply spends_quiet; [done|].
    unfold counting, credit, permitted, CM_IR_ALARM_TOUCH_PERIOD. cbn. intros Hc. split; [lia|].
    destruct (cm_alarm_timer w); [specialize (Hc eq_refl)|]; lia.
  - revert E. apply evolves_post_mail. intros q w1. apply rated_spends; [done|by apply spends_frame].
Qed.

Lemma rated_watch fuel : ∀ st, evolves rated (ir_watch fuel st).
Proof.
  induction fuel as [|fuel IH]; intros st; cbn [ir_watch]; [by intros w a w'|].
  apply evolves_seq; [apply rated_observe|intros dat].
  apply evolves_seq; [by apply rated_upd|intros _].
  apply evolves_seq; [apply rated_timers|intros _]. cbv zeta.
  assert (∀ st, evolves rated (v <- get cm_ir_time_value ;;
    st <- (if 2 <=? v then ir_stayed st else mreturn st) ;; ir_watch fuel st)) as Again.
  { intros st'. apply evolves_seq; [apply evolves_get|intros v]. apply evolves_seq; [|done].
    case_match; [apply rated_stayed|apply evolves_return]. }
  repeat case_match; first [apply Again|apply rated_left].
Qed.

Lemma rated_round fuel st : evolves rated (camera_infrared_round fuel st).
Proof.
  unfold camera_infrared_round. apply evolves_seq.
  { unfold machine_status_deal. apply evolves_seq; [apply evolves_get|intros s].
    case_match; [apply evolves_return|]. apply evolves_seq; [|intros; apply evolves_return].
    apply evolves_when. intros _. by apply rated_upd. }
  intros res. case_match.
  { apply evolves_seq; [apply rated_timers|intros; apply evolves_return]. }
  apply evolves_seq.
  { unfold cm_ir_sem_take. apply evolves_seq; [apply evolves_get|intros n]. destruct n.
    - apply evolves_seq; [apply rated_timers|intros; apply evolves_return].
    - apply evolves_seq; [by apply rated_upd|intros; apply evolves_return]. }
  intros ok. destruct ok.
  - apply evolves_seq; [by apply rated_upd|intros _]. case_match; [|apply evolves_return].
    apply evolves_seq; [by apply rated_upd|intros _]. apply rated_watch.
  - repeat case_match; [|apply evolves_fault|apply evolves_return].
    apply evolves_seq; [apply rated_observe|intros dat].
    apply evolves_seq; [|intros; apply evolves_return]. apply evolves_when. intros _.
    apply evolves_seq; [by apply rated_upd|intros; by apply rated_upd].
Qed.

Lemma rated_edge : evolves rated (rt_hw_gpio_isr DEV_CAMERA_IRDASENSOR).
Proof.
  unfold rt_hw_gpio_isr. cbn [interrupt_input negb rx_indicate].
  apply evolves_seq; [apply rated_observe|intros _].
  apply evolves_seq; [apply rated_observe|intros time].
  apply evolves_seq; [apply evolves_get|intros old]. case_match; [|apply evolves_return].
  apply evolves_seq; [by apply rated_upd|intros _]. by apply rated_upd.
Qed.

(** How often the local thread gives the permission *)
Definition keys (steps : list IR_STEP) : nat :=
  length (filter (λ s, match s with Ir_key => true | _ => false end = true) steps).

(** C34 (safety). Over any run of the infrared thread, of any number of visits,
    interleaved with any edges of the sensor and any keys accepted by the local
    thread, the mails added to the queue of the alarms are alarms of the
    sensor, and each of them is paid for: by the permission there was at the
    beginning, by a key, or by two expiries of the timer that is started, from
    zero, when somebody leaves.  So where the permission is used up and the
    timer has just been started, or is stopped, nothing is alarmed before the
    second expiry or a key; and [k] alarms without a key take at least
    [2 * k - 3] expiries, and [2 * k - 2] from the start of the thread on.  A
    timer that runs has never counted further than its period, so the same
    holds from every later moment of the run.  ([expiries] counts what the board
    has ready for the timer, whether it runs or not.) *)
Theorem ir_alarm_held_back fuel steps st w st' w' :
  camera_infrared_thread_enter fuel steps st w = Done st' w' → counting w →
  counting w' ∧
  ∃ new, alarm_mq w' = (λ q, q_append q new) <$> alarm_mq w ∧
    Forall (λ m, am_alarm_type m = ALARM_TYPE_CAMERA_IRDASENSOR) new ∧
    2 * Z.of_nat (length new) + credit w' <=
      credit w + Z.of_nat (expiries (now w) (now w')) + 2 * Z.of_nat (keys steps).
Proof.
  intros Hrun Hc.
  assert (now w <= now w' ∧
    spends (Z.of_nat (expiries (now w) (now w')) + 2 * Z.of_nat (keys steps)) w w')%nat
    as (_ & new & A & F & H).
  { clear Hc. revert st w Hrun. induction steps as [|[] steps IH]; intros st w;
      cbn [camera_infrared_thread_enter].
    - intros [= <- <-]. split; [done|]. rewrite expiries_refl. by apply spends_frame.
    - intros E. apply mseq_Done in E as (st1 & w1 & E1 & E2). apply rated_round in E1 as [N1 S1].
      apply IH in E2 as [N2 S2]. split; [lia|]. pose proof (spends_trans _ _ _ _ _ S1 S2) as S12.
      rewrite (expiries_trans _ (now w1)) by done. revert S12. apply spends_more. change (keys (Ir_round :: steps)) with (keys steps)%nat. lia.
    - intros E. apply mseq_Done in E as (st1 & w1 & E1 & E2). apply rated_edge in E1 as [N1 S1].
      apply IH in E2 as [N2 S2]. split; [lia|]. pose proof (spends_trans _ _ _ _ _ S1 S2) as S12.
      rewrite (expiries_trans _ (now w1)) by done. revert S12. apply spends_more. change (keys (Ir_edge :: steps)) with (keys steps)%nat. lia.
    - unfold alarm_inform_send. rewrite upd_run. intros E. apply IH in E as [N S2]. split; [done|].
      assert (spends 2 w (set_alarm_inform_event
        (Z.lor (alarm_inform_event w) (Z.lor INFO_SEND_MMS INFO_SEND_SMS)) w)) as S1.
      { apply spends_quiet; [done|]. intros Hc. split; [done|]. apply credit_inform. }
      pose proof (spends_trans _ _ _ _ _ S1 S2) as S12.
      cbn [now set_alarm_inform_event] in S12. revert S12. apply spends_more.
      change (keys (Ir_key :: steps)) with (S (keys steps))%nat. lia. }
  destruct (H Hc) as [Hc' L]. split; [done|]. exists new. split; [done|]. split; [done|lia].
Qed.
End rate.

(** Somebody stands there for twenty readings; both timers expire at times. *)
Definition visited_board : Board := {|
  dev_present := dev_present (Board := quiet_board);
  pin_level := λ d t, if (t <? 60)%nat then 0 else 1;
  uart_arrivals := uart_arrivals (Board := quiet_board);
  adc_value := adc_value (Board := quiet_board); rtc_time := rtc_time (Board := quiet_board);
  rand_seeded := rand_seeded (Board := quiet_board); localtime := localtime (Board := quiet_board);
  uninit := uninit (Board := quiet_board); file_works := file_works (Board := quiet_board);
  disk_takes := disk_takes (Board := quiet_board);
  timer_fires := λ d t, match d with T_cm_ir => 1 | T_cm_alarm => if (t =? 2)%nat then 1 else 0 end%nat;
  config_opens := config_opens (Board := quiet_board)
|}.

Definition visited_world : World := set_cm_ir_sem 1 start_world.

Lemma ir_presence_reported_witness :
  ∃ st' w', camera_infrared_round (HB:=visited_board) 200 (mkIr 0 0 0) visited_world = Done st' w' ∧
    left_alone (HB:=visited_board) (mkQueue [] 20) (mkQueue [] 8) st' w'.
Proof.
  apply (ir_presence_reported (HB:=visited_board) (mkQueue [] 20) (mkQueue [] 8))
    with (t0 := 60%nat) (n := 0%nat).
  - by_computation.
  - by_computation.
  - by_computation.
  - reflexivity.
  - reflexivity.
  - reflexivity.
  - reflexivity.
  - intros t Ht. unfold visited_board, pin_level. destruct (Nat.ltb_spec t 60); [lia|]. by_computation.
  - by_computation.
Defined.

(** There it is the second case: the alarm and the photographs. *)
Example visit_alarms :
  match camera_infrared_round (HB:=visited_board) 200 (mkIr 0 0 0) visited_world with
  | Done st w => Some (leave_flag st, length ∘ q_msgs <$> alarm_mq w)
  | _ => None
  end = Some (2, Some 1%nat).
Proof. vm_compute. reflexivity. Qed.

(** Two visits, the second at observation 600; the timer of the alarms expires
    as often as [times] is long. *)
Definition visits_board (times : list nat) : Board := {|
  dev_present := dev_present (Board := quiet_board);
  pin_level := λ d t, if (t <? 60)%nat || ((600 <=? t)%nat && (t <? 660)%nat) then 0 else 1;
  uart_arrivals := uart_arrivals (Board := quiet_board);
  adc_value := adc_value (Board := quiet_board); rtc_time := rtc_time (Board := quiet_board);
  rand_seeded := rand_seeded (Board := quiet_board); localtime := localtime (Board := quiet_board);
  uninit := uninit (Board := quiet_board); file_works := file_works (Board := quiet_board);
  disk_takes := disk_takes (Board := quiet_board);
  timer_fires := λ d t, match d with T_cm_ir => 1 | T_cm_alarm => if existsb (Nat.eqb t) times then 1 else 0 end%nat;
  config_opens := config_opens (Board := quiet_board)
|}.

Definition permitted_world : World := set_alarm_inform_event 3 visited_world.

Definition two_visits : list IR_STEP := Ir_round :: repeat Ir_round 190 ++ [Ir_edge; Ir_round].

(** The alarms, the expiries and the credit at the end of the two visits *)
Definition visits_alarms (times : list nat) : option (nat * nat * Z) :=
  match camera_infrared_thread_enter (HB:=visits_board times) 400 two_visits (mkIr 0 0 0) permitted_world with
  | Done st w => Some (match alarm_mq w with Some q => length (q_msgs q) | None => 0 end,
      expiries (HB:=visits_board times) 0 (now w), credit w)%nat
  | _ => None
  end.

(** After two expiries the second visit is an alarm as well, after one it is
    not: the count of the theorem cannot be improved. *)
Example second_visit_alarms : visits_alarms [300; 302]%nat = Some (2%nat, 2%nat, 0).
Proof. vm_compute. reflexivity. Qed.

Example second_visit_held_back : visits_alarms [300]%nat = Some (1%nat, 1%nat, 1).
Proof. vm_compute. reflexivity. Qed.

Lemma ir_alarm_held_back_witness :
  match camera_infrared_thread_enter (HB:=visits_board [300; 302]%nat) 400 two_visits (mkIr 0 0 0)
      permitted_world with
  | Done st w => counting w ∧ ∃ new, alarm_mq w = Some (mkQueue new 20) ∧
      2 * Z.of_nat (length new) + credit w <= 2 + 2
  | _ => False
  end.
Proof.
  assert (match camera_infrared_thread_enter (HB:=visits_board [300; 302]%nat) 400 two_visits (mkIr 0 0 0)
      permitted_world with
    | Done st w => Z.of_nat (expiries (HB:=visits_board [300; 302]%nat) 0 (now w)) = 2
    | _ => False
    end) as Hrate by (vm_compute; reflexivity).
  pose proof (ir_alarm_held_back (HB:=visits_board [300; 302]%nat) 400 two_visits (mkIr 0 0 0)
    permitted_world) as Hheld.
  destruct (camera_infrared_thread_enter _ _ _ _) as [st w| |]; [|done|done].
  destruct (Hheld st w) as (Hc & new & A & _ & L); [done|discriminate|].
  split; [exact Hc|]. exists new. split; [exact A|].
  change (now permitted_world) with 0%nat in L. rewrite Hrate in L. exact L.
Defined.
