(* ===== verification/Devices.v ===== *)
(** * The devices of the board (src/board.c, src/gpio.c, src/gpio_pin.c and the
      registrations of the drivers; RT-Thread/src/device.c)

    The program finds its devices by name.  The kernel keeps them in a list,
    the newest first, and compares eight bytes of the name; a name that is
    already there is refused.  The table of [rt_hw_board_init] then says which
    driver and which flags a name stands for: that is what [dev_present] of
    the class [Board] is about. *)
From stdpp Require Import base strings list.
From Stdlib Require Import ZArith Lia.
From S2P Require Import Prelude World Monad Untils Alarm Lock GsmService Local Sensors Photo.

Definition RT_NAME_MAX : nat := 8.

(** ** Names (kservice.c); a list is a C string, its end the terminator *)

Fixpoint rt_strncpy (n : nat) (src : list Z) : list Z :=
  match n with
  | O => []
  | S n' =>
      match src with
      | [] => repeat 0 n
      | s :: src => if s =? 0 then repeat 0 n else s :: rt_strncpy n' src
      end
  end.

(** The result is a signed char. *)
Fixpoint rt_strncmp (cs ct : list Z) (count : nat) : Z :=
  match count with
  | O => 0
  | S count =>
      let res := s8 (hd 0 cs - hd 0 ct) in
      if negb (res =? 0) || (hd 0 cs =? 0) then res
      else rt_strncmp (tl cs) (tl ct) count
  end.

(** ** The list of devices *)

Section registry.
Context {A : Type}.

Fixpoint rt_device_find (name : list Z) (devices : list (list Z * A)) : option A :=
  match devices with
  | [] => None
  | (object_name, dev) :: devices =>
      if rt_strncmp object_name name RT_NAME_MAX =? 0 then Some dev else rt_device_find name devices
  end.

Definition rt_device_register (dev : A) (name : list Z) (devices : list (list Z * A))
  : Z * list (list Z * A) :=
  match rt_device_find name devices with
  | Some _ => (-1, devices)
  | None => (0, (rt_strncpy RT_NAME_MAX name, dev) :: devices)
  end.

(** The calls one after the other; nobody looks at the results. *)
Definition register_all (calls : list (list Z * A)) (devices : list (list Z * A)) : list (list Z * A) :=
  foldl (λ devices c, snd (rt_device_register (snd c) (fst c) devices)) devices calls.

Lemma strncmp_self n : ∀ name, rt_strncmp (rt_strncpy n name) name n = 0.
Proof.
  induction n as [|n IH]; intros [|s name]; [done..|].
  cbn [rt_strncpy]. destruct (Z.eqb_spec s 0) as [->|Hs]; cbn [repeat rt_strncmp hd tl]; [done|].
  rewrite Z.sub_diag. change (s8 0) with 0. cbn. rewrite (proj2 (Z.eqb_neq s 0)) by done. apply IH.
Qed.

Lemma s8_zero x y : byte x → byte y → s8 (x - y) = 0 ↔ x = y.
Proof.
  unfold fits, s8. change (2 ^ 8) with 256. intros Hx Hy. split; [|intros ->; by rewrite Z.sub_diag].
  intros H. pose proof (Z.div_mod (x - y + 128) 256). lia.
Qed.

Lemma byte_hd l : Forall byte l → byte (hd 0 l).
Proof. by destruct 1. Qed.

Lemma byte_tl l : Forall byte l → Forall byte (tl l).
Proof. by destruct 1. Qed.

(** Names are the same when their first eight bytes are. *)
Lemma strncmp_same n : ∀ a b, Forall byte a → Forall byte b →
  rt_strncmp (rt_strncpy n a) b n = 0 ↔ rt_strncpy n a = rt_strncpy n b.
Proof.
  induction n as [|n IH]; intros a b Ha Hb; [done|].
  assert (∀ l, Forall byte l → rt_strncpy (S n) l =
    if hd 0 l =? 0 then repeat 0 (S n) else hd 0 l :: rt_strncpy n (tl l)) as Hunf.
  { intros [|s l] _; [done|]. cbn [rt_strncpy hd tl]. by destruct (s =? 0). }
  rewrite !Hunf by done. pose proof (byte_hd a Ha) as Ha0. pose proof (byte_hd b Hb) as Hb0.
  pose proof (s8_zero (hd 0 a) (hd 0 b) Ha0 Hb0) as H8.
  destruct (Z.eqb_spec (hd 0 a) 0) as [Ea|Ea].
  - cbn [repeat rt_strncmp hd]. rewrite Ea in H8. rewrite orb_true_r, H8.
    destruct (Z.eqb_spec (hd 0 b) 0) as [Eb|Eb]; [by rewrite Eb|]. split; [congruence|].
    intros [= E]. congruence.
  - cbn [rt_strncmp hd tl]. rewrite (proj2 (Z.eqb_neq (hd 0 a) 0)), orb_false_r by done.
    destruct (Z.eqb_spec (s8 (hd 0 a - hd 0 b)) 0) as [E|E]; cbn [negb].
    + apply H8 in E. rewrite <- E, (proj2 (Z.eqb_neq (hd 0 a) 0)) by done.
      rewrite IH by auto using byte_tl. split; [by intros ->|by intros [= ->]].
    + split; [done|]. intros E'. exfalso. apply E, H8.
      destruct (hd 0 b =? 0) eqn:Eb; [|by injection E'].
      injection E' as E1. lia.
Qed.

(** The names that are kept *)
Definition kept (devices : list (list Z * A)) : Prop :=
  Forall (λ d, ∃ name, Forall byte name ∧ fst d = rt_strncpy RT_NAME_MAX name) devices.

(** The first entry with the eight bytes [key] *)
Definition entry_of (key : list Z) (devices : list (list Z * A)) : option A :=
  snd <$> List.find (λ d, bool_decide (rt_strncpy RT_NAME_MAX (fst d) = key)) devices.

Lemma strncpy_twice n : ∀ a, rt_strncpy n (rt_strncpy n a) = rt_strncpy n a.
Proof.
  induction n as [|n IH]; intros a; [done|].
  assert (∀ m, rt_strncpy m (repeat 0 m) = repeat 0 m) as H0 by (by intros [|m]).
  destruct a as [|s a]; [apply (H0 (S n))|]. cbn [rt_strncpy].
  destruct (Z.eqb_spec s 0) as [->|Hs]; [apply (H0 (S n))|].
  cbn [rt_strncpy]. by rewrite (proj2 (Z.eqb_neq s 0)), IH.
Qed.

Lemma find_kept name devices : Forall byte name → kept devices →
  rt_device_find name devices = entry_of (rt_strncpy RT_NAME_MAX name) devices.
Proof.
  intros Hn. induction 1 as [|[key dev] devices (a & Ha & Hk) Hd IH]; [done|]. cbn [fst] in Hk. subst key.
  unfold entry_of in *. cbn [rt_device_find List.find fst]. rewrite strncpy_twice.
  pose proof (strncmp_same RT_NAME_MAX a name Ha Hn) as H. case_bool_decide as Hs.
  - by rewrite (proj2 H Hs).
  - destruct (Z.eqb_spec (rt_strncmp (rt_strncpy RT_NAME_MAX a) name RT_NAME_MAX) 0) as [E|]; [|done].
    by apply H in E.
Qed.

Lemma register_kept a dev devices : Forall byte a → kept devices →
  kept (snd (rt_device_register dev a devices)) ∧
  ∀ key, entry_of key (snd (rt_device_register dev a devices)) =
    match entry_of key devices with
    | Some d => Some d
    | None => if bool_decide (rt_strncpy RT_NAME_MAX a = key) then Some dev else None
    end.
Proof.
  intros Ha Hk. unfold rt_device_register. rewrite find_kept by done.
  destruct (entry_of (rt_strncpy RT_NAME_MAX a) devices) as [d|] eqn:E; cbn [snd].
  - split; [done|]. intros key. destruct (entry_of key devices) eqn:Ek; [done|].
    case_bool_decide as Hkey; [|done]. congruence.
  - split; [constructor; [by exists a|done]|]. intros key. unfold entry_of at 1.
    cbn [List.find fst snd]. rewrite strncpy_twice. case_bool_decide as Hkey.
    + subst key. by rewrite E.
    + fold (entry_of key devices). by destruct (entry_of key devices).
Qed.

Lemma registered_entries calls : ∀ devices, Forall (λ c, Forall byte (fst c)) calls → kept devices →
  kept (register_all calls devices) ∧
  ∀ key, entry_of key (register_all calls devices) =
    match entry_of key devices with Some d => Some d | None => entry_of key calls end.
Proof.
  induction calls as [|[a dev] calls IH]; intros devices Hc Hk.
  { split; [done|]. intros key. change (register_all [] devices) with devices.
    by destruct (entry_of key devices). }
  apply Forall_cons in Hc as [Ha Hc].
  change (register_all ((a, dev) :: calls) devices)
    with (register_all calls (snd (rt_device_register dev a devices))).
  destruct (register_kept a dev devices Ha Hk) as [Hk1 He1].
  destruct (IH _ Hc Hk1) as [Hk2 He2]. split; [done|]. intros key. rewrite He2, He1.
  destruct (entry_of key devices); [done|]. unfold entry_of at 2. cbn [List.find fst].
  by case_bool_decide.
Qed.

(** C30 (refinement). The list of devices is a map from the first eight bytes of a
    name, filled up with zeros, to a device, in which the first registration of
    a name stays: whatever was registered in whatever order, looking a name up
    gives the device of the first call with these eight bytes, or nothing. *)
Theorem registry_is_map calls name : Forall byte name → Forall (λ c, Forall byte (fst c)) calls →
  rt_device_find name (register_all calls []) = entry_of (rt_strncpy RT_NAME_MAX name) calls.
Proof.
  intros Hn Hc. destruct (registered_entries calls [] Hc) as [Hk He]; [by constructor|].
  by rewrite find_kept, He.
Qed.
End registry.

(** ** The drivers' tables *)

(** nvic_channel *)
Inductive IRQ_CHANNEL := EXTI1_IRQn | EXTI9_5_IRQn | EXTI15_10_IRQn.

Inductive EXTI_TRIGGER := EXTI_Trigger_Rising | EXTI_Trigger_Falling | EXTI_Trigger_Rising_Falling.

(** The driver behind a device, with the fields of its table that matter here:
    the level a pin starts with, the line of an interrupt and where it goes *)
Inductive DRIVER :=
| Drv_serial
| Drv_pin (gpio_default_output : Z)
| Drv_exti (exti_line : nat) (exti_trigger : EXTI_TRIGGER) (nvic_channel : IRQ_CHANNEL)
| Drv_pwm
| Drv_adc
| Drv_rtc
| Drv_spi
| Drv_flash.

Record REGISTERED := mkRegistered { dev_driver : DRIVER; dev_flag : Z }.

Definition RT_DEVICE_FLAG_RDONLY : Z := 0x001.
Definition RT_DEVICE_FLAG_WRONLY : Z := 0x002.
Definition RT_DEVICE_FLAG_RDWR : Z := 0x003.
Definition RT_DEVICE_FLAG_STANDALONE : Z := 0x008.
Definition RT_DEVICE_FLAG_STREAM : Z := 0x040.
Definition RT_DEVICE_FLAG_INT_RX : Z := 0x100.
Definition RT_DEVICE_FLAG_DMA_RX : Z := 0x200.
Definition RT_DEVICE_FLAG_INT_TX : Z := 0x400.
Definition RT_DEVICE_FLAG_DMA_TX : Z := 0x800.
Definition RT_DEVICE_FLAG_PWM_TX : Z := 0x1000.

(** The functions that register a device of each kind *)
Definition register_pin (name : string) (default : Z) : list Z * REGISTERED :=
  (bytes_of name, mkRegistered (Drv_pin default) RT_DEVICE_FLAG_RDWR).
Definition register_exti (name : string) (line : nat) (trigger : EXTI_TRIGGER) (channel : IRQ_CHANNEL)
  : list Z * REGISTERED :=
  (bytes_of name, mkRegistered (Drv_exti line trigger channel)
    (Z.lor RT_DEVICE_FLAG_RDWR RT_DEVICE_FLAG_INT_RX)).
Definition register_pwm (name : string) : list Z * REGISTERED :=
  (bytes_of name, mkRegistered Drv_pwm
    (Z.lor (Z.lor RT_DEVICE_FLAG_RDWR RT_DEVICE_FLAG_PWM_TX) RT_DEVICE_FLAG_INT_TX)).
Definition register_uart (name : string) (flag : Z) : list Z * REGISTERED :=
  (bytes_of name, mkRegistered Drv_serial
    (Z.lor (Z.lor RT_DEVICE_FLAG_RDWR RT_DEVICE_FLAG_INT_RX) flag)).

(** The names of gpio_pin.h, gpio_exti.h, gpio_pwm.h, gpio_adc.h and the uarts *)
Definition DEVICE_NAME (d : DEVICE) : string :=
  match d with
  | DEV_GSM_USART => "g_usart"
  | DEV_GSM_POWER => "g_power"
  | DEV_GSM_STATUS => "g_stat"
  | DEV_GSM_RING => "g_ring"
  | DEV_RFID_UART => "rf_uart"
  | DEV_RFID_POWER => "rf_power"
  | DEV_RFID_KEY_DETECT => "rf_kdet"
  | DEV_BATTERY_SWITCH => "bat_sw"
  | DEV_BATTERY_ADC => "bat_adc"
  | DEV_LOGO_LED => "logo"
  | DEV_LOCK_GATE => "lk_gate"
  | DEV_MOTOR_STATUS => "mt_stat"
  | DEV_MOTOR_A_PULSE => "mt_a"
  | DEV_MOTOR_B_PULSE => "mt_b"
  | DEV_CAMERA_UART => "cm_uart"
  | DEV_CAMERA_LED => "cm_led"
  | DEV_CAMERA_POWER => "cm_power"
  | DEV_CAMERA_PHOTOSENSOR => "cm_photo"
  | DEV_CAMERA_IRDASENSOR => "cm_irda"
  | DEV_CAMERA_USART_TX => "cm_txpin"
  | DEV_LOCK_SHELL => "lk_shell"
  | DEV_GATE_TEMPERATURE => "gt_temp"
  | DEV_LOCK_TEMPERATURE => "lk_temp"
  | DEV_KEY2 => "key2"
  | DEV_RTC => "rtc"
  | DEV_VOICE_DATA => "vo_data"
  | DEV_VOICE_RESET => "vo_rst"
  | DEV_VOICE_SWITCH => "vo_sw"
  | DEV_VOICE_AMP => "vo_amp"
  end%string.

(** The registrations of [rt_hw_board_init], in order, and the clock, if it
    could be configured *)
Definition rt_hw_board_init : list (list Z * REGISTERED) :=
  [register_uart "usart1" RT_DEVICE_FLAG_STREAM;
   register_uart (DEVICE_NAME DEV_GSM_USART) RT_DEVICE_FLAG_DMA_TX;
   register_pin "g_led" 0;
   register_pin (DEVICE_NAME DEV_GSM_POWER) 0;
   register_pin (DEVICE_NAME DEV_GSM_STATUS) 0;
   register_exti (DEVICE_NAME DEV_GSM_RING) 13 EXTI_Trigger_Falling EXTI15_10_IRQn;
   register_pin "g_dtr" 1;
   register_uart (DEVICE_NAME DEV_RFID_UART) RT_DEVICE_FLAG_DMA_TX;
   register_pin (DEVICE_NAME DEV_RFID_POWER) 0;
   register_exti (DEVICE_NAME DEV_RFID_KEY_DETECT) 10 EXTI_Trigger_Rising EXTI15_10_IRQn;
   register_exti (DEVICE_NAME DEV_LOCK_SHELL) 11 EXTI_Trigger_Rising EXTI15_10_IRQn;
   register_exti (DEVICE_NAME DEV_LOCK_GATE) 12 EXTI_Trigger_Rising EXTI15_10_IRQn;
   register_exti (DEVICE_NAME DEV_LOCK_TEMPERATURE) 14 EXTI_Trigger_Rising EXTI15_10_IRQn;
   register_exti (DEVICE_NAME DEV_GATE_TEMPERATURE) 15 EXTI_Trigger_Rising EXTI15_10_IRQn;
   register_exti (DEVICE_NAME DEV_KEY2) 6 EXTI_Trigger_Rising EXTI9_5_IRQn;
   register_uart (DEVICE_NAME DEV_CAMERA_UART) 0;
   register_pin (DEVICE_NAME DEV_CAMERA_PHOTOSENSOR) 1;
   register_exti (DEVICE_NAME DEV_CAMERA_IRDASENSOR) 1 EXTI_Trigger_Falling EXTI1_IRQn;
   register_pin (DEVICE_NAME DEV_CAMERA_POWER) 1;
   register_pin (DEVICE_NAME DEV_CAMERA_LED) 0;
   register_pin (DEVICE_NAME DEV_CAMERA_USART_TX) 0;
   register_pin (DEVICE_NAME DEV_MOTOR_STATUS) 1;
   register_pwm (DEVICE_NAME DEV_MOTOR_A_PULSE);
   register_pwm (DEVICE_NAME DEV_MOTOR_B_PULSE);
   register_pwm (DEVICE_NAME DEV_VOICE_DATA);
   register_pwm (DEVICE_NAME DEV_VOICE_RESET);
   register_pin (DEVICE_NAME DEV_VOICE_SWITCH) 1;
   register_pin (DEVICE_NAME DEV_VOICE_AMP) 0;
   (bytes_of (DEVICE_NAME DEV_BATTERY_ADC),
    mkRegistered Drv_adc (Z.lor RT_DEVICE_FLAG_RDONLY RT_DEVICE_FLAG_DMA_RX));
   register_exti (DEVICE_NAME DEV_BATTERY_SWITCH) 9 EXTI_Trigger_Rising_Falling EXTI9_5_IRQn;
   register_pin (DEVICE_NAME DEV_LOGO_LED) 0;
   register_pin (DEVICE_NAME DEV_LOGO_LED) 0;
   (bytes_of "spi2bus", mkRegistered Drv_spi RT_DEVICE_FLAG_RDWR);
   (bytes_of "sst25", mkRegistered Drv_spi RT_DEVICE_FLAG_RDWR);
   (bytes_of "flash1", mkRegistered Drv_flash (Z.lor (Z.lor RT_DEVICE_FLAG_RDWR RT_DEVICE_FLAG_STANDALONE)
     (Z.lor RT_DEVICE_FLAG_DMA_RX RT_DEVICE_FLAG_DMA_TX)))].

Definition rt_hw_rtc_init (configured : bool) : list (list Z * REGISTERED) :=
  if configured then [(bytes_of (DEVICE_NAME DEV_RTC), mkRegistered Drv_rtc RT_DEVICE_FLAG_RDWR)] else [].

Definition board_devices (configured : bool) : list (list Z * REGISTERED) :=
  register_all (rt_hw_board_init ++ rt_hw_rtc_init configured) [].

Definition find_device (configured : bool) (d : DEVICE) : option REGISTERED :=
  rt_device_find (bytes_of (DEVICE_NAME d)) (board_devices configured).

(** ** The layer of gpio.c and the pin driver *)

Definition GPIO_Mode_IN_FLOATING : Z := 0x04.
Definition GPIO_Mode_IPD : Z := 0x28.
Definition GPIO_Mode_IPU : Z := 0x48.
Definition GPIO_Mode_AF_PP : Z := 0x18.

Definition RT_DEVICE_CTRL_RESUME : Z := 0x01.
Definition RT_DEVICE_CTRL_SUSPEND : Z := 0x02.
Definition RT_DEVICE_CTRL_CONFIG : Z := 0x03.
Definition RT_DEVICE_FLAG_SUSPENDED : Z := 0x020.
Definition GPIO_CMD_INIT_CONFIG : Z := 1.

(** A pin: the flags of its device, the mode it is in, the mode of its table,
    and the level that was written *)
Record PIN := mkPin { pin_flag : Z; pin_mode : Z; gpio_mode : Z; pin_out : Z }.

Definition has_device_flag (flag bit : Z) : bool := negb (Z.land flag bit =? 0).

Definition gpio_pin_configure (default : Z) (p : PIN) : PIN :=
  mkPin (pin_flag p) (gpio_mode p) (gpio_mode p) (if default =? 0 then 0 else 1).

(** [memory] is what a pointer to a mode points to. *)
Definition gpio_pin_control (memory : Z → Z) (cmd arg : Z) (p : PIN) : PIN :=
  let mode := memory arg in
  if cmd =? GPIO_CMD_INIT_CONFIG then
    let flag :=
      if negb (mode =? GPIO_Mode_IN_FLOATING) && negb (mode =? GPIO_Mode_IPD) && negb (mode =? GPIO_Mode_IPU)
      then Z.lor (Z.ldiff (pin_flag p) RT_DEVICE_FLAG_RDONLY) RT_DEVICE_FLAG_WRONLY
      else Z.lor (Z.ldiff (pin_flag p) RT_DEVICE_FLAG_WRONLY) RT_DEVICE_FLAG_RDONLY in
    mkPin flag mode (gpio_mode p) (pin_out p)
  else p.

Definition gpio_pin_out (data : Z) (p : PIN) : PIN :=
  if has_device_flag (pin_flag p) RT_DEVICE_FLAG_WRONLY
  then mkPin (pin_flag p) (pin_mode p) (gpio_mode p) (if data =? 0 then 0 else 1) else p.

(** [level] is what the input register shows. *)
Definition gpio_pin_intput (level : Z) (p : PIN) : Z :=
  if has_device_flag (pin_flag p) RT_DEVICE_FLAG_RDONLY then level else 0.

Definition rt_gpio_control (memory : Z → Z) (default cmd arg : Z) (p : PIN) : PIN :=
  if cmd =? RT_DEVICE_CTRL_SUSPEND then
    mkPin (Z.lor (pin_flag p) RT_DEVICE_FLAG_SUSPENDED) (pin_mode p) (gpio_mode p) (pin_out p)
  else if cmd =? RT_DEVICE_CTRL_RESUME then
    mkPin (Z.ldiff (pin_flag p) RT_DEVICE_FLAG_SUSPENDED) (pin_mode p) (gpio_mode p) (pin_out p)
  else if cmd =? RT_DEVICE_CTRL_CONFIG then gpio_pin_configure default p
  else gpio_pin_control memory cmd arg p.

(** The command that should give a pin another mode has the number of the
    resume command, which gpio.c handles itself: whatever is asked for, and
    wherever the argument points, the mode stays. *)
Lemma init_config_is_resume memory default arg p :
  rt_gpio_control memory default GPIO_CMD_INIT_CONFIG arg p =
    mkPin (Z.ldiff (pin_flag p) RT_DEVICE_FLAG_SUSPENDED) (pin_mode p) (gpio_mode p) (pin_out p).
Proof. done. Qed.

(** So switching the camera on and off (camera_power_control of photo.c asks for
    GPIO_Mode_AF_PP or GPIO_Mode_IN_FLOATING) leaves its transmit pin as it is,
    if the device is not suspended. *)
Lemma camera_tx_unchanged memory p args : Z.ldiff (pin_flag p) RT_DEVICE_FLAG_SUSPENDED = pin_flag p →
  foldl (λ p arg, rt_gpio_control memory 0 GPIO_CMD_INIT_CONFIG arg p) p args = p.
Proof.
  intros Hp. induction args as [|arg args IH]; [done|]. cbn [foldl].
  rewrite init_config_is_resume, Hp. destruct p. exact IH.
Qed.

(** ** What the program needs *)

Inductive USE := Use_read | Use_write | Use_irq | Use_pulse | Use_uart | Use_adc | Use_clock.

(** How the program uses its devices *)
Definition uses (d : DEVICE) : list USE :=
  match d with
  | DEV_GSM_USART | DEV_RFID_UART | DEV_CAMERA_UART => [Use_uart]
  | DEV_GSM_POWER | DEV_RFID_POWER | DEV_LOGO_LED | DEV_CAMERA_LED | DEV_CAMERA_POWER
  | DEV_CAMERA_USART_TX | DEV_VOICE_SWITCH | DEV_VOICE_AMP => [Use_write]
  | DEV_GSM_STATUS | DEV_MOTOR_STATUS | DEV_CAMERA_PHOTOSENSOR => [Use_read]
  | DEV_GSM_RING | DEV_RFID_KEY_DETECT | DEV_BATTERY_SWITCH | DEV_LOCK_GATE
  | DEV_CAMERA_IRDASENSOR => [Use_irq; Use_read]
  | DEV_LOCK_SHELL | DEV_GATE_TEMPERATURE | DEV_LOCK_TEMPERATURE | DEV_KEY2 => [Use_irq]
  | DEV_MOTOR_A_PULSE | DEV_MOTOR_B_PULSE | DEV_VOICE_DATA | DEV_VOICE_RESET => [Use_pulse]
  | DEV_BATTERY_ADC => [Use_adc]
  | DEV_RTC => [Use_clock]
  end.

Definition permits (r : REGISTERED) (u : USE) : bool :=
  let has := has_device_flag (dev_flag r) in
  match u, dev_driver r with
  | Use_read, Drv_pin _ => has RT_DEVICE_FLAG_RDONLY
  | Use_read, Drv_exti _ _ _ => has RT_DEVICE_FLAG_RDONLY
  | Use_write, Drv_pin _ => has RT_DEVICE_FLAG_WRONLY
  | Use_irq, Drv_exti _ _ _ => has RT_DEVICE_FLAG_INT_RX
  | Use_pulse, Drv_pwm => has RT_DEVICE_FLAG_PWM_TX && has RT_DEVICE_FLAG_INT_TX
  | Use_uart, Drv_serial =>
      has RT_DEVICE_FLAG_RDONLY && has RT_DEVICE_FLAG_WRONLY && has RT_DEVICE_FLAG_INT_RX
  | Use_clock, Drv_rtc => has RT_DEVICE_FLAG_RDWR
  | Use_adc, Drv_adc => has RT_DEVICE_FLAG_RDONLY && has RT_DEVICE_FLAG_DMA_RX
  | _, _ => false
  end.

Section wiring.
Context {HB : Board}.

Definition channel_handler (c : IRQ_CHANNEL) : (nat → bool) → M () :=
  match c with
  | EXTI1_IRQn => EXTI1_IRQHandler
  | EXTI9_5_IRQn => EXTI9_5_IRQHandler
  | EXTI15_10_IRQn => EXTI15_10_IRQHandler
  end.

(** Every device of [DEVICE] but the clock is found under its name, and the clock
    if it could be configured, with a driver and flags that permit what the
    program does with it; and an edge on the line of a sensor's table, with
    nothing else pending, makes the interrupt handler of its channel serve that
    very sensor. *)
Lemma board_serves_program configured d : configured = true ∨ d ≠ DEV_RTC →
  ∃ r, find_device configured d = Some r ∧ Forall (λ u, permits r u = true) (uses d) ∧
    match dev_driver r with
    | Drv_exti line _ channel => ∀ w, channel_handler channel (λ l, l =? line)%nat w = rt_hw_gpio_isr d w
    | _ => interrupt_input d = false
    end.
Proof.
  intros Hd. assert (∀ (m : M ()) w, (m ;;; mreturn ()) w = m w) as Hend.
  { intros m w. unfold mseq. by destruct (m w) as [[] w'| |]. }
  destruct configured, d; lazymatch type of Hd with
    | false = true ∨ DEV_RTC ≠ DEV_RTC => by destruct Hd as [?|[]]
    | _ => clear Hd
    end;
    (eexists; split; [vm_compute; reflexivity|]); (split; [by repeat constructor|]);
    cbn [dev_driver]; try reflexivity; intros w; cbn [channel_handler];
    unfold EXTI1_IRQHandler, EXTI9_5_IRQHandler, EXTI15_10_IRQHandler;
    cbn [exti_lines Nat.eqb when]; rewrite ?mseq_return_l, ?Hend; done.
Qed.
End wiring.

(** A board with the devices of the table, whatever its pins and uarts do *)
Definition registered_board (HB : Board) (configured : bool) : Board := {|
  dev_present := λ d, bool_decide (is_Some (find_device configured d));
  pin_level := pin_level;
  uart_arrivals := uart_arrivals;
  adc_value := adc_value;
  rtc_time := rtc_time;
  rand_seeded := rand_seeded;
  localtime := localtime;
  uninit := uninit;
  file_works := file_works;
  disk_takes := disk_takes;
  timer_fires := timer_fires;
  config_opens := config_opens
|}.

(** A clock that could not be configured is not there. *)
Lemma clock_absent : find_device false DEV_RTC = None.
Proof. vm_compute. reflexivity. Qed.

(** The devices that other theorems suppose are there *)
Lemma registered_devices HB configured d : d ≠ DEV_RTC →
  dev_present (Board := registered_board HB configured) d = true.
Proof.
  intros Hd. unfold dev_present, registered_board. apply bool_decide_eq_true.
  destruct configured, d; lazymatch goal with
    | Hd : DEV_RTC ≠ DEV_RTC |- _ => by destruct Hd
    | |- _ => vm_compute; eauto
    end.
Qed.

Lemma registered_motors HB configured : motors_present (HB := registered_board HB configured).
Proof. split_and!; by apply registered_devices. Qed.

Lemma registered_camera HB configured : camera_has (HB := registered_board HB configured) DEV_CAMERA_POWER = true.
Proof. unfold camera_has. by rewrite !registered_devices by done. Qed.

Lemma registry_is_map_witness :
  rt_device_find (bytes_of "cm_photo2") (register_all [(bytes_of "cm_photo", 1); (bytes_of "cm_photo1", 2)] []) =
    entry_of (rt_strncpy RT_NAME_MAX (bytes_of "cm_photo2")) [(bytes_of "cm_photo", 1); (bytes_of "cm_photo1", 2)].
Proof. apply registry_is_map; by_computation. Defined.
