(* ===== verification/Sms.v ===== *)
(** * Alarm messages by SMS (src/sms.c)

    The text of an alarm, its PDU, and the thread that sends it to the alarm
    telephones.  A decoder of the PDU format states what a telephone gets. *)
From stdpp Require Import base strings list.
From Stdlib Require Import ZArith Lia.
From S2P Require Import Prelude World Monad Untils Alarm GsmService.

(** ** The texts (UCS-2) *)

Definition NUM_UCS_MAP : list Z :=
  [0x0030; 0x0031; 0x0032; 0x0033; 0x0034; 0x0035; 0x0036; 0x0037;
   0x0038; 0x0039; 0; 0; 0; 0; 0; 0].
Definition sms_content_lock_shell : list Z :=
  [0x667A; 0x80FD; 0x9501; 0x6B63; 0x88AB; 0x66B4; 0x529B; 0x5F00;
   0x542F; 0xFF0C; 0x8BF7; 0x6CE8; 0x610F; 0x5B89; 0x5168].
Definition sms_content_lock_temperature : list Z :=
  [0x667A; 0x80FD; 0x9501; 0x6B63; 0x5728; 0x88AB; 0x5207; 0x5272;
   0x5F00; 0x542F; 0xFF0C; 0x6E05; 0x6CE8; 0x610F; 0x5B89; 0x5168].
Definition sms_content_lock_gate : list Z :=
  [0x5C0A; 0x656C; 0x7684; 0x7528; 0x6237; 0xFF0C; 0x4F60; 0x7684;
   0x95E8; 0x6CA1; 0x6709; 0x9501; 0x597D; 0xFF0C; 0x8BF7; 0x6CE8;
   0x610F; 0x5B89; 0x5168].
Definition sms_content_rfid_key_error : list Z :=
  [0x667A; 0x80FD; 0x9501; 0x6B63; 0x88AB; 0x975E; 0x6CD5; 0x5F00;
   0x542F; 0xFF0C; 0x8BF7; 0x6CE8; 0x610F; 0x5B89; 0x5168].
Definition sms_content_rfid_key_plugin : list Z :=
  [0x5C0A; 0x656C; 0x7684; 0x7528; 0x6237; 0xFF0C; 0x4F60; 0x7684;
   0x95E8; 0x94A5; 0x6CA1; 0x6709; 0x62D4; 0x53D6; 0xFF0C; 0x8BF7;
   0x6CE8; 0x610F; 0x5B89; 0x5168].
Definition sms_content_camera_idrasensor : list Z :=
  [0x667A; 0x80FD; 0x9501; 0x6444; 0x50CF; 0x5934; 0x88AB; 0x906E;
   0x6321; 0xFF0C; 0x8BF7; 0x6CE8; 0x610F; 0x5B89; 0x5168].
Definition sms_content_battery_working_20m : list Z :=
  [0x667A; 0x80FD; 0x9501; 0x81EA; 0x52A8; 0x65AD; 0x7535; 0xFF0C;
   0x5C06; 0x81EA; 0x52A8; 0x542F; 0x52A8; 0x7535; 0x6C60; 0x4F9B;
   0x7535].
Definition sms_content_battery_remain_50p : list Z :=
  [0x667A; 0x80FD; 0x9501; 0x7535; 0x6C60; 0x7535; 0x91CF; 0x8FD8;
   0x5269; 0x0035; 0x0030; 0x0025; 0xFF0C; 0x8BF7; 0x5C3D; 0x5FEB;
   0x5145; 0x7535].
Definition sms_content_battery_remain_20p : list Z :=
  [0x667A; 0x80FD; 0x9501; 0x7535; 0x6C60; 0x7535; 0x91CF; 0x8FD8;
   0x5269; 0x0032; 0x0030; 0x0025; 0xFF0C; 0x8BF7; 0x6CE8; 0x610F;
   0x5B89; 0x5168; 0x5E76; 0x5C3D; 0x5FEB; 0x5145; 0x7535].
Definition sms_content_battery_remain_5p : list Z :=
  [0; 0].
Definition sms_content_camera_fault : list Z :=
  [0x6444; 0x50CF; 0x5934; 0x6A21; 0x5757; 0x6545; 0x969C; 0xFF0C;
   0x8BF7; 0x8054; 0x7CFB; 0x7ECF; 0x9500; 0x5546; 0x6216; 0x5382;
   0x5BB6].
Definition sms_content_rfid_fault : list Z :=
  [0x0052; 0x0046; 0x0049; 0x0044; 0x6A21; 0x5757; 0x6545; 0x969C;
   0xFF0C; 0x8BF7; 0x8054; 0x7CFB; 0x7ECF; 0x9500; 0x5546; 0x6216;
   0x5382; 0x5BB6].
Definition sms_content_motor_fault : list Z :=
  [0x9501; 0x820C; 0x7535; 0x673A; 0x6545; 0x969C; 0xFF0C; 0x8BF7;
   0x8054; 0x7CFB; 0x7ECF; 0x9500; 0x5546; 0x6216; 0x5382; 0x5BB6].
Definition sms_content_time_prefix : list Z :=
  [0x3010].
Definition sms_content_time_suffix : list Z :=
  [0x60A6; 0x5FB7; 0x667A; 0x80FD; 0x3011].

(** [sms_data_init]: the texts by alarm; the other entries stay empty. *)
Definition sms_data (a : ALARM_TYPEDEF) : list Z :=
  match a with
  | ALARM_TYPE_LOCK_SHELL => sms_content_lock_shell
  | ALARM_TYPE_LOCK_TEMPERATURE => sms_content_lock_temperature
  | ALARM_TYPE_LOCK_GATE => sms_content_lock_gate
  | ALARM_TYPE_RFID_KEY_ERROR => sms_content_rfid_key_error
  | ALARM_TYPE_RFID_KEY_PLUGIN => sms_content_rfid_key_plugin
  | ALARM_TYPE_CAMERA_IRDASENSOR => sms_content_camera_idrasensor
  | ALARM_TYPE_BATTERY_WORKING_20M => sms_content_battery_working_20m
  | ALARM_TYPE_BATTERY_REMAIN_50P => sms_content_battery_remain_50p
  | ALARM_TYPE_BATTERY_REMAIN_20P => sms_content_battery_remain_20p
  | ALARM_TYPE_BATTERY_REMAIN_5P => sms_content_battery_remain_5p
  | ALARM_TYPE_CAMERA_FAULT => sms_content_camera_fault
  | ALARM_TYPE_RFID_FAULT => sms_content_rfid_fault
  | ALARM_TYPE_MOTOR_FAULT => sms_content_motor_fault
  | _ => []
  end.

(** An element of [NUM_UCS_MAP]; the array has sixteen. *)
Definition num_ucs (i : Z) : option Z :=
  if (0 <=? i) && (i <? 16) then NUM_UCS_MAP !! Z.to_nat i else None.

(** The indices into [NUM_UCS_MAP] and the separators, in the order they are
    written; [tm_year] goes through a [uint16_t]. *)
Definition time_fields (tm_time : tm) : list (Z + Z) :=
  let year := (u16 (tm_year tm_time)) mod 10000 in
  [inl (year / 1000); inl (year mod 1000 / 100); inl (year mod 1000 mod 100 / 10);
   inl (year mod 1000 mod 100 mod 10); inr 0x002D;
   inl (Z.quot (tm_mon tm_time) 10); inl (Z.rem (tm_mon tm_time) 10); inr 0x002D;
   inl (Z.quot (tm_mday tm_time) 10); inl (Z.rem (tm_mday tm_time) 10); inr 0x0020;
   inl (Z.quot (tm_hour tm_time) 10); inl (Z.rem (tm_hour tm_time) 10); inr 0x003A;
   inl (Z.quot (tm_min tm_time) 10); inl (Z.rem (tm_min tm_time) 10); inr 0x003A;
   inl (Z.quot (tm_sec tm_time) 10); inl (Z.rem (tm_sec tm_time) 10); inr 0x0020].

Definition time_char (f : Z + Z) : option Z :=
  match f with inl i => num_ucs i | inr c => Some c end.

Definition sms_time_ucs (tm_time : tm) (prefix suffix : list Z) : option (list Z) :=
  (λ digits, prefix ++ digits ++ suffix) <$> mapM time_char (time_fields tm_time).

(** ** Addresses and the frame *)

Definition HEX_CHAR_MAP : list Z := bytes_of "0123456789ABCDEF".

(** [*octet = (c - '0') & 0x0f; *octet++ |= ((c' - '0') << 4) & 0xf0] *)
Definition pair_octet (c c' : Z) : Z :=
  Z.lor (Z.land (c - 48) 0x0f) (Z.land (Z.shiftl (c' - 48) 4) 0xf0).

(** The digits in pairs; the last of an odd number is paired with the byte the
    uninitialised buffer holds behind it, and its high half is then set. *)
Fixpoint sms_pdu_octets (garbage : Z) (phone_address : list Z) : list Z :=
  match phone_address with
  | [] => []
  | [c] => [Z.lor (pair_octet c garbage) 0xf0]
  | c :: c' :: l => pair_octet c c' :: sms_pdu_octets garbage l
  end.

(** The octets go into an array of seven, the digits through one of twenty. *)
Definition sms_pdu_phone_address_init (garbage : Z) (phone_address : list Z)
  : option (list Z) :=
  let octets := sms_pdu_octets garbage phone_address in
  if (20 <? length phone_address)%nat || (7 <? length octets)%nat then None
  else Some (pad 7 octets).

(** The bytes of the frame before the user data *)
Definition sms_pdu_head_init (g1 g2 : Z) (smsc_address dest_address : list Z) (tp_udl : Z)
  : option (list Z) :=
  match sms_pdu_phone_address_init g1 smsc_address,
        sms_pdu_phone_address_init g2 dest_address with
  | Some smsc, Some da =>
      Some ([0x08; 0x91] ++ smsc ++ [0x11; 0x00; 0x0D; 0x91] ++ da ++
            [0x00; 0x08; 0xC2; tp_udl])
  | _, _ => None
  end.

Definition hex_char (i : Z) : Z := tbl HEX_CHAR_MAP i.

Definition hex_to_string (hex : list Z) : list Z :=
  flat_map (λ h, [hex_char (Z.land (Z.shiftr h 4) 0x0f); hex_char (Z.land h 0x0f)]) hex.

(** The two bytes of a code unit *)
Definition ucs_bytes (c : Z) : list Z :=
  [Z.land 0x00ff (Z.shiftr c 8); Z.land 0x00ff c].

Definition clamp70 (length : Z) : Z := if 70 <? length then 70 else length.

(** The string that is sent and the length AT+CMGS announces; [content] has at
    least [length] units. *)
Definition sms_pdu (g1 g2 : Z) (dest_address smsc_address content : list Z) (length : Z)
  : option (list Z * Z) :=
  let length := clamp70 length in
  let tp_udl := u8 (Z.shiftl length 1) in
  match sms_pdu_head_init g1 g2 smsc_address dest_address tp_udl with
  | None => None
  | Some head =>
      let user_data := flat_map ucs_bytes (take (Z.to_nat length) content) in
      Some (hex_to_string (head ++ user_data), u16 (tp_udl + 15))
  end.

Section sms.
Context {HB : Board} {HG : GsmService}.

Definition sms_pdu_ucs_send (dest_address smsc_address content : list Z) (length : Z)
  : M Z :=
  if negb (dev_present DEV_GSM_USART) then mreturn (-1)
  else
    dest <- deref (cstr dest_address) ;;
    smsc <- deref (cstr smsc_address) ;;
    g1 <- observe (λ t, u8 (uninit t)) ;;
    g2 <- observe (λ t, u8 (uninit t)) ;;
    pdu <- deref (sms_pdu g1 g2 dest smsc content length) ;;
    r <- gsm_transact false (GM_cmd AT_CMGS 50 (CD_cmgs (snd pdu) (pad 512 (fst pdu)))) ;;
    mreturn (match r with
             | Some (send_result, _) => if send_result =? AT_RESPONSE_OK then 1 else 0
             | None => 0
             end).

(** [while (resend_counts < 5)]: the number of tries that failed *)
Fixpoint sms_resend (todo : nat) (resend_counts : Z) (send : M Z) : M Z :=
  match todo with
  | O => mreturn resend_counts
  | S todo =>
      send_result <- send ;;
      if send_result =? 0 then sms_resend todo (resend_counts + 1) send
      else mreturn resend_counts
  end.

(** The loop over the telephones; the parameters and the service centre are
    read when they are used. *)
Fixpoint sms_telephones (todo : nat) (index : nat) (sms_ucs : list Z) : M () :=
  match todo with
  | O => mreturn ()
  | S todo =>
      p <- get params ;;
      t <- deref (alarm_telephone p !! index) ;;
      when (negb (tel_flag t =? 0))
        (sms_resend 5 0
           (p <- get params ;;
            t <- deref (alarm_telephone p !! index) ;;
            c <- get smsc ;;
            sms_pdu_ucs_send (address t) c sms_ucs (u8 (Z.of_nat (length sms_ucs)))) ;;;
         mreturn ()) ;;;
      sms_telephones todo (S index) sms_ucs
  end.

(** The text of a mail: what happened, and when *)
Definition sms_text (m : SMS_MAIL) : option (list Z) :=
  let t := localtime (sm_time m) in
  let tm_time := mkTm (tm_year t + 1900) (tm_mon t + 1) (tm_mday t) (tm_hour t)
                   (tm_min t) (tm_sec t) in
  (λ time, sms_data (sm_alarm_type m) ++ time) <$>
    sms_time_ucs tm_time sms_content_time_prefix sms_content_time_suffix.

Definition sms_mail_process_step : M () :=
  m <- rt_mq_recv sms_mq set_sms_mq ;;
  match m with
  | Some sms_mail_buf =>
      text <- deref (sms_text sms_mail_buf) ;;
      sms_telephones TELEPHONE_NUMBERS 0 text
  | None => mreturn ()
  end.
End sms.

(** ** What the network decodes (3GPP TS 23.040, SMS-SUBMIT)

    A decoder that does not use the encoder's definitions. *)

Definition unhex (c : Z) : option Z :=
  if (48 <=? c) && (c <=? 57) then Some (c - 48)
  else if (65 <=? c) && (c <=? 70) then Some (c - 55) else None.

Fixpoint hex_decode (s : list Z) : option (list Z) :=
  match s with
  | [] => Some []
  | h :: l :: s =>
      match unhex h, unhex l, hex_decode s with
      | Some h, Some l, Some bytes => Some (16 * h + l :: bytes)
      | _, _, _ => None
      end
  | _ => None
  end.

(** Semi-octets, low half first, up to the filler 0xF *)
Fixpoint semi_octets (l : list Z) : list Z :=
  match l with
  | [] => []
  | o :: l =>
      let lo := o mod 16 in
      let hi := o / 16 in
      if lo =? 15 then [] else if hi =? 15 then [48 + lo]
      else 48 + lo :: 48 + hi :: semi_octets l
  end.

Fixpoint ucs_decode (l : list Z) : option (list Z) :=
  match l with
  | [] => Some []
  | h :: l :: rest => (λ r, 256 * h + l :: r) <$> ucs_decode rest
  | _ => None
  end.

Record SUBMIT := mkSubmit { su_smsc : list Z; su_dest : list Z; su_text : list Z }.

Definition decode_submit (s : list Z) : option SUBMIT :=
  match hex_decode s with
  | Some (smsc_len :: _ :: rest) =>
      let n := Z.to_nat (smsc_len - 1) in
      match drop n rest with
      | _ :: _ :: da_len :: _ :: rest2 =>
          let k := Z.to_nat ((da_len + 1) / 2) in
          match drop k rest2 with
          | _ :: dcs :: _ :: udl :: ud =>
              if (dcs =? 8) && (udl =? Z.of_nat (length ud)) then
                mkSubmit (semi_octets (take n rest))
                  (take (Z.to_nat da_len) (semi_octets (take k rest2))) <$> ucs_decode ud
              else None
          | _ => None
          end
      | _ => None
      end
  | _ => None
  end.

(** ** The decoder undoes the encoder *)

Definition digit (c : Z) : Prop := 48 ≤ c ≤ 57.
#[global] Instance digit_dec c : Decision (digit c).
Proof. unfold digit. apply _. Defined.

Definition all_digits : list Z := [48; 49; 50; 51; 52; 53; 54; 55; 56; 57].

Lemma digit_forall (P : Z → Prop) : Forall P all_digits → ∀ c, digit c → P c.
Proof.
  intros H c [H1 H2]. rewrite Forall_forall in H. apply H. unfold all_digits.
  rewrite !elem_of_cons, elem_of_nil. lia.
Qed.

Lemma hex_decode_string l : Forall byte l → hex_decode (hex_to_string l) = Some l.
Proof.
  induction 1 as [|b l Hb _ IH]; [done|]. unfold hex_to_string in *. cbn [flat_map app].
  cbn [hex_decode]. rewrite IH.
  assert (∀ b, byte b →
    unhex (hex_char (Z.land (Z.shiftr b 4) 0x0f)) = Some (b / 16) ∧
    unhex (hex_char (Z.land b 0x0f)) = Some (b mod 16)) as Hx.
  { apply byte_forall. by_computation. }
  destruct (Hx b Hb) as [-> ->]. do 2 f_equal. pose proof (Z.div_mod b 16). lia.
Qed.

Lemma pair_octet_digits c c' :
  digit c → digit c' →
  byte (pair_octet c c') ∧ pair_octet c c' mod 16 = c - 48 ∧ pair_octet c c' / 16 = c' - 48.
Proof.
  intros Hc Hc'. revert c Hc. apply (digit_forall (λ c, _)). revert c' Hc'.
  apply (digit_forall (λ c', Forall (λ c, _) all_digits)). by_computation.
Qed.

(** The garbage behind an odd number of digits does not matter. *)
Lemma pair_octet_last c g :
  digit c →
  byte (Z.lor (pair_octet c g) 0xf0) ∧ Z.lor (pair_octet c g) 0xf0 mod 16 = c - 48 ∧
  Z.lor (pair_octet c g) 0xf0 / 16 = 15.
Proof.
  intros Hc. assert (Z.lor (pair_octet c g) 0xf0 = Z.lor (Z.land (c - 48) 0x0f) 0xf0) as ->.
  { unfold pair_octet. rewrite <- Z.lor_assoc. f_equal.
    apply Z.bits_inj'. intros i Hi. rewrite Z.lor_spec, Z.land_spec.
    destruct (Z.testbit 0xf0 i); [by rewrite orb_true_r|by rewrite andb_false_r]. }
  revert c Hc. apply digit_forall. by_computation.
Qed.

Lemma pair_ind {A} (P : list A → Prop) :
  P [] → (∀ x, P [x]) → (∀ x y l, P l → P (x :: y :: l)) → ∀ l, P l.
Proof.
  intros H0 H1 H2. fix IH 1. intros [|x [|y l]]; [exact H0|apply H1|]. apply H2, IH.
Qed.

Lemma sms_pdu_octets_length g l : (length (sms_pdu_octets g l) = (length l + 1) / 2)%nat.
Proof.
  induction l as [|x|x y l IH] using pair_ind; [done|done|]. cbn [sms_pdu_octets length].
  rewrite IH. replace (S (S (length l)) + 1)%nat with (length l + 1 + 1 * 2)%nat by lia.
  rewrite Nat.div_add by lia. lia.
Qed.

Lemma sms_pdu_octets_bytes g l : Forall digit l → Forall byte (sms_pdu_octets g l).
Proof.
  induction l as [|x|x y l IH] using pair_ind; cbn [sms_pdu_octets]; intros H.
  - done.
  - rewrite Forall_singleton in *. by apply pair_octet_last.
  - rewrite !Forall_cons in H. destruct H as (Hx & Hy & Hl).
    apply Forall_cons. split; [by apply pair_octet_digits|auto].
Qed.

(** Reading the semi-octets back: an even number of digits runs to the end, an
    odd one to the filler. *)
Lemma semi_octets_even g l :
  Forall digit l → Nat.Even (length l) → semi_octets (sms_pdu_octets g l) = l.
Proof.
  induction l as [|x|x y l IH] using pair_ind; intros H [k Hk].
  - done.
  - simpl in Hk. lia.
  - rewrite !Forall_cons in H. destruct H as (Hx & Hy & Hl).
    cbn [sms_pdu_octets semi_octets]. destruct (pair_octet_digits x y Hx Hy) as (_ & -> & ->).
    unfold digit in *. rewrite (proj2 (Z.eqb_neq _ _)), (proj2 (Z.eqb_neq _ _)) by lia.
    rewrite IH; [f_equal; [lia|f_equal; lia]|done|]. exists (k - 1)%nat. simpl in Hk. lia.
Qed.

Lemma semi_octets_odd g l rest :
  Forall digit l → Nat.Odd (length l) → semi_octets (sms_pdu_octets g l ++ rest) = l.
Proof.
  induction l as [|x|x y l IH] using pair_ind; intros H [k Hk].
  - simpl in Hk. lia.
  - rewrite Forall_singleton in H. cbn [sms_pdu_octets semi_octets app].
    destruct (pair_octet_last x g H) as (_ & -> & ->). unfold digit in *.
    rewrite (proj2 (Z.eqb_neq _ _)) by lia. simpl. f_equal. lia.
  - rewrite !Forall_cons in H. destruct H as (Hx & Hy & Hl).
    cbn [sms_pdu_octets semi_octets app]. destruct (pair_octet_digits x y Hx Hy) as (_ & -> & ->).
    unfold digit in *. rewrite (proj2 (Z.eqb_neq _ _)), (proj2 (Z.eqb_neq _ _)) by lia.
    rewrite IH; [f_equal; [lia|f_equal; lia]|done|]. exists (k - 1)%nat. simpl in Hk. lia.
Qed.

Lemma ucs_bytes_decode c : fits 16 c → Forall byte (ucs_bytes c) ∧
  ucs_bytes c = [c / 256; c mod 256].
Proof.
  intros Hc. assert (ucs_bytes c = [c / 256; c mod 256]) as E.
  { unfold ucs_bytes. change 0x00ff with (Z.ones 8). rewrite !(Z.land_comm (Z.ones 8)).
    rewrite !Z.land_ones by lia. rewrite Z.shiftr_div_pow2 by lia. change (2 ^ 8) with 256.
    rewrite (Z.mod_small (c / 256)); [done|]. unfold fits in Hc. change (2 ^ 16) with 65536 in Hc.
    split; [apply Z.div_pos; lia|apply Z.div_lt_upper_bound; lia]. }
  split; [|done]. rewrite E. unfold fits in *. change (2 ^ 16) with 65536 in Hc.
  change (2 ^ 8) with 256. rewrite !Forall_cons, Forall_nil.
  split_and!; try done; try apply Z.mod_pos_bound; try lia.
  - apply Z.div_pos; lia.
  - apply Z.div_lt_upper_bound; lia.
Qed.

Lemma ucs_decode_bytes l :
  Forall (fits 16) l →
  ucs_decode (flat_map ucs_bytes l) = Some l ∧ Forall byte (flat_map ucs_bytes l) ∧
  length (flat_map ucs_bytes l) = (2 * length l)%nat.
Proof.
  induction 1 as [|c l Hc _ (IH1 & IH2 & IH3)]; [done|]. cbn [flat_map].
  destruct (ucs_bytes_decode c Hc) as [Hb ->]. cbn [app ucs_decode]. rewrite IH1.
  split_and!.
  - simpl. do 2 f_equal. pose proof (Z.div_mod c 256). lia.
  - rewrite !Forall_cons. destruct (ucs_bytes_decode c Hc) as [Hb' E]. rewrite E in Hb'.
    rewrite !Forall_cons in Hb'. tauto.
  - simpl. rewrite IH3. lia.
Qed.

(** The numbers the format of the program has room for *)
Definition smsc_number (s : list Z) : Prop :=
  Forall digit s ∧ (Nat.Odd (length s) ∧ (length s <= 13)%nat ∨ length s = 14%nat).

Lemma address_init_ok g s :
  smsc_number s → ∃ l, sms_pdu_phone_address_init g s = Some l ∧ length l = 7%nat ∧
    Forall byte l ∧ semi_octets l = s.
Proof.
  intros [Hd Hlen]. unfold sms_pdu_phone_address_init.
  assert (length s <= 14)%nat as Hle by lia.
  assert (length (sms_pdu_octets g s) <= 7)%nat as Ho.
  { rewrite sms_pdu_octets_length. apply Nat.lt_succ_r, Nat.Div0.div_lt_upper_bound. lia. }
  destruct (Nat.ltb_spec 20 (length s)); [lia|].
  destruct (Nat.ltb_spec 7 (length (sms_pdu_octets g s))); [lia|]. simpl.
  eexists. split; [done|]. split_and!.
  - by apply pad_length.
  - apply Forall_app. split; [by apply sms_pdu_octets_bytes|].
    apply forall_repeat. by_computation.
  - unfold pad. destruct Hlen as [[Hodd _]|H14].
    + by apply semi_octets_odd.
    + replace (7 - length (sms_pdu_octets g s))%nat with 0%nat.
      * simpl. rewrite app_nil_r. apply semi_octets_even; [done|]. exists 7%nat. lia.
      * rewrite sms_pdu_octets_length, H14. done.
Qed.

(** C20 (roundtrip). For a service centre and a destination of the lengths the
    format is laid out for (13 digits for the destination), whatever the
    uninitialised bytes are, the string sent decodes to exactly these numbers
    and the first seventy characters of the text, and AT+CMGS announces the
    number of octets behind the service centre. *)
Theorem sms_pdu_roundtrip g1 g2 dest smsc content :
  smsc_number smsc → Forall digit dest → length dest = 13%nat → Forall (fits 16) content →
  (length content < 256)%nat →
  ∃ s n, sms_pdu g1 g2 dest smsc content (Z.of_nat (length content)) = Some (s, n) ∧
    decode_submit s = Some (mkSubmit smsc dest (take 70 content)) ∧
    n = Z.of_nat (length s) / 2 - 9.
Proof.
  intros Hs Hd Hlen Hc Hn.
  assert (smsc_number dest) as Hd' by (split; [done|left; rewrite Hlen; split; [by exists 6%nat|lia]]).
  destruct (address_init_ok g1 smsc Hs) as (a & Ea & La & Ba & Sa).
  destruct (address_init_ok g2 dest Hd') as (b & Eb & Lb & Bb & Sb).
  unfold sms_pdu, sms_pdu_head_init. rewrite Ea, Eb.
  set (len := clamp70 (Z.of_nat (length content))).
  assert (0 ≤ len ≤ 70 ∧ take (Z.to_nat len) content = take 70 content) as [Hl Ht].
  { unfold len, clamp70. destruct (Z.ltb_spec 70 (Z.of_nat (length content))).
    - split; [lia|done].
    - split; [lia|]. rewrite Nat2Z.id, !take_ge by lia. done. }
  rewrite Ht. set (text := take 70 content) in *.
  assert (Z.of_nat (length text) = len) as Htl.
  { unfold text. rewrite length_take. unfold len, clamp70.
    destruct (Z.ltb_spec 70 (Z.of_nat (length content))); lia. }
  destruct (ucs_decode_bytes text) as (D1 & D2 & D3); [by apply Forall_take|].
  assert (u8 (Z.shiftl len 1) = 2 * len) as ->.
  { rewrite Z.shiftl_mul_pow2 by lia. rewrite wrap_small; unfold fits; change (2 ^ 8) with 256; lia. }
  assert (u16 (2 * len + 15) = 2 * len + 15) as ->.
  { apply wrap_small. unfold fits. change (2 ^ 16) with 65536. lia. }
  do 2 eexists. split; [reflexivity|].
  set (head := [8; 145] ++ a ++ [17; 0; 13; 145] ++ b ++ [0; 8; 194; 2 * len]) in *.
  assert (Forall byte (head ++ flat_map ucs_bytes text)) as Hbytes.
  { apply Forall_app. split; [|done]. unfold head. rewrite !Forall_app, !Forall_cons, !Forall_nil.
    unfold fits. change (2 ^ 8) with 256. split_and!; try done; lia. }
  split.
  - unfold decode_submit. rewrite hex_decode_string by done.
    unfold head. rewrite <- !app_assoc. cbn [app]. change (Z.to_nat (8 - 1)) with 7%nat.
    rewrite <- La, drop_app_length, take_app_length. cbn [app].
    change (Z.to_nat ((13 + 1) / 2)) with 7%nat.
    rewrite <- Lb, drop_app_length, take_app_length. cbn [app].
    rewrite D3. replace (2 * len =? Z.of_nat (2 * length text)) with true by (symmetry; apply Z.eqb_eq; lia).
    simpl. rewrite D1. simpl. do 2 f_equal; [done|]. rewrite Sb. apply take_ge. lia.
  - assert (∀ l, length (hex_to_string l) = (2 * length l)%nat) as Hh.
    { induction l as [|x l IH]; [done|]. unfold hex_to_string in *. simpl. rewrite IH. lia. }
    rewrite Hh, length_app, D3. unfold head. rewrite !length_app, La, Lb. simpl length.
    rewrite Nat.mul_comm, Nat2Z.inj_mul. change (Z.of_nat 2) with 2.
    rewrite Z.div_mul by lia. lia.
Qed.

(** ** The text *)

(** Reading the digits of the time stamp *)
Definition read_time (l : list Z) : option tm :=
  match l with
  | [y1; y2; y3; y4; _; o1; o2; _; d1; d2; _; h1; h2; _; m1; m2; _; s1; s2; _] =>
      Some (mkTm (1000 * (y1 - 48) + 100 * (y2 - 48) + 10 * (y3 - 48) + (y4 - 48))
        (10 * (o1 - 48) + (o2 - 48)) (10 * (d1 - 48) + (d2 - 48))
        (10 * (h1 - 48) + (h2 - 48)) (10 * (m1 - 48) + (m2 - 48)) (10 * (s1 - 48) + (s2 - 48)))
  | _ => None
  end.

Definition two_digits (z : Z) : Prop := 0 ≤ z < 100.

Lemma num_ucs_digit i : 0 ≤ i < 10 → num_ucs i = Some (48 + i).
Proof.
  intros H. assert (i = 0 ∨ i = 1 ∨ i = 2 ∨ i = 3 ∨ i = 4 ∨ i = 5 ∨ i = 6 ∨ i = 7 ∨ i = 8 ∨ i = 9)
    as Hi by lia. by repeat destruct Hi as [-> | Hi]; try subst.
Qed.

Lemma quot_rem_digits z : two_digits z →
  0 ≤ Z.quot z 10 < 10 ∧ 0 ≤ Z.rem z 10 < 10 ∧ 10 * Z.quot z 10 + Z.rem z 10 = z.
Proof.
  intros [H1 H2]. rewrite Z.quot_div_nonneg, Z.rem_mod_nonneg by lia.
  pose proof (Z.div_mod z 10). pose proof (Z.mod_pos_bound z 10). lia.
Qed.

Lemma year_digits y : 0 ≤ y < 10000 →
  0 ≤ y / 1000 < 10 ∧ 0 ≤ y mod 1000 / 100 < 10 ∧ 0 ≤ y mod 1000 mod 100 / 10 < 10 ∧
  0 ≤ y mod 1000 mod 100 mod 10 < 10 ∧
  1000 * (y / 1000) + 100 * (y mod 1000 / 100) + 10 * (y mod 1000 mod 100 / 10) +
    y mod 1000 mod 100 mod 10 = y.
Proof.
  intros H. pose proof (Z.div_mod y 1000). pose proof (Z.mod_pos_bound y 1000).
  pose proof (Z.div_mod (y mod 1000) 100). pose proof (Z.mod_pos_bound (y mod 1000) 100).
  pose proof (Z.div_mod (y mod 1000 mod 100) 10).
  pose proof (Z.mod_pos_bound (y mod 1000 mod 100) 10). lia.
Qed.

(** A time stamp is the prefix, twenty characters and the
    suffix, and the twenty characters carry the whole date and time: reading
    the decimal digits back gives the fields. *)
Lemma sms_time_roundtrip t prefix suffix :
  0 ≤ tm_year t < 10000 → two_digits (tm_mon t) → two_digits (tm_mday t) →
  two_digits (tm_hour t) → two_digits (tm_min t) → two_digits (tm_sec t) →
  ∃ digits, sms_time_ucs t prefix suffix = Some (prefix ++ digits ++ suffix) ∧
    length digits = 20%nat ∧ read_time digits = Some t.
Proof.
  intros Hy Ho Hd Hh Hm Hs.
  assert (u16 (tm_year t) mod 10000 = tm_year t) as Ey.
  { rewrite wrap_small; [by apply Z.mod_small|]. unfold fits. change (2 ^ 16) with 65536. lia. }
  destruct (year_digits _ Hy) as (Y1 & Y2 & Y3 & Y4 & Y5).
  destruct (quot_rem_digits _ Ho) as (O1 & O2 & O3).
  destruct (quot_rem_digits _ Hd) as (D1 & D2 & D3).
  destruct (quot_rem_digits _ Hh) as (H1 & H2 & H3).
  destruct (quot_rem_digits _ Hm) as (M1 & M2 & M3).
  destruct (quot_rem_digits _ Hs) as (S1 & S2 & S3).
  assert (∃ digits, mapM time_char (time_fields t) = Some digits ∧
    length digits = 20%nat ∧ read_time digits = Some t) as (digits & E & Hdigits).
  { unfold time_fields. rewrite Ey. cbn [mapM time_char]. rewrite !num_ucs_digit by done. cbn.
    eexists. split; [reflexivity|]. split; [done|].
    destruct t. cbn in *. do 2 f_equal; lia. }
  exists digits. unfold sms_time_ucs. by rewrite E.
Qed.

(** The text of every alarm fits one message: nothing is cut off. *)
Lemma sms_data_short a : (length (sms_data a) <= 23)%nat.
Proof. destruct a; simpl; lia. Qed.

Lemma sms_data_ucs a : Forall (fits 16) (sms_data a).
Proof. destruct a; by_computation. Qed.

(** ** No address overflows *)

Lemma alarm_telephone_short t :
  alarm_telephone_wf t → ∃ s, cstr (address t) = Some s ∧ (length s <= 13)%nat.
Proof.
  intros [(_ & [Hlen _] & _) Hz].
  assert (∀ (l : list Z) n, drop n l = repeat 0 7 → ∃ s, cstr l = Some s ∧ (length s <= n)%nat)
    as Hc.
  { clear. induction l as [|x l IH]; intros n H; [by destruct n|]. simpl.
    destruct (Z.eqb_spec x 0); [exists []; simpl; split; [done|lia]|].
    destruct n as [|n]; [simpl in H; congruence|].
    destruct (IH n H) as (s & -> & Hs). exists (x :: s). simpl. split; [done|lia]. }
  by apply Hc.
Qed.

(** C39 (bounds). On well-formed parameters and with a service centre number of
    at most 14 characters, the PDU of every alarm telephone is built inside its
    arrays, whatever the text; a longer service centre number overflows. *)
Theorem sms_pdu_in_bounds p t c g1 g2 content n :
  params_wf p → t ∈ alarm_telephone p →
  ∃ s, cstr (address t) = Some s ∧
    (sms_pdu g1 g2 s c content n = None ↔ (14 < length c)%nat).
Proof.
  intros [[_ Hp] _] Ht. rewrite Forall_forall in Hp.
  destruct (alarm_telephone_short t (Hp t Ht)) as (s & Hs & Hl). exists s. split; [done|].
  assert (∀ g l, sms_pdu_phone_address_init g l = None ↔ (14 < length l)%nat) as Ha.
  { intros g l. unfold sms_pdu_phone_address_init. rewrite sms_pdu_octets_length.
    destruct (Nat.ltb_spec 20 (length l)); cbn [orb]; [split; [intros; lia|done]|].
    destruct (Nat.ltb_spec 7 ((length l + 1) / 2)) as [Hx|Hx].
    - split; [|done]. intros _. apply Nat.nle_gt. intros Hle.
      assert ((length l + 1) / 2 < 8)%nat; [|lia]. apply Nat.Div0.div_lt_upper_bound. lia.
    - split; [done|]. intros Hgt. apply Nat.le_ngt in Hx. destruct Hx.
      apply Nat.div_le_lower_bound; lia. }
  unfold sms_pdu, sms_pdu_head_init.
  destruct (sms_pdu_phone_address_init g1 c) eqn:E1.
  - destruct (sms_pdu_phone_address_init g2 s) eqn:E2.
    + split; [done|]. intros H. apply (Ha g1) in H. congruence.
    + apply Ha in E2. lia.
  - split; [|done]. intros _. by apply (Ha g1).
Qed.

(** ** The thread *)

Section thread.
Context {HB : Board} {HG : GsmService}.

(** [failing send k w w']: [k] attempts in a row that return 0 *)
Inductive failing (send : M Z) : nat → World → World → Prop :=
| failing_O w : failing send 0 w w
| failing_S k w w1 w' : send w = Done 0 w1 → failing send k w1 w' →
    failing send (S k) w w'.

(** Resending stops at the first attempt that does not
    return 0, or after [todo] failures, and reports how many failed. *)
Lemma sms_resend_spec send todo : ∀ c w r w',
  sms_resend todo c send w = Done r w' ↔
    (∃ k w1 x, (k < todo)%nat ∧ failing send k w w1 ∧ send w1 = Done x w' ∧ x ≠ 0 ∧
       r = c + Z.of_nat k) ∨
    (failing send todo w w' ∧ r = c + Z.of_nat todo).
Proof.
  induction todo as [|todo IH]; intros c w r w'; cbn [sms_resend].
  - split.
    + intros [= <- <-]. right. split; [constructor|lia].
    + intros [(k & _ & _ & Hk & _)|[Hf ->]]; [lia|]. inversion Hf; subst.
      unfold mreturn. f_equal. lia.
  - rewrite mseq_Done. split.
    + intros (x & w1 & Hs & Hr). destruct (Z.eqb_spec x 0) as [->|Hx].
      * apply IH in Hr as [(k & w2 & y & Hk & Hf & Hy & Hne & ->)|[Hf ->]].
        -- left. exists (S k), w2, y. split_and!; [lia|by econstructor|done|done|lia].
        -- right. split; [by econstructor|lia].
      * injection Hr as <- <-. left. exists 0%nat, w, x.
        split_and!; [lia|constructor|done|done|lia].
    + intros [(k & w1 & x & Hk & Hf & Hs & Hx & ->)|[Hf ->]].
      * inversion Hf as [|k' ? w2 ? Hs' Hf']; subst.
        -- exists x, w'. split; [done|]. destruct (Z.eqb_spec x 0); [done|].
           unfold mreturn. f_equal. lia.
        -- exists 0, w2. split; [done|]. simpl. apply IH. left.
           exists k', w1, x. split_and!; [lia|done|done|done|lia].
      * inversion Hf as [|k' ? w2 ? Hs' Hf']; subst. exists 0, w2. split; [done|]. simpl.
        apply IH. right. split; [done|lia].
Qed.

Lemma sms_resend_keeps todo c send :
  keeps wf send (λ _, True) → keeps wf (sms_resend todo c send) (λ _, True).
Proof.
  intros Hs. revert c. induction todo as [|todo IH]; intros c; cbn [sms_resend].
  - by apply keeps_return.
  - apply keeps_then; [done|intros x]. case_match; [apply IH|by apply keeps_return].
Qed.

Lemma sms_pdu_ucs_send_keeps d s c n : keeps wf (sms_pdu_ucs_send d s c n) (λ _, True).
Proof.
  unfold sms_pdu_ucs_send. apply keeps_if; intros _; [by apply keeps_return|].
  do 2 (apply keeps_then; [by apply keeps_deref|intros ?]).
  do 2 (apply keeps_then; [by apply runs_keeps, runs_observe|intros ?]).
  apply keeps_then; [by apply keeps_deref|intros ?].
  eapply keeps_seq; [apply gsm_transact_keeps|]. intros. by apply keeps_return.
Qed.

Lemma sms_telephones_keeps todo : ∀ i ucs, keeps wf (sms_telephones todo i ucs) (λ _, True).
Proof.
  induction todo as [|todo IH]; intros i ucs; cbn [sms_telephones]; [by apply keeps_return|].
  apply keeps_then; [by apply runs_keeps, runs_get|intros p].
  apply keeps_then; [by apply keeps_deref|intros t].
  apply keeps_then; [|intros; apply IH]. apply keeps_when. intros _.
  apply keeps_then; [|intros; by apply keeps_return]. apply sms_resend_keeps.
  apply keeps_then; [by apply runs_keeps, runs_get|intros ?].
  apply keeps_then; [by apply keeps_deref|intros ?].
  apply keeps_then; [by apply runs_keeps, runs_get|intros ?]. apply sms_pdu_ucs_send_keeps.
Qed.

(** Whatever the modem answers, the thread keeps the state well formed. *)
Lemma sms_step_keeps : keeps wf sms_mail_process_step (λ _, True).
Proof.
  unfold sms_mail_process_step. apply keeps_then.
  - intros w a w' Hw E. split; [|done]. revert E. unfold rt_mq_recv, mseq, get, upd, mreturn.
    destruct (sms_mq w) as [q|]; [|done]. simpl. unfold mreturn.
    destruct (q_recv q) as [[x q']|]; intros [= <- <-]; [|done]. destruct Hw. by split.
  - intros [m|]; [|by apply keeps_return].
    apply keeps_then; [by apply keeps_deref|intros ?]. apply sms_telephones_keeps.
Qed.
End thread.

(** ** Concrete runs *)

Definition smsc_example : list Z := bytes_of "8613800755500".

Lemma sms_pdu_roundtrip_witness :
  ∃ s n, sms_pdu 7 9 (bytes_of "8613544033975") smsc_example sms_content_lock_gate 19 = Some (s, n) ∧
    decode_submit s = Some (mkSubmit smsc_example (bytes_of "8613544033975")
      (take 70 sms_content_lock_gate)) ∧ n = Z.of_nat (length s) / 2 - 9.
Proof.
  apply (sms_pdu_roundtrip 7 9 (bytes_of "8613544033975") smsc_example sms_content_lock_gate).
  - split; [by_computation|]. left. split; [by exists 6%nat|]. simpl. lia.
  - by_computation.
  - reflexivity.
  - by_computation.
  - simpl. lia.
Defined.

Lemma sms_time_roundtrip_witness :
  ∃ digits, sms_time_ucs (mkTm 2013 6 8 11 17 29) sms_content_time_prefix sms_content_time_suffix =
      Some (sms_content_time_prefix ++ digits ++ sms_content_time_suffix) ∧
    length digits = 20%nat ∧ read_time digits = Some (mkTm 2013 6 8 11 17 29).
Proof. apply sms_time_roundtrip; unfold two_digits; simpl; lia. Defined.

Lemma sms_pdu_in_bounds_witness :
  ∃ s, cstr (address (tel 1 "8613544033975")) = Some s ∧
    (sms_pdu 7 9 s smsc_example sms_content_lock_gate 19 = None ↔ (14 < length smsc_example)%nat).
Proof.
  apply (sms_pdu_in_bounds device_parameters).
  - apply device_parameters_wf.
  - unfold device_parameters. simpl. apply list_elem_of_further, list_elem_of_here.
Defined.
