(* ===== verification/GsmPower.v ===== *)
(** * Switching the modem on and off (gsm_power, gsm_setup, gsm_reset of src/gsm.c)

    The power key is held for a while and the status pin is read before and
    after; a reset is switching off, then on. *)
From stdpp Require Import base strings list.
From Stdlib Require Import ZArith Lia.
From S2P Require Import Prelude World Monad Untils.

Inductive GsmStatus :=
| GSM_SETUP_ENABLE_SUCCESS | GSM_SETUP_ENABLE_FAILURE
| GSM_SETUP_DISABLE_SUCCESS | GSM_SETUP_DISABLE_FAILURE
| GSM_RESET_SUCCESS | GSM_RESET_FAILURE.

#[global] Instance GsmStatus_eq_dec : EqDecision GsmStatus.
Proof. solve_decision. Defined.

Section power.
Context {HB : Board}.

(** [true] is ENABLE, the power key pressed. *)
Definition gsm_power (state : bool) : M () :=
  when (dev_present DEV_GSM_POWER)
    (emit (Ev_write DEV_GSM_POWER [if state then 1 else 0])).

Definition gsm_setup (state : bool) : M GsmStatus :=
  if negb (dev_present DEV_GSM_STATUS) then
    mreturn (if state then GSM_SETUP_ENABLE_FAILURE else GSM_SETUP_DISABLE_FAILURE)
  else if state then
    dat <- pin_read DEV_GSM_STATUS ;;
    if dat =? 0 then
      gsm_power true ;;; rt_thread_delay 150 ;;;
      gsm_power false ;;; rt_thread_delay 350 ;;;
      dat <- pin_read DEV_GSM_STATUS ;;
      mreturn (if negb (dat =? 0) then GSM_SETUP_ENABLE_SUCCESS else GSM_SETUP_ENABLE_FAILURE)
    else mreturn GSM_SETUP_ENABLE_SUCCESS
  else
    dat <- pin_read DEV_GSM_STATUS ;;
    if negb (dat =? 0) then
      gsm_power true ;;; rt_thread_delay 200 ;;;
      gsm_power false ;;; rt_thread_delay 400 ;;;
      dat <- pin_read DEV_GSM_STATUS ;;
      mreturn (if dat =? 0 then GSM_SETUP_DISABLE_SUCCESS else GSM_SETUP_DISABLE_FAILURE)
    else mreturn GSM_SETUP_DISABLE_SUCCESS.

Definition gsm_reset : M GsmStatus :=
  r <- gsm_setup false ;;
  if bool_decide (r = GSM_SETUP_DISABLE_SUCCESS) then
    r <- gsm_setup true ;;
    mreturn (if bool_decide (r = GSM_SETUP_ENABLE_SUCCESS) then GSM_RESET_SUCCESS
             else GSM_RESET_FAILURE)
  else mreturn GSM_RESET_FAILURE.

(** ** What the results mean *)

Definition gsm_status_at (t : nat) : bool := negb (u8 (pin_level DEV_GSM_STATUS t) =? 0).

Definition key_press (down up : Z) : list Event :=
  (if dev_present DEV_GSM_POWER then [Ev_write DEV_GSM_POWER [1]] else []) ++ [Ev_delay down] ++
  (if dev_present DEV_GSM_POWER then [Ev_write DEV_GSM_POWER [0]] else []) ++ [Ev_delay up].

Definition gsm_after (n : nat) (l : list Event) (w : World) : World :=
  set_now (n + now w) (set_trace (trace w ++ l) w).

Lemma gsm_setup_run (state : bool) w :
  dev_present DEV_GSM_STATUS = true →
  gsm_setup state w =
    if Bool.eqb (gsm_status_at (now w)) state then
      Done (if state then GSM_SETUP_ENABLE_SUCCESS else GSM_SETUP_DISABLE_SUCCESS)
        (gsm_after 1 [] w)
    else
      Done (if state
            then if gsm_status_at (1 + now w) then GSM_SETUP_ENABLE_SUCCESS
                 else GSM_SETUP_ENABLE_FAILURE
            else if gsm_status_at (1 + now w) then GSM_SETUP_DISABLE_FAILURE
                 else GSM_SETUP_DISABLE_SUCCESS)
        (gsm_after 2 (if state then key_press 150 350 else key_press 200 400) w).
Proof.
  intros Hs. unfold gsm_setup, gsm_power, key_press, gsm_status_at. rewrite Hs. simpl.
  unfold mseq, pin_read, observe, when, rt_thread_delay, emit, upd, mreturn.
  destruct state, (dev_present DEV_GSM_POWER), (u8 (pin_level DEV_GSM_STATUS (now w)) =? 0);
    simpl; (try (destruct (u8 (pin_level DEV_GSM_STATUS (S (now w))) =? 0)); simpl);
    f_equal; world_eq; cbn [trace gsm_after set_now set_trace]; by rewrite <- ?app_assoc, ?app_nil_r.
Qed.

(** A reset succeeds exactly when the status pin shows the
    modem off and then, after the power key was pressed, on: with the modem on
    at first, both key presses are sent, in that order; with the modem off,
    only the second. *)
Lemma gsm_reset_correct w :
  dev_present DEV_GSM_STATUS = true →
  let t := now w in
  let on := gsm_status_at in
  ∃ w', gsm_reset w = Done
      (if on t then
         if on (1 + t)%nat then GSM_RESET_FAILURE
         else if on (2 + t)%nat || on (3 + t)%nat then GSM_RESET_SUCCESS else GSM_RESET_FAILURE
       else if on (1 + t)%nat || on (2 + t)%nat then GSM_RESET_SUCCESS
            else GSM_RESET_FAILURE) w' ∧
    trace w' = trace w ++
      (if on t then key_press 200 400 else []) ++
      (if on t && on (1 + t)%nat then []
       else if on (if on t then 2 + t else 1 + t)%nat then [] else key_press 150 350).
Proof.
  intros Hs t on. unfold gsm_reset, mseq. rewrite gsm_setup_run by done. fold t. fold on.
  destruct (on t) eqn:E0; cbn [Bool.eqb].
  - destruct (on (1 + t)%nat) eqn:E1; rewrite ?bool_decide_eq_true_2, ?bool_decide_eq_false_2 by done.
    + eexists. split; [reflexivity|]. cbn. by rewrite app_nil_r.
    + rewrite gsm_setup_run by done. change (now (gsm_after 2 _ w)) with (2 + t)%nat.
      change (gsm_status_at (2 + t)) with (on (2 + t)%nat).
      destruct (on (2 + t)%nat) eqn:E2; cbn [Bool.eqb].
      * eexists. split; [reflexivity|]. cbn. by rewrite !app_nil_r.
      * change (gsm_status_at (1 + (2 + t))) with (on (3 + t)%nat).
        destruct (on (3 + t)%nat); (eexists; split; [reflexivity|]); cbn; by rewrite <- ?app_assoc, ?app_nil_r.
  - rewrite bool_decide_eq_true_2 by done.
    rewrite gsm_setup_run by done. change (now (gsm_after 1 _ w)) with (1 + t)%nat.
    change (gsm_status_at (1 + t)) with (on (1 + t)%nat).
    destruct (on (1 + t)%nat) eqn:E2; cbn [Bool.eqb].
    + eexists. split; [reflexivity|]. cbn. by rewrite app_nil_r.
    + change (gsm_status_at (1 + (1 + t))) with (on (2 + t)%nat).
      destruct (on (2 + t)%nat); (eexists; split; [reflexivity|]); cbn; by rewrite ?app_nil_r.
Qed.

Lemma gsm_setup_runs s : safe wf (gsm_setup s).
Proof. unfold gsm_setup, gsm_power. runs_auto. Qed.

Lemma gsm_reset_runs : safe wf gsm_reset.
Proof.
  unfold gsm_reset. apply runs_then; [apply gsm_setup_runs|intros r].
  apply runs_if; intros _; [|by apply runs_return].
  apply runs_then; [apply gsm_setup_runs|intros; by apply runs_return].
Qed.
End power.

Lemma gsm_reset_correct_witness :
  ∃ w', gsm_reset (HB:=quiet_board) start_world = Done GSM_RESET_FAILURE w' ∧
    trace w' = trace start_world ++ key_press (HB:=quiet_board) 200 400.
Proof.
  destruct (gsm_reset_correct (HB:=quiet_board) start_world eq_refl) as (w' & H1 & H2).
  exists w'. split; [exact H1|]. rewrite H2. reflexivity.
Defined.
#[export] Hint Resolve gsm_setup_runs gsm_reset_runs : runs.
