(* ===== verification/GprsRecv.v ===== *)
(** * Commands of the server (recv_gprs_frame and the process_gprs_set_...
      functions of src/gprs.c, with the lists that read the settings back)

    A received frame is the 156 bytes of its buffer: two bytes of length (most
    significant first), command, order, data. *)
From stdpp Require Import base strings list.
From Stdlib Require Import ZArith Lia.
From S2P Require Import Prelude World Monad Untils Alarm Lock GsmService.

(** ** Binary coded decimals *)

Definition dec_to_bcd (dec : Z) : Z :=
  let temp := dec mod 100 in
  u8 (Z.shiftl (temp / 10) 4 + Z.land (temp mod 10) 0x0F).

Definition bcd_to_dec (bcd : Z) : Z :=
  if 0x0A <=? Z.shiftr bcd 4 then 0 else u8 (Z.shiftr bcd 4 * 10 + Z.land bcd 0x0f).

(** Both halves are decimal digits. *)
Definition bcd_byte (b : Z) : bool := (Z.shiftr b 4 <? 10) && (Z.land b 0x0f <? 10).

Lemma dec_to_bcd_back b : byte b → bcd_to_dec (dec_to_bcd b) = b mod 100.
Proof. revert b. refine (byte_forall _ _). by_computation. Qed.

(** Every number below 100 survives the two conversions, and so
    does every byte whose halves are decimal digits; a byte with a high half of
    ten or more reads as 0. *)
Lemma bcd_roundtrip b :
  byte b →
  bcd_to_dec (dec_to_bcd b) = b mod 100 ∧
  (bcd_byte b = true → dec_to_bcd (bcd_to_dec b) = b) ∧
  (10 ≤ Z.shiftr b 4 → bcd_to_dec b = 0).
Proof.
  intros Hb. split_and!.
  - by apply dec_to_bcd_back.
  - revert b Hb. refine (byte_forall _ _). by_computation.
  - intros H. unfold bcd_to_dec. by rewrite (proj2 (Z.leb_le 10 (Z.shiftr b 4))).
Qed.

(** ** Changing the parameters *)

Definition with_alarm_telephone (l : list TELEPHONE_ADDRESS) (p : DEVICE_PARAMETERS)
  : DEVICE_PARAMETERS :=
  mkParams l (call_telephone p) (rfid_key p) (tcp_domain p) (lock_gate_alarm_time p)
    (device_id p) (key0 p) (key1 p).
Definition with_rfid_key (l : list RFID_KEY) (p : DEVICE_PARAMETERS) : DEVICE_PARAMETERS :=
  mkParams (alarm_telephone p) (call_telephone p) l (tcp_domain p) (lock_gate_alarm_time p)
    (device_id p) (key0 p) (key1 p).
Definition with_lock_gate_alarm_time (t : Z) (p : DEVICE_PARAMETERS) : DEVICE_PARAMETERS :=
  mkParams (alarm_telephone p) (call_telephone p) (rfid_key p) (tcp_domain p) t
    (device_id p) (key0 p) (key1 p).
Definition with_key0 (k : list Z) (p : DEVICE_PARAMETERS) : DEVICE_PARAMETERS :=
  mkParams (alarm_telephone p) (call_telephone p) (rfid_key p) (tcp_domain p)
    (lock_gate_alarm_time p) (device_id p) k (key1 p).
Definition with_key1 (k : list Z) (p : DEVICE_PARAMETERS) : DEVICE_PARAMETERS :=
  mkParams (alarm_telephone p) (call_telephone p) (rfid_key p) (tcp_domain p)
    (lock_gate_alarm_time p) (device_id p) (key0 p) k.

(** [n] bytes at [off] *)
Definition slice (off n : nat) (l : list Z) : list Z := take n (drop off l).

Definition telephone_clear (t : TELEPHONE_ADDRESS) : TELEPHONE_ADDRESS :=
  mkTelephone 0 (address t).

(** One round of the copying loop: flag, "86", eleven digits *)
Definition telephone_store (number : list Z) (t : TELEPHONE_ADDRESS) : TELEPHONE_ADDRESS :=
  mkTelephone 1 (memcpy_at (memcpy_at (address t) 0 [56; 54]) 2 number).

(** [data]: the counts and the numbers of the frame *)
Definition set_telephone_params (data : list Z) (p : DEVICE_PARAMETERS)
  : option DEVICE_PARAMETERS :=
  let counts := tbl data 0 in
  if Z.of_nat TELEPHONE_NUMBERS <? counts then None
  else Some (with_alarm_telephone
    (array_copy telephone_store 11 (Z.to_nat counts) 0 (drop 1 data)
      (map telephone_clear (alarm_telephone p))) p).

Definition rfid_clear (k : RFID_KEY) : RFID_KEY := mkRfidKey 0 (key k).
Definition rfid_store (bytes : list Z) (k : RFID_KEY) : RFID_KEY := mkRfidKey 1 bytes.

Definition set_rfid_key_params (data : list Z) (p : DEVICE_PARAMETERS)
  : option DEVICE_PARAMETERS :=
  let counts := tbl data 0 in
  if Z.of_nat RFID_KEY_NUMBERS <? counts then None
  else Some (with_rfid_key
    (array_copy rfid_store 4 (Z.to_nat counts) 0 (drop 1 data) (map rfid_clear (rfid_key p))) p).

Section recv.
Context {HB : Board}.

(** Store the parameters and save them to the file *)
Definition store_params (p : DEVICE_PARAMETERS) : M () :=
  upd (set_params p) ;;;
  system_file_operate p true ;;;
  mreturn ().

Definition process_gprs_set_telephone (data : list Z) : M () :=
  p <- get params ;;
  match set_telephone_params data p with
  | None => mreturn ()
  | Some p => store_params p
  end.

Definition process_gprs_set_rfid_key (data : list Z) : M () :=
  p <- get params ;;
  match set_rfid_key_params data p with
  | None => mreturn ()
  | Some p => store_params p
  end.

Definition process_gprs_set_user_parameters (data : list Z) : M () :=
  p <- get params ;;
  store_params (with_lock_gate_alarm_time (tbl data 0) p).

Definition process_gprs_set_time (data : list Z) : M () :=
  emit (Ev_set_date (bcd_to_dec (tbl data 0) + 2000) (bcd_to_dec (tbl data 1))
          (bcd_to_dec (tbl data 2))) ;;;
  emit (Ev_set_time (bcd_to_dec (tbl data 3)) (bcd_to_dec (tbl data 4))
          (bcd_to_dec (tbl data 5))).

Definition process_gprs_set_key0 (data : list Z) : M () :=
  p <- get params ;;
  store_params (with_key0 (take 8 data) p).

(** [length] is an 8-bit parameter. *)
Definition process_gprs_set_http (data : list Z) (length : Z) : M () :=
  let length := if 100 <=? u8 length then 99 else u8 length in
  upd (set_aip_bin_http_address_length length) ;;;
  upd (set_aip_bin_http_address (memcpy_at (repeat 0 100) 0 (take (Z.to_nat length) data))).

(** ** The frame *)

Definition frame_length (frame : list Z) : Z := 256 * tbl frame 0 + tbl frame 1.
Definition frame_cmd (frame : list Z) : Z := tbl frame 2.
Definition frame_order (frame : list Z) : Z := tbl frame 3.
Definition frame_data (frame : list Z) : list Z := drop 4 frame.

(** A command that sets something answers with success or failure. *)
Definition answer_set (ok : bool) (process : M ()) (success failure : ALARM_TYPEDEF)
  (order : Z) : M () :=
  if ok then process ;;; send_gprs_mail success 0 order U_none
  else send_gprs_mail failure 0 order U_none.

Definition pic_result (r : Z) : Z :=
  if r =? 0 then 1 else if r =? 1 then -2 else if r =? 2 then -3
  else if r =? 3 then -4 else -1.

Definition recv_gprs_frame (frame : list Z) (recv_counts : Z) : M Z :=
  let cmd := frame_cmd frame in
  let order := frame_order frame in
  let data := frame_data frame in
  let ok := recv_counts =? 4 + frame_length frame in
  if cmd =? 0x86 then
    when ((tbl data 0 =? 1) && ok)
      (send_gprs_mail ALARM_TYPE_GPRS_LIST_TELEPHONE 0 order U_none) ;;; mreturn 1
  else if cmd =? 0x87 then
    answer_set ok (process_gprs_set_telephone data) ALARM_TYPE_GPRS_SET_TELEPHONE_SUCCESS
      ALARM_TYPE_GPRS_SET_TELEPHONE_FAILURE order ;;; mreturn 1
  else if cmd =? 0x88 then
    when (tbl data 0 =? 1)
      (send_gprs_mail ALARM_TYPE_GPRS_LIST_RFID_KEY 0 order U_none) ;;; mreturn 1
  else if cmd =? 0x89 then
    answer_set ok (process_gprs_set_rfid_key data) ALARM_TYPE_GPRS_SET_RFID_KEY_SUCCESS
      ALARM_TYPE_GPRS_SET_RFID_KEY_FAILURE order ;;; mreturn 1
  else if cmd =? 0x8A then
    when (tbl data 0 =? 1)
      (send_gprs_mail ALARM_TYPE_GPRS_LIST_USER_PARAMETERS 0 order U_none) ;;; mreturn 1
  else if cmd =? 0x8B then
    answer_set ok (process_gprs_set_user_parameters data)
      ALARM_TYPE_GPRS_SET_USER_PARAMETERS_SUCCESS
      ALARM_TYPE_GPRS_SET_USER_PARAMETERS_FAILURE order ;;; mreturn 1
  else if cmd =? 0x95 then
    answer_set ok (process_gprs_set_time data) ALARM_TYPE_GPRS_SET_TIME_SUCCESS
      ALARM_TYPE_GPRS_SET_TIME_FAILURE order ;;; mreturn 1
  else if cmd =? 0x98 then
    answer_set ok (process_gprs_set_key0 data) ALARM_TYPE_GPRS_SET_KEY0_SUCCESS
      ALARM_TYPE_GPRS_SET_KEY0_FAILURE order ;;; mreturn 1
  else if cmd =? 0x99 then
    (if ok then
       process_gprs_set_http data (frame_length frame) ;;;
       send_gprs_mail ALARM_TYPE_GPRS_SET_HTTP_SUCCESS 0 order U_none ;;;
       (* the alarm type 0 *)
       send_aip_mail ALARM_TYPE_LOCK_SHELL 0
     else send_gprs_mail ALARM_TYPE_GPRS_SET_HTTP_FAILURE 0 order U_none) ;;; mreturn 1
  else if cmd =? 0x8E then
    send_gprs_mail ALARM_TYPE_GPRS_SEND_PIC_DATA 0 0 U_none ;;; mreturn 1
  else if cmd =? 0x8F then
    (* the numbers of the pages to send again are printed: data[150] *)
    (if 150 <? tbl data 1 then fault else mreturn (pic_result (tbl data 0)))
  else if cmd =? 0x8C then
    send_gprs_mail ALARM_TYPE_GPRS_SLEEP 0 order U_none ;;;
    machine_status_deal false (Z.lor RT_EVENT_FLAG_OR RT_EVENT_FLAG_CLEAR) ;;;
    rt_thread_delay 200 ;;;
    lock_output GATE_UNLOCK ;;; mreturn 1
  else if cmd =? 0x8D then
    send_gprs_mail ALARM_TYPE_GPRS_WAKE_UP 0 order U_none ;;;
    machine_status_deal true 0 ;;; mreturn 1
  else mreturn (if (recv_counts =? 4) && (frame_length frame =? 0) then 1 else -1).
End recv.

(** ** Reading the settings back: the lists the lock sends *)

(** The flagged numbers from their third character on, one after the other *)
Definition listed_telephones (l : list TELEPHONE_ADDRESS) : list Z :=
  flat_map (λ t, if tel_flag t =? 0 then [] else slice 2 11 (address t)) l.

Definition count_telephones (l : list TELEPHONE_ADDRESS) : Z :=
  Z.of_nat (length (filter (λ t, tel_flag t ≠ 0) l)).

(** Result, counts and numbers of the frame, and its length *)
Definition process_gprs_list_telephone (p : DEVICE_PARAMETERS) : Z * Z * list Z * Z :=
  (1, count_telephones (alarm_telephone p), listed_telephones (alarm_telephone p),
   2 + 11 * count_telephones (alarm_telephone p)).

Definition listed_keys (l : list RFID_KEY) : list Z :=
  flat_map (λ k, if key_flag k =? 0 then [] else take 4 (key k)) l.

Definition count_keys (l : list RFID_KEY) : Z :=
  Z.of_nat (length (filter (λ k, key_flag k ≠ 0) l)).

Definition process_gprs_list_rfid_key (p : DEVICE_PARAMETERS) : Z * Z * list Z * Z :=
  (1, count_keys (rfid_key p), listed_keys (rfid_key p), 2 + 4 * count_keys (rfid_key p)).

Definition process_gprs_list_user_parameters (p : DEVICE_PARAMETERS) : Z * Z * Z :=
  (1, lock_gate_alarm_time p, 2).

(** ** What was set is what is listed *)

Lemma slice_memcpy dst off src :
  (off <= length dst)%nat → slice off (length src) (memcpy_at dst off src) = src.
Proof.
  intros H. unfold slice, memcpy_at. rewrite drop_app_ge; rewrite length_take; [|lia].
  replace (off - off `min` length dst)%nat with 0%nat by lia. apply take_app_length.
Qed.

Lemma slice_telephone_store c t :
  length c = 11%nat → length (address t) = TELEPHONE_ADDRESS_LENGTH →
  slice 2 11 (address (telephone_store c t)) = c.
Proof.
  intros Hc Ht. unfold telephone_store. cbn [address]. rewrite <- Hc. apply slice_memcpy.
  unfold TELEPHONE_ADDRESS_LENGTH in Ht. rewrite memcpy_at_length; simpl; lia.
Qed.

(** The listing of an array whose first entries were just stored and whose other
    flags are zero *)
Lemma listed_telephones_store cs : ∀ l,
  Forall (λ c, length c = 11%nat) cs →
  Forall (λ t, length (address t) = TELEPHONE_ADDRESS_LENGTH) l → length cs = length l →
  listed_telephones (zip_with telephone_store cs l) = mjoin cs ∧
  count_telephones (zip_with telephone_store cs l) = Z.of_nat (length cs).
Proof.
  induction cs as [|c cs IH]; intros [|t l] Hc Hl Hlen; try done.
  apply Forall_cons in Hc as [Hc Hcs]. apply Forall_cons in Hl as [Ht Hl].
  simpl in Hlen. destruct (IH l Hcs Hl ltac:(lia)) as [IH1 IH2].
  unfold listed_telephones, count_telephones in *. cbn [zip_with flat_map].
  rewrite filter_cons_True by done. cbn [length]. rewrite Nat2Z.inj_succ, IH2. split; [|lia].
  simpl tel_flag. cbn [Z.eqb]. rewrite slice_telephone_store by done. simpl. by rewrite IH1.
Qed.

Lemma listed_telephones_clear l :
  listed_telephones (map telephone_clear l) = [] ∧ count_telephones (map telephone_clear l) = 0.
Proof.
  unfold listed_telephones, count_telephones. induction l as [|t l [IH1 IH2]]; [done|].
  cbn [map flat_map]. rewrite filter_cons_False by (simpl; lia). simpl. done.
Qed.

Lemma listed_telephones_app l k :
  listed_telephones (l ++ k) = listed_telephones l ++ listed_telephones k ∧
  count_telephones (l ++ k) = count_telephones l + count_telephones k.
Proof.
  unfold listed_telephones, count_telephones. split; [apply flat_map_app|].
  rewrite filter_app, length_app. lia.
Qed.

(** C28 (roundtrip). After the server has set [n] alarm telephones (ten at
    most), the list the lock reports has exactly these [n] numbers in the order
    they were sent, and says so in its counts and its length. *)
Theorem telephones_set_then_listed p data :
  params_wf p → tbl data 0 ≤ 10 → 0 ≤ tbl data 0 → (111 <= length data)%nat →
  ∃ p', set_telephone_params data p = Some p' ∧
    process_gprs_list_telephone p' =
      (1, tbl data 0, take (11 * Z.to_nat (tbl data 0)) (drop 1 data), 2 + 11 * tbl data 0).
Proof.
  intros Hp Hn H0 Hlen. destruct Hp as [[Hl Hf] _]. unfold set_telephone_params.
  set (n := Z.to_nat (tbl data 0)).
  destruct (Z.ltb_spec (Z.of_nat TELEPHONE_NUMBERS) (tbl data 0));
    [unfold TELEPHONE_NUMBERS in *; lia|].
  eexists. split; [reflexivity|]. unfold process_gprs_list_telephone. cbn [alarm_telephone with_alarm_telephone].
  set (l := map telephone_clear (alarm_telephone p)).
  assert (n <= length l)%nat as Hnl.
  { unfold l. rewrite length_map, Hl. unfold n, TELEPHONE_NUMBERS. lia. }
  pose proof (array_copy_spec telephone_store 11 n (drop 1 data) [] l Hnl) as E.
  cbn [length app] in E. rewrite E.
  destruct (listed_telephones_app
    (zip_with telephone_store (chunks 11 n (drop 1 data)) (take n l)) (drop n l)) as [-> ->].
  assert (drop n l = map telephone_clear (drop n (alarm_telephone p))) as ->.
  { unfold l. symmetry. apply fmap_drop. }
  destruct (listed_telephones_clear (drop n (alarm_telephone p))) as [-> ->].
  destruct (listed_telephones_store (chunks 11 n (drop 1 data)) (take n l)) as [-> ->].
  - apply chunks_forall. rewrite length_drop. unfold n. lia.
  - apply Forall_take. unfold l. apply Forall_fmap. eapply Forall_impl; [exact Hf|].
    intros t [(_ & [? _] & _) _]. done.
  - rewrite chunks_length, length_take. lia.
  - rewrite app_nil_r, chunks_concat, chunks_length, (Nat.mul_comm n). unfold n.
    rewrite Z2Nat.id by done. repeat f_equal; lia.
Qed.

(** The same for the RFID keys *)
Lemma listed_keys_store cs : ∀ l,
  Forall (λ c, length c = 4%nat) cs → length cs = length l →
  listed_keys (zip_with rfid_store cs l) = mjoin cs ∧
  count_keys (zip_with rfid_store cs l) = Z.of_nat (length cs).
Proof.
  induction cs as [|c cs IH]; intros [|t l] Hc Hlen; try done.
  apply Forall_cons in Hc as [Hc Hcs].
  simpl in Hlen. destruct (IH l Hcs ltac:(lia)) as [IH1 IH2].
  unfold listed_keys, count_keys in *. cbn [zip_with flat_map].
  rewrite filter_cons_True by done. cbn [length]. rewrite Nat2Z.inj_succ, IH2. split; [|lia].
  simpl key_flag. cbn [Z.eqb]. simpl key. rewrite take_ge by lia. simpl. by rewrite IH1.
Qed.

Lemma listed_keys_clear l :
  listed_keys (map rfid_clear l) = [] ∧ count_keys (map rfid_clear l) = 0.
Proof.
  unfold listed_keys, count_keys. induction l as [|t l [IH1 IH2]]; [done|].
  cbn [map flat_map]. rewrite filter_cons_False by (simpl; lia). simpl. done.
Qed.

Lemma listed_keys_app l k :
  listed_keys (l ++ k) = listed_keys l ++ listed_keys k ∧
  count_keys (l ++ k) = count_keys l + count_keys k.
Proof.
  unfold listed_keys, count_keys. split; [apply flat_map_app|].
  rewrite filter_app, length_app. lia.
Qed.

(** After the server has set [n] RFID keys (ten at most), the
    list the lock reports has exactly these keys in the order they were sent. *)
Lemma rfid_keys_set_then_listed p data :
  params_wf p → tbl data 0 ≤ 10 → 0 ≤ tbl data 0 → (41 <= length data)%nat →
  ∃ p', set_rfid_key_params data p = Some p' ∧
    process_gprs_list_rfid_key p' =
      (1, tbl data 0, take (4 * Z.to_nat (tbl data 0)) (drop 1 data), 2 + 4 * tbl data 0).
Proof.
  intros Hp Hn H0 Hlen. destruct Hp as (_ & _ & [Hl Hf] & _). unfold set_rfid_key_params.
  set (n := Z.to_nat (tbl data 0)).
  destruct (Z.ltb_spec (Z.of_nat RFID_KEY_NUMBERS) (tbl data 0));
    [unfold RFID_KEY_NUMBERS in *; lia|].
  eexists. split; [reflexivity|]. unfold process_gprs_list_rfid_key. cbn [rfid_key with_rfid_key].
  set (l := map rfid_clear (rfid_key p)).
  assert (n <= length l)%nat as Hnl.
  { unfold l. rewrite length_map, Hl. unfold n, RFID_KEY_NUMBERS. lia. }
  pose proof (array_copy_spec rfid_store 4 n (drop 1 data) [] l Hnl) as E.
  cbn [length app] in E. rewrite E.
  destruct (listed_keys_app
    (zip_with rfid_store (chunks 4 n (drop 1 data)) (take n l)) (drop n l)) as [-> ->].
  assert (drop n l = map rfid_clear (drop n (rfid_key p))) as ->.
  { unfold l. symmetry. apply fmap_drop. }
  destruct (listed_keys_clear (drop n (rfid_key p))) as [-> ->].
  destruct (listed_keys_store (chunks 4 n (drop 1 data)) (take n l)) as [-> ->].
  - apply chunks_forall. rewrite length_drop. unfold n. lia.
  - rewrite chunks_length, length_take. lia.
  - rewrite app_nil_r, chunks_concat, chunks_length, (Nat.mul_comm n). unfold n.
    rewrite Z2Nat.id by done. repeat f_equal; lia.
Qed.

(** ** The parameters stay well formed *)

Lemma drop_memcpy n dst off src :
  (off + length src <= n)%nat → (off + length src <= length dst)%nat →
  drop n (memcpy_at dst off src) = drop n dst.
Proof.
  intros H1 H2. unfold memcpy_at. rewrite app_assoc, drop_app_ge, drop_drop;
    rewrite length_app, length_take; [f_equal|]; lia.
Qed.

Lemma telephone_store_wf c t :
  length c = 11%nat → Forall byte c → alarm_telephone_wf t →
  alarm_telephone_wf (telephone_store c t).
Proof.
  intros Hc Hb [(_ & [Hlen Hbytes] & Hlast) Hz].
  assert (length (address (telephone_store c t)) = TELEPHONE_ADDRESS_LENGTH) as Hl.
  { unfold telephone_store. cbn [address]. unfold TELEPHONE_ADDRESS_LENGTH in *.
    rewrite !memcpy_at_length; rewrite ?memcpy_at_length; simpl; lia. }
  assert (drop 13 (address (telephone_store c t)) = repeat 0 7) as Hd.
  { rewrite <- Hz. unfold telephone_store. cbn [address]. unfold TELEPHONE_ADDRESS_LENGTH in *.
    rewrite !drop_memcpy; rewrite ?memcpy_at_length; simpl; done || lia. }
  split; [|done]. split; [by_computation|]. split.
  - split; [done|]. unfold telephone_store. cbn [address].
    repeat apply memcpy_at_forall; try done. by_computation.
  - rewrite <- (take_drop 13 (address (telephone_store c t))), Hd. apply last_app_Some. by left.
Qed.

Lemma telephone_clear_wf t : alarm_telephone_wf t → alarm_telephone_wf (telephone_clear t).
Proof. intros [(_ & H1 & H2) H3]. split; [|done]. split; [by_computation|done]. Qed.

Lemma rfid_store_wf c k : length c = 4%nat → Forall byte c → rfid_wf k → rfid_wf (rfid_store c k).
Proof. intros Hc Hb _. split; [by_computation|]. by split. Qed.

Lemma rfid_clear_wf k : rfid_wf k → rfid_wf (rfid_clear k).
Proof. intros [_ H]. split; [by_computation|done]. Qed.

Lemma set_telephone_params_wf data p p' :
  params_wf p → Forall byte data → (111 <= length data)%nat → 0 ≤ tbl data 0 →
  set_telephone_params data p = Some p' → params_wf p'.
Proof.
  intros Hp Hb Hlen H0. unfold set_telephone_params. destruct Hp as [[Hl Hf] Hrest].
  destruct (Z.ltb_spec (Z.of_nat TELEPHONE_NUMBERS) (tbl data 0)) as [|Hn]; [done|].
  unfold TELEPHONE_NUMBERS in Hn. intros [= <-]. split; [|exact Hrest].
  cbn [alarm_telephone with_alarm_telephone]. split.
  - by rewrite array_copy_length, length_map.
  - apply array_copy_forall.
    + rewrite length_drop. lia.
    + by apply Forall_drop.
    + apply Forall_fmap. eapply Forall_impl; [exact Hf|]. intros t. apply telephone_clear_wf.
    + intros. by apply telephone_store_wf.
Qed.

Lemma set_rfid_key_params_wf data p p' :
  params_wf p → Forall byte data → (41 <= length data)%nat → 0 ≤ tbl data 0 →
  set_rfid_key_params data p = Some p' → params_wf p'.
Proof.
  intros Hp Hb Hlen H0. unfold set_rfid_key_params.
  destruct Hp as (H1 & H2 & [Hl Hf] & Hrest).
  destruct (Z.ltb_spec (Z.of_nat RFID_KEY_NUMBERS) (tbl data 0)) as [|Hn]; [done|].
  unfold RFID_KEY_NUMBERS in Hn. intros [= <-]. split; [exact H1|]. split; [exact H2|].
  split; [|exact Hrest]. cbn [rfid_key with_rfid_key]. split.
  - by rewrite array_copy_length, length_map.
  - apply array_copy_forall.
    + rewrite length_drop. lia.
    + by apply Forall_drop.
    + apply Forall_fmap. eapply Forall_impl; [exact Hf|]. intros t. apply rfid_clear_wf.
    + intros. by apply rfid_store_wf.
Qed.

(** The bytes of a receive buffer *)
Definition frame_wf (frame : list Z) : Prop := bytes_len RECV_FRAME_SIZE frame.

Lemma tbl_byte l i : Forall byte l → byte (tbl l i).
Proof. intros. by apply tbl_fits. Qed.

Section runs.
Context {HB : Board}.

Lemma store_params_runs p : params_wf p → safe wf (store_params p).
Proof.
  intros Hp. unfold store_params. apply runs_then.
  - apply runs_upd. intros. by apply wf_set_params.
  - intros _. apply runs_then; [|intros; by apply runs_return].
    eapply safe_weaken. by apply runs_system_file_operate.
Qed.

(** A setting computed from the current parameters *)
Lemma params_update_runs (f : DEVICE_PARAMETERS → option DEVICE_PARAMETERS) :
  (∀ p p', params_wf p → f p = Some p' → params_wf p') →
  safe wf (p <- get params ;; match f p with None => mreturn () | Some p => store_params p end).
Proof.
  intros H. eapply (runs_seq _ _ params_wf); [by apply runs_get; intros ? []|].
  intros p Hp. destruct (f p) eqn:E; [apply store_params_runs; by eapply H|by apply runs_return].
Qed.

Lemma answer_set_runs ok m a b o : safe wf m → safe wf (answer_set ok m a b o).
Proof.
  intros Hm. unfold answer_set. apply runs_if; intros _; [|eauto with runs].
  apply runs_then; eauto with runs.
Qed.

Lemma recv_gprs_frame_runs frame recv_counts :
  motors_present → frame_wf frame →
  (frame_cmd frame = 0x8F → tbl (frame_data frame) 1 ≤ 150) →
  safe wf (recv_gprs_frame frame recv_counts).
Proof.
  intros Hm [Hlen Hb] Hpic. unfold RECV_FRAME_SIZE in Hlen.
  assert (Forall byte (frame_data frame)) as Hd by (by apply Forall_drop).
  assert (length (frame_data frame) = 152%nat) as Hdl.
  { unfold frame_data. rewrite length_drop, Hlen. done. }
  pose proof (tbl_byte _ 0 Hd) as [H0 _].
  unfold recv_gprs_frame.
  repeat (apply runs_if; intros ?);
    try (apply runs_then; [|intros _; by apply runs_return]);
    try (apply runs_when; intros _); try apply answer_set_runs; eauto with runs.
  - apply params_update_runs. intros p p' Hp. apply set_telephone_params_wf; [done..|lia|done].
  - apply params_update_runs. intros p p' Hp. apply set_rfid_key_params_wf; [done..|lia|done].
  - eapply (runs_seq _ _ params_wf); [by apply runs_get; intros ? []|]. intros p Hp.
    apply store_params_runs. destruct Hp as (P1&P2&P3&P4&_&P6&P7&P8).
    refine (conj P1 (conj P2 (conj P3 (conj P4 (conj _ (conj P6 (conj P7 P8))))))).
    by apply tbl_byte.
  - unfold process_gprs_set_time. apply runs_then; intros; apply runs_emit.
  - eapply (runs_seq _ _ params_wf); [by apply runs_get; intros ? []|]. intros p Hp.
    apply store_params_runs. destruct Hp as (P1&P2&P3&P4&P5&P6&_&P8).
    refine (conj P1 (conj P2 (conj P3 (conj P4 (conj P5 (conj P6 (conj _ P8))))))).
    split; [cbn [key0 with_key0]; rewrite length_take; lia|by apply Forall_take].
  - apply runs_if; intros _; [|eauto with runs]. apply runs_then.
    + unfold process_gprs_set_http. apply runs_then; [apply runs_upd; by intros ? []|].
      intros _. apply runs_upd. intros w []. split; try done.
      set (n := if 100 <=? u8 (frame_length frame) then 99 else u8 (frame_length frame)).
      assert (n <= 99) as Hn.
      { unfold n. destruct (Z.leb_spec 100 (u8 (frame_length frame))); lia. }
      match goal with |- bytes_len 100 ?l =>
        change l with (memcpy_at (repeat 0 100) 0 (take (Z.to_nat n) (frame_data frame))) end.
      split.
      * rewrite memcpy_at_length; [done|]. rewrite length_take, repeat_length. lia.
      * apply memcpy_at_forall; [apply forall_repeat; by_computation|]. by apply Forall_take.
    + intros _. apply runs_then; eauto with runs.
  - exfalso. match goal with H : (150 <? _) = true |- _ => apply Z.ltb_lt in H end.
    match goal with H : (frame_cmd frame =? 0x8F) = true |- _ =>
      apply Z.eqb_eq in H; specialize (Hpic H) end. lia.
  - apply runs_then; [eauto with runs|intros _]. apply runs_then; [eauto with runs|intros _].
    apply runs_then; [eauto with runs|intros _].
    apply runs_then; [eapply safe_weaken; by apply lock_output_runs|intros; by apply runs_return].
  - apply runs_then; [eauto with runs|intros _].
    apply runs_then; [eauto with runs|intros; by apply runs_return].
Qed.

(** C1 (invariant). Whatever command arrives in a full buffer of bytes, it is
    handled without undefined behaviour (a report of missing pictures names at
    most the 150 its array holds), and the parameters in memory and in the
    file, and the global buffers, stay well formed. *)
Theorem recv_gprs_frame_safe frame recv_counts :
  motors_present → frame_wf frame →
  (frame_cmd frame = 0x8F → tbl (frame_data frame) 1 ≤ 150) →
  safe wf (recv_gprs_frame frame recv_counts).
Proof. apply recv_gprs_frame_runs. Qed.
End runs.

(** ** What a command changes *)

(** The settings are the same. *)
Definition same_config (w w' : World) : Prop :=
  params w' = params w ∧ config_file w' = config_file w ∧
  aip_bin_http_address w' = aip_bin_http_address w ∧
  aip_bin_http_address_length w' = aip_bin_http_address_length w.

#[export] Instance same_config_preorder : PreOrder same_config.
Proof.
  split; [by intros w|]. intros w1 w2 w3 (?&?&?&?) (?&?&?&?). unfold same_config.
  split_and!; congruence.
Qed.

(** The GPRS queue is the same. *)
Definition same_gprs (w w' : World) : Prop := gprs_mq w' = gprs_mq w.
#[export] Instance same_gprs_preorder : PreOrder same_gprs.
Proof. split; [by intros w|]. unfold same_gprs. intros w1 w2 w3. congruence. Qed.

(** The event set of the machine is the same. *)
Definition same_status (w w' : World) : Prop := machine_work_status w' = machine_work_status w.
#[export] Instance same_status_preorder : PreOrder same_status.
Proof. split; [by intros w|]. unfold same_status. intros w1 w2 w3. congruence. Qed.

(** Updates a relation does not see *)
Class Blind (R : relation World) : Prop := {
  blind_preorder :: PreOrder R;
  blind_now x w : R w (set_now x w);
  blind_trace x w : R w (set_trace x w);
  blind_sms x w : R w (set_sms_mq x w)
}.

#[export] Instance same_config_blind : Blind same_config.
Proof. split; [apply _|by intros..]. Qed.
#[export] Instance same_gprs_blind : Blind same_gprs.
Proof. split; [apply _|by intros..]. Qed.
#[export] Instance same_status_blind : Blind same_status.
Proof. split; [apply _|by intros..]. Qed.

Section blind.
Context {HB : Board} {R : relation World} {HR : Blind R}.

Lemma blind_emit e : evolves R (emit e).
Proof. apply evolves_upd. intros. apply blind_trace. Qed.

Lemma blind_send_sms_mail a t : evolves R (send_sms_mail a t).
Proof. apply evolves_send_sms_mail; intros; [apply blind_now|apply blind_sms]. Qed.

Lemma blind_send_gprs_mail a t o u :
  (∀ q w, R w (set_gprs_mq q w)) → evolves R (send_gprs_mail a t o u).
Proof. intros H. apply evolves_send_gprs_mail; [intros; apply blind_now|done]. Qed.

Lemma blind_motor_status : evolves R motor_status.
Proof.
  unfold motor_status, pin_read. case_match; [|apply evolves_fault].
  apply evolves_observe. intros. apply blind_now.
Qed.

Lemma blind_send_pulse d n : evolves R (send_pulse d n).
Proof. unfold send_pulse. case_match; [apply blind_emit|apply evolves_fault]. Qed.

Lemma blind_motor_loop n m t : evolves R (motor_loop n m t).
Proof.
  induction n as [|n IH]; cbn [motor_loop]; [apply evolves_return|].
  apply evolves_seq; [apply blind_send_pulse|intros _].
  apply evolves_seq; [apply blind_motor_status|intros d].
  case_match; [apply blind_send_pulse|apply IH].
Qed.

Lemma blind_lock_output d : (∀ q w, R w (set_gprs_mq q w)) → evolves R (lock_output d).
Proof.
  intros H. unfold lock_output, motor_fault.
  assert (evolves R (send_sms_mail ALARM_TYPE_MOTOR_FAULT 0 ;;;
    send_gprs_mail ALARM_TYPE_MOTOR_FAULT 0 0 U_none ;;; mreturn (-1))) as Hf.
  { apply evolves_seq; [apply blind_send_sms_mail|intros _].
    apply evolves_seq; [by apply blind_send_gprs_mail|intros _]. apply evolves_return. }
  apply evolves_seq; [apply blind_motor_status|intros s].
  repeat case_match; try apply evolves_return;
    (apply evolves_seq; [apply blind_motor_loop|intros _]);
    (apply evolves_seq; [apply blind_motor_status|intros s2]);
    case_match; try apply evolves_return; exact Hf.
Qed.

Lemma blind_machine_status b o :
  (∀ x w, R w (set_machine_work_status x w)) → evolves R (machine_status_deal b o).
Proof.
  intros H. unfold machine_status_deal. case_match.
  - apply evolves_seq; [by apply evolves_upd|intros; apply evolves_return].
  - apply evolves_seq; [apply evolves_get|intros s]. case_match; [apply evolves_return|].
    apply evolves_seq; [|intros; apply evolves_return]. apply evolves_when. intros _.
    by apply evolves_upd.
Qed.
End blind.

Section effects.
Context {HB : Board}.

Lemma same_config_aip a t : evolves same_config (send_aip_mail a t).
Proof.
  apply evolves_seq; [by apply evolves_mail_time|]. intros. by apply evolves_post_mail.
Qed.

(** A frame whose length field does not match the number of
    bytes received changes no setting: not the parameters, not the file, not
    the download address. *)
Lemma recv_bad_length_keeps_config frame recv_counts w r w' :
  recv_counts ≠ 4 + frame_length frame →
  recv_gprs_frame frame recv_counts w = Done r w' →
  same_config w w'.
Proof.
  intros Hne. apply Z.eqb_neq in Hne.
  assert (evolves same_config (recv_gprs_frame frame recv_counts)) as H; [|by apply H].
  unfold recv_gprs_frame, answer_set. rewrite Hne, andb_false_r.
  assert (∀ a o u, evolves same_config (send_gprs_mail a 0 o u)) as Hg.
  { intros. by apply blind_send_gprs_mail. }
  repeat (match goal with |- evolves _ (if ?b then _ else _) => destruct b end);
    try apply evolves_fault; try apply evolves_return;
    (apply evolves_seq; [|intros _; try apply evolves_return]);
    try apply evolves_when; intros; try apply Hg.
  - apply evolves_seq; [by apply blind_machine_status|intros _].
    apply evolves_seq; [apply blind_emit|intros _].
    apply evolves_seq; [by apply blind_lock_output|intros; apply evolves_return].
  - apply evolves_seq; [by apply blind_machine_status|intros; apply evolves_return].
Qed.

Lemma same_gprs_store_params p : evolves same_gprs (store_params p).
Proof.
  unfold store_params, system_file_operate.
  apply evolves_seq; [by apply evolves_upd|intros _].
  apply evolves_seq; [|intros; apply evolves_return].
  apply evolves_seq; [apply evolves_observe; intros; apply blind_now|intros ok].
  repeat case_match; try apply evolves_return.
  apply evolves_seq; [by apply evolves_upd|intros; apply evolves_return].
Qed.

(** The commands that set something, with their two answers *)
Definition set_commands : list (Z * (ALARM_TYPEDEF * ALARM_TYPEDEF)) :=
  [(0x87, (ALARM_TYPE_GPRS_SET_TELEPHONE_SUCCESS, ALARM_TYPE_GPRS_SET_TELEPHONE_FAILURE));
   (0x89, (ALARM_TYPE_GPRS_SET_RFID_KEY_SUCCESS, ALARM_TYPE_GPRS_SET_RFID_KEY_FAILURE));
   (0x8B, (ALARM_TYPE_GPRS_SET_USER_PARAMETERS_SUCCESS,
           ALARM_TYPE_GPRS_SET_USER_PARAMETERS_FAILURE));
   (0x95, (ALARM_TYPE_GPRS_SET_TIME_SUCCESS, ALARM_TYPE_GPRS_SET_TIME_FAILURE));
   (0x98, (ALARM_TYPE_GPRS_SET_KEY0_SUCCESS, ALARM_TYPE_GPRS_SET_KEY0_FAILURE));
   (0x99, (ALARM_TYPE_GPRS_SET_HTTP_SUCCESS, ALARM_TYPE_GPRS_SET_HTTP_FAILURE))].

(** A processing that leaves the queue alone, then one mail *)
Lemma answered (m : M ()) a o w w' q :
  evolves same_gprs m → gprs_mq w = Some q → q_room q 1 →
  (m ;;; send_gprs_mail a 0 o U_none) w = Done () w' →
  ∃ t, gprs_mq w' = Some (q_append q [mkGprsMail t a o U_none]).
Proof.
  intros Hm Hq Hr E. apply mseq_Done in E as ([] & w1 & E1 & E).
  apply Hm in E1. unfold same_gprs in E1. rewrite Hq in E1.
  rewrite (send_gprs_mail_room _ _ _ _ q) in E by done. injection E as <-.
  by exists (rtc_time (now w1)).
Qed.

(** C5 (functional). Every setting command is answered by exactly one mail to
    the GPRS thread, with the order number of the command: the success answer
    of the command if its length is right, its failure answer otherwise. *)
Theorem set_command_answered frame recv_counts w r w' q cmd success failure :
  (cmd, (success, failure)) ∈ set_commands → frame_cmd frame = cmd →
  gprs_mq w = Some q → q_room q 1 →
  recv_gprs_frame frame recv_counts w = Done r w' →
  r = 1 ∧ ∃ t, gprs_mq w' = Some (q_append q
    [mkGprsMail t (if recv_counts =? 4 + frame_length frame then success else failure)
       (frame_order frame) U_none]).
Proof.
  intros Hin Hcmd Hq Hr. unfold recv_gprs_frame. rewrite Hcmd.
  assert (∀ a o w', send_gprs_mail a 0 o U_none w = Done () w' →
    ∃ t, gprs_mq w' = Some (q_append q [mkGprsMail t a o U_none])) as Hmail.
  { intros a o w1. rewrite (send_gprs_mail_room _ _ _ _ q) by done. intros [= <-]. eauto. }
  assert (∀ f, evolves same_gprs
    (p <- get params ;; match f p with None => mreturn () | Some p => store_params p end)) as Hset.
  { intros f. apply evolves_seq; [apply evolves_get|intros p].
    case_match; [apply same_gprs_store_params|apply evolves_return]. }
  unfold set_commands in Hin. rewrite !elem_of_cons, elem_of_nil in Hin.
  destruct Hin as [Hin|[Hin|[Hin|[Hin|[Hin|[Hin|[]]]]]]]; injection Hin as -> -> ->;
    cbn [Z.eqb Pos.eqb]; intros E; apply mseq_Done in E as ([] & w1 & E & [= <- <-]);
    (split; [done|]); unfold answer_set in E;
    (destruct (recv_counts =? _); [|by apply Hmail]).
  - eapply (answered (process_gprs_set_telephone _)); [|done..]. apply Hset.
  - eapply (answered (process_gprs_set_rfid_key _)); [|done..]. apply Hset.
  - eapply (answered (process_gprs_set_user_parameters _)); [|done..].
    apply (Hset (λ p, Some _)).
  - eapply (answered (process_gprs_set_time _)); [|done..].
    apply evolves_seq; intros; apply blind_emit.
  - eapply (answered (process_gprs_set_key0 _)); [|done..]. apply (Hset (λ p, Some _)).
  - assert (evolves same_gprs
      (process_gprs_set_http (frame_data frame) (frame_length frame))) as Hh.
    { apply evolves_seq; intros; by apply evolves_upd. }
    apply mseq_Done in E as ([] & w2 & E2 & E). apply Hh in E2.
    apply mseq_Done in E as ([] & w3 & E3 & E). unfold same_gprs in E2. rewrite Hq in E2.
    rewrite (send_gprs_mail_room _ _ _ _ q) in E3 by done. injection E3 as <-.
    assert (evolves same_gprs (send_aip_mail ALARM_TYPE_LOCK_SHELL 0)) as Ha.
    { apply evolves_seq; [by apply evolves_mail_time|]. intros. by apply evolves_post_mail. }
    apply Ha in E. unfold same_gprs in E. rewrite E. eexists. reflexivity.
Qed.
End effects.

Section more.
Context {HB : Board}.

(** The sleep command leaves the lock asleep (so that the
    alarm thread hands nothing on), the wake-up command leaves it awake. *)
Lemma sleep_and_wake_up frame recv_counts w r w' :
  recv_gprs_frame frame recv_counts w = Done r w' →
  (frame_cmd frame = 0x8C → ¬ awake w') ∧ (frame_cmd frame = 0x8D → awake w').
Proof.
  assert (∀ a o u, evolves same_status (send_gprs_mail a 0 o u)) as Hg.
  { intros. by apply blind_send_gprs_mail. }
  unfold recv_gprs_frame. intros E. split; intros Hcmd; rewrite Hcmd in E;
    cbn [Z.eqb Pos.eqb] in E; apply mseq_Done in E as (? & w1 & E1 & E); apply Hg in E1.
  - apply mseq_Done in E as (? & w2 & E2 & E). apply mseq_Done in E as (? & w3 & E3 & E).
    apply (blind_emit (R:=same_status)) in E3.
    apply mseq_Done in E as (? & w4 & E4 & [= <- <-]).
    apply (blind_lock_output (R:=same_status)) in E4; [|by intros].
    unfold awake. rewrite E4, E3.
    revert E2. unfold machine_status_deal, mseq, get, upd, when, mreturn. simpl.
    destruct (Z.eqb_spec (Z.land (machine_work_status w1) MACHINE_ON_WORK) 0) as [Hz|Hz];
      intros [= <- <-]; [tauto|]. simpl. unfold MACHINE_ON_WORK. intros H. apply H.
    apply Z.bits_inj'. intros i Hi. rewrite Z.land_spec, Z.ldiff_spec, Z.bits_0.
    by destruct (Z.testbit (machine_work_status w1) i), (Z.testbit 1 i).
  - apply mseq_Done in E as (? & w2 & E2 & [= <- <-]).
    revert E2. unfold machine_status_deal, mseq, upd, mreturn. intros [= <- <-].
    unfold awake. cbn [machine_work_status set_machine_work_status]. unfold MACHINE_ON_WORK.
    intros H. apply (f_equal (λ x, Z.testbit x 0)) in H.
    rewrite Z.land_spec, Z.lor_spec in H. simpl in H. rewrite orb_true_r in H. done.
Qed.

Definition two_digit (z : Z) : Prop := 0 ≤ z < 100.

Definition same_trace (w w' : World) : Prop := trace w' = trace w.
#[export] Instance same_trace_preorder : PreOrder same_trace.
Proof. split; [by intros w|]. unfold same_trace. intros w1 w2 w3. congruence. Qed.

Lemma bcd_two_digit z : two_digit z → bcd_to_dec (dec_to_bcd z) = z.
Proof.
  intros [H1 H2]. rewrite dec_to_bcd_back by (unfold fits; change (2 ^ 8) with 256; lia).
  apply Z.mod_small. lia.
Qed.

Lemma take_tbl n l i : (i < n)%nat → nth i (take n l) 0 = nth i l 0.
Proof. revert l i. induction n as [|n IH]; intros [|x l] [|i] H; simpl; try done; try lia. apply IH. lia. Qed.

(** A set-time command of the right length with the six
    fields of a date in BCD sets the clock to that date. *)
Lemma set_time_sets frame recv_counts w r w' y mo d h mi s :
  frame_cmd frame = 0x95 → recv_counts = 4 + frame_length frame →
  two_digit y → two_digit mo → two_digit d → two_digit h → two_digit mi → two_digit s →
  take 6 (frame_data frame) = map dec_to_bcd [y; mo; d; h; mi; s] →
  recv_gprs_frame frame recv_counts w = Done r w' →
  trace w' = trace w ++ [Ev_set_date (2000 + y) mo d; Ev_set_time h mi s].
Proof.
  intros Hcmd -> Hy Ho Hd Hh Hm Hs Hdata. unfold recv_gprs_frame. rewrite Hcmd, Z.eqb_refl.
  cbn [Z.eqb Pos.eqb answer_set]. intros E. apply mseq_Done in E as ([] & w1 & E & [= <- <-]).
  apply mseq_Done in E as ([] & w2 & E2 & E).
  assert (∀ i, (i < 6)%nat → tbl (frame_data frame) (Z.of_nat i) =
    nth i (map dec_to_bcd [y; mo; d; h; mi; s]) 0) as Ht.
  { intros i Hi. unfold tbl. rewrite Nat2Z.id, <- Hdata. symmetry. by apply take_tbl. }
  assert (tbl (frame_data frame) 0 = dec_to_bcd y) as T0 by (apply (Ht 0%nat); lia).
  assert (tbl (frame_data frame) 1 = dec_to_bcd mo) as T1 by (apply (Ht 1%nat); lia).
  assert (tbl (frame_data frame) 2 = dec_to_bcd d) as T2 by (apply (Ht 2%nat); lia).
  assert (tbl (frame_data frame) 3 = dec_to_bcd h) as T3 by (apply (Ht 3%nat); lia).
  assert (tbl (frame_data frame) 4 = dec_to_bcd mi) as T4 by (apply (Ht 4%nat); lia).
  assert (tbl (frame_data frame) 5 = dec_to_bcd s) as T5 by (apply (Ht 5%nat); lia).
  revert E2. unfold process_gprs_set_time. rewrite T0, T1, T2, T3, T4, T5.
  rewrite !bcd_two_digit by done. intros E2. unfold mseq, emit, upd in E2.
  injection E2 as <-. apply (evolves_send_gprs_mail (R:=same_trace)) in E; [|by intros..].
  unfold same_trace in E. rewrite E. cbn [trace set_trace].
  rewrite <- app_assoc, (Z.add_comm y). done.
Qed.

(** A set-telephone command of the right length that announces
    more than ten numbers changes no setting, and is answered with success. *)
Lemma oversized_set_telephone_reports_success frame recv_counts w q :
  frame_cmd frame = 0x87 → recv_counts = 4 + frame_length frame →
  10 < tbl (frame_data frame) 0 → gprs_mq w = Some q → q_room q 1 →
  ∃ t w', recv_gprs_frame frame recv_counts w = Done 1 w' ∧ same_config w w' ∧
    gprs_mq w' = Some (q_append q [mkGprsMail t ALARM_TYPE_GPRS_SET_TELEPHONE_SUCCESS
      (frame_order frame) U_none]).
Proof.
  intros Hcmd -> Hn Hq Hr. unfold recv_gprs_frame. rewrite Hcmd, Z.eqb_refl.
  cbn [Z.eqb Pos.eqb answer_set]. unfold process_gprs_set_telephone, mseq, get.
  unfold set_telephone_params, TELEPHONE_NUMBERS.
  rewrite (proj2 (Z.ltb_lt (Z.of_nat 10) (tbl (frame_data frame) 0))) by lia.
  unfold mreturn. rewrite (send_gprs_mail_room _ _ _ _ q) by done.
  do 2 eexists. split; [reflexivity|]. done.
Qed.
End more.

(** ** Concrete frames *)

Definition frame_of (bytes : list Z) : list Z := pad RECV_FRAME_SIZE bytes.

(** Set two telephones *)
Definition telephone_data : list Z :=
  pad 152 ([2] ++ bytes_of "13912345678" ++ bytes_of "13612345678").
Definition telephone_frame : list Z := frame_of ([0; 23; 0x87; 5] ++ take 23 telephone_data).


Lemma telephones_set_then_listed_witness :
  ∃ p', set_telephone_params telephone_data device_parameters = Some p' ∧
    process_gprs_list_telephone p' =
      (1, tbl telephone_data 0,
       take (11 * Z.to_nat (tbl telephone_data 0)) (drop 1 telephone_data),
       2 + 11 * tbl telephone_data 0).
Proof.
  apply (telephones_set_then_listed device_parameters telephone_data).
  - apply device_parameters_wf.
  - by_computation.
  - by_computation.
  - by_computation.
Defined.

Definition key_data : list Z := pad 152 [2; 1; 2; 3; 4; 0x86; 0x6E; 0xEB; 0x14].

Lemma rfid_keys_set_then_listed_witness :
  ∃ p', set_rfid_key_params key_data device_parameters = Some p' ∧
    process_gprs_list_rfid_key p' =
      (1, tbl key_data 0, take (4 * Z.to_nat (tbl key_data 0)) (drop 1 key_data),
       2 + 4 * tbl key_data 0).
Proof.
  apply (rfid_keys_set_then_listed device_parameters key_data).
  - apply device_parameters_wf.
  - by_computation.
  - by_computation.
  - by_computation.
Defined.

Lemma recv_gprs_frame_safe_witness :
  runs wf (recv_gprs_frame (HB:=quiet_board) telephone_frame 27) (λ _, True).
Proof.
  apply (recv_gprs_frame_safe (HB:=quiet_board) telephone_frame 27).
  - by_computation.
  - split; [reflexivity|by_computation].
  - vm_compute. discriminate.
Defined.

Definition world_after (frame : list Z) (n : Z) : World :=
  match recv_gprs_frame (HB:=quiet_board) frame n start_world with
  | Done _ w => w | _ => start_world end.

Lemma recv_bad_length_keeps_config_witness :
  same_config start_world (world_after telephone_frame 26).
Proof.
  apply (recv_bad_length_keeps_config (HB:=quiet_board) telephone_frame 26 start_world 1).
  - vm_compute. discriminate.
  - vm_compute. reflexivity.
Defined.

Lemma set_command_answered_witness :
  1 = 1 ∧ ∃ t, gprs_mq (world_after telephone_frame 27) = Some (q_append (mkQueue [] 20)
    [mkGprsMail t ALARM_TYPE_GPRS_SET_TELEPHONE_SUCCESS 5 U_none]).
Proof.
  apply (set_command_answered (HB:=quiet_board) telephone_frame 27 start_world 1
    (world_after telephone_frame 27) (mkQueue [] 20) 0x87
    ALARM_TYPE_GPRS_SET_TELEPHONE_SUCCESS ALARM_TYPE_GPRS_SET_TELEPHONE_FAILURE).
  - apply list_elem_of_here.
  - reflexivity.
  - reflexivity.
  - by_computation.
  - vm_compute. reflexivity.
Defined.

Definition sleep_frame : list Z := frame_of [0; 0; 0x8C; 7].

Lemma sleep_and_wake_up_witness :
  (frame_cmd sleep_frame = 0x8C → ¬ awake (world_after sleep_frame 4)) ∧
  (frame_cmd sleep_frame = 0x8D → awake (world_after sleep_frame 4)).
Proof.
  apply (sleep_and_wake_up (HB:=quiet_board) sleep_frame 4 start_world 1).
  vm_compute. reflexivity.
Defined.

Definition time_frame : list Z := frame_of [0; 6; 0x95; 7; 0x13; 0x06; 0x08; 0x11; 0x17; 0x29].

Lemma set_time_sets_witness :
  trace (world_after time_frame 10) =
    trace start_world ++ [Ev_set_date 2013 6 8; Ev_set_time 11 17 29].
Proof.
  apply (set_time_sets (HB:=quiet_board) time_frame 10 start_world 1 _ 13 6 8 11 17 29);
    try (unfold two_digit; lia); reflexivity.
Defined.

Definition oversized_frame : list Z := frame_of [0; 1; 0x87; 9; 11].

Lemma oversized_set_telephone_reports_success_witness :
  ∃ t w', recv_gprs_frame (HB:=quiet_board) oversized_frame 5 start_world = Done 1 w' ∧
    same_config start_world w' ∧
    gprs_mq w' = Some (q_append (mkQueue [] 20)
      [mkGprsMail t ALARM_TYPE_GPRS_SET_TELEPHONE_SUCCESS 9 U_none]).
Proof.
  apply (oversized_set_telephone_reports_success (HB:=quiet_board) oversized_frame 5 start_world
    (mkQueue [] 20)); try reflexivity.
  by_computation.
Defined.
