(* ===== verification/Access.v ===== *)
(** * Who opens the lock: the server's key list and the key reader together

    The GPRS thread stores the RFID keys the server sends
    ([process_gprs_set_rfid_key] in gprs.c, [GprsRecv]); the local
    thread searches them when a key is detected ([rfid_key_detect_process] in
    local.c, [Local]).  The two meet in [device_parameters].  The
    file proves the composition: the keys of the last frame are the ones that
    open the door, and no others. *)
From stdpp Require Import base functions strings list.
From Stdlib Require Import ZArith Lia.
From S2P Require Import Prelude World Monad Untils Alarm GsmService Local GprsRecv.

(** The keys a frame of command 0x89 carries: their number, then four bytes
    each *)
Definition frame_keys (frame : list Z) : list (list Z) :=
  let data := frame_data frame in
  chunks 4 (Z.to_nat (tbl data 0)) (drop 1 data).

(** ** The stored table *)

Lemma rfid_search_app l1 l2 k :
  rfid_search (l1 ++ l2) k (length (l1 ++ l2)) = true ↔
  rfid_search l1 k (length l1) = true ∨ rfid_search l2 k (length l2) = true.
Proof.
  assert (∀ l, rfid_search l k (length l) = true ↔
    ∃ e, e ∈ l ∧ key_flag e ≠ 0 ∧ key e = k) as H.
  { intros l. rewrite rfid_search_spec. setoid_rewrite list_elem_of_lookup. split.
    - intros (i & e & _ & ? & ?). eauto.
    - intros (e & (i & Hi) & ?). exists i, e. split; [by eapply lookup_lt_Some|done]. }
  rewrite !H. split.
  - intros (e & [?|?]%elem_of_app & ?); [left|right]; by exists e.
  - intros [(e & ? & ?)|(e & ? & ?)]; exists e; (split; [apply elem_of_app; auto|done]).
Qed.

Lemma rfid_search_stored k cs : ∀ l, length cs = length l →
  rfid_search (zip_with rfid_store cs l) k (length (zip_with rfid_store cs l)) = true ↔ k ∈ cs.
Proof.
  intros l Hl. rewrite rfid_search_spec, list_elem_of_lookup. split.
  - intros (i & e & _ & (c & t & -> & Hc & _)%lookup_zip_with_Some & _ & <-). eauto.
  - intros (i & Hi). assert (is_Some (l !! i)) as [t Ht].
    { apply lookup_lt_is_Some. rewrite <- Hl. by eapply lookup_lt_Some. }
    exists i, (rfid_store k t). assert (zip_with rfid_store cs l !! i = Some (rfid_store k t)) as E.
    { apply lookup_zip_with_Some. eauto. }
    split_and!; [by eapply lookup_lt_Some|done|done|done].
Qed.

Lemma rfid_search_cleared k l n : rfid_search (map rfid_clear l) k n = false.
Proof.
  apply not_true_iff_false. intros (i & e & _ & He & Hf & _)%rfid_search_spec.
  apply list_lookup_fmap_Some in He as (t & -> & _). by apply Hf.
Qed.

(** After a list of keys is stored, the search accepts exactly its keys. *)
Lemma set_rfid_key_search data p p' k :
  params_wf p → 0 ≤ tbl data 0 → set_rfid_key_params data p = Some p' →
  rfid_search (rfid_key p') k RFID_KEY_NUMBERS = true ↔
    k ∈ chunks 4 (Z.to_nat (tbl data 0)) (drop 1 data).
Proof.
  intros (_ & _ & [Hl _] & _) H0. unfold set_rfid_key_params.
  destruct (Z.ltb_spec (Z.of_nat RFID_KEY_NUMBERS) (tbl data 0)) as [|Hn]; [done|].
  intros [= <-]. cbn [rfid_key with_rfid_key]. set (n := Z.to_nat (tbl data 0)).
  set (l := map rfid_clear (rfid_key p)).
  assert (length l = RFID_KEY_NUMBERS) as Hll by (unfold l; by rewrite length_map).
  pose proof (array_copy_spec rfid_store 4 n (drop 1 data) [] l ltac:(lia)) as E.
  rewrite <- Hll, <- (array_copy_length rfid_store 4 n 0 (drop 1 data) l).
  cbn [length app] in E. rewrite E, rfid_search_app, rfid_search_stored.
  - unfold l. rewrite <- fmap_drop. unfold fmap, list_fmap.
    rewrite rfid_search_cleared. split; [by intros [?|?]|by left].
  - rewrite chunks_length, length_take. lia.
Qed.

(** ** The command that stores it *)

Definition same_params (w w' : World) : Prop := params w' = params w.

#[export] Instance same_params_preorder : PreOrder same_params.
Proof. split; unfold same_params; [done|congruence]. Qed.

Section access.
Context {HB : Board} {HG : GsmService}.

Lemma store_params_stored p w w' : store_params p w = Done () w' → params w' = p.
Proof.
  unfold store_params. intros E. apply mseq_Done in E as ([] & w1 & [= <-] & E).
  apply mseq_Done in E as (? & w2 & E2 & [= <-]).
  assert (evolves same_params (system_file_operate p true)) as H.
  { apply evolves_seq; [by apply evolves_observe|intros [|]]; simpl; [|apply evolves_return].
    apply evolves_seq; [by apply evolves_upd|intros; apply evolves_return]. }
  apply H in E2. exact E2.
Qed.

Lemma recv_rfid_keys_stored frame recv_counts w r w' :
  frame_cmd frame = 0x89 → recv_counts = 4 + frame_length frame →
  tbl (frame_data frame) 0 ≤ Z.of_nat RFID_KEY_NUMBERS →
  recv_gprs_frame frame recv_counts w = Done r w' →
  set_rfid_key_params (frame_data frame) (params w) = Some (params w').
Proof.
  intros Hc -> Hn. unfold recv_gprs_frame. rewrite Hc. cbn [Z.eqb Pos.eqb].
  unfold answer_set. rewrite Z.eqb_refl. intros E.
  apply mseq_Done in E as ([] & w1 & E & [= <- <-]).
  apply mseq_Done in E as ([] & w2 & E & Em).
  apply (evolves_send_gprs_mail (R:=same_params)) in Em; [|by intros..].
  unfold process_gprs_set_rfid_key in E.
  apply mseq_Done in E as (p & w3 & [= <- <-] & E).
  destruct (set_rfid_key_params _ _) as [p|] eqn:Ep.
  - apply store_params_stored in E. unfold same_params in Em. congruence.
  - exfalso. unfold set_rfid_key_params in Ep.
    destruct (Z.ltb_spec (Z.of_nat RFID_KEY_NUMBERS) (tbl (frame_data frame) 0)); [lia|done].
Qed.

(** ** The reader *)

(** What the reader sends for the key [k]: four bytes the code skips, the
    key's bytes masked with [mask], and the mask *)
Definition reader_answer (head k : list Z) (mask : Z) : list Z :=
  head ++ map (λ b, Z.lxor b mask) k ++ [mask].

Lemma rfid_key_of_answer head k mask : length head = 4%nat → length k = 4%nat →
  rfid_key_of (reader_answer head k mask) = k.
Proof.
  intros Hh Hk. destruct head as [|? [|? [|? [|? []]]]]; try done.
  destruct k as [|? [|? [|? [|? []]]]]; try done.
  unfold rfid_key_of, reader_answer, tbl. cbn -[Z.lxor Z.to_nat].
  rewrite (eq_refl : Z.to_nat 4 = 4%nat), (eq_refl : Z.to_nat 5 = 5%nat),
    (eq_refl : Z.to_nat 6 = 6%nat), (eq_refl : Z.to_nat 7 = 7%nat),
    (eq_refl : Z.to_nat 8 = 8%nat).
  by rewrite !Z.lxor_assoc, Z.lxor_nilpotent, !Z.lxor_0_r.
Qed.

(** A key in the hole of a lock whose reader is quiet until it is asked and
    then sends [buf] *)
Definition key_presented (w : World) (buf : list Z) : Prop :=
  dev_present DEV_RFID_KEY_DETECT = true ∧ dev_present DEV_RFID_POWER = true ∧
  dev_present DEV_RFID_UART = true ∧ u8 (pin_level DEV_RFID_KEY_DETECT (now w)) = 1 ∧
  rfid_rx w = [] ∧ uart_arrivals DEV_RFID_UART (1 + now w) = [] ∧
  uart_arrivals DEV_RFID_UART (2 + now w) = [] ∧ uart_arrivals DEV_RFID_UART (3 + now w) = buf.

(** The lock when it has the answer: the timer runs, the reader is powered and
    was asked once. *)
Definition key_answered (w : World) : World :=
  set_rfid_key_detect_timer (Some true)
    (set_now (4 + now w)
      (set_trace (trace w ++ [Ev_write DEV_RFID_POWER [1];
                              Ev_write DEV_RFID_UART rfid_request]) w)).

(** C2 (safety). The keys of the server decide who opens the door.  After a
    frame that sets the key list, in every later state whose parameters are
    the same: handling a detected key either leaves the motor at rest or runs
    the accepting branch on a key of that frame, whatever the table held
    before; and a reader that answers with a key of the frame, under any mask,
    gets the accepting branch run on this key. *)
Theorem server_keys_open frame recv_counts w r w' w1 w2 :
  params_wf (params w) → frame_wf frame → frame_cmd frame = 0x89 →
  recv_counts = 4 + frame_length frame →
  tbl (frame_data frame) 0 ≤ Z.of_nat RFID_KEY_NUMBERS →
  recv_gprs_frame frame recv_counts w = Done r w' → params w1 = params w' →
  (rfid_key_detect_process w1 = Done () w2 →
    quiet w1 w2 ∨
    ∃ k w3, k ∈ frame_keys frame ∧ quiet w1 w3 ∧ rfid_success k w3 = Done () w2) ∧
  (∀ k head mask, k ∈ frame_keys frame → length head = 4%nat →
    key_presented w1 (reader_answer head k mask) →
    rfid_success k (key_answered w1) = Done () w2 →
    rfid_key_detect_process w1 = Done () w2).
Proof.
  intros Hp Hf Hc Hr Hn E Hw1. apply recv_rfid_keys_stored in E; [|done..].
  assert (0 ≤ tbl (frame_data frame) 0) as H0.
  { apply (tbl_byte (frame_data frame) 0). apply Forall_drop, Hf. }
  pose proof (λ k, set_rfid_key_search _ _ _ k Hp H0 E) as S. rewrite <- Hw1 in S. split.
  - intros [Q|(k & w3 & Q & Hs & Hd)]%rfid_detect_inv; [by left|right].
    exists k, w3. split; [by apply S|done].
  - intros k head mask Hk Hh (? & ? & ? & ? & ? & ? & ? & Ha) Hd.
    assert (length k = 4%nat) as Hl.
    { assert (Forall (λ c, length c = 4%nat) (frame_keys frame)) as Hall.
      { apply chunks_forall. destruct Hf as [Hf _]. unfold frame_data in *.
        rewrite !length_drop, Hf. unfold RECV_FRAME_SIZE, RFID_KEY_NUMBERS in *. lia. }
      rewrite Forall_forall in Hall. by apply Hall. }
    eapply rfid_registered_accepted; [done..| | |].
    + unfold reader_answer. rewrite !length_app, length_map, Hh, Hl. done.
    + rewrite rfid_key_of_answer by done. by apply S.
    + rewrite rfid_key_of_answer by done. exact Hd.
Qed.
End access.

(** ** A run: the server registers two keys, the second one is presented *)


(** The initial key of the table is not among the two of the frame. *)
Definition new_key_frame : list Z := frame_of [0; 9; 0x89; 5; 2; 1; 2; 3; 4; 9; 8; 7; 6].

Definition new_key_board : Board :=
  bench_board
    (λ d t, match d with DEV_MOTOR_STATUS => if (t <? 10)%nat then 1 else 0 | _ => 1 end)
    (λ _ t, if (t =? 5)%nat then reader_answer [0; 0; 0; 0] [9; 8; 7; 6] 0x55 else []).

(** The world after the frame *)
Definition registered_world : World :=
  world_of (recv_gprs_frame (HB:=new_key_board) new_key_frame 13 start_world).

Definition opened_world : World :=
  world_of (rfid_key_detect_process (HB:=new_key_board) registered_world).

Lemma server_keys_open_witness :
  rfid_key_detect_process (HB:=new_key_board) registered_world = Done () opened_world.
Proof.
  eapply (server_keys_open (HB:=new_key_board) new_key_frame 13 start_world 1
    registered_world registered_world opened_world).
  - apply device_parameters_wf.
  - split; [reflexivity|by_computation].
  - reflexivity.
  - reflexivity.
  - vm_compute. discriminate.
  - vm_compute. reflexivity.
  - reflexivity.
  - apply (list_elem_of_lookup_2 _ 1). vm_compute. reflexivity.
  - instantiate (1 := [0; 0; 0; 0]). reflexivity.
  - instantiate (1 := 0x55). by_computation.
  - vm_compute. reflexivity.
Defined.

(** The key that opened before the frame opens no more. *)
Example old_key_refused :
  rfid_search (rfid_key (params registered_world)) [0x86; 0x6E; 0xEB; 0x14] RFID_KEY_NUMBERS
    = false ∧
  rfid_search (rfid_key (params start_world)) [0x86; 0x6E; 0xEB; 0x14] RFID_KEY_NUMBERS = true.
Proof. split; vm_compute; reflexivity. Qed.
