(* ===== verification/GprsAuth.v ===== *)
(** * Authentication (create_k1, auth_process, send_gprs_auth_frame of src/gprs.c)

    The lock proves who it is by two DES blocks: its session key under the key
    it shares with the server, and its identity under both. *)
From stdpp Require Import base strings list.
From Stdlib Require Import ZArith Lia.
From S2P Require Import Prelude World Monad Untils Alarm Lock Des GsmService GprsRecv.

(** ** The blocks *)

(** [auth_process]: the identity and the sixteen encrypted bytes *)
Definition auth_process (p : DEVICE_PARAMETERS) : list Z * list Z :=
  let ctx_key0_enc := des_setkey_enc (key0 p) in
  let ctx_key1_enc := des_setkey_enc (key1 p) in
  (* DES(device_id, key1) *)
  let input_buf := device_id p ++ [0; 0] in
  let enc_high := des_crypt_ecb ctx_key1_enc input_buf in
  (* DES(key1, key0) *)
  let enc_low := des_crypt_ecb ctx_key0_enc (key1 p) in
  (* DES(DES(device_id, key1), key0) *)
  let enc_high := des_crypt_ecb ctx_key0_enc enc_high in
  (device_id p, enc_low ++ enc_high).

(** What the server, which knows the shared key, does with the sixteen bytes *)
Definition server_open (shared_key enc : list Z) : list Z * list Z :=
  let session := des_crypt_ecb (des_setkey_dec shared_key) (take 8 enc) in
  let inner := des_crypt_ecb (des_setkey_dec shared_key) (drop 8 enc) in
  (session, des_crypt_ecb (des_setkey_dec session) inner).

(** C21 (roundtrip). A server with the lock's key0 recovers the session key
    key1 and, with it, the identity of the lock padded with two zeros. *)
Theorem auth_opened_by_server p :
  params_wf p →
  server_open (key0 p) (snd (auth_process p)) = (key1 p, device_id p ++ [0; 0]) ∧
  fst (auth_process p) = device_id p ∧ length (snd (auth_process p)) = 16%nat.
Proof.
  intros (_ & _ & _ & _ & _ & [Li Bi] & _ & [L1 B1]).
  assert (block (key1 p)) as Hk by (split; [exact L1|exact B1]).
  assert (block (device_id p ++ [0; 0])) as Hid.
  { split; [rewrite length_app, Li; done|]. apply Forall_app. split; [exact Bi|]. by_computation. }
  pose proof (des_crypt_ecb_block (key0 p) (key1 p)) as [Hl Hb].
  pose proof (des_crypt_ecb_block (key1 p) (device_id p ++ [0; 0])) as Hin.
  destruct (des_decrypt_encrypt (key0 p) (key1 p) Hk) as [E1 _].
  destruct (des_decrypt_encrypt (key0 p) _ Hin) as [E2 _].
  destruct (des_decrypt_encrypt (key1 p) _ Hid) as [E3 _].
  split; [|split; [done|]].
  - unfold server_open, auth_process. cbn [fst snd].
    rewrite <- Hl, take_app_length, drop_app_length. by rewrite E1, E2, E3.
  - unfold auth_process. cbn [snd]. rewrite length_app, Hl.
    by destruct (des_crypt_ecb_block (key0 p)
      (des_crypt_ecb (des_setkey_enc (key1 p)) (device_id p ++ [0; 0]))) as [-> _].
Qed.

Section auth.
Context {HB : Board}.

(** One round: [index] has already been incremented, so that it runs from 1
    to 8.  The eighth is not in the array: it is the padding byte at the end
    of [device_parameters], which nothing reads. *)
Definition create_k1_step (index : nat) : M () :=
  time <- rtc_get_time ;;
  p <- get params ;;
  upd (set_params (with_key1
    (alter (λ k, u8 (Z.rem (rand_seeded time + k) 0xff)) index (key1 p)) p)) ;;;
  rt_thread_delay 100.

Fixpoint create_k1_loop (n : nat) (index : nat) : M () :=
  match n with
  | O => mreturn ()
  | S n => create_k1_step (S index) ;;; create_k1_loop n (S index)
  end.

Definition create_k1 : M () := create_k1_loop 8 0.

Definition auth_frame (p : DEVICE_PARAMETERS) : list Z :=
  let '(id, enc) := auth_process p in
  [0; 0x16; 0x11; 0] ++ id ++ enc.

(** The wait for the server's answer, at most ten times *)
Fixpoint auth_wait (send_counts : nat) : M () :=
  match send_counts with
  | O => mreturn ()
  | S send_counts =>
      rt_thread_delay 100 ;;;
      recv <- gsm_uart_read RECV_FRAME_SIZE ;;
      if (length recv =? 0)%nat then auth_wait send_counts
      else
        recv_gprs_frame (pad RECV_FRAME_SIZE recv) (Z.of_nat (length recv)) ;;;
        mreturn ()
  end.

(** The result is -1 on every path. *)
Definition send_gprs_auth_frame : M Z :=
  if negb (dev_present DEV_GSM_USART) then mreturn (-1)
  else
    p <- get params ;;
    uart_write DEV_GSM_USART (auth_frame p) ;;;
    auth_wait 10 ;;;
    mreturn (-1).

(** ** The session key *)

Lemma with_key1_wf f i p :
  params_wf p → params_wf (with_key1 (alter (λ k, u8 (f k)) i (key1 p)) p).
Proof.
  intros (P1&P2&P3&P4&P5&P6&P7&[L8 B8]).
  refine (conj P1 (conj P2 (conj P3 (conj P4 (conj P5 (conj P6 (conj P7 _))))))).
  cbn [key1 with_key1]. split; [by rewrite length_alter|]. apply Forall_alter; [exact B8|].
  intros x _ _. by apply wrap_fits.
Qed.

Lemma create_k1_loop_spec n : ∀ index w,
  params_wf (params w) → ∃ w', create_k1_loop n index w = Done () w' ∧
    params_wf (params w') ∧ take (S index) (key1 (params w')) = take (S index) (key1 (params w)) ∧
    with_key1 [] (params w') = with_key1 [] (params w) ∧
    (wf w → wf w').
Proof.
  induction n as [|n IH]; intros index w Hp; cbn [create_k1_loop].
  - by exists w.
  - unfold mseq at 1. unfold create_k1_step, rtc_get_time, observe, mseq, get, upd,
      rt_thread_delay, emit, upd.
    match goal with |- context [create_k1_loop n (S index) ?w2] =>
      destruct (IH (S index) w2) as (w' & E & Hp' & Hk & Hr & Hwf) end.
    + by apply with_key1_wf.
    + exists w'. split; [exact E|]. split; [done|]. split_and!.
      * apply (f_equal (take (S index))) in Hk. rewrite !take_take in Hk.
        rewrite !Nat.min_l in Hk by lia. rewrite Hk. cbn. by rewrite take_alter_ge by lia.
      * by rewrite Hr.
      * intros Hw. apply Hwf. apply inv_trace, wf_set_params; [|by apply inv_now].
        by apply with_key1_wf.
Qed.

(** Only the key changes, besides the clock and the trace. *)
Lemma create_k1_loop_run n : ∀ index w, ∃ k t l, create_k1_loop n index w =
  Done () (set_params (with_key1 k (params w)) (set_now t (set_trace l w))).
Proof.
  induction n as [|n IH]; intros index w; cbn [create_k1_loop].
  - exists (key1 (params w)), (now w), (trace w). unfold mreturn. f_equal. world_eq.
    cbn. by destruct (params w).
  - match goal with |- context [(create_k1_step ?i ;;; ?k) w] =>
      destruct (create_k1_step i w) as [[] w1| |] eqn:E1; [|discriminate E1|discriminate E1] end.
    rewrite (mseq_run _ _ _ _ _ E1). injection E1 as <-.
    match goal with |- context [create_k1_loop n ?i ?w1] =>
      destruct (IH i w1) as (k & t & l & ->) end.
    exists k, t, l. reflexivity.
Qed.

Lemma create_k1_runs : safe wf create_k1.
Proof.
  intros w Hw. destruct (create_k1_loop_spec 8 0 w (wf_params _ Hw)) as (w' & E & _ & _ & _ & H).
  exists (), w'. split; [exact E|]. split; [exact (H Hw)|done].
Qed.

(** Making a session key terminates, changes no parameter but
    key1, and never changes the first byte of key1: its random part is seven
    bytes. *)
Lemma create_k1_keeps_first_byte w :
  params_wf (params w) → ∃ w', create_k1 w = Done () w' ∧
    head (key1 (params w')) = head (key1 (params w)) ∧
    with_key1 [] (params w') = with_key1 [] (params w) ∧ params_wf (params w').
Proof.
  intros Hp. destruct (create_k1_loop_spec 8 0 w Hp) as (w' & E & Hp' & Hk & Hr & _).
  exists w'. split; [exact E|]. split; [|done].
  destruct (key1 (params w')), (key1 (params w)); simpl in *; congruence.
Qed.

(** ** Waiting is bounded *)

(** A received frame in its zeroed buffer *)
Lemma pad_frame_wf l :
  (length l <= RECV_FRAME_SIZE)%nat → Forall byte l → frame_wf (pad RECV_FRAME_SIZE l).
Proof.
  intros Hl Hb. split; [by apply pad_length|]. apply Forall_app. split; [done|].
  apply forall_repeat. by_computation.
Qed.

(** Partial correctness of the command handler, without assumptions on the
    contents of the frame: missing devices and the over-long report fault. *)
Lemma recv_gprs_frame_keeps frame n :
  motors_present → frame_wf frame → keeps wf (recv_gprs_frame frame n) (λ _, True).
Proof.
  intros Hm Hf.
  destruct (decide (frame_cmd frame = 0x8F ∧ 150 < tbl (frame_data frame) 1)) as [[Hc Hn]|Hn].
  - intros w r w' Hw. unfold recv_gprs_frame. rewrite Hc. cbn [Z.eqb Pos.eqb].
    by rewrite (proj2 (Z.ltb_lt _ _) Hn).
  - apply runs_keeps, recv_gprs_frame_runs; [done..|]. intros Hc.
    destruct (Z.le_gt_cases (tbl (frame_data frame) 1) 150); [done|]. destruct Hn. lia.
Qed.

Lemma auth_wait_keeps n : motors_present → keeps wf (auth_wait n) (λ _, True).
Proof.
  intros Hm. induction n as [|n IH]; cbn [auth_wait]; [by apply keeps_return|].
  apply keeps_then; [by apply runs_keeps, runs_emit|intros _].
  eapply keeps_seq; [apply runs_keeps, runs_gsm_read|intros recv [Hl Hb]].
  apply keeps_if; intros _; [apply IH|].
  apply keeps_then; [|intros; by apply keeps_return].
  by apply recv_gprs_frame_keeps, pad_frame_wf.
Qed.

Lemma send_gprs_auth_frame_keeps :
  motors_present → keeps wf send_gprs_auth_frame (λ r, r = -1).
Proof.
  intros Hm. unfold send_gprs_auth_frame. apply keeps_if; intros _; [by apply keeps_return|].
  apply keeps_then; [by apply runs_keeps, runs_get|intros p].
  apply keeps_then; [apply runs_keeps, runs_emit|intros _].
  apply keeps_then; [by apply auth_wait_keeps|intros _]. by apply keeps_return.
Qed.
End auth.

(** ** Concrete runs *)

Lemma auth_opened_by_server_witness :
  server_open (key0 device_parameters) (snd (auth_process device_parameters)) =
    (key1 device_parameters, device_id device_parameters ++ [0; 0]) ∧
  fst (auth_process device_parameters) = device_id device_parameters ∧
  length (snd (auth_process device_parameters)) = 16%nat.
Proof. apply auth_opened_by_server, device_parameters_wf. Defined.

Lemma create_k1_keeps_first_byte_witness :
  ∃ w', create_k1 (HB:=quiet_board) start_world = Done () w' ∧
    head (key1 (params w')) = head (key1 (params start_world)) ∧
    with_key1 [] (params w') = with_key1 [] (params start_world) ∧ params_wf (params w').
Proof.
  apply (create_k1_keeps_first_byte (HB:=quiet_board) start_world).
  apply device_parameters_wf.
Defined.
