(* ===== verification/GprsPic.v ===== *)
(** * Sending the picture (send_picture_data of src/gprs.c and its helpers)

    The file is sent in pages of 512 bytes.  After every tenth page the last one
    is sent so that the server answers, at the end the server's report decides
    what is sent again.  The local variables are the record [PIC]; the gotos are
    the calls of the loops below.

    The loop that sends the reported pages again has no bound in the source
    (it starts over whenever the server answers), so the definitions take the
    number of rounds they may make.  [rt_malloc] and [rt_sem_create] succeed. *)
From stdpp Require Import base functions strings list.
From Stdlib Require Import ZArith Lia.
From S2P Require Import Prelude World Monad Untils Lock GsmService GprsRecv GprsAuth.

Definition PIC_PER_PAGE_SIZE : nat := 512.
Definition PIC_NAME : FILE := F_2_jpg.

(** [pic_data], [gsm_mail_buf] with what its pointers refer to, and the counters *)
Record PIC := mkPic {
  pic_order : Z;
  pic_length : Z;  (* pic_data.length *)
  cur_page : Z;  (* pic_data.cur_page *)
  pic_data : list Z;  (* the bytes pic_data.data points to *)
  pic_has_response : Z;  (* gsm_mail_buf.mail_data.gprs.has_response *)
  send_result : Z;  (* what *(gsm_mail_buf.result) is *)
  pic_frame : list Z;  (* gprs_recv_frame, the response buffer *)
  pic_recv_counts : Z;  (* recv_counts *)
  page_sum : Z;
  page_error : Z;
  resend_num : Z;
  send_last_cnt : Z
}.

Definition with_pic_length (x : Z) (s : PIC) : PIC :=
  mkPic (pic_order s) x (cur_page s) (pic_data s) (pic_has_response s) (send_result s) (pic_frame s) (pic_recv_counts s) (page_sum s) (page_error s) (resend_num s) (send_last_cnt s).
Definition with_cur_page (x : Z) (s : PIC) : PIC :=
  mkPic (pic_order s) (pic_length s) x (pic_data s) (pic_has_response s) (send_result s) (pic_frame s) (pic_recv_counts s) (page_sum s) (page_error s) (resend_num s) (send_last_cnt s).
Definition with_pic_data (x : list Z) (s : PIC) : PIC :=
  mkPic (pic_order s) (pic_length s) (cur_page s) x (pic_has_response s) (send_result s) (pic_frame s) (pic_recv_counts s) (page_sum s) (page_error s) (resend_num s) (send_last_cnt s).
Definition with_pic_has_response (x : Z) (s : PIC) : PIC :=
  mkPic (pic_order s) (pic_length s) (cur_page s) (pic_data s) x (send_result s) (pic_frame s) (pic_recv_counts s) (page_sum s) (page_error s) (resend_num s) (send_last_cnt s).
Definition with_send_result (x : Z) (s : PIC) : PIC :=
  mkPic (pic_order s) (pic_length s) (cur_page s) (pic_data s) (pic_has_response s) x (pic_frame s) (pic_recv_counts s) (page_sum s) (page_error s) (resend_num s) (send_last_cnt s).
Definition with_pic_frame (x : list Z) (s : PIC) : PIC :=
  mkPic (pic_order s) (pic_length s) (cur_page s) (pic_data s) (pic_has_response s) (send_result s) x (pic_recv_counts s) (page_sum s) (page_error s) (resend_num s) (send_last_cnt s).
Definition with_pic_recv_counts (x : Z) (s : PIC) : PIC :=
  mkPic (pic_order s) (pic_length s) (cur_page s) (pic_data s) (pic_has_response s) (send_result s) (pic_frame s) x (page_sum s) (page_error s) (resend_num s) (send_last_cnt s).
Definition with_page_sum (x : Z) (s : PIC) : PIC :=
  mkPic (pic_order s) (pic_length s) (cur_page s) (pic_data s) (pic_has_response s) (send_result s) (pic_frame s) (pic_recv_counts s) x (page_error s) (resend_num s) (send_last_cnt s).
Definition with_page_error (x : Z) (s : PIC) : PIC :=
  mkPic (pic_order s) (pic_length s) (cur_page s) (pic_data s) (pic_has_response s) (send_result s) (pic_frame s) (pic_recv_counts s) (page_sum s) x (resend_num s) (send_last_cnt s).
Definition with_resend_num (x : Z) (s : PIC) : PIC :=
  mkPic (pic_order s) (pic_length s) (cur_page s) (pic_data s) (pic_has_response s) (send_result s) (pic_frame s) (pic_recv_counts s) (page_sum s) (page_error s) x (send_last_cnt s).
Definition with_send_last_cnt (x : Z) (s : PIC) : PIC :=
  mkPic (pic_order s) (pic_length s) (cur_page s) (pic_data s) (pic_has_response s) (send_result s) (pic_frame s) (pic_recv_counts s) (page_sum s) (page_error s) (resend_num s) x.

Section picture.
Context {HB : Board} {HG : GsmService}.

(** [get_pic_size] gives 0 when the file is not there. *)
Definition get_pic_size : M Z :=
  s <- file_stat PIC_NAME ;;
  mreturn (match s with Some size => u32 size | None => 0 end).

(** A page into the buffer, behind its header; nothing happens if the file
    cannot be positioned.  A failed read leaves the last page's bytes. *)
Definition get_page_pic_data (page : Z) (s : PIC) : M PIC :=
  positioned <- file_call PIC_NAME ;;
  if negb positioned then mreturn s
  else
    r <- file_read PIC_NAME (Z.to_nat (page * Z.of_nat PIC_PER_PAGE_SIZE))
           (Z.to_nat (pic_length s - 1)) ;;
    let data := match r with
                | None => pic_data s
                | Some bytes => memcpy_at (pic_data s) 5 (map u8 bytes)
                end in
    mreturn (with_pic_data (memcpy_at data 0
      [Z.land (Z.shiftr (pic_length s) 8) 0xff; Z.land (pic_length s) 0xff; 0x0F;
       pic_order s; page]) s).

(** Post the buffer and wait.  A mail that was not accepted is never answered:
    the wait does not end. *)
Definition pic_transact (s : PIC) : M PIC :=
  r <- gsm_transact false
         (GM_gprs (take (Z.to_nat (pic_length s + 4)) (pic_data s)) (pic_has_response s)) ;;
  match r with
  | None => nofuel
  | Some (res, GA_gprs response) =>
      mreturn (with_send_result res (with_pic_recv_counts (Z.of_nat (length response))
        (with_pic_frame (memcpy_at (pic_frame s) 0 response) s)))
  | Some (res, _) => mreturn (with_send_result res s)
  end.

Definition send_page_pic_data (page : Z) (s : PIC) : M (Z * PIC) :=
  pic_size <- get_pic_size ;;
  let cur_size := (page + 1) * Z.of_nat PIC_PER_PAGE_SIZE in
  let s :=
    if cur_size <? pic_size
    then with_pic_has_response 0 (with_pic_length (Z.of_nat PIC_PER_PAGE_SIZE + 1) s)
    else with_pic_has_response 1
           (with_pic_length (pic_size mod Z.of_nat PIC_PER_PAGE_SIZE + 1) s) in
  s <- get_page_pic_data page s ;;
  s <- pic_transact s ;;
  mreturn (if send_result s =? 1 then 0 else 1, s).

Definition last_page_pos (pic_size : Z) : Z :=
  let page := pic_size / Z.of_nat PIC_PER_PAGE_SIZE in
  if negb (pic_size mod Z.of_nat PIC_PER_PAGE_SIZE =? 0) then u8 page else u8 (page - 1).

Definition send_last_page_data (s : PIC) : M (Z * PIC) :=
  pic_size <- get_pic_size ;;
  both r s' <- send_page_pic_data (last_page_pos pic_size) (with_pic_has_response 1 s) ;;
  mreturn (r, with_pic_has_response (pic_has_response s) s').

(** [recv_gprs_frame] turns the two bytes of the length around in the buffer. *)
Definition swap_length (frame : list Z) : list Z :=
  match frame with a :: b :: l => b :: a :: l | l => l end.

Definition pic_recv_frame (s : PIC) : M (Z * PIC) :=
  r <- recv_gprs_frame (pic_frame s) (pic_recv_counts s) ;;
  mreturn (r, with_pic_frame (swap_length (pic_frame s)) s).

(** How a round ends: with the next one, at EXIT_PICTURE_SEND, or by [return] *)
Inductive PIC_NEXT := Next (s : PIC) | Exit (result : Z) | Return (result : Z).

Definition next (m : M PIC_NEXT) (k : PIC → M PIC_NEXT) : M PIC_NEXT :=
  r <- m ;; match r with Next s => k s | r => mreturn r end.

(** [page_sum++; cur_page--] *)
Definition page_again (s : PIC) : PIC :=
  with_page_sum (u8 (page_sum s + 1)) (with_cur_page (u8 (cur_page s - 1)) s).

(** CHECK_SERVER_SEND; [n] is at least the attempts left, [send_last_cnt]
    counts them. *)
Fixpoint check_server_send (n : nat) (s : PIC) : M PIC_NEXT :=
  match n with
  | O => nofuel
  | S n =>
      both r s <- send_last_page_data s ;;
      if r =? 1 then
        if send_last_cnt s <? 10 then
          let s := page_again s in
          rt_thread_delay 200 ;;;
          check_server_send n (with_send_last_cnt (send_last_cnt s + 1) s)
        else mreturn (Exit (-1))
      else
        both _ s <- pic_recv_frame s ;;
        mreturn (Next (with_send_last_cnt 0 s))
  end.

(** The report in the response buffer *)
Definition report_resend_num (s : PIC) : Z := tbl (frame_data (pic_frame s)) 1.
Definition report_page (s : PIC) (i : Z) : option Z :=
  frame_data (pic_frame s) !! Z.to_nat (2 + i).

(** [while (cur_page != resend_num)]; this [cur_page] is a counter of the loop. *)
Fixpoint resend_pages (fuel : nat) (i : Z) (s : PIC) : M PIC :=
  match fuel with
  | O => nofuel
  | S fuel =>
      if i =? report_resend_num s then mreturn s
      else
        page <- deref (report_page s i) ;;
        let i := u8 (i + 1) in
        both result s <- send_page_pic_data page s ;;
        both i s <-
          (if (result =? 1) || (i mod 10 =? 0) then
             both r s <- send_last_page_data s ;;
             if r =? 1 then rt_thread_delay 200 ;;; mreturn (i, s)
             else both _ s <- pic_recv_frame s ;; mreturn (0, s)
           else mreturn (i, s)) ;;
        rt_thread_delay 200 ;;;
        resend_pages fuel i s
  end.

(** LASTPAGELOOP: is the last page sent in one of three attempts? *)
Fixpoint last_page_loop (n : nat) (s : PIC) : M (bool * PIC) :=
  match n with
  | O => mreturn (false, s)
  | S n =>
      both r s <- send_last_page_data s ;;
      if r =? 1 then last_page_loop n s else mreturn (true, s)
  end.

(** RSEND_LOST_PAGE, with [10 - rsend_cnt] repetitions to go *)
Fixpoint rsend_lost_page (fuel : nat) (tries : nat) (s : PIC) : M PIC_NEXT :=
  both result s <- pic_recv_frame s ;;
  if result =? 1 then mreturn (Next (with_send_result 1 s))
  else if result =? -2 then
    s <- resend_pages fuel 0 s ;;
    both r s <- pic_recv_frame s ;;
    if r =? 1 then mreturn (Next (with_send_result 1 s))
    else
      both sent s <- last_page_loop 3 s ;;
      if (sent : bool) then
        match tries with
        | O => mreturn (Next s)
        | S tries => rsend_lost_page fuel tries s
        end
      else mreturn (Next (with_send_result 1 s))
  else if result =? -3 then mreturn (Return (-1))
  else if result =? -4 then mreturn (Exit (-1))
  else
    both _ s <- send_last_page_data s ;;
    let s := page_again s in
    let s := with_resend_num (resend_num s + 1) s in
    mreturn (if 3 <? resend_num s then Exit (-1) else Next s).

(** One round of [while (page_sum--)], after the decrement *)
Definition page_round (fuel : nat) (pic_size : Z) (s : PIC) : M PIC_NEXT :=
  let s :=
    if 0 <? page_sum s
    then with_pic_has_response 0 (with_pic_length (Z.of_nat PIC_PER_PAGE_SIZE + 1) s)
    else with_pic_has_response 1
           (with_pic_length (pic_size mod Z.of_nat PIC_PER_PAGE_SIZE + 1) s) in
  s <- get_page_pic_data (cur_page s) s ;;
  let s := with_cur_page (u8 (cur_page s + 1)) s in
  o <- get mq_gsm ;;
  match o with
  | None => mreturn (Exit (-1))
  | Some _ =>
      s <- pic_transact s ;;
      next
        (if send_result s =? 1 then mreturn (Next s)
         else
           let s := with_page_error (page_error s + 1) s in
           if 3 <=? page_error s then mreturn (Exit (-1)) else mreturn (Next (page_again s)))
      (λ s, rt_thread_delay 100 ;;;
      next
        (if cur_page s mod 10 =? 0 then check_server_send 11 s else mreturn (Next s))
      (λ s, next
        (if pic_has_response s =? 1 then rsend_lost_page fuel 10 s else mreturn (Next s))
      (λ s, mreturn (Next
        (with_pic_data (repeat 0 (PIC_PER_PAGE_SIZE + 5))
        (with_pic_frame (take 4 (pic_frame s) ++ repeat 0 152) s))))))
  end.

(** EXIT_PICTURE_SEND *)
Definition exit_picture_send (result : Z) : M Z := rt_thread_delay 300 ;;; mreturn result.

Fixpoint page_loop (fuel rounds : nat) (pic_size : Z) (s : PIC) : M Z :=
  match rounds with
  | O => nofuel
  | S rounds =>
      if page_sum s =? 0 then exit_picture_send (send_result s)
      else
        r <- page_round fuel pic_size (with_page_sum (page_sum s - 1) s) ;;
        match r with
        | Next s => page_loop fuel rounds pic_size s
        | Exit result => exit_picture_send result
        | Return result => mreturn result
        end
  end.

Fixpoint uninit_bytes (n : nat) : M (list Z) :=
  match n with
  | O => mreturn []
  | S n => x <- observe (λ t, u8 (uninit t)) ;; l <- uninit_bytes n ;; mreturn (x :: l)
  end.

Definition page_count (pic_size : Z) : Z :=
  let page_sum := u8 (pic_size / Z.of_nat PIC_PER_PAGE_SIZE) in
  if negb (pic_size mod Z.of_nat PIC_PER_PAGE_SIZE =? 0) then u8 (page_sum + 1) else page_sum.

Definition send_picture_data (fuel : nat) : M Z :=
  pic_size <- get_pic_size ;;
  if pic_size =? 0 then mreturn (-1)
  else
    ok <- file_open PIC_NAME ;;
    if negb ok then mreturn (-1)
    else
      order <- get gprs_order ;;
      frame <- uninit_bytes RECV_FRAME_SIZE ;;
      counts <- uninit_bytes 2 ;;
      rt_thread_delay 200 ;;;
      page_loop fuel fuel pic_size
        (mkPic order 0 0 (repeat 0 (PIC_PER_PAGE_SIZE + 5)) 0 1 frame
           (tbl counts 0 + 256 * tbl counts 1) (page_count pic_size) 0 0 0).
End picture.

(** ** The upload to a willing modem *)

Definition pages (bs : list Z) : nat := (length bs + 511) / 512.

(** The page with number [i] of a file, and the frame that carries it: the last
    page has the rest of the size, so nothing if there is none. *)
Definition page_bytes (bs : list Z) (i : nat) : list Z :=
  take (if (S i =? pages bs)%nat then length bs mod 512 else PIC_PER_PAGE_SIZE)
    (drop (i * PIC_PER_PAGE_SIZE) bs).

Definition page_frame (order : Z) (bs : list Z) (i : nat) : list Z :=
  let l := Z.of_nat (length (page_bytes bs i)) + 1 in
  [Z.land (Z.shiftr l 8) 0xff; Z.land l 0xff; 0x0F; order; Z.of_nat i] ++ page_bytes bs i.

(** What is sent for page [i]: every tenth page is followed by the last one. *)
Definition page_frames (order : Z) (bs : list Z) (pages i : nat) : list (list Z) :=
  page_frame order bs i ::
  (if (Z.of_nat i + 1) mod 10 =? 0 then [page_frame order bs (pages - 1)] else []).

(** The report of the server that nothing is missing *)
Definition report_ok : list Z := [0; 2; 0x8F; 0; 0; 0].

(** No call on the file of the picture fails. *)
Class PictureFile {HB : Board} : Prop := picture_works t : file_works PIC_NAME t = true.

Section upload.
Context {HB : Board} {HG : GsmService} {HM : WillingModem report_ok}.
Context (bs : list Z) (file_bytes : Forall byte bs) {HF : PictureFile} (order : Z).

(** Only the exchange with the modem matters, and that the file holds [bs]. *)
Definition idle (w : World) : Prop :=
  (∃ n, mq_gsm w = Some (mkQueue [] (S n))) ∧ gprs_order w = order ∧
  files w PIC_NAME = Some bs.

(** [m] sends [l] and ends with a result in [Q]. *)
Definition sends {A} (m : M A) (Q : A → Prop) (l : list (list Z)) : Prop :=
  ∀ w, idle w → ∃ a w', m w = Done a w' ∧ idle w' ∧ Q a ∧
    sent_frames (trace w') = sent_frames (trace w) ++ l.

Lemma sends_return {A} (a : A) (Q : A → Prop) : Q a → sends (mreturn a) Q [].
Proof. intros H w Hw. exists a, w. by rewrite app_nil_r. Qed.

Lemma sends_seq {A B} (m : M A) (k : A → M B) Q R l1 l2 :
  sends m Q l1 → (∀ a, Q a → sends (k a) R l2) → sends (mseq m k) R (l1 ++ l2).
Proof.
  intros Hm Hk w Hw. destruct (Hm w Hw) as (a & w1 & E1 & H1 & Ha & S1).
  destruct (Hk a Ha w1 H1) as (b & w2 & E2 & H2 & Hb & S2).
  exists b, w2. unfold mseq. rewrite E1. rewrite S2, S1, app_assoc. done.
Qed.

(** Steps that send nothing *)
Lemma sends_then {A B} (m : M A) (k : A → M B) (Q : A → Prop) R l :
  sends m Q [] → (∀ a, Q a → sends (k a) R l) → sends (mseq m k) R l.
Proof. intros. by apply (sends_seq m k Q R [] l). Qed.

(** Steps after which nothing is sent *)
Lemma sends_last {A B} (m : M A) (k : A → M B) (Q : A → Prop) R l :
  sends m Q l → (∀ a, Q a → sends (k a) R []) → sends (mseq m k) R l.
Proof. intros. rewrite <- (app_nil_r l). by eapply sends_seq. Qed.

Lemma sends_consequence {A} (m : M A) (Q R : A → Prop) l :
  sends m Q l → (∀ a, Q a → R a) → sends m R l.
Proof. intros Hm H w Hw. destruct (Hm w Hw) as (a & w' & ? & ? & ? & ?). eauto 8. Qed.

Lemma sends_observe {A} (f : nat → A) (Q : A → Prop) :
  (∀ t, Q (f t)) → sends (observe f) Q [].
Proof.
  intros H w Hw. exists (f (now w)), (set_now (S (now w)) w). rewrite app_nil_r. by split_and!.
Qed.

Lemma sends_delay n : sends (rt_thread_delay n) (λ _, True) [].
Proof. intros w Hw. do 2 eexists. split; [reflexivity|]. split; [done|]. split; [done|].
  simpl. by rewrite sent_frames_app. Qed.

Lemma sends_order : sends (get gprs_order) (λ o, o = order) [].
Proof. intros w Hw. exists (gprs_order w), w. rewrite app_nil_r. split_and!; try done. apply Hw. Qed.

Lemma sends_uninit n : sends (uninit_bytes n) (λ l, length l = n) [].
Proof.
  induction n as [|n IH]; cbn [uninit_bytes]; [by apply sends_return|].
  eapply sends_then; [by apply (sends_observe _ (λ _, True))|]. intros x _.
  eapply sends_then; [exact IH|]. intros l Hl. apply sends_return. simpl. by rewrite Hl.
Qed.

Lemma sends_files : sends (get files) (λ o, o PIC_NAME = Some bs) [].
Proof. intros w Hw. exists (files w), w. rewrite app_nil_r. split_and!; try done. apply Hw. Qed.

Lemma sends_call : sends (file_call PIC_NAME) (λ ok, ok = true) [].
Proof. apply sends_observe, picture_works. Qed.

Lemma sends_open : sends (file_open PIC_NAME) (λ ok, ok = true) [].
Proof.
  eapply sends_then; [apply sends_call|]. intros ok ->.
  eapply sends_then; [apply sends_files|]. intros o Ho. apply sends_return. by rewrite Ho.
Qed.

Lemma sends_read off n : sends (file_read PIC_NAME off n) (λ r, r = Some (take n (drop off bs))) [].
Proof.
  eapply sends_then; [apply sends_call|]. intros ok ->.
  eapply sends_then; [apply sends_files|]. intros o Ho. apply sends_return. by rewrite Ho.
Qed.

Lemma sends_pic_size : sends get_pic_size (λ n, n = u32 (Z.of_nat (length bs))) [].
Proof.
  eapply (sends_then _ _ (λ s, s = Some (Z.of_nat (length bs)))); [|intros s ->; by apply sends_return].
  eapply sends_then; [apply sends_call|]. intros ok ->.
  eapply sends_then; [apply sends_files|]. intros o Ho. apply sends_return. by rewrite Ho.
Qed.

(** A frame is accepted and answered. *)
Definition answered (s : PIC) : PIC :=
  if pic_has_response s =? 1
  then with_send_result 1 (with_pic_recv_counts 6 (with_pic_frame (memcpy_at (pic_frame s) 0 report_ok) s))
  else with_send_result 1 s.

Lemma sends_transact s :
  sends (pic_transact s) (λ s', s' = answered s)
    [take (Z.to_nat (pic_length s + 4)) (pic_data s)].
Proof.
  intros w [[n Hq] [Ho Hfile]]. set (req := take _ _).
  set (m := GM_gprs req (pic_has_response s)).
  destruct (willing_serve (set_mq_gsm (Some (mkQueue [m] (S n))) w) req (pic_has_response s) (S n)
    eq_refl) as (w' & E & Q & O & F & S). simpl in O, F.
  exists (answered s), w'.
  split; [|split; [split; [by exists n|split; congruence]|done]].
  unfold pic_transact, gsm_transact, rt_mq_send, mseq, get, deref, upd, mreturn.
  rewrite Hq. simpl. rewrite Hq. simpl. fold req. fold m. unfold q_send in *. simpl in *. rewrite E. unfold answered.
  by destruct (pic_has_response s =? 1).
Qed.

(** The state between the steps: the buffers have their size, and the last
    report is [report_ok] or was never read. *)
Record good (s : PIC) : Prop := {
  good_order : pic_order s = order;
  good_data : length (pic_data s) = 517%nat;
  good_frame : length (pic_frame s) = 156%nat
}.

Lemma page_bytes_length i : (length (page_bytes bs i) <= 512)%nat.
Proof.
  unfold page_bytes. rewrite length_take. etrans; [apply Nat.le_min_l|].
  case_match; [|done]. by apply Nat.lt_le_incl, Nat.mod_upper_bound.
Qed.

Lemma sends_get_page i s :
  good s → pic_length s = Z.of_nat (length (page_bytes bs i)) + 1 →
  sends (get_page_pic_data (Z.of_nat i) s)
    (λ s', ∃ d, s' = with_pic_data d s ∧ length d = 517%nat ∧
      take (Z.to_nat (pic_length s + 4)) d = page_frame order bs i) [].
Proof.
  intros [Ho Hd _] Hl. pose proof (page_bytes_length i) as Hb. unfold get_page_pic_data.
  rewrite Hl. replace (Z.to_nat (Z.of_nat (length (page_bytes bs i)) + 1 - 1))
    with (length (page_bytes bs i)) by lia.
  eapply sends_then; [apply sends_call|]. intros ok ->. cbn [negb].
  eapply (sends_then _ _ (λ r, r = Some (page_bytes bs i))).
  - eapply sends_consequence; [apply sends_read|]. intros r ->. f_equal.
    replace (Z.to_nat (Z.of_nat i * Z.of_nat PIC_PER_PAGE_SIZE)) with (i * PIC_PER_PAGE_SIZE)%nat by lia.
    unfold page_bytes. by rewrite length_take, <- take_take, firstn_all.
  - intros r ->. apply sends_return. eexists. split; [reflexivity|].
    assert (map u8 (page_bytes bs i) = page_bytes bs i) as ->.
    { apply map_u8. unfold page_bytes. by apply Forall_take, Forall_drop. }
    assert (length (memcpy_at (pic_data s) 5 (page_bytes bs i)) = 517%nat) as L.
    { rewrite memcpy_at_length; lia. }
    split; [rewrite memcpy_at_length; simpl length; lia|].
    unfold memcpy_at at 1. rewrite take_0. cbn [length app].
    replace (Z.to_nat _) with (5 + length (page_bytes bs i))%nat by lia.
    unfold memcpy_at. cbn [Nat.add take]. rewrite Ho.
    rewrite drop_app_ge by (rewrite length_take; lia).
    rewrite length_take. replace (5 - 5 `min` length (pic_data s))%nat with 0%nat by lia.
    rewrite drop_0, take_app_length. reflexivity.
Qed.

(** The server's report is in the buffer. *)
Definition reported (frame : list Z) : Prop :=
  tbl frame 2 = 0x8F ∧ tbl frame 4 = 0 ∧ tbl frame 5 = 0.

(** Sending a frame changes no counter. *)
Definition same_counters (s s' : PIC) : Prop :=
  cur_page s' = cur_page s ∧ page_sum s' = page_sum s ∧ page_error s' = page_error s ∧
  resend_num s' = resend_num s ∧ send_last_cnt s' = send_last_cnt s ∧
  pic_has_response s' = pic_has_response s.

Definition after_send (s s' : PIC) : Prop :=
  good s' ∧ same_counters s s' ∧ send_result s' = 1 ∧
  (pic_has_response s = 1 → reported (pic_frame s')).

Lemma sends_frame s frame :
  good s → take (Z.to_nat (pic_length s + 4)) (pic_data s) = frame →
  sends (pic_transact s) (after_send s) [frame].
Proof.
  intros [Ho Hd Hf] <-. eapply sends_consequence; [apply sends_transact|]. intros s' ->.
  unfold answered. destruct (Z.eqb_spec (pic_has_response s) 1) as [E|E].
  - split; [split; [done|done|]|split; [done|split; [done|]]].
    + cbn [pic_frame with_send_result with_pic_recv_counts with_pic_frame].
      rewrite memcpy_at_length; rewrite ?Hf; [done|simpl; lia].
    + done.
  - split; [by split|split; [done|split; [done|]]]. intros H. by destruct E.
Qed.

Lemma sends_page i s :
  good s → pic_length s = Z.of_nat (length (page_bytes bs i)) + 1 →
  sends (s <- get_page_pic_data (Z.of_nat i) s ;; pic_transact s) (after_send s)
    [page_frame order bs i].
Proof.
  intros Hg Hl. eapply sends_then; [by apply sends_get_page|].
  intros s' (d & -> & Hd & Ht). destruct Hg. by apply (sends_frame (with_pic_data d s)).
Qed.

Lemma sends_recv s :
  reported (pic_frame s) →
  sends (pic_recv_frame s) (λ r, r = (1, with_pic_frame (swap_length (pic_frame s)) s)) [].
Proof.
  intros (H1 & H2 & H3). unfold pic_recv_frame.
  eapply (sends_then _ _ (λ r, r = 1)); [|intros r ->; by apply sends_return].
  unfold recv_gprs_frame, frame_cmd. rewrite H1. cbn [Z.eqb Pos.eqb].
  assert (tbl (frame_data (pic_frame s)) 1 = 0 ∧ tbl (frame_data (pic_frame s)) 0 = 0) as [-> ->].
  { unfold frame_data, tbl in *. rewrite !nth_skipn. done. }
  by apply sends_return.
Qed.

Lemma swap_length_length f : length (swap_length f) = length f.
Proof. by destruct f as [|? [|? f]]. Qed.

(** ** The pages of the file *)

Context (size_pos : (0 < length bs)%nat) (size_max : (length bs <= 255 * 512)%nat).

(** How many pages there are, and how they divide the file *)
Lemma pages_div : (length bs = 512 * (length bs / 512) + length bs mod 512)%nat ∧
  (length bs mod 512 < 512)%nat ∧
  pages bs = if (length bs mod 512 =? 0)%nat then (length bs / 512)%nat else S (length bs / 512).
Proof using.
  clear. pose proof (Nat.div_mod_eq (length bs) 512) as E.
  pose proof (Nat.mod_upper_bound (length bs) 512 ltac:(lia)) as H. split; [done|]. split; [done|].
  unfold pages. set (q := (length bs / 512)%nat) in *. set (r := (length bs mod 512)%nat) in *.
  destruct (Nat.eqb_spec r 0) as [Hr|Hr].
  - symmetry. apply (Nat.div_unique _ _ _ 511); lia.
  - symmetry. apply (Nat.div_unique _ _ _ (r - 1)); lia.
Qed.

Lemma pages_last i :
  (i < pages bs)%nat → length (page_bytes bs i) =
    if (S i =? pages bs)%nat then (length bs mod 512)%nat else 512%nat.
Proof using.
  clear. destruct pages_div as (E & Hr & Hp).
  unfold page_bytes, PIC_PER_PAGE_SIZE. intros Hi. rewrite length_take, length_drop.
  revert Hp. destruct (Nat.eqb_spec (length bs mod 512) 0); intros Hp;
    destruct (Nat.eqb_spec (S i) (pages bs)); lia.
Qed.

Lemma size_u32 : u32 (Z.of_nat (length bs)) = Z.of_nat (length bs).
Proof. apply wrap_small. unfold fits. lia. Qed.

Lemma size_mod :
  Z.of_nat (length bs) mod Z.of_nat PIC_PER_PAGE_SIZE = Z.of_nat (length bs mod 512).
Proof. unfold PIC_PER_PAGE_SIZE. by rewrite <- Nat2Z.inj_mod. Qed.

Lemma size_div :
  Z.of_nat (length bs) / Z.of_nat PIC_PER_PAGE_SIZE = Z.of_nat (length bs / 512).
Proof. unfold PIC_PER_PAGE_SIZE. by rewrite <- Nat2Z.inj_div. Qed.

Lemma pages_range : (0 < pages bs <= 255)%nat.
Proof.
  destruct pages_div as (E & Hr & ->). revert E Hr.
  generalize (length bs / 512)%nat (length bs mod 512)%nat. intros q r E Hr.
  destruct (Nat.eqb_spec r 0); lia.
Qed.

Lemma pages_cover : (length bs <= pages bs * 512)%nat.
Proof.
  destruct pages_div as (E & Hr & ->). revert E Hr.
  generalize (length bs / 512)%nat (length bs mod 512)%nat. intros q r E Hr.
  destruct (Nat.eqb_spec r 0); lia.
Qed.

Lemma last_page_is : last_page_pos (Z.of_nat (length bs)) = Z.of_nat (pages bs - 1).
Proof.
  pose proof pages_range. unfold last_page_pos. rewrite size_mod, size_div.
  destruct pages_div as (E & Hr & Hp). revert Hp.
  destruct (Nat.eqb_spec (length bs mod 512) 0) as [H0|H0]; intros Hp.
  - rewrite H0. change (negb (Z.of_nat 0 =? 0)) with false. cbv iota. rewrite wrap_small by (unfold fits; change (2 ^ 8) with 256; lia). lia.
  - rewrite (proj2 (Z.eqb_neq _ _)) by lia. cbn [negb]. rewrite wrap_small by (unfold fits; change (2 ^ 8) with 256; lia). lia.
Qed.

Lemma page_count_is : page_count (Z.of_nat (length bs)) = Z.of_nat (pages bs).
Proof.
  pose proof pages_range. unfold page_count. rewrite size_mod, size_div.
  destruct pages_div as (E & Hr & Hp). revert Hp.
  destruct (Nat.eqb_spec (length bs mod 512) 0) as [H0|H0]; intros Hp.
  - rewrite H0. change (negb (Z.of_nat 0 =? 0)) with false. cbv iota. rewrite wrap_small by (unfold fits; change (2 ^ 8) with 256; lia). lia.
  - rewrite (proj2 (Z.eqb_neq _ _)) by lia. cbn [negb].
    rewrite (wrap_small 8 (Z.of_nat (length bs / 512))) by (unfold fits; change (2 ^ 8) with 256; lia).
    rewrite wrap_small by (unfold fits; change (2 ^ 8) with 256; lia). lia.
Qed.

(** What send_page_pic_data makes of the last page *)
Lemma sends_last_page s :
  good s → sends (send_last_page_data s)
    (λ r, fst r = 0 ∧ good (snd r) ∧ same_counters s (snd r) ∧ reported (pic_frame (snd r)) ∧
      send_result (snd r) = 1)
    [page_frame order bs (pages bs - 1)].
Proof.
  intros Hg. unfold send_last_page_data.
  eapply sends_then; [apply sends_pic_size|]. intros n ->. rewrite size_u32, last_page_is.
  eapply (sends_last _ _ (λ r, fst r = 0 ∧ good (snd r) ∧
    same_counters (with_pic_has_response 1 s) (snd r) ∧ reported (pic_frame (snd r)) ∧
    send_result (snd r) = 1)).
  - unfold send_page_pic_data. eapply sends_then; [apply sends_pic_size|]. intros n ->.
    rewrite size_u32.
    assert (((Z.of_nat (pages bs - 1) + 1) * Z.of_nat PIC_PER_PAGE_SIZE <? Z.of_nat (length bs)) = false) as ->.
    { apply Z.ltb_ge. pose proof pages_cover. unfold PIC_PER_PAGE_SIZE. lia. }
    rewrite size_mod. set (s1 := with_pic_has_response 1 _).
    assert (good s1) as Hg1 by (destruct Hg; by split).
    assert (pic_length s1 = Z.of_nat (length (page_bytes bs (pages bs - 1))) + 1) as Hl.
    { pose proof pages_range. rewrite pages_last by lia.
      by rewrite (proj2 (Nat.eqb_eq _ _)) by lia. }
    pose proof (sends_page _ _ Hg1 Hl) as Hs. rewrite <- (app_nil_r [_]).
    intros w Hw. destruct (Hs w Hw) as (s2 & w2 & E & Hw2 & (G & C & R & P) & S).
    apply mseq_Done in E as (s3 & w3 & E1 & E2). exists (0, s2), w2.
    split; [unfold mseq; rewrite E1, E2; by rewrite R|]. rewrite app_nil_r.
    split; [done|]. split; [|done]. split_and!; try done. by apply P.
  - intros [r s'] (Hr & G & C & P & R). simpl in Hr, G, C, P, R. apply sends_return.
    destruct C as (?&?&?&?&?&?), G. split_and!; try done.
Qed.

(** Before page [i]: the buffers are in order, no failure so far *)
Record before (i : nat) (s : PIC) : Prop := {
  before_good : good s;
  before_page : cur_page s = Z.of_nat i;
  before_sum : page_sum s = Z.of_nat (pages bs - i);
  before_error : page_error s = 0;
  before_resend : resend_num s = 0;
  before_last : send_last_cnt s = 0;
  before_result : send_result s = 1
}.

Lemma sends_next (m : M PIC_NEXT) k (P : PIC → Prop) R l1 l2 :
  sends m (λ r, ∃ s, r = Next s ∧ P s) l1 → (∀ s, P s → sends (k s) R l2) →
  sends (next m k) R (l1 ++ l2).
Proof. intros Hm Hk. eapply sends_seq; [exact Hm|]. intros r (s & -> & Hs). auto. Qed.

(** The check after a tenth page succeeds at once. *)
Lemma sends_check n s :
  good s →
  sends (check_server_send (S n) s)
    (λ r, ∃ s', r = Next s' ∧ good s' ∧ same_counters (with_send_last_cnt 0 s) s' ∧
      send_result s' = 1 ∧ reported (pic_frame s'))
    [page_frame order bs (pages bs - 1)].
Proof.
  intros Hg. cbn [check_server_send].
  eapply sends_last; [by apply sends_last_page|].
  intros [r s'] (Hr & G & C & P & R). simpl in Hr, G, C, P, R. subst r. cbn [Z.eqb].
  eapply sends_then; [by apply sends_recv|]. intros r ->. apply sends_return.
  eexists. split; [reflexivity|]. destruct G, C as (?&?&?&?&?&?).
  split; [|split; [|split; [done|]]].
  - split; [done|done|]. cbn [pic_frame with_pic_frame with_send_last_cnt].
    by rewrite swap_length_length.
  - by split_and!.
  - destruct P as (?&?&?). cbn [pic_frame with_pic_frame with_send_last_cnt].
    destruct (pic_frame s') as [|? [|? f]]; by split_and!.
Qed.

Lemma pages_u8 i : (i < pages bs)%nat → u8 (Z.of_nat i + 1) = Z.of_nat (S i).
Proof.
  intros Hi. pose proof (proj2 pages_range). rewrite wrap_small; [lia|].
  unfold fits. change (2 ^ 8) with 256. lia.
Qed.

Lemma sends_round fuel i s :
  (i < pages bs)%nat → before i s →
  sends (page_round fuel (Z.of_nat (length bs)) (with_page_sum (page_sum s - 1) s))
    (λ r, ∃ s', r = Next s' ∧ before (S i) s')
    (page_frames order bs (pages bs) i).
Proof.
  intros Hi [G Hc Hs He Hr Hlc Hres]. unfold page_round.
  cbn [page_sum with_page_sum]. rewrite Hs.
  set (s1 := if 0 <? _ then _ else _).
  assert (good s1) as G1 by (unfold s1; destruct G; case_match; by split).
  assert (cur_page s1 = Z.of_nat i) as C1 by (unfold s1; case_match; done).
  assert (page_sum s1 = Z.of_nat (pages bs - S i)) as S1.
  { unfold s1. case_match; cbn [page_sum with_page_sum with_pic_has_response with_pic_length]; lia. }
  assert (page_error s1 = 0 ∧ resend_num s1 = 0 ∧ send_last_cnt s1 = 0) as (E1 & R1 & L1)
    by (unfold s1; case_match; done).
  assert (pic_length s1 = Z.of_nat (length (page_bytes bs i)) + 1) as Len1.
  { unfold s1. rewrite pages_last by done. rewrite size_mod.
    destruct (Z.ltb_spec 0 (Z.of_nat (pages bs - i) - 1)), (Nat.eqb_spec (S i) (pages bs));
      first [lia|reflexivity]. }
  clearbody s1. clear Hs Hc He Hr Hlc Hres G s. rewrite C1.
  eapply sends_then; [by apply sends_get_page|]. intros s2 (d & -> & Hd & Ht).
  eapply (sends_then _ _ is_Some).
  { intros w [[n Hq] Ho]. exists (mq_gsm w), w. rewrite app_nil_r.
    split; [done|]. split; [split; [by exists n|done]|]. by rewrite Hq. }
  intros o [q ->]. cbn [cur_page with_pic_data]. rewrite C1, pages_u8 by done.
  unfold page_frames. change (page_frame order bs i :: ?l) with ([page_frame order bs i] ++ l).
  eapply sends_seq; [destruct G1; by apply (sends_frame (with_cur_page _ (with_pic_data d s1)))|].
  intros s3 (G3 & (C3 & S3 & E3 & R3 & L3 & P3) & Res3 & Rep3).
  rewrite Res3. cbn [Z.eqb Pos.eqb].
  cbn [cur_page page_sum page_error resend_num send_last_cnt pic_has_response with_cur_page
    with_pic_data] in *.
  rewrite S1 in S3. rewrite E1 in E3. rewrite R1 in R3. rewrite L1 in L3.
  apply (sends_next _ _ (λ s, s = s3) _ []); [apply sends_return; by exists s3|]. intros s ->.
  eapply sends_then; [apply sends_delay|intros _ _].
  match goal with |- sends _ _ ?l => rewrite <- (app_nil_r l) end.
  eapply (sends_next _ _ (λ s', good s' ∧ same_counters s3 s' ∧ send_result s' = 1 ∧
    (pic_has_response s3 = 1 → reported (pic_frame s')))).
  { rewrite C3. replace (Z.of_nat (S i)) with (Z.of_nat i + 1) by lia. case_match.
    - eapply sends_consequence; [by apply sends_check|].
      intros r (s' & -> & G & C & R & P). exists s'. split; [done|]. split; [done|].
      destruct C as (?&?&?&?&L&?). cbn in L. split; [|by split]. unfold same_counters. split_and!; try done. congruence.
    - apply sends_return. exists s3. do 2 (split; [done|]).
      split; [unfold same_counters; by split_and!|]. split; [done|]. intros H3. apply Rep3. congruence. }
  clear G3 Res3 Rep3 Ht Hd.
  intros s4 (G4 & (C4 & S4 & E4 & R4 & L4 & P4) & Res4 & Rep4).
  apply (sends_next _ _ (λ s5, good s5 ∧ same_counters s4 s5 ∧ send_result s5 = 1) _ [] []).
  { destruct (Z.eqb_spec (pic_has_response s4) 1) as [H4|H4].
    - rewrite P4 in H4. destruct fuel; cbn [rsend_lost_page];
        (eapply sends_then; [by apply sends_recv, Rep4|]); intros r ->; cbn [Z.eqb Pos.eqb];
        apply sends_return; (eexists; split; [reflexivity|]); destruct G4;
        (split; [|by split_and!]); (split; [done|done|]);
        cbn [pic_frame with_send_result with_pic_frame]; by rewrite swap_length_length.
    - apply sends_return. exists s4. split; [done|]. by split_and!. }
  intros s5 (G5 & (C5 & S5 & E5 & R5 & L5 & _) & Res5). apply sends_return.
  eexists. split; [reflexivity|]. destruct G5 as [O5 D5 F5]. split;
    try (transitivity (page_sum s5); [reflexivity|congruence]); try (cbn; congruence).
  split; [done|reflexivity|]. cbn [pic_frame with_pic_frame with_pic_data].
  rewrite length_app, length_take, F5. reflexivity.
Qed.

Lemma sends_page_loop fuel : ∀ k i rounds s,
  (i + k = pages bs)%nat → (k < rounds)%nat → before i s →
  sends (page_loop fuel rounds (Z.of_nat (length bs)) s) (λ r, r = 1)
    (mjoin (map (page_frames order bs (pages bs)) (seq i k))).
Proof.
  induction k as [|k IH]; intros i [|rounds] s Hi Hr Hb; try lia; cbn [page_loop].
  - pose proof (before_sum _ _ Hb) as Hs. replace (pages bs - i)%nat with 0%nat in Hs by lia.
    rewrite Hs. cbn [Z.eqb Z.of_nat]. unfold exit_picture_send.
    eapply sends_then; [apply sends_delay|intros _ _]. apply sends_return. apply Hb.
  - pose proof (before_sum _ _ Hb) as Hs. destruct (Z.eqb_spec (page_sum s) 0); [lia|].
    cbn [seq map mjoin list_join]. eapply sends_seq; [apply sends_round; [lia|done]|].
    intros r (s' & -> & Hb'). apply IH; [lia|lia|done].
Qed.

Lemma sends_picture fuel :
  (pages bs < fuel)%nat →
  sends (send_picture_data fuel) (λ r, r = 1)
    (mjoin (map (page_frames order bs (pages bs)) (seq 0 (pages bs)))).
Proof.
  intros Hf. unfold send_picture_data.
  eapply sends_then; [apply sends_pic_size|]. intros n ->. rewrite size_u32.
  destruct (Z.eqb_spec (Z.of_nat (length bs)) 0) as [E|E].
  { exfalso. assert (length bs = 0)%nat as E' by lia. rewrite E' in size_pos. simpl in size_pos. lia. }
  eapply (sends_then _ _ (λ b, b = true)); [apply sends_open|]. intros b ->. cbn [negb].
  eapply sends_then; [apply sends_order|]. intros o ->.
  eapply sends_then; [apply sends_uninit|]. intros frame Hframe.
  eapply sends_then; [apply sends_uninit|]. intros counts _.
  eapply sends_then; [apply sends_delay|intros _ _].
  apply sends_page_loop; [lia|done|].
  split; try done. cbn [page_sum]. rewrite page_count_is. f_equal. lia.
Qed.

(** The file, but for the last page of a size divisible by 512 *)
Definition sent_bytes : list Z :=
  if (length bs mod 512 =? 0)%nat then take (length bs - 512) bs else bs.

Lemma pages_join : mjoin (map (page_bytes bs) (seq 0 (pages bs))) = sent_bytes.
Proof.
  assert (∀ k i, (i + k < pages bs)%nat →
    mjoin (map (page_bytes bs) (seq i k)) = take (k * 512) (drop (i * 512) bs)) as H.
  { induction k as [|k IH]; intros i Hi; [done|]. cbn [seq map mjoin list_join].
    rewrite IH by lia. unfold page_bytes, PIC_PER_PAGE_SIZE.
    rewrite (proj2 (Nat.eqb_neq _ _)) by lia.
    replace (S i * 512)%nat with (i * 512 + 512)%nat by lia.
    rewrite <- drop_drop. by rewrite take_take_drop. }
  pose proof pages_range as Hr. replace (pages bs) with (S (pages bs - 1)) at 1 by lia.
  rewrite seq_S, map_app, join_app, H, drop_0 by lia. cbn [map mjoin list_join]. rewrite app_nil_r.
  unfold page_bytes. rewrite (proj2 (Nat.eqb_eq _ _)) by lia.
  unfold PIC_PER_PAGE_SIZE, sent_bytes. destruct pages_div as (E & Hm & ->).
  destruct (Nat.eqb_spec (length bs mod 512) 0) as [H0|H0].
  - rewrite H0, take_0, app_nil_r. f_equal. lia.
  - rewrite (take_ge (drop _ _)) by (rewrite length_drop; lia). apply take_drop.
Qed.
End upload.

(** C15 (functional). With a modem that takes every frame and a server that
    misses nothing, the upload of any picture from 1 to 255 * 512 bytes ends as
    a success.  The frames sent are its pages in order, each numbered and with
    its length, every tenth followed by the last page again.  Joined, the pages
    are the file if its size is not divisible by 512; if it is, the last page
    goes out without its data, and the pages are the file without its last 512
    bytes. *)
Theorem picture_uploaded `{HB : Board, HG : GsmService, HM : !WillingModem report_ok} bs
  `{HF : !PictureFile} fuel w n :
  Forall byte bs → files w PIC_NAME = Some bs →
  (0 < length bs)%nat → (length bs <= 255 * 512)%nat → (pages bs < fuel)%nat →
  mq_gsm w = Some (mkQueue [] (S n)) →
  (∃ w', send_picture_data fuel w = Done 1 w' ∧
    sent_frames (trace w') = sent_frames (trace w) ++
      mjoin (map (page_frames (gprs_order w) bs (pages bs)) (seq 0 (pages bs)))) ∧
  mjoin (map (page_bytes bs) (seq 0 (pages bs))) =
    if (length bs mod 512 =? 0)%nat then take (length bs - 512) bs else bs.
Proof.
  intros Hb Hf H1 H2 H3 H4. split; [|by apply pages_join].
  destruct (sends_picture bs Hb (gprs_order w) H1 H2 fuel H3 w) as (r & w' & E & _ & -> & S).
  - split; [by exists n|done].
  - by exists w'.
Qed.

#[export] Instance bench_picture_file pins rx :
  PictureFile (HB:=bench_board pins rx).
Proof. done. Qed.

Definition picture_world (bs : list Z) : World :=
  set_files (<[PIC_NAME := Some bs]> (files start_world)) start_world.

Lemma report_ok_wf : answer_wf (GA_gprs report_ok).
Proof. split; [simpl; unfold RECV_FRAME_SIZE; lia|by_computation]. Qed.

(** Two pages, the second of them empty on the wire *)
Definition even_picture : list Z := repeat 7 1024.

(** A picture with a rest, and one without *)
Lemma picture_uploaded_witness :
  Forall (λ bs,
    (∃ w', send_picture_data (HB:=quiet_board)
        (HG:=bench_service (HB:=quiet_board) report_ok report_ok_wf) 10 (picture_world bs) = Done 1 w' ∧
      sent_frames (trace w') =
        mjoin (map (page_frames 0 bs (pages bs)) (seq 0 (pages bs)))) ∧
    mjoin (map (page_bytes bs) (seq 0 (pages bs))) =
      if (length bs mod 512 =? 0)%nat then take (length bs - 512) bs else bs)
  [bench_picture; even_picture].
Proof.
  apply Forall_cons; split; [|apply Forall_singleton];
    match goal with |- context [picture_world ?bs] =>
      apply (picture_uploaded (HB:=quiet_board)
        (HG:=bench_service (HB:=quiet_board) report_ok report_ok_wf)
        (HM:=bench_willing (HB:=quiet_board) report_ok report_ok_wf)
        (HF:=bench_picture_file (λ _ _, 1) (λ _ _, [])) bs 10 (picture_world bs) 19)
    end; first [reflexivity | by_computation | apply Nat.leb_le; by_computation].
Defined.

(** ** The invariant of the state across an upload *)

Section keeps_picture.
Context {HB : Board} {HG : GsmService} (Hm : motors_present).

Definition pic_ok (s : PIC) : Prop := frame_wf (pic_frame s).
Definition next_ok (r : PIC_NEXT) : Prop := match r with Next s => pic_ok s | _ => True end.

Lemma keeps_pic_size : keeps wf get_pic_size (λ _, True).
Proof.
  apply keeps_then; [|intros; by apply keeps_return]. apply runs_keeps, file_stat_runs.
Qed.

Lemma keeps_get_page i s : pic_ok s → keeps wf (get_page_pic_data i s) pic_ok.
Proof.
  intros Hs. apply keeps_then; [apply runs_keeps, file_call_runs|intros ok].
  apply keeps_if; intros _; [by apply keeps_return|].
  apply keeps_then; [eapply runs_keeps, safe_weaken, file_read_runs|intros r]. by apply keeps_return.
Qed.

Lemma keeps_transact s : pic_ok s → keeps wf (pic_transact s) pic_ok.
Proof.
  intros Hs. unfold pic_transact. eapply keeps_seq; [apply gsm_transact_keeps|].
  intros [[res [|response|]]|] Hr; [by apply keeps_return| |by apply keeps_return|apply keeps_nofuel].
  apply keeps_return. destruct Hr as [Hl Hb], Hs as [L B]. unfold pic_ok.
  cbn [pic_frame with_send_result with_pic_recv_counts with_pic_frame]. split.
  - rewrite memcpy_at_length; [done|]. rewrite L. simpl in Hl. lia.
  - by apply memcpy_at_forall.
Qed.

Lemma keeps_send_page i s :
  pic_ok s → keeps wf (send_page_pic_data i s) (λ r, pic_ok (snd r)).
Proof.
  intros Hs. unfold send_page_pic_data. apply keeps_then; [apply keeps_pic_size|intros n].
  eapply keeps_seq; [apply keeps_get_page; by case_match|intros s1 H1].
  eapply keeps_seq; [by apply keeps_transact|intros s2 H2]. by apply keeps_return.
Qed.

Lemma keeps_last_page s : pic_ok s → keeps wf (send_last_page_data s) (λ r, pic_ok (snd r)).
Proof.
  intros Hs. unfold send_last_page_data. apply keeps_then; [apply keeps_pic_size|intros n].
  eapply keeps_seq; [by apply keeps_send_page|intros [r s'] H']. by apply keeps_return.
Qed.

Lemma keeps_pic_recv s : pic_ok s → keeps wf (pic_recv_frame s) (λ r, pic_ok (snd r)).
Proof.
  intros Hs. unfold pic_recv_frame.
  apply keeps_then; [by apply recv_gprs_frame_keeps|intros r]. apply keeps_return.
  destruct Hs as [L B]. unfold pic_ok. cbn [snd pic_frame with_pic_frame].
  destruct (pic_frame s) as [|a [|b f]]; [done|done|]. split; [done|].
  apply Forall_cons in B as [Ha B]. apply Forall_cons in B as [Hb B].
  cbn [swap_length]. by rewrite !Forall_cons.
Qed.

Lemma keeps_check n : ∀ s, pic_ok s → keeps wf (check_server_send n s) next_ok.
Proof.
  induction n as [|n IH]; intros s Hs; cbn [check_server_send]; [apply keeps_nofuel|].
  eapply keeps_seq; [by apply keeps_last_page|intros [r s'] H'].
  apply keeps_if; intros _.
  - apply keeps_if; intros _; [|by apply keeps_return].
    apply keeps_then; [apply runs_keeps, runs_emit|intros _]. by apply IH.
  - eapply keeps_seq; [by apply keeps_pic_recv|intros [r2 s2] H2]. by apply keeps_return.
Qed.

Lemma keeps_resend fuel : ∀ i s, pic_ok s → keeps wf (resend_pages fuel i s) pic_ok.
Proof.
  induction fuel as [|fuel IH]; intros i s Hs; cbn [resend_pages]; [apply keeps_nofuel|].
  apply keeps_if; intros _; [by apply keeps_return|].
  eapply (keeps_seq _ _ (λ _, True)); [by apply keeps_deref|intros page _].
  eapply keeps_seq; [by apply keeps_send_page|intros [r s1] H1].
  eapply (keeps_seq _ _ (λ r, pic_ok (snd r))).
  - apply keeps_if; intros _; [|by apply keeps_return].
    eapply keeps_seq; [by apply keeps_last_page|intros [r2 s2] H2]. apply keeps_if; intros _.
    + apply keeps_then; [apply runs_keeps, runs_emit|intros _]. by apply keeps_return.
    + eapply keeps_seq; [by apply keeps_pic_recv|intros [r3 s3] H3]. by apply keeps_return.
  - intros [j s2] H2. apply keeps_then; [apply runs_keeps, runs_emit|intros _]. by apply IH.
Qed.

Lemma keeps_last_loop n : ∀ s, pic_ok s → keeps wf (last_page_loop n s) (λ r, pic_ok (snd r)).
Proof.
  induction n as [|n IH]; intros s Hs; cbn [last_page_loop]; [by apply keeps_return|].
  eapply keeps_seq; [by apply keeps_last_page|intros [r s'] H'].
  apply keeps_if; intros _; [by apply IH|by apply keeps_return].
Qed.

Lemma keeps_lost_page fuel n : ∀ s, pic_ok s → keeps wf (rsend_lost_page fuel n s) next_ok.
Proof.
  induction n as [|n IH]; intros s Hs; cbn [rsend_lost_page];
    (eapply keeps_seq; [by apply keeps_pic_recv|intros [r s1] H1]);
    (apply keeps_if; intros _; [by apply keeps_return|]);
    (apply keeps_if; intros _;
     [eapply keeps_seq; [by apply keeps_resend|intros s2 H2];
      eapply keeps_seq; [by apply keeps_pic_recv|intros [r3 s3] H3];
      apply keeps_if; intros _; [by apply keeps_return|];
      eapply keeps_seq; [by apply keeps_last_loop|intros [r4 s4] H4];
      apply keeps_if; intros _; [|by apply keeps_return]|]).
  1: by apply keeps_return. 2: by apply IH.
  all: apply keeps_if; intros _; [by apply keeps_return|];
    apply keeps_if; intros _; [by apply keeps_return|];
    (eapply keeps_seq; [by apply keeps_last_page|intros [r5 s5] H5]);
    apply keeps_return; by case_match.
Qed.

Lemma keeps_next m k : keeps wf m next_ok → (∀ s, pic_ok s → keeps wf (k s) next_ok) →
  keeps wf (next m k) next_ok.
Proof.
  intros Hn Hk. eapply keeps_seq; [exact Hn|]. intros [s|r|r] Hs; [by apply Hk|by apply keeps_return..].
Qed.

Lemma keeps_round fuel n s : pic_ok s → keeps wf (page_round fuel n s) next_ok.
Proof.
  intros Hs. unfold page_round.
  eapply keeps_seq; [apply keeps_get_page; by case_match|intros s1 H1].
  eapply (keeps_seq _ _ (λ _, True)); [by apply runs_keeps, runs_get|intros [q|] _];
    [|by apply keeps_return].
  eapply keeps_seq; [by apply keeps_transact|intros s2 H2].
  apply keeps_next.
  { apply keeps_if; intros _; [by apply keeps_return|]. apply keeps_if; intros _; by apply keeps_return. }
  intros s3 H3. apply keeps_then; [apply runs_keeps, runs_emit|intros _].
  apply keeps_next.
  { apply keeps_if; intros _; [by apply keeps_check|by apply keeps_return]. }
  intros s4 H4. apply keeps_next.
  { apply keeps_if; intros _; [by apply keeps_lost_page|by apply keeps_return]. }
  intros s5 [L B]. apply keeps_return. split.
  - cbn [pic_frame with_pic_frame with_pic_data]. rewrite length_app, length_take, L. done.
  - apply Forall_app. split; [by apply Forall_take|]. apply forall_repeat. by_computation.
Qed.

Lemma keeps_page_loop fuel rounds n : ∀ s,
  pic_ok s → keeps wf (page_loop fuel rounds n s) (λ _, True).
Proof.
  induction rounds as [|rounds IH]; intros s Hs; cbn [page_loop]; [apply keeps_nofuel|].
  assert (∀ r, keeps wf (exit_picture_send r) (λ _, True)) as Hx.
  { intros r. apply keeps_then; [apply runs_keeps, runs_emit|]. intros. by apply keeps_return. }
  apply keeps_if; intros _; [apply Hx|].
  eapply keeps_seq; [by apply keeps_round|]. intros [s'|r|r] H'; [by apply IH|apply Hx|by apply keeps_return].
Qed.

Lemma keeps_uninit n : keeps wf (uninit_bytes n) (λ l, length l = n ∧ Forall byte l).
Proof.
  induction n as [|n IH]; cbn [uninit_bytes]; [by apply keeps_return|].
  eapply keeps_seq; [apply runs_keeps, (runs_observe _ byte); intros; by apply wrap_fits|].
  intros x Hx. eapply keeps_seq; [exact IH|]. intros l [Hl Hb]. apply keeps_return.
  split; [simpl; by rewrite Hl|by constructor].
Qed.

Lemma send_picture_data_keeps fuel : keeps wf (send_picture_data fuel) (λ _, True).
Proof.
  unfold send_picture_data. apply keeps_then; [apply keeps_pic_size|intros n].
  apply keeps_if; intros _; [by apply keeps_return|].
  apply keeps_then; [apply runs_keeps, file_open_runs|intros ok].
  apply keeps_if; intros _; [by apply keeps_return|].
  apply keeps_then; [by apply runs_keeps, runs_get|intros order].
  eapply keeps_seq; [apply keeps_uninit|intros frame Hframe].
  eapply keeps_seq; [apply keeps_uninit|intros counts _].
  apply keeps_then; [apply runs_keeps, runs_emit|intros _]. by apply keeps_page_loop.
Qed.
End keeps_picture.
