(* ===== verification/GprsSend.v ===== *)
(** * Frames to the server (send_gprs_frame and the GPRS thread of src/gprs.c)

    The data of every alarm, its serialisation, the exchange with the GSM
    thread, and the thread that sends the frames. *)
From stdpp Require Import base strings list.
From Stdlib Require Import ZArith Lia.
From S2P Require Import Prelude World Monad Untils Alarm Lock Battery Des GsmService GsmPower.
From S2P Require Import GprsRecv GprsAuth GprsPic.

(** ** The alarm maps *)

Definition WORK_ALARM_CAMERA_IRDASENSOR : Z := Z.shiftl 1 0.
Definition WORK_ALARM_LOCK_SHELL : Z := Z.shiftl 1 1.
Definition WORK_ALARM_RFID_KEY_ERROR : Z := Z.shiftl 1 2.
Definition WORK_ALARM_LOCK_TEMPERATURE : Z := Z.shiftl 1 3.
Definition WORK_ALARM_RFID_KEY_PLUGIN : Z := Z.shiftl 1 5.
Definition WORK_ALARM_LOCK_GATE : Z := Z.shiftl 1 6.
Definition FAULT_ALARM_CAMERA_FAULT : Z := Z.shiftl 1 0.
Definition FAULT_ALARM_RFID_FAULT : Z := Z.shiftl 1 1.
Definition FAULT_ALARM_POWER_FAULT : Z := Z.shiftl 1 2.
Definition FAULT_ALARM_MOTOR_FAULT : Z := Z.shiftl 1 6.

(** [map[alarm] = bits] *)
Definition map_store (a : ALARM_TYPEDEF) (bits : Z) (l : list Z) : list Z :=
  <[alarm_code a := bits]> l.

Definition work_alarm_type_map_init : M () :=
  upd (λ w, set_work_alarm_type_map
    (map_store ALARM_TYPE_LOCK_GATE WORK_ALARM_LOCK_GATE
    (map_store ALARM_TYPE_RFID_KEY_PLUGIN WORK_ALARM_RFID_KEY_PLUGIN
    (map_store ALARM_TYPE_LOCK_TEMPERATURE WORK_ALARM_LOCK_TEMPERATURE
    (map_store ALARM_TYPE_RFID_KEY_ERROR WORK_ALARM_RFID_KEY_ERROR
    (map_store ALARM_TYPE_CAMERA_IRDASENSOR WORK_ALARM_CAMERA_IRDASENSOR
    (map_store ALARM_TYPE_LOCK_SHELL WORK_ALARM_LOCK_SHELL (work_alarm_type_map w))))))) w).

Definition fault_alarm_type_map_init : M () :=
  upd (λ w, set_fault_alarm_type_map
    (map_store ALARM_TYPE_MOTOR_FAULT FAULT_ALARM_MOTOR_FAULT
    (map_store ALARM_TYPE_POWER_FAULT FAULT_ALARM_POWER_FAULT
    (map_store ALARM_TYPE_RFID_FAULT FAULT_ALARM_RFID_FAULT
    (map_store ALARM_TYPE_CAMERA_FAULT FAULT_ALARM_CAMERA_FAULT
      (fault_alarm_type_map w))))) w).

(** ** The data of a frame: the union GPRS_SEND_DATA by the member in use *)

Inductive GPRS_SEND_DATA :=
| SD_none
| SD_auth (device_id enc_data : list Z)
| SD_battery (status dump_energy : Z) (time : list Z)
| SD_lock_open (key time : list Z)
| SD_heart (type : Z)
| SD_work_alarm (type status : Z) (time : list Z)
| SD_fault_alarm (type : Z) (time : list Z)
| SD_picture (type form DPI size0 size1 page : Z) (time : list Z)
| SD_list_telephone (result counts : Z) (telephone : list Z)
| SD_list_rfid_key (result counts : Z) (key : list Z)
| SD_list_user_parameters (result parameters : Z)
| SD_result (result : Z).

Record GPRS_SEND_FRAME := mkFrame {
  sf_length : Z; sf_cmd : Z; sf_order : Z; sf_data : GPRS_SEND_DATA }.

(** A message to the GSM thread: the frame and whether an answer is expected *)
Record REQUEST := mkRequest { rq_frame : GPRS_SEND_FRAME; rq_has_response : Z }.

Section build.
Context {HB : Board} {HG : GsmService}.

(** The six BCD bytes of a time, as in every ..._process function *)
Definition bcd_time (time : Z) : list Z :=
  let t := localtime time in
  map (λ x, dec_to_bcd (u8 (Z.rem x 100)))
    [tm_year t + 1900; tm_mon t + 1; tm_mday t; tm_hour t; tm_min t; tm_sec t].

(** [strncpy (lock_open->key, key, 4)] with the key of the accepted tag; no
    caller passes another pointer with this alarm. *)
Definition lock_open_process (time : Z) (user : USER) : M GPRS_SEND_DATA :=
  key <- get gprs_mail_user ;;
  match user with
  | U_gprs_mail_user => mreturn (SD_lock_open (strncpy 4 key) (bcd_time time))
  | _ => fault
  end.

Definition work_alarm_process (alarm_type : ALARM_TYPEDEF) (time : Z) : M GPRS_SEND_DATA :=
  m <- get work_alarm_type_map ;;
  type <- deref (m !! alarm_code alarm_type) ;;
  dat <- motor_status ;;
  mreturn (SD_work_alarm (u16 type) dat (bcd_time time)).

Definition fault_alarm_process (alarm_type : ALARM_TYPEDEF) (time : Z) : M GPRS_SEND_DATA :=
  m <- get fault_alarm_type_map ;;
  type <- deref (m !! alarm_code alarm_type) ;;
  mreturn (SD_fault_alarm (u16 type) (bcd_time time)).

(** The local variable is not initialised. *)
Definition battery_alarm_process (time : Z) : M GPRS_SEND_DATA :=
  g1 <- observe (λ t, u8 (uninit t)) ;;
  g2 <- observe (λ t, u8 (uninit t)) ;;
  battery_dat <- battery_get_data (mkBattery g1 0 g2) ;;
  mreturn (SD_battery (bd_status battery_dat) (bd_work_time battery_dat) (bcd_time time)).

(** [*(ALARM_TYPEDEF * )user] *)
Definition user_alarm (user : USER) : M Z :=
  match user with
  | U_none => fault
  | U_mms_alarm_type => a <- get mms_alarm_type ;; mreturn (Z.of_nat (alarm_code a))
  | U_gprs_mail_user =>
      k <- get gprs_mail_user ;;
      mreturn (tbl k 0 + 256 * tbl k 1 + 65536 * tbl k 2 + 16777216 * tbl k 3)
  end.

Definition pic_type (alarm : Z) : Z :=
  if alarm =? Z.of_nat (alarm_code ALARM_TYPE_CAMERA_IRDASENSOR) then 1
  else if alarm =? Z.of_nat (alarm_code ALARM_TYPE_RFID_KEY_ERROR) then 3
  else if alarm =? Z.of_nat (alarm_code ALARM_TYPE_LOCK_TEMPERATURE) then 4
  else 1.

(** [None]: no picture *)
Definition process_gprs_pic_arg (time : Z) (user : USER) : M (option GPRS_SEND_DATA) :=
  temp <- user_alarm user ;;
  size <- get_pic_size ;;
  if size =? 0 then mreturn None
  else
    let page := u8 (size / 512) in
    mreturn (Some (SD_picture (pic_type temp) 1 1
      (Z.shiftr (Z.land size 0x0000ff00) 8) (Z.land size 0x000000ff)
      (if negb (size mod 512 =? 0) then u8 (page + 1) else page) (bcd_time time))).

(** [gprs_order++] *)
Definition next_order : M Z :=
  o <- get gprs_order ;; upd (set_gprs_order (u8 (o + 1))) ;;; mreturn o.

(** The rounds [send_picture_data] may make *)
Variable fuel : nat.

Definition request (length cmd order : Z) (data : GPRS_SEND_DATA) (has_response : Z)
  : REQUEST + Z :=
  inl (mkRequest (mkFrame length cmd order data) has_response).

Definition with_order (length cmd : Z) (data : M GPRS_SEND_DATA) (has_response : Z)
  : M (REQUEST + Z) :=
  o <- next_order ;; d <- data ;; mreturn (request length cmd o d has_response).

Definition result_frame (cmd order result : Z) : M (REQUEST + Z) :=
  mreturn (request 1 cmd order (SD_result result) 0).

(** The first switch of [send_gprs_frame]; [inr] is the result of a path that
    skips the sending. *)
Definition build_frame (alarm_type : ALARM_TYPEDEF) (time order : Z) (user : USER)
  : M (REQUEST + Z) :=
  match alarm_type with
  | ALARM_TYPE_GPRS_AUTH =>
      with_order 0x16 0x11
        (p <- get params ;; mreturn (SD_auth (auth_process p).1 (auth_process p).2)) 0
  | ALARM_TYPE_BATTERY_WORKING_20M => with_order 8 0x02 (battery_alarm_process time) 1
  | ALARM_TYPE_RFID_KEY_SUCCESS => with_order 10 0x01 (lock_open_process time user) 1
  | ALARM_TYPE_GPRS_HEART => with_order 1 0x00 (mreturn (SD_heart 0x02)) 1
  | ALARM_TYPE_CAMERA_IRDASENSOR | ALARM_TYPE_LOCK_SHELL | ALARM_TYPE_LOCK_GATE
  | ALARM_TYPE_LOCK_TEMPERATURE | ALARM_TYPE_RFID_KEY_ERROR | ALARM_TYPE_RFID_KEY_PLUGIN =>
      with_order 0x8 0x3 (work_alarm_process alarm_type time) 1
  | ALARM_TYPE_RFID_FAULT | ALARM_TYPE_CAMERA_FAULT | ALARM_TYPE_POWER_FAULT
  | ALARM_TYPE_MOTOR_FAULT =>
      with_order 0x8 0x4 (fault_alarm_process alarm_type time) 1
  | ALARM_TYPE_GPRS_UPLOAD_PIC =>
      o <- next_order ;;
      d <- process_gprs_pic_arg time user ;;
      mreturn (match d with Some d => request 12 0x0E o d 1 | None => inr (-1) end)
  | ALARM_TYPE_GPRS_LIST_TELEPHONE =>
      p <- get params ;;
      let '(result, counts, telephone, length) := process_gprs_list_telephone p in
      mreturn (request length 0x06 order (SD_list_telephone result counts telephone) 0)
  | ALARM_TYPE_GPRS_SET_TELEPHONE_SUCCESS => result_frame 0x07 order 1
  | ALARM_TYPE_GPRS_SET_TELEPHONE_FAILURE => result_frame 0x07 order 0
  | ALARM_TYPE_GPRS_LIST_RFID_KEY =>
      p <- get params ;;
      let '(result, counts, key, length) := process_gprs_list_rfid_key p in
      mreturn (request length 0x08 order (SD_list_rfid_key result counts key) 0)
  | ALARM_TYPE_GPRS_SET_RFID_KEY_SUCCESS => result_frame 0x09 order 1
  | ALARM_TYPE_GPRS_SET_RFID_KEY_FAILURE => result_frame 0x09 order 0
  | ALARM_TYPE_GPRS_LIST_USER_PARAMETERS =>
      p <- get params ;;
      let '(result, parameters, length) := process_gprs_list_user_parameters p in
      mreturn (request length 0x0A order (SD_list_user_parameters result parameters) 0)
  | ALARM_TYPE_GPRS_SET_USER_PARAMETERS_SUCCESS => result_frame 0x0B order 1
  | ALARM_TYPE_GPRS_SET_USER_PARAMETERS_FAILURE => result_frame 0x0B order 0
  | ALARM_TYPE_GPRS_SET_TIME_SUCCESS => result_frame 0x15 order 1
  | ALARM_TYPE_GPRS_SET_TIME_FAILURE => result_frame 0x15 order 0
  (* the one answer for which [has_response] keeps its first value *)
  | ALARM_TYPE_GPRS_SET_KEY0_SUCCESS => mreturn (request 1 0x18 order (SD_result 1) 1)
  | ALARM_TYPE_GPRS_SET_KEY0_FAILURE => result_frame 0x18 order 0
  | ALARM_TYPE_GPRS_SET_HTTP_SUCCESS => result_frame 0x19 order 1
  | ALARM_TYPE_GPRS_SET_HTTP_FAILURE => result_frame 0x19 order 0
  | ALARM_TYPE_GPRS_SEND_PIC_DATA =>
      send_result <- send_picture_data fuel ;; next_order ;;; mreturn (inr send_result)
  | ALARM_TYPE_GPRS_SLEEP => result_frame 0x0C order 1
  | ALARM_TYPE_GPRS_WAKE_UP => result_frame 0x0D order 1
  | _ => mreturn (request 0 0 0 SD_none 1)
  end.
End build.

(** ** Serialisation: the second switch *)

Definition be16 (x : Z) : list Z := [Z.land (Z.shiftr x 8) 0xff; Z.land x 0xff].

(** The bytes behind the header; the list of keys is copied with the stride of
    the list of telephones, but only the bytes counted here are sent. *)
Definition serialize_data (d : GPRS_SEND_DATA) : list Z :=
  match d with
  | SD_none => []
  | SD_auth device_id enc_data => device_id ++ enc_data
  | SD_battery status dump_energy time => [status; dump_energy] ++ time
  | SD_lock_open key time => key ++ time
  | SD_heart type => [type]
  | SD_work_alarm type status time => be16 type ++ [status] ++ time
  | SD_fault_alarm type time => be16 type ++ time
  | SD_picture type form DPI size0 size1 page time => [type; form; DPI; size0; size1; page] ++ time
  | SD_list_telephone result counts telephone =>
      [result; u8 counts] ++ take (Z.to_nat (11 * counts)) telephone
  | SD_list_rfid_key result counts key => [result; u8 counts] ++ take (Z.to_nat (4 * counts)) key
  | SD_list_user_parameters result parameters => [result; parameters]
  | SD_result result => [result]
  end.

Definition serialize (f : GPRS_SEND_FRAME) : list Z :=
  be16 (sf_length f) ++ [sf_cmd f; sf_order f] ++ serialize_data (sf_data f).

Section send.
Context {HB : Board} {HG : GsmService}.
(** The rounds [send_picture_data] may make *)
Variable fuel : nat.

(** What is made of the GSM thread's answer *)
Definition judge_response (f : GPRS_SEND_FRAME) (send_result : Z) (response : list Z) : M Z :=
  if send_result =? 1 then
    let gprs_recv_frame := pad RECV_FRAME_SIZE response in
    r <- recv_gprs_frame gprs_recv_frame (Z.of_nat (length response)) ;;
    mreturn (if (r =? 1) && (frame_cmd gprs_recv_frame =? Z.lor (sf_cmd f) 0x80) &&
                (frame_order gprs_recv_frame =? sf_order f) then 1 else -1)
  else mreturn (-1).

Definition send_gprs_frame (alarm_type : ALARM_TYPEDEF) (time order : Z) (user : USER) : M Z :=
  if negb (dev_present DEV_GSM_USART) then mreturn (-1)
  else
    b <- build_frame fuel alarm_type time order user ;;
    match b with
    | inr send_result => mreturn send_result
    | inl rq =>
        r <- gsm_transact (bool_decide (alarm_type = ALARM_TYPE_GPRS_AUTH))
               (GM_gprs (serialize (rq_frame rq)) (rq_has_response rq)) ;;
        send_result <-
          match r with
          | None => mreturn (-1)
          | Some (send_result, answer) =>
              let response := gprs_response answer in
              if rq_has_response rq =? 1
              then judge_response (rq_frame rq) send_result response
              else mreturn 1
          end ;;
        rt_thread_delay 50 ;;;
        mreturn send_result
    end.

(** One round of the GPRS thread; the number of failures in a row is its local
    variable [error_counts] (8 bits). *)
Definition gprs_mail_process_step (error_counts : Z) : M Z :=
  m <- rt_mq_recv gprs_mq set_gprs_mq ;;
  match m with
  | Some gprs_mail_buf =>
      r <- send_gprs_frame (gm_alarm_type gprs_mail_buf) (gm_time gprs_mail_buf)
             (gm_order gprs_mail_buf) (gm_user gprs_mail_buf) ;;
      if r =? 1 then mreturn 0
      else
        let error_counts := u8 (error_counts + 1) in
        if 10 <? error_counts then gsm_setup false ;;; mreturn 0
        else mreturn error_counts
  | None =>
      send_gprs_mail ALARM_TYPE_GPRS_HEART 0 0 U_none ;;; mreturn error_counts
  end.

Definition gprs_mail_process_init : M () :=
  create_k1 ;;; work_alarm_type_map_init ;;; fault_alarm_type_map_init.

(** [n] rounds of the thread's loop *)
Fixpoint gprs_mail_process_loop (n : nat) (error_counts : Z) : M Z :=
  match n with
  | O => mreturn error_counts
  | S n =>
      error_counts <- gprs_mail_process_step error_counts ;;
      gprs_mail_process_loop n error_counts
  end.

Definition gprs_mail_process_thread_entry (n : nat) : M Z :=
  gprs_mail_process_init ;;; gprs_mail_process_loop n 0.
End send.

(** ** The length of a frame *)

Definition work_alarms : list ALARM_TYPEDEF :=
  [ALARM_TYPE_CAMERA_IRDASENSOR; ALARM_TYPE_LOCK_SHELL; ALARM_TYPE_LOCK_GATE;
   ALARM_TYPE_LOCK_TEMPERATURE; ALARM_TYPE_RFID_KEY_ERROR; ALARM_TYPE_RFID_KEY_PLUGIN].

Definition frame_bytes (f : GPRS_SEND_FRAME) : Z := Z.of_nat (length (serialize f)).

Lemma strncpy_length n : ∀ l, length (strncpy n l) = n.
Proof.
  induction n as [|n IH]; intros [|x l]; simpl; [done|done|by rewrite IH|].
  case_match; simpl; by rewrite IH.
Qed.

Lemma listed_telephones_length p :
  params_wf p →
  Z.of_nat (length (listed_telephones (alarm_telephone p))) =
    11 * count_telephones (alarm_telephone p) ∧ 0 ≤ count_telephones (alarm_telephone p).
Proof.
  intros [[_ Hf] _]. unfold listed_telephones, count_telephones. split; [|lia].
  induction Hf as [|t l [(_ & [Ht _] & _) _] Hf IH]; [done|]. cbn [flat_map].
  rewrite length_app. destruct (Z.eqb_spec (tel_flag t) 0) as [E|E].
  - rewrite filter_cons_False by auto. simpl. lia.
  - assert (length (slice 2 11 (address t)) = 11%nat) as ->.
    { unfold slice. by rewrite length_take, length_drop, Ht. }
    rewrite filter_cons_True by auto. simpl length. lia.
Qed.

Lemma listed_keys_length p :
  params_wf p →
  Z.of_nat (length (listed_keys (rfid_key p))) = 4 * count_keys (rfid_key p) ∧
  0 ≤ count_keys (rfid_key p).
Proof.
  intros (_ & _ & [_ Hf] & _). unfold listed_keys, count_keys. split; [|lia].
  induction Hf as [|k l [_ [Hk _]] Hf IH]; [done|]. cbn [flat_map].
  rewrite length_app. destruct (Z.eqb_spec (key_flag k) 0) as [E|E].
  - rewrite filter_cons_False by auto. simpl. lia.
  - rewrite filter_cons_True by auto. simpl length. rewrite length_take, Hk. lia.
Qed.

Section lengths.
Context {HB : Board} {HG : GsmService} (Hm : motors_present).

(** Data of [n] bytes *)
Definition data_ok (n : Z) (d : GPRS_SEND_DATA) : Prop :=
  Z.of_nat (length (serialize_data d)) = n ∧ Forall byte (serialize_data d).

(** A request with a frame whose data have [extra] bytes more than declared *)
Definition declared (o extra : Z) (b : REQUEST + Z) : Prop :=
  match b with
  | inl rq =>
      frame_bytes (rq_frame rq) = 4 + sf_length (rq_frame rq) + extra ∧
      (byte o → Forall byte (serialize (rq_frame rq)))
  | inr _ => True
  end.

Lemma be16_bytes x : Forall byte (be16 x).
Proof. repeat (apply Forall_cons; split; [by apply fits_land_r|]). by apply Forall_nil. Qed.

Lemma bcd_time_length t : length (bcd_time t) = 6%nat.
Proof. done. Qed.

Lemma bcd_time_bytes t : Forall byte (bcd_time t).
Proof. apply Forall_fmap, Forall_forall. intros x _. by apply wrap_fits. Qed.

Lemma frame_bytes_data n c o d :
  frame_bytes (mkFrame n c o d) = 4 + Z.of_nat (length (serialize_data d)).
Proof. unfold frame_bytes, serialize, be16. cbn [app length sf_data]. lia. Qed.

(** A frame around such data *)
Lemma declared_frame n c o o' d h extra : byte c → (byte o' → byte o) → data_ok (n + extra) d →
  declared o' extra (inl (mkRequest (mkFrame n c o d) h)).
Proof.
  intros Hc Ho [Hl Hb]. cbn [declared rq_frame sf_length]. rewrite frame_bytes_data. split; [lia|].
  intros Ho'. unfold serialize. cbn [sf_length sf_cmd sf_order sf_data].
  apply Forall_app. split; [apply be16_bytes|]. apply Forall_cons. split; [done|].
  apply Forall_cons. auto.
Qed.

Lemma next_order_keeps : keeps wf next_order byte.
Proof.
  unfold next_order. eapply (keeps_seq _ _ byte).
  - intros w o w' Hw [= <- <-]. split; [done|]. apply Hw.
  - intros o Ho. apply keeps_then; [|intros; by apply keeps_return].
    apply runs_keeps, runs_upd. intros ? []. split; try done. by apply wrap_fits.
Qed.

Lemma keeps_with_order n c m h o' extra : byte c →
  keeps wf m (data_ok (n + extra)) → keeps wf (with_order n c m h) (declared o' extra).
Proof.
  intros Hc H. unfold with_order. eapply keeps_seq; [apply next_order_keeps|intros o Ho].
  eapply keeps_seq; [exact H|]. intros d Hd. apply keeps_return. by apply declared_frame.
Qed.

(** Fixed fields before a time *)
Lemma timed_ok l t n : Forall byte l → n = Z.of_nat (length l) + 6 →
  Z.of_nat (length (l ++ bcd_time t)) = n ∧ Forall byte (l ++ bcd_time t).
Proof.
  intros Hl ->. split; [rewrite length_app, bcd_time_length; lia|].
  apply Forall_app. split; [done|apply bcd_time_bytes].
Qed.

Lemma strncpy_bytes n : ∀ l, Forall byte l → bytes_len n (strncpy n l).
Proof.
  intros l Hl. split; [apply strncpy_length|]. revert l Hl.
  induction n as [|n IH]; intros l Hl; cbn [strncpy]; [by apply Forall_nil|].
  destruct l as [|x l]; [apply Forall_cons; split; [done|by apply IH, Forall_nil]|].
  apply Forall_cons in Hl as [Hx Hl].
  case_match; apply Forall_cons; (split; [done|]); [by apply IH, Forall_nil|auto].
Qed.

Lemma keeps_lock_open t u : keeps wf (lock_open_process t u) (data_ok (10 + 0)).
Proof.
  unfold lock_open_process. eapply (keeps_seq _ _ (Forall byte)).
  { intros w k w' Hw [= <- <-]. split; [done|]. apply Hw. }
  intros k Hk. destruct u; try apply keeps_fault. apply keeps_return.
  apply timed_ok; [by apply strncpy_bytes|]. by rewrite strncpy_length.
Qed.

Lemma keeps_motor_status : keeps wf motor_status byte.
Proof.
  unfold motor_status. apply keeps_if; intros _; [|apply keeps_fault]. apply runs_keeps, runs_pin_read.
Qed.

Lemma keeps_work_alarm a t : keeps wf (work_alarm_process a t) (data_ok (8 + 1)).
Proof.
  unfold work_alarm_process. do 2 (apply keeps_then; [keeps_auto|intros ?]).
  eapply keeps_seq; [apply keeps_motor_status|intros dat Hdat]. apply keeps_return.
  cbn [data_ok serialize_data]. apply (timed_ok (be16 _ ++ [dat])); [|done].
  apply Forall_app. split; [apply be16_bytes|by apply Forall_singleton].
Qed.

Lemma keeps_fault_alarm a t : keeps wf (fault_alarm_process a t) (data_ok (8 + 0)).
Proof.
  unfold fault_alarm_process. do 2 (apply keeps_then; [keeps_auto|intros ?]).
  apply keeps_return. apply (timed_ok (be16 _)); [apply be16_bytes|done].
Qed.

Lemma keeps_battery_alarm t : keeps wf (battery_alarm_process t) (data_ok (8 + 0)).
Proof.
  unfold battery_alarm_process.
  do 2 (eapply keeps_seq; [apply runs_keeps, (runs_observe _ byte); intros; by apply wrap_fits|intros ? ?]).
  eapply keeps_seq; [by apply battery_get_data_keeps|intros b [Hs Hw]]. apply keeps_return.
  apply (timed_ok [bd_status b; bd_work_time b]); [|done].
  by repeat (apply Forall_cons; split; [done|]).
Qed.

Lemma keeps_pic_arg t u :
  keeps wf (process_gprs_pic_arg t u)
    (λ d, match d with Some d => data_ok (12 + 0) d | None => True end).
Proof.
  unfold process_gprs_pic_arg. apply keeps_then.
  - unfold user_alarm. destruct u; keeps_auto.
  - intros a. apply keeps_then; [apply keeps_pic_size|intros n].
    apply keeps_if; intros _; apply keeps_return; [done|].
    apply (timed_ok [pic_type a; 1; 1; Z.shiftr (Z.land n 0x0000ff00) 8; Z.land n 0x000000ff; _]); [|done].
    assert (byte (Z.shiftr (Z.land n 0xff00) 8)) as Hhigh.
    { rewrite Z.shiftr_land. by apply fits_land_r. }
    repeat (apply Forall_cons; split; [|]); try done; try apply Forall_nil; try by apply fits_land_r.
    + unfold pic_type. by repeat case_match.
    + case_match; by apply wrap_fits.
Qed.

Lemma keeps_params : keeps wf (get params) params_wf.
Proof. intros w p w' [Hp] [= <- <-]. split; [|done]. by split. Qed.

Lemma listed_telephones_bytes p : params_wf p → Forall byte (listed_telephones (alarm_telephone p)).
Proof.
  intros [[_ Hf] _]. unfold listed_telephones.
  induction Hf as [|t l [(_ & [_ Ht] & _) _] Hf IH]; [by apply Forall_nil|]. cbn [flat_map].
  apply Forall_app. split; [|done]. case_match; [by apply Forall_nil|]. by apply Forall_take, Forall_drop.
Qed.

Lemma listed_keys_bytes p : params_wf p → Forall byte (listed_keys (rfid_key p)).
Proof.
  intros (_ & _ & [_ Hf] & _). unfold listed_keys.
  induction Hf as [|k l [_ [_ Hk]] Hf IH]; [by apply Forall_nil|]. cbn [flat_map].
  apply Forall_app. split; [|done]. case_match; [by apply Forall_nil|]. by apply Forall_take.
Qed.

Lemma auth_data_ok p : params_wf p → data_ok (0x16 + 0) (SD_auth (auth_process p).1 (auth_process p).2).
Proof.
  intros (_ & _ & _ & _ & _ & [L6 B6] & _). unfold auth_process. cbn [fst snd].
  pose proof (des_crypt_ecb_block (key0 p) (key1 p)) as [L1 B1].
  pose proof (des_crypt_ecb_block (key0 p)
    (des_crypt_ecb (des_setkey_enc (key1 p)) (device_id p ++ [0; 0]))) as [L2 B2].
  split; cbn [serialize_data].
  - by rewrite !length_app, L6, L1, L2.
  - apply Forall_app. split; [exact B6|]. apply Forall_app. split; [exact B1|exact B2].
Qed.

(** A list: the result, the number of entries and the entries *)
Lemma list_ok n counts l k : n = Z.of_nat (length l) + 2 → length l = k → Forall byte l →
  Z.of_nat (length ([1; u8 counts] ++ take k l)) = n + 0 ∧ Forall byte ([1; u8 counts] ++ take k l).
Proof.
  intros -> <- Hl. rewrite firstn_all. split; [cbn [app length]; lia|].
  apply Forall_app. split; [|done]. repeat (apply Forall_cons; split; [|]); try by apply Forall_nil.
  - done.
  - by apply wrap_fits.
Qed.

Lemma result_keeps c o r o' : byte c → byte r → (byte o' → byte o) →
  keeps wf (result_frame c o r) (declared o' 0).
Proof.
  intros Hc Hr Ho. apply keeps_return. apply declared_frame; [done|done|]. split; [done|].
  by apply Forall_singleton.
Qed.

(** The data of an alarm are as long as the frame declares, but for the work
    alarms, which have a byte more. *)
Lemma build_frame_keeps fuel a t o u :
  keeps wf (build_frame fuel a t o u)
    (declared o (if bool_decide (a ∈ work_alarms) then 1 else 0)).
Proof.
  destruct a; cbn [build_frame];
    match goal with |- context [bool_decide ?P] =>
      let b := eval vm_compute in (bool_decide P) in change (bool_decide P) with b end;
    cbv iota;
    lazymatch goal with
    | |- keeps _ (with_order _ _ (work_alarm_process _ _) _) _ =>
        apply keeps_with_order; [done|apply keeps_work_alarm]
    | |- keeps _ (with_order _ _ (fault_alarm_process _ _) _) _ =>
        apply keeps_with_order; [done|apply keeps_fault_alarm]
    | |- keeps _ (with_order _ _ (battery_alarm_process _) _) _ =>
        apply keeps_with_order; [done|apply keeps_battery_alarm]
    | |- keeps _ (with_order _ _ (lock_open_process _ _) _) _ =>
        apply keeps_with_order; [done|apply keeps_lock_open]
    | |- keeps _ (with_order _ _ (mreturn _) _) _ =>
        apply keeps_with_order; [done|apply keeps_return; split; [done|by apply Forall_singleton]]
    | |- keeps _ (result_frame _ _ _) _ => by apply result_keeps
    | |- keeps _ (mreturn (request 0 0 0 _ _)) _ =>
        apply keeps_return, declared_frame; [done|done|split; [done|by apply Forall_nil]]
    | |- _ => idtac
    end.
  - apply keeps_with_order; [done|]. eapply keeps_seq; [apply keeps_params|]. intros p Hp.
    by apply keeps_return, auth_data_ok.
  - eapply keeps_seq; [apply keeps_params|]. intros p Hp. apply keeps_return.
    destruct (listed_telephones_length p Hp) as [Hl Hc].
    apply declared_frame; [done|done|]. apply list_ok; [lia|lia|by apply listed_telephones_bytes].
  - eapply keeps_seq; [apply keeps_params|]. intros p Hp. apply keeps_return.
    destruct (listed_keys_length p Hp) as [Hl Hc].
    apply declared_frame; [done|done|]. apply list_ok; [lia|lia|by apply listed_keys_bytes].
  - eapply keeps_seq; [apply keeps_params|]. intros p Hp. apply keeps_return, declared_frame; [done|done|].
    split; [done|]. repeat (apply Forall_cons; split; [|]); [done|apply Hp|by apply Forall_nil].
  - by apply keeps_return, declared_frame; [| |split; [|apply Forall_singleton]].
  - eapply keeps_seq; [apply next_order_keeps|]. intros o' Ho'.
    eapply keeps_seq; [apply keeps_pic_arg|]. intros [d|] Hd; [|by apply keeps_return].
    by apply keeps_return, declared_frame.
  - apply keeps_then; [by apply send_picture_data_keeps|intros r].
    apply keeps_then; [eapply keeps_consequence; [apply next_order_keeps|done]|intros _].
    by apply keeps_return.
Qed.
End lengths.

(** ** What the server reads in a frame

    The other end of the line: a frame is as long as it declares, its command
    says what is reported, the type of an alarm is a set with one bit, and a
    time is six bytes of two decimal digits. *)

Inductive REPORT :=
| Rp_heart
| Rp_opened (key : list Z) (date : list Z)
| Rp_battery (status minutes : Z) (date : list Z)
| Rp_work (alarm : ALARM_TYPEDEF) (status : Z) (date : list Z)
| Rp_fault (alarm : ALARM_TYPEDEF) (date : list Z).

Definition digits (b : Z) : Z := 10 * (b / 16) + b mod 16.

Definition work_alarm_of (bits : Z) : option ALARM_TYPEDEF :=
  if bits =? 1 then Some ALARM_TYPE_CAMERA_IRDASENSOR
  else if bits =? 2 then Some ALARM_TYPE_LOCK_SHELL
  else if bits =? 4 then Some ALARM_TYPE_RFID_KEY_ERROR
  else if bits =? 8 then Some ALARM_TYPE_LOCK_TEMPERATURE
  else if bits =? 32 then Some ALARM_TYPE_RFID_KEY_PLUGIN
  else if bits =? 64 then Some ALARM_TYPE_LOCK_GATE else None.

Definition fault_alarm_of (bits : Z) : option ALARM_TYPEDEF :=
  if bits =? 1 then Some ALARM_TYPE_CAMERA_FAULT
  else if bits =? 2 then Some ALARM_TYPE_RFID_FAULT
  else if bits =? 4 then Some ALARM_TYPE_POWER_FAULT
  else if bits =? 64 then Some ALARM_TYPE_MOTOR_FAULT else None.

Definition read_report (cmd : Z) (data : list Z) : option REPORT :=
  if cmd =? 0x00 then match data with [2] => Some Rp_heart | _ => None end
  else if cmd =? 0x01 then Some (Rp_opened (take 4 data) (map digits (drop 4 data)))
  else if cmd =? 0x02 then
    match data with
    | status :: minutes :: time => Some (Rp_battery status minutes (map digits time))
    | _ => None
    end
  else if cmd =? 0x03 then
    match data with
    | high :: low :: status :: time =>
        a ← work_alarm_of (256 * high + low); Some (Rp_work a status (map digits time))
    | _ => None
    end
  else if cmd =? 0x04 then
    match data with
    | high :: low :: time => a ← fault_alarm_of (256 * high + low); Some (Rp_fault a (map digits time))
    | _ => None
    end
  else None.

Definition server_reads (frame : list Z) : option (Z * REPORT) :=
  match frame with
  | high :: low :: cmd :: order :: data =>
      let n := Z.to_nat (256 * high + low) in
      if (length data <? n)%nat then None else r ← read_report cmd (take n data); Some (order, r)
  | _ => None
  end.

(** A broken-down time of the C library *)
Definition calendar (t : tm) : Prop :=
  0 <= tm_year t + 1900 ∧ 0 <= tm_mon t < 12 ∧ 1 <= tm_mday t <= 31 ∧
  0 <= tm_hour t < 24 ∧ 0 <= tm_min t < 60 ∧ 0 <= tm_sec t <= 60.

Definition date_of (t : tm) : list Z :=
  [(tm_year t + 1900) mod 100; tm_mon t + 1; tm_mday t; tm_hour t; tm_min t; tm_sec t].

Definition fault_alarms : list ALARM_TYPEDEF :=
  [ALARM_TYPE_RFID_FAULT; ALARM_TYPE_CAMERA_FAULT; ALARM_TYPE_POWER_FAULT; ALARM_TYPE_MOTOR_FAULT].

Definition reported_alarms : list ALARM_TYPEDEF :=
  [ALARM_TYPE_GPRS_HEART; ALARM_TYPE_RFID_KEY_SUCCESS; ALARM_TYPE_BATTERY_WORKING_20M] ++
  work_alarms ++ fault_alarms.

Section server.
Context {HB : Board} {HG : GsmService}.

(** What the server should read *)
Definition reports (a : ALARM_TYPEDEF) (time : Z) (w : World) (r : REPORT) : Prop :=
  let date := date_of (localtime time) in
  match r with
  | Rp_heart => a = ALARM_TYPE_GPRS_HEART
  | Rp_opened key d =>
      a = ALARM_TYPE_RFID_KEY_SUCCESS ∧ key = strncpy 4 (gprs_mail_user w) ∧ d = date
  | Rp_battery status minutes d =>
      a = ALARM_TYPE_BATTERY_WORKING_20M ∧ d = date ∧
      (dev_present DEV_BATTERY_SWITCH = true → dev_present DEV_BATTERY_ADC = true →
       status = u8 (pin_level DEV_BATTERY_SWITCH (2 + now w)) ∧
       work_time_of (u16 (adc_value (3 + now w))) = Some minutes)
  | Rp_work alarm status d =>
      alarm = a ∧ a ∈ work_alarms ∧ status = u8 (pin_level DEV_MOTOR_STATUS (now w)) ∧ d = take 5 date
  | Rp_fault alarm d => alarm = a ∧ a ∈ fault_alarms ∧ d = date
  end.

Lemma digits_bcd x : 0 <= x < 100 → digits (dec_to_bcd x) = x.
Proof.
  intros Hx. assert (Forall (λ x, digits (dec_to_bcd x) = x) (map Z.of_nat (seq 0 100))) as H
    by by_computation.
  rewrite Forall_forall in H. apply H, list_elem_of_fmap. exists (Z.to_nat x).
  split; [lia|]. apply elem_of_seq. lia.
Qed.

Lemma digits_time time : calendar (localtime time) →
  map digits (bcd_time time) = date_of (localtime time).
Proof.
  intros (Hy & Hmo & Hd & Hh & Hmi & Hs). unfold bcd_time, date_of. cbn [map].
  assert (∀ x, 0 <= x → digits (dec_to_bcd (u8 (Z.rem x 100))) = x mod 100) as H.
  { intros x Hx. rewrite Z.rem_mod_nonneg by lia. pose proof (Z.mod_pos_bound x 100 ltac:(lia)).
    rewrite wrap_small by (unfold fits; change (2 ^ 8) with 256; lia). by apply digits_bcd. }
  rewrite !H by lia. repeat f_equal; apply Z.mod_small; lia.
Qed.

Lemma map_store_same a bits m x : map_store a bits m !! alarm_code a = Some x → x = bits.
Proof.
  unfold map_store. destruct (decide (alarm_code a < length m)%nat) as [Hl|Hl].
  - rewrite list_lookup_insert_eq by done. congruence.
  - rewrite list_insert_ge by lia. by rewrite lookup_ge_None_2 by lia.
Qed.

Lemma map_store_other a b bits m : a ≠ b → map_store a bits m !! alarm_code b = m !! alarm_code b.
Proof. intros H. unfold map_store. apply list_lookup_insert_ne. intros E. by apply H, (inj alarm_code). Qed.

(** The thread has prepared its tables before it builds a frame. *)
Definition prepared (w : World) : World :=
  match (work_alarm_type_map_init ;;; fault_alarm_type_map_init) w with Done _ w' => w' | _ => w end.

Lemma work_type w a x : work_alarm_type_map (prepared w) !! alarm_code a = Some x →
  a ∈ work_alarms → work_alarm_of x = Some a ∧ 0 <= x < 256.
Proof.
  cbn -[map_store alarm_code]. unfold work_alarms. rewrite !elem_of_cons, elem_of_nil.
  intros Hm [->|[->|[->|[->|[->|[->|[]]]]]]]; revert Hm;
    repeat (rewrite map_store_other by done); by intros ->%map_store_same.
Qed.

Lemma fault_type w a x : fault_alarm_type_map (prepared w) !! alarm_code a = Some x →
  a ∈ fault_alarms → fault_alarm_of x = Some a ∧ 0 <= x < 256.
Proof.
  cbn -[map_store alarm_code]. unfold fault_alarms. rewrite !elem_of_cons, elem_of_nil.
  intros Hm [->|[->|[->|[->|[]]]]]; revert Hm;
    repeat (rewrite map_store_other by done); by intros ->%map_store_same.
Qed.

Lemma mreturn_inv {A} (a b : A) w w' : mreturn a w = Done b w' → b = a.
Proof. by intros [= <- _]. Qed.

(** The header of a frame that declares [n] bytes and has at least as many *)
Lemma reads_frame n c o d : 0 <= n < 65536 → (Z.to_nat n <= length (serialize_data d))%nat →
  server_reads (serialize (mkFrame n c o d)) =
    r ← read_report c (take (Z.to_nat n) (serialize_data d)); Some (o, r).
Proof.
  intros Hn Hl. unfold serialize, be16. cbn [sf_length sf_cmd sf_order sf_data app]. unfold server_reads.
  assert (256 * Z.land (Z.shiftr n 8) 255 + Z.land n 255 = n) as ->.
  { change 255 with (Z.ones 8). rewrite !Z.land_ones, Z.shiftr_div_pow2 by lia.
    change (2 ^ 8) with 256. rewrite (Z.mod_small (n / 256)) by (split; [apply Z.div_pos; lia|apply Z.div_lt_upper_bound; lia]).
    symmetry. apply Z.div_mod. lia. }
  destruct (Nat.ltb_spec (length (serialize_data d)) (Z.to_nat n)); [lia|done].
Qed.

Lemma be16_small x : 0 <= x < 256 → be16 (u16 x) = [0; x].
Proof.
  intros Hx. unfold be16. rewrite wrap_small by (unfold fits; change (2 ^ 16) with 65536; lia).
  change 0xff with (Z.ones 8). rewrite !Z.land_ones, Z.shiftr_div_pow2 by lia. change (2 ^ 8) with 256.
  rewrite (Z.div_small x), (Z.mod_small x) by lia. done.
Qed.

(** A frame with a number, and its data *)
Lemma with_order_inv n c m h rq w w' : with_order n c m h w = Done (inl rq) w' →
  ∃ d, rq_frame rq = mkFrame n c (gprs_order w) d ∧
    m (set_gprs_order (u8 (gprs_order w + 1)) w) = Done d w'.
Proof.
  unfold with_order, next_order. rewrite mseq_assoc, get_run, mseq_assoc, upd_run, mseq_return_l.
  intros E. apply mseq_Done in E as (d & w1 & E & [= <- <-]). by exists d.
Qed.
End server.

(** ** What a result of 1 means *)

Section results.
Context {HB : Board} {HG : GsmService}.

(** C36 (bounds). The length a frame declares is the number of its data bytes,
    whatever the alarm and the settings; the six alarms of the lock's work
    state are the exception, their data have one byte more than declared. *)
Theorem frame_length_declared fuel alarm_type time order user w rq w' :
  motors_present → wf w →
  build_frame fuel alarm_type time order user w = Done (inl rq) w' →
  frame_bytes (rq_frame rq) =
    4 + sf_length (rq_frame rq) + (if bool_decide (alarm_type ∈ work_alarms) then 1 else 0).
Proof.
  intros Hm Hw E. by destruct (build_frame_keeps Hm fuel alarm_type time order user _ _ _ Hw E) as [_ []].
Qed.

(** C25 (roundtrip). What the lock reports is what the server reads: after the
    thread has prepared its tables, the frame of a heart beat, of an opened lock,
    of the battery, of the six alarms of the lock and of the four faults is
    decoded, by its declared length, its command and its fields, to the number
    of the frame, the same alarm, the key (up to a zero byte), the state of the
    motor or of the battery that was read (if its two devices are there), and
    the time of the mail.  The one thing that is lost are the seconds of the six
    alarms, which lie behind the declared length. *)
Theorem server_reads_report fuel a time order user w rq w' :
  calendar (localtime time) → a ∈ reported_alarms →
  build_frame fuel a time order user (prepared w) = Done (inl rq) w' →
  ∃ r, server_reads (serialize (rq_frame rq)) = Some (gprs_order w, r) ∧ reports a time w r.
Proof.
  intros Hc Ha E. assert (gprs_order (prepared w) = gprs_order w) as Ho by done. rewrite <- Ho.
  unfold reported_alarms in Ha. rewrite !elem_of_app in Ha. destruct Ha as [Ha|[Ha|Ha]].
  - rewrite !elem_of_cons, elem_of_nil in Ha. destruct Ha as [->|[->|[->|[]]]]; cbn [build_frame] in E.
    + apply with_order_inv in E as (d & -> & ->%mreturn_inv). rewrite reads_frame by (cbn; lia).
      by exists Rp_heart.
    + apply with_order_inv in E as (d & -> & E). unfold lock_open_process in E. rewrite get_run in E.
      match type of E with context [gprs_mail_user ?v] =>
        change (gprs_mail_user v) with (gprs_mail_user w) in E end.
      destruct user; try done. apply mreturn_inv in E as ->.
      assert (length (strncpy 4 (gprs_mail_user w) ++ bcd_time time) = 10%nat) as Hl
        by (by rewrite length_app, strncpy_length).
      rewrite reads_frame by (cbn [serialize_data]; lia || (rewrite Hl; done)).
      cbn [serialize_data read_report Z.eqb Pos.eqb]. rewrite (take_ge (strncpy 4 _ ++ _)) by (rewrite Hl; done).
      eexists. split; [reflexivity|].
      rewrite take_app_length', drop_app_length' by (by rewrite strncpy_length).
      by rewrite digits_time.
    + apply with_order_inv in E as (d & -> & E). unfold battery_alarm_process in E.
      rewrite !observe_run in E. apply mseq_Done in E as (b & w1 & E & [= <- _]).
      rewrite reads_frame by (cbn; lia). eexists. split; [reflexivity|].
      change (map digits (bcd_time time)) with (map digits (bcd_time time)).
      split; [done|]. split; [by apply digits_time|]. intros H1 H2. revert E.
      unfold battery_get_data. rewrite H1, H2. unfold pin_read. rewrite mseq_assoc, observe_run.
      rewrite mseq_return_l. unfold bat_enable, bat_disable, when. rewrite H2. unfold emit.
      rewrite upd_run, observe_run, upd_run. intros E. apply mseq_Done in E as (m & w2 & E & [= <- <-]).
      destruct (work_time_of _) as [x|] eqn:Hx; [|done]. injection E as <- _. done.
  - assert (∃ m, build_frame fuel a time order user = with_order 0x8 0x3 (work_alarm_process a time) m) as [m Hm].
    { revert Ha. unfold work_alarms. rewrite !elem_of_cons, elem_of_nil.
      intros [->|[->|[->|[->|[->|[->|[]]]]]]]; by eexists. }
    rewrite Hm in E. apply with_order_inv in E as (d & -> & E). unfold work_alarm_process in E.
    rewrite get_run in E. apply mseq_Done in E as (x & w1 & Ex & E).
    destruct (_ !! _) as [y|] eqn:Hy; [|done]. injection Ex as -> <-.
    apply work_type in Hy as [Hy Hr]; [|done]. unfold motor_status in E.
    destruct (dev_present DEV_MOTOR_STATUS); [|done]. unfold pin_read in E. rewrite observe_run in E.
    apply mreturn_inv in E as ->. rewrite reads_frame by (rewrite ?be16_small by done; cbn; lia).
    cbn [serialize_data]. rewrite be16_small by done. cbn [read_report Z.eqb Pos.eqb app].
    change (take (Z.to_nat 8) (0 :: x :: ?s :: bcd_time time)) with (0 :: x :: s :: take 5 (bcd_time time)).
    cbv beta iota. rewrite Z.mul_0_r, Z.add_0_l, Hy. eexists. split; [reflexivity|].
    split; [done|]. split; [done|]. split; [done|]. rewrite <- digits_time by done. done.
  - assert (∃ m, build_frame fuel a time order user = with_order 0x8 0x4 (fault_alarm_process a time) m) as [m Hm].
    { revert Ha. unfold fault_alarms. rewrite !elem_of_cons, elem_of_nil.
      intros [->|[->|[->|[->|[]]]]]; by eexists. }
    rewrite Hm in E. apply with_order_inv in E as (d & -> & E). unfold fault_alarm_process in E.
    rewrite get_run in E. apply mseq_Done in E as (x & w1 & Ex & E).
    destruct (_ !! _) as [y|] eqn:Hy; [|done]. injection Ex as -> <-.
    apply fault_type in Hy as [Hy Hr]; [|done].
    apply mreturn_inv in E as ->. rewrite reads_frame by (rewrite ?be16_small by done; cbn; lia).
    cbn [serialize_data]. rewrite be16_small by done. cbn [read_report Z.eqb Pos.eqb app].
    change (take (Z.to_nat 8) (0 :: x :: bcd_time time)) with (0 :: x :: bcd_time time).
    cbv beta iota. rewrite Z.mul_0_r, Z.add_0_l, Hy. eexists. split; [reflexivity|].
    split; [done|]. split; [done|]. by apply digits_time.
Qed.

(** The answer is accepted, carries the command with its high bit set and the
    frame's number. *)
Definition acknowledged (f : GPRS_SEND_FRAME) (response : list Z) (w : World) : Prop :=
  let frame := pad RECV_FRAME_SIZE response in
  (∃ w', recv_gprs_frame frame (Z.of_nat (length response)) w = Done 1 w') ∧
  frame_cmd frame = Z.lor (sf_cmd f) 0x80 ∧ frame_order frame = sf_order f.

Lemma judge_response_spec f r response w res w' :
  judge_response f r response w = Done res w' →
  (res = 1 ↔ r = 1 ∧ acknowledged f response w).
Proof.
  unfold judge_response. destruct (Z.eqb_spec r 1) as [->|];
    [|intros [= <- <-]; split; [done|by intros []]].
  intros E. apply mseq_Done in E as (a & w1 & E1 & [= <- <-]). split.
  - case_match eqn:H; [|done]. intros _. split; [done|].
    apply andb_prop in H as [H Ho]. apply andb_prop in H as [Ha Hc].
    apply Z.eqb_eq in Ha, Hc, Ho. subst a. split; [by exists w1|done].
  - intros (_ & [w2 H] & Hc & Ho). rewrite E1 in H. injection H as -> _.
    rewrite (proj2 (Z.eqb_eq _ _) Hc), (proj2 (Z.eqb_eq _ _) Ho). done.
Qed.

(** C26 (functional). A frame counts as sent exactly if it expects no answer and
    its mail was accepted, or if the GSM thread reports success with an answer
    that acknowledges this frame.  Without an expected answer the result of the
    GSM thread is not looked at. *)
Theorem send_gprs_frame_result fuel alarm_type time order user w rq w1 r w2 res w' :
  dev_present DEV_GSM_USART = true →
  build_frame fuel alarm_type time order user w = Done (inl rq) w1 →
  gsm_transact (bool_decide (alarm_type = ALARM_TYPE_GPRS_AUTH))
    (GM_gprs (serialize (rq_frame rq)) (rq_has_response rq)) w1 = Done r w2 →
  send_gprs_frame fuel alarm_type time order user w = Done res w' →
  (res = 1 ↔ ∃ sent answer, r = Some (sent, answer) ∧
    (rq_has_response rq = 1 → sent = 1 ∧ acknowledged (rq_frame rq) (gprs_response answer) w2)).
Proof.
  intros Hd Hb Ht E. unfold send_gprs_frame in E. rewrite Hd in E. cbn [negb] in E.
  apply mseq_Done in E as (b & w1' & Eb & E). rewrite Hb in Eb. injection Eb as <- <-.
  apply mseq_Done in E as (r' & w2' & Er & E). rewrite Ht in Er. injection Er as <- <-.
  apply mseq_Done in E as (res' & w3 & Ej & E). apply mseq_Done in E as (_u & w4 & _E & [= <- <-]).
  destruct r as [[sent response]|].
  - destruct (Z.eqb_spec (rq_has_response rq) 1) as [E1|E1].
    + apply judge_response_spec in Ej. rewrite Ej. split.
      * intros H. by exists sent, response.
      * intros (? & ? & [= <- <-] & H). auto.
    + injection Ej as <- <-. split; [|done]. intros _. exists sent, response. done.
  - injection Ej as <- <-. split; [done|]. by intros (? & ? & ? & _).
Qed.

(** ** The thread *)

Lemma send_gprs_frame_absent fuel a t o u w :
  dev_present DEV_GSM_USART = false → send_gprs_frame fuel a t o u w = Done (-1) w.
Proof. intros H. unfold send_gprs_frame. by rewrite H. Qed.

Lemma failing_step fuel e m l n w :
  dev_present DEV_GSM_USART = false → gprs_mq w = Some (mkQueue (m :: l) n) → 0 ≤ e ≤ 10 →
  gprs_mail_process_step fuel e w =
    (if 10 <=? e then gsm_setup false ;;; mreturn 0 else mreturn (e + 1))
      (set_gprs_mq (Some (mkQueue l n)) w).
Proof.
  intros Hd Hq He. unfold gprs_mail_process_step. unfold mseq at 1.
  assert (rt_mq_recv gprs_mq set_gprs_mq w =
    Done (Some m) (set_gprs_mq (Some (mkQueue l n)) w)) as ->.
  { unfold rt_mq_recv, mseq, get, deref, upd, mreturn. rewrite Hq. done. }
  unfold mseq at 1. rewrite send_gprs_frame_absent by done.
  cbn [Z.eqb]. rewrite wrap_small by (unfold fits; change (2 ^ 8) with 256; lia).
  destruct (Z.ltb_spec 10 (e + 1)), (Z.leb_spec 10 e); try lia; done.
Qed.

Lemma failing_rounds fuel n : ∀ mails e w q,
  dev_present DEV_GSM_USART = false → 0 ≤ e → e + Z.of_nat (length mails) ≤ 10 →
  gprs_mq w = Some (mkQueue (mails ++ q) n) →
  gprs_mail_process_loop fuel (length mails) e w =
    Done (e + Z.of_nat (length mails)) (set_gprs_mq (Some (mkQueue q n)) w).
Proof.
  induction mails as [|m mails IH]; intros e w q Hd He Hl Hq; cbn [length gprs_mail_process_loop].
  - unfold mreturn. f_equal; [simpl; lia|]. simpl in Hq. rewrite <- Hq. by destruct w.
  - simpl in Hl. unfold mseq at 1. rewrite (failing_step fuel e m (mails ++ q) n) by (done || lia).
    destruct (Z.leb_spec 10 e); [lia|]. unfold mreturn at 1.
    rewrite (IH _ _ q) by (done || lia). f_equal. lia.
Qed.

(** When the frames cannot be sent (there is no GSM uart), each
    failure is counted, and the eleventh in a row switches the modem off, so
    that its thread starts it again, and restarts the count. *)
Lemma eleven_failures_reset fuel mails m q n w :
  dev_present DEV_GSM_USART = false → length mails = 10%nat →
  gprs_mq w = Some (mkQueue (mails ++ m :: q) n) →
  gprs_mail_process_loop fuel 10 0 w = Done 10 (set_gprs_mq (Some (mkQueue (m :: q) n)) w) ∧
  gprs_mail_process_loop fuel 11 0 w =
    (gsm_setup false ;;; mreturn 0) (set_gprs_mq (Some (mkQueue q n)) w).
Proof.
  intros Hd Hl Hq. pose proof (failing_rounds fuel n mails 0 w (m :: q) Hd ltac:(lia) ltac:(lia) Hq) as H.
  rewrite Hl in H. split; [exact H|].
  assert (∀ k e w, gprs_mail_process_loop fuel (k + 1) e w =
    (e <- gprs_mail_process_loop fuel k e ;; gprs_mail_process_step fuel e) w) as Hs.
  { clear. induction k as [|k IH]; intros e w; cbn [Nat.add gprs_mail_process_loop].
    - by rewrite mseq_return_r, mseq_return_l.
    - rewrite mseq_assoc. unfold mseq at 1 2. destruct (gprs_mail_process_step fuel e w); [apply IH|done..]. }
  rewrite (Hs 10%nat). unfold mseq at 1. rewrite H.
  rewrite (failing_step fuel _ m q n) by (done || lia). reflexivity.
Qed.
End results.

(** ** The thread keeps the invariant *)

Section thread.
Context {HB : Board} {HG : GsmService} (Hm : motors_present).

Lemma judge_response_keeps f r response :
  (length response <= RECV_FRAME_SIZE)%nat ∧ Forall byte response → keeps wf (judge_response f r response) (λ _, True).
Proof.
  intros [Hl Hb]. unfold judge_response. apply keeps_if; intros _; [|by apply keeps_return].
  apply keeps_then; [by apply recv_gprs_frame_keeps, pad_frame_wf|]. intros. by apply keeps_return.
Qed.

Lemma send_gprs_frame_keeps fuel a t o u : keeps wf (send_gprs_frame fuel a t o u) (λ _, True).
Proof.
  unfold send_gprs_frame. apply keeps_if; intros _; [by apply keeps_return|].
  eapply keeps_seq; [by apply build_frame_keeps|]. intros [rq|r] _; [|by apply keeps_return].
  eapply keeps_seq; [apply gsm_transact_keeps|]. intros r Hr.
  apply keeps_then; [|intros; apply keeps_then;
    [apply runs_keeps, runs_emit|intros; by apply keeps_return]].
  destruct r as [[sent response]|]; [|by apply keeps_return].
  apply keeps_if; intros _; [|by apply keeps_return]. apply judge_response_keeps.
  by apply gprs_response_wf.
Qed.

(** One round keeps the count of failures in a row at most 10. *)
Lemma gprs_step_keeps fuel e :
  0 ≤ e ≤ 10 → keeps wf (gprs_mail_process_step fuel e) (λ e, 0 ≤ e ≤ 10).
Proof.
  intros He. unfold gprs_mail_process_step. apply keeps_then.
  - intros w a w' Hw. unfold rt_mq_recv, mseq, get, deref, upd, mreturn, fault.
    destruct (gprs_mq w) as [q|]; [|done]. destruct (q_recv q) as [[x q']|]; intros [= <- <-];
      split; try done. destruct Hw; by split.
  - intros [m|].
    + apply keeps_then; [apply send_gprs_frame_keeps|]. intros r.
      apply keeps_if; intros _; [apply keeps_return; lia|].
      apply keeps_if; intros Hc.
      * apply keeps_then; [apply runs_keeps, gsm_setup_runs|]. intros. apply keeps_return. lia.
      * apply keeps_return. apply Z.ltb_ge in Hc. pose proof (wrap_fits 8 (e + 1)).
        unfold fits in *. lia.
    + apply keeps_then; [apply runs_keeps; eauto with runs|]. intros. by apply keeps_return.
Qed.

Lemma gprs_loop_keeps fuel n : ∀ e,
  0 ≤ e ≤ 10 → keeps wf (gprs_mail_process_loop fuel n e) (λ e, 0 ≤ e ≤ 10).
Proof.
  induction n as [|n IH]; intros e He; cbn [gprs_mail_process_loop]; [by apply keeps_return|].
  eapply keeps_seq; [by apply gprs_step_keeps|]. apply IH.
Qed.
End thread.

(** ** Concrete runs *)

Definition sent_world {A} (m : M A) (w : World) : World :=
  match m w with Done _ w' => w' | _ => w end.

Definition shell_frame : GPRS_SEND_FRAME :=
  mkFrame 8 3 0 (SD_work_alarm 0 1 [0x13; 0x06; 0x08; 0x11; 0x17; 0x29]).

(** The server hears of the shell: frame number 0, the motor's level 1. *)
Lemma server_reads_report_witness :
  ∃ rq, (∃ w', build_frame (HB:=quiet_board)
      (HG:=bench_service (HB:=quiet_board) report_ok report_ok_wf) 10
      ALARM_TYPE_LOCK_SHELL 1370000000 0 U_none (prepared start_world) = Done (inl rq) w') ∧
    ∃ r, server_reads (serialize (rq_frame rq)) = Some (0, r) ∧
      reports (HB:=quiet_board) ALARM_TYPE_LOCK_SHELL 1370000000 start_world r.
Proof.
  destruct (build_frame (HB:=quiet_board)
    (HG:=bench_service (HB:=quiet_board) report_ok report_ok_wf) 10
    ALARM_TYPE_LOCK_SHELL 1370000000 0 U_none (prepared start_world)) as [[rq|] w'| |] eqn:E;
    [|vm_compute in E; discriminate E..].
  exists rq. split; [by exists w'|].
  apply (server_reads_report (HB:=quiet_board)
    (HG:=bench_service (HB:=quiet_board) report_ok report_ok_wf) 10
    ALARM_TYPE_LOCK_SHELL 1370000000 0 U_none start_world rq w'); [by_computation|by_computation|exact E].
Defined.

Lemma frame_length_declared_witness : frame_bytes shell_frame = 4 + 8 + 1.
Proof.
  apply (frame_length_declared (HB:=quiet_board)
    (HG:=bench_service (HB:=quiet_board) report_ok report_ok_wf) 10
    ALARM_TYPE_LOCK_SHELL 1370000000 0 U_none start_world (mkRequest shell_frame 1)
    (sent_world (build_frame (HB:=quiet_board)
      (HG:=bench_service (HB:=quiet_board) report_ok report_ok_wf) 10
      ALARM_TYPE_LOCK_SHELL 1370000000 0 U_none) start_world)).
  - by_computation.
  - apply start_world_wf.
  - vm_compute. reflexivity.
Defined.

(** The server's answer to the heart beat with number 0 *)
Definition heart_ack : list Z := [0; 0; 0x80; 0].

Lemma heart_ack_wf : answer_wf (GA_gprs heart_ack).
Proof. split; [simpl; unfold RECV_FRAME_SIZE; lia|by_computation]. Qed.

Definition heart_service : GsmService := bench_service (HB:=quiet_board) heart_ack heart_ack_wf.
Definition heart_frame : GPRS_SEND_FRAME := mkFrame 1 0 0 (SD_heart 2).
Definition heart_built : World :=
  sent_world (build_frame (HB:=quiet_board) (HG:=heart_service) 10
    ALARM_TYPE_GPRS_HEART 0 0 U_none) start_world.
Definition heart_served : World :=
  sent_world (gsm_transact (HB:=quiet_board) (HG:=heart_service) false
    (GM_gprs (serialize heart_frame) 1)) heart_built.

Lemma send_gprs_frame_result_witness :
  1 = 1 ↔ ∃ sent answer, Some (1, GA_gprs heart_ack) = Some (sent, answer) ∧
    (1 = 1 → sent = 1 ∧
      acknowledged (HB:=quiet_board) heart_frame (gprs_response answer) heart_served).
Proof.
  apply (send_gprs_frame_result (HB:=quiet_board) (HG:=heart_service) 10 ALARM_TYPE_GPRS_HEART 0 0
    U_none start_world (mkRequest heart_frame 1) heart_built (Some (1, GA_gprs heart_ack)) heart_served 1
    (sent_world (send_gprs_frame (HB:=quiet_board) (HG:=heart_service) 10
       ALARM_TYPE_GPRS_HEART 0 0 U_none) start_world)).
  - reflexivity.
  - vm_compute. reflexivity.
  - vm_compute. reflexivity.
  - vm_compute. reflexivity.
Defined.

(** A board without the modem's uart *)
Definition no_gsm_board : Board := {|
  dev_present := λ d, negb (bool_decide (d = DEV_GSM_USART));
  pin_level := λ _ _, 1; uart_arrivals := λ _ _, []; adc_value := λ _, 0xfff;
  rtc_time := λ _, 1370000000; rand_seeded := λ x, x mod 32768;
  localtime := λ _, mkTm 113 5 8 11 17 29; uninit := λ _, 0; file_works := λ _ _, false;
  disk_takes := λ _ _, 0%nat; timer_fires := λ _ _, 0%nat; config_opens := λ _, true
|}.

Definition heart_mail : GPRS_MAIL := mkGprsMail 1370000000 ALARM_TYPE_GPRS_HEART 0 U_none.
Definition heart_world (n : nat) : World :=
  set_gprs_mq (Some (mkQueue (repeat heart_mail n) MAIL_MAX_MSGS)) start_world.
Definition no_gsm_service : GsmService := bench_service (HB:=no_gsm_board) heart_ack heart_ack_wf.

Lemma eleven_failures_reset_witness :
  gprs_mail_process_loop (HB:=no_gsm_board) (HG:=no_gsm_service) 10 10 0 (heart_world 12) =
    Done 10 (set_gprs_mq (Some (mkQueue (repeat heart_mail 2) MAIL_MAX_MSGS)) (heart_world 12)) ∧
  gprs_mail_process_loop (HB:=no_gsm_board) (HG:=no_gsm_service) 10 11 0 (heart_world 12) =
    (gsm_setup (HB:=no_gsm_board) false ;;; mreturn 0)
      (set_gprs_mq (Some (mkQueue (repeat heart_mail 1) MAIL_MAX_MSGS)) (heart_world 12)).
Proof.
  apply (eleven_failures_reset (HB:=no_gsm_board) (HG:=no_gsm_service) 10 (repeat heart_mail 10)
    heart_mail (repeat heart_mail 1) MAIL_MAX_MSGS (heart_world 12)).
  - reflexivity.
  - reflexivity.
  - reflexivity.
Defined.
