(* ===== verification/GsmAt.v ===== *)
(** * AT commands (at_command_map, gsm_recv_frame, at_response_process and
      gsm_command of src/gsm.c)

    A command is written to the uart, then the lines of the modem's answer are
    read one by one: its echo, and what the command's case expects behind it.
    Reading a line starts over on an empty one, without a bound in the source;
    [fuel] is how often it may.  What [gsm_put_char] and [gsm_put_hex] print is
    not modelled, but their [strlen] is: a line that fills the buffer has no end
    for it. *)
From stdpp Require Import base strings list pretty sets.
From Stdlib Require Import ZArith Lia.
From S2P Require Import Prelude World Monad Untils GsmService.

(** ** The commands *)

(** [CR], a double quote and control-Z are written by their codes. *)
Definition cr : list Z := [0x0D].
Definition quoted (s : list Z) : list Z := 34 :: s ++ [34].

(** A command that is a constant, or the format of one with arguments; the entry
    of AT_CMMSDOWN_DATA is a null pointer. *)
Definition at_command_map (index : AT_COMMAND) : option (list Z) :=
  let c s := Some (bytes_of s ++ cr) in
  match index with
  | AT => c "AT" | AT_CNMI => c "AT+CNMI=2,1" | AT_CSCA => c "AT+CSCA?"
  | AT_CMGF => c "AT+CMGF=0" | AT_CPIN => c "AT+CPIN?" | AT_CSQ => c "AT+CSQ"
  | AT_CGREG => c "AT+CGREG?" | AT_CGATT => c "AT+CGATT?" | AT_CIPMODE => c "AT+CIPMODE=1"
  | AT_CSTT => c "AT+CSTT" | AT_CIICR => c "AT+CIICR" | AT_CIFSR => c "AT+CIFSR"
  | AT_CIPSHUT => c "AT+CIPSHUT" | AT_CIPSTATUS => c "AT+CIPSTATUS"
  | AT_CIPSTART =>
      Some (bytes_of "AT+CIPSTART=" ++ quoted (bytes_of "TCP") ++ bytes_of "," ++
            quoted (bytes_of "%s") ++ bytes_of ",%d" ++ cr)
  | AT_CMGS => c "AT+CMGS=%d" | AT_CMGS_SUFFIX => Some [] | ATO => c "ATO"
  | PLUS3 => Some (bytes_of "+++")
  | AT_CMMSINIT => c "AT+CMMSINIT" | AT_CMMSTERM => c "AT+CMMSTERM"
  | AT_CMMSCURL => Some (bytes_of "AT+CMMSCURL=" ++ quoted (bytes_of "mmsc.monternet.com") ++ cr)
  | AT_CMMSCID => c "AT+CMMSCID=1"
  | AT_CMMSPROTO =>
      Some (bytes_of "AT+CMMSPROTO=" ++ quoted (bytes_of "10.0.0.172") ++ bytes_of ",80" ++ cr)
  | AT_CMMSSENDCFG => c "AT+CMMSSENDCFG=6,3,0,0,2,4"
  | AT_SAPBR_CONTYPE =>
      Some (bytes_of "AT+SAPBR=3,1," ++ quoted (bytes_of "Contype") ++ bytes_of "," ++
            quoted (bytes_of "GPRS") ++ cr)
  | AT_SAPBR_APN_CMWAP =>
      Some (bytes_of "AT+SAPBR=3,1," ++ quoted (bytes_of "APN") ++ bytes_of "," ++
            quoted (bytes_of "CMWAP") ++ cr)
  | AT_SAPBR_APN_CMNET =>
      Some (bytes_of "AT+SAPBR=3,1," ++ quoted (bytes_of "APN") ++ bytes_of "," ++
            quoted (bytes_of "CMNET") ++ cr)
  | AT_SAPBR_OPEN => c "AT+SAPBR=1,1" | AT_SAPBR_CLOSE => c "AT+SAPBR=0,1"
  | AT_SAPBR_REQUEST => c "AT+SAPBR=2,1"
  | AT_CMMSEDIT_OPEN => c "AT+CMMSEDIT=1" | AT_CMMSEDIT_CLOSE => c "AT+CMMSEDIT=0"
  | AT_CMMSDOWN_PIC =>
      Some (bytes_of "AT+CMMSDOWN=" ++ quoted (bytes_of "PIC") ++ bytes_of ",%d,50000" ++ cr)
  | AT_CMMSDOWN_TITLE =>
      Some (bytes_of "AT+CMMSDOWN=" ++ quoted (bytes_of "TITLE") ++ bytes_of ",%d,50000" ++ cr)
  | AT_CMMSDOWN_TEXT =>
      Some (bytes_of "AT+CMMSDOWN=" ++ quoted (bytes_of "TEXT") ++ bytes_of ",%d,50000" ++ cr)
  | AT_CMMSDOWN_DATA => None
  | AT_CMMSRECP => Some (bytes_of "AT+CMMSRECP=" ++ quoted (bytes_of "%s") ++ cr)
  | AT_CMMSSEND => c "AT+CMMSSEND" | AT_CLCC => c "AT+CLCC" | ATA => c "ATA"
  | ATH5 => c "ATH5" | AT_RING => Some [] | AT_RECV_SMS => Some [] | ATI => c "ATI"
  | AT_GSV => c "AT+GSV" | AT_V => c "AT&V" | AT_D1 => c "AT&D1" | AT_W => c "AT&W"
  | AT_HTTPINIT => c "AT+HTTPINIT" | AT_HTTPTERM => c "AT+HTTPTERM"
  | AT_HTTPPARA_CID => Some (bytes_of "AT+HTTPPARA=" ++ quoted (bytes_of "CID") ++ bytes_of ",1" ++ cr)
  | AT_HTTPPARA_URL =>
      Some (bytes_of "AT+HTTPPARA=" ++ quoted (bytes_of "URL") ++ bytes_of "," ++
            quoted (bytes_of "%s") ++ cr)
  | AT_HTTPACTION_POST => c "AT+HTTPACTION=1" | AT_HTTPACTION_GET => c "AT+HTTPACTION=0"
  | AT_HTTPACTION_HEAD => c "AT+HTTPACTION=2"
  | AT_HTTPREAD => c "AT+HTTPREAD=%d,%d"
  | AT_HTTPPARA_BREAK =>
      Some (bytes_of "AT+HTTPPARA=" ++ quoted (bytes_of "BREAK") ++ bytes_of ",%d" ++ cr)
  | AT_HTTPPARA_BREAKEND =>
      Some (bytes_of "AT+HTTPPARA=" ++ quoted (bytes_of "BREAKEND") ++ bytes_of ",%d" ++ cr)
  end.

(** ** rt_sprintf with the conversions the formats use *)

Inductive PRINTF_ARG := PA_d (x : Z) | PA_s (s : list Z).

(** A 32-bit argument is printed as a signed number. *)
Definition s32 (x : Z) : Z := (x + 2 ^ 31) mod 2 ^ 32 - 2 ^ 31.
Definition decimal (x : Z) : list Z := bytes_of (pretty (s32 x)).

(** [None]: an argument is missing or has another type. *)
Fixpoint rt_sprintf (fmt : list Z) (args : list PRINTF_ARG) : option (list Z) :=
  match fmt with
  | [] => Some []
  | 0x25 :: 0x64 :: fmt =>
      match args with PA_d x :: args => app (decimal x) <$> rt_sprintf fmt args | _ => None end
  | 0x25 :: 0x73 :: fmt =>
      match args with PA_s s :: args => app s <$> rt_sprintf fmt args | _ => None end
  | c :: fmt => cons c <$> rt_sprintf fmt args
  end.

(** The arguments of a command that has some *)
Definition command_args (index : AT_COMMAND) (p : DEVICE_PARAMETERS) (cmd_data : GSM_CMD_DATA)
  : option (list PRINTF_ARG) :=
  match index, cmd_data with
  | AT_HTTPPARA_BREAK, CD_httppara_break start => Some [PA_d start]
  | AT_HTTPPARA_BREAKEND, CD_httppara_breakend end_ => Some [PA_d end_]
  | AT_HTTPPARA_URL, CD_httppara_url _ buf => (λ s, [PA_s s]) <$> cstr buf
  | AT_HTTPREAD, CD_httpread start size => Some [PA_d start; PA_d size]
  | AT_CIPSTART, _ => (λ s, [PA_s s; PA_d (port (tcp_domain p))]) <$> cstr (domain (tcp_domain p))
  | AT_CMGS, CD_cmgs length _ => Some [PA_d length]
  | AT_CMMSRECP, CD_cmmsrecp buf => (λ s, [PA_s s]) <$> cstr buf
  | AT_CMMSDOWN_PIC, CD_cmmsdown_pic length => Some [PA_d length]
  | AT_CMMSDOWN_TITLE, CD_cmmsdown_title length => Some [PA_d length]
  | AT_CMMSDOWN_TEXT, CD_cmmsdown_text length => Some [PA_d length]
  | _, _ => None
  end.

(** ** sscanf with the formats of at_response_process *)

Fixpoint span (p : Z → bool) (l : list Z) : list Z * list Z :=
  match l with
  | x :: l' => if p x then let '(a, b) := span p l' in (x :: a, b) else ([], l)
  | [] => ([], [])
  end.

Definition not_quote (c : Z) : bool := negb (c =? 34).

(** A literal of the format *)
Fixpoint scan_literal (lit l : list Z) : option (list Z) :=
  match lit, l with
  | [], l => Some l
  | x :: lit, y :: l => if x =? y then scan_literal lit l else None
  | _ :: _, [] => None
  end.

(** The formats [%*[^Q]QP%[^Q]], Q being the double quote and P the literal [prefix]: the text
    in the first pair of quotes, behind the prefix; [None] if nothing is stored *)
Definition scan_quoted (prefix l : list Z) : option (list Z) :=
  match span not_quote l with
  | ([], _) => None
  | (_, rest) =>
      match scan_literal (34 :: prefix) rest with
      | Some rest => match span not_quote rest with ([], _) => None | (s, _) => Some s end
      | None => None
      end
  end.

Definition is_space (c : Z) : bool := (c =? 32) || ((9 <=? c) && (c <=? 13)).
Definition is_digit (c : Z) : bool := (48 <=? c) && (c <=? 57).

Definition digits_value (l : list Z) : Z := fold_left (λ acc c, 10 * acc + (c - 48)) l 0.

(** [%d] *)
Definition scan_d (l : list Z) : option (Z * list Z) :=
  let '(_, l) := span is_space l in
  let '(sign, l) := match l with
                    | 0x2D :: l => (-1, l)
                    | 0x2B :: l => (1, l)
                    | _ => (1, l)
                    end in
  match span is_digit l with
  | ([], _) => None
  | (ds, rest) => Some (sign * digits_value ds, rest)
  end.

(** A number that does not fit an [int] is undefined. *)
Definition int_range (x : Z) : bool := (- 2 ^ 31 <=? x) && (x <? 2 ^ 31).

(** ** Reading a line *)

Definition crlf : list Z := [0x0D; 0x0A].

(** [strstr] in a buffer of [cap] bytes, zero behind the [frame]: it may not
    read past the end. *)
Definition buf_strstr (cap : nat) (frame needle : list Z) : option bool :=
  match cstr (pad cap frame) with
  | Some s => Some (strstr s needle)
  | None => if strstr frame needle then Some true else None
  end.

Section at_commands.
Context {HB : Board}.

(** How the inner loop of [gsm_recv_frame] ends: a line, or an empty one, after
    which it starts again *)
Inductive LINE := Line (frame : list Z) | Rescan.

(** [while (counts < 512)]: every attempt reads at most a byte. *)
Fixpoint recv_bytes (cap : nat) (todo : nat) (frame : list Z) : M LINE :=
  match todo with
  | O => mreturn (Line frame)
  | S todo =>
      r <- gsm_uart_read 1 ;;
      match r with
      | temp :: _ =>
          let frame := frame ++ [temp] in
          if (cap <? length frame)%nat then fault
          else
            found <- deref (buf_strstr cap frame crlf) ;;
            if (found : bool) then
              mreturn (if (length frame =? 2)%nat then Rescan else Line frame)
            else recv_bytes cap todo frame
      | [] => recv_bytes cap todo frame
      end
  end.

Fixpoint gsm_recv_frame (fuel : nat) (cap : nat) : M (list Z) :=
  match fuel with
  | O => nofuel
  | S fuel =>
      l <- recv_bytes cap 512 [] ;;
      match l with Line frame => mreturn frame | Rescan => gsm_recv_frame fuel cap end
  end.

Variable fuel : nat.

(** A line into the zeroed [process_buf]: was there one, and the string there *)
Definition recv_line (cap : nat) : M (bool * list Z) :=
  frame <- gsm_recv_frame fuel cap ;;
  text <- deref (cstr (pad cap frame)) ;;
  mreturn (negb (length frame =? 0)%nat, text).

(** [at_response_process] *)

Definition ANSWER : Type := Z * GSM_ANSWER.
Definition answer (result : Z) : ANSWER := (result, GA_none).
Definition error : ANSWER := answer AT_RESPONSE_ERROR.

(** The next line, an error if there is none *)
Definition next_line (k : list Z → M ANSWER) : M ANSWER :=
  both received text <- recv_line 512 ;;
  if (received : bool) then k text else mreturn error.

Definition ok_if (b : bool) (result : Z) : M ANSWER :=
  mreturn (if b then answer result else error).

(** [while (delay_counts++ < n)]: wait for a line *)
Fixpoint wait_line (n : nat) (k : list Z → M ANSWER) : M ANSWER :=
  match n with
  | O => mreturn error
  | S n =>
      rt_thread_delay 200 ;;;
      both received text <- recv_line 512 ;;
      if (received : bool) then k text else wait_line n k
  end.

(** The line behind the one in [process_buf], at offset 200, must say OK; then
    [k] gets what is in the whole of [process_buf]. *)
Definition two_lines (k : list Z → M ANSWER) : M ANSWER :=
  frame <- gsm_recv_frame fuel 512 ;;
  text <- deref (cstr (pad 512 frame)) ;;
  if (length frame =? 0)%nat then mreturn error
  else if strstr text (bytes_of "ERROR") then mreturn error
  else
    frame' <- gsm_recv_frame fuel 312 ;;
    text' <- deref (cstr (pad 312 frame')) ;;
    if (length frame' =? 0)%nat then mreturn error
    else if strstr text' (bytes_of "OK") then
      s <- deref (cstr (take 200 (pad 512 frame) ++ pad 312 frame')) ;; k s
    else mreturn error.

(** The string [sscanf] stores, in the zeroed array of 20 characters *)
Definition store_scanned (prefix s : list Z) : M (list Z) :=
  match scan_quoted prefix s with
  | None => mreturn (repeat 0 20)
  | Some n => if (length n <? 20)%nat then mreturn (pad 20 n) else fault
  end.

Definition http_result (temp : Z) : Z :=
  if temp =? 200 then AT_RESPONSE_OK
  else if temp =? 206 then AT_RESPONSE_PARTIAL_CONTENT
  else if temp =? 400 then AT_RESPONSE_BAD_REQUEST
  else if temp =? 602 then AT_RESPONSE_NO_MEMORY
  else AT_RESPONSE_ERROR.

(** [sscanf (process_buf, "+HTTPACTION:0,%d,%d", &temp, &aip_bin_size)]: the
    new [temp] *)
Definition scan_httpaction (text : list Z) : M Z :=
  match scan_literal (bytes_of "+HTTPACTION:0,") text with
  | None => mreturn 0
  | Some rest =>
      match scan_d rest with
      | None => mreturn 0
      | Some (temp, rest) =>
          if negb (int_range temp) then fault
          else
            match match scan_literal (bytes_of ",") rest with
                  | Some rest => scan_d rest | None => None end with
            | None => mreturn temp
            | Some (size, _) =>
                if int_range size then upd (set_aip_bin_size size) ;;; mreturn temp else fault
            end
      end
  end.

Fixpoint wait_httpaction (n : nat) : M ANSWER :=
  match n with
  | O => mreturn error
  | S n =>
      rt_thread_delay 200 ;;;
      both received text <- recv_line 512 ;;
      if (received : bool) && strstr text (bytes_of "+HTTPACTION:0") then
        temp <- scan_httpaction text ;; mreturn (answer (http_result temp))
      else wait_httpaction n
  end.

(** The data of AT_HTTPREAD, of the length its line announces *)
Definition read_http (text : list Z) : M ANSWER :=
  if strstr text (bytes_of "+HTTPREAD:") then
    let temp := match scan_literal (bytes_of "+HTTPREAD:") text with
                | Some rest => match scan_d rest with Some (temp, _) => temp | None => 0 end
                | None => 0
                end in
    if negb (int_range temp) then fault
    else if temp <=? 512 then
      (* a negative number is a huge one for [rt_device_read] *)
      if temp <? 0 then fault
      else
        data <- gsm_uart_read (Z.to_nat temp) ;;
        if (length data =? 0)%nat then mreturn error
        else
          both received line <- recv_line 512 ;;
          mreturn (if (received : bool) && strstr line (bytes_of "OK") then AT_RESPONSE_OK
                   else AT_RESPONSE_ERROR, GA_httpread data)
    else mreturn error
  else mreturn error.

(** What a case makes of a line: [None] is [break], wait for the next one *)
Definition after_echo (echo : option (list Z)) (text : list Z) (k : M ANSWER)
  : M (option ANSWER) :=
  echo <- deref echo ;;
  if strstr text echo then r <- k ;; mreturn (Some r) else mreturn None.

Definition at_case (index : AT_COMMAND) (buf : list Z) (text : list Z) : M (option ANSWER) :=
  let map_echo := after_echo (at_command_map index) text in
  let buf_echo := after_echo (Some buf) text in
  let ok t := ok_if (strstr t (bytes_of "OK")) AT_RESPONSE_OK in
  match index with
  | AT | AT_D1 | AT_W | AT_CNMI | AT_CMGF | AT_CPIN | AT_CIPMODE | AT_CSTT | AT_CIPSHUT
  | AT_CMMSINIT | AT_CMMSTERM | AT_HTTPINIT | AT_HTTPTERM | AT_HTTPPARA_CID | AT_CMMSCID
  | AT_CMMSCURL | AT_CMMSPROTO | AT_CMMSSENDCFG | AT_SAPBR_CONTYPE | AT_SAPBR_APN_CMWAP
  | AT_SAPBR_APN_CMNET | AT_SAPBR_CLOSE | AT_CMMSEDIT_OPEN | AT_CMMSEDIT_CLOSE | ATA | ATH5 =>
      map_echo (next_line ok)
  | AT_CMMSRECP | AT_HTTPPARA_BREAK | AT_HTTPPARA_BREAKEND | AT_HTTPPARA_URL =>
      buf_echo (next_line ok)
  | AT_CIICR | AT_SAPBR_OPEN => map_echo (wait_line 10 ok)
  | AT_CMMSSEND => map_echo (wait_line 100 ok)
  | AT_SAPBR_REQUEST => map_echo (two_lines (λ _, mreturn (answer AT_RESPONSE_OK)))
  | AT_CSCA => map_echo (two_lines (λ s,
      n <- store_scanned (bytes_of "+") s ;;
      upd (set_smsc n) ;;; mreturn (answer AT_RESPONSE_OK)))
  | AT_HTTPACTION_GET =>
      map_echo (next_line (λ t,
        if strstr t (bytes_of "OK") then wait_httpaction 100 else mreturn error))
  | AT_HTTPREAD => buf_echo (next_line read_http)
  | AT_CIFSR => map_echo (next_line (λ _, mreturn (answer AT_RESPONSE_OK)))
  | AT_CIPSTATUS =>
      map_echo (next_line (λ t,
        if strstr t (bytes_of "OK") then
          next_line (λ t,
            if strstr t (bytes_of "CONNECT OK") then mreturn (answer AT_RESPONSE_CONNECT_OK)
            else ok_if (strstr t (bytes_of "TCP CLOSED")) AT_RESPONSE_TCP_CLOSED)
        else mreturn error))
  | AT_CIPSTART =>
      buf_echo (next_line (λ t,
        if strstr t (bytes_of "OK") then
          wait_line 10 (λ t, ok_if (strstr t (bytes_of "CONNECT")) AT_RESPONSE_CONNECT_OK)
        else mreturn error))
  | AT_CMGS => buf_echo (next_line (λ t, ok_if (strstr t (bytes_of ">")) AT_RESPONSE_OK))
  | AT_CMGS_SUFFIX =>
      buf_echo (next_line (λ t,
        if strstr t (bytes_of "+CMGS:") then next_line ok else mreturn error))
  | ATO =>
      map_echo (next_line (λ t,
        if strstr t (bytes_of "NO CARRIER") then mreturn (answer AT_RESPONSE_NO_CARRIER)
        else ok_if (strstr t (bytes_of "CONNECT")) AT_RESPONSE_OK))
  | PLUS3 => r <- ok text ;; mreturn (Some r)
  | AT_CMMSDOWN_PIC | AT_CMMSDOWN_TITLE | AT_CMMSDOWN_TEXT =>
      buf_echo (next_line (λ t, ok_if (strstr t (bytes_of "CONNECT")) AT_RESPONSE_CONNECT_OK))
  | AT_CMMSDOWN_DATA =>
      mreturn (if strstr text (bytes_of "OK") then Some (answer AT_RESPONSE_OK) else None)
  | AT_RING =>
      mreturn (if strstr text (bytes_of "RING") then Some (answer AT_RESPONSE_OK) else None)
  | AT_CLCC => map_echo (two_lines (λ s,
      n <- store_scanned [] s ;;
      upd (set_phone_call n) ;;; mreturn (answer AT_RESPONSE_OK)))
  | _ => mreturn (Some error)
  end.

(** [while (counts < 10)]; [no_response_counts] lines were missing *)
Fixpoint at_lines (index : AT_COMMAND) (buf : list Z) (todo no_response_counts : nat) : M ANSWER :=
  match todo with
  | O => mreturn (answer (if (10 <=? no_response_counts)%nat then AT_NO_RESPONSE
                          else AT_RESPONSE_ERROR))
  | S todo =>
      both received text <- recv_line 512 ;;
      if (received : bool) then
        r <- at_case index buf text ;;
        match r with
        | Some r => mreturn r
        | None => rt_thread_delay 20 ;;; at_lines index buf todo no_response_counts
        end
      else rt_thread_delay 20 ;;; at_lines index buf todo (S no_response_counts)
  end.

Definition at_response_process (index : AT_COMMAND) (buf : list Z) : M ANSWER :=
  at_lines index buf 10 0.

(** ** gsm_command *)

(** [rt_sprintf] into [process_buf]; what is there *)
Definition format_command (index : AT_COMMAND) (cmd_data : GSM_CMD_DATA) : M (list Z) :=
  p <- get params ;;
  fmt <- deref (at_command_map index) ;;
  args <- deref (command_args index p cmd_data) ;;
  s <- deref (rt_sprintf fmt args) ;;
  if (length s <? 512)%nat then mreturn s else fault.

(** What is written, and is left in [process_buf] for the response *)
Definition write_command (index : AT_COMMAND) (cmd_data : GSM_CMD_DATA) : M (list Z) :=
  match index with
  | AT_HTTPPARA_BREAK | AT_HTTPPARA_BREAKEND | AT_HTTPPARA_URL | AT_HTTPREAD | AT_CIPSTART
  | AT_CMGS | AT_CMMSRECP | AT_CMMSDOWN_PIC | AT_CMMSDOWN_TITLE | AT_CMMSDOWN_TEXT =>
      s <- format_command index cmd_data ;;
      uart_write DEV_GSM_USART s ;;; mreturn s
  | AT_CMMSDOWN_DATA =>
      match cmd_data with
      | CD_cmmsdown_data length buf _ =>
          if (0 <=? length) && (length <=? 512) && (length <=? Z.of_nat (List.length buf)) then
            uart_write DEV_GSM_USART (take (Z.to_nat length) buf) ;;; mreturn []
          else fault
      | _ => fault
      end
  | PLUS3 =>
      rt_thread_delay 150 ;;;
      s <- deref (at_command_map index) ;; uart_write DEV_GSM_USART s ;;; mreturn []
  | AT_RING | AT_RECV_SMS => mreturn []
  | _ => s <- deref (at_command_map index) ;; uart_write DEV_GSM_USART s ;;; mreturn []
  end.

(** The text of a message, written after the prompt *)
Definition send_cmgs_text (cmd_data : GSM_CMD_DATA) : M ANSWER :=
  match cmd_data with
  | CD_cmgs _ buf =>
      text <- deref (cstr buf) ;;
      if (length text <? 512)%nat then
        uart_write DEV_GSM_USART text ;;; uart_write DEV_GSM_USART [0x1A] ;;;
        rt_thread_delay 600 ;;;
        at_response_process AT_CMGS_SUFFIX text
      else fault
  | _ => fault
  end.

Definition incomplete (index : AT_COMMAND) (cmd_data : GSM_CMD_DATA) : bool :=
  match index, cmd_data with
  | AT_CMMSDOWN_DATA, CD_cmmsdown_data _ _ has_complete => has_complete =? 0
  | _, _ => false
  end.

Definition gsm_command (index : AT_COMMAND) (delay : Z) (cmd_data : GSM_CMD_DATA) : M ANSWER :=
  process_buf <- write_command index cmd_data ;;
  if incomplete index cmd_data then mreturn (answer AT_RESPONSE_OK)
  else
    rt_thread_delay delay ;;;
    r <- at_response_process index process_buf ;;
    if bool_decide (index = AT_CMGS) then
      if fst r =? AT_RESPONSE_OK then send_cmgs_text cmd_data else mreturn error
    else mreturn r.
End at_commands.

(** ** The commands keep the invariant *)

Lemma cstr_has_zero l : 0 ∈ l → ∃ s, cstr l = Some s.
Proof.
  induction l as [|x l IH]; intros H; [by apply not_elem_of_nil in H|].
  cbn [cstr]. destruct (Z.eqb_spec x 0); [by exists []|].
  apply elem_of_cons in H as [?|H]; [congruence|].
  destruct (IH H) as [s ->]. by exists (x :: s).
Qed.

Lemma pad_terminated n l : (length l < n)%nat → terminated n (pad n l).
Proof.
  intros H. split; [apply pad_length; lia|]. apply cstr_has_zero, elem_of_app. right.
  destruct (n - length l)%nat as [|k] eqn:E; [lia|]. simpl. apply elem_of_cons. by left.
Qed.

Section keeps_at.
Context {HB : Board}.

Definition wf_answer (r : ANSWER) : Prop := answer_wf (snd r).

Lemma keeps_recv_bytes cap todo : ∀ frame, keeps wf (recv_bytes cap todo frame) (λ _, True).
Proof.
  induction todo as [|todo IH]; intros frame; cbn [recv_bytes]; [by apply keeps_return|].
  apply keeps_then; [apply runs_keeps; eapply safe_weaken, runs_gsm_read|intros [|temp r]]; [apply IH|].
  cbv zeta. apply keeps_if; intros _; [apply keeps_fault|].
  apply keeps_then; [by apply keeps_deref|intros found].
  apply keeps_if; intros _; [by apply keeps_return|apply IH].
Qed.

Lemma keeps_recv_frame fuel cap : keeps wf (gsm_recv_frame fuel cap) (λ _, True).
Proof.
  induction fuel as [|fuel IH]; cbn [gsm_recv_frame]; [apply keeps_nofuel|].
  apply keeps_then; [apply keeps_recv_bytes|]. intros [frame|]; [by apply keeps_return|apply IH].
Qed.

Variable fuel : nat.

Lemma keeps_recv_line cap : keeps wf (recv_line fuel cap) (λ _, True).
Proof.
  unfold recv_line. apply keeps_then; [apply keeps_recv_frame|intros frame].
  apply keeps_then; [by apply keeps_deref|intros text]. by apply keeps_return.
Qed.

Lemma keeps_ok_if b r : keeps wf (ok_if b r) wf_answer.
Proof. apply keeps_return. by destruct b. Qed.

Lemma keeps_next_line k : (∀ t, keeps wf (k t) wf_answer) → keeps wf (next_line fuel k) wf_answer.
Proof.
  intros Hk. unfold next_line. apply keeps_then; [apply keeps_recv_line|intros [b t]].
  apply keeps_if; intros _; [apply Hk|by apply keeps_return].
Qed.

Lemma keeps_wait_line n k :
  (∀ t, keeps wf (k t) wf_answer) → keeps wf (wait_line fuel n k) wf_answer.
Proof.
  intros Hk. induction n as [|n IH]; cbn [wait_line]; [by apply keeps_return|].
  apply keeps_then; [apply runs_keeps, runs_emit|intros _].
  apply keeps_then; [apply keeps_recv_line|intros [b t]].
  apply keeps_if; intros _; [apply Hk|apply IH].
Qed.

Lemma keeps_two_lines k : (∀ t, keeps wf (k t) wf_answer) → keeps wf (two_lines fuel k) wf_answer.
Proof.
  intros Hk. unfold two_lines.
  apply keeps_then; [apply keeps_recv_frame|intros f1].
  apply keeps_then; [by apply keeps_deref|intros t1].
  do 2 (apply keeps_if; intros _; [by apply keeps_return|]).
  apply keeps_then; [apply keeps_recv_frame|intros f2].
  apply keeps_then; [by apply keeps_deref|intros t2].
  apply keeps_if; intros _; [by apply keeps_return|].
  apply keeps_if; intros _; [|by apply keeps_return].
  apply keeps_then; [by apply keeps_deref|]. apply Hk.
Qed.

Lemma keeps_store_scanned prefix s : keeps wf (store_scanned prefix s) (terminated 20).
Proof.
  unfold store_scanned. destruct (scan_quoted prefix s) as [n|].
  - apply keeps_if; intros H; [|apply keeps_fault]. apply keeps_return, pad_terminated.
    by apply Nat.ltb_lt.
  - apply keeps_return. apply (pad_terminated 20 []). simpl. lia.
Qed.

Lemma keeps_scan_httpaction t : keeps wf (scan_httpaction t) (λ _, True).
Proof.
  unfold scan_httpaction. repeat (case_match; try (by apply keeps_return); try apply keeps_fault).
  all: apply keeps_then; [apply runs_keeps, runs_upd; by intros ? []|].
  all: intros; by apply keeps_return.
Qed.

Lemma keeps_wait_httpaction n : keeps wf (wait_httpaction fuel n) wf_answer.
Proof.
  induction n as [|n IH]; cbn [wait_httpaction]; [by apply keeps_return|].
  apply keeps_then; [apply runs_keeps, runs_emit|intros _].
  apply keeps_then; [apply keeps_recv_line|intros [b t]].
  apply keeps_if; intros _; [|apply IH].
  apply keeps_then; [apply keeps_scan_httpaction|]. intros. by apply keeps_return.
Qed.

Lemma keeps_read_http t : keeps wf (read_http fuel t) wf_answer.
Proof.
  unfold read_http. apply keeps_if; intros _; [|by apply keeps_return].
  set (temp := match scan_literal _ _ with Some _ => _ | None => 0 end). clearbody temp.
  apply keeps_if; intros _; [apply keeps_fault|].
  apply keeps_if; intros H512; [|by apply keeps_return].
  apply keeps_if; intros _; [apply keeps_fault|].
  eapply keeps_seq; [apply runs_keeps, runs_gsm_read|]. intros d [Hl Hb].
  apply keeps_if; intros _; [by apply keeps_return|].
  apply keeps_then; [apply keeps_recv_line|intros [b l]]. apply keeps_return.
  apply Z.leb_le in H512. split; [lia|done].
Qed.

Lemma keeps_after_echo e t k :
  keeps wf k wf_answer → keeps wf (after_echo e t k) (λ r, ∀ a, r = Some a → wf_answer a).
Proof.
  intros Hk. unfold after_echo. apply keeps_then; [by apply keeps_deref|intros echo].
  apply keeps_if; intros _; [|by apply keeps_return].
  eapply keeps_seq; [exact Hk|]. intros r Hr. apply keeps_return. by intros a [= <-].
Qed.

Lemma keeps_at_case index buf text :
  keeps wf (at_case fuel index buf text) (λ r, ∀ a, r = Some a → wf_answer a).
Proof.
  assert (∀ t, keeps wf (ok_if (strstr t (bytes_of "OK")) AT_RESPONSE_OK) wf_answer) as Hok
    by (intros; apply keeps_ok_if).
  assert (∀ t, keeps wf (mreturn (A:=ANSWER) (answer t)) wf_answer) as Hans
    by (intros; by apply keeps_return).
  unfold at_case. cbv zeta. destruct index;
    try (apply keeps_return; intros a; try case_match; by intros [= <-]);
    try (apply keeps_after_echo;
      first [ apply keeps_next_line; intros t
            | apply keeps_wait_line; intros t
            | apply keeps_two_lines; intros t ];
      try apply Hok; try apply Hans; try apply keeps_ok_if; try apply keeps_read_http).
  - eapply keeps_seq; [apply keeps_store_scanned|]. intros n Hn.
    apply keeps_then; [|intros; apply Hans]. apply runs_keeps, runs_upd. intros w []. by split.
  - apply keeps_if; intros _; [|apply Hans]. apply keeps_next_line. intros t'.
    apply keeps_if; intros _; [apply Hans|apply keeps_ok_if].
  - apply keeps_if; intros _; [|apply Hans]. apply keeps_wait_line. intros. apply keeps_ok_if.
  - apply keeps_if; intros _; [|apply Hans]. apply keeps_next_line. apply Hok.
  - apply keeps_if; intros _; [apply Hans|apply keeps_ok_if].
  - eapply keeps_seq; [apply keeps_store_scanned|]. intros n Hn.
    apply keeps_then; [|intros; apply Hans]. apply runs_keeps, runs_upd. intros w []. by split.
  - apply keeps_if; intros _; [apply keeps_wait_httpaction|apply Hans].
Qed.

Lemma keeps_at_lines index buf todo : ∀ n, keeps wf (at_lines fuel index buf todo n) wf_answer.
Proof.
  induction todo as [|todo IH]; intros n; cbn [at_lines]; [by apply keeps_return|].
  apply keeps_then; [apply keeps_recv_line|intros [b t]].
  apply keeps_if; intros _.
  - eapply keeps_seq; [apply keeps_at_case|]. intros [r|] Hr; [apply keeps_return; by apply Hr|].
    apply keeps_then; [apply runs_keeps, runs_emit|intros _]. apply IH.
  - apply keeps_then; [apply runs_keeps, runs_emit|intros _]. apply IH.
Qed.

Lemma keeps_deref_write (o : option (list Z)) :
  keeps wf (s <- deref o ;; uart_write DEV_GSM_USART s ;;; mreturn []) (λ _ : list Z, True).
Proof.
  apply keeps_then; [by apply keeps_deref|intros s].
  apply keeps_then; [apply runs_keeps, runs_emit|intros _]. by apply keeps_return.
Qed.

Lemma keeps_format index cmd_data :
  keeps wf (s <- format_command index cmd_data ;; uart_write DEV_GSM_USART s ;;; mreturn s)
    (λ _ : list Z, True).
Proof.
  apply keeps_then.
  - unfold format_command. apply keeps_then; [by apply runs_keeps, runs_get|intros p].
    do 3 (apply keeps_then; [by apply keeps_deref|intros ?]).
    apply keeps_if; intros _; [by apply keeps_return|apply keeps_fault].
  - intros s. apply keeps_then; [apply runs_keeps, runs_emit|intros _]. by apply keeps_return.
Qed.

Lemma keeps_write index cmd_data : keeps wf (write_command index cmd_data) (λ _, True).
Proof.
  unfold write_command. destruct index;
    try apply keeps_format; try apply keeps_deref_write; try by apply keeps_return.
  - apply keeps_then; [apply runs_keeps, runs_emit|intros _]. apply keeps_deref_write.
  - destruct cmd_data; try apply keeps_fault. apply keeps_if; intros _; [|apply keeps_fault].
    apply keeps_then; [apply runs_keeps, runs_emit|intros _]. by apply keeps_return.
Qed.

Lemma gsm_command_keeps index delay cmd_data :
  keeps wf (gsm_command fuel index delay cmd_data) wf_answer.
Proof.
  unfold gsm_command. apply keeps_then; [apply keeps_write|intros buf].
  apply keeps_if; intros _; [by apply keeps_return|].
  apply keeps_then; [apply runs_keeps, runs_emit|intros _].
  eapply keeps_seq; [apply keeps_at_lines|]. intros r Hr.
  apply keeps_if; intros _; [|by apply keeps_return].
  apply keeps_if; intros _; [|by apply keeps_return].
  unfold send_cmgs_text. destruct cmd_data; try apply keeps_fault.
  apply keeps_then; [by apply keeps_deref|intros text].
  apply keeps_if; intros _; [|apply keeps_fault].
  do 3 (apply keeps_then; [apply runs_keeps, runs_emit|intros _]). apply keeps_at_lines.
Qed.
End keeps_at.

(** ** What a line is *)

Section lines.
Context {HB : Board}.

(** Nothing more arrives. *)
Definition uart_quiet (w : World) : Prop :=
  ∀ t, (now w <= t)%nat → uart_arrivals DEV_GSM_USART t = [].

(** The state after [reads] reads that left [rest] in the receive buffer *)
Definition after_reads (reads : nat) (rest : list Z) (w : World) : World :=
  set_gsm_rx rest (set_now (reads + now w) w).

Lemma after_reads_quiet n r w : uart_quiet w → uart_quiet (after_reads n r w).
Proof. intros H t Ht. apply H. simpl in Ht. lia. Qed.

Lemma after_reads_after n r m r' w : after_reads n r (after_reads m r' w) = after_reads (n + m) r w.
Proof. world_eq. simpl. lia. Qed.

Lemma read_byte x rest w :
  uart_quiet w → byte x → gsm_rx w = x :: rest →
  gsm_uart_read 1 w = Done [x] (after_reads 1 rest w).
Proof.
  intros Hq Hx Hr. unfold gsm_uart_read. rewrite (Hq (now w)), Hr, app_nil_r by done.
  simpl. by rewrite wrap_small, drop_0.
Qed.

Lemma read_nothing n w :
  uart_quiet w → gsm_rx w = [] → gsm_uart_read n w = Done [] (after_reads 1 [] w).
Proof.
  intros Hq Hr. unfold gsm_uart_read. rewrite (Hq (now w)), Hr by done. simpl.
  by rewrite take_nil, drop_nil.
Qed.

Lemma not_in_snoc (x y : Z) l : y ∉ l → y ≠ x → y ∉ l ++ [x].
Proof. intros H Hx Hin. apply elem_of_app in Hin as [Hin|Hin]; [done|]. by apply list_elem_of_singleton in Hin. Qed.

Lemma strstr_crlf l : 0x0A ∉ l → strstr l crlf = false.
Proof.
  intros Hn. destruct (strstr l crlf) eqn:E; [|done]. apply strstr_spec in E as (i & H1 & H2).
  destruct Hn. assert (0x0A ∈ take (length crlf) (drop i l)) as H by (rewrite H2; set_solver).
  rewrite <- (take_drop i l), <- (take_drop (length crlf) (drop i l)). set_solver.
Qed.

Lemma strstr_app l n : (strstr (l ++ n) n) = true.
Proof.
  apply strstr_spec. exists (length l). split; [rewrite length_app; lia|].
  by rewrite drop_app_length, firstn_all.
Qed.

Lemma cstr_app_zero l r : 0 ∉ l → cstr (l ++ 0 :: r) = Some l.
Proof.
  induction l as [|x l IH]; intros H; simpl; [done|].
  apply not_elem_of_cons in H as [Hx H]. destruct (Z.eqb_spec x 0); [congruence|]. by rewrite IH.
Qed.

Lemma cstr_pad n l : 0 ∉ l → (length l < n)%nat → cstr (pad n l) = Some l.
Proof.
  intros H Hl. unfold pad. destruct (n - length l)%nat as [|k] eqn:E; [lia|]. simpl.
  by apply cstr_app_zero.
Qed.

(** The characters of a line before its end *)
Definition line_char (x : Z) : Prop := byte x ∧ x ≠ 0 ∧ x ≠ 0x0A.

#[global] Instance line_char_dec x : Decision (line_char x).
Proof. unfold line_char. apply _. Defined.

Lemma line_chars l : Forall line_char l → Forall byte l ∧ (0 ∉ l) ∧ (0x0A ∉ l).
Proof.
  intros H. split; [eapply Forall_impl; [exact H|]; by intros x (?&_)|].
  rewrite Forall_forall in H. split; intros Hin; by destruct (H _ Hin) as (_ & ? & ?).
Qed.

(** Reading the rest of a line and its end *)
Lemma recv_bytes_line cap suf : ∀ pre todo rest w,
  uart_quiet w → Forall line_char pre → Forall line_char suf →
  gsm_rx w = suf ++ crlf ++ rest → (length pre + length suf + 2 < cap)%nat →
  (length suf + 2 <= todo)%nat →
  recv_bytes cap todo pre w =
    Done (if (length (pre ++ suf) =? 0)%nat then Rescan else Line (pre ++ suf ++ crlf))
      (after_reads (length suf + 2) rest w).
Proof.
  assert (∀ x pre w rest todo, uart_quiet w → byte x → gsm_rx w = x :: rest →
    x ≠ 0 → 0 ∉ pre → (S (length pre) < cap)%nat →
    recv_bytes cap (S todo) pre w =
      (if strstr (pre ++ [x]) crlf then mreturn (if (length (pre ++ [x]) =? 2)%nat then Rescan else Line (pre ++ [x]))
       else recv_bytes cap todo (pre ++ [x])) (after_reads 1 rest w)) as Hstep.
  { intros x pre w rest todo Hq Hx Hr Hx0 Hpre Hlen. cbn [recv_bytes]. unfold mseq at 1.
    rewrite (read_byte x rest w) by done. cbv beta zeta.
    destruct (Nat.ltb_spec cap (length (pre ++ [x]))) as [H|_];
      [rewrite length_app in H; simpl in H; lia|].
    unfold buf_strstr. rewrite cstr_pad; [|by apply not_in_snoc|rewrite length_app; simpl; lia]. done. }
  induction suf as [|x suf IH]; intros pre todo rest w Hq Hpre Hsuf Hr Hcap Htodo.
  - destruct (line_chars pre Hpre) as (_ & Hp0 & Hp10). simpl in Hr, Hcap, Htodo.
    destruct todo as [|[|todo]]; [lia|lia|].
    rewrite (Hstep 0x0D pre w (0x0A :: rest)) by (done || by_computation || lia).
    rewrite strstr_crlf by (by apply not_in_snoc).
    rewrite (Hstep 0x0A (pre ++ [0x0D]) _ rest);
      [|by apply after_reads_quiet|by_computation|done|done|by apply not_in_snoc|rewrite length_app; simpl; lia].
    rewrite <- app_assoc. change ([0x0D] ++ [0x0A]) with crlf. rewrite strstr_app.
    rewrite after_reads_after, app_nil_r, length_app. unfold mreturn. f_equal.
    destruct (length pre); [done|]. simpl. by rewrite Nat.add_comm.
  - destruct (line_chars pre Hpre) as (_ & Hp0 & Hp10).
    apply Forall_cons in Hsuf as [(Hx & Hx0 & Hx10) Hsuf]. simpl in Hr, Hcap, Htodo.
    destruct todo as [|todo]; [lia|].
    rewrite (Hstep x pre w (suf ++ crlf ++ rest)) by (done || lia).
    rewrite strstr_crlf by (by apply not_in_snoc).
    rewrite (IH _ _ rest); [|by apply after_reads_quiet|by apply Forall_app; split; [|by apply Forall_cons]
      |done|done|rewrite length_app; simpl; lia|lia].
    rewrite after_reads_after. rewrite <- !app_assoc. simpl. do 2 f_equal; lia.
Qed.

Lemma recv_frame_cap cap fuel w k line rest :
  uart_quiet w → Forall line_char line → (0 < length line < 510)%nat →
  (length line + 2 < cap)%nat → (k < fuel)%nat →
  gsm_rx w = mjoin (repeat crlf k) ++ line ++ crlf ++ rest →
  gsm_recv_frame fuel cap w =
    Done (line ++ crlf) (after_reads (2 * k + length line + 2) rest w).
Proof.
  intros Hq Hline Hlen Hcap. revert fuel w Hq.
  induction k as [|k IH]; intros [|fuel] w Hq Hf Hr; try lia; cbn [gsm_recv_frame]; unfold mseq.
  - simpl in Hr. rewrite (recv_bytes_line cap line [] 512 rest) by (done || simpl; lia).
    destruct line; [simpl in Hlen; lia|]. done.
  - simpl in Hr. rewrite (recv_bytes_line cap [] [] 512 (mjoin (repeat crlf k) ++ line ++ crlf ++ rest));
      [|done|done|done|done|simpl; lia|simpl; lia].
    simpl. rewrite IH; [|by apply after_reads_quiet|lia|done]. rewrite after_reads_after. f_equal.
    f_equal. simpl. lia.
Qed.

(** Reading a line skips the empty lines in front of it and
    returns the characters up to and including the end of line; the rest stays in
    the receive buffer.  It ends: a round for every empty line is enough. *)
Lemma gsm_recv_frame_line fuel w k line rest :
  uart_quiet w → Forall line_char line → (0 < length line < 510)%nat → (k < fuel)%nat →
  gsm_rx w = mjoin (repeat crlf k) ++ line ++ crlf ++ rest →
  gsm_recv_frame fuel 512 w =
    Done (line ++ crlf) (after_reads (2 * k + length line + 2) rest w).
Proof. intros. apply recv_frame_cap; [done..|lia|done|done]. Qed.

(** ** A modem that is silent *)

Lemma recv_bytes_silent cap todo : ∀ w,
  uart_quiet w → gsm_rx w = [] →
  recv_bytes cap todo [] w = Done (Line []) (set_now (todo + now w) w).
Proof.
  induction todo as [|todo IH]; intros w Hq Hr; cbn [recv_bytes].
  - unfold mreturn. f_equal. by world_eq.
  - unfold mseq. rewrite read_nothing by done. rewrite IH; [|by apply after_reads_quiet|done].
    f_equal. world_eq; simpl; [lia|done].
Qed.

Lemma recv_line_silent fuel w :
  (0 < fuel)%nat → uart_quiet w → gsm_rx w = [] →
  recv_line fuel 512 w = Done (false, []) (set_now (512 + now w) w).
Proof.
  intros Hf Hq Hr. destruct fuel as [|fuel]; [lia|]. unfold recv_line. cbn [gsm_recv_frame].
  unfold mseq at 1 2. rewrite recv_bytes_silent by done. reflexivity.
Qed.

Definition silence (n : nat) (w : World) : World :=
  set_trace (trace w ++ repeat (Ev_delay 20) n) (set_now (n * 512 + now w) w).

Lemma at_lines_silent fuel index buf todo : ∀ n w,
  (0 < fuel)%nat → uart_quiet w → gsm_rx w = [] → (n + todo = 10)%nat →
  at_lines fuel index buf todo n w = Done (answer AT_NO_RESPONSE) (silence todo w).
Proof.
  induction todo as [|todo IH]; intros n w Hf Hq Hr Hn; cbn [at_lines].
  - replace n with 10%nat by lia. unfold mreturn. f_equal. world_eq. simpl. by rewrite app_nil_r.
  - unfold mseq at 1. rewrite recv_line_silent by done. unfold mseq, rt_thread_delay, emit, upd.
    rewrite IH; [|done|intros t Ht; apply Hq; cbn in Ht; lia|done|lia].
    unfold silence. f_equal. world_eq; cbn [now trace set_now set_trace]; [lia|].
    cbn [repeat]. by rewrite <- app_assoc.
Qed.

(** A silent modem is reported as such, whatever the command, after ten waits. *)
Lemma at_response_silent fuel index buf w :
  (0 < fuel)%nat → uart_quiet w → gsm_rx w = [] →
  at_response_process fuel index buf w = Done (answer AT_NO_RESPONSE) (silence 10 w).
Proof. intros. by apply at_lines_silent. Qed.

(** ** The number of the service centre *)

Lemma recv_line_text fuel k line rest w :
  uart_quiet w → Forall line_char line → (0 < length line < 510)%nat → (k < fuel)%nat →
  gsm_rx w = mjoin (repeat crlf k) ++ line ++ crlf ++ rest →
  recv_line fuel 512 w =
    Done (true, line ++ crlf) (after_reads (2 * k + length line + 2) rest w).
Proof.
  intros Hq Hl Hlen Hk Hr. unfold recv_line, mseq.
  rewrite (recv_frame_cap 512 fuel w k line rest) by (done || lia).
  destruct (line_chars line Hl) as (_ & H0 & _).
  rewrite cstr_pad; [|apply not_elem_of_app; split; [done|by_computation]|rewrite length_app; simpl; lia].
  destruct line; [simpl in Hlen; lia|]. done.
Qed.

Lemma strstr_absent c l n : c ∈ n → c ∉ l → strstr l n = false.
Proof.
  intros Hc Hl. destruct (strstr l n) eqn:E; [|done]. apply strstr_spec in E as (i & H1 & H2).
  destruct Hl. rewrite <- H2 in Hc.
  rewrite <- (take_drop i l), <- (take_drop (length n) (drop i l)). set_solver.
Qed.

Lemma span_stop p l x r :
  Forall (λ c, p c = true) l → p x = false → span p (l ++ x :: r) = (l, x :: r).
Proof.
  intros Hl Hx. induction Hl as [|y l Hy Hl IH]; simpl; [by rewrite Hx|]. by rewrite Hy, IH.
Qed.

Definition csca_echo : list Z := bytes_of "AT+CSCA?" ++ cr.
Definition csca_line (number : list Z) : list Z :=
  bytes_of "+CSCA: " ++ quoted (bytes_of "+" ++ number) ++ bytes_of ",145".

Definition number_char (c : Z) : Prop := 48 ≤ c < 58.

Lemma csca_line_chars number :
  Forall number_char number → Forall line_char (csca_line number) ∧ 69 ∉ csca_line number.
Proof.
  intros Hn. unfold csca_line, quoted. split.
  - repeat first [apply Forall_app; split | apply Forall_cons; split]; try by_computation.
    eapply Forall_impl; [exact Hn|]. unfold number_char, line_char, fits. intros c Hc.
    change (2 ^ 8) with 256. lia.
  - rewrite Forall_forall in Hn. intros H.
    repeat first [apply elem_of_app in H as [H|H] | apply elem_of_cons in H as [H|H]];
      try (revert H; by_computation). apply Hn in H. unfold number_char in H. lia.
Qed.

Lemma scan_number number s :
  Forall number_char number → number ≠ [] →
  scan_quoted (bytes_of "+") (bytes_of "+CSCA: " ++ quoted (bytes_of "+" ++ number) ++ s) =
    Some number.
Proof.
  intros Hn Hne. change (bytes_of "+") with [43].
  unfold scan_quoted, quoted. cbn [app]. rewrite <- !app_assoc. cbn [app].
  rewrite (span_stop not_quote (bytes_of "+CSCA: ") 34) by by_computation.
  change (bytes_of "+CSCA: ") with (43 :: bytes_of "CSCA: ").
  cbn [scan_literal app Z.eqb Pos.eqb].
  rewrite (span_stop not_quote number 34); [by destruct number| |done].
  eapply Forall_impl; [exact Hn|]. intros c Hc. unfold not_quote, number_char in *.
  by destruct (Z.eqb_spec c 34); [lia|].
Qed.

Lemma csca_line_length number : length (csca_line number ++ crlf) = (length number + 16)%nat.
Proof. unfold csca_line, quoted, crlf. rewrite !length_app. cbn [length]. rewrite !length_app. simpl. lia. Qed.

(** Both lines in the buffer: the string ends behind the first, whose zero is
    before the second. *)
Lemma csca_buffer l rest : 0 ∉ l → (length l < 200)%nat →
  cstr (take 200 (pad 512 l) ++ rest) = Some l.
Proof.
  intros H0 Hl. unfold pad. rewrite take_app_ge by lia.
  destruct (512 - length l)%nat as [|m] eqn:Em; [lia|].
  destruct (200 - length l)%nat as [|n] eqn:En; [lia|].
  cbn [repeat take]. rewrite <- app_assoc. cbn [app]. by apply cstr_app_zero.
Qed.

(** The two lines behind the echo *)
Lemma csca_two_lines fuel number rest w :
  uart_quiet w → (1 < fuel)%nat → Forall number_char number → (0 < length number < 20)%nat →
  gsm_rx w = csca_line number ++ crlf ++ crlf ++ bytes_of "OK" ++ crlf ++ rest →
  ∃ w', two_lines fuel (λ s, n <- store_scanned (bytes_of "+") s ;;
      upd (set_smsc n) ;;; mreturn (answer AT_RESPONSE_OK)) w = Done (answer AT_RESPONSE_OK) w' ∧
    smsc w' = pad 20 number ∧ gsm_rx w' = rest.
Proof.
  intros Hq Hf Hn Hlen Hr. destruct (csca_line_chars number Hn) as [Hl HE].
  pose proof (csca_line_length number) as Hlc.
  assert (length (csca_line number) = length number + 14)%nat as Hll.
  { rewrite length_app in Hlc. unfold crlf in Hlc. cbn [length] in Hlc. lia. }
  unfold two_lines. unfold mseq at 1.
  rewrite (recv_frame_cap 512 fuel w 0 (csca_line number) (crlf ++ bytes_of "OK" ++ crlf ++ rest))
    by (reflexivity || done || lia).
  destruct (line_chars _ Hl) as (_ & H0 & _).
  assert (0 ∉ csca_line number ++ crlf) as H0'
    by (apply not_elem_of_app; split; [done|by_computation]).
  unfold mseq at 1. rewrite cstr_pad; [|done|rewrite Hlc; lia].
  cbn [deref]. unfold mreturn at 1.
  destruct (Nat.eqb_spec (length (csca_line number ++ crlf)) 0) as [E|_];
    [rewrite Hlc in E; lia|].
  rewrite (strstr_absent 69);
    [|by_computation|apply not_elem_of_app; split; [done|by_computation]].
  set (w2 := after_reads _ _ w). assert (uart_quiet w2) as Hq2 by by apply after_reads_quiet.
  unfold mseq at 1. rewrite (recv_frame_cap 312 fuel w2 1 (bytes_of "OK") rest)
    by (done || by_computation || (simpl; lia)).
  unfold mseq at 1.
  assert (cstr (pad 312 (bytes_of "OK" ++ crlf)) = Some (bytes_of "OK" ++ crlf)) as -> by by_computation.
  cbn [deref]. unfold mreturn at 1.
  assert ((length (bytes_of "OK" ++ crlf) =? 0)%nat = false) as -> by done.
  assert (strstr (bytes_of "OK" ++ crlf) (bytes_of "OK") = true) as -> by by_computation.
  unfold mseq at 1. rewrite csca_buffer by (done || rewrite Hlc; lia).
  cbn [deref]. unfold mreturn at 1. unfold mseq at 1. unfold store_scanned.
  unfold csca_line. rewrite <- !app_assoc. rewrite scan_number; [|done|by intros ->; simpl in Hlen; lia].
  destruct (Nat.ltb_spec (length number) 20); [|lia].
  eexists. split; [reflexivity|]. by cbn [smsc set_smsc gsm_rx].
Qed.

(** The modem's answer to AT+CSCA? (the echo, the line with the
    number in quotes behind a plus sign, an empty line, OK) is accepted, the
    number is then in [smsc] as a terminated string, and nothing behind the
    answer is read. *)
Lemma service_centre_stored fuel buf number rest w :
  uart_quiet w → (1 < fuel)%nat → Forall number_char number → (0 < length number < 20)%nat →
  gsm_rx w = csca_echo ++ crlf ++ csca_line number ++ crlf ++ crlf ++ bytes_of "OK" ++ crlf ++ rest →
  ∃ w', at_response_process fuel AT_CSCA buf w = Done (answer AT_RESPONSE_OK) w' ∧
    smsc w' = pad 20 number ∧ cstr (smsc w') = Some number ∧ gsm_rx w' = rest.
Proof.
  intros Hq Hf Hn Hlen Hr.
  unfold at_response_process. cbn [at_lines]. unfold mseq at 1.
  rewrite (recv_line_text fuel 0 csca_echo (csca_line number ++ crlf ++ crlf ++ bytes_of "OK" ++ crlf ++ rest))
    by (done || by_computation || (simpl; lia)).
  unfold mseq at 1. cbn [at_case]. unfold after_echo. unfold mseq at 1.
  change (at_command_map AT_CSCA) with (Some csca_echo). cbn [deref]. unfold mreturn at 1.
  assert (strstr (csca_echo ++ crlf) csca_echo = true) as -> by by_computation.
  set (w1 := after_reads _ _ w). assert (uart_quiet w1) as Hq1 by by apply after_reads_quiet.
  destruct (csca_two_lines fuel number rest w1) as (w2 & E & S & R); [done..|].
  unfold mseq at 1. rewrite E. exists w2. split; [done|]. split; [done|]. split; [|done].
  rewrite S. apply cstr_pad; [|lia]. intros H'. rewrite Forall_forall in Hn.
  apply Hn in H'. unfold number_char in H'. lia.
Qed.
End lines.

(** ** Concrete runs *)

Definition line_world (bytes : list Z) : World := set_gsm_rx bytes start_world.

Lemma gsm_recv_frame_line_witness :
  gsm_recv_frame (HB:=quiet_board) 2 512 (line_world (crlf ++ bytes_of "OK" ++ crlf ++ [1])) =
    Done (bytes_of "OK" ++ crlf) (after_reads 6 [1] (line_world (crlf ++ bytes_of "OK" ++ crlf ++ [1]))).
Proof.
  apply (gsm_recv_frame_line (HB:=quiet_board) 2
    (line_world (crlf ++ bytes_of "OK" ++ crlf ++ [1])) 1 (bytes_of "OK") [1]).
  - done.
  - by_computation.
  - simpl. lia.
  - lia.
  - reflexivity.
Defined.

Lemma service_centre_stored_witness :
  let n := bytes_of "8613800755500" in
  let w := line_world (csca_echo ++ crlf ++ csca_line n ++ crlf ++ crlf ++ bytes_of "OK" ++ crlf ++ [7]) in
  ∃ w', at_response_process (HB:=quiet_board) 2 AT_CSCA [] w = Done (answer AT_RESPONSE_OK) w' ∧
    smsc w' = pad 20 n ∧ cstr (smsc w') = Some n ∧ gsm_rx w' = [7].
Proof.
  intros n w. apply (service_centre_stored (HB:=quiet_board) 2 [] n [7] w).
  - done.
  - lia.
  - by_computation.
  - simpl. lia.
  - reflexivity.
Defined.
