(* ===== verification/Mms.v ===== *)
(** * Multimedia messages (src/mms.c)

    A mail names a picture; the thread dictates it to the modem command by
    command, with the alarm telephones and a fixed mail address as recipients.
    After a success the upload of the picture to the server is ordered.  The
    two mutexes are left out: a step of the model is one whole mail.

    The theorems compare the dialogue with a list of commands, for any answers
    of the modem ([CommandModem]). *)
From stdpp Require Import base functions strings list pretty.
From Stdlib Require Import ZArith Lia.
From S2P Require Import Prelude World Monad Untils Alarm GsmService GsmAt GprsSend.

Definition mms_title : list Z :=
  [0xfe; 0xff; 0x60; 0xA6; 0x5F; 0xB7; 0x66; 0x7A; 0x80; 0xFD].
Definition mms_text : list Z :=
  [0xfe; 0xff; 0x5F; 0x53; 0x52; 0x4D; 0x64; 0x44; 0x50; 0xCF; 0x59; 0x34; 0x60; 0xC5; 0x51; 0xB5].
Definition mms_mailbox : list Z := bytes_of "21255274@qq.com" ++ [0].

(** The size of [process_buf] *)
Definition MMS_PAGE : nat := 512.

Section mms.
Context {HB : Board} {HG : GsmService}.

(** A chain of conditions [send_cmd_mail (...) == expected && ...], the bodies
    of nested [if]s included: the first answer that is not the expected one
    ends it. *)
Fixpoint expect (steps : list (AT_COMMAND * GSM_CMD_DATA * Z)) : M bool :=
  match steps with
  | [] => mreturn true
  | (index, cmd_data, expected) :: steps =>
      r <- send_cmd_mail index 50 cmd_data ;;
      if r =? expected then expect steps else mreturn false
  end.

Definition ok_step (index : AT_COMMAND) : AT_COMMAND * GSM_CMD_DATA * Z :=
  (index, CD_none, AT_RESPONSE_OK).

(** Everything before the data of the picture *)
Definition mms_opening (st_size : Z) : list (AT_COMMAND * GSM_CMD_DATA * Z) :=
  [ok_step AT_SAPBR_CONTYPE; ok_step AT_SAPBR_APN_CMWAP; ok_step AT_SAPBR_OPEN;
   ok_step AT_SAPBR_REQUEST;
   ok_step AT_CMMSINIT; ok_step AT_CMMSCURL; ok_step AT_CMMSCID; ok_step AT_CMMSPROTO;
   ok_step AT_CMMSSENDCFG; ok_step AT_CMMSEDIT_OPEN;
   (AT_CMMSDOWN_TITLE, CD_cmmsdown_title (Z.of_nat (length mms_title)), AT_RESPONSE_CONNECT_OK);
   (AT_CMMSDOWN_DATA, CD_cmmsdown_data (Z.of_nat (length mms_title)) mms_title 1, AT_RESPONSE_OK);
   (AT_CMMSDOWN_TEXT, CD_cmmsdown_text (Z.of_nat (length mms_text)), AT_RESPONSE_CONNECT_OK);
   (AT_CMMSDOWN_DATA, CD_cmmsdown_data (Z.of_nat (length mms_text)) mms_text 1, AT_RESPONSE_OK);
   (AT_CMMSDOWN_PIC, CD_cmmsdown_pic st_size, AT_RESPONSE_CONNECT_OK)].

(** The three commands before and after everything; nobody looks at the answers. *)
Definition mms_reset : M () :=
  send_cmd_mail AT_CMMSEDIT_CLOSE 50 CD_none ;;;
  send_cmd_mail AT_SAPBR_CLOSE 50 CD_none ;;;
  send_cmd_mail AT_CMMSTERM 50 CD_none ;;;
  mreturn ().

(** The do-while loop: the sizes are unsigned, a [read] of -1 is 0xFFFFFFFF. *)
Fixpoint mms_picture_loop (fuel : nat) (pic_name : FILE) (off : nat) (st_size : Z) : M () :=
  match fuel with
  | O => nofuel
  | S fuel =>
      r <- file_read pic_name off (if Z.of_nat MMS_PAGE <? st_size then MMS_PAGE else Z.to_nat st_size) ;;
      let read_size := match r with Some l => Z.of_nat (length l) | None => u32 (-1) end in
      let process_buf := pad MMS_PAGE (default [] r) in
      let st_size := u32 (st_size - read_size) in
      send_cmd_mail AT_CMMSDOWN_DATA 50
        (CD_cmmsdown_data read_size process_buf (if 0 <? st_size then 0 else 1)) ;;;
      if 0 <? st_size then
        mms_picture_loop fuel pic_name (off + length (default [] r)) st_size
      else mreturn ()
  end.

(** [todo] of the telephones are left. *)
Fixpoint mms_telephones (todo alarm_telephone_counts : nat) : M () :=
  match todo with
  | O => mreturn ()
  | S todo =>
      p <- get params ;;
      t <- deref (alarm_telephone p !! alarm_telephone_counts) ;;
      when (negb (tel_flag t =? 0))
        (send_cmd_mail AT_CMMSRECP 50 (CD_cmmsrecp (drop 2 (address t))) ;;; mreturn ()) ;;;
      mms_telephones todo (S alarm_telephone_counts)
  end.

Definition send_mms (fuel : nat) (pic_name : FILE) : M Z :=
  status <- file_stat pic_name ;;
  match status with
  | None => mreturn (-1)
  | Some st_size =>
      mms_reset ;;;
      edited <- expect (mms_opening st_size) ;;
      result <-
        (if edited : bool then
           opened <- file_open pic_name ;;
           if opened : bool then
             mms_picture_loop fuel pic_name 0 st_size ;;;
             mms_telephones TELEPHONE_NUMBERS 0 ;;;
             sent <- expect [(AT_CMMSRECP, CD_cmmsrecp mms_mailbox, AT_RESPONSE_OK);
                             ok_step AT_CMMSSEND] ;;
             mreturn (if sent : bool then 0 else -1)
           else mreturn (-1)
         else mreturn (-1)) ;;
      mms_reset ;;;
      mreturn result
  end.

(** One round of mms_mail_process_thread_entry *)
Definition mms_mail_process_step (fuel : nat) : M () :=
  m <- rt_mq_recv mms_mq set_mms_mq ;;
  match m with
  | Some mms_mail_buf =>
      result <- send_mms fuel (mm_pic_name mms_mail_buf) ;;
      when (result =? 0)
        (upd (set_mms_alarm_type (mm_alarm_type mms_mail_buf)) ;;;
         send_gprs_mail ALARM_TYPE_GPRS_UPLOAD_PIC 0 0 U_mms_alarm_type)
  | None => mreturn ()
  end.
End mms.

(** ** What a command writes *)

Definition CMD : Type := AT_COMMAND * GSM_CMD_DATA.

(** The bytes of the commands of this file, as [write_command] writes them *)
Definition command_bytes (p : DEVICE_PARAMETERS) (c : CMD) : option (list Z) :=
  match c with
  | (AT_CMMSDOWN_DATA, CD_cmmsdown_data length buf _) =>
      if (0 <=? length) && (length <=? 512) && (length <=? Z.of_nat (List.length buf))
      then Some (take (Z.to_nat length) buf) else None
  | (AT_CMMSRECP as i, d) | (AT_CMMSDOWN_PIC as i, d) | (AT_CMMSDOWN_TITLE as i, d)
  | (AT_CMMSDOWN_TEXT as i, d) =>
      fmt ← at_command_map i; args ← command_args i p d; s ← rt_sprintf fmt args;
      if (length s <? 512)%nat then Some s else None
  | (AT_SAPBR_CONTYPE as i, _) | (AT_SAPBR_APN_CMWAP as i, _) | (AT_SAPBR_OPEN as i, _)
  | (AT_SAPBR_REQUEST as i, _) | (AT_SAPBR_CLOSE as i, _) | (AT_CMMSINIT as i, _)
  | (AT_CMMSTERM as i, _) | (AT_CMMSCURL as i, _) | (AT_CMMSCID as i, _)
  | (AT_CMMSPROTO as i, _) | (AT_CMMSSENDCFG as i, _) | (AT_CMMSEDIT_OPEN as i, _)
  | (AT_CMMSEDIT_CLOSE as i, _) | (AT_CMMSSEND as i, _) => at_command_map i
  | _ => None
  end.

Definition cmd_bytes (p : DEVICE_PARAMETERS) (c : CMD) : list Z := default [] (command_bytes p c).

Definition wrote (bytes : list Z) (w : World) : World :=
  set_trace (trace w ++ [Ev_write DEV_GSM_USART bytes]) w.

Lemma format_command_runs i d w b :
  (fmt ← at_command_map i; args ← command_args i (params w) d; s ← rt_sprintf fmt args;
   if (length s <? 512)%nat then Some s else None) = Some b →
  format_command i d w = Done b w.
Proof.
  unfold format_command. rewrite get_run. destruct (at_command_map i) as [fmt|]; [|done].
  unfold deref at 1. rewrite mseq_return_l. cbn.
  destruct (command_args i (params w) d) as [args|]; [|done].
  unfold deref at 1. rewrite mseq_return_l. cbn.
  destruct (rt_sprintf fmt args) as [s|]; [|done]. unfold deref at 1. rewrite mseq_return_l. cbn.
  destruct (_ <=? _)%nat; [|done]. by intros [= ->].
Qed.

(** [command_bytes] is what the GSM thread's code writes. *)
Lemma write_command_bytes i d w b :
  command_bytes (params w) (i, d) = Some b → ∃ s, write_command i d w = Done s (wrote b w).
Proof.
  intros E. destruct i; try discriminate E;
    lazymatch goal with
    | |- context [write_command AT_CMMSDOWN_DATA] =>
        destruct d as [| | | | | |len buf c| | | |]; try discriminate E; unfold command_bytes in E;
        unfold write_command; destruct (_ && _ && _); [|done]; injection E as <-;
        eexists; reflexivity
    | |- _ =>
        first
          [ injection E as <-; eexists; reflexivity
          | unfold write_command; apply format_command_runs in E;
            rewrite (mseq_run _ _ _ _ _ E); eexists; reflexivity ]
    end.
Qed.

(** ** A modem that answers every command

    [reply k i] is the answer to command [i] when it is the [k]-th frame on the
    wire, so that a modem may accept a command once and refuse it later. *)
Definition frames_sent (w : World) : nat := length (sent_frames (trace w)).

(** A dialogue changes only the wire and the clock. *)
Record said (l : list (list Z)) (w w' : World) : Prop := {
  said_frames : sent_frames (trace w') = sent_frames (trace w) ++ l;
  said_mq : mq_gsm w' = mq_gsm w;
  said_params : params w' = params w;
  said_files : files w' = files w;
  said_gprs : gprs_mq w' = gprs_mq w;
  said_mms : mms_mq w' = mms_mq w
}.

Class CommandModem {HB : Board} {HG : GsmService} (reply : nat → AT_COMMAND → Z) : Prop :=
  command_serve w i delay d n bytes :
    mq_gsm w = Some (mkQueue [GM_cmd i delay d] n) →
    command_bytes (params w) (i, d) = Some bytes →
    ∃ w', gsm_serve w = Done (reply (frames_sent w) i, GA_none) w' ∧
      said [bytes] (set_mq_gsm (Some (mkQueue [] n)) w) w'.

Lemma said_nil w : said [] w w.
Proof. split; try done. by rewrite app_nil_r. Qed.

Lemma said_trans l1 l2 w1 w2 w3 : said l1 w1 w2 → said l2 w2 w3 → said (l1 ++ l2) w1 w3.
Proof. intros [] []. split; try congruence. rewrite app_assoc. congruence. Qed.

Lemma said_sent l w w' : said l w w' → frames_sent w' = (frames_sent w + length l)%nat.
Proof. intros []. unfold frames_sent. by rewrite said_frames0, length_app. Qed.

(** The bench of a modem: the command is written by the thread's own code. *)
Section bench_commands.
Context {HB : Board} (reply : nat → AT_COMMAND → Z).

Definition command_bench_serve : M (Z * GSM_ANSWER) :=
  m <- rt_mq_recv mq_gsm set_mq_gsm ;;
  match m with
  | Some (GM_cmd i _ d) =>
      k <- get frames_sent ;;
      write_command i d ;;;
      mreturn (reply k i, GA_none)
  | Some (GM_gprs _ _) => mreturn (AT_RESPONSE_ERROR, GA_none)
  | None => nofuel
  end.

Lemma command_bench_keeps : keeps wf command_bench_serve (λ r, answer_wf (snd r)).
Proof.
  unfold command_bench_serve. apply keeps_then.
  - apply keeps_mail_recv.
  - intros [[i d c|]|]; [|by apply keeps_return|apply keeps_nofuel].
    apply keeps_then; [by apply runs_keeps, runs_get|intros k].
    apply keeps_then; [apply keeps_write|intros _]. by apply keeps_return.
Qed.

Definition command_bench : GsmService :=
  {| gsm_serve := command_bench_serve; gsm_serve_keeps := command_bench_keeps |}.

#[export] Instance command_bench_modem : @CommandModem HB command_bench reply.
Proof.
  intros w i delay d n bytes Hq Hb. unfold gsm_serve, command_bench, command_bench_serve.
  unfold rt_mq_recv. rewrite mseq_assoc, get_run, Hq. unfold deref. rewrite mseq_assoc, mseq_return_l.
  cbn [q_recv q_msgs q_max]. rewrite mseq_assoc, upd_run, mseq_return_l, get_run.
  destruct (write_command_bytes i d (set_mq_gsm (Some (mkQueue [] n)) w) bytes Hb) as [s E].
  rewrite (mseq_run _ _ _ _ _ E). eexists. split; [reflexivity|]. split; try done. apply sent_frames_app.
Qed.
End bench_commands.

(** ** The dialogue, as a list of commands *)

(** What is said of a chain of conditions when the answers come from [reply],
    starting with frame [k], and whether it got through *)
Fixpoint until_refused (reply : nat → AT_COMMAND → Z) (k : nat)
  (steps : list (AT_COMMAND * GSM_CMD_DATA * Z)) : list CMD * bool :=
  match steps with
  | [] => ([], true)
  | (i, d, expected) :: steps =>
      if reply k i =? expected then
        let '(l, ok) := until_refused reply (S k) steps in ((i, d) :: l, ok)
      else ([(i, d)], false)
  end.

Definition page_command (has_complete : Z) (l : list Z) : CMD :=
  (AT_CMMSDOWN_DATA, CD_cmmsdown_data (Z.of_nat (length l)) (pad MMS_PAGE l) has_complete).

(** [n] full pages, and the rest *)
Fixpoint page_commands (n : nat) (pic : list Z) : list CMD :=
  match n with
  | O => [page_command 1 pic]
  | S n => page_command 0 (take MMS_PAGE pic) :: page_commands n (drop MMS_PAGE pic)
  end.

Definition full_pages (pic : list Z) : nat := ((length pic - 1) / MMS_PAGE)%nat.

Definition recipients (l : list TELEPHONE_ADDRESS) : list CMD :=
  flat_map (λ t, if tel_flag t =? 0 then [] else [(AT_CMMSRECP, CD_cmmsrecp (drop 2 (address t)))]) l.

Definition mms_ending : list (AT_COMMAND * GSM_CMD_DATA * Z) :=
  [(AT_CMMSRECP, CD_cmmsrecp mms_mailbox, AT_RESPONSE_OK); ok_step AT_CMMSSEND].

Definition mms_resetting : list CMD :=
  [(AT_CMMSEDIT_CLOSE, CD_none); (AT_SAPBR_CLOSE, CD_none); (AT_CMMSTERM, CD_none)].

(** The commands of a whole message from frame [k] on, and whether it was sent *)
Definition mms_session (reply : nat → AT_COMMAND → Z) (k : nat) (p : DEVICE_PARAMETERS)
  (pic : list Z) : list CMD * bool :=
  let '(opening, edited) := until_refused reply (k + 3) (mms_opening (Z.of_nat (length pic))) in
  if edited : bool then
    let body := page_commands (full_pages pic) pic ++ recipients (alarm_telephone p) in
    let '(ending, sent) :=
      until_refused reply (k + 3 + length opening + length body) mms_ending in
    (mms_resetting ++ opening ++ body ++ ending ++ mms_resetting, sent)
  else (mms_resetting ++ opening ++ mms_resetting, false).

(** A number of 32 bits has at most eleven characters. *)
Lemma pretty_N_go_short n : ∀ x acc, (x < 10 ^ N.of_nat n)%N →
  (String.length (pretty_N_go x acc) <= n + String.length acc)%nat.
Proof.
  induction n as [|n IH]; intros x acc Hx.
  - change (10 ^ N.of_nat 0)%N with 1%N in Hx. replace x with 0%N by lia. by rewrite pretty_N_go_0.
  - destruct (decide (x = 0)%N) as [->|Hx0]; [rewrite pretty_N_go_0; lia|].
    rewrite pretty_N_go_step by lia. etrans; [apply IH|simpl; lia].
    apply N.Div0.div_lt_upper_bound. rewrite Nat2N.inj_succ, N.pow_succ_r' in Hx. lia.
Qed.

Lemma pretty_N_short n x : (x < 10 ^ N.of_nat n)%N → (String.length (pretty x) <= S n)%nat.
Proof.
  intros H. unfold pretty, pretty_N. case_decide; [simpl; lia|].
  etrans; [by apply pretty_N_go_short|]. simpl. lia.
Qed.

Lemma bytes_of_length s : length (bytes_of s) = String.length s.
Proof. unfold bytes_of. rewrite length_map. induction s; simpl; congruence. Qed.

Lemma decimal_short x : (length (decimal x) <= 12)%nat.
Proof.
  unfold decimal. rewrite bytes_of_length. unfold s32.
  pose proof (Z.mod_pos_bound (x + 2 ^ 31) (2 ^ 32)).
  set (y := (x + 2 ^ 31) mod 2 ^ 32 - 2 ^ 31) in *.
  assert (- 2 ^ 31 <= y < 2 ^ 31) as Hy by lia. clearbody y. unfold pretty, pretty_Z.
  destruct y as [|q|q]; [simpl; lia|..].
  - pose proof (pretty_N_short 10 (Npos q)) as P. etrans; [apply P|lia].
    change (10 ^ N.of_nat 10)%N with 10000000000%N. change (2 ^ 31) with 2147483648 in Hy. lia.
  - pose proof (pretty_N_short 10 (Npos q)) as P. simpl.
    apply le_n_S. etrans; [apply P|lia].
    change (10 ^ N.of_nat 10)%N with 10000000000%N. change (2 ^ 31) with 2147483648 in Hy. lia.
Qed.

Section dialogue.
Context {HB : Board} {HG : GsmService} (reply : nat → AT_COMMAND → Z) {HM : CommandModem reply}.

(** The modem is free. *)
Definition idle (w : World) : Prop := ∃ n, mq_gsm w = Some (mkQueue [] (S n)).

Definition sayable (p : DEVICE_PARAMETERS) (c : CMD) : Prop := ∃ b, command_bytes p c = Some b.

(** [l] was said from a state in which the modem is free. *)
Definition spoke (l : list CMD) (w w' : World) : Prop :=
  said (map (cmd_bytes (params w)) l) w w'.

Lemma spoke_trans l1 l2 w1 w2 w3 : spoke l1 w1 w2 → spoke l2 w2 w3 → spoke (l1 ++ l2) w1 w3.
Proof.
  intros H1 H2. unfold spoke in *. rewrite map_app. eapply said_trans; [exact H1|].
  by rewrite <- (said_params _ _ _ H1).
Qed.

Lemma spoke_idle l w w' : spoke l w w' → idle w → idle w'.
Proof. intros H [n ?]. exists n. by rewrite (said_mq _ _ _ H). Qed.

Lemma spoke_sent l w w' : spoke l w w' → frames_sent w' = (frames_sent w + length l)%nat.
Proof. intros H. rewrite (said_sent _ _ _ H). by rewrite length_map. Qed.

Lemma command_says i d delay w : idle w → sayable (params w) (i, d) →
  ∃ w', send_cmd_mail i delay d w = Done (reply (frames_sent w) i) w' ∧ spoke [(i, d)] w w'.
Proof.
  intros [n Hq] [b Hb]. unfold send_cmd_mail, mseq. rewrite (gsm_transact_idle _ n w Hq). unfold mseq.
  destruct (command_serve (set_mq_gsm (Some (mkQueue [GM_cmd i delay d] (S n))) w) i delay d (S n) b)
    as (w' & E & S); [done|done|].
  rewrite E. exists w'. split; [done|]. unfold spoke. cbn [map]. unfold cmd_bytes. rewrite Hb. destruct S. split; try done. by rewrite Hq.
Qed.

Lemma expect_says steps : ∀ w, idle w →
  Forall (sayable (params w)) (map fst steps) →
  ∃ w', expect steps w = Done (snd (until_refused reply (frames_sent w) steps)) w' ∧
    spoke (fst (until_refused reply (frames_sent w) steps)) w w'.
Proof.
  induction steps as [|[[i d] e] steps IH]; intros w Hi Hs; cbn [expect until_refused].
  { exists w. split; [done|]. apply said_nil. }
  cbn [map fst] in Hs. apply Forall_cons in Hs as [H1 H2].
  destruct (command_says i d 50 w Hi H1) as (w1 & E1 & S1). rewrite (mseq_run _ _ _ _ _ E1).
  destruct (_ =? e); [|by exists w1].
  destruct (IH w1) as (w2 & E2 & S2).
  - by eapply spoke_idle.
  - by rewrite (said_params _ _ _ S1).
  - pose proof (spoke_sent _ _ _ S1) as N. cbn [length] in N. rewrite Nat.add_1_r in N.
    rewrite N in E2, S2. destruct (until_refused reply (S (frames_sent w)) steps) as [l ok].
    exists w2. split; [done|]. by apply (spoke_trans [(i, d)] l _ w1).
Qed.

Lemma reset_says w : idle w → ∃ w', mms_reset w = Done () w' ∧ spoke mms_resetting w w'.
Proof.
  intros Hi. unfold mms_reset.
  destruct (command_says AT_CMMSEDIT_CLOSE CD_none 50 w) as (w1 & E1 & S1); [done|by eexists|].
  rewrite (mseq_run _ _ _ _ _ E1). pose proof (spoke_idle _ _ _ S1 Hi) as Hi1.
  destruct (command_says AT_SAPBR_CLOSE CD_none 50 w1) as (w2 & E2 & S2); [done|by eexists|].
  rewrite (mseq_run _ _ _ _ _ E2). pose proof (spoke_idle _ _ _ S2 Hi1) as Hi2.
  destruct (command_says AT_CMMSTERM CD_none 50 w2) as (w3 & E3 & S3); [done|by eexists|].
  rewrite (mseq_run _ _ _ _ _ E3). exists w3. split; [done|].
  apply (spoke_trans [_] [_; _] _ w1); [done|]. by apply (spoke_trans [_] [_] _ w2).
Qed.

(** *** The picture *)

Lemma mms_page_pos : MMS_PAGE ≠ 0%nat.
Proof. done. Qed.

Lemma full_pages_last l : (length l <= MMS_PAGE)%nat → full_pages l = 0%nat.
Proof. intros H. pose proof mms_page_pos. unfold full_pages. apply Nat.div_small. lia. Qed.

Lemma full_pages_more l : (MMS_PAGE < length l)%nat → full_pages l = S (full_pages (drop MMS_PAGE l)).
Proof.
  intros H. unfold full_pages. rewrite length_drop.
  replace (length l - 1)%nat with (length l - MMS_PAGE - 1 + 1 * MMS_PAGE)%nat by lia.
  rewrite Nat.div_add by apply mms_page_pos. lia.
Qed.

Lemma page_command_bytes p c l : (length l <= MMS_PAGE)%nat →
  command_bytes p (page_command c l) = Some l.
Proof.
  intros H. unfold page_command, command_bytes. rewrite pad_length by done.
  change (Z.of_nat MMS_PAGE) with 512. change 512 with (Z.of_nat MMS_PAGE).
  rewrite (proj2 (Z.leb_le _ _)), (proj2 (Z.leb_le _ _)) by lia. cbn [andb].
  rewrite Nat2Z.id. unfold pad. by rewrite take_app_length.
Qed.

Lemma said_tick l x w w' : said l (set_now x w) w' → said l w w'.
Proof. by intros []. Qed.

Lemma spoke_tick l x w w' : spoke l (set_now x w) w' → spoke l w w'.
Proof. apply said_tick. Qed.

Variable f : FILE.
Hypothesis readable : ∀ t, file_works f t = true.

Lemma read_page_run pre l n w : files w f = Some (pre ++ l) →
  file_read f (length pre) n w = Done (Some (take n l)) (set_now (S (now w)) w).
Proof.
  intros Hf. rewrite (file_read_works _ _ _ _ _ (readable _) Hf). by rewrite drop_app_length.
Qed.

Lemma pages_say n : ∀ fuel pre l w, idle w → files w f = Some (pre ++ l) → full_pages l = n →
  Z.of_nat (length l) < 2 ^ 32 → (n < fuel)%nat →
  ∃ w', mms_picture_loop fuel f (length pre) (Z.of_nat (length l)) w = Done () w' ∧
    spoke (page_commands n l) w w'.
Proof.
  induction n as [|n IH]; intros [|fuel] pre l w Hi Hf Hn Hl Hfuel; [lia| |lia|];
    cbn [mms_picture_loop page_commands]; pose proof mms_page_pos.
  - assert (length l <= MMS_PAGE)%nat as Hle.
    { destruct (Nat.lt_ge_cases MMS_PAGE (length l)) as [Hlt|]; [|done].
      apply full_pages_more in Hlt. congruence. }
    rewrite (proj2 (Z.ltb_ge _ _)) by lia. rewrite Nat2Z.id.
    rewrite (mseq_run _ _ _ _ _ (read_page_run pre l _ w Hf)). cbv zeta. cbn [default].
    rewrite take_ge by done. rewrite Z.sub_diag. change (u32 0) with 0. change (0 <? 0) with false.
    destruct (command_says AT_CMMSDOWN_DATA
      (CD_cmmsdown_data (Z.of_nat (length l)) (pad MMS_PAGE l) 1) 50 (set_now (S (now w)) w))
      as (w1 & E1 & S1); [done|by eexists; apply page_command_bytes|].
    cbv iota. unfold id. rewrite (mseq_run _ _ _ _ _ E1). exists w1. split; [done|].
    by eapply said_tick.
  - assert (MMS_PAGE < length l)%nat as Hlt.
    { destruct (Nat.lt_ge_cases MMS_PAGE (length l)) as [|Hge]; [done|].
      apply full_pages_last in Hge. congruence. }
    rewrite (proj2 (Z.ltb_lt _ _)) by lia.
    rewrite (mseq_run _ _ _ _ _ (read_page_run pre l _ w Hf)). cbv zeta. cbn [default]. unfold id.
    assert (length (take MMS_PAGE l) = MMS_PAGE) as Ht by (rewrite length_take; lia).
    rewrite wrap_small by (unfold fits; lia). rewrite Ht.
    rewrite (proj2 (Z.ltb_lt 0 (Z.of_nat (length l) - Z.of_nat MMS_PAGE))) by lia. cbv iota.
    destruct (command_says AT_CMMSDOWN_DATA
      (CD_cmmsdown_data (Z.of_nat MMS_PAGE) (pad MMS_PAGE (take MMS_PAGE l)) 0) 50 (set_now (S (now w)) w))
      as (w1 & E1 & S1); [done|eexists; rewrite <- Ht at 1; apply page_command_bytes; lia|].
    rewrite (mseq_run _ _ _ _ _ E1). apply said_tick in S1.
    assert (spoke [page_command 0 (take MMS_PAGE l)] w w1) as S1'
      by (unfold page_command; rewrite Ht; exact S1).
    destruct (IH fuel (pre ++ take MMS_PAGE l) (drop MMS_PAGE l) w1) as (w2 & E2 & S2).
    + by eapply spoke_idle.
    + rewrite (said_files _ _ _ S1'), <- app_assoc, take_drop. done.
    + rewrite full_pages_more in Hn by done. congruence.
    + rewrite length_drop. lia.
    + lia.
    + exists w2. split.
      * rewrite length_app, Ht, length_drop, Nat2Z.inj_sub in E2 by lia. exact E2.
      * by apply (spoke_trans [page_command 0 (take MMS_PAGE l)] _ _ w1).
Qed.

(** *** The recipients *)

Lemma formatted i p d args line :
  command_args i p d = Some args → at_command_map i ≠ None →
  (∀ fmt, at_command_map i = Some fmt → rt_sprintf fmt args = Some line) →
  (length line < 512)%nat →
  (fmt ← at_command_map i; args ← command_args i p d; s ← rt_sprintf fmt args;
   if (length s <? 512)%nat then Some s else None) = Some line.
Proof.
  intros Ha Hm Hf Hl. apply bind_Some. destruct (at_command_map i) as [fmt|]; [|done].
  exists fmt. split; [done|]. apply bind_Some. exists args. split; [done|].
  apply bind_Some. exists line. split; [by apply Hf|]. by rewrite (proj2 (Nat.ltb_lt _ _) Hl).
Qed.

(** The number behind the country code *)
Definition phone_number (t : TELEPHONE_ADDRESS) : list Z := default [] (cstr (drop 2 (address t))).

Definition recipient_line (t : TELEPHONE_ADDRESS) : list Z :=
  bytes_of "AT+CMMSRECP=" ++ quoted (phone_number t) ++ cr.

Lemma phone_bytes p t : alarm_telephone_wf t →
  command_bytes p (AT_CMMSRECP, CD_cmmsrecp (drop 2 (address t))) = Some (recipient_line t).
Proof.
  intros [(_ & [Hlen _] & Hlast) _]. destruct (last_zero_cstr (drop 2 (address t))) as (s & Hs & Ls).
  { rewrite <- (take_drop 2 (address t)), last_app in Hlast.
    destruct (last (drop 2 (address t))) eqn:E; [exact Hlast|]. apply last_None in E.
    apply (f_equal length) in E. rewrite length_drop, Hlen in E. discriminate E. }
  rewrite length_drop, Hlen in Ls. unfold TELEPHONE_ADDRESS_LENGTH in Ls.
  unfold recipient_line, phone_number. rewrite Hs. cbn [default]. unfold id, quoted.
  apply (formatted _ _ _ [PA_s s]); [|done| |].
  - unfold command_args. by rewrite Hs.
  - intros fmt [= <-]. rewrite <- app_comm_cons, <- app_assoc. vm_compute. reflexivity.
  - rewrite !length_app. cbn [length]. rewrite !length_app.
    change (length (bytes_of _)) with 12%nat. change (length cr) with 1%nat. cbn [length]. lia.
Qed.

Lemma phone_sayable p t : alarm_telephone_wf t → sayable p (AT_CMMSRECP, CD_cmmsrecp (drop 2 (address t))).
Proof. intros H. eexists. by apply phone_bytes. Qed.

Lemma size_sayable p x : sayable p (AT_CMMSDOWN_PIC, CD_cmmsdown_pic x).
Proof.
  assert (∀ fmt, at_command_map AT_CMMSDOWN_PIC = Some fmt →
    rt_sprintf fmt [PA_d x] =
      Some ((bytes_of "AT+CMMSDOWN=" ++ quoted (bytes_of "PIC") ++ [44]) ++ decimal x ++
            bytes_of ",50000" ++ cr)) as E.
  { intros fmt [= <-]. lazy -[decimal]. reflexivity. }
  set (line := _ ++ decimal x ++ _) in E.
  assert (length line < 512)%nat as Hline.
  { unfold line. pose proof (decimal_short x). rewrite !length_app.
    set (a := (length (bytes_of "AT+CMMSDOWN=") + _)%nat). set (b := (length (bytes_of ",50000") + _)%nat).
    assert (a = 18%nat) as -> by done. assert (b = 7%nat) as -> by done. lia. }
  clearbody line. exists line. by apply (formatted _ _ _ [PA_d x]).
Qed.

Lemma telephones_say p todo : ∀ i w l, idle w → params w = p → Forall alarm_telephone_wf l →
  drop i (alarm_telephone p) = l → length l = todo →
  ∃ w', mms_telephones todo i w = Done () w' ∧ spoke (recipients l) w w'.
Proof.
  induction todo as [|todo IH]; intros i w l Hi Hp Hl Hd Hlen; cbn [mms_telephones].
  { apply length_zero_iff_nil in Hlen as ->. exists w. split; [done|]. apply said_nil. }
  destruct l as [|t l]; [done|]. apply Forall_cons in Hl as [Ht Hl].
  assert (alarm_telephone p !! i = Some t) as Hti.
  { by rewrite <- (Nat.add_0_r i), <- lookup_drop, Hd. }
  rewrite get_run, Hp, Hti. unfold deref. rewrite mseq_return_l.
  assert (drop (S i) (alarm_telephone p) = l) as Hd'.
  { by rewrite <- Nat.add_1_r, <- drop_drop, Hd. }
  cbn [recipients flat_map]. fold (recipients l). destruct (tel_flag t =? 0); cbn [negb when].
  - rewrite mseq_return_l. apply (IH (S i) w l); auto.
  - rewrite mseq_assoc.
    destruct (command_says AT_CMMSRECP (CD_cmmsrecp (drop 2 (address t))) 50 w) as (w1 & E1 & S1);
      [done|by apply phone_sayable|].
    rewrite (mseq_run _ _ _ _ _ E1), mseq_return_l.
    destruct (IH (S i) w1 l) as (w2 & E2 & S2); [by eapply spoke_idle| |done|done|by injection Hlen|].
    { by rewrite (said_params _ _ _ S1). }
    exists w2. split; [done|]. by apply (spoke_trans [_] _ _ w1).
Qed.

Lemma opening_sayable p x : Forall (sayable p) (map fst (mms_opening x)).
Proof.
  unfold mms_opening, ok_step. cbn [map fst].
  repeat (apply Forall_cons; split; [lazymatch goal with
    | |- sayable _ (AT_CMMSDOWN_PIC, _) => apply size_sayable
    | |- _ => eexists; vm_compute; reflexivity
    end|]).
  by apply Forall_nil.
Qed.

Lemma ending_sayable p : Forall (sayable p) (map fst mms_ending).
Proof. repeat (apply Forall_cons; split; [eexists; vm_compute; reflexivity|]). by apply Forall_nil. Qed.

(** *** The whole message *)

Lemma stat_run w pic : files w f = Some pic →
  file_stat f w = Done (Some (Z.of_nat (length pic))) (set_now (S (now w)) w).
Proof. by apply file_stat_works. Qed.

Lemma open_run w pic : files w f = Some pic → file_open f w = Done true (set_now (S (now w)) w).
Proof. by apply file_open_works. Qed.

(** The picture, the recipients and the order to send *)
Lemma body_says pic fuel w : idle w → params_wf (params w) → files w f = Some pic →
  Z.of_nat (length pic) < 2 ^ 32 → (full_pages pic < fuel)%nat →
  let body := page_commands (full_pages pic) pic ++ recipients (alarm_telephone (params w)) in
  let ending := until_refused reply (frames_sent w + length body) mms_ending in
  ∃ w', (mms_picture_loop fuel f 0 (Z.of_nat (length pic)) ;;;
      mms_telephones TELEPHONE_NUMBERS 0 ;;;
      sent <- expect mms_ending ;;
      mreturn (if sent : bool then 0 else -1)) w = Done (if snd ending then 0 else -1) w' ∧
    spoke (body ++ fst ending) w w'.
Proof.
  intros Hi Hp Hf Hl Hfuel body ending.
  destruct (pages_say (full_pages pic) fuel [] pic w) as (w1 & E1 & S1); [done..|].
  cbn [length] in E1. rewrite (mseq_run _ _ _ _ _ E1). pose proof (spoke_idle _ _ _ S1 Hi) as Hi1.
  pose proof (said_params _ _ _ S1) as P1. destruct Hp as [[Hlen Hwf] _].
  destruct (telephones_say (params w) TELEPHONE_NUMBERS 0 w1 (alarm_telephone (params w)))
    as (w2 & E2 & S2); [done..|]. rewrite (mseq_run _ _ _ _ _ E2).
  pose proof (spoke_idle _ _ _ S2 Hi1) as Hi2.
  pose proof (spoke_trans _ _ _ _ _ S1 S2) as S12. fold body in S12.
  destruct (expect_says mms_ending w2) as (w3 & E3 & S3); [done|apply ending_sayable|].
  rewrite (spoke_sent _ _ _ S12) in E3, S3. fold ending in E3, S3.
  rewrite (mseq_run _ _ _ _ _ E3). exists w3. split; [done|]. by eapply spoke_trans.
Qed.

Lemma send_mms_says pic fuel w : idle w → params_wf (params w) → files w f = Some pic →
  Z.of_nat (length pic) < 2 ^ 32 → (full_pages pic < fuel)%nat →
  let session := mms_session reply (frames_sent w) (params w) pic in
  ∃ w', send_mms fuel f w = Done (if snd session then 0 else -1) w' ∧ spoke (fst session) w w'.
Proof.
  intros Hi Hp Hf Hl Hfuel session. unfold send_mms. rewrite (mseq_run _ _ _ _ _ (stat_run w pic Hf)).
  set (w0 := set_now (S (now w)) w). assert (idle w0) as Hi0 by done.
  destruct (reset_says w0 Hi0) as (w1 & E1 & S1). rewrite (mseq_run _ _ _ _ _ E1).
  pose proof (spoke_idle _ _ _ S1 Hi0) as Hi1. pose proof (spoke_sent _ _ _ S1) as N1.
  destruct (expect_says (mms_opening (Z.of_nat (length pic))) w1) as (w2 & E2 & S2);
    [done|apply opening_sayable|]. rewrite (mseq_run _ _ _ _ _ E2).
  pose proof (spoke_idle _ _ _ S2 Hi1) as Hi2. pose proof (spoke_trans _ _ _ _ _ S1 S2) as S12.
  pose proof (spoke_sent _ _ _ S12) as N2. revert E2 S2 S12 N2. rewrite N1.
  change (frames_sent w0) with (frames_sent w). change (length mms_resetting) with 3%nat.
  unfold session, mms_session. destruct (until_refused reply (frames_sent w + 3) _) as [opening edited].
  cbn [fst snd]. intros E2 S2 S12 N2. rewrite length_app in N2. cbn [length mms_resetting] in N2.
  pose proof (said_params _ _ _ S12) as P2. pose proof (said_files _ _ _ S12) as F2.
  destruct edited.
  - rewrite mseq_assoc.
    assert (files w2 f = Some pic) as Hf2 by (rewrite F2; exact Hf).
    rewrite (mseq_run _ _ _ _ _ (open_run w2 pic Hf2)). cbv iota.
    destruct (body_says pic fuel (set_now (S (now w2)) w2)) as (w3 & E3 & S3);
      [done|cbn; rewrite P2; exact Hp|done..|].
    rewrite (mseq_run _ _ _ _ _ E3). cbn [params set_now] in S3. rewrite P2 in S3.
    pose proof (spoke_idle _ _ _ S3 Hi2) as Hi3. apply spoke_tick in S3.
    destruct (reset_says w3 Hi3) as (w4 & E4 & S4). rewrite (mseq_run _ _ _ _ _ E4).
    change (frames_sent (set_now (S (now w2)) w2)) with (frames_sent w2) in *.
    cbn [params set_now w0] in *. rewrite ?P2, N2, Nat.add_assoc in *.
    destruct (until_refused reply _ mms_ending) as [ending sent]. cbn [fst snd] in *.
    exists w4. split; [done|]. apply (spoke_tick _ (S (now w))).
    pose proof (spoke_trans _ _ _ _ _ (spoke_trans _ _ _ _ _ S12 S3) S4) as S.
    rewrite <- !app_assoc in *. exact S.
  - rewrite mseq_return_l.
    destruct (reset_says w2 Hi2) as (w3 & E3 & S3). rewrite (mseq_run _ _ _ _ _ E3).
    exists w3. split; [done|]. apply (spoke_tick _ (S (now w))).
    rewrite (app_assoc mms_resetting). by eapply spoke_trans.
Qed.
End dialogue.

(** ** The thread *)

Section thread.
Context {HB : Board} {HG : GsmService} (reply : nat → AT_COMMAND → Z) {HM : CommandModem reply}.

(** A mail of the thread whose picture can be read *)
Record mail_ready (fuel : nat) (m : MMS_MAIL) (rest : list MMS_MAIL) (n : nat) (pic : list Z)
  (w : World) : Prop := {
  mr_mail : mms_mq w = Some (mkQueue (m :: rest) n);
  mr_idle : idle w;
  mr_params : params_wf (params w);
  mr_file : files w (mm_pic_name m) = Some pic;
  mr_works t : file_works (mm_pic_name m) t = true;
  mr_size : Z.of_nat (length pic) < 2 ^ 32;
  mr_fuel : (full_pages pic < fuel)%nat
}.

Definition upload_mail (t : Z) : GPRS_MAIL := mkGprsMail t ALARM_TYPE_GPRS_UPLOAD_PIC 0 U_mms_alarm_type.

(** What a round leaves behind: the dialogue on the wire, and the order to
    upload the picture if the message was sent *)
Record round_done (m : MMS_MAIL) (rest : list MMS_MAIL) (n : nat) (qg : Queue GPRS_MAIL)
  (session : list CMD * bool) (w w' : World) : Prop := {
  rd_frames : sent_frames (trace w') =
    sent_frames (trace w) ++ map (cmd_bytes (params w)) (fst session);
  rd_mails : mms_mq w' = Some (mkQueue rest n);
  rd_same : params w' = params w ∧ files w' = files w ∧ mq_gsm w' = mq_gsm w;
  rd_upload : ∃ t, gprs_mq w' = Some (q_append qg (if snd session then [upload_mail t] else []));
  rd_type : snd session = true → mms_alarm_type w' = mm_alarm_type m
}.

Lemma mms_round fuel m rest n pic w qg :
  mail_ready fuel m rest n pic w → gprs_mq w = Some qg → q_room qg 1 →
  ∃ w', mms_mail_process_step fuel w = Done () w' ∧
    round_done m rest n qg (mms_session reply (frames_sent w) (params w) pic) w w'.
Proof.
  intros [Hm Hi Hp Hf Hw Hs Hfuel] Hg Hr. unfold mms_mail_process_step, rt_mq_recv.
  rewrite mseq_assoc, get_run, Hm. unfold deref. rewrite mseq_assoc, mseq_return_l.
  cbn [q_recv q_msgs q_max]. rewrite mseq_assoc, upd_run, mseq_return_l.
  destruct (send_mms_says reply (mm_pic_name m) Hw pic fuel (set_mms_mq (Some (mkQueue rest n)) w))
    as (w1 & E1 & S1); [done..|].
  rewrite (mseq_run _ _ _ _ _ E1). unfold spoke in S1.
  change (params (set_mms_mq _ w)) with (params w) in *.
  change (frames_sent (set_mms_mq _ w)) with (frames_sent w) in *.
  destruct (mms_session _ _ _ _) as [l sent]. cbn [fst snd] in *. destruct S1.
  cbn [trace mq_gsm params files gprs_mq mms_mq set_mms_mq] in *.
  destruct sent.
  - change (0 =? 0) with true. unfold when. rewrite upd_run.
    rewrite (send_gprs_mail_room _ _ _ _ qg) by (done || (cbn; congruence)).
    eexists. split; [done|]. split; cbn; [done|done|done|by eexists|done].
  - exists w1. split; [done|]. split; cbn; [done|done|done| |done]. exists 0.
    rewrite q_append_nil. congruence.
Qed.

(** C18 (refinement). The thread refines the dialogue: whatever the modem
    answers to every single command, a round with a readable picture ends, and
    the frames on the wire are those of [mms_session] for these answers: the
    chain of commands up to the first refusal, between two resets; only if all
    were accepted the picture in pages, the flagged telephones and the mail
    address, and the upload to the server is ordered exactly if the final
    command was accepted. *)
Theorem mms_round_refines_session fuel m rest n pic w qg :
  mail_ready fuel m rest n pic w → gprs_mq w = Some qg → q_room qg 1 →
  ∃ w', mms_mail_process_step fuel w = Done () w' ∧
    round_done m rest n qg (mms_session reply (frames_sent w) (params w) pic) w w'.
Proof. apply mms_round. Qed.

(** A modem that accepts everything *)
Definition accepting : Prop := ∀ k i,
  reply k i = match i with
              | AT_CMMSDOWN_TITLE | AT_CMMSDOWN_TEXT | AT_CMMSDOWN_PIC => AT_RESPONSE_CONNECT_OK
              | _ => AT_RESPONSE_OK
              end.

Lemma until_accepted k steps :
  (∀ j, Forall (λ '(i, _, e), reply j i = e) steps) →
  until_refused reply k steps = (map fst steps, true).
Proof.
  revert k. induction steps as [|[[i d] e] steps IH]; intros k H; [done|].
  cbn [until_refused map fst]. pose proof (H k) as Hk. apply Forall_cons in Hk as [E _].
  rewrite E, Z.eqb_refl, IH; [done|]. intros j. specialize (H j). by apply Forall_cons in H as [_ ?].
Qed.

Lemma session_accepted k p pic : accepting →
  mms_session reply k p pic =
    (mms_resetting ++ map fst (mms_opening (Z.of_nat (length pic))) ++
     (page_commands (full_pages pic) pic ++ recipients (alarm_telephone p)) ++
     map fst mms_ending ++ mms_resetting, true).
Proof.
  intros H. unfold mms_session. rewrite until_accepted.
  2: { intros j. unfold mms_opening, ok_step. repeat (apply Forall_cons; split; [by rewrite H|]).
    by apply Forall_nil. }
  rewrite until_accepted; [done|].
  intros j. unfold mms_ending, ok_step. repeat (apply Forall_cons; split; [by rewrite H|]).
    by apply Forall_nil.
Qed.

Lemma cmd_page p c l : (length l <= MMS_PAGE)%nat → cmd_bytes p (page_command c l) = l.
Proof. intros H. unfold cmd_bytes. by rewrite page_command_bytes. Qed.

(** The pages are the picture, cut. *)
Lemma pages_are_picture p n : ∀ pic, full_pages pic = n →
  let pages := map (cmd_bytes p) (page_commands n pic) in
  mjoin pages = pic ∧ length pages = S n ∧ Forall (λ l, (length l <= MMS_PAGE)%nat) pages.
Proof.
  induction n as [|n IH]; intros pic Hn; cbn [page_commands map].
  - assert (length pic <= MMS_PAGE)%nat as Hle.
    { destruct (Nat.lt_ge_cases MMS_PAGE (length pic)) as [Hlt|]; [|done].
      apply full_pages_more in Hlt. congruence. }
    rewrite cmd_page by done. split_and!; [apply app_nil_r|done|]. by apply Forall_singleton.
  - assert (MMS_PAGE < length pic)%nat as Hlt.
    { destruct (Nat.lt_ge_cases MMS_PAGE (length pic)) as [|Hge]; [done|].
      apply full_pages_last in Hge. congruence. }
    assert (length (take MMS_PAGE pic) <= MMS_PAGE)%nat as Ht by (rewrite length_take; lia).
    rewrite cmd_page by done. rewrite full_pages_more in Hn by done.
    destruct (IH (drop MMS_PAGE pic)) as (J & L & F); [congruence|].
    split_and!.
    + etrans; [|apply (take_drop MMS_PAGE)]. exact (f_equal (app (take MMS_PAGE pic)) J).
    + cbn [length]. by rewrite L.
    + by apply Forall_cons.
Qed.

Lemma recipients_bytes p l : Forall alarm_telephone_wf l →
  map (cmd_bytes p) (recipients l) =
    map recipient_line (filter (λ t, tel_flag t ≠ 0) l).
Proof.
  induction 1 as [|t l Ht _ IH]; [done|]. cbn [recipients flat_map]. fold (recipients l).
  rewrite filter_cons. destruct (Z.eqb_spec (tel_flag t) 0) as [E|E].
  - by rewrite decide_False by tauto.
  - rewrite decide_True by done. cbn [app map]. unfold cmd_bytes at 1. rewrite phone_bytes by done.
    by rewrite IH.
Qed.

(** With a modem that accepts every command, the message
    carries the picture and nothing else: behind the opening the frames are
    pages of at most 512 bytes, as many as needed, that concatenate to the
    file, then one line with the number of every telephone whose flag is set,
    then the ending; and the upload of the same picture is ordered, with the
    alarm type of the mail. *)
Lemma mms_delivers_picture fuel m rest n pic w qg :
  accepting → mail_ready fuel m rest n pic w → gprs_mq w = Some qg → q_room qg 1 →
  ∃ w' pages t, mms_mail_process_step fuel w = Done () w' ∧
    sent_frames (trace w') = sent_frames (trace w) ++
      map (cmd_bytes (params w)) (mms_resetting ++ map fst (mms_opening (Z.of_nat (length pic)))) ++
      pages ++
      map recipient_line (filter (λ t, tel_flag t ≠ 0) (alarm_telephone (params w))) ++
      map (cmd_bytes (params w)) (map fst mms_ending ++ mms_resetting) ∧
    mjoin pages = pic ∧ length pages = S (full_pages pic) ∧
    Forall (λ l, (length l <= MMS_PAGE)%nat) pages ∧
    gprs_mq w' = Some (q_append qg [upload_mail t]) ∧ mms_alarm_type w' = mm_alarm_type m.
Proof.
  intros Ha Hr Hg Hq. destruct (mms_round fuel m rest n pic w qg Hr Hg Hq) as (w' & E & [Hs _ _ [t Hu] Ht]).
  rewrite (session_accepted _ _ _ Ha) in Hs, Hu, Ht. cbn [fst snd] in *.
  destruct (pages_are_picture (params w) (full_pages pic) pic eq_refl) as (J & L & F).
  exists w', (map (cmd_bytes (params w)) (page_commands (full_pages pic) pic)), t.
  split; [exact E|]. split; [|split_and!; [exact J|exact L|exact F|exact Hu|by apply Ht]].
  destruct (mr_params _ _ _ _ _ _ Hr) as [[_ Hwf] _].
  rewrite Hs, <- (recipients_bytes (params w)) by done. rewrite !map_app, <- !app_assoc. done.
Qed.

(** The mail that orders the upload holds the address of a static
    variable, not the alarm type: of two messages sent before the GPRS thread
    looks, both pictures are reported with the type of the second. *)
Lemma mms_type_overwritten fuel m1 m2 rest n pic1 pic2 w qg :
  accepting → mail_ready fuel m1 (m2 :: rest) n pic1 w →
  files w (mm_pic_name m2) = Some pic2 → (∀ t, file_works (mm_pic_name m2) t = true) →
  Z.of_nat (length pic2) < 2 ^ 32 → (full_pages pic2 < fuel)%nat →
  gprs_mq w = Some qg → q_room qg 2 →
  ∃ w' g1 g2, (mms_mail_process_step fuel ;;; mms_mail_process_step fuel) w = Done () w' ∧
    gprs_mq w' = Some (q_append qg [g1; g2]) ∧
    user_alarm (gm_user g1) w' = Done (Z.of_nat (alarm_code (mm_alarm_type m2))) w' ∧
    user_alarm (gm_user g2) w' = Done (Z.of_nat (alarm_code (mm_alarm_type m2))) w'.
Proof.
  intros Ha Hr1 Hf2 Hw2 Hs2 Hfu2 Hg Hq.
  destruct (mms_round fuel m1 (m2 :: rest) n pic1 w qg Hr1 Hg) as (w1 & E1 & [_ M1 (P1 & F1 & I1) [t1 U1] _]).
  { eapply q_room_le; [|done]. lia. }
  rewrite (session_accepted _ _ _ Ha) in U1. cbn [snd] in U1.
  destruct (mms_round fuel m2 rest n pic2 w1 (q_append qg [upload_mail t1]))
    as (w2 & E2 & [_ _ _ [t2 U2] T2]); [|done|by apply q_room_append|].
  { destruct Hr1 as [_ [k Hi] Hp _ _ _ _].
    split; [done|exists k; congruence|by rewrite P1|by rewrite F1|done..]. }
  rewrite (session_accepted _ _ _ Ha) in U2, T2. cbn [snd] in U2, T2.
  exists w2, (upload_mail t1), (upload_mail t2). rewrite (mseq_run _ _ _ _ _ E1). split; [done|].
  rewrite U2, q_append_app. split; [done|].
  unfold user_alarm, upload_mail, gm_user. rewrite !get_run, T2 by done. done.
Qed.
End thread.

(** ** Witnesses *)

Definition willing_reply (k : nat) (i : AT_COMMAND) : Z :=
  match i with
  | AT_CMMSDOWN_TITLE | AT_CMMSDOWN_TEXT | AT_CMMSDOWN_PIC => AT_RESPONSE_CONNECT_OK
  | _ => AT_RESPONSE_OK
  end.

(** The mail address is refused at the end. *)
Definition late_reply (k : nat) (i : AT_COMMAND) : Z :=
  if (24 <? k)%nat then AT_RESPONSE_ERROR else willing_reply k i.

Definition mms_mail (a : ALARM_TYPEDEF) : MMS_MAIL := mkMmsMail 1370000000 a F_1_jpg.

Definition mms_world (l : list MMS_MAIL) : World :=
  set_files (<[F_1_jpg := Some bench_picture]> (λ _, None))
    (set_mms_mq (Some (mkQueue l 20)) start_world).

Lemma mms_world_ready m rest : mm_pic_name m = F_1_jpg →
  mail_ready (HB:=quiet_board) 3 m rest 20 bench_picture (mms_world (m :: rest)).
Proof.
  intros Hm. split; rewrite ?Hm; [done|by exists 19%nat|by_computation|reflexivity|done|done|].
  vm_compute. lia.
Qed.

Lemma mms_round_refines_session_witness :
  ∃ w', mms_mail_process_step (HB:=quiet_board) (HG:=command_bench (HB:=quiet_board) late_reply) 3
      (mms_world [mms_mail ALARM_TYPE_LOCK_SHELL]) = Done () w' ∧
    round_done (mms_mail ALARM_TYPE_LOCK_SHELL) [] 20 (mkQueue [] 20)
      (mms_session late_reply 0 device_parameters bench_picture)
      (mms_world [mms_mail ALARM_TYPE_LOCK_SHELL]) w'.
Proof.
  apply (mms_round_refines_session (HB:=quiet_board) (HG:=command_bench (HB:=quiet_board) late_reply)
    late_reply 3 (mms_mail ALARM_TYPE_LOCK_SHELL) [] 20 bench_picture).
  - by apply mms_world_ready.
  - reflexivity.
  - by_computation.
Defined.

Lemma mms_delivers_picture_witness :
  ∃ w' pages t, mms_mail_process_step (HB:=quiet_board)
      (HG:=command_bench (HB:=quiet_board) willing_reply) 3
      (mms_world [mms_mail ALARM_TYPE_LOCK_SHELL]) = Done () w' ∧
    sent_frames (trace w') =
      map (cmd_bytes device_parameters) (mms_resetting ++ map fst (mms_opening 1300)) ++
      pages ++
      map recipient_line (filter (λ t, tel_flag t ≠ 0) (alarm_telephone device_parameters)) ++
      map (cmd_bytes device_parameters) (map fst mms_ending ++ mms_resetting) ∧
    mjoin pages = bench_picture ∧ length pages = 3%nat ∧
    Forall (λ l, (length l <= MMS_PAGE)%nat) pages ∧
    gprs_mq w' = Some (mkQueue [upload_mail t] 20) ∧ mms_alarm_type w' = ALARM_TYPE_LOCK_SHELL.
Proof.
  apply (mms_delivers_picture (HB:=quiet_board)
    (HG:=command_bench (HB:=quiet_board) willing_reply) willing_reply 3
    (mms_mail ALARM_TYPE_LOCK_SHELL) [] 20 bench_picture
    (mms_world [mms_mail ALARM_TYPE_LOCK_SHELL]) (mkQueue [] 20)).
  - by intros k i.
  - by apply mms_world_ready.
  - reflexivity.
  - by_computation.
Defined.

Lemma mms_type_overwritten_witness :
  ∃ w' g1 g2, (mms_mail_process_step (HB:=quiet_board)
        (HG:=command_bench (HB:=quiet_board) willing_reply) 3 ;;;
      mms_mail_process_step (HB:=quiet_board)
        (HG:=command_bench (HB:=quiet_board) willing_reply) 3)
      (mms_world [mms_mail ALARM_TYPE_LOCK_SHELL; mms_mail ALARM_TYPE_CAMERA_IRDASENSOR]) =
        Done () w' ∧
    gprs_mq w' = Some (mkQueue [g1; g2] 20) ∧
    user_alarm (gm_user g1) w' = Done 7 w' ∧ user_alarm (gm_user g2) w' = Done 7 w'.
Proof.
  apply (mms_type_overwritten (HB:=quiet_board)
    (HG:=command_bench (HB:=quiet_board) willing_reply) willing_reply 3
    (mms_mail ALARM_TYPE_LOCK_SHELL) (mms_mail ALARM_TYPE_CAMERA_IRDASENSOR) [] 20
    bench_picture bench_picture _ (mkQueue [] 20)).
  - by intros k i.
  - by apply mms_world_ready.
  - reflexivity.
  - done.
  - done.
  - vm_compute. lia.
  - reflexivity.
  - by_computation.
Defined.
