(* ===== verification/Aip.v ===== *)
(** * Download of the firmware (src/aip.c)

    [get_aip] fetches the image over HTTP into /aip.bin, in ranges if the modem
    has not enough memory for all of it.  The modem and the server are the
    class [HttpModem]; on top of it the theorem says that the file becomes the
    image.  Writing the image to the flash is in Flash.v. *)
From stdpp Require Import base functions strings list.
From Stdlib Require Import ZArith Lia.
From S2P Require Import Prelude World Monad Untils Alarm GsmService GsmAt Mms.

Definition SIZE_OF_PROCESS : nat := 512.
Definition AIP_BREAKPOINT_SIZE : Z := 64 * 1024.
Definition AIP_BIN_NAME : FILE := F_aip_bin.

Section aip.
Context {HB : Board} {HG : GsmService}.

(** AT_HTTPREAD: the result, and what was stored in the buffer *)
Definition http_read (start : Z) : M (Z * list Z) :=
  r <- gsm_transact false (GM_cmd AT_HTTPREAD 50 (CD_httpread start (Z.of_nat SIZE_OF_PROCESS))) ;;
  mreturn (match r with
           | Some (send_result, GA_httpread data) => (send_result, data)
           | Some (send_result, _) => (send_result, [])
           | None => (AT_RESPONSE_ERROR, [])
           end).

(** [while (aip_size > 0)]; the bytes go behind the [off] bytes of the file,
    and the result of [write] is ignored. *)
Fixpoint aip_read_loop (fuel off : nat) (aip_size start : Z) : M nat :=
  match fuel with
  | O => nofuel
  | S fuel =>
      if 0 <? aip_size then
        both send_result data <- http_read start ;;
        if (send_result =? AT_RESPONSE_OK) && negb (Z.of_nat (length data) =? 0) then
          n <- file_write AIP_BIN_NAME off data ;;
          aip_read_loop fuel (off + n)%nat (aip_size - Z.of_nat (length data))
            (u32 (start + Z.of_nat (length data)))
        else mreturn off
      else mreturn off
  end.

Definition aip_range (start end_ : Z) : list (AT_COMMAND * GSM_CMD_DATA * Z) :=
  [(AT_HTTPPARA_BREAK, CD_httppara_break start, AT_RESPONSE_OK);
   (AT_HTTPPARA_BREAKEND, CD_httppara_breakend end_, AT_RESPONSE_OK)].

(** The loop that starts at the label [rescan]; the result is [result]. *)
Fixpoint aip_rescan (fuel : nat) (off : nat) (start end_ : Z) (aip_complete : bool) : M Z :=
  match fuel with
  | O => nofuel
  | S fuel =>
      action_status <- send_cmd_mail AT_HTTPACTION_GET 50 CD_none ;;
      let set_range start end_ again :=
        ok <- expect (aip_range start end_) ;;
        if ok : bool then again else mreturn (-1) in
      let receive aip_complete :=
        aip_size <- get aip_bin_size ;;
        off <- aip_read_loop fuel off aip_size 0 ;;
        if aip_complete : bool then mreturn 0
        else
          let start := u32 (end_ + 1) in
          let end_ := u32 (end_ + (AIP_BREAKPOINT_SIZE - 1)) in
          if action_status =? AT_RESPONSE_PARTIAL_CONTENT then
            set_range start end_ (aip_rescan fuel off start end_ aip_complete)
          else mreturn (-1) in
      if action_status =? AT_RESPONSE_OK then receive true
      else if action_status =? AT_RESPONSE_NO_MEMORY then
        set_range start end_ (aip_rescan fuel off start end_ aip_complete)
      else if action_status =? AT_RESPONSE_BAD_REQUEST then
        set_range start 0 (aip_rescan fuel off start end_ true)
      else if action_status =? AT_RESPONSE_PARTIAL_CONTENT then receive aip_complete
      else mreturn (-1)
  end.

Definition aip_opening (address : list Z) (length : Z) : list (AT_COMMAND * GSM_CMD_DATA * Z) :=
  [ok_step AT_SAPBR_CONTYPE; ok_step AT_SAPBR_APN_CMNET; ok_step AT_SAPBR_OPEN;
   ok_step AT_SAPBR_REQUEST; ok_step AT_HTTPINIT; ok_step AT_HTTPPARA_CID;
   (AT_HTTPPARA_URL, CD_httppara_url length address, AT_RESPONSE_OK)].

Definition get_aip (fuel : nat) : M Z :=
  file_unlink AIP_BIN_NAME ;;;
  opened <- file_create AIP_BIN_NAME ;;
  result <-
    (if opened : bool then
       send_cmd_mail AT_SAPBR_CLOSE 50 CD_none ;;;
       send_cmd_mail AT_HTTPTERM 50 CD_none ;;;
       address <- get aip_bin_http_address ;;
       length <- get aip_bin_http_address_length ;;
       ready <- expect (aip_opening address length) ;;
       if ready : bool then aip_rescan fuel 0 0 (AIP_BREAKPOINT_SIZE - 1) false
       else mreturn (-1)
     else mreturn (-1)) ;;
  send_cmd_mail AT_HTTPTERM 50 CD_none ;;;
  send_cmd_mail AT_SAPBR_CLOSE 50 CD_none ;;;
  mreturn result.
End aip.

(** ** The modem and the server

    What the code relies on.  A free modem answers every command; the range of
    the next request is what the last two commands set, and is forgotten with
    AT+HTTPINIT; a range that ends with 0 means the rest.  The server answers
    206 to a range inside the image and 416 to one that begins behind it, and
    416 is none of the results the code knows.  A range that begins inside and
    ends behind the image is cut by HTTP, 206 with what there is ([http_cut]);
    the code expects 400 there, so a server that answers so is the other
    value.  An answer that does not fit in the modem's memory becomes 602. *)
Class HttpModem {HB : Board} {HG : GsmService} (img : list Z) := {
  http_range : World → Z * Z;
  http_body : World → list Z;     (* what AT+HTTPREAD reads *)
  http_memory : nat;              (* the largest body the modem takes *)
  http_cut : bool;                (* 206 to a range that ends behind the image *)
  (** A command changes nothing of the lock but what the GSM thread stores. *)
  http_same (w w' : World) : Prop :=
    files w' = files w ∧ mq_gsm w' = mq_gsm w ∧
    aip_bin_http_address w' = aip_bin_http_address w ∧
    aip_bin_http_address_length w' = aip_bin_http_address_length w;
  (** The modem's state is a matter of what was written to it. *)
  http_wire w w' : trace w = trace w' → http_range w = http_range w' ∧ http_body w = http_body w';
  http_enough : 65536 <= Z.of_nat http_memory;
  http_serve_setup w i delay d n :
    mq_gsm w = Some (mkQueue [GM_cmd i delay d] n) →
    i ∈ [AT_SAPBR_CLOSE; AT_HTTPTERM; AT_SAPBR_CONTYPE; AT_SAPBR_APN_CMNET; AT_SAPBR_OPEN;
         AT_SAPBR_REQUEST; AT_HTTPINIT; AT_HTTPPARA_CID; AT_HTTPPARA_URL] →
    ∃ w', gsm_serve w = Done (AT_RESPONSE_OK, GA_none) w' ∧
      http_same (set_mq_gsm (Some (mkQueue [] n)) w) w' ∧
      http_range w' = (if bool_decide (i = AT_HTTPINIT) then (0, 0) else http_range w);
  http_serve_break w delay start n :
    mq_gsm w = Some (mkQueue [GM_cmd AT_HTTPPARA_BREAK delay (CD_httppara_break start)] n) →
    ∃ w', gsm_serve w = Done (AT_RESPONSE_OK, GA_none) w' ∧
      http_same (set_mq_gsm (Some (mkQueue [] n)) w) w' ∧
      http_range w' = (start, snd (http_range w));
  http_serve_breakend w delay end_ n :
    mq_gsm w = Some (mkQueue [GM_cmd AT_HTTPPARA_BREAKEND delay (CD_httppara_breakend end_)] n) →
    ∃ w', gsm_serve w = Done (AT_RESPONSE_OK, GA_none) w' ∧
      http_same (set_mq_gsm (Some (mkQueue [] n)) w) w' ∧
      http_range w' = (fst (http_range w), end_);
  http_serve_get w delay d n start end_ :
    mq_gsm w = Some (mkQueue [GM_cmd AT_HTTPACTION_GET delay d] n) → http_range w = (start, end_) →
    0 <= start → 0 <= end_ →
    let body := if end_ =? 0 then drop (Z.to_nat start) img
                else take (Z.to_nat (end_ + 1 - start)) (drop (Z.to_nat start) img) in
    let whole := bool_decide ((start, end_) = (0, 0)) in
    let status :=
      if negb whole && (Z.of_nat (length img) <=? start) then AT_RESPONSE_ERROR
      else if negb whole && (Z.of_nat (length img) <=? end_) && negb http_cut then AT_RESPONSE_BAD_REQUEST
      else if (http_memory <? length body)%nat then AT_RESPONSE_NO_MEMORY
      else if whole then AT_RESPONSE_OK else AT_RESPONSE_PARTIAL_CONTENT in
    ∃ w', gsm_serve w = Done (status, GA_none) w' ∧
      http_same (set_mq_gsm (Some (mkQueue [] n)) w) w' ∧ http_range w' = http_range w ∧
      (status = AT_RESPONSE_OK ∨ status = AT_RESPONSE_PARTIAL_CONTENT →
       http_body w' = body ∧ aip_bin_size w' = Z.of_nat (length body));
  http_serve_read w delay start n :
    mq_gsm w = Some (mkQueue
      [GM_cmd AT_HTTPREAD delay (CD_httpread start (Z.of_nat SIZE_OF_PROCESS))] n) →
    0 <= start →
    ∃ w', gsm_serve w =
        Done (AT_RESPONSE_OK,
              GA_httpread (take SIZE_OF_PROCESS (drop (Z.to_nat start) (http_body w)))) w' ∧
      http_same (set_mq_gsm (Some (mkQueue [] n)) w) w' ∧ http_range w' = http_range w ∧
      http_body w' = http_body w
}.

Lemma prefix_rest {A} n (l : list A) : take n l ++ drop (length (take n l)) l = l.
Proof.
  etrans; [|apply (take_drop (length (take n l)))]. f_equal.
  by rewrite length_take, <- firstn_firstn, firstn_all.
Qed.

Section download.
Context {HB : Board} {HG : GsmService} (img : list Z) {HM : HttpModem img}.

(** The state of the modem and the lock between two commands *)
Record http_at (w : World) (file : option (list Z)) (range : Z * Z) : Prop := {
  ha_idle : idle w;
  ha_file : files w AIP_BIN_NAME = file;
  ha_range : http_range w = range
}.

(** One command whose answer is only a result *)
Lemma http_command i delay d w (status : Z) (P : World → Prop) n :
  mq_gsm w = Some (mkQueue [] (S n)) →
  (∃ w', gsm_serve (set_mq_gsm (Some (mkQueue [GM_cmd i delay d] (S n))) w) =
    Done (status, GA_none) w' ∧ P w') →
  ∃ w', send_cmd_mail i delay d w = Done status w' ∧ P w'.
Proof.
  intros Hq (w' & E & H). exists w'. split; [|done].
  unfold send_cmd_mail, mseq. rewrite (gsm_transact_idle _ n w Hq). unfold mseq. by rewrite E.
Qed.

Definition setup_commands : list AT_COMMAND :=
  [AT_SAPBR_CLOSE; AT_HTTPTERM; AT_SAPBR_CONTYPE; AT_SAPBR_APN_CMNET; AT_SAPBR_OPEN;
   AT_SAPBR_REQUEST; AT_HTTPINIT; AT_HTTPPARA_CID; AT_HTTPPARA_URL].

Lemma setup_run i d w file range : http_at w file range → i ∈ setup_commands →
  ∃ w', send_cmd_mail i 50 d w = Done AT_RESPONSE_OK w' ∧
    http_at w' file (if bool_decide (i = AT_HTTPINIT) then (0, 0) else range).
Proof.
  intros H Hin. pose proof H as [[n Hq] Hf Hr].
  destruct (http_serve_setup (set_mq_gsm (Some (mkQueue [GM_cmd i 50 d] (S n))) w) i 50 d (S n))
    as (w' & E & S & R); [done|done|].
  apply (http_command i 50 d w _ _ n Hq). exists w'. split; [done|].
  destruct S as (F & Q & _). split; [by exists n|by rewrite F|]. rewrite R.
  case_bool_decide; [done|]. rewrite <- Hr. by apply http_wire.
Qed.

Lemma range_run start end_ w file range : http_at w file range →
  ∃ w', expect (aip_range start end_) w = Done true w' ∧ http_at w' file (start, end_).
Proof.
  intros [[n Hq] Hf Hr]. unfold aip_range, expect.
  destruct (http_serve_break (set_mq_gsm
    (Some (mkQueue [GM_cmd AT_HTTPPARA_BREAK 50 (CD_httppara_break start)] (S n))) w) 50 start (S n))
    as (w1 & E1 & (F1 & Q1 & _) & R1); [done|].
  destruct (http_command AT_HTTPPARA_BREAK 50 (CD_httppara_break start) w AT_RESPONSE_OK (eq w1) n Hq)
    as (? & E1' & <-); [by exists w1|].
  rewrite (mseq_run _ _ _ _ _ E1'). rewrite Z.eqb_refl.
  assert (mq_gsm w1 = Some (mkQueue [] (S n))) as Hq1 by done.
  destruct (http_serve_breakend (set_mq_gsm
    (Some (mkQueue [GM_cmd AT_HTTPPARA_BREAKEND 50 (CD_httppara_breakend end_)] (S n))) w1) 50 end_ (S n))
    as (w2 & E2 & (F2 & Q2 & _) & R2); [done|].
  destruct (http_command AT_HTTPPARA_BREAKEND 50 (CD_httppara_breakend end_) w1 AT_RESPONSE_OK (eq w2) n Hq1)
    as (? & E2' & <-); [by exists w2|].
  rewrite (mseq_run _ _ _ _ _ E2'). rewrite Z.eqb_refl. exists w2. split; [done|].
  split; [by exists n|rewrite F2; cbn; rewrite F1; exact Hf|]. rewrite R2. f_equal.
  destruct (http_wire (set_mq_gsm (Some (mkQueue [GM_cmd AT_HTTPPARA_BREAKEND 50
    (CD_httppara_breakend end_)] (S n))) w1) w1 eq_refl) as [-> _]. by rewrite R1.
Qed.

(** What the server answers to the range *)
Definition piece (range : Z * Z) : list Z :=
  let '(start, end_) := range in
  if end_ =? 0 then drop (Z.to_nat start) img
  else take (Z.to_nat (end_ + 1 - start)) (drop (Z.to_nat start) img).

Definition http_status (range : Z * Z) : Z :=
  let whole := bool_decide (range = (0, 0)) in
  if negb whole && (Z.of_nat (length img) <=? fst range) then AT_RESPONSE_ERROR
  else if negb whole && (Z.of_nat (length img) <=? snd range) && negb http_cut then AT_RESPONSE_BAD_REQUEST
  else if (http_memory <? length (piece range))%nat then AT_RESPONSE_NO_MEMORY
  else if whole then AT_RESPONSE_OK else AT_RESPONSE_PARTIAL_CONTENT.

Lemma action_run w file range : http_at w file range →
  0 <= fst range → 0 <= snd range →
  ∃ w', send_cmd_mail AT_HTTPACTION_GET 50 CD_none w = Done (http_status range) w' ∧
    http_at w' file range ∧
    (http_status range = AT_RESPONSE_OK ∨ http_status range = AT_RESPONSE_PARTIAL_CONTENT →
     http_body w' = piece range ∧ aip_bin_size w' = Z.of_nat (length (piece range))).
Proof.
  intros [[n Hq] Hf Hr] Hs He. destruct range as [start end_].
  set (w0 := set_mq_gsm (Some (mkQueue [GM_cmd AT_HTTPACTION_GET 50 CD_none] (S n))) w).
  destruct (http_wire w0 w eq_refl) as [R0 _].
  destruct (http_serve_get w0 50 CD_none (S n) start end_) as (w' & E & (F & Q & _) & R & Hbody);
    [done|by rewrite R0|done|done|].
  destruct (http_command AT_HTTPACTION_GET 50 CD_none w (http_status (start, end_)) (eq w') n Hq)
    as (? & E' & <-); [by exists w'|].
  exists w'. split; [done|]. split; [|exact Hbody].
  split; [by exists n|rewrite F; exact Hf|]. by rewrite R, R0.
Qed.

Hypothesis disk_works : (∀ t, file_works AIP_BIN_NAME t = true) ∧ (∀ t n, disk_takes t n = n).

Lemma append_run w data old : files w AIP_BIN_NAME = Some old →
  ∃ w', file_write AIP_BIN_NAME (length old) data w = Done (length data) w' ∧
    files w' AIP_BIN_NAME = Some (old ++ data) ∧ mq_gsm w' = mq_gsm w ∧ trace w' = trace w.
Proof.
  intros Hf. unfold file_write. rewrite observe_run, (proj2 disk_works). rewrite upd_run.
  rewrite firstn_all. eexists. split; [reflexivity|]. cbn. rewrite Hf. cbn.
  split; [|done]. f_equal. unfold memcpy_at. rewrite firstn_all, drop_ge by lia.
  by rewrite app_nil_r.
Qed.

(** The body is read in pieces and lands behind the file. *)
Lemma read_loop_run body range : Z.of_nat (length body) < 2 ^ 32 →
  ∀ fuel k old w, http_at w (Some old) range → http_body w = body → (k <= length body)%nat →
  (length body - k < fuel)%nat →
  ∃ w', aip_read_loop fuel (length old) (Z.of_nat (length body) - Z.of_nat k) (Z.of_nat k) w =
      Done (length old + (length body - k))%nat w' ∧
    http_at w' (Some (old ++ drop k body)) range.
Proof.
  intros Hsize. induction fuel as [|fuel IH]; intros k old w H Hb Hk Hfuel; [lia|].
  cbn [aip_read_loop]. destruct (Z.ltb_spec 0 (Z.of_nat (length body) - Z.of_nat k)) as [Hlt|Hge].
  2: { exists w. rewrite drop_ge by lia. rewrite app_nil_r. split; [|done]. unfold mreturn. f_equal. lia. }
  pose proof H as [[n Hq] Hf Hr].
  set (w0 := set_mq_gsm (Some (mkQueue [GM_cmd AT_HTTPREAD 50
    (CD_httpread (Z.of_nat k) (Z.of_nat SIZE_OF_PROCESS))] (S n))) w).
  destruct (http_wire w0 w eq_refl) as [R0 B0].
  destruct (http_serve_read w0 50 (Z.of_nat k) (S n)) as (w1 & E1 & (F1 & Q1 & _) & R1 & B1); [done|lia|].
  rewrite B0, Hb, Nat2Z.id in E1. set (data := take SIZE_OF_PROCESS (drop k body)) in *.
  assert (0 < length data <= length body - k)%nat as Hd.
  { unfold data. rewrite length_take, length_drop. unfold SIZE_OF_PROCESS. lia. }
  assert (http_read (Z.of_nat k) w = Done (AT_RESPONSE_OK, data) w1) as ER.
  { unfold http_read, mseq. rewrite (gsm_transact_idle _ n w Hq). unfold mseq. fold w0. by rewrite E1. }
  rewrite (mseq_run _ _ _ _ _ ER). rewrite Z.eqb_refl, (proj2 (Z.eqb_neq _ _)) by lia.
  cbn [negb andb].
  destruct (append_run w1 data old) as (w2 & E2 & F2 & Q2 & T2); [rewrite F1; exact Hf|].
  rewrite (mseq_run _ _ _ _ _ E2). destruct (http_wire w2 w1 T2) as [R2 B2].
  rewrite wrap_small by (unfold fits; lia).
  destruct (IH (k + length data)%nat (old ++ data) w2) as (w3 & E3 & H3).
  - split; [exists n; by rewrite Q2, Q1|done|by rewrite R2, R1, R0].
  - by rewrite B2, B1, B0.
  - lia.
  - lia.
  - exists w3. rewrite Nat2Z.inj_add, Z.sub_add_distr, length_app in E3. split.
    + rewrite E3. f_equal. lia.
    + replace (old ++ drop k body) with ((old ++ data) ++ drop (k + length data) body); [done|].
      rewrite <- app_assoc. f_equal. rewrite <- drop_drop. apply prefix_rest.
Qed.

Hypothesis img_size : Z.of_nat (length img) < 2 ^ 31.

Lemma piece_size range : (length (piece range) <= length img)%nat.
Proof.
  destruct range as [s e]. unfold piece. case_match; rewrite ?length_take, length_drop; lia.
Qed.

(** The whole body of an answer is appended. *)
Lemma body_run range fuel old w : http_at w (Some old) range → http_body w = piece range →
  (length img < fuel)%nat →
  ∃ w', aip_read_loop fuel (length old) (Z.of_nat (length (piece range))) 0 w =
      Done (length (old ++ piece range)) w' ∧ http_at w' (Some (old ++ piece range)) range.
Proof.
  intros H Hb Hfuel. pose proof (piece_size range).
  destruct (read_loop_run (piece range) range) with (fuel := fuel) (k := 0%nat) (old := old) (w := w)
    as (w' & E & H'); [lia|done..|lia|lia|].
  rewrite Z.sub_0_r, Nat.sub_0_r in E. exists w'. by rewrite length_app.
Qed.

Lemma status_whole : http_status (0, 0) =
  if (length img <=? http_memory)%nat then AT_RESPONSE_OK else AT_RESPONSE_NO_MEMORY.
Proof.
  unfold http_status. rewrite bool_decide_true by done. cbn [negb andb]. change (piece (0, 0)) with img.
  rewrite Nat.leb_antisym. by destruct (_ <? _)%nat.
Qed.

Lemma status_part start end_ : 0 < start ∨ 0 < end_ → Z.of_nat (length (piece (start, end_))) <= 65536 →
  http_status (start, end_) =
    if Z.of_nat (length img) <=? start then AT_RESPONSE_ERROR
    else if (end_ <? Z.of_nat (length img)) || http_cut then AT_RESPONSE_PARTIAL_CONTENT
    else AT_RESPONSE_BAD_REQUEST.
Proof.
  intros H Hp. unfold http_status. rewrite bool_decide_false by (intros [= -> ->]; lia).
  cbn [negb andb fst snd]. pose proof http_enough. rewrite (proj2 (Nat.ltb_ge _ _)) by lia.
  rewrite (Z.leb_antisym end_).
  by destruct (Z.of_nat (length img) <=? start), (end_ <? Z.of_nat (length img)), http_cut.
Qed.

(** The pieces that are asked for *)
Lemma piece_part start end_ : 0 <= start → end_ <> 0 → end_ + 1 - start <= 65536 →
  Z.of_nat (length (piece (start, end_))) <= 65536.
Proof.
  intros Hs He Hr. unfold piece. rewrite (proj2 (Z.eqb_neq _ _)) by done.
  rewrite length_take. lia.
Qed.

Lemma piece_rest start : 0 <= start → Z.of_nat (length img) - start <= 65536 →
  Z.of_nat (length (piece (start, 0))) <= 65536.
Proof. intros Hs Hr. unfold piece. cbn [Z.eqb]. rewrite length_drop. lia. Qed.

(** The comparisons of a known status *)
Ltac status_cases :=
  repeat match goal with
  | |- context [?a =? ?b] =>
      let v := eval vm_compute in (a =? b) in
      lazymatch v with true => idtac | false => idtac end;
      change (a =? b) with v
  end; cbv iota.

(** The last request: from [start] to the end *)
Lemma rest_run start end_ fuel w :
  http_at w (Some (take (Z.to_nat start) img)) (start, 0) → 0 < start < Z.of_nat (length img) →
  Z.of_nat (length img) - start <= 65536 → (length img + 1 < fuel)%nat →
  ∃ w', aip_rescan fuel (length (take (Z.to_nat start) img)) start end_ true w = Done 0 w' ∧
    http_at w' (Some img) (start, 0).
Proof.
  intros H Hs Hr Hfuel. destruct fuel as [|fuel]; [lia|]. cbn [aip_rescan].
  destruct (action_run w _ _ H) as (w1 & E1 & H1 & Hb); [cbn; lia..|].
  rewrite status_part in * by (lia || (apply piece_rest; lia)).
  rewrite (proj2 (Z.leb_gt _ _)), (proj2 (Z.ltb_lt 0 _)) in * by lia. cbn [orb] in *.
  destruct Hb as [Hb Hz]; [by right|]. rewrite (mseq_run _ _ _ _ _ E1). cbv zeta.
  status_cases.
  rewrite get_run, Hz.
  destruct (body_run (start, 0) fuel (take (Z.to_nat start) img) w1) as (w2 & E2 & H2); [done|done|lia|].
  rewrite (mseq_run _ _ _ _ _ E2). exists w2. split; [done|].
  change (piece (start, 0)) with (drop (Z.to_nat start) img) in H2. by rewrite take_drop in H2.
Qed.

(** A request behind the end fails, whatever is in the file. *)
Lemma behind_run start end_ fuel off file complete w :
  http_at w file (start, end_) → Z.of_nat (length img) <= start → 0 < start → 0 <= end_ →
  ∃ w', aip_rescan (S fuel) off start end_ complete w = Done (-1) w' ∧
    http_at w' file (start, end_).
Proof.
  intros H Hs Hp He. cbn [aip_rescan].
  destruct (action_run w _ _ H) as (w1 & E1 & H1 & _); [cbn; lia..|].
  rewrite status_part in E1; [|lia|].
  2: { unfold piece. case_match; rewrite ?length_take, length_drop; lia. }
  rewrite (proj2 (Z.leb_le _ _) Hs) in E1.
  rewrite (mseq_run _ _ _ _ _ E1). cbv zeta. status_cases. by exists w1.
Qed.

(** Whether the download of an image that does not fit in the modem ends with
    success: the server must answer 400 to the range that ends behind it, and
    there must be such a range. *)
Definition range_ends_image : bool := (Z.of_nat (length img) - 65536) mod 65535 =? 0.
Definition ranged_result : Z := if http_cut || range_ends_image then -1 else 0.

Definition range_end (end_ : Z) : Prop := ∃ k : nat, end_ + 1 = 65536 + 65535 * Z.of_nat k.

Lemma range_ends_at end_ : range_end end_ → end_ + 1 = Z.of_nat (length img) → ranged_result = -1.
Proof.
  intros [k Hk] He. unfold ranged_result, range_ends_image.
  replace (Z.of_nat (length img) - 65536) with (Z.of_nat k * 65535) by lia.
  by rewrite Z_mod_mult, orb_true_r.
Qed.

Lemma range_ends_behind start end_ : range_end end_ → start = end_ - 65534 →
  start < Z.of_nat (length img) <= end_ → range_ends_image = false.
Proof.
  intros [k Hk] -> He. apply Z.eqb_neq. intros Hm. apply Z_div_exact_full_2 in Hm; lia.
Qed.

(** A range: its bytes land behind the file, and the next range is set. *)
Lemma piece_run start end_ w : http_at w (Some (take (Z.to_nat start) img)) (start, end_) →
  http_body w = piece (start, end_) → aip_bin_size w = Z.of_nat (length (piece (start, end_))) →
  0 <= start <= end_ → 0 < end_ < 2 ^ 31 + 65536 →
  ∀ fuel, (length img < fuel)%nat →
  ∃ w', (off <- aip_read_loop fuel (length (take (Z.to_nat start) img)) (aip_bin_size w) 0 ;;
      ok <- expect (aip_range (u32 (end_ + 1)) (u32 (end_ + (AIP_BREAKPOINT_SIZE - 1)))) ;;
      if ok : bool then aip_rescan fuel off (u32 (end_ + 1)) (u32 (end_ + (AIP_BREAKPOINT_SIZE - 1))) false
      else mreturn (-1)) w =
    aip_rescan fuel (length (take (Z.to_nat (end_ + 1)) img)) (end_ + 1) (end_ + 65535) false w' ∧
    http_at w' (Some (take (Z.to_nat (end_ + 1)) img)) (end_ + 1, end_ + 65535).
Proof.
  intros H Hb Hz Hs He fuel Hfuel. rewrite Hz.
  destruct (body_run (start, end_) fuel (take (Z.to_nat start) img) w) as (w2 & E2 & H2); [done..|].
  rewrite (mseq_run _ _ _ _ _ E2).
  assert (take (Z.to_nat start) img ++ piece (start, end_) = take (Z.to_nat (end_ + 1)) img) as Happ.
  { unfold piece. rewrite (proj2 (Z.eqb_neq _ _)) by lia. rewrite take_take_drop. f_equal. lia. }
  rewrite Happ in *. unfold AIP_BREAKPOINT_SIZE. rewrite !wrap_small by (unfold fits; lia).
  destruct (range_run (end_ + 1) (end_ + (64 * 1024 - 1)) w2 _ _ H2) as (w3 & E3 & H3).
  rewrite (mseq_run _ _ _ _ _ E3). exists w3. by split.
Qed.

Lemma ranges_run : ∀ fuel start end_ w,
  http_at w (Some (take (Z.to_nat start) img)) (start, end_) →
  0 <= start < Z.of_nat (length img) → start <= end_ < 2 ^ 31 + 65535 → range_end end_ →
  (start = 0 ∧ end_ = 65535 ∧ end_ < Z.of_nat (length img)) ∨ start = end_ - 65534 →
  Z.of_nat (length img) + (Z.of_nat (length img) - start) + 3 < Z.of_nat fuel →
  ∃ w' range, aip_rescan fuel (length (take (Z.to_nat start) img)) start end_ false w =
      Done ranged_result w' ∧ http_at w' (Some img) range.
Proof.
  induction fuel as [|fuel IH]; intros start end_ w H Hs He Hk H0 Hfuel; [lia|].
  cbn [aip_rescan]. assert (65535 <= end_) as Hend by (destruct Hk; lia).
  destruct (action_run w _ _ H) as (w1 & E1 & H1 & Hb); [cbn; lia..|].
  rewrite status_part in * by (lia || (apply piece_part; lia)).
  rewrite (proj2 (Z.leb_gt _ _)) in * by lia.
  rewrite (mseq_run _ _ _ _ _ E1). cbv zeta.
  destruct ((end_ <? Z.of_nat (length img)) || http_cut) eqn:Hpart.
  - destruct Hb as [Hb Hz]; [by right|]. status_cases. rewrite get_run.
    destruct (piece_run start end_ w1) with (fuel := fuel) as (w2 & E2 & H2); [done..|lia|lia|lia|].
    rewrite E2. destruct (Z.lt_ge_cases (end_ + 1) (Z.of_nat (length img))) as [Hlt|Hge].
    + destruct Hk as [k Hk]. apply IH; [done|lia|lia|exists (S k); lia|lia|lia].
    + destruct fuel as [|fuel]; [lia|]. rewrite take_ge in * by lia.
      destruct (behind_run (end_ + 1) (end_ + 65535) fuel (length img) (Some img) false w2)
        as (w3 & E3 & H3); [done|lia..|]. exists w3. eexists. split; [|done]. rewrite E3. f_equal.
      destruct (Z.eq_dec (end_ + 1) (Z.of_nat (length img))); [symmetry; by apply (range_ends_at end_)|].
      rewrite (proj2 (Z.ltb_ge _ _)) in Hpart by lia. cbn in Hpart. unfold ranged_result. by rewrite Hpart.
  - apply orb_false_iff in Hpart as [Hge Hcut]. apply Z.ltb_ge in Hge. status_cases.
    destruct (range_run start 0 w1 _ _ H1) as (w2 & E2 & H2). rewrite (mseq_run _ _ _ _ _ E2).
    destruct (rest_run start end_ fuel w2) as (w3 & E3 & H3); [done|lia|lia|lia|].
    unfold ranged_result. rewrite Hcut, (range_ends_behind start end_) by (done || lia). eauto.
Qed.

(** What the download answers.  Its bytes are complete in every case. *)
Definition aip_result : Z := if (length img <=? http_memory)%nat then 0 else ranged_result.

(** The first request, without a range *)
Lemma first_run fuel w : http_at w (Some []) (0, 0) →
  2 * Z.of_nat (length img) + 4 < Z.of_nat fuel →
  ∃ w' range, aip_rescan fuel 0 0 (AIP_BREAKPOINT_SIZE - 1) false w = Done aip_result w' ∧
    http_at w' (Some img) range.
Proof.
  intros H Hfuel. destruct fuel as [|fuel]; [lia|]. cbn [aip_rescan].
  destruct (action_run w _ _ H) as (w1 & E1 & H1 & Hb); [cbn; lia..|].
  rewrite status_whole in *. rewrite (mseq_run _ _ _ _ _ E1). cbv zeta. unfold aip_result.
  destruct (Nat.leb_spec (length img) http_memory) as [Hle|Hgt].
  - destruct Hb as [Hb Hz]; [by left|]. status_cases. rewrite get_run, Hz.
    destruct (body_run (0, 0) fuel [] w1) as (w2 & E2 & H2); [done|done|lia|].
    cbn [length] in E2. rewrite (mseq_run _ _ _ _ _ E2). exists w2, (0, 0). split; [done|].
    change (piece (0, 0)) with (drop 0 img) in H2. exact H2.
  - pose proof http_enough. status_cases.
    destruct (range_run 0 (AIP_BREAKPOINT_SIZE - 1) w1 _ _ H1) as (w2 & E2 & H2).
    rewrite (mseq_run _ _ _ _ _ E2). unfold AIP_BREAKPOINT_SIZE in *.
    apply (ranges_run fuel 0); [done|lia|lia| |lia|lia]. by exists 0%nat.
Qed.

Lemma setup_expect steps : ∀ w file range, http_at w file range →
  Forall (λ '(i, _, e), i ∈ setup_commands ∧ e = AT_RESPONSE_OK) steps →
  ∃ w' range', expect steps w = Done true w' ∧ http_at w' file range' ∧
    (range = (0, 0) ∨ AT_HTTPINIT ∈ map (fst ∘ fst) steps → range' = (0, 0)).
Proof.
  induction steps as [|[[i d] e] steps IH]; intros w file range H Hs.
  { exists w, range. split; [done|]. split; [done|]. intros [?|Hin]; [done|by apply elem_of_nil in Hin]. }
  apply Forall_cons in Hs as [[Hi ->] Hs]. cbn [expect].
  destruct (setup_run i d w file range H Hi) as (w1 & E1 & H1).
  rewrite (mseq_run _ _ _ _ _ E1), Z.eqb_refl.
  destruct (IH w1 _ _ H1 Hs) as (w2 & r2 & E2 & H2 & R2). exists w2, r2. split; [done|].
  split; [done|]. intros Hr. apply R2. case_bool_decide as Hd; [by left|].
  destruct Hr as [->|Hin]; [by left|]. cbn [map compose fst] in Hin.
  apply elem_of_cons in Hin as [?|?]; [congruence|by right].
Qed.

(** With a modem and a server as HTTP has them, and a disk with
    room, the download ends and /aip.bin is the image, byte for byte, whether
    the modem takes it at once or in ranges, and whatever was in the file
    before.  It is a success if the image fits in the modem; otherwise the
    server must answer 400 to a range that ends behind the image, and no range
    may end exactly with it.  [fuel] bounds the requests and the reads and
    depends on the size of the image only. *)
Lemma aip_downloads_image fuel w n :
  mq_gsm w = Some (mkQueue [] (S n)) → 2 * Z.of_nat (length img) + 4 < Z.of_nat fuel →
  ∃ w', get_aip fuel w = Done aip_result w' ∧ files w' AIP_BIN_NAME = Some img.
Proof.
  intros Hq Hfuel. unfold get_aip.
  rewrite (mseq_run _ _ _ _ _ (file_unlink_works _ w (proj1 disk_works _))).
  set (w1 := set_files _ _). rewrite (mseq_run _ _ _ _ _ (file_create_works _ w1 (proj1 disk_works _))).
  set (w2 := set_files _ _).
  assert (http_at w2 (Some []) (http_range w2)) as H2.
  { split; [by exists n| |done]. unfold w2, w1. cbn. by rewrite !fn_lookup_insert. }
  rewrite !mseq_assoc.
  destruct (setup_run AT_SAPBR_CLOSE CD_none w2 _ _ H2) as (w3 & E3 & H3); [by_computation|].
  rewrite (mseq_run _ _ _ _ _ E3), mseq_assoc.
  destruct (setup_run AT_HTTPTERM CD_none w3 _ _ H3) as (w4 & E4 & H4); [by_computation|].
  rewrite (mseq_run _ _ _ _ _ E4), mseq_assoc, get_run, mseq_assoc, get_run, mseq_assoc.
  destruct (setup_expect (aip_opening (aip_bin_http_address w4) (aip_bin_http_address_length w4))
    w4 _ _ H4) as (w5 & r5 & E5 & H5 & R5).
  { unfold aip_opening, ok_step, setup_commands.
    repeat (apply Forall_cons; split; [split; [by_computation|done]|]). by apply Forall_nil. }
  rewrite (mseq_run _ _ _ _ _ E5). rewrite R5 in H5 by (right; cbn; by_computation).
  destruct (first_run fuel w5 H5 Hfuel) as (w6 & r6 & E6 & H6). rewrite (mseq_run _ _ _ _ _ E6).
  destruct (setup_run AT_HTTPTERM CD_none w6 _ _ H6) as (w7 & E7 & H7); [by_computation|].
  rewrite (mseq_run _ _ _ _ _ E7).
  destruct (setup_run AT_SAPBR_CLOSE CD_none w7 _ _ H7) as (w8 & E8 & H8); [by_computation|].
  rewrite (mseq_run _ _ _ _ _ E8). exists w8. split; [done|]. by destruct H8.
Qed.
End download.

(** ** A bench with such a modem

    It keeps its state in marks on the wire: 0 for AT+HTTPINIT, 1 and 2 for the
    range, 3 for a request. *)
Section http_bench.
Context {HB : Board} (img : list Z) (img_bytes : Forall byte img) (memory : nat) (cut : bool).
Hypothesis memory_enough : 65536 <= Z.of_nat memory.

Definition bench_step (st : Z * Z * list Z) (frame : list Z) : Z * Z * list Z :=
  let '(range, body) := st in
  match frame with
  | [0] => ((0, 0), body)
  | [1; start] => ((start, snd range), body)
  | [2; end_] => ((fst range, end_), body)
  | [3] => (range, piece img range)
  | _ => st
  end.

Definition bench_state (w : World) : Z * Z * list Z :=
  foldl bench_step ((0, 0), []) (sent_frames (trace w)).

Definition bench_range (w : World) : Z * Z := fst (bench_state w).
Definition bench_body (w : World) : list Z := snd (bench_state w).

Definition bench_status (range : Z * Z) : Z :=
  let whole := bool_decide (range = (0, 0)) in
  if negb whole && (Z.of_nat (length img) <=? fst range) then AT_RESPONSE_ERROR
  else if negb whole && (Z.of_nat (length img) <=? snd range) && negb cut then AT_RESPONSE_BAD_REQUEST
  else if (memory <? length (piece img range))%nat then AT_RESPONSE_NO_MEMORY
  else if whole then AT_RESPONSE_OK else AT_RESPONSE_PARTIAL_CONTENT.

Definition http_bench_serve : M (Z * GSM_ANSWER) :=
  m <- rt_mq_recv mq_gsm set_mq_gsm ;;
  match m with
  | Some (GM_cmd AT_HTTPINIT _ _) => uart_write DEV_GSM_USART [0] ;;; mreturn (AT_RESPONSE_OK, GA_none)
  | Some (GM_cmd AT_HTTPPARA_BREAK _ (CD_httppara_break start)) =>
      uart_write DEV_GSM_USART [1; start] ;;; mreturn (AT_RESPONSE_OK, GA_none)
  | Some (GM_cmd AT_HTTPPARA_BREAKEND _ (CD_httppara_breakend end_)) =>
      uart_write DEV_GSM_USART [2; end_] ;;; mreturn (AT_RESPONSE_OK, GA_none)
  | Some (GM_cmd AT_HTTPACTION_GET _ _) =>
      range <- get bench_range ;;
      upd (set_aip_bin_size (Z.of_nat (length (piece img range)))) ;;;
      uart_write DEV_GSM_USART [3] ;;; mreturn (bench_status range, GA_none)
  | Some (GM_cmd AT_HTTPREAD _ (CD_httpread start _)) =>
      body <- get bench_body ;;
      mreturn (AT_RESPONSE_OK, GA_httpread (take SIZE_OF_PROCESS (drop (Z.to_nat start) body)))
  | Some _ => mreturn (AT_RESPONSE_OK, GA_none)
  | None => nofuel
  end.

Lemma bench_body_bytes w : Forall byte (bench_body w).
Proof using img_bytes.
  unfold bench_body, bench_state.
  assert (∀ st l, Forall byte (snd st) → Forall byte (snd (foldl bench_step st l))) as H.
  { intros st l. revert st. induction l as [|f l IH]; intros st Hst; [done|]. cbn [foldl]. apply IH.
    destruct st as [range body]. unfold bench_step. repeat case_match; try done.
    cbn. destruct range as [s e]. unfold piece. case_match; [by apply Forall_drop|].
    by apply Forall_take, Forall_drop. }
  by apply H, Forall_nil.
Qed.

Lemma http_bench_keeps : keeps wf http_bench_serve (λ r, answer_wf (snd r)).
Proof using img_bytes.
  unfold http_bench_serve. apply keeps_then.
  - apply keeps_mail_recv.
  - intros m.
    assert (∀ l r, answer_wf (snd r) → keeps wf (uart_write DEV_GSM_USART l ;;; mreturn r)
      (λ r : Z * GSM_ANSWER, answer_wf (snd r))) as Hwrite.
    { intros l r Hr. apply keeps_then; [apply runs_keeps, runs_emit|intros _]. by apply keeps_return. }
    repeat case_match; try (by apply keeps_return); try (by apply Hwrite); try apply keeps_nofuel.
    + apply keeps_then; [by apply runs_keeps, runs_get|intros range].
      apply keeps_then; [apply runs_keeps, runs_upd; by intros w' []|intros _]. by apply Hwrite.
    + intros w r w' Hw E. rewrite get_run in E. injection E as <- <-. split; [done|]. cbn. split.
      * rewrite length_take. unfold SIZE_OF_PROCESS. lia.
      * apply Forall_take, Forall_drop, bench_body_bytes.
Qed.

Definition http_bench : GsmService :=
  {| gsm_serve := http_bench_serve; gsm_serve_keeps := http_bench_keeps |}.

Lemma bench_wrote frame w w' : sent_frames (trace w') = sent_frames (trace w) ++ [frame] →
  bench_state w' = bench_step (bench_state w) frame.
Proof. intros H. unfold bench_state. by rewrite H, foldl_app. Qed.

#[export] Instance http_bench_modem : @HttpModem HB http_bench img.
Proof using memory_enough.
  refine {| http_range := bench_range; http_body := bench_body; http_memory := memory; http_cut := cut |}.
  - intros w w' H. unfold bench_range, bench_body, bench_state. by rewrite H.
  - exact memory_enough.
  - intros w i delay d n Hq Hi. unfold gsm_serve, http_bench, http_bench_serve, rt_mq_recv.
    rewrite mseq_assoc, get_run, Hq. unfold deref. rewrite mseq_assoc, mseq_return_l.
    cbn [q_recv q_msgs q_max]. rewrite mseq_assoc, upd_run, mseq_return_l.
    revert Hi. rewrite !elem_of_cons, elem_of_nil.
    intros [->|[->|[->|[->|[->|[->|[->|[->|[->|[]]]]]]]]]];
      (eexists; split; [reflexivity|]; split; [by split_and!|]); try reflexivity.
    unfold bench_range. rewrite (bench_wrote [0] w) by (cbn; by rewrite sent_frames_app).
    by destruct (bench_state w).
  - intros w delay start n Hq. unfold gsm_serve, http_bench, http_bench_serve, rt_mq_recv.
    rewrite mseq_assoc, get_run, Hq. unfold deref. rewrite mseq_assoc, mseq_return_l.
    eexists. split; [reflexivity|]. split; [by split_and!|].
    unfold bench_range. rewrite (bench_wrote [1; start] w) by (cbn; by rewrite sent_frames_app).
    by destruct (bench_state w).
  - intros w delay end_ n Hq. unfold gsm_serve, http_bench, http_bench_serve, rt_mq_recv.
    rewrite mseq_assoc, get_run, Hq. unfold deref. rewrite mseq_assoc, mseq_return_l.
    eexists. split; [reflexivity|]. split; [by split_and!|].
    unfold bench_range. rewrite (bench_wrote [2; end_] w) by (cbn; by rewrite sent_frames_app).
    by destruct (bench_state w).
  - intros w delay d n start end_ Hq Hr _ _ body status.
    unfold gsm_serve, http_bench, http_bench_serve, rt_mq_recv.
    rewrite mseq_assoc, get_run, Hq. unfold deref. rewrite mseq_assoc, mseq_return_l.
    cbn [q_recv q_msgs q_max]. rewrite mseq_assoc, upd_run, mseq_return_l, get_run.
    change (bench_range (set_mq_gsm _ w)) with (bench_range w). rewrite Hr, upd_run.
    eexists. split; [reflexivity|]. split; [by split_and!|].
    unfold bench_range, bench_body in *.
    rewrite (bench_wrote [3] w) by (cbn; by rewrite sent_frames_app).
    destruct (bench_state w) as [range b]. cbn in Hr. subst range. split; [done|]. intros _. done.
  - intros w delay start n Hq _. unfold gsm_serve, http_bench, http_bench_serve, rt_mq_recv.
    rewrite mseq_assoc, get_run, Hq. unfold deref. rewrite mseq_assoc, mseq_return_l.
    eexists. split; [reflexivity|]. by split_and!.
Defined.
End http_bench.

(** A modem with 64 KB of memory and an image it has to fetch in two ranges and
    a rest *)
Definition bench_memory : nat := Z.to_nat 65536.
Definition bench_image : list Z := repeat 0xA5 (Z.to_nat 140000).

Lemma bench_memory_enough : 65536 <= Z.of_nat bench_memory.
Proof. unfold bench_memory. rewrite Z2Nat.id; lia. Qed.

Lemma bench_image_bytes : Forall byte bench_image.
Proof. apply forall_repeat. by_computation. Qed.

Lemma bench_image_length : Z.of_nat (length bench_image) = 140000.
Proof. unfold bench_image. rewrite repeat_length, Z2Nat.id; lia. Qed.

(** A server that answers 400 to a range that ends behind the image, and one
    that keeps to HTTP *)
Definition bench_http (cut : bool) : GsmService :=
  http_bench (HB:=quiet_board) bench_image bench_image_bytes bench_memory cut.

Definition bench_http_modem cut : HttpModem (HB:=quiet_board) (HG:=bench_http cut) bench_image :=
  http_bench_modem (HB:=quiet_board) bench_image bench_image_bytes bench_memory cut bench_memory_enough.

Lemma bench_result cut : aip_result (HB:=quiet_board) bench_image (HM:=bench_http_modem cut) =
  if cut then -1 else 0.
Proof.
  unfold aip_result, ranged_result, range_ends_image. rewrite bench_image_length.
  rewrite (proj2 (Nat.leb_gt _ _)); [by destruct cut|].
  change (http_memory (HttpModem := bench_http_modem cut)) with bench_memory.
  unfold bench_memory, bench_image. rewrite repeat_length. lia.
Qed.

(** With the second one the download of this image fails, though all of it has
    arrived. *)
Lemma ranged_download_fails :
  ∃ w', get_aip (HB:=quiet_board) (HG:=bench_http true) (Z.to_nat 300000) start_world = Done (-1) w' ∧
    files w' AIP_BIN_NAME = Some bench_image.
Proof.
  destruct (aip_downloads_image (HB:=quiet_board) (HG:=bench_http true) bench_image
    (HM:=bench_http_modem true)) with (fuel := Z.to_nat 300000) (w := start_world) (n := 19%nat)
    as (w' & E & F).
  - by split.
  - rewrite bench_image_length. lia.
  - reflexivity.
  - rewrite bench_image_length, Z2Nat.id; lia.
  - rewrite bench_result in E. exact (ex_intro _ w' (conj E F)).
Qed.
