(* ===== verification/Flash.v ===== *)
(** * The firmware image in the flash memories (src/SPI_Flash.c, src/file_update.c,
      src/firm_update.c and the thread of src/aip.c)

    The image goes from /aip.bin to the SPI flash, sector by sector, and from
    there to the flash of the processor, word by word.  The SPI flash is the
    class [Sst25]: its contents are a function of what was written to it, the
    [Ev_spi] events of the trace; reading it leaves no event.  The laws are those
    of the data sheet of the SST25VF016B that the driver relies on. *)
From stdpp Require Import base functions strings list.
From Stdlib Require Import ZArith Lia.
From S2P Require Import Prelude World Monad Untils Alarm GsmService GsmAt Mms Aip.

(** What was written to the SPI flash *)
Definition spi_sent (l : list Event) : list (list Z) :=
  omap (λ e, match e with Ev_spi bytes => Some bytes | _ => None end) l.

(** A 24-bit address, high byte first *)
Definition address_bytes (a : Z) : list Z :=
  [Z.shiftr (Z.land a 0xffffff) 16; Z.land (Z.shiftr (Z.land a 0xffff) 8) 0xff; Z.land a 0xff].

(** The address is in the chip of two megabytes. *)
Definition sst_address (a : Z) : Prop := 0 <= a < 0x200000.

(** [h] is everything written so far. *)
Class Sst25 := {
  sst_mem : list (list Z) → Z → Z;
  sst_ready : list (list Z) → Prop;            (* not protected, write enable latch set *)
  sst_next : list (list Z) → option Z;         (* the address of a running word program *)
  sst_busy : nat → bool;                       (* the status bit, at an observation *)
  sst_delay : nat;
  sst_byte h a : byte (sst_mem h a);
  sst_not_busy_long t : ∃ k, (k <= sst_delay)%nat ∧ sst_busy (t + k) = false;
  sst_enables h :
    sst_ready (h ++ [[0x50]; [0x01; 0x00]; [0x06]]) ∧
    ∀ a, sst_mem (h ++ [[0x50]; [0x01; 0x00]; [0x06]]) a = sst_mem h a;
  sst_erases h s a : sst_ready h → sst_address s →
    sst_mem (h ++ [0x20 :: address_bytes s]) a = if a / 4096 =? s / 4096 then 0xff else sst_mem h a;
  sst_programs h s d0 d1 : sst_ready h → sst_address s → Z.even s = true → byte d0 → byte d1 →
    sst_next (h ++ [0xad :: address_bytes s ++ [d0; d1]]) = Some (s + 2) ∧
    ∀ a, sst_mem (h ++ [0xad :: address_bytes s ++ [d0; d1]]) a =
      if a =? s then Z.land (sst_mem h a) d0
      else if a =? s + 1 then Z.land (sst_mem h a) d1 else sst_mem h a;
  sst_programs_on h s d0 d1 : sst_next h = Some s → sst_address s → byte d0 → byte d1 →
    sst_next (h ++ [[0xad; d0; d1]]) = Some (s + 2) ∧
    ∀ a, sst_mem (h ++ [[0xad; d0; d1]]) a =
      if a =? s then Z.land (sst_mem h a) d0
      else if a =? s + 1 then Z.land (sst_mem h a) d1 else sst_mem h a;
  sst_disables h a : sst_mem (h ++ [[0x04]]) a = sst_mem h a;
  sst_unprotects h a : sst_mem (h ++ [[0x50]; [0x01; 0x00]]) a = sst_mem h a
}.

Section flash.
Context {HB : Board} {HS : Sst25}.

(** ** SPI_Flash.c *)

(** The bytes sent between Select_Flash and NotSelect_Flash *)
Definition spi_write (bytes : list Z) : M () := emit (Ev_spi bytes).

(** [rdsr () & 0x01] *)
Definition rdsr : M bool := observe sst_busy.

Fixpoint wip (fuel : nat) : M () :=
  match fuel with
  | O => nofuel
  | S fuel => a <- rdsr ;; if a : bool then wip fuel else mreturn ()
  end.

Definition wen : M () := spi_write [0x06].

Definition wdis (fuel : nat) : M () := spi_write [0x04] ;;; wip fuel.

Definition wsr (fuel : nat) : M () :=
  spi_write [0x50] ;;;
  spi_write [0x01; 0x00] ;;;
  wip fuel.

Definition sect_clr (fuel : nat) (a1 : Z) : M () :=
  wsr fuel ;;;
  wen ;;;
  spi_write (0x20 :: address_bytes a1) ;;;
  wip fuel.

(** [u16 i]; with an odd [BlockSize] the byte behind the block goes out too. *)
Fixpoint w_block_loop (fuel : nat) (i : Z) (readbuff : list Z) (BlockSize : Z) : M () :=
  match fuel with
  | O => nofuel
  | S fuel =>
      if i <? BlockSize then
        d0 <- deref (readbuff !! Z.to_nat i) ;;
        d1 <- deref (readbuff !! Z.to_nat (u16 (i + 1))) ;;
        spi_write [0xad; d0; d1] ;;;
        w_block_loop fuel (u16 (i + 2)) readbuff BlockSize
      else mreturn ()
  end.

Definition SST25_W_BLOCK (fuel : nat) (addr : Z) (readbuff : list Z) (BlockSize : Z) : M () :=
  sect_clr fuel addr ;;;
  wsr fuel ;;;
  wen ;;;
  d0 <- deref (readbuff !! 0%nat) ;;
  d1 <- deref (readbuff !! 1%nat) ;;
  spi_write (0xad :: address_bytes addr ++ [d0; d1]) ;;;
  w_block_loop fuel 2 readbuff BlockSize ;;;
  wdis fuel ;;;
  wip fuel.

(** The command 0x0b with a dummy byte, then [BlockSize] bytes are clocked out. *)
Definition SST25_R_BLOCK (addr : Z) (BlockSize : nat) : M (list Z) :=
  t <- get trace ;;
  mreturn (map (λ i, sst_mem (spi_sent t) (Z.land addr 0xffffff + Z.of_nat i)) (seq 0 BlockSize)).

(** ** file_update.c *)

Definition FILE_WRITE_FLASH_BUFFER_SIZE : nat := 4096.
Definition FLASH_START_WRITE_ADDR : Z := (512 - 128) * 4096.

(** [WriteAddr] and the buffer go round the loop; the buffer keeps what an
    earlier read left in it. *)
Fixpoint flash_pages (fuel page : nat) (f : FILE) (off : nat) (WriteAddr : Z) (buffer : list Z)
  : M (nat * Z * list Z) :=
  match page with
  | O => mreturn (off, WriteAddr, buffer)
  | S page =>
      r <- file_read f off FILE_WRITE_FLASH_BUFFER_SIZE ;;
      match r with
      | None => mreturn (off, WriteAddr, buffer)
      | Some data =>
          let buffer := memcpy_at buffer 0 data in
          SST25_W_BLOCK fuel WriteAddr buffer (Z.of_nat (length data)) ;;;
          flash_pages fuel page f (off + length data) (u32 (WriteAddr + Z.of_nat (length data))) buffer
      end
  end.

(** The member [st_size] is not initialised when [stat] fails. *)
Definition file_write_flash_addr (fuel : nat) (file_name : FILE) (addr : Z) : M Z :=
  opened <- file_open file_name ;;
  if negb opened then mreturn 1
  else
    let WriteAddr :=
      if (addr <? FLASH_START_WRITE_ADDR) ||
         negb (addr mod Z.of_nat FILE_WRITE_FLASH_BUFFER_SIZE =? 0)
      then FLASH_START_WRITE_ADDR else addr in
    st <- file_stat file_name ;;
    garbage <- observe (λ t, u32 (uninit t)) ;;
    let st_size := Z.to_nat (default garbage st) in
    let page := (st_size / FILE_WRITE_FLASH_BUFFER_SIZE)%nat in
    let surplus := (st_size mod FILE_WRITE_FLASH_BUFFER_SIZE)%nat in
    p <- flash_pages fuel page file_name 0 WriteAddr (repeat 0 FILE_WRITE_FLASH_BUFFER_SIZE) ;;
    let '(off, WriteAddr, buffer) := p in
    (if (surplus =? 0)%nat then mreturn ()
     else
       r <- file_read file_name off surplus ;;
       match r with
       | Some data => SST25_W_BLOCK fuel WriteAddr (memcpy_at buffer 0 data) (Z.of_nat (length data))
       | None => SST25_W_BLOCK fuel WriteAddr buffer (u16 (-1))
       end) ;;;
    mreturn 0.

(** ** firm_update.c *)

Definition FLASH_PAGE_SIZE : Z := 0x800.
Definition BANK1_WRITE_START_ADDR : Z := 0x08000000.
Definition BANK1_WRITE_END_ADDR : Z := 0x08060000.

(** FLASH_ErasePage and FLASH_ProgramWord, of the vendor's library; [true] is
    FLASH_COMPLETE. *)
Context (flash_complete : nat → bool).

Definition FLASH_ErasePage (a : Z) : M bool :=
  emit (Ev_flash_erase a) ;;; observe flash_complete.
Definition FLASH_ProgramWord (a data : Z) : M bool :=
  emit (Ev_flash_program a data) ;;; observe flash_complete.

(** [n] pages are left. *)
Fixpoint erase_loop (n : nat) (EraseCounter : Z) (complete : bool) : M bool :=
  match n with
  | O => mreturn complete
  | S n =>
      if complete then
        complete <- FLASH_ErasePage (BANK1_WRITE_START_ADDR + FLASH_PAGE_SIZE * EraseCounter) ;;
        erase_loop n (EraseCounter + 1) complete
      else mreturn complete
  end.

(** The four bytes in memory order *)
Definition word_of (l : list Z) : Z :=
  tbl l 0 + 256 * tbl l 1 + 65536 * tbl l 2 + 16777216 * tbl l 3.

(** [n] words are left. *)
Fixpoint program_loop (n : nat) (Address address_src : Z) (complete : bool) : M () :=
  match n with
  | O => mreturn ()
  | S n =>
      if complete then
        l <- SST25_R_BLOCK address_src 4 ;;
        complete <- FLASH_ProgramWord Address (word_of l) ;;
        program_loop n (Address + 4) (address_src + 4) complete
      else mreturn ()
  end.

Definition firm_update : M () :=
  complete <- erase_loop
    (Z.to_nat ((BANK1_WRITE_END_ADDR - BANK1_WRITE_START_ADDR) / FLASH_PAGE_SIZE)) 0 true ;;
  program_loop (Z.to_nat ((BANK1_WRITE_END_ADDR - BANK1_WRITE_START_ADDR) / 4))
    BANK1_WRITE_START_ADDR FLASH_START_WRITE_ADDR complete ;;;
  emit Ev_reset.

(** ** The thread of aip.c: one round *)

Context {HG : GsmService}.

Definition aip_mail_process_step (fuel : nat) : M () :=
  m <- rt_mq_recv aip_mq set_aip_mq ;;
  match m with
  | Some aip_mail_buf =>
      result <- get_aip fuel ;;
      when (result =? 0)
        (written <- file_write_flash_addr fuel AIP_BIN_NAME FLASH_START_WRITE_ADDR ;;
         when (written =? 0) firm_update)
  | None => mreturn ()
  end.
End flash.

(** ** Writing a block *)

(** Only the clock and the trace change. *)
Definition spied (w w' : World) : Prop := ∃ n t, w' = set_now n (set_trace t w).

Lemma spied_refl w : spied w w.
Proof. exists (now w), (trace w). by world_eq. Qed.

Lemma spied_trans w1 w2 w3 : spied w1 w2 → spied w2 w3 → spied w1 w3.
Proof. intros (n1 & t1 & ->) (n2 & t2 & ->). by exists n2, t2. Qed.

Lemma spied_files w w' : spied w w' → files w' = files w.
Proof. by intros (n & t & ->). Qed.

Lemma lookup_tbl buf i : 0 <= i < Z.of_nat (length buf) → buf !! Z.to_nat i = Some (tbl buf i).
Proof. intros H. unfold tbl. destruct (nth_lookup_or_length buf (Z.to_nat i) 0); [done|lia]. Qed.

Section blocks.
Context {HB : Board} {HS : Sst25} (fuel : nat).
Hypothesis enough : (sst_delay < fuel)%nat.

Definition spi_history (w : World) : list (list Z) := spi_sent (trace w).
Definition flash_mem (w : World) : Z → Z := sst_mem (spi_history w).

(** What a step of the driver leaves: the state differs by a transaction *)
Record sent (l : list (list Z)) (w w' : World) : Prop := {
  sent_spied : spied w w';
  sent_history : spi_history w' = spi_history w ++ l
}.

Lemma sent_trans l1 l2 w1 w2 w3 : sent l1 w1 w2 → sent l2 w2 w3 → sent (l1 ++ l2) w1 w3.
Proof.
  intros [S1 H1] [S2 H2]. split; [by eapply spied_trans|]. by rewrite H2, H1, app_assoc.
Qed.

Lemma spi_write_sent bytes w : ∃ w', spi_write bytes w = Done () w' ∧ sent [bytes] w w'.
Proof.
  eexists. split; [reflexivity|]. split.
  - exists (now w). eexists. by world_eq.
  - unfold spi_history, spi_sent. cbn. by rewrite omap_app.
Qed.

(** The chip is busy for a while only. *)
Lemma wip_sent w : ∃ w', wip fuel w = Done () w' ∧ sent [] w w'.
Proof.
  destruct (sst_not_busy_long (now w)) as (k & Hk & Hb).
  assert (k < fuel)%nat as Hf by lia. clear Hk enough.
  revert k w Hb Hf. induction fuel as [|n IH]; intros k w Hb Hf; [lia|].
  cbn [wip]. unfold rdsr. rewrite observe_run. destruct (sst_busy (now w)) eqn:E.
  - destruct k as [|k]; [rewrite Nat.add_0_r in Hb; congruence|].
    destruct (IH k (set_now (S (now w)) w)) as (w' & Ew & [Sp H]); [|lia|].
    { cbn [now set_now]. rewrite <- Hb. f_equal. lia. }
    exists w'. split; [done|]. split; [|done].
    eapply spied_trans; [|exact Sp]. exists (S (now w)), (trace w). by world_eq.
  - eexists. split; [reflexivity|]. split; [|by rewrite app_nil_r].
    exists (S (now w)), (trace w). by world_eq.
Qed.

(** Write enabled, nothing protected *)
Lemma enable_sent w : ∃ w', (wsr fuel ;;; wen) w = Done () w' ∧
  sent [[0x50]; [0x01; 0x00]; [0x06]] w w'.
Proof.
  unfold wsr. rewrite mseq_assoc.
  destruct (spi_write_sent [0x50] w) as (w1 & E1 & S1). rewrite (mseq_run _ _ _ _ _ E1), mseq_assoc.
  destruct (spi_write_sent [0x01; 0x00] w1) as (w2 & E2 & S2). rewrite (mseq_run _ _ _ _ _ E2).
  destruct (wip_sent w2) as (w3 & E3 & S3). rewrite (mseq_run _ _ _ _ _ E3).
  destruct (spi_write_sent [0x06] w3) as (w4 & E4 & S4). exists w4. split; [exact E4|].
  exact (sent_trans _ _ _ _ _ S1 (sent_trans _ _ _ _ _ S2 (sent_trans _ _ _ _ _ S3 S4))).
Qed.

(** *** Erasing and programming *)

Lemma enabled_sent {A} (k : M A) w : ∃ w', (wsr fuel ;;; wen ;;; k) w = k w' ∧
  spied w w' ∧ sst_ready (spi_history w') ∧ ∀ a, flash_mem w' a = flash_mem w a.
Proof.
  destruct (enable_sent w) as (w' & E & [Hs Hh]). exists w'.
  rewrite <- (mseq_assoc (wsr fuel) (λ _, wen) (λ _, k)), (mseq_run _ _ _ _ _ E). split; [done|].
  split; [done|]. unfold flash_mem. rewrite Hh. apply sst_enables.
Qed.

Lemma sect_clr_mem s w : sst_address s → ∃ w', sect_clr fuel s w = Done () w' ∧ spied w w' ∧
  ∀ a, flash_mem w' a = if a / 4096 =? s / 4096 then 0xff else flash_mem w a.
Proof.
  intros Hs. unfold sect_clr.
  destruct (enabled_sent (spi_write (0x20 :: address_bytes s) ;;; wip fuel) w) as (w1 & -> & S1 & R1 & M1).
  destruct (spi_write_sent (0x20 :: address_bytes s) w1) as (w2 & E2 & [S2 H2]).
  rewrite (mseq_run _ _ _ _ _ E2). destruct (wip_sent w2) as (w3 & E3 & [S3 H3]).
  exists w3. split; [done|]. split; [eauto using spied_trans|]. intros a.
  unfold flash_mem. rewrite H3, app_nil_r, H2, sst_erases by done. case_match; [done|]. apply M1.
Qed.

(** The sector of [s] with the first [i] bytes of the buffer, erased behind them *)
Definition programmed (s : Z) (buf : list Z) (i : Z) (m : Z → Z) (a : Z) : Z :=
  if a / 4096 =? s / 4096 then if a - s <? i then tbl buf (a - s) else 0xff else m a.

(** [s] is the first byte of a sector. *)
Definition sector (s : Z) : Prop := s mod 4096 = 0 ∧ sst_address s.

Lemma sector_in s a : sector s → a / 4096 = s / 4096 ↔ s <= a < s + 4096.
Proof.
  intros [Hs _]. apply Z.div_exact in Hs; [|done]. split.
  - intros E. pose proof (Z.div_mod a 4096). pose proof (Z.mod_pos_bound a 4096). lia.
  - intros H. symmetry. apply (Z.div_unique _ _ _ (a - s)); lia.
Qed.

Lemma sector_address s i : sector s → 0 <= i < 4096 → sst_address (s + i).
Proof.
  intros [Hs H] Hi. unfold sst_address in *. apply Z.div_exact in Hs; [|done].
  assert (s / 4096 < 512) by (apply Z.div_lt_upper_bound; lia). lia.
Qed.

Lemma programmed_more s buf i m a : sector s → 0 <= i → i + 1 < 4096 → Forall byte buf →
  (if a =? s + i then Z.land (programmed s buf i m a) (tbl buf i)
   else if a =? s + i + 1 then Z.land (programmed s buf i m a) (tbl buf (i + 1))
   else programmed s buf i m a) = programmed s buf (i + 2) m a.
Proof.
  intros Hs Hi Hi' Hb. pose proof (sector_in s a Hs) as Hin.
  assert (∀ j, Z.land 0xff (tbl buf j) = tbl buf j) as Hff.
  { intros j. rewrite Z.land_comm. change 0xff with (Z.ones 8). rewrite Z.land_ones by lia.
    apply Z.mod_small. pose proof (tbl_fits 8 buf j ltac:(lia) Hb) as H. exact H. }
  unfold programmed. destruct (Z.eqb_spec (a / 4096) (s / 4096)) as [E|E].
  - destruct (Z.eqb_spec a (s + i)) as [->|]; [|destruct (Z.eqb_spec a (s + i + 1)) as [->|]].
    + rewrite (proj2 (Z.ltb_ge _ _)), (proj2 (Z.ltb_lt _ _)) by lia. rewrite Hff. f_equal. lia.
    + rewrite (proj2 (Z.ltb_ge _ _)), (proj2 (Z.ltb_lt _ _)) by lia. rewrite Hff. f_equal. lia.
    + destruct (Z.ltb_spec (a - s) i), (Z.ltb_spec (a - s) (i + 2)); done || lia.
  - rewrite Hin in E. rewrite (proj2 (Z.eqb_neq a (s + i))), (proj2 (Z.eqb_neq a (s + i + 1))) by lia.
    done.
Qed.

(** The running program: [i] bytes are done. *)
Lemma w_block_loop_mem s buf n m : sector s → length buf = 4096%nat → Forall byte buf → 0 <= n <= 4096 →
  ∀ todo i w, sst_next (spi_history w) = Some (s + i) → (∀ a, flash_mem w a = programmed s buf i m a) →
  2 <= i <= 4096 → Z.even i = true → n < i + 2 * Z.of_nat todo →
  ∃ w' j, w_block_loop (S todo) i buf n w = Done () w' ∧ spied w w' ∧
    (∀ a, flash_mem w' a = programmed s buf j m a) ∧ i <= j <= 4096 ∧ n <= j ∧ j <= Z.max i (n + 1).
Proof.
  intros Hs Hlen Hb Hn. induction todo as [|todo IH]; intros i w Hnext Hmem Hi Hev Htodo.
  - exists w, i. cbn [w_block_loop]. rewrite (proj2 (Z.ltb_ge _ _)) by lia.
    split; [done|]. split; [apply spied_refl|]. split; [done|lia].
  - remember (S todo) as k eqn:Hk. cbn [w_block_loop]. destruct (Z.ltb_spec i n) as [Hlt|Hge].
    2: { exists w, i. split; [done|]. split; [apply spied_refl|]. split; [done|lia]. }
    assert (i + 1 < 4096) as Hi1.
    { apply Z.even_spec in Hev as [x ->]. lia. }
    rewrite wrap_small by (unfold fits; lia). rewrite wrap_small by (unfold fits; lia).
    rewrite !lookup_tbl by (rewrite Hlen; lia). unfold deref. rewrite !mseq_return_l.
    destruct (spi_write_sent [0xad; tbl buf i; tbl buf (i + 1)] w) as (w1 & E1 & [S1 H1]).
    rewrite (mseq_run _ _ _ _ _ E1).
    destruct (sst_programs_on (spi_history w) (s + i) (tbl buf i) (tbl buf (i + 1))) as [N1 M1];
      [done|apply sector_address; [done|lia]|by apply tbl_fits..|].
    destruct (IH (i + 2) w1) as (w2 & j & E2 & S2 & M2 & Hj).
    + rewrite H1, N1. f_equal. lia.
    + intros a. unfold flash_mem. rewrite H1, M1. rewrite <- programmed_more by (done || lia).
      unfold flash_mem in Hmem. by rewrite Hmem.
    + lia.
    + by rewrite Z.even_add, Hev.
    + lia.
    + exists w2, j. subst k. split; [done|]. split; [by eapply spied_trans|]. split; [done|lia].
Qed.

Hypothesis enough_words : (2048 < fuel)%nat.

(** Erasing a sector and writing the first [n] bytes of the buffer to it *)
Lemma w_block_mem s buf n w : sector s → length buf = 4096%nat → Forall byte buf → 0 <= n <= 4096 →
  ∃ w' j, SST25_W_BLOCK fuel s buf n w = Done () w' ∧ spied w w' ∧
    (∀ a, flash_mem w' a = programmed s buf j (flash_mem w) a) ∧ n <= j <= 4096.
Proof.
  intros Hs Hlen Hb Hn. unfold SST25_W_BLOCK.
  destruct (sect_clr_mem s w (proj2 Hs)) as (w1 & E1 & S1 & M1). rewrite (mseq_run _ _ _ _ _ E1).
  destruct (enabled_sent (d0 <- deref (buf !! 0%nat) ;; d1 <- deref (buf !! 1%nat) ;;
    spi_write (0xad :: address_bytes s ++ [d0; d1]) ;;; w_block_loop fuel 2 buf n ;;;
    wdis fuel ;;; wip fuel) w1) as (w2 & -> & S2 & R2 & M2).
  rewrite (lookup_tbl buf 0 ltac:(lia) : buf !! 0%nat = _).
  rewrite (lookup_tbl buf 1 ltac:(lia) : buf !! 1%nat = _). unfold deref. rewrite !mseq_return_l.
  destruct (spi_write_sent (0xad :: address_bytes s ++ [tbl buf 0; tbl buf 1]) w2) as (w3 & E3 & [S3 H3]).
  rewrite (mseq_run _ _ _ _ _ E3).
  assert (Z.even s = true) as Hev.
  { destruct Hs as [Hs _]. apply Z.div_exact in Hs; [|done]. rewrite Hs, Z.even_mul. done. }
  destruct (sst_programs (spi_history w2) s (tbl buf 0) (tbl buf 1)) as [N3 M3];
    [done|exact (proj2 Hs)|done|by apply tbl_fits..|].
  assert (∃ todo, S todo = fuel) as [todo Efuel] by (exists (pred fuel); lia).
  destruct (w_block_loop_mem s buf n (flash_mem w) Hs Hlen Hb Hn todo 2 w3)
    as (w4 & j & E4 & S4 & M4 & Hj & Hnj & _); [by rewrite H3| |lia|done|lia|].
  { intros a. unfold flash_mem at 1. rewrite H3, M3.
    rewrite <- (programmed_more s buf 0 (flash_mem w)) by (done || lia).
    fold (flash_mem w2 a). rewrite M2, M1, Z.add_0_r. unfold programmed.
    destruct (Z.eqb_spec (a / 4096) (s / 4096)) as [E|E]; [|done].
    rewrite sector_in in E by done. rewrite (proj2 (Z.ltb_ge (a - s) 0)) by lia. done. }
  rewrite Efuel in E4. rewrite (mseq_run _ _ _ _ _ E4). unfold wdis. rewrite mseq_assoc.
  destruct (spi_write_sent [0x04] w4) as (w5 & E5 & [S5 H5]). rewrite (mseq_run _ _ _ _ _ E5).
  destruct (wip_sent w5) as (w6 & E6 & [S6 H6]). rewrite (mseq_run _ _ _ _ _ E6).
  destruct (wip_sent w6) as (w7 & E7 & [S7 H7]). exists w7, j. split; [done|].
  split; [eauto 10 using spied_trans|]. split; [|lia].
  intros a. unfold flash_mem at 1. rewrite H7, H6, H5, !app_nil_r, sst_disables. apply M4.
Qed.

(** *** Writing a file *)

(** The first [k] bytes are in the flash at [base], nothing before it changed,
    nor anything from the next sector on. *)
Record stored (base : Z) (bs : list Z) (k : nat) (w0 w : World) : Prop := {
  st_spied : spied w0 w;
  st_bytes i : 0 <= i < Z.of_nat k → flash_mem w (base + i) = tbl bs i;
  st_others a : a < base ∨ base + Z.of_nat k + 4095 <= a → flash_mem w a = flash_mem w0 a
}.

Lemma stored_none base bs w : stored base bs 0 w w.
Proof. split; [apply spied_refl|intros; lia|done]. Qed.

(** Reading a file does nothing to the flash. *)
Lemma stored_tick base bs k w0 w t : stored base bs k w0 w → stored base bs k w0 (set_now t w).
Proof.
  intros [S B O]. split; [|exact B|exact O]. eapply spied_trans; [exact S|].
  exists t, (trace w). by world_eq.
Qed.

Lemma tbl_take l n i : 0 <= i < Z.of_nat n → tbl (take n l) i = tbl l i.
Proof. intros H. unfold tbl. rewrite !nth_lookup, lookup_take_lt by lia. done. Qed.

Lemma tbl_drop l n i : 0 <= i → tbl (drop n l) i = tbl l (Z.of_nat n + i).
Proof. intros H. unfold tbl. rewrite !nth_lookup, lookup_drop. do 2 f_equal. lia. Qed.

(** The sector behind what is stored takes the next bytes of the file, from a
    buffer that may hold older bytes behind them. *)
Lemma stored_block base bs off n buf w0 w :
  stored base bs off w0 w → sector (base + Z.of_nat off) → (off mod 4096 = 0)%nat →
  length buf = 4096%nat → Forall byte buf → Forall byte bs → (0 < n <= 4096)%nat →
  (off + n <= length bs)%nat →
  let data := take n (drop off bs) in
  ∃ w', SST25_W_BLOCK fuel (base + Z.of_nat off) (memcpy_at buf 0 data) (Z.of_nat (length data)) w =
      Done () w' ∧ stored base bs (off + n) w0 w'.
Proof.
  intros [Sp B O] Hs Hoff Hlen Hb Hbs Hn Hend data.
  assert (length data = n) as Hd.
  { unfold data. rewrite length_take, length_drop. lia. }
  rewrite Hd.
  destruct (w_block_mem (base + Z.of_nat off) (memcpy_at buf 0 data) (Z.of_nat n) w)
    as (w' & j & E & S' & M & Hj); [done| | |lia|].
  { rewrite memcpy_at_length; [done|]. rewrite Hd, Hlen. lia. }
  { apply memcpy_at_forall; [done|]. by apply Forall_take, Forall_drop. }
  exists w'. split; [done|].
  assert (∀ a, ¬ base + Z.of_nat off <= a < base + Z.of_nat off + 4096 → flash_mem w' a = flash_mem w a)
    as Hout.
  { intros a Ha. rewrite M. unfold programmed. rewrite (proj2 (Z.eqb_neq _ _)); [done|].
    by rewrite (sector_in _ _ Hs). }
  split; [by eapply spied_trans| |].
  - intros i Hi. destruct (Z.lt_ge_cases i (Z.of_nat off)) as [Hlt|Hge].
    { rewrite Hout by lia. apply B. lia. }
    rewrite M. unfold programmed. rewrite (proj2 (Z.eqb_eq _ _)) by (apply (sector_in _ _ Hs); lia).
    rewrite (proj2 (Z.ltb_lt _ _)) by lia.
    change (memcpy_at buf 0 data) with (data ++ drop (length data) buf).
    assert (∀ l x, 0 <= x < Z.of_nat (length data) → tbl (data ++ l) x = tbl data x) as Happ.
    { intros l x Hx. unfold tbl. rewrite !nth_lookup, lookup_app_l by lia. done. }
    rewrite Happ by lia. unfold data. rewrite tbl_take, tbl_drop by lia. f_equal. lia.
  - intros a Ha. rewrite Hout by lia. apply O. lia.
Qed.

Lemma flash_pages_stored f bs base w0 : files w0 f = Some bs → (∀ t, file_works f t = true) →
  Forall byte bs → base mod 4096 = 0 → 0 <= base → base + Z.of_nat (length bs) <= 0x200000 →
  ∀ page off buf w, stored base bs off w0 w → (off mod 4096 = 0)%nat → length buf = 4096%nat →
  Forall byte buf → (off + page * 4096 <= length bs)%nat →
  ∃ w' buf', flash_pages fuel page f off (base + Z.of_nat off) buf w =
      Done ((off + page * 4096)%nat, base + Z.of_nat (off + page * 4096), buf') w' ∧
    stored base bs (off + page * 4096) w0 w' ∧ length buf' = 4096%nat ∧ Forall byte buf'.
Proof.
  intros Hf Hok Hbs Hbase Hbase0 Hroom. induction page as [|page IH]; intros off buf w Hst Hoff Hlen Hb Hend.
  { exists w, buf. rewrite Nat.mul_0_l, Nat.add_0_r. done. }
  cbn [flash_pages]. unfold FILE_WRITE_FLASH_BUFFER_SIZE.
  assert (files w f = Some bs) as Hfw by (by rewrite (spied_files _ _ (st_spied _ _ _ _ _ Hst))).
  rewrite (mseq_run _ _ _ _ _ (file_read_works f w bs off 4096 (Hok _) Hfw)).
  set (data := take 4096 (drop off bs)).
  assert (length data = 4096%nat) as Hd by (unfold data; rewrite length_take, length_drop; lia).
  destruct (stored_block base bs off 4096 buf w0 (set_now (S (now w)) w)) as (w1 & E1 & S1);
    [by apply stored_tick| |done|done|done|done|lia|lia|].
  { split; [|unfold sst_address; lia]. rewrite Z.add_mod, Hbase by done.
    change 4096 with (Z.of_nat 4096). rewrite <- Nat2Z.inj_mod, Hoff. done. }
  fold data in E1. rewrite (mseq_run _ _ _ _ _ E1). rewrite Hd.
  rewrite wrap_small by (unfold fits; lia).
  destruct (IH (off + 4096)%nat (memcpy_at buf 0 data) w1) as (w2 & buf2 & E2 & S2 & L2 & B2).
  - done.
  - by rewrite Nat.Div0.add_mod, Hoff.
  - rewrite memcpy_at_length; [done|]. by rewrite Hd, Hlen.
  - apply memcpy_at_forall; [done|]. by apply Forall_take, Forall_drop.
  - lia.
  - exists w2, buf2. rewrite Nat2Z.inj_add, Z.add_assoc in E2.
    replace (off + S page * 4096)%nat with (off + 4096 + page * 4096)%nat by lia. done.
Qed.

(** Where the file goes *)
Definition write_start (addr : Z) : Z :=
  if (addr <? FLASH_START_WRITE_ADDR) || negb (addr mod 4096 =? 0) then FLASH_START_WRITE_ADDR else addr.

Lemma write_start_sector addr :
  FLASH_START_WRITE_ADDR <= write_start addr ∧ write_start addr mod 4096 = 0.
Proof.
  unfold write_start. destruct (Z.ltb_spec addr FLASH_START_WRITE_ADDR); [by split|].
  destruct (Z.eqb_spec (addr mod 4096) 0); by split.
Qed.

Lemma file_write_stored f bs addr w :
  files w f = Some bs → (∀ t, file_works f t = true) → Forall byte bs →
  write_start addr + Z.of_nat (length bs) <= 0x200000 →
  ∃ w', file_write_flash_addr fuel f addr w = Done 0 w' ∧
    stored (write_start addr) bs (length bs) w w'.
Proof.
  intros Hf Hok Hbs Hroom. pose proof (write_start_sector addr) as [Hlow Hbase].
  set (base := write_start addr) in *. unfold FLASH_START_WRITE_ADDR in Hlow.
  unfold file_write_flash_addr.
  rewrite (mseq_run _ _ _ _ _ (file_open_works f w bs (Hok _) Hf)). cbn [negb].
  change (if _ || _ then FLASH_START_WRITE_ADDR else addr) with base. cbv zeta.
  set (w1 := set_now (S (now w)) w).
  rewrite (mseq_run _ _ _ _ _ (file_stat_works f w1 bs (Hok _) Hf)), observe_run. cbn [default].
  set (w2 := set_now _ _). unfold id. rewrite Nat2Z.id. unfold FILE_WRITE_FLASH_BUFFER_SIZE at 1 2.
  set (page := (length bs / 4096)%nat). set (surplus := (length bs mod 4096)%nat).
  assert (length bs = page * 4096 + surplus)%nat as Hlen.
  { unfold page, surplus. pose proof (Nat.div_mod_eq (length bs) 4096). lia. }
  assert (surplus < 4096)%nat as Hsur by (apply Nat.mod_upper_bound; lia).
  destruct (flash_pages_stored f bs base w Hf Hok Hbs Hbase ltac:(lia) Hroom page 0
    (repeat 0 FILE_WRITE_FLASH_BUFFER_SIZE) w2) as (w3 & buf & E3 & S3 & L3 & B3).
  { do 3 apply stored_tick; apply stored_none. }
  { done. }
  { apply repeat_length. }
  { by apply forall_repeat. }
  { lia. }
  rewrite Z.add_0_r in E3. cbn [Nat.add] in E3, S3. rewrite (mseq_run _ _ _ _ _ E3).
  change (length bs mod FILE_WRITE_FLASH_BUFFER_SIZE)%nat with surplus.
  destruct (Nat.eqb_spec surplus 0) as [Hz|Hnz].
  { rewrite mseq_return_l. exists w3. split; [done|]. by replace (length bs) with (page * 4096)%nat by lia. }
  assert (files w3 f = Some bs) as Hf3 by (by rewrite (spied_files _ _ (st_spied _ _ _ _ _ S3))).
  rewrite mseq_assoc, (mseq_run _ _ _ _ _ (file_read_works f w3 bs _ surplus (Hok _) Hf3)).
  destruct (stored_block base bs (page * 4096) surplus buf w (set_now (S (now w3)) w3))
    as (w4 & E4 & S4); [by apply stored_tick| | |done|done|done|lia|lia|].
  { split; [|unfold sst_address; lia]. rewrite Nat2Z.inj_mul.
    by rewrite Z_mod_plus_full. }
  { apply Nat.Div0.mod_mul. }
  rewrite (mseq_run _ _ _ _ _ E4). exists w4. split; [done|]. by rewrite Hlen.
Qed.

(** A file that can be read and fits behind the start address
    goes to the SPI flash byte for byte, with an erase of each sector it touches:
    at the address asked for when that is the first byte of a sector of the
    area for downloads, at the start of the area otherwise.  The bytes before
    it and those from the next sector on stay; the lock's state stays but for
    the clock and the trace.  The chip may be busy for as long as it likes
    after each command, up to [sst_delay] looks at its status. *)
Lemma file_goes_to_flash f bs addr w :
  files w f = Some bs → (∀ t, file_works f t = true) → Forall byte bs →
  write_start addr + Z.of_nat (length bs) <= 0x200000 →
  ∃ w', file_write_flash_addr fuel f addr w = Done 0 w' ∧ spied w w' ∧
    (∀ i, 0 <= i < Z.of_nat (length bs) → flash_mem w' (write_start addr + i) = tbl bs i) ∧
    (∀ a, a < write_start addr ∨ write_start addr + Z.of_nat (length bs) + 4095 <= a →
     flash_mem w' a = flash_mem w a).
Proof.
  intros Hf Hok Hbs Hroom.
  destruct (file_write_stored f bs addr w Hf Hok Hbs Hroom) as (w' & E & [Sp B O]). eauto 10.
Qed.
End blocks.

(** ** A chip *)

Record Chip := {
  cells : Z → Z;
  status_writable : bool;       (* after EWSR *)
  unprotected : bool;
  write_enabled : bool;
  running : option Z            (* the next address of a word program *)
}.

Definition blank_chip : Chip := {|
  cells := λ _, 0; status_writable := false; unprotected := false; write_enabled := false;
  running := None
|}.

Definition program_cells (c : Chip) (s d0 d1 : Z) : Chip := {|
  cells := λ a, if a =? s then Z.land (cells c a) d0
                else if a =? s + 1 then Z.land (cells c a) d1 else cells c a;
  status_writable := status_writable c; unprotected := unprotected c;
  write_enabled := write_enabled c; running := Some (s + 2)
|}.

Definition address_of (a2 a1 a0 : Z) : Z := 65536 * a2 + 256 * a1 + a0.

Definition chip_step (c : Chip) (frame : list Z) : Chip :=
  match frame with
  | [0x50] => {| cells := cells c; status_writable := true; unprotected := unprotected c;
                 write_enabled := write_enabled c; running := running c |}
  | [0x01; s] => {| cells := cells c; status_writable := false;
                    unprotected := if status_writable c then s =? 0 else unprotected c;
                    write_enabled := write_enabled c; running := running c |}
  | [0x06] => {| cells := cells c; status_writable := false; unprotected := unprotected c;
                 write_enabled := true; running := None |}
  | [0x04] => {| cells := cells c; status_writable := false; unprotected := unprotected c;
                 write_enabled := false; running := None |}
  | [0x20; a2; a1; a0] =>
      if unprotected c && write_enabled c then
        {| cells := λ a, if a / 4096 =? address_of a2 a1 a0 / 4096 then 0xff else cells c a;
           status_writable := false; unprotected := unprotected c;
           write_enabled := false; running := None |}
      else c
  | [0xad; a2; a1; a0; d0; d1] =>
      if unprotected c && write_enabled c then program_cells c (address_of a2 a1 a0) d0 d1 else c
  | [0xad; d0; d1] => match running c with Some s => program_cells c s d0 d1 | None => c end
  | _ => c
  end.

Definition chip_after (h : list (list Z)) : Chip := foldl chip_step blank_chip h.

Lemma chip_snoc h f : chip_after (h ++ [f]) = chip_step (chip_after h) f.
Proof. apply foldl_snoc. Qed.

Lemma program_byte c s d0 d1 : (∀ a, byte (cells c a)) → ∀ a, byte (cells (program_cells c s d0 d1) a).
Proof.
  intros H a. cbn. repeat case_match; try apply H; rewrite Z.land_comm; by apply fits_land_r.
Qed.

Lemma chip_step_byte c f : (∀ a, byte (cells c a)) → ∀ a, byte (cells (chip_step c f) a).
Proof.
  intros H. unfold chip_step. repeat case_match; subst; try exact H; try by apply program_byte.
  intros a. cbn. case_match; [done|apply H].
Qed.

Lemma chip_byte h a : byte (cells (chip_after h) a).
Proof.
  unfold chip_after. assert (∀ a, byte (cells blank_chip a)) as H by done. revert a.
  generalize blank_chip H. clear H. induction h as [|f h IH]; intros c H; [done|].
  cbn [foldl]. apply IH. by apply chip_step_byte.
Qed.

Lemma address_of_bytes s : sst_address s → address_of (Z.shiftr (Z.land s 0xffffff) 16)
  (Z.land (Z.shiftr (Z.land s 0xffff) 8) 0xff) (Z.land s 0xff) = s.
Proof.
  unfold sst_address, address_of. intros H.
  change 0xffffff with (Z.ones 24). change 0xffff with (Z.ones 16). change 0xff with (Z.ones 8).
  rewrite !Z.land_ones, !Z.shiftr_div_pow2 by lia.
  change (2 ^ 24) with 16777216. change (2 ^ 16) with 65536. change (2 ^ 8) with 256.
  rewrite (Z.mod_small s 16777216) by lia.
  rewrite (Z.mod_small (s mod 65536 / 256) 256).
  2: { pose proof (Z.mod_pos_bound s 65536). split; [apply Z.div_pos; lia|]. apply Z.div_lt_upper_bound; lia. }
  rewrite (Z.div_mod s 65536) at 4 by done. rewrite (Z.div_mod (s mod 65536) 256) at 2 by done.
  rewrite Z.mod_mod_divide by (by exists 256). lia.
Qed.

(** It is busy at every other look. *)
#[export] Instance bench_chip : Sst25.
Proof.
  refine {|
    sst_mem h := cells (chip_after h);
    sst_ready h := unprotected (chip_after h) = true ∧ write_enabled (chip_after h) = true;
    sst_next h := running (chip_after h);
    sst_busy := Nat.even; sst_delay := 1%nat; sst_byte := chip_byte |}.
  - intros t. destruct (Nat.even t) eqn:E.
    + exists 1%nat. split; [done|]. rewrite Nat.add_1_r, Nat.even_succ, <- Nat.negb_even, E. done.
    + exists 0%nat. split; [lia|]. by rewrite Nat.add_0_r.
  - intros h. change (h ++ [[0x50]; [0x01; 0x00]; [0x06]]) with (h ++ [[0x50]] ++ [[0x01; 0x00]] ++ [[0x06]]).
    by rewrite !app_assoc, !chip_snoc.
  - intros h s a [Hu Hw] Hs. rewrite chip_snoc. unfold address_bytes. cbn [chip_step].
    rewrite Hu, Hw. cbn [andb cells]. by rewrite address_of_bytes.
  - intros h s d0 d1 [Hu Hw] Hs _ _ _. rewrite chip_snoc. unfold address_bytes. cbn [app chip_step].
    rewrite Hu, Hw. cbn [andb]. by rewrite address_of_bytes.
  - intros h s d0 d1 Hn _ _ _. rewrite chip_snoc. cbn [chip_step]. by rewrite Hn.
  - intros h a. by rewrite chip_snoc.
  - intros h a. change (h ++ [[0x50]; [0x01; 0x00]]) with (h ++ [[0x50]] ++ [[0x01; 0x00]]).
    by rewrite app_assoc, !chip_snoc.
Defined.

Definition bench_file : list Z := repeat 7 (Z.to_nat 5001).

Definition flash_start_world : World := set_files (<[AIP_BIN_NAME := Some bench_file]> (files start_world)) start_world.

Lemma file_goes_to_flash_witness : ∃ w',
  file_write_flash_addr (HB:=quiet_board) (Z.to_nat 3000) AIP_BIN_NAME 100 flash_start_world = Done 0 w' ∧
    spied flash_start_world w' ∧
    (∀ i, 0 <= i < Z.of_nat (length bench_file) →
     flash_mem w' (write_start 100 + i) = tbl bench_file i) ∧
    (∀ a, a < write_start 100 ∨ write_start 100 + Z.of_nat (length bench_file) + 4095 <= a →
     flash_mem w' a = flash_mem flash_start_world a).
Proof.
  apply (file_goes_to_flash (HB:=quiet_board)).
  - change (sst_delay) with 1%nat. lia.
  - lia.
  - reflexivity.
  - done.
  - by apply forall_repeat.
  - unfold bench_file. rewrite repeat_length, Z2Nat.id by lia. by vm_compute.
Defined.
