(* ===== verification/Disk.v ===== *)
(** * The SPI flash as a disk (src/sst25v16.c)

    The block device the file system is on: the first 362 sectors of the chip
    that [Flash] writes the firmware to.  Between rt_spi_take and rt_spi_release
    the bytes go out as one transaction; the mutex of the device is left out,
    an operation is one step. *)
From stdpp Require Import base functions strings list.
From Stdlib Require Import ZArith Lia.
From S2P Require Import Prelude World Monad Untils Alarm GsmService GsmAt Flash.

Section disk.
Context {HS : Sst25}.

(** ** The chip *)

(** The status is read until the bit is clear. *)
Fixpoint spi_flash_wait_write_end (fuel : nat) : M () :=
  match fuel with
  | O => nofuel
  | S fuel => busy <- observe sst_busy ;; if busy : bool then spi_flash_wait_write_end fuel else mreturn ()
  end.

Definition spi_flash_write_status_enable (fuel : nat) : M () :=
  spi_write [0x50] ;;;
  spi_write [0x01; 0x00] ;;;
  spi_flash_wait_write_end fuel.

Definition spi_flash_write_enable (fuel : nat) : M () :=
  spi_flash_write_status_enable fuel ;;;
  spi_write [0x06] ;;;
  spi_flash_wait_write_end fuel.

Definition spi_flash_write_disable (fuel : nat) : M () :=
  spi_flash_write_status_enable fuel ;;;
  spi_write [0x04] ;;;
  spi_flash_wait_write_end fuel.

Definition spi_flash_sector_erase (fuel : nat) (SectorAddr : Z) : M () :=
  spi_flash_write_enable fuel ;;;
  spi_write [0x20; Z.shiftr (Z.land SectorAddr 0xFF0000) 16; Z.shiftr (Z.land SectorAddr 0xFF00) 8;
             Z.land SectorAddr 0xFF] ;;;
  spi_flash_wait_write_end fuel.

(** The loop with [n] words left; the buffer's pointer is at [off]. *)
Fixpoint buffer_write_loop (fuel n : nat) (pBuffer : list Z) (off : nat) : M () :=
  match n with
  | O => mreturn ()
  | S n =>
      d0 <- deref (pBuffer !! off) ;;
      d1 <- deref (pBuffer !! S off) ;;
      spi_write [0xad; d0; d1] ;;;
      spi_flash_wait_write_end fuel ;;;
      buffer_write_loop fuel n pBuffer (S (S off))
  end.

Definition spi_flash_buffer_write (fuel : nat) (pBuffer : list Z) (WriteAddr NumByteToWrite : Z) : M () :=
  let WriteAddr := Z.ldiff WriteAddr 0xFFF in
  spi_flash_sector_erase fuel WriteAddr ;;;
  spi_flash_write_enable fuel ;;;
  d0 <- deref (pBuffer !! 0%nat) ;;
  d1 <- deref (pBuffer !! 1%nat) ;;
  spi_write [0xad; u8 (Z.shiftr WriteAddr 16); u8 (Z.shiftr WriteAddr 8); u8 WriteAddr; d0; d1] ;;;
  let NumByteToWrite := u16 (NumByteToWrite - 2) in
  spi_flash_wait_write_end fuel ;;;
  buffer_write_loop fuel (Z.to_nat (NumByteToWrite / 2)) pBuffer 2 ;;;
  spi_flash_write_disable fuel.

Definition spi_flash_buffer_read (fuel : nat) (ReadAddr NumByteToRead : Z) : M (list Z) :=
  spi_flash_write_disable fuel ;;;
  t <- get trace ;;
  mreturn (map (λ i, sst_mem (spi_sent t) (Z.land ReadAddr 0xFFFFFF + Z.of_nat i))
    (seq 0 (Z.to_nat NumByteToRead))).

(** ** The block device *)

Definition bytes_per_sector : Z := 4096.
Definition sector_count : Z := 512 - 150.

(** The number of bytes is a u16; the result is the size asked for. *)
Definition rt_flash_read (fuel : nat) (pos size : Z) : M (list Z * Z) :=
  buffer <- spi_flash_buffer_read fuel (u32 (pos * 4096)) (u16 (size * 4096)) ;;
  mreturn (buffer, size).

Definition rt_flash_write (fuel : nat) (pos : Z) (buffer : list Z) (size : Z) : M Z :=
  spi_flash_buffer_write fuel buffer (u32 (pos * 4096)) (u16 (size * 4096)) ;;;
  mreturn size.
End disk.

(** ** What the operations do to the contents *)

Section contents.
Context {HS : Sst25} (fuel : nat).
Hypothesis enough : (sst_delay < fuel)%nat.

Lemma wait_is_wip n : spi_flash_wait_write_end n = wip n.
Proof. induction n as [|n IH]; cbn; [done|]. by rewrite IH. Qed.

Lemma wait_sent w : ∃ w', spi_flash_wait_write_end fuel w = Done () w' ∧ sent [] w w'.
Proof using enough. rewrite wait_is_wip. by apply wip_sent. Qed.

(** One transaction and the wait for its end *)
Lemma command_sent {A} bytes (k : M A) w : ∃ w',
  (spi_write bytes ;;; spi_flash_wait_write_end fuel ;;; k) w = k w' ∧ sent [bytes] w w'.
Proof using enough.
  destruct (spi_write_sent bytes w) as (w1 & E1 & S1). rewrite (mseq_run _ _ _ _ _ E1).
  destruct (wait_sent w1) as (w2 & E2 & S2). rewrite (mseq_run _ _ _ _ _ E2). exists w2.
  split; [done|]. exact (sent_trans _ _ _ _ _ S1 S2).
Qed.

Lemma status_enable_sent {A} (k : M A) w : ∃ w',
  (spi_flash_write_status_enable fuel ;;; k) w = k w' ∧ sent [[0x50]; [0x01; 0x00]] w w'.
Proof using enough.
  unfold spi_flash_write_status_enable. rewrite mseq_assoc.
  destruct (spi_write_sent [0x50] w) as (w1 & E1 & S1). rewrite (mseq_run _ _ _ _ _ E1), mseq_assoc.
  destruct (command_sent [0x01; 0x00] k w1) as (w2 & -> & S2). exists w2. split; [done|].
  exact (sent_trans _ _ _ _ _ S1 S2).
Qed.

Lemma write_enable_mem {A} (k : M A) w : ∃ w', (spi_flash_write_enable fuel ;;; k) w = k w' ∧
  spied w w' ∧ sst_ready (spi_history w') ∧ ∀ a, flash_mem w' a = flash_mem w a.
Proof using enough.
  unfold spi_flash_write_enable. rewrite mseq_assoc.
  edestruct (status_enable_sent (A := A)) as (w1 & E1 & S1). rewrite E1, mseq_assoc.
  destruct (command_sent [0x06] k w1) as (w2 & -> & S2).
  destruct (sent_trans _ _ _ _ _ S1 S2) as [Sp H]. exists w2. split; [done|]. split; [done|].
  unfold flash_mem. rewrite H. apply sst_enables.
Qed.

Lemma write_disable_mem {A} (k : M A) w : ∃ w', (spi_flash_write_disable fuel ;;; k) w = k w' ∧
  spied w w' ∧ ∀ a, flash_mem w' a = flash_mem w a.
Proof using enough.
  unfold spi_flash_write_disable. rewrite mseq_assoc.
  edestruct (status_enable_sent (A := A)) as (w1 & E1 & [S1 H1]). rewrite E1, mseq_assoc.
  destruct (command_sent [0x04] k w1) as (w2 & -> & [S2 H2]).
  exists w2. split; [done|]. split; [by eapply spied_trans|]. intros a.
  unfold flash_mem. by rewrite H2, sst_disables, H1, sst_unprotects.
Qed.

(** The three masks of spi_flash_sector_erase and the three conversions to a
    byte of spi_flash_buffer_write send the same address. *)
Lemma erase_address s :
  [Z.shiftr (Z.land s 0xFF0000) 16; Z.shiftr (Z.land s 0xFF00) 8; Z.land s 0xFF] = address_bytes s.
Proof using Type. clear enough.
  unfold address_bytes. rewrite !Z.shiftr_land. change (Z.shiftr 0xffff 8) with 0xff.
  by rewrite <- Z.land_assoc.
Qed.

Lemma program_bytes s d0 d1 :
  [0xad; u8 (Z.shiftr s 16); u8 (Z.shiftr s 8); u8 s; d0; d1] = 0xad :: address_bytes s ++ [d0; d1].
Proof using Type. clear enough.
  rewrite <- erase_address, !Z.shiftr_land.
  change (Z.shiftr 0xFF0000 16) with (Z.ones 8). change (Z.shiftr 0xFF00 8) with (Z.ones 8).
  change 0xFF with (Z.ones 8). by rewrite !Z.land_ones.
Qed.

Lemma sector_erase_mem {A} s (k : M A) w : sst_address s → ∃ w',
  (spi_flash_sector_erase fuel s ;;; k) w = k w' ∧ spied w w' ∧
  ∀ a, flash_mem w' a = if a / 4096 =? s / 4096 then 0xff else flash_mem w a.
Proof using enough.
  intros Hs. unfold spi_flash_sector_erase. rewrite erase_address, mseq_assoc.
  edestruct (write_enable_mem (A := A)) as (w1 & E1 & S1 & R1 & M1). rewrite E1, mseq_assoc.
  destruct (command_sent (0x20 :: address_bytes s) k w1) as (w2 & -> & [S2 H2]).
  exists w2. split; [done|]. split; [by eapply spied_trans|]. intros a.
  unfold flash_mem. rewrite H2, sst_erases by done. case_match; [done|]. apply M1.
Qed.

(** The first [i] bytes of the buffer, programmed over what is there *)
Definition overlaid (s : Z) (buf : list Z) (i : Z) (m : Z → Z) (a : Z) : Z :=
  if (s <=? a) && (a <? s + i) then Z.land (m a) (tbl buf (a - s)) else m a.

Lemma overlaid_more s buf i m a : 0 <= i →
  (if a =? s + i then Z.land (overlaid s buf i m a) (tbl buf i)
   else if a =? s + i + 1 then Z.land (overlaid s buf i m a) (tbl buf (i + 1))
   else overlaid s buf i m a) = overlaid s buf (i + 2) m a.
Proof using Type. clear enough.
  intros Hi. unfold overlaid.
  destruct (Z.eqb_spec a (s + i)), (Z.eqb_spec a (s + i + 1)); try lia;
    repeat match goal with
    | |- context [?x <=? ?y] => destruct (Z.leb_spec x y); try lia
    | |- context [?x <? ?y] => destruct (Z.ltb_spec x y); try lia
    end; cbn [andb]; try done; do 2 f_equal; lia.
Qed.

Lemma buffer_write_loop_mem {A} s buf m (k : M A) :
  Forall byte buf → 0 <= s → s + Z.of_nat (length buf) <= 0x200000 →
  ∀ n off w, (off + 2 * n <= length buf)%nat → sst_next (spi_history w) = Some (s + Z.of_nat off) →
  (∀ a, flash_mem w a = overlaid s buf (Z.of_nat off) m a) →
  ∃ w', (buffer_write_loop fuel n buf off ;;; k) w = k w' ∧ spied w w' ∧
    ∀ a, flash_mem w' a = overlaid s buf (Z.of_nat (off + 2 * n)) m a.
Proof using enough.
  intros Hb Hs0 Hs. induction n as [|n IH]; intros off w Hlen Hnext Hmem; cbn [buffer_write_loop].
  - exists w. rewrite mseq_return_l. split; [done|]. split; [apply spied_refl|].
    by rewrite Nat.mul_0_r, Nat.add_0_r.
  - assert (buf !! off = Some (tbl buf (Z.of_nat off))) as ->.
    { rewrite <- lookup_tbl by lia. by rewrite Nat2Z.id. }
    assert (buf !! S off = Some (tbl buf (Z.of_nat off + 1))) as ->.
    { rewrite <- lookup_tbl by lia. f_equal. lia. }
    unfold deref. rewrite mseq_assoc, mseq_return_l, mseq_assoc, mseq_return_l, mseq_assoc.
    set (d0 := tbl buf (Z.of_nat off)). set (d1 := tbl buf (Z.of_nat off + 1)).
    destruct (spi_write_sent [0xad; d0; d1] w) as (w1 & E1 & S1).
    rewrite (mseq_run _ _ _ _ _ E1), mseq_assoc.
    destruct (wait_sent w1) as (w2 & E2 & S2). rewrite (mseq_run _ _ _ _ _ E2).
    destruct (sent_trans _ _ _ _ _ S1 S2) as [Sp H].
    destruct (sst_programs_on (spi_history w) (s + Z.of_nat off) d0 d1) as [N M];
      [done|unfold sst_address; lia|by apply tbl_fits..|].
    destruct (IH (S (S off)) w2) as (w3 & E3 & S3 & M3).
    + lia.
    + rewrite H. cbn [app]. rewrite N. f_equal. lia.
    + intros a. unfold flash_mem. rewrite H. cbn [app]. rewrite M.
      replace (Z.of_nat (S (S off))) with (Z.of_nat off + 2) by lia.
      rewrite <- overlaid_more by lia. unfold flash_mem in Hmem. by rewrite Hmem.
    + exists w3. split; [done|]. split; [by eapply spied_trans|].
      by replace (off + 2 * S n)%nat with (S (S off) + 2 * n)%nat by lia.
Qed.
Lemma aligned pos : Z.ldiff (pos * 4096) 0xFFF = pos * 4096.
Proof using Type. clear enough.
  change 0xFFF with (Z.ones 12). rewrite Z.ldiff_ones_r, Z.shiftr_div_pow2, Z.shiftl_mul_pow2 by lia.
  change (2 ^ 12) with 4096. by rewrite Z.div_mul.
Qed.

(** Sixteen sectors do not fit a u16, but the subtraction wraps back. *)
Lemma words_left size : 1 <= size <= 16 → u16 (u16 (size * 4096) - 2) / 2 = size * 2048 - 1.
Proof using Type. clear enough.
  intros H. unfold wrap. change (2 ^ 16) with 65536. rewrite Zminus_mod_idemp_l, Z.mod_small by lia.
  replace (size * 4096 - 2) with ((size * 2048 - 1) * 2) by lia. by rewrite Z.div_mul.
Qed.

Lemma overlaid_first s buf m a : 
  (if a =? s then Z.land (m a) (tbl buf 0)
   else if a =? s + 1 then Z.land (m a) (tbl buf 1) else m a) = overlaid s buf 2 m a.
Proof using Type. clear enough.
  rewrite <- (overlaid_more s buf 0) by done. rewrite Z.add_0_r. unfold overlaid.
  replace (a <? s + 0) with (a <? s) by (f_equal; lia).
  assert ((s <=? a) && (a <? s) = false) as -> by (destruct (Z.leb_spec s a), (Z.ltb_spec a s); done || lia).
  done.
Qed.

(** One request of up to sixteen sectors: the first is erased, then the bytes
    are programmed over what is there. *)
Lemma flash_write_mem pos buffer size w :
  0 <= pos < sector_count → 1 <= size <= 16 → Z.of_nat (length buffer) = size * 4096 → Forall byte buffer →
  ∃ w', rt_flash_write fuel pos buffer size w = Done size w' ∧ spied w w' ∧
    ∀ a, flash_mem w' a = overlaid (pos * 4096) buffer (size * 4096)
      (λ a, if a / 4096 =? pos then 0xff else flash_mem w a) a.
Proof using enough.
  intros Hpos Hsize Hlen Hb. unfold sector_count in Hpos.
  unfold rt_flash_write, spi_flash_buffer_write. cbv zeta.
  rewrite (wrap_small 32) by (unfold fits; lia). rewrite aligned, words_left by done.
  set (s := pos * 4096).
  assert (sst_address s) as Hs by (unfold sst_address; lia).
  rewrite mseq_assoc. edestruct (sector_erase_mem (A := Z)) as (w1 & E1 & S1 & M1); [exact Hs|].
  rewrite E1, mseq_assoc. clear E1. edestruct (write_enable_mem (A := Z)) as (w2 & E2 & S2 & R2 & M2).
  rewrite E2, mseq_assoc. clear E2.
  rewrite (lookup_tbl buffer 0 ltac:(lia) : buffer !! 0%nat = _).
  rewrite (lookup_tbl buffer 1 ltac:(lia) : buffer !! 1%nat = _).
  unfold deref. rewrite mseq_return_l, mseq_assoc, mseq_return_l, program_bytes, mseq_assoc.
  set (frame := 0xad :: _). destruct (spi_write_sent frame w2) as (w2' & E2' & S2').
  rewrite (mseq_run _ _ _ _ _ E2'), mseq_assoc. destruct (wait_sent w2') as (w3 & E3 & S3').
  rewrite (mseq_run _ _ _ _ _ E3), mseq_assoc. destruct (sent_trans _ _ _ _ _ S2' S3') as [S3 H3].
  assert (Z.even s = true) as Hev by (unfold s; by rewrite Z.even_mul, orb_true_r).
  destruct (sst_programs (spi_history w2) s (tbl buffer 0) (tbl buffer 1)) as [N3 M3];
    [done|done|done|by apply tbl_fits..|].
  edestruct (buffer_write_loop_mem (A := Z) s buffer (λ a, if a / 4096 =? pos then 0xff else flash_mem w a))
    as (w4 & E4 & S4 & M4); [done|lia|lia| | | |].
  4: { rewrite E4. edestruct (write_disable_mem (A := Z)) as (w5 & E5 & S5 & M5). rewrite E5.
    exists w5. split; [done|]. split; [eauto 10 using spied_trans|]. intros a. rewrite M5, M4.
    f_equal. lia. }
  - lia.
  - rewrite H3. exact N3.
  - intros a. unfold flash_mem at 1. rewrite H3, M3, <- overlaid_first. fold (flash_mem w2 a).
    rewrite M2, M1. unfold s. by rewrite Z.div_mul.
Qed.
Lemma flash_read_mem pos w : 0 <= pos < sector_count → ∃ w', spied w w' ∧
  rt_flash_read fuel pos 1 w = Done (map (λ i, flash_mem w (pos * 4096 + Z.of_nat i)) (seq 0 4096), 1) w' ∧
  ∀ a, flash_mem w' a = flash_mem w a.
Proof using enough.
  unfold sector_count. intros Hpos. unfold rt_flash_read, spi_flash_buffer_read.
  rewrite mseq_assoc. edestruct (write_disable_mem (A := list Z * Z)) as (w1 & E1 & S1 & M1).
  rewrite E1, mseq_assoc, get_run, mseq_return_l. exists w1. split; [done|]. split; [|done].
  rewrite wrap_small by (unfold fits; lia). change 0xFFFFFF with (Z.ones 24).
  rewrite Z.land_ones, Z.mod_small by lia. change (Z.to_nat (u16 (1 * 4096))) with 4096%nat.
  do 2 f_equal. apply map_ext. intros i. apply M1.
Qed.

(** ** A disk of sectors *)

(** What the file system asks of the device: one sector at a time *)
Inductive Request := Read_sector (pos : Z) | Write_sector (pos : Z) (buffer : list Z).

Definition request_ok (r : Request) : Prop :=
  match r with
  | Read_sector pos => 0 <= pos < sector_count
  | Write_sector pos buffer =>
      0 <= pos < sector_count ∧ length buffer = 4096%nat ∧ Forall byte buffer
  end.

(** The requests one after the other, and the buffers read *)
Fixpoint flash_session (rs : list Request) : M (list (list Z)) :=
  match rs with
  | [] => mreturn []
  | Read_sector pos :: rs =>
      r <- rt_flash_read fuel pos 1 ;; l <- flash_session rs ;; mreturn (r.1 :: l)
  | Write_sector pos buffer :: rs => rt_flash_write fuel pos buffer 1 ;;; flash_session rs
  end.

(** The same on an array of sectors *)
Fixpoint sector_session (rs : list Request) (d : Z → list Z) : list (list Z) * (Z → list Z) :=
  match rs with
  | [] => ([], d)
  | Read_sector pos :: rs => let '(l, d') := sector_session rs d in (d pos :: l, d')
  | Write_sector pos buffer :: rs => sector_session rs (λ k, if k =? pos then buffer else d k)
  end.

(** Sector [k] of the chip *)
Definition chip_sector (w : World) (k : Z) : list Z :=
  map (λ i, flash_mem w (k * 4096 + Z.of_nat i)) (seq 0 4096).

Lemma chip_sector_ext w d k : (∀ a, a / 4096 = k → flash_mem w a = d a) →
  chip_sector w k = map (λ i, d (k * 4096 + Z.of_nat i)) (seq 0 4096).
Proof using Type.
  clear enough. intros H. unfold chip_sector. apply map_ext_in. intros i Hi%in_seq. apply H.
  symmetry. apply (Z.div_unique _ _ _ (Z.of_nat i)); lia.
Qed.

Lemma land_erased x : byte x → Z.land 0xff x = x.
Proof using Type. clear enough. intros H. rewrite Z.land_comm. change 0xff with (Z.ones 8). rewrite Z.land_ones by lia. by apply Z.mod_small. Qed.

Lemma read_back buffer : length buffer = 4096%nat → map (λ i, tbl buffer (Z.of_nat i)) (seq 0 4096) = buffer.
Proof using Type. clear enough.
  intros H. apply nth_ext with 0 0; [by rewrite length_map, length_seq|].
  rewrite length_map, length_seq. intros i Hi.
  rewrite (nth_indep _ 0 (tbl buffer (Z.of_nat 0))) by (by rewrite length_map, length_seq).
  rewrite (map_nth (λ i, tbl buffer (Z.of_nat i))), seq_nth by done. unfold tbl. by rewrite Nat2Z.id.
Qed.

Lemma written_sector pos buffer w w' k :
  length buffer = 4096%nat → Forall byte buffer →
  (∀ a, flash_mem w' a = overlaid (pos * 4096) buffer (1 * 4096)
      (λ a, if a / 4096 =? pos then 0xff else flash_mem w a) a) →
  chip_sector w' k = if k =? pos then buffer else chip_sector w k.
Proof using Type.
  clear enough. intros Hl Hb M. destruct (Z.eqb_spec k pos) as [->|Hk].
  - rewrite <- (read_back buffer Hl) at 1. unfold chip_sector. apply map_ext_in. intros i Hi%in_seq.
    rewrite M. unfold overlaid.
    assert ((pos * 4096 + Z.of_nat i) / 4096 = pos) as ->.
    { symmetry. apply (Z.div_unique _ _ _ (Z.of_nat i)); lia. }
    rewrite Z.eqb_refl, (proj2 (Z.leb_le _ _)), (proj2 (Z.ltb_lt _ _)) by lia. cbn [andb].
    replace (pos * 4096 + Z.of_nat i - pos * 4096) with (Z.of_nat i) by lia.
    apply land_erased. by apply tbl_fits.
  - apply chip_sector_ext. intros a Ha. rewrite M. unfold overlaid.
    rewrite (proj2 (Z.eqb_neq (a / 4096) pos)) by lia.
    pose proof (Z.div_mod a 4096 ltac:(done)). pose proof (Z.mod_pos_bound a 4096 ltac:(done)).
    destruct (Z.leb_spec (pos * 4096) a), (Z.ltb_spec a (pos * 4096 + 1 * 4096)); cbn [andb]; done || lia.
Qed.

Lemma sector_session_ext rs d d' : (∀ k, d k = d' k) →
  fst (sector_session rs d) = fst (sector_session rs d') ∧
  ∀ k, snd (sector_session rs d) k = snd (sector_session rs d') k.
Proof using Type.
  clear enough. revert d d'. induction rs as [|[pos|pos buffer] rs IH]; intros d d' H; cbn [sector_session]; [done| |].
  - destruct (IH d d' H) as [E1 E2].
    destruct (sector_session rs d) as [l1 d1], (sector_session rs d') as [l2 d2]. cbn in *.
    split; [by rewrite E1, H|done].
  - apply IH. intros k. by rewrite H.
Qed.

(** C17 (refinement). Over any sequence of requests of one sector each, the
    driver is an array of sectors: every read gives what was last written to
    that sector (or what the chip held before), a write changes that sector
    only - so the firmware image, which is behind the last sector of the disk,
    is never touched - and the driver stops, whatever the chip's delays. *)
Theorem disk_refines_sectors rs w : Forall request_ok rs →
  ∃ w', flash_session rs w = Done (fst (sector_session rs (chip_sector w))) w' ∧ spied w w' ∧
    ∀ k, chip_sector w' k = snd (sector_session rs (chip_sector w)) k.
Proof using enough.
  revert w. induction rs as [|[pos|pos buffer] rs IH]; intros w Hok; cbn [flash_session sector_session].
  - exists w. split; [done|]. split; [apply spied_refl|done].
  - apply Forall_cons in Hok as [Hr Hok]. cbn in Hr.
    destruct (flash_read_mem pos w Hr) as (w1 & S1 & E1 & M1). rewrite (mseq_run _ _ _ _ _ E1).
    destruct (IH w1 Hok) as (w2 & E2 & S2 & M2). rewrite (mseq_run _ _ _ _ _ E2).
    destruct (sector_session_ext rs (chip_sector w1) (chip_sector w)) as [X1 X2].
    { intros k. apply map_ext. intros i. apply M1. }
    exists w2. split; [|split; [by eapply spied_trans|]].
    + rewrite X1. by destruct (sector_session rs (chip_sector w)).
    + intros k. rewrite M2, X2. by destruct (sector_session rs (chip_sector w)).
  - apply Forall_cons in Hok as [(Hpos & Hl & Hb) Hok].
    destruct (flash_write_mem pos buffer 1 w Hpos) as (w1 & E1 & S1 & M1); [lia|by rewrite Hl|done|].
    rewrite (mseq_run _ _ _ _ _ E1). destruct (IH w1 Hok) as (w2 & E2 & S2 & M2).
    destruct (sector_session_ext rs (chip_sector w1) (λ k, if k =? pos then buffer else chip_sector w k))
      as [X1 X2].
    { intros k. by apply written_sector. }
    exists w2. split; [by rewrite E2, X1|]. split; [by eapply spied_trans|].
    intros k. by rewrite M2, X2.
Qed.

(** A request of several sectors (up to the sixteen a u16 takes)
    answers that all were written, but only the first was erased: behind it
    each byte of the chip becomes the conjunction of what it was and of what
    was to be written. *)
Lemma multi_block_write_corrupts pos buffer size w :
  0 <= pos < sector_count → 1 <= size <= 16 → Z.of_nat (length buffer) = size * 4096 → Forall byte buffer →
  ∃ w', rt_flash_write fuel pos buffer size w = Done size w' ∧ ∀ i,
    (0 <= i < 4096 → flash_mem w' (pos * 4096 + i) = tbl buffer i) ∧
    (4096 <= i < size * 4096 →
     flash_mem w' (pos * 4096 + i) = Z.land (flash_mem w (pos * 4096 + i)) (tbl buffer i)) ∧
    (i < 0 ∨ size * 4096 <= i → flash_mem w' (pos * 4096 + i) = flash_mem w (pos * 4096 + i)).
Proof using enough.
  intros Hpos Hsize Hlen Hb. destruct (flash_write_mem pos buffer size w) as (w' & E & _ & M); [done..|].
  exists w'. split; [done|]. intros i. rewrite M. unfold overlaid.
  replace (pos * 4096 + i - pos * 4096) with i by lia.
  assert (((pos * 4096 + i) / 4096 =? pos) = ((0 <=? i) && (i <? 4096))) as ->.
  { pose proof (Z.div_mod (pos * 4096 + i) 4096 ltac:(done)).
    pose proof (Z.mod_pos_bound (pos * 4096 + i) 4096 ltac:(done)).
    destruct (Z.eqb_spec ((pos * 4096 + i) / 4096) pos), (Z.leb_spec 0 i), (Z.ltb_spec i 4096); done || lia. }
  replace (pos * 4096 <=? pos * 4096 + i) with (0 <=? i) by (destruct (Z.leb_spec 0 i); symmetry; [apply Z.leb_le|apply Z.leb_gt]; lia).
  replace (pos * 4096 + i <? pos * 4096 + size * 4096) with (i <? size * 4096) by (destruct (Z.ltb_spec i (size * 4096)); symmetry; [apply Z.ltb_lt|apply Z.ltb_ge]; lia).
  destruct (Z.leb_spec 0 i), (Z.ltb_spec i 4096), (Z.ltb_spec i (size * 4096)); cbn [andb];
    repeat split; intros; try lia; try done. apply land_erased. by apply tbl_fits.
Qed.
End contents.

(** ** On the bench chip *)

Abbreviation bench_sector := (repeat 7 (Z.to_nat 4096)).
Abbreviation bench_requests := [Read_sector 4; Write_sector 3 bench_sector; Read_sector 3].

Lemma bench_sector_length : length bench_sector = 4096%nat.
Proof. rewrite repeat_length. by_computation. Qed.

Lemma disk_refines_sectors_witness : Forall request_ok bench_requests ∧
  ∃ w', flash_session 2 bench_requests start_world =
      Done (fst (sector_session bench_requests (chip_sector start_world))) w' ∧ spied start_world w' ∧
    ∀ k, chip_sector w' k = snd (sector_session bench_requests (chip_sector start_world)) k.
Proof.
  assert (Forall request_ok bench_requests) as H.
  { unfold request_ok, sector_count. repeat apply Forall_cons_2; [lia| |lia|apply Forall_nil_2].
    split; [lia|]. split; [apply bench_sector_length|by apply forall_repeat]. }
  split; [exact H|]. apply (disk_refines_sectors); [|exact H].
  change (sst_delay) with 1%nat. lia.
Defined.

(** Two sectors at once: on a chip that holds zeros the second one stays zero. *)
Lemma multi_block_write_corrupts_witness :
  ∃ w', rt_flash_write 2 3 (bench_sector ++ bench_sector) 2 start_world = Done 2 w' ∧ ∀ i,
    (0 <= i < 4096 → flash_mem w' (3 * 4096 + i) = tbl (bench_sector ++ bench_sector) i) ∧
    (4096 <= i < 2 * 4096 →
     flash_mem w' (3 * 4096 + i) =
       Z.land (flash_mem start_world (3 * 4096 + i)) (tbl (bench_sector ++ bench_sector) i)) ∧
    (i < 0 ∨ 2 * 4096 <= i → flash_mem w' (3 * 4096 + i) = flash_mem start_world (3 * 4096 + i)).
Proof.
  apply (multi_block_write_corrupts).
  - change (sst_delay) with 1%nat. lia.
  - unfold sector_count. lia.
  - lia.
  - rewrite length_app, bench_sector_length. by_computation.
  - apply Forall_app. split; by apply forall_repeat.
Defined.
