(* ===== verification/Update.v ===== *)
(** * The firmware update as a whole (src/firm_update.c and the thread of src/aip.c)

    What the processor's flash holds after [firm_update], what happens when an
    operation on it fails, and the way of an image from the server through
    /aip.bin and the SPI flash ([Aip], [Flash]) to the processor. *)
From stdpp Require Import base functions strings list list_numbers.
From Stdlib Require Import ZArith Lia.
From S2P Require Import Prelude World Monad Untils Alarm GsmService GsmAt Mms Aip Flash.

(** ** The operations on the processor's flash *)

(** How many of [n] calls are made, the first at observation [t]: up to the
    first that fails. *)
Fixpoint calls (complete : nat → bool) (t n : nat) : nat :=
  match n with
  | O => 0
  | S n => if complete t then S (calls complete (S t) n) else 1
  end.

(** All of them succeed. *)
Fixpoint all_complete (complete : nat → bool) (t n : nat) : bool :=
  match n with
  | O => true
  | S n => complete t && all_complete complete (S t) n
  end.

Lemma calls_all complete n : ∀ t, all_complete complete t n = true → calls complete t n = n.
Proof.
  induction n as [|n IH]; intros t H; [done|]. cbn in *. apply andb_true_iff in H as [-> H]. f_equal. auto.
Qed.

Lemma calls_le complete n : ∀ t, (calls complete t n <= n)%nat.
Proof. induction n as [|n IH]; intros t; cbn; [lia|]. specialize (IH (S t)). case_match; lia. Qed.

Lemma calls_app complete n m : ∀ t,
  calls complete t (n + m) =
  if all_complete complete t n then (n + calls complete (t + n) m)%nat else calls complete t n.
Proof.
  induction n as [|n IH]; intros t; cbn; [by rewrite Nat.add_0_r|]. rewrite IH.
  destruct (complete t); cbn; [|done]. rewrite Nat.add_succ_r. by case_match.
Qed.

Lemma all_complete_always complete n t : (∀ t, complete t = true) → all_complete complete t n = true.
Proof. intros H. revert t. induction n as [|n IH]; intros t; [done|]. cbn. by rewrite H, IH. Qed.

(** The processor's flash after the operations of a trace: an erased page reads
    0xff, and a half word takes the data when it is erased. *)
Definition rom_step (rom : Z → Z) (e : Event) : Z → Z :=
  match e with
  | Ev_flash_erase p => λ a, if (p <=? a) && (a <? p + FLASH_PAGE_SIZE) then 0xff else rom a
  | Ev_flash_program p data => λ a,
      let half := p + (a - p) / 2 * 2 in
      if (p <=? a) && (a <? p + 4) && (rom half =? 0xff) && (rom (half + 1) =? 0xff)
      then Z.land (Z.shiftr data (8 * (a - p))) 0xff else rom a
  | _ => rom
  end.

Section update.
Context {HB : Board} {HS : Sst25} (flash_complete : nat → bool).

(** The word that is programmed *)
Definition flash_word (w : World) (a : Z) : Z :=
  flash_mem w a + 256 * flash_mem w (a + 1) + 65536 * flash_mem w (a + 2)
    + 16777216 * flash_mem w (a + 3).

Definition erase_event (i : Z) : Event :=
  Ev_flash_erase (BANK1_WRITE_START_ADDR + FLASH_PAGE_SIZE * i).

Definition program_event (w : World) (i : Z) : Event :=
  Ev_flash_program (BANK1_WRITE_START_ADDR + 4 * i) (flash_word w (FLASH_START_WRITE_ADDR + 4 * i)).

Definition n_pages : nat := Z.to_nat ((BANK1_WRITE_END_ADDR - BANK1_WRITE_START_ADDR) / FLASH_PAGE_SIZE).
Definition n_words : nat := Z.to_nat ((BANK1_WRITE_END_ADDR - BANK1_WRITE_START_ADDR) / 4).

Lemma n_pages_Z : Z.of_nat n_pages = 192.
Proof. unfold n_pages. by rewrite Z2Nat.id by done. Qed.

Lemma n_words_Z : Z.of_nat n_words = 0x18000.
Proof. unfold n_words. by rewrite Z2Nat.id by done. Qed.

(** All the operations, in order *)
Definition update_plan (w : World) : list Event :=
  map erase_event (seqZ 0 (Z.of_nat n_pages)) ++ map (program_event w) (seqZ 0 (Z.of_nat n_words)).

(** Some operations on the processor's flash are behind us. *)
Record operated (l : list Event) (w w' : World) : Prop := {
  op_spied : spied w w';
  op_trace : trace w' = trace w ++ l;
  op_flash a : flash_mem w' a = flash_mem w a;
  op_now : now w' = (now w + length l)%nat
}.

Lemma operated_refl w : operated [] w w.
Proof. split; [apply spied_refl|by rewrite app_nil_r|done|by rewrite Nat.add_0_r]. Qed.

Lemma operated_trans l1 l2 w1 w2 w3 :
  operated l1 w1 w2 → operated l2 w2 w3 → operated (l1 ++ l2) w1 w3.
Proof.
  intros [S1 T1 F1 N1] [S2 T2 F2 N2]. split.
  - by eapply spied_trans.
  - by rewrite T2, T1, app_assoc.
  - intros a. by rewrite F2, F1.
  - rewrite N2, N1, length_app. lia.
Qed.

Lemma operation_run e w : (∀ bytes, e ≠ Ev_spi bytes) →
  ∃ w', (emit e ;;; observe flash_complete) w = Done (flash_complete (now w)) w' ∧ operated [e] w w'.
Proof.
  intros He. eexists. split; [reflexivity|]. split.
  - exists (S (now w)), (trace w ++ [e]). by world_eq.
  - done.
  - intros a. unfold flash_mem, spi_history, spi_sent. cbn. rewrite omap_app. cbn.
    destruct e; try by rewrite app_nil_r. by destruct (He bytes).
  - cbn. lia.
Qed.

Lemma flash_word_operated l w w' a : operated l w w' → flash_word w' a = flash_word w a.
Proof. intros H. unfold flash_word. by rewrite !(op_flash _ _ _ H). Qed.

Lemma erase_loop_run n : ∀ c w, ∃ w', erase_loop flash_complete n c true w =
    Done (all_complete flash_complete (now w) n) w' ∧
  operated (take (calls flash_complete (now w) n) (map erase_event (seqZ c (Z.of_nat n)))) w w'.
Proof.
  induction n as [|n IH]; intros c w; [exists w; split; [done|apply operated_refl]|].
  cbn [erase_loop]. unfold FLASH_ErasePage.
  destruct (operation_run (erase_event c) w) as (w1 & E1 & O1); [done|].
  rewrite (mseq_run _ _ _ _ _ E1). cbn [all_complete calls].
  rewrite seqZ_cons by lia. cbn [map]. destruct (flash_complete (now w)) eqn:Hc; cbn [andb take].
  - destruct (IH (c + 1) w1) as (w2 & E2 & O2). rewrite (op_now _ _ _ O1), Nat.add_1_r in E2, O2.
    exists w2. split; [done|]. replace (Z.pred (Z.of_nat (S n))) with (Z.of_nat n) by lia.
    change (?x :: ?l) with ([x] ++ l). by eapply operated_trans.
  - exists w1. split; [by destruct n|]. by rewrite firstn_O.
Qed.

(** Four bytes of the SPI flash, as a word *)
Lemma read_word a w : 0 <= a < 0x1000000 →
  SST25_R_BLOCK a 4 w = Done (map (λ i, flash_mem w (a + i)) [0; 1; 2; 3]) w.
Proof.
  intros Ha. unfold SST25_R_BLOCK. rewrite get_run. change 0xffffff with (Z.ones 24).
  rewrite Z.land_ones, Z.mod_small by lia. done.
Qed.

Lemma program_loop_run n : ∀ i w, 0 <= i → i + Z.of_nat n <= 0x20000 →
  ∃ w', program_loop flash_complete n (BANK1_WRITE_START_ADDR + 4 * i)
      (FLASH_START_WRITE_ADDR + 4 * i) true w = Done () w' ∧
    operated (take (calls flash_complete (now w) n) (map (program_event w) (seqZ i (Z.of_nat n)))) w w'.
Proof.
  induction n as [|n IH]; intros i w Hi Hn; [exists w; split; [done|apply operated_refl]|].
  cbn [program_loop]. unfold FLASH_ProgramWord.
  assert (0 <= FLASH_START_WRITE_ADDR + 4 * i < 0x1000000) as Ha by (unfold FLASH_START_WRITE_ADDR; lia).
  rewrite (mseq_run _ _ _ _ _ (read_word _ w Ha)).
  assert (word_of (map (λ j, flash_mem w (FLASH_START_WRITE_ADDR + 4 * i + j)) [0; 1; 2; 3]) =
    flash_word w (FLASH_START_WRITE_ADDR + 4 * i)) as ->.
  { unfold word_of, tbl, flash_word. cbn [map]. rewrite Z.add_0_r. done. }
  destruct (operation_run (program_event w i) w) as (w1 & E1 & O1); [done|].
  rewrite (mseq_run _ _ _ _ _ E1). cbn [calls].
  rewrite seqZ_cons by lia. cbn [map]. destruct (flash_complete (now w)) eqn:Hc; cbn [take].
  - destruct (IH (i + 1) w1) as (w2 & E2 & O2); [lia|lia|].
    rewrite (op_now _ _ _ O1), Nat.add_1_r in O2.
    exists w2. split; [rewrite <- E2; f_equal; lia|].
    replace (Z.pred (Z.of_nat (S n))) with (Z.of_nat n) by lia.
    change (?x :: ?l) with ([x] ++ l). eapply operated_trans; [exact O1|].
    erewrite map_ext; [exact O2|]. intros j. unfold program_event.
    by rewrite (flash_word_operated _ _ _ _ O1).
  - exists w1. split; [by destruct n|]. by rewrite firstn_O.
Qed.

Lemma program_loop_stopped n a b w : program_loop flash_complete n a b false w = Done () w.
Proof. by destruct n. Qed.

Lemma update_plan_length w : length (update_plan w) = (n_pages + n_words)%nat.
Proof. unfold update_plan. by rewrite length_app, !length_map, !length_seqZ, !Nat2Z.id. Qed.

Lemma firm_update_run w : ∃ w', firm_update flash_complete w = Done () w' ∧ spied w w' ∧
  trace w' = trace w ++
    take (calls flash_complete (now w) (n_pages + n_words)) (update_plan w) ++ [Ev_reset].
Proof.
  unfold firm_update. fold n_pages n_words. rewrite calls_app.
  destruct (erase_loop_run n_pages 0 w) as (w1 & E1 & O1).
  rewrite (mseq_run _ _ _ _ _ E1).
  destruct (all_complete flash_complete (now w) n_pages) eqn:Hall.
  - rewrite (calls_all _ _ _ Hall) in O1.
    assert (length (map erase_event (seqZ 0 (Z.of_nat n_pages))) = n_pages) as Hlen
      by (by rewrite length_map, length_seqZ, Nat2Z.id).
    rewrite take_ge in O1 by lia.
    destruct (program_loop_run n_words 0 w1) as (w2 & E2 & O2);
      [lia|rewrite n_words_Z; lia|].
    rewrite !Z.mul_0_r, !Z.add_0_r in E2. rewrite (mseq_run _ _ _ _ _ E2).
    eexists. split; [reflexivity|]. rewrite (op_now _ _ _ O1), Hlen in O2.
    split.
    + eapply spied_trans; [exact (op_spied _ _ _ O1)|].
      eapply spied_trans; [exact (op_spied _ _ _ O2)|]. eexists (now w2), _. by world_eq.
    + cbn. rewrite (op_trace _ _ _ O2), (op_trace _ _ _ O1). unfold update_plan.
      rewrite take_app_ge by lia. rewrite Hlen.
      replace (n_pages + calls flash_complete (now w + n_pages) n_words - n_pages)%nat
        with (calls flash_complete (now w + n_pages) n_words) by lia.
      rewrite <- !app_assoc. erewrite (map_ext (program_event w1)); [reflexivity|].
      intros i. unfold program_event. by rewrite (flash_word_operated _ _ _ _ O1).
  - rewrite (mseq_run _ _ _ _ _ (program_loop_stopped n_words _ _ w1)).
    eexists. split; [reflexivity|]. split.
    + eapply spied_trans; [exact (op_spied _ _ _ O1)|]. eexists (now w1), _. by world_eq.
    + cbn. rewrite (op_trace _ _ _ O1). unfold update_plan.
      rewrite (take_app_le (map erase_event _)); [by rewrite <- app_assoc|].
      rewrite length_map, length_seqZ, Nat2Z.id. apply calls_le.
Qed.

(** [firm_update] erases the pages from 0x08000000 to 0x08060000
    in order and then programs their words from the SPI flash in order; the
    first call that fails is the last, and whatever happened the processor is
    reset at the end: after a failure the lock starts from a flash that is
    erased or half written, and nothing is tried again. *)
Lemma firm_update_stops_at_failure w : ∃ w', firm_update flash_complete w = Done () w' ∧
  spied w w' ∧
  trace w' = trace w ++
    take (calls flash_complete (now w) (length (update_plan w))) (update_plan w) ++ [Ev_reset].
Proof. rewrite update_plan_length. apply firm_update_run. Qed.

(** ** What the processor's flash holds *)

Definition in_bank (n : Z) (a : Z) : bool :=
  (BANK1_WRITE_START_ADDR <=? a) && (a <? BANK1_WRITE_START_ADDR + n).

Lemma in_bank_spec n a :
  BoolSpec (BANK1_WRITE_START_ADDR <= a < BANK1_WRITE_START_ADDR + n)
    (¬ BANK1_WRITE_START_ADDR <= a < BANK1_WRITE_START_ADDR + n) (in_bank n a).
Proof.
  unfold in_bank. destruct (Z.leb_spec BANK1_WRITE_START_ADDR a); cbn.
  - destruct (Z.ltb_spec a (BANK1_WRITE_START_ADDR + n)); constructor; lia.
  - constructor. lia.
Qed.

Lemma rom_erase_event rom i a : rom_step rom (erase_event i) a =
  let p := BANK1_WRITE_START_ADDR + FLASH_PAGE_SIZE * i in
  if (p <=? a) && (a <? p + FLASH_PAGE_SIZE) then 0xff else rom a.
Proof. done. Qed.

Lemma rom_program_event rom w i a : rom_step rom (program_event w i) a =
  let p := BANK1_WRITE_START_ADDR + 4 * i in
  let half := p + (a - p) / 2 * 2 in
  if (p <=? a) && (a <? p + 4) && (rom half =? 0xff) && (rom (half + 1) =? 0xff)
  then Z.land (Z.shiftr (flash_word w (FLASH_START_WRITE_ADDR + 4 * i)) (8 * (a - p))) 0xff else rom a.
Proof. done. Qed.

Lemma erased_rom rom a n :
  foldl rom_step rom (map erase_event (seqZ 0 (Z.of_nat n))) a =
  if in_bank (FLASH_PAGE_SIZE * Z.of_nat n) a then 0xff else rom a.
Proof.
  induction n as [|n IH].
  { destruct (in_bank_spec (FLASH_PAGE_SIZE * Z.of_nat 0) a); [unfold FLASH_PAGE_SIZE in *; lia|done]. }
  rewrite seqZ_S, map_app. cbn [map]. rewrite foldl_snoc, rom_erase_event, IH, Z.add_0_l. cbv zeta.
  unfold FLASH_PAGE_SIZE in *.
  destruct (Z.leb_spec (BANK1_WRITE_START_ADDR + 2048 * Z.of_nat n) a) as [Ha|Ha]; cbn [andb].
  - destruct (Z.ltb_spec a (BANK1_WRITE_START_ADDR + 2048 * Z.of_nat n + 2048)) as [Hb|Hb].
    + destruct (in_bank_spec (2048 * Z.of_nat (S n)) a); [done|lia].
    + destruct (in_bank_spec (2048 * Z.of_nat (S n)) a), (in_bank_spec (2048 * Z.of_nat n) a); done || lia.
  - destruct (in_bank_spec (2048 * Z.of_nat (S n)) a), (in_bank_spec (2048 * Z.of_nat n) a); done || lia.
Qed.

Lemma flash_mem_byte w a : 0 <= flash_mem w a < 256.
Proof. apply sst_byte. Qed.

(** The bytes of a word *)
Lemma word_byte w a j : 0 <= j < 4 →
  Z.land (Z.shiftr (flash_word w a) (8 * j)) 0xff = flash_mem w (a + j).
Proof.
  intros Hj. rewrite Z.shiftr_div_pow2 by lia. change 0xff with (Z.ones 8). rewrite Z.land_ones by lia.
  unfold flash_word. pose proof (flash_mem_byte w a). pose proof (flash_mem_byte w (a + 1)).
  pose proof (flash_mem_byte w (a + 2)). pose proof (flash_mem_byte w (a + 3)).
  assert (j = 0 ∨ j = 1 ∨ j = 2 ∨ j = 3) as [->|[->|[->| ->]]] by lia;
    rewrite ?Z.add_0_r.
  - change (2 ^ (8 * 0)) with 1. rewrite Z.div_1_r. symmetry.
    apply (Z.mod_unique _ _ (flash_mem w (a + 1) + 256 * flash_mem w (a + 2) + 65536 * flash_mem w (a + 3))); lia.
  - change (2 ^ (8 * 1)) with 256. symmetry.
    rewrite <- (Z.div_unique _ _ (flash_mem w (a + 1) + 256 * flash_mem w (a + 2) + 65536 * flash_mem w (a + 3)) (flash_mem w a)) by lia.
    apply (Z.mod_unique _ _ (flash_mem w (a + 2) + 256 * flash_mem w (a + 3))); lia.
  - change (2 ^ (8 * 2)) with 65536. symmetry.
    rewrite <- (Z.div_unique _ _ (flash_mem w (a + 2) + 256 * flash_mem w (a + 3)) (flash_mem w a + 256 * flash_mem w (a + 1))) by lia.
    apply (Z.mod_unique _ _ (flash_mem w (a + 3))); lia.
  - change (2 ^ (8 * 3)) with 16777216. symmetry.
    rewrite <- (Z.div_unique _ _ (flash_mem w (a + 3)) (flash_mem w a + 256 * flash_mem w (a + 1) + 65536 * flash_mem w (a + 2))) by lia.
    apply (Z.mod_unique _ _ 0); lia.
Qed.

Definition flash_image (w : World) (a : Z) : Z :=
  flash_mem w (FLASH_START_WRITE_ADDR + (a - BANK1_WRITE_START_ADDR)).

(** The words go on erased ground. *)
Lemma programmed_rom rom w a n :
  (∀ b, in_bank (4 * Z.of_nat n) b = true → rom b = 0xff) →
  foldl rom_step rom (map (program_event w) (seqZ 0 (Z.of_nat n))) a =
  if in_bank (4 * Z.of_nat n) a then flash_image w a else rom a.
Proof.
  intros Hrom. revert a.
  induction n as [|n IH]; intros a.
  { destruct (in_bank_spec (4 * Z.of_nat 0) a); [lia|done]. }
  assert (∀ b, in_bank (4 * Z.of_nat n) b = true → rom b = 255) as Hrom'.
  { intros b Hb. apply Hrom. destruct (in_bank_spec (4 * Z.of_nat n) b); [|done].
    destruct (in_bank_spec (4 * Z.of_nat (S n)) b); [done|lia]. }
  specialize (IH Hrom').
  rewrite seqZ_S, map_app. cbn [map]. rewrite foldl_snoc, rom_program_event, (IH a), Z.add_0_l. cbv zeta.
  destruct (Z.leb_spec (BANK1_WRITE_START_ADDR + 4 * Z.of_nat n) a) as [Ha|Ha]; cbn [andb].
  2: { destruct (in_bank_spec (4 * Z.of_nat (S n)) a), (in_bank_spec (4 * Z.of_nat n) a); done || lia. }
  destruct (Z.ltb_spec a (BANK1_WRITE_START_ADDR + 4 * Z.of_nat n + 4)) as [Hb|Hb]; cbn [andb].
  2: { destruct (in_bank_spec (4 * Z.of_nat (S n)) a), (in_bank_spec (4 * Z.of_nat n) a); done || lia. }
  set (p := BANK1_WRITE_START_ADDR + 4 * Z.of_nat n) in *.
  assert (0 <= (a - p) / 2 <= 1) as Hh.
  { split; [apply Z.div_pos; lia|]. apply Z.lt_succ_r, Z.div_lt_upper_bound; lia. }
  assert (∀ b, p <= b < p + 4 → foldl rom_step rom (map (program_event w) (seqZ 0 (Z.of_nat n))) b = 255) as Hff.
  { intros b Hb'. rewrite IH. destruct (in_bank_spec (4 * Z.of_nat n) b); [lia|]. apply Hrom.
    destruct (in_bank_spec (4 * Z.of_nat (S n)) b); [done|lia]. }
  rewrite !Hff by lia. cbn [Z.eqb Pos.eqb andb].
  destruct (in_bank_spec (4 * Z.of_nat (S n)) a); [|lia].
  rewrite word_byte by lia. unfold flash_image, p. f_equal. lia.
Qed.

(** After all operations *)
Lemma updated_rom rom w a :
  foldl rom_step rom (update_plan w) a =
  if in_bank (BANK1_WRITE_END_ADDR - BANK1_WRITE_START_ADDR) a then flash_image w a else rom a.
Proof.
  unfold update_plan. rewrite foldl_app, programmed_rom; rewrite n_words_Z.
  - rewrite erased_rom, n_pages_Z. change (4 * 0x18000) with (FLASH_PAGE_SIZE * 192).
    change (BANK1_WRITE_END_ADDR - BANK1_WRITE_START_ADDR) with (FLASH_PAGE_SIZE * 192).
    by case_match.
  - intros b Hb. rewrite erased_rom, n_pages_Z. change (FLASH_PAGE_SIZE * 192) with (4 * 0x18000). by rewrite Hb.
Qed.

Hypothesis always_complete : ∀ t, flash_complete t = true.

Lemma firm_update_complete w : ∃ w', firm_update flash_complete w = Done () w' ∧ spied w w' ∧
  trace w' = trace w ++ update_plan w ++ [Ev_reset].
Proof using always_complete.
  destruct (firm_update_run w) as (w' & E & Sp & Tr). exists w'. split; [done|]. split; [done|].
  rewrite Tr. rewrite calls_all by (by apply all_complete_always).
  rewrite <- update_plan_length with (w := w). by rewrite firstn_all.
Qed.
End update.

(** ** From the server to the processor *)

Section whole.
Context {HB : Board} {HS : Sst25} {HG : GsmService} (img : list Z) {HM : HttpModem img}.
Context (flash_complete : nat → bool) (fuel : nat).
Hypothesis always_complete : ∀ t, flash_complete t = true.
Hypothesis disk_works : (∀ t, file_works AIP_BIN_NAME t = true) ∧ (∀ t n, disk_takes t n = n).
Hypothesis enough : (sst_delay < fuel)%nat.
Hypothesis enough_words : (2048 < fuel)%nat.
Hypothesis enough_requests : 2 * Z.of_nat (length img) + 4 < Z.of_nat fuel.

Lemma aip_result_good : aip_result img =
  if (length img <=? http_memory)%nat || negb (http_cut || range_ends_image img) then 0 else -1.
Proof using. unfold aip_result, ranged_result. by destruct (_ <=? _)%nat, http_cut, range_ends_image. Qed.

(** C10 (liveness). One mail to the download thread, with a modem, a server and
    a disk that work, a chip that gets ready, a processor flash that does what
    it is told and an image of at most 512 KB: the download always ends with the
    whole image in /aip.bin.  It counts as a success if the image fits in the
    modem's memory, or if the server answers 400, and not 206, to a range that
    ends behind the image and the image has not 65536 + 65535 k bytes.  Then the
    thread writes the image to the SPI flash, copies its first 384 KB to the
    processor's flash and resets: from 0x08000000 to 0x0805ffff the processor's
    flash holds the image, byte for byte, whatever was in it, and nothing
    outside that range changes.  In every other case the thread does nothing
    more: no operation on either flash, and no reset. *)
Theorem update_reaches_processor w m rest k n :
  aip_mq w = Some (mkQueue (m :: rest) k) → mq_gsm w = Some (mkQueue [] (S n)) →
  Forall byte img → Z.of_nat (length img) <= 128 * 4096 →
  ∃ wd w', get_aip fuel (set_aip_mq (Some (mkQueue rest k)) w) = Done (aip_result img) wd ∧
    files wd AIP_BIN_NAME = Some img ∧ aip_mail_process_step flash_complete fuel w = Done () w' ∧
    if (length img <=? http_memory)%nat || negb (http_cut || range_ends_image img) then
      ∃ before ops, trace w' = before ++ ops ++ [Ev_reset] ∧
        ∀ rom a,
          (BANK1_WRITE_START_ADDR <= a < BANK1_WRITE_END_ADDR →
           a - BANK1_WRITE_START_ADDR < Z.of_nat (length img) →
           foldl rom_step rom ops a = tbl img (a - BANK1_WRITE_START_ADDR)) ∧
          (¬ BANK1_WRITE_START_ADDR <= a < BANK1_WRITE_END_ADDR → foldl rom_step rom ops a = rom a)
    else w' = wd.
Proof using All.
  intros Ha Hg Hb Hl. unfold aip_mail_process_step, rt_mq_recv. rewrite mseq_assoc, get_run, Ha.
  unfold deref. rewrite mseq_assoc, mseq_return_l. cbn [q_recv q_msgs q_max].
  rewrite mseq_assoc, upd_run, mseq_return_l. set (w1 := set_aip_mq _ w).
  destruct (aip_downloads_image img disk_works ltac:(lia) fuel w1 n Hg enough_requests) as (w2 & E2 & F2).
  exists w2. rewrite (mseq_run _ _ _ _ _ E2). rewrite aip_result_good in E2 |- *.
  destruct ((length img <=? http_memory)%nat || negb (http_cut || range_ends_image img)).
  2: { exists w2. by split_and!. }
  cbn [when Z.eqb].
  destruct (file_write_stored fuel enough enough_words AIP_BIN_NAME img FLASH_START_WRITE_ADDR w2)
    as (w3 & E3 & S3); [done|apply disk_works|done|
    rewrite (eq_refl : write_start FLASH_START_WRITE_ADDR = FLASH_START_WRITE_ADDR);
    unfold FLASH_START_WRITE_ADDR; lia|].
  rewrite (mseq_run _ _ _ _ _ E3). cbn [when Z.eqb].
  destruct (firm_update_complete flash_complete always_complete w3) as (w4 & E4 & _ & T4).
  exists w4. split; [done|]. split; [done|]. split; [done|].
  exists (trace w3), (update_plan w3). split; [done|]. intros rom a.
  rewrite updated_rom.
  destruct (in_bank_spec (BANK1_WRITE_END_ADDR - BANK1_WRITE_START_ADDR) a) as [Hin|Hout].
  - split; [|intros []; lia]. intros _ Hlen. apply S3. lia.
  - split; [intros ?; destruct Hout; lia|done].
Qed.
End whole.

(** *** Instances *)

Definition update_mail : AIP_MAIL := mkAipMail 0 ALARM_TYPE_GPRS_SET_HTTP_SUCCESS.

Definition update_start_world : World :=
  set_aip_mq (Some (mkQueue [update_mail] 1)) start_world.

Lemma bench_good cut :
  (length bench_image <=? http_memory (HttpModem := bench_http_modem cut))%nat ||
  negb (http_cut (HttpModem := bench_http_modem cut) || range_ends_image bench_image) = negb cut.
Proof.
  pose proof (bench_result cut) as H.
  rewrite (aip_result_good (HB:=quiet_board) bench_image (HM:=bench_http_modem cut)) in H.
  destruct (_ || _), cut; done || discriminate H.
Qed.

(** Both servers of the bench *)
Lemma update_reaches_processor_witness :
  (∃ w' before ops, aip_mail_process_step (HB:=quiet_board) (HG:=bench_http false) (λ _, true)
      (Z.to_nat 300000) update_start_world = Done () w' ∧
    trace w' = before ++ ops ++ [Ev_reset] ∧
    ∀ rom a,
      (BANK1_WRITE_START_ADDR <= a < BANK1_WRITE_END_ADDR →
       a - BANK1_WRITE_START_ADDR < Z.of_nat (length bench_image) →
       foldl rom_step rom ops a = tbl bench_image (a - BANK1_WRITE_START_ADDR)) ∧
      (¬ BANK1_WRITE_START_ADDR <= a < BANK1_WRITE_END_ADDR → foldl rom_step rom ops a = rom a)) ∧
  (∃ wd, get_aip (HB:=quiet_board) (HG:=bench_http true) (Z.to_nat 300000)
      (set_aip_mq (Some (mkQueue [] 1)) update_start_world) = Done (-1) wd ∧
    files wd AIP_BIN_NAME = Some bench_image ∧
    aip_mail_process_step (HB:=quiet_board) (HG:=bench_http true) (λ _, true)
      (Z.to_nat 300000) update_start_world = Done () wd).
Proof.
  assert (∀ cut, ∃ wd w', get_aip (HB:=quiet_board) (HG:=bench_http cut) (Z.to_nat 300000)
      (set_aip_mq (Some (mkQueue [] 1)) update_start_world) =
      Done (aip_result (HB:=quiet_board) bench_image (HM:=bench_http_modem cut)) wd ∧
    files wd AIP_BIN_NAME = Some bench_image ∧
    aip_mail_process_step (HB:=quiet_board) (HG:=bench_http cut) (λ _, true)
      (Z.to_nat 300000) update_start_world = Done () w' ∧
    if (length bench_image <=? http_memory (HttpModem := bench_http_modem cut))%nat ||
       negb (http_cut (HttpModem := bench_http_modem cut) || range_ends_image bench_image) then
      ∃ before ops, trace w' = before ++ ops ++ [Ev_reset] ∧
        ∀ rom a,
          (BANK1_WRITE_START_ADDR <= a < BANK1_WRITE_END_ADDR →
           a - BANK1_WRITE_START_ADDR < Z.of_nat (length bench_image) →
           foldl rom_step rom ops a = tbl bench_image (a - BANK1_WRITE_START_ADDR)) ∧
          (¬ BANK1_WRITE_START_ADDR <= a < BANK1_WRITE_END_ADDR → foldl rom_step rom ops a = rom a)
    else w' = wd) as H.
  { intros cut.
    apply (update_reaches_processor (HB:=quiet_board) (HG:=bench_http cut) bench_image
      (HM:=bench_http_modem cut)) with (m := update_mail) (rest := []) (k := 1%nat) (n := 19%nat).
    - done.
    - by split.
    - change sst_delay with 1%nat. lia.
    - lia.
    - rewrite bench_image_length, Z2Nat.id; lia.
    - reflexivity.
    - reflexivity.
    - apply bench_image_bytes.
    - rewrite bench_image_length. lia. }
  split.
  - destruct (H false) as (wd & w' & _ & _ & E & H'). rewrite bench_good in H'.
    destruct H' as (before & ops & H'). exact (ex_intro _ w' (ex_intro _ before (ex_intro _ ops (conj E H')))).
  - destruct (H true) as (wd & w' & Ed & F & E & H'). rewrite bench_good in H'. cbn [negb] in H'. subst w'.
    rewrite bench_result in Ed. exact (ex_intro _ wd (conj Ed (conj F E))).
Defined.
