(* ===== verification/Gsm.v ===== *)
(** * The GSM thread (gsm_mode_switch, gsm_init_process and
      gsm_process_thread_entry of src/gsm.c)

    The thread owns the modem: it starts it, switches it between command and
    data mode as the mails need, serves the mails, and in data mode passes what
    the server sends to [recv_gprs_frame].  At the end it is an instance of
    [GsmService]. *)
From stdpp Require Import base strings list.
From Stdlib Require Import ZArith Lia.
From S2P Require Import Prelude World Monad Untils Alarm Lock GsmService GsmPower GprsRecv GprsAuth.
From S2P Require Import GprsPic GsmAt.

Section gsm.
Context {HB : Board}.
Variable fuel : nat.

(** The result of a command without the data it may have *)
Definition command (index : AT_COMMAND) (delay : Z) : M Z :=
  r <- gsm_command fuel index delay CD_none ;; mreturn (fst r).

(** [(gsm_command (..) == r) && ...] *)
Fixpoint commands (l : list (AT_COMMAND * Z * Z)) : M bool :=
  match l with
  | [] => mreturn true
  | (index, delay, expected) :: l =>
      r <- command index delay ;;
      if r =? expected then commands l else mreturn false
  end.

Definition gsm_mode_switch (new_mode : GSM_MODE) : M Z :=
  mode <- get gsm_mode ;;
  match mode, new_mode with
  | GSM_MODE_CMD, GSM_MODE_GPRS =>
      online <- commands [(AT_CIPSTATUS, 100, AT_RESPONSE_CONNECT_OK);
                          (ATO, 100, AT_RESPONSE_OK)] ;;
      if (online : bool) then upd (set_gsm_mode GSM_MODE_GPRS) ;;; mreturn 1
      else
        connected <- commands
          [(AT_CIPSHUT, 50, AT_RESPONSE_OK); (AT_CIPMODE, 50, AT_RESPONSE_OK);
           (AT_CSTT, 50, AT_RESPONSE_OK); (AT_CIICR, 300, AT_RESPONSE_OK);
           (AT_CIFSR, 50, AT_RESPONSE_OK); (AT_CIPSTART, 300, AT_RESPONSE_CONNECT_OK)] ;;
        if (connected : bool) then
          upd (set_gsm_mode GSM_MODE_GPRS) ;;;
          rt_thread_delay 100 ;;;
          send_gprs_auth_frame ;;;
          rt_thread_delay 100 ;;; mreturn 1
        else mreturn 0
  | GSM_MODE_GPRS, GSM_MODE_CMD =>
      r <- command PLUS3 100 ;;
      if r =? AT_NO_RESPONSE then
        gsm_setup false ;;; upd (set_gsm_mode GSM_MODE_CMD) ;;; mreturn (-1)
      else upd (set_gsm_mode GSM_MODE_CMD) ;;; mreturn 1
  | _, _ => mreturn 1
  end.

(** ** Start-up *)

(** [while (counts < 100)]: is the modem ready within the attempts left? *)
Fixpoint gsm_init_loop (todo : nat) : M Z :=
  match todo with
  | O => mreturn (-1)
  | S todo =>
      both received text <- recv_line fuel 512 ;;
      ready <- (if strstr text (bytes_of "Call Ready") then
                  commands [(AT_D1, 50, AT_RESPONSE_OK); (AT_W, 50, AT_RESPONSE_OK);
                            (AT_CNMI, 50, AT_RESPONSE_OK); (AT_CSCA, 50, AT_RESPONSE_OK);
                            (AT_CMGF, 50, AT_RESPONSE_OK)]
                else mreturn false) ;;
      if (ready : bool) then mreturn 1
      else rt_thread_delay 50 ;;; gsm_init_loop todo
  end.

Definition gsm_init_process : M Z := gsm_init_loop 100.

(** One round of the loops that start the modem: did it start? *)
Definition gsm_start_round : M bool :=
  r <- gsm_reset ;;
  ok <- (if bool_decide (r = GSM_RESET_SUCCESS) then mreturn true
         else r <- gsm_reset ;; mreturn (bool_decide (r = GSM_RESET_SUCCESS))) ;;
  if (ok : bool) then r <- gsm_init_process ;; mreturn (r =? 1)
  else rt_thread_delay (100 * 300) ;;; mreturn false.

(** [while (1)], as often as needed *)
Fixpoint gsm_start (rounds : nat) : M () :=
  match rounds with
  | O => nofuel
  | S rounds =>
      started <- gsm_start_round ;;
      if (started : bool) then mreturn () else gsm_start rounds
  end.

(** ** The mails *)

Definition closed : list Z := crlf ++ bytes_of "CLOSED" ++ crlf.

Definition occurs (haystack needle : list Z) : bool :=
  match memmem haystack needle with Some _ => true | None => false end.

(** [while (send_counts-- > 0)]: what is stored as the result and the response *)
Fixpoint gprs_response_wait (send_counts : nat) (request : list Z) : M (Z * GSM_ANSWER) :=
  match send_counts with
  | O => mreturn (-1, GA_gprs [])
  | S send_counts =>
      rt_thread_delay 100 ;;;
      response <- gsm_uart_read RECV_FRAME_SIZE ;;
      if (length response =? 0)%nat then gprs_response_wait send_counts request
      else if occurs request closed || occurs request response then
        gsm_mode_switch GSM_MODE_CMD ;;; mreturn (-1, GA_gprs response)
      else mreturn (1, GA_gprs response)
  end.

Definition serve_mail (mail : GSM_MAIL) : M (Z * GSM_ANSWER) :=
  r <- gsm_mode_switch (send_mode mail) ;;
  match mail with
  | GM_cmd index delay cmd_data =>
      if r =? 1 then gsm_command fuel index delay cmd_data
      else mreturn (AT_RESPONSE_ERROR, GA_none)
  | GM_gprs request has_response =>
      if r =? 1 then
        uart_write DEV_GSM_USART request ;;;
        if has_response =? 1 then gprs_response_wait 10 request
        else mreturn (1, GA_none)
      else mreturn (-1, GA_none)
  end.

(** Nothing to serve: in data mode the server may have sent something.  The
    buffer keeps what the last frame left behind it. *)
Definition gsm_listen : M () :=
  mode <- get gsm_mode ;;
  when (bool_decide (mode = GSM_MODE_GPRS))
    (received <- gsm_uart_read RECV_FRAME_SIZE ;;
     old <- get gprs_recv_frame ;;
     let frame := memcpy_at old 0 received in
     upd (set_gprs_recv_frame frame) ;;;
     when (negb (length received =? 0)%nat)
       (if occurs frame closed then gsm_mode_switch GSM_MODE_CMD ;;; mreturn ()
        else
          recv_gprs_frame frame (Z.of_nat (length received)) ;;;
          upd (set_gprs_recv_frame (swap_length frame)))).

(** One round of the thread: what it has served *)
Definition gsm_process_step : M (option (Z * GSM_ANSWER)) :=
  if negb (dev_present DEV_GSM_STATUS) then fault
  else
    gsm_status <- pin_read DEV_GSM_STATUS ;;
    if negb (gsm_status =? 0) then
      m <- rt_mq_recv mq_gsm set_mq_gsm ;;
      match m with
      | Some mail => r <- serve_mail mail ;; mreturn (Some r)
      | None => gsm_listen ;;; mreturn None
      end
    else gsm_start fuel ;;; mreturn None.

Fixpoint gsm_process_loop (n : nat) : M () :=
  match n with
  | O => mreturn ()
  | S n => gsm_process_step ;;; gsm_process_loop n
  end.

(** The thread up to its [n]-th round; the buffer is a local variable. *)
Definition gsm_process_thread_entry (n : nat) : M () :=
  frame <- uninit_bytes RECV_FRAME_SIZE ;;
  upd (set_gprs_recv_frame frame) ;;;
  upd (set_mq_gsm (Some (mkQueue [] MAIL_MAX_MSGS))) ;;;
  gsm_start fuel ;;;
  gsm_process_loop n.

(** While a client waits: the thread's rounds until no mail is left.  The
    clients hold [mutex_gsm_mail_sequence], so the last mail served is theirs. *)
Fixpoint gsm_serve_loop (rounds : nat) : M (Z * GSM_ANSWER) :=
  match rounds with
  | O => nofuel
  | S rounds =>
      r <- gsm_process_step ;;
      q <- get mq_gsm ;;
      match r, q with
      | Some r, Some (mkQueue [] _) => mreturn r
      | _, _ => gsm_serve_loop rounds
      end
  end.
End gsm.

(** ** The thread keeps the invariant *)

Section keeps_gsm.
Context {HB : Board} (Hm : motors_present) (fuel : nat).

Lemma keeps_commands l : keeps wf (commands fuel l) (λ _, True).
Proof.
  induction l as [|[[i d] e] l IH]; cbn [commands]; [by apply keeps_return|].
  apply keeps_then.
  - apply keeps_then; [eapply keeps_consequence; [apply gsm_command_keeps|done]|].
    intros. by apply keeps_return.
  - intros r. apply keeps_if; intros _; [apply IH|by apply keeps_return].
Qed.

Lemma keeps_set_mode m : keeps wf (upd (set_gsm_mode m)) (λ _, True).
Proof. apply runs_keeps, runs_upd. by intros ? []. Qed.

Lemma keeps_mode_switch m : keeps wf (gsm_mode_switch fuel m) (λ _, True).
Proof.
  unfold gsm_mode_switch. apply keeps_then; [by apply runs_keeps, runs_get|intros mode].
  destruct mode, m; try by apply keeps_return.
  - apply keeps_then; [apply keeps_commands|intros online]. apply keeps_if; intros _.
    + apply keeps_then; [apply keeps_set_mode|intros]. by apply keeps_return.
    + apply keeps_then; [apply keeps_commands|intros ok].
      apply keeps_if; intros _; [|by apply keeps_return].
      apply keeps_then; [apply keeps_set_mode|intros _].
      apply keeps_then; [apply runs_keeps, runs_emit|intros _].
      apply keeps_then; [eapply keeps_consequence; [by apply send_gprs_auth_frame_keeps|done]|intros _].
      apply keeps_then; [apply runs_keeps, runs_emit|intros _]. by apply keeps_return.
  - apply keeps_then.
    { apply keeps_then; [eapply keeps_consequence; [apply gsm_command_keeps|done]|].
      intros. by apply keeps_return. }
    intros r. apply keeps_if; intros _.
    + apply keeps_then; [apply runs_keeps, gsm_setup_runs|intros _].
      apply keeps_then; [apply keeps_set_mode|intros]. by apply keeps_return.
    + apply keeps_then; [apply keeps_set_mode|intros]. by apply keeps_return.
Qed.

Lemma keeps_init todo : keeps wf (gsm_init_loop fuel todo) (λ _, True).
Proof.
  induction todo as [|todo IH]; cbn [gsm_init_loop]; [by apply keeps_return|].
  apply keeps_then; [apply keeps_recv_line|intros [b t]].
  apply keeps_then.
  - apply keeps_if; intros _; [apply keeps_commands|by apply keeps_return].
  - intros ready. apply keeps_if; intros _; [by apply keeps_return|].
    apply keeps_then; [apply runs_keeps, runs_emit|intros _]. apply IH.
Qed.

Lemma keeps_start rounds : keeps wf (gsm_start fuel rounds) (λ _, True).
Proof.
  induction rounds as [|rounds IH]; cbn [gsm_start]; [apply keeps_nofuel|].
  apply keeps_then; [|intros s; apply keeps_if; intros _; [by apply keeps_return|apply IH]].
  unfold gsm_start_round. apply keeps_then; [apply runs_keeps, gsm_reset_runs|intros r].
  apply keeps_then.
  { apply keeps_if; intros _; [by apply keeps_return|].
    apply keeps_then; [apply runs_keeps, gsm_reset_runs|intros]. by apply keeps_return. }
  intros ok. apply keeps_if; intros _.
  - apply keeps_then; [apply keeps_init|intros]. by apply keeps_return.
  - apply keeps_then; [apply runs_keeps, runs_emit|intros]. by apply keeps_return.
Qed.

Lemma keeps_response_wait n req :
  keeps wf (gprs_response_wait fuel n req) (λ r, answer_wf (snd r)).
Proof.
  induction n as [|n IH]; cbn [gprs_response_wait].
  - apply keeps_return. split; [simpl; lia|by constructor].
  - apply keeps_then; [apply runs_keeps, runs_emit|intros _].
    eapply keeps_seq; [apply runs_keeps, runs_gsm_read|intros resp [Hl Hb]].
    apply keeps_if; intros _; [apply IH|].
    apply keeps_if; intros _; [|by apply keeps_return].
    apply keeps_then; [apply keeps_mode_switch|intros]. by apply keeps_return.
Qed.

Lemma keeps_serve_mail m : keeps wf (serve_mail fuel m) (λ r, answer_wf (snd r)).
Proof.
  unfold serve_mail. apply keeps_then; [apply keeps_mode_switch|intros r].
  destruct m; apply keeps_if; intros _; try by apply keeps_return; try apply gsm_command_keeps.
  - apply gsm_command_keeps.
  - apply keeps_then; [apply runs_keeps, runs_emit|intros _].
    apply keeps_if; intros _; [apply keeps_response_wait|by apply keeps_return].
Qed.

Lemma wf_set_frame f w : frame_wf f → wf w → wf (set_gprs_recv_frame f w).
Proof. intros Hf []. by split. Qed.

Lemma keeps_listen : keeps wf (gsm_listen fuel) (λ _, True).
Proof.
  unfold gsm_listen. apply keeps_then; [by apply runs_keeps, runs_get|intros mode].
  apply keeps_when; intros _.
  eapply keeps_seq; [apply runs_keeps, runs_gsm_read|intros l [Hl Hb]].
  eapply (keeps_seq _ _ frame_wf).
  { apply runs_keeps, runs_get. by intros ? []. }
  intros old [Ho Hbo]. cbv zeta.
  assert (frame_wf (memcpy_at old 0 l)) as Hf.
  { split; [rewrite memcpy_at_length; [done|lia]|by apply memcpy_at_forall]. }
  apply keeps_then; [apply runs_keeps, runs_upd; intros; by apply wf_set_frame|intros _].
  apply keeps_when; intros _. apply keeps_if; intros _.
  - apply keeps_then; [apply keeps_mode_switch|intros; by apply keeps_return].
  - apply keeps_then; [by apply recv_gprs_frame_keeps|intros _].
    apply runs_keeps, runs_upd. intros w. apply wf_set_frame. destruct Hf as [L B].
    destruct (memcpy_at old 0 l) as [|a [|b f]]; [done|done|]. split; [done|].
    cbn [swap_length]. rewrite !Forall_cons in *. tauto.
Qed.

Lemma keeps_recv_mail : keeps wf (rt_mq_recv mq_gsm set_mq_gsm) (λ _, True).
Proof.
  intros w a w' Hw. unfold rt_mq_recv, mseq, get, deref, upd, mreturn, fault.
  destruct (mq_gsm w) as [q|]; [|done]. destruct (q_recv q) as [[x q']|]; intros [= <- <-];
    split; try done. destruct Hw; by split.
Qed.

Lemma keeps_step :
  keeps wf (gsm_process_step fuel) (λ r, ∀ a, r = Some a → answer_wf (snd a)).
Proof.
  unfold gsm_process_step. apply keeps_if; intros _; [apply keeps_fault|].
  apply keeps_then; [apply runs_keeps; eapply safe_weaken, runs_pin_read|intros status].
  apply keeps_if; intros _.
  - apply keeps_then; [apply keeps_recv_mail|intros [m|]].
    + eapply keeps_seq; [apply keeps_serve_mail|]. intros r Hr. apply keeps_return. by intros a [= <-].
    + apply keeps_then; [apply keeps_listen|intros]. by apply keeps_return.
  - apply keeps_then; [apply keeps_start|intros]. by apply keeps_return.
Qed.

Lemma gsm_serve_loop_keeps n : keeps wf (gsm_serve_loop fuel n) (λ r, answer_wf (snd r)).
Proof.
  induction n as [|n IH]; cbn [gsm_serve_loop]; [apply keeps_nofuel|].
  eapply keeps_seq; [apply keeps_step|intros r Hr].
  apply keeps_then; [by apply runs_keeps, runs_get|intros q].
  destruct r as [a|]; [|exact IH]. destruct q as [[[|m l] k]|]; try exact IH.
  apply keeps_return. by apply Hr.
Qed.

(** The thread is what the clients rely on. *)
Definition gsm_service (rounds : nat) : GsmService :=
  {| gsm_serve := gsm_serve_loop fuel rounds; gsm_serve_keeps := gsm_serve_loop_keeps rounds |}.
End keeps_gsm.

(** ** What does not change the mode *)

(** The mode is the same and the trace goes on. *)
Definition goes_on (w w' : World) : Prop :=
  gsm_mode w' = gsm_mode w ∧ trace w `prefix_of` trace w'.

#[export] Instance goes_on_preorder : PreOrder goes_on.
Proof.
  split; [by intros w|]. intros w1 w2 w3 [E1 P1] [E2 P2].
  split; [congruence|]. by transitivity (trace w2).
Qed.

(** One step of a proof that a program goes on: the program's structure, or an
    update that goes on. *)
Ltac goes_on_update :=
  intros; split;
  [reflexivity|first [reflexivity | cbn [trace set_trace]; apply prefix_app_r; reflexivity]].
Ltac goes_on_step :=
  lazymatch goal with
  | |- evolves _ (mreturn _) => apply evolves_return
  | |- evolves _ fault => apply evolves_fault
  | |- evolves _ (get _) => apply evolves_get
  | |- evolves _ (deref _) => apply evolves_deref
  | |- evolves _ (when _ _) => apply evolves_when; intros ?
  | |- evolves _ (mseq _ _) => apply evolves_seq; [|intros ?]
  | |- evolves _ (emit _) => apply evolves_upd; solve [goes_on_update]
  | |- evolves _ (upd _) => apply evolves_upd; solve [goes_on_update]
  | |- evolves _ (observe _) => apply evolves_observe; solve [goes_on_update]
  | |- evolves _ (if _ then _ else _) => case_match
  | |- evolves _ (match _ with _ => _ end) => case_match
  | |- _ => first [assumption | progress (cbv beta)]
  end.
Ltac goes_on := repeat goes_on_step.

Section goes_on.
Context {HB : Board}.

Lemma goes_on_read n : evolves goes_on (gsm_uart_read n).
Proof. intros w a w' [= <- <-]. by split. Qed.

Lemma goes_on_nofuel {A} : evolves goes_on (nofuel (A:=A)).
Proof. by intros w a w'. Qed.

Lemma goes_on_recv_bytes cap todo : ∀ frame, evolves goes_on (recv_bytes cap todo frame).
Proof.
  induction todo as [|todo IH]; intros frame; cbn [recv_bytes]; [apply evolves_return|].
  apply evolves_seq; [apply goes_on_read|intros [|temp r]]; [apply IH|]. cbv zeta.
  goes_on. apply IH.
Qed.

Lemma goes_on_recv_frame fuel cap : evolves goes_on (gsm_recv_frame fuel cap).
Proof.
  induction fuel as [|fuel IH]; cbn [gsm_recv_frame]; [apply goes_on_nofuel|].
  apply evolves_seq; [apply goes_on_recv_bytes|intros l]. goes_on.
Qed.

Context (fuel : nat).

Lemma goes_on_recv_line cap : evolves goes_on (recv_line fuel cap).
Proof. apply evolves_seq; [apply goes_on_recv_frame|intros f]. goes_on. Qed.

Lemma goes_on_next_line k : (∀ t, evolves goes_on (k t)) → evolves goes_on (next_line fuel k).
Proof.
  intros Hk. apply evolves_seq; [apply goes_on_recv_line|intros [[] t]]; [apply Hk|goes_on].
Qed.

Lemma goes_on_wait_line n k : (∀ t, evolves goes_on (k t)) → evolves goes_on (wait_line fuel n k).
Proof.
  intros Hk. induction n as [|n IH]; cbn [wait_line]; [apply evolves_return|].
  apply evolves_seq; [unfold rt_thread_delay; goes_on|intros _].
  apply evolves_seq; [apply goes_on_recv_line|intros [[] t]]; [apply Hk|apply IH].
Qed.

Lemma goes_on_two_lines k : (∀ t, evolves goes_on (k t)) → evolves goes_on (two_lines fuel k).
Proof.
  intros Hk. apply evolves_seq; [apply goes_on_recv_frame|intros f].
  apply evolves_seq; [goes_on|intros t]. do 2 (case_match; [apply evolves_return|]).
  apply evolves_seq; [apply goes_on_recv_frame|intros f'].
  apply evolves_seq; [goes_on|intros t']. goes_on. apply Hk.
Qed.

Lemma goes_on_wait_httpaction n : evolves goes_on (wait_httpaction fuel n).
Proof.
  induction n as [|n IH]; cbn [wait_httpaction]; [apply evolves_return|].
  apply evolves_seq; [unfold rt_thread_delay; goes_on|intros _].
  apply evolves_seq; [apply goes_on_recv_line|intros [b t]]. case_match; [|apply IH].
  unfold scan_httpaction. goes_on.
Qed.

Lemma goes_on_read_http t : evolves goes_on (read_http fuel t).
Proof.
  unfold read_http. cbv zeta. case_match; [|goes_on].
  set (temp := match scan_literal _ _ with Some _ => _ | None => 0 end). clearbody temp.
  case_match; [goes_on|]. case_match; [|goes_on]. case_match; [goes_on|].
  apply evolves_seq; [apply goes_on_read|intros d]. case_match; [goes_on|].
  apply evolves_seq; [apply goes_on_recv_line|intros [b l]]. goes_on.
Qed.

Lemma goes_on_after_echo e t k : evolves goes_on k → evolves goes_on (after_echo e t k).
Proof. intros Hk. unfold after_echo. goes_on. Qed.

Lemma goes_on_store_scanned p t : evolves goes_on (store_scanned p t).
Proof. unfold store_scanned. goes_on. Qed.

Lemma goes_on_ok_if b r : evolves goes_on (ok_if b r).
Proof. apply evolves_return. Qed.

Lemma goes_on_at_case index buf text : evolves goes_on (at_case fuel index buf text).
Proof.
  unfold at_case. cbv zeta.
  destruct index;
    repeat first
      [ goes_on_step
      | apply goes_on_after_echo
      | apply goes_on_ok_if
      | apply goes_on_store_scanned
      | apply goes_on_next_line; intros ?
      | apply goes_on_wait_line; intros ?
      | apply goes_on_two_lines; intros ?
      | apply goes_on_wait_httpaction
      | apply goes_on_read_http ].
Qed.

Lemma goes_on_at_lines index buf todo : ∀ n, evolves goes_on (at_lines fuel index buf todo n).
Proof.
  induction todo as [|todo IH]; intros n; cbn [at_lines]; [apply evolves_return|].
  apply evolves_seq; [apply goes_on_recv_line|intros [[] t]]; unfold rt_thread_delay.
  - apply evolves_seq; [apply goes_on_at_case|intros [r|]]; goes_on. apply IH.
  - goes_on. apply IH.
Qed.

Lemma goes_on_command i d c : evolves goes_on (gsm_command fuel i d c).
Proof.
  unfold gsm_command, send_cmgs_text, rt_thread_delay, uart_write. apply evolves_seq.
  - assert (evolves goes_on (format_command i c)) as Hf by (unfold format_command; goes_on).
    assert (∀ o, evolves goes_on (s <- deref o ;; uart_write DEV_GSM_USART s ;;; mreturn (@nil Z)))
      as Hw by (intros; unfold uart_write; goes_on).
    unfold write_command, rt_thread_delay. destruct i; try apply Hw;
      repeat first [apply Hw | unfold uart_write; goes_on_step].
  - intros buf. repeat first [goes_on_step | apply goes_on_at_lines].
Qed.

Lemma goes_on_commands l : evolves goes_on (commands fuel l).
Proof.
  induction l as [|[[i d] e] l IH]; cbn [commands]; unfold command; goes_on.
  apply goes_on_command.
Qed.

Lemma goes_on_setup s : evolves goes_on (gsm_setup s).
Proof. unfold gsm_setup, gsm_power, pin_read, rt_thread_delay. goes_on. Qed.

Lemma goes_on_send_gprs_mail a t o u : evolves goes_on (send_gprs_mail a t o u).
Proof. by apply evolves_send_gprs_mail. Qed.

Lemma goes_on_motor n m t : evolves goes_on (motor_loop n m t).
Proof.
  induction n as [|n IH]; cbn [motor_loop]; [apply evolves_return|].
  unfold send_pulse, motor_status, pin_read. goes_on.
Qed.

Lemma goes_on_recv_gprs frame n : evolves goes_on (recv_gprs_frame frame n).
Proof.
  assert (∀ p, evolves goes_on (store_params p)) as Hs
    by (intros; unfold store_params, system_file_operate; goes_on).
  unfold recv_gprs_frame, answer_set, process_gprs_set_telephone, process_gprs_set_rfid_key,
    process_gprs_set_user_parameters, process_gprs_set_time, process_gprs_set_key0,
    process_gprs_set_http, machine_status_deal, rt_thread_delay, lock_output, motor_status, pin_read,
    motor_fault, send_aip_mail, mail_time, rtc_get_time.
  repeat first
    [ apply goes_on_send_gprs_mail | apply Hs | goes_on_step | apply goes_on_motor
    | by apply evolves_send_sms_mail | by apply evolves_post_mail ].
Qed.

Lemma goes_on_auth : evolves goes_on send_gprs_auth_frame.
Proof.
  unfold send_gprs_auth_frame, uart_write.
  assert (∀ n, evolves goes_on (auth_wait n)) as H.
  { induction n as [|n IH]; cbn [auth_wait]; unfold rt_thread_delay; goes_on.
    - apply goes_on_read.
    - apply goes_on_recv_gprs. }
  goes_on. apply H.
Qed.
End goes_on.

(** ** The two modes *)

Section modes.
Context {HB : Board} (fuel : nat).

(** A switch that succeeds leaves the modem in the new mode, a failed one in
    command mode. *)
Lemma mode_switch_spec m w r w' :
  gsm_mode_switch fuel m w = Done r w' →
  trace w `prefix_of` trace w' ∧ (r = 1 → gsm_mode w' = m) ∧ (r ≠ 1 → gsm_mode w' = GSM_MODE_CMD).
Proof.
  unfold gsm_mode_switch. intros E. apply mseq_Done in E as (mode & w0 & [= <- <-] & E).
  destruct (gsm_mode w) eqn:Hmode, m; try (injection E as <- <-; by split_and!).
  - apply mseq_Done in E as (online & w1 & E1 & E).
    apply goes_on_commands in E1 as [M1 P1]. destruct online.
    { apply mseq_Done in E as (_u & w2 & [= _ <-] & [= <- <-]). by split_and!. }
    apply mseq_Done in E as (ok & w2 & E2 & E). apply goes_on_commands in E2 as [M2 P2].
    assert (trace w `prefix_of` trace w2) as P by (by transitivity (trace w1)).
    destruct ok; [|injection E as <- <-; split_and!; [done|done|congruence]].
    apply mseq_Done in E as (_u & w3 & [= _ <-] & E).
    apply mseq_Done in E as (_u2 & w4 & [= _ <-] & E).
    apply mseq_Done in E as (_u3 & w5 & E5 & E). apply goes_on_auth in E5 as [M5 P5].
    apply mseq_Done in E as (_u4 & w6 & [= _ <-] & [= <- <-]). cbn in M5, P5.
    split_and!; [|done|done]. cbn [trace set_trace]. apply prefix_app_r.
    eapply transitivity; [exact P|]. eapply transitivity; [|exact P5]. by apply prefix_app_r.
  - apply mseq_Done in E as (r1 & w1 & E1 & E).
    apply mseq_Done in E1 as (r2 & w2 & E2 & [= <- <-]). apply goes_on_command in E2 as [M2 P2].
    destruct (fst r2 =? AT_NO_RESPONSE).
    + apply mseq_Done in E as (_u & w3 & E3 & E). apply goes_on_setup in E3 as [M3 P3].
      apply mseq_Done in E as (_u2 & w4 & [= _ <-] & [= <- <-]).
      split_and!; [by transitivity (trace w2)|done|done].
    + apply mseq_Done in E as (_u & w3 & [= _ <-] & [= <- <-]). by split_and!.
Qed.

Lemma response_wait_spec n request : ∀ w res a w',
  gprs_response_wait fuel n request w = Done (res, a) w' →
  trace w `prefix_of` trace w' ∧ (res = 1 ∨ res = -1) ∧
  (res = 1 → gsm_mode w' = gsm_mode w ∧
    ∃ response, a = GA_gprs response ∧ response ≠ [] ∧
      ∀ i, ¬ occurs_at response request i).
Proof.
  induction n as [|n IH]; intros w res a w' E; cbn [gprs_response_wait] in E.
  - injection E as <- <- <-. split_and!; [done|by right|done].
  - apply mseq_Done in E as (_u & w1 & [= _ <-] & E).
    apply mseq_Done in E as (response & w2 & E2 & E). apply goes_on_read in E2 as [M2 P2].
    assert (trace w `prefix_of` trace w2) as P.
    { eapply transitivity; [|exact P2]. by apply prefix_app_r. }
    destruct (Nat.eqb_spec (length response) 0) as [E0|E0].
    + destruct (IH _ _ _ _ E) as (P3 & R & H). split_and!; [by transitivity (trace w2)|done|].
      intros Hr. destruct (H Hr) as [M H']. split; [|done]. by rewrite M, M2.
    + destruct (occurs request closed || occurs request response) eqn:Ho.
      * apply mseq_Done in E as (_u2 & w3 & E3 & [= <- <- <-]).
        apply mode_switch_spec in E3 as (P3 & _). split_and!; [by transitivity (trace w2)|by right|done].
      * injection E as <- <- <-. split_and!; [done|by left|]. intros _. split; [done|].
        exists response. split; [done|]. split; [by intros ->|].
        apply orb_false_elim in Ho as [_ Ho]. unfold occurs in Ho.
        pose proof (memmem_correct' request response) as H. by destruct (memmem request response).
Qed.

(** C16 (safety). A frame counts as delivered only in data mode and after it was
    written to the uart; if an answer was expected, something was read that is
    no echo of the request.  Any other result is -1. *)
Theorem gprs_mail_in_data_mode request has_response w res a w' :
  serve_mail fuel (GM_gprs request has_response) w = Done (res, a) w' →
  (res = 1 ∨ res = -1) ∧
  (res = 1 → gsm_mode w' = GSM_MODE_GPRS ∧
    (∃ before after, trace w' = before ++ Ev_write DEV_GSM_USART request :: after ∧
      trace w `prefix_of` before) ∧
    (has_response = 1 → ∃ response, a = GA_gprs response ∧ response ≠ [] ∧
      ∀ i, ¬ occurs_at response request i)).
Proof.
  intros E. unfold serve_mail in E. apply mseq_Done in E as (r & w1 & E1 & E).
  apply mode_switch_spec in E1 as (P1 & M1 & _). destruct (Z.eqb_spec r 1) as [->|];
    [|injection E as <- <- <-; by split; [right|]].
  specialize (M1 eq_refl). apply mseq_Done in E as (_u & w2 & [= _ <-] & E).
  destruct (Z.eqb_spec has_response 1) as [Hr|Hr].
  - apply response_wait_spec in E as (P2 & R & H). split; [done|]. intros ->.
    destruct (H eq_refl) as [M H']. split; [by rewrite M|]. split; [|done].
    destruct P2 as [after P2]. exists (trace w1), after. rewrite P2. cbn [trace set_trace].
    by rewrite <- app_assoc.
  - injection E as <- <- <-. split; [by left|]. intros _. split; [done|].
    split; [|done]. by exists (trace w1), [].
Qed.

(** C38 (error). A modem that died in data mode: a command is answered with an
    error, the escape sequence was tried, and the modem, if its status line says
    that it is on, is switched off by the power key; its thread is back in
    command mode. *)
Theorem dead_modem_switched_off index delay cmd_data w :
  (0 < fuel)%nat → dev_present DEV_GSM_STATUS = true →
  gsm_mode w = GSM_MODE_GPRS → uart_quiet w → gsm_rx w = [] →
  ∃ w', serve_mail fuel (GM_cmd index delay cmd_data) w = Done (AT_RESPONSE_ERROR, GA_none) w' ∧
    gsm_mode w' = GSM_MODE_CMD ∧
    trace w' = trace w ++ [Ev_delay 150; Ev_write DEV_GSM_USART (bytes_of "+++"); Ev_delay 100] ++
      repeat (Ev_delay 20) 10 ++
      (if gsm_status_at (10 * 512 + now w) then key_press 200 400 else []).
Proof.
  intros Hf Hs Hm Hq Hr. unfold serve_mail. unfold mseq at 1.
  unfold gsm_mode_switch. unfold mseq at 1. unfold get at 1. cbn [send_mode]. rewrite Hm.
  set (w1 := set_trace (trace w ++ [Ev_delay 150; Ev_write DEV_GSM_USART (bytes_of "+++"); Ev_delay 100]) w).
  assert (command fuel PLUS3 100 w = Done AT_NO_RESPONSE (silence 10 w1)) as E1.
  { unfold command, gsm_command. unfold mseq at 1 2.
    change (write_command PLUS3 CD_none w) with (Done (@nil Z)
      (set_trace ((trace w ++ [Ev_delay 150]) ++ [Ev_write DEV_GSM_USART (bytes_of "+++")]) w)).
    cbn [incomplete]. unfold mseq at 1.
    match goal with |- context [rt_thread_delay 100 ?w2] =>
      assert (rt_thread_delay 100 w2 = Done () w1) as -> end.
    { unfold rt_thread_delay, emit, upd. f_equal. world_eq. cbn. by rewrite <- !app_assoc. }
    unfold mseq at 1. rewrite at_response_silent by done. reflexivity. }
  unfold mseq at 1. rewrite E1. cbn [Z.eqb AT_NO_RESPONSE].
  unfold mseq at 1. rewrite gsm_setup_run by done.
  change (now (silence 10 w1)) with (10 * 512 + now w)%nat.
  destruct (gsm_status_at (10 * 512 + now w)); cbn [Bool.eqb].
  - eexists. split; [reflexivity|]. split; [done|]. cbn. by rewrite <- !app_assoc.
  - eexists. split; [reflexivity|]. split; [done|]. cbn. by rewrite <- !app_assoc.
Qed.
End modes.

(** ** Concrete runs *)

Definition data_world : World := set_gsm_mode GSM_MODE_GPRS start_world.

Lemma gprs_mail_in_data_mode_witness :
  (1 = 1 ∨ 1 = -1) ∧
  (1 = 1 → gsm_mode (set_trace [Ev_write DEV_GSM_USART [1; 2]] data_world) = GSM_MODE_GPRS ∧
    (∃ before after, [Ev_write DEV_GSM_USART [1; 2]] =
        before ++ Ev_write DEV_GSM_USART [1; 2] :: after ∧ [] `prefix_of` before) ∧
    (0 = 1 → ∃ response, GA_none = GA_gprs response ∧ response ≠ [] ∧
      ∀ i, ¬ occurs_at response [1; 2] i)).
Proof.
  apply (gprs_mail_in_data_mode (HB:=quiet_board) 1 [1; 2] 0 data_world 1 GA_none
    (set_trace [Ev_write DEV_GSM_USART [1; 2]] data_world)).
  reflexivity.
Defined.

Lemma dead_modem_switched_off_witness :
  ∃ w', serve_mail (HB:=quiet_board) 1 (GM_cmd AT_CSQ 50 CD_none) data_world =
      Done (AT_RESPONSE_ERROR, GA_none) w' ∧
    gsm_mode w' = GSM_MODE_CMD ∧
    trace w' = [Ev_delay 150; Ev_write DEV_GSM_USART (bytes_of "+++"); Ev_delay 100] ++
      repeat (Ev_delay 20) 10 ++ key_press (HB:=quiet_board) 200 400.
Proof.
  apply (dead_modem_switched_off (HB:=quiet_board) 1 AT_CSQ 50 CD_none data_world).
  - lia.
  - reflexivity.
  - reflexivity.
  - done.
  - reflexivity.
Defined.
