(* ===== verification/Start.v ===== *)
(** * Start-up (src/application.c, photo_thread_init and the first lines of the threads)

    [power_cycle] is the state of the variables when the processor starts: the
    memory is initialised, only the clock, the files and the trace go on.
    [rt_application_init] runs before the scheduler; the rest is what every
    thread does before its loop.  Creating a kernel object succeeds, as in the
    rest of the model; mounting the file system is not modelled. *)
From stdpp Require Import base functions strings list.
From Stdlib Require Import ZArith Lia.
From S2P Require Import Prelude World Monad Untils Alarm Local Photo Infrared GsmService.
From S2P Require Import GprsRecv GprsAuth GprsPic GprsSend.

(** The variables with their initialisers; no queue exists. *)
Definition power_cycle (w : World) : World := {|
  now := now w;
  trace := trace w;
  params := device_parameters;
  config_file := config_file w;
  files := files w;
  alarm_mq := None;
  sms_mq := None;
  gprs_mq := None;
  local_mq := None;
  aip_mq := None;
  mms_mq := None;
  photo_start_mq := None;
  mq_gsm := None;
  machine_work_status := 0;
  gsm_rx := [];
  rfid_rx := [];
  camera_rx := [];
  com2_rx_indicate := false;
  usart_data_sem := 0;
  release_com2_data := 0;
  get_photo_fbuf_cmd := [0x56; 0x00; 0x32; 0x0C; 0x00; 0x0a; 0x00; 0x00; 0x00; 0x00;
                         0xff; 0xff; 0xff; 0xff; 0x00; 0x00];
  get_photo_len_cmd := [0x56; 0x00; 0x34; 0x01; 0x00];
  alarm_inform_event := 0;
  exti_time_old := λ _, 0;
  cm_ir_sem := 0;
  cm_ir_timer := false;
  cm_alarm_timer := false;
  cm_ir_time_value := 0;
  cm_alarm_cnt_time_value := 0;
  smsc := repeat 0 20;
  phone_call := repeat 0 20;
  gsm_mode := GSM_MODE_CMD;
  gprs_recv_frame := repeat 0 RECV_FRAME_SIZE;
  aip_bin_size := 0;
  mms_alarm_type := ALARM_TYPE_LOCK_SHELL;
  gprs_order := 0;
  work_alarm_type_map := repeat 0 50;
  fault_alarm_type_map := repeat 0 50;
  aip_bin_http_address := http_default;
  aip_bin_http_address_length := 0;
  gprs_mail_user := repeat 0 4;
  battery_status := 0;
  lock_gate_timer := None;
  lock_gate_timeout_counts := 0;
  battery_switch_timer := None;
  battery_switch_timeout_counts := 0;
  rfid_key_detect_timer := None
|}.

Section start.
Context {HB : Board}.

(** ** Before the scheduler *)

Definition new_queue {A} (n : nat) : option (Queue A) := Some (mkQueue [] n).

(** The timer of the LED is created but not started. *)
Definition rt_application_init : M () :=
  upd (set_alarm_mq (new_queue MAIL_MAX_MSGS)) ;;;
  upd (set_sms_mq (new_queue MAIL_MAX_MSGS)) ;;;
  upd (set_mms_mq (new_queue MAIL_MAX_MSGS)) ;;;
  upd (set_aip_mq (new_queue MAIL_MAX_MSGS)) ;;;
  upd (set_machine_work_status 0) ;;;
  machine_status_deal true 0 ;;;
  upd (set_gprs_mq (new_queue MAIL_MAX_MSGS)) ;;;
  gpio_pin_output DEV_LOGO_LED 1.

(** ** The threads before their loops *)

(** photo_thread_init, called by the init thread *)
Definition photo_thread_init : M () :=
  upd (set_usart_data_sem 0) ;;;
  upd (set_photo_start_mq (new_queue PHOTO_MAX_MSGS)) ;;;
  upd (set_cm_ir_sem 0) ;;;
  upd (set_alarm_inform_event 0) ;;;
  alarm_inform_send (Z.lor INFO_SEND_SMS INFO_SEND_MMS).

Definition local_thread_start : M () := upd (set_local_mq (new_queue MAIL_MAX_MSGS)).

(** The buffer of the GSM thread is a local variable. *)
Definition gsm_thread_start : M () :=
  frame <- uninit_bytes RECV_FRAME_SIZE ;;
  upd (set_gprs_recv_frame frame) ;;;
  upd (set_mq_gsm (new_queue MAIL_MAX_MSGS)).

(** The timers are created, stopped. *)
Definition camera_infrared_start : M IR :=
  upd (set_cm_ir_timer false) ;;;
  upd (set_cm_alarm_timer false) ;;;
  ir_pin_dat <- observe (λ t, u8 (uninit t)) ;;
  mreturn (mkIr ir_pin_dat 0 0).
End start.
