(* ===== verification/System.v ===== *)
(** * The lock as a whole: its threads, interrupts and timers

    Every thread goes through what it does before its loop ([Start]) and then
    through the rounds of its loop; interrupts and timers come in between.  A
    round is one step: the calls to the GSM thread are rounds of that thread
    ([gsm_service]), everything else a thread shares with the others goes
    through the queues, whose operations are atomic ([Mq]). *)
From stdpp Require Import base functions strings list.
From Stdlib Require Import ZArith Lia.
From S2P Require Import Prelude World Monad Untils Alarm Lock Battery GsmService Local.
From S2P Require Import Sensors Photo Infrared Sms GsmPower GprsRecv GprsAuth GprsPic GprsSend.
From S2P Require Import GsmAt Mms Aip Flash Gsm Start.

(** ** The threads *)

Inductive THREAD :=
| T_init | T_gsm | T_alarm | T_local | T_camera | T_aip | T_sms | T_gprs | T_mms | T_infrared
| T_battery.

#[export] Instance thread_eq_dec : EqDecision THREAD.
Proof. solve_decision. Defined.

(** How far the threads are, and their local variables that live on from round
    to round *)
Record LOCALS := mkLocals {
  sy_phase : THREAD → nat;       (* how often the thread ran *)
  sy_errors : Z;                 (* error_counts of the GPRS thread *)
  sy_photo : CAMERA;             (* photo of the camera thread *)
  sy_data : DATA_PTR;
  sy_ir : IR                     (* of the infrared thread *)
}.

Definition with_errors (e : Z) (s : LOCALS) : LOCALS :=
  mkLocals (sy_phase s) e (sy_photo s) (sy_data s) (sy_ir s).
Definition with_photo (p : CAMERA * DATA_PTR) (s : LOCALS) : LOCALS :=
  mkLocals (sy_phase s) (sy_errors s) p.1 p.2 (sy_ir s).
Definition with_ir (st : IR) (s : LOCALS) : LOCALS :=
  mkLocals (sy_phase s) (sy_errors s) (sy_photo s) (sy_data s) st.
Definition ran (t : THREAD) (s : LOCALS) : LOCALS :=
  mkLocals (λ t', if decide (t' = t) then S (sy_phase s t') else sy_phase s t') (sy_errors s)
    (sy_photo s) (sy_data s) (sy_ir s).

Inductive IRQ := EXTI0 | EXTI1 | EXTI9_5 | EXTI15_10.

#[export] Instance irq_eq_dec : EqDecision IRQ.
Proof. solve_decision. Defined.

(** A software timer of the local thread *)
Inductive LOCAL_TIMER := Tr_rfid_key_detect | Tr_battery_switch | Tr_lock_gate.

Inductive ACTION :=
| Act_thread (t : THREAD)
| Act_irq (i : IRQ) (pending : nat → bool)
| Act_timer (t : LOCAL_TIMER)
| Act_reset.                     (* the processor starts again *)

Section system.
Context {HB : Board} {HS : Sst25} (flash_complete : nat → bool).
(** The rounds of the loops without a bound, and what is in the local variables
    of the camera thread when it starts *)
Context (fuel : nat) (garbage : CAMERA) (Hm : motors_present).

#[local] Instance system_gsm : GsmService := gsm_service Hm fuel fuel.

Definition initial_locals : LOCALS := mkLocals (λ _, 0%nat) 0 garbage Dangling (mkIr 0 0 0).

(** What a thread does when it runs for the first time, the second time, ... *)
Definition thread_round (t : THREAD) (s : LOCALS) : M LOCALS :=
  match t, sy_phase s t with
  | T_init, O => photo_thread_init ;;; mreturn s
  | T_init, _ => mreturn s
  | T_gsm, O => gsm_thread_start ;;; mreturn s
  | T_gsm, 1%nat => gsm_start fuel fuel ;;; mreturn s
  | T_gsm, _ => gsm_process_step fuel ;;; mreturn s
  | T_alarm, _ => alarm_mail_process_step ;;; mreturn s
  | T_local, O => local_thread_start ;;; mreturn s
  | T_local, _ => local_mail_process_step ;;; mreturn s
  | T_camera, O => photo <- photo_thread_start (sy_photo s) ;; mreturn (with_photo (photo, sy_data s) s)
  | T_camera, _ => p <- photo_thread_step fuel (sy_photo s) (sy_data s) ;; mreturn (with_photo p s)
  | T_aip, _ => aip_mail_process_step flash_complete fuel ;;; mreturn s
  | T_sms, _ => sms_mail_process_step ;;; mreturn s
  | T_gprs, O => gprs_mail_process_init ;;; mreturn (with_errors 0 s)
  | T_gprs, _ => e <- gprs_mail_process_step fuel (sy_errors s) ;; mreturn (with_errors e s)
  | T_mms, _ => mms_mail_process_step fuel ;;; mreturn s
  | T_infrared, O => st <- camera_infrared_start ;; mreturn (with_ir st s)
  | T_infrared, _ => st <- camera_infrared_round fuel (sy_ir s) ;; mreturn (with_ir st s)
  | T_battery, _ => battery_check_step ;;; mreturn s
  end.

(** The init thread has the highest priority and waits for nothing, so that the
    others run after it. *)
Definition created (t : THREAD) (s : LOCALS) : bool :=
  match t with
  | T_init => true
  | _ => negb (sy_phase s T_init =? 0)%nat
  end.

Definition irq_handler (i : IRQ) : (nat → bool) → M () :=
  match i with
  | EXTI0 => EXTI0_IRQHandler
  | EXTI1 => EXTI1_IRQHandler
  | EXTI9_5 => EXTI9_5_IRQHandler
  | EXTI15_10 => EXTI15_10_IRQHandler
  end.

Definition timer_field (t : LOCAL_TIMER) : World → option bool :=
  match t with
  | Tr_rfid_key_detect => rfid_key_detect_timer
  | Tr_battery_switch => battery_switch_timer
  | Tr_lock_gate => lock_gate_timer
  end.

Definition timer_timeout (t : LOCAL_TIMER) : M () :=
  match t with
  | Tr_rfid_key_detect => rfid_key_detect_timeout
  | Tr_battery_switch => battery_switch_timeout
  | Tr_lock_gate => lock_gate_timeout
  end.

Definition action (a : ACTION) (s : LOCALS) : M LOCALS :=
  match a with
  | Act_thread t =>
      if created t s then s <- thread_round t s ;; mreturn (ran t s) else mreturn s
  | Act_irq i pending =>
      (* the semaphore [cm_ir_sem] is created by the init thread *)
      if bool_decide (i = EXTI1) && pending 1%nat && (sy_phase s T_init =? 0)%nat then fault
      else irq_handler i pending ;;; mreturn s
  | Act_timer t =>
      running <- get (timer_field t) ;;
      when (bool_decide (running = Some true)) (timer_timeout t) ;;;
      mreturn s
  | Act_reset => upd power_cycle ;;; rt_application_init ;;; mreturn initial_locals
  end.

Fixpoint actions (l : list ACTION) (s : LOCALS) : M LOCALS :=
  match l with
  | [] => mreturn s
  | a :: l => s <- action a s ;; actions l s
  end.

(** From switching on *)
Definition system (l : list ACTION) : M LOCALS := actions (Act_reset :: l) initial_locals.
End system.

(** ** Every step keeps the invariant *)

Section keeping.
Context {HB : Board} {HS : Sst25} (flash_complete : nat → bool).
Context (fuel : nat) (garbage : CAMERA) (Hm : motors_present).
#[local] Hint Extern 0 GsmService => exact (system_gsm fuel Hm) : typeclass_instances.

Lemma mq_recv_keeps {A} (field : World → option (Queue A)) store :
  (∀ q w, wf w → wf (store q w)) → keeps wf (rt_mq_recv field store) (λ _, True).
Proof. intros H. unfold rt_mq_recv. keeps_auto. apply runs_keeps, runs_upd. auto. Qed.

Lemma mq_send_keeps {A} (field : World → option (Queue A)) store (x : A) :
  (∀ q w, wf w → wf (store q w)) → keeps wf (rt_mq_send field store x) (λ _, True).
Proof. intros H. unfold rt_mq_send. keeps_auto. apply runs_keeps, runs_upd. auto. Qed.

#[local] Hint Extern 1 (keeps wf (rt_mq_recv _ _) _) => (apply mq_recv_keeps; intros ? ? []; by split) : keeps.
#[local] Hint Extern 1 (keeps wf (rt_mq_send _ _ _) _) => (apply mq_send_keeps; intros ? ? []; by split) : keeps.

Lemma alarm_step_keeps : keeps wf alarm_mail_process_step (λ _, True).
Proof. unfold alarm_mail_process_step. keeps_auto. Qed.

(** *** The local thread *)

Lemma lock_output_keeps d : keeps wf (lock_output d) (λ _, True).
Proof. apply runs_keeps. by eapply safe_weaken, lock_output_runs. Qed.

Lemma cmd_mail_keeps i d c : keeps wf (send_cmd_mail i d c) (λ _, True).
Proof. apply send_cmd_mail_keeps. Qed.

Lemma rfid_read_keeps n : keeps wf (rfid_uart_read n) (λ _, True).
Proof. apply runs_keeps. eapply safe_weaken, runs_rfid_read. Qed.

#[local] Hint Resolve lock_output_keeps cmd_mail_keeps rfid_read_keeps : keeps.

Lemma timer_start_keeps field store : (∀ b w, wf w → wf (store b w)) →
  keeps wf (rt_timer_start field store) (λ _, True).
Proof. intros H. unfold rt_timer_start. keeps_auto. apply runs_keeps, runs_upd. auto. Qed.

Lemma timer_stop_keeps field store : (∀ b w, wf w → wf (store b w)) →
  keeps wf (rt_timer_stop field store) (λ _, True).
Proof. intros H. unfold rt_timer_stop. keeps_auto. apply runs_keeps, runs_upd. auto. Qed.

Lemma timer_create_keeps field store : (∀ b w, wf w → wf (store b w)) →
  keeps wf (timer_create field store) (λ _, True).
Proof. intros H. unfold timer_create. keeps_auto. apply runs_keeps, runs_upd. auto. Qed.

#[local] Hint Extern 1 (keeps wf (rt_timer_start _ _) _) => (apply timer_start_keeps; intros ? ? []; by split) : keeps.
#[local] Hint Extern 1 (keeps wf (rt_timer_stop _ _) _) => (apply timer_stop_keeps; intros ? ? []; by split) : keeps.
#[local] Hint Extern 1 (keeps wf (timer_create _ _) _) => (apply timer_create_keeps; intros ? ? []; by split) : keeps.

Lemma device_read_keeps d : keeps wf (device_read d) (λ _, True).
Proof. apply runs_keeps. eapply safe_weaken, runs_pin_read. Qed.

#[local] Hint Resolve device_read_keeps : keeps.

(** A key that is found has the bytes of a registered one. *)
Lemma rfid_search_bytes p k : params_wf p → rfid_search (rfid_key p) k RFID_KEY_NUMBERS = true →
  Forall byte k.
Proof.
  intros Hp H. apply rfid_search_spec in H as (i & e & _ & Hl & _ & <-).
  destruct Hp as (_ & _ & [_ Hk] & _). eapply Forall_lookup_1 in Hk; [|exact Hl]. apply Hk.
Qed.

Lemma rfid_success_keeps k : Forall byte k → keeps wf (rfid_success k) (λ _, True).
Proof.
  intros Hk. unfold rfid_success. keeps_auto.
  apply runs_keeps, runs_upd. intros ? []. split; try done. by apply strncpy_bytes.
Qed.

Lemma rfid_loop_keeps n : ∀ e, keeps wf (rfid_loop n e) (λ _, True).
Proof.
  induction n as [|n IH]; intros e; cbn [rfid_loop]; [keeps_auto|]. unfold rfid_clear_cache.
  do 4 (apply keeps_then; [keeps_auto|intros ?]).
  eapply keeps_seq; [by apply keeps_params|intros p Hp]. cbv zeta. keeps_auto; auto.
  apply rfid_success_keeps. by eapply rfid_search_bytes.
Qed.

Lemma local_step_keeps : keeps wf local_mail_process_step (λ _, True).
Proof.
  unfold local_mail_process_step, local_process, gsm_ring_process, battery_switch_process,
    lock_gate_process, rfid_key_detect_process, rfid_failure.
  keeps_auto. apply rfid_loop_keeps.
Qed.

Lemma local_timer_keeps t : keeps wf (timer_timeout t) (λ _, True).
Proof.
  destruct t; cbn [timer_timeout];
    unfold rfid_key_detect_timeout, battery_switch_timeout, lock_gate_timeout; keeps_auto.
Qed.

(** *** Interrupts and the infrared thread *)

#[local] Hint Unfold interval_rx_ind lock_gate_rx_ind lock_shell_rx_ind gate_temperature_rx_ind
  lock_temperature_rx_ind battery_switch_rx_ind rfid_key_detect_rx_ind camera_irdasensor_rx_ind
  gsm_ring_rx_ind get_time_old set_time_old : keeps.

Lemma gpio_isr_keeps d : keeps wf (rt_hw_gpio_isr d) (λ _, True).
Proof.
  unfold rt_hw_gpio_isr, rx_indicate. keeps_auto; autounfold with keeps; keeps_auto.
Qed.

Lemma exti_lines_keeps pending lines : keeps wf (exti_lines lines pending) (λ _, True).
Proof.
  induction lines as [|[line d] lines IH]; cbn [exti_lines]; keeps_auto;
    apply gpio_isr_keeps.
Qed.

Lemma irq_keeps i pending : keeps wf (irq_handler i pending) (λ _, True).
Proof. destruct i; apply exti_lines_keeps. Qed.

Lemma timer_expire_keeps n running timeout :
  keeps wf timeout (λ _, True) → keeps wf (timer_expire n running timeout) (λ _, True).
Proof. intros H. induction n as [|n IH]; cbn [timer_expire]; keeps_auto; done. Qed.

Lemma camera_timers_keeps : keeps wf camera_timers (λ _, True).
Proof.
  unfold camera_timers. keeps_auto; apply timer_expire_keeps;
    unfold camera_infrared_timer, camera_alarm_time_interval; keeps_auto.
Qed.

#[local] Hint Resolve camera_timers_keeps : keeps.

Lemma ir_watch_keeps n : ∀ st, keeps wf (ir_watch n st) (λ _, True).
Proof.
  induction n as [|n IH]; intros st; cbn [ir_watch]; [keeps_auto|].
  unfold ir_stayed, ir_left, alarm_inform_recv. cbv zeta. keeps_auto; auto.
Qed.

Lemma infrared_keeps n st : keeps wf (camera_infrared_round n st) (λ _, True).
Proof. unfold camera_infrared_round, cm_ir_sem_take. keeps_auto. apply ir_watch_keeps. Qed.

(** *** The camera thread *)

Lemma camera_bytes_wf l : ∀ w, wf w → wf (foldl camera_byte w l).
Proof.
  induction l as [|b l IH]; intros w Hw; [done|]. cbn [foldl]. apply IH.
  unfold camera_byte, com2_photo_data_rx_indicate. repeat case_match; destruct Hw; by split.
Qed.

Lemma camera_arrive_keeps : keeps wf camera_arrive (λ _, True).
Proof.
  intros w a w' Hw [= <- <-]. split; [|done]. apply camera_bytes_wf. destruct Hw; by split.
Qed.

#[local] Hint Resolve camera_arrive_keeps : keeps.
#[local] Hint Unfold camera_write camera_read camera_delay usart_data_sem_take camera_read_data
  fbuf_put write_fbuf_cmd camera_power_control photo_reset frame_command photo_update_frame
  photo_stop_cur_frame photo_stop_next_frame photo_switch_frame photo_light_control
  com2_release_buffer photo_get_size photo_set_per_read_size : keeps.

Ltac camera_auto := autounfold with keeps; keeps_auto.

Lemma release_loop_keeps n : ∀ c, keeps wf (release_buffer_loop n c) (λ _, True).
Proof. induction n as [|n IH]; intros c; cbn [release_buffer_loop]; camera_auto; auto. Qed.

Lemma size_loop_keeps n : ∀ c, keeps wf (get_size_loop n c) (λ _, True).
Proof. induction n as [|n IH]; intros c; cbn [get_size_loop]; camera_auto; auto. Qed.

Lemma file_write_keeps f off l : keeps wf (file_write f off l) (λ _, True).
Proof. apply runs_keeps, file_write_runs. Qed.

Lemma file_read_keeps f off n : keeps wf (file_read f off n) (λ _, True).
Proof. apply runs_keeps. eapply safe_weaken, file_read_runs. Qed.

Lemma file_open_keeps f : keeps wf (file_open f) (λ _, True).
Proof. apply runs_keeps, file_open_runs. Qed.

Lemma file_create_keeps f : keeps wf (file_create f) (λ _, True).
Proof. apply runs_keeps, file_create_runs. Qed.

Lemma file_unlink_keeps f : keeps wf (file_unlink f) (λ _, True).
Proof. apply runs_keeps, file_unlink_runs. Qed.

Lemma file_stat_keeps f : keeps wf (file_stat f) (λ _, True).
Proof. apply runs_keeps, file_stat_runs. Qed.

#[local] Hint Resolve release_loop_keeps size_loop_keeps file_write_keeps file_read_keeps
  file_open_keeps file_create_keeps file_unlink_keeps file_stat_keeps : keeps.

Lemma data_deal_keeps fuel' : ∀ n id c, keeps wf (data_deal_loop fuel' n id c) (λ _, True).
Proof.
  induction fuel' as [|k IH]; intros n id c; cbn [data_deal_loop]; [keeps_auto|].
  unfold data_page, read_page, file_id_write. camera_auto; auto.
Qed.

#[local] Hint Resolve data_deal_keeps : keeps.

Lemma photo_write_keeps k f c : keeps wf (photo_write_file k f c) (λ _, True).
Proof. unfold photo_write_file, photo_data_deal. camera_auto. Qed.

#[local] Hint Resolve photo_write_keeps : keeps.

Lemma photo_one_keeps k f c : keeps wf (photo_create_file_one k f c) (λ _, True).
Proof. unfold photo_create_file_one. camera_auto. Qed.

Lemma photo_two_keeps k f g c : keeps wf (photo_create_file_two k f g c) (λ _, True).
Proof. unfold photo_create_file_two. camera_auto. Qed.

#[local] Hint Resolve photo_one_keeps photo_two_keeps : keeps.

Lemma photo_deal_keeps k c m : keeps wf (photo_deal k c m) (λ _, True).
Proof. unfold photo_deal, photo_report. camera_auto. Qed.

Lemma com_recv_keeps n : ∀ pos args mem, keeps wf (com_recv_loop n pos args mem) (λ _, True).
Proof. induction n as [|n IH]; intros pos args mem; cbn [com_recv_loop]; camera_auto; auto. Qed.

#[local] Hint Resolve photo_deal_keeps com_recv_keeps : keeps.

Lemma self_test_keeps n : ∀ e, keeps wf (self_test_loop n e) (λ _, True).
Proof.
  induction n as [|n IH]; intros e; cbn [self_test_loop]; unfold com_recv_data_analyze;
    camera_auto; auto.
Qed.

#[local] Hint Resolve self_test_keeps : keeps.

Lemma photo_step_keeps k c p : keeps wf (photo_thread_step k c p) (λ _, True).
Proof.
  unfold photo_thread_step, camera_module_self_test, com_recv_data_analyze, rt_free. camera_auto.
Qed.

(** *** MMS, download and update *)

Lemma expect_keeps steps : keeps wf (expect steps) (λ _, True).
Proof. induction steps as [|[[i d] e] steps IH]; cbn [expect]; keeps_auto; auto. Qed.

#[local] Hint Resolve expect_keeps : keeps.

Lemma mms_picture_keeps k f : ∀ off n, keeps wf (mms_picture_loop k f off n) (λ _, True).
Proof. induction k as [|k IH]; intros off n; cbn [mms_picture_loop]; keeps_auto; auto. Qed.

Lemma mms_telephones_keeps k : ∀ n, keeps wf (mms_telephones k n) (λ _, True).
Proof. induction k as [|k IH]; intros n; cbn [mms_telephones]; keeps_auto; auto. Qed.

#[local] Hint Resolve mms_picture_keeps mms_telephones_keeps : keeps.

Lemma mms_step_keeps k : keeps wf (mms_mail_process_step k) (λ _, True).
Proof. unfold mms_mail_process_step, send_mms, mms_reset. keeps_auto. Qed.

Lemma http_read_keeps start : keeps wf (http_read start) (λ _, True).
Proof.
  unfold http_read. apply keeps_then; [|intros; by apply keeps_return].
  eapply keeps_consequence; [apply gsm_transact_keeps|done].
Qed.

#[local] Hint Resolve http_read_keeps : keeps.

Lemma aip_read_keeps k : ∀ off n start, keeps wf (aip_read_loop k off n start) (λ _, True).
Proof. induction k as [|k IH]; intros off n start; cbn [aip_read_loop]; keeps_auto; auto. Qed.

#[local] Hint Resolve aip_read_keeps : keeps.

Lemma aip_rescan_keeps k : ∀ off start end_ b, keeps wf (aip_rescan k off start end_ b) (λ _, True).
Proof.
  induction k as [|k IH]; intros off start end_ b; cbn [aip_rescan]; cbv zeta; keeps_auto; auto.
Qed.

#[local] Hint Resolve aip_rescan_keeps : keeps.

Lemma wip_keeps k : keeps wf (wip k) (λ _, True).
Proof. induction k as [|k IH]; cbn [wip]; unfold rdsr; keeps_auto. Qed.

#[local] Hint Resolve wip_keeps : keeps.

Lemma w_block_loop_keeps k : ∀ i buf n, keeps wf (w_block_loop k i buf n) (λ _, True).
Proof. induction k as [|k IH]; intros i buf n; cbn [w_block_loop]; unfold spi_write; keeps_auto; auto. Qed.

#[local] Hint Resolve w_block_loop_keeps : keeps.

Lemma w_block_keeps k a buf n : keeps wf (SST25_W_BLOCK k a buf n) (λ _, True).
Proof. unfold SST25_W_BLOCK, sect_clr, wsr, wdis, wen, spi_write. keeps_auto. Qed.

#[local] Hint Resolve w_block_keeps : keeps.

Lemma flash_pages_keeps k n : ∀ f off a buf, keeps wf (flash_pages k n f off a buf) (λ _, True).
Proof. induction n as [|n IH]; intros f off a buf; cbn [flash_pages]; cbv zeta; keeps_auto; auto. Qed.

#[local] Hint Resolve flash_pages_keeps : keeps.

Lemma erase_loop_keeps n : ∀ i c, keeps wf (erase_loop flash_complete n i c) (λ _, True).
Proof. induction n as [|n IH]; intros i c; cbn [erase_loop]; unfold FLASH_ErasePage; keeps_auto; auto. Qed.

Lemma program_loop_keeps n : ∀ a b c, keeps wf (program_loop flash_complete n a b c) (λ _, True).
Proof.
  induction n as [|n IH]; intros a b c; cbn [program_loop]; unfold FLASH_ProgramWord, SST25_R_BLOCK;
    keeps_auto; auto.
Qed.

#[local] Hint Resolve erase_loop_keeps program_loop_keeps : keeps.

Lemma aip_step_keeps k : keeps wf (aip_mail_process_step flash_complete k) (λ _, True).
Proof.
  unfold aip_mail_process_step, get_aip, file_write_flash_addr, firm_update. keeps_auto.
Qed.

(** *** Start-up *)

Lemma map_store_bytes n a bits l : byte bits → bytes_len n l → bytes_len n (map_store a bits l).
Proof.
  intros Hb [Hl Hf]. unfold map_store. split; [by rewrite length_insert|]. by apply Forall_insert.
Qed.

Lemma work_map_wf w : wf w → wf (set_work_alarm_type_map
  (map_store ALARM_TYPE_LOCK_GATE WORK_ALARM_LOCK_GATE
  (map_store ALARM_TYPE_RFID_KEY_PLUGIN WORK_ALARM_RFID_KEY_PLUGIN
  (map_store ALARM_TYPE_LOCK_TEMPERATURE WORK_ALARM_LOCK_TEMPERATURE
  (map_store ALARM_TYPE_RFID_KEY_ERROR WORK_ALARM_RFID_KEY_ERROR
  (map_store ALARM_TYPE_CAMERA_IRDASENSOR WORK_ALARM_CAMERA_IRDASENSOR
  (map_store ALARM_TYPE_LOCK_SHELL WORK_ALARM_LOCK_SHELL (work_alarm_type_map w))))))) w).
Proof.
  intros []. split; try done. cbn [work_alarm_type_map set_work_alarm_type_map].
  by repeat (apply map_store_bytes; [by_computation|]).
Qed.

Lemma fault_map_wf w : wf w → wf (set_fault_alarm_type_map
  (map_store ALARM_TYPE_MOTOR_FAULT FAULT_ALARM_MOTOR_FAULT
  (map_store ALARM_TYPE_POWER_FAULT FAULT_ALARM_POWER_FAULT
  (map_store ALARM_TYPE_RFID_FAULT FAULT_ALARM_RFID_FAULT
  (map_store ALARM_TYPE_CAMERA_FAULT FAULT_ALARM_CAMERA_FAULT
    (fault_alarm_type_map w))))) w).
Proof.
  intros []. split; try done. cbn [fault_alarm_type_map set_fault_alarm_type_map].
  by repeat (apply map_store_bytes; [by_computation|]).
Qed.

Lemma gprs_init_keeps : keeps wf gprs_mail_process_init (λ _, True).
Proof.
  unfold gprs_mail_process_init, work_alarm_type_map_init, fault_alarm_type_map_init.
  apply keeps_then; [apply runs_keeps, create_k1_runs|intros _].
  apply keeps_then; [apply runs_keeps, runs_upd, work_map_wf|intros _].
  apply runs_keeps, runs_upd, fault_map_wf.
Qed.

Lemma gsm_thread_start_keeps : keeps wf gsm_thread_start (λ _, True).
Proof.
  unfold gsm_thread_start. eapply keeps_seq; [apply keeps_uninit|intros frame Hf].
  apply keeps_then; [|intros _; keeps_auto]. apply runs_keeps, runs_upd. intros ? []. by split.
Qed.

(** Nothing but the file is left from before. *)
Lemma power_cycle_wf w : (∀ p, config_file w = Some p → params_wf p) → wf (power_cycle w).
Proof.
  intros Hf. split; try done; [apply device_parameters_wf|by_computation..| | |by_computation];
    (split; [done|by exists []]).
Qed.

Lemma application_init_keeps : keeps wf rt_application_init (λ _, True).
Proof. unfold rt_application_init, machine_status_deal. keeps_auto. Qed.

(** *** The whole *)

Lemma gsm_round_keeps : keeps wf (gsm_process_step fuel) (λ _, True).
Proof. eapply keeps_consequence; [apply (keeps_step Hm)|done]. Qed.

Lemma gsm_start_keeps : keeps wf (gsm_start fuel fuel) (λ _, True).
Proof. apply keeps_start. Qed.

Lemma photo_start_keeps c : keeps wf (photo_thread_start c) (λ _, True).
Proof. unfold photo_thread_start, camera_power_control, camera_write. keeps_auto. Qed.

Lemma infrared_start_keeps : keeps wf camera_infrared_start (λ _, True).
Proof. unfold camera_infrared_start. keeps_auto. Qed.

Lemma sms_round_keeps : keeps wf sms_mail_process_step (λ _, True).
Proof. apply sms_step_keeps. Qed.

Lemma photo_init_keeps : keeps wf photo_thread_init (λ _, True).
Proof. unfold photo_thread_init, alarm_inform_send. keeps_auto. Qed.

Lemma local_start_keeps : keeps wf local_thread_start (λ _, True).
Proof. unfold local_thread_start. keeps_auto. Qed.

#[local] Hint Resolve gsm_round_keeps gsm_start_keeps photo_start_keeps infrared_start_keeps
  sms_round_keeps photo_init_keeps local_start_keeps gsm_thread_start_keeps gprs_init_keeps
  alarm_step_keeps local_step_keeps photo_step_keeps aip_step_keeps mms_step_keeps infrared_keeps
  irq_keeps local_timer_keeps : keeps.

Definition locals_ok (s : LOCALS) : Prop := 0 <= sy_errors s <= 10.

Lemma thread_round_keeps t s : locals_ok s →
  keeps wf (thread_round flash_complete fuel Hm t s) locals_ok.
Proof.
  intros Hs. unfold thread_round. destruct t; try solve [keeps_auto].
  case_match; [by keeps_auto|].
  eapply keeps_seq; [by apply gprs_step_keeps|intros e He; by apply keeps_return].
Qed.

Lemma action_keeps a s : locals_ok s → keeps wf (action flash_complete fuel garbage Hm a s) locals_ok.
Proof.
  intros Hs. destruct a as [t|i pending|t|]; cbn [action].
  - apply keeps_if; intros _; [|by apply keeps_return].
    eapply keeps_seq; [by apply thread_round_keeps|intros s' Hs'; by apply keeps_return].
  - keeps_auto.
  - keeps_auto.
  - apply keeps_then; [|intros _].
    + apply runs_keeps, runs_upd. intros w Hw. apply power_cycle_wf, (wf_file _ Hw).
    + apply keeps_then; [apply application_init_keeps|intros _]. by apply keeps_return.
Qed.

Lemma actions_keep l : ∀ s, locals_ok s →
  keeps wf (actions flash_complete fuel garbage Hm l s) locals_ok.
Proof.
  induction l as [|a l IH]; intros s Hs; cbn [actions]; [by apply keeps_return|].
  eapply keeps_seq; [by apply action_keeps|exact IH].
Qed.

(** C4 (invariant). From switching on, with a configuration file that is
    empty or was written by the lock, in whatever order threads, interrupts and
    timers come, as often as the processor is reset, and whatever the modem, the
    server, the camera and the sensors do: as long as nothing undefined happens
    the parameters in memory and in the file stay well formed, the strings
    terminated and the buffers of their size, and the GPRS thread has at most
    ten failures in a row on its account. *)
Theorem system_keeps_wf l w s w' :
  (∀ p, config_file w = Some p → params_wf p) →
  system flash_complete fuel garbage Hm l w = Done s w' → wf w' ∧ 0 <= sy_errors s <= 10.
Proof.
  intros Hf E. unfold system in E. cbn [actions action] in E.
  rewrite mseq_assoc, upd_run in E.
  assert (keeps wf (s <- (rt_application_init ;;; mreturn (initial_locals garbage)) ;;
    actions flash_complete fuel garbage Hm l s) locals_ok) as Hk.
  { eapply (keeps_seq _ _ locals_ok); [|intros; by apply actions_keep].
    apply keeps_then; [apply application_init_keeps|intros _]. by apply keeps_return. }
  exact (Hk _ _ _ (power_cycle_wf w Hf) E).
Qed.
End keeping.

(** ** Concrete runs *)

Definition bench_camera : CAMERA := mkCamera 0 0 0 0 0 0 (repeat 0 CM_BUFFER_LEN).

Lemma quiet_motors : motors_present (HB:=quiet_board).
Proof. by split_and!. Qed.

Abbreviation bench_system :=
  (system (HB:=quiet_board) (HS:=bench_chip) (λ _, true) 3 bench_camera quiet_motors).

(** An edge at the shell after the start, up to the round of the local thread *)
Definition shell_run : list ACTION :=
  [Act_thread T_init; Act_thread T_gsm; Act_thread T_local; Act_thread T_gprs; Act_thread T_infrared;
   Act_irq EXTI15_10 (λ l, l =? 11)%nat; Act_thread T_alarm; Act_thread T_local;
   Act_thread T_infrared; Act_timer Tr_lock_gate; Act_thread T_mms].

Definition ended (o : outcome LOCALS) : LOCALS * World :=
  match o with Done s w => (s, w) | _ => (initial_locals bench_camera, start_world) end.

Lemma system_keeps_wf_witness :
  let '(s, w') := ended (bench_system shell_run start_world) in
  wf w' ∧ 0 <= sy_errors s <= 10.
Proof.
  destruct (ended (bench_system shell_run start_world)) as [s w'] eqn:E.
  apply (system_keeps_wf (HB:=quiet_board) (HS:=bench_chip) (λ _, true) 3 bench_camera quiet_motors
    shell_run start_world).
  - done.
  - destruct (bench_system shell_run start_world) as [s0 w0| |] eqn:E0.
    + injection E as <- <-. reflexivity.
    + exfalso. revert E0. vm_compute. discriminate.
    + exfalso. revert E0. vm_compute. discriminate.
Defined.
