(* ===== verification/Boot.v ===== *)
(** * Start-up of the whole lock (src/application.c, src/photo.c, src/alarm.c)

    What is there when the threads have run for the first time, in any order,
    and what an alarm does that comes before the local thread is ready. *)
From stdpp Require Import base functions strings list.
From Stdlib Require Import ZArith Lia.
From S2P Require Import Prelude World Monad Untils Alarm Lock Battery GsmService Local.
From S2P Require Import Sensors Photo Infrared Sms GsmPower GprsRecv GprsAuth GprsPic GprsSend.
From S2P Require Import GsmAt Mms Aip Flash Gsm Start.
From S2P Require Import System.

(** ** The first rounds *)

Section booting.
Context {HB : Board} {HS : Sst25} (flash_complete : nat → bool).
Context (fuel : nat) (garbage : CAMERA) (Hm : motors_present).
#[local] Hint Extern 0 GsmService => exact (system_gsm fuel Hm) : typeclass_instances.

(** After [rt_application_init]: which of the other queues exist *)
Record booted (camera gsm local : bool) (saved : option DEVICE_PARAMETERS) (w : World) : Prop := {
  bt_alarm : alarm_mq w = new_queue MAIL_MAX_MSGS;
  bt_sms : sms_mq w = new_queue MAIL_MAX_MSGS;
  bt_gprs : gprs_mq w = new_queue MAIL_MAX_MSGS;
  bt_aip : aip_mq w = new_queue MAIL_MAX_MSGS;
  bt_mms : mms_mq w = new_queue MAIL_MAX_MSGS;
  bt_camera : photo_start_mq w = if camera then new_queue PHOTO_MAX_MSGS else None;
  bt_gsm : mq_gsm w = if gsm then new_queue MAIL_MAX_MSGS else None;
  bt_local : local_mq w = if local then new_queue MAIL_MAX_MSGS else None;
  bt_awake : machine_work_status w = MACHINE_ON_WORK;
  bt_edges d : exti_time_old w d = 0;
  bt_params : with_key1 [] (params w) = with_key1 [] device_parameters;
  bt_saved : config_file w = saved
}.

#[local] Instance booted_invariant c g l saved : Invariant (booted c g l saved).
Proof. split; intros x w []; by split. Qed.

Lemma application_init_boots w : ∃ w', (upd power_cycle ;;; rt_application_init) w = Done () w' ∧
  booted false false false (config_file w) w'.
Proof.
  unfold rt_application_init, machine_status_deal, gpio_pin_output. rewrite upd_run.
  destruct (dev_present DEV_LOGO_LED); eexists; (split; [reflexivity|]); by split.
Qed.

Lemma photo_init_boots c g l saved : triple (booted c g l saved) photo_thread_init
  (λ _, booted true g l saved).
Proof.
  intros w []. unfold photo_thread_init, alarm_inform_send. eexists _, _. split; [reflexivity|].
  by split.
Qed.

Lemma uninit_runs I `{!Invariant I} n : safe I (uninit_bytes n).
Proof.
  induction n as [|n IH]; cbn [uninit_bytes]; [by apply runs_return|].
  apply runs_then; [by apply runs_observe|intros x]. apply runs_then; [exact IH|intros ?].
  by apply runs_return.
Qed.

Lemma gsm_start_boots c g l saved : triple (booted c g l saved) gsm_thread_start
  (λ _, booted c true l saved).
Proof.
  intros w Hw. unfold gsm_thread_start.
  destruct (uninit_runs (booted c g l saved) RECV_FRAME_SIZE w Hw) as (frame & w1 & E & [] & _).
  rewrite (mseq_run _ _ _ _ _ E). eexists _, _. split; [reflexivity|]. by split.
Qed.

Lemma local_start_boots c g l saved : triple (booted c g l saved) local_thread_start
  (λ _, booted c g true saved).
Proof. intros w []. eexists _, _. split; [reflexivity|]. by split. Qed.

(** A thread that finds its queue empty *)
Lemma empty_recv {A} (field : World → option (Queue A)) store w n :
  field w = new_queue n → rt_mq_recv field store w = Done None w.
Proof. intros H. unfold rt_mq_recv, mseq, get. by rewrite H. Qed.

Lemma alarm_waits c g l saved : safe (booted c g l saved) alarm_mail_process_step.
Proof.
  intros w Hw. unfold alarm_mail_process_step.
  rewrite (mseq_run _ _ _ _ _ (empty_recv _ _ _ _ (bt_alarm _ _ _ _ _ Hw))).
  eexists _, _. split; [|done]. unfold machine_status_deal, mseq, get. by rewrite (bt_awake _ _ _ _ _ Hw).
Qed.

Lemma aip_waits c g l saved : safe (booted c g l saved) (aip_mail_process_step flash_complete fuel).
Proof.
  intros w Hw. unfold aip_mail_process_step.
  rewrite (mseq_run _ _ _ _ _ (empty_recv _ _ _ _ (bt_aip _ _ _ _ _ Hw))). by exists (), w.
Qed.

Lemma sms_waits c g l saved : safe (booted c g l saved) sms_mail_process_step.
Proof.
  intros w Hw. unfold sms_mail_process_step.
  rewrite (mseq_run _ _ _ _ _ (empty_recv _ _ _ _ (bt_sms _ _ _ _ _ Hw))). by exists (), w.
Qed.

Lemma mms_waits c g l saved : safe (booted c g l saved) (mms_mail_process_step fuel).
Proof.
  intros w Hw. unfold mms_mail_process_step.
  rewrite (mseq_run _ _ _ _ _ (empty_recv _ _ _ _ (bt_mms _ _ _ _ _ Hw))). by exists (), w.
Qed.

Lemma gprs_init_boots c g l saved : safe (booted c g l saved) gprs_mail_process_init.
Proof.
  intros w Hw. unfold gprs_mail_process_init.
  destruct (create_k1_loop_run 8 0 w) as (k & t & tr & E).
  rewrite (mseq_run _ _ _ _ _ (E : create_k1 w = _)).
  eexists _, _. split; [reflexivity|]. split; [|done]. destruct Hw. by split.
Qed.

Lemma camera_start_boots c g l saved photo : camera_has DEV_CAMERA_POWER = true →
  safe (booted c g l saved) (photo_thread_start photo).
Proof.
  intros Hc. unfold photo_thread_start, camera_power_control, camera_write. rewrite Hc. runs_auto.
Qed.

Lemma infrared_start_boots c g l saved : safe (booted c g l saved) camera_infrared_start.
Proof.
  unfold camera_infrared_start.
  do 2 (apply runs_then; [apply runs_upd; intros ? []; by split|intros _]).
  apply runs_then; [by apply runs_observe|intros ?]. by apply runs_return.
Qed.

(** The lock does not run on its battery, or the battery is above half. *)
Definition powered : Prop :=
  (dev_present DEV_BATTERY_SWITCH = true ∧
   ∀ t, u8 (pin_level DEV_BATTERY_SWITCH t) ≠ POWER_BATTERY) ∨
  (dev_present DEV_BATTERY_ADC = true ∧
   ∀ t, SAMPLE_VALUE_BATTERY_REMAIN_50P <= u16 (adc_value t)).

Lemma sample_boots c g l saved n : dev_present DEV_BATTERY_ADC = true →
  (∀ t, SAMPLE_VALUE_BATTERY_REMAIN_50P <= u16 (adc_value t)) →
  ∀ v, 0 <= v → v + Z.of_nat n * 65535 < 2 ^ 32 →
  runs (booted c g l saved) (battery_sample n v)
    (λ a, v + Z.of_nat n * SAMPLE_VALUE_BATTERY_REMAIN_50P <= a).
Proof.
  intros Hd Ha. induction n as [|n IH]; intros v Hv Hn; cbn [battery_sample].
  { apply runs_return. lia. }
  apply runs_then; [apply runs_emit|intros _]. unfold bat_get_value. rewrite Hd.
  apply (runs_seq _ _ (λ x, SAMPLE_VALUE_BATTERY_REMAIN_50P <= x < 65536)).
  { apply runs_observe. intros t. split; [apply Ha|]. by apply (wrap_fits 16). }
  unfold SAMPLE_VALUE_BATTERY_REMAIN_50P in *. intros x Hx. rewrite wrap_small by (unfold fits; lia).
  eapply runs_consequence; [apply IH; lia|]. intros a Hle. cbv beta in Hle. lia.
Qed.

Lemma battery_waits c g l saved : powered → safe (booted c g l saved) battery_check_step.
Proof.
  intros Hp. unfold battery_check_step, gpio_pin_input.
  apply (runs_seq _ _ (λ d, d = POWER_BATTERY → dev_present DEV_BATTERY_ADC = true ∧
    ∀ t, SAMPLE_VALUE_BATTERY_REMAIN_50P <= u16 (adc_value t))).
  { destruct Hp as [[-> Hp]|Hp].
    - apply runs_observe. intros t Ht. by destruct (Hp t).
    - case_match; by apply runs_observe. }
  intros d Hd. apply runs_then; [|intros _; apply runs_emit].
  apply runs_when. intros ->%Z.eqb_eq. destruct (Hd eq_refl) as [Hadc Ha].
  apply runs_then; [apply runs_when; intros _; apply runs_emit|intros _].
  eapply runs_seq; [by apply (sample_boots c g l saved SAMPLE_COUNTS)|].
  intros sum Hsum. apply runs_then; [apply runs_when; intros _; apply runs_emit|intros _].
  assert (SAMPLE_VALUE_BATTERY_REMAIN_50P <= sum / Z.of_nat SAMPLE_COUNTS) as Hv.
  { apply Z.div_le_lower_bound; [done|]. unfold SAMPLE_COUNTS in *. lia. }
  unfold battery_report, SAMPLE_VALUE_BATTERY_REMAIN_5P, SAMPLE_VALUE_BATTERY_REMAIN_20P,
    SAMPLE_VALUE_BATTERY_REMAIN_50P in *.
  rewrite !(proj2 (Z.ltb_ge _ _)) by lia.
  do 2 (apply runs_then; [apply runs_upd; intros ? []; by split|intros _]).
  apply runs_upd; intros ? []; by split.
Qed.

(** *** The first rounds, in any order *)

Lemma safe_triple {A} I (m : M A) : safe I m → triple I m (λ _, I).
Proof. intros H w Hw. destruct (H w Hw) as (a & w' & ? & ? & _). eauto. Qed.

(** The queues that exist when thread [t] has run for the first time *)
Definition boots (t : THREAD) (q : bool * bool * bool) : bool * bool * bool :=
  let '(c, g, l) := q in
  match t with
  | T_init => (true, g, l)
  | T_gsm => (c, true, l)
  | T_local => (c, g, true)
  | _ => q
  end.

Definition booted_with (q : bool * bool * bool) : option DEVICE_PARAMETERS → World → Prop :=
  let '(c, g, l) := q in booted c g l.

Lemma first_round_boots t s q saved : camera_has DEV_CAMERA_POWER = true → (t = T_battery → powered) →
  sy_phase s t = 0%nat →
  triple (booted_with q saved) (thread_round flash_complete fuel Hm t s)
    (λ s' w, sy_phase s' = sy_phase s ∧ booted_with (boots t q) saved w).
Proof.
  intros Hc Hb H. destruct q as [[c g] l].
  assert (∀ {A} (m : M A) f Q, triple (booted c g l saved) m (λ _, Q) →
    (∀ a, sy_phase (f a) = sy_phase s) →
    triple (booted c g l saved) (a <- m ;; mreturn (f a)) (λ s' w, sy_phase s' = sy_phase s ∧ Q w)) as Hthen.
  { intros A m f Q Hm' Hf. eapply triple_seq; [exact Hm'|]. intros a. apply triple_return. auto. }
  destruct t; cbn [thread_round booted_with boots]; rewrite ?H; try (apply Hthen; [|done]);
    [apply photo_init_boots|apply gsm_start_boots|apply safe_triple, alarm_waits|apply local_start_boots
    |by apply safe_triple, camera_start_boots|apply safe_triple, aip_waits|apply safe_triple, sms_waits
    |apply safe_triple, gprs_init_boots|apply safe_triple, mms_waits|apply safe_triple, infrared_start_boots
    |by apply safe_triple, battery_waits, Hb].
Qed.

Lemma first_rounds_boot ts : ∀ s q saved, camera_has DEV_CAMERA_POWER = true → NoDup ts →
  (T_battery ∈ ts → powered) → (∀ t, t ∈ ts → sy_phase s t = 0%nat) → sy_phase s T_init ≠ 0%nat →
  triple (booted_with q saved) (actions flash_complete fuel garbage Hm (map Act_thread ts) s)
    (λ s' w, booted_with (foldl (λ q t, boots t q) q ts) saved w ∧ created T_alarm s' = true).
Proof.
  induction ts as [|t ts IH]; intros s q saved Hc Hnd Hb Hs Hi; cbn [map actions foldl].
  { apply triple_return. intros w Hw. split; [done|]. cbn. by destruct (sy_phase s T_init). }
  apply NoDup_cons in Hnd as [Hnt Hnd].
  assert (created t s = true) as Hcr.
  { destruct t; try done; cbn; by destruct (sy_phase s T_init). }
  cbn [action]. rewrite Hcr. intros w Hw.
  destruct (first_round_boots t s q saved Hc ltac:(intros ->; apply Hb; by left)
    (Hs t (list_elem_of_here _ _)) w Hw)
    as (s1 & w1 & E & Hph & Hw1).
  rewrite mseq_assoc, (mseq_run _ _ _ _ _ E), mseq_return_l.
  apply (IH (ran t s1)); [done|done|intros ?; apply Hb; by right| | |done]; cbn [sy_phase ran]; rewrite Hph.
  - intros t' Ht'. rewrite decide_False by (by intros ->). apply Hs. by right.
  - by case_decide.
Qed.

Lemma foldl_boots ts : ∀ c g l, foldl (λ q t, boots t q) (c, g, l) ts =
  (c || bool_decide (T_init ∈ ts), g || bool_decide (T_gsm ∈ ts), l || bool_decide (T_local ∈ ts)).
Proof.
  induction ts as [|t ts IH]; intros c g l; cbn [foldl].
  - by rewrite !orb_false_r.
  - assert (∀ t', bool_decide (t' ∈ t :: ts) = bool_decide (t' = t) || bool_decide (t' ∈ ts)) as Hin.
    { intros t'. rewrite <- bool_decide_or. apply bool_decide_ext. by rewrite elem_of_cons. }
    rewrite !Hin. destruct t; cbn [boots]; rewrite IH;
      repeat match goal with |- context [bool_decide (?x = ?y :> THREAD)] =>
        let v := eval vm_compute in (bool_decide (x = y)) in change (bool_decide (x = y)) with v end;
      by rewrite ?orb_true_r, ?orb_false_l.
Qed.

(** The threads [ts] have run once after the init thread. *)
Lemma threads_started ts w : camera_has DEV_CAMERA_POWER = true → NoDup (T_init :: ts) →
  (T_battery ∈ ts → powered) → ∃ s w',
    system flash_complete fuel garbage Hm (map Act_thread (T_init :: ts)) w = Done s w' ∧
    booted true (bool_decide (T_gsm ∈ ts)) (bool_decide (T_local ∈ ts)) (config_file w) w' ∧
    created T_alarm s = true.
Proof.
  intros Hc Hnd Hb. destruct (application_init_boots w) as (w0 & E0 & H0).
  rewrite upd_run in E0. unfold system. cbn [actions action].
  rewrite mseq_assoc, upd_run, mseq_assoc, (mseq_run _ _ _ _ _ E0), mseq_return_l.
  cbn [map actions action created].
  destruct (first_round_boots T_init (initial_locals garbage) (false, false, false) (config_file w)
    Hc ltac:(done) eq_refl w0 H0) as (s1 & w1 & E1 & Hph & H1).
  rewrite mseq_assoc, (mseq_run _ _ _ _ _ E1), mseq_return_l.
  apply NoDup_cons in Hnd as [Hni Hnd].
  destruct (first_rounds_boot ts (ran T_init s1) (true, false, false) (config_file w) Hc Hnd Hb)
    with (w := w1) as (s2 & w2 & E2 & H2 & Hcr); [| |done|].
  { intros t Ht. cbn [sy_phase ran]. rewrite Hph. by rewrite decide_False by (by intros ->). }
  { cbn [sy_phase ran]. by rewrite decide_True. }
  exists s2, w2. split; [exact E2|]. split; [|done]. by rewrite foldl_boots in H2.
Qed.

(** C27 (liveness). Whatever was in the memory, and whatever is saved in the
    configuration file, the processor starts: the init thread runs first, and
    then any of the other threads run once, in any order, those of the modem
    and of the local alarms among them, and that of the battery only if the
    lock is not on its battery or the battery is above half (a lower battery
    posts its alarms at once).  In the end every queue is there and empty and
    the lock is awake; the parameters are those of the program but for the
    session key: the saved settings are still in the file, and nobody has
    read them. *)
Theorem start_up_ready ts w : camera_has DEV_CAMERA_POWER = true → NoDup (T_init :: ts) →
  (T_battery ∈ ts → powered) → T_gsm ∈ ts → T_local ∈ ts →
  ∃ s w', system flash_complete fuel garbage Hm (map Act_thread (T_init :: ts)) w = Done s w' ∧
    booted true true true (config_file w) w' ∧
    process_gprs_list_telephone (params w') = process_gprs_list_telephone device_parameters ∧
    process_gprs_list_rfid_key (params w') = process_gprs_list_rfid_key device_parameters.
Proof.
  intros Hc Hnd Hb Hg Hl. destruct (threads_started ts w Hc Hnd Hb) as (s & w' & E & H & _).
  rewrite !bool_decide_true in H by done. exists s, w'. split; [done|]. split; [done|].
  pose proof (bt_params _ _ _ _ _ H) as Hp.
  unfold process_gprs_list_telephone, process_gprs_list_rfid_key.
  by injection Hp as -> _ -> _ _ _ _.
Qed.

(** *** An alarm that comes too early *)

(** Without the queue of the local thread *)
Definition no_local (w : World) : Prop :=
  local_mq w = None ∧ is_Some (sms_mq w) ∧ is_Some (gprs_mq w).

Lemma no_local_runs {A} (field : World → option (Queue A)) store (x : A) :
  (∀ w, no_local w → is_Some (field w)) → (∀ q w, no_local w → no_local (store (Some q) w)) →
  safe no_local (rt_mq_send field store x ;;; mreturn ()).
Proof.
  intros Hf Hst w Hw. unfold rt_mq_send, mseq, get, deref, mreturn, upd.
  destruct (Hf w Hw) as [q ->]. destruct (q_send x q) as [r q']. eauto 10.
Qed.

Lemma alarm_step_faults w m n :
  alarm_mq w = Some (mkQueue [m] n) → awake w → no_local w →
  has_flag (am_process_flag m) ALARM_PROCESS_FLAG_LOCAL = true →
  alarm_mail_process_step w = Fault.
Proof.
  intros Ha Haw Hl Hf. unfold alarm_mail_process_step.
  assert (rt_mq_recv alarm_mq set_alarm_mq w = Done (Some m) (set_alarm_mq (Some (mkQueue [] n)) w)) as E.
  { unfold rt_mq_recv, mseq, get. by rewrite Ha. }
  rewrite (mseq_run _ _ _ _ _ E). set (w1 := set_alarm_mq _ w).
  rewrite (mseq_run _ _ _ _ _ (machine_awake w1 Haw)). cbn [Z.eqb negb RT_EOK]. cbv zeta.
  assert (safe no_local (when (has_flag (am_process_flag m) ALARM_PROCESS_FLAG_SMS)
    (rt_mq_send sms_mq set_sms_mq (mkSmsMail (am_time m) (am_alarm_type m)) ;;; mreturn ()))) as H1.
  { apply runs_when. intros _. apply no_local_runs; [by intros ? (_ & ? & _)|].
    intros q w' (? & _ & ?). split_and!; [done|by exists q|done]. }
  destruct (H1 w1 Hl) as ([] & w2 & E2 & Hl2 & _). rewrite (mseq_run _ _ _ _ _ E2).
  assert (safe no_local (when (has_flag (am_process_flag m) ALARM_PROCESS_FLAG_GPRS)
    (order <- observe uninit ;;
     rt_mq_send gprs_mq set_gprs_mq (mkGprsMail (am_time m) (am_alarm_type m) (u8 order) U_none) ;;;
     mreturn ()))) as H2.
  { apply runs_when. intros _ w' Hw'. rewrite observe_run. apply no_local_runs.
    - by intros ? (_ & _ & ?).
    - intros q w3 (? & ? & _). split_and!; [done|done|by exists q].
    - done. }
  destruct (H2 w2 Hl2) as ([] & w3 & E3 & Hl3 & _). rewrite (mseq_run _ _ _ _ _ E3).
  rewrite Hf. cbn [when]. destruct Hl3 as [Hq _].
  unfold rt_mq_send, mseq, get, deref. by rewrite Hq.
Qed.

(** The lines of the sensors with a rate limit *)
Definition sensor_lines : list (nat * DEVICE) :=
  [(11, DEV_LOCK_SHELL); (12, DEV_LOCK_GATE); (14, DEV_LOCK_TEMPERATURE);
   (15, DEV_GATE_TEMPERATURE)]%nat.

Lemma sensor_line_isr line d w : (line, d) ∈ sensor_lines →
  EXTI15_10_IRQHandler (λ l, l =? line)%nat w = rt_hw_gpio_isr d w.
Proof.
  unfold sensor_lines. rewrite !elem_of_cons, elem_of_nil.
  intros [[= -> ->]|[[= -> ->]|[[= -> ->]|[[= -> ->]|[]]]]]; unfold EXTI15_10_IRQHandler;
    cbn [exti_lines Nat.eqb when]; rewrite !mseq_return_l; unfold mseq at 1;
    by destruct (rt_hw_gpio_isr _ w) as [[] w'| |].
Qed.

Lemma actions_app l1 : ∀ l2 s w, actions flash_complete fuel garbage Hm (l1 ++ l2) s w =
  (s <- actions flash_complete fuel garbage Hm l1 s ;; actions flash_complete fuel garbage Hm l2 s) w.
Proof.
  induction l1 as [|a l1 IH]; intros l2 s w; cbn [actions app]; [by rewrite mseq_return_l|].
  unfold mseq in *. destruct (action _ _ _ _ a s w) as [s' w'| |]; [apply IH|done|done].
Qed.

(** The alarm thread sends without looking whether the queue of the
    local thread exists, and that thread has the lower priority.  An edge of a
    door or temperature sensor that comes before it ran for the first time,
    whatever other threads did, is the end: the alarm thread follows a null
    pointer. *)
Lemma early_edge_faults ts line d w :
  camera_has DEV_CAMERA_POWER = true → NoDup (T_init :: ts) → (T_battery ∈ ts → powered) → T_local ∉ ts →
  (line, d) ∈ sensor_lines → (∀ t, ALARM_INTERVAL < rtc_time t) →
  system flash_complete fuel garbage Hm
    (map Act_thread (T_init :: ts) ++
     [Act_irq EXTI15_10 (λ l, l =? line)%nat; Act_thread T_alarm]) w = Fault.
Proof.
  intros Hc Hnd Hb Hl Hd Ht. destruct (threads_started ts w Hc Hnd Hb) as (s & w1 & E & H & Hcr).
  rewrite (bool_decide_false (T_local ∈ ts)) in H by done.
  change (actions flash_complete fuel garbage Hm ((Act_reset :: map Act_thread (T_init :: ts)) ++
    [Act_irq EXTI15_10 (λ l, l =? line)%nat; Act_thread T_alarm]) (initial_locals garbage) w = Fault).
  rewrite actions_app, (mseq_run _ _ _ _ _ E). cbn [actions action irq_handler].
  rewrite bool_decide_false by done. cbn [andb]. rewrite mseq_assoc.
  destruct H as [Hal Hsms Hgprs _ _ _ _ Hloc Haw Hedge _ _].
  assert (∃ a flags, limited d = Some (a, flags) ∧ has_flag flags ALARM_PROCESS_FLAG_LOCAL = true)
    as (a & flags & Hlim & Hflag).
  { revert Hd. unfold sensor_lines. rewrite !elem_of_cons, elem_of_nil.
    intros [[= -> ->]|[[= -> ->]|[[= -> ->]|[[= -> ->]|[]]]]]; by do 2 eexists. }
  pose proof (Ht (S (now w1))) as Hrtc. unfold ALARM_INTERVAL in Hrtc.
  pose proof (isr_limited d a flags w1 (mkQueue [] MAIL_MAX_MSGS) Hlim Hal) as Hisr.
  rewrite Hedge, edge_0 in Hisr. cbn [spaced fst] in Hisr. unfold ALARM_INTERVAL in Hisr.
  rewrite Z.sub_0_r, (proj2 (Z.ltb_lt _ _) Hrtc) in Hisr.
  specialize (Hisr ltac:(unfold q_room, MAIL_MAX_MSGS; simpl; lia) ltac:(lia)).
  rewrite <- (sensor_line_isr line d w1 Hd) in Hisr.
  rewrite (mseq_run _ _ _ _ _ Hisr), mseq_return_l. rewrite Hcr. cbn [thread_round].
  rewrite !mseq_assoc. unfold mseq at 1. erewrite alarm_step_faults; [done|reflexivity| | |exact Hflag].
  - unfold awake. cbn. by rewrite Haw.
  - unfold no_local. cbn. rewrite Hloc, Hsms, Hgprs. by split_and!; eexists.
Qed.
End booting.

(** ** Concrete runs *)

Definition all_threads : list THREAD :=
  [T_gsm; T_alarm; T_local; T_camera; T_aip; T_sms; T_gprs; T_mms; T_infrared; T_battery].

Lemma quiet_powered : powered (HB:=quiet_board).
Proof. left. split; [done|]. intros t. discriminate. Qed.

Lemma start_up_ready_witness : ∃ s w',
  bench_system (map Act_thread (T_init :: all_threads)) start_world = Done s w' ∧
  booted true true true None w' ∧
  process_gprs_list_telephone (params w') = process_gprs_list_telephone device_parameters ∧
  process_gprs_list_rfid_key (params w') = process_gprs_list_rfid_key device_parameters.
Proof.
  apply (start_up_ready (HB:=quiet_board) (HS:=bench_chip) (λ _, true) 3 bench_camera quiet_motors
    all_threads start_world); [by_computation|by_computation|intros _; apply quiet_powered|by_computation..].
Defined.

Lemma early_edge_faults_witness :
  bench_system (map Act_thread [T_init; T_gsm] ++
    [Act_irq EXTI15_10 (λ l, l =? 11)%nat; Act_thread T_alarm]) start_world = Fault.
Proof.
  apply (early_edge_faults (HB:=quiet_board) (HS:=bench_chip) (λ _, true) 3 bench_camera quiet_motors
    [T_gsm] 11 DEV_LOCK_SHELL start_world);
    [by_computation|by_computation|intros _; apply quiet_powered|by_computation..|intros t; reflexivity].
Defined.
