(* ===== verification/Rtlist.v ===== *)
(** * The kernel's doubly linked lists (rtservice.h)

    A list is a head node and the nodes of its members, which are fields of
    the structures in the list (threads, timers); every node holds two
    pointers.  The operations are translated pointer by pointer on a memory of
    nodes, and [lists σ L] says that the memory [σ] has, for every head [h],
    the members [L h] in order, that no node is a member twice, and that a node
    in no list points to itself.  Each operation is shown to be the one on
    [L] it is meant to be. *)
From stdpp Require Import base functions list sets.
From Stdlib Require Import Lia.

(** Filters that keep everything or nothing *)
Lemma filter_all {A} (P : A → Prop) `{!∀ x, Decision (P x)} l : Forall P l → filter P l = l.
Proof. induction 1 as [|x l Hx _ IH]; [done|]. by rewrite filter_cons_True, IH. Qed.
Lemma filter_none {A} (P : A → Prop) `{!∀ x, Decision (P x)} l :
  Forall (λ x, ¬ P x) l → filter P l = [].
Proof. induction 1 as [|x l Hx _ IH]; [done|]. by rewrite filter_cons_False. Qed.

Record rt_list_t (N : Type) := mkLnode { next : N; prev : N }.
Arguments mkLnode {N}.
Arguments next {N}.
Arguments prev {N}.

Section rtlist.
Context {N : Type} `{HN : EqDecision N}.
Implicit Types (σ : N → rt_list_t N) (n h x y z p q : N) (xs ys : list N) (L : N → list N).

Definition set_next (l x : N) σ : N → rt_list_t N := <[l := mkLnode x (prev (σ l))]> σ.
Definition set_prev (l x : N) σ : N → rt_list_t N := <[l := mkLnode (next (σ l)) x]> σ.

Definition rt_list_init (l : N) σ : N → rt_list_t N := set_next l l (set_prev l l σ).

Definition rt_list_insert_after (l n : N) σ : N → rt_list_t N :=
  let σ := set_prev (next (σ l)) n σ in
  let σ := set_next n (next (σ l)) σ in
  let σ := set_next l n σ in
  set_prev n l σ.

Definition rt_list_insert_before (l n : N) σ : N → rt_list_t N :=
  let σ := set_next (prev (σ l)) n σ in
  let σ := set_prev n (prev (σ l)) σ in
  let σ := set_prev l n σ in
  set_next n l σ.

Definition rt_list_remove (n : N) σ : N → rt_list_t N :=
  let σ := set_prev (next (σ n)) (prev (σ n)) σ in
  let σ := set_next (prev (σ n)) (next (σ n)) σ in
  set_next n n (set_prev n n σ).

Definition rt_list_isempty (l : N) σ : bool := bool_decide (next (σ l) = l).

(** ** Memories and lists *)

(** Consecutive nodes of [l] are linked in both directions. *)
Definition link σ (x y : N) : Prop := next (σ x) = y ∧ prev (σ y) = x.
Fixpoint path σ (l : list N) : Prop :=
  match l with
  | x :: (y :: _) as l' => link σ x y ∧ path σ l'
  | _ => True
  end.

Variable is_head : N → Prop.

Record lists σ L : Prop := {
  lists_path h : is_head h → path σ (h :: L h ++ [h]);
  lists_members h n : is_head h → n ∈ L h → ¬ is_head n;
  lists_nodup h : is_head h → NoDup (L h);
  lists_disjoint h h' n : is_head h → is_head h' → n ∈ L h → n ∈ L h' → h = h';
  lists_where n : ¬ is_head n → (∃ h, is_head h ∧ n ∈ L h) ∨
    (∀ h, is_head h → n ∉ L h) ∧ next (σ n) = n ∧ prev (σ n) = n
}.

(** In no list *)
Definition loose L n : Prop := ¬ is_head n ∧ ∀ h, is_head h → n ∉ L h.

(** *** Writing to one field *)

Lemma next_set_next a b σ x : next (set_next a b σ x) = if decide (x = a) then b else next (σ x).
Proof. unfold set_next. case_decide; [subst; by rewrite fn_lookup_insert|by rewrite fn_lookup_insert_ne]. Qed.
Lemma prev_set_next a b σ x : prev (set_next a b σ x) = prev (σ x).
Proof.
  unfold set_next. destruct (decide (x = a)) as [->|];
    [by rewrite fn_lookup_insert|by rewrite fn_lookup_insert_ne].
Qed.
Lemma next_set_prev a b σ x : next (set_prev a b σ x) = next (σ x).
Proof.
  unfold set_prev. destruct (decide (x = a)) as [->|];
    [by rewrite fn_lookup_insert|by rewrite fn_lookup_insert_ne].
Qed.
Lemma prev_set_prev a b σ x : prev (set_prev a b σ x) = if decide (x = a) then b else prev (σ x).
Proof. unfold set_prev. case_decide; [subst; by rewrite fn_lookup_insert|by rewrite fn_lookup_insert_ne]. Qed.

(** *** Paths *)

Lemma path_frame σ σ' xs : ∀ x,
  (∀ z, z ∈ removelast (x :: xs) → next (σ' z) = next (σ z)) →
  (∀ z, z ∈ xs → prev (σ' z) = prev (σ z)) →
  path σ (x :: xs) → path σ' (x :: xs).
Proof.
  induction xs as [|y xs IH]; intros x Hn Hp; [done|]. intros [[H1 H2] H3]. split.
  - split; [rewrite Hn; [done|]|rewrite Hp; [done|]]; set_solver.
  - apply IH; [intros; apply Hn; set_solver|intros; apply Hp; set_solver|done].
Qed.

Lemma path_app σ l1 x y l2 :
  path σ (l1 ++ x :: y :: l2) ↔ path σ (l1 ++ [x]) ∧ link σ x y ∧ path σ (y :: l2).
Proof.
  induction l1 as [|z l1 IH]; cbn [app]; [cbn; tauto|].
  destruct l1; cbn [app] in *; cbn [path] in *; tauto.
Qed.

(** *** Removing *)

Lemma next_remove σ n x : prev (σ n) ≠ n → next (σ n) ≠ n →
  next (rt_list_remove n σ x) =
    if decide (x = n) then n else if decide (x = prev (σ n)) then next (σ n) else next (σ x).
Proof.
  intros Hp Hq. unfold rt_list_remove.
  repeat first [rewrite next_set_next | rewrite next_set_prev | rewrite prev_set_next
    | rewrite prev_set_prev].
  repeat case_decide; congruence.
Qed.

Lemma prev_remove σ n x : prev (σ n) ≠ n → next (σ n) ≠ n →
  prev (rt_list_remove n σ x) =
    if decide (x = n) then n else if decide (x = next (σ n)) then prev (σ n) else prev (σ x).
Proof.
  intros Hp Hq. unfold rt_list_remove.
  repeat first [rewrite next_set_next | rewrite next_set_prev | rewrite prev_set_next
    | rewrite prev_set_prev].
  repeat case_decide; congruence.
Qed.

Lemma next_remove_loose σ n x : next (σ n) = n → prev (σ n) = n →
  next (rt_list_remove n σ x) = next (σ x) ∧ prev (rt_list_remove n σ x) = prev (σ x).
Proof.
  intros Hn Hp. unfold rt_list_remove.
  repeat first [rewrite next_set_next | rewrite next_set_prev | rewrite prev_set_next
    | rewrite prev_set_prev].
  split; repeat case_decide; congruence.
Qed.

(** The last node before a position, and the first one from it on *)
Lemma snoc_view h xs : ∃ l1 p, h :: xs = l1 ++ [p].
Proof. destruct (exists_last (l:=h :: xs)) as (l1 & p & ->); [done|eauto]. Qed.
Lemma cons_view ys h : ∃ q l2, ys ++ [h] = q :: l2.
Proof. destruct ys; cbn; eauto. Qed.

Lemma NoDup_snoc_view l1 p h xs : NoDup (h :: xs) → h :: xs = l1 ++ [p] → p ∉ l1.
Proof. intros H E. rewrite E in H. apply NoDup_app in H. set_solver. Qed.

(** The two neighbours of a place in the ring of a list, and what tells them
    from the rest *)
Record place (h : N) (xs ys l1 l2 : list N) (p q : N) : Prop := {
  place_before : h :: xs = l1 ++ [p];
  place_behind : ys ++ [h] = q :: l2;
  place_l1 : p ∉ l1;
  place_l2 : q ∉ l2;
  place_xs : q ∉ xs;
  place_ys : p ∉ ys;
  place_p : p ∈ h :: xs;
  place_q : q ∈ h :: ys
}.

Lemma place_exists h xs ys : NoDup (h :: xs ++ ys) → ∃ l1 p q l2, place h xs ys l1 l2 p q.
Proof.
  intros HN'. destruct (snoc_view h xs) as (l1 & p & E1), (cons_view ys h) as (q & l2 & E2).
  exists l1, p, q, l2. apply NoDup_cons in HN' as [Hh HN'].
  apply NoDup_app in HN' as (Nx & Nxy & Ny).
  assert (NoDup (ys ++ [h])) as Ny'.
  { apply NoDup_app. split_and!; [done|set_solver|apply NoDup_singleton]. }
  assert (NoDup (h :: xs)) as Nx' by (apply NoDup_cons; set_solver).
  assert (p ∈ h :: xs) by (rewrite E1; set_solver).
  assert (q ∈ ys ++ [h]) by (rewrite E2; set_solver).
  split; [done|done|..]; try set_solver.
  - by eapply NoDup_snoc_view.
  - rewrite E2 in Ny'. by apply NoDup_cons in Ny' as [? _].
Qed.

(** [σ'] differs from [σ] only in the node [n] and between [p] and [q]. *)
Definition spliced σ σ' p q n : Prop :=
  ∀ x, x ≠ n → (x ≠ p → next (σ' x) = next (σ x)) ∧ (x ≠ q → prev (σ' x) = prev (σ x)).

Lemma spliced_path σ σ' h xs ys l1 l2 p q n :
  place h xs ys l1 l2 p q → n ∉ h :: xs ++ ys → spliced σ σ' p q n →
  path σ (l1 ++ [p]) → path σ (q :: l2) → path σ' (l1 ++ [p]) ∧ path σ' (q :: l2).
Proof.
  intros [E1 E2 P1 P2 P3 P4 P5 P6] Hn S Q1 Q2.
  assert (n ∉ h :: xs ∧ n ∉ ys ++ [h]) as [Hn1 Hn2] by (clear - Hn; set_solver).
  split.
  - rewrite <- E1 in *. eapply path_frame; [| |exact Q1].
    + rewrite E1, removelast_last. intros z Hz. apply S; [|by intros ->]. intros ->.
      apply Hn1. rewrite E1. apply elem_of_app. by left.
    + intros z Hz. apply S; [|by intros ->]. intros ->. apply Hn1. by right.
  - eapply path_frame; [| |exact Q2].
    + rewrite <- E2, removelast_last. intros z Hz. apply S; [|by intros ->]. intros ->.
      apply Hn2. apply elem_of_app. by left.
    + intros z Hz. apply S; [|by intros ->]. intros ->. apply Hn2. rewrite E2. by right.
Qed.

(** The ring of a list with its place in the middle *)
Lemma place_ring h xs ys l1 l2 p q : place h xs ys l1 l2 p q →
  h :: (xs ++ ys) ++ [h] = l1 ++ p :: q :: l2 ∧
  ∀ n, h :: (xs ++ n :: ys) ++ [h] = l1 ++ p :: n :: q :: l2.
Proof.
  intros [E1 E2 _ _ _ _ _ _].
  assert (∀ mid, h :: (xs ++ mid ++ ys) ++ [h] = l1 ++ p :: mid ++ q :: l2) as E.
  { intros mid. rewrite <- E2. change (h :: (xs ++ mid ++ ys) ++ [h]) with
      ((h :: xs ++ mid ++ ys) ++ [h]). rewrite app_comm_cons, E1. by rewrite <- !app_assoc. }
  split; [apply (E [])|intros n; apply (E [n])].
Qed.

Lemma remove_spliced σ n : prev (σ n) ≠ n → next (σ n) ≠ n →
  spliced σ (rt_list_remove n σ) (prev (σ n)) (next (σ n)) n.
Proof.
  intros Hp Hq x Hx. split; intros Hx'; [rewrite next_remove by done|rewrite prev_remove by done];
    by rewrite !decide_False.
Qed.

Lemma path_remove σ h xs n ys l1 l2 p q :
  place h xs ys l1 l2 p q → n ∉ h :: xs ++ ys → path σ (h :: (xs ++ n :: ys) ++ [h]) →
  prev (σ n) = p ∧ next (σ n) = q ∧ path (rt_list_remove n σ) (h :: (xs ++ ys) ++ [h]).
Proof.
  intros P Hn. rewrite (proj2 (place_ring _ _ _ _ _ _ _ P) n).
  intros (Q1 & [_ Hnp] & [[Hnq _] Q2])%path_app. split_and!; [done..|].
  rewrite (proj1 (place_ring _ _ _ _ _ _ _ P)).
  assert (p ≠ n ∧ q ≠ n) as [Hp Hq].
  { destruct P as [_ _ _ _ _ _ P5 P6]. split; intros ->; apply Hn; clear - P5 P6; set_solver. }
  rewrite <- Hnp in Hp. rewrite <- Hnq in Hq.
  pose proof (remove_spliced σ n Hp Hq) as S. rewrite Hnp, Hnq in S.
  destruct (spliced_path _ _ _ _ _ _ _ _ _ _ P Hn S Q1 Q2) as [Q1' Q2'].
  apply path_app. split_and!; [done| |done].
  split; [rewrite next_remove, Hnp, Hnq by done|rewrite prev_remove, Hnp, Hnq by done];
    (rewrite decide_False by congruence; by rewrite decide_True).
Qed.

(** *** Inserting *)

Ltac rt_fields :=
  repeat first [rewrite next_set_next | rewrite next_set_prev | rewrite prev_set_next
    | rewrite prev_set_prev]; repeat case_decide; subst; try congruence.

(** [n] between [p] and [q] *)
Record inserted σ σ' p q n : Prop := {
  inserted_rest : spliced σ σ' p q n;
  inserted_before : link σ' p n;
  inserted_behind : link σ' n q
}.

Lemma insert_before_inserted σ q n : n ≠ q → prev (σ q) ≠ n →
  inserted σ (rt_list_insert_before q n σ) (prev (σ q)) q n.
Proof.
  intros H1 H2. unfold rt_list_insert_before.
  split; [intros x Hx; split; intros Hx'|split|split]; rt_fields.
Qed.

Lemma insert_after_inserted σ p n : n ≠ p → next (σ p) ≠ n →
  inserted σ (rt_list_insert_after p n σ) p (next (σ p)) n.
Proof.
  intros H1 H2. unfold rt_list_insert_after.
  split; [intros x Hx; split; intros Hx'|split|split]; rt_fields.
Qed.

Lemma path_insert σ σ' h xs n ys l1 l2 p q :
  place h xs ys l1 l2 p q → n ∉ h :: xs ++ ys → inserted σ σ' p q n →
  path σ (h :: (xs ++ ys) ++ [h]) → path σ' (h :: (xs ++ n :: ys) ++ [h]).
Proof.
  intros P Hn [S Hp Hq]. rewrite (proj1 (place_ring _ _ _ _ _ _ _ P)).
  intros (Q1 & _ & Q2)%path_app. rewrite (proj2 (place_ring _ _ _ _ _ _ _ P) n).
  destruct (spliced_path _ _ _ _ _ _ _ _ _ _ P Hn S Q1 Q2) as [Q1' Q2'].
  apply path_app. split_and!; [done|done|]. by split.
Qed.

(** The links at a place *)
Lemma place_link σ h xs ys l1 l2 p q :
  place h xs ys l1 l2 p q → path σ (h :: (xs ++ ys) ++ [h]) → link σ p q.
Proof.
  intros P. rewrite (proj1 (place_ring _ _ _ _ _ _ _ P)). by intros (_ & ? & _)%path_app.
Qed.

(** ** The operations on lists *)

Lemma lists_ring σ L h n : lists σ L → is_head h → n ∈ h :: L h → is_head n → n = h.
Proof.
  intros HL Hh [->|Hn]%elem_of_cons Hn'; [done|].
  by destruct (lists_members _ _ HL h n Hh Hn).
Qed.

Lemma lists_place σ L h xs ys : lists σ L → is_head h → L h = xs ++ ys →
  ∃ l1 p q l2, place h xs ys l1 l2 p q ∧ p ∈ h :: L h ∧ q ∈ h :: L h ∧ link σ p q.
Proof.
  intros HL Hh E. assert (NoDup (h :: xs ++ ys)) as HN'.
  { rewrite <- E. apply NoDup_cons. split; [|by eapply lists_nodup].
    intros Hn. by destruct (lists_members _ _ HL h h Hh Hn). }
  destruct (place_exists _ _ _ HN') as (l1 & p & q & l2 & P).
  pose proof (lists_path _ _ HL h Hh) as Q. rewrite E in *.
  exists l1, p, q, l2. split_and!; [done|..].
  - destruct P as [_ _ _ _ _ _ [->|P5]%elem_of_cons _]; [by left|right].
    apply elem_of_app. by left.
  - destruct P as [_ _ _ _ _ _ _ [->|P6]%elem_of_cons]; [by left|right].
    apply elem_of_app. by right.
  - by eapply place_link.
Qed.

(** The other rings do not contain the nodes around a place. *)
Lemma other_ring σ L h h' p : lists σ L → is_head h → is_head h' → h ≠ h' →
  p ∈ h :: L h → p ∉ h' :: L h'.
Proof.
  intros HL Hh Hh' Hne [->|Hp]%elem_of_cons [E|Hp']%elem_of_cons; [done|..].
  - by destruct (lists_members _ _ HL h' h Hh' Hp').
  - subst. by destruct (lists_members _ _ HL h h' Hh Hp).
  - by apply Hne, (lists_disjoint _ _ HL h h' p).
Qed.

Lemma other_path σ σ' L h h' p q n : lists σ L → is_head h → is_head h' → h ≠ h' →
  p ∈ h :: L h → q ∈ h :: L h → n ∉ h' :: L h' → spliced σ σ' p q n →
  path σ' (h' :: L h' ++ [h']).
Proof.
  intros HL Hh Hh' Hne Hp Hq Hn S.
  pose proof (other_ring _ _ _ _ _ HL Hh Hh' Hne Hp) as Hp'.
  pose proof (other_ring _ _ _ _ _ HL Hh Hh' Hne Hq) as Hq'.
  eapply path_frame; [| |by eapply lists_path].
  - rewrite app_comm_cons, removelast_last. intros z Hz. apply S; by intros ->.
  - intros z Hz. assert (z ∈ h' :: L h') as Hz'.
    { apply elem_of_app in Hz as [?|?%list_elem_of_singleton]; [by right|subst; by left]. }
    apply S; by intros ->.
Qed.

Lemma inserted_lists σ σ' L h xs ys l1 l2 p q n :
  lists σ L → is_head h → L h = xs ++ ys → place h xs ys l1 l2 p q →
  loose L n → inserted σ σ' p q n → lists σ' (<[h := xs ++ n :: ys]> L).
Proof.
  intros HL Hh E P [Hnh Hn] I.
  destruct (lists_place _ _ _ _ _ HL Hh E) as (l1' & p' & q' & l2' & P' & Hp & Hq & Hl).
  assert (l1 = l1' ∧ p' = p ∧ q' = q) as (-> & -> & ->).
  { destruct P as [E1 E2 _ _ _ _ _ _], P' as [E1' E2' _ _ _ _ _ _]. rewrite E1 in E1'.
    apply app_inj_2 in E1' as [-> [= ->]]; [|done]. rewrite E2 in E2'. by injection E2' as -> ->. }
  assert (n ∉ h :: xs ++ ys) as Hn'.
  { rewrite <- E. intros [->|?]%elem_of_cons; [done|]. by apply (Hn h). }
  split.
  - intros h' Hh'. destruct (decide (h' = h)) as [->|Hne].
    + rewrite fn_lookup_insert. eapply path_insert; [exact P|done..|].
      rewrite <- E. by eapply lists_path.
    + rewrite fn_lookup_insert_ne by done. apply (other_path σ σ' L h h' p q n); try done; [|apply I].
      intros [->|?]%elem_of_cons; [done|]. by apply (Hn h').
  - intros h' m Hh'. destruct (decide (h' = h)) as [->|Hne].
    + rewrite fn_lookup_insert. rewrite elem_of_app, elem_of_cons. intros [?|[->|?]]; [|done|];
        (eapply (lists_members _ _ HL h); [done|]); rewrite E; apply elem_of_app; auto.
    + rewrite fn_lookup_insert_ne by done. by apply (lists_members _ _ HL).
  - intros h' Hh'. destruct (decide (h' = h)) as [->|Hne].
    + rewrite fn_lookup_insert. pose proof (lists_nodup _ _ HL h Hh) as ND. rewrite E in ND.
      rewrite <- Permutation_middle. apply NoDup_cons. split; [|done]. intros ?. apply Hn'. by right.
    + rewrite fn_lookup_insert_ne by done. by apply (lists_nodup _ _ HL).
  - assert (∀ h' m, is_head h' → m ∈ (<[h := xs ++ n :: ys]> L : N → list N) h' →
      m = n ∧ h' = h ∨ m ∈ L h') as Hin.
    { intros h' m Hh'. destruct (decide (h' = h)) as [->|Hne];
        [rewrite fn_lookup_insert, E, !elem_of_app, elem_of_cons|
         rewrite fn_lookup_insert_ne by done]; tauto. }
    intros h1 h2 m H1 H2 [[-> ->]|M1]%Hin [[E2 ->]|M2]%Hin; try done.
    + by destruct (Hn h2).
    + subst. by destruct (Hn h1).
    + by eapply (lists_disjoint _ _ HL).
  - intros m Hm. destruct (decide (m = n)) as [->|Mn].
    { left. exists h. split; [done|]. rewrite fn_lookup_insert. apply elem_of_app.
      right. by left. }
    destruct (lists_where _ _ HL m Hm) as [(h' & Hh' & Hin)|[Hno Hm']]; [left|right].
    + exists h'. split; [done|]. destruct (decide (h' = h)) as [->|Hne];
        [|by rewrite fn_lookup_insert_ne]. rewrite fn_lookup_insert, elem_of_app, elem_of_cons.
      rewrite E, elem_of_app in Hin. tauto.
    + assert (m ∉ h :: L h) as Hm2 by (intros [->|?]%elem_of_cons; [done|by apply (Hno h)]).
      split.
      * intros h' Hh'. destruct (decide (h' = h)) as [->|Hne];
          [|rewrite fn_lookup_insert_ne by done; by apply Hno].
        rewrite fn_lookup_insert. specialize (Hno h Hh). rewrite E in Hno.
        clear - Hno Mn. set_solver.
      * destruct (inserted_rest _ _ _ _ _ I m Mn) as [E1 E2].
        rewrite E1, E2 by (by intros ->). done.
Qed.

Lemma removed_lists σ L h xs n ys : lists σ L → is_head h → L h = xs ++ n :: ys →
  lists (rt_list_remove n σ) (<[h := xs ++ ys]> L).
Proof.
  intros HL Hh E. pose proof (lists_nodup _ _ HL h Hh) as ND. rewrite E in ND.
  assert (n ∈ L h) as Hin by (rewrite E; apply elem_of_app; right; by left).
  pose proof (lists_members _ _ HL h n Hh Hin) as Hnh.
  assert (h ∉ L h) as Hhn by (intros ?; by destruct (lists_members _ _ HL h h Hh)).
  rewrite <- Permutation_middle in ND. apply NoDup_cons in ND as [Hn ND].
  assert (n ∉ h :: xs ++ ys) as Hn' by (intros [->|?]%elem_of_cons; done).
  assert (NoDup (h :: xs ++ ys)) as ND'.
  { apply NoDup_cons. split; [|done]. rewrite E in Hhn. clear - Hhn. set_solver. }
  destruct (place_exists _ _ _ ND') as (l1 & p & q & l2 & P).
  pose proof (lists_path _ _ HL h Hh) as Q. rewrite E in Q.
  destruct (path_remove _ _ _ _ _ _ _ _ _ P Hn' Q) as (Ep & Eq & Q').
  assert (p ∈ h :: L h ∧ q ∈ h :: L h ∧ p ≠ n ∧ q ≠ n) as (Hp & Hq & Pn & Qn).
  { destruct P as [_ _ _ _ _ _ P5 P6]. rewrite E.
    split_and!; clear - Hn' P5 P6; set_solver. }
  assert (spliced σ (rt_list_remove n σ) p q n) as S.
  { rewrite <- Ep, <- Eq. apply remove_spliced; congruence. }
  assert (∀ h' m, is_head h' → m ∈ (<[h := xs ++ ys]> L : N → list N) h' → m ∈ L h') as Hsub.
  { intros h' m Hh'. destruct (decide (h' = h)) as [->|Hne];
      [rewrite fn_lookup_insert, E, !elem_of_app, elem_of_cons|
       rewrite fn_lookup_insert_ne by done]; tauto. }
  split.
  - intros h' Hh'. destruct (decide (h' = h)) as [->|Hne]; [by rewrite fn_lookup_insert|].
    rewrite fn_lookup_insert_ne by done.
    apply (other_path σ _ L h h' p q n); try done.
    apply (other_ring _ _ _ _ _ HL Hh); [done|done|by right].
  - intros h' m Hh' Hm%Hsub; [|done]. by apply (lists_members _ _ HL h').
  - intros h' Hh'. destruct (decide (h' = h)) as [->|Hne]; [by rewrite fn_lookup_insert|].
    rewrite fn_lookup_insert_ne by done. by apply (lists_nodup _ _ HL).
  - intros h1 h2 m H1 H2 M1%Hsub M2%Hsub; [|done..]. by apply (lists_disjoint _ _ HL h1 h2 m).
  - intros m Hm. destruct (decide (m = n)) as [->|Mn].
    { right. rewrite next_remove, prev_remove, !decide_True by congruence. split; [|done].
      intros h' Hh' Hin'. destruct (decide (h' = h)) as [->|Hne].
      - rewrite fn_lookup_insert in Hin'. apply Hn'. by right.
      - rewrite fn_lookup_insert_ne in Hin' by done. apply Hne.
        by apply (lists_disjoint _ _ HL h' h n). }
    destruct (lists_where _ _ HL m Hm) as [(h' & Hh' & Hin')|[Hno Hm']]; [left|right].
    + exists h'. split; [done|]. destruct (decide (h' = h)) as [->|Hne];
        [|by rewrite fn_lookup_insert_ne]. rewrite fn_lookup_insert. rewrite E in Hin'.
      clear - Hin' Mn. set_solver.
    + split; [intros h' Hh' Hin'; by apply (Hno h'), Hsub|].
      assert (m ∉ h :: L h) as Hm2 by (intros [->|?]%elem_of_cons; [done|by apply (Hno h)]).
      destruct (S m Mn) as [E1 E2]. rewrite E1, E2 by (by intros ->). done.
Qed.

(** Members are compared, heads and lists outside the index are not. *)
Lemma lists_ext σ L L' : (∀ h, is_head h → L h = L' h) → lists σ L → lists σ L'.
Proof.
  intros E [H1 H2 H3 H4 H5]. split.
  - intros h Hh. rewrite <- E by done. by apply H1.
  - intros h n Hh. rewrite <- E by done. by apply H2.
  - intros h Hh. rewrite <- E by done. by apply H3.
  - intros h h' n Hh Hh'. rewrite <- !E by done. by apply H4.
  - intros n Hn. destruct (H5 n Hn) as [(h & Hh & Hin)|[Hno ?]]; [left|right].
    + exists h. by rewrite <- E.
    + split; [|done]. intros h Hh. rewrite <- E by done. by apply Hno.
Qed.

(** Nothing is linked. *)
Lemma lists_self σ : (∀ n, next (σ n) = n ∧ prev (σ n) = n) → lists σ (λ _, []).
Proof.
  intros H. split.
  - intros h _. destruct (H h). by repeat split.
  - intros h n _ Hn. by apply elem_of_nil in Hn.
  - intros h _. constructor.
  - intros h h' n _ _ Hn. by apply elem_of_nil in Hn.
  - intros n _. right. by split; [intros h _ ?%elem_of_nil|].
Qed.

Definition without (n : N) L : N → list N := λ h, filter (.≠ n) (L h).

Lemma without_id n xs : n ∉ xs → filter (.≠ n) xs = xs.
Proof. intros H. apply filter_all, Forall_forall. by intros x Hx ->. Qed.

Lemma without_middle n xs ys : n ∉ xs → n ∉ ys → filter (.≠ n) (xs ++ n :: ys) = xs ++ ys.
Proof.
  intros Hx Hy. rewrite filter_app, filter_cons_False by tauto. by rewrite !without_id.
Qed.

Lemma elem_without n m h L : m ∈ without n L h ↔ m ∈ L h ∧ m ≠ n.
Proof. clear. unfold without. rewrite list_elem_of_filter. tauto. Qed.

(** *** What each operation does to the lists *)

Lemma lists_same σ σ' L : (∀ x, next (σ' x) = next (σ x) ∧ prev (σ' x) = prev (σ x)) →
  lists σ L → lists σ' L.
Proof.
  intros E [H1 H2 H3 H4 H5]. split; [|done..|].
  - intros h Hh. eapply path_frame; [intros; apply E..|]. by apply H1.
  - intros n Hn. destruct (E n) as [-> ->]. by apply H5.
Qed.

Lemma lists_remove σ L n : ¬ is_head n → lists σ L →
  lists (rt_list_remove n σ) (without n L) ∧ loose (without n L) n.
Proof.
  intros Hn HL. split; [|split; [done|]; intros h _; rewrite elem_without; tauto].
  destruct (lists_where _ _ HL n Hn) as [(h & Hh & Hin)|(Hno & H1 & H2)].
  - apply list_elem_of_split in Hin as (xs & ys & E).
    eapply lists_ext; [|by eapply removed_lists]. intros h' Hh'. unfold without.
    pose proof (lists_nodup _ _ HL h Hh) as ND. rewrite E, <- Permutation_middle in ND.
    apply NoDup_cons in ND as [ND _]. rewrite elem_of_app in ND.
    destruct (decide (h' = h)) as [->|Hne].
    + rewrite fn_lookup_insert, E, without_middle; tauto.
    + rewrite fn_lookup_insert_ne, without_id; [done| |done]. intros Hin. apply Hne.
      apply (lists_disjoint _ _ HL h' h n); try done. rewrite E. apply elem_of_app. right. by left.
  - eapply lists_ext; [|eapply lists_same; [|exact HL]].
    + intros h Hh. unfold without. by rewrite without_id by (by apply Hno).
    + intros x. by apply next_remove_loose.
Qed.

Lemma lists_insert_last σ L h n : lists σ L → is_head h → loose L n →
  lists (rt_list_insert_before h n σ) (<[h := L h ++ [n]]> L).
Proof.
  intros HL Hh Hn. destruct (lists_place σ L h (L h) []) as (l1 & p & q & l2 & P & Hp & Hq & Hl);
    [done|done|by rewrite app_nil_r|].
  assert (q = h) as -> by (destruct P as [_ E2 _ _ _ _ _ _]; by injection E2).
  eapply inserted_lists; [done|done| |exact P|done|]; [by rewrite app_nil_r|].
  destruct Hl as [_ <-]. destruct Hn as [Hn1 Hn2]. apply insert_before_inserted; [intros ->|intros <-].
  - by apply Hn1.
  - apply elem_of_cons in Hp as [E0|?]; [by rewrite E0 in Hn1|]. by apply (Hn2 h).
Qed.

Lemma lists_insert_before σ L h xs m ys n : lists σ L → is_head h → loose L n →
  L h = xs ++ m :: ys →
  lists (rt_list_insert_before m n σ) (<[h := xs ++ n :: m :: ys]> L).
Proof.
  intros HL Hh Hn E. destruct (lists_place σ L h xs (m :: ys)) as
    (l1 & p & q & l2 & P & Hp & Hq & Hl); [done|done|done|].
  assert (q = m) as -> by (destruct P as [_ E2 _ _ _ _ _ _]; by injection E2).
  eapply inserted_lists; [done|done|done|exact P|done|].
  destruct Hl as [_ <-]. destruct Hn as [Hn1 Hn2]. apply insert_before_inserted; [intros ->|intros <-].
  - apply (Hn2 h Hh). rewrite E. apply elem_of_app. right. by left.
  - apply elem_of_cons in Hp as [E0|?]; [by rewrite E0 in Hn1|]. by apply (Hn2 h).
Qed.

(** At any place: before the rest of the list, whose head stands for the end *)
Lemma lists_insert_at σ L h xs ys n : lists σ L → is_head h → loose L n → L h = xs ++ ys →
  lists (rt_list_insert_before (default h (head ys)) n σ) (<[h := xs ++ n :: ys]> L).
Proof.
  intros HL Hh Hn E. destruct ys as [|m ys]; cbn [head default from_option id].
  - rewrite app_nil_r in E. rewrite <- E. by apply lists_insert_last.
  - by apply lists_insert_before.
Qed.

Lemma lists_insert_first σ L h n : lists σ L → is_head h → loose L n →
  lists (rt_list_insert_after h n σ) (<[h := n :: L h]> L).
Proof.
  intros HL Hh Hn. destruct (lists_place σ L h [] (L h)) as (l1 & p & q & l2 & P & Hp & Hq & Hl);
    [done..|].
  assert (p = h) as ->.
  { destruct P as [E1 _ _ _ _ _ _ _]. by apply (app_inj_2 [] l1 [h] [p]) in E1 as [_ [= ->]]. }
  change (n :: L h) with ([] ++ n :: L h).
  eapply inserted_lists; [done|done| |exact P|done|]; [done|].
  destruct Hl as [<- _]. destruct Hn as [Hn1 Hn2]. apply insert_after_inserted; [intros ->|intros <-].
  - by apply Hn1.
  - apply elem_of_cons in Hq as [E0|?]; [by rewrite E0 in Hn1|]. by apply (Hn2 h).
Qed.

(** The first member, and the one behind a member *)
Lemma lists_next_head σ L h : lists σ L → is_head h → next (σ h) = default h (head (L h)).
Proof.
  intros HL Hh. pose proof (lists_path _ _ HL h Hh) as Q.
  destruct (L h) as [|x xs]; cbn in Q |- *; by destruct Q as [[? _] _].
Qed.

Lemma lists_next σ L h xs n ys : lists σ L → is_head h → L h = xs ++ n :: ys →
  next (σ n) = default h (head ys).
Proof.
  intros HL Hh E. pose proof (lists_path _ _ HL h Hh) as Q. rewrite E in Q.
  rewrite <- app_assoc, app_comm_cons in Q. cbn [app] in Q.
  destruct ys; cbn [app head] in *; by apply (path_app _ (h :: xs)) in Q as (_ & [? _] & _).
Qed.

Lemma lists_isempty σ L h : lists σ L → is_head h → rt_list_isempty h σ = bool_decide (L h = []).
Proof.
  intros HL Hh. unfold rt_list_isempty. apply bool_decide_ext.
  rewrite (lists_next_head _ L) by done. destruct (L h) as [|x xs] eqn:E; cbn; [done|].
  split; [|done]. intros ->. destruct (lists_members _ _ HL h h Hh); [rewrite E; by left|done].
Qed.
End rtlist.
