(* ===== verification/Kernel.v ===== *)
(** * The state of the RT-Thread kernel

    The kernel's objects (rtdef.h) as records, and the global variables of
    scheduler.c, timer.c and clock.c as one record, on which the functions of
    [Sched], [Timer], [Thread], [Tick] and [Ipc] work.  Threads, timers and the objects
    of inter-process communication are named by numbers; the links between them
    are the list nodes of [Rtlist].  A function that would follow a bad
    pointer or fail an assertion gives [None].  The hooks, the object container
    ([rt_object_init] and so on) and the check of the stacks are left out; a
    section with interrupts disabled is one step. *)
From stdpp Require Import base functions list.
From Stdlib Require Import ZArith Lia.
From S2P Require Import Prelude World Rtlist.

(** ** Names *)

(** The timer inside a thread, or one of its own *)
Inductive TIMER := TM_thread (t : nat) | TM_user (i : nat).

#[export] Instance timer_eq_dec : EqDecision TIMER.
Proof. solve_decision. Defined.

(** The nodes: heads of lists, the node [tlist] of a thread and [list] of a
    timer *)
Inductive NODE :=
| N_ready (priority : Z)   (* rt_thread_priority_table[priority] *)
| N_defunct                (* rt_thread_defunct *)
| N_timers                 (* rt_timer_list *)
| N_sem (i : nat)          (* suspend_thread of the object *)
| N_mutex (i : nat)
| N_event (i : nat)
| N_tlist (t : nat)
| N_timer (m : TIMER).

#[export] Instance node_eq_dec : EqDecision NODE.
Proof. solve_decision. Defined.

Definition is_head (n : NODE) : Prop :=
  match n with N_tlist _ | N_timer _ => False | _ => True end.

(** ** The records *)

Definition RT_ERROR : Z := 1.
Definition RT_THREAD_INIT : Z := 0x00.
Definition RT_THREAD_READY : Z := 0x01.
Definition RT_THREAD_SUSPEND : Z := 0x02.
Definition RT_THREAD_CLOSE : Z := 0x04.
Definition RT_TIMER_FLAG_ACTIVATED : Z := 0x1.
Definition RT_TIMER_FLAG_PERIODIC : Z := 0x2.
Definition RT_IPC_FLAG_FIFO : Z := 0x00.
Definition RT_IPC_FLAG_PRIO : Z := 0x01.
Definition RT_THREAD_PRIORITY_MAX : Z := 256.
Definition RT_TICK_MAX : Z := 0xffffffff.

Record rt_thread := mkThread {
  stat : Z;
  current_priority : Z;
  init_priority : Z;
  number : Z;   (* current_priority >> 3 *)
  high_mask : Z;
  number_mask : Z;
  error : Z;
  event_set : Z;
  event_info : Z;
  thread_init_tick : Z;
  remaining_tick : Z;
  cleanup : bool;   (* a clean-up function is set *)
  systemobject : bool   (* a static object *)
}.

Record rt_timer := mkTimer {
  timer_flag : Z;   (* parent.flag *)
  timer_init_tick : Z;
  timeout_tick : Z
}.

Record rt_semaphore := mkSem {
  sem_value : Z;
  sem_flag : Z   (* parent.parent.flag *)
}.

Record rt_mutex := mkMutex {
  mutex_value : Z;
  original_priority : Z;
  hold : Z;
  owner : option nat;
  mutex_flag : Z
}.

Record rt_event := mkEvent {
  event_bits : Z;   (* set *)
  event_flag : Z
}.

(** What can be observed: a switch of context, from within an interrupt or
    not, and the call of a timer's function *)
Inductive KEvent :=
| K_switch (from : option nat) (to : nat) (in_interrupt : bool)
| K_timeout (m : TIMER) (tick : Z).

Record KERNEL := mkKernel {
  nodes : NODE → rt_list_t NODE;   (* all list nodes *)
  threads : nat → rt_thread;
  timers : TIMER → rt_timer;
  rt_current_thread : option nat;
  rt_current_priority : Z;
  rt_thread_ready_priority_group : Z;
  rt_thread_ready_table : list Z;
  rt_scheduler_lock_nest : Z;
  rt_interrupt_nest : Z;
  rt_tick : Z;
  sems : nat → rt_semaphore;
  mutexes : nat → rt_mutex;
  events : nat → rt_event;
  history : list KEvent   (* what happened, the last at the end *)
}.

(** ** Assignments *)

Definition set_stat (x : Z) (t : rt_thread) : rt_thread := mkThread x (current_priority t)
  (init_priority t) (number t) (high_mask t) (number_mask t) (error t) (event_set t) (event_info
  t) (thread_init_tick t) (remaining_tick t) (cleanup t) (systemobject t).
Definition set_current_priority (x : Z) (t : rt_thread) : rt_thread := mkThread (stat t) x
  (init_priority t) (number t) (high_mask t) (number_mask t) (error t) (event_set t) (event_info
  t) (thread_init_tick t) (remaining_tick t) (cleanup t) (systemobject t).
Definition set_number (x : Z) (t : rt_thread) : rt_thread := mkThread (stat t) (current_priority
  t) (init_priority t) x (high_mask t) (number_mask t) (error t) (event_set t) (event_info t)
  (thread_init_tick t) (remaining_tick t) (cleanup t) (systemobject t).
Definition set_high_mask (x : Z) (t : rt_thread) : rt_thread := mkThread (stat t)
  (current_priority t) (init_priority t) (number t) x (number_mask t) (error t) (event_set t)
  (event_info t) (thread_init_tick t) (remaining_tick t) (cleanup t) (systemobject t).
Definition set_number_mask (x : Z) (t : rt_thread) : rt_thread := mkThread (stat t)
  (current_priority t) (init_priority t) (number t) (high_mask t) x (error t) (event_set t)
  (event_info t) (thread_init_tick t) (remaining_tick t) (cleanup t) (systemobject t).
Definition set_error (x : Z) (t : rt_thread) : rt_thread := mkThread (stat t) (current_priority
  t) (init_priority t) (number t) (high_mask t) (number_mask t) x (event_set t) (event_info t)
  (thread_init_tick t) (remaining_tick t) (cleanup t) (systemobject t).
Definition set_event_set (x : Z) (t : rt_thread) : rt_thread := mkThread (stat t)
  (current_priority t) (init_priority t) (number t) (high_mask t) (number_mask t) (error t) x
  (event_info t) (thread_init_tick t) (remaining_tick t) (cleanup t) (systemobject t).
Definition set_event_info (x : Z) (t : rt_thread) : rt_thread := mkThread (stat t)
  (current_priority t) (init_priority t) (number t) (high_mask t) (number_mask t) (error t)
  (event_set t) x (thread_init_tick t) (remaining_tick t) (cleanup t) (systemobject t).
Definition set_remaining_tick (x : Z) (t : rt_thread) : rt_thread := mkThread (stat t)
  (current_priority t) (init_priority t) (number t) (high_mask t) (number_mask t) (error t)
  (event_set t) (event_info t) (thread_init_tick t) x (cleanup t) (systemobject t).

Definition set_timer_flag (x : Z) (t : rt_timer) : rt_timer := mkTimer x (timer_init_tick t)
  (timeout_tick t).
Definition set_timer_init_tick (x : Z) (t : rt_timer) : rt_timer := mkTimer (timer_flag t) x
  (timeout_tick t).
Definition set_timeout_tick (x : Z) (t : rt_timer) : rt_timer := mkTimer (timer_flag t)
  (timer_init_tick t) x.

Definition set_sem_value (x : Z) (s : rt_semaphore) : rt_semaphore := mkSem x (sem_flag s).

Definition set_mutex_value (x : Z) (m : rt_mutex) : rt_mutex := mkMutex x (original_priority m)
  (hold m) (owner m) (mutex_flag m).
Definition set_original_priority (x : Z) (m : rt_mutex) : rt_mutex := mkMutex (mutex_value m) x
  (hold m) (owner m) (mutex_flag m).
Definition set_hold (x : Z) (m : rt_mutex) : rt_mutex := mkMutex (mutex_value m)
  (original_priority m) x (owner m) (mutex_flag m).
Definition set_owner (x : option nat) (m : rt_mutex) : rt_mutex := mkMutex (mutex_value m)
  (original_priority m) (hold m) x (mutex_flag m).

Definition set_event_bits (x : Z) (e : rt_event) : rt_event := mkEvent x (event_flag e).

Definition set_nodes (x : NODE → rt_list_t NODE) (k : KERNEL) : KERNEL := mkKernel x (threads k)
  (timers k) (rt_current_thread k) (rt_current_priority k) (rt_thread_ready_priority_group k)
  (rt_thread_ready_table k) (rt_scheduler_lock_nest k) (rt_interrupt_nest k) (rt_tick k) (sems
  k) (mutexes k) (events k) (history k).
Definition set_threads (x : nat → rt_thread) (k : KERNEL) : KERNEL := mkKernel (nodes k) x
  (timers k) (rt_current_thread k) (rt_current_priority k) (rt_thread_ready_priority_group k)
  (rt_thread_ready_table k) (rt_scheduler_lock_nest k) (rt_interrupt_nest k) (rt_tick k) (sems
  k) (mutexes k) (events k) (history k).
Definition set_timers (x : TIMER → rt_timer) (k : KERNEL) : KERNEL := mkKernel (nodes k)
  (threads k) x (rt_current_thread k) (rt_current_priority k) (rt_thread_ready_priority_group k)
  (rt_thread_ready_table k) (rt_scheduler_lock_nest k) (rt_interrupt_nest k) (rt_tick k) (sems
  k) (mutexes k) (events k) (history k).
Definition set_rt_current_thread (x : option nat) (k : KERNEL) : KERNEL := mkKernel (nodes k)
  (threads k) (timers k) x (rt_current_priority k) (rt_thread_ready_priority_group k)
  (rt_thread_ready_table k) (rt_scheduler_lock_nest k) (rt_interrupt_nest k) (rt_tick k) (sems
  k) (mutexes k) (events k) (history k).
Definition set_rt_current_priority (x : Z) (k : KERNEL) : KERNEL := mkKernel (nodes k) (threads
  k) (timers k) (rt_current_thread k) x (rt_thread_ready_priority_group k)
  (rt_thread_ready_table k) (rt_scheduler_lock_nest k) (rt_interrupt_nest k) (rt_tick k) (sems
  k) (mutexes k) (events k) (history k).
Definition set_rt_thread_ready_priority_group (x : Z) (k : KERNEL) : KERNEL := mkKernel (nodes
  k) (threads k) (timers k) (rt_current_thread k) (rt_current_priority k) x
  (rt_thread_ready_table k) (rt_scheduler_lock_nest k) (rt_interrupt_nest k) (rt_tick k) (sems
  k) (mutexes k) (events k) (history k).
Definition set_rt_thread_ready_table (x : list Z) (k : KERNEL) : KERNEL := mkKernel (nodes k)
  (threads k) (timers k) (rt_current_thread k) (rt_current_priority k)
  (rt_thread_ready_priority_group k) x (rt_scheduler_lock_nest k) (rt_interrupt_nest k) (rt_tick
  k) (sems k) (mutexes k) (events k) (history k).
Definition set_rt_scheduler_lock_nest (x : Z) (k : KERNEL) : KERNEL := mkKernel (nodes k)
  (threads k) (timers k) (rt_current_thread k) (rt_current_priority k)
  (rt_thread_ready_priority_group k) (rt_thread_ready_table k) x (rt_interrupt_nest k) (rt_tick
  k) (sems k) (mutexes k) (events k) (history k).
Definition set_rt_interrupt_nest (x : Z) (k : KERNEL) : KERNEL := mkKernel (nodes k) (threads k)
  (timers k) (rt_current_thread k) (rt_current_priority k) (rt_thread_ready_priority_group k)
  (rt_thread_ready_table k) (rt_scheduler_lock_nest k) x (rt_tick k) (sems k) (mutexes k)
  (events k) (history k).
Definition set_rt_tick (x : Z) (k : KERNEL) : KERNEL := mkKernel (nodes k) (threads k) (timers
  k) (rt_current_thread k) (rt_current_priority k) (rt_thread_ready_priority_group k)
  (rt_thread_ready_table k) (rt_scheduler_lock_nest k) (rt_interrupt_nest k) x (sems k) (mutexes
  k) (events k) (history k).
Definition set_sems (x : nat → rt_semaphore) (k : KERNEL) : KERNEL := mkKernel (nodes k)
  (threads k) (timers k) (rt_current_thread k) (rt_current_priority k)
  (rt_thread_ready_priority_group k) (rt_thread_ready_table k) (rt_scheduler_lock_nest k)
  (rt_interrupt_nest k) (rt_tick k) x (mutexes k) (events k) (history k).
Definition set_mutexes (x : nat → rt_mutex) (k : KERNEL) : KERNEL := mkKernel (nodes k) (threads
  k) (timers k) (rt_current_thread k) (rt_current_priority k) (rt_thread_ready_priority_group k)
  (rt_thread_ready_table k) (rt_scheduler_lock_nest k) (rt_interrupt_nest k) (rt_tick k) (sems
  k) x (events k) (history k).
Definition set_events (x : nat → rt_event) (k : KERNEL) : KERNEL := mkKernel (nodes k) (threads
  k) (timers k) (rt_current_thread k) (rt_current_priority k) (rt_thread_ready_priority_group k)
  (rt_thread_ready_table k) (rt_scheduler_lock_nest k) (rt_interrupt_nest k) (rt_tick k) (sems
  k) (mutexes k) x (history k).
Definition set_history (x : list KEvent) (k : KERNEL) : KERNEL := mkKernel (nodes k) (threads k)
  (timers k) (rt_current_thread k) (rt_current_priority k) (rt_thread_ready_priority_group k)
  (rt_thread_ready_table k) (rt_scheduler_lock_nest k) (rt_interrupt_nest k) (rt_tick k) (sems
  k) (mutexes k) (events k) x.

Definition upd_thread (t : nat) (f : rt_thread → rt_thread) (k : KERNEL) : KERNEL :=
  set_threads (<[t := f (threads k t)]> (threads k)) k.
Definition upd_timer (m : TIMER) (f : rt_timer → rt_timer) (k : KERNEL) : KERNEL :=
  set_timers (<[m := f (timers k m)]> (timers k)) k.
Definition upd_sem (i : nat) (f : rt_semaphore → rt_semaphore) (k : KERNEL) : KERNEL :=
  set_sems (<[i := f (sems k i)]> (sems k)) k.
Definition upd_mutex (i : nat) (f : rt_mutex → rt_mutex) (k : KERNEL) : KERNEL :=
  set_mutexes (<[i := f (mutexes k i)]> (mutexes k)) k.
Definition upd_event (i : nat) (f : rt_event → rt_event) (k : KERNEL) : KERNEL :=
  set_events (<[i := f (events k i)]> (events k)) k.
Definition upd_nodes (f : (NODE → rt_list_t NODE) → NODE → rt_list_t NODE) (k : KERNEL) : KERNEL :=
  set_nodes (f (nodes k)) k.
Definition record_event (e : KEvent) (k : KERNEL) : KERNEL :=
  set_history (history k ++ [e]) k.
