(* ===== verification/Sched.v ===== *)
(** * The scheduler (scheduler.c of the kernel)

    The threads that can run are in one list per priority, 256 of them; a bit
    for each list that is not empty is in 32 bytes, and a bit for each byte
    that is not zero in a word.  The highest priority (the smallest number) is
    found by two look-ups in a table.  [ready_ok] is the invariant that ties
    bits and lists together. *)
From stdpp Require Import base functions list sets.
From Stdlib Require Import ZArith Lia.
From S2P Require Import Prelude World Rtlist Kernel.

Definition rt_lowest_bitmap : list Z := [
  0; 0; 1; 0; 2; 0; 1; 0; 3; 0; 1; 0; 2; 0; 1; 0;
  4; 0; 1; 0; 2; 0; 1; 0; 3; 0; 1; 0; 2; 0; 1; 0;
  5; 0; 1; 0; 2; 0; 1; 0; 3; 0; 1; 0; 2; 0; 1; 0;
  4; 0; 1; 0; 2; 0; 1; 0; 3; 0; 1; 0; 2; 0; 1; 0;
  6; 0; 1; 0; 2; 0; 1; 0; 3; 0; 1; 0; 2; 0; 1; 0;
  4; 0; 1; 0; 2; 0; 1; 0; 3; 0; 1; 0; 2; 0; 1; 0;
  5; 0; 1; 0; 2; 0; 1; 0; 3; 0; 1; 0; 2; 0; 1; 0;
  4; 0; 1; 0; 2; 0; 1; 0; 3; 0; 1; 0; 2; 0; 1; 0;
  7; 0; 1; 0; 2; 0; 1; 0; 3; 0; 1; 0; 2; 0; 1; 0;
  4; 0; 1; 0; 2; 0; 1; 0; 3; 0; 1; 0; 2; 0; 1; 0;
  5; 0; 1; 0; 2; 0; 1; 0; 3; 0; 1; 0; 2; 0; 1; 0;
  4; 0; 1; 0; 2; 0; 1; 0; 3; 0; 1; 0; 2; 0; 1; 0;
  6; 0; 1; 0; 2; 0; 1; 0; 3; 0; 1; 0; 2; 0; 1; 0;
  4; 0; 1; 0; 2; 0; 1; 0; 3; 0; 1; 0; 2; 0; 1; 0;
  5; 0; 1; 0; 2; 0; 1; 0; 3; 0; 1; 0; 2; 0; 1; 0;
  4; 0; 1; 0; 2; 0; 1; 0; 3; 0; 1; 0; 2; 0; 1; 0].

(** ** The operations *)

(** The four tests on the word *)
Definition group_number (g : Z) : Z :=
  if negb (Z.land g 0xff =? 0) then tbl rt_lowest_bitmap (Z.land g 0xff)
  else if negb (Z.land g 0xff00 =? 0) then
    tbl rt_lowest_bitmap (Z.land (Z.shiftr g 8) 0xff) + 8
  else if negb (Z.land g 0xff0000 =? 0) then
    tbl rt_lowest_bitmap (Z.land (Z.shiftr g 16) 0xff) + 16
  else tbl rt_lowest_bitmap (Z.land (Z.shiftr g 24) 0xff) + 24.

Definition highest_ready_priority (k : KERNEL) : Z :=
  let number := group_number (rt_thread_ready_priority_group k) in
  Z.shiftl number 3 + tbl rt_lowest_bitmap (tbl (rt_thread_ready_table k) number).

(** [rt_list_entry (.., struct rt_thread, tlist)]: the head of an empty list is
    no thread *)
Definition list_thread (n : NODE) : option nat :=
  match n with N_tlist t => Some t | _ => None end.

Definition rt_schedule (k : KERNEL) : option KERNEL :=
  if rt_scheduler_lock_nest k =? 0 then
    let highest := highest_ready_priority k in
    to_thread ← list_thread (next (nodes k (N_ready highest)));
    if decide (rt_current_thread k = Some to_thread) then Some k
    else
      from_thread ← rt_current_thread k;
      Some (record_event
        (K_switch (Some from_thread) to_thread (negb (rt_interrupt_nest k =? 0)))
        (set_rt_current_thread (Some to_thread) (set_rt_current_priority (u8 highest) k)))
  else Some k.

Definition rt_system_scheduler_start (k : KERNEL) : option KERNEL :=
  to_thread ← list_thread (next (nodes k (N_ready (highest_ready_priority k))));
  Some (record_event (K_switch None to_thread false)
    (set_rt_current_thread (Some to_thread) k)).

Definition rt_schedule_insert_thread (t : nat) (k : KERNEL) : KERNEL :=
  let k := upd_thread t (set_stat RT_THREAD_READY) k in
  let th := threads k t in
  let k := upd_nodes (rt_list_insert_before (N_ready (current_priority th)) (N_tlist t)) k in
  let table := rt_thread_ready_table k in
  let k := set_rt_thread_ready_table
    (<[Z.to_nat (number th) := Z.lor (tbl table (number th)) (high_mask th)]> table) k in
  set_rt_thread_ready_priority_group
    (Z.lor (rt_thread_ready_priority_group k) (number_mask th)) k.

(** [x &= ~mask] is [Z.ldiff x mask]. *)
Definition rt_schedule_remove_thread (t : nat) (k : KERNEL) : KERNEL :=
  let th := threads k t in
  let k := upd_nodes (rt_list_remove (N_tlist t)) k in
  if rt_list_isempty (N_ready (current_priority th)) (nodes k) then
    let table := rt_thread_ready_table k in
    let k := set_rt_thread_ready_table
      (<[Z.to_nat (number th) := Z.ldiff (tbl table (number th)) (high_mask th)]> table) k in
    if tbl (rt_thread_ready_table k) (number th) =? 0 then
      set_rt_thread_ready_priority_group
        (Z.ldiff (rt_thread_ready_priority_group k) (number_mask th)) k
    else k
  else k.

(** The counter is a signed 16-bit one. *)
Definition s16 (x : Z) : Z := (x + 32768) mod 65536 - 32768.

Definition rt_enter_critical (k : KERNEL) : KERNEL :=
  set_rt_scheduler_lock_nest (s16 (rt_scheduler_lock_nest k + 1)) k.

Definition rt_exit_critical (k : KERNEL) : option KERNEL :=
  let k := set_rt_scheduler_lock_nest (s16 (rt_scheduler_lock_nest k - 1)) k in
  if rt_scheduler_lock_nest k <=? 0 then rt_schedule (set_rt_scheduler_lock_nest 0 k)
  else Some k.

(** [for (offset = 0; offset < RT_THREAD_PRIORITY_MAX; offset ++)] *)
Fixpoint init_priority_table (offset : nat) (k : KERNEL) : KERNEL :=
  match offset with
  | O => k
  | S n => upd_nodes (rt_list_init (N_ready (Z.of_nat n))) (init_priority_table n k)
  end.

Definition rt_system_scheduler_init (k : KERNEL) : KERNEL :=
  let k := set_rt_scheduler_lock_nest 0 k in
  let k := init_priority_table (Z.to_nat RT_THREAD_PRIORITY_MAX) k in
  let k := set_rt_current_priority (RT_THREAD_PRIORITY_MAX - 1) k in
  let k := set_rt_current_thread None k in
  let k := set_rt_thread_ready_priority_group 0 k in
  let k := set_rt_thread_ready_table (repeat 0 32) k in
  upd_nodes (rt_list_init N_defunct) k.

(** ** The lowest bit *)

Definition least (x i : Z) : Prop :=
  0 ≤ i ∧ Z.testbit x i = true ∧ ∀ j, 0 ≤ j < i → Z.testbit x j = false.

Definition lowest_checked (b : Z) : bool :=
  let i := tbl rt_lowest_bitmap b in
  (b =? 0) || ((0 <=? i) && (i <? 8) && Z.testbit b i &&
    forallb (λ j, negb (Z.testbit b (Z.of_nat j))) (seq 0 (Z.to_nat i))).

Lemma lowest_bitmap_least b : byte b → b ≠ 0 →
  least b (tbl rt_lowest_bitmap b) ∧ tbl rt_lowest_bitmap b < 8.
Proof.
  assert (∀ b, byte b → lowest_checked b = true) as Hall.
  { apply byte_forall. by_computation. }
  intros Hb H0. specialize (Hall b Hb). unfold lowest_checked in Hall.
  rewrite (proj2 (Z.eqb_neq b 0) H0) in Hall. cbn [orb] in Hall.
  rewrite !andb_true_iff, forallb_forall, Z.leb_le, Z.ltb_lt in Hall. destruct Hall as [[[H1 H2] H3] H4].
  split; [|lia]. split_and!; [lia|done|]. intros j Hj.
  apply negb_true_iff. rewrite <- (Z2Nat.id j) by lia. apply H4, in_seq. lia.
Qed.

(** The byte of [g] from bit [k] on *)
Lemma byte_at g k : 0 ≤ k → byte (Z.land (Z.shiftr g k) 0xff).
Proof. intros. apply fits_land_r; [lia|]. by unfold fits. Qed.

Lemma byte_at_testbit g k j : 0 ≤ k → 0 ≤ j →
  Z.testbit (Z.land (Z.shiftr g k) 0xff) j = (j <? 8) && Z.testbit g (j + k).
Proof.
  intros Hk Hj. change 0xff with (Z.ones 8).
  rewrite Z.land_spec, Z.shiftr_spec by done. destruct (Z.ltb_spec j 8).
  - rewrite Z.ones_spec_low, andb_true_r by lia. done.
  - rewrite Z.ones_spec_high, andb_false_r by lia. done.
Qed.

Lemma byte_at_mask g k : 0 ≤ k →
  Z.land g (Z.shiftl 0xff k) = Z.shiftl (Z.land (Z.shiftr g k) 0xff) k.
Proof.
  intros Hk. apply Z.bits_inj'. intros j Hj. rewrite Z.land_spec, !Z.shiftl_spec by lia.
  destruct (Z.ltb_spec j k).
  - rewrite !(testbit_neg _ (j - k)) by lia. apply andb_false_r.
  - rewrite Z.land_spec, Z.shiftr_spec by lia. by replace (j - k + k) with j by lia.
Qed.

Lemma byte_at_zero g k : 0 ≤ k → Z.land (Z.shiftr g k) 0xff = 0 →
  ∀ j, k ≤ j < k + 8 → Z.testbit g j = false.
Proof.
  intros Hk E j Hj. pose proof (byte_at_testbit g k (j - k) Hk ltac:(lia)) as Hb.
  rewrite E, Z.bits_0, (proj2 (Z.ltb_lt (j - k) 8)) in Hb by lia.
  by replace (j - k + k) with j in Hb by lia.
Qed.

Lemma least_at g k : 0 ≤ k → Z.land (Z.shiftr g k) 0xff ≠ 0 →
  (∀ j, 0 ≤ j < k → Z.testbit g j = false) →
  let n := tbl rt_lowest_bitmap (Z.land (Z.shiftr g k) 0xff) + k in least g n ∧ n < k + 8.
Proof.
  intros Hk H0 Hlow. cbn zeta.
  destruct (lowest_bitmap_least _ (byte_at g k Hk) H0) as [(L1 & L2 & L3) L4].
  rewrite byte_at_testbit in L2 by done. apply andb_true_iff in L2 as [_ L2].
  split; [|lia]. split_and!; [lia|done|]. intros j Hj. destruct (Z.lt_ge_cases j k); [apply Hlow; lia|].
  specialize (L3 (j - k) ltac:(lia)). rewrite byte_at_testbit in L3 by lia.
  rewrite (proj2 (Z.ltb_lt (j - k) 8)) in L3 by lia. by replace (j - k + k) with j in L3 by lia.
Qed.

Lemma group_number_least g : word32 g → g ≠ 0 →
  least g (group_number g) ∧ group_number g < 32.
Proof.
  intros Hg H0. unfold group_number.
  assert (∀ k, 0 ≤ k → (Z.land g (Z.shiftl 0xff k) =? 0) = (Z.land (Z.shiftr g k) 0xff =? 0)) as E.
  { intros k Hk. rewrite byte_at_mask by done. rewrite Z.shiftl_mul_pow2 by done.
    apply eq_true_iff_eq. rewrite !Z.eqb_eq. pose proof (Z.pow_pos_nonneg 2 k). nia. }
  pose proof (E 0) as E0. pose proof (E 8) as E8. pose proof (E 16) as E16.
  change (Z.shiftl 255 0) with 0xff in E0. change (Z.shiftl 255 8) with 0xff00 in E8.
  change (Z.shiftl 255 16) with 0xff0000 in E16. rewrite Z.shiftr_0_r in E0.
  rewrite E8, E16 by lia. clear E E0 E8 E16.
  pose proof (least_at g 0) as L0. rewrite Z.shiftr_0_r, Z.add_0_r in L0.
  pose proof (byte_at_zero g 0) as Z0. rewrite Z.shiftr_0_r in Z0.
  destruct (Z.eqb_spec (Z.land g 255) 0) as [H1|H1]; cbn [negb].
  2:{ destruct L0 as [? ?]; [done|done|lia|]. split; [done|lia]. }
  assert (∀ j, 0 ≤ j < 8 → Z.testbit g j = false) as B1 by (intros; apply Z0; [done|done|lia]).
  destruct (Z.eqb_spec (Z.land (Z.shiftr g 8) 255) 0) as [H2|H2]; cbn [negb].
  2:{ destruct (least_at g 8) as [? ?]; [lia|done|done|]. split; [done|lia]. }
  assert (∀ j, 0 ≤ j < 16 → Z.testbit g j = false) as B2.
  { intros j Hj. destruct (Z.lt_ge_cases j 8); [apply B1; lia|].
    eapply byte_at_zero; [|exact H2|]; lia. }
  destruct (Z.eqb_spec (Z.land (Z.shiftr g 16) 255) 0) as [H3|H3]; cbn [negb].
  2:{ destruct (least_at g 16) as [? ?]; [lia|done|done|]. split; [done|lia]. }
  assert (∀ j, 0 ≤ j < 24 → Z.testbit g j = false) as B3.
  { intros j Hj. destruct (Z.lt_ge_cases j 16); [apply B2; lia|].
    eapply byte_at_zero; [|exact H3|]; lia. }
  destruct (least_at g 24) as [? ?]; [lia| |done|split; [done|lia]].
  intros H4. apply H0, Z.bits_inj'. intros j Hj. rewrite Z.bits_0.
  destruct (Z.lt_ge_cases j 24); [apply B3; lia|].
  destruct (Z.lt_ge_cases j 32); [eapply byte_at_zero; [|exact H4|]; lia|].
  by apply (fits_testbit 32).
Qed.

(** ** Bits and lists *)

Definition valid_priority (p : Z) : Prop := 0 ≤ p < RT_THREAD_PRIORITY_MAX.

(** What [rt_thread_startup] computes from the priority of a thread *)
Definition attr_ok (th : rt_thread) : Prop :=
  valid_priority (current_priority th) ∧ number th = current_priority th / 8 ∧
  high_mask th = 2 ^ (current_priority th mod 8) ∧ number_mask th = 2 ^ (current_priority th / 8).

Record ready_ok (k : KERNEL) (L : NODE → list NODE) : Prop := {
  ready_table : length (rt_thread_ready_table k) = 32%nat ∧ Forall byte (rt_thread_ready_table k);
  ready_group : word32 (rt_thread_ready_priority_group k);
  ready_bit p : valid_priority p →
    (Z.testbit (tbl (rt_thread_ready_table k) (p / 8)) (p mod 8) = true ↔ L (N_ready p) ≠ []);
  ready_group_bit i : 0 ≤ i < 32 →
    (Z.testbit (rt_thread_ready_priority_group k) i = true ↔
     tbl (rt_thread_ready_table k) i ≠ 0);
  ready_member p n : n ∈ L (N_ready p) →
    ∃ t, n = N_tlist t ∧ current_priority (threads k t) = p
}.

Lemma tbl_insert l i j v : 0 ≤ i < Z.of_nat (length l) → 0 ≤ j →
  tbl (<[Z.to_nat i := v]> l) j = if decide (j = i) then v else tbl l j.
Proof.
  intros Hi Hj. unfold tbl. rewrite !nth_lookup. case_decide.
  - subst. by rewrite list_lookup_insert_eq by lia.
  - rewrite list_lookup_insert_ne by lia. done.
Qed.

Lemma byte_nonzero b : byte b → b ≠ 0 → ∃ j, 0 ≤ j < 8 ∧ Z.testbit b j = true.
Proof.
  intros Hb H0. destruct (lowest_bitmap_least b Hb H0) as [(H1 & H2 & _) H3]. eauto.
Qed.

Lemma byte_bit_nonzero b j : Z.testbit b j = true → b ≠ 0.
Proof. intros H ->. by rewrite Z.bits_0 in H. Qed.

(** The search finds the smallest number of a list that is not empty. *)
Lemma highest_ready_least k L q : ready_ok k L → valid_priority q → L (N_ready q) ≠ [] →
  let p := highest_ready_priority k in
  valid_priority p ∧ L (N_ready p) ≠ [] ∧ ∀ r, 0 ≤ r < p → L (N_ready r) = [].
Proof.
  intros [[Hl Hb] Hg Hbit Hgb _] Hq HLq. unfold valid_priority, RT_THREAD_PRIORITY_MAX in *.
  assert (0 ≤ q / 8 < 32 ∧ 0 ≤ q mod 8 < 8) as [Hq8 Hqm]
    by (pose proof (Z.mod_pos_bound q 8); split; [split|]; [apply Z.div_pos| |]; try lia;
        apply Z.div_lt_upper_bound; lia).
  assert (rt_thread_ready_priority_group k ≠ 0) as G0.
  { intros E. apply (Hbit q Hq), byte_bit_nonzero, (Hgb _ Hq8) in HLq. by rewrite E, Z.bits_0 in HLq. }
  destruct (group_number_least _ Hg G0) as [(N1 & N2 & N3) N4]. unfold highest_ready_priority.
  set (n := group_number (rt_thread_ready_priority_group k)) in *.
  set (b := tbl (rt_thread_ready_table k) n).
  assert (byte b) as Hbb by (apply tbl_fits; [lia|done]).
  assert (b ≠ 0) as B0 by (by apply Hgb).
  destruct (lowest_bitmap_least b Hbb B0) as [(M1 & M2 & M3) M4].
  set (m := tbl rt_lowest_bitmap b) in *.
  rewrite Z.shiftl_mul_pow2 by lia. change (2 ^ 3) with 8. cbn zeta.
  assert (∀ n' m', 0 ≤ m' < 8 → (n' * 8 + m') / 8 = n' ∧ (n' * 8 + m') mod 8 = m') as D.
  { intros n' m' Hm. split; [symmetry; apply Z.div_unique with m'|
      symmetry; apply Z.mod_unique with n']; lia. }
  split_and!; [lia|lia| |].
  - apply Hbit; [lia|]. destruct (D n m ltac:(lia)) as [-> ->]. done.
  - intros r Hr. destruct (decide (L (N_ready r) = [])) as [|HLr]; [done|exfalso].
    apply Hbit in HLr; [|lia]. pose proof (Z.div_mod r 8 ltac:(lia)) as Er.
    pose proof (Z.mod_pos_bound r 8 ltac:(lia)) as Hrm.
    destruct (Z.lt_trichotomy (r / 8) n) as [Hlt|[Heq|Hgt]]; [..|lia].
    + assert (0 ≤ r / 8) by (apply Z.div_pos; lia).
      pose proof (N3 (r / 8) ltac:(lia)) as Hno. apply byte_bit_nonzero, Hgb in HLr; [|lia].
      congruence.
    + rewrite Heq in HLr. fold b in HLr. rewrite (M3 (r mod 8)) in HLr by lia. done.
Qed.

(** ** Inserting and removing a thread *)

Lemma priority_index p : valid_priority p → 0 ≤ p / 8 < 32 ∧ 0 ≤ p mod 8 < 8.
Proof.
  unfold valid_priority, RT_THREAD_PRIORITY_MAX. intros H.
  pose proof (Z.mod_pos_bound p 8). split; [split|lia].
  - apply Z.div_pos; lia.
  - apply Z.div_lt_upper_bound; lia.
Qed.

Lemma priority_eq p q : p / 8 = q / 8 → p mod 8 = q mod 8 → p = q.
Proof. intros H1 H2. rewrite (Z.div_mod p 8), (Z.div_mod q 8) by lia. congruence. Qed.

Lemma pow2_byte j : 0 ≤ j < 8 → byte (2 ^ j).
Proof. intros H. split; [apply Z.pow_nonneg; lia|]. apply Z.pow_lt_mono_r; lia. Qed.

Lemma pow2_word j : 0 ≤ j < 32 → word32 (2 ^ j).
Proof. intros H. split; [apply Z.pow_nonneg; lia|]. apply Z.pow_lt_mono_r; lia. Qed.

Lemma ldiff_fits w a b : 0 ≤ w → fits w a → fits w (Z.ldiff a b).
Proof.
  intros Hw Ha. apply testbit_fits; [done| |].
  - apply Z.ldiff_nonneg. left. apply Ha.
  - intros i Hi. by rewrite Z.ldiff_spec, (fits_testbit w a).
Qed.

Lemma pow2_testbit i j : 0 ≤ i → Z.testbit (2 ^ i) j = (i =? j).
Proof. intros. by apply Z.pow2_bits_eqb. Qed.

Lemma forall_insert_byte l i v : Forall byte l → byte v → Forall byte (<[i := v]> l).
Proof. intros Hl Hv. by apply Forall_insert. Qed.

Lemma insert_thread_ok k L t : lists is_head (nodes k) L → ready_ok k L →
  attr_ok (threads k t) → loose is_head L (N_tlist t) →
  let p := current_priority (threads k t) in
  let k' := rt_schedule_insert_thread t k in
  let L' := <[N_ready p := L (N_ready p) ++ [N_tlist t]]> L in
  lists is_head (nodes k') L' ∧ ready_ok k' L'.
Proof.
  intros HL [[Hlen Hb] Hg Hbit Hgb Hm] (Hp & Hn & Hh & Hnm) Hloose p k' L'.
  assert (threads k' = <[t := set_stat RT_THREAD_READY (threads k t)]> (threads k)) as Et by done.
  assert (nodes k' = rt_list_insert_before (N_ready p) (N_tlist t) (nodes k)) as En.
  { unfold k', rt_schedule_insert_thread. cbn -[rt_list_insert_before]. by rewrite fn_lookup_insert. }
  assert (rt_thread_ready_table k' = <[Z.to_nat (p / 8) :=
    Z.lor (tbl (rt_thread_ready_table k) (p / 8)) (2 ^ (p mod 8))]> (rt_thread_ready_table k)) as Etb.
  { unfold k', rt_schedule_insert_thread. cbn -[rt_list_insert_before Z.pow]. rewrite fn_lookup_insert.
    cbn [number high_mask set_stat]. by rewrite Hn, Hh. }
  assert (rt_thread_ready_priority_group k' =
    Z.lor (rt_thread_ready_priority_group k) (2 ^ (p / 8))) as Eg.
  { unfold k', rt_schedule_insert_thread. cbn -[rt_list_insert_before Z.pow]. rewrite fn_lookup_insert.
    cbn [number_mask set_stat]. by rewrite Hnm. }
  destruct (priority_index p Hp) as [Hi Hj]. split.
  { rewrite En. apply lists_insert_last; done. }
  assert (∀ i, 0 ≤ i → tbl (rt_thread_ready_table k') i =
    if decide (i = p / 8) then Z.lor (tbl (rt_thread_ready_table k) (p / 8)) (2 ^ (p mod 8))
    else tbl (rt_thread_ready_table k) i) as Htb.
  { intros i H0. rewrite Etb. apply tbl_insert; lia. }
  assert (∀ q, L' (N_ready q) ≠ [] ↔ q = p ∨ L (N_ready q) ≠ []) as HL'.
  { intros q. unfold L'. destruct (decide (q = p)) as [->|Hne].
    - rewrite fn_lookup_insert. split; [by left|]. intros _. by destruct (L (N_ready p)).
    - rewrite fn_lookup_insert_ne by congruence. tauto. }
  split.
  - rewrite Etb, length_insert. split; [done|]. apply forall_insert_byte; [done|].
    apply fits_lor; [lia|apply tbl_fits; [lia|done]|by apply pow2_byte].
  - rewrite Eg. apply fits_lor; [lia|done|by apply pow2_word].
  - intros q Hq. destruct (priority_index q Hq) as [Hqi Hqj].
    rewrite Htb, HL' by lia. case_decide as E.
    + rewrite Z.lor_spec, pow2_testbit, orb_true_iff, Z.eqb_eq by lia. rewrite <- E.
      rewrite Hbit by done. split; [intros [?|?]; [by right|left; by apply priority_eq]|].
      intros [->|?]; [by right|by left].
    + rewrite Hbit by done. split; [by right|]. intros [->|?]; done.
  - intros i H0. rewrite Eg, Z.lor_spec, pow2_testbit, orb_true_iff, Z.eqb_eq, Htb by lia.
    rewrite Hgb by done. case_decide as E.
    + split; [intros _|by right]. apply (byte_bit_nonzero _ (p mod 8)).
      rewrite Z.lor_spec, pow2_testbit, Z.eqb_refl by lia. apply orb_true_r.
    + split; [intros [?|?]; [done|congruence]|by left].
  - intros q n. rewrite Et. unfold L'. destruct (decide (q = p)) as [->|Hne].
    + rewrite fn_lookup_insert, elem_of_app, list_elem_of_singleton. intros [Hin| ->].
      * destruct (Hm _ _ Hin) as (t' & -> & E). exists t'. split; [done|].
        destruct (decide (t' = t)) as [->|]; [by rewrite fn_lookup_insert|
          by rewrite fn_lookup_insert_ne].
      * exists t. by rewrite fn_lookup_insert.
    + rewrite fn_lookup_insert_ne by congruence. intros Hin.
      destruct (Hm _ _ Hin) as (t' & -> & E). exists t'. split; [done|].
      destruct (decide (t' = t)) as [->|]; [by rewrite fn_lookup_insert|
        by rewrite fn_lookup_insert_ne].
Qed.

Lemma without_nil (n : NODE) xs : xs = [] → filter (.≠ n) xs = [].
Proof. by intros ->. Qed.

Lemma remove_thread_ok k L t : lists is_head (nodes k) L → ready_ok k L → attr_ok (threads k t) →
  let k' := rt_schedule_remove_thread t k in
  let L' := without (N_tlist t) L in
  lists is_head (nodes k') L' ∧ ready_ok k' L' ∧ loose is_head L' (N_tlist t) ∧
  threads k' = threads k.
Proof.
  intros HL [[Hlen Hb] Hg Hbit Hgb Hm] (Hp & Hn & Hh & Hnm) k' L'.
  set (p := current_priority (threads k t)) in *.
  destruct (lists_remove is_head (nodes k) L (N_tlist t)) as [HL' Hloose]; [by intros []|done|].
  fold L' in HL', Hloose.
  assert (nodes k' = rt_list_remove (N_tlist t) (nodes k) ∧ threads k' = threads k) as [En Et].
  { unfold k', rt_schedule_remove_thread. by repeat case_match. }
  destruct (priority_index p Hp) as [Hi Hj].
  assert (∀ q, q ≠ p → L' (N_ready q) = L (N_ready q)) as Hother.
  { intros q Hne. apply without_id. intros Hin. destruct (Hm _ _ Hin) as (t' & [= <-] & E). done. }
  split_and!; [by rewrite En| |done|done].
  pose proof (lists_isempty is_head _ _ (N_ready p) HL' I) as Hemp.
  assert (rt_thread_ready_table k' = (if bool_decide (L' (N_ready p) = []) then <[Z.to_nat (p / 8) :=
    Z.ldiff (tbl (rt_thread_ready_table k) (p / 8)) (2 ^ (p mod 8))]> (rt_thread_ready_table k)
    else rt_thread_ready_table k) ∧
    rt_thread_ready_priority_group k' = (if bool_decide (L' (N_ready p) = []) &&
      (tbl (rt_thread_ready_table k') (p / 8) =? 0)
    then Z.ldiff (rt_thread_ready_priority_group k) (2 ^ (p / 8))
    else rt_thread_ready_priority_group k)) as [Etb Eg].
  { unfold k', rt_schedule_remove_thread. fold p. rewrite Hn, Hh, Hnm. fold p.
    cbn -[rt_list_isempty rt_list_remove Z.pow tbl]. rewrite Hemp.
    destruct (bool_decide _); [|done]. cbn -[Z.pow tbl].
    match goal with |- context [if ?b then _ else _] => destruct b eqn:E end;
      cbn -[Z.pow tbl]; by rewrite ?E. }
  destruct (decide (L' (N_ready p) = [])) as [Hnil|Hnil].
  2:{ rewrite bool_decide_eq_false_2 in Etb, Eg by done. cbn [andb] in Eg.
      assert (L (N_ready p) ≠ []) as Hnil' by (intros E; by apply Hnil, without_nil).
      split; [by rewrite Etb|by rewrite Eg| |intros i Hi'; rewrite Eg, Etb; by apply Hgb|].
      - intros q Hq. rewrite Etb, Hbit by done.
        destruct (decide (q = p)) as [->|Hne]; [done|by rewrite Hother].
      - intros q n [Hin _]%elem_without. rewrite Et. by apply Hm. }
  rewrite bool_decide_eq_true_2 in Etb, Eg by done. cbn [andb] in Eg.
  assert (∀ i, 0 ≤ i → tbl (rt_thread_ready_table k') i =
    if decide (i = p / 8) then Z.ldiff (tbl (rt_thread_ready_table k) (p / 8)) (2 ^ (p mod 8))
    else tbl (rt_thread_ready_table k) i) as Htb.
  { intros i H0. rewrite Etb. apply tbl_insert; lia. }
  split.
  - rewrite Etb, length_insert. split; [done|]. apply forall_insert_byte; [done|].
    apply ldiff_fits; [lia|apply tbl_fits; [lia|done]].
  - rewrite Eg. case_match; [apply ldiff_fits; [lia|done]|done].
  - intros q Hq. destruct (priority_index q Hq) as [Hqi Hqj].
    destruct (decide (q = p)) as [->|Hne].
    + rewrite Htb, decide_True by lia. rewrite Z.ldiff_spec, pow2_testbit, Z.eqb_refl by lia.
      by rewrite andb_false_r.
    + rewrite Hother, <- Hbit, Htb by (done || lia). case_decide as E; [|done].
      rewrite Z.ldiff_spec, pow2_testbit, <- E by lia.
      rewrite (proj2 (Z.eqb_neq _ _)) by (intros E2; by apply Hne, priority_eq).
      by rewrite andb_true_r.
  - intros i H0. rewrite Eg. destruct (decide (i = p / 8)) as [->|Hne].
    + destruct (Z.eqb_spec (tbl (rt_thread_ready_table k') (p / 8)) 0) as [E|E].
      * rewrite Z.ldiff_spec, pow2_testbit, Z.eqb_refl, andb_false_r by lia. done.
      * rewrite Hgb by done. split; [done|]. intros _ E2. apply E.
        rewrite Htb, decide_True, E2 by lia. apply Z.ldiff_0_l.
    + rewrite (Htb i), decide_False by (done || lia). rewrite <- Hgb by done.
      case_match; [|done]. rewrite Z.ldiff_spec, pow2_testbit by lia.
      by rewrite (proj2 (Z.eqb_neq _ _)), andb_true_r by congruence.
  - intros q n [Hin _]%elem_without. rewrite Et. by apply Hm.
Qed.

(** ** Choosing a thread *)

(** The thread [t] is the first one of the smallest priority that has one. *)
Definition first_ready (L : NODE → list NODE) (t : nat) : Prop :=
  ∃ p rest, valid_priority p ∧ L (N_ready p) = N_tlist t :: rest ∧
    ∀ r, 0 ≤ r < p → L (N_ready r) = [].

Definition any_ready (L : NODE → list NODE) : Prop :=
  ∃ p, valid_priority p ∧ L (N_ready p) ≠ [].

(** Scheduling touches the running thread and nothing else. *)
Record rescheduled (k k' : KERNEL) : Prop := {
  resched_nodes : nodes k' = nodes k;
  resched_threads : threads k' = threads k;
  resched_timers : timers k' = timers k;
  resched_group : rt_thread_ready_priority_group k' = rt_thread_ready_priority_group k;
  resched_table : rt_thread_ready_table k' = rt_thread_ready_table k;
  resched_nest : rt_interrupt_nest k' = rt_interrupt_nest k;
  resched_lock : rt_scheduler_lock_nest k' = rt_scheduler_lock_nest k;
  resched_tick : rt_tick k' = rt_tick k;
  resched_sems : sems k' = sems k;
  resched_mutexes : mutexes k' = mutexes k;
  resched_events : events k' = events k;
  resched_history : ∃ h, history k' = history k ++ h
}.

#[export] Instance rescheduled_preorder : PreOrder rescheduled.
Proof.
  split.
  - intros k. split; try done. exists []. by rewrite app_nil_r.
  - intros k1 k2 k3 [] []. split; try congruence.
    destruct resched_history0 as [h1 E1], resched_history1 as [h2 E2].
    exists (h1 ++ h2). by rewrite E2, E1, app_assoc.
Qed.

Lemma highest_thread k L : lists is_head (nodes k) L → ready_ok k L → any_ready L →
  ∃ t, list_thread (next (nodes k (N_ready (highest_ready_priority k)))) = Some t ∧
    first_ready L t.
Proof.
  intros HL HR (q & Hq & HLq).
  destruct (highest_ready_least _ _ _ HR Hq HLq) as (Hp & Hne & Hlow).
  set (p := highest_ready_priority k) in *.
  rewrite (lists_next_head is_head _ L) by done.
  destruct (L (N_ready p)) as [|n rest] eqn:E; [done|]. cbn.
  destruct (ready_member _ _ HR p n) as (t & -> & _); [rewrite E; by left|].
  exists t. split; [done|]. by exists p, rest.
Qed.

Lemma rt_schedule_locked k : rt_scheduler_lock_nest k ≠ 0 → rt_schedule k = Some k.
Proof. intros H. unfold rt_schedule. by rewrite (proj2 (Z.eqb_neq _ _) H). Qed.

Lemma rt_schedule_ok k L c : lists is_head (nodes k) L → ready_ok k L → any_ready L →
  rt_current_thread k = Some c → ∃ k', rt_schedule k = Some k' ∧ rescheduled k k' ∧
    (rt_scheduler_lock_nest k = 0 → ∃ t, rt_current_thread k' = Some t ∧ first_ready L t) ∧
    (rt_scheduler_lock_nest k ≠ 0 → k' = k).
Proof.
  intros HL HR Hany Hc. destruct (decide (rt_scheduler_lock_nest k = 0)) as [H0|H0].
  2:{ exists k. rewrite rt_schedule_locked by done. split_and!; done. }
  destruct (highest_thread _ _ HL HR Hany) as (t & E & Ht). unfold rt_schedule.
  rewrite H0, E, Hc. cbn [Z.eqb mbind option_bind]. case_decide as Ec.
  - exists k. injection Ec as ->. split_and!; [done|done|eauto|done].
  - eexists. split; [done|]. split_and!; [|intros _; by exists t|done].
    split; try done. eexists. reflexivity.
Qed.
