(* ===== verification/Timer.v ===== *)
(** * Timers (timer.c of the kernel)

    The running timers are a list ordered by their time, a 32-bit tick that
    wraps around; every tick the kernel calls the functions of those that have
    come to their time.  Only hard timers are compiled in
    (RT_USING_TIMER_SOFT is off).  The abstract timers count down:
    [timers_refine_countdowns] says that the list on wrapping ticks is that
    for any sequence of calls, at any time. *)
From stdpp Require Import base functions list sets.
From Stdlib Require Import ZArith Lia Sorted.
From S2P Require Import Prelude World Rtlist Kernel.

(** How many nodes a walk over a list may visit, and how many timers may expire
    in one tick *)
Class Fuel := fuel : nat.

(** ** The operations *)

Definition activated (tm : rt_timer) : bool :=
  negb (Z.land (timer_flag tm) RT_TIMER_FLAG_ACTIVATED =? 0).
Definition periodic (tm : rt_timer) : bool :=
  negb (Z.land (timer_flag tm) RT_TIMER_FLAG_PERIODIC =? 0).
Definition activate (tm : rt_timer) : rt_timer :=
  set_timer_flag (Z.lor (timer_flag tm) RT_TIMER_FLAG_ACTIVATED) tm.
Definition deactivate (tm : rt_timer) : rt_timer :=
  set_timer_flag (Z.ldiff (timer_flag tm) RT_TIMER_FLAG_ACTIVATED) tm.

Definition rt_timer_init (m : TIMER) (time flag : Z) (k : KERNEL) : KERNEL :=
  let k := upd_timer m (λ _, deactivate (mkTimer flag time 0)) k in
  upd_nodes (rt_list_init (N_timer m)) k.

(** [for (n = timer_list->next; n != timer_list; n = n->next)]: the node
    before which a timer with time [tick] belongs *)
Fixpoint timer_position (visits : nat) (n : NODE) (tick : Z) (k : KERNEL) : option NODE :=
  match visits with
  | O => None
  | S visits =>
      match n with
      | N_timers => Some N_timers
      | N_timer t =>
          if u32 (timeout_tick (timers k t) - tick) <? RT_TICK_MAX / 2 then Some n
          else timer_position visits (next (nodes k n)) tick k
      | _ => None
      end
  end.

Section timer.
Context {F : Fuel}.

Definition rt_timer_start (m : TIMER) (k : KERNEL) : option (Z * KERNEL) :=
  if activated (timers k m) then Some (- RT_ERROR, k)
  else if timer_init_tick (timers k m) <? RT_TICK_MAX / 2 then
    let k := upd_timer m (set_timeout_tick (u32 (rt_tick k + timer_init_tick (timers k m)))) k in
    n ← timer_position fuel (next (nodes k N_timers)) (timeout_tick (timers k m)) k;
    let k := upd_nodes (rt_list_insert_before n (N_timer m)) k in
    Some (- RT_EOK, upd_timer m activate k)
  else None.

Definition rt_timer_stop (m : TIMER) (k : KERNEL) : Z * KERNEL :=
  if activated (timers k m) then
    (RT_EOK, upd_timer m deactivate (upd_nodes (rt_list_remove (N_timer m)) k))
  else (- RT_ERROR, k).

Definition rt_timer_detach (m : TIMER) (k : KERNEL) : KERNEL :=
  upd_nodes (rt_list_remove (N_timer m)) k.

(** The commands of [rt_timer_control] that store something *)
Definition rt_timer_set_time (m : TIMER) (time : Z) (k : KERNEL) : KERNEL :=
  upd_timer m (set_timer_init_tick time) k.
Definition rt_timer_set_oneshot (m : TIMER) (k : KERNEL) : KERNEL :=
  upd_timer m (λ t, set_timer_flag (Z.ldiff (timer_flag t) RT_TIMER_FLAG_PERIODIC) t) k.
Definition rt_timer_set_periodic (m : TIMER) (k : KERNEL) : KERNEL :=
  upd_timer m (λ t, set_timer_flag (Z.lor (timer_flag t) RT_TIMER_FLAG_PERIODIC) t) k.

Definition rt_timer_next_timeout_tick (k : KERNEL) : Z :=
  match next (nodes k N_timers) with
  | N_timer t => timeout_tick (timers k t)
  | _ => RT_TICK_MAX
  end.

(** What a timer calls *)
Variable timeout_func : TIMER → KERNEL → option KERNEL.

(** One round of the loop of [rt_timer_check], for the timer [t] whose time
    has come *)
Definition timer_expire (t : TIMER) (k : KERNEL) : option KERNEL :=
  let k := record_event (K_timeout t (rt_tick k)) k in
  let k := upd_nodes (rt_list_remove (N_timer t)) k in
  k ← timeout_func t k;
  if periodic (timers k t) && activated (timers k t) then
    '(_, k) ← rt_timer_start t (upd_timer t deactivate k);
    Some k
  else Some (upd_timer t deactivate k).

(** [current_tick] is read before the loop and after every call. *)
Fixpoint timer_check_loop (rounds : nat) (current_tick : Z) (k : KERNEL) : option KERNEL :=
  match rounds with
  | O => None
  | S rounds =>
      if rt_list_isempty N_timers (nodes k) then Some k
      else
        match next (nodes k N_timers) with
        | N_timer t =>
            if u32 (current_tick - timeout_tick (timers k t)) <? RT_TICK_MAX / 2 then
              k ← timer_expire t k;
              timer_check_loop rounds (rt_tick k) k
            else Some k
        | _ => None
        end
  end.

Definition rt_timer_check (k : KERNEL) : option KERNEL :=
  timer_check_loop fuel (rt_tick k) k.

(** The first and the last statement of [rt_tick_increase] *)
Definition timer_tick (k : KERNEL) : option KERNEL :=
  rt_timer_check (set_rt_tick (u32 (rt_tick k + 1)) k).
End timer.

(** ** Countdowns *)

(** The timers that run, each with the ticks it still has *)
Abbreviation countdown := (list (TIMER * Z)).

Fixpoint cd_insert (m : TIMER) (d : Z) (cd : countdown) : countdown :=
  match cd with
  | [] => [(m, d)]
  | (m', d') :: cd' => if d <=? d' then (m, d) :: cd else (m', d') :: cd_insert m d cd'
  end.

Definition cd_remove (m : TIMER) (cd : countdown) : countdown := filter (λ x, x.1 ≠ m) cd.

Definition cd_nodes (cd : countdown) : list NODE := map (λ x, N_timer x.1) cd.

(** The list of the kernel has the timers of [cd] in order, and the time of each
    is the present tick plus what is left, modulo 2 ^ 32. *)
Record counting (k : KERNEL) (L : NODE → list NODE) (cd : countdown) : Prop := {
  cnt_nodes : L N_timers = cd_nodes cd;
  cnt_time m d : (m, d) ∈ cd →
    -1 ≤ d < RT_TICK_MAX / 2 ∧ timeout_tick (timers k m) = u32 (rt_tick k + d);
  cnt_sorted : StronglySorted (λ x y, x.2 ≤ y.2) cd;
  cnt_only h m : is_head h → N_timer m ∈ L h → h = N_timers
}.

Lemma wrap_diff t a b : - 2 ^ 31 < a - b < RT_TICK_MAX / 2 →
  (u32 (u32 (t + a) - u32 (t + b)) <? RT_TICK_MAX / 2) = (b <=? a).
Proof.
  intros Hab. change (RT_TICK_MAX / 2) with 2147483647 in *. unfold wrap.
  rewrite <- Zminus_mod. replace (t + a - (t + b)) with (a - b) by lia.
  change (2 ^ 32) with 4294967296. destruct (Z.leb_spec b a).
  - rewrite Z.mod_small by lia. apply Z.ltb_lt. lia.
  - apply Z.ltb_ge. rewrite <- (Z_mod_plus_full (a - b) 1), Z.mod_small by lia. lia.
Qed.

(** A timer whose time has come *)
Lemma wrap_due t d : word32 t → -1 ≤ d < RT_TICK_MAX / 2 →
  (u32 (t - u32 (t + d)) <? RT_TICK_MAX / 2) = (d <=? 0).
Proof.
  intros Ht Hd. pose proof (wrap_diff t 0 d) as E. rewrite Z.add_0_r in E.
  rewrite (wrap_small 32 t) in E by done. apply E.
  change (RT_TICK_MAX / 2) with 2147483647 in *. lia.
Qed.

Lemma cd_insert_elem m d cd x : x ∈ cd_insert m d cd ↔ x = (m, d) ∨ x ∈ cd.
Proof.
  induction cd as [|[m' d'] cd IH]; cbn [cd_insert]; [set_solver|].
  case_match; rewrite !elem_of_cons, ?IH; tauto.
Qed.

Lemma cd_insert_sorted m d cd : StronglySorted (λ x y : TIMER * Z, x.2 ≤ y.2) cd →
  StronglySorted (λ x y, x.2 ≤ y.2) (cd_insert m d cd).
Proof.
  induction 1 as [|[m' d'] cd Hs IH Hall]; cbn [cd_insert]; [by repeat constructor|].
  destruct (Z.leb_spec d d').
  - constructor; [by constructor|]. constructor; [done|].
    eapply Forall_impl; [exact Hall|]. cbn. lia.
  - constructor; [done|]. apply Forall_forall. intros x [->|Hx]%cd_insert_elem; [cbn; lia|].
    by eapply Forall_forall in Hall.
Qed.

(** Where a timer goes: [cd_insert] splits the list. *)
Lemma cd_insert_split m d cd : ∃ cd1 cd2, cd = cd1 ++ cd2 ∧ cd_insert m d cd = cd1 ++ (m, d) :: cd2 ∧
  Forall (λ x, x.2 < d) cd1 ∧ match cd2 with [] => True | x :: _ => d ≤ x.2 end.
Proof.
  induction cd as [|[m' d'] cd IH]; cbn [cd_insert].
  - by exists [], [].
  - destruct (Z.leb_spec d d').
    + by exists [], ((m', d') :: cd).
    + destruct IH as (cd1 & cd2 & -> & -> & H1 & H2). exists ((m', d') :: cd1), cd2.
      split_and!; [done|done|by constructor|done].
Qed.

(** *** Flags *)

Lemma land_bit f i : 0 ≤ i → negb (Z.land f (2 ^ i) =? 0) = Z.testbit f i.
Proof.
  intros Hi. apply eq_true_iff_eq. rewrite negb_true_iff, Z.eqb_neq. split.
  - intros H. destruct (Z.testbit f i) eqn:E; [done|]. destruct H. apply Z.bits_inj'.
    intros j Hj. rewrite Z.land_spec, Z.bits_0, Z.pow2_bits_eqb by done.
    destruct (Z.eqb_spec i j) as [->|]; [by rewrite E|apply andb_false_r].
  - intros E H. assert (Z.testbit (Z.land f (2 ^ i)) i = true) as H'.
    { by rewrite Z.land_spec, Z.pow2_bits_true, E. }
    by rewrite H, Z.bits_0 in H'.
Qed.

Lemma activated_bit tm : activated tm = Z.testbit (timer_flag tm) 0.
Proof. exact (land_bit _ 0 ltac:(lia)). Qed.
Lemma periodic_bit tm : periodic tm = Z.testbit (timer_flag tm) 1.
Proof. exact (land_bit _ 1 ltac:(lia)). Qed.

Lemma activated_activate tm : activated (activate tm) = true.
Proof. rewrite activated_bit. unfold activate. cbn. by rewrite Z.lor_spec, orb_true_r. Qed.
Lemma activated_deactivate tm : activated (deactivate tm) = false.
Proof. rewrite activated_bit. unfold deactivate. cbn. by rewrite Z.ldiff_spec, andb_false_r. Qed.
Lemma periodic_activate tm : periodic (activate tm) = periodic tm.
Proof. rewrite !periodic_bit. unfold activate. cbn. by rewrite Z.lor_spec, orb_false_r. Qed.
Lemma periodic_deactivate tm : periodic (deactivate tm) = periodic tm.
Proof. rewrite !periodic_bit. unfold deactivate. cbn. by rewrite Z.ldiff_spec, andb_true_r. Qed.

Section start.
Context {F : Fuel}.

(** The walk finds the place of [cd_insert]. *)
Lemma timer_position_ok k L cd1 cd2 d : ∀ visits pre,
  lists is_head (nodes k) L → counting k L (pre ++ cd1 ++ cd2) →
  0 ≤ d < RT_TICK_MAX / 2 → (length cd1 < visits)%nat →
  Forall (λ x, x.2 < d) cd1 → match cd2 with [] => True | x :: _ => d ≤ x.2 end →
  timer_position visits (default N_timers (head (cd_nodes (cd1 ++ cd2)))) (u32 (rt_tick k + d)) k =
    Some (default N_timers (head (cd_nodes cd2))).
Proof.
  induction cd1 as [|[m1 d1] cd1 IH]; intros visits pre HL HC Hd Hv H1 H2.
  - destruct visits as [|visits]; [lia|]. destruct cd2 as [|[m2 d2] cd2]; [done|]. cbn [app].
    cbn [cd_nodes map head default from_option id timer_position fst].
    destruct (cnt_time _ _ _ HC m2 d2) as [Hd2 ->]; [apply elem_of_app; right; by left|].
    rewrite wrap_diff by (change (RT_TICK_MAX / 2) with 2147483647 in *; lia). by rewrite (proj2 (Z.leb_le d d2)).
  - destruct visits as [|visits]; cbn [length] in Hv; [lia|].
    apply Forall_cons in H1 as [Hlt H1]. cbn [app cd_nodes map head default from_option id timer_position fst].
    destruct (cnt_time _ _ _ HC m1 d1) as [Hd1 ->]; [apply elem_of_app; right; by left|].
    rewrite wrap_diff by (change (RT_TICK_MAX / 2) with 2147483647 in *; lia). rewrite (proj2 (Z.leb_gt d d1)) by done.
    rewrite (lists_next is_head _ L N_timers (cd_nodes pre) _ (cd_nodes (cd1 ++ cd2)) HL I).
    + apply (IH visits (pre ++ [(m1, d1)])); [done| |done|lia|done|done].
      by rewrite <- app_assoc.
    + rewrite (cnt_nodes _ _ _ HC). unfold cd_nodes. by rewrite map_app.
Qed.

(** Starting a timer that does not run inserts it. *)
Lemma timer_start_ok k L cd m : lists is_head (nodes k) L → counting k L cd →
  loose is_head L (N_timer m) → activated (timers k m) = false →
  (length cd < fuel)%nat → 0 ≤ timer_init_tick (timers k m) < RT_TICK_MAX / 2 →
  ∃ k' L', rt_timer_start m k = Some (0, k') ∧ lists is_head (nodes k') L' ∧
    counting k' L' (cd_insert m (timer_init_tick (timers k m)) cd) ∧
    (∀ h, h ≠ N_timers → L' h = L h) ∧
    timers k' m = activate (set_timeout_tick (timeout_tick (timers k' m)) (timers k m)) ∧
    (∀ m', m' ≠ m → timers k' m' = timers k m') ∧
    k' = set_nodes (nodes k') (set_timers (timers k') k).
Proof.
  intros HL HC Hloose Hact Hfuel Htime. set (d := timer_init_tick (timers k m)) in *.
  assert (m ∉ cd.*1) as Hm.
  { intros (x & -> & Hx)%list_elem_of_fmap. destruct Hloose as [_ Hno].
    apply (Hno N_timers I). rewrite (cnt_nodes _ _ _ HC). unfold cd_nodes.
    by apply (list_elem_of_fmap_2 (λ x, N_timer x.1)). }
  destruct (cd_insert_split m d cd) as (cd1 & cd2 & E & Ei & H1 & H2).
  unfold rt_timer_start. rewrite Hact. fold d. rewrite (proj2 (Z.ltb_lt _ _) (proj2 Htime)).
  set (k1 := upd_timer m _ k).
  assert (timers k1 m = set_timeout_tick (u32 (rt_tick k + d)) (timers k m)) as Em.
  { unfold k1, upd_timer. cbn. by rewrite fn_lookup_insert. }
  assert (∀ m', m' ≠ m → timers k1 m' = timers k m') as Em'.
  { intros m' Hne. unfold k1, upd_timer. cbn. by rewrite fn_lookup_insert_ne. }
  assert (counting k1 L cd) as HC1.
  { destruct HC as [C1 C2 C3 C4]. split; [done| |done|done]. intros m' d' Hin. rewrite Em'; [by apply C2|].
    intros ->. apply Hm. by apply (list_elem_of_fmap_2 fst) in Hin. }
  assert (next (nodes k1 N_timers) = default N_timers (head (cd_nodes (cd1 ++ cd2)))) as En.
  { rewrite (lists_next_head is_head _ L) by done. by rewrite (cnt_nodes _ _ _ HC1), E. }
  rewrite En, Em. cbn [timeout_tick set_timeout_tick].
  assert (timer_position fuel (default N_timers (head (cd_nodes (cd1 ++ cd2))))
    (u32 (rt_tick k + d)) k1 = Some (default N_timers (head (cd_nodes cd2)))) as ->.
  { apply (timer_position_ok k1 L cd1 cd2 d fuel []); try done; [by rewrite <- E|].
    rewrite E, length_app in Hfuel. lia. }
  cbn [mbind option_bind].
  set (n := default N_timers (head (cd_nodes cd2))).
  eexists _, (<[N_timers := cd_nodes (cd_insert m d cd)]> L). split; [done|].
  assert (L N_timers = cd_nodes cd1 ++ cd_nodes cd2) as EL.
  { rewrite (cnt_nodes _ _ _ HC), E. unfold cd_nodes. by rewrite map_app. }
  assert (cd_nodes (cd_insert m d cd) = cd_nodes cd1 ++ N_timer m :: cd_nodes cd2) as ECD.
  { rewrite Ei. unfold cd_nodes. by rewrite map_app. }
  split_and!.
  - cbn [nodes upd_timer upd_nodes set_timers set_nodes]. rewrite ECD. subst n.
    by apply lists_insert_at.
  - destruct HC1 as [C1 C2 C3 C4]. split.
    + by rewrite fn_lookup_insert.
    + intros m' d' [[= -> ->]|Hin]%cd_insert_elem; cbn [timers upd_timer upd_nodes set_timers set_nodes].
      * rewrite fn_lookup_insert. cbn [timeout_tick activate set_timer_flag]. rewrite Em.
        split; [lia|done].
      * rewrite fn_lookup_insert_ne; [by apply C2|]. intros ->. apply Hm.
        by apply (list_elem_of_fmap_2 fst) in Hin.
    + by apply cd_insert_sorted.
    + intros h m' Hh. destruct (decide (h = N_timers)) as [->|Hne]; [done|].
      rewrite fn_lookup_insert_ne by done. by apply C4.
  - intros h Hh. by rewrite fn_lookup_insert_ne.
  - cbn [timers upd_timer upd_nodes set_timers set_nodes]. rewrite fn_lookup_insert, Em. done.
  - intros m' Hne. cbn [timers upd_timer upd_nodes set_timers set_nodes].
    rewrite fn_lookup_insert_ne by done. by apply Em'.
  - done.
Qed.
End start.

(** Taking a timer out of the list *)
Lemma cd_nodes_remove m cd : cd_nodes (cd_remove m cd) = filter (.≠ N_timer m) (cd_nodes cd).
Proof.
  induction cd as [|[m' d'] cd IH]; [done|]. unfold cd_remove in *. cbn [cd_nodes map fst].
  destruct (decide (m' = m)) as [->|Hne].
  - do 2 rewrite filter_cons_False by (cbn; intros H; by apply H). exact IH.
  - do 2 rewrite filter_cons_True by (cbn; congruence). cbn [cd_nodes map fst]. f_equal. exact IH.
Qed.

Lemma sorted_filter {A} (R : A → A → Prop) (P : A → Prop) `{!∀ x, Decision (P x)} l :
  StronglySorted R l → StronglySorted R (filter P l).
Proof.
  induction 1 as [|x l Hs IH Hall]; [constructor|]. destruct (decide (P x)).
  - rewrite filter_cons_True by done. constructor; [done|].
    apply Forall_forall. intros y [_ Hy]%list_elem_of_filter. by eapply Forall_forall in Hall.
  - by rewrite filter_cons_False.
Qed.

Lemma timer_remove_ok k L cd m : lists is_head (nodes k) L → counting k L cd →
  let k' := upd_nodes (rt_list_remove (N_timer m)) k in
  let L' := without (N_timer m) L in
  lists is_head (nodes k') L' ∧ counting k' L' (cd_remove m cd) ∧ loose is_head L' (N_timer m).
Proof.
  intros HL [C1 C2 C3 C4] k' L'.
  destruct (lists_remove is_head (nodes k) L (N_timer m)) as [HL' Hloose]; [by intros []|done|].
  split_and!; [done| |done]. split.
  - unfold L', without. by rewrite C1, cd_nodes_remove.
  - intros m' d' [_ Hin]%list_elem_of_filter. by apply C2.
  - by apply sorted_filter.
  - intros h m' Hh. unfold L'. rewrite elem_without. intros [Hin _]. by apply (C4 h m').
Qed.

Lemma cd_remove_head m d cd : (m ∉ cd.*1) → cd_remove m ((m, d) :: cd) = cd.
Proof.
  intros Hm. unfold cd_remove. rewrite filter_cons_False by (cbn; intros H; by apply H).
  induction cd as [|[m' d'] cd IH]; [done|]. apply not_elem_of_cons in Hm as [Hne Hm].
  rewrite filter_cons_True by (cbn in *; congruence). by rewrite IH.
Qed.

(** A tick *)
Definition cd_tick (cd : countdown) : countdown := map (λ x, (x.1, x.2 - 1)) cd.

Lemma wrap_add t d : u32 (u32 (t + 1) + (d - 1)) = u32 (t + d).
Proof. unfold wrap. rewrite Zplus_mod_idemp_l. f_equal. lia. Qed.

Lemma cd_nodes_tick cd : cd_nodes (cd_tick cd) = cd_nodes cd.
Proof. unfold cd_nodes, cd_tick. by rewrite map_map. Qed.

Lemma tick_counting k L cd : counting k L cd → Forall (λ x, 0 ≤ x.2) cd →
  counting (set_rt_tick (u32 (rt_tick k + 1)) k) L (cd_tick cd).
Proof.
  intros [C1 C2 C3 C4] H0. split; [by rewrite cd_nodes_tick| | |done].
  - intros m d ([m' d'] & [= -> ->] & Hin)%list_elem_of_fmap.
    rewrite Forall_forall in H0. specialize (H0 _ Hin). cbn [snd fst] in *.
    destruct (C2 _ _ Hin) as [Hd E]. split; [lia|]. cbn [rt_tick timers set_rt_tick].
    by rewrite wrap_add.
  - clear C1 C2 C4 H0. induction C3 as [|x cd Hs IH Hall]; cbn; constructor; [done|].
    apply Forall_forall. intros y (z & -> & Hz)%list_elem_of_fmap. cbn.
    eapply Forall_forall in Hall; [|exact Hz]. cbn in *. lia.
Qed.

(** ** The abstract timers *)

(** Timers that count down, with their settings *)
Record CD := mkCd { cd_list : countdown; cd_time : TIMER → Z; cd_periodic : TIMER → bool }.

(** The periodic ones among the timers that are over start again. *)
Fixpoint cd_restart (c : CD) (over : list TIMER) (cd : countdown) : option countdown :=
  match over with
  | [] => Some cd
  | m :: over =>
      if cd_periodic c m then
        if (1 <=? cd_time c m) && (cd_time c m <? RT_TICK_MAX / 2)
        then cd_restart c over (cd_insert m (cd_time c m) cd) else None
      else cd_restart c over cd
  end.

Definition cd_over (cd : countdown) : list TIMER := (filter (λ x, x.2 ≤ 0) cd).*1.
Definition cd_left (cd : countdown) : countdown := filter (λ x, 0 < x.2) cd.

Inductive TIMER_OP :=
| Op_start (m : TIMER) | Op_stop (m : TIMER) | Op_set_time (m : TIMER) (time : Z)
| Op_oneshot (m : TIMER) | Op_periodic (m : TIMER) | Op_tick.

(** The result of a call, and the timers that fire during it in order; [None]
    where the kernel fails an assertion or, for a period of zero, never returns *)
Definition cd_op (op : TIMER_OP) (c : CD) : option (Z * list TIMER * CD) :=
  match op with
  | Op_start m =>
      if bool_decide (m ∈ (cd_list c).*1) then Some (- RT_ERROR, [], c)
      else if (0 <=? cd_time c m) && (cd_time c m <? RT_TICK_MAX / 2)
      then Some (RT_EOK, [], mkCd (cd_insert m (cd_time c m) (cd_list c)) (cd_time c) (cd_periodic c))
      else None
  | Op_stop m =>
      if bool_decide (m ∈ (cd_list c).*1)
      then Some (RT_EOK, [], mkCd (cd_remove m (cd_list c)) (cd_time c) (cd_periodic c))
      else Some (- RT_ERROR, [], c)
  | Op_set_time m time =>
      Some (RT_EOK, [], mkCd (cd_list c) (<[m := time]> (cd_time c)) (cd_periodic c))
  | Op_oneshot m =>
      Some (RT_EOK, [], mkCd (cd_list c) (cd_time c) (<[m := false]> (cd_periodic c)))
  | Op_periodic m =>
      Some (RT_EOK, [], mkCd (cd_list c) (cd_time c) (<[m := true]> (cd_periodic c)))
  | Op_tick =>
      let cd := cd_tick (cd_list c) in
      cd' ← cd_restart c (cd_over cd) (cd_left cd);
      Some (RT_EOK, cd_over cd, mkCd cd' (cd_time c) (cd_periodic c))
  end.

Fixpoint cd_run (ops : list TIMER_OP) (c : CD) : option (list (Z * list TIMER) * CD) :=
  match ops with
  | [] => Some ([], c)
  | op :: ops =>
      '(r, fired, c) ← cd_op op c;
      '(rs, c) ← cd_run ops c;
      Some ((r, fired) :: rs, c)
  end.

Section refinement.
Context {F : Fuel} (timeout_func : TIMER → KERNEL → option KERNEL).

Definition timer_op (op : TIMER_OP) (k : KERNEL) : option (Z * KERNEL) :=
  match op with
  | Op_start m => rt_timer_start m k
  | Op_stop m => Some (rt_timer_stop m k)
  | Op_set_time m time => Some (RT_EOK, rt_timer_set_time m time k)
  | Op_oneshot m => Some (RT_EOK, rt_timer_set_oneshot m k)
  | Op_periodic m => Some (RT_EOK, rt_timer_set_periodic m k)
  | Op_tick => k ← timer_tick timeout_func k; Some (RT_EOK, k)
  end.

(** The timers whose functions were called, in order *)
Definition timeouts (k : KERNEL) : list TIMER :=
  omap (λ e, match e with K_timeout m _ => Some m | _ => None end) (history k).

Fixpoint timer_run (ops : list TIMER_OP) (k : KERNEL) : option (list (Z * list TIMER) * KERNEL) :=
  match ops with
  | [] => Some ([], k)
  | op :: ops =>
      '(r, k') ← timer_op op k;
      '(rs, k'') ← timer_run ops k';
      Some ((r, drop (length (timeouts k)) (timeouts k')) :: rs, k'')
  end.

(** What a timer calls may use the lists of the kernel, but leaves the timers
    alone. *)
Hypothesis timeout_frame : ∀ m k L, lists is_head (nodes k) L → (∀ h n, is_head h →
    N_timer n ∈ L h → h = N_timers) →
  ∃ k' L', timeout_func m k = Some k' ∧ lists is_head (nodes k') L' ∧
    L' N_timers = L N_timers ∧ (∀ h n, is_head h → N_timer n ∈ L' h → h = N_timers) ∧
    timers k' = timers k ∧ rt_tick k' = rt_tick k ∧ timeouts k' = timeouts k.

(** [ms]: the timers there are *)
Variable ms : list TIMER.
Hypothesis enough_fuel : (length ms < fuel)%nat.

Record timing (k : KERNEL) (L : NODE → list NODE) (c : CD) (cd : countdown) : Prop := {
  tmg_lists : lists is_head (nodes k) L;
  tmg_counting : counting k L cd;
  tmg_time m : timer_init_tick (timers k m) = cd_time c m;
  tmg_periodic m : periodic (timers k m) = cd_periodic c m;
  tmg_active m : activated (timers k m) = true ↔ m ∈ cd.*1;
  tmg_tick : word32 (rt_tick k);
  tmg_all : cd.*1 ⊆ ms
}.

Definition refines (k : KERNEL) (c : CD) : Prop :=
  ∃ L, timing k L c (cd_list c) ∧ Forall (λ x, 0 ≤ x.2) (cd_list c).

Lemma counting_nodup k L cd : lists is_head (nodes k) L → counting k L cd → NoDup cd.*1.
Proof.
  intros HL HC. pose proof (lists_nodup _ _ _ HL N_timers I) as ND.
  rewrite (cnt_nodes _ _ _ HC) in ND. unfold cd_nodes in ND.
  replace (map (λ x : TIMER * Z, N_timer x.1) cd) with (N_timer <$> cd.*1) in ND
    by (rewrite <- list_fmap_compose; done).
  by apply NoDup_fmap_1 in ND.
Qed.

Lemma timing_length k L c cd : timing k L c cd → (length cd < fuel)%nat.
Proof.
  intros T. pose proof (counting_nodup _ _ _ (tmg_lists _ _ _ _ T) (tmg_counting _ _ _ _ T)) as ND.
  pose proof (submseteq_length _ _ (NoDup_submseteq _ ms ND (tmg_all _ _ _ _ T))) as Hle.
  rewrite length_fmap in Hle. lia.
Qed.

Lemma timing_loose k L c cd m : timing k L c cd → m ∉ cd.*1 → loose is_head L (N_timer m).
Proof.
  intros T Hm. split; [by intros []|]. intros h Hh Hin.
  pose proof (cnt_only _ _ _ (tmg_counting _ _ _ _ T) h m Hh Hin) as ->.
  rewrite (cnt_nodes _ _ _ (tmg_counting _ _ _ _ T)) in Hin.
  apply list_elem_of_fmap in Hin as ([m' d] & [= ->] & Hin). apply Hm.
  by apply (list_elem_of_fmap_2 fst) in Hin.
Qed.

Lemma cd_insert_keys m d cd : (cd_insert m d cd).*1 ≡ₚ m :: cd.*1.
Proof.
  induction cd as [|[m' d'] cd IH]; cbn [cd_insert]; [done|]. case_match; [done|].
  cbn [fmap list_fmap fst]. rewrite IH. apply perm_swap.
Qed.

(** Starting, in terms of the whole relation *)
Lemma start_timing k L c cd m : timing k L c cd → m ∉ cd.*1 → m ∈ ms →
  0 ≤ cd_time c m < RT_TICK_MAX / 2 →
  ∃ k' L', rt_timer_start m k = Some (0, k') ∧ timing k' L' c (cd_insert m (cd_time c m) cd) ∧
    history k' = history k ∧ rt_tick k' = rt_tick k.
Proof.
  intros T Hm Hms Htime. pose proof (tmg_time _ _ _ _ T m) as Et. rewrite <- Et in *.
  assert (activated (timers k m) = false) as Ha.
  { destruct (activated (timers k m)) eqn:E; [|done]. by apply (tmg_active _ _ _ _ T) in E. }
  destruct (timer_start_ok k L cd m) as (k' & L' & E & HL' & HC' & _ & Em & Em' & Ek);
    [apply T|apply T|by eapply timing_loose|done|by eapply timing_length|done|].
  exists k', L'. split; [done|]. split; [|by rewrite Ek]. split; try done.
  - intros m'. destruct (decide (m' = m)) as [->|Hne]; [rewrite Em|rewrite Em' by done]; apply T.
  - intros m'. destruct (decide (m' = m)) as [->|Hne]; [|rewrite Em' by done; apply T].
    rewrite Em, periodic_activate. apply T.
  - intros m'. rewrite cd_insert_keys, elem_of_cons.
    destruct (decide (m' = m)) as [->|Hne].
    + rewrite Em, activated_activate. tauto.
    + rewrite Em' by done. rewrite (tmg_active _ _ _ _ T). tauto.
  - rewrite Ek. apply T.
  - intros m'. rewrite cd_insert_keys, elem_of_cons. intros [->|?]; [done|]. by apply T.
Qed.

Lemma timeouts_record m t k : timeouts (record_event (K_timeout m t) k) = timeouts k ++ [m].
Proof. unfold timeouts, record_event. cbn. by rewrite omap_app. Qed.

(** A timer that is over *)
Lemma expire_timing k L c m d cd : timing k L c ((m, d) :: cd) →
  (cd_periodic c m = true → 1 ≤ cd_time c m < RT_TICK_MAX / 2) →
  ∃ k' L', timer_expire timeout_func m k = Some k' ∧
    timing k' L' c (if cd_periodic c m then cd_insert m (cd_time c m) cd else cd) ∧
    timeouts k' = timeouts k ++ [m] ∧ rt_tick k' = rt_tick k.
Proof.
  intros T Hper. pose proof (counting_nodup _ _ _ (tmg_lists _ _ _ _ T) (tmg_counting _ _ _ _ T)) as ND.
  cbn [fmap list_fmap fst] in ND. apply NoDup_cons in ND as [Hm _].
  unfold timer_expire. set (k1 := record_event _ k).
  destruct (timer_remove_ok k1 L ((m, d) :: cd) m) as (HL2 & HC2 & Hloose2);
    [apply T|destruct (tmg_counting _ _ _ _ T); by split|].
  rewrite cd_remove_head in HC2 by done. set (k2 := upd_nodes _ k1) in *.
  destruct (timeout_frame m k2 _ HL2 (cnt_only _ _ _ HC2)) as
    (k3 & L3 & -> & HL3 & EL3 & Honly3 & Et3 & Ek3 & Eh3).
  cbn [mbind option_bind]. set (k4 := upd_timer m deactivate k3).
  assert (timers k3 = timers k) as Et by (by rewrite Et3).
  assert (∀ m', m' ≠ m → timers k4 m' = timers k m') as E4.
  { intros m' Hne. unfold k4, upd_timer. cbn. by rewrite fn_lookup_insert_ne, Et. }
  assert (timers k4 m = deactivate (timers k m)) as E4m.
  { unfold k4, upd_timer. cbn. by rewrite fn_lookup_insert, Et. }
  assert (timing k4 L3 c cd) as T4.
  { destruct HC2 as [C1 C2 C3 C4]. split; [done|split| | | | |].
    - by rewrite EL3.
    - intros m' d' Hin. rewrite E4.
      + change (rt_tick k4) with (rt_tick k3). rewrite Ek3. by apply C2.
      + intros ->. apply Hm. by apply (list_elem_of_fmap_2 fst) in Hin.
    - done.
    - done.
    - intros m'. destruct (decide (m' = m)) as [->|Hne]; [rewrite E4m|rewrite E4 by done]; apply T.
    - intros m'. destruct (decide (m' = m)) as [->|Hne]; [|rewrite E4 by done; apply T].
      rewrite E4m, periodic_deactivate. apply T.
    - intros m'. destruct (decide (m' = m)) as [->|Hne].
      + rewrite E4m, activated_deactivate. by split.
      + rewrite E4, (tmg_active _ _ _ _ T) by done. cbn [fmap list_fmap fst].
        rewrite elem_of_cons. tauto.
    - change (rt_tick k4) with (rt_tick k3). rewrite Ek3. apply T.
    - intros m' Hin. apply (tmg_all _ _ _ _ T). by right. }
  assert (timeouts k4 = timeouts k ++ [m]) as Eh4.
  { change (timeouts k4) with (timeouts k3). rewrite Eh3. apply timeouts_record. }
  assert (activated (timers k3 m) = true) as Ha.
  { rewrite Et. apply (tmg_active _ _ _ _ T). by left. }
  assert (periodic (timers k3 m) = cd_periodic c m) as Hp by (rewrite Et; apply T).
  rewrite Ha, Hp, andb_true_r. destruct (cd_periodic c m) eqn:Ep.
  - destruct (start_timing k4 L3 c cd m) as (k5 & L5 & E5 & T5 & Eh5 & Ek5);
      [done|done|apply (tmg_all _ _ _ _ T); by left|specialize (Hper eq_refl); lia|].
    rewrite E5. cbn [mbind option_bind]. exists k5, L5. split_and!; [done|done| |].
    + unfold timeouts in *. by rewrite Eh5.
    + by rewrite Ek5.
  - by exists k4, L3.
Qed.

Lemma cd_insert_app m d cd1 cd2 : Forall (λ x, x.2 < d) cd1 →
  cd_insert m d (cd1 ++ cd2) = cd1 ++ cd_insert m d cd2.
Proof.
  induction 1 as [|[m' d'] cd1 H Hall IH]; [done|]. cbn [app cd_insert].
  rewrite (proj2 (Z.leb_gt d d')) by done. by rewrite IH.
Qed.

Lemma check_loop_timing c over : ∀ rounds k L rest cd',
  timing k L c (over ++ rest) → Forall (λ x, x.2 ≤ 0) over → Forall (λ x, 0 < x.2) rest →
  cd_restart c over.*1 rest = Some cd' → (length over < rounds)%nat →
  ∃ k' L', timer_check_loop timeout_func rounds (rt_tick k) k = Some k' ∧ timing k' L' c cd' ∧
    Forall (λ x, 0 < x.2) cd' ∧ timeouts k' = timeouts k ++ over.*1.
Proof.
  induction over as [|[m d] over IH]; intros rounds k L rest cd' T Hover Hrest Hre Hr;
    (destruct rounds as [|rounds]; cbn [length] in Hr; [lia|]); cbn [timer_check_loop].
  - injection Hre as <-. cbn [app] in T. exists k, L. split; [|by rewrite app_nil_r].
    rewrite (lists_isempty is_head _ L), (lists_next_head is_head _ L) by (apply T || done).
    rewrite (cnt_nodes _ _ _ (tmg_counting _ _ _ _ T)).
    destruct rest as [|[m d] rest]; cbn [cd_nodes map head default from_option id fst];
      [by rewrite bool_decide_eq_true_2|]. rewrite bool_decide_eq_false_2 by done.
    destruct (cnt_time _ _ _ (tmg_counting _ _ _ _ T) m d) as [Hd ->]; [by left|].
    rewrite wrap_due by (apply T || done). apply Forall_cons in Hrest as [Hd0 _]. cbn in Hd0.
    by rewrite (proj2 (Z.leb_gt d 0)).
  - rewrite (lists_isempty is_head _ L), (lists_next_head is_head _ L) by (apply T || done).
    rewrite (cnt_nodes _ _ _ (tmg_counting _ _ _ _ T)).
    cbn [app cd_nodes map head default from_option id fst]. rewrite bool_decide_eq_false_2 by done.
    destruct (cnt_time _ _ _ (tmg_counting _ _ _ _ T) m d) as [Hd ->]; [by left|].
    rewrite wrap_due by (apply T || done). apply Forall_cons in Hover as [Hd0 Hover]. cbn in Hd0.
    rewrite (proj2 (Z.leb_le d 0)) by done. cbn [fmap list_fmap fst cd_restart] in Hre.
    destruct (expire_timing k L c m d (over ++ rest) T) as (k1 & L1 & -> & T1 & Eh1 & Et1).
    { intros Hp. rewrite Hp in Hre. destruct (andb _ _) eqn:E; [lia|done]. }
    cbn [mbind option_bind].
    assert (∃ rest', Forall (λ x, 0 < x.2) rest' ∧ timing k1 L1 c (over ++ rest') ∧
      cd_restart c over.*1 rest' = Some cd') as (rest' & Hrest' & T' & Hre').
    { destruct (cd_periodic c m); [|by exists rest]. destruct (andb _ _) eqn:E; [|done].
      exists (cd_insert m (cd_time c m) rest). split_and!; [| |done].
      - apply Forall_forall. intros x [->|Hx]%cd_insert_elem; [cbn; lia|].
        by eapply Forall_forall in Hrest.
      - rewrite <- cd_insert_app; [done|]. eapply Forall_impl; [exact Hover|]. cbn. lia. }
    destruct (IH rounds k1 L1 rest' cd' T' Hover Hrest' Hre' ltac:(lia)) as
      (k2 & L2 & E2 & T2 & H2 & Eh2).
    exists k2, L2. split_and!; [done|done|done|]. rewrite Eh2, Eh1. by rewrite <- app_assoc.
Qed.

Lemma sorted_over cd : StronglySorted (λ x y : TIMER * Z, x.2 ≤ y.2) cd →
  cd = filter (λ x, x.2 ≤ 0) cd ++ cd_left cd.
Proof.
  unfold cd_left. induction 1 as [|[m d] cd Hs IH Hall]; [done|]. destruct (decide (d ≤ 0)).
  - rewrite filter_cons_True by done. rewrite (filter_cons_False (λ x, 0 < x.2)) by (cbn; lia).
    cbn [app]. by f_equal.
  - assert (Forall (λ x, 0 < x.2) ((m, d) :: cd)) as Hpos.
    { constructor; [cbn; lia|]. eapply Forall_impl; [exact Hall|]. cbn. lia. }
    rewrite (filter_none (λ x, x.2 ≤ 0)), (filter_all (λ x, 0 < x.2)); [done|done|].
    eapply Forall_impl; [exact Hpos|]. cbn. lia.
Qed.

(** A change of the settings of one timer *)
Lemma setting_timing k L c c' cd m f : timing k L c cd →
  timeout_tick (f (timers k m)) = timeout_tick (timers k m) →
  activated (f (timers k m)) = activated (timers k m) →
  (∀ m', cd_time c' m' = if decide (m' = m) then timer_init_tick (f (timers k m)) else cd_time c m') →
  (∀ m', cd_periodic c' m' = if decide (m' = m) then periodic (f (timers k m)) else cd_periodic c m') →
  timing (upd_timer m f k) L c' cd.
Proof.
  intros T Ht Ha Hc Hp.
  assert (∀ m', timers (upd_timer m f k) m' =
    if decide (m' = m) then f (timers k m) else timers k m') as E.
  { intros m'. unfold upd_timer. cbn. case_decide as Hm; [subst; by rewrite fn_lookup_insert|].
    by rewrite fn_lookup_insert_ne. }
  split; try apply T.
  - destruct (tmg_counting _ _ _ _ T) as [C1 C2 C3 C4]. split; [done| |done|done].
    intros m' d Hin. rewrite E. destruct (C2 _ _ Hin) as [? E0]. split; [done|].
    etransitivity; [|exact E0]. case_decide as Hm; [by subst|done].
  - intros m'. rewrite E, Hc. case_decide; [done|apply T].
  - intros m'. rewrite E, Hp. case_decide; [done|apply T].
  - intros m'. rewrite E, <- (tmg_active _ _ _ _ T). case_decide as Hm; [by rewrite Hm, Ha|done].
Qed.

Lemma cd_remove_keys m cd m' : m' ∈ (cd_remove m cd).*1 ↔ m' ≠ m ∧ m' ∈ cd.*1.
Proof.
  unfold cd_remove. rewrite !list_elem_of_fmap. setoid_rewrite list_elem_of_filter. naive_solver.
Qed.

Lemma stop_timing k L c cd m : timing k L c cd → m ∈ cd.*1 →
  timing (upd_timer m deactivate (upd_nodes (rt_list_remove (N_timer m)) k))
    (without (N_timer m) L) c (cd_remove m cd).
Proof.
  intros T Hm. destruct (timer_remove_ok k L cd m) as (HL' & [C1 C2 C3 C4] & Hloose); [apply T..|].
  set (k' := upd_timer m _ _).
  assert (∀ m', timers k' m' = if decide (m' = m) then deactivate (timers k m) else timers k m') as E.
  { intros m'. unfold k', upd_timer. cbn. case_decide as H; [subst; by rewrite fn_lookup_insert|].
    by rewrite fn_lookup_insert_ne. }
  split; [done|split| | | |apply T|].
  - done.
  - intros m' d Hin. rewrite E, decide_False; [by apply C2|]. intros ->.
    apply (list_elem_of_fmap_2 fst) in Hin. by apply cd_remove_keys in Hin as [? _].
  - done.
  - done.
  - intros m'. rewrite E. case_decide as H; [subst|]; apply T.
  - intros m'. rewrite E. case_decide as H; [subst; rewrite periodic_deactivate|]; apply T.
  - intros m'. rewrite E, cd_remove_keys. case_decide as H.
    + rewrite activated_deactivate. subst. by split; [|intros []].
    + rewrite (tmg_active _ _ _ _ T). tauto.
  - intros m' [_ Hin]%cd_remove_keys. by apply T.
Qed.

Definition started_in (op : TIMER_OP) : Prop := match op with Op_start m => m ∈ ms | _ => True end.

Lemma drop_timeouts (l l' : list TIMER) : drop (length l) (l ++ l') = l'.
Proof. apply drop_app_length. Qed.

Lemma timer_op_refines op k c r fired c' : refines k c → started_in op →
  cd_op op c = Some (r, fired, c') →
  ∃ k', timer_op op k = Some (r, k') ∧ refines k' c' ∧ timeouts k' = timeouts k ++ fired.
Proof.
  intros (L & T & H0) Hin E. destruct op as [m|m|m time|m|m|]; cbn [cd_op timer_op] in *.
  - destruct (bool_decide_reflect (m ∈ (cd_list c).*1)) as [Hm|Hm].
    + injection E as <- <- <-. unfold rt_timer_start.
      rewrite (proj2 (tmg_active _ _ _ _ T m) Hm). exists k. split; [done|].
      split; [by exists L|by rewrite app_nil_r].
    + destruct (andb _ _) eqn:Et; [|done]. injection E as <- <- <-.
      destruct (start_timing k L c (cd_list c) m T Hm Hin) as (k' & L' & E & T' & Eh & Ek); [lia|].
      exists k'. split; [done|]. split; [|unfold timeouts; by rewrite Eh, app_nil_r].
      exists L'. split; [by destruct T'|]. apply Forall_forall.
      intros x [->|Hx]%cd_insert_elem; [cbn; lia|by eapply Forall_forall in H0].
  - unfold rt_timer_stop. destruct (bool_decide_reflect (m ∈ (cd_list c).*1)) as [Hm|Hm].
    + injection E as <- <- <-. rewrite (proj2 (tmg_active _ _ _ _ T m) Hm).
      eexists. split; [done|]. split; [|by rewrite app_nil_r].
      exists (without (N_timer m) L). split; [destruct (stop_timing _ _ _ _ _ T Hm); by split|].
      apply Forall_forall. intros x [_ Hx]%list_elem_of_filter. by eapply Forall_forall in H0.
    + injection E as <- <- <-. destruct (activated (timers k m)) eqn:Ha.
      { by apply (tmg_active _ _ _ _ T) in Ha. }
      exists k. split; [done|]. split; [by exists L|by rewrite app_nil_r].
  - injection E as <- <- <-. eexists. split; [done|]. split; [|by rewrite app_nil_r].
    exists L. split; [|done]. eapply setting_timing; [exact T|done|done|..]; intros m'; cbn.
    + case_decide as H; [subst; by rewrite fn_lookup_insert|by rewrite fn_lookup_insert_ne].
    + case_decide as H; [subst|done]. symmetry. apply (tmg_periodic _ _ _ _ T).
  - injection E as <- <- <-. eexists. split; [done|]. split; [|by rewrite app_nil_r].
    exists L. split; [|done]. eapply setting_timing; [exact T|done| |..].
    + rewrite !activated_bit. cbn. by rewrite Z.ldiff_spec, andb_true_r.
    + intros m'. cbn. case_decide as H; [subst|done]. symmetry. apply T.
    + intros m'. rewrite periodic_bit. cbn. rewrite Z.ldiff_spec, andb_false_r.
      case_decide as H; [subst; by rewrite fn_lookup_insert|by rewrite fn_lookup_insert_ne].
  - injection E as <- <- <-. eexists. split; [done|]. split; [|by rewrite app_nil_r].
    exists L. split; [|done]. eapply setting_timing; [exact T|done| |..].
    + rewrite !activated_bit. cbn. by rewrite Z.lor_spec, orb_false_r.
    + intros m'. cbn. case_decide as H; [subst|done]. symmetry. apply T.
    + intros m'. rewrite periodic_bit. cbn. rewrite Z.lor_spec, orb_true_r.
      case_decide as H; [subst; by rewrite fn_lookup_insert|by rewrite fn_lookup_insert_ne].
  - set (cd := cd_tick (cd_list c)) in *.
    destruct (cd_restart c (cd_over cd) (cd_left cd)) as [cd'|] eqn:Er; [|done].
    injection E as <- <- <-. set (k1 := set_rt_tick (u32 (rt_tick k + 1)) k).
    assert (timing k1 L c cd) as T1.
    { split; try apply T.
      - apply tick_counting; [apply T|done].
      - intros m. change (timers k1 m) with (timers k m). unfold cd, cd_tick. rewrite (tmg_active _ _ _ _ T m).
        by rewrite <- list_fmap_compose.
      - by apply wrap_fits.
      - unfold cd, cd_tick. rewrite <- list_fmap_compose. apply T. }
    pose proof (cnt_sorted _ _ _ (tmg_counting _ _ _ _ T1)) as Hs.
    destruct (check_loop_timing c (filter (λ x, x.2 ≤ 0) cd) fuel k1 L (cd_left cd) cd') as
      (k' & L' & E & T' & Hpos & Eh).
    + by rewrite <- sorted_over.
    + apply Forall_forall. by intros x [? _]%list_elem_of_filter.
    + apply Forall_forall. by intros x [? _]%list_elem_of_filter.
    + done.
    + pose proof (timing_length _ _ _ _ T1). pose proof (length_filter (λ x, x.2 ≤ 0) cd). lia.
    + unfold timer_tick, rt_timer_check. fold k1. rewrite E. cbn [mbind option_bind].
      exists k'. split; [done|]. split; [|by rewrite Eh].
      exists L'. split; [by destruct T'|]. eapply Forall_impl; [exact Hpos|]. cbn. lia.
Qed.

(** Timers none of which runs *)
Lemma stopped_refines k : (∀ n, next (nodes k n) = n ∧ prev (nodes k n) = n) →
  (∀ m, activated (timers k m) = false) → word32 (rt_tick k) →
  refines k (mkCd [] (λ m, timer_init_tick (timers k m)) (λ m, periodic (timers k m))).
Proof.
  intros Hn Ha Hk. exists (λ _, []). split; [|done]. split; try done.
  - by apply lists_self.
  - split; [done|intros m d Hin; by apply elem_of_nil in Hin|constructor|].
    intros h m _ Hin. by apply elem_of_nil in Hin.
  - intros m. rewrite Ha. split; [done|]. intros Hin. by apply elem_of_nil in Hin.
  - intros m Hin. by apply elem_of_nil in Hin.
Qed.

(** C8 (refinement). The kernel's timers are countdowns, if the functions they
    call touch no timer themselves ([timeout_frame]): from corresponding
    states, any sequence of starts, stops, changes of settings and ticks on the
    ordered list of wrapping 32-bit times gives the results of the abstract
    timers, which count each timer down on its own, and fires the same timers in
    the same order in each tick, however often the tick counter wraps around. *)
Theorem timers_refine_countdowns ops k c rs c' : refines k c → Forall started_in ops →
  cd_run ops c = Some (rs, c') →
  ∃ k', timer_run ops k = Some (rs, k') ∧ refines k' c'.
Proof.
  intros R Hops. revert k c rs R. induction Hops as [|op ops Hop Hops IH]; intros k c rs R E.
  - injection E as <- <-. by exists k.
  - cbn [cd_run timer_run] in *. destruct (cd_op op c) as [[[r fired] c1]|] eqn:E1; [|done].
    cbn [mbind option_bind] in E. destruct (cd_run ops c1) as [[rs1 c2]|] eqn:E2; [|done].
    injection E as <- <-. destruct (timer_op_refines op k c r fired c1 R Hop E1) as
      (k1 & -> & R1 & Eh). cbn [mbind option_bind].
    destruct (IH k1 c1 rs1 R1 E2) as (k2 & -> & R2). cbn [mbind option_bind].
    exists k2. split; [|done]. by rewrite Eh, drop_timeouts.
Qed.
End refinement.

(** Two timers while the tick counter wraps: the one-shot timer 0 of three
    ticks and the periodic timer 1 of two ticks. *)
Definition two_timers : KERNEL :=
  mkKernel (λ n, mkLnode n n)
    (λ _, mkThread RT_THREAD_INIT 0 0 0 0 0 0 0 0 0 0 false true)
    (λ m, match m with TM_user 0 => mkTimer 0 3 0
          | _ => mkTimer RT_TIMER_FLAG_PERIODIC 2 0 end)
    None 0 0 [] 0 0 0xfffffffe (λ _, mkSem 0 0) (λ _, mkMutex 1 0xff 0 None 0)
    (λ _, mkEvent 0 0) [].

Lemma timers_refine_countdowns_witness :
  let F := 3%nat : Fuel in
  let ops := [Op_start (TM_user 0); Op_start (TM_user 1); Op_tick; Op_tick; Op_tick; Op_tick] in
  ∃ rs k', timer_run (λ _ k, Some k) ops two_timers = Some (rs, k') ∧
    map snd rs = [[]; []; []; [TM_user 1]; [TM_user 0]; [TM_user 1]] ∧ rt_tick k' = 2.
Proof.
  intros F ops.
  set (c := mkCd [] (λ m, timer_init_tick (timers two_timers m)) (λ m, periodic (timers two_timers m))).
  destruct (cd_run ops c) as [[rs c']|] eqn:E; [|by vm_compute in E].
  assert (refines [TM_user 0; TM_user 1] two_timers c) as R.
  { apply stopped_refines; [done| |done]. by intros [t|[|i]]. }
  destruct (timers_refine_countdowns (λ _ k, Some k)) with (ms := [TM_user 0; TM_user 1])
    (ops := ops) (k := two_timers) (c := c) (rs := rs) (c' := c') as (k' & E' & R').
  - intros m k L HL H. by exists k, L.
  - unfold fuel, F. cbn. lia.
  - exact R.
  - repeat constructor; set_solver.
  - exact E.
  - exists rs, k'. split; [exact E'|]. clear R R'.
    vm_compute in E. injection E as <- <-. split; [done|].
    assert (rt_tick ∘ snd <$> timer_run (λ _ k, Some k) ops two_timers = Some 2) as Ek
      by (vm_compute; reflexivity).
    rewrite E' in Ek. by injection Ek.
Defined.
