(* ===== verification/Thread.v ===== *)
(** * Threads (thread.c of the kernel)

    The life of a thread: it is started, is ready or suspended, waits in the
    list of an object, for its timer, or for both, and ends.  [kernel_wf] is
    the invariant of the kernel: every thread is in the lists its state says,
    the bits of the scheduler match the lists, the timers are countdowns. *)
From stdpp Require Import base functions list sets.
From Stdlib Require Import ZArith Lia Sorted.
From S2P Require Import Prelude World Rtlist Kernel Sched Timer.

(** ** The operations *)

(** The attributes that follow from the priority; [1L << n] on 32 bits *)
Definition set_priority (p : Z) (th : rt_thread) : rt_thread :=
  let th := set_current_priority p th in
  let th := set_number (Z.shiftr p 3) th in
  let th := set_number_mask (u32 (Z.shiftl 1 (number th))) th in
  set_high_mask (u8 (Z.shiftl 1 (Z.land p 0x07))) th.

Definition rt_thread_resume (t : nat) (k : KERNEL) : Z * KERNEL :=
  if stat (threads k t) =? RT_THREAD_SUSPEND then
    let k := upd_nodes (rt_list_remove (N_tlist t)) k in
    let k := upd_nodes (rt_list_remove (N_timer (TM_thread t))) k in
    let k := upd_timer (TM_thread t) deactivate k in
    (RT_EOK, rt_schedule_insert_thread t k)
  else (- RT_ERROR, k).

Definition rt_thread_suspend (t : nat) (k : KERNEL) : Z * KERNEL :=
  if stat (threads k t) =? RT_THREAD_READY then
    let k := upd_thread t (set_stat RT_THREAD_SUSPEND) k in
    (RT_EOK, rt_schedule_remove_thread t k)
  else (- RT_ERROR, k).

Definition rt_thread_startup (t : nat) (k : KERNEL) : option KERNEL :=
  if stat (threads k t) =? RT_THREAD_INIT then
    let k := upd_thread t (λ th, set_priority (init_priority th) th) k in
    let k := upd_thread t (set_stat RT_THREAD_SUSPEND) k in
    let k := (rt_thread_resume t k).2 in
    match rt_current_thread k with
    | Some _ => rt_schedule k
    | None => Some k
    end
  else None.

Definition rt_thread_yield (k : KERNEL) : option KERNEL :=
  t ← rt_current_thread k;
  if (stat (threads k t) =? RT_THREAD_READY) &&
     bool_decide (next (nodes k (N_tlist t)) ≠ prev (nodes k (N_tlist t))) then
    let k := upd_nodes (rt_list_remove (N_tlist t)) k in
    let k := upd_nodes
      (rt_list_insert_before (N_ready (current_priority (threads k t))) (N_tlist t)) k in
    rt_schedule k
  else Some k.

(** RT_THREAD_CTRL_CHANGE_PRIORITY of [rt_thread_control] *)
Definition rt_thread_change_priority (t : nat) (p : Z) (k : KERNEL) : KERNEL :=
  if stat (threads k t) =? RT_THREAD_READY then
    rt_schedule_insert_thread t
      (upd_thread t (set_priority p) (rt_schedule_remove_thread t k))
  else upd_thread t (set_priority p) k.

Definition rt_thread_timeout (t : nat) (k : KERNEL) : option KERNEL :=
  if stat (threads k t) =? RT_THREAD_SUSPEND then
    let k := upd_thread t (set_error (- RT_ETIMEOUT)) k in
    let k := upd_nodes (rt_list_remove (N_tlist t)) k in
    rt_schedule (rt_schedule_insert_thread t k)
  else None.

(** Without the object container: a static thread without a clean-up function
    is only detached from it. *)
Definition rt_thread_exit (k : KERNEL) : option KERNEL :=
  t ← rt_current_thread k;
  let k := rt_schedule_remove_thread t k in
  let k := upd_thread t (set_stat RT_THREAD_CLOSE) k in
  let k := upd_nodes (rt_list_remove (N_timer (TM_thread t))) k in
  let k := if systemobject (threads k t) && negb (cleanup (threads k t)) then k
           else upd_nodes (rt_list_insert_after N_defunct (N_tlist t)) k in
  rt_schedule k.

Section thread.
Context {F : Fuel}.

(** Setting the thread's timer and starting it; the result is ignored. *)
Definition thread_timer_start (t : nat) (time : Z) (k : KERNEL) : option KERNEL :=
  '(_, k) ← rt_timer_start (TM_thread t) (rt_timer_set_time (TM_thread t) time k);
  Some k.

(** Until the thread is switched away; it goes on with [thread_woken]. *)
Definition rt_thread_sleep (tick : Z) (k : KERNEL) : option KERNEL :=
  t ← rt_current_thread k;
  let k := (rt_thread_suspend t k).2 in
  k ← thread_timer_start t tick k;
  rt_schedule k.

Definition thread_woken (t : nat) (k : KERNEL) : Z * KERNEL :=
  (RT_EOK, if error (threads k t) =? - RT_ETIMEOUT then upd_thread t (set_error RT_EOK) k else k).

End thread.

(** ** The invariant *)

(** What the member [n] of the list [h] is *)
Definition member_ok (k : KERNEL) (h n : NODE) : Prop :=
  match h, n with
  | N_ready p, N_tlist t =>
      stat (threads k t) = RT_THREAD_READY ∧ current_priority (threads k t) = p
  | N_defunct, N_tlist t => stat (threads k t) = RT_THREAD_CLOSE
  | N_sem _, N_tlist t | N_mutex _, N_tlist t | N_event _, N_tlist t =>
      stat (threads k t) = RT_THREAD_SUSPEND
  | N_timers, N_timer m =>
      activated (timers k m) = true ∧
      match m with TM_thread t => stat (threads k t) = RT_THREAD_SUSPEND | TM_user _ => True end
  | _, _ => False
  end.

(** A period that the kernel can serve *)
Definition period_ok (tm : rt_timer) : Prop :=
  periodic tm = true → 1 ≤ timer_init_tick tm < RT_TICK_MAX / 2.

Section invariant.
Context {F : Fuel}.
(** The timers there are *)
Context (ms : list TIMER).
Implicit Types (k : KERNEL) (L : NODE → list NODE) (h n : NODE) (t : nat) (m : TIMER).

(** [X]: the timer whose function is being called, which is marked as active
    but no longer in the list; [lo]: 0 between ticks, -1 while the timers are
    checked *)
Record kernel_wf (X : option TIMER) (lo : Z) (k : KERNEL) (L : NODE → list NODE) : Prop := {
  kw_lists : lists is_head (nodes k) L;
  kw_ready : ready_ok k L;
  kw_tick : word32 (rt_tick k);
  kw_init t : valid_priority (init_priority (threads k t));
  kw_attr t : stat (threads k t) ≠ RT_THREAD_INIT → attr_ok (threads k t);
  kw_member h n : is_head h → n ∈ L h → member_ok k h n;
  kw_is_ready t : stat (threads k t) = RT_THREAD_READY →
    N_tlist t ∈ L (N_ready (current_priority (threads k t)));
  kw_active m : activated (timers k m) = true → N_timer m ∈ L N_timers ∨ X = Some m;
  kw_not_listed m : X = Some m → N_timer m ∉ L N_timers;
  kw_period m : period_ok (timers k m);
  kw_thread_timer t : periodic (timers k (TM_thread t)) = false;
  kw_known m : N_timer m ∈ L N_timers → m ∈ ms;
  kw_counting : ∃ cd, counting k L cd ∧ Forall (λ x, lo ≤ x.2) cd
}.

Lemma kernel_wf_ext X lo k k' L : kernel_wf X lo k L →
  nodes k' = nodes k → (∀ t, threads k' t = threads k t) → (∀ m, timers k' m = timers k m) →
  rt_thread_ready_priority_group k' = rt_thread_ready_priority_group k →
  rt_thread_ready_table k' = rt_thread_ready_table k → rt_tick k' = rt_tick k →
  kernel_wf X lo k' L.
Proof.
  intros [] En Et Em Eg Eb Ek. split; rewrite ?En, ?Ek; try done.
  - destruct kw_ready0 as [R1 R2 R3 R4 R5]. split; rewrite ?Eg, ?Eb; try done. intros p n Hn.
    destruct (R5 p n Hn) as (t & -> & E). exists t. by rewrite Et.
  - intros t. by rewrite Et.
  - intros t. rewrite Et. apply kw_attr0.
  - intros h n Hh Hn. specialize (kw_member0 h n Hh Hn). unfold member_ok in *.
    by repeat case_match; rewrite ?Et, ?Em.
  - intros t. rewrite Et. apply kw_is_ready0.
  - intros m. rewrite Em. apply kw_active0.
  - intros m. rewrite Em. apply kw_period0.
  - intros t. by rewrite Em.
  - destruct kw_counting0 as (cd & HC & ?). exists cd. split; [|done].
    destruct HC as [C1 C2 C3 C4]. split; try done. intros m d. rewrite Em, Ek. auto.
Qed.

(** Rescheduling, and what only touches objects, ticks and the like, keep it. *)
Lemma kernel_wf_frame X lo k k' L : kernel_wf X lo k L →
  nodes k' = nodes k → threads k' = threads k → timers k' = timers k →
  rt_thread_ready_priority_group k' = rt_thread_ready_priority_group k →
  rt_thread_ready_table k' = rt_thread_ready_table k → rt_tick k' = rt_tick k →
  kernel_wf X lo k' L.
Proof. intros W En Et Em ?? ?. eapply kernel_wf_ext; [exact W|try done..]; by rewrite ?Et, ?Em. Qed.

Lemma kernel_wf_rescheduled X lo k k' L :
  kernel_wf X lo k L → rescheduled k k' → kernel_wf X lo k' L.
Proof. intros W []. by eapply kernel_wf_frame. Qed.

(** A thread in no list *)
Lemma thread_loose X lo k L t : kernel_wf X lo k L →
  (∀ h, is_head h → N_tlist t ∉ L h) → loose is_head L (N_tlist t).
Proof. intros W H. by split; [intros []|]. Qed.

Lemma set_priority_ok p th : valid_priority p → attr_ok (set_priority p th).
Proof.
  intros Hp. destruct (priority_index p Hp) as [Hi Hj].
  unfold valid_priority, RT_THREAD_PRIORITY_MAX in Hp. unfold attr_ok, set_priority.
  cbn -[Z.div Z.modulo Z.pow Z.shiftr Z.shiftl Z.land wrap].
  assert (Z.shiftr p 3 = p / 8) as -> by (by rewrite Z.shiftr_div_pow2).
  assert (Z.land p 7 = p mod 8) as -> by (change 7 with (Z.ones 3); by rewrite Z.land_ones).
  rewrite !Z.shiftl_1_l. split_and!; [done|done|..].
  - apply wrap_small. by apply pow2_byte.
  - apply wrap_small. by apply pow2_word.
Qed.

(** *** The effect of the single steps *)

Lemma threads_upd t f k t' :
  threads (upd_thread t f k) t' = if decide (t' = t) then f (threads k t) else threads k t'.
Proof.
  unfold upd_thread. cbn. case_decide as H; [subst; by rewrite fn_lookup_insert|].
  by rewrite fn_lookup_insert_ne.
Qed.

Lemma timers_upd m f k m' :
  timers (upd_timer m f k) m' = if decide (m' = m) then f (timers k m) else timers k m'.
Proof.
  unfold upd_timer. cbn. case_decide as H; [subst; by rewrite fn_lookup_insert|].
  by rewrite fn_lookup_insert_ne.
Qed.

(** The nodes of another thread do not see a change of [t]. *)
Definition node_of (t : nat) (n : NODE) : Prop := n = N_tlist t ∨ n = N_timer (TM_thread t).

Lemma member_ok_frame k k' h n : member_ok k h n →
  (∀ t, node_of t n → stat (threads k' t) = stat (threads k t) ∧
    current_priority (threads k' t) = current_priority (threads k t)) →
  (∀ m, n = N_timer m → activated (timers k' m) = activated (timers k m)) →
  member_ok k' h n.
Proof.
  intros H Ht Hm. destruct n as [| | | | | |t|m].
  - by destruct h.
  - by destruct h.
  - by destruct h.
  - by destruct h.
  - by destruct h.
  - by destruct h.
  - destruct (Ht t) as [Es Ep]; [by left|]. unfold member_ok in *. by rewrite Es, ?Ep.
  - destruct h; try done. cbn in *. rewrite Hm by done. destruct H as [? H]. split; [done|].
    destruct m as [t|i]; [|done]. destruct (Ht t) as [-> _]; [by right|done].
Qed.

Lemma ready_ok_threads k k' L : ready_ok k L →
  rt_thread_ready_priority_group k' = rt_thread_ready_priority_group k →
  rt_thread_ready_table k' = rt_thread_ready_table k →
  (∀ t, current_priority (threads k' t) = current_priority (threads k t)) → ready_ok k' L.
Proof.
  intros [R1 R2 R3 R4 R5] Eg Eb Ep. split; rewrite ?Eg, ?Eb; try done.
  intros p n Hn. destruct (R5 p n Hn) as (t & -> & E). exists t. by rewrite Ep.
Qed.

Lemma ready_ok_lists k L L' : ready_ok k L → (∀ p, L' (N_ready p) = L (N_ready p)) → ready_ok k L'.
Proof.
  intros [R1 R2 R3 R4 R5] E. split; try done.
  - intros p Hp. rewrite E. by apply R3.
  - intros p n. rewrite E. apply R5.
Qed.

Lemma counting_frame k k' L L' cd : counting k L cd → L' N_timers = L N_timers →
  (∀ h m, is_head h → N_timer m ∈ L' h → h = N_timers) →
  (∀ m, timeout_tick (timers k' m) = timeout_tick (timers k m)) → rt_tick k' = rt_tick k →
  counting k' L' cd.
Proof.
  intros [C1 C2 C3 C4] E H Em Ek. split; [by rewrite E| |done|done].
  intros m d Hin. rewrite Em, Ek. by apply C2.
Qed.

Lemma without_other n h L : (∀ n', n' ∈ L h → n' ≠ n) → without n L h = L h.
Proof. intros H. apply without_id. intros Hn. by apply (H n). Qed.

Lemma not_in_ready X lo k L t p : kernel_wf X lo k L → stat (threads k t) ≠ RT_THREAD_READY →
  N_tlist t ∉ L (N_ready p).
Proof. intros W Hs Hin. apply (kw_member _ _ _ _ W (N_ready p)) in Hin as [? _]; done. Qed.

Lemma timers_only X lo k L n : kernel_wf X lo k L → n ∈ L N_timers → ∃ m, n = N_timer m.
Proof.
  intros W Hin. apply (kw_member _ _ _ _ W N_timers) in Hin; [|done].
  destruct n; try done. eauto.
Qed.

Lemma without_tlist_timers X lo k L t : kernel_wf X lo k L →
  without (N_tlist t) L N_timers = L N_timers.
Proof.
  intros W. apply without_other. intros n Hin ->.
  by destruct (timers_only _ _ _ _ _ W Hin).
Qed.

(** A change that the lists do not see *)
Definition unlisted_change (f : rt_thread → rt_thread) : Prop := ∀ th,
  stat (f th) = stat th ∧ current_priority (f th) = current_priority th ∧
  init_priority (f th) = init_priority th ∧ number (f th) = number th ∧
  high_mask (f th) = high_mask th ∧ number_mask (f th) = number_mask th.

Lemma attr_ok_change f th : unlisted_change f → attr_ok th → attr_ok (f th).
Proof. intros H. destruct (H th) as (_ & E1 & _ & E2 & E3 & E4). unfold attr_ok. by rewrite E1, E2, E3, E4. Qed.

Lemma change_wf X lo k L t f : unlisted_change f → kernel_wf X lo k L →
  kernel_wf X lo (upd_thread t f k) L.
Proof.
  intros Hf W. destruct (Hf (threads k t)) as (E1 & E2 & E3 & _).
  assert (∀ t', stat (threads (upd_thread t f k) t') = stat (threads k t') ∧
    current_priority (threads (upd_thread t f k) t') = current_priority (threads k t')) as Et.
  { intros t'. rewrite threads_upd. case_decide as H; [by subst|done]. }
  split; try apply W.
  - eapply ready_ok_threads; [apply W|done..|apply Et].
  - intros t'. rewrite threads_upd. case_decide; [rewrite E3|]; apply W.
  - intros t'. destruct (Et t') as [-> _]. intros Hs. rewrite threads_upd.
    case_decide as H; [subst; apply attr_ok_change; [done|]|]; by apply (kw_attr _ _ _ _ W).
  - intros h n Hh Hn. eapply member_ok_frame; [by apply (kw_member _ _ _ _ W h n Hh Hn)| |done].
    intros t' _. apply Et.
  - intros t'. destruct (Et t') as [-> ->]. apply W.
  - destruct (kw_counting _ _ _ _ W) as (cd & HC & Hlo). exists cd. split; [|done].
    eapply counting_frame; [exact HC|done|apply HC|done|done].
Qed.

(** Taking a thread that is not ready out of the list it waits in *)
Lemma detach_thread_wf X lo k L t : kernel_wf X lo k L → stat (threads k t) ≠ RT_THREAD_READY →
  let k' := upd_nodes (rt_list_remove (N_tlist t)) k in
  let L' := without (N_tlist t) L in
  kernel_wf X lo k' L' ∧ loose is_head L' (N_tlist t).
Proof.
  intros W Hs k' L'. destruct (lists_remove is_head (nodes k) L (N_tlist t)) as [HL' Hloose];
    [by intros []|apply W|]. fold L' in HL', Hloose. split; [|done].
  pose proof (without_tlist_timers _ _ _ _ t W) as Et. fold L' in Et.
  assert (∀ h n, n ∈ L' h → n ∈ L h) as Hsub by (intros h n; unfold L'; rewrite elem_without; tauto).
  split; try apply W; rewrite ?Et; try apply W.
  - done.
  - eapply ready_ok_lists; [eapply ready_ok_threads; [apply W|done..]|]. intros p.
    apply without_other. intros n Hin ->. by eapply not_in_ready.
  - intros h n Hh Hn. eapply member_ok_frame; [apply (kw_member _ _ _ _ W h n Hh), Hsub, Hn|done..].
  - intros t' Hr. unfold L'. rewrite elem_without. split; [by apply (kw_is_ready _ _ _ _ W)|].
    by intros [= ->].
  - destruct (kw_counting _ _ _ _ W) as (cd & HC & Hlo). exists cd. split; [|done].
    eapply counting_frame; [exact HC|done| |done|done].
    intros h m Hh Hn%Hsub. by apply (cnt_only _ _ _ HC h m).
Qed.

(** Taking a timer out of the list and marking it as not active *)
Lemma detach_timer_wf X lo k L m : kernel_wf X lo k L →
  let k' := upd_timer m deactivate (upd_nodes (rt_list_remove (N_timer m)) k) in
  let L' := without (N_timer m) L in
  kernel_wf X lo k' L' ∧ loose is_head L' (N_timer m) ∧ activated (timers k' m) = false ∧
  (∀ h, h ≠ N_timers → is_head h → L' h = L h).
Proof.
  intros W k' L'. destruct (lists_remove is_head (nodes k) L (N_timer m)) as [HL' Hloose];
    [by intros []|apply W|]. fold L' in HL', Hloose.
  assert (∀ h n, n ∈ L' h → n ∈ L h ∧ n ≠ N_timer m) as Hsub
    by (intros h n; unfold L'; rewrite elem_without; tauto).
  assert (∀ h, h ≠ N_timers → is_head h → L' h = L h) as Hother.
  { intros h Hne Hh. apply without_other. intros n Hin ->.
    apply (kw_member _ _ _ _ W h _ Hh) in Hin. by destruct h. }
  assert (∀ m', timers k' m' = if decide (m' = m) then deactivate (timers k m) else timers k m') as Em
    by (intros; apply (timers_upd m deactivate (upd_nodes _ k))).
  split_and!; [|done|by rewrite Em, decide_True, activated_deactivate|done].
  split; try apply W.
  - done.
  - eapply ready_ok_lists; [eapply ready_ok_threads; [apply W|done..]|]. intros p. by apply Hother.
  - intros h n Hh [Hn Hne]%Hsub. eapply member_ok_frame; [apply (kw_member _ _ _ _ W h n Hh Hn)|done|].
    intros m' ->. rewrite Em, decide_False; [done|]. by intros ->.
  - intros t Hr. rewrite Hother by done. by apply (kw_is_ready _ _ _ _ W).
  - intros m'. rewrite Em. case_decide as H; [by rewrite activated_deactivate|].
    intros [Hin|?]%(kw_active _ _ _ _ W); [left|by right]. unfold L'. rewrite elem_without.
    split; [done|]. by intros [= ->].
  - intros m' HX [Hin _]%Hsub. by apply (kw_not_listed _ _ _ _ W m').
  - intros m'. rewrite Em. case_decide as H; [subst|apply W]. unfold period_ok.
    rewrite periodic_deactivate. apply W.
  - intros t. rewrite Em. case_decide as H; [|apply W]. rewrite periodic_deactivate, <- H. apply W.
  - intros m' [Hin _]%Hsub. by apply (kw_known _ _ _ _ W).
  - destruct (kw_counting _ _ _ _ W) as (cd & HC & Hlo).
    destruct (timer_remove_ok k L cd m) as (_ & HC' & _); [apply W|done|].
    exists (cd_remove m cd). split.
    + eapply counting_frame; [exact HC'|done|by apply HC'| |done].
      intros m'. rewrite Em. case_decide as H; [by subst|done].
    + apply Forall_forall. intros x [_ Hx]%list_elem_of_filter. by eapply Forall_forall in Hlo.
Qed.

(** Making a thread ready that is in no list *)
Lemma insert_ready_wf X lo k L t : kernel_wf X lo k L → loose is_head L (N_tlist t) →
  N_timer (TM_thread t) ∉ L N_timers → stat (threads k t) = RT_THREAD_SUSPEND →
  let p := current_priority (threads k t) in
  let L' := <[N_ready p := L (N_ready p) ++ [N_tlist t]]> L in
  kernel_wf X lo (rt_schedule_insert_thread t k) L' ∧
  (∀ h, h ≠ N_ready p → L' h = L h).
Proof.
  intros W Hl Hm Hs p L'. set (k' := rt_schedule_insert_thread t k).
  pose proof (kw_attr _ _ _ _ W t ltac:(by rewrite Hs)) as HA.
  destruct (insert_thread_ok k L t) as [HL' HR']; [apply W|apply W|done|done|].
  fold p k' L' in HL', HR'.
  assert (∀ t', threads k' t' = if decide (t' = t) then set_stat RT_THREAD_READY (threads k t)
    else threads k t') as Et by (intros; apply (threads_upd t (set_stat RT_THREAD_READY) k)).
  assert (∀ h, h ≠ N_ready p → L' h = L h) as Hother.
  { intros h Hne. unfold L'. by rewrite fn_lookup_insert_ne. }
  split; [|done]. split; rewrite ?(Hother N_timers) by done; try apply W.
  - done.
  - done.
  - intros t'. rewrite Et. case_decide; [apply (kw_init _ _ _ _ W t)|apply W].
  - intros t'. rewrite Et. case_decide; [done|apply W].
  - intros h n Hh Hn. destruct (decide (n = N_tlist t)) as [->|Hne].
    + destruct (decide (h = N_ready p)) as [->|Hh'].
      * unfold member_ok. by rewrite Et, decide_True by done.
      * rewrite Hother in Hn by done. by destruct (proj2 Hl h Hh).
    + assert (n ∈ L h) as Hn'.
      { destruct (decide (h = N_ready p)) as [->|Hh']; [|by rewrite Hother in Hn].
        unfold L' in Hn. rewrite fn_lookup_insert, elem_of_app, list_elem_of_singleton in Hn. tauto. }
      eapply member_ok_frame; [by apply (kw_member _ _ _ _ W h n Hh Hn')| |done].
      intros t' Ht'. rewrite Et, decide_False; [done|]. intros ->.
      destruct Ht' as [->| ->]; [done|]. apply Hm.
      assert (h = N_timers) as <-; [|done]. apply (kw_member _ _ _ _ W h _ Hh) in Hn'. by destruct h.
  - intros t'. rewrite Et. case_decide as H.
    + intros _. subst t'. cbn [current_priority set_stat]. fold p. unfold L'.
      rewrite fn_lookup_insert. apply elem_of_app. right. by left.
    + intros Hr%(kw_is_ready _ _ _ _ W). unfold L'.
      destruct (decide (N_ready (current_priority (threads k t')) = N_ready p)) as [E|E].
      * rewrite E, fn_lookup_insert. apply elem_of_app. left. by rewrite <- E.
      * by rewrite fn_lookup_insert_ne.
  - destruct (kw_counting _ _ _ _ W) as (cd & HC & Hlo). exists cd. split; [|done].
    eapply counting_frame; [exact HC|by apply Hother| |done|done].
    intros h m' Hh Hin. apply (cnt_only _ _ _ HC h m' Hh).
    destruct (decide (h = N_ready p)) as [->|Hh']; [|by rewrite Hother in Hin].
    unfold L' in Hin. rewrite fn_lookup_insert, elem_of_app, list_elem_of_singleton in Hin.
    by destruct Hin.
Qed.

(** Suspending a ready thread *)
Lemma suspend_wf X lo k L t : kernel_wf X lo k L → stat (threads k t) = RT_THREAD_READY →
  let k' := (rt_thread_suspend t k).2 in
  let L' := without (N_tlist t) L in
  kernel_wf X lo k' L' ∧ loose is_head L' (N_tlist t) ∧
  (∀ h, h ≠ N_ready (current_priority (threads k t)) → is_head h → L' h = L h) ∧
  (∀ t', threads k' t' = if decide (t' = t) then set_stat RT_THREAD_SUSPEND (threads k t)
    else threads k t') ∧ timers k' = timers k ∧ rt_tick k' = rt_tick k.
Proof.
  intros W Hs k' L'. set (p := current_priority (threads k t)).
  unfold k', rt_thread_suspend. rewrite Hs. cbn [Z.eqb Pos.eqb snd RT_THREAD_READY].
  set (k1 := upd_thread t (set_stat RT_THREAD_SUSPEND) k).
  assert (∀ t', threads k1 t' = if decide (t' = t) then set_stat RT_THREAD_SUSPEND (threads k t)
    else threads k t') as Et by (intros; apply threads_upd).
  assert (ready_ok k1 L) as HR1.
  { eapply ready_ok_threads; [apply W|done..|]. intros t'. rewrite Et.
    case_decide as H; [by subst|done]. }
  assert (attr_ok (threads k1 t)) as HA.
  { rewrite Et, decide_True by done. apply (kw_attr _ _ _ _ W t). by rewrite Hs. }
  destruct (remove_thread_ok k1 L t) as (HL' & HR' & Hloose & Et'); [apply W|done|done|].
  set (k2 := rt_schedule_remove_thread t k1) in *. fold L' in HL', HR', Hloose.
  assert (timers k2 = timers k ∧ rt_tick k2 = rt_tick k) as [Em Ek].
  { unfold k2, rt_schedule_remove_thread. by repeat case_match. }
  assert (N_tlist t ∈ L (N_ready p)) as Hin by (by apply (kw_is_ready _ _ _ _ W)).
  assert (∀ h, h ≠ N_ready p → is_head h → L' h = L h) as Hother.
  { intros h Hne Hh. apply without_other. intros n Hn ->. apply Hne.
    by apply (lists_disjoint _ _ _ (kw_lists _ _ _ _ W) h (N_ready p) (N_tlist t)). }
  assert (∀ h n, n ∈ L' h → n ∈ L h ∧ n ≠ N_tlist t) as Hsub
    by (intros h n; unfold L'; rewrite elem_without; tauto).
  rewrite Et'. split_and!; try done. split; rewrite ?(Hother N_timers), ?Em, ?Ek by done; try apply W.
  - done.
  - done.
  - intros t'. rewrite Et', Et. case_decide; [apply (kw_init _ _ _ _ W t)|apply W].
  - intros t'. rewrite Et', Et. case_decide as H; [intros _; apply (kw_attr _ _ _ _ W t); by rewrite Hs|].
    apply W.
  - intros h n Hh [Hn Hne]%Hsub.
    eapply member_ok_frame; [by apply (kw_member _ _ _ _ W h n Hh Hn)| |by rewrite Em].
    intros t' Ht'. rewrite Et', Et, decide_False; [done|]. intros ->.
    destruct Ht' as [->| ->]; [done|]. apply (kw_member _ _ _ _ W h _ Hh) in Hn.
    destruct h; try done. destruct Hn as [_ Hn]. by rewrite Hs in Hn.
  - intros t'. rewrite Et', Et. case_decide as H; [done|]. intros Hr%(kw_is_ready _ _ _ _ W).
    unfold L'. rewrite elem_without. split; [done|]. by intros [= ->].
  - destruct (kw_counting _ _ _ _ W) as (cd & HC & Hlo). exists cd. split; [|done].
    eapply counting_frame; [exact HC|by apply Hother| |by rewrite Em|done].
    intros h m' Hh [Hn _]%Hsub. by apply (cnt_only _ _ _ HC h m').
Qed.

(** What the functions of threads leave alone *)
Record same_objects (k k' : KERNEL) : Prop := {
  so_current : rt_current_thread k' = rt_current_thread k;
  so_lock : rt_scheduler_lock_nest k' = rt_scheduler_lock_nest k;
  so_nest : rt_interrupt_nest k' = rt_interrupt_nest k;
  so_tick : rt_tick k' = rt_tick k;
  so_sems : sems k' = sems k;
  so_mutexes : mutexes k' = mutexes k;
  so_events : events k' = events k;
  so_history : history k' = history k
}.

#[export] Instance same_objects_preorder : PreOrder same_objects.
Proof.
  split; [by split|]. intros k1 k2 k3 [] []. split; by etransitivity.
Qed.

Lemma same_objects_insert t k : same_objects k (rt_schedule_insert_thread t k).
Proof. by split. Qed.

Lemma same_objects_remove t k : same_objects k (rt_schedule_remove_thread t k).
Proof. unfold rt_schedule_remove_thread. repeat case_match; by split. Qed.

(** One thread is woken: it leaves the list it waits in and the list of timers
    and is the last of its priority. *)
Record woken (t : nat) (k : KERNEL) (L : NODE → list NODE) (k' : KERNEL) (L' : NODE → list NODE)
  : Prop := {
  wk_ready : L' (N_ready (current_priority (threads k t))) =
    L (N_ready (current_priority (threads k t))) ++ [N_tlist t];
  wk_others h : is_head h → h ≠ N_ready (current_priority (threads k t)) → h ≠ N_timers →
    L' h = filter (.≠ N_tlist t) (L h);
  wk_timers m : N_timer m ∈ L' N_timers ↔ N_timer m ∈ L N_timers ∧ m ≠ TM_thread t;
  wk_stat : stat (threads k' t) = RT_THREAD_READY;
  wk_thread : set_stat (stat (threads k t)) (threads k' t) = threads k t;
  wk_threads t' : t' ≠ t → threads k' t' = threads k t';
  wk_user m : m ≠ TM_thread t → timers k' m = timers k m
}.

Lemma set_stat_back th s : set_stat (stat th) (set_stat s th) = th.
Proof. by destruct th. Qed.

Lemma resume_wf X lo k L t : kernel_wf X lo k L → stat (threads k t) = RT_THREAD_SUSPEND →
  ∃ k' L', rt_thread_resume t k = (RT_EOK, k') ∧ kernel_wf X lo k' L' ∧ woken t k L k' L' ∧
    same_objects k k' ∧ activated (timers k' (TM_thread t)) = false.
Proof.
  intros W Hs. unfold rt_thread_resume. rewrite Hs. cbn [Z.eqb Pos.eqb RT_THREAD_SUSPEND].
  destruct (detach_thread_wf X lo k L t W) as [W1 Hl1]; [by rewrite Hs|].
  set (k1 := upd_nodes (rt_list_remove (N_tlist t)) k) in *.
  set (L1 := without (N_tlist t) L) in *.
  destruct (detach_timer_wf X lo k1 L1 (TM_thread t) W1) as (W2 & Hl2 & Ha2 & HL2).
  set (k2 := upd_timer (TM_thread t) deactivate _) in *.
  set (L2 := without (N_timer (TM_thread t)) L1) in *.
  assert (loose is_head L2 (N_tlist t)) as Hl.
  { split; [by intros []|]. intros h Hh. unfold L2. rewrite elem_without. intros [Hin _].
    by apply (proj2 Hl1 h). }
  destruct (insert_ready_wf X lo k2 L2 t W2) as [W3 HL3]; [done|apply Hl2; done|done|].
  set (p := current_priority (threads k2 t)) in *.
  change (current_priority (threads k t)) with p.
  set (L3 := <[N_ready p := L2 (N_ready p) ++ [N_tlist t]]> L2) in *.
  assert (∀ t', threads (rt_schedule_insert_thread t k2) t' =
    if decide (t' = t) then set_stat RT_THREAD_READY (threads k t) else threads k t') as Et
    by (intros; apply (threads_upd t (set_stat RT_THREAD_READY) k2)).
  exists (rt_schedule_insert_thread t k2), L3. split_and!; [done|done| |by split|done].
  split.
  - unfold L3. rewrite fn_lookup_insert, HL2 by done. unfold L1, without.
    rewrite without_id; [done|]. eapply not_in_ready; [exact W|by rewrite Hs].
  - intros h Hh Hne1 Hne2. by rewrite HL3, HL2 by done.
  - intros m. rewrite HL3 by done. unfold L2, L1. rewrite !elem_without. split.
    + intros [[? _] Hne]. split; [done|]. by intros ->.
    + intros [? Hne]. split; [done|]. by intros [= ->].
  - by rewrite Et, decide_True.
  - rewrite Et, decide_True by done. apply set_stat_back.
  - intros t' Hne. by rewrite Et, decide_False.
  - intros m Hne. change (timers (rt_schedule_insert_thread t k2)) with (timers k2).
    unfold k2. by rewrite timers_upd, decide_False.
Qed.

(** The same for a thread whose timer has just left the list *)
Lemma timeout_woken lo k L t : kernel_wf (Some (TM_thread t)) lo k L →
  stat (threads k t) = RT_THREAD_SUSPEND →
  let k1 := upd_thread t (set_error (- RT_ETIMEOUT)) k in
  let k' := rt_schedule_insert_thread t (upd_nodes (rt_list_remove (N_tlist t)) k1) in
  ∃ L', kernel_wf (Some (TM_thread t)) lo k' L' ∧ woken t k1 L k' L' ∧ same_objects k k' ∧
    timers k' = timers k.
Proof.
  intros W Hs k1 k'.
  assert (∀ t', threads k1 t' = if decide (t' = t) then set_error (- RT_ETIMEOUT) (threads k t)
    else threads k t') as Et1 by (intros; apply threads_upd).
  assert (kernel_wf (Some (TM_thread t)) lo k1 L) as W1 by (by apply change_wf).
  assert (stat (threads k1 t) = RT_THREAD_SUSPEND) as Hs1 by (by rewrite Et1, decide_True).
  destruct (detach_thread_wf _ lo k1 L t W1) as [W2 Hl2]; [by rewrite Hs1|].
  set (k2 := upd_nodes (rt_list_remove (N_tlist t)) k1) in *.
  set (L2 := without (N_tlist t) L) in *.
  pose proof (without_tlist_timers _ _ _ _ t W1) as EL2. fold L2 in EL2.
  destruct (insert_ready_wf _ lo k2 L2 t W2 Hl2) as [W3 HL3];
    [rewrite EL2; by apply (kw_not_listed _ _ _ _ W)|done|].
  set (p := current_priority (threads k2 t)) in *.
  change (current_priority (threads k1 t)) with p in *.
  set (L3 := <[N_ready p := L2 (N_ready p) ++ [N_tlist t]]> L2) in *.
  assert (∀ t', threads k' t' =
    if decide (t' = t) then set_stat RT_THREAD_READY (threads k1 t) else threads k1 t') as Et
    by (intros; apply (threads_upd t (set_stat RT_THREAD_READY) k2)).
  exists L3. split_and!; [done| |by split|done]. split.
  - change (current_priority (threads k1 t)) with p.
    unfold L3. rewrite fn_lookup_insert. unfold L2, without.
    rewrite without_id; [done|]. eapply not_in_ready; [exact W1|by rewrite Hs1].
  - intros h Hh Hne1 Hne2. by rewrite HL3.
  - intros m. rewrite HL3, EL2 by done. split; [|by intros [? _]]. intros Hin. split; [done|].
    intros ->. by apply (kw_not_listed _ _ _ _ W (TM_thread t)).
  - by rewrite Et, decide_True.
  - rewrite Et, decide_True by done. apply set_stat_back.
  - intros t' Hne. by rewrite Et, decide_False.
  - done.
Qed.

(** *** Timers *)

Hypothesis enough_fuel : (length ms < fuel)%nat.

Lemma listed_keys k L cd m : counting k L cd → N_timer m ∈ L N_timers ↔ m ∈ cd.*1.
Proof.
  intros HC. rewrite (cnt_nodes _ _ _ HC). unfold cd_nodes. rewrite !list_elem_of_fmap. split.
  - intros (x & [= ->] & Hx). by exists x.
  - intros (x & -> & Hx). by exists x.
Qed.

Lemma kernel_cd_length X lo k L cd : kernel_wf X lo k L → counting k L cd → (length cd < fuel)%nat.
Proof.
  intros W HC. assert (NoDup cd.*1) as ND by (eapply counting_nodup; [apply W|done]).
  assert (cd.*1 ⊆ ms) as Hsub.
  { intros m Hm. apply (kw_known _ _ _ _ W). by apply (listed_keys _ _ _ _ HC). }
  pose proof (submseteq_length _ _ (NoDup_submseteq _ ms ND Hsub)) as Hle.
  rewrite length_fmap in Hle. lia.
Qed.

Lemma unlisted_loose X lo k L m : kernel_wf X lo k L → N_timer m ∉ L N_timers →
  loose is_head L (N_timer m).
Proof.
  intros W Hm. split; [by intros []|]. intros h Hh Hin.
  pose proof (kw_member _ _ _ _ W h _ Hh Hin) as Hok. by destruct h.
Qed.

Lemma deactivate_wf lo k L m : kernel_wf (Some m) lo k L →
  kernel_wf None lo (upd_timer m deactivate k) L.
Proof.
  intros W. pose proof (kw_not_listed _ _ _ _ W m eq_refl) as Hm.
  assert (∀ m', timers (upd_timer m deactivate k) m' =
    if decide (m' = m) then deactivate (timers k m) else timers k m') as Em by apply timers_upd.
  split; try apply W.
  - eapply ready_ok_threads; [apply W|done..].
  - intros h n Hh Hn. eapply member_ok_frame; [by apply (kw_member _ _ _ _ W h n Hh Hn)|done|].
    intros m' ->. rewrite Em, decide_False; [done|]. intros ->.
    apply (proj2 (unlisted_loose _ _ _ _ _ W Hm) h Hh Hn).
  - intros m'. rewrite Em. case_decide; [by rewrite activated_deactivate|].
    intros [?|[= ->]]%(kw_active _ _ _ _ W); [by left|done].
  - done.
  - intros m'. rewrite Em. case_decide as H; [|apply W]. unfold period_ok.
    rewrite periodic_deactivate. apply W.
  - intros t. rewrite Em. case_decide as H; [|apply W]. rewrite periodic_deactivate, <- H. apply W.
  - destruct (kw_counting _ _ _ _ W) as (cd & HC & Hlo). exists cd. split; [|done].
    eapply counting_frame; [exact HC|done|apply HC| |done]. intros m'. rewrite Em.
    case_decide as H; [by subst|done].
Qed.

Lemma timer_start_wf X lo k L m : kernel_wf X lo k L → lo ≤ 0 → N_timer m ∉ L N_timers →
  X ≠ Some m → m ∈ ms → 0 ≤ timer_init_tick (timers k m) < RT_TICK_MAX / 2 →
  match m with TM_thread t => stat (threads k t) = RT_THREAD_SUSPEND | _ => True end →
  ∃ k' L', rt_timer_start m k = Some (0, k') ∧ kernel_wf X lo k' L' ∧
    (∀ h, h ≠ N_timers → L' h = L h) ∧ threads k' = threads k ∧ same_objects k k' ∧
    (∃ cd, counting k L cd ∧ Forall (λ x, lo ≤ x.2) cd ∧
      counting k' L' (cd_insert m (timer_init_tick (timers k m)) cd)) ∧
    (∀ m', m' ≠ m → timers k' m' = timers k m').
Proof.
  intros W Hlo Hm HX Hms Htime Ht. destruct (kw_counting _ _ _ _ W) as (cd & HC & Hall).
  assert (activated (timers k m) = false) as Ha.
  { destruct (activated (timers k m)) eqn:E; [|done]. by apply (kw_active _ _ _ _ W) in E as []. }
  destruct (timer_start_ok k L cd m) as (k' & L' & E & HL' & HC' & HLo & Em & Em' & Ek);
    [apply W|done|by eapply unlisted_loose|done|by eapply kernel_cd_length|done|].
  exists k', L'. split; [done|].
  assert (threads k' = threads k) as Et by (by rewrite Ek).
  assert (∀ m', N_timer m' ∈ L' N_timers ↔ m' = m ∨ N_timer m' ∈ L N_timers) as Hlisted.
  { intros m'. rewrite (listed_keys _ _ _ _ HC'), (listed_keys _ _ _ _ HC), cd_insert_keys.
    by rewrite elem_of_cons. }
  split_and!; [|done|done|rewrite Ek; by split|by exists cd|done].
  split; rewrite ?Et, ?HLo by done; try apply W.
  - done.
  - eapply ready_ok_lists; [eapply ready_ok_threads; [apply W|by rewrite Ek..]|]. intros p.
    by apply HLo.
  - rewrite Ek. apply W.
  - intros h n Hh Hn. destruct (decide (h = N_timers)) as [->|Hne].
    + assert (∃ m', n = N_timer m') as (m' & ->).
      { rewrite (cnt_nodes _ _ _ HC') in Hn. apply list_elem_of_fmap in Hn as (x & -> & _). eauto. }
      cbn. rewrite Et. destruct (decide (m' = m)) as [->|Hne'].
      * split; [by rewrite Em, activated_activate|done].
      * rewrite Em' by done. apply Hlisted in Hn as [?|Hn]; [done|].
        by apply (kw_member _ _ _ _ W N_timers _ I) in Hn.
    + rewrite HLo in Hn by done. eapply member_ok_frame;
        [by apply (kw_member _ _ _ _ W h n Hh Hn)|by rewrite Et|].
      intros m' ->. apply (kw_member _ _ _ _ W h _ Hh) in Hn. by destruct h.
  - intros t Hr. rewrite HLo by done. by apply (kw_is_ready _ _ _ _ W).
  - intros m'. rewrite Hlisted. destruct (decide (m' = m)) as [->|Hne]; [by left; left|].
    rewrite Em' by done. intros [?|?]%(kw_active _ _ _ _ W); [by left; right|by right].
  - intros m' EX. rewrite Hlisted. intros [->|?]; [done|]. by apply (kw_not_listed _ _ _ _ W m').
  - intros m'. destruct (decide (m' = m)) as [->|Hne]; [|rewrite Em' by done; apply W].
    rewrite Em. unfold period_ok. rewrite periodic_activate. apply (kw_period _ _ _ _ W m).
  - intros t. destruct (decide (TM_thread t = m)) as [<-|Hne]; [|rewrite Em' by done; apply W].
    rewrite Em, periodic_activate. apply W.
  - intros m'. rewrite Hlisted. intros [->|?]; [done|]. by apply (kw_known _ _ _ _ W).
  - eexists. split; [exact HC'|]. apply Forall_forall. intros x [->|Hx]%cd_insert_elem; [cbn; lia|].
    by eapply Forall_forall in Hall.
Qed.

(** *** The processor always has something to run *)

(** The idle thread never waits. *)
Variable idle : nat.

(** What holds around [rt_schedule]: a running thread that has just put itself
    to wait is to be switched away. *)
Record awake (k : KERNEL) : Prop := {
  aw_idle : stat (threads k idle) = RT_THREAD_READY;
  aw_current : ∃ t, rt_current_thread k = Some t ∧
    (rt_scheduler_lock_nest k ≠ 0 → stat (threads k t) = RT_THREAD_READY)
}.

Record alive (k : KERNEL) : Prop := {
  al_idle : stat (threads k idle) = RT_THREAD_READY;
  al_current : ∃ t, rt_current_thread k = Some t ∧ stat (threads k t) = RT_THREAD_READY
}.

Lemma alive_awake k : alive k → awake k.
Proof. intros [? (t & ? & ?)]. split; [done|]. by exists t. Qed.

Lemma awake_any X lo k L : kernel_wf X lo k L → awake k → any_ready L.
Proof.
  intros W [Hi _]. exists (current_priority (threads k idle)). split.
  - apply (kw_attr _ _ _ _ W). by rewrite Hi.
  - pose proof (kw_is_ready _ _ _ _ W idle Hi) as Hin. intros E.
    rewrite E in Hin. by apply elem_of_nil in Hin.
Qed.

(** Without the scheduler's lock, the first thread of the best priority runs. *)
Definition dispatched (k : KERNEL) (L : NODE → list NODE) : Prop :=
  rt_scheduler_lock_nest k = 0 → ∃ t, rt_current_thread k = Some t ∧ first_ready L t.

Lemma first_ready_stat X lo k L t : kernel_wf X lo k L → first_ready L t →
  stat (threads k t) = RT_THREAD_READY.
Proof.
  intros W (p & rest & _ & E & _).
  apply (kw_member _ _ _ _ W (N_ready p) (N_tlist t)); [done|]. rewrite E. by left.
Qed.

Lemma schedule_wf X lo k L : kernel_wf X lo k L → awake k →
  ∃ k', rt_schedule k = Some k' ∧ kernel_wf X lo k' L ∧ alive k' ∧ rescheduled k k' ∧
    dispatched k' L.
Proof.
  intros W A. destruct (aw_current _ A) as (c & Hc & Hr).
  destruct (rt_schedule_ok k L c) as (k' & E & R & H1 & H2);
    [apply W|apply W|by eapply awake_any|done|].
  exists k'. split; [done|]. split; [by eapply kernel_wf_rescheduled|]. split_and!; [|done|].
  - split; [rewrite (resched_threads _ _ R); apply A|].
    destruct (decide (rt_scheduler_lock_nest k = 0)) as [H0|H0].
    + destruct (H1 H0) as (t & -> & Ht). exists t. split; [done|].
      rewrite (resched_threads _ _ R). by eapply first_ready_stat.
    + rewrite (H2 H0). exists c. auto.
  - unfold dispatched. rewrite (resched_lock _ _ R). intros H0. by apply H1.
Qed.

(** *** The calls of threads *)

(** The order in a list that is not the one of the timers does not matter. *)
Lemma reorder_wf X lo k k' L L' : kernel_wf X lo k L → lists is_head (nodes k') L' →
  (∀ h n, is_head h → n ∈ L' h ↔ n ∈ L h) → L' N_timers = L N_timers →
  k' = set_nodes (nodes k') k → kernel_wf X lo k' L'.
Proof.
  intros W HL E Et ->. split; rewrite ?Et; try apply W.
  - done.
  - destruct (kw_ready _ _ _ _ W) as [R1 R2 R3 R4 R5]. split; try done.
    + intros p Hp. etransitivity; [by apply R3|]. split; intros Hne Hnil; apply Hne, elem_of_nil_inv;
        intros n Hn%E; try done; rewrite Hnil in Hn; by apply elem_of_nil in Hn.
    + intros p n Hn%E; [|done]. by apply (R5 p n).
  - intros h n Hh Hn%E; [|done]. by apply (kw_member _ _ _ _ W h n).
  - intros t Hr. by apply E, (kw_is_ready _ _ _ _ W).
  - destruct (kw_counting _ _ _ _ W) as (cd & HC & Hlo). exists cd. split; [|done].
    eapply counting_frame; [exact HC|done| |done|done].
    intros h m Hh Hn%E; [|done]. by apply (cnt_only _ _ _ HC h m).
Qed.

(** The current thread becomes the last one of its priority. *)
Definition rotated (t : nat) (p : Z) (L : NODE → list NODE) : NODE → list NODE :=
  <[N_ready p := filter (.≠ N_tlist t) (L (N_ready p)) ++ [N_tlist t]]> L.

Lemma rotate_wf X lo k L t : kernel_wf X lo k L → stat (threads k t) = RT_THREAD_READY →
  let p := current_priority (threads k t) in
  let k' := upd_nodes (rt_list_insert_before (N_ready p) (N_tlist t))
    (upd_nodes (rt_list_remove (N_tlist t)) k) in
  kernel_wf X lo k' (rotated t p L).
Proof.
  intros W Hr p k'. pose proof (kw_is_ready _ _ _ _ W t Hr) as Hin. fold p in Hin.
  destruct (lists_remove is_head (nodes k) L (N_tlist t)) as [HL1 Hl1]; [by intros []|apply W|].
  assert (∀ h, is_head h → h ≠ N_ready p → without (N_tlist t) L h = L h) as Hother.
  { intros h Hh Hne. apply without_id. intros Hin'. apply Hne.
    by apply (lists_disjoint _ _ _ (kw_lists _ _ _ _ W) h (N_ready p) (N_tlist t)). }
  eapply reorder_wf; [exact W| | |unfold rotated; by rewrite fn_lookup_insert_ne|done].
  - eapply lists_ext; [|by apply (lists_insert_last is_head _ _ (N_ready p) (N_tlist t) HL1)].
    intros h Hh. unfold rotated. destruct (decide (h = N_ready p)) as [->|Hne].
    + by rewrite !fn_lookup_insert.
    + rewrite !fn_lookup_insert_ne by done. by apply Hother.
  - intros h n Hh. unfold rotated. destruct (decide (h = N_ready p)) as [->|Hne].
    + rewrite fn_lookup_insert, elem_of_app, list_elem_of_singleton, list_elem_of_filter.
      split; [intros [[_ ?]| ->]; done|]. intros Hn. destruct (decide (n = N_tlist t)); auto.
    + by rewrite fn_lookup_insert_ne.
Qed.

Lemma yield_wf X lo k L : kernel_wf X lo k L → alive k →
  ∃ k' L', rt_thread_yield k = Some k' ∧ kernel_wf X lo k' L' ∧ alive k' ∧
    threads k' = threads k ∧ timers k' = timers k ∧
    rt_scheduler_lock_nest k' = rt_scheduler_lock_nest k ∧
    rt_interrupt_nest k' = rt_interrupt_nest k ∧ rt_tick k' = rt_tick k ∧
    sems k' = sems k ∧ mutexes k' = mutexes k ∧
    (∀ h, (∀ p, h ≠ N_ready p) → L' h = L h) ∧ (dispatched k L → dispatched k' L').
Proof.
  intros W A. destruct (al_current _ A) as (t & Hc & Hr). unfold rt_thread_yield.
  rewrite Hc. cbn [mbind option_bind]. rewrite Hr. cbn [Z.eqb Pos.eqb RT_THREAD_READY andb].
  case_match; [|by exists k, L].
  pose proof (rotate_wf _ _ _ _ t W Hr) as W1. cbn zeta in W1.
  set (k1 := upd_nodes _ _) in *. set (L1 := rotated _ _ _) in *.
  destruct (schedule_wf _ _ k1 L1 W1) as (k' & E & W2 & A2 & R & D).
  { apply alive_awake. split; apply A. }
  exists k', L1. split; [exact E|]. destruct R.
  split_and!; try done. intros h Hh. unfold L1, rotated. by rewrite fn_lookup_insert_ne.
Qed.

(** A thread in no list, and without a running timer *)
Definition unlisted (t : nat) (L : NODE → list NODE) : Prop :=
  ∀ h n, is_head h → node_of t n → n ∉ L h.

Lemma init_unlisted X lo k L t : kernel_wf X lo k L → stat (threads k t) = RT_THREAD_INIT →
  unlisted t L.
Proof.
  intros W Hi h n Hh Hn Hin. pose proof (kw_member _ _ _ _ W h n Hh Hin) as M.
  destruct Hn as [->| ->]; destruct h; cbn in M; rewrite ?Hi in M; naive_solver.
Qed.

(** Changing a thread that is not ready *)
Lemma reset_wf X lo k L t f : kernel_wf X lo k L → stat (threads k t) ≠ RT_THREAD_READY →
  (∀ th, init_priority (f th) = init_priority th) →
  stat (f (threads k t)) = stat (threads k t) ∨
    unlisted t L ∧ stat (f (threads k t)) ≠ RT_THREAD_READY →
  (stat (f (threads k t)) ≠ RT_THREAD_INIT → attr_ok (f (threads k t))) →
  kernel_wf X lo (upd_thread t f k) L.
Proof.
  intros W Hr Hi Hs Ha. set (k' := upd_thread t f k).
  assert (∀ t', threads k' t' = if decide (t' = t) then f (threads k t) else threads k t') as Et
    by apply threads_upd.
  assert (∀ h n, is_head h → n ∈ L h → node_of t n → stat (f (threads k t)) = stat (threads k t) ∧
    ∀ p, h ≠ N_ready p) as Hlisted.
  { intros h n Hh Hn Ht. pose proof (kw_member _ _ _ _ W h n Hh Hn) as M.
    split; [destruct Hs as [|[Hs _]]; [done|by destruct (Hs h n)]|].
    intros p ->; destruct Ht as [->| ->]; [by destruct M|done]. }
  split; try apply W.
  - destruct (kw_ready _ _ _ _ W) as [R1 R2 R3 R4 R5]. split; try done. intros p n Hn.
    destruct (R5 p n Hn) as (t' & -> & E). exists t'. split; [done|]. rewrite Et.
    case_decide as H; [subst|done]. by eapply not_in_ready in Hn.
  - intros t'. rewrite Et. case_decide; [rewrite Hi|]; apply W.
  - intros t'. rewrite Et. case_decide as H; [done|apply W].
  - intros h n Hh Hn. pose proof (kw_member _ _ _ _ W h n Hh Hn) as M.
    destruct n as [| | | | | |t'|[t'|i]]; [by destruct h..| | |by destruct h];
      unfold member_ok in *; rewrite Et; (case_decide as H; [subst t'|done]).
    + destruct (Hlisted h _ Hh Hn) as [-> Hne]; [by left|]. destruct h; try done.
      by destruct (Hne priority).
    + destruct (Hlisted h _ Hh Hn) as [-> _]; [by right|]. done.
  - intros t'. rewrite Et. case_decide as H; [|apply W]. destruct Hs as [->|[_ ?]]; [|done].
    by subst.
  - destruct (kw_counting _ _ _ _ W) as (cd & HC & Hlo). exists cd. split; [|done].
    eapply counting_frame; [exact HC|done|apply HC|done|done].
Qed.

(** Between the two halves of a change of priority, the thread might as well be
    suspended. *)
Lemma remove_set_stat s t k :
  rt_schedule_remove_thread t (upd_thread t (set_stat s) k) =
  upd_thread t (set_stat s) (rt_schedule_remove_thread t k).
Proof.
  unfold rt_schedule_remove_thread. cbn -[rt_list_isempty rt_list_remove tbl].
  rewrite fn_lookup_insert. cbn -[rt_list_isempty rt_list_remove tbl].
  destruct (rt_list_isempty _ _); [|done]. by destruct (_ =? 0).
Qed.

Lemma insert_attrs t k k' : nodes k' = nodes k →
  rt_thread_ready_priority_group k' = rt_thread_ready_priority_group k →
  rt_thread_ready_table k' = rt_thread_ready_table k →
  current_priority (threads k' t) = current_priority (threads k t) →
  number (threads k' t) = number (threads k t) →
  high_mask (threads k' t) = high_mask (threads k t) →
  number_mask (threads k' t) = number_mask (threads k t) →
  let j := rt_schedule_insert_thread t k in
  let j' := rt_schedule_insert_thread t k' in
  nodes j' = nodes j ∧ rt_thread_ready_table j' = rt_thread_ready_table j ∧
  rt_thread_ready_priority_group j' = rt_thread_ready_priority_group j.
Proof.
  intros En Eg Eb E1 E2 E3 E4. unfold rt_schedule_insert_thread.
  cbn -[rt_list_insert_before tbl]. rewrite !fn_lookup_insert.
  cbn -[rt_list_insert_before tbl]. by rewrite En, Eg, Eb, E1, E2, E3, E4.
Qed.

Lemma reinsert_wf X lo k0 L t p : let k1 := upd_thread t (set_stat RT_THREAD_SUSPEND) k0 in
  kernel_wf X lo k1 L → loose is_head L (N_tlist t) → N_timer (TM_thread t) ∉ L N_timers →
  stat (threads k0 t) = RT_THREAD_READY → valid_priority p →
  let k' := rt_schedule_insert_thread t (upd_thread t (set_priority p) k0) in
  ∃ L', kernel_wf X lo k' L' ∧ (∀ h, (∀ q, h ≠ N_ready q) → L' h = L h) ∧
    (∀ t', threads k' t' = if decide (t' = t) then set_priority p (threads k0 t) else threads k0 t').
Proof.
  intros k1 W1 Hl1 Hm Hr Hp k'.
  assert (∀ t', threads k1 t' = if decide (t' = t) then set_stat RT_THREAD_SUSPEND (threads k0 t)
    else threads k0 t') as Et1 by apply threads_upd.
  assert (kernel_wf X lo (upd_thread t (set_priority p) k1) L) as W2.
  { apply reset_wf; [done|by rewrite Et1, decide_True|done|by left|].
    intros _. by apply set_priority_ok. }
  set (k2 := upd_thread t (set_priority p) k1) in *.
  assert (threads k2 t = set_priority p (set_stat RT_THREAD_SUSPEND (threads k0 t))) as E2
    by (unfold k2; by rewrite threads_upd, decide_True, Et1, decide_True).
  destruct (insert_ready_wf X lo k2 _ t W2 Hl1 Hm) as [W3 Ho3]; [by rewrite E2|].
  assert (∀ t', threads k' t' =
      if decide (t' = t) then set_priority p (threads k0 t) else threads k0 t') as Et.
  { intros t'. unfold k', rt_schedule_insert_thread. cbn [threads upd_nodes set_nodes
      set_rt_thread_ready_table set_rt_thread_ready_priority_group].
    rewrite !threads_upd. destruct (decide (t' = t)); [|done]. rewrite decide_True by done.
    destruct (threads k0 t). cbn in Hr. by subst. }
  assert (threads (upd_thread t (set_priority p) k0) t = set_priority p (threads k0 t)) as E0
    by (by rewrite threads_upd, decide_True).
  destruct (insert_attrs t k2 (upd_thread t (set_priority p) k0)) as (E3 & E4 & E5);
    [done|done|done|by rewrite E0, E2..|].
  eexists. split_and!.
  - refine (kernel_wf_ext X lo _ _ _ W3 E3 _ (λ m, eq_refl) E5 E4 eq_refl).
    intros t'. rewrite Et. unfold rt_schedule_insert_thread. cbn [threads upd_nodes set_nodes
      set_rt_thread_ready_table set_rt_thread_ready_priority_group]. rewrite threads_upd, E2.
    case_decide as H; [by subst; destruct (threads k0 t); cbn in *; subst|]. unfold k2.
    by rewrite threads_upd, decide_False, Et1, decide_False.
  - intros h Hne. by rewrite Ho3.
  - exact Et.
Qed.

Lemma change_priority_wf X lo k L t p : kernel_wf X lo k L → valid_priority p →
  let k' := rt_thread_change_priority t p k in
  ∃ L', kernel_wf X lo k' L' ∧ (∀ h, (∀ q, h ≠ N_ready q) → is_head h → L' h = L h) ∧
    (∀ t', threads k' t' = if decide (t' = t) then set_priority p (threads k t) else threads k t') ∧
    timers k' = timers k ∧ same_objects k k'.
Proof.
  intros W Hp k'. unfold k', rt_thread_change_priority.
  destruct (Z.eqb_spec (stat (threads k t)) RT_THREAD_READY) as [Hr|Hr].
  2:{ exists L. split_and!; [|done|apply threads_upd|done|by split].
      apply reset_wf; [done|done|done|by left|]. intros _. by apply set_priority_ok. }
  destruct (suspend_wf X lo k L t W Hr) as (W1 & Hl1 & Ho1 & _).
  unfold rt_thread_suspend in *. rewrite Hr in *.
  cbn [Z.eqb Pos.eqb snd RT_THREAD_READY] in *. rewrite remove_set_stat in *.
  assert (threads (rt_schedule_remove_thread t k) = threads k ∧
    timers (rt_schedule_remove_thread t k) = timers k) as [E0 Em0].
  { unfold rt_schedule_remove_thread. by repeat case_match. }
  destruct (reinsert_wf X lo _ _ t p W1 Hl1) as (L' & W' & Ho & Et).
  { rewrite Ho1 by done. intros Hin. apply (kw_member _ _ _ _ W N_timers _ I) in Hin as [_ E].
    by rewrite Hr in E. }
  { by rewrite E0. }
  { done. }
  exists L'. split; [done|]. rewrite E0 in Et. split_and!; [|done|by rewrite <- Em0|].
  - intros h Hne Hh. by rewrite Ho, Ho1.
  - etransitivity; [apply (same_objects_remove t k)|]. by split.
Qed.

(** *** Waiting for the timer *)

(** The timer [m] has [d] ticks left. *)
Definition counts (k : KERNEL) (L : NODE → list NODE) (m : TIMER) (d : Z) : Prop :=
  ∃ cd, counting k L cd ∧ (m, d) ∈ cd.

Lemma counts_same k k' L m d : counts k L m d → timers k' = timers k → rt_tick k' = rt_tick k →
  counts k' L m d.
Proof.
  intros (cd & HC & Hin) Em Ek. exists cd. split; [|done].
  eapply counting_frame; [exact HC|done|apply HC| |done]. by rewrite Em.
Qed.

Lemma set_time_wf X lo k L t time : kernel_wf X lo k L →
  kernel_wf X lo (rt_timer_set_time (TM_thread t) time k) L.
Proof.
  intros W. set (k' := rt_timer_set_time _ _ _).
  assert (∀ m, timers k' m = if decide (m = TM_thread t)
    then set_timer_init_tick time (timers k (TM_thread t)) else timers k m) as Em by apply timers_upd.
  split; try apply W.
  - eapply ready_ok_threads; [apply W|done..].
  - intros h n Hh Hn. eapply member_ok_frame; [by apply (kw_member _ _ _ _ W h n Hh Hn)|done|].
    intros m _. rewrite Em. case_decide as H; [by subst|done].
  - intros m. rewrite Em. case_decide as H; [subst|]; apply W.
  - intros m. rewrite Em. case_decide as H; [|apply W]. unfold period_ok.
    change (periodic (set_timer_init_tick _ ?x)) with (periodic x).
    by rewrite (kw_thread_timer _ _ _ _ W).
  - intros t'. rewrite Em. case_decide as H; [|apply W].
    change (periodic (set_timer_init_tick _ ?x)) with (periodic x). apply W.
  - destruct (kw_counting _ _ _ _ W) as (cd & HC & Hlo). exists cd. split; [|done].
    eapply counting_frame; [exact HC|done|apply HC| |done]. intros m. rewrite Em.
    case_decide as H; [by subst|done].
Qed.

Lemma thread_timer_start_wf lo k L t time : kernel_wf None lo k L → lo ≤ 0 →
  N_timer (TM_thread t) ∉ L N_timers → TM_thread t ∈ ms → 0 ≤ time < RT_TICK_MAX / 2 →
  stat (threads k t) = RT_THREAD_SUSPEND →
  ∃ k' L', thread_timer_start t time k = Some k' ∧ kernel_wf None lo k' L' ∧
    (∀ h, h ≠ N_timers → L' h = L h) ∧ threads k' = threads k ∧ same_objects k k' ∧
    counts k' L' (TM_thread t) time ∧ (∀ m, N_timer m ∈ L N_timers → N_timer m ∈ L' N_timers) ∧
    (∀ m, m ≠ TM_thread t → timers k' m = timers k m).
Proof.
  intros W Hlo Hm Hms Htime Hs. unfold thread_timer_start.
  pose proof (set_time_wf _ _ _ _ t time W) as W1. set (k1 := rt_timer_set_time _ _ k) in *.
  assert (timer_init_tick (timers k1 (TM_thread t)) = time) as Et
    by (unfold k1, rt_timer_set_time; by rewrite timers_upd, decide_True).
  destruct (timer_start_wf None lo k1 L (TM_thread t) W1) as
    (k' & L' & -> & W' & HLo & Eth & SO & (cd & HC0 & _ & HC) & Em); [done..|by rewrite Et|done|].
  exists k', L'. split_and!; [done|done|done|done| | | |].
  - etransitivity; [|exact SO]. by split.
  - eexists. split; [exact HC|]. rewrite Et. apply cd_insert_elem. by left.
  - intros m. rewrite (listed_keys _ _ _ _ HC), (listed_keys _ _ _ _ HC0), cd_insert_keys.
    rewrite elem_of_cons. by right.
  - intros m Hne. rewrite Em by done. unfold k1, rt_timer_set_time.
    by rewrite timers_upd, decide_False.
Qed.

(** A ready thread's timer does not run. *)
Lemma ready_timer_off X lo k L t : kernel_wf X lo k L → stat (threads k t) = RT_THREAD_READY →
  N_timer (TM_thread t) ∉ L N_timers.
Proof.
  intros W Hr Hin. apply (kw_member _ _ _ _ W N_timers _ I) in Hin as [_ E]. by rewrite Hr in E.
Qed.

(** *** Objects that threads wait for *)

Definition waits (h : NODE) : Prop :=
  match h with N_sem _ | N_mutex _ | N_event _ => True | _ => False end.

(** A mutex is free, or it is held by a thread a number of times. *)
Definition mutex_free (m : rt_mutex) : Prop :=
  mutex_value m = 1 ∧ owner m = None ∧ hold m = 0.
Definition mutex_held (m : rt_mutex) (t : nat) : Prop :=
  mutex_value m = 0 ∧ owner m = Some t ∧ 1 ≤ hold m < 256 ∧ valid_priority (original_priority m).

(** Nobody waits for what is there. *)
Record objects_ok (k : KERNEL) (L : NODE → list NODE) : Prop := {
  ob_sem i : 0 ≤ sem_value (sems k i) < 65536;
  ob_sem_free i : 0 < sem_value (sems k i) → L (N_sem i) = [];
  ob_mutex i : mutex_free (mutexes k i) ∧ L (N_mutex i) = [] ∨
    ∃ t, mutex_held (mutexes k i) t;
  ob_known h t : waits h → N_tlist t ∈ L h → TM_thread t ∈ ms
}.

Lemma objects_frame k k' L L' : objects_ok k L → sems k' = sems k → mutexes k' = mutexes k →
  (∀ h, waits h → L' h ⊆ L h) → objects_ok k' L'.
Proof.
  intros [O1 O2 O3 O4] Es Em HL.
  assert (∀ h, waits h → L h = [] → L' h = []) as Hnil.
  { intros h Hh E. specialize (HL h Hh). rewrite E in HL. by apply list_nil_subseteq in HL. }
  split; rewrite ?Es, ?Em; [done|..].
  - intros i Hi. by apply Hnil, O2.
  - intros i. destruct (O3 i) as [[? ?]|?]; [left|by right]. by split; [|apply Hnil].
  - intros h t Hh Hin. apply (O4 h); [done|by apply HL].
Qed.

Lemma without_sub n L h : without n L h ⊆ L h.
Proof. intros m [? _]%elem_without. done. Qed.

Lemma woken_sub t k L k' L' h : woken t k L k' L' → waits h → L' h ⊆ L h.
Proof.
  intros Hw Hh. destruct h; try done; rewrite (wk_others _ _ _ _ _ Hw) by done; apply without_sub.
Qed.

(** *** Waiting goes on *)

(** A thread that waits with a time has been made ready, or waits on for the
    same time. *)
Definition still_waits (k : KERNEL) (k' : KERNEL) (L' : NODE → list NODE) (t : nat) : Prop :=
  stat (threads k' t) = RT_THREAD_READY ∨
  stat (threads k' t) = RT_THREAD_SUSPEND ∧ N_timer (TM_thread t) ∈ L' N_timers ∧
    timeout_tick (timers k' (TM_thread t)) = timeout_tick (timers k (TM_thread t)).

Definition timed_wait (k : KERNEL) (L : NODE → list NODE) (t : nat) : Prop :=
  stat (threads k t) = RT_THREAD_SUSPEND ∧ N_timer (TM_thread t) ∈ L N_timers.

Definition patient k L k' L' : Prop := ∀ t, timed_wait k L t → still_waits k k' L' t.

(** And no thread starts to wait. *)
Record steady k L k' L' : Prop := {
  sty_patient : patient k L k' L';
  sty_ready t : stat (threads k t) = RT_THREAD_READY → stat (threads k' t) = RT_THREAD_READY
}.

Lemma patient_steady k1 L1 k2 L2 k3 L3 : patient k1 L1 k2 L2 → steady k2 L2 k3 L3 →
  patient k1 L1 k3 L3.
Proof.
  intros P1 [P2 R2] t Ht. destruct (P1 t Ht) as [Hr|(Hs & Hin & E)]; [left; by apply R2|].
  destruct (P2 t (conj Hs Hin)) as [Hr|(Hs2 & Hin2 & E2)]; [by left|right].
  split_and!; [done|done|congruence].
Qed.

Lemma steady_trans k1 L1 k2 L2 k3 L3 : steady k1 L1 k2 L2 → steady k2 L2 k3 L3 →
  steady k1 L1 k3 L3.
Proof.
  intros [P1 R1] S2. split; [by eapply patient_steady|]. intros t Ht. by apply S2, R1.
Qed.

Lemma steady_same k L k' L' : (∀ t, stat (threads k' t) = stat (threads k t)) →
  (∀ m, timeout_tick (timers k' m) = timeout_tick (timers k m)) →
  (∀ m, N_timer m ∈ L N_timers → N_timer m ∈ L' N_timers) → steady k L k' L'.
Proof.
  intros Et Em HL. split; intros t; rewrite ?Et; [|done]. intros [Hs Hin]. right.
  split_and!; [by rewrite Et|by apply HL|done].
Qed.

Lemma rescheduled_steady k k' L : rescheduled k k' → steady k L k' L.
Proof. intros []. apply steady_same; intros; congruence. Qed.

(** Only [t] changes, which is not waiting. *)
Lemma patient_other k L k' L' t : stat (threads k t) ≠ RT_THREAD_SUSPEND →
  (∀ t', t' ≠ t → threads k' t' = threads k t') →
  (∀ m, m ≠ TM_thread t → timers k' m = timers k m) →
  (∀ m, N_timer m ∈ L N_timers → N_timer m ∈ L' N_timers) → patient k L k' L'.
Proof.
  intros Hs Et Em HL t' [Hs' Hin]. right. assert (t' ≠ t) as Hne by congruence.
  rewrite Et, Em by congruence. auto.
Qed.

Lemma woken_steady t k L k' L' : woken t k L k' L' → steady k L k' L'.
Proof.
  intros Hw. split.
  - intros t' [Hs Hin]. destruct (decide (t' = t)) as [->|Hne]; [left; apply Hw|right].
    rewrite (wk_threads _ _ _ _ _ Hw), (wk_user _ _ _ _ _ Hw) by congruence.
    split_and!; [done|apply (wk_timers _ _ _ _ _ Hw); split; congruence|done].
  - intros t' Hr. destruct (decide (t' = t)) as [->|Hne]; [apply Hw|].
    by rewrite (wk_threads _ _ _ _ _ Hw).
Qed.

(** What is left is determined by the tick and the time. *)
Lemma count_unique k L k' L' m d d' : counts k L m d → counts k' L' m d' →
  rt_tick k' = rt_tick k → timeout_tick (timers k' m) = timeout_tick (timers k m) → d' = d.
Proof.
  clear enough_fuel. intros (cd & HC & Hin) (cd' & HC' & Hin') Ek Em.
  destruct (cnt_time _ _ _ HC' _ _ Hin') as [Hr' E'], (cnt_time _ _ _ HC _ _ Hin) as [Hr E].
  rewrite Em, E, Ek in E'. unfold wrap in E'. change (RT_TICK_MAX / 2) with 2147483647 in *.
  assert ((d - d') mod 2 ^ 32 = 0) as H0.
  { replace (d - d') with ((rt_tick k + d) - (rt_tick k + d')) by lia.
    by rewrite Zminus_mod, E', Z.sub_diag. }
  change (2 ^ 32) with 4294967296 in H0. pose proof (Z.div_mod (d - d') 4294967296 ltac:(lia)). lia.
Qed.

Lemma listed_counts X lo k L m : kernel_wf X lo k L → N_timer m ∈ L N_timers →
  ∃ d, counts k L m d ∧ lo ≤ d.
Proof.
  intros W Hin. destruct (kw_counting _ _ _ _ W) as (cd & HC & Hlo).
  pose proof (proj1 (listed_keys _ _ _ _ HC) Hin) as ([m' d] & -> & Hd)%list_elem_of_fmap.
  exists d. split; [by exists cd|]. rewrite Forall_forall in Hlo. exact (Hlo _ Hd).
Qed.

Lemma counts_listed k L m d : counts k L m d → N_timer m ∈ L N_timers.
Proof.
  intros (cd & HC & Hin). apply (listed_keys _ _ _ _ HC). by apply (list_elem_of_fmap_2 fst) in Hin.
Qed.

(** A thread that waits and has [d] ticks left *)
Definition waits_for (k : KERNEL) (L : NODE → list NODE) (t : nat) (d : Z) : Prop :=
  stat (threads k t) = RT_THREAD_SUSPEND ∧ counts k L (TM_thread t) d.

Lemma patient_counts X lo k L k' L' t d : kernel_wf X lo k' L' → patient k L k' L' →
  rt_tick k' = rt_tick k → waits_for k L t d →
  stat (threads k' t) = RT_THREAD_READY ∨ waits_for k' L' t d ∧ lo ≤ d.
Proof.
  intros W P Ek [Hs HC]. destruct (P t) as [?|(Hs' & Hin & Em)]; [|by left|right].
  { split; [done|by eapply counts_listed]. }
  destruct (listed_counts _ _ _ _ _ W Hin) as (d' & HC' & Hlo).
  pose proof (count_unique _ _ _ _ _ _ _ HC HC' Ek Em) as ->. by split.
Qed.

(** *** Starting, ending, sleeping *)

(** What every call promises: the invariant, a thread to run, and the same lock *)
Record kept (k : KERNEL) (L : NODE → list NODE) (k' : KERNEL) (L' : NODE → list NODE) : Prop := {
  kp_wf : kernel_wf None 0 k' L';
  kp_alive : alive k';
  kp_objects : objects_ok k L → objects_ok k' L';
  kp_lock : rt_scheduler_lock_nest k' = rt_scheduler_lock_nest k;
  kp_nest : rt_interrupt_nest k' = rt_interrupt_nest k;
  kp_tick : rt_tick k' = rt_tick k;
  kp_patient : patient k L k' L'
}.

Lemma same_schedule k k' L L' : kernel_wf None 0 k' L' → awake k' → same_objects k k' →
  (∀ h, waits h → L' h ⊆ L h) → patient k L k' L' →
  ∃ k'', rt_schedule k' = Some k'' ∧ kept k L k'' L' ∧ rescheduled k' k'' ∧ dispatched k'' L'.
Proof.
  intros W A SO HL HP. destruct (schedule_wf _ _ k' L' W A) as (k'' & E & W' & A' & R & D).
  exists k''. split_and!; [done| |done|done]. split; [done|done|..].
  - intros O. eapply objects_frame; [exact O|..|exact HL].
    + rewrite (resched_sems _ _ R). apply SO.
    + rewrite (resched_mutexes _ _ R). apply SO.
  - rewrite (resched_lock _ _ R). apply SO.
  - rewrite (resched_nest _ _ R). apply SO.
  - rewrite (resched_tick _ _ R). apply SO.
  - eapply patient_steady; [exact HP|by apply rescheduled_steady].
Qed.

(** The running thread, which is not the idle thread, may wait. *)
Definition may_wait (k : KERNEL) (t : nat) : Prop :=
  rt_current_thread k = Some t ∧ t ≠ idle ∧ rt_scheduler_lock_nest k = 0.

Lemma waiting_awake k k' t : alive k → may_wait k t → same_objects k k' →
  (∀ t', t' ≠ t → threads k' t' = threads k t') → awake k'.
Proof.
  intros A (Hc & Hi & Hl) SO Ht. split.
  - rewrite Ht by done. apply A.
  - exists t. split; [by rewrite (so_current _ _ SO)|]. by rewrite (so_lock _ _ SO).
Qed.

Lemma running_ready k t : alive k → rt_current_thread k = Some t →
  stat (threads k t) = RT_THREAD_READY.
Proof. intros [_ (t' & Hc & Hr)] Ht. congruence. Qed.

Lemma suspend_same t k : same_objects k (rt_thread_suspend t k).2.
Proof.
  unfold rt_thread_suspend. case_match; [|done].
  etransitivity; [|apply same_objects_remove]. by split.
Qed.

(** Sleeping: the thread waits for its timer and for nothing else. *)
Lemma sleep_wf k L t tick : kernel_wf None 0 k L → alive k → may_wait k t →
  TM_thread t ∈ ms → 0 ≤ tick < RT_TICK_MAX / 2 →
  ∃ k' L', rt_thread_sleep tick k = Some k' ∧ kept k L k' L' ∧ dispatched k' L' ∧
    waits_for k' L' t tick ∧ (∀ h, is_head h → N_tlist t ∉ L' h).
Proof.
  intros W A M Hms Htick. destruct M as (Hc & M). unfold rt_thread_sleep.
  rewrite Hc. cbn [mbind option_bind]. pose proof (running_ready k t A Hc) as Hr.
  destruct (suspend_wf _ _ _ _ t W Hr) as (W1 & Hl1 & Ho1 & Et1 & Em1 & _).
  pose proof (suspend_same t k) as SO1. set (k1 := (rt_thread_suspend t k).2) in *.
  set (L1 := without (N_tlist t) L) in *.
  assert (L1 N_timers = L N_timers) as Etm by (by apply Ho1).
  assert (stat (threads k1 t) = RT_THREAD_SUSPEND) as Hs1 by (by rewrite Et1, decide_True).
  destruct (thread_timer_start_wf 0 k1 L1 t tick W1) as (k2 & L2 & -> & W2 & HL2 & Et2 & SO2 & HC & HLt & Em2);
    [done|rewrite Etm; by eapply ready_timer_off|done|done|done|]. cbn [mbind option_bind].
  assert (same_objects k k2) as SO by (by etransitivity).
  destruct (same_schedule k k2 L L2 W2) as (k3 & -> & K & R & D).
  { apply (waiting_awake k k2 t A); [done|done|]. intros t' Hne. by rewrite Et2, Et1, decide_False. }
  { done. }
  { intros h Hh. rewrite HL2 by (by intros ->). apply without_sub. }
  { apply (patient_other _ _ _ _ t); [by rewrite Hr|..].
    - intros t' Hne. by rewrite Et2, Et1, decide_False.
    - intros m Hne. by rewrite Em2, Em1.
    - intros m Hin. apply HLt. by rewrite Etm. }
  exists k3, L2. split_and!; [done|done|done| |].
  - split; [by rewrite (resched_threads _ _ R), Et2|].
    eapply counts_same; [exact HC|apply R..].
  - intros h Hh Hin. destruct (decide (h = N_timers)) as [->|Hne].
    + apply (kw_member _ _ _ _ W2 N_timers _ I) in Hin. done.
    + rewrite HL2 in Hin by done. by apply (proj2 Hl1 h).
Qed.

Lemma woken_alive t k L k' L' : stat (threads k t) = RT_THREAD_SUSPEND → alive k →
  woken t k L k' L' → same_objects k k' → alive k'.
Proof.
  intros Hs A Hw SO.
  assert (∀ t', stat (threads k t') = RT_THREAD_READY → stat (threads k' t') = RT_THREAD_READY) as Hk.
  { intros t' Hr. rewrite (wk_threads _ _ _ _ _ Hw); [done|]. intros ->. by rewrite Hr in Hs. }
  split; [by apply Hk, A|]. destruct (al_current _ A) as (t' & Hc & Hr).
  exists t'. split; [by rewrite (so_current _ _ SO)|by apply Hk].
Qed.

(** A new thread is the last of its priority. *)
Lemma started_wf k L t : kernel_wf None 0 k L → stat (threads k t) = RT_THREAD_INIT →
  let k1 := upd_thread t (λ th, set_priority (init_priority th) th) k in
  let k' := (rt_thread_resume t (upd_thread t (set_stat RT_THREAD_SUSPEND) k1)).2 in
  ∃ L', kernel_wf None 0 k' L' ∧ same_objects k k' ∧ steady k L k' L' ∧
    (∀ h, waits h → L' h ⊆ L h) ∧
    (let p := init_priority (threads k t) in L' (N_ready p) = L (N_ready p) ++ [N_tlist t]) ∧
    stat (threads k' t) = RT_THREAD_READY ∧ (∀ t', t' ≠ t → threads k' t' = threads k t').
Proof.
  intros W Hi. set (p := init_priority (threads k t)). intros k1.
  set (k2 := upd_thread t (set_stat RT_THREAD_SUSPEND) k1).
  assert (∀ t', threads k1 t' = if decide (t' = t) then set_priority p (threads k t)
    else threads k t') as Et1 by (intros t'; unfold k1; by rewrite threads_upd).
  assert (∀ t', threads k2 t' = if decide (t' = t)
    then set_stat RT_THREAD_SUSPEND (set_priority p (threads k t)) else threads k t') as Et2.
  { intros t'. unfold k2. rewrite threads_upd, !Et1. destruct (decide (t' = t)); [|done].
    by rewrite decide_True. }
  assert (valid_priority p) as Hp by apply W.
  assert (kernel_wf None 0 k1 L) as W1.
  { apply reset_wf; [done|by rewrite Hi|done|by left|]. intros _. by apply set_priority_ok. }
  assert (kernel_wf None 0 k2 L) as W2.
  { apply reset_wf; [done| |done|right|]; rewrite Et1, decide_True by done.
    - cbn. by rewrite Hi.
    - split; [exact (init_unlisted _ _ _ _ _ W Hi)|done].
    - intros _. by apply set_priority_ok. }
  assert (stat (threads k2 t) = RT_THREAD_SUSPEND) as Hs2 by (by rewrite Et2, decide_True).
  destruct (resume_wf None 0 k2 L t W2 Hs2) as (k3 & L3 & -> & W3 & Hw & SO3 & _).
  cbn [snd]. assert (same_objects k k3) as SO by (etransitivity; [|exact SO3]; by split).
  assert (∀ t', t' ≠ t → threads k3 t' = threads k t') as Et3.
  { intros t' Hne. by rewrite (wk_threads _ _ _ _ _ Hw), Et2, decide_False. }
  exists L3. split_and!; [done|done| | | |apply Hw|done].
  - split.
    + eapply patient_steady; [|by eapply woken_steady].
      apply (patient_other _ _ _ _ t); [by rewrite Hi| |done|done].
      intros t' Hne. by rewrite Et2, decide_False.
    + intros t' Hr. rewrite Et3; [done|]. intros ->. by rewrite Hi in Hr.
  - intros h. by eapply (woken_sub t k2).
  - pose proof (wk_ready _ _ _ _ _ Hw) as E. rewrite Et2, decide_True in E by done. exact E.
Qed.

Lemma startup_wf k L t : kernel_wf None 0 k L → alive k → stat (threads k t) = RT_THREAD_INIT →
  ∃ k' L', rt_thread_startup t k = Some k' ∧ kept k L k' L' ∧ dispatched k' L' ∧
    (let p := init_priority (threads k t) in L' (N_ready p) = L (N_ready p) ++ [N_tlist t]) ∧
    stat (threads k' t) = RT_THREAD_READY.
Proof.
  intros W A Hi. destruct (started_wf k L t W Hi) as (L3 & W3 & SO & ST & HL & E3 & Hr3 & _).
  unfold rt_thread_startup. rewrite Hi. cbn [Z.eqb RT_THREAD_INIT].
  set (k3 := (rt_thread_resume t _).2) in *. clearbody k3.
  destruct (al_current _ A) as (c & Hc & Hr). rewrite (so_current _ _ SO), Hc.
  destruct (same_schedule k k3 L L3 W3) as (k4 & -> & K & R & D); [|done|done|apply ST|].
  { apply alive_awake. split; [by apply ST, A|]. exists c. split; [|by apply ST].
    by rewrite (so_current _ _ SO). }
  exists k4, L3. split_and!; [done|done|done|done|]. by rewrite (resched_threads _ _ R).
Qed.

(** A thread that is in no list joins one that is neither of the ready threads
    nor of timers. *)
Lemma enlist_wf X lo k k' L L' h t : kernel_wf X lo k L → lists is_head (nodes k') L' →
  k' = set_nodes (nodes k') k → member_ok k h (N_tlist t) → (∀ p, h ≠ N_ready p) →
  h ≠ N_timers → (∀ n, n ∈ L' h ↔ n = N_tlist t ∨ n ∈ L h) → (∀ h', h' ≠ h → L' h' = L h') →
  kernel_wf X lo k' L'.
Proof.
  intros W HL -> M Hr Ht E Ho. split; rewrite ?(Ho N_timers) by done; try apply W.
  - done.
  - eapply ready_ok_lists; [eapply ready_ok_threads; [apply W|done..]|]. intros p. by apply Ho.
  - intros h' n Hh Hn. destruct (decide (h' = h)) as [->|Hne].
    + apply E in Hn as [->|Hn]; [exact M|by apply (kw_member _ _ _ _ W h n)].
    + rewrite Ho in Hn by done. by apply (kw_member _ _ _ _ W h' n).
  - intros t' Hs. rewrite Ho by (intros Heq; by apply (Hr (current_priority (threads k t')))).
    by apply (kw_is_ready _ _ _ _ W).
  - destruct (kw_counting _ _ _ _ W) as (cd & HC & Hlo). exists cd. split; [|done].
    eapply counting_frame; [exact HC|by apply Ho| |done|done].
    intros h' m Hh Hn. destruct (decide (h' = h)) as [->|Hne].
    + apply E in Hn as [|Hn]; [done|]. by apply (cnt_only _ _ _ HC h m).
    + rewrite Ho in Hn by done. by apply (cnt_only _ _ _ HC h' m).
Qed.

(** [rt_thread_exit] up to the list of the defunct threads, for the kernel
    [k0] without the thread in its list *)
Lemma closed_wf X lo k0 L t : let k1 := upd_thread t (set_stat RT_THREAD_SUSPEND) k0 in
  kernel_wf X lo k1 L → unlisted t L →
  let k2 := upd_nodes (rt_list_remove (N_timer (TM_thread t)))
    (upd_thread t (set_stat RT_THREAD_CLOSE) k0) in
  kernel_wf X lo k2 L ∧ same_objects k0 k2 ∧
  (∀ t', threads k2 t' = if decide (t' = t) then set_stat RT_THREAD_CLOSE (threads k0 t)
    else threads k0 t') ∧ timers k2 = timers k0.
Proof.
  intros k1 W1 Hu k2.
  assert (∀ t', threads k1 t' = if decide (t' = t) then set_stat RT_THREAD_SUSPEND (threads k0 t)
    else threads k0 t') as Et1 by (intros t'; unfold k1; by rewrite threads_upd).
  assert (kernel_wf X lo (upd_thread t (set_stat RT_THREAD_CLOSE) k1) L) as W2.
  { apply reset_wf; [done|by rewrite Et1, decide_True|done|by right|].
    intros _. apply (kw_attr _ _ _ _ W1 t). by rewrite Et1, decide_True. }
  assert (kernel_wf X lo (upd_thread t (set_stat RT_THREAD_CLOSE) k0) L) as W3.
  { eapply kernel_wf_ext; [exact W2|done| |done..]. intros t'. rewrite !threads_upd, !Et1.
    destruct (decide (t' = t)); [|done]. by rewrite decide_True. }
  destruct (lists_remove is_head (nodes k0) L (N_timer (TM_thread t))) as [HL _];
    [by intros []|apply W3|].
  assert (∀ h, is_head h → without (N_timer (TM_thread t)) L h = L h) as E.
  { intros h Hh. apply without_id, Hu; [done|by right]. }
  split_and!; [|by split|apply (threads_upd t (set_stat RT_THREAD_CLOSE) k0)|done].
  eapply reorder_wf; [exact W3|eapply lists_ext; [exact E|exact HL]|done|done|done].
Qed.

Lemma exit_defunct_wf k k2 L L1 t : alive k → may_wait k t → kernel_wf None 0 k2 L1 →
  same_objects k k2 → (∀ t', t' ≠ t → threads k2 t' = threads k t') →
  stat (threads k2 t) = RT_THREAD_CLOSE → loose is_head L1 (N_tlist t) →
  (∀ h, waits h → L1 h ⊆ L h) → patient k L k2 L1 →
  let b := systemobject (threads k2 t) && negb (cleanup (threads k2 t)) in
  ∃ k' L', rt_schedule (if b then k2
      else upd_nodes (rt_list_insert_after N_defunct (N_tlist t)) k2) = Some k' ∧
    kept k L k' L' ∧ dispatched k' L' ∧ threads k' = threads k2 ∧
    L' N_defunct = (if b then [] else [N_tlist t]) ++ L1 N_defunct.
Proof.
  intros A M W2 SO Et Hs2 Hl1 HL1 HP b.
  assert (∃ L', let k3 := if b then k2
      else upd_nodes (rt_list_insert_after N_defunct (N_tlist t)) k2 in
    kernel_wf None 0 k3 L' ∧ (∀ h, waits h → L' h = L1 h) ∧
    L' N_defunct = (if b then [] else [N_tlist t]) ++ L1 N_defunct ∧
    same_objects k2 k3 ∧ threads k3 = threads k2 ∧ steady k2 L1 k3 L')
    as (L' & W3 & HL' & Ed & SO3 & E3 & ST).
  { destruct b.
    - exists L1. split_and!; try done. by apply steady_same.
    - exists (<[N_defunct := N_tlist t :: L1 N_defunct]> L1). split_and!.
      + eapply (enlist_wf _ _ k2 _ _ _ N_defunct t); [exact W2| |done|exact Hs2|done|done| |].
        * apply lists_insert_first; [apply W2|done|done].
        * intros n. by rewrite fn_lookup_insert, elem_of_cons.
        * intros h' Hne. by rewrite fn_lookup_insert_ne.
      + intros h Hh. rewrite fn_lookup_insert_ne; [done|]. intros <-. by destruct Hh.
      + by rewrite fn_lookup_insert.
      + by split.
      + done.
      + apply steady_same; [done|done|]. intros m. by rewrite fn_lookup_insert_ne. }
  cbn zeta in *. set (k3 := if b then k2 else _) in *. clearbody k3.
  destruct (same_schedule k k3 L L' W3) as (k4 & E & K & R & D).
  { apply (waiting_awake k k3 t A M); [by etransitivity|]. intros t' Hne. by rewrite E3, Et. }
  { by etransitivity. }
  { intros h Hh. rewrite HL' by done. by apply HL1. }
  { by eapply patient_steady. }
  exists k4, L'. split_and!; [done|done|done| |done]. by rewrite (resched_threads _ _ R).
Qed.

(** An ended thread is in no list but, if it is to be cleaned up, that of the
    defunct threads. *)
Lemma exit_wf k L t : kernel_wf None 0 k L → alive k → may_wait k t →
  ∃ k' L', rt_thread_exit k = Some k' ∧ kept k L k' L' ∧ dispatched k' L' ∧
    stat (threads k' t) = RT_THREAD_CLOSE ∧
    L' N_defunct = (if systemobject (threads k t) && negb (cleanup (threads k t)) then []
      else [N_tlist t]) ++ L N_defunct.
Proof.
  intros W A M. pose proof M as [Hc _]. unfold rt_thread_exit. rewrite Hc. cbn [mbind option_bind].
  pose proof (running_ready k t A Hc) as Hr.
  destruct (suspend_wf _ _ _ _ t W Hr) as (W1 & Hl1 & Ho1 & _).
  unfold rt_thread_suspend in *. rewrite Hr in *.
  cbn [Z.eqb Pos.eqb snd RT_THREAD_READY] in *. rewrite remove_set_stat in *.
  assert (unlisted t (without (N_tlist t) L)) as Hu.
  { intros h n Hh [->| ->]; [by apply Hl1|]. intros [Hin _]%elem_without.
    by apply (proj2 (unlisted_loose _ _ _ _ _ W (ready_timer_off _ _ _ _ _ W Hr)) h). }
  destruct (closed_wf None 0 _ _ t W1 Hu) as (W2 & SO2 & Et2 & Em2).
  assert (threads (rt_schedule_remove_thread t k) = threads k ∧
    timers (rt_schedule_remove_thread t k) = timers k) as [E0 Em0].
  { unfold rt_schedule_remove_thread. by repeat case_match. }
  rewrite E0 in Et2. rewrite Em0 in Em2.
  destruct (exit_defunct_wf k _ L _ t A M W2) as (k' & L' & E & K & D & Et & Ed).
  { exact (transitivity (same_objects_remove t k) SO2). }
  { intros t' Hne. by rewrite Et2, decide_False. }
  { by rewrite Et2, decide_True. }
  { done. }
  { intros h _. apply without_sub. }
  { apply (patient_other _ _ _ _ t); [by rewrite Hr| |by rewrite Em2|by rewrite Ho1].
    intros t' Hne. by rewrite Et2, decide_False. }
  rewrite Ho1 in Ed by done. exists k', L'. split; [exact E|].
  split_and!; [exact K|exact D|by rewrite Et, Et2, decide_True|].
  rewrite Ed. by rewrite Et2, decide_True.
Qed.
End invariant.
