(* ===== verification/Tick.v ===== *)
(** * The tick (clock.c, irq.c and the tick's interrupt of board.c)

    Every tick the running thread uses up one of its ticks and gives way when
    none is left, and the timers are checked: the threads whose time is over go
    on.  The invariant of the kernel ([Thread]) holds after every tick. *)
From stdpp Require Import base functions list sets.
From Stdlib Require Import ZArith Lia Sorted.
From S2P Require Import Prelude World Rtlist Kernel Sched Timer Thread.

(** ** The operations *)

Section tick.
Context {F : Fuel}.

(** What the timers that are not part of a thread call *)
Variable user_timeout : nat → KERNEL → option KERNEL.

Definition timeout_func (m : TIMER) (k : KERNEL) : option KERNEL :=
  match m with TM_thread t => rt_thread_timeout t k | TM_user i => user_timeout i k end.

Definition rt_tick_increase (k : KERNEL) : option KERNEL :=
  let k := set_rt_tick (u32 (rt_tick k + 1)) k in
  t ← rt_current_thread k;
  let k := upd_thread t (λ th, set_remaining_tick (u32 (remaining_tick th - 1)) th) k in
  k ← (if remaining_tick (threads k t) =? 0 then
         rt_thread_yield (upd_thread t (λ th, set_remaining_tick (thread_init_tick th) th) k)
       else Some k);
  rt_timer_check timeout_func k.

Definition rt_interrupt_enter (k : KERNEL) : KERNEL :=
  set_rt_interrupt_nest (u8 (rt_interrupt_nest k + 1)) k.
Definition rt_interrupt_leave (k : KERNEL) : KERNEL :=
  set_rt_interrupt_nest (u8 (rt_interrupt_nest k - 1)) k.

(** [rt_hw_timer_handler] *)
Definition rt_hw_timer_handler (k : KERNEL) : option KERNEL :=
  k ← rt_tick_increase (rt_interrupt_enter k);
  Some (rt_interrupt_leave k).
End tick.

(** ** Time goes on *)

Section invariant.
Context {F : Fuel}.
Context (ms : list TIMER) (idle : nat).
Hypothesis enough_fuel : (length ms < fuel)%nat.
Variable user_timeout : nat → KERNEL → option KERNEL.
Implicit Types (k : KERNEL) (L : NODE → list NODE) (h n : NODE) (t : nat) (m : TIMER).

(** What the function of a timer may do: everything that keeps the invariant,
    but not start a timer. *)
Record gentle (X : option TIMER) (k : KERNEL) (L : NODE → list NODE) (k' : KERNEL)
  (L' : NODE → list NODE) : Prop := {
  gt_wf : kernel_wf ms X (-1) k' L';
  gt_alive : alive idle k';
  gt_tick : rt_tick k' = rt_tick k;
  gt_listed m : N_timer m ∈ L' N_timers → N_timer m ∈ L N_timers;
  gt_times m : timeout_tick (timers k' m) = timeout_tick (timers k m);
  gt_lock : rt_scheduler_lock_nest k' = rt_scheduler_lock_nest k;
  gt_nest : rt_interrupt_nest k' = rt_interrupt_nest k;
  gt_objects : objects_ok ms k L → objects_ok ms k' L';
  gt_dispatched : dispatched k L → dispatched k' L';
  gt_steady : steady k L k' L'
}.

Hypothesis user_gentle : ∀ i k L, kernel_wf ms (Some (TM_user i)) (-1) k L → alive idle k →
  ∃ k' L', user_timeout i k = Some k' ∧ gentle (Some (TM_user i)) k L k' L'.

Lemma timeout_gentle t k L : kernel_wf ms (Some (TM_thread t)) (-1) k L → alive idle k →
  stat (threads k t) = RT_THREAD_SUSPEND →
  ∃ k' L', rt_thread_timeout t k = Some k' ∧ gentle (Some (TM_thread t)) k L k' L' ∧
    woken t (upd_thread t (set_error (- RT_ETIMEOUT)) k) L k' L' ∧ dispatched k' L'.
Proof.
  intros W A Hs. destruct (timeout_woken ms (-1) k L t W Hs) as (L' & W' & Hw & Ho & Em).
  unfold rt_thread_timeout. rewrite Hs. cbn [Z.eqb Pos.eqb RT_THREAD_SUSPEND].
  set (k0 := upd_thread t (set_error (- RT_ETIMEOUT)) k) in *.
  set (k1 := rt_schedule_insert_thread t _) in *.
  assert (∀ t', stat (threads k0 t') = stat (threads k t')) as E0.
  { intros t'. unfold k0. rewrite threads_upd. case_decide as H; [by subst|done]. }
  assert (same_objects k k1) as SO by exact Ho. clearbody k1.
  assert (alive idle k1) as A1.
  { apply (woken_alive idle t k0 L k1 L'); [by rewrite E0| |exact Hw|by destruct Ho].
    split; [by rewrite E0; apply A|]. destruct (al_current _ _ A) as (c & Hc & Hr).
    exists c. by rewrite E0. }
  destruct (schedule_wf ms idle _ _ k1 L' W' (alive_awake _ _ A1)) as (k' & -> & W2 & A2 & R & D).
  assert (steady k L k' L') as ST.
  { eapply steady_trans; [by apply (steady_same _ _ k0 L)|].
    eapply steady_trans; [by eapply woken_steady|by apply rescheduled_steady]. }
  exists k', L'. split; [done|]. split_and!; [split; try done|destruct Hw|done].
  - rewrite (resched_tick _ _ R). apply SO.
  - intros m Hm. by apply (wk_timers _ _ _ _ _ Hw) in Hm as [? _].
  - intros m. by rewrite (resched_timers _ _ R), Em.
  - rewrite (resched_lock _ _ R). apply SO.
  - rewrite (resched_nest _ _ R). apply SO.
  - intros O. eapply objects_frame; [exact O|..].
    + rewrite (resched_sems _ _ R). apply SO.
    + rewrite (resched_mutexes _ _ R). apply SO.
    + intros h. by eapply woken_sub.
  - split; rewrite ?(resched_threads _ _ R), ?(resched_timers _ _ R); done.
Qed.

(** The timer whose function is about to be called leaves the list. *)
Lemma unlist_wf lo k L m : kernel_wf ms None lo k L →
  let k' := upd_nodes (rt_list_remove (N_timer m)) k in
  let L' := without (N_timer m) L in
  kernel_wf ms (Some m) lo k' L'.
Proof.
  intros W k' L'. destruct (lists_remove is_head (nodes k) L (N_timer m)) as [HL' Hloose];
    [by intros []|apply W|]. fold L' in HL', Hloose.
  assert (∀ h n, n ∈ L' h → n ∈ L h ∧ n ≠ N_timer m) as Hsub
    by (intros h n; unfold L'; rewrite elem_without; tauto).
  assert (∀ h, h ≠ N_timers → is_head h → L' h = L h) as Hother.
  { intros h Hne Hh. apply without_other. intros n Hin ->.
    apply (kw_member _ _ _ _ _ W h _ Hh) in Hin. by destruct h. }
  split; try apply W.
  - done.
  - eapply ready_ok_lists; [eapply ready_ok_threads; [apply W|done..]|]. intros p. by apply Hother.
  - intros h n Hh [Hn _]%Hsub. by apply (kw_member _ _ _ _ _ W h n Hh Hn).
  - intros t Hr. rewrite Hother by done. by apply (kw_is_ready _ _ _ _ _ W).
  - intros m' [Hin|?]%(kw_active _ _ _ _ _ W); [|done].
    destruct (decide (m' = m)) as [->|Hne]; [by right|left]. unfold L'. rewrite elem_without.
    split; [done|]. by intros [= ->].
  - intros m' [= <-] [_ Hne]%Hsub. done.
  - intros m' [Hin _]%Hsub. by apply (kw_known _ _ _ _ _ W).
  - destruct (kw_counting _ _ _ _ _ W) as (cd & HC & Hlo).
    destruct (timer_remove_ok k L cd m) as (_ & HC' & _); [apply W|done|].
    exists (cd_remove m cd). split; [done|].
    apply Forall_forall. intros x [_ Hx]%list_elem_of_filter. by eapply Forall_forall in Hlo.
Qed.

(** Counts are determined by list, times and tick. *)
Lemma counting_sub k L cd k' L' cd' : counting k L cd → counting k' L' cd' →
  rt_tick k' = rt_tick k → (∀ m, N_timer m ∈ L' N_timers → N_timer m ∈ L N_timers) →
  (∀ m, timeout_tick (timers k' m) = timeout_tick (timers k m)) → cd' ⊆ cd.
Proof.
  intros HC HC' Ek Hsub Em [m d'] Hin.
  assert (counts k' L' m d') as Hc' by (by exists cd').
  pose proof (Hsub _ (counts_listed _ _ _ _ Hc')) as Hm.
  pose proof (proj1 (listed_keys _ _ _ _ HC) Hm) as ([m0 d] & E & Hd)%list_elem_of_fmap.
  cbn [fst] in E. subst m0. by rewrite (count_unique k L k' L' m d d') by (done || by exists cd).
Qed.

Lemma over_sub cd cd' : NoDup cd'.*1 → cd' ⊆ cd → (length (cd_over cd') ≤ length (cd_over cd))%nat.
Proof.
  intros ND Hsub. unfold cd_over. rewrite !length_fmap. apply submseteq_length, NoDup_submseteq.
  - apply NoDup_filter. by apply NoDup_fmap_1 in ND.
  - intros x [? Hx]%list_elem_of_filter. apply list_elem_of_filter. auto.
Qed.

Lemma over_insert m d cd : 0 < d → cd_over (cd_insert m d cd) = cd_over cd.
Proof.
  intros Hd. unfold cd_over. induction cd as [|[m' d'] cd IH]; cbn [cd_insert].
  - by rewrite filter_cons_False by (cbn; lia).
  - case_match; [by rewrite filter_cons_False by (cbn; lia)|].
    destruct (decide (d' ≤ 0)).
    + rewrite !filter_cons_True by done. cbn [fmap list_fmap fst]. by rewrite IH.
    + rewrite !filter_cons_False by (cbn; lia). apply IH.
Qed.

(** A round of the check *)
Record checked k L k' L' : Prop := {
  ck_alive : alive idle k';
  ck_tick : rt_tick k' = rt_tick k;
  ck_lock : rt_scheduler_lock_nest k' = rt_scheduler_lock_nest k;
  ck_nest : rt_interrupt_nest k' = rt_interrupt_nest k;
  ck_objects : objects_ok ms k L → objects_ok ms k' L';
  ck_dispatched : dispatched k L → dispatched k' L';
  ck_steady : steady k L k' L'
}.

Lemma checked_refl k L : alive idle k → checked k L k L.
Proof. intros A. split; try done. by apply steady_same. Qed.

Lemma checked_trans k1 L1 k2 L2 k3 L3 : checked k1 L1 k2 L2 → checked k2 L2 k3 L3 →
  checked k1 L1 k3 L3.
Proof.
  intros [] []. split; [done|by etransitivity..|auto|auto|by eapply steady_trans].
Qed.

Lemma timeout_func_gentle m k L : kernel_wf ms (Some m) (-1) k L → alive idle k →
  match m with TM_thread t => stat (threads k t) = RT_THREAD_SUSPEND | _ => True end →
  ∃ k' L', timeout_func user_timeout m k = Some k' ∧ gentle (Some m) k L k' L' ∧
    match m with TM_thread t => stat (threads k' t) = RT_THREAD_READY | _ => True end.
Proof.
  intros W A Hm. destruct m as [t|i].
  - destruct (timeout_gentle t k L W A Hm) as (k' & L' & E & G & Hw & _). exists k', L'.
    split_and!; [done|done|apply Hw].
  - destruct (user_gentle i k L W A) as (k' & L' & E & G). by exists k', L'.
Qed.

(** The call of a timer's function: the timer has left the list before. *)
Lemma called_wf k L m d cd : kernel_wf ms None (-1) k L → alive idle k →
  counting k L ((m, d) :: cd) →
  let k1 := record_event (K_timeout m (rt_tick k)) k in
  ∃ k' L', timeout_func user_timeout m (upd_nodes (rt_list_remove (N_timer m)) k1) = Some k' ∧
    kernel_wf ms (Some m) (-1) k' L' ∧ checked k L k' L' ∧
    counting (upd_nodes (rt_list_remove (N_timer m)) k1) (without (N_timer m) L) cd ∧
    (∀ m', N_timer m' ∈ L' N_timers → N_timer m' ∈ without (N_timer m) L N_timers) ∧
    (∀ m', timeout_tick (timers k' m') = timeout_tick (timers k m')).
Proof.
  intros W A HC k1.
  assert (kernel_wf ms None (-1) k1 L) as W1 by (by eapply kernel_wf_frame).
  pose proof (unlist_wf (-1) k1 L m W1) as W2. set (k2 := upd_nodes _ k1) in *.
  set (L2 := without (N_timer m) L) in *.
  assert (N_timer m ∈ L N_timers) as Hlist by (rewrite (cnt_nodes _ _ _ HC); by left).
  pose proof (kw_member _ _ _ _ _ W N_timers _ I Hlist) as [_ Hst].
  destruct (timeout_func_gentle m k2 L2 W2) as (k3 & L3 & E & G & Hr); [by split; apply A|done|].
  destruct G as [W3 A3 Gt Gl Gtm Glk Gn Go Gd Gs]. exists k3, L3.
  assert (L2 = without (N_timer m) L) as EL by done.
  assert (∀ h, h ≠ N_timers → is_head h → L2 h = L h) as Hother.
  { intros h Hne Hh. apply without_other. intros n Hin ->.
    apply (kw_member _ _ _ _ _ W h _ Hh) in Hin. by destruct h. }
  split_and!; [done|done| | |done|done].
  - split; try done.
    + intros O. apply Go. eapply objects_frame; [exact O|done|done|]. intros h Hh.
      by rewrite Hother by (by destruct h).
    + intros D. apply Gd. intros Hlk. destruct (D Hlk) as (c & Hc & p & rest & Hp & E1 & Hlow).
      exists c. split; [done|]. exists p, rest. split_and!; [done|by rewrite Hother|].
      intros r Hlt. rewrite Hother by done. by apply Hlow.
    + split; [|apply Gs]. intros t [Hs Hin]. destruct (decide (TM_thread t = m)) as [<-|Hne].
      * by left.
      * apply Gs. split; [done|]. unfold L2. rewrite elem_without. split; [done|congruence].
  - destruct (timer_remove_ok k1 L ((m, d) :: cd) m) as (_ & HC2 & _); [apply W1| |].
    { eapply counting_frame; [exact HC|done|apply HC|done|done]. }
    pose proof (counting_nodup _ _ _ (kw_lists _ _ _ _ _ W) HC) as ND.
    cbn [fmap list_fmap fst] in ND. apply NoDup_cons in ND as [Hm _].
    by rewrite cd_remove_head in HC2.
Qed.

Lemma expire_wf k L m d cd : kernel_wf ms None (-1) k L → alive idle k →
  counting k L ((m, d) :: cd) → d ≤ 0 →
  ∃ k' L' cd', timer_expire (timeout_func user_timeout) m k = Some k' ∧
    kernel_wf ms None (-1) k' L' ∧ checked k L k' L' ∧ counting k' L' cd' ∧
    (length (cd_over cd') < length (cd_over ((m, d) :: cd)))%nat.
Proof.
  intros W A HC Hd. unfold timer_expire.
  destruct (called_wf k L m d cd W A HC) as (k3 & L3 & -> & W3 & C3 & HC2 & Gl & Gtm).
  cbn [mbind option_bind]. set (k2 := upd_nodes _ _) in HC2.
  pose proof (deactivate_wf _ _ _ _ _ W3) as W4. set (k4 := upd_timer m deactivate k3) in *.
  assert (∀ m', timeout_tick (timers k4 m') = timeout_tick (timers k3 m')) as Et4.
  { intros m'. unfold k4. rewrite timers_upd. case_decide as H; [by subst|done]. }
  assert (∀ cd4, counting k4 L3 cd4 → (length (cd_over cd4) < length (cd_over ((m, d) :: cd)))%nat) as Hlen.
  { intros cd4 HC4. unfold cd_over at 2. rewrite filter_cons_True by done. cbn [fmap list_fmap length].
    apply Nat.lt_succ_r, over_sub; [eapply counting_nodup; [apply W4|done]|].
    eapply (counting_sub k2); [exact HC2|exact HC4|apply C3|exact Gl|].
    intros m'. by rewrite Et4, Gtm. }
  assert (checked k L k4 L3) as C4.
  { eapply checked_trans; [exact C3|]. split; try done.
    - split; apply C3.
    - intros O. by eapply objects_frame.
    - by apply steady_same. }
  assert (N_timer m ∉ L3 N_timers) as Hm3 by (by apply (kw_not_listed _ _ _ _ _ W3)).
  destruct (periodic (timers k3 m) && activated (timers k3 m)) eqn:Ep.
  2:{ destruct (kw_counting _ _ _ _ _ W4) as (cd4 & HC4 & _). exists k4, L3, cd4.
      split_and!; try done. by apply Hlen. }
  apply andb_true_iff in Ep as [Ep _]. pose proof (kw_period _ _ _ _ _ W3 m Ep) as Hper.
  assert (timer_init_tick (timers k4 m) = timer_init_tick (timers k3 m)) as Ei
    by (unfold k4; by rewrite timers_upd, decide_True).
  destruct (timer_start_wf ms enough_fuel None (-1) k4 L3 m W4) as
    (k5 & L5 & -> & W5 & HL5 & Et5 & Ho & (cd4 & HC4 & _ & HC5) & Em5);
    [lia|done|done| |rewrite Ei; lia| |].
  { apply (kw_known _ _ _ _ _ W). rewrite (cnt_nodes _ _ _ HC). by left. }
  { destruct m as [t|]; [|done]. by rewrite (kw_thread_timer _ _ _ _ _ W3) in Ep. }
  exists k5, L5, (cd_insert m (timer_init_tick (timers k4 m)) cd4). split_and!; try done.
  - eapply checked_trans; [exact C4|]. split; try apply Ho.
    + split; [rewrite Et5; apply C4|rewrite (so_current _ _ Ho), Et5; apply C4].
    + intros O. eapply objects_frame; [exact O|apply Ho|apply Ho|]. intros h Hh.
      by rewrite HL5 by (by intros ->).
    + unfold dispatched. rewrite (so_lock _ _ Ho), (so_current _ _ Ho). intros D Hlk.
      destruct (D Hlk) as (c & Hc & p & rest & Hp & E1 & Hlow). exists c. split; [done|].
      exists p, rest. split_and!; [done|by rewrite HL5|]. intros r Hr. rewrite HL5 by done. auto.
    + split; [|by rewrite Et5]. intros t [Hs Hin]. right. rewrite Et5.
      assert (TM_thread t ≠ m) as Hne by congruence. split_and!; [done| |by rewrite Em5].
      rewrite (listed_keys _ _ _ _ HC5), cd_insert_keys, elem_of_cons. right.
      by apply (listed_keys _ _ _ _ HC4).
  - rewrite over_insert by lia. by apply Hlen.
Qed.

Lemma check_loop_wf rounds : ∀ k L cd, kernel_wf ms None (-1) k L → alive idle k →
  counting k L cd → (length (cd_over cd) < rounds)%nat →
  ∃ k' L', timer_check_loop (timeout_func user_timeout) rounds (rt_tick k) k = Some k' ∧
    kernel_wf ms None 1 k' L' ∧ checked k L k' L'.
Proof.
  induction rounds as [|rounds IH]; intros k L cd W A HC Hr; [lia|]. cbn [timer_check_loop].
  rewrite (lists_isempty is_head _ L), (lists_next_head is_head _ L) by (apply W || done).
  rewrite (cnt_nodes _ _ _ HC).
  destruct cd as [|[m d] cd]; cbn [cd_nodes map head default from_option id fst].
  { rewrite bool_decide_eq_true_2 by done. exists k, L.
    split_and!; [done| |by apply checked_refl]. destruct W. split; try done. by exists []. }
  rewrite bool_decide_eq_false_2 by done.
  destruct (cnt_time _ _ _ HC m d) as [Hd ->]; [by left|]. rewrite wrap_due by (apply W || done).
  destruct (Z.leb_spec d 0) as [H0|H0].
  - destruct (expire_wf k L m d cd W A HC H0) as (k1 & L1 & cd1 & -> & W1 & C1 & HC1 & Hlen).
    cbn [mbind option_bind].
    destruct (IH k1 L1 cd1 W1 (ck_alive _ _ _ _ C1) HC1) as (k2 & L2 & E & W2 & C2); [lia|].
    rewrite (ck_tick _ _ _ _ C1) in *. exists k2, L2. split_and!; [done|done|].
    by eapply checked_trans.
  - exists k, L. split_and!; [done| |by apply checked_refl]. destruct W. split; try done.
    exists ((m, d) :: cd). split; [done|]. pose proof (cnt_sorted _ _ _ HC) as Hs.
    apply StronglySorted_inv in Hs as [_ Hs]. constructor; [cbn; lia|].
    eapply Forall_impl; [exact Hs|]. cbn. lia.
Qed.

(** *** One tick *)

Lemma set_tick_wf k L : kernel_wf ms None 0 k L →
  kernel_wf ms None (-1) (set_rt_tick (u32 (rt_tick k + 1)) k) L.
Proof.
  intros W. split; try apply W.
  - eapply ready_ok_threads; [apply W|done..].
  - by apply wrap_fits.
  - destruct (kw_counting _ _ _ _ _ W) as (cd & HC & Hlo). exists (cd_tick cd).
    split; [by apply tick_counting|]. apply Forall_forall.
    intros x (y & -> & Hy)%list_elem_of_fmap. rewrite Forall_forall in Hlo.
    specialize (Hlo y Hy). cbn in *. lia.
Qed.

Lemma set_tick_counts k L m d : kernel_wf ms None 0 k L → counts k L m d →
  counts (set_rt_tick (u32 (rt_tick k + 1)) k) L m (d - 1).
Proof.
  intros W (cd & HC & Hin). exists (cd_tick cd). split.
  - apply tick_counting; [done|]. destruct (kw_counting _ _ _ _ _ W) as (cd' & HC' & Hlo).
    rewrite Forall_forall in *. intros [m' d'] Hx.
    pose proof (counting_sub _ _ _ _ _ _ HC' HC eq_refl (λ m H, H) (λ m, eq_refl) _ Hx) as Hx'.
    by apply Hlo.
  - apply list_elem_of_fmap. by exists (m, d).
Qed.

(** The timers are checked after the tick of the running thread. *)
Lemma timer_check_wf k L : kernel_wf ms None (-1) k L → alive idle k →
  ∃ k' L', rt_timer_check (timeout_func user_timeout) k = Some k' ∧
    kernel_wf ms None 1 k' L' ∧ checked k L k' L'.
Proof.
  intros W A. destruct (kw_counting _ _ _ _ _ W) as (cd & HC & _).
  apply (check_loop_wf fuel k L cd W A HC).
  pose proof (kernel_cd_length _ enough_fuel _ _ _ _ _ W HC). unfold cd_over. rewrite length_fmap.
  pose proof (length_filter (λ x : TIMER * Z, x.2 ≤ 0) cd). lia.
Qed.

Lemma lower_wf X lo lo' k L : kernel_wf ms X lo k L → lo' ≤ lo → kernel_wf ms X lo' k L.
Proof.
  intros W Hlo. split; try apply W. destruct (kw_counting _ _ _ _ _ W) as (cd & HC & Hall).
  exists cd. split; [done|]. eapply Forall_impl; [exact Hall|]. cbn. lia.
Qed.

(** The running thread's part of the tick *)
Lemma slice_wf k L c : kernel_wf ms None (-1) k L → alive idle k → rt_current_thread k = Some c →
  let k1 := upd_thread c (λ th, set_remaining_tick (u32 (remaining_tick th - 1)) th) k in
  ∃ k' L', (if remaining_tick (threads k1 c) =? 0 then
      rt_thread_yield (upd_thread c (λ th, set_remaining_tick (thread_init_tick th) th) k1)
    else Some k1) = Some k' ∧ kernel_wf ms None (-1) k' L' ∧ checked k L k' L'.
Proof.
  intros W A Hc k1.
  assert (∀ k f, unlisted_change f → kernel_wf ms None (-1) k L → alive idle k →
    kernel_wf ms None (-1) (upd_thread c f k) L ∧ checked k L (upd_thread c f k) L) as Hupd.
  { clear -c L. intros k f Hf W A.
    assert (∀ t, stat (threads (upd_thread c f k) t) = stat (threads k t)) as Et.
    { intros t. rewrite threads_upd. case_decide as H; [subst; by apply Hf|done]. }
    split; [by apply change_wf|]. split; try done.
    - split; [rewrite Et; apply A|]. destruct (al_current _ _ A) as (t & Ht & Hr).
      exists t. by rewrite Et.
    - intros O. by eapply objects_frame.
    - by apply steady_same. }
  destruct (Hupd k (λ th, set_remaining_tick (u32 (remaining_tick th - 1)) th)) as [W1 C1];
    [by intros th|done|done|]. fold k1 in W1, C1. pose proof (ck_alive _ _ _ _ C1) as A1.
  case_match; [|by exists k1, L].
  destruct (Hupd k1 (λ th, set_remaining_tick (thread_init_tick th) th)) as [W2 C2];
    [by intros th|done|done|].
  destruct (yield_wf ms idle None (-1) _ L W2 (ck_alive _ _ _ _ C2)) as
    (k3 & L3 & E & W3 & A3 & Et & Em & El & En & Ek & Es & Emu & HL & HD).
  exists k3, L3. split_and!; [done|done|]. eapply checked_trans; [exact C1|].
  eapply checked_trans; [exact C2|]. split; try done.
  - intros O. eapply objects_frame; [exact O|done|done|]. intros h Hh.
    rewrite HL; [done|]. by intros p ->.
  - apply steady_same; [by rewrite Et|by rewrite Em|]. intros m. by rewrite HL.
Qed.

(** A tick brings every thread that waits with a time one tick nearer to its
    end; those that have come to it are ready afterwards. *)
Record ticked k L k' L' : Prop := {
  tk_wf : kernel_wf ms None 0 k' L';
  tk_alive : alive idle k';
  tk_tick : rt_tick k' = u32 (rt_tick k + 1);
  tk_lock : rt_scheduler_lock_nest k' = rt_scheduler_lock_nest k;
  tk_nest : rt_interrupt_nest k' = rt_interrupt_nest k;
  tk_objects : objects_ok ms k L → objects_ok ms k' L';
  tk_dispatched : dispatched k L → dispatched k' L';
  tk_waits t d : waits_for k L t d →
    stat (threads k' t) = RT_THREAD_READY ∨ waits_for k' L' t (d - 1) ∧ 1 ≤ d - 1
}.

Lemma tick_wf k L : kernel_wf ms None 0 k L → alive idle k → byte (rt_interrupt_nest k) →
  ∃ k' L', rt_hw_timer_handler user_timeout k = Some k' ∧ ticked k L k' L'.
Proof.
  intros W A Hn. unfold rt_hw_timer_handler, rt_tick_increase.
  set (k0 := rt_interrupt_enter k).
  assert (kernel_wf ms None 0 k0 L) as W0 by (by eapply kernel_wf_frame).
  pose proof (set_tick_wf k0 L W0) as W1. set (k1 := set_rt_tick _ k0) in *.
  assert (alive idle k1) as A1 by (split; apply A).
  destruct (al_current _ _ A1) as (c & Hc & _).
  destruct (slice_wf k1 L c W1 A1 Hc) as (k2 & L2 & E2 & W2 & C2).
  destruct (timer_check_wf k2 L2 W2 (ck_alive _ _ _ _ C2)) as (k3 & L3 & E3 & W3 & C3).
  rewrite Hc. cbn [mbind option_bind]. rewrite E2. cbn [mbind option_bind]. rewrite E3.
  cbn [mbind option_bind]. pose proof (checked_trans _ _ _ _ _ _ C2 C3) as C.
  exists (rt_interrupt_leave k3), L3. split; [done|]. destruct C as [C4 C5 C6 C7 C8 C9 C10].
  split; try done.
  - apply (lower_wf _ 1); [by eapply kernel_wf_frame|lia].
  - split; apply C4.
  - cbn. rewrite C7. unfold k1, k0. cbn. unfold wrap. rewrite Zminus_mod_idemp_l.
    rewrite Z.add_simpl_r. by apply (wrap_small 8).
  - intros O. assert (objects_ok ms k3 L3) as O3 by (apply C8; by eapply objects_frame).
    by eapply objects_frame.
  - intros t d [Hs HC]. assert (counts k1 L (TM_thread t) (d - 1)) as HC1.
    { apply set_tick_counts; [done|]. by eapply counts_same. }
    destruct (patient_counts ms None 1 k1 L k3 L3 t (d - 1) W3) as [?|[H ?]];
      [apply C10|done|exact (conj Hs HC1)|by left|right].
    split; [|done]. split; [apply H|]. eapply counts_same; [apply H|done..].
Qed.
End invariant.
