(* ===== verification/Ipc.v ===== *)
(** * Semaphores, mutexes and events (ipc.c of the kernel)

    A thread that waits is in the list of its object, and in the list of timers
    when it waits with a time.  A call that may wait ends in two ways: it
    [Returns], or the thread has been switched away ([Waits]) and goes on with
    [ipc_woken] when it runs again.  [ipc_wait] is what the three kinds of
    objects do alike. *)
From stdpp Require Import base functions list sets.
From Stdlib Require Import ZArith Lia Sorted.
From S2P Require Import Prelude World Rtlist Kernel Sched Timer Thread.

Definition RT_EVENT_FLAG_AND : Z := 0x01.
Definition RT_EVENT_FLAG_OR : Z := 0x02.
Definition RT_EVENT_FLAG_CLEAR : Z := 0x04.

(** ** The operations *)

(** The outcome of a call *)
Inductive CALL := Returns (r : Z) (k : KERNEL) | Waits (k : KERNEL).

Definition has (flags bit : Z) : bool := negb (Z.land flags bit =? 0).

Section ipc.
Context {F : Fuel}.

(** [for (n = list->next; n != list; n = n->next)]: the node before which a
    thread of priority [p] belongs *)
Fixpoint prio_position (visits : nat) (n h : NODE) (p : Z) (k : KERNEL) : option NODE :=
  match visits with
  | O => None
  | S visits =>
      if decide (n = h) then Some h
      else
        sthread ← list_thread n;
        if p <? current_priority (threads k sthread) then Some n
        else prio_position visits (next (nodes k n)) h p k
  end.

Definition rt_ipc_list_suspend (h : NODE) (t : nat) (flag : Z) (k : KERNEL) : option KERNEL :=
  let k := (rt_thread_suspend t k).2 in
  if flag =? RT_IPC_FLAG_FIFO then Some (upd_nodes (rt_list_insert_before h (N_tlist t)) k)
  else if flag =? RT_IPC_FLAG_PRIO then
    n ← prio_position fuel (next (nodes k h)) h (current_priority (threads k t)) k;
    Some (upd_nodes (rt_list_insert_before n (N_tlist t)) k)
  else Some k.

Definition rt_ipc_list_resume (h : NODE) (k : KERNEL) : option KERNEL :=
  t ← list_thread (next (nodes k h));
  Some (rt_thread_resume t k).2.

Fixpoint resume_all (rounds : nat) (h : NODE) (k : KERNEL) : option KERNEL :=
  match rounds with
  | O => None
  | S rounds =>
      if rt_list_isempty h (nodes k) then Some k
      else
        t ← list_thread (next (nodes k h));
        resume_all rounds h (rt_thread_resume t (upd_thread t (set_error (- RT_ERROR)) k)).2
  end.

Definition rt_ipc_list_resume_all (h : NODE) (k : KERNEL) : option KERNEL := resume_all fuel h k.

(** Suspending the thread, starting its timer if there is a time, scheduling *)
Definition ipc_wait (h : NODE) (t : nat) (flag time : Z) (k : KERNEL) : option CALL :=
  k ← rt_ipc_list_suspend h t flag k;
  k ← (if 0 <? time then thread_timer_start t time k else Some k);
  k ← rt_schedule k;
  Some (Waits k).

(** What a call that waited returns *)
Definition ipc_woken (t : nat) (k : KERNEL) : Z := error (threads k t).

(** *** Semaphores *)

Definition rt_sem_init (i : nat) (value flag : Z) (k : KERNEL) : KERNEL :=
  upd_sem i (λ _, mkSem (u16 value) flag) (upd_nodes (rt_list_init (N_sem i)) k).

Definition rt_sem_take (i : nat) (time : Z) (k : KERNEL) : option CALL :=
  if 0 <? sem_value (sems k i) then
    Some (Returns RT_EOK (upd_sem i (λ s, set_sem_value (u16 (sem_value s - 1)) s) k))
  else if time =? 0 then Some (Returns (- RT_ETIMEOUT) k)
  else if rt_interrupt_nest k =? 0 then
    t ← rt_current_thread k;
    ipc_wait (N_sem i) t (sem_flag (sems k i)) time (upd_thread t (set_error RT_EOK) k)
  else None.

Definition rt_sem_trytake (i : nat) (k : KERNEL) : option CALL := rt_sem_take i 0 k.

Definition rt_sem_release (i : nat) (k : KERNEL) : option KERNEL :=
  if negb (rt_list_isempty (N_sem i) (nodes k)) then
    k ← rt_ipc_list_resume (N_sem i) k;
    rt_schedule k
  else Some (upd_sem i (λ s, set_sem_value (u16 (sem_value s + 1)) s) k).

(** RT_IPC_CMD_RESET of [rt_sem_control] *)
Definition rt_sem_reset (i : nat) (value : Z) (k : KERNEL) : option KERNEL :=
  k ← rt_ipc_list_resume_all (N_sem i) k;
  rt_schedule (upd_sem i (set_sem_value (u16 value)) k).

(** Without the object container *)
Definition rt_sem_detach (i : nat) (k : KERNEL) : option KERNEL :=
  rt_ipc_list_resume_all (N_sem i) k.

(** *** Mutexes *)

Definition rt_mutex_init (i : nat) (flag : Z) (k : KERNEL) : KERNEL :=
  upd_mutex i (λ _, mkMutex 1 0xff 0 None flag) (upd_nodes (rt_list_init (N_mutex i)) k).

Definition rt_mutex_take (i : nat) (time : Z) (k : KERNEL) : option CALL :=
  if rt_interrupt_nest k =? 0 then
    t ← rt_current_thread k;
    let k := upd_thread t (set_error RT_EOK) k in
    let m := mutexes k i in
    if bool_decide (owner m = Some t) then
      Some (Returns RT_EOK (upd_mutex i (λ m, set_hold (u8 (hold m + 1)) m) k))
    else if 0 <? mutex_value m then
      Some (Returns RT_EOK (upd_mutex i (λ m,
        set_hold (u8 (hold m + 1))
          (set_original_priority (current_priority (threads k t))
            (set_owner (Some t) (set_mutex_value (u16 (mutex_value m - 1)) m)))) k))
    else if time =? 0 then
      Some (Returns (- RT_ETIMEOUT) (upd_thread t (set_error (- RT_ETIMEOUT)) k))
    else
      o ← owner m;
      let p := current_priority (threads k t) in
      let k := if p <? current_priority (threads k o)
               then rt_thread_change_priority o p k else k in
      ipc_wait (N_mutex i) t (mutex_flag m) time k
  else None.

Definition rt_mutex_release (i : nat) (k : KERNEL) : option (Z * KERNEL) :=
  t ← rt_current_thread k;
  let m := mutexes k i in
  if bool_decide (owner m ≠ Some t) then
    Some (- RT_ERROR, upd_thread t (set_error (- RT_ERROR)) k)
  else
    let k := upd_mutex i (λ m, set_hold (u8 (hold m - 1)) m) k in
    if hold (mutexes k i) =? 0 then
      let k := if original_priority m =? current_priority (threads k t) then k
               else rt_thread_change_priority t (original_priority m) k in
      if negb (rt_list_isempty (N_mutex i) (nodes k)) then
        s ← list_thread (next (nodes k (N_mutex i)));
        let k := upd_mutex i (λ m,
          set_hold (u8 (hold m + 1))
            (set_original_priority (current_priority (threads k s)) (set_owner (Some s) m))) k in
        k ← rt_ipc_list_resume (N_mutex i) k;
        k ← rt_schedule k;
        Some (RT_EOK, k)
      else
        Some (RT_EOK, upd_mutex i (λ m,
          set_original_priority 0xff
            (set_owner None (set_mutex_value (u16 (mutex_value m + 1)) m))) k)
    else Some (RT_EOK, k).

Definition rt_mutex_detach (i : nat) (k : KERNEL) : option KERNEL :=
  rt_ipc_list_resume_all (N_mutex i) k.

(** *** Events *)

Definition rt_event_init (i : nat) (flag : Z) (k : KERNEL) : KERNEL :=
  upd_event i (λ _, mkEvent 0 flag) (upd_nodes (rt_list_init (N_event i)) k).

(** Is the condition [set], [option] fulfilled? *)
Definition event_ready (bits set option : Z) : bool :=
  if has option RT_EVENT_FLAG_AND then Z.land set bits =? set
  else has option RT_EVENT_FLAG_OR && negb (Z.land set bits =? 0).

(** What a waiting thread that is served receives: an OR condition keeps the
    bits that came. *)
Definition event_received (bits set option : Z) : Z :=
  if has option RT_EVENT_FLAG_AND then set else Z.land set bits.

(** [while (n != &(event->parent.suspend_thread))] *)
Fixpoint event_send_loop (visits : nat) (i : nat) (n : NODE) (need_schedule : bool) (k : KERNEL)
  : option (bool * KERNEL) :=
  match visits with
  | O => None
  | S visits =>
      if decide (n = N_event i) then Some (need_schedule, k)
      else
        t ← list_thread n;
        let th := threads k t in
        let bits := event_bits (events k i) in
        let n := next (nodes k n) in
        if event_ready bits (event_set th) (event_info th) then
          let k := upd_thread t
            (set_event_set (event_received bits (event_set th) (event_info th))) k in
          let k := if has (event_info th) RT_EVENT_FLAG_CLEAR
                   then upd_event i (λ e, set_event_bits
                     (Z.ldiff (event_bits e) (event_set (threads k t))) e) k
                   else k in
          event_send_loop visits i n true (rt_thread_resume t k).2
        else event_send_loop visits i n need_schedule k
  end.

Definition rt_event_send (i : nat) (set : Z) (k : KERNEL) : option (Z * KERNEL) :=
  if set =? 0 then Some (- RT_ERROR, k)
  else
    let k := upd_event i (λ e, set_event_bits (Z.lor (event_bits e) set) e) k in
    if negb (rt_list_isempty (N_event i) (nodes k)) then
      '(need_schedule, k) ← event_send_loop fuel i (next (nodes k (N_event i))) false k;
      k ← (if need_schedule : bool then rt_schedule k else Some k);
      Some (RT_EOK, k)
    else Some (RT_EOK, k).

(** The result with what is received, [*recved] *)
Inductive RECV := Received (r : Z) (recved : option Z) (k : KERNEL) | Awaits (k : KERNEL).

Definition rt_event_recv (i : nat) (set option timeout : Z) (k : KERNEL) : Datatypes.option RECV :=
  if rt_interrupt_nest k =? 0 then
    if set =? 0 then Some (Received (- RT_ERROR) None k)
    else
      t ← rt_current_thread k;
      let k := upd_thread t (set_error RT_EOK) k in
      let bits := event_bits (events k i) in
      if event_ready bits set option then
        let k' := if has option RT_EVENT_FLAG_CLEAR
                  then upd_event i (λ e, set_event_bits (Z.ldiff (event_bits e) set) e) k else k in
        Some (Received (error (threads k' t)) (Some (Z.land bits set)) k')
      else if timeout =? 0 then
        let k := upd_thread t (set_error (- RT_ETIMEOUT)) k in
        Some (Received (error (threads k t)) None k)
      else
        let k := upd_thread t (λ th, set_event_info option (set_event_set set th)) k in
        c ← ipc_wait (N_event i) t (event_flag (events k i)) timeout k;
        match c with Waits k => Some (Awaits k) | Returns _ _ => None end
  else None.

(** What [rt_event_recv] returns after waiting *)
Definition event_woken (t : nat) (k : KERNEL) : Z * Datatypes.option Z :=
  let th := threads k t in
  if error th =? RT_EOK then (RT_EOK, Some (event_set th)) else (error th, None).

(** RT_IPC_CMD_RESET of [rt_event_control] *)
Definition rt_event_reset (i : nat) (k : KERNEL) : Datatypes.option KERNEL :=
  k ← rt_ipc_list_resume_all (N_event i) k;
  rt_schedule (upd_event i (set_event_bits 0) k).

Definition rt_event_detach (i : nat) (k : KERNEL) : Datatypes.option KERNEL :=
  rt_ipc_list_resume_all (N_event i) k.
End ipc.

(** ** Waiting in order *)

(** Where a thread joins the waiting ones: at the end, or before the first of
    them that is less urgent *)
Fixpoint prio_insert (pr : nat → Z) (t : nat) (ns : list NODE) : list NODE :=
  match ns with
  | N_tlist s :: ns' => if pr t <? pr s then N_tlist t :: ns else N_tlist s :: prio_insert pr t ns'
  | _ => [N_tlist t]
  end.

Definition joined (pr : nat → Z) (t : nat) (flag : Z) (ns : list NODE) : list NODE :=
  if flag =? RT_IPC_FLAG_FIFO then ns ++ [N_tlist t] else prio_insert pr t ns.

(** The numbers of the threads in a list *)
Definition node_threads (ns : list NODE) : list nat := omap list_thread ns.

Section invariant.
Context {F : Fuel}.
Context (ms : list TIMER) (idle : nat).
Hypothesis enough_fuel : (length ms < fuel)%nat.
Implicit Types (k : KERNEL) (L : NODE → list NODE) (h n : NODE) (t : nat) (m : TIMER).

Lemma prio_insert_split pr t ns : Forall (λ n, ∃ s, n = N_tlist s) ns →
  ∃ xs ys, ns = xs ++ ys ∧ prio_insert pr t ns = xs ++ N_tlist t :: ys ∧
    Forall (λ n, ∃ s, n = N_tlist s ∧ pr s ≤ pr t) xs ∧
    match ys with N_tlist s :: _ => pr t < pr s | _ => ys = [] end.
Proof.
  clear enough_fuel. induction 1 as [|n ns [s ->] Hall IH]; cbn [prio_insert]; [by exists [], []|].
  destruct (Z.ltb_spec (pr t) (pr s)); [by exists [], (N_tlist s :: ns)|].
  destruct IH as (xs & ys & -> & -> & H1 & H2). exists (N_tlist s :: xs), ys.
  split_and!; [done|done| |done]. constructor; [eauto|done].
Qed.

(** The walk finds that place. *)
Lemma prio_position_ok k L h p ys : lists is_head (nodes k) L → is_head h →
  match ys with N_tlist s :: _ => p < current_priority (threads k s) | _ => ys = [] end →
  ∀ xs visits pre, L h = pre ++ xs ++ ys →
  Forall (λ n, ∃ s, n = N_tlist s ∧ current_priority (threads k s) ≤ p) xs →
  (length xs < visits)%nat →
  prio_position visits (default h (head (xs ++ ys))) h p k = Some (default h (head ys)).
Proof.
  intros HL Hh Hys. induction xs as [|n xs IH]; intros visits pre E Hxs Hv;
    (destruct visits as [|visits]; cbn [length] in Hv; [lia|]); cbn [app prio_position].
  - destruct ys as [|[| | | | | |s|] ys]; cbn [head default from_option id]; try done;
      [by rewrite decide_True|].
    rewrite decide_False by (by intros <-; destruct Hh). cbn [list_thread mbind option_bind].
    by rewrite (proj2 (Z.ltb_lt _ _) Hys).
  - apply Forall_cons in Hxs as [(s & -> & Hs) Hxs]. cbn [head default from_option id].
    rewrite decide_False by (by intros <-; destruct Hh). cbn [list_thread mbind option_bind].
    rewrite (proj2 (Z.ltb_ge _ _) Hs).
    rewrite (lists_next is_head _ L h pre (N_tlist s) (xs ++ ys) HL Hh) by done.
    apply (IH visits (pre ++ [N_tlist s])); [by rewrite <- app_assoc|done|lia].
Qed.

Lemma wait_members X lo k L h : kernel_wf ms X lo k L → waits h →
  Forall (λ n, ∃ s, n = N_tlist s) (L h).
Proof.
  intros W Hh. apply Forall_forall. intros n Hn.
  pose proof (kw_member _ _ _ _ _ W h n) as M. destruct h; try done;
    (destruct n; try by destruct M; eauto).
Qed.

(** No more threads wait than there are timers. *)
Lemma wait_length X lo k L h : kernel_wf ms X lo k L → objects_ok ms k L → waits h →
  (length (L h) < fuel)%nat.
Proof.
  intros W O Hh. assert (is_head h) as Hh' by (by destruct h).
  pose proof (lists_nodup _ _ _ (kw_lists _ _ _ _ _ W) h Hh') as ND.
  pose proof (wait_members _ _ _ _ h W Hh) as Hall.
  assert (L h ⊆ (λ m, match m with TM_thread t => N_tlist t | TM_user _ => N_timers end) <$> ms) as Hsub.
  { intros n Hn. rewrite Forall_forall in Hall. destruct (Hall n Hn) as (s & ->).
    apply list_elem_of_fmap. exists (TM_thread s). split; [done|]. by apply (ob_known _ _ _ O h). }
  pose proof (submseteq_length _ _ (NoDup_submseteq _ _ ND Hsub)) as Hle.
  rewrite length_fmap in Hle. lia.
Qed.

Lemma list_suspend_wf X lo k L h t flag : kernel_wf ms X lo k L → objects_ok ms k L → waits h →
  stat (threads k t) = RT_THREAD_READY → flag = RT_IPC_FLAG_FIFO ∨ flag = RT_IPC_FLAG_PRIO →
  ∃ k' L', rt_ipc_list_suspend h t flag k = Some k' ∧ kernel_wf ms X lo k' L' ∧
    L' h = joined (λ s, current_priority (threads k s)) t flag (L h) ∧
    (∀ h', is_head h' → (∀ p, h' ≠ N_ready p) → h' ≠ h → L' h' = L h') ∧
    (∀ t', threads k' t' = if decide (t' = t) then set_stat RT_THREAD_SUSPEND (threads k t)
      else threads k t') ∧ timers k' = timers k ∧ same_objects k k'.
Proof.
  intros W O Hh Hr Hflag. assert (is_head h) as Hh' by (by destruct h).
  destruct (suspend_wf _ _ _ _ _ t W Hr) as (W1 & Hl1 & Ho1 & Et1 & Em1 & _).
  pose proof (suspend_same t k) as SO. unfold rt_ipc_list_suspend.
  set (k1 := (rt_thread_suspend t k).2) in *. set (L1 := without (N_tlist t) L) in *.
  clearbody k1.
  assert (L1 h = L h) as Eh by (apply Ho1; [by destruct h|done]).
  assert (∀ s, current_priority (threads k1 s) = current_priority (threads k s)) as Ep.
  { intros s. rewrite Et1. case_decide as H; [by subst|done]. }
  set (pr := λ s, current_priority (threads k s)) in *.
  assert (∃ xs ys, L1 h = xs ++ ys ∧ joined pr t flag (L h) = xs ++ N_tlist t :: ys ∧
    (if flag =? RT_IPC_FLAG_FIFO then Some (upd_nodes (rt_list_insert_before h (N_tlist t)) k1)
     else if flag =? RT_IPC_FLAG_PRIO then
       n ← prio_position fuel (next (nodes k1 h)) h (current_priority (threads k1 t)) k1;
       Some (upd_nodes (rt_list_insert_before n (N_tlist t)) k1)
     else Some k1) =
    Some (upd_nodes (rt_list_insert_before (default h (head ys)) (N_tlist t)) k1))
    as (xs & ys & E1 & E2 & ->).
  { unfold joined. destruct Hflag as [-> | ->]; cbn [Z.eqb RT_IPC_FLAG_FIFO RT_IPC_FLAG_PRIO].
    - exists (L h), []. by rewrite app_nil_r.
    - destruct (prio_insert_split pr t (L h)) as (xs & ys & E & -> & Hxs & Hys);
        [by eapply wait_members|]. exists xs, ys. split_and!; [congruence|done|].
      rewrite (lists_next_head is_head _ L1) by (apply W1 || done). rewrite Eh, E.
      rewrite (prio_position_ok k1 L1 h _ ys (kw_lists _ _ _ _ _ W1) Hh') with (pre := []); [done|..].
      + destruct ys as [|[| | | | | |s|] ys]; try done. by rewrite !Ep.
      + by rewrite Eh.
      + eapply Forall_impl; [exact Hxs|]. intros n (s & -> & Hs). exists s. by rewrite !Ep.
      + pose proof (wait_length _ _ _ _ h W O Hh) as Hlen. rewrite E, length_app in Hlen. lia. }
  exists (upd_nodes (rt_list_insert_before (default h (head ys)) (N_tlist t)) k1),
    (<[h := xs ++ N_tlist t :: ys]> L1).
  split_and!; [done| |by rewrite fn_lookup_insert, E2| |done|done|].
  - eapply (enlist_wf ms _ _ k1 _ L1 _ h t); [exact W1|by apply lists_insert_at; [apply W1|..]|done| | | | |].
    + assert (stat (threads k1 t) = RT_THREAD_SUSPEND) as Hs by (by rewrite Et1, decide_True).
      by destruct h.
    + intros p ->. by destruct Hh.
    + intros ->. by destruct Hh.
    + intros n. rewrite fn_lookup_insert, E1, !elem_of_app, elem_of_cons. tauto.
    + intros h' Hne. by rewrite fn_lookup_insert_ne.
  - intros h' Hh'' Hr' Hne. rewrite fn_lookup_insert_ne by done. by apply Ho1.
  - etransitivity; [exact SO|by split].
Qed.

(** ** Waiting *)

(** Nothing is to be had from the object of the list [h]. *)
Definition busy (k : KERNEL) (h : NODE) : Prop :=
  match h with
  | N_sem i => sem_value (sems k i) = 0
  | N_mutex i => ∃ t, mutex_held (mutexes k i) t
  | N_event _ => True
  | _ => False
  end.

Lemma busy_waits k h : busy k h → waits h.
Proof. by destruct h. Qed.

Lemma joined_elem pr t flag ns n : Forall (λ n, ∃ s, n = N_tlist s) ns →
  n ∈ joined pr t flag ns → n = N_tlist t ∨ n ∈ ns.
Proof.
  intros Hns. unfold joined. case_match.
  - rewrite elem_of_app, list_elem_of_singleton. tauto.
  - destruct (prio_insert_split pr t ns Hns) as (xs & ys & -> & -> & _).
    rewrite !elem_of_app, elem_of_cons. tauto.
Qed.

Lemma objects_joined k k' L L' h t flag : kernel_wf ms None 0 k L → objects_ok ms k L → busy k h →
  TM_thread t ∈ ms → sems k' = sems k → mutexes k' = mutexes k →
  L' h = joined (λ s, current_priority (threads k s)) t flag (L h) →
  (∀ h', waits h' → h' ≠ h → L' h' = L h') → objects_ok ms k' L'.
Proof.
  intros W O B Hms Es Em Eh HL. pose proof (busy_waits _ _ B) as Hh.
  destruct O as [O1 O2 O3 O4]. split; rewrite ?Es, ?Em; [done|..].
  - intros i Hi. destruct (decide (h = N_sem i)) as [->|Hne].
    + cbn in B. rewrite B in Hi. lia.
    + rewrite HL by done. by apply O2.
  - intros i. destruct (decide (h = N_mutex i)) as [->|Hne]; [by right|].
    rewrite HL by done. apply O3.
  - intros h' t' Hh' Hin. destruct (decide (h' = h)) as [->|Hne]; [|rewrite HL in Hin by done; eauto].
    rewrite Eh in Hin. apply joined_elem in Hin as [[= ->]|?]; [done|eauto|by eapply wait_members].
Qed.

(** A thread that waits: it is where it belongs in the list of the object, its
    timer runs if there is a time, and another thread runs. *)
Record waiting (h : NODE) (t : nat) (flag time : Z) k L k' L' : Prop := {
  wt_kept : kept ms idle k L k' L';
  wt_dispatched : dispatched k' L';
  wt_joined : L' h = joined (λ s, current_priority (threads k s)) t flag (L h);
  wt_other h' : waits h' → h' ≠ h → L' h' = L h';
  wt_time : 0 < time → waits_for k' L' t time;
  wt_thread : threads k' t = set_stat RT_THREAD_SUSPEND (threads k t);
  wt_threads t' : t' ≠ t → threads k' t' = threads k t';
  wt_sems : sems k' = sems k;
  wt_mutexes : mutexes k' = mutexes k;
  wt_events : events k' = events k
}.

Lemma wait_wf k L h t flag time : kernel_wf ms None 0 k L → objects_ok ms k L →
  alive idle k → may_wait idle k t → busy k h →
  flag = RT_IPC_FLAG_FIFO ∨ flag = RT_IPC_FLAG_PRIO →
  TM_thread t ∈ ms → time < RT_TICK_MAX / 2 →
  ∃ k' L', ipc_wait h t flag time k = Some (Waits k') ∧ waiting h t flag time k L k' L'.
Proof.
  intros W O A M B Hflag Hms Htime. pose proof (busy_waits _ _ B) as Hh.
  pose proof M as (Hc & _). pose proof (running_ready _ k t A Hc) as Hr. unfold ipc_wait.
  destruct (list_suspend_wf None 0 k L h t flag W O Hh Hr Hflag) as
    (k1 & L1 & -> & W1 & Eh1 & HL1 & Et1 & Em1 & SO1). cbn [mbind option_bind].
  assert (L1 N_timers = L N_timers) as Etm by (apply HL1; [done|done|by intros <-; destruct Hh]).
  assert (stat (threads k1 t) = RT_THREAD_SUSPEND) as Hs1 by (by rewrite Et1, decide_True).
  assert (∃ k2 L2, (if 0 <? time then thread_timer_start t time k1 else Some k1) = Some k2 ∧
    kernel_wf ms None 0 k2 L2 ∧ (∀ h, h ≠ N_timers → L2 h = L1 h) ∧ threads k2 = threads k1 ∧
    same_objects k1 k2 ∧ (0 < time → counts k2 L2 (TM_thread t) time) ∧
    (∀ m, N_timer m ∈ L1 N_timers → N_timer m ∈ L2 N_timers) ∧
    (∀ m, m ≠ TM_thread t → timers k2 m = timers k1 m))
    as (k2 & L2 & -> & W2 & HL2 & Et2 & SO2 & HC & HLt & Em2).
  { destruct (Z.ltb_spec 0 time) as [H0|H0].
    - destruct (thread_timer_start_wf ms enough_fuel 0 k1 L1 t time W1) as
        (k2 & L2 & E & ?); [done|rewrite Etm; by eapply ready_timer_off|done|lia|done|].
      exists k2, L2. naive_solver.
    - exists k1, L1. split_and!; try done. lia. }
  cbn [mbind option_bind]. assert (same_objects k k2) as SO by (by etransitivity).
  assert (∀ h', waits h' → h' ≠ h → L2 h' = L h') as Ho.
  { intros h' Hh' Hne. rewrite HL2 by (intros ->; by destruct Hh').
    apply HL1; [by destruct h'|intros p ->; by destruct Hh'|done]. }
  assert (awake idle k2) as A2.
  { apply (waiting_awake idle k k2 t A M SO). intros t' Hne. by rewrite Et2, Et1, decide_False. }
  destruct (schedule_wf ms idle None 0 k2 L2 W2 A2) as (k3 & -> & W3 & A3 & R & D).
  cbn [mbind option_bind]. exists k3, L2. split; [done|].
  assert (L2 h = joined (λ s, current_priority (threads k s)) t flag (L h)) as EL2.
  { rewrite HL2; [done|]. intros ->. by destruct Hh. }
  split; [split|done|done|done| | | |..]; rewrite ?(resched_threads _ _ R).
  - done.
  - done.
  - intros _. eapply (objects_joined k _ L); try done.
    + rewrite (resched_sems _ _ R). apply SO.
    + rewrite (resched_mutexes _ _ R). apply SO.
  - rewrite (resched_lock _ _ R). apply SO.
  - rewrite (resched_nest _ _ R). apply SO.
  - rewrite (resched_tick _ _ R). apply SO.
  - eapply patient_steady; [|by apply rescheduled_steady].
    apply (patient_other _ _ _ _ t); [by rewrite Hr|..].
    + intros t' Hne. by rewrite Et2, Et1, decide_False.
    + intros m Hne. by rewrite Em2, Em1.
    + intros m Hin. apply HLt. by rewrite Etm.
  - intros H0. split; [by rewrite (resched_threads _ _ R), Et2|].
    eapply counts_same; [by apply HC|apply R..].
  - by rewrite Et2, Et1, decide_True.
  - intros t' Hne. by rewrite Et2, Et1, decide_False.
  - rewrite (resched_sems _ _ R). apply SO.
  - rewrite (resched_mutexes _ _ R). apply SO.
  - rewrite (resched_events _ _ R). apply SO.
Qed.

(** ** Being served *)

(** The whole invariant between two calls *)
Record kernel_ok k L : Prop := {
  ok_wf : kernel_wf ms None 0 k L;
  ok_objects : objects_ok ms k L;
  ok_alive : alive idle k;
  ok_nest : rt_interrupt_nest k = 0
}.

Lemma kept_ok k L k' L' : kernel_ok k L → kept ms idle k L k' L' → kernel_ok k' L'.
Proof. intros [] []. split; try done; [auto|congruence]. Qed.

Lemma first_waiting X lo k L h n rest : kernel_wf ms X lo k L → waits h → L h = n :: rest →
  ∃ s, n = N_tlist s ∧ stat (threads k s) = RT_THREAD_SUSPEND ∧
    list_thread (next (nodes k h)) = Some s ∧ filter (.≠ N_tlist s) (L h) = rest.
Proof.
  intros W Hh E. assert (is_head h) as Hh' by (by destruct h).
  pose proof (wait_members _ _ _ _ h W Hh) as Hall. rewrite E in Hall.
  apply Forall_cons in Hall as [(s & ->) _]. exists s.
  pose proof (lists_nodup _ _ _ (kw_lists _ _ _ _ _ W) h Hh') as ND. rewrite E in ND.
  apply NoDup_cons in ND as [ND _]. split_and!; [done| | |].
  - assert (N_tlist s ∈ L h) as Hin by (rewrite E; by left).
    pose proof (kw_member _ _ _ _ _ W h _ Hh' Hin) as M. by destruct h.
  - rewrite (lists_next_head is_head _ L) by (apply W || done). by rewrite E.
  - rewrite E, filter_cons_False by tauto. by apply without_id.
Qed.

(** The first of the waiting threads goes on. *)
Lemma serve_wf X lo k L h n rest : kernel_wf ms X lo k L → waits h → L h = n :: rest →
  ∃ s k' L', n = N_tlist s ∧ stat (threads k s) = RT_THREAD_SUSPEND ∧
    rt_ipc_list_resume h k = Some k' ∧ kernel_wf ms X lo k' L' ∧ woken s k L k' L' ∧
    same_objects k k' ∧ L' h = rest ∧ (∀ h', waits h' → h' ≠ h → L' h' = L h').
Proof.
  intros W Hh E. destruct (first_waiting _ _ _ _ _ _ _ W Hh E) as (s & -> & Hs & En & Ef).
  destruct (resume_wf _ _ _ k L s W Hs) as (k' & L' & Er & W' & Hw & SO & _).
  exists s, k', L'. unfold rt_ipc_list_resume. rewrite En. cbn [mbind option_bind]. rewrite Er.
  split_and!; try done.
  - rewrite (wk_others _ _ _ _ _ Hw); [done|by destruct h|by destruct h|by destruct h].
  - intros h' Hh' Hne.
    rewrite (wk_others _ _ _ _ _ Hw); [|by destruct h'|by destruct h'|by destruct h'].
    apply without_id. intros Hin. apply Hne.
    apply (lists_disjoint _ _ _ (kw_lists _ _ _ _ _ W) h' h (N_tlist s));
      [by destruct h'|by destruct h|done|rewrite E; by left].
Qed.

Lemma steady_kept_eq k k' L L' : kernel_ok k L → kernel_wf ms None 0 k' L' → steady k L k' L' →
  rt_current_thread k' = rt_current_thread k →
  rt_scheduler_lock_nest k' = rt_scheduler_lock_nest k →
  rt_interrupt_nest k' = rt_interrupt_nest k → rt_tick k' = rt_tick k → objects_ok ms k' L' →
  kept ms idle k L k' L'.
Proof.
  intros [W O A N] W' ST Ec El En Et O'. split; try done; [|apply ST].
  split; [by apply ST, A|]. destruct (al_current _ _ A) as (t & Hc & Hr).
  exists t. split; [by rewrite Ec|by apply ST].
Qed.

Lemma steady_kept k k' L L' : kernel_ok k L → kernel_wf ms None 0 k' L' → steady k L k' L' →
  same_objects k k' → objects_ok ms k' L' → kept ms idle k L k' L'.
Proof. intros K W' ST [] O'. by apply steady_kept_eq. Qed.

(** Scheduling at the end of a call *)
Lemma then_schedule k L k' L' : kept ms idle k L k' L' →
  ∃ k'', rt_schedule k' = Some k'' ∧ kept ms idle k L k'' L' ∧ dispatched k'' L' ∧
    rescheduled k' k''.
Proof.
  intros [W A O Hl Hn Ht P].
  destruct (schedule_wf ms idle None 0 k' L' W (alive_awake _ _ A)) as (k'' & E & W' & A' & R & D).
  exists k''. split_and!; [done| |done|done]. split; try done.
  - intros HO. eapply objects_frame; [by apply O|apply R|apply R|done].
  - by rewrite (resched_lock _ _ R).
  - by rewrite (resched_nest _ _ R).
  - by rewrite (resched_tick _ _ R).
  - eapply patient_steady; [exact P|by apply rescheduled_steady].
Qed.

(** *** Semaphores *)

Lemma sems_upd i f k j :
  sems (upd_sem i f k) j = if decide (j = i) then f (sems k i) else sems k j.
Proof.
  unfold upd_sem. cbn. case_decide as H; [subst; by rewrite fn_lookup_insert|].
  by rewrite fn_lookup_insert_ne.
Qed.

Lemma mutexes_upd i f k j :
  mutexes (upd_mutex i f k) j = if decide (j = i) then f (mutexes k i) else mutexes k j.
Proof.
  unfold upd_mutex. cbn. case_decide as H; [subst; by rewrite fn_lookup_insert|].
  by rewrite fn_lookup_insert_ne.
Qed.

(** What only changes objects keeps the rest. *)
Lemma object_kept k k' L : kernel_ok k L → nodes k' = nodes k → threads k' = threads k →
  timers k' = timers k → rt_thread_ready_priority_group k' = rt_thread_ready_priority_group k →
  rt_thread_ready_table k' = rt_thread_ready_table k → rt_tick k' = rt_tick k →
  rt_current_thread k' = rt_current_thread k →
  rt_scheduler_lock_nest k' = rt_scheduler_lock_nest k →
  rt_interrupt_nest k' = rt_interrupt_nest k →
  objects_ok ms k' L → kept ms idle k L k' L ∧ steady k L k' L.
Proof.
  intros [W O A N] En Et Em Eg Eb Ek Ec El Ei O'.
  assert (steady k L k' L) as ST by (apply steady_same; [by rewrite Et|by rewrite Em|done]).
  split; [|done]. split; try done; [by eapply kernel_wf_frame| |apply ST].
  destruct A as [A1 A2]. split; by rewrite ?Ec, Et.
Qed.

Lemma kept_steady k1 L1 k2 L2 k3 L3 : kept ms idle k1 L1 k2 L2 → kept ms idle k2 L2 k3 L3 →
  steady k2 L2 k3 L3 → kept ms idle k1 L1 k3 L3.
Proof.
  intros [] [] ST. split; try done; [auto|congruence..|by eapply patient_steady].
Qed.

Lemma sem_value_kept k L i v : kernel_ok k L → 0 ≤ v < 65536 → (0 < v → L (N_sem i) = []) →
  kept ms idle k L (upd_sem i (set_sem_value v) k) L.
Proof.
  intros K Hv Hfree. eapply object_kept; try done.
  destruct (ok_objects _ _ K) as [O1 O2 O3 O4]. split; try done.
  - intros j. rewrite sems_upd. by case_decide.
  - intros j. rewrite sems_upd. case_decide as H; [subst; done|apply O2].
Qed.

Lemma sem_take_free k L i time : kernel_ok k L → 0 < sem_value (sems k i) →
  let k' := upd_sem i (set_sem_value (sem_value (sems k i) - 1)) k in
  rt_sem_take i time k = Some (Returns RT_EOK k') ∧ kept ms idle k L k' L.
Proof.
  intros K Hv k'. pose proof (ob_sem _ _ _ (ok_objects _ _ K) i) as Hr. unfold rt_sem_take.
  rewrite (proj2 (Z.ltb_lt _ _) Hv). split.
  - unfold k', upd_sem. by rewrite (wrap_small 16) by (split; [lia|]; change (2 ^ 16) with 65536; lia).
  - apply sem_value_kept; [done|lia|]. intros _. by apply (ob_sem_free _ _ _ (ok_objects _ _ K)).
Qed.

Lemma no_error_ok k L t : kernel_ok k L → kernel_ok (upd_thread t (set_error RT_EOK) k) L ∧
  kept ms idle k L (upd_thread t (set_error RT_EOK) k) L.
Proof.
  intros K. set (k' := upd_thread _ _ _).
  assert (kept ms idle k L k' L) as C; [|split; [by eapply kept_ok|done]].
  apply steady_kept; [done|apply change_wf; [by intros th|apply K]| |by split|].
  - apply steady_same; try done. intros t'. unfold k'. rewrite threads_upd.
    case_decide as H; [by subst|done].
  - by eapply objects_frame; [apply K|..].
Qed.

(** What comes before the waiting does not concern the waiting threads. *)
Lemma kept_after k0 L0 k L k' L' : kept ms idle k0 L0 k L →
  (∀ t, stat (threads k t) = stat (threads k0 t)) → kept ms idle k L k' L' →
  kept ms idle k0 L0 k' L'.
Proof.
  intros [W0 A0 O0 Hl0 Hn0 Ht0 P0] Es [W A O Hl Hn Ht P]. split; try done; [auto|congruence..|].
  intros s Hs. destruct (P0 s Hs) as [Hr|(Hs1 & Hin & E)].
  - rewrite Es in Hr. destruct Hs as [Hs _]. by rewrite Hr in Hs.
  - destruct (P s (conj Hs1 Hin)) as [?|(? & ? & E')]; [by left|right].
    split_and!; [done|done|congruence].
Qed.

Lemma sem_take_wait k L i t time : kernel_ok k L → may_wait idle k t →
  sem_value (sems k i) = 0 → time ≠ 0 → time < RT_TICK_MAX / 2 → TM_thread t ∈ ms →
  sem_flag (sems k i) = RT_IPC_FLAG_FIFO ∨ sem_flag (sems k i) = RT_IPC_FLAG_PRIO →
  ∃ k' L', rt_sem_take i time k = Some (Waits k') ∧ kept ms idle k L k' L' ∧
    waiting (N_sem i) t (sem_flag (sems k i)) time (upd_thread t (set_error RT_EOK) k) L k' L'.
Proof.
  intros K M Hv Hne Htime Hms Hflag. unfold rt_sem_take. rewrite Hv, (ok_nest _ _ K).
  cbn [Z.ltb Z.eqb Z.compare]. rewrite (proj2 (Z.eqb_neq _ _) Hne).
  destruct (no_error_ok k L t K) as [K1 C1].
  destruct M as (Hc & M). rewrite Hc. cbn [mbind option_bind].
  destruct (wait_wf (upd_thread t (set_error RT_EOK) k) L (N_sem i) t (sem_flag (sems k i)) time)
    as (k' & L' & E & Wt); [apply K1..|by split|done|done|done|done|].
  exists k', L'. split_and!; [exact E| |done]. eapply kept_after; [exact C1| |apply Wt].
  intros t'. rewrite threads_upd. case_decide as H; [by subst|done].
Qed.

Lemma sem_release_free k L i : kernel_ok k L → L (N_sem i) = [] →
  sem_value (sems k i) < 65535 →
  let k' := upd_sem i (set_sem_value (sem_value (sems k i) + 1)) k in
  rt_sem_release i k = Some k' ∧ kept ms idle k L k' L.
Proof.
  intros K E Hv k'. pose proof (ob_sem _ _ _ (ok_objects _ _ K) i) as Hr. unfold rt_sem_release.
  rewrite (lists_isempty is_head _ L) by (apply K || done).
  rewrite bool_decide_eq_true_2 by done. cbn [negb]. split.
  - unfold k', upd_sem. by rewrite (wrap_small 16) by (split; [lia|]; change (2 ^ 16) with 65536; lia).
  - apply sem_value_kept; [done|lia|done].
Qed.

(** Handing on to the first of the waiting threads, up to the scheduling *)
Lemma serve_kept k L h n rest : kernel_ok k L → waits h → L h = n :: rest →
  ∃ s k' L', n = N_tlist s ∧ stat (threads k s) = RT_THREAD_SUSPEND ∧
    rt_ipc_list_resume h k = Some k' ∧ kept ms idle k L k' L' ∧ woken s k L k' L' ∧
    same_objects k k' ∧ L' h = rest ∧ (∀ h', waits h' → h' ≠ h → L' h' = L h').
Proof.
  intros K Hh E. destruct (serve_wf None 0 k L h n rest (ok_wf _ _ K) Hh E) as
    (s & k' & L' & -> & Hs & Er & W' & Hw & SO & Eh & Ho).
  exists s, k', L'. split_and!; try done.
  apply steady_kept; [done|done|by eapply woken_steady|done|].
  eapply objects_frame; [apply K|apply SO|apply SO|]. intros h'. by eapply woken_sub.
Qed.

Lemma sem_release_serve k L i n rest : kernel_ok k L → L (N_sem i) = n :: rest →
  ∃ s k' L', n = N_tlist s ∧ stat (threads k s) = RT_THREAD_SUSPEND ∧
    rt_sem_release i k = Some k' ∧ kept ms idle k L k' L' ∧ dispatched k' L' ∧
    L' (N_sem i) = rest ∧ threads k' s = set_stat RT_THREAD_READY (threads k s) ∧
    sems k' = sems k.
Proof.
  intros K E. destruct (serve_kept k L (N_sem i) n rest K I E) as
    (s & k1 & L1 & -> & Hs & Er & C1 & Hw & SO & EL & _).
  destruct (then_schedule _ _ _ _ C1) as (k2 & E2 & C2 & D & R).
  exists s, k2, L1. unfold rt_sem_release.
  rewrite (lists_isempty is_head _ L) by (apply K || done).
  rewrite bool_decide_eq_false_2 by (by rewrite E). cbn [negb]. rewrite Er. cbn [mbind option_bind].
  split_and!; try done.
  - rewrite (resched_threads _ _ R). pose proof (wk_thread _ _ _ _ _ Hw) as Et.
    pose proof (wk_stat _ _ _ _ _ Hw) as Es. rewrite <- Et. destruct (threads k1 s).
    cbn in *. by subst.
  - rewrite (resched_sems _ _ R). apply SO.
Qed.

(** *** Mutexes *)

Lemma mutex_kept k L i f : kernel_ok k L →
  mutex_free (f (mutexes k i)) ∧ L (N_mutex i) = [] ∨ (∃ t, mutex_held (f (mutexes k i)) t) →
  kept ms idle k L (upd_mutex i f k) L ∧ steady k L (upd_mutex i f k) L.
Proof.
  intros K Hf. apply object_kept; try done.
  destruct (ok_objects _ _ K) as [O1 O2 O3 O4]. split; try done.
  intros j. rewrite mutexes_upd. case_decide as H; [by subst|done].
Qed.

Lemma error_kept k L t e : kernel_ok k L →
  let k' := upd_thread t (set_error e) k in
  kept ms idle k L k' L ∧ (∀ t', stat (threads k' t') = stat (threads k t')).
Proof.
  intros K k'.
  assert (∀ t', stat (threads k' t') = stat (threads k t')) as Es.
  { intros t'. unfold k'. rewrite threads_upd. case_decide as H; [by subst|done]. }
  split; [|done].
  apply steady_kept; [done|apply change_wf; [by intros th|apply K]|by apply steady_same|by split|].
  by eapply objects_frame; [apply K|..].
Qed.

Lemma held_byte (x : rt_mutex) t : mutex_held x t → u8 (hold x - 1) = hold x - 1.
Proof.
  intros (_ & _ & Hh & _). apply wrap_small. split; [lia|]. change (2 ^ 8) with 256. lia.
Qed.

(** The owner of a mutex that is wanted runs at least at the priority of the
    one who wants it. *)
Lemma inherit_kept k L t o : kernel_ok k L → valid_priority (current_priority (threads k t)) →
  let p := current_priority (threads k t) in
  let b := p <? current_priority (threads k o) in
  let k' := if b then rt_thread_change_priority o p k else k in
  ∃ L', kept ms idle k L k' L' ∧
    (∀ t', threads k' t' = if decide (t' = o) then
      (if b then set_priority p (threads k o) else threads k o) else threads k t') ∧
    (∀ h, waits h → L' h = L h) ∧ same_objects k k'.
Proof.
  intros K Hp p b k'. destruct b.
  2:{ exists L. split_and!; [|by intros t'; case_decide; subst|done|done].
      apply steady_kept; [done|apply K|by apply steady_same|done|apply K]. }
  destruct (change_priority_wf ms None 0 k L o p (ok_wf _ _ K) Hp) as (L' & W' & HL & Et & Em & SO).
  exists L'. assert (∀ h, waits h → L' h = L h) as HL'.
  { intros h Hh. apply HL; [intros q ->; by destruct Hh|by destruct h]. }
  split_and!; [|exact Et|done|done].
  apply steady_kept; [done|done| |done|].
  - apply steady_same.
    + intros t'. unfold k'. rewrite Et. case_decide as H; [by subst|done].
    + unfold k'. by rewrite Em.
    + intros m. by rewrite HL.
  - eapply objects_frame; [apply K|apply SO|apply SO|]. intros h Hh. by rewrite HL'.
Qed.

(** The cases of taking a mutex *)
Lemma mutex_take_again k L i t time : kernel_ok k L → rt_current_thread k = Some t →
  mutex_held (mutexes k i) t → hold (mutexes k i) < 255 →
  ∃ k', rt_mutex_take i time k = Some (Returns RT_EOK k') ∧ kept ms idle k L k' L ∧
    mutexes k' i = set_hold (hold (mutexes k i) + 1) (mutexes k i).
Proof.
  intros K Hc H Hh. destruct H as (H1 & H2 & H3 & H4). unfold rt_mutex_take.
  rewrite (ok_nest _ _ K), Hc. cbn [Z.eqb mbind option_bind].
  set (k1 := upd_thread t (set_error RT_EOK) k).
  change (mutexes k1) with (mutexes k). rewrite bool_decide_eq_true_2 by done.
  assert (u8 (hold (mutexes k i) + 1) = hold (mutexes k i) + 1) as E8.
  { apply wrap_small. split; [lia|]. change (2 ^ 8) with 256. lia. }
  destruct (no_error_ok k L t K) as [K1 C1]. eexists. split; [done|].
  destruct (mutex_kept k1 L i (λ x, set_hold (u8 (hold x + 1)) x) K1) as [C2 S2].
  { right. exists t. split_and!; try done; cbn; change (mutexes k1) with (mutexes k); lia. }
  split; [by eapply kept_steady|]. rewrite mutexes_upd, decide_True by done.
  change (mutexes k1) with (mutexes k). by rewrite E8.
Qed.

Lemma mutex_take_free k L i t time : kernel_ok k L → rt_current_thread k = Some t →
  mutex_free (mutexes k i) →
  ∃ k', rt_mutex_take i time k = Some (Returns RT_EOK k') ∧ kept ms idle k L k' L ∧
    mutex_held (mutexes k' i) t ∧ hold (mutexes k' i) = 1 ∧
    original_priority (mutexes k' i) = current_priority (threads k t).
Proof.
  intros K Hc (H1 & H2 & H3). unfold rt_mutex_take.
  rewrite (ok_nest _ _ K), Hc. cbn [Z.eqb mbind option_bind].
  set (k1 := upd_thread t (set_error RT_EOK) k).
  change (mutexes k1) with (mutexes k). rewrite bool_decide_eq_false_2 by (by rewrite H2).
  rewrite H1. cbn [Z.ltb Z.compare].
  assert (current_priority (threads k1 t) = current_priority (threads k t)) as Ep
    by (unfold k1; by rewrite threads_upd, decide_True).
  destruct (no_error_ok k L t K) as [K1 C1]. rewrite Ep.
  set (f := λ x : rt_mutex, set_hold _ _). eexists. split; [done|].
  assert (f (mutexes k i) = mkMutex 0 (current_priority (threads k t)) 1 (Some t)
    (mutex_flag (mutexes k i))) as Ef.
  { unfold f. destruct (mutexes k i). cbn in *. by subst. }
  assert (mutex_held (f (mutexes k1 i)) t) as Hh.
  { change (mutexes k1) with (mutexes k). rewrite Ef. unfold mutex_held. cbn. split_and!; try done.
    apply (kw_attr _ _ _ _ _ (ok_wf _ _ K)).
    by rewrite (running_ready _ _ _ (ok_alive _ _ K) Hc). }
  destruct (mutex_kept k1 L i f K1) as [C2 S2]; [by right; exists t|].
  split; [by eapply kept_steady|]. rewrite mutexes_upd, decide_True by done.
  split; [done|]. change (mutexes k1) with (mutexes k). by rewrite Ef.
Qed.

Lemma mutex_take_nowait k L i t o : kernel_ok k L → rt_current_thread k = Some t →
  mutex_held (mutexes k i) o → o ≠ t →
  let k' := upd_thread t (set_error (- RT_ETIMEOUT)) (upd_thread t (set_error RT_EOK) k) in
  rt_mutex_take i 0 k = Some (Returns (- RT_ETIMEOUT) k') ∧ kept ms idle k L k' L.
Proof.
  intros K Hc (H1 & H2 & _) Hne k'. unfold rt_mutex_take.
  rewrite (ok_nest _ _ K), Hc. cbn [Z.eqb mbind option_bind].
  change (mutexes (upd_thread t (set_error RT_EOK) k)) with (mutexes k).
  rewrite bool_decide_eq_false_2 by (rewrite H2; congruence). rewrite H1. split; [done|].
  destruct (no_error_ok k L t K) as [K1 C1].
  destruct (error_kept _ L t (- RT_ETIMEOUT) K1) as [C2 Es].
  eapply kept_steady; [exact C1|exact C2|]. by apply steady_same.
Qed.

Lemma mutex_take_wait k L i t o time : kernel_ok k L → may_wait idle k t →
  mutex_held (mutexes k i) o → o ≠ t → time ≠ 0 → time < RT_TICK_MAX / 2 → TM_thread t ∈ ms →
  mutex_flag (mutexes k i) = RT_IPC_FLAG_FIFO ∨ mutex_flag (mutexes k i) = RT_IPC_FLAG_PRIO →
  ∃ k1 L1 k' L', rt_mutex_take i time k = Some (Waits k') ∧ kept ms idle k L k' L' ∧
    waiting (N_mutex i) t (mutex_flag (mutexes k i)) time k1 L1 k' L' ∧
    L1 (N_mutex i) = L (N_mutex i) ∧ mutexes k1 = mutexes k ∧
    current_priority (threads k1 t) = current_priority (threads k t) ∧
    (∀ s, s ≠ o → current_priority (threads k1 s) = current_priority (threads k s)) ∧
    current_priority (threads k1 o) =
      Z.min (current_priority (threads k t)) (current_priority (threads k o)).
Proof.
  intros K M H Hne Hn0 Htime Hms Hflag. pose proof M as (Hc & Hi & Hl).
  pose proof H as (H1 & H2 & _). unfold rt_mutex_take.
  rewrite (ok_nest _ _ K), Hc. cbn [Z.eqb mbind option_bind].
  destruct (no_error_ok k L t K) as [K1 C1]. set (k1 := upd_thread t (set_error RT_EOK) k) in *.
  assert (∀ s, stat (threads k1 s) = stat (threads k s) ∧
    current_priority (threads k1 s) = current_priority (threads k s)) as Et1.
  { intros s. unfold k1. rewrite threads_upd. case_decide as Hs; [by subst|done]. }
  assert (mutexes k1 = mutexes k ∧ rt_current_thread k1 = Some t ∧
    rt_scheduler_lock_nest k1 = 0) as (Em1 & Hc1 & Hl1) by done. clearbody k1. rewrite Em1.
  rewrite bool_decide_eq_false_2 by (rewrite H2; congruence). rewrite H1.
  cbn [Z.ltb Z.compare]. rewrite (proj2 (Z.eqb_neq _ _) Hn0), H2. cbn [mbind option_bind].
  destruct (inherit_kept k1 L t o K1) as (L2 & C2 & Et2 & HL2 & SO).
  { apply (kw_attr _ _ _ _ _ (ok_wf _ _ K1)).
    by rewrite (running_ready _ _ _ (ok_alive _ _ K1) Hc1). }
  set (k2 := if _ <? _ then _ else _) in *. clearbody k2.
  pose proof (kept_ok _ _ _ _ K1 C2) as K2.
  destruct (wait_wf k2 L2 (N_mutex i) t (mutex_flag (mutexes k i)) time) as (k' & L' & E & Wt);
    [apply K2..| | |done|done|done|].
  { split_and!; [by rewrite (so_current _ _ SO)|done|by rewrite (so_lock _ _ SO)]. }
  { exists o. by rewrite (so_mutexes _ _ SO), Em1. }
  assert (∀ s, stat (threads k2 s) = stat (threads k1 s)) as Es2.
  { intros s. rewrite Et2. case_decide as Hs; [subst; by case_match|done]. }
  exists k2, L2, k', L'. split_and!; try done.
  - eapply kept_after; [exact C1|apply Et1|]. eapply kept_after; [exact C2|exact Es2|apply Wt].
  - by apply HL2.
  - by rewrite (so_mutexes _ _ SO).
  - rewrite Et2, decide_False by congruence. apply Et1.
  - intros s Hs. rewrite Et2, decide_False by done. apply Et1.
  - rewrite Et2, decide_True by done. destruct (Et1 t) as [_ E1], (Et1 o) as [_ E2].
    destruct (Z.ltb_spec (current_priority (threads k1 t)) (current_priority (threads k1 o)));
      cbn [current_priority set_priority set_high_mask set_number_mask set_number
        set_current_priority]; lia.
Qed.

(** The cases of releasing a mutex *)
Lemma mutex_release_other k L i t : kernel_ok k L → rt_current_thread k = Some t →
  owner (mutexes k i) ≠ Some t →
  let k' := upd_thread t (set_error (- RT_ERROR)) k in
  rt_mutex_release i k = Some (- RT_ERROR, k') ∧ kept ms idle k L k' L.
Proof.
  intros K Hc Ho k'. unfold rt_mutex_release. rewrite Hc. cbn [mbind option_bind].
  rewrite bool_decide_eq_true_2 by done. split; [done|]. by apply error_kept.
Qed.

Lemma mutex_release_again k L i t : kernel_ok k L → rt_current_thread k = Some t →
  mutex_held (mutexes k i) t → 1 < hold (mutexes k i) →
  ∃ k', rt_mutex_release i k = Some (RT_EOK, k') ∧ kept ms idle k L k' L ∧
    mutexes k' i = set_hold (hold (mutexes k i) - 1) (mutexes k i).
Proof.
  intros K Hc H Hh. pose proof (held_byte _ _ H) as E8. pose proof H as (H1 & H2 & H3 & H4).
  unfold rt_mutex_release. rewrite Hc. cbn [mbind option_bind].
  rewrite bool_decide_eq_false_2 by tauto.
  set (f := λ x : rt_mutex, set_hold _ _).
  assert (f (mutexes k i) = set_hold (hold (mutexes k i) - 1) (mutexes k i)) as Ef
    by (unfold f; by rewrite E8).
  assert (mutexes (upd_mutex i f k) i = f (mutexes k i)) as Em by (by rewrite mutexes_upd, decide_True).
  rewrite Em, Ef. cbn [hold set_hold]. rewrite (proj2 (Z.eqb_neq _ _)) by lia.
  eexists. split; [done|]. split; [|by rewrite Em].
  apply mutex_kept; [done|]. right. exists t. rewrite Ef. unfold mutex_held. cbn.
  split_and!; try done; lia.
Qed.

(** The priority of the former owner goes back. *)
Lemma restore_wf k L t p : kernel_wf ms None 0 k L → stat (threads k t) ≠ RT_THREAD_INIT →
  valid_priority p →
  let k' := if p =? current_priority (threads k t) then k else rt_thread_change_priority t p k in
  ∃ L', kernel_wf ms None 0 k' L' ∧ steady k L k' L' ∧ (∀ h, waits h → L' h = L h) ∧
    (∀ s, stat (threads k' s) = stat (threads k s)) ∧ (∀ s, s ≠ t → threads k' s = threads k s) ∧
    current_priority (threads k' t) = p ∧ same_objects k k'.
Proof.
  intros W Hs Hp k'. unfold k'. destruct (Z.eqb_spec p (current_priority (threads k t))) as [E|E].
  { exists L. split_and!; try done. by apply steady_same. }
  destruct (change_priority_wf ms None 0 k L t p W Hp) as (L' & W' & HL & Et & Em & SO).
  exists L'. assert (∀ s, stat (threads (rt_thread_change_priority t p k) s) = stat (threads k s)) as Es.
  { intros s. rewrite Et. case_decide as H; [by subst|done]. }
  split_and!; [done| | |done| | |done].
  - apply steady_same; [done|by rewrite Em|]. intros m. by rewrite HL.
  - intros h Hh. apply HL; [intros q ->; by destruct Hh|by destruct h].
  - intros s Hne. by rewrite Et, decide_False.
  - by rewrite Et, decide_True.
Qed.

Lemma objects_mutex k k' L L' i : objects_ok ms k L → sems k' = sems k →
  (∀ j, j ≠ i → mutexes k' j = mutexes k j) → (∀ h, waits h → L' h = L h) →
  mutex_free (mutexes k' i) ∧ L (N_mutex i) = [] ∨ (∃ t, mutex_held (mutexes k' i) t) →
  objects_ok ms k' L'.
Proof.
  intros [O1 O2 O3 O4] Es Em HL Hi. split; rewrite ?Es; [done|..].
  - intros j Hj. rewrite HL by done. by apply O2.
  - intros j. rewrite HL by done. destruct (decide (j = i)) as [->|Hne]; [done|by rewrite Em].
  - intros h t Hh. rewrite HL by done. by apply O4.
Qed.

(** The last release: the mutex is free, or the first of the waiting threads
    has it.  The scheduler is called in the second case only. *)
Lemma mutex_release_last k L i t : kernel_ok k L → rt_current_thread k = Some t →
  mutex_held (mutexes k i) t → hold (mutexes k i) = 1 →
  ∃ k' L', rt_mutex_release i k = Some (RT_EOK, k') ∧ kept ms idle k L k' L' ∧
    current_priority (threads k' t) = original_priority (mutexes k i) ∧
    match L (N_mutex i) with
    | [] => mutex_free (mutexes k' i) ∧ rt_current_thread k' = Some t ∧ L' (N_mutex i) = []
    | n :: rest => ∃ s, n = N_tlist s ∧ mutex_held (mutexes k' i) s ∧ hold (mutexes k' i) = 1 ∧
        original_priority (mutexes k' i) = current_priority (threads k s) ∧
        threads k' s = set_stat RT_THREAD_READY (threads k s) ∧ L' (N_mutex i) = rest ∧
        dispatched k' L'
    end.
Proof.
  intros K Hc H Hh. pose proof H as (H1 & H2 & H3 & H4).
  unfold rt_mutex_release. rewrite Hc. cbn [mbind option_bind].
  rewrite bool_decide_eq_false_2 by tauto.
  set (f := λ x : rt_mutex, set_hold _ _). set (k1 := upd_mutex i f k).
  assert (∀ j, mutexes k1 j = if decide (j = i) then set_hold 0 (mutexes k i) else mutexes k j) as Em1.
  { intros j. unfold k1. rewrite mutexes_upd. case_decide as Hj; [|done].
    unfold f. by rewrite Hh. }
  pose proof (running_ready _ k t (ok_alive _ _ K) Hc) as Hr.
  rewrite Em1, decide_True by done. cbn [hold set_hold Z.eqb].
  assert (kernel_wf ms None 0 k1 L) as W1 by (by eapply kernel_wf_frame; [apply K|..]).
  destruct (restore_wf k1 L t (original_priority (mutexes k i)) W1) as
    (L2 & W2 & S2 & HL2 & Es2 & Et2 & Ep2 & SO2); [|done|].
  { change (stat (threads k1 t)) with (stat (threads k t)). by rewrite Hr. }
  set (k2 := if _ =? _ then k1 else _) in *. clearbody k2.
  rewrite (lists_isempty is_head _ L2), (lists_next_head is_head _ L2) by (apply W2 || done).
  rewrite HL2 by done.
  assert (∀ g, (mutex_free (g (mutexes k2 i)) ∧ L (N_mutex i) = []) ∨
      (∃ s, mutex_held (g (mutexes k2 i)) s) →
    kept ms idle k L (upd_mutex i g k2) L2) as Hkept.
  { intros g Hg. apply steady_kept_eq; [done|by eapply kernel_wf_frame| |apply SO2..|].
    - eapply steady_trans; [|eapply steady_trans; [exact S2|by apply steady_same]].
      by apply steady_same.
    - eapply (objects_mutex k); [apply K|apply SO2| |done|].
      + intros j Hj. rewrite mutexes_upd, decide_False by done.
        by rewrite (so_mutexes _ _ SO2), Em1, decide_False.
      + by rewrite mutexes_upd, decide_True. }
  assert (mutexes k2 i = set_hold 0 (mutexes k i)) as Em2
    by (by rewrite (so_mutexes _ _ SO2), Em1, decide_True).
  destruct (L (N_mutex i)) as [|n rest] eqn:EL.
  - rewrite bool_decide_eq_true_2 by done. cbn [negb].
    set (g := λ x : rt_mutex, set_original_priority _ _).
    assert (g (mutexes k2 i) = mkMutex 1 0xff 0 None (mutex_flag (mutexes k i))) as Eg.
    { unfold g. rewrite Em2. cbn. by rewrite H1. }
    assert (mutex_free (g (mutexes k2 i))) as Hf by (by rewrite Eg).
    exists (upd_mutex i g k2), L2. split_and!; [done|apply Hkept; by left|done| | |].
    + by rewrite mutexes_upd, decide_True.
    + exact (eq_trans (so_current _ _ SO2) Hc).
    + by rewrite HL2.
  - rewrite bool_decide_eq_false_2 by done. cbn [negb].
    destruct (first_waiting None 0 k L (N_mutex i) n rest (ok_wf _ _ K) I EL) as (s & -> & Hs & _).
    cbn [head default from_option id list_thread mbind option_bind].
    assert (s ≠ t) as Hst by (intros ->; by rewrite Hr in Hs).
    rewrite (Et2 s Hst). change (threads k1 s) with (threads k s).
    set (g := λ x : rt_mutex, set_hold _ _).
    assert (g (mutexes k2 i) = mkMutex 0 (current_priority (threads k s)) 1 (Some s)
      (mutex_flag (mutexes k i))) as Eg.
    { unfold g, set_hold, set_original_priority, set_owner. rewrite Em2. cbn. by rewrite H1. }
    assert (mutex_held (g (mutexes k2 i)) s) as Hg.
    { rewrite Eg. unfold mutex_held. cbn. split_and!; try done.
      apply (kw_attr _ _ _ _ _ (ok_wf _ _ K)). by rewrite Hs. }
    assert (kept ms idle k L (upd_mutex i g k2) L2) as C3 by (apply Hkept; right; by exists s).
    pose proof (kept_ok _ _ _ _ K C3) as K3.
    assert (mutexes (upd_mutex i g k2) i = g (mutexes k2 i)) as Em3
      by (by rewrite mutexes_upd, decide_True).
    set (k3 := upd_mutex i g k2) in *. assert (threads k3 = threads k2) as Et3 by done.
    clearbody k3.
    destruct (serve_kept k3 L2 (N_mutex i) (N_tlist s) rest K3 I) as
      (s' & k4 & L4 & [= <-] & Hs3 & -> & C4 & Hw & SO4 & EL4 & _); [by rewrite HL2|].
    cbn [mbind option_bind].
    assert (kept ms idle k L k4 L4) as C by (eapply kept_steady; [exact C3|exact C4|by eapply woken_steady]).
    destruct (then_schedule _ _ _ _ C) as (k5 & -> & C5 & D & R). cbn [mbind option_bind].
    exists k5, L4. split_and!; [done|done| |].
    + rewrite (resched_threads _ _ R), (wk_threads _ _ _ _ _ Hw), Et3 by congruence. done.
    + exists s. rewrite (resched_mutexes _ _ R), (so_mutexes _ _ SO4), Em3, (resched_threads _ _ R).
      split_and!; [done|done|by rewrite Eg..| |done|done].
      pose proof (wk_thread _ _ _ _ _ Hw) as E4. pose proof (wk_stat _ _ _ _ _ Hw) as E5.
      rewrite Et3, (Et2 s Hst) in E4. change (threads k1 s) with (threads k s) in E4.
      rewrite <- E4. destruct (threads k4 s). cbn in *. by subst.
Qed.

(** *** Events *)

(** A thread waits for all bits of [set], or for some of them; it receives those
    that are there. *)
Definition event_met (bits set info : Z) : bool :=
  if has info RT_EVENT_FLAG_AND then Z.ldiff set bits =? 0
  else if has info RT_EVENT_FLAG_OR then negb (Z.land set bits =? 0)
  else false.

Lemma event_ready_met bits set info : event_ready bits set info = event_met bits set info.
Proof.
  clear. unfold event_ready, event_met. repeat case_match; try done.
  apply eq_true_iff_eq. rewrite !Z.eqb_eq. split; intros E.
  - apply Z.bits_inj'. intros n Hn. apply (f_equal (λ z, Z.testbit z n)) in E.
    rewrite Z.land_spec in E. rewrite Z.ldiff_spec, Z.bits_0.
    by destruct (Z.testbit set n), (Z.testbit bits n).
  - apply Z.bits_inj'. intros n Hn. apply (f_equal (λ z, Z.testbit z n)) in E.
    rewrite Z.ldiff_spec, Z.bits_0 in E. rewrite Z.land_spec.
    by destruct (Z.testbit set n), (Z.testbit bits n).
Qed.

Lemma event_received_met bits set info : event_ready bits set info = true →
  event_received bits set info = Z.land set bits.
Proof.
  clear. unfold event_ready, event_received. case_match; [|done]. by intros ->%Z.eqb_eq.
Qed.

(** Which of the waiting threads [ts] are served, with what, and the bits that
    are left *)
Fixpoint event_serve (bits : Z) (th : nat → rt_thread) (ts : list nat) : list (nat * Z) * Z :=
  match ts with
  | [] => ([], bits)
  | t :: ts =>
      let set := event_set (th t) in
      let info := event_info (th t) in
      if event_met bits set info then
        let r := Z.land set bits in
        let bits := if has info RT_EVENT_FLAG_CLEAR then Z.ldiff bits r else bits in
        ((t, r) :: (event_serve bits th ts).1, (event_serve bits th ts).2)
      else event_serve bits th ts
  end.

Lemma event_serve_ext th th' ts : (∀ t, t ∈ ts → th' t = th t) → ∀ bits,
  event_serve bits th' ts = event_serve bits th ts.
Proof.
  clear. induction ts as [|t ts IH]; intros E bits; [done|]. cbn [event_serve].
  rewrite (E t) by (by left). rewrite !IH; [done|intros; apply E; by right..].
Qed.

Lemma event_serve_sub bits th ts : (event_serve bits th ts).1.*1 ⊆ ts.
Proof.
  clear. revert bits. induction ts as [|t ts IH]; intros bits; [done|]. cbn [event_serve].
  case_match; cbn [fst fmap list_fmap].
  - intros s [->|Hs]%elem_of_cons; [by left|right; by eapply IH].
  - intros s Hs. right. by eapply IH.
Qed.

(** What happened to the threads that wait for the event [i], [ts] of them
    behind [pre] *)
Record sent (i : nat) (pre : list NODE) (ts : list nat) k L k' L' : Prop := {
  sn_wf : kernel_wf ms None 0 k' L';
  sn_objects : objects_ok ms k L → objects_ok ms k' L';
  sn_steady : steady k L k' L';
  sn_current : rt_current_thread k' = rt_current_thread k;
  sn_lock : rt_scheduler_lock_nest k' = rt_scheduler_lock_nest k;
  sn_nest : rt_interrupt_nest k' = rt_interrupt_nest k;
  sn_tick : rt_tick k' = rt_tick k;
  sn_left : let sv := event_serve (event_bits (events k i)) (threads k) ts in
    L' (N_event i) = pre ++ (N_tlist <$> filter (.∉ sv.1.*1) ts);
  sn_bits : event_bits (events k' i) =
    (event_serve (event_bits (events k i)) (threads k) ts).2;
  sn_served t r : (t, r) ∈ (event_serve (event_bits (events k i)) (threads k) ts).1 →
    threads k' t = set_stat RT_THREAD_READY (set_event_set r (threads k t));
  sn_unserved t : t ∉ (event_serve (event_bits (events k i)) (threads k) ts).1.*1 →
    threads k' t = threads k t
}.

Lemma events_upd i f k j :
  events (upd_event i f k) j = if decide (j = i) then f (events k i) else events k j.
Proof.
  unfold upd_event. cbn. case_decide as H; [subst; by rewrite fn_lookup_insert|].
  by rewrite fn_lookup_insert_ne.
Qed.

(** One thread is served. *)
Lemma serve_one k L i t b r pre ts : kernel_wf ms None 0 k L →
  L (N_event i) = pre ++ N_tlist t :: ts →
  let k1 := upd_thread t (set_event_set r) k in
  let k2 := if b : bool then upd_event i (λ e, set_event_bits
    (Z.ldiff (event_bits e) (event_set (threads k1 t))) e) k1 else k1 in
  ∃ L', let k' := (rt_thread_resume t k2).2 in
    kernel_wf ms None 0 k' L' ∧ (objects_ok ms k L → objects_ok ms k' L') ∧ steady k L k' L' ∧
    rt_current_thread k' = rt_current_thread k ∧
    rt_scheduler_lock_nest k' = rt_scheduler_lock_nest k ∧
    rt_interrupt_nest k' = rt_interrupt_nest k ∧ rt_tick k' = rt_tick k ∧
    L' (N_event i) = pre ++ ts ∧
    event_bits (events k' i) = (if b then Z.ldiff (event_bits (events k i)) r
      else event_bits (events k i)) ∧
    (∀ s, threads k' s = if decide (s = t)
      then set_stat RT_THREAD_READY (set_event_set r (threads k t)) else threads k s).
Proof.
  intros W EL k1 k2.
  assert (N_tlist t ∈ L (N_event i)) as Hin.
  { rewrite EL, elem_of_app. right. by left. }
  pose proof (kw_member _ _ _ _ _ W (N_event i) _ I Hin) as Hs. cbn in Hs.
  assert (kernel_wf ms None 0 k1 L) as W1 by (by apply change_wf).
  assert (∀ s, threads k1 s = if decide (s = t) then set_event_set r (threads k t)
    else threads k s) as Et1 by apply threads_upd.
  assert (kernel_wf ms None 0 k2 L) as W2 by (unfold k2; destruct b; [by eapply kernel_wf_frame|done]).
  assert (threads k2 = threads k1 ∧ timers k2 = timers k ∧ sems k2 = sems k ∧
    mutexes k2 = mutexes k ∧ rt_current_thread k2 = rt_current_thread k ∧
    rt_scheduler_lock_nest k2 = rt_scheduler_lock_nest k ∧
    rt_interrupt_nest k2 = rt_interrupt_nest k ∧ rt_tick k2 = rt_tick k) as
    (Et2 & Em2 & Es2 & Emx2 & Ec2 & El2 & En2 & Ek2) by (unfold k2; by destruct b).
  assert (event_bits (events k2 i) = if b then Z.ldiff (event_bits (events k i)) r
    else event_bits (events k i)) as Eb2.
  { unfold k2. destruct b; [|done]. rewrite events_upd, !decide_True by done.
    cbn [event_bits set_event_bits]. by rewrite Et1, decide_True. }
  clearbody k2.
  destruct (resume_wf ms None 0 k2 L t W2) as (k3 & L3 & -> & W3 & Hw & SO & _).
  { by rewrite Et2, Et1, decide_True. }
  cbn [snd]. exists L3.
  assert (∀ s, threads k3 s = if decide (s = t)
      then set_stat RT_THREAD_READY (set_event_set r (threads k t)) else threads k s) as Et3.
  { intros s. case_decide as H.
    - subst s. pose proof (wk_thread _ _ _ _ _ Hw) as E1. pose proof (wk_stat _ _ _ _ _ Hw) as E2.
      rewrite Et2, Et1, decide_True in E1 by done. rewrite <- E1. destruct (threads k3 t).
      cbn in *. by subst.
    - by rewrite (wk_threads _ _ _ _ _ Hw), Et2, Et1, decide_False. }
  split_and!; [done| | | | | | | | |done].
  - intros O. eapply objects_frame; [exact O| | |intros h; by eapply woken_sub].
    + by rewrite (so_sems _ _ SO).
    + by rewrite (so_mutexes _ _ SO).
  - eapply steady_trans; [|by eapply woken_steady]. apply steady_same; [|by rewrite Em2|done].
    intros s. rewrite Et2, Et1. case_decide as H; [by subst|done].
  - by rewrite (so_current _ _ SO).
  - by rewrite (so_lock _ _ SO).
  - by rewrite (so_nest _ _ SO).
  - by rewrite (so_tick _ _ SO).
  - rewrite (wk_others _ _ _ _ _ Hw), EL by done.
    pose proof (lists_nodup _ _ _ (kw_lists _ _ _ _ _ W) (N_event i) I) as ND.
    rewrite EL, <- Permutation_middle in ND. apply NoDup_cons in ND as [ND _].
    apply not_elem_of_app in ND as [ND1 ND2]. apply (without_middle is_head); [exact ND1|exact ND2].
  - by rewrite (so_events _ _ SO).
Qed.

Lemma filter_notin_cons (t : nat) (xs ts : list nat) : t ∉ ts → filter (.∉ xs) ts = filter (.∉ t :: xs) ts.
Proof.
  clear. induction ts as [|s ts IH]; [done|]. intros [Hne Ht]%not_elem_of_cons.
  destruct (decide (s ∈ xs)).
  - rewrite !filter_cons_False by (rewrite ?elem_of_cons; tauto). by apply IH.
  - rewrite !filter_cons_True by (rewrite ?elem_of_cons; naive_solver). f_equal. by apply IH.
Qed.

Lemma send_loop_ok i : ∀ ts visits k L pre b, kernel_wf ms None 0 k L →
  L (N_event i) = pre ++ (N_tlist <$> ts) → (length ts < visits)%nat →
  ∃ k' L', event_send_loop visits i (default (N_event i) (head (N_tlist <$> ts))) b k =
      Some (b || negb (bool_decide
        ((event_serve (event_bits (events k i)) (threads k) ts).1 = [])), k') ∧
    sent i pre ts k L k' L'.
Proof.
  induction ts as [|t ts IH]; intros visits k L pre b W EL Hv;
    (destruct visits as [|visits]; cbn [length] in Hv; [lia|]); cbn [event_send_loop].
  - exists k, L. cbn [fmap list_fmap head default from_option id]. rewrite decide_True by done.
    split; [by rewrite orb_false_r|]. split; try done; [by apply steady_same|].
    intros t r Hin. by apply elem_of_nil in Hin.
  - cbn [fmap list_fmap head default from_option id] in *.
    rewrite decide_False by done. cbn [list_thread mbind option_bind].
    rewrite (lists_next is_head _ L (N_event i) pre (N_tlist t) (N_tlist <$> ts)) by (apply W || done).
    cbn [event_serve].
    pose proof (lists_nodup _ _ _ (kw_lists _ _ _ _ _ W) (N_event i) I) as ND. rewrite EL in ND.
    apply NoDup_app in ND as (_ & _ & ND). apply NoDup_cons in ND as [Ht ND].
    assert (t ∉ ts) as Ht'.
    { intros Hin. apply Ht. by apply (list_elem_of_fmap_2 N_tlist). }
    rewrite <- event_ready_met. destruct (event_ready _ _ _) eqn:Er.
    + rewrite (event_received_met _ _ _ Er). set (r := Z.land _ _).
      destruct (serve_one k L i t (has (event_info (threads k t)) RT_EVENT_FLAG_CLEAR) r pre
        (N_tlist <$> ts) W EL) as (L1 & W1 & O1 & S1 & Ec1 & El1 & En1 & Ek1 & EL1 & Eb1 & Et1).
      cbn zeta in *. set (k1 := (rt_thread_resume t _).2) in *.
      set (bits := if has (event_info (threads k t)) RT_EVENT_FLAG_CLEAR
        then Z.ldiff (event_bits (events k i)) r else event_bits (events k i)) in *.
      clearbody k1.
      assert (∀ x, event_serve x (threads k1) ts = event_serve x (threads k) ts) as Ese.
      { intros x. apply event_serve_ext. intros s Hs. rewrite Et1, decide_False; [done|].
        by intros ->. }
      pose proof (event_serve_sub bits (threads k) ts) as Hsub.
      destruct (IH visits k1 L1 pre true W1 EL1 ltac:(lia)) as (k2 & L2 & E2 & S2).
      destruct S2 as [V1 V2 V3 V4 V5 V6 V7 V8 V9 V10 V11].
      rewrite Eb1, Ese in *. fold bits in V8, V9, V10, V11 |- *. cbn zeta in V8.
      set (sv := event_serve bits (threads k) ts) in *.
      exists k2, L2. rewrite E2. cbn [fst orb]. rewrite bool_decide_eq_false_2 by done. split.
      { by rewrite orb_true_r. }
      assert (t ∉ sv.1.*1) as Htsv by (intros Hin; by apply Ht', Hsub).
      assert (event_serve (event_bits (events k i)) (threads k) (t :: ts) =
        ((t, r) :: sv.1, sv.2)) as Esv by (cbn [event_serve]; by rewrite <- event_ready_met, Er).
      split; rewrite ?Esv; cbn zeta; cbn [fst snd fmap list_fmap]; try congruence.
      * auto.
      * by eapply steady_trans.
      * rewrite V8, filter_cons_False; [|intros H; apply H; by left]. do 2 f_equal.
        by apply filter_notin_cons.
      * intros s x [[= -> ->]|Hin]%elem_of_cons.
        -- rewrite V11 by done. by rewrite Et1, decide_True.
        -- rewrite (V10 _ _ Hin), Et1, decide_False; [done|]. intros ->. apply Htsv.
           by apply (list_elem_of_fmap_2 fst) in Hin.
      * intros s [Hne Hs]%not_elem_of_cons. by rewrite V11, Et1, decide_False.
    + assert (t ∉ (event_serve (event_bits (events k i)) (threads k) ts).1.*1) as Htsv
        by (intros Hin; by apply Ht', (event_serve_sub _ _ _ _ Hin)).
      destruct (IH visits k L (pre ++ [N_tlist t]) b W) as (k2 & L2 & E2 & S2);
        [by rewrite <- app_assoc|lia|].
      assert (event_serve (event_bits (events k i)) (threads k) (t :: ts) =
        event_serve (event_bits (events k i)) (threads k) ts) as Esv
        by (cbn [event_serve]; by rewrite <- event_ready_met, Er).
      exists k2, L2. split; [done|]. destruct S2. split; rewrite ?Esv; try done. cbn zeta in *.
      rewrite sn_left0, filter_cons_True by done. cbn [fmap list_fmap]. by rewrite <- app_assoc.
Qed.

Lemma members_threads X lo k L h : kernel_wf ms X lo k L → waits h →
  ∃ ts, L h = N_tlist <$> ts.
Proof.
  intros W Hh. pose proof (wait_members _ _ _ _ h W Hh) as Hall.
  induction Hall as [|n ns [s ->] _ [ts ->]]; [by exists []|by exists (s :: ts)].
Qed.

Lemma bits_kept k L i f : kernel_ok k L →
  kept ms idle k L (upd_event i f k) L ∧ steady k L (upd_event i f k) L.
Proof.
  intros K. apply object_kept; try done. eapply objects_frame; [apply K|done..].
Qed.

Lemma event_send_nothing k L i : rt_event_send i 0 k = Some (- RT_ERROR, k).
Proof. done. Qed.

(** Sending: the bits are set, and the waiting threads are served in order. *)
Lemma event_send_ok k L i set ts : kernel_ok k L → set ≠ 0 → L (N_event i) = N_tlist <$> ts →
  let sv := event_serve (Z.lor (event_bits (events k i)) set) (threads k) ts in
  ∃ k' L', rt_event_send i set k = Some (RT_EOK, k') ∧ kept ms idle k L k' L' ∧
    L' (N_event i) = N_tlist <$> filter (.∉ sv.1.*1) ts ∧
    event_bits (events k' i) = sv.2 ∧
    (∀ t r, (t, r) ∈ sv.1 →
      threads k' t = set_stat RT_THREAD_READY (set_event_set r (threads k t))) ∧
    (∀ t, t ∉ sv.1.*1 → threads k' t = threads k t) ∧ (sv.1 ≠ [] → dispatched k' L').
Proof.
  intros K Hset EL sv. unfold rt_event_send. rewrite (proj2 (Z.eqb_neq _ _) Hset).
  set (f := λ e : rt_event, set_event_bits _ _). destruct (bits_kept k L i f K) as [C1 S1].
  pose proof (kept_ok _ _ _ _ K C1) as K1.
  assert (event_bits (events (upd_event i f k) i) = Z.lor (event_bits (events k i)) set) as Eb1
    by (by rewrite events_upd, decide_True).
  assert (threads (upd_event i f k) = threads k) as Et1 by done.
  set (k1 := upd_event i f k) in *. clearbody k1.
  rewrite (lists_isempty is_head _ L), (lists_next_head is_head _ L), EL by (apply K1 || done).
  destruct (send_loop_ok i ts fuel k1 L [] false (ok_wf _ _ K1) EL) as (k2 & L2 & E2 & S2).
  { pose proof (wait_length _ _ _ _ (N_event i) (ok_wf _ _ K1) (ok_objects _ _ K1) I) as Hlen.
    by rewrite EL, length_fmap in Hlen. }
  rewrite Eb1, Et1 in E2. fold sv in E2. cbn [orb] in E2.
  destruct S2 as [V1 V2 V3 V4 V5 V6 V7 V8 V9 V10 V11].
  rewrite Eb1, Et1 in V8, V9, V10, V11. fold sv in V8, V9, V10, V11. cbn zeta in V8.
  assert (kept ms idle k1 L k2 L2) as C2.
  { apply steady_kept_eq; try done. apply V2, K1. }
  assert (kept ms idle k L k2 L2) as C by (by eapply kept_steady).
  destruct ts as [|t ts].
  { cbn in EL. rewrite bool_decide_eq_true_2 by done. cbn [negb].
    exists k1, L. split_and!; [done|done|done|done| |by intros; rewrite Et1|done].
    intros t r Hin. by apply elem_of_nil in Hin. }
  rewrite bool_decide_eq_false_2 by done. cbn [negb]. rewrite E2. cbn [mbind option_bind].
  destruct (bool_decide_reflect (sv.1 = [])) as [Hnil|Hnil]; cbn [negb mbind option_bind].
  - exists k2, L2. split_and!; [done|done|done|done|done|done|done].
  - destruct (then_schedule _ _ _ _ C) as (k3 & -> & C3 & D & R). cbn [mbind option_bind].
    exists k3, L2. rewrite (resched_threads _ _ R), (resched_events _ _ R).
    by split_and!.
Qed.

(** Ending the wait of all threads *)
Lemma resume_all_ok h rounds : waits h → ∀ k L, kernel_ok k L → (length (L h) < rounds)%nat →
  ∃ k' L', resume_all rounds h k = Some k' ∧ kept ms idle k L k' L' ∧ steady k L k' L' ∧
    L' h = [] ∧ same_objects k k' ∧ (∀ h', waits h' → h' ≠ h → L' h' = L h') ∧
    (∀ t, N_tlist t ∈ L h → stat (threads k' t) = RT_THREAD_READY ∧
      error (threads k' t) = - RT_ERROR) ∧
    (∀ t, N_tlist t ∉ L h → threads k' t = threads k t).
Proof.
  intros Hh. assert (is_head h) as Hh' by (by destruct h).
  induction rounds as [|rounds IH]; intros k L K Hlen; [lia|]. cbn [resume_all].
  rewrite (lists_isempty is_head _ L) by (apply K || done).
  destruct (L h) as [|n rest] eqn:EL.
  { rewrite bool_decide_eq_true_2 by done. exists k, L. split_and!; try done.
    - apply steady_kept; [done|apply K|by apply steady_same|done|apply K].
    - by apply steady_same.
    - intros t Hin. by apply elem_of_nil in Hin. }
  rewrite bool_decide_eq_false_2 by done.
  destruct (first_waiting None 0 k L h n rest (ok_wf _ _ K) Hh EL) as (s & -> & Hs & -> & _).
  cbn [mbind option_bind].
  destruct (error_kept k L s (- RT_ERROR) K) as [C1 Es1].
  pose proof (kept_ok _ _ _ _ K C1) as K1. pose proof (threads_upd s (set_error (- RT_ERROR)) k) as Et1.
  set (k1 := upd_thread s (set_error (- RT_ERROR)) k) in *.
  assert (steady k L k1 L ∧ same_objects k k1) as [S1 SO1] by (split; [by apply steady_same|by split]).
  clearbody k1.
  destruct (serve_kept k1 L h (N_tlist s) rest K1 Hh EL) as
    (s' & k2 & L2 & [= <-] & Hs1 & Er & C2 & Hw & SO2 & EL2 & Ho2).
  pose proof (woken_steady _ _ _ _ _ Hw) as S2.
  unfold rt_ipc_list_resume in Er.
  rewrite (lists_next_head is_head _ L), EL in Er by (apply K1 || done).
  cbn [head default from_option id list_thread mbind option_bind] in Er.
  injection Er as Er. rewrite Er.
  destruct (IH k2 L2 (kept_ok _ _ _ _ K1 C2)) as (k3 & L3 & E3 & C3 & S3 & EL3 & SO3 & Ho3 & Ha3 & Hb3).
  { rewrite EL2. cbn in Hlen. lia. }
  exists k3, L3. rewrite EL2 in Ha3, Hb3.
  pose proof (lists_nodup _ _ _ (kw_lists _ _ _ _ _ (ok_wf _ _ K)) h Hh') as ND. rewrite EL in ND.
  apply NoDup_cons in ND as [Hsr _].
  split_and!; try done.
  - eapply kept_steady; [exact C1| |by eapply steady_trans]. by eapply kept_steady.
  - eapply steady_trans; [exact S1|by eapply steady_trans].
  - etransitivity; [exact SO1|by etransitivity].
  - intros h' Hw' Hne. by rewrite Ho3, Ho2.
  - intros t [[= ->]|Hin]%elem_of_cons; [|by apply Ha3]. rewrite Hb3 by done.
    split; [apply Hw|]. pose proof (wk_thread _ _ _ _ _ Hw) as E1.
    apply (f_equal error) in E1. rewrite Et1, decide_True in E1 by done. exact E1.
  - intros t [Hne Hin]%not_elem_of_cons. rewrite Hb3 by done.
    rewrite (wk_threads _ _ _ _ _ Hw), Et1, decide_False by congruence. done.
Qed.

(** Receiving *)
Lemma event_recv_now k L i t set option timeout : kernel_ok k L → set ≠ 0 →
  rt_current_thread k = Some t → event_ready (event_bits (events k i)) set option = true →
  ∃ k', rt_event_recv i set option timeout k =
      Some (Received RT_EOK (Some (Z.land (event_bits (events k i)) set)) k') ∧
    kept ms idle k L k' L ∧
    event_bits (events k' i) = (if has option RT_EVENT_FLAG_CLEAR
      then Z.ldiff (event_bits (events k i)) set else event_bits (events k i)).
Proof.
  intros K Hset Hc Her. unfold rt_event_recv.
  rewrite (ok_nest _ _ K), (proj2 (Z.eqb_neq _ _) Hset), Hc. cbn [Z.eqb mbind option_bind].
  destruct (no_error_ok k L t K) as [K1 C1].
  assert (events (upd_thread t (set_error RT_EOK) k) = events k ∧
    error (threads (upd_thread t (set_error RT_EOK) k) t) = RT_EOK) as [Ee Er]
    by (by rewrite threads_upd, decide_True).
  set (k1 := upd_thread t (set_error RT_EOK) k) in *. clearbody k1. rewrite Ee, Her.
  destruct (has option RT_EVENT_FLAG_CLEAR).
  - set (f := λ e : rt_event, set_event_bits _ _). exists (upd_event i f k1).
    destruct (bits_kept k1 L i f K1) as [C2 S2]. split_and!.
    + change (threads (upd_event i f k1)) with (threads k1). by rewrite Er.
    + by eapply kept_steady.
    + rewrite events_upd, decide_True by done. unfold f. cbn. by rewrite Ee.
  - exists k1. by rewrite Er, Ee.
Qed.

Lemma event_recv_nowait k L i t set option : kernel_ok k L → set ≠ 0 →
  rt_current_thread k = Some t → event_ready (event_bits (events k i)) set option = false →
  ∃ k', rt_event_recv i set option 0 k = Some (Received (- RT_ETIMEOUT) None k') ∧
    kept ms idle k L k' L ∧ events k' = events k.
Proof.
  intros K Hset Hc Her. unfold rt_event_recv.
  rewrite (ok_nest _ _ K), (proj2 (Z.eqb_neq _ _) Hset), Hc. cbn [Z.eqb mbind option_bind].
  destruct (no_error_ok k L t K) as [K1 C1].
  assert (events (upd_thread t (set_error RT_EOK) k) = events k) as Ee by done.
  set (k1 := upd_thread t (set_error RT_EOK) k) in *. clearbody k1. rewrite Ee, Her.
  destruct (error_kept k1 L t (- RT_ETIMEOUT) K1) as [C2 Es2].
  eexists. rewrite threads_upd, decide_True by done. split; [done|]. split; [|done].
  eapply kept_steady; [exact C1|exact C2|by apply steady_same].
Qed.

Lemma event_recv_wait k L i t set option timeout : kernel_ok k L → set ≠ 0 →
  may_wait idle k t → event_ready (event_bits (events k i)) set option = false →
  timeout ≠ 0 → timeout < RT_TICK_MAX / 2 → TM_thread t ∈ ms →
  event_flag (events k i) = RT_IPC_FLAG_FIFO ∨ event_flag (events k i) = RT_IPC_FLAG_PRIO →
  ∃ k1 k' L', rt_event_recv i set option timeout k = Some (Awaits k') ∧
    kept ms idle k L k' L' ∧
    waiting (N_event i) t (event_flag (events k i)) timeout k1 L k' L' ∧
    (∀ s, threads k1 s = if decide (s = t) then
      set_event_info option (set_event_set set (set_error RT_EOK (threads k t))) else threads k s).
Proof.
  intros K Hset M Her Hn0 Htime Hms Hflag. pose proof M as (Hc & Hi & Hl). unfold rt_event_recv.
  rewrite (ok_nest _ _ K), (proj2 (Z.eqb_neq _ _) Hset), Hc. cbn [Z.eqb mbind option_bind].
  destruct (no_error_ok k L t K) as [K1 C1].
  pose proof (threads_upd t (set_error RT_EOK) k) as Et1.
  assert (events (upd_thread t (set_error RT_EOK) k) = events k ∧
    rt_current_thread (upd_thread t (set_error RT_EOK) k) = Some t ∧
    rt_scheduler_lock_nest (upd_thread t (set_error RT_EOK) k) = 0) as (Ee & Hc1 & Hl1) by done.
  set (k1 := upd_thread t (set_error RT_EOK) k) in *. clearbody k1. rewrite Ee, Her.
  rewrite (proj2 (Z.eqb_neq _ _) Hn0).
  pose proof (threads_upd t (λ th, set_event_info option (set_event_set set th)) k1) as Et2.
  set (k2 := upd_thread t (λ th, set_event_info option (set_event_set set th)) k1) in *.
  assert (∀ s, stat (threads k2 s) = stat (threads k1 s)) as Es2.
  { intros s. rewrite Et2. case_decide as H; [by subst|done]. }
  assert (kept ms idle k1 L k2 L) as C2.
  { apply steady_kept; [done|apply change_wf; [by intros th|apply K1]|by apply steady_same|by split|].
    by eapply objects_frame; [apply K1|..]. }
  pose proof (kept_ok _ _ _ _ K1 C2) as K2.
  assert (events k2 = events k ∧ may_wait idle k2 t) as [Ee2 M2] by done. clearbody k2.
  destruct (wait_wf k2 L (N_event i) t (event_flag (events k i)) timeout) as (k' & L' & E & Wt);
    [apply K2..|done|done|done|done|done|]. rewrite Ee2, E. cbn [mbind option_bind].
  exists k2, k', L'. split_and!; [done| |done|].
  - eapply kept_after; [exact C1| |].
    + intros s. rewrite Et1. case_decide as H; [by subst|done].
    + eapply kept_after; [exact C2|exact Es2|apply Wt].
  - intros s. rewrite Et2, !Et1. destruct (decide (s = t)); [|done]. by rewrite decide_True.
Qed.

(** Resetting an object *)
Lemma sem_reset_ok k L i v : kernel_ok k L → word32 v →
  ∃ k' L', rt_sem_reset i v k = Some k' ∧ kept ms idle k L k' L' ∧ dispatched k' L' ∧
    L' (N_sem i) = [] ∧ sem_value (sems k' i) = u16 v ∧
    ∀ t, N_tlist t ∈ L (N_sem i) → stat (threads k' t) = RT_THREAD_READY ∧
      error (threads k' t) = - RT_ERROR.
Proof.
  intros K Hv. unfold rt_sem_reset, rt_ipc_list_resume_all.
  destruct (resume_all_ok (N_sem i) fuel I k L K) as (k1 & L1 & -> & C1 & S1 & E1 & SO1 & _ & Hw & _).
  { eapply wait_length; [apply K|apply K|done]. }
  cbn [mbind option_bind]. pose proof (kept_ok _ _ _ _ K C1) as K1.
  assert (0 ≤ u16 v < 65536) as Hr by (apply (wrap_fits 16); lia).
  assert (kept ms idle k1 L1 (upd_sem i (set_sem_value (u16 v)) k1) L1) as C2
    by (by apply sem_value_kept).
  destruct (then_schedule k L (upd_sem i (set_sem_value (u16 v)) k1) L1) as (k2 & -> & C & D & R).
  { eapply kept_steady; [exact C1|exact C2|by apply steady_same]. }
  exists k2, L1. rewrite (resched_threads _ _ R), (resched_sems _ _ R), sems_upd.
  by rewrite decide_True.
Qed.

Lemma event_reset_ok k L i : kernel_ok k L →
  ∃ k' L', rt_event_reset i k = Some k' ∧ kept ms idle k L k' L' ∧ dispatched k' L' ∧
    L' (N_event i) = [] ∧ event_bits (events k' i) = 0.
Proof.
  intros K. unfold rt_event_reset, rt_ipc_list_resume_all.
  destruct (resume_all_ok (N_event i) fuel I k L K) as (k1 & L1 & -> & C1 & S1 & E1 & SO1 & _).
  { eapply wait_length; [apply K|apply K|done]. }
  cbn [mbind option_bind]. pose proof (kept_ok _ _ _ _ K C1) as K1.
  destruct (bits_kept k1 L1 i (set_event_bits 0) K1) as [C2 S2].
  destruct (then_schedule k L (upd_event i (set_event_bits 0) k1) L1) as (k2 & -> & C & D & R).
  { by eapply kept_steady. }
  exists k2, L1. split_and!; try done.
  by rewrite (resched_events _ _ R), events_upd, decide_True.
Qed.
End invariant.

(** ** Semaphores, as a number and a queue *)

(** Where a thread joins a queue *)
Fixpoint queue_insert (pr : nat → Z) (t : nat) (q : list nat) : list nat :=
  match q with
  | [] => [t]
  | s :: q' => if pr t <? pr s then t :: q else s :: queue_insert pr t q'
  end.

Definition enqueue (pr : nat → Z) (flag : Z) (t : nat) (q : list nat) : list nat :=
  if flag =? RT_IPC_FLAG_FIFO then q ++ [t] else queue_insert pr t q.

Lemma joined_queue pr flag t q : joined pr t flag (N_tlist <$> q) = N_tlist <$> enqueue pr flag t q.
Proof.
  unfold joined, enqueue. case_match; [by rewrite fmap_app|].
  induction q as [|s q IH]; [done|]. cbn. case_match; [done|]. by rewrite IH.
Qed.

Lemma enqueue_ext pr pr' flag t q : (∀ s, s = t ∨ s ∈ q → pr' s = pr s) →
  enqueue pr' flag t q = enqueue pr flag t q.
Proof.
  intros E. unfold enqueue. case_match; [done|]. induction q as [|s q IH]; [done|]. cbn.
  rewrite !E by set_solver. case_match; [done|]. rewrite IH; [done|]. set_solver.
Qed.

Inductive SEM_OP := Sem_take (t : nat) (time : Z) | Sem_release | Sem_reset (v : Z).

(** The result ([None]: the thread waits), the threads that go on, and the new
    number and queue *)
Definition sem_abs (pr : nat → Z) (flag : Z) (op : SEM_OP) (s : Z * list nat)
  : option Z * list nat * (Z * list nat) :=
  match op, s with
  | Sem_take t time, (v, q) =>
      if 0 <? v then (Some RT_EOK, [], (v - 1, q))
      else if time =? 0 then (Some (- RT_ETIMEOUT), [], (v, q))
      else (None, [], (v, enqueue pr flag t q))
  | Sem_release, (v, []) => (Some RT_EOK, [], (v + 1, []))
  | Sem_release, (v, t :: q) => (Some RT_EOK, [t], (v, q))
  | Sem_reset v, (_, q) => (Some RT_EOK, q, (u16 v, []))
  end.

Definition call_result (c : CALL) : option Z * KERNEL :=
  match c with Returns r k => (Some r, k) | Waits k => (None, k) end.

(** ** Mutexes, as an owner, a count and a queue *)

Inductive MUTEX_OP := Mutex_take (time : Z) | Mutex_release.

(** The owner with the number of times it holds the mutex and the priority it
    had; the queue *)
Abbreviation mutex_state := (option (nat * Z * Z) * list nat)%type.

(** [t] calls, with the priorities [pr]. *)
Definition mutex_abs (pr : nat → Z) (flag : Z) (t : nat) (op : MUTEX_OP) (s : mutex_state)
  : option Z * list nat * mutex_state :=
  match op, s with
  | Mutex_take _, (None, q) => (Some RT_EOK, [], (Some (t, 1, pr t), q))
  | Mutex_take time, (Some (o, n, p), q) =>
      if decide (o = t) then (Some RT_EOK, [], (Some (o, n + 1, p), q))
      else if time =? 0 then (Some (- RT_ETIMEOUT), [], s)
      else
        let pr s := if decide (s = o) then Z.min (pr t) (pr o) else pr s in
        (None, [], (Some (o, n, p), enqueue pr flag t q))
  | Mutex_release, (None, q) => (Some (- RT_ERROR), [], s)
  | Mutex_release, (Some (o, n, p), q) =>
      if decide (o = t) then
        if n =? 1 then
          match q with
          | [] => (Some RT_EOK, [], (None, []))
          | w :: q => (Some RT_EOK, [w], (Some (w, 1, pr w), q))
          end
        else (Some RT_EOK, [], (Some (o, n - 1, p), q))
      else (Some (- RT_ERROR), [], s)
  end.

Section objects.
Context {F : Fuel}.
Context (ms : list TIMER) (idle : nat).
Hypothesis enough_fuel : (length ms < fuel)%nat.
Implicit Types (k : KERNEL) (L : NODE → list NODE) (t : nat).

Definition sem_call (i : nat) (op : SEM_OP) (k : KERNEL) : option (option Z * KERNEL) :=
  match op with
  | Sem_take _ time => call_result <$> rt_sem_take i time k
  | Sem_release => (Some RT_EOK,.) <$> rt_sem_release i k
  | Sem_reset v => (Some RT_EOK,.) <$> rt_sem_reset i v k
  end.

(** Who calls, and what the implementation has room for *)
Definition sem_allowed (i : nat) (op : SEM_OP) (k : KERNEL) : Prop :=
  match op with
  | Sem_take t time =>
      (sem_flag (sems k i) = RT_IPC_FLAG_FIFO ∨ sem_flag (sems k i) = RT_IPC_FLAG_PRIO) ∧
      may_wait idle k t ∧ time < RT_TICK_MAX / 2 ∧ TM_thread t ∈ ms
  | Sem_release => sem_value (sems k i) < 65535
  | Sem_reset v => word32 v
  end.

Definition semaphore (i : nat) k L (s : Z * list nat) : Prop :=
  sem_value (sems k i) = s.1 ∧ L (N_sem i) = N_tlist <$> s.2.

(** C12 (refinement). A semaphore is a number and a queue: every call does to
    them what [sem_abs] says - a token is taken or handed on, never lost and
    never made up, the queue is served from its head, a thread that finds no
    token joins the queue at its place - and keeps the invariant of the kernel. *)
Theorem semaphores_refine i op k L s r woken s' : kernel_ok ms idle k L → semaphore i k L s →
  sem_allowed i op k →
  sem_abs (λ t, current_priority (threads k t)) (sem_flag (sems k i)) op s = (r, woken, s') →
  ∃ k' L', sem_call i op k = Some (r, k') ∧ kernel_ok ms idle k' L' ∧ semaphore i k' L' s' ∧
    (∀ t, t ∈ woken → stat (threads k t) = RT_THREAD_SUSPEND ∧
      stat (threads k' t) = RT_THREAD_READY ∧
      error (threads k' t) = match op with Sem_reset _ => - RT_ERROR | _ => error (threads k t) end).
Proof.
  destruct s as [v q]. intros K [Ev Eq] Ha E. cbn [fst snd] in Ev, Eq.
  pose proof (ob_sem _ _ _ (ok_objects _ _ _ _ K) i) as Hr.
  destruct op as [t time| |v']; cbn [sem_abs sem_call sem_allowed] in *.
  - destruct Ha as (Hf & M & Ht & Hms). destruct (Z.ltb_spec 0 v) as [H0|H0].
    { injection E as <- <- <-. rewrite <- Ev in H0.
      destruct (sem_take_free ms idle enough_fuel k L i time K H0) as [-> C].
      eexists _, L. split; [done|]. split_and!; [by eapply kept_ok| |intros s Hs; by apply elem_of_nil in Hs].
      split; [|done]. rewrite sems_upd, decide_True by done. cbn. by rewrite Ev. }
    assert (v = 0) as -> by lia. destruct (Z.eqb_spec time 0) as [->|Hn0].
    { injection E as <- <- <-. exists k, L. unfold rt_sem_take. rewrite Ev.
      split_and!; [done|done|done|intros s Hs; by apply elem_of_nil in Hs]. }
    injection E as <- <- <-.
    destruct (sem_take_wait ms idle enough_fuel k L i t time) as (k' & L' & -> & C & Wt); try done.
    exists k', L'. split; [done|].
    split_and!; [by eapply kept_ok| |intros s Hs; by apply elem_of_nil in Hs]. split; cbn [fst snd].
    + by rewrite (wt_sems _ _ _ _ _ _ _ _ _ _ Wt).
    + rewrite (wt_joined _ _ _ _ _ _ _ _ _ _ Wt), Eq, joined_queue. f_equal. apply enqueue_ext.
      intros s _. rewrite threads_upd. case_decide as H; [by subst|done].
  - destruct q as [|t q]; injection E as <- <- <-.
    + destruct (sem_release_free ms idle enough_fuel k L i K Eq Ha) as [-> C].
      eexists _, L. split; [done|].
      split_and!; [by eapply kept_ok| |intros s Hs; by apply elem_of_nil in Hs].
      split; [|done]. rewrite sems_upd, decide_True by done. cbn. by rewrite Ev.
    + destruct (sem_release_serve ms idle k L i _ _ K Eq) as
        (s & k' & L' & [= <-] & Hs & -> & C & _ & EL & Et & Es).
      exists k', L'. split; [done|]. split_and!; [by eapply kept_ok|by rewrite <- Ev, <- Es|].
      intros s [->|Hs']%elem_of_cons; [by rewrite Et|by apply elem_of_nil in Hs'].
  - injection E as <- <- <-.
    destruct (sem_reset_ok ms idle enough_fuel k L i v' K Ha) as (k' & L' & -> & C & _ & EL & Es & Hw).
    exists k', L'. split; [done|]. split_and!; [by eapply kept_ok|by split|].
    intros t Ht. assert (N_tlist t ∈ L (N_sem i)) as Hin.
    { rewrite Eq. by apply (list_elem_of_fmap_2 N_tlist). }
    split; [|by apply Hw]. by apply (kw_member _ _ _ _ _ (ok_wf _ _ _ _ K) (N_sem i) _ I Hin).
Qed.

Definition mutex_call (i : nat) (op : MUTEX_OP) (k : KERNEL) : option (option Z * KERNEL) :=
  match op with
  | Mutex_take time => call_result <$> rt_mutex_take i time k
  | Mutex_release => (λ x, (Some x.1, x.2)) <$> rt_mutex_release i k
  end.

Definition mutex_allowed (i : nat) (op : MUTEX_OP) (t : nat) (k : KERNEL) : Prop :=
  rt_current_thread k = Some t ∧
  match op with
  | Mutex_take time =>
      (mutex_flag (mutexes k i) = RT_IPC_FLAG_FIFO ∨ mutex_flag (mutexes k i) = RT_IPC_FLAG_PRIO) ∧
      hold (mutexes k i) < 255 ∧
      (time ≠ 0 → may_wait idle k t ∧ time < RT_TICK_MAX / 2 ∧ TM_thread t ∈ ms)
  | Mutex_release => True
  end.

Definition mutex (i : nat) k L (s : mutex_state) : Prop :=
  L (N_mutex i) = N_tlist <$> s.2 ∧
  match s.1 with
  | None => mutex_free (mutexes k i)
  | Some (t, n, p) => mutex_held (mutexes k i) t ∧ hold (mutexes k i) = n ∧
      original_priority (mutexes k i) = p
  end.

(** What [mutex_abs] promises of a call *)
Definition mutex_refined (i : nat) (op : MUTEX_OP) (t : nat) k L (s : mutex_state)
  (out : option Z * list nat * mutex_state) : Prop :=
  ∃ k' L', mutex_call i op k = Some (out.1.1, k') ∧ kernel_ok ms idle k' L' ∧
    mutex i k' L' out.2 ∧
    (∀ w, w ∈ out.1.2 → stat (threads k w) = RT_THREAD_SUSPEND ∧
      threads k' w = set_stat RT_THREAD_READY (threads k w)) ∧
    match op, out.1.1, s.1 with
    | Mutex_take _, None, Some (o, _, _) => current_priority (threads k' o) =
        Z.min (current_priority (threads k t)) (current_priority (threads k o))
    | Mutex_release, _, Some (o, 1, p) => o = t → current_priority (threads k' o) = p
    | _, _, _ => True
    end.

Lemma no_one k k' : ∀ w, w ∈ ([] : list nat) → stat (threads k w) = RT_THREAD_SUSPEND ∧
  threads k' w = set_stat RT_THREAD_READY (threads k w).
Proof. intros w Hw. by apply elem_of_nil in Hw. Qed.

Lemma mutex_take_refined i time t k L s : kernel_ok ms idle k L → mutex i k L s →
  mutex_allowed i (Mutex_take time) t k →
  mutex_refined i (Mutex_take time) t k L s
    (mutex_abs (λ t, current_priority (threads k t)) (mutex_flag (mutexes k i)) t
      (Mutex_take time) s).
Proof.
  destruct s as [[[[o n] p]|] q]; intros K [Eq Es] (Hc & Hf & Hh & Hw); cbn [fst snd] in Eq, Es;
    unfold mutex_refined; cbn [mutex_abs mutex_call fst snd].
  2:{ destruct (mutex_take_free ms idle k L i t time K Hc Es) as (k' & -> & C & H1 & H2 & H3).
      exists k', L. split_and!; [done|by eapply kept_ok|by split|by apply no_one|done]. }
  destruct Es as (Ho & <- & <-). destruct (decide (o = t)) as [->|Hne].
  { destruct (mutex_take_again ms idle enough_fuel k L i t time K Hc Ho Hh) as (k' & -> & C & E).
    exists k', L. split_and!; [done|by eapply kept_ok| |by apply no_one|done].
    split; [done|]. cbn. rewrite E. split_and!; try done. destruct Ho as (H1 & H2 & H3 & H4).
    split_and!; cbn; try done; lia. }
  destruct (Z.eqb_spec time 0) as [->|Hn0].
  { destruct (mutex_take_nowait ms idle k L i t o K Hc Ho Hne) as [-> C].
    eexists _, L. split_and!; [done|by eapply kept_ok|by split|by apply no_one|done]. }
  destruct (Hw Hn0) as (M & Ht & Hms).
  destruct (mutex_take_wait ms idle enough_fuel k L i t o time) as
    (k1 & L1 & k' & L' & -> & C & Wt & EL1 & Em1 & Ept & Eps & Epo); try done.
  pose proof (wt_mutexes _ _ _ _ _ _ _ _ _ _ Wt) as Em. rewrite Em1 in Em.
  exists k', L'. split_and!; [done|by eapply kept_ok| |by apply no_one|].
  - split; cbn [fst snd]; [|by rewrite Em].
    rewrite (wt_joined _ _ _ _ _ _ _ _ _ _ Wt), EL1, Eq, joined_queue. f_equal. apply enqueue_ext.
    intros s _. case_decide as H; [by subst|by apply Eps].
  - by rewrite (wt_threads _ _ _ _ _ _ _ _ _ _ Wt).
Qed.

Lemma mutex_release_refined i t k L s : kernel_ok ms idle k L → mutex i k L s →
  rt_current_thread k = Some t →
  mutex_refined i Mutex_release t k L s
    (mutex_abs (λ t, current_priority (threads k t)) (mutex_flag (mutexes k i)) t Mutex_release s).
Proof.
  destruct s as [[[[o n] p]|] q]; intros K [Eq Es] Hc; cbn [fst snd] in Eq, Es;
    unfold mutex_refined; cbn [mutex_abs mutex_call fst snd].
  2:{ destruct Es as (H1 & H2 & H3).
      destruct (mutex_release_other ms idle k L i t K Hc) as [-> C]; [by rewrite H2|].
      eexists _, L. split_and!; [done|by eapply kept_ok|by split|by apply no_one|done]. }
  destruct Es as (Ho & <- & <-). pose proof Ho as (H1 & H2 & H3 & H4).
  destruct (decide (o = t)) as [->|Hne].
  2:{ destruct (mutex_release_other ms idle k L i t K Hc) as [-> C]; [rewrite H2; congruence|].
      eexists _, L. split_and!; [done|by eapply kept_ok|by split|by apply no_one|by repeat case_match]. }
  destruct (Z.eqb_spec (hold (mutexes k i)) 1) as [E1|E1].
  - rewrite E1. destruct (mutex_release_last ms idle k L i t K Hc Ho E1) as
      (k' & L' & -> & C & Ep & Hq). destruct q as [|w q]; rewrite Eq in Hq; cbn in Hq.
    + destruct Hq as (Hf & _ & EL). exists k', L'.
      split_and!; [done|by eapply kept_ok|by split|by apply no_one|done].
    + destruct Hq as (w' & [= <-] & Hh & Hh1 & Hop & Et & EL & _). exists k', L'.
      split_and!; [done|by eapply kept_ok|by split| |done].
      intros s [->|Hs]%elem_of_cons; [|by apply elem_of_nil in Hs]. split; [|done].
      apply (kw_member _ _ _ _ _ (ok_wf _ _ _ _ K) (N_mutex i) (N_tlist w) I). rewrite Eq. by left.
  - destruct (mutex_release_again ms idle enough_fuel k L i t K Hc Ho) as (k' & -> & C & E); [lia|].
    exists k', L. split_and!; [done|by eapply kept_ok| |by apply no_one|].
    + split; [done|]. cbn. rewrite E. split_and!; try done. unfold mutex_held. cbn.
      split_and!; try done; lia.
    + by repeat case_match.
Qed.

(** C11 (refinement). A mutex is an owner, a count and a queue: every call does
    to them what [mutex_abs] says - one owner at a time, which alone can release
    it and takes it again without waiting, and whose last release hands it to the
    head of the queue - and keeps the invariant of the kernel.  The priority of
    an owner is raised to that of a thread that begins to wait for it, and set
    back to the one it had by the last release. *)
Theorem mutexes_refine i op t k L s : kernel_ok ms idle k L → mutex i k L s →
  mutex_allowed i op t k →
  mutex_refined i op t k L s
    (mutex_abs (λ t, current_priority (threads k t)) (mutex_flag (mutexes k i)) t op s).
Proof.
  intros K Hs Ha. destruct op as [time|]; [by apply mutex_take_refined|].
  apply mutex_release_refined; [done|done|apply Ha].
Qed.

(** C14 (functional). Sending an event serves the waiting threads from the head of
    the list: those whose condition holds when it is their turn go on, and
    [rt_event_recv] returns to them what [event_serve] says; a thread with
    RT_EVENT_FLAG_CLEAR takes its bits from those behind it; the others wait on
    in the same order. *)
Theorem events_serve_in_order i set ts k L : kernel_ok ms idle k L → set ≠ 0 →
  L (N_event i) = N_tlist <$> ts →
  let sv := event_serve (Z.lor (event_bits (events k i)) set) (threads k) ts in
  ∃ k' L', rt_event_send i set k = Some (RT_EOK, k') ∧ kernel_ok ms idle k' L' ∧
    event_bits (events k' i) = sv.2 ∧ L' (N_event i) = N_tlist <$> filter (.∉ sv.1.*1) ts ∧
    (∀ t r, (t, r) ∈ sv.1 → stat (threads k' t) = RT_THREAD_READY ∧
      (error (threads k t) = RT_EOK → event_woken t k' = (RT_EOK, Some r))) ∧
    (∀ t, t ∉ sv.1.*1 → threads k' t = threads k t) ∧ (sv.1 ≠ [] → dispatched k' L').
Proof.
  intros K Hset EL sv.
  destruct (event_send_ok ms idle enough_fuel k L i set ts K Hset EL) as
    (k' & L' & E & C & EL' & Eb & Hs & Hu & D). fold sv in Eb, EL', Hs, Hu, D.
  exists k', L'. split_and!; [done|by eapply kept_ok|done|done| |done|done].
  intros t r Hin. unfold event_woken. rewrite (Hs t r Hin). split; [done|].
  intros E0. cbn [error set_stat set_event_set event_set]. by rewrite E0.
Qed.
End objects.
