(* ===== verification/Run.v ===== *)
(** * The kernel as a whole

    The calls of threads, and the ticks between them, in any order: a call is
    made by the running thread, and the result of a call is dropped.  The
    invariant of the kernel holds after each of them, so that no call follows a
    bad pointer, and a thread that waits with a time goes on in time.
    [rtthread_startup] is how the kernel comes to life. *)
From stdpp Require Import base functions list sets.
From Stdlib Require Import ZArith Lia.
From S2P Require Import Prelude World Rtlist Kernel Sched Timer Thread Tick Ipc.

(** ** The operations *)

Inductive KOP :=
| K_startup (t : nat) | K_yield | K_sleep (tick : Z) | K_exit
| K_suspend (t : nat) | K_resume (t : nat) | K_priority (t : nat) (p : Z)
| K_enter_critical | K_exit_critical
| K_sem_take (i : nat) (time : Z) | K_sem_release (i : nat) | K_sem_reset (i : nat) (v : Z)
| K_mutex_take (i : nat) (time : Z) | K_mutex_release (i : nat)
| K_event_recv (i : nat) (set option timeout : Z) | K_event_send (i : nat) (set : Z)
| K_event_reset (i : nat)
| K_tick.

Definition call_kernel (c : CALL) : KERNEL :=
  match c with Returns _ k | Waits k => k end.
Definition recv_kernel (c : RECV) : KERNEL :=
  match c with Received _ _ k | Awaits k => k end.

Section run.
Context {F : Fuel} (user_timeout : nat → KERNEL → option KERNEL).

Definition kop_step (op : KOP) (k : KERNEL) : option KERNEL :=
  match op with
  | K_startup t => rt_thread_startup t k
  | K_yield => rt_thread_yield k
  | K_sleep tick => rt_thread_sleep tick k
  | K_exit => rt_thread_exit k
  | K_suspend t => Some (rt_thread_suspend t k).2
  | K_resume t => Some (rt_thread_resume t k).2
  | K_priority t p => Some (rt_thread_change_priority t p k)
  | K_enter_critical => Some (rt_enter_critical k)
  | K_exit_critical => rt_exit_critical k
  | K_sem_take i time => call_kernel <$> rt_sem_take i time k
  | K_sem_release i => rt_sem_release i k
  | K_sem_reset i v => rt_sem_reset i v k
  | K_mutex_take i time => call_kernel <$> rt_mutex_take i time k
  | K_mutex_release i => snd <$> rt_mutex_release i k
  | K_event_recv i set option timeout => recv_kernel <$> rt_event_recv i set option timeout k
  | K_event_send i set => snd <$> rt_event_send i set k
  | K_event_reset i => rt_event_reset i k
  | K_tick => rt_hw_timer_handler user_timeout k
  end.

Fixpoint kop_run (ops : list KOP) (k : KERNEL) : option KERNEL :=
  match ops with
  | [] => Some k
  | op :: ops => k ← kop_step op k; kop_run ops k
  end.

(** ** What a caller has to keep to *)

(** [ms]: the timers there are; [idle]: the idle thread *)
Context (ms : list TIMER) (idle : nat).

(** Waiting with the time [time]: by a thread that is not the idle thread and
    has not locked the scheduler *)
Definition wait_allowed (time : Z) (k : KERNEL) : Prop :=
  time < RT_TICK_MAX / 2 ∧ ∃ t, may_wait idle k t ∧ TM_thread t ∈ ms.

Definition flag_allowed (flag : Z) : Prop := flag = RT_IPC_FLAG_FIFO ∨ flag = RT_IPC_FLAG_PRIO.

Definition allowed (op : KOP) (k : KERNEL) : Prop :=
  match op with
  | K_startup t => stat (threads k t) = RT_THREAD_INIT
  | K_sleep tick => 0 ≤ tick ∧ wait_allowed tick k
  | K_exit => ∃ t, may_wait idle k t
  | K_suspend t => t ≠ idle ∧ rt_current_thread k ≠ Some t
  | K_priority t p => valid_priority p
  | K_sem_take i time =>
      flag_allowed (sem_flag (sems k i)) ∧
      (sem_value (sems k i) = 0 → time ≠ 0 → wait_allowed time k)
  | K_sem_release i => sem_value (sems k i) < 65535
  | K_sem_reset i v => word32 v
  | K_mutex_take i time =>
      flag_allowed (mutex_flag (mutexes k i)) ∧ hold (mutexes k i) < 255 ∧
      (time ≠ 0 → mutex_value (mutexes k i) = 0 → owner (mutexes k i) ≠ rt_current_thread k →
       wait_allowed time k)
  | K_event_recv i set option timeout =>
      flag_allowed (event_flag (events k i)) ∧
      (event_ready (event_bits (events k i)) set option = false → timeout ≠ 0 →
       wait_allowed timeout k)
  | _ => True
  end.

Fixpoint allowed_run (ops : list KOP) (k : KERNEL) : Prop :=
  match ops with
  | [] => True
  | op :: ops => allowed op k ∧ ∀ k', kop_step op k = Some k' → allowed_run ops k'
  end.

(** The ticks in a sequence of operations *)
Definition op_ticks (op : KOP) : Z := match op with K_tick => 1 | _ => 0 end.
Definition ticks (ops : list KOP) : Z := foldr (λ op n, op_ticks op + n) 0 ops.

Lemma ticks_nonneg ops : 0 ≤ ticks ops.
Proof.
  induction ops as [|op ops IH]; [done|]. change (0 ≤ op_ticks op + ticks ops).
  assert (0 ≤ op_ticks op) by (by destruct op). lia.
Qed.

(** ** One operation *)

Hypothesis enough_fuel : (length ms < fuel)%nat.
Hypothesis user_gentle : ∀ i k L, kernel_wf ms (Some (TM_user i)) (-1) k L → alive idle k →
  ∃ k' L', user_timeout i k = Some k' ∧ gentle ms idle (Some (TM_user i)) k L k' L'.
Implicit Types (k : KERNEL) (L : NODE → list NODE) (t : nat).

(** After [n] ticks, a thread that waits has been made ready or waits on for the
    rest of its time, which is not over. *)
Definition progress (n : Z) k L k' L' : Prop := ∀ t d, waits_for k L t d →
  stat (threads k' t) = RT_THREAD_READY ∨ waits_for k' L' t (d - n) ∧ 0 ≤ d - n ∧
    (n = 1 → 0 < d - n).

Lemma kept_progress k L k' L' : kernel_ok ms idle k L → kept ms idle k L k' L' →
  kernel_ok ms idle k' L' ∧ progress 0 k L k' L'.
Proof.
  intros K C. split; [by eapply kept_ok|]. intros t d Ht. rewrite Z.sub_0_r.
  destruct (patient_counts ms None 0 k L k' L' t d) as [?|[? ?]]; try apply C; try done;
    [by left|right]. split_and!; [done|done|lia].
Qed.

Lemma kept_same k L : kernel_ok ms idle k L → kept ms idle k L k L.
Proof. intros K. apply steady_kept; [done|apply K|by apply steady_same|done|apply K]. Qed.

Definition stepped op k L : Prop := ∃ k' L', kop_step op k = Some k' ∧
  kernel_ok ms idle k' L' ∧ progress (op_ticks op) k L k' L'.

Lemma kept_stepped op k L k' L' : kernel_ok ms idle k L → op_ticks op = 0 →
  kop_step op k = Some k' → kept ms idle k L k' L' → stepped op k L.
Proof.
  intros K H0 E C. destruct (kept_progress _ _ _ _ K C) as [K' P]. exists k', L'.
  by rewrite H0.
Qed.

Lemma sem_take_stepped i time k L : kernel_ok ms idle k L → allowed (K_sem_take i time) k →
  stepped (K_sem_take i time) k L.
Proof.
  intros K [Hf Hw]. pose proof (ob_sem _ _ _ (ok_objects _ _ _ _ K) i) as Hv.
  destruct (decide (0 < sem_value (sems k i))) as [H0|H0].
  - destruct (sem_take_free ms idle enough_fuel k L i time K H0) as [E C].
    eapply kept_stepped; [done|done|cbn; by rewrite E|exact C].
  - assert (sem_value (sems k i) = 0) as E0 by lia. destruct (decide (time = 0)) as [->|Hne].
    + eapply (kept_stepped _ k L k L); [done|done|cbn; unfold rt_sem_take; by rewrite E0|].
      by apply kept_same.
    + destruct (Hw E0 Hne) as (Ht & t & M & Hms).
      destruct (sem_take_wait ms idle enough_fuel k L i t time) as (k' & L' & E & C & _); try done.
      eapply kept_stepped; [done|done|cbn; by rewrite E|exact C].
Qed.

Lemma mutex_take_stepped i time k L : kernel_ok ms idle k L → allowed (K_mutex_take i time) k →
  stepped (K_mutex_take i time) k L.
Proof.
  intros K (Hf & Hh & Hw). destruct (al_current _ _ (ok_alive _ _ _ _ K)) as (t & Hc & Hr).
  destruct (ob_mutex _ _ _ (ok_objects _ _ _ _ K) i) as [[Hfree _]|[o Ho]].
  - destruct (mutex_take_free ms idle k L i t time K Hc Hfree) as (k' & E & C & _).
    eapply kept_stepped; [done|done|cbn; by rewrite E|exact C].
  - pose proof Ho as (E0 & Eo & _). destruct (decide (o = t)) as [->|Hne].
    { destruct (mutex_take_again ms idle enough_fuel k L i t time K Hc Ho Hh) as (k' & E & C & _).
      eapply kept_stepped; [done|done|cbn; by rewrite E|exact C]. }
    destruct (decide (time = 0)) as [->|Hn0].
    { destruct (mutex_take_nowait ms idle k L i t o K Hc Ho Hne) as [E C].
      eapply kept_stepped; [done|done|cbn; by rewrite E|exact C]. }
    destruct (Hw Hn0 E0) as (Ht & t' & M & Hms); [rewrite Eo, Hc; congruence|].
    assert (t' = t) as -> by (destruct M; congruence).
    destruct (mutex_take_wait ms idle enough_fuel k L i t o time) as
      (k1 & L1 & k' & L' & E & C & _); try done.
    eapply kept_stepped; [done|done|cbn; by rewrite E|exact C].
Qed.

Lemma mutex_release_stepped i k L : kernel_ok ms idle k L → stepped (K_mutex_release i) k L.
Proof.
  intros K. destruct (al_current _ _ (ok_alive _ _ _ _ K)) as (t & Hc & Hr).
  destruct (decide (owner (mutexes k i) = Some t)) as [Ho|Ho].
  2:{ destruct (mutex_release_other ms idle k L i t K Hc Ho) as [E C].
      eapply kept_stepped; [done|done|cbn; by rewrite E|exact C]. }
  destruct (ob_mutex _ _ _ (ok_objects _ _ _ _ K) i) as [[(_ & Hfree & _) _]|[o Hh]];
    [congruence|]. pose proof Hh as (_ & Eo & Hb & _). assert (o = t) as -> by congruence.
  destruct (decide (hold (mutexes k i) = 1)) as [H1|H1].
  - destruct (mutex_release_last ms idle k L i t K Hc Hh H1) as (k' & L' & E & C & _).
    eapply kept_stepped; [done|done|cbn; by rewrite E|exact C].
  - destruct (mutex_release_again ms idle enough_fuel k L i t K Hc Hh) as (k' & E & C & _); [lia|].
    eapply kept_stepped; [done|done|cbn; by rewrite E|exact C].
Qed.

Lemma event_recv_stepped i set option timeout k L : kernel_ok ms idle k L →
  allowed (K_event_recv i set option timeout) k → stepped (K_event_recv i set option timeout) k L.
Proof.
  intros K [Hf Hw]. destruct (al_current _ _ (ok_alive _ _ _ _ K)) as (t & Hc & Hr).
  destruct (decide (set = 0)) as [->|Hset].
  { eapply (kept_stepped _ k L k L); [done|done| |by apply kept_same].
    cbn. unfold rt_event_recv. by rewrite (ok_nest _ _ _ _ K). }
  destruct (event_ready (event_bits (events k i)) set option) eqn:Er.
  { destruct (event_recv_now ms idle k L i t set option timeout) as (k' & E & C & _); try done.
    eapply kept_stepped; [done|done|cbn; by rewrite E|exact C]. }
  destruct (decide (timeout = 0)) as [->|Hn0].
  { destruct (event_recv_nowait ms idle k L i t set option) as (k' & E & C & _); try done.
    eapply kept_stepped; [done|done|cbn; by rewrite E|exact C]. }
  destruct (Hw eq_refl Hn0) as (Ht & t' & M & Hms).
  assert (t' = t) as -> by (destruct M; congruence).
  destruct (event_recv_wait ms idle enough_fuel k L i t set option timeout) as
    (k1 & k' & L' & E & C & _); try done.
  eapply kept_stepped; [done|done|cbn; by rewrite E|exact C].
Qed.

Lemma event_send_stepped i set k L : kernel_ok ms idle k L → stepped (K_event_send i set) k L.
Proof.
  intros K. destruct (decide (set = 0)) as [->|Hset].
  { eapply (kept_stepped _ k L k L); [done|done|done|by apply kept_same]. }
  destruct (members_threads ms None 0 k L (N_event i) (ok_wf _ _ _ _ K) I) as [ts EL].
  destruct (event_send_ok ms idle enough_fuel k L i set ts K Hset EL) as (k' & L' & E & C & _).
  eapply kept_stepped; [done|done|cbn; by rewrite E|exact C].
Qed.

(** Suspending and resuming another thread *)
Lemma suspend_stepped t k L : kernel_ok ms idle k L → allowed (K_suspend t) k →
  stepped (K_suspend t) k L.
Proof.
  intros K [Hi Hne].
  destruct (decide (stat (threads k t) = RT_THREAD_READY)) as [Hr|Hr].
  2:{ eapply (kept_stepped _ k L k L); [done|done| |by apply kept_same].
      cbn. unfold rt_thread_suspend. by rewrite (proj2 (Z.eqb_neq _ _) Hr). }
  destruct (suspend_wf ms None 0 k L t (ok_wf _ _ _ _ K) Hr) as (W & _ & Ho & Et & Em & Ek).
  pose proof (suspend_same t k) as SO.
  assert (∀ s, s ≠ t → threads (rt_thread_suspend t k).2 s = threads k s) as Et'.
  { intros s Hs. by rewrite Et, decide_False. }
  eapply (kept_stepped _ k L _ (without (N_tlist t) L)); [done|done|done|].
  split; try apply SO; try done.
  - split; [rewrite Et' by done; apply K|].
    destruct (al_current _ _ (ok_alive _ _ _ _ K)) as (c & Hc & Hcr). exists c.
    rewrite (so_current _ _ SO). split; [done|]. rewrite Et'; congruence.
  - intros O. eapply objects_frame; [exact O|apply SO|apply SO|]. intros h _. apply without_sub.
  - apply (patient_other _ _ _ _ t); [by rewrite Hr|done|by rewrite Em|].
    intros m. by rewrite Ho.
Qed.

Lemma resume_stepped t k L : kernel_ok ms idle k L → stepped (K_resume t) k L.
Proof.
  intros K. destruct (decide (stat (threads k t) = RT_THREAD_SUSPEND)) as [Hs|Hs].
  2:{ eapply (kept_stepped _ k L k L); [done|done| |by apply kept_same].
      cbn. unfold rt_thread_resume. by rewrite (proj2 (Z.eqb_neq _ _) Hs). }
  destruct (resume_wf ms None 0 k L t (ok_wf _ _ _ _ K) Hs) as (k' & L' & E & W & Hw & SO & _).
  eapply kept_stepped; [done|done|cbn; by rewrite E|].
  apply steady_kept; [done|done|by eapply woken_steady|done|].
  eapply objects_frame; [apply K|apply SO|apply SO|]. intros h. by eapply woken_sub.
Qed.

Lemma priority_stepped t p k L : kernel_ok ms idle k L → valid_priority p →
  stepped (K_priority t p) k L.
Proof.
  intros K Hp. destruct (change_priority_wf ms None 0 k L t p (ok_wf _ _ _ _ K) Hp) as
    (L' & W & HL & Et & Em & SO).
  eapply kept_stepped; [done|done|done|].
  apply steady_kept; [done|exact W| |done|].
  - apply steady_same; [|by rewrite Em|intros m; by rewrite HL].
    intros s. rewrite Et. case_decide as H; [by subst|done].
  - eapply objects_frame; [apply K|apply SO|apply SO|]. intros h Hh.
    rewrite HL; [done|intros q ->; by destruct Hh|by destruct h].
Qed.

(** The scheduler's lock *)
Lemma lock_ok n k L : kernel_ok ms idle k L →
  kernel_ok ms idle (set_rt_scheduler_lock_nest n k) L ∧
  steady k L (set_rt_scheduler_lock_nest n k) L.
Proof.
  intros [W O A N]. split; [|by apply steady_same]. split; [by eapply kernel_wf_frame| | |done].
  - by eapply objects_frame.
  - split; apply A.
Qed.

Lemma steady_stepped op k L k' L' : op_ticks op = 0 → kop_step op k = Some k' →
  kernel_ok ms idle k' L' → steady k L k' L' → rt_tick k' = rt_tick k → stepped op k L.
Proof.
  intros H0 E K' ST Ek. exists k', L'. rewrite H0. split_and!; [done|done|].
  intros t d Ht. rewrite Z.sub_0_r.
  destruct (patient_counts ms None 0 k L k' L' t d) as [?|[? ?]]; try apply K'; try apply ST; try done;
    [by left|right]. split_and!; [done|done|lia].
Qed.

Lemma critical_stepped op k L : op = K_enter_critical ∨ op = K_exit_critical →
  kernel_ok ms idle k L → stepped op k L.
Proof.
  intros Hop K. destruct Hop as [-> | ->].
  { destruct (lock_ok (s16 (rt_scheduler_lock_nest k + 1)) k L K) as [K' ST].
    by eapply steady_stepped. }
  destruct (lock_ok (s16 (rt_scheduler_lock_nest k - 1)) k L K) as [K1 S1].
  set (k1 := set_rt_scheduler_lock_nest _ k) in *.
  destruct (rt_scheduler_lock_nest k1 <=? 0) eqn:El.
  2:{ eapply steady_stepped; [done|cbn; unfold rt_exit_critical; fold k1; by rewrite El|done|done|done]. }
  destruct (lock_ok 0 k1 L K1) as [K2 S2].
  destruct (then_schedule ms idle _ L _ L (kept_same _ _ K2)) as (k3 & E3 & C3 & _ & R3).
  eapply steady_stepped; [done|cbn; unfold rt_exit_critical; fold k1; rewrite El; exact E3| | |].
  - by eapply kept_ok.
  - eapply steady_trans; [exact S1|]. eapply steady_trans; [exact S2|]. by apply rescheduled_steady.
  - by rewrite (resched_tick _ _ R3).
Qed.

(** Every allowed operation is carried out and keeps the invariant. *)
Lemma op_stepped op k L : kernel_ok ms idle k L → allowed op k → stepped op k L.
Proof.
  intros K Ha. pose proof K as [W O A N]. destruct op as [t| |tick| |t|t|t p| | |i time|i|i v
    |i time|i|i set option timeout|i set|i|].
  - destruct (startup_wf ms idle k L t W A Ha) as (k' & L' & E & C & _). by eapply kept_stepped.
  - destruct (yield_wf ms idle None 0 k L W A) as
      (k' & L' & E & W' & A' & Et & Em & El & En & Ek & Es & Emx & HL & _).
    eapply kept_stepped; [done|done|exact E|]. split; try done.
    + intros _. eapply objects_frame; [exact O|done|done|]. intros h Hh.
      rewrite HL; [done|]. intros p ->. by destruct Hh.
    + apply steady_same; [by rewrite Et|by rewrite Em|]. intros m. by rewrite HL.
  - destruct Ha as (H0 & Ht & t & M & Hms).
    destruct (sleep_wf ms enough_fuel idle k L t tick W A M Hms) as (k' & L' & E & C & _); [lia|].
    by eapply kept_stepped.
  - destruct Ha as [t M]. destruct (exit_wf ms idle k L t W A M) as (k' & L' & E & C & _).
    by eapply kept_stepped.
  - by apply suspend_stepped.
  - by apply resume_stepped.
  - by apply priority_stepped.
  - apply critical_stepped; auto.
  - apply critical_stepped; auto.
  - by apply sem_take_stepped.
  - cbn in Ha. destruct (L (N_sem i)) as [|n rest] eqn:EL.
    + destruct (sem_release_free ms idle enough_fuel k L i K EL Ha) as [E C].
      by eapply kept_stepped.
    + destruct (sem_release_serve ms idle k L i n rest K EL) as (s & k' & L' & _ & _ & E & C & _).
      by eapply kept_stepped.
  - destruct (sem_reset_ok ms idle enough_fuel k L i v K Ha) as (k' & L' & E & C & _).
    by eapply kept_stepped.
  - by apply mutex_take_stepped.
  - by apply mutex_release_stepped.
  - by apply event_recv_stepped.
  - by apply event_send_stepped.
  - destruct (event_reset_ok ms idle enough_fuel k L i K) as (k' & L' & E & C & _).
    by eapply kept_stepped.
  - destruct (tick_wf ms idle enough_fuel user_timeout user_gentle k L W A) as (k' & L' & E & T).
    { by rewrite N. }
    destruct T as [T1 T2 T3 T4 T5 T6 T7 T8]. exists k', L'. split_and!; [done| |].
    + split; [done|by apply T6|done|congruence].
    + intros t d Ht. destruct (T8 t d Ht) as [?|[? ?]]; [by left|right]. cbn [op_ticks]. split_and!; [done|lia|lia].
Qed.

Lemma run_stepped ops : ∀ k L, kernel_ok ms idle k L → allowed_run ops k →
  ∃ k' L', kop_run ops k = Some k' ∧ kernel_ok ms idle k' L'.
Proof.
  induction ops as [|op ops IH]; intros k L K Ha; [by exists k, L|]. destruct Ha as [Ha Hrest].
  destruct (op_stepped op k L K Ha) as (k1 & L1 & E & K1 & _). cbn [kop_run].
  rewrite E. cbn [mbind option_bind]. eauto.
Qed.

(** C7 (liveness). Waiting with a time ends in time: a thread that waits with
    [d] ticks left, for a semaphore, a mutex, an event or just for its timer, is
    ready again at some point of any sequence of operations in which the clock
    ticks [d] times, whatever the other threads do. *)
Theorem timed_wait_ends ops k L t d : kernel_ok ms idle k L → allowed_run ops k →
  waits_for k L t d → d ≤ ticks ops → 0 < ticks ops →
  ∃ ops1 ops2 k1 L1, ops = ops1 ++ ops2 ∧ kop_run ops1 k = Some k1 ∧
    kernel_ok ms idle k1 L1 ∧ stat (threads k1 t) = RT_THREAD_READY.
Proof.
  revert k L d. induction ops as [|op ops IH]; intros k L d K Ha Ht Hd H0; [done|].
  destruct Ha as [Ha Hrest]. destruct (op_stepped op k L K Ha) as (k1 & L1 & E & K1 & P).
  destruct (P t d Ht) as [Hr|(Ht1 & Hd1 & Hd2)].
  { exists [op], ops, k1, L1. split_and!; [done| |done|done]. cbn [kop_run]. by rewrite E. }
  assert (ticks (op :: ops) = op_ticks op + ticks ops) as Etk by done.
  destruct (decide (0 < ticks ops)) as [Hpos|Hpos].
  - destruct (IH k1 L1 (d - op_ticks op) K1 (Hrest _ E) Ht1) as
      (ops1 & ops2 & k2 & L2 & -> & E2 & K2 & Hr); [lia|lia|].
    exists (op :: ops1), ops2, k2, L2. split_and!; [done| |done|done].
    cbn [kop_run]. by rewrite E.
  - pose proof (ticks_nonneg ops).
    assert (op_ticks op = 0 ∨ op_ticks op = 1) as [Ho|Ho] by (destruct op; cbn; lia); [lia|].
    specialize (Hd2 Ho). lia.
Qed.
End run.

(** ** Starting up *)

(** The threads of the application are started, then the idle thread, then the
    scheduler; [rt_system_tick_init] and [rt_system_timer_init] are empty. *)
Fixpoint startup_all (ts : list nat) (k : KERNEL) : option KERNEL :=
  match ts with
  | [] => Some k
  | t :: ts => k ← rt_thread_startup t k; startup_all ts k
  end.

Definition rtthread_startup (ts : list nat) (idle : nat) (k : KERNEL) : option KERNEL :=
  let k := rt_system_scheduler_init k in
  k ← startup_all ts k;
  k ← rt_thread_startup idle k;
  rt_system_scheduler_start k.

(** Everything is initialised, and nothing is linked. *)
Record fresh (k : KERNEL) : Prop := {
  fr_nodes n : next (nodes k n) = n ∧ prev (nodes k n) = n;
  fr_threads t : stat (threads k t) = RT_THREAD_INIT ∧
    valid_priority (init_priority (threads k t));
  fr_timers m : activated (timers k m) = false ∧ period_ok (timers k m);
  fr_thread_timers t : periodic (timers k (TM_thread t)) = false;
  fr_tick : word32 (rt_tick k);
  fr_nest : rt_interrupt_nest k = 0;
  fr_sems i : 0 ≤ sem_value (sems k i) < 65536;
  fr_mutexes i : mutex_free (mutexes k i)
}.

Section boot.
Context (ms : list TIMER) (idle : nat).

Lemma init_self n (σ : NODE → rt_list_t NODE) : (∀ n, next (σ n) = n ∧ prev (σ n) = n) →
  ∀ x, next (rt_list_init n σ x) = x ∧ prev (rt_list_init n σ x) = x.
Proof.
  intros H x. unfold rt_list_init. rewrite next_set_next, prev_set_next, next_set_prev, prev_set_prev.
  destruct (H x). by case_decide; subst.
Qed.

Lemma table_fields n k : let k' := init_priority_table n k in
  threads k' = threads k ∧ timers k' = timers k ∧ rt_tick k' = rt_tick k ∧
  rt_interrupt_nest k' = rt_interrupt_nest k ∧ sems k' = sems k ∧ mutexes k' = mutexes k ∧
  ((∀ x, next (nodes k x) = x ∧ prev (nodes k x) = x) →
   ∀ x, next (nodes k' x) = x ∧ prev (nodes k' x) = x).
Proof.
  cbn zeta. induction n as [|n (H1 & H2 & H3 & H4 & H5 & H6 & H7)]; [done|]. cbn [init_priority_table].
  split_and!; [done..|]. intros H. by apply init_self, H7.
Qed.

Lemma emptied_ok k k0 : fresh k →
  threads k0 = threads k ∧ timers k0 = timers k ∧ rt_tick k0 = rt_tick k ∧
  rt_interrupt_nest k0 = rt_interrupt_nest k ∧ sems k0 = sems k ∧ mutexes k0 = mutexes k ∧
  (∀ x, next (nodes k0 x) = x ∧ prev (nodes k0 x) = x) →
  let k1 := set_rt_current_thread None (set_rt_current_priority (RT_THREAD_PRIORITY_MAX - 1) k0) in
  let k' := upd_nodes (rt_list_init N_defunct)
    (set_rt_thread_ready_table (repeat 0 32) (set_rt_thread_ready_priority_group 0 k1)) in
  kernel_wf ms None 0 k' (λ _, []) ∧ objects_ok ms k' (λ _, []) ∧ rt_current_thread k' = None ∧
  rt_interrupt_nest k' = 0 ∧ threads k' = threads k.
Proof.
  intros [F1 F2 F3 F4 F5 F6 F7 F8] (E1 & E2 & E3 & E4 & E5 & E6 & E7) k1 k'.
  assert (∀ x, next (nodes k' x) = x ∧ prev (nodes k' x) = x) as Hself
    by (apply init_self, E7).
  assert (threads k' = threads k ∧ timers k' = timers k ∧ rt_tick k' = rt_tick k ∧
    rt_interrupt_nest k' = rt_interrupt_nest k ∧ sems k' = sems k ∧ mutexes k' = mutexes k ∧
    rt_thread_ready_table k' = repeat 0 32 ∧ rt_thread_ready_priority_group k' = 0 ∧
    rt_current_thread k' = None)
    as (Et & Em & Ek & En & Es & Emx & Eb & Eg & Ec) by (by repeat split).
  clearbody k'. split_and!; [| |done|congruence|done].
  - split; rewrite ?Et, ?Em, ?Ek.
    + by apply lists_self.
    + split; rewrite ?Eb, ?Eg; try done.
      * split; [done|]. apply Forall_forall. intros x Hx. apply list_elem_of_In, repeat_spec in Hx.
        by subst.
      * intros p Hp. assert (tbl (repeat 0 32) (p / 8) = 0) as ->; [|by rewrite Z.bits_0].
        unfold tbl. destruct (nth_in_or_default (Z.to_nat (p / 8)) (repeat 0 32) 0) as [H|H]; [|done].
        by apply repeat_spec in H.
      * intros i Hi. rewrite Z.bits_0. split; [done|]. intros H. destruct H. unfold tbl.
        destruct (nth_in_or_default (Z.to_nat i) (repeat 0 32) 0) as [H|H]; [|done].
        by apply repeat_spec in H.
      * intros p n Hn. by apply elem_of_nil in Hn.
    + done.
    + intros t. apply F2.
    + intros t. by destruct (F2 t).
    + intros h n _ Hn. by apply elem_of_nil in Hn.
    + intros t Hr. destruct (F2 t) as [E _]. by rewrite Hr in E.
    + intros m Ha. destruct (F3 m) as [E _]. by rewrite E in Ha.
    + done.
    + intros m. apply F3.
    + done.
    + intros m Hm. by apply elem_of_nil in Hm.
    + exists []. split; [|done]. split; try done.
      * intros m d Hm. by apply elem_of_nil in Hm.
      * constructor.
      * intros h m _ Hm. by apply elem_of_nil in Hm.
  - split; rewrite ?Es, ?Emx; try done.
    + intros i. left. by split.
    + intros h t _ Hm. by apply elem_of_nil in Hm.
Qed.

Lemma scheduler_init_ok k : fresh k → let k' := rt_system_scheduler_init k in
  kernel_wf ms None 0 k' (λ _, []) ∧ objects_ok ms k' (λ _, []) ∧ rt_current_thread k' = None ∧
  rt_interrupt_nest k' = 0 ∧ threads k' = threads k.
Proof.
  intros HF.
  destruct (table_fields (Z.to_nat RT_THREAD_PRIORITY_MAX) (set_rt_scheduler_lock_nest 0 k)) as
    (E1 & E2 & E3 & E4 & E5 & E6 & E7).
  apply (emptied_ok k _ HF). split_and!; try assumption. apply E7, HF.
Qed.

(** Before the scheduler is started *)
Record booting k L : Prop := {
  bt_wf : kernel_wf ms None 0 k L;
  bt_objects : objects_ok ms k L;
  bt_current : rt_current_thread k = None;
  bt_nest : rt_interrupt_nest k = 0
}.

Lemma startup_booting k L t : booting k L → stat (threads k t) = RT_THREAD_INIT →
  ∃ k' L', rt_thread_startup t k = Some k' ∧ booting k' L' ∧
    stat (threads k' t) = RT_THREAD_READY ∧ (∀ t', t' ≠ t → threads k' t' = threads k t').
Proof.
  intros [W O Hc Hn] Hi.
  destruct (started_wf ms k L t W Hi) as (L3 & W3 & SO & ST & HL & _ & Hr3 & Ho).
  unfold rt_thread_startup. rewrite Hi. cbn [Z.eqb RT_THREAD_INIT].
  set (k3 := (rt_thread_resume t _).2) in *. clearbody k3. rewrite (so_current _ _ SO), Hc.
  exists k3, L3. split_and!; [done| |done|done]. split; [done| |by rewrite (so_current _ _ SO)|].
  - eapply objects_frame; [exact O|apply SO|apply SO|done].
  - by rewrite (so_nest _ _ SO).
Qed.

Lemma startup_all_booting ts : ∀ k L, booting k L → NoDup ts →
  (∀ t, t ∈ ts → stat (threads k t) = RT_THREAD_INIT) →
  ∃ k' L', startup_all ts k = Some k' ∧ booting k' L' ∧
    (∀ t, t ∈ ts → stat (threads k' t) = RT_THREAD_READY) ∧
    (∀ t, t ∉ ts → threads k' t = threads k t).
Proof.
  induction ts as [|t ts IH]; intros k L B ND Hi.
  { exists k, L. split_and!; try done. intros t Ht. by apply elem_of_nil in Ht. }
  apply NoDup_cons in ND as [Ht ND].
  destruct (startup_booting k L t B) as (k1 & L1 & E1 & B1 & Hr1 & Ho1); [apply Hi; by left|].
  destruct (IH k1 L1 B1 ND) as (k2 & L2 & E2 & B2 & Hr2 & Ho2).
  { intros s Hs. rewrite Ho1; [apply Hi; by right|]. by intros ->. }
  exists k2, L2. cbn [startup_all]. rewrite E1. split_and!; [done|done|..].
  - intros s [->|Hs]%elem_of_cons; [by rewrite Ho2|by apply Hr2].
  - intros s [Hne Hs]%not_elem_of_cons. by rewrite Ho2, Ho1.
Qed.

(** The kernel comes up with its invariant, and the first of the most urgent
    threads runs. *)
Lemma startup_ok ts k : fresh k → NoDup (idle :: ts) →
  ∃ k' L', rtthread_startup ts idle k = Some k' ∧ kernel_ok ms idle k' L' ∧ dispatched k' L' ∧
    ∀ t, t ∈ idle :: ts → stat (threads k' t) = RT_THREAD_READY.
Proof.
  intros HF ND. apply NoDup_cons in ND as [Hidle ND]. unfold rtthread_startup.
  destruct (scheduler_init_ok k HF) as (W & O & Hc & Hn & Et).
  set (k0 := rt_system_scheduler_init k) in *. clearbody k0.
  destruct (startup_all_booting ts k0 (λ _, [])) as (k1 & L1 & -> & B1 & Hr1 & Ho1);
    [by split|done|intros t _; rewrite Et; apply HF|]. cbn [mbind option_bind].
  destruct (startup_booting k1 L1 idle B1) as (k2 & L2 & -> & [W2 O2 Hc2 Hn2] & Hr2 & Ho2).
  { rewrite Ho1, Et by done. apply HF. }
  cbn [mbind option_bind]. unfold rt_system_scheduler_start.
  assert (any_ready L2) as Hany.
  { exists (current_priority (threads k2 idle)). split.
    - apply (kw_attr _ _ _ _ _ W2). by rewrite Hr2.
    - pose proof (kw_is_ready _ _ _ _ _ W2 idle Hr2) as Hin. intros E.
      rewrite E in Hin. by apply elem_of_nil in Hin. }
  destruct (highest_thread k2 L2 (kw_lists _ _ _ _ _ W2) (kw_ready _ _ _ _ _ W2) Hany) as (t & -> & Ht).
  cbn [mbind option_bind]. pose proof (first_ready_stat _ _ _ _ _ _ W2 Ht) as Hrt.
  eexists _, L2. split; [done|]. split_and!.
  - split; [by eapply kernel_wf_frame|by eapply objects_frame|by split; [|exists t]|done].
  - intros _. by exists t.
  - intros s Hs. destruct (decide (s = idle)) as [->|Hne]; [done|].
    apply elem_of_cons in Hs as [?|Hs]; [done|].
    change (stat (threads k2 s) = RT_THREAD_READY). rewrite Ho2 by done. by apply Hr1.
Qed.
End boot.

(** C6 (invariant). The kernel never gets stuck: started with any threads, it
    carries out every sequence of calls and ticks that keeps to the rules of
    [allowed] - no bad pointer is followed, no assertion fails, no loop goes on
    for ever - and its invariant holds throughout. *)
Theorem kernel_never_stuck {F : Fuel} (user_timeout : nat → KERNEL → option KERNEL) ms idle ts k :
  (length ms < fuel)%nat →
  (∀ i k L, kernel_wf ms (Some (TM_user i)) (-1) k L → alive idle k →
    ∃ k' L', user_timeout i k = Some k' ∧ gentle ms idle (Some (TM_user i)) k L k' L') →
  fresh k → NoDup (idle :: ts) →
  ∃ k1, rtthread_startup ts idle k = Some k1 ∧
    ∀ ops, allowed_run user_timeout ms idle ops k1 →
      ∃ k' L', kop_run user_timeout ops k1 = Some k' ∧ kernel_ok ms idle k' L'.
Proof.
  intros Hfuel Hgentle HF ND.
  destruct (startup_ok ms idle ts k HF ND) as (k1 & L1 & E1 & K1 & _).
  exists k1. split; [done|]. intros ops Hops. by eapply run_stepped.
Qed.

(** C13 (functional). The most urgent thread runs: after [rt_schedule], unless the
    scheduler is locked, the running thread is ready, no ready thread has a
    higher priority, and it is the first of its own; the switch is recorded if
    there is one. *)
Theorem most_urgent_runs ms idle k L : kernel_ok ms idle k L → rt_scheduler_lock_nest k = 0 →
  ∃ k' t rest, rt_schedule k = Some k' ∧ rt_current_thread k' = Some t ∧
    stat (threads k t) = RT_THREAD_READY ∧
    (∀ s, stat (threads k s) = RT_THREAD_READY →
      current_priority (threads k t) ≤ current_priority (threads k s)) ∧
    L (N_ready (current_priority (threads k t))) = N_tlist t :: rest ∧
    (rt_current_thread k ≠ Some t → ∃ c, rt_current_thread k = Some c ∧
      history k' = history k ++ [K_switch (Some c) t false]).
Proof.
  intros [W O A Hn] Hlock. destruct (al_current _ _ A) as (c & Hc & _).
  destruct (highest_thread k L) as (t & E & p & rest & Hp & EL & Hlow);
    [apply W|apply W|by eapply awake_any, alive_awake|].
  assert (N_tlist t ∈ L (N_ready p)) as Hin by (rewrite EL; by left).
  pose proof (kw_member _ _ _ _ _ W (N_ready p) _ I Hin) as [Hr Ep].
  assert (∀ s, stat (threads k s) = RT_THREAD_READY → p ≤ current_priority (threads k s)) as Hmin.
  { intros s Hs. pose proof (kw_is_ready _ _ _ _ _ W s Hs) as Hsin.
    pose proof (kw_attr _ _ _ _ _ W s) as [Hsp _]; [by rewrite Hs|].
    destruct (Z.le_gt_cases p (current_priority (threads k s))) as [|Hlt]; [done|exfalso].
    rewrite Hlow in Hsin by (destruct Hsp; lia). by apply elem_of_nil in Hsin. }
  unfold rt_schedule. rewrite Hlock, E, Hc, Hn. cbn [Z.eqb mbind option_bind].
  case_decide as Ec; eexists _, t, rest; rewrite Ep; split_and!; try done; [congruence|].
  intros _. by exists c.
Qed.

(** ** Concrete kernels *)

(** Threads with the priorities [pr] and time slices of ten ticks; semaphores
    with one token *)
Definition fresh_kernel (pr : nat → Z) : KERNEL :=
  mkKernel (λ n, mkLnode n n)
    (λ t, mkThread RT_THREAD_INIT (pr t) (pr t) 0 0 0 RT_EOK 0 0 10 10 false true)
    (λ _, mkTimer 0 0 0) None 0 0 [] 0 0 0 (λ _, mkSem 1 RT_IPC_FLAG_PRIO)
    (λ _, mkMutex 1 0xff 0 None RT_IPC_FLAG_PRIO) (λ _, mkEvent 0 RT_IPC_FLAG_FIFO) [].

Lemma fresh_kernel_ok pr : (∀ t, valid_priority (pr t)) → fresh (fresh_kernel pr).
Proof. intros H. split; try done. intros t. split; [done|apply H]. Qed.

(** A timer that does nothing *)
Definition no_timeout (i : nat) (k : KERNEL) : option KERNEL := Some k.

Lemma no_timeout_gentle ms idle i k L : kernel_wf ms (Some (TM_user i)) (-1) k L → alive idle k →
  ∃ k' L', no_timeout i k = Some k' ∧ gentle ms idle (Some (TM_user i)) k L k' L'.
Proof. intros W A. exists k, L. split; [done|]. split; try done. by apply steady_same. Qed.

(** Three threads: the idle one, and two of the priorities 10 and 20 *)
Definition sample_priority (t : nat) : Z := match t with 1%nat => 10 | 2%nat => 20 | _ => 255 end.
Definition sample_timers : list TIMER := [TM_thread 0; TM_thread 1; TM_thread 2].
Definition sample : KERNEL := fresh_kernel sample_priority.
#[local] Instance sample_fuel : Fuel := 8%nat.

Lemma sample_fresh : fresh sample.
Proof. apply fresh_kernel_ok. intros [|[|[|t]]]; done. Qed.

Definition sample_started : option KERNEL := rtthread_startup [2; 1]%nat 0 sample.
Example sample_runs :
  (λ k, (rt_current_thread k, rt_scheduler_lock_nest k)) <$> sample_started = Some (Some 1%nat, 0).
Proof. vm_compute. reflexivity. Qed.

Definition sample_run (ops : list KOP) : option KERNEL :=
  sample_started ≫= kop_run no_timeout ops.

(** Who runs, with its priority, and the state and the priority of thread 1 *)
Definition view (k : KERNEL) : option nat * option Z * Z * Z :=
  (rt_current_thread k, (λ t, current_priority (threads k t)) <$> rt_current_thread k,
   stat (threads k 1%nat), current_priority (threads k 1%nat)).

(** Thread 1 waits a tick for a mutex of thread 2, in vain: thread 2 keeps the
    priority of thread 1 for as long as it has the mutex, and when it releases
    it, it falls back to its own priority and runs on although thread 1 is ready
    and more urgent, since [rt_mutex_release] schedules only when it hands the
    mutex on. *)
Example release_without_schedule :
  let ops := [K_sleep 1; K_mutex_take 0 (-1); K_tick; K_mutex_take 0 1; K_tick] in
  view <$> sample_run ops = Some (Some 2%nat, Some 10, RT_THREAD_READY, 10) ∧
  view <$> sample_run (ops ++ [K_mutex_release 0]) = Some (Some 2%nat, Some 20, RT_THREAD_READY, 10).
Proof. vm_compute. split; reflexivity. Qed.

(** Thread 2 takes a second mutex while it has the priority of thread 1, which
    waits for the first one: the release of the second mutex gives it that
    priority for good. *)
Example nested_mutexes_raise :
  let ops := [K_sleep 1; K_mutex_take 0 (-1); K_tick; K_mutex_take 0 (-1); K_mutex_take 1 (-1);
    K_mutex_release 0; K_mutex_release 0; K_sleep 5; K_mutex_release 1] in
  (λ k, (rt_current_thread k, current_priority (threads k 2%nat), owner (mutexes k 0%nat),
    owner (mutexes k 1%nat))) <$> sample_run ops = Some (Some 2%nat, 10, None, None).
Proof. vm_compute. reflexivity. Qed.

(** The count of a mutex has eight bits: taken 256 times it is held no time. *)
Example hold_wraps :
  (λ k, (owner (mutexes k 0%nat), hold (mutexes k 0%nat))) <$>
    sample_run (replicate 256 (K_mutex_take 0 0)) = Some (Some 1%nat, 0).
Proof. vm_compute. reflexivity. Qed.

(** A one-shot timer whose function stops and starts it again is in the list,
    but marked as inactive: starting it once more would link it a second time. *)
Definition restarts (i : nat) (k : KERNEL) : option KERNEL :=
  snd <$> rt_timer_start (TM_user i) (rt_timer_stop (TM_user i) k).2.

Example restarted_timer_inactive :
  (λ k, (next (nodes k N_timers), activated (timers k (TM_user 0)))) <$>
    ('(_, k) ← rt_timer_start (TM_user 0) (rt_timer_set_time (TM_user 0) 1 sample);
     timer_tick (timeout_func restarts) k) = Some (N_timer (TM_user 0), false).
Proof. vm_compute. reflexivity. Qed.

(** *** The theorems at work *)

Lemma sample_ok : ∃ k L, sample_started = Some k ∧ kernel_ok sample_timers 0 k L.
Proof.
  destruct (startup_ok sample_timers 0 [2; 1]%nat sample sample_fresh) as (k & L & E & K & _).
  - apply (bool_decide_unpack _). vm_compute. exact I.
  - exists k, L. split; [exact E|exact K].
Qed.

(** A value computed from the started kernel *)
Lemma sample_value {A} (f : KERNEL → A) v k : f <$> sample_started = Some v →
  sample_started = Some k → f k = v.
Proof. intros E Hs. rewrite Hs in E. by injection E. Qed.

Lemma sample_fuel_enough : (length sample_timers < fuel)%nat.
Proof. unfold fuel, sample_fuel. cbn. lia. Qed.

Lemma kernel_never_stuck_witness :
  ∃ k1, rtthread_startup [2; 1]%nat 0 sample = Some k1 ∧
    ∀ ops, allowed_run no_timeout sample_timers 0 ops k1 →
      ∃ k' L', kop_run no_timeout ops k1 = Some k' ∧ kernel_ok sample_timers 0 k' L'.
Proof.
  apply (kernel_never_stuck no_timeout sample_timers 0 [2; 1]%nat sample).
  - exact sample_fuel_enough.
  - intros i k L. apply no_timeout_gentle.
  - exact sample_fresh.
  - apply (bool_decide_unpack _). vm_compute. exact I.
Defined.

Lemma most_urgent_runs_witness : ∃ k L k' t rest, kernel_ok sample_timers 0 k L ∧
  rt_schedule k = Some k' ∧ rt_current_thread k' = Some t ∧
  L (N_ready (current_priority (threads k t))) = N_tlist t :: rest.
Proof.
  destruct sample_ok as (k & L & E & K).
  pose proof (sample_value rt_scheduler_lock_nest 0 k ltac:(by vm_compute) E) as El. clear E.
  destruct (most_urgent_runs sample_timers 0 k L K El) as (k' & t & rest & H1 & H2 & _ & _ & H5 & _).
  exists k, L, k', t, rest. by split_and!.
Defined.

(** Thread 1 sleeps two ticks. *)
Lemma timed_wait_ends_witness : ∃ k L, kernel_ok sample_timers 0 k L ∧ waits_for k L 1 2 ∧
  ∃ ops1 ops2 k1 L1, [K_tick; K_yield; K_tick] = ops1 ++ ops2 ∧
    kop_run no_timeout ops1 k = Some k1 ∧ kernel_ok sample_timers 0 k1 L1 ∧
    stat (threads k1 1%nat) = RT_THREAD_READY.
Proof.
  destruct sample_ok as (k0 & L0 & E0 & K0).
  pose proof (sample_value (λ k, (rt_current_thread k, rt_scheduler_lock_nest k))
    (Some 1%nat, 0) k0 ltac:(by vm_compute) E0) as Ev. clear E0. injection Ev as Ec El.
  destruct (sleep_wf sample_timers sample_fuel_enough 0 k0 L0 1 2) as (k & L & _ & C & _ & Hw & _);
    [apply K0|apply K0|by split_and!|set_solver|by vm_compute|].
  pose proof (kept_ok sample_timers 0 _ _ _ _ K0 C) as K. exists k, L.
  split; [done|]. split; [done|].
  apply (timed_wait_ends no_timeout sample_timers 0 sample_fuel_enough
    (no_timeout_gentle sample_timers 0) [K_tick; K_yield; K_tick] k L 1 2);
    [exact K|by repeat split|exact Hw|done|done].
Defined.

Lemma semaphores_refine_witness : ∃ k L k' L', kernel_ok sample_timers 0 k L ∧
  sem_call 0 (Sem_take 1 (-1)) k = Some (Some RT_EOK, k') ∧ semaphore 0 k' L' (0, []).
Proof.
  destruct sample_ok as (k & L & E & K).
  pose proof (sample_value (λ k, (rt_current_thread k, rt_scheduler_lock_nest k,
    sem_flag (sems k 0%nat), sem_value (sems k 0%nat)))
    (Some 1%nat, 0, RT_IPC_FLAG_PRIO, 1) k ltac:(by vm_compute) E) as Ev. clear E.
  injection Ev as Ec El Ef Es. exists k, L.
  destruct (semaphores_refine sample_timers 0 sample_fuel_enough 0 (Sem_take 1 (-1)) k L (1, [])
    (Some RT_EOK) [] (0, [])) as (k' & L' & H1 & _ & H2 & _); [done| | |done|by exists k', L'].
  - split; [done|]. apply (ob_sem_free _ _ _ (ok_objects _ _ _ _ K) 0). by rewrite Es.
  - split; [by right|]. split; [done|]. split; [done|set_solver].
Defined.

Lemma mutexes_refine_witness : ∃ k L, kernel_ok sample_timers 0 k L ∧
  mutex_refined sample_timers 0 0 (Mutex_take 0) 1 k L (None, [])
    (Some RT_EOK, [], (Some (1%nat, 1, 10), [])).
Proof.
  destruct sample_ok as (k & L & E & K).
  pose proof (sample_value (λ k, (rt_current_thread k, mutex_value (mutexes k 0%nat), hold (mutexes k 0%nat),
    owner (mutexes k 0%nat), mutex_flag (mutexes k 0%nat), current_priority (threads k 1%nat)))
    (Some 1%nat, 1, 0, None, RT_IPC_FLAG_PRIO, 10) k ltac:(by vm_compute) E) as Ev. clear E.
  injection Ev as Ec Emv Eh Eo Ef Ep. exists k, L. split; [done|].
  assert (L (N_mutex 0) = []) as EL.
  { destruct (ob_mutex _ _ _ (ok_objects _ _ _ _ K) 0) as [[_ ?]|[t (_ & Ht & _)]]; [done|congruence]. }
  pose proof (mutexes_refine sample_timers 0 sample_fuel_enough 0 (Mutex_take 0) 1 k L (None, [])) as H.
  cbn [mutex_abs] in H. rewrite Ep in H. apply H; [done|by split|].
  split; [done|]. split; [by right|]. split; [rewrite Eh; lia|done].
Defined.

(** A value computed after some calls *)
Lemma sample_run_value {A} (f : KERNEL → A) v ops k : f <$> sample_run ops = Some v →
  sample_run ops = Some k → f k = v.
Proof. intros E Hs. rewrite Hs in E. by injection E. Qed.

(** Threads 1 and 2 wait for bits of event 0: thread 1 for bit 0, which it takes
    away, thread 2 for bit 0 or bit 1. *)
Definition event_waits : list KOP :=
  [K_event_recv 0 1 (Z.lor RT_EVENT_FLAG_AND RT_EVENT_FLAG_CLEAR) (-1);
   K_event_recv 0 3 RT_EVENT_FLAG_OR (-1)].

Lemma sample_wait_allowed t k : t = 1%nat ∨ t = 2%nat → rt_current_thread k = Some t →
  rt_scheduler_lock_nest k = 0 → wait_allowed sample_timers 0 (-1) k.
Proof.
  intros Ht Ec El. split; [by vm_compute|]. exists t.
  destruct Ht as [-> | ->]; (split; [by split_and!|]).
  - right. left.
  - right. right. left.
Qed.

(** What thread [t] needs to be allowed to wait for event 0 *)
Definition event_view (k : KERNEL) : Z * option nat * Z :=
  (event_flag (events k 0%nat), rt_current_thread k, rt_scheduler_lock_nest k).

Lemma event_recv_allowed t set option k : t = 1%nat ∨ t = 2%nat →
  event_view k = (RT_IPC_FLAG_FIFO, Some t, 0) →
  allowed sample_timers 0 (K_event_recv 0 set option (-1)) k.
Proof.
  intros Ht Ev. injection Ev as Ef Ec El. split; [by left|]. intros _ _.
  by apply (sample_wait_allowed t).
Qed.

Lemma event_waits_ok : ∃ k L, sample_run event_waits = Some k ∧ kernel_ok sample_timers 0 k L.
Proof.
  destruct sample_ok as (k0 & L0 & E0 & K0).
  pose proof (sample_value event_view (RT_IPC_FLAG_FIFO, Some 1%nat, 0) k0 ltac:(by vm_compute) E0) as Ev0.
  assert (∀ ops, sample_run ops = kop_run no_timeout ops k0) as Er.
  { intros ops. unfold sample_run. by rewrite E0. }
  destruct (run_stepped no_timeout sample_timers 0 sample_fuel_enough
    (no_timeout_gentle sample_timers 0) event_waits k0 L0 K0) as (k & L & E & K).
  - split; [apply (event_recv_allowed 1); [by left|exact Ev0]|].
    intros k1 E1. split; [|by intros]. apply (event_recv_allowed 2); [by right|].
    apply (sample_run_value event_view _ (take 1 event_waits) k1); [by vm_compute|].
    rewrite Er. cbn [take event_waits kop_run]. by rewrite E1.
  - exists k, L. split; [by rewrite Er|exact K].
Qed.

(** The event's bits, its queue's links and the waiting threads' errors *)
Definition event_queue_view (k : KERNEL) :=
  (event_bits (events k 0%nat),
   next (nodes k (N_event 0)), next (nodes k (N_tlist 1)), next (nodes k (N_tlist 2)),
   error (threads k 1%nat), error (threads k 2%nat)).

Example event_queue : event_queue_view <$> sample_run event_waits =
  Some (0, N_tlist 1, N_tlist 2, N_event 0, RT_EOK, RT_EOK).
Proof. vm_compute. reflexivity. Qed.

Example event_queue_served : (λ k, event_serve 3 (threads k) [1; 2]%nat) <$> sample_run event_waits =
  Some ([(1%nat, 1); (2%nat, 2)], 2).
Proof. vm_compute. reflexivity. Qed.

(** The idle thread sends both bits. *)
Lemma events_serve_in_order_witness : ∃ k L k' L', kernel_ok sample_timers 0 k L ∧
  L (N_event 0) = [N_tlist 1; N_tlist 2]%nat ∧
  rt_event_send 0 3 k = Some (RT_EOK, k') ∧ kernel_ok sample_timers 0 k' L' ∧
  event_bits (events k' 0%nat) = 2 ∧ L' (N_event 0) = [] ∧
  stat (threads k' 1%nat) = RT_THREAD_READY ∧ event_woken 1 k' = (RT_EOK, Some 1) ∧
  stat (threads k' 2%nat) = RT_THREAD_READY ∧ event_woken 2 k' = (RT_EOK, Some 2).
Proof.
  destruct event_waits_ok as (k & L & E & K).
  pose proof (sample_run_value event_queue_view _ event_waits k event_queue E) as Ev.
  pose proof (sample_run_value _ _ event_waits k event_queue_served E) as Es. cbv beta in Es. clear E.
  injection Ev as Eb E1 E2 E3 Er1 Er2.
  destruct (members_threads sample_timers None 0 k L (N_event 0) (ok_wf _ _ _ _ K) I) as [ts EL].
  assert (ts = [1; 2]%nat) as ->.
  { pose proof (lists_path _ _ _ (kw_lists _ _ _ _ _ (ok_wf _ _ _ _ K)) (N_event 0) I) as Hp.
    rewrite EL in Hp. destruct ts as [|t1 ts]; cbn in Hp; [destruct Hp as [[Hp _] _]; congruence|].
    destruct Hp as [[Hp1 _] Hp]. rewrite E1 in Hp1. injection Hp1 as <-.
    destruct ts as [|t2 ts]; cbn in Hp; destruct Hp as [[Hp2 _] Hp]; rewrite E2 in Hp2; [done|].
    injection Hp2 as <-.
    destruct ts as [|t3 ts]; cbn in Hp; [done|]; destruct Hp as [[Hp3 _] _]. by rewrite E3 in Hp3. }
  destruct (events_serve_in_order sample_timers 0 sample_fuel_enough 0 3 [1; 2]%nat k L K) as
    (k' & L' & H1 & H2 & H3 & H4 & H5 & _); [done|done|]. rewrite Eb in H3, H4, H5.
  change (Z.lor 0 3) with 3 in H3, H4, H5. rewrite Es in H3, H4, H5.
  destruct (H5 1%nat 1) as [S1 W1]; [by left|]. destruct (H5 2%nat 2) as [S2 W2]; [by right; left|].
  exists k, L, k', L'. split_and!; auto.
Defined.
